(* ===== verification/_CoqProject ===== *)
-Q . S2P
Prelude.v
DataCoder.v
LbsUtility.v
Layout.v
Structs.v
Float32.v
Float64.v
Messages.v
Hal2Mnl.v
Mnl2Hal.v
Mnl2Agps.v
Agps2Mnl.v
FlpInterface.v
MnldState.v
Mnld.v
Kernel.v
MnldFsm.v
MnldSystem.v
MnldService.v
MnldForward.v
GpsHal.v
AtCommand.v
Calendar.v
GpsTime.v
Disk.v
Epo.v
EpoDownload.v
Qepo.v
NmeaParser.v
NmeaText.v
NmeaStream.v
NmeaSafety.v
NmeaTime.v
AtTest.v
GpsHalFront.v
GpsHalReports.v
DbgLog.v
DbgLogSystem.v
Config.v
ConfigText.v
GpsControl.v
GpsControlSafe.v
GpsControlRun.v
FixReports.v
FixToAndroid.v
FixCallback.v
AgpsSession.v
Wifi2Agps.v
EventLoop.v
Wifi.v
WifiInit.v
WifiWatch.v
