(* ===== verification/Prelude.v ===== *)
(** * GPS daemon of the Huawei Y5 device tree: verification library

    ** The program

    [src/] is the device tree of a phone.  Its own logic in C is mainly the GPS stack
    under [src/gps]: the daemon [mnld] ([gps/mtk_mnld]), the HAL library that
    the system server loads ([gps/gps_hal]), and the protocols by which the two
    talk to each other and to the AGPS daemon, the fused-location daemon (FLP),
    and the factory tools.  A small process of its own, [src/wifi2agps], tells the
    AGPS daemon what the Wi-Fi driver announces.  The rest is configuration,
    binaries, and glue to kernel drivers.

    Android calls the HAL ([gpsinf.c], [agpsinf.c]); the HAL sends its requests
    to the daemon and remembers what Android wants and what it could ask for
    ([gpshal.c]); a thread of its own reads the daemon's messages and calls
    Android back ([gpshal_worker.c]).

    The daemon is a main loop over datagram sockets ([mnld_main_thread] in
    [mnld.c]).  Six kinds of clients open, close and reset the GPS: the HAL,
    AGPS, FLP, the FLP test, the AT command interface and the factory tool.
    Their requests, and the reports of the GPS thread ([gps_controller.c],
    which drives the chip through the binary libmnl), are events of one state
    machine ([mnld_fsm]: idle, starting, started, stopping) with three
    watchdog timers, a wake lock in the HAL process, and an acknowledgement
    owed to each client.  The GPS thread reads the configuration files and the
    driver's properties, starts and stops libmnl, and turns the daemon's
    commands into its calls.  While the GPS runs, libmnl hands NMEA text to
    [nmea_parser.c], which reports positions and satellites to the HAL, tells
    the main thread the position, and feeds the factory test of
    [mnl_at_interface.c].  Beside these, threads of the daemon download orbit
    predictions ([epo.c], [qepo.c]) and write the chip's debug output to files
    ([gps_dbg_log.c]).

    ** How it is modelled

    A C function is a program [prog W A] ([Prelude]): a function of the state
    [W] of its component that returns ([Done]), crashes on purpose ([Crash],
    the code's [CRASH_TO_DEBUG]), has undefined behaviour ([UB]: an access
    outside an array, a signed overflow, a null pointer, an undefined
    conversion), or waits for the operating system ([Blocked]).  Integers are
    [Z] with [wrap_u] and [wrap_s] at the width of the C type, bytes are [Z],
    [float] and [double] are IEEE values of [SpecFloat].  Definitions keep the
    names of the C functions; a loop or a branch that has a name of its own
    here says so in its comment.  Logging is left out everywhere.

    The operating system is the record [LbsUtility.sys]: the answers it will
    give to sends and clock readings, and the trace of what it was asked.  A
    component that contains it is an instance of [HasSys]; likewise [HasPace]
    for the two [float]s of the HAL library and [HasOfl] for the loopback state
    of the FLP interface.  The senders and handlers are written against these
    interfaces, so that the same definition runs in the HAL process
    ([Hal2Mnl.hal_proc]), in the daemon ([MnldState.mnld]), and in the small
    states the witnesses use.

    ** The files, in the order of the list

    - [Prelude]: outcomes, programs, total correctness ([returns]), widths,
      tactics.
    - [DataCoder] ([utility/src/data_coder.c]): the byte coder; [Module Coder].
    - [LbsUtility] ([utility/src/mtk_lbs_utility.c]): send and receive loops,
      timers, clocks, text conversions; [Module Lbs].
    - [Layout] ([hal_mnl_interface_common.h]): the memory images of the structs
      that cross process boundaries, under the 32-bit and the 64-bit ABI.
    - [Structs]: such an image written and read member by member, also by a reader
      of the other ABI.
    - [Float32], [Float64]: the arithmetic of [float] and [double], [strtod].
    - [Messages]: what all senders and handlers have in common.
    - [Hal2Mnl], [Mnl2Hal] ([gps_hal/src/hal2mnl_interface.c],
      [mnld_entity/src/mnl2hal_interface.c]), [Mnl2Agps], [Agps2Mnl]
      ([mnl_agps_interface/src]), [FlpInterface] ([mnl_flp_interface/src]): for
      each protocol the senders on one side and the handler on the other.
    - [MnldState], [Mnld] ([mnld_entity/src/mnld.c], with [mnld.h] and the calls
      into [gps_controller.c], [epo.c] and [op01_log.c]): the daemon's context;
      [Module Fsm] the state machine, [HalCallbacks], [AgpsCallbacks] and
      [OtherCallbacks] the tables of the protocols, [MainEvents] the internal
      events and one turn of the main loop.
    - [Kernel]: when the operating system works ([kernel_ok]) and what the
      daemon's calls then do ([effect]).
    - [MnldFsm]: the state machine as a table ([fsm_spec]) and the refinement.
    - [MnldSystem], [MnldService]: the daemon with the GPS thread as a step
      relation ([step], [reachable]), its invariants, and what clients get.
    - [MnldForward]: requests of the HAL on their way to the AGPS daemon.
    - [GpsHal] ([gps_hal/src/gpshal.c], [gpsinf.c], [agpsinf.c],
      [gpshal_worker.c]): the HAL between Android and the daemon: its state is
      the record [gpshal], a call of one of Android's callbacks a [callback] in
      its log, [Section gpsinf] what Android calls, [Section worker] the thread.
    - [AtCommand] ([mnl_at_cmd_interface/src/mnl_at_interface.c]) and [AtTest]:
      the factory test and the theorems about it.
    - [NmeaParser] ([mnld_entity/src/nmea_parser.c], [str2int] of
      [mnl_common.c]); [NmeaText] (fields and numbers as text), [NmeaStream]
      (lines), [NmeaSafety] (memory safety), [NmeaTime] (time stamps).
    - [GpsHalFront]: the HAL's two states, and how HAL and daemon find together
      after the daemon gave up; [GpsHalReports]: fixes, satellites and
      network-initiated requests from the daemon to Android's callback.
    - [Calendar]: [struct tm], the calendar functions of libc as a record, and
      zones of constant offset; [GpsTime]: [GpsToUtcTime] of [epo.c].
    - [Disk]: files as a map from path to bytes, with the calls of [stdio] and
      libcurl that the downloads use, and the times inside an EPO file.
    - [Epo] ([mnld_entity/src/epo.c]) and [EpoDownload]: the download of the
      EPO file in ten pieces, the expiry test, and the theorems about both.
    - [Qepo] ([mnld_entity/src/qepo.c]): the download of the quarter file.
    - [DbgLog] ([mnld_entity/src/gps_dbg_log.c]): the two buffers of the debug
      log, a program for the thread that fills them and one for the thread that
      writes them to the file; [DbgLogSystem]: both threads interleaved.
    - [Config] ([mnld_entity/src/mnl_common.c], with the readers of [gps.conf]
      and of the EPO settings in [gps_controller.c], [epo.c], [qepo.c] and
      [nmea_parser.c]): properties as text, lines, the configuration record;
      [ConfigText]: what the readers do with a file that is well formed.
    - [GpsControl] ([mnld_entity/src/gps_controller.c], with [mnld_uti.c] and
      [mnl2nlps.c]): the GPS thread: its events, the start and the stop of the
      engine, the profile of the chip, the request of a network location;
      [GpsControlSafe]: every part comes to an end; [GpsControlRun]: one turn of
      the thread and what it tells the main thread.
    - [FixReports] ([mtk_gps_sys_gps_mnl_callback] of [gps_controller.c], the
      structs of [mtk_gps_type.h]): what libmnl's notice of a fix sets off;
      [FixToAndroid]: measurements and navigation messages on their way to
      Android; [FixCallback]: the callback returns.
    - [AgpsSession]: the alarm at the end of an AGPS session.
    - [Wifi2Agps] ([wifi2agps/interface]): the protocol of the Wi-Fi watcher;
      [EventLoop] ([wifi2agps/libwifi2agps/event_loop.c]): its loop; [Wifi]
      ([wifi2agps/libwifi2agps/nl80211.c], [wifi2agps/main.c]): the process, with
      libnl as the record [libnl] and what it allocates as pointers that are freed;
      [WifiInit]: its initialisation; [WifiWatch]: what it makes of events.

    ** What the theorems show

    State machine and system (C1 to C9).  On a working kernel [mnld_fsm] and
    all callbacks implement their tables, messages included.  In every reachable
    state every request and report is served to the end without undefined
    behaviour, and the crash on an unexpected report cannot happen; watchdogs,
    wake lock and the commands to the GPS thread match the state; acknowledgements
    are kept until they are given; a client that opens gets the GPS, and when all
    have closed, the daemon comes back to idle.

    GPS thread (C10 to C13).  Whatever driver, operating system and libmnl
    answer, a turn of the thread serves the command it reads, as the step relation
    of the system assumes, and its reports are read as the events they stand for
    (C10 connects the two threads); how the driver and libmnl are left by a start
    that succeeds or fails and by a stop; the notice of libmnl that it started
    becomes the report of the start, or nothing when SUPL is disabled.

    Fixes (C14, C15).  The raw measurements of libmnl arrive at Android, member by
    member, in a HAL of either width; the callback of a fix returns and disturbs
    neither the main thread nor the driver.

    Configuration (C16, C17).  Whatever bytes the files hold, the readers compute
    what the lines say as text, inside their buffers, and the configuration stays
    well formed; they are undefined only where a number is too large.

    HAL (C18 to C21).  When the chip falls silent, the daemon stops it, tells the
    HAL that it restarts, the HAL repeats its requests, and the GPS runs again,
    in every order of the events (C18, a theorem about both processes).  What the
    HAL sends for Android's calls; what of the parser's fixes arrives at Android,
    bit by bit; and the text of a network-initiated request, which arrives when
    it fits and overruns otherwise.

    Wi-Fi watcher (C22 to C24).  A scan of the driver arrives at the AGPS daemon
    member by member, unless it overruns the variables (C22, through both
    processes); turn by turn the loop hands on every event it receives, in order;
    the initialisation connects or frees everything, whatever libnl answers.

    Debug log (C25 to C27).  In every interleaving of the two threads the file
    has the texts in order, but for whole buffers that are counted as lost and
    what the two buffers still hold, and no wake-up is lost; no access is outside
    the buffers; the end of the log writes what is left.

    EPO and QEPO (C28 to C31).  When the server delivers the pieces of a
    prediction, the download ends with all of them, in order, in one file; when a
    prediction counts as expired; the GPS time of the files is the calendar's; the
    download of the quarter ends, and what it reports is whether the quarter is
    covered.

    Protocols (C32 to C36).  What a sender writes is one datagram, and the
    handler of the other side calls the callback of that message with the same
    arguments; a request that the daemon hands on arrives at the AGPS daemon.

    NMEA parser (C37 to C40).  On tame input the parser is safe; byte by byte is
    line by line; the tokenizer gives the fields; time stamps are UTC.

    Further theorems are in the files without a number: that what the coder puts it
    gets again ([coder_roundtrip]), that building a message
    is exact when it fits and undefined otherwise ([build_fields_exact]), the
    requests to the AGPS daemon ([mnl2agps_delivery]), the end of a factory test
    ([at_test_completes]), what is left and told when a piece of a prediction is
    refused ([epo_failure_reported]), datagrams to the AGPS daemon without content
    ([empty_datagram_enables]) and with too much of it ([long_ap_overruns]), a timeout
    of the event loop that is never set ([add_timeout_hangs]), what
    the send loop returns ([sendto_loop_returns]), how long a timer runs, the
    pacing of the locations, acknowledgements owed for a close
    ([close_acks_kept]), the exception to answered requests, a stop of the HAL
    during the start for another client ([hal_stop_unanswered]), which structs
    have the same layout in 32 and 64 bits ([hal_layouts_agree]), the navigation
    messages of a fix and the null pointer they are copied to
    ([navigation_messages]), an alarm of an AGPS session that is lost
    ([session_alarm_lost]), messages that overrun the arrays of a handler or of the
    factory test, count, average and deviation of a factory test
    ([at_measurement]), satellites on their way to Android
    ([sv_report_to_android]) and the 33rd of them, the race of a flush with the
    writer, pieces of a prediction that leave a gap and are asked for again
    without end ([epo_livelock]), a download of the quarter that reports success
    without a new file, the numbers of a written configuration file
    ([gps_conf_roundtrip]), a file name that overruns the thread's buffer
    ([long_name_overruns]), the almanac's last line and the search for it that
    never ends ([back_to_newline_stuck]), a navigation message that a HAL of the
    other width misreads.

    ** Bounds and fuel

    Most loops run over a list (answers of the kernel, bytes of a message) or
    over a count that the code computes before the loop.  Those that depend on
    the kernel return [Blocked] when the answers run out; eleven answers other
    than [EINTR] always end the send loop ([sendto_loop_returns]), and
    [kernel_ok] asks for no more than that.  These have fuel: the tokenizer gets
    the length of the sentence and never runs out, since every token takes a
    character (C39); the loop that reports the satellites gets one pass, because its body clears the
    bound, and C37 shows that it ends; the decimal printer of the AT interface
    gets ten digits, as many as an [int] has; the year loop of [GpsToUtcTime]
    gets the number of days it counts down, at least 365 in a turn (C30); the
    update loop of the EPO download gets a number of turns, where one more than
    there are pieces is enough (C28), and [epo_livelock] shows that no number is
    when the pieces leave a gap; the reader of a file's lines gets the length of
    the file, since every line takes a character; the search for the almanac's
    last line gets one turn more than the file has characters, which is enough
    but for a file of one character, where no number is
    ([back_to_newline_stuck]); the event loop gets a number of turns and, in a turn,
    of callbacks, since it goes on for ever (C23 holds after any number of turns).  Twenty tries to find the chip are the code's own
    bound.

    The daemon is a 32-bit process ([LOCAL_MULTILIB := 32]): [long], [size_t] and
    [time_t] have 32 bits there.  The HAL library is given both ABIs.

    ** Parameters

    [mnld_env] is what files, properties and formatting give the daemon.
    [calendar] is [gmtime_r], [localtime_r] and [mktime], which depend on the
    zone database of the device; the theorems about time stamps and predictions
    (C28 to C31, C40) assume of it what a zone of constant offset promises
    ([fixed_zone]).  [epo_env] is the network and the clocks that the downloads
    see, at each of their questions: curl's result and the bytes it wrote, the
    URL, the MD5 sum.  [ctl_env] is what the GPS thread is answered, by the number
    of the call: the driver's [ioctl]s, files and properties, and libmnl's
    functions; the answers are arbitrary up to [env_ok] and [attrs_ok], which say
    that a function of the operating system returns what its type and its
    documentation allow.  [fix_env] is what libmnl leaves in the variables of the
    callback, likewise by the number of the call; [fix_sizes] and [fix_ok] say
    that it has their size, and that numbers and lengths are within their range.  How much [fwrite] writes of a text and whether
    the log file can be opened are arguments of the debug log's program; its two
    threads interleave at the accesses of shared variables, which are taken to be sequentially consistent.  [libnl] is how libnl parses a
    message, [wifi_env] what its calls, [select] and the clock answer and which
    messages arrive; only [answered] is asked of it, that a request is answered to
    the end, and that the descriptor of a socket fits [select].  [gps_h] is
    what the HAL takes from Android's [hardware/gps.h].  [junk] is what
    uninitialised stack bytes hold.

    ** Not modelled

    libmnl is a binary: all its answers are arbitrary, and it is not said when it
    calls back.  The callback of a fix reads three switches of the main thread,
    which are its arguments here.  The main thread is composed with what it sees
    of the GPS thread, commands and reports in order, either of which may be lost.  Of the downloads, the loops
    that hand requests to the threads are left out; of the debug log, the names
    of the files, the size of the directory, and the commands of [mtklogger].
    MPE is a thread around files and sockets; the creation of sockets and threads
    is left out everywhere.  Of the HAL, the
    glue that opens the device, the assertions on parameters and the mutex
    around a single store are left out.  Of the Wi-Fi watcher, the functions of the
    route socket, which [#if 0] leaves uncalled, are left out.  Outside, sensors, lights, power,
    Bluetooth, FM radio, the commands of the Wi-Fi driver and the others are wrappers of [ioctl], sysfs and
    netlink, most of them vendored. *)

From stdpp Require Export prelude list strings.
From Stdlib Require Export ZArith Lia.

#[export] Set Default Goal Selector "!".
Open Scope Z_scope.

(** ** Outcomes of a C function

    [Done] is a return; [Crash] is [CRASH_TO_DEBUG()], the deliberate store
    through a null pointer of [mtk_lbs_utility.h]; [UB] is any access outside
    an object (or another undefined operation); [Blocked] says that the
    operating system has not answered yet, the call has not returned. *)
Inductive outcome (A : Type) : Type :=
| Done (a : A)
| Crash
| UB
| Blocked.
Arguments Done {A} a.
Arguments Crash {A}.
Arguments UB {A}.
Arguments Blocked {A}.

#[export] Instance outcome_eq_dec {A} `{EqDecision A} : EqDecision (outcome A).
Proof. solve_decision. Defined.

(** ** Programs: state passing with outcomes *)
Definition prog (W A : Type) : Type := W -> outcome (A * W).

Definition ret {W A} (a : A) : prog W A := fun w => Done (a, w).

Definition bind {W A B} (m : prog W A) (k : A -> prog W B) : prog W B :=
  fun w =>
    match m w with
    | Done (a, w') => k a w'
    | Crash => Crash
    | UB => UB
    | Blocked => Blocked
    end.

Definition gets {W A} (f : W -> A) : prog W A := fun w => Done (f w, w).
Definition modify {W} (f : W -> W) : prog W unit := fun w => Done (tt, f w).
Definition crash {W A} : prog W A := fun _ => Crash.
Definition undef {W A} : prog W A := fun _ => UB.
Definition blocked {W A} : prog W A := fun _ => Blocked.
Definition when {W} (c : bool) (m : prog W unit) : prog W unit :=
  if c then m else ret tt.

(** Lifts an outcome computed on the side (a local buffer) into a program. *)
Definition lift {W A} (o : outcome A) : prog W A :=
  fun w =>
    match o with
    | Done a => Done (a, w)
    | Crash => Crash
    | UB => UB
    | Blocked => Blocked
    end.

Declare Scope prog_scope.
Delimit Scope prog_scope with prog.
Notation "'let*' x ':=' m 'in' k" := (bind m (fun x => k))
  (at level 200, x name, m at level 100, k at level 200, right associativity)
  : prog_scope.
Notation "'let*' ' p ':=' m 'in' k" := (bind m (fun x => match x with p => k end))
  (at level 200, p pattern, m at level 100, k at level 200, right associativity)
  : prog_scope.
Notation "m1 ;; m2" := (bind m1 (fun _ => m2)) : prog_scope.
Open Scope prog_scope.

(** Programs are compared by what they do from every state. *)
#[export] Instance prog_equiv {W A} : Equiv (prog W A) :=
  fun m1 m2 => forall w, m1 w = m2 w.

#[export] Instance prog_equivalence {W A} : Equivalence (@equiv (prog W A) _).
Proof.
  split.
  - intros m w; reflexivity.
  - intros m1 m2 H w; symmetry; apply H.
  - intros m1 m2 m3 H1 H2 w; rewrite (H1 w); apply H2.
Qed.

#[export] Instance bind_proper {W A B} :
  Proper ((≡) ==> pointwise_relation A (≡) ==> (≡)) (@bind W A B).
Proof.
  intros m1 m2 Hm k1 k2 Hk w. unfold bind. rewrite (Hm w).
  destruct (m2 w) as [[a w']| | |]; try reflexivity. apply Hk.
Qed.

Lemma bind_assoc {W A B C} (m : prog W A) (k : A -> prog W B) (h : B -> prog W C) :
  bind (bind m k) h ≡ bind m (fun a => bind (k a) h).
Proof. intros w. unfold bind. by destruct (m w) as [[a w']| | |]. Qed.

Lemma bind_ret_l {W A B} (a : A) (k : A -> prog W B) : bind (ret a) k ≡ k a.
Proof. intros w. reflexivity. Qed.

Lemma bind_ret_r {W A} (m : prog W A) : bind m ret ≡ m.
Proof. intros w. unfold bind. by destruct (m w) as [[a w']| | |]. Qed.

(** Running the first half of a sequence. *)
Lemma bind_done {W A B} (m : prog W A) (k : A -> prog W B) w a w' :
  m w = Done (a, w') -> bind m k w = k a w'.
Proof. intros H. unfold bind. by rewrite H. Qed.

Lemma bind_ub {W A B} (m : prog W A) (k : A -> prog W B) w :
  m w = UB -> bind m k w = UB.
Proof. intros H. unfold bind. by rewrite H. Qed.

Lemma bind_inv {W A B} (m : prog W A) (k : A -> prog W B) w b w2 :
  bind m k w = Done (b, w2) ->
  exists a w1, m w = Done (a, w1) /\ k a w1 = Done (b, w2).
Proof.
  unfold bind. destruct (m w) as [[a w1]| | |] eqn:E; try discriminate. eauto.
Qed.

Create HintDb progdb.
#[export] Hint Rewrite @bind_ret_l @bind_ret_r @bind_assoc : progdb.

(** ** Total correctness

    [returns m w Q]: from [w] the program [m] returns, with [Q]. *)
Definition returns {W A} (m : prog W A) (w : W) (Q : A -> W -> Prop) : Prop :=
  exists a w', m w = Done (a, w') /\ Q a w'.

Section returns.
Context {W : Type}.

Lemma returns_ret {A} (a : A) (w : W) (Q : A -> W -> Prop) : Q a w -> returns (ret a) w Q.
Proof. exists a, w. done. Qed.
Lemma returns_bind {A B} (m : prog W A) (k : A -> prog W B) w Q :
  returns m w (fun a w1 => returns (k a) w1 Q) -> returns (bind m k) w Q.
Proof.
  intros (a & w1 & E & b & w2 & E2 & HQ). exists b, w2. by rewrite (bind_done _ _ _ _ _ E).
Qed.
Lemma returns_gets {A} (f : W -> A) w (Q : A -> W -> Prop) : Q (f w) w -> returns (gets f) w Q.
Proof. intros H. by exists (f w), w. Qed.
Lemma returns_modify (f : W -> W) w (Q : unit -> W -> Prop) : Q tt (f w) -> returns (modify f) w Q.
Proof. intros H. by exists tt, (f w). Qed.
Lemma returns_lift {A} (o : outcome A) a w (Q : A -> W -> Prop) :
  o = Done a -> Q a w -> returns (lift o) w Q.
Proof. intros -> H. by exists a, w. Qed.
Lemma returns_when (c : bool) (m : prog W unit) w Q :
  (c = true -> returns m w Q) -> (c = false -> Q tt w) -> returns (when c m) w Q.
Proof. destruct c; [auto|]. intros _ H. by apply returns_ret, H. Qed.
Lemma returns_mono {A} (m : prog W A) w (Q Q' : A -> W -> Prop) :
  returns m w Q -> (forall a w', Q a w' -> Q' a w') -> returns m w Q'.
Proof. intros (a & w' & E & H) HQ. exists a, w'. auto. Qed.
End returns.

Ltac step_gets := apply returns_bind, returns_gets.
Ltac step_lift E := apply returns_bind; apply (returns_lift _ _ _ _ E).
Ltac step_upd := apply returns_bind, returns_modify.

(** ** C switch statements whose cases all end in [break]. *)
Fixpoint switch {A} (c : Z) (cases : list (Z * A)) (default : A) : A :=
  match cases with
  | [] => default
  | (k, a) :: rest => if c =? k then a else switch c rest default
  end.

(** A command that is no label of the switch takes the default branch. *)
Lemma switch_default {A} c (cases : list (Z * A)) d :
  c ∉ cases.*1 -> switch c cases d = d.
Proof.
  induction cases as [|[k a] cases IH]; [done|]. cbn. intros H.
  apply not_elem_of_cons in H as [Hne Hin].
  destruct (Z.eqb_spec c k); [done|]. by apply IH.
Qed.

(** ** Machine integers

    A [w]-bit integer is the [Z] it denotes; conversions wrap. *)
Definition wrap_u (w z : Z) : Z := z mod 2 ^ w.
Definition wrap_s (w z : Z) : Z := (z + 2 ^ (w - 1)) mod 2 ^ w - 2 ^ (w - 1).

Notation u8 := (wrap_u 8).
Notation u16 := (wrap_u 16).
Notation u32 := (wrap_u 32).
Notation s16 := (wrap_s 16).
Notation s32 := (wrap_s 32).
Notation s64 := (wrap_s 64).

Definition in_s (w z : Z) : bool := (- 2 ^ (w - 1) <=? z) && (z <? 2 ^ (w - 1)).
Definition in_u (w z : Z) : bool := (0 <=? z) && (z <? 2 ^ w).
Notation is_byte := (in_u 8).
Notation is_int := (in_s 32).
Notation is_long := (in_s 64).

Lemma in_s_spec w z : in_s w z = true <-> - 2 ^ (w - 1) <= z < 2 ^ (w - 1).
Proof. unfold in_s. lia. Qed.
Lemma in_u_spec w z : in_u w z = true <-> 0 <= z < 2 ^ w.
Proof. unfold in_u. lia. Qed.

Lemma pow2_half w : 0 < w -> 2 ^ w = 2 * 2 ^ (w - 1).
Proof.
  intros Hw. replace w with (Z.succ (w - 1)) at 1 by lia.
  rewrite Z.pow_succ_r; lia.
Qed.

Lemma wrap_s_id w z : 0 < w -> in_s w z = true -> wrap_s w z = z.
Proof.
  intros Hw H%in_s_spec. unfold wrap_s.
  pose proof (pow2_half w Hw). rewrite Z.mod_small; lia.
Qed.

Lemma wrap_u_id w z : in_u w z = true -> wrap_u w z = z.
Proof. intros H%in_u_spec. by apply Z.mod_small. Qed.

Lemma wrap_s_range w z : 0 < w -> in_s w (wrap_s w z) = true.
Proof.
  intros Hw. apply in_s_spec. unfold wrap_s. pose proof (pow2_half w Hw).
  assert (0 < 2 ^ (w - 1)) by (apply Z.pow_pos_nonneg; lia).
  pose proof (Z.mod_pos_bound (z + 2 ^ (w - 1)) (2 ^ w)). lia.
Qed.

Lemma wrap_u_range w z : 0 <= w -> in_u w (wrap_u w z) = true.
Proof.
  intros Hw. apply in_u_spec. apply Z.mod_pos_bound. apply Z.pow_pos_nonneg; lia.
Qed.

(** The signed wrap only depends on the value modulo [2 ^ w]. *)
Lemma wrap_s_mod w a b :
  a mod 2 ^ w = b mod 2 ^ w -> wrap_s w a = wrap_s w b.
Proof.
  intros H. unfold wrap_s. f_equal.
  rewrite <- (Zplus_mod_idemp_l a), <- (Zplus_mod_idemp_l b). by rewrite H.
Qed.

Lemma wrap_s_cong w z : 0 < w -> wrap_s w z mod 2 ^ w = z mod 2 ^ w.
Proof.
  intros Hw. unfold wrap_s. rewrite Zminus_mod_idemp_l. f_equal. lia.
Qed.

(** ** Lists of bytes *)
Definition bytes_ok (l : list Z) : Prop := Forall (fun c => is_byte c = true) l.
Notation zeros n := (replicate n 0).

(** Length of a list as a [Z]. *)
Notation zlen l := (Z.of_nat (length l)).

Ltac lists :=
  repeat first
    [ rewrite length_app in * | rewrite length_take in * | rewrite length_drop in *
    | rewrite length_replicate in * | rewrite length_insert in *
    | progress cbn [length] in * ].

Lemma take_app_le' {A} (l1 l2 : list A) n :
  n = length l1 -> take n (l1 ++ l2) = l1.
Proof. intros ->. by rewrite take_app_length. Qed.

Lemma drop_app_le' {A} (l1 l2 : list A) n :
  n = length l1 -> drop n (l1 ++ l2) = l2.
Proof. intros ->. by rewrite drop_app_length. Qed.

(** Boolean comparisons as propositions, everywhere. *)
Ltac unbool :=
  repeat first
    [ rewrite !andb_true_iff in * | rewrite !andb_false_iff in *
    | rewrite !orb_true_iff in * | rewrite !orb_false_iff in *
    | rewrite !negb_true_iff in * | rewrite !negb_false_iff in *
    | rewrite !Z.leb_le in * | rewrite !Z.leb_gt in *
    | rewrite !Z.ltb_lt in * | rewrite !Z.ltb_ge in *
    | rewrite !Z.eqb_eq in * | rewrite !Z.eqb_neq in *
    | rewrite !Nat.leb_le in * | rewrite !Nat.leb_gt in *
    | rewrite !Nat.eqb_eq in * | rewrite !Nat.eqb_neq in *
    | rewrite !Z.gtb_lt in * | rewrite !Z.gtb_ltb in * ].

(** Decides the first [if] of the goal, by arithmetic. *)
Ltac iftrue :=
  match goal with
  | |- context [if ?c then _ else _] =>
      let H := fresh in
      destruct c eqn:H; [clear H | exfalso; unbool; lists; lia]
  end.
Ltac iffalse :=
  match goal with
  | |- context [if ?c then _ else _] =>
      let H := fresh in
      destruct c eqn:H; [exfalso; unbool; lists; lia | clear H]
  end.
