(* ===== verification/DataCoder.v ===== *)
(** * The byte coder shared by all the GPS processes ([data_coder.c])

    [src/gps/mtk_mnld/utility/src/data_coder.c] is compiled into the daemon,
    into the HAL ([gps_hal/src]) and into the Wi-Fi bridge
    ([wifi2agps/interface]).  A C buffer with its running offset is a [cbuf];
    every access is checked against the size of the array, so that an access
    outside it is [UB].  Section "reference" gives the little-endian encoding
    that the [put] operations implement, and the cursor view under which the
    [get] operations invert them. *)

From S2P Require Import Prelude.

(** [char buff[N]] and the [int offset] that the coder advances.  [char] is
    the unsigned 8-bit type of the ARM ABI. *)
Record cbuf : Type := CBuf { cb_data : list Z; cb_off : Z }.

(** A [char*]: null, or the memory from the pointer to the end of its object. *)
Abbreviation cptr := (option (list Z)).

(** [strlen]: [None] when the object ends before a NUL byte. *)
Fixpoint strlen (m : list Z) : option nat :=
  match m with
  | [] => None
  | c :: m' => if c =? 0 then Some O else S <$> strlen m'
  end.

Module Coder.

(** ** get *)

Definition get_byte : prog cbuf Z :=
  fun b =>
    if (0 <=? cb_off b) then
      match cb_data b !! Z.to_nat (cb_off b) with
      | Some c => Done (c, CBuf (cb_data b) (cb_off b + 1))
      | None => UB
      end
    else UB.

Definition get_short : prog cbuf Z :=
  let r0 := 0 in
  let* c0 := get_byte in
  let r1 := s16 (Z.lor r0 (Z.land c0 0xff)) in
  let* c1 := get_byte in
  let r2 := s16 (Z.lor r1 (Z.shiftl c1 8)) in
  ret r2.

Definition get_int : prog cbuf Z :=
  let r0 := 0 in
  let* h0 := get_short in
  let r1 := s32 (Z.lor r0 (Z.land h0 0xffff)) in
  let* h1 := get_short in
  let r2 := s32 (Z.lor r1 (Z.shiftl h1 16)) in
  ret r2.

Definition get_long : prog cbuf Z :=
  let r0 := 0 in
  let* w0 := get_int in
  let r1 := s64 (Z.lor r0 (Z.land w0 0xffffffff)) in
  let* w1 := get_int in
  let r2 := s64 (Z.lor r1 (Z.shiftl w1 32)) in
  ret r2.

(** A [float] or [double] is carried as its bit pattern. *)
Definition get_float : prog cbuf Z :=
  let* tmp := get_int in ret tmp.

Definition get_double : prog cbuf Z :=
  let* tmp := get_long in ret tmp.

(** [*offset += len] on a signed [int]. *)
Definition advance (len : Z) : prog cbuf unit :=
  fun b =>
    if is_int (cb_off b + len)
    then Done (tt, CBuf (cb_data b) (cb_off b + len))
    else UB.

(** [&buff[*offset]] *)
Definition here : prog cbuf (list Z) :=
  fun b =>
    if (0 <=? cb_off b) && (cb_off b <=? zlen (cb_data b))
    then Done (drop (Z.to_nat (cb_off b)) (cb_data b), b)
    else UB.

Definition get_string : prog cbuf cptr :=
  let* r := get_byte in
  if r =? 0 then ret None
  else
    let* len := get_int in
    let* p := here in
    advance len ;;
    ret (Some p).

Definition get_string2 : prog cbuf cptr :=
  let* output := get_string in
  match output with
  | None => ret (Some [0])
  | Some p => ret (Some p)
  end.

(** [memcpy(dst, src, len)] between objects: the new contents of [dst]. *)
Definition memcpy (dst src : list Z) (len : Z) : outcome (list Z) :=
  if (0 <=? len) && (len <=? zlen src) && (len <=? zlen dst)
  then Done (take (Z.to_nat len) src ++ drop (Z.to_nat len) dst)
  else UB.

(** The result is the returned length and the new contents of [output]. *)
Definition get_binary (output : list Z) : prog cbuf (Z * list Z) :=
  let* len := get_int in
  if len >? 0 then
    let* src := here in
    let* output' := lift (memcpy output src len) in
    advance len ;;
    ret (len, output')
  else ret (len, output).

(** ** put *)

Definition put_byte (input : Z) : prog cbuf unit :=
  fun b =>
    if (0 <=? cb_off b) && (cb_off b <? zlen (cb_data b))
    then Done (tt, CBuf (<[Z.to_nat (cb_off b) := u8 input]> (cb_data b)) (cb_off b + 1))
    else UB.

Definition put_short (input : Z) : prog cbuf unit :=
  put_byte (Z.land input 0xff) ;;
  put_byte (Z.land (Z.shiftr input 8) 0xff).

Definition put_int (input : Z) : prog cbuf unit :=
  put_short (s16 (Z.land input 0xffff)) ;;
  put_short (s16 (Z.land (Z.shiftr input 16) 0xffff)).

Definition put_long (input : Z) : prog cbuf unit :=
  put_int (s32 (Z.land input 0xffffffff)) ;;
  put_int (s32 (Z.land (Z.shiftr input 32) 0xffffffff)).

Definition put_float (input : Z) : prog cbuf unit := put_int input.
Definition put_double (input : Z) : prog cbuf unit := put_long input.

(** [memcpy(&buff[*offset], src, len)] *)
Definition store (src : list Z) (len : Z) : prog cbuf unit :=
  fun b =>
    if (0 <=? len) && (len <=? zlen src) &&
       (0 <=? cb_off b) && (cb_off b + len <=? zlen (cb_data b))
    then Done (tt, CBuf (take (Z.to_nat (cb_off b)) (cb_data b) ++
                         take (Z.to_nat len) src ++
                         drop (Z.to_nat (cb_off b + len)) (cb_data b)) (cb_off b))
    else UB.

Definition put_string (input : cptr) : prog cbuf unit :=
  match input with
  | None => put_byte 0
  | Some m =>
      match strlen m with
      | None => undef
      | Some n =>
          let len := s32 (Z.of_nat n + 1) in
          put_byte 1 ;;
          put_int len ;;
          store m len ;;
          advance len
      end
  end.

Definition put_binary (input : list Z) (len : Z) : prog cbuf unit :=
  put_int len ;;
  if len >? 0 then store input len ;; advance len else ret tt.

End Coder.
Export Coder.

(** [char buff[N] = {0}; int offset = 0; body; ... buff, offset]: the bytes
    that a sender hands to the socket. *)
Definition build (n : Z) (body : prog cbuf unit) : outcome (list Z) :=
  match body (CBuf (zeros (Z.to_nat n)) 0) with
  | Done (_, b) => Done (take (Z.to_nat (cb_off b)) (cb_data b))
  | Crash => Crash
  | UB => UB
  | Blocked => Blocked
  end.

(** ** Reference: little-endian bytes and block writes *)

Fixpoint le_bytes (n : nat) (z : Z) : list Z :=
  match n with
  | O => []
  | S n' => z mod 256 :: le_bytes n' (z / 256)
  end.

(** Writes the block [l] at the offset, or is undefined when it does not fit. *)
Definition write_block (l : list Z) : prog cbuf unit :=
  fun b =>
    if (0 <=? cb_off b) && (cb_off b + zlen l <=? zlen (cb_data b))
    then Done (tt, CBuf (take (Z.to_nat (cb_off b)) (cb_data b) ++ l ++
                         drop (Z.to_nat (cb_off b + zlen l)) (cb_data b))
                        (cb_off b + zlen l))
    else UB.

(** The buffer [pre ++ post] with the offset between the two parts. *)
Definition cursor (pre post : list Z) : cbuf := CBuf (pre ++ post) (zlen pre).

Lemma length_le_bytes n z : length (le_bytes n z) = n.
Proof. revert z; induction n; intros z; cbn; auto. Qed.

Ltac clen := repeat (progress lists || rewrite length_le_bytes in * ); lia.

Lemma le_bytes_ok n z : bytes_ok (le_bytes n z).
Proof.
  revert z; induction n as [|n IH]; intros z; cbn; constructor; [|apply IH].
  apply in_u_spec. apply Z.mod_pos_bound. lia.
Qed.

Lemma le_bytes_app n m z :
  le_bytes (n + m) z = le_bytes n z ++ le_bytes m (z / 256 ^ Z.of_nat n).
Proof.
  revert z; induction n as [|n IH]; intros z.
  - cbn. by rewrite Z.div_1_r.
  - cbn [le_bytes Nat.add app]. f_equal. rewrite IH. f_equal. f_equal.
    rewrite Nat2Z.inj_succ, Z.pow_succ_r, Zdiv_Zdiv by lia. done.
Qed.

(** Only the low [8 * n] bits matter. *)
Lemma le_bytes_cong n a b :
  a mod 256 ^ Z.of_nat n = b mod 256 ^ Z.of_nat n -> le_bytes n a = le_bytes n b.
Proof.
  revert a b; induction n as [|n IH]; intros a b H; [done|].
  rewrite Nat2Z.inj_succ, Z.pow_succ_r in H by lia.
  assert (0 < 256 ^ Z.of_nat n) as Hp by (apply Z.pow_pos_nonneg; lia).
  rewrite !Z.rem_mul_r in H by lia.
  pose proof (Z.mod_pos_bound a 256). pose proof (Z.mod_pos_bound b 256).
  cbn. f_equal; [lia|]. apply IH. lia.
Qed.

Lemma write_block_app l1 l2 :
  (write_block l1 ;; write_block l2) ≡ write_block (l1 ++ l2).
Proof.
  intros [d o]. unfold bind, write_block; cbn [cb_data cb_off]. rewrite length_app, Nat2Z.inj_add.
  destruct (Z.leb_spec 0 o) as [Ho|Ho]; cbn [andb]; [|done].
  destruct (Z.leb_spec (o + zlen l1) (zlen d)) as [H1|H1]; cbn [andb].
  - cbn [cb_data cb_off].
    replace (0 <=? o + zlen l1) with true by lia. cbn [andb].
    replace (zlen (take (Z.to_nat o) d ++ l1 ++ drop (Z.to_nat (o + zlen l1)) d)) with (zlen d)
      by (lists; lia).
    rewrite Z.add_assoc.
    destruct (Z.leb_spec (o + zlen l1 + zlen l2) (zlen d)) as [H2|H2]; [|done].
    do 3 f_equal. rewrite (app_assoc _ l1 (drop _ _)), take_app_le' by (lists; lia).
    rewrite <- !app_assoc. do 3 f_equal.
    rewrite (app_assoc _ l1 (drop _ _)), drop_app, drop_drop.
    rewrite drop_ge by (lists; lia). cbn [app]. f_equal. lists. lia.
  - by iffalse.
Qed.

Lemma write_block_done pre l post :
  write_block l (CBuf (pre ++ post) (zlen pre)) =
  if (length l <=? length post)%nat
  then Done (tt, CBuf (pre ++ l ++ drop (length l) post) (zlen pre + zlen l))
  else UB.
Proof.
  unfold write_block; cbn [cb_data cb_off].
  destruct (Nat.leb_spec (length l) (length post)) as [H|H].
  - iftrue. do 3 f_equal. rewrite take_app_le' by lia. do 2 f_equal.
    rewrite drop_app, drop_ge by lia. cbn. f_equal. lia.
  - by iffalse.
Qed.

(** Masks and shifts of the coder in terms of [mod] and [/]. *)
Lemma land_mask a w : 0 <= w -> Z.land a (2 ^ w - 1) = a mod 2 ^ w.
Proof. intros Hw. rewrite <- Z.land_ones by lia. f_equal. rewrite Z.ones_equiv. lia. Qed.

Lemma lor_shift a b w : 0 <= w -> 0 <= a < 2 ^ w -> Z.lor a (Z.shiftl b w) = a + b * 2 ^ w.
Proof.
  intros Hw Ha. rewrite Z.shiftl_mul_pow2 by lia.
  rewrite Z.add_nocarry_lxor, Z.lxor_lor; [done| |];
    apply Z.bits_inj'; intros n Hn; rewrite Z.land_spec, Z.bits_0;
    (destruct (Z.lt_ge_cases n w) as [Hl|Hl];
     [ rewrite (Z.mul_pow2_bits_low b) by lia; apply andb_false_r
     | replace (Z.testbit a n) with false; [done|];
       rewrite <- (Z.mod_small a (2 ^ w)) by lia; by rewrite Z.mod_pow2_bits_high by lia ]).
Qed.

(** ** Writing *)

(** The size of a C array fits in an [int]. *)
Definition int_sized (b : cbuf) : Prop := zlen (cb_data b) < 2 ^ 31.

(** What a [put] operation promises to the message senders. *)
Class Writes (m : prog cbuf unit) (l : list Z) : Prop :=
  writes : forall b, int_sized b -> m b = write_block l b.

Lemma write_block_size l b u b' :
  write_block l b = Done (u, b') -> length (cb_data b') = length (cb_data b).
Proof.
  unfold write_block. destruct (_ && _) eqn:E; [|done].
  intros [= <- <-]. cbn [cb_data]. unbool. lists. lia.
Qed.

#[export] Instance seq_writes m1 m2 l1 l2 :
  Writes m1 l1 -> Writes m2 l2 -> Writes (m1 ;; m2) (l1 ++ l2).
Proof.
  intros H1 H2 b Hb. rewrite <- (write_block_app l1 l2 b). unfold bind. rewrite (H1 b Hb).
  destruct (write_block l1 b) as [[u b']| | |] eqn:E; try done.
  apply H2. unfold int_sized. by rewrite (write_block_size _ _ _ _ E).
Qed.

#[export] Instance put_byte_writes x : Writes (put_byte x) [u8 x].
Proof.
  intros [d o] _. unfold put_byte, write_block; cbn [cb_data cb_off length].
  destruct ((0 <=? o) && (o <? zlen d)) eqn:E.
  - iftrue. do 3 f_equal.
    rewrite insert_take_drop by (unbool; lia). do 3 f_equal. f_equal. unbool. lia.
  - by iffalse.
Qed.

Lemma u8_mask x : u8 (Z.land x 255) = x mod 256.
Proof.
  unfold wrap_u. change 255 with (2 ^ 8 - 1). rewrite land_mask by lia.
  change (2 ^ 8) with 256. by rewrite Z.mod_mod.
Qed.

#[export] Instance put_short_writes x : Writes (put_short x) (le_bytes 2 x).
Proof.
  unfold put_short. cbn [le_bytes].
  replace (x mod 256) with (u8 (Z.land x 255)) by apply u8_mask.
  replace ((x / 256) mod 256) with (u8 (Z.land (Z.shiftr x 8) 255)).
  - apply (seq_writes _ _ [_] [_]); apply _.
  - rewrite u8_mask, Z.shiftr_div_pow2 by lia. done.
Qed.

(** Splitting an integer into two halves, as [put_int] and [put_long] do. *)
Lemma halves_bytes n w x :
  w = 8 * Z.of_nat n -> 0 < w ->
  le_bytes n (wrap_s w (Z.land x (2 ^ w - 1))) ++
  le_bytes n (wrap_s w (Z.land (Z.shiftr x w) (2 ^ w - 1))) = le_bytes (n + n) x.
Proof.
  intros -> Hw. rewrite le_bytes_app, !land_mask, Z.shiftr_div_pow2 by lia.
  assert (256 ^ Z.of_nat n = 2 ^ (8 * Z.of_nat n)) as Hp
    by (rewrite Z.pow_mul_r by lia; done).
  rewrite Hp. f_equal; apply le_bytes_cong; rewrite Hp, wrap_s_cong, Z.mod_mod by lia; done.
Qed.

#[export] Instance put_int_writes x : Writes (put_int x) (le_bytes 4 x).
Proof.
  unfold put_int. change 4%nat with (2 + 2)%nat.
  rewrite <- (halves_bytes 2 16 x) by lia. apply seq_writes; apply _.
Qed.

#[export] Instance put_long_writes x : Writes (put_long x) (le_bytes 8 x).
Proof.
  unfold put_long. change 8%nat with (4 + 4)%nat.
  rewrite <- (halves_bytes 4 32 x) by lia. apply seq_writes; apply _.
Qed.

#[export] Instance put_float_writes x : Writes (put_float x) (le_bytes 4 x).
Proof. apply put_int_writes. Qed.

#[export] Instance put_double_writes x : Writes (put_double x) (le_bytes 8 x).
Proof. apply put_long_writes. Qed.

(** [memcpy] to the offset followed by [*offset += len]. *)
Lemma store_writes src len :
  0 <= len <= zlen src -> Writes (store src len ;; advance len) (take (Z.to_nat len) src).
Proof.
  intros Hl [d o] Hd. unfold int_sized in Hd.
  unfold bind, store, advance, write_block; cbn [cb_data cb_off] in *.
  rewrite length_take, Nat.min_l, Z2Nat.id by lia.
  destruct ((0 <=? o) && (o + len <=? zlen d)) eqn:E.
  - iftrue. cbn [cb_off cb_data]. unfold in_s. by iftrue.
  - by iffalse.
Qed.

(** ** C strings on the wire *)

(** [m] holds the C string [s] at its start: [s] has no NUL and ends in one. *)
Definition holds_cstr (m s : list Z) : Prop :=
  exists rest, m = s ++ 0 :: rest /\ 0 ∉ s.

(** The string a pointer designates: null, or the bytes before the NUL. *)
Definition is_cstr (p : cptr) (s : option (list Z)) : Prop :=
  match p, s with
  | None, None => True
  | Some m, Some l => holds_cstr m l
  | _, _ => False
  end.

Lemma strlen_holds m s : holds_cstr m s -> strlen m = Some (length s).
Proof.
  intros (rest & -> & Hs). induction s as [|c s IH]; [done|].
  apply not_elem_of_cons in Hs as [Hc Hs]. cbn.
  destruct (Z.eqb_spec c 0); [congruence|]. by rewrite (IH Hs).
Qed.

Lemma strlen_sound m n : strlen m = Some n -> holds_cstr m (take n m) /\ (n < length m)%nat.
Proof.
  revert n; induction m as [|c m IH]; intros n; [done|]. cbn.
  destruct (Z.eqb_spec c 0) as [->|Hc].
  - intros [= <-]. split; [|cbn; lia]. exists m. split; [done|]. apply not_elem_of_nil.
  - destruct (strlen m) as [k|] eqn:E; [|done]. intros [= <-].
    destruct (IH k eq_refl) as [(rest & Heq & Hs) Hk]. split; [|cbn; lia].
    exists rest. cbn [take app]. split; [by rewrite <- Heq|].
    apply not_elem_of_cons. split; [congruence|done].
Qed.

(** The encoding of a string argument. *)
Definition enc_string (s : option (list Z)) : list Z :=
  match s with
  | None => [0]
  | Some l => 1 :: le_bytes 4 (zlen l + 1) ++ l ++ [0]
  end.

(** The pointer [p] designates the string [s], of a length that is an [int]. *)
Class CStr (p : cptr) (s : option (list Z)) : Prop := {
  cstr_is : is_cstr p s;
  cstr_len : zlen (default [] s) < 2 ^ 31 - 1
}.

#[export] Instance put_string_writes p s `{!CStr p s} : Writes (put_string p) (enc_string s).
Proof.
  destruct CStr0 as [His Hlen]. destruct p as [m|], s as [l|]; try done.
  - cbn in His, Hlen. unfold put_string. rewrite (strlen_holds _ _ His).
    destruct His as (rest & -> & _). rewrite wrap_s_id; [|lia|apply in_s_spec; lia].
    unfold enc_string. change (1 :: ?x) with ([u8 1] ++ x).
    apply seq_writes; [apply _|]. apply seq_writes; [apply _|].
    replace (l ++ [0]) with (take (Z.to_nat (zlen l + 1)) (l ++ 0 :: rest)).
    + apply store_writes. lists. lia.
    + rewrite take_app, take_ge by lia.
      replace (Z.to_nat (zlen l + 1) - length l)%nat with 1%nat by lia. done.
  - apply (put_byte_writes 0).
Qed.

#[export] Instance put_binary_writes input len :
  len <= zlen input ->
  Writes (put_binary input len) (le_bytes 4 len ++ take (Z.to_nat len) input).
Proof.
  intros Hl. unfold put_binary. destruct (Z.gtb_spec len 0) as [Hp|Hp].
  - apply seq_writes; [apply _|]. apply store_writes. lia.
  - replace (Z.to_nat len) with O by lia. rewrite take_0, app_nil_r.
    intros b Hb. rewrite <- (put_int_writes len b Hb).
    change (fun _ : () => ret tt) with (fun u : () => @ret cbuf () tt).
    unfold bind, ret. destruct (put_int len b) as [[[] b']| | |]; done.
Qed.

(** A struct argument: the object representation and its size. *)
Lemma put_struct_writes input :
  Writes (put_binary input (zlen input)) (le_bytes 4 (zlen input) ++ input).
Proof.
  pose proof (put_binary_writes input (zlen input)) as H.
  rewrite Nat2Z.id, take_ge in H by lia. apply H. lia.
Qed.

(** ** Messages: what [build] hands to the socket *)
Lemma build_writes n body l :
  0 <= n < 2 ^ 31 -> Writes body l ->
  build n body = if (zlen l <=? n) then Done l else UB.
Proof.
  intros Hn Hw. unfold build. rewrite Hw by (unfold int_sized; cbn; lists; lia).
  change (CBuf (zeros (Z.to_nat n)) 0) with (CBuf ([] ++ zeros (Z.to_nat n)) (zlen (@nil Z))).
  rewrite write_block_done. lists.
  destruct (Z.leb_spec (zlen l) n) as [H|H].
  - iftrue. cbn [cb_off cb_data app]. rewrite take_app_le' by (cbn; lia). done.
  - by iffalse.
Qed.

(** ** Reading under the cursor *)
Lemma get_byte_cursor pre c post :
  get_byte (cursor pre (c :: post)) = Done (c, cursor (pre ++ [c]) post).
Proof.
  unfold get_byte, cursor; cbn [cb_off cb_data]. iftrue.
  rewrite Nat2Z.id, list_lookup_middle by done.
  do 3 f_equal; [by rewrite <- app_assoc|lists; lia].
Qed.

Lemma get_short_cursor pre x post :
  get_short (cursor pre (le_bytes 2 x ++ post)) =
  Done (s16 x, cursor (pre ++ le_bytes 2 x) post).
Proof.
  cbn [le_bytes app]. unfold get_short.
  erewrite bind_done by apply get_byte_cursor. erewrite bind_done by apply get_byte_cursor.
  unfold ret. do 2 f_equal; [|by rewrite <- app_assoc].
  change 0xff with (2 ^ 8 - 1). rewrite Z.lor_0_l, land_mask by lia.
  change (2 ^ 8) with 256. rewrite Z.mod_mod by lia.
  pose proof (Z.mod_pos_bound x 256). pose proof (Z.mod_pos_bound (x / 256) 256).
  rewrite (wrap_s_id 16 (x mod 256)); [|lia|apply in_s_spec; lia].
  rewrite lor_shift by lia. apply wrap_s_mod.
  change (2 ^ 16) with (256 * 256). change (2 ^ 8) with 256.
  rewrite (Z.rem_mul_r x 256 256), Z.mod_small by lia. lia.
Qed.

(** Two half-words make a word, as [get_int] and [get_long] combine them. *)
Lemma combine_halves w x :
  0 < w ->
  wrap_s (w + w)
    (Z.lor (wrap_s (w + w) (Z.lor 0 (Z.land (wrap_s w x) (2 ^ w - 1))))
           (Z.shiftl (wrap_s w (x / 2 ^ w)) w)) = wrap_s (w + w) x.
Proof.
  intros Hw. rewrite Z.lor_0_l, land_mask, wrap_s_cong by lia.
  assert (0 < 2 ^ w) as Hp by (apply Z.pow_pos_nonneg; lia).
  assert (2 ^ w <= 2 ^ (w + w - 1)) as Hle by (apply Z.pow_le_mono_r; lia).
  pose proof (Z.mod_pos_bound x (2 ^ w) Hp) as Hx.
  rewrite (wrap_s_id (w + w) (x mod 2 ^ w)); [| lia | apply in_s_spec; split].
  2: { transitivity 0; [apply Z.opp_nonpos_nonneg, Z.pow_nonneg; lia|lia]. }
  2: { eapply Z.lt_le_trans; [apply Hx|exact Hle]. }
  rewrite lor_shift by lia. apply wrap_s_mod. rewrite Z.pow_add_r by lia.
  rewrite !Z.rem_mul_r by lia. f_equal.
  - by rewrite Z.mod_add, Z.mod_mod by lia.
  - f_equal. rewrite Z.div_add, Z.div_small by lia. rewrite Z.add_0_l. by apply wrap_s_cong.
Qed.

Lemma get_int_cursor pre x post :
  get_int (cursor pre (le_bytes 4 x ++ post)) =
  Done (s32 x, cursor (pre ++ le_bytes 4 x) post).
Proof.
  change 4%nat with (2 + 2)%nat. rewrite le_bytes_app, <- app_assoc. unfold get_int.
  erewrite bind_done by apply get_short_cursor. erewrite bind_done by apply get_short_cursor.
  unfold ret. do 2 f_equal; [|by rewrite <- app_assoc].
  apply (combine_halves 16). lia.
Qed.

Lemma get_long_cursor pre x post :
  get_long (cursor pre (le_bytes 8 x ++ post)) =
  Done (s64 x, cursor (pre ++ le_bytes 8 x) post).
Proof.
  change 8%nat with (4 + 4)%nat. rewrite le_bytes_app, <- app_assoc. unfold get_long.
  erewrite bind_done by apply get_int_cursor. erewrite bind_done by apply get_int_cursor.
  unfold ret. do 2 f_equal; [|by rewrite <- app_assoc].
  apply (combine_halves 32). lia.
Qed.

Lemma get_float_cursor pre x post :
  get_float (cursor pre (le_bytes 4 x ++ post)) =
  Done (s32 x, cursor (pre ++ le_bytes 4 x) post).
Proof. unfold get_float. by erewrite bind_done by apply get_int_cursor. Qed.

Lemma get_double_cursor pre x post :
  get_double (cursor pre (le_bytes 8 x ++ post)) =
  Done (s64 x, cursor (pre ++ le_bytes 8 x) post).
Proof. unfold get_double. by erewrite bind_done by apply get_long_cursor. Qed.

Lemma here_cursor pre post : here (cursor pre post) = Done (post, cursor pre post).
Proof.
  unfold here, cursor; cbn [cb_off cb_data]. iftrue.
  by rewrite drop_app_le' by lia.
Qed.

Lemma advance_cursor pre l post :
  zlen (pre ++ l) < 2 ^ 31 ->
  advance (zlen l) (cursor pre (l ++ post)) = Done (tt, cursor (pre ++ l) post).
Proof.
  intros H. unfold advance, cursor, in_s; cbn [cb_off cb_data]. lists. iftrue.
  do 3 f_equal; [by rewrite <- app_assoc|lia].
Qed.

(** The pointer that [get_string] returns for the string [s], when [post]
    follows it in the buffer. *)
Definition received (s : option (list Z)) (post : list Z) : cptr :=
  (fun l => l ++ 0 :: post) <$> s.

Lemma get_string_cursor pre s post :
  zlen (pre ++ enc_string s) < 2 ^ 31 ->
  get_string (cursor pre (enc_string s ++ post)) =
  Done (received s post, cursor (pre ++ enc_string s) post).
Proof.
  intros H. unfold get_string. destruct s as [l|]; cbn [enc_string app].
  - erewrite bind_done by apply get_byte_cursor. cbn [Z.eqb].
    rewrite <- !app_assoc. cbn [app].
    erewrite bind_done by apply get_int_cursor.
    rewrite wrap_s_id; [| lia |].
    2: { apply in_s_spec. cbn [enc_string] in H. clen. }
    erewrite bind_done by apply here_cursor.
    replace (l ++ 0 :: post) with ((l ++ [0]) ++ post) by (by rewrite <- app_assoc).
    replace (zlen l + 1) with (zlen (l ++ [0])) by (lists; lia).
    erewrite bind_done.
    2: { apply advance_cursor. cbn [enc_string] in H. clen. }
    unfold ret. cbn. do 3 f_equal; [by rewrite <- !app_assoc|].
    rewrite <- !app_assoc. do 4 f_equal.
  - erewrite bind_done by apply get_byte_cursor. done.
Qed.

Lemma get_binary_cursor dst pre input len post :
  is_int len = true -> len <= zlen input -> len <= zlen dst ->
  zlen (pre ++ le_bytes 4 len ++ take (Z.to_nat len) input) < 2 ^ 31 ->
  get_binary dst (cursor pre (le_bytes 4 len ++ take (Z.to_nat len) input ++ post)) =
  Done ((len, take (Z.to_nat len) input ++ drop (Z.to_nat len) dst),
        cursor (pre ++ le_bytes 4 len ++ take (Z.to_nat len) input) post).
Proof.
  intros Hi Hin Hd Hsz. unfold get_binary.
  erewrite bind_done by apply get_int_cursor. rewrite wrap_s_id by (done || lia).
  destruct (Z.gtb_spec len 0) as [Hp|Hp].
  - erewrite bind_done by apply here_cursor.
    set (l := take (Z.to_nat len) input) in *.
    assert (length l = Z.to_nat len) as Hl by (unfold l; lists; lia).
    erewrite bind_done.
    2: { unfold lift, memcpy. iftrue. reflexivity. }
    rewrite take_app_le' by done. replace len with (zlen l) at 1 by lia.
    erewrite bind_done.
    2: { apply advance_cursor. revert Hsz. lists. lia. }
    unfold ret. by rewrite <- !app_assoc.
  - replace (Z.to_nat len) with O by lia. cbn [take drop app]. by rewrite app_nil_r.
Qed.

(** Two pointers to the same C string. *)
#[export] Instance cptr_equiv : Equiv cptr := fun p q =>
  match p, q with
  | None, None => True
  | Some m, Some m' => m = m' \/ exists s, holds_cstr m s /\ holds_cstr m' s
  | _, _ => False
  end.

Lemma holds_cstr_inj m s s' : holds_cstr m s -> holds_cstr m s' -> s = s'.
Proof.
  intros H H'. pose proof (strlen_holds _ _ H) as E. rewrite (strlen_holds _ _ H') in E.
  destruct H as (r & -> & _), H' as (r' & Heq & _).
  apply app_inj_1 in Heq; [by destruct Heq|]. congruence.
Qed.

#[export] Instance cptr_equivalence : Equivalence (@equiv cptr _).
Proof.
  split.
  - intros [m|]; [by left|done].
  - intros [m|] [m'|]; try done. intros [->|(s & H & H')]; [by left|right; eauto].
  - intros [m|] [m'|] [m''|]; try done.
    intros [->|(s & H & H')] [->|(t & K & K')]; [by left|right; eauto|right; eauto|].
    right. rewrite (holds_cstr_inj _ _ _ H' K) in H. eauto.
Qed.

Lemma is_cstr_equiv p q s : is_cstr p s -> is_cstr q s -> p ≡ q.
Proof. destruct p, q, s; cbn; try done. intros H H'. right. eauto. Qed.

Lemma received_is_cstr s post :
  (forall l, s = Some l -> 0 ∉ l) -> is_cstr (received s post) s.
Proof. destruct s as [l|]; cbn; [|done]. intros H. exists post. auto. Qed.

Lemma is_cstr_no_nul p s l : is_cstr p s -> s = Some l -> 0 ∉ l.
Proof. intros H ->. destruct p as [m|]; [|done]. by destruct H as (rest & _ & Hl). Qed.

(** Sending a string only depends on the C string pointed to. *)
#[export] Instance put_string_proper : Proper ((≡) ==> (≡)) put_string.
Proof.
  intros [m|] [m'|] H; try done. destruct H as [->|(s & H & H')]; [done|].
  unfold put_string. rewrite (strlen_holds _ _ H), (strlen_holds _ _ H').
  destruct H as (r & -> & _), H' as (r' & -> & _). cbn zeta.
  set (len := s32 (Z.of_nat (length s) + 1)).
  assert (len <= zlen s + 1) as Hlen.
  { unfold len, wrap_s. change (32 - 1) with 31.
    pose proof (Z.mod_le (zlen s + 1 + 2 ^ 31) (2 ^ 32) ltac:(lia) ltac:(lia)). lia. }
  assert (store (s ++ 0 :: r) len ≡ store (s ++ 0 :: r') len) as Hst.
  { intros [d o]. unfold store; cbn [cb_data cb_off].
    destruct (Z.leb_spec 0 len) as [H0|H0]; cbn [andb]; [|done].
    replace (len <=? zlen (s ++ 0 :: r)) with true by (symmetry; apply Z.leb_le; lists; lia).
    replace (len <=? zlen (s ++ 0 :: r')) with true by (symmetry; apply Z.leb_le; lists; lia).
    replace (s ++ 0 :: r) with ((s ++ [0]) ++ r) by (by rewrite <- app_assoc).
    replace (s ++ 0 :: r') with ((s ++ [0]) ++ r') by (by rewrite <- app_assoc).
    rewrite (take_app_le (s ++ [0]) r), (take_app_le (s ++ [0]) r') by (lists; lia). done. }
  by setoid_rewrite Hst.
Qed.

(** ** Sequences of fields

    Every message of the system is a sequence of these fields, written by one
    process and read by another. *)
Inductive field : Type :=
| FByte (c : Z)
| FShort (z : Z)
| FInt (z : Z)
| FLong (z : Z)
| FFloat (bits : Z)
| FDouble (bits : Z)
| FString (p : cptr)
| FBinary (l : list Z).

Definition put_field (f : field) : prog cbuf unit :=
  match f with
  | FByte c => put_byte c
  | FShort z => put_short z
  | FInt z => put_int z
  | FLong z => put_long z
  | FFloat z => put_float z
  | FDouble z => put_double z
  | FString p => put_string p
  | FBinary l => put_binary l (zlen l)
  end.

(** Reads a field of the same type as [f]; [dst] receives binary data. *)
Definition get_field_like (dst : list Z) (f : field) : prog cbuf field :=
  match f with
  | FByte _ => let* c := get_byte in ret (FByte c)
  | FShort _ => let* z := get_short in ret (FShort z)
  | FInt _ => let* z := get_int in ret (FInt z)
  | FLong _ => let* z := get_long in ret (FLong z)
  | FFloat _ => let* z := get_float in ret (FFloat z)
  | FDouble _ => let* z := get_double in ret (FDouble z)
  | FString _ => let* p := get_string in ret (FString p)
  | FBinary _ =>
      let* '(len, out) := get_binary dst in
      ret (FBinary (take (Z.to_nat len) out))
  end.

Fixpoint put_fields (fs : list field) : prog cbuf unit :=
  match fs with
  | [] => ret tt
  | f :: fs' => put_field f ;; put_fields fs'
  end.

Fixpoint get_fields_like (dst : list Z) (fs : list field) : prog cbuf (list field) :=
  match fs with
  | [] => ret []
  | f :: fs' =>
      let* g := get_field_like dst f in
      let* gs := get_fields_like dst fs' in
      ret (g :: gs)
  end.

(** A value that its C type can hold; strings are terminated. *)
Definition field_ok (f : field) : Prop :=
  match f with
  | FByte c => is_byte c = true
  | FShort z => in_s 16 z = true
  | FInt z | FFloat z => is_int z = true
  | FLong z | FDouble z => is_long z = true
  | FString p => match p with None => True | Some m => is_Some (strlen m) end
  | FBinary _ => True
  end.

(** The string a pointer designates, computed. *)
Definition cstr_of (p : cptr) : option (list Z) :=
  match p with
  | None => None
  | Some m => Some (take (default O (strlen m)) m)
  end.

Definition enc_field (f : field) : list Z :=
  match f with
  | FByte c => [u8 c]
  | FShort z => le_bytes 2 z
  | FInt z | FFloat z => le_bytes 4 z
  | FLong z | FDouble z => le_bytes 8 z
  | FString p => enc_string (cstr_of p)
  | FBinary l => le_bytes 4 (zlen l) ++ l
  end.

(** The same field, strings compared as C strings. *)
#[export] Instance field_equiv : Equiv field := fun f g =>
  match f, g with
  | FString p, FString q => p ≡ q
  | FString _, _ | _, FString _ => False
  | _, _ => f = g
  end.

Lemma cstr_of_is_cstr p : field_ok (FString p) -> is_cstr p (cstr_of p).
Proof.
  destruct p as [m|]; cbn; [|done]. intros [n Hn]. rewrite Hn. cbn.
  by apply strlen_sound in Hn as [H _].
Qed.

Lemma put_field_writes f :
  field_ok f -> zlen (enc_field f) < 2 ^ 31 -> Writes (put_field f) (enc_field f).
Proof.
  intros Hok Hlen. destruct f; try apply _; cbn [put_field enc_field] in *.
  - apply put_string_writes. constructor; [by apply cstr_of_is_cstr|].
    destruct (cstr_of p) as [l|] eqn:E; cbn in *; [|lia].
    clen.
  - apply put_struct_writes.
Qed.

Lemma get_field_cursor dst f pre post :
  field_ok f -> zlen (pre ++ enc_field f) < 2 ^ 31 ->
  (forall l, f = FBinary l -> zlen l <= zlen dst) ->
  exists g, g ≡ f /\
    get_field_like dst f (cursor pre (enc_field f ++ post)) =
    Done (g, cursor (pre ++ enc_field f) post).
Proof.
  intros Hok Hlen Hdst. destruct f; cbn [get_field_like enc_field field_ok] in *.
  - exists (FByte c). split; [done|]. rewrite wrap_u_id by done. cbn [app].
    by erewrite bind_done by apply get_byte_cursor.
  - exists (FShort z). split; [done|]. erewrite bind_done by apply get_short_cursor.
    by rewrite wrap_s_id by (done || lia).
  - exists (FInt z). split; [done|]. erewrite bind_done by apply get_int_cursor.
    by rewrite wrap_s_id by (done || lia).
  - exists (FLong z). split; [done|]. erewrite bind_done by apply get_long_cursor.
    by rewrite wrap_s_id by (done || lia).
  - exists (FFloat bits). split; [done|]. erewrite bind_done by apply get_float_cursor.
    by rewrite wrap_s_id by (done || lia).
  - exists (FDouble bits). split; [done|]. erewrite bind_done by apply get_double_cursor.
    by rewrite wrap_s_id by (done || lia).
  - pose proof (cstr_of_is_cstr p Hok) as Hp.
    exists (FString (received (cstr_of p) post)). split.
    + apply (is_cstr_equiv _ _ (cstr_of p)); [|done].
      apply received_is_cstr. intros l. by apply (is_cstr_no_nul p).
    + by erewrite bind_done by (by apply get_string_cursor).
  - exists (FBinary l). split; [done|].
    pose proof (get_binary_cursor dst pre l (zlen l) post) as H.
    rewrite Nat2Z.id, take_ge in H by lia. rewrite <- app_assoc.
    rewrite (bind_done _ _ _ _ _ (H ltac:(apply in_s_spec; clen) ltac:(lia)
               ltac:(by apply Hdst) ltac:(done))).
    unfold ret. by rewrite Nat2Z.id, take_app_le' by done.
Qed.

(** All the fields, and what follows them. *)
Definition enc_fields (fs : list field) : list Z := concat (map enc_field fs).

Lemma put_fields_writes f fs :
  Forall field_ok (f :: fs) -> zlen (enc_fields (f :: fs)) < 2 ^ 31 ->
  Writes (put_fields (f :: fs)) (enc_fields (f :: fs)).
Proof.
  revert f; induction fs as [|g fs IH]; intros f Hok Hlen;
    apply Forall_cons in Hok as [Hf Hok]; unfold enc_fields in *; cbn [map concat] in *.
  - rewrite app_nil_r in *. intros b Hb. cbn [put_fields].
    pose proof (put_field_writes f Hf Hlen b Hb) as <-.
    unfold bind, ret. by destruct (put_field f b) as [[[] b']| | |].
  - apply seq_writes; [apply put_field_writes; [done|clen]|].
    apply IH; [done|]. clen.
Qed.

Lemma get_fields_cursor dst fs pre post :
  Forall field_ok fs -> zlen (pre ++ enc_fields fs) < 2 ^ 31 ->
  (forall l, FBinary l ∈ fs -> zlen l <= zlen dst) ->
  exists gs, Forall2 equiv gs fs /\
    get_fields_like dst fs (cursor pre (enc_fields fs ++ post)) =
    Done (gs, cursor (pre ++ enc_fields fs) post).
Proof.
  revert pre; induction fs as [|f fs IH]; intros pre Hok Hlen Hdst.
  - exists []. split; [constructor|]. cbn. by rewrite app_nil_r.
  - apply Forall_cons in Hok as [Hf Hok]. unfold enc_fields in *. cbn [map concat] in *.
    destruct (get_field_cursor dst f pre (concat (map enc_field fs) ++ post))
      as (g & Hg & Eg); [done|clen|intros l ->; apply Hdst; by left|].
    destruct (IH (pre ++ enc_field f)) as (gs & Hgs & Egs);
      [done|clen|intros l Hl; apply Hdst; by right|].
    exists (g :: gs). split; [by constructor|]. cbn [get_fields_like].
    rewrite <- app_assoc, (bind_done _ _ _ _ _ Eg), (bind_done _ _ _ _ _ Egs).
    unfold ret. by rewrite app_assoc.
Qed.

(** A message built by the coder in a buffer of [n] bytes is exactly the
    concatenation of the encodings of its fields when that fits, and is
    undefined behaviour (a write past the array) when it does not. *)
Theorem build_fields_exact (n : Z) (f : field) (fs : list field) :
  0 <= n < 2 ^ 31 -> Forall field_ok (f :: fs) -> zlen (enc_fields (f :: fs)) < 2 ^ 31 ->
  build n (put_fields (f :: fs)) =
  if zlen (enc_fields (f :: fs)) <=? n then Done (enc_fields (f :: fs)) else UB.
Proof. intros Hn Hok Hlen. apply build_writes; [done|]. by apply put_fields_writes. Qed.

(** Reading back, from a zeroed buffer of [n] bytes that received the
    message, the sequence of fields that was written gives the same fields
    (strings as C strings), whatever the destination of binary data held. *)
Theorem coder_roundtrip (n : Z) (dst : list Z) (f : field) (fs : list field) (msg : list Z) :
  0 <= n < 2 ^ 31 -> Forall field_ok (f :: fs) -> zlen (enc_fields (f :: fs)) < 2 ^ 31 ->
  (forall l, FBinary l ∈ f :: fs -> zlen l <= zlen dst) ->
  build n (put_fields (f :: fs)) = Done msg ->
  exists gs b, Forall2 equiv gs (f :: fs) /\
    get_fields_like dst (f :: fs) (CBuf (msg ++ zeros (Z.to_nat n - length msg)) 0) =
    Done (gs, b) /\ cb_off b = zlen msg.
Proof.
  intros Hn Hok Hlen Hdst Hb.
  rewrite (build_writes _ _ _ Hn (put_fields_writes f fs Hok Hlen)) in Hb.
  destruct (_ <=? _); [|done]. injection Hb as <-.
  destruct (get_fields_cursor dst (f :: fs) [] (zeros (Z.to_nat n - length (enc_fields (f :: fs)))))
    as (gs & Hgs & E); [done..|].
  exists gs. eexists. split; [done|]. split; [exact E|]. done.
Qed.

Lemma build_fields_exact_witness :
  build 8 (put_fields [FInt 1; FInt 105]) = Done [1; 0; 0; 0; 105; 0; 0; 0] /\
  build 8 (put_fields [FInt 1; FInt 105; FByte 7]) = UB.
Proof.
  split.
  - rewrite build_fields_exact; [vm_compute; reflexivity|lia| |vm_compute; reflexivity].
    repeat (apply Forall_cons; split; [vm_compute; reflexivity|]). apply Forall_nil, I.
  - rewrite build_fields_exact; [vm_compute; reflexivity|lia| |vm_compute; reflexivity].
    repeat (apply Forall_cons; split; [vm_compute; reflexivity|]). apply Forall_nil, I.
Defined.

Lemma coder_roundtrip_witness :
  exists gs b, Forall2 equiv gs [FInt (-2); FString (Some [65; 0; 9]); FBinary [7; 8]] /\
    get_fields_like [1; 2; 3] [FInt (-2); FString (Some [65; 0; 9]); FBinary [7; 8]]
      (CBuf ([254; 255; 255; 255; 1; 2; 0; 0; 0; 65; 0; 2; 0; 0; 0; 7; 8] ++
             zeros (Z.to_nat 32 - 17)) 0) = Done (gs, b) /\ cb_off b = 17.
Proof.
  apply (coder_roundtrip 32); [lia| |vm_compute; reflexivity| |vm_compute; reflexivity].
  - repeat (apply Forall_cons; split; [first [vm_compute; reflexivity | by exists 1%nat | done]|]).
    apply Forall_nil, I.
  - intros l Hl. repeat (apply elem_of_cons in Hl as [Hl|Hl]; [simplify_eq; vm_compute; congruence|]).
    by apply elem_of_nil in Hl.
Defined.
