(* ===== verification/LbsUtility.v ===== *)
(** * Sockets, timers, clock and text helpers ([mtk_lbs_utility.c])

    The operating system is the record [sys]: what it will answer to the
    coming calls (results of [socket]/[sendto], clock readings, validity of
    timer ids) and what it has seen so far (the trace, the armed timers).
    Functions of [src/gps/mtk_mnld/utility/src/mtk_lbs_utility.c] are programs
    over [sys]; logging is left out. *)

From stdpp Require Import gmap.
From S2P Require Import Prelude DataCoder.

(** [errno] after a failed call, as far as the code distinguishes it. *)
Inductive errno : Type := EINTR | EAGAIN | EOTHER.
#[export] Instance errno_eq_dec : EqDecision errno.
Proof. solve_decision. Defined.

(** The answer of one system call: a value, or -1 with [errno]. *)
Inductive sysres : Type := ROk (v : Z) | RErr (e : errno).

(** The answer of one [recvfrom]: a datagram, or -1 with [errno]. *)
Inductive recvres : Type := RData (msg : list Z) | RFail (e : errno).

(** Calls into libmnl, which is a binary of the device. *)
Inductive libcall : Type :=
| LInjectNtp (time time_ref uncertainty : Z)
| LInjectNlp (lat lng acc sec nsec started : Z)
| LSetParam (cmd value : Z)
| LSendFlpData (data : list Z)
| LAgpsPmtk (pmtk : option (list Z))
| LAlarm (seconds : Z)
| LOther (name : string).

(** What the world observes of a process. *)
Inductive event : Type :=
| EvSend (path : string) (msg : list Z) (result : Z)
| EvTimer (id sec nsec : Z)
| EvLib (c : libcall).

Record sys : Type := Sys {
  sys_trace : list event;                 (* oldest first *)
  sys_nsend : nat;                        (* send calls made so far *)
  sys_sends : nat -> list sysres;         (* answers during the n-th one *)
  sys_timer_valid : Z -> bool;
  sys_timers : gmap Z (Z * Z);            (* armed timers: seconds, nanoseconds *)
  sys_nclock : nat;
  sys_clock : nat -> option (Z * Z)       (* clock_gettime: seconds, nanoseconds *)
}.

Definition log_event (e : event) : prog sys unit :=
  modify (fun s => Sys (sys_trace s ++ [e]) (sys_nsend s) (sys_sends s) (sys_timer_valid s)
                       (sys_timers s) (sys_nclock s) (sys_clock s)).

(** The answers the system gives during the next send call. *)
Definition next_answers : prog sys (list sysres) :=
  fun s => Done (sys_sends s (sys_nsend s),
                 Sys (sys_trace s) (S (sys_nsend s)) (sys_sends s) (sys_timer_valid s)
                     (sys_timers s) (sys_nclock s) (sys_clock s)).

(** A component whose state contains the operating system. *)
Class HasSys (W : Type) := {
  sys_of : W -> sys;
  set_sys : sys -> W -> W;
  sys_of_set s w : sys_of (set_sys s w) = s;
  set_sys_of w : set_sys (sys_of w) w = w;
  set_set_sys s s' w : set_sys s (set_sys s' w) = set_sys s w
}.

Definition on_sys {W} `{HasSys W} {A} (m : prog sys A) : prog W A :=
  fun w =>
    match m (sys_of w) with
    | Done (a, s) => Done (a, set_sys s w)
    | Crash => Crash
    | UB => UB
    | Blocked => Blocked
    end.

#[export] Instance sys_has_sys : HasSys sys.
Proof. refine {| sys_of := fun s => s; set_sys := fun s _ => s |}; done. Defined.

(** [sun_path] of [struct sockaddr_un]. *)
Definition SUN_PATH_SIZE : Z := 108.
Definition path_len (path : string) : Z := Z.of_nat (String.length path).

Module Lbs.

(** ** Local UDP socket *)

(** The retry loop of [safe_sendto]: [sendto] is repeated on EINTR, and at most
    [retry] times on EAGAIN; [None] while the system has not answered. *)
Fixpoint sendto_loop (answers : list sysres) (retry : Z) : option Z :=
  match answers with
  | [] => None
  | ROk n :: _ => Some n
  | RErr EINTR :: rest => sendto_loop rest retry
  | RErr EAGAIN :: rest =>
      if retry >? 0 then sendto_loop rest (retry - 1) else Some (-1)
  | RErr EOTHER :: _ => Some (-1)
  end.

(** The abstract name is copied after a leading NUL: [memcpy(addr.sun_path + 1,
    path, strlen(path))]. *)
Definition safe_sendto (path : string) (buff : list Z) : prog sys Z :=
  let* answers := next_answers in
  match answers with
  | [] => blocked
  | RErr _ :: _ => ret (-1)
  | ROk fd :: rest =>
      if fd <? 0 then ret (-1)
      else if path_len path + 1 <=? SUN_PATH_SIZE then
        match sendto_loop rest 10 with
        | None => blocked
        | Some r => log_event (EvSend path buff r) ;; ret r
        end
      else undef
  end.

(** Here the path is copied with [strcpy], and the result is 0 or -1. *)
Definition mnld_sendto_flp (dest : string) (buf : list Z) : prog sys Z :=
  let* answers := next_answers in
  match answers with
  | [] => blocked
  | RErr _ :: _ => ret (-1)
  | ROk fd :: rest =>
      if fd <? 0 then ret (-1)
      else if path_len dest + 1 <=? SUN_PATH_SIZE then
        match sendto_loop rest 10 with
        | None => blocked
        | Some r =>
            log_event (EvSend dest buf r) ;;
            ret (if r =? -1 then -1 else 0)
        end
      else undef
  end.

(** The loop of [safe_recvfrom], with the datagram of the call that succeeds. *)
Fixpoint recvfrom_loop (answers : list recvres) (retry : Z) : option (option (list Z)) :=
  match answers with
  | [] => None
  | RData msg :: _ => Some (Some msg)
  | RFail EINTR :: rest => recvfrom_loop rest retry
  | RFail EAGAIN :: rest =>
      if retry >? 0 then recvfrom_loop rest (retry - 1) else Some None
  | RFail EOTHER :: _ => Some None
  end.

(** [char buff[len] = {0}; ret = safe_recvfrom(fd, buff, sizeof(buff))]: the
    result and the buffer; a longer datagram is cut.  [rx] stands for [fd]: the
    answers of the system to [recvfrom] on it. *)
Definition safe_recvfrom (rx : list recvres) (len : Z) : outcome (Z * list Z) :=
  match recvfrom_loop rx 10 with
  | None => Blocked
  | Some None => Done (-1, zeros (Z.to_nat len))
  | Some (Some msg) =>
      let got := take (Z.to_nat len) msg in
      Done (zlen got, got ++ zeros (Z.to_nat len - length got))
  end.

(** ** Timer *)

(** [timer_settime]: arms the timer, or disarms it when the time is zero. *)
Definition timer_settime (id sec nsec : Z) : prog sys Z :=
  fun s =>
    if sys_timer_valid s id
    then Done (0, Sys (sys_trace s ++ [EvTimer id sec nsec]) (sys_nsend s) (sys_sends s)
                      (sys_timer_valid s)
                      (if (sec =? 0) && (nsec =? 0) then delete id (sys_timers s)
                       else <[id := (sec, nsec)]> (sys_timers s))
                      (sys_nclock s) (sys_clock s))
    else Done (-1, s).

Definition start_timer (timerid milliseconds : Z) : prog sys Z :=
  let sec := Z.quot milliseconds 1000 in
  let nsec := Z.rem milliseconds 1000 * 1000000 in
  timer_settime timerid sec nsec.

Definition stop_timer (timerid : Z) : prog sys Z := start_timer timerid 0.

(** ** Clock *)

Definition clock_gettime : prog sys (option (Z * Z)) :=
  fun s => Done (sys_clock s (sys_nclock s),
                 Sys (sys_trace s) (sys_nsend s) (sys_sends s) (sys_timer_valid s)
                     (sys_timers s) (S (sys_nclock s)) (sys_clock s)).

(** [time_t] and [long] are 32-bit in the daemon ([LOCAL_MULTILIB := 32]); a
    signed overflow of [tv_sec * 1000] is undefined. *)
Definition get_tick : prog sys Z :=
  let* ts := clock_gettime in
  match ts with
  | None => ret (-1)
  | Some (sec, nsec) =>
      let t := sec * 1000 + Z.quot nsec 1000000 in
      if is_int (sec * 1000) && is_int t then ret t else undef
  end.

(** The sum is computed in [long long] and converted to [time_t]. *)
Definition get_time_in_millisecond : prog sys Z :=
  let* ts := clock_gettime in
  match ts with
  | None => ret (-1)
  | Some (sec, nsec) => ret (s32 (sec * 1000 + Z.quot nsec 1000000))
  end.

(** ** Text *)

(** [output[i] = v] *)
Definition set_at (output : list Z) (i v : Z) : outcome (list Z) :=
  if (0 <=? i) && (i <? zlen output)
  then Done (<[Z.to_nat i := u8 v]> output) else UB.

Definition obind {A B} (o : outcome A) (k : A -> outcome B) : outcome B :=
  match o with
  | Done a => k a
  | Crash => Crash
  | UB => UB
  | Blocked => Blocked
  end.

Fixpoint usc2_loop (output input : list Z) (len : Z) : outcome (list Z * Z) :=
  match input with
  | [] => UB
  | c :: input' =>
      if c =? 0 then Done (output, len)
      else
        obind (set_at output len 0) (fun o1 =>
        obind (set_at o1 (len + 1) c) (fun o2 =>
        usc2_loop o2 input' (len + 2)))
  end.

(** The new contents of [output], and the length. *)
Definition asc_str_to_usc2_str (output : list Z) (input : cptr) : outcome (list Z * Z) :=
  obind (set_at output 0 0xfe) (fun o1 =>
  obind (set_at o1 1 0xff) (fun o2 =>
  match input with
  | None => UB
  | Some m =>
      obind (usc2_loop o2 m 2) (fun '(o3, len) =>
      obind (set_at o3 len 0) (fun o4 =>
      obind (set_at o4 (len + 1) 0) (fun o5 => Done (o5, len))))
  end)).

Definition hex_digit (tmp : Z) : Z :=
  if (0 <=? tmp) && (tmp <=? 9) then tmp + 48 else (tmp - 10) + 65.

(** [n] iterations of the loop of [raw_data_to_hex_string] from index [i]. *)
Fixpoint hex_loop (output input : list Z) (i : Z) (n : nat) : outcome (list Z) :=
  match n with
  | O => Done output
  | S n' =>
      match input !! Z.to_nat i with
      | None => UB
      | Some c =>
          obind (set_at output (i * 2) (hex_digit (Z.land (Z.shiftr c 4) 0xf))) (fun o1 =>
          obind (set_at o1 (i * 2 + 1) (hex_digit (Z.land c 0xf))) (fun o2 =>
          hex_loop o2 input (i + 1) n'))
      end
  end.

Definition raw_data_to_hex_string (output input : list Z) (input_len : Z) : outcome (list Z) :=
  obind (hex_loop output input 0 (Z.to_nat input_len)) (fun o =>
  set_at o (Z.max 0 input_len * 2) 0).

End Lbs.
Export Lbs.

(** ** Properties of the sockets *)

(** An answer other than "interrupted". *)
Definition is_eintr (a : sysres) : bool :=
  match a with RErr EINTR => true | _ => false end.
Definition is_eagain (a : sysres) : bool :=
  match a with RErr EAGAIN => true | _ => false end.
Definition progress_count (answers : list sysres) : nat :=
  length (List.filter (fun a => negb (is_eintr a)) answers).

Lemma sendto_loop_terminates answers (retry : nat) :
  (retry < progress_count answers)%nat ->
  exists r, sendto_loop answers (Z.of_nat retry) = Some r.
Proof.
  revert retry; induction answers as [|[n|[]] rest IH]; intros retry H;
    unfold progress_count in *; cbn in *; try lia; eauto.
  destruct (Z.gtb_spec (Z.of_nat retry) 0) as [Hr|Hr]; [|eauto].
  replace (Z.of_nat retry - 1) with (Z.of_nat (retry - 1)) by lia. apply IH. lia.
Qed.

(** The send loop always returns once the system has given 11 answers that
    are not EINTR: EINTR is retried for ever, EAGAIN at most ten times. *)
Theorem sendto_loop_returns (answers : list sysres) :
  (11 <= progress_count answers)%nat -> exists r, sendto_loop answers 10 = Some r.
Proof. intros H. apply (sendto_loop_terminates answers 10). lia. Qed.

Lemma sendto_loop_returns_witness :
  exists r, sendto_loop (RErr EINTR :: replicate 11 (RErr EAGAIN)) 10 = Some r.
Proof. apply sendto_loop_returns. vm_compute. lia. Defined.

(** What the send loop returns.  Interruptions and up to ten EAGAIN answers
    before a successful [sendto] are invisible to the caller; the eleventh
    EAGAIN, or any other error, ends the loop with -1. *)
Theorem sendto_loop_result (pre : list sysres) (last : sysres) (rest : list sysres) :
  Forall (fun a => is_eintr a || is_eagain a = true) pre ->
  (length (List.filter is_eagain pre) <= 10)%nat ->
  sendto_loop (pre ++ last :: rest) 10 =
  match last with
  | ROk n => Some n
  | RErr EOTHER => Some (-1)
  | RErr EAGAIN =>
      if (length (List.filter is_eagain pre) =? 10)%nat then Some (-1)
      else sendto_loop rest (9 - Z.of_nat (length (List.filter is_eagain pre)))
  | RErr EINTR => sendto_loop rest (10 - Z.of_nat (length (List.filter is_eagain pre)))
  end.
Proof.
  assert (forall k, 0 <= k -> Forall (fun a => is_eintr a || is_eagain a = true) pre ->
    Z.of_nat (length (List.filter is_eagain pre)) <= k ->
    sendto_loop (pre ++ last :: rest) k =
    sendto_loop (last :: rest) (k - Z.of_nat (length (List.filter is_eagain pre)))) as Hpre.
  { clear. induction pre as [|[n|[]] pre IH]; intros k Hk Hall Hle; cbn in *.
    - by rewrite Z.sub_0_r.
    - apply Forall_cons in Hall as [H _]. done.
    - apply Forall_cons in Hall as [_ H]. by apply IH.
    - apply Forall_cons in Hall as [_ H].
      destruct (Z.gtb_spec k 0); [|lia]. rewrite IH by (done || lia).
      by replace (k - Z.of_nat (S (length (List.filter is_eagain pre))))
        with (k - 1 - zlen (List.filter is_eagain pre)) by lia.
    - apply Forall_cons in Hall as [H' _]. done. }
  intros Hall Hle. rewrite Hpre by (done || lia).
  destruct last as [n|[]]; cbn; try done.
  destruct (Nat.eqb_spec (length (List.filter is_eagain pre)) 10) as [->|Hne]; [done|].
  destruct (Z.gtb_spec (10 - Z.of_nat (length (List.filter is_eagain pre))) 0); [|lia].
  f_equal. lia.
Qed.

Lemma sendto_loop_result_witness :
  sendto_loop ([RErr EINTR; RErr EAGAIN] ++ ROk 12 :: []) 10 = Some 12.
Proof.
  rewrite (sendto_loop_result [RErr EINTR; RErr EAGAIN] (ROk 12) []); [done| |vm_compute; lia].
  repeat (apply Forall_cons; split; [done|]). apply Forall_nil, I.
Defined.

(** A received datagram: its bytes, cut to the buffer, then zeros. *)
Lemma safe_recvfrom_data msg rest n :
  zlen msg <= n ->
  safe_recvfrom (RData msg :: rest) n =
  Done (zlen msg, msg ++ zeros (Z.to_nat n - length msg)).
Proof. intros H. unfold safe_recvfrom. cbn. by rewrite take_ge by lia. Qed.

(** ** Timers *)

(** [start_timer] arms the timer with the same duration, split into whole
    seconds and nanoseconds below one second; [stop_timer] disarms it. *)
Theorem start_timer_duration (id ms : Z) (s : sys) :
  sys_timer_valid s id = true -> 0 < ms ->
  exists s1 sec nsec,
    start_timer id ms s = Done (0, s1) /\ sys_timers s1 = <[id := (sec, nsec)]> (sys_timers s) /\
    sec * 1000000000 + nsec = ms * 1000000 /\ 0 <= nsec < 1000000000 /\
    exists s2, stop_timer id s1 = Done (0, s2) /\ sys_timers s2 = delete id (sys_timers s).
Proof.
  intros Hv Hms. unfold start_timer, stop_timer, timer_settime. rewrite Hv.
  pose proof (Z.quot_rem ms 1000 ltac:(lia)) as Hq.
  pose proof (Z.rem_bound_pos ms 1000 ltac:(lia) ltac:(lia)) as Hr.
  generalize dependent (ms ÷ 1000). generalize dependent (Z.rem ms 1000).
  intros r Hr sec Hq. replace ((sec =? 0) && (r * 1000000 =? 0)) with false
    by (symmetry; apply andb_false_iff; rewrite !Z.eqb_neq; lia).
  eexists _, sec, (r * 1000000). split; [reflexivity|]. cbn [sys_timers].
  split; [done|]. split; [lia|]. split; [lia|].
  unfold start_timer, timer_settime. cbn. rewrite Hv. eexists. split; [reflexivity|]. cbn.
  apply delete_insert_eq.
Qed.

Definition idle_sys : sys :=
  Sys [] 0 (fun _ => [ROk 3; ROk 8]) (fun _ => true) ∅ 0 (fun _ => Some (100, 0)).

Lemma start_timer_duration_witness :
  exists s1 sec nsec,
    start_timer 1 15500 idle_sys = Done (0, s1) /\
    sys_timers s1 = <[1 := (sec, nsec)]> (sys_timers idle_sys) /\
    sec * 1000000000 + nsec = 15500 * 1000000 /\ 0 <= nsec < 1000000000 /\
    exists s2, stop_timer 1 s1 = Done (0, s2) /\ sys_timers s2 = delete 1 (sys_timers idle_sys).
Proof. apply start_timer_duration; [reflexivity|lia]. Defined.

(** On the 32-bit daemon the millisecond clock is cut to 32 bits: the value
    returned is the true one only in the first 24.9 days of 1970. *)
Theorem get_time_in_millisecond_truncated (s : sys) (sec nsec : Z) :
  sys_clock s (sys_nclock s) = Some (sec, nsec) -> 0 <= nsec < 1000000000 -> 2147484 <= sec ->
  exists t s', get_time_in_millisecond s = Done (t, s') /\
    in_s 32 t = true /\ t <> sec * 1000 + nsec / 1000000.
Proof.
  intros Hc Hn Hs. unfold get_time_in_millisecond, bind, clock_gettime. rewrite Hc.
  eexists _, _. split; [reflexivity|]. split; [by apply wrap_s_range|].
  rewrite Z.quot_div_nonneg by lia. pose proof (Z.div_pos nsec 1000000 ltac:(lia) ltac:(lia)).
  intros Heq. pose proof (wrap_s_range 32 (sec * 1000 + nsec / 1000000) ltac:(lia)) as Hr.
  rewrite Heq in Hr. apply in_s_spec in Hr. lia.
Qed.

Lemma get_time_in_millisecond_truncated_witness :
  let s := Sys [] 0 (fun _ => []) (fun _ => true) ∅ 0 (fun _ => Some (1532000000, 5000000)) in
  exists t s', get_time_in_millisecond s = Done (t, s') /\
    in_s 32 t = true /\ t <> 1532000000 * 1000 + 5000000 / 1000000.
Proof. intros s. apply get_time_in_millisecond_truncated; [reflexivity|lia|lia]. Defined.

(** ** Text *)

Lemma set_at_cursor pre x post v :
  set_at (pre ++ x :: post) (zlen pre) v = Done (pre ++ u8 v :: post).
Proof.
  unfold set_at. iftrue. rewrite Nat2Z.id. f_equal.
  replace (length pre) with (length pre + 0)%nat by lia.
  by rewrite insert_app_r.
Qed.

Lemma set_at_out output i v : zlen output <= i -> set_at output i v = UB.
Proof. intros H. unfold set_at. by iffalse. Qed.

(** Big-endian UCS-2 of an ASCII string, and its upper-case hexadecimal. *)
Definition ucs2 (l : list Z) : list Z := concat (map (fun c => [0; c]) l).
Definition hex_of (l : list Z) : list Z :=
  concat (map (fun c => [hex_digit (c / 16); hex_digit (c mod 16)]) l).

Lemma length_ucs2 l : length (ucs2 l) = (2 * length l)%nat.
Proof. unfold ucs2. induction l; cbn in *; lia. Qed.
Lemma length_hex_of l : length (hex_of l) = (2 * length l)%nat.
Proof. unfold hex_of. induction l; cbn in *; lia. Qed.

Lemma usc2_loop_spec l rest pre post :
  0 ∉ l -> bytes_ok l -> (2 * length l <= length post)%nat ->
  usc2_loop (pre ++ post) (l ++ 0 :: rest) (zlen pre) =
  Done (pre ++ ucs2 l ++ drop (2 * length l) post, zlen pre + 2 * zlen l).
Proof.
  revert pre post; induction l as [|c l IH]; intros pre post H0 Hb Hlen.
  - cbn. by rewrite Z.add_0_r.
  - apply not_elem_of_cons in H0 as [Hc H0]. apply Forall_cons in Hb as [Hcb Hb].
    destruct post as [|x [|y post]]; cbn [length] in Hlen; try lia.
    cbn [app usc2_loop]. destruct (Z.eqb_spec c 0); [congruence|].
    rewrite set_at_cursor. cbn [obind].
    change (u8 0) with 0.
    replace (pre ++ 0 :: y :: post) with ((pre ++ [0]) ++ y :: post) by (by rewrite <- app_assoc).
    replace (zlen pre + 1) with (zlen (pre ++ [0])) by (lists; lia).
    rewrite set_at_cursor. cbn [obind]. rewrite (wrap_u_id 8 c) by done.
    replace ((pre ++ [0]) ++ c :: post) with ((pre ++ [0; c]) ++ post) by (by rewrite <- !app_assoc).
    replace (zlen pre + 2) with (zlen (pre ++ [0; c])) by (lists; lia).
    rewrite IH by (done || lia). rewrite <- !app_assoc.
    replace (2 * length (c :: l))%nat with (S (S (2 * length l))) by (cbn; lia).
    do 2 f_equal. lists. lia.
Qed.

Lemma hex_loop_spec l n rest pre post :
  bytes_ok l -> n = length l -> (2 * n <= length post)%nat ->
  forall done_in, zlen pre = 2 * zlen done_in ->
  hex_loop (pre ++ post) (done_in ++ l ++ rest) (zlen done_in) n =
  Done (pre ++ hex_of l ++ drop (2 * n) post).
Proof.
  revert n pre post; induction l as [|c l IH]; intros n pre post Hb -> Hlen din Hpre.
  - cbn. done.
  - apply Forall_cons in Hb as [Hcb Hb]. apply in_u_spec in Hcb.
    destruct post as [|x [|y post]]; cbn [length] in Hlen; try lia.
    cbn [length hex_loop app]. rewrite Nat2Z.id. rewrite list_lookup_middle by done.
    replace (zlen din * 2) with (zlen pre) by lia.
    rewrite set_at_cursor. cbn [obind].
    change 15 with (2 ^ 4 - 1). rewrite !land_mask, Z.shiftr_div_pow2 by lia.
    change (2 ^ 4) with 16.
    assert (0 <= c / 16 < 16) as Hc16
      by (split; [apply Z.div_pos|apply Z.div_lt_upper_bound]; lia).
    rewrite (Z.mod_small (c / 16)) by lia.
    set (h := hex_digit (c / 16)). set (k := hex_digit (c mod 16)).
    assert (is_byte h = true) as Hh.
    { unfold h, hex_digit. apply in_u_spec. destruct (_ && _) eqn:E; unbool; lia. }
    assert (is_byte k = true) as Hk.
    { unfold k, hex_digit. pose proof (Z.mod_pos_bound c 16).
      apply in_u_spec. destruct (_ && _) eqn:E; unbool; lia. }
    rewrite (wrap_u_id 8 h) by done.
    replace (pre ++ h :: y :: post) with ((pre ++ [h]) ++ y :: post) by (by rewrite <- app_assoc).
    replace (zlen pre + 1) with (zlen (pre ++ [h])) by (lists; lia).
    rewrite set_at_cursor. cbn [obind]. rewrite (wrap_u_id 8 k) by done.
    replace ((pre ++ [h]) ++ k :: post) with ((pre ++ [h; k]) ++ post) by (by rewrite <- !app_assoc).
    replace (zlen din + 1) with (zlen (din ++ [c])) by (lists; lia).
    replace (din ++ c :: l ++ rest) with ((din ++ [c]) ++ l ++ rest) by (by rewrite <- !app_assoc).
    rewrite (IH (length l)); [|done|done|lia|lists; lia].
    rewrite <- !app_assoc.
    replace (2 * S (length l))%nat with (S (S (2 * length l))) by lia. done.
Qed.

(** The two conversions one after the other, as [agps_ni_notify] runs them on
    its 1024-byte arrays. *)
Definition ni_text (input : cptr) : outcome (list Z) :=
  obind (asc_str_to_usc2_str (zeros 1024) input) (fun '(ucs2_buff, usc2_len) =>
  raw_data_to_hex_string (zeros 1024) ucs2_buff usc2_len).

Lemma asc_str_to_usc2_str_spec l rest n :
  0 ∉ l -> bytes_ok l -> (2 * length l + 4 <= n)%nat ->
  asc_str_to_usc2_str (zeros n) (Some (l ++ 0 :: rest)) =
  Done ([0xfe; 0xff] ++ ucs2 l ++ zeros (n - 2 * length l - 2), 2 + 2 * zlen l).
Proof.
  intros H0 Hb Hn. unfold asc_str_to_usc2_str.
  destruct n as [|[|n]]; try lia. cbn [replicate].
  change (set_at (0 :: 0 :: zeros n) 0 0xfe)
    with (set_at ([] ++ 0 :: 0 :: zeros n) (zlen (@nil Z)) 0xfe).
  rewrite set_at_cursor. cbn [obind].
  change (u8 0xfe) with 0xfe. cbn [app].
  change (0xfe :: 0 :: zeros n) with ([0xfe] ++ 0 :: zeros n).
  change (set_at ([0xfe] ++ 0 :: zeros n) 1) with (set_at ([0xfe] ++ 0 :: zeros n) (zlen [0xfe])).
  rewrite set_at_cursor. cbn [obind].
  change (u8 0xff) with 0xff. change ([0xfe] ++ 0xff :: zeros n) with ([0xfe; 0xff] ++ zeros n).
  change (usc2_loop ([0xfe; 0xff] ++ zeros n) (l ++ 0 :: rest) 2)
    with (usc2_loop ([0xfe; 0xff] ++ zeros n) (l ++ 0 :: rest) (zlen [0xfe; 0xff])).
  rewrite usc2_loop_spec by (done || (lists; lia)).
  cbn [obind]. rewrite drop_replicate.
  set (k := (n - 2 * length l)%nat).
  assert (exists j, k = S (S j)) as [j Hj] by (exists (k - 2)%nat; unfold k; lia).
  rewrite Hj. cbn [replicate].
  rewrite app_assoc.
  replace (zlen [0xfe; 0xff] + 2 * zlen l) with (zlen ([0xfe; 0xff] ++ ucs2 l))
    by (lists; rewrite length_ucs2; lia).
  rewrite set_at_cursor. cbn [obind]. change (u8 0) with 0.
  replace (([0xfe; 0xff] ++ ucs2 l) ++ 0 :: 0 :: zeros j)
    with ((([0xfe; 0xff] ++ ucs2 l) ++ [0]) ++ 0 :: zeros j) by (by rewrite <- app_assoc).
  replace (zlen ([0xfe; 0xff] ++ ucs2 l) + 1) with (zlen (([0xfe; 0xff] ++ ucs2 l) ++ [0]))
    by (lists; lia).
  rewrite set_at_cursor. cbn [obind]. change (u8 0) with 0. do 2 f_equal.
  - rewrite <- !app_assoc. do 2 f_equal.
    replace (S (S n) - 2 * length l - 2)%nat with (S (S j)) by (unfold k in Hj; lia). done.
  - lists. rewrite length_ucs2. lia.
Qed.

Lemma ucs2_ok l : bytes_ok l -> bytes_ok (ucs2 l).
Proof. unfold ucs2, bytes_ok. induction 1; cbn; by repeat constructor. Qed.

Lemma ni_text_hex (l rest : list Z) :
  0 ∉ l -> bytes_ok l -> (length l <= 254)%nat ->
  ni_text (Some (l ++ 0 :: rest)) =
  Done (hex_of ([0xfe; 0xff] ++ ucs2 l) ++ zeros (1020 - 4 * length l)).
Proof.
  intros H0 Hb Hl. unfold ni_text. rewrite asc_str_to_usc2_str_spec by (done || lia).
  cbn [obind]. unfold raw_data_to_hex_string. rewrite app_assoc.
  set (u := [0xfe; 0xff] ++ ucs2 l).
  assert (length u = (2 + 2 * length l)%nat) as Hu by (unfold u; lists; rewrite length_ucs2; lia).
  pose proof (hex_loop_spec u (length u) (zeros (1024 - 2 * length l - 2)) [] (zeros 1024)) as H.
  specialize (H ltac:(apply Forall_app; split; [repeat constructor|by apply ucs2_ok]) eq_refl
                ltac:(rewrite length_replicate; lia) [] eq_refl).
  cbn [app length] in H. replace (Z.to_nat (2 + 2 * zlen l)) with (length u) by lia.
  change (Z.of_nat 0) with 0 in H. rewrite H. cbn [obind]. rewrite drop_replicate.
  replace (1024 - 2 * length u)%nat with (S (1019 - 4 * length l)) by lia. cbn [replicate].
  replace (Z.max 0 (2 + 2 * zlen l) * 2) with (zlen (hex_of u)) by (rewrite length_hex_of; lia).
  rewrite set_at_cursor. change (u8 0) with 0. do 2 f_equal.
  by replace (1020 - 4 * length l)%nat with (S (1019 - 4 * length l)) by lia.
Qed.

(** The text sent to the HAL for a requestor or client name of at most 254
    bytes is the hexadecimal of its UCS-2 form with a byte-order mark, followed
    by zeros; nothing is written outside the two 1024-byte arrays. *)
Theorem ni_text_correct (l rest : list Z) :
  0 ∉ l -> bytes_ok l -> (length l <= 254)%nat ->
  ni_text (Some (l ++ 0 :: rest)) =
  Done (hex_of ([0xfe; 0xff] ++ ucs2 l) ++ zeros (1020 - 4 * length l)).
Proof. apply ni_text_hex. Qed.

Lemma ni_text_correct_witness :
  ni_text (Some ([65; 66] ++ 0 :: [7])) =
  Done (hex_of ([0xfe; 0xff] ++ ucs2 [65; 66]) ++ zeros (1020 - 4 * 2)).
Proof.
  apply (ni_text_correct [65; 66] [7]); [|repeat constructor|cbn; lia].
  intros H. repeat (apply elem_of_cons in H as [H|H]; [done|]). by apply elem_of_nil in H.
Defined.

Lemma usc2_loop_overflow l rest pre post :
  0 ∉ l -> (length post < 2 * length l)%nat ->
  usc2_loop (pre ++ post) (l ++ 0 :: rest) (zlen pre) = UB.
Proof.
  revert pre post; induction l as [|c l IH]; intros pre post H0 Hlen; [cbn in Hlen; lia|].
  apply not_elem_of_cons in H0 as [Hc H0]. cbn [app usc2_loop].
  destruct (Z.eqb_spec c 0); [congruence|].
  destruct post as [|x [|y post]].
  - by rewrite set_at_out by (lists; lia).
  - rewrite set_at_cursor. cbn [obind]. by rewrite set_at_out by (lists; lia).
  - rewrite set_at_cursor. cbn [obind].
    replace (pre ++ u8 0 :: y :: post) with ((pre ++ [u8 0]) ++ y :: post) by (by rewrite <- app_assoc).
    replace (zlen pre + 1) with (zlen (pre ++ [u8 0])) by (lists; lia).
    rewrite set_at_cursor. cbn [obind].
    replace ((pre ++ [u8 0]) ++ u8 c :: post) with ((pre ++ [u8 0; u8 c]) ++ post)
      by (by rewrite <- !app_assoc).
    replace (zlen pre + 2) with (zlen (pre ++ [u8 0; u8 c])) by (lists; lia).
    apply IH; [done|]. cbn in Hlen. lia.
Qed.

Lemma hex_loop_overflow l rest pre post :
  (length post < 2 * length l)%nat ->
  forall done_in, zlen pre = 2 * zlen done_in ->
  hex_loop (pre ++ post) (done_in ++ l ++ rest) (zlen done_in) (length l) = UB.
Proof.
  revert pre post; induction l as [|c l IH]; intros pre post Hlen din Hpre; [cbn in Hlen; lia|].
  cbn [length hex_loop app]. rewrite Nat2Z.id, list_lookup_middle by done.
  replace (zlen din * 2) with (zlen pre) by lia.
  destruct post as [|x [|y post]].
  - by rewrite set_at_out by (lists; lia).
  - rewrite set_at_cursor. cbn [obind]. by rewrite set_at_out by (lists; lia).
  - rewrite set_at_cursor. cbn [obind]. set (h := u8 _).
    replace (pre ++ h :: y :: post) with ((pre ++ [h]) ++ y :: post) by (by rewrite <- app_assoc).
    replace (zlen pre + 1) with (zlen (pre ++ [h])) by (lists; lia).
    rewrite set_at_cursor. cbn [obind]. set (k := u8 _).
    replace ((pre ++ [h]) ++ k :: post) with ((pre ++ [h; k]) ++ post) by (by rewrite <- !app_assoc).
    replace (zlen din + 1) with (zlen (din ++ [c])) by (lists; lia).
    replace (din ++ c :: l ++ rest) with ((din ++ [c]) ++ l ++ rest) by (by rewrite <- !app_assoc).
    apply IH; [cbn in Hlen; lia|lists; lia].
Qed.

(** A requestor or client name of 255 bytes or more, or a null one, makes
    the conversion write outside its 1024-byte arrays (or dereference null):
    the length the AGPS daemon sends is never checked. *)
Theorem ni_text_overflow (l rest : list Z) :
  0 ∉ l -> bytes_ok l -> (255 <= length l)%nat ->
  ni_text (Some (l ++ 0 :: rest)) = UB /\ ni_text None = UB.
Proof.
  intros H0 Hb Hl. split; [|done]. unfold ni_text.
  destruct (decide (2 * length l + 4 <= 1024)%nat) as [Hfit|Hbig].
  - rewrite asc_str_to_usc2_str_spec by done. cbn [obind]. unfold raw_data_to_hex_string.
    rewrite app_assoc. set (u := [0xfe; 0xff] ++ ucs2 l).
    assert (length u = (2 + 2 * length l)%nat) as Hu by (unfold u; lists; rewrite length_ucs2; lia).
    replace (Z.to_nat (2 + 2 * zlen l)) with (length u) by lia.
    destruct (decide (length l = 255%nat)) as [E|E].
    + pose proof (hex_loop_spec u (length u) (zeros (1024 - 2 * length l - 2)) [] (zeros 1024)) as H.
      specialize (H ltac:(apply Forall_app; split; [repeat constructor|by apply ucs2_ok]) eq_refl
                    ltac:(rewrite length_replicate; lia) [] eq_refl).
      cbn [app length] in H. change (Z.of_nat 0) with 0 in H. rewrite H. cbn [obind].
      apply set_at_out. lists. rewrite length_hex_of. lia.
    + pose proof (hex_loop_overflow u (zeros (1024 - 2 * length l - 2)) [] (zeros 1024)) as H.
      specialize (H ltac:(rewrite length_replicate; lia) [] eq_refl).
      cbn [app length] in H. change (Z.of_nat 0) with 0 in H. by rewrite H.
  - unfold asc_str_to_usc2_str. change (zeros 1024) with (0 :: 0 :: zeros 1022) at 1.
    change (set_at (0 :: 0 :: zeros 1022) 0 0xfe) with (Done (0xfe :: 0 :: zeros 1022)).
    cbn [obind]. change (set_at (0xfe :: 0 :: zeros 1022) 1 0xff)
      with (Done ([0xfe; 0xff] ++ zeros 1022)). cbn [obind].
    change (usc2_loop ([0xfe; 0xff] ++ zeros 1022) (l ++ 0 :: rest) 2)
      with (usc2_loop ([0xfe; 0xff] ++ zeros 1022) (l ++ 0 :: rest) (zlen [0xfe; 0xff])).
    destruct (decide (length l = 511%nat)) as [E|E].
    + rewrite usc2_loop_spec by (done || (lists; lia)). cbn [obind].
      by rewrite set_at_out by (lists; rewrite length_ucs2; lists; lia).
    + by rewrite usc2_loop_overflow by (done || (lists; lia)).
Qed.

Lemma ni_text_overflow_witness :
  ni_text (Some (replicate 255 65 ++ 0 :: [])) = UB /\ ni_text None = UB.
Proof.
  apply (ni_text_overflow (replicate 255 65) []).
  - intros H. by apply elem_of_replicate in H as [H _].
  - apply Forall_replicate. done.
  - rewrite length_replicate. lia.
Defined.
