(* ===== verification/Layout.v ===== *)
(** * Object representation of the structs that cross process boundaries

    The messages between the daemon and the HAL carry whole C structs
    ([put_binary(..., &x, sizeof(x))]).  Their layout is computed here from the
    declarations of [hal_mnl_interface_common.h] by the rules of the ARM ABIs:
    ILP32 for the daemon ([LOCAL_MULTILIB := 32]) and LP64 for the HAL library
    that the 64-bit system server loads ([TARGET_ARCH := arm64]). *)

From S2P Require Import Prelude DataCoder.

Inductive abi : Type := ILP32 | LP64.
#[export] Instance abi_eq_dec : EqDecision abi.
Proof. solve_decision. Defined.

(** A scalar of [n] bytes (naturally aligned), [size_t] or a pointer, an array,
    a struct, a member declared under [#pragma pack(n)]. *)
#[warnings="-register-all"]
Inductive ctype : Type :=
| CInt (n : Z)
| CWord
| CArr (n : Z) (t : ctype)
| CStruct (fs : list (string * ctype))
| CPack (n : Z) (t : ctype).

Definition word_size (a : abi) : Z := match a with ILP32 => 4 | LP64 => 8 end.

Fixpoint alignof (a : abi) (t : ctype) : Z :=
  match t with
  | CInt n => n
  | CWord => word_size a
  | CArr _ t => alignof a t
  | CStruct fs =>
      (fix go (fs : list (string * ctype)) : Z :=
         match fs with
         | [] => 1
         | (_, t) :: r => Z.max (alignof a t) (go r)
         end) fs
  | CPack n t => Z.min n (alignof a t)
  end.

Definition round_up (n al : Z) : Z := (n + al - 1) / al * al.

Fixpoint sizeof (a : abi) (t : ctype) : Z :=
  match t with
  | CInt n => n
  | CWord => word_size a
  | CArr n t => n * sizeof a t
  | CStruct fs =>
      let last :=
        (fix go (off : Z) (fs : list (string * ctype)) : Z :=
           match fs with
           | [] => off
           | (_, t) :: r => go (round_up off (alignof a t) + sizeof a t) r
           end) 0 fs in
      round_up last (alignof a (CStruct fs))
  | CPack _ t => sizeof a t
  end.

(** A struct declared under [#pragma pack(n)]: no member is aligned to more than
    [n], so neither is the struct. *)
Definition packed (n : Z) (fs : list (string * ctype)) : ctype :=
  CStruct (map (fun ft => (ft.1, CPack n ft.2)) fs).

(** [offsetof] of a member, and its type. *)
Fixpoint offset_from (a : abi) (off : Z) (fs : list (string * ctype)) (f : string)
  : option (Z * ctype) :=
  match fs with
  | [] => None
  | (g, t) :: r =>
      let o := round_up off (alignof a t) in
      if String.eqb f g then Some (o, t) else offset_from a (o + sizeof a t) r f
  end.
Definition offsetof (a : abi) (t : ctype) (f : string) : option (Z * ctype) :=
  match t with CStruct fs => offset_from a 0 fs f | _ => None end.

(** The bytes of a member of an object, as an unsigned number. *)
Fixpoint le_val (l : list Z) : Z :=
  match l with [] => 0 | c :: l' => c + 256 * le_val l' end.

Lemma le_val_app l1 l2 : le_val (l1 ++ l2) = le_val l1 + 256 ^ zlen l1 * le_val l2.
Proof.
  induction l1 as [|c l1 IH]; [cbn; lia|]. cbn [app le_val]. rewrite IH.
  cbn [length]. rewrite Nat2Z.inj_succ, Z.pow_succ_r by lia. lia.
Qed.

Lemma le_val_le_bytes n x : le_val (le_bytes n x) = x mod 256 ^ Z.of_nat n.
Proof.
  revert x; induction n as [|n IH]; intros x; [by rewrite Z.mod_1_r|].
  cbn [le_bytes le_val]. rewrite IH, Nat2Z.inj_succ, Z.pow_succ_r by lia.
  rewrite Z.rem_mul_r by lia. done.
Qed.

Definition member (a : abi) (t : ctype) (obj : list Z) (f : string) : Z :=
  match offsetof a t f with
  | Some (o, ft) => le_val (take (Z.to_nat (sizeof a ft)) (drop (Z.to_nat o) obj))
  | None => 0
  end.

(** [obj.f = v] *)
Definition set_member (a : abi) (t : ctype) (f : string) (v : Z) (obj : list Z) : list Z :=
  match offsetof a t f with
  | Some (o, ft) =>
      let n := Z.to_nat (sizeof a ft) in
      take (Z.to_nat o) obj ++ le_bytes n v ++ drop (Z.to_nat o + n) obj
  | None => obj
  end.

Module HalTypes.
Local Open Scope string_scope.

Definition c_char := CInt 1.
Definition c_bool := CInt 1.
Definition c_short := CInt 2.
Definition c_int := CInt 4.
Definition c_int64 := CInt 8.
Definition c_float := CInt 4.
Definition c_double := CInt 8.
Definition c_size_t := CWord.

Definition GNSS_MAX_SVS : Z := 64.
Definition GPS_MAX_MEASUREMENT : Z := 32.
Definition GNSS_MAX_MEASUREMENT : Z := 64.

Definition gps_location : ctype := CStruct
  [ ("flags", c_int); ("lat", c_double); ("lng", c_double); ("alt", c_double);
    ("speed", c_float); ("bearing", c_float); ("accuracy", c_float);
    ("timestamp", c_int64) ].

Definition gnss_sv : ctype := CStruct
  [ ("svid", c_short); ("constellation", c_char); ("c_n0_dbhz", c_float);
    ("elevation", c_float); ("azimuth", c_float); ("flags", c_char) ].

Definition gnss_sv_info : ctype := CStruct
  [ ("num_svs", c_int); ("sv_list", CArr GNSS_MAX_SVS gnss_sv) ].

Definition gps_clock : ctype := CStruct
  [ ("flags", c_short); ("leap_second", c_short); ("type", c_char); ("time_ns", c_int64);
    ("time_uncertainty_ns", c_double); ("full_bias_ns", c_int64); ("bias_ns", c_double);
    ("bias_uncertainty_ns", c_double); ("drift_nsps", c_double);
    ("drift_uncertainty_nsps", c_double) ].

Definition gnss_clock : ctype := CStruct
  [ ("flags", c_short); ("leap_second", c_short); ("time_ns", c_int64);
    ("time_uncertainty_ns", c_double); ("full_bias_ns", c_int64); ("bias_ns", c_double);
    ("bias_uncertainty_ns", c_double); ("drift_nsps", c_double);
    ("drift_uncertainty_nsps", c_double); ("hw_clock_discontinuity_count", c_int) ].

Definition gps_measurement : ctype := CStruct
  [ ("flags", c_int); ("prn", c_char); ("time_offset_ns", c_double); ("state", c_short);
    ("received_gps_tow_ns", c_int64); ("received_gps_tow_uncertainty_ns", c_int64);
    ("c_n0_dbhz", c_double); ("pseudorange_rate_mps", c_double);
    ("pseudorange_rate_uncertainty_mps", c_double); ("accumulated_delta_range_state", c_short);
    ("accumulated_delta_range_m", c_double); ("accumulated_delta_range_uncertainty_m", c_double);
    ("pseudorange_m", c_double); ("pseudorange_uncertainty_m", c_double);
    ("code_phase_chips", c_double); ("code_phase_uncertainty_chips", c_double);
    ("carrier_frequency_hz", c_float); ("carrier_cycles", c_int64); ("carrier_phase", c_double);
    ("carrier_phase_uncertainty", c_double); ("loss_of_lock", c_char); ("bit_number", c_int);
    ("time_from_last_bit_ms", c_short); ("doppler_shift_hz", c_double);
    ("doppler_shift_uncertainty_hz", c_double); ("multipath_indicator", c_char);
    ("snr_db", c_double); ("elevation_deg", c_double); ("elevation_uncertainty_deg", c_double);
    ("azimuth_deg", c_double); ("azimuth_uncertainty_deg", c_double); ("used_in_fix", c_bool) ].

Definition gnss_measurement : ctype := CStruct
  [ ("flags", c_int); ("svid", c_short); ("constellation", c_char); ("time_offset_ns", c_double);
    ("state", c_int); ("received_sv_time_in_ns", c_int64);
    ("received_sv_time_uncertainty_in_ns", c_int64); ("c_n0_dbhz", c_double);
    ("pseudorange_rate_mps", c_double); ("pseudorange_rate_uncertainty_mps", c_double);
    ("accumulated_delta_range_state", c_short); ("accumulated_delta_range_m", c_double);
    ("accumulated_delta_range_uncertainty_m", c_double); ("carrier_frequency_hz", c_float);
    ("carrier_cycles", c_int64); ("carrier_phase", c_double);
    ("carrier_phase_uncertainty", c_double); ("multipath_indicator", c_char);
    ("snr_db", c_double) ].

Definition gps_data : ctype := CStruct
  [ ("measurement_count", c_size_t); ("measurements", CArr GPS_MAX_MEASUREMENT gps_measurement);
    ("clock", gps_clock) ].

Definition gnss_data : ctype := CStruct
  [ ("measurement_count", c_size_t);
    ("measurements", CArr GNSS_MAX_MEASUREMENT gnss_measurement); ("clock", gnss_clock) ].

Definition gps_nav_msg : ctype := CStruct
  [ ("prn", c_char); ("type", c_char); ("status", c_short); ("message_id", c_short);
    ("submessage_id", c_short); ("data_length", c_size_t); ("data", CArr 40 c_char) ].

Definition gnss_nav_msg : ctype := CStruct
  [ ("size", c_size_t); ("svid", c_short); ("type", c_short); ("status", c_short);
    ("message_id", c_short); ("submessage_id", c_short); ("data_length", c_size_t);
    ("data", CWord) ].

(** [struct sockaddr_storage] of the C library: 128 bytes, word-aligned. *)
Definition sockaddr_storage : ctype := CStruct [ ("bytes", CArr 128 c_char) ].

(** [mnl_agps_agps_location] of [mnl_agps_interface.h]. *)
Definition mnl_agps_agps_location : ctype := CStruct
  [ ("latitude", c_double); ("longitude", c_double); ("altitude_used", c_char);
    ("altitude", c_double); ("speed_used", c_char); ("speed", c_float);
    ("bearing_used", c_char); ("bearing", c_float); ("accuracy_used", c_char);
    ("accuracy", c_float); ("timestamp_used", c_char); ("timestamp", c_int64) ].

End HalTypes.
