(* ===== verification/Structs.v ===== *)
(** * Structs as the values of their members

    The object of a C struct written member by member into zeroed memory, as
    the code does before it sends one, and what is read back from it, also under
    the other ABI when that puts the member at the same place. *)

From stdpp Require Import list strings.
From S2P Require Import Prelude DataCoder Layout.

(** Where the members end. *)
Fixpoint end_from (a : abi) (off : Z) (fs : list (string * ctype)) : Z :=
  match fs with
  | [] => off
  | (_, t) :: r => end_from a (round_up off (alignof a t) + sizeof a t) r
  end.

Definition fields (t : ctype) : list (string * ctype) := match t with CStruct fs => fs | _ => [] end.

(** The bytes of a member, and those of element [i] of the array [f]. *)
Definition object (a : abi) (t : ctype) (obj : list Z) (f : string) : list Z :=
  match offsetof a t f with
  | Some (o, ft) => take (Z.to_nat (sizeof a ft)) (drop (Z.to_nat o) obj)
  | None => []
  end.
Definition element (a : abi) (t : ctype) (obj : list Z) (f : string) (i : Z) : list Z :=
  match offsetof a t f with
  | Some (o, CArr _ et) =>
      take (Z.to_nat (sizeof a et)) (drop (Z.to_nat (o + i * sizeof a et)) obj)
  | _ => []
  end.

(** The values of some members, as bytes. *)
Definition values : Type := string -> option (list Z).

(** Zeroed memory in which the members have been stored, those without a value
    left as they are. *)
Fixpoint fields_image (a : abi) (off : Z) (fs : list (string * ctype)) (v : values) : list Z :=
  match fs with
  | [] => []
  | (f, t) :: r =>
      let o := round_up off (alignof a t) in
      zeros (Z.to_nat (o - off)) ++ default (zeros (Z.to_nat (sizeof a t))) (v f) ++
      fields_image a (o + sizeof a t) r v
  end.
Definition struct_image (a : abi) (t : ctype) (v : values) : list Z :=
  match t with
  | CStruct fs =>
      let l := fields_image a 0 fs v in l ++ zeros (Z.to_nat (sizeof a t) - length l)
  | _ => []
  end.

(** The name under which the source keeps a member. *)
Fixpoint source_of (pairs : list (string * string)) (f : string) : option string :=
  match pairs with
  | [] => None
  | (g, h) :: r => if String.eqb f g then Some h else source_of r f
  end.
(** [dst.g = src.h] for the pairs [(g, h)]. *)
Definition fields_copied (a : abi) (pairs : list (string * string)) (t : ctype) (src : list Z) : values :=
  fun f => object a t src <$> source_of pairs f.
Definition same_name (fs : list string) : list (string * string) := map (fun f => (f, f)) fs.

(** ** Sizes *)

Definition wf_fields (a : abi) (fs : list (string * ctype)) : bool :=
  forallb (fun ft => (0 <? alignof a ft.2) && (0 <=? sizeof a ft.2)) fs.
(** Every value has the size of its member. *)
Definition sized (a : abi) (fs : list (string * ctype)) (v : values) : Prop :=
  Forall (fun ft => match v ft.1 with Some l => zlen l = sizeof a ft.2 | None => True end) fs.

Lemma length_zeros n : length (zeros n) = n.
Proof. apply length_replicate. Qed.

Lemma round_up_le n al : 0 < al -> n <= round_up n al.
Proof.
  intros H. unfold round_up. pose proof (Z.mod_pos_bound (n + al - 1) al H).
  pose proof (Z.div_mod (n + al - 1) al). lia.
Qed.

Lemma wf_fields_cons a f t r :
  wf_fields a ((f, t) :: r) = true -> 0 < alignof a t /\ 0 <= sizeof a t /\ wf_fields a r = true.
Proof. unfold wf_fields. cbn. rewrite !andb_true_iff, Z.ltb_lt, Z.leb_le. tauto. Qed.

Lemma end_from_le a off fs : wf_fields a fs = true -> off <= end_from a off fs.
Proof.
  revert off. induction fs as [|[f t] r IH]; intros off H; [done|].
  apply wf_fields_cons in H as (Ha & Hs & H). cbn [end_from].
  pose proof (round_up_le off _ Ha). specialize (IH (round_up off (alignof a t) + sizeof a t) H). lia.
Qed.

Lemma sizeof_struct a fs : sizeof a (CStruct fs) = round_up (end_from a 0 fs) (alignof a (CStruct fs)).
Proof. cbn [sizeof]. f_equal. generalize 0. induction fs as [|[f t] r IH]; intros off; [done|apply IH]. Qed.

Lemma value_size a f t r v :
  sized a ((f, t) :: r) v -> 0 <= sizeof a t ->
  length (default (zeros (Z.to_nat (sizeof a t))) (v f)) = Z.to_nat (sizeof a t).
Proof.
  intros H Hs. apply Forall_cons in H as [H _]. cbn in H. destruct (v f) as [l|]; cbn; [lia|apply length_zeros].
Qed.

Lemma length_fields_image a off fs v :
  wf_fields a fs = true -> sized a fs v -> zlen (fields_image a off fs v) = end_from a off fs - off.
Proof.
  revert off. induction fs as [|[f t] r IH]; intros off H Hv; [cbn; lia|].
  apply wf_fields_cons in H as (Ha & Hs & H). cbn [fields_image end_from]. rewrite !length_app, length_zeros.
  rewrite (value_size _ _ _ _ _ Hv Hs), !Nat2Z.inj_add, IH by (done || by apply Forall_cons in Hv as [_ ?]).
  pose proof (round_up_le off _ Ha). lia.
Qed.

(** ** Members read back *)

Lemma offset_from_le a off fs f o t :
  wf_fields a fs = true -> offset_from a off fs f = Some (o, t) -> off <= o.
Proof.
  revert off. induction fs as [|[g u] r IH]; intros off H E; [done|].
  apply wf_fields_cons in H as (Ha & Hs & H). cbn [offset_from] in E. pose proof (round_up_le off _ Ha).
  destruct (String.eqb f g); [injection E as <- _; done|]. specialize (IH _ H E). lia.
Qed.

Lemma read_field a off fs v f o t rest :
  wf_fields a fs = true -> sized a fs v -> offset_from a off fs f = Some (o, t) ->
  take (Z.to_nat (sizeof a t)) (drop (Z.to_nat (o - off)) (fields_image a off fs v ++ rest)) =
  default (zeros (Z.to_nat (sizeof a t))) (v f).
Proof.
  revert off. induction fs as [|[g u] r IH]; intros off H Hv E; [done|].
  pose proof (wf_fields_cons _ _ _ _ H) as (Ha & Hs & H'). pose proof (round_up_le off _ Ha) as Hr.
  pose proof (value_size _ _ _ _ _ Hv Hs) as Hl. cbn [offset_from fields_image] in *.
  set (p := round_up off (alignof a u)) in *. rewrite <- !app_assoc.
  destruct (String.eqb_spec f g) as [->|Hne].
  - injection E as <- <-. rewrite drop_app_length' by (rewrite length_zeros; lia).
    rewrite take_app_length' by (by rewrite Hl). done.
  - pose proof (offset_from_le _ _ _ _ _ _ H' E) as Ho.
    rewrite <- (IH (p + sizeof a u) H') by (done || by apply Forall_cons in Hv as [_ ?]).
    rewrite drop_app_ge by (rewrite length_zeros; lia). rewrite drop_app_ge by (rewrite length_zeros, Hl; lia).
    do 2 f_equal. rewrite length_zeros, Hl. lia.
Qed.

Section image.
Context (a : abi) (fs : list (string * ctype)) (v : values).
Context (Hwf : wf_fields a fs = true) (Hsize : sized a fs v).

Lemma object_image f o t :
  offsetof a (CStruct fs) f = Some (o, t) ->
  object a (CStruct fs) (struct_image a (CStruct fs) v) f = default (zeros (Z.to_nat (sizeof a t))) (v f).
Proof.
  intros E. unfold object, struct_image. rewrite E. cbn in E.
  replace (Z.to_nat o) with (Z.to_nat (o - 0)) by lia. by apply read_field.
Qed.

Lemma length_struct_image : 0 < alignof a (CStruct fs) -> zlen (struct_image a (CStruct fs) v) = sizeof a (CStruct fs).
Proof.
  intros Ha. pose proof (sizeof_struct a fs) as E.
  pose proof (round_up_le (end_from a 0 fs) _ Ha) as Hr. pose proof (length_fields_image a 0 fs v Hwf Hsize) as Hl.
  unfold struct_image. rewrite length_app, length_zeros. lia.
Qed.
End image.

(** A reader under another ABI that finds the member at the same place. *)
Definition same_place (a b : abi) (t : ctype) (f : string) : bool :=
  match offsetof a t f, offsetof b t f with
  | Some (o, ft), Some (o', ft') => (o =? o') && (sizeof a ft =? sizeof b ft')
  | _, _ => false
  end.

Lemma object_abi a b t obj f : same_place a b t f = true -> object b t obj f = object a t obj f.
Proof.
  unfold same_place, object. destruct (offsetof a t f) as [[o ft]|]; [|done].
  destruct (offsetof b t f) as [[o' ft']|]; [|done]. intros H. apply andb_true_iff in H as [H1 H2].
  apply Z.eqb_eq in H1 as <-. by apply Z.eqb_eq in H2 as <-.
Qed.

Lemma member_object a t obj f : member a t obj f = le_val (object a t obj f).
Proof. unfold member, object. by destruct (offsetof a t f) as [[o ft]|]. Qed.

Lemma le_val_zeros n : le_val (zeros n) = 0.
Proof. induction n as [|n IH]; [done|]. cbn. by rewrite IH. Qed.

(** What another process reads of the image. *)
Lemma member_image a b fs v f :
  wf_fields a fs = true -> sized a fs v -> same_place a b (CStruct fs) f = true ->
  member b (CStruct fs) (struct_image a (CStruct fs) v) f = from_option le_val 0 (v f).
Proof.
  intros Hwf Hv Hs. rewrite member_object, (object_abi a b) by done. unfold same_place in Hs.
  destruct (offsetof a (CStruct fs) f) as [[o t]|] eqn:E; [|done].
  rewrite (object_image a fs v Hwf Hv f o t E). destruct (v f); [done|apply le_val_zeros].
Qed.

(** Members that are copied have the size of those they are copied to. *)
Definition copies_fit (a : abi) (pairs : list (string * string)) (t : ctype) (fs : list (string * ctype)) : bool :=
  forallb (fun ft =>
    match source_of pairs ft.1 with
    | None => true
    | Some g =>
        match offsetof a t g with
        | Some (o, gt) => (0 <=? o) && (sizeof a gt =? sizeof a ft.2) && (o + sizeof a gt <=? sizeof a t) && (0 <=? sizeof a gt)
        | None => false
        end
    end) fs.

Lemma copies_sized a pairs t fs src :
  copies_fit a pairs t fs = true -> zlen src = sizeof a t -> sized a fs (fields_copied a pairs t src).
Proof.
  intros H Hl. unfold sized. apply Forall_forall. intros [f ft] Hin.
  apply (proj1 (forallb_forall _ _) H) in Hin || (apply list_elem_of_In, (proj1 (forallb_forall _ _) H) in Hin).
  cbn in *. unfold fields_copied. destruct (source_of pairs f) as [g|]; [|done]. cbn. unfold object.
  destruct (offsetof a t g) as [[o gt]|]; [|done]. rewrite !andb_true_iff in Hin.
  rewrite length_take, length_drop. lia.
Qed.

Lemma source_same l f : In f l -> source_of (same_name l) f = Some f.
Proof.
  induction l as [|g l IH]; [done|]. intros H. cbn. destruct (String.eqb_spec f g) as [->|Hne]; [done|].
  apply IH. destruct H as [->|H]; done.
Qed.

(** One more member stored, maybe. *)
Definition stored (b : bool) (g : string) (l : list Z) (v : values) : values :=
  fun f => if b && String.eqb f g then Some l else v f.
Definition fits (a : abi) (g : string) (n : Z) (fs : list (string * ctype)) : bool :=
  forallb (fun ft => negb (String.eqb ft.1 g) || (n =? sizeof a ft.2)) fs.

Lemma stored_sized a fs b g l v : fits a g (zlen l) fs = true -> sized a fs v -> sized a fs (stored b g l v).
Proof.
  intros H Hv. apply Forall_forall. intros [f t] Hin. cbn. unfold stored.
  apply (proj1 (Forall_forall _ _) Hv) in Hin as Hf. destruct b; [cbn [andb]|exact Hf].
  apply list_elem_of_In, (proj1 (forallb_forall _ _) H) in Hin. cbn in Hin.
  destruct (String.eqb f g); [|exact Hf]. by apply Z.eqb_eq in Hin.
Qed.

Lemma none_sized a fs : sized a fs (fun _ => None).
Proof. by apply Forall_forall. Qed.

(** An element of an array of which the object has all the bytes. *)
Lemma element_object a t obj f o n et i :
  offsetof a t f = Some (o, CArr n et) -> 0 <= o -> 0 <= sizeof a et -> 0 <= i < n ->
  element a t obj f i =
  take (Z.to_nat (sizeof a et)) (drop (Z.to_nat i * Z.to_nat (sizeof a et)) (object a t obj f)).
Proof.
  intros E Ho Hs Hi. unfold element, object. rewrite E. cbn [sizeof].
  replace (Z.to_nat (n * sizeof a et))
    with (Z.to_nat i * Z.to_nat (sizeof a et) + Z.to_nat ((n - i) * sizeof a et))%nat by nia.
  rewrite <- take_drop_commute, take_take, drop_drop.
  replace (_ `min` _)%nat with (Z.to_nat (sizeof a et)) by nia.
  do 2 f_equal. nia.
Qed.

Lemma concat_element {A} n (f : A -> list Z) l k x :
  (forall x, In x l -> length (f x) = n) -> l !! k = Some x -> take n (drop (k * n) (concat (map f l))) = f x.
Proof.
  revert k. induction l as [|y l IH]; intros [|k] Hf H; try done; cbn [map concat].
  - injection H as ->. change (0 * n)%nat with 0%nat.
    by rewrite drop_0, take_app_le, take_ge by (rewrite Hf by (by left); lia).
  - cbn in H. replace (S k * n)%nat with (length (f y) + k * n)%nat by (rewrite Hf by (by left); lia).
    rewrite drop_app_add. apply IH; [|done]. intros z Hz. apply Hf. by right.
Qed.
