(* ===== verification/Float32.v ===== *)
(** * Single-precision arithmetic

    The HAL paces its location reports with two [float] variables
    ([hal2mnl_interface.c]); the daemon converts an accuracy to [int]
    ([mnld.c]).  A [float] is an IEEE binary32 value, computed by the
    Standard Library's [SpecFloat] at precision 24 and exponent bound 128. *)

From Stdlib Require Import SpecFloat.
From S2P Require Import Prelude.

Abbreviation f32 := spec_float.

Definition f32_of_int (z : Z) : f32 := binary_normalize 24 128 z 0 false.
Definition f32_add (x y : f32) : f32 := SFadd 24 128 x y.
Definition f32_div (x y : f32) : f32 := SFdiv 24 128 x y.
Definition f32_gtb (x y : f32) : bool :=
  match SFcompare x y with Some Gt => true | _ => false end.

(** The value of a bit pattern. *)
Definition f32_of_bits (bits : Z) : f32 :=
  let b := bits mod 2 ^ 32 in
  let sign := Z.testbit b 31 in
  let ex := Z.shiftr b 23 mod 256 in
  let man := b mod 2 ^ 23 in
  if ex =? 255 then (if man =? 0 then S754_infinity sign else S754_nan)
  else if ex =? 0 then
    match man with Zpos p => S754_finite sign p (-149) | _ => S754_zero sign end
  else
    match man + 2 ^ 23 with
    | Zpos p => S754_finite sign p (ex - 150)
    | _ => S754_zero sign
    end.

(** Conversion to [int] truncates; it is undefined when the result is not an
    [int]. *)
Definition f32_to_int (x : f32) : outcome Z :=
  match x with
  | S754_zero _ => Done 0
  | S754_infinity _ | S754_nan => UB
  | S754_finite s m e =>
      let a := if 0 <=? e then Z.pos m * 2 ^ e else Z.pos m / 2 ^ (- e) in
      let r := if s then - a else a in
      if is_int r then Done r else UB
  end.
