(* ===== verification/Float64.v ===== *)
(** * Double-precision arithmetic and [strtod]

    [nmea_parser.c] computes in [double] and stores some results in [float]
    members.  A [double] is an IEEE binary64 value of the Standard Library's
    [SpecFloat] (precision 53, exponent bound 1024); a conversion rounds to
    nearest even.  There is one NaN, the quiet one. *)

From Stdlib Require Import SpecFloat.
From S2P Require Import Prelude Float32.

Abbreviation f64 := spec_float.

Definition f64_of_int (z : Z) : f64 := binary_normalize 53 1024 z 0 false.
Definition f64_add (x y : f64) : f64 := SFadd 53 1024 x y.
Definition f64_sub (x y : f64) : f64 := SFsub 53 1024 x y.
Definition f64_mul (x y : f64) : f64 := SFmul 53 1024 x y.
Definition f64_div (x y : f64) : f64 := SFdiv 53 1024 x y.
Definition f64_opp (x : f64) : f64 := SFopp x.

(** [floor] *)
Definition f64_floor (x : f64) : f64 :=
  match x with
  | S754_finite s m e =>
      if 0 <=? e then x
      else binary_normalize 53 1024 ((if s then Z.neg m else Z.pos m) / 2 ^ (- e)) 0 s
  | _ => x
  end.

(** [(int)x]: truncation does not depend on the format. *)
Definition f64_to_int (x : f64) : outcome Z := f32_to_int x.

(** [(float)x] *)
Definition f64_to_f32 (x : f64) : f32 :=
  match x with
  | S754_finite s m e => binary_normalize 24 128 (if s then Z.neg m else Z.pos m) e s
  | _ => x
  end.

(** The bit pattern of a value in the format with [mw] fraction bits and [ew]
    exponent bits. *)
Definition float_bits (mw ew : Z) (x : spec_float) : Z :=
  let sign (s : bool) := if s then 2 ^ (mw + ew) else 0 in
  let exp_max := (2 ^ ew - 1) * 2 ^ mw in
  match x with
  | S754_zero s => sign s
  | S754_infinity s => sign s + exp_max
  | S754_nan => exp_max + 2 ^ (mw - 1)
  | S754_finite s m e =>
      sign s +
      (if Z.pos m <? 2 ^ mw then Z.pos m
       else (e + mw + 2 ^ (ew - 1) - 1) * 2 ^ mw + (Z.pos m - 2 ^ mw))
  end.
Definition f64_bits (x : f64) : Z := float_bits 52 11 x.
Definition f32_bits (x : f32) : Z := float_bits 23 8 x.

(** ** [strtod]

    The correctly rounded value of the longest prefix of the subject that is a
    decimal or hexadecimal number, an infinity or a NaN, in the C locale; zero
    when there is none. *)

(** [(-1)^s * m * b ^ e], rounded once.  [bound] limits the power that is
    computed: beyond it the result is zero or infinite. *)
Definition scaled (b bound : Z) (s : bool) (m e : Z) : f64 :=
  match m with
  | Z.pos p =>
      if 0 <=? e then
        binary_normalize 53 1024 ((if s then Z.neg p else Z.pos p) * b ^ Z.min e bound) 0 s
      else
        match b ^ Z.min (- e) bound with
        | Z.pos d =>
            let '(q, e', l) := SFdiv_core_binary 53 1024 (Z.pos p) 0 (Z.pos d) 0 in
            binary_round_aux 53 1024 s q e' l
        | _ => S754_nan
        end
  | _ => S754_zero s
  end.

Definition digit_of (base c : Z) : option Z :=
  let d :=
    if (48 <=? c) && (c <=? 57) then c - 48
    else if (97 <=? c) && (c <=? 102) then c - 87
    else if (65 <=? c) && (c <=? 70) then c - 55
    else base in
  if d <? base then Some d else None.

(** The digits at the head of [l], appended to the number [acc]: the number,
    how many digits, the rest. *)
Fixpoint scan_digits (base : Z) (l : list Z) (acc n : Z) : Z * Z * list Z :=
  match l with
  | c :: l' =>
      match digit_of base c with
      | Some d => scan_digits base l' (acc * base + d) (n + 1)
      | None => (acc, n, l)
      end
  | [] => (acc, n, [])
  end.

Definition scan_sign (l : list Z) : bool * list Z :=
  match l with
  | 45 :: l' => (true, l')
  | 43 :: l' => (false, l')
  | _ => (false, l)
  end.

Fixpoint skip_space (l : list Z) : list Z :=
  match l with
  | c :: l' => if (c =? 32) || ((9 <=? c) && (c <=? 13)) then skip_space l' else l
  | [] => []
  end.

Definition lower (c : Z) : Z := if (65 <=? c) && (c <=? 90) then c + 32 else c.

(** The exponent that [mark] introduces, when digits follow it. *)
Definition scan_exponent (mark : Z) (l : list Z) : Z :=
  match l with
  | c :: l' =>
      if lower c =? mark then
        let '(neg, l1) := scan_sign l' in
        let '(x, n, _) := scan_digits 10 l1 0 0 in
        if n =? 0 then 0 else if neg then - x else x
      else 0
  | [] => 0
  end.

(** Digits with an optional point: the number without the point, the count of
    the digits, how many of them are after the point, the rest. *)
Definition scan_number (base : Z) (l : list Z) : Z * Z * Z * list Z :=
  let '(ip, n, r) := scan_digits base l 0 0 in
  match r with
  | 46 :: r' =>
      let '(x, k, r2) := scan_digits base r' ip 0 in
      (x, n + k, k, r2)
  | _ => (ip, n, 0, r)
  end.

Definition decimal (s : bool) (l : list Z) : f64 :=
  let '(x, n, k, r) := scan_number 10 l in
  if n =? 0 then S754_zero false
  else scaled 10 400 s x (scan_exponent 101 r - k).

Definition strtod (l : list Z) : f64 :=
  let '(s, l1) := scan_sign (skip_space l) in
  match map lower (take 3 l1) with
  | [105; 110; 102] => S754_infinity s
  | [110; 97; 110] => S754_nan
  | 48 :: 120 :: _ =>
      let '(x, n, k, r) := scan_number 16 (drop 2 l1) in
      if n =? 0 then S754_zero s
      else scaled 2 1200 s x (scan_exponent 112 r - 4 * k)
  | _ => decimal s l1
  end.
