(* ===== verification/Messages.v ===== *)
(** * Shared shape of the datagram senders and handlers

    A sender fills a zeroed stack buffer with the coder and passes it to the
    socket; a handler receives a datagram into a zeroed stack buffer, decodes a
    version, a command and its arguments, and calls a callback of the interface
    table.  The lemmas here reduce a sender to its bytes and a handler to its
    callback, for all the protocols of the system. *)

From S2P Require Import Prelude DataCoder LbsUtility.

(** [char buff[n] = {0}; int offset = 0; body; return safe_sendto(path, buff, offset);] *)
Definition send_msg (n : Z) (path : string) (body : prog cbuf unit) : prog sys Z :=
  let* msg := lift (build n body) in
  safe_sendto path msg.

(** Decodes from a local buffer. *)
Definition decode {W A} (b : cbuf) (g : prog cbuf A) : prog W (A * cbuf) := lift (g b).

(** [if (hdlr->f) { decode; hdlr->f(...); } else { ret = -1; }] *)
Definition call_checked {W A C} (f : option C) (b : cbuf) (g : prog cbuf A)
    (k : C -> A -> prog W unit) : prog W Z :=
  match f with
  | Some cb => let* '(a, _) := decode b g in k cb a ;; ret 0
  | None => ret (-1)
  end.

(** [decode; if (hdlr->f) hdlr->f(...);], in the handlers that return nothing. *)
Definition call_decoded {W A C} (f : option C) (b : cbuf) (g : prog cbuf A)
    (k : C -> A -> prog W unit) : prog W unit :=
  let* '(a, _) := decode b g in
  match f with
  | Some cb => k cb a
  | None => ret tt
  end.

(** [if (hdlr->f) { decode; hdlr->f(...); }], in those handlers. *)
Definition call_if {W A C} (f : option C) (b : cbuf) (g : prog cbuf A)
    (k : C -> A -> prog W unit) : prog W unit :=
  match f with
  | Some cb => let* '(a, _) := decode b g in k cb a
  | None => ret tt
  end.

(** The version and the command at the start of a message. *)
Definition get_header : prog cbuf (Z * Z) :=
  let* ver := get_int in
  let* cmd := get_int in
  ret (ver, cmd).

(** Contents of a stack object that the C code does not initialise. *)
Definition uninit (junk : nat -> Z) (size : Z) : list Z :=
  map junk (seq 0 (Z.to_nat size)).

Lemma length_uninit junk size : 0 <= size -> zlen (uninit junk size) = size.
Proof. intros H. unfold uninit. rewrite length_map, length_seq. lia. Qed.

(** ** Interface tables

    A client of a table: runs the callback, or reports that it is missing. *)
Definition invoke {W C} (f : option C) (k : C -> prog W unit) : prog W Z :=
  match f with
  | Some cb => k cb ;; ret 0
  | None => ret (-1)
  end.

Definition invoke_opt {W C} (f : option C) (k : C -> prog W unit) : prog W unit :=
  match f with
  | Some cb => k cb
  | None => ret tt
  end.

(** ** Senders *)

Lemma send_msg_bytes n path body l :
  0 <= n < 2 ^ 31 -> Writes body l ->
  send_msg n path body ≡ (if zlen l <=? n then safe_sendto path l else undef).
Proof.
  intros Hn Hw s. unfold send_msg. unfold bind, lift. rewrite (build_writes n body l Hn Hw).
  by destruct (zlen l <=? n).
Qed.

(** ** Handlers *)

Lemma decode_done {W A} (g : prog cbuf A) b a b' (w : W) :
  g b = Done (a, b') -> decode b g w = Done ((a, b'), w).
Proof. intros H. unfold decode, lift. by rewrite H. Qed.

Lemma call_checked_done {W A C} (f : option C) b (g : prog cbuf A) (k : C -> A -> prog W unit) a b' :
  g b = Done (a, b') ->
  call_checked f b g k ≡ invoke f (fun cb => k cb a).
Proof.
  intros H w. destruct f as [cb|]; [|done]. cbn [call_checked].
  by rewrite (bind_done _ _ _ _ _ (decode_done g b a b' w H)).
Qed.

Lemma call_decoded_done {W A C} (f : option C) b (g : prog cbuf A) (k : C -> A -> prog W unit) a b' :
  g b = Done (a, b') ->
  call_decoded f b g k ≡ invoke_opt f (fun cb => k cb a).
Proof.
  intros H w. unfold call_decoded.
  by rewrite (bind_done _ _ _ _ _ (decode_done g b a b' w H)).
Qed.

Lemma call_if_done {W A C} (f : option C) b (g : prog cbuf A) (k : C -> A -> prog W unit) a b' :
  g b = Done (a, b') ->
  call_if f b g k ≡ invoke_opt f (fun cb => k cb a).
Proof.
  intros H w. destruct f as [cb|]; [|done]. cbn [call_if].
  by rewrite (bind_done _ _ _ _ _ (decode_done g b a b' w H)).
Qed.

Lemma get_header_cursor ver cmd post :
  get_header (cursor [] (le_bytes 4 ver ++ le_bytes 4 cmd ++ post)) =
  Done ((s32 ver, s32 cmd), cursor (le_bytes 4 ver ++ le_bytes 4 cmd) post).
Proof.
  unfold get_header. erewrite bind_done by apply get_int_cursor.
  by erewrite bind_done by apply get_int_cursor.
Qed.

(** The string a process receives is the C string that was sent. *)
Lemma received_equiv p post : field_ok (FString p) -> received (cstr_of p) post ≡ p.
Proof.
  intros H. apply (is_cstr_equiv _ _ (cstr_of p)); [|by apply cstr_of_is_cstr].
  apply received_is_cstr. intros l. apply (is_cstr_no_nul p). by apply cstr_of_is_cstr.
Qed.

Lemma cstr_field p n :
  field_ok (FString p) -> zlen (enc_field (FString p)) <= n -> n < 2 ^ 31 -> CStr p (cstr_of p).
Proof.
  intros H Hl Hn. constructor; [by apply cstr_of_is_cstr|].
  cbn [enc_field] in Hl. destruct (cstr_of p) as [l|]; cbn in *; [|lia]. clen.
Qed.

(** A message of a protocol: version, command, arguments. *)
Definition enc_msg (ver cmd : Z) (args : list field) : list Z :=
  enc_fields (FInt ver :: FInt cmd :: args).

Lemma enc_msg_head ver cmd args :
  enc_msg ver cmd args = le_bytes 4 ver ++ le_bytes 4 cmd ++ enc_fields args.
Proof. reflexivity. Qed.

Lemma length_enc_msg ver cmd args :
  zlen (enc_msg ver cmd args) = 8 + zlen (enc_fields args).
Proof. rewrite enc_msg_head. clen. Qed.

(** The common start of the handlers: a datagram is received and its version
    and command are read. *)
Lemma recv_header {W A} n ver cmd args rest (e : prog W A) (k : Z -> Z -> cbuf -> prog W A) :
  zlen (enc_msg ver cmd args) <= n ->
  (let* '(read_len, buff) := lift (safe_recvfrom (RData (enc_msg ver cmd args) :: rest) n) in
   if read_len <=? 0 then e
   else let* '((v, c), b) := decode (CBuf buff 0) get_header in k v c b) ≡
  k (s32 ver) (s32 cmd)
    (cursor (le_bytes 4 ver ++ le_bytes 4 cmd)
       (enc_fields args ++ zeros (Z.to_nat n - length (enc_msg ver cmd args)))).
Proof.
  intros Hn w. unfold bind at 1, lift. rewrite safe_recvfrom_data by done.
  pose proof (length_enc_msg ver cmd args) as Hl.
  replace (zlen (enc_msg ver cmd args) <=? 0) with false by (symmetry; apply Z.leb_gt; lia).
  set (post := zeros _).
  change (CBuf (enc_msg ver cmd args ++ post) 0) with (cursor [] (enc_msg ver cmd args ++ post)).
  rewrite enc_msg_head, <- !app_assoc.
  by rewrite (bind_done _ _ _ _ _ (decode_done _ _ _ _ w (get_header_cursor _ _ _))).
Qed.

(** One label of a [switch]. *)
Lemma switch_skip {A} c k (a : A) rest d :
  (c =? k) = false -> switch c ((k, a) :: rest) d = switch c rest d.
Proof. cbn. by intros ->. Qed.
Lemma switch_take {A} c k (a : A) rest d : (c =? k) = true -> switch c ((k, a) :: rest) d = a.
Proof. cbn. by intros ->. Qed.
Ltac dispatch :=
  repeat (rewrite switch_skip by (vm_compute; reflexivity));
  first [ rewrite switch_take by (vm_compute; reflexivity) | cbn [switch] ].

(** A struct or a byte string read back into an object that is large enough. *)
Lemma get_struct_cursor dst pre l post :
  zlen l <= zlen dst -> zlen (pre ++ le_bytes 4 (zlen l) ++ l) < 2 ^ 31 ->
  get_binary dst (cursor pre (le_bytes 4 (zlen l) ++ l ++ post)) =
  Done ((zlen l, l ++ drop (length l) dst), cursor (pre ++ le_bytes 4 (zlen l) ++ l) post).
Proof.
  intros Hd Hsz. pose proof (get_binary_cursor dst pre l (zlen l) post) as H.
  rewrite Nat2Z.id, (take_ge l) in H by lia. apply H; [|lia..|done].
  apply in_s_spec. clen.
Qed.

(** Reads the fields one after the other; [clen] bounds the strings. *)
Ltac read_field :=
  first [ apply get_byte_cursor | apply get_int_cursor | apply get_long_cursor
        | apply get_double_cursor | apply get_float_cursor | apply get_string_cursor; [clen]
        | apply get_struct_cursor; [rewrite ?length_replicate; clen | clen] ].
Ltac read_fields := repeat (erewrite bind_done; [| read_field]).

(** The integers of a well-typed message survive the trip. *)
Ltac wraps := repeat rewrite wrap_s_id by (first [done | lia | assumption]).

Lemma put_object_writes input n :
  zlen input = n -> Writes (put_binary input n) (le_bytes 4 (zlen input) ++ input).
Proof. intros <-. apply put_struct_writes. Qed.

(** Proves [Writes] of a sender's body against the encoding of its fields. *)
Ltac solve_writes :=
  lazymatch goal with
  | |- Writes (bind _ _) _ => apply seq_writes; solve_writes
  | |- Writes (put_byte _) _ => apply put_byte_writes
  | |- Writes (put_short _) _ => apply put_short_writes
  | |- Writes (put_int _) _ => apply put_int_writes
  | |- Writes (put_long _) _ => apply put_long_writes
  | |- Writes (put_float _) _ => apply put_float_writes
  | |- Writes (put_double _) _ => apply put_double_writes
  | |- Writes (put_string _) _ => apply put_string_writes; assumption
  | |- Writes (put_binary _ _) _ => first [ apply put_object_writes; assumption | apply put_binary_writes; lia ]
  end.

(** The [CStr] facts of the strings of a well-typed message of bounded length. *)
Ltac cstr_facts :=
  repeat match goal with
  | H : Forall field_ok (_ :: _) |- _ => apply Forall_cons in H as [? H]
  end;
  repeat match goal with
  | H : field_ok (FString ?p) |- _ =>
      lazymatch goal with
      | _ : CStr p (cstr_of p) |- _ => fail
      | _ =>
        assert (CStr p (cstr_of p))
          by (eapply (cstr_field p (2 ^ 31 - 1)); [exact H| cbn [enc_field]; clen | lia])
      end
  end.

(** Chooses the same constructor as the message on the right. *)
Ltac mirror_msg :=
  match goal with
  | |- exists m', m' ≡ ?m /\ _ =>
      match m with
      | ?c ?a1 ?a2 ?a3 ?a4 ?a5 ?a6 => eexists (c _ _ _ _ _ _)
      | ?c ?a1 ?a2 ?a3 ?a4 ?a5 => eexists (c _ _ _ _ _)
      | ?c ?a1 ?a2 ?a3 ?a4 => eexists (c _ _ _ _)
      | ?c ?a1 ?a2 ?a3 => eexists (c _ _ _)
      | ?c ?a1 ?a2 => eexists (c _ _)
      | ?c ?a1 => eexists (c _)
      | _ => exists m
      end
  end.

(** The arguments of a message, read from the cursor. *)
Ltac read_args :=
  unfold enc_fields in *; cbn [map concat enc_field] in *; rewrite <- ?app_assoc; cbn [app];
  read_fields; wraps;
  first [ reflexivity | etransitivity; [read_field|]; wraps; reflexivity ].
