(* ===== verification/Hal2Mnl.v ===== *)
(** * HAL to daemon: [hal2mnl_*] senders and [hal2mnl_hdlr]

    Senders: [src/gps/gps_hal/src/hal2mnl_interface.c].  Handler:
    [src/gps/mtk_mnld/mnld_entity/src/mnl2hal_interface.c].  Commands:
    [hal_mnl_interface_common.h]. *)

From S2P Require Import Prelude DataCoder LbsUtility Float32 Messages.

Definition HAL_MNL_BUFF_SIZE : Z := 16 * 1024.
Definition HAL_MNL_INTERFACE_VERSION : Z := 1.
Definition MTK_HAL2MNL : string := "mtk_hal2mnl"%string.

(** [hal2mnl_cmd] *)
Definition HAL2MNL_HAL_REBOOT := 0.
Definition HAL2MNL_GPS_INIT := 101.
Definition HAL2MNL_GPS_START := 102.
Definition HAL2MNL_GPS_STOP := 103.
Definition HAL2MNL_GPS_CLEANUP := 104.
Definition HAL2MNL_GPS_INJECT_TIME := 105.
Definition HAL2MNL_GPS_INJECT_LOCATION := 106.
Definition HAL2MNL_GPS_DELETE_AIDING_DATA := 107.
Definition HAL2MNL_GPS_SET_POSITION_MODE := 108.
Definition HAL2MNL_DATA_CONN_OPEN := 201.
Definition HAL2MNL_DATA_CONN_OPEN_WITH_APN_IP_TYPE := 202.
Definition HAL2MNL_DATA_CONN_CLOSED := 203.
Definition HAL2MNL_DATA_CONN_FAILED := 204.
Definition HAL2MNL_SET_SERVER := 301.
Definition HAL2MNL_SET_REF_LOCATION := 302.
Definition HAL2MNL_SET_ID := 303.
Definition HAL2MNL_NI_MESSAGE := 401.
Definition HAL2MNL_NI_RESPOND := 402.
Definition HAL2MNL_UPDATE_NETWORK_STATE := 501.
Definition HAL2MNL_UPDATE_NETWORK_AVAILABILITY := 502.
Definition HAL2MNL_GPS_MEASUREMENT := 601.
Definition HAL2MNL_GPS_NAVIGATION := 602.

(** The two static [float]s of [hal2mnl_interface.c]. *)
Record report_pace : Type := Pace { rp_count : f32; rp_interval : f32 }.
Definition pace_init : report_pace := Pace (f32_of_int 0) (f32_of_int 0).

(** A process that contains them. *)
Class HasPace (W : Type) := {
  pace_of : W -> report_pace;
  set_pace : report_pace -> W -> W;
  pace_of_set p w : pace_of (set_pace p w) = p;
  set_pace_of w : set_pace (pace_of w) w = w;
  set_set_pace p q w : set_pace p (set_pace q w) = set_pace p w
}.

(** ** Senders (in the HAL process) *)

Abbreviation hal_msg := (send_msg HAL_MNL_BUFF_SIZE MTK_HAL2MNL).

Definition hal2mnl_hal_reboot : prog sys Z :=
  hal_msg (put_int HAL_MNL_INTERFACE_VERSION ;; put_int HAL2MNL_HAL_REBOOT).

Definition hal2mnl_gps_init : prog sys Z :=
  hal_msg (put_int HAL_MNL_INTERFACE_VERSION ;; put_int HAL2MNL_GPS_INIT).

Definition hal2mnl_gps_start : prog sys Z :=
  hal_msg (put_int HAL_MNL_INTERFACE_VERSION ;; put_int HAL2MNL_GPS_START).

Definition hal2mnl_gps_stop : prog sys Z :=
  hal_msg (put_int HAL_MNL_INTERFACE_VERSION ;; put_int HAL2MNL_GPS_STOP).

Definition hal2mnl_gps_cleanup : prog sys Z :=
  hal_msg (put_int HAL_MNL_INTERFACE_VERSION ;; put_int HAL2MNL_GPS_CLEANUP).

Definition hal2mnl_gps_inject_time (time time_reference uncertainty : Z) : prog sys Z :=
  hal_msg (put_int HAL_MNL_INTERFACE_VERSION ;; put_int HAL2MNL_GPS_INJECT_TIME ;;
           put_long time ;; put_long time_reference ;; put_int uncertainty).

(** [lat], [lng] are the bit patterns of doubles, [acc] that of a float. *)
Definition hal2mnl_gps_inject_location (lat lng acc : Z) : prog sys Z :=
  hal_msg (put_int HAL_MNL_INTERFACE_VERSION ;; put_int HAL2MNL_GPS_INJECT_LOCATION ;;
           put_double lat ;; put_double lng ;; put_float acc).

Definition hal2mnl_gps_delete_aiding_data (flags : Z) : prog sys Z :=
  hal_msg (put_int HAL_MNL_INTERFACE_VERSION ;; put_int HAL2MNL_GPS_DELETE_AIDING_DATA ;;
           put_int flags).

(** [report_time_interval], in seconds, from the framework's interval in ms. *)
Definition report_interval (min_interval : Z) : f32 :=
  if min_interval <=? 1000 then f32_of_int 1
  else f32_div (f32_of_int min_interval) (f32_of_int 1000).

Definition hal2mnl_gps_set_position_mode {W} `{HasSys W, HasPace W}
    (mode recurrence min_interval preferred_acc preferred_time : Z) : prog W Z :=
  let* msg := lift (build HAL_MNL_BUFF_SIZE
    (put_int HAL_MNL_INTERFACE_VERSION ;; put_int HAL2MNL_GPS_SET_POSITION_MODE ;;
     put_int mode ;; put_int recurrence ;; put_int min_interval ;;
     put_int preferred_acc ;; put_int preferred_time)) in
  modify (fun w => set_pace (Pace (rp_count (pace_of w)) (report_interval min_interval)) w) ;;
  on_sys (safe_sendto MTK_HAL2MNL msg).

Definition hal2mnl_data_conn_open (apn : cptr) : prog sys Z :=
  hal_msg (put_int HAL_MNL_INTERFACE_VERSION ;; put_int HAL2MNL_DATA_CONN_OPEN ;;
           put_string apn).

Definition hal2mnl_data_conn_open_with_apn_ip_type (apn : cptr) (ip_type : Z) : prog sys Z :=
  hal_msg (put_int HAL_MNL_INTERFACE_VERSION ;;
           put_int HAL2MNL_DATA_CONN_OPEN_WITH_APN_IP_TYPE ;;
           put_string apn ;; put_int ip_type).

Definition hal2mnl_data_conn_closed : prog sys Z :=
  hal_msg (put_int HAL_MNL_INTERFACE_VERSION ;; put_int HAL2MNL_DATA_CONN_CLOSED).

Definition hal2mnl_data_conn_failed : prog sys Z :=
  hal_msg (put_int HAL_MNL_INTERFACE_VERSION ;; put_int HAL2MNL_DATA_CONN_FAILED).

Definition hal2mnl_set_server (type : Z) (hostname : cptr) (port : Z) : prog sys Z :=
  hal_msg (put_int HAL_MNL_INTERFACE_VERSION ;; put_int HAL2MNL_SET_SERVER ;;
           put_int type ;; put_string hostname ;; put_int port).

Definition hal2mnl_set_ref_location (type mcc mnc lac cid : Z) : prog sys Z :=
  hal_msg (put_int HAL_MNL_INTERFACE_VERSION ;; put_int HAL2MNL_SET_REF_LOCATION ;;
           put_int type ;; put_int mcc ;; put_int mnc ;; put_int lac ;; put_int cid).

Definition hal2mnl_set_id (type : Z) (setid : cptr) : prog sys Z :=
  hal_msg (put_int HAL_MNL_INTERFACE_VERSION ;; put_int HAL2MNL_SET_ID ;;
           put_int type ;; put_string setid).

Definition hal2mnl_ni_message (msg : list Z) (len : Z) : prog sys Z :=
  hal_msg (put_int HAL_MNL_INTERFACE_VERSION ;; put_int HAL2MNL_NI_MESSAGE ;;
           put_binary msg len).

Definition hal2mnl_ni_respond (notif_id user_response : Z) : prog sys Z :=
  hal_msg (put_int HAL_MNL_INTERFACE_VERSION ;; put_int HAL2MNL_NI_RESPOND ;;
           put_int notif_id ;; put_int user_response).

Definition hal2mnl_update_network_state (connected type roaming : Z) (extra_info : cptr)
  : prog sys Z :=
  hal_msg (put_int HAL_MNL_INTERFACE_VERSION ;; put_int HAL2MNL_UPDATE_NETWORK_STATE ;;
           put_int connected ;; put_int type ;; put_int roaming ;; put_string extra_info).

Definition hal2mnl_update_network_availability (available : Z) (apn : cptr) : prog sys Z :=
  hal_msg (put_int HAL_MNL_INTERFACE_VERSION ;; put_int HAL2MNL_UPDATE_NETWORK_AVAILABILITY ;;
           put_int available ;; put_string apn).

Definition hal2mnl_set_gps_measurement (enabled : bool) : prog sys Z :=
  hal_msg (put_int HAL_MNL_INTERFACE_VERSION ;; put_int HAL2MNL_GPS_MEASUREMENT ;;
           put_int (Z.b2z enabled)).

Definition hal2mnl_set_gps_navigation (enabled : bool) : prog sys Z :=
  hal_msg (put_int HAL_MNL_INTERFACE_VERSION ;; put_int HAL2MNL_GPS_NAVIGATION ;;
           put_int (Z.b2z enabled)).

(** ** The callback table and the handler (in the daemon) *)

Record hal2mnl_interface (W : Type) : Type := {
  h2m_hal_reboot : option (prog W unit);
  h2m_gps_init : option (prog W unit);
  h2m_gps_start : option (prog W unit);
  h2m_gps_stop : option (prog W unit);
  h2m_gps_cleanup : option (prog W unit);
  h2m_gps_inject_time : option (Z -> Z -> Z -> prog W unit);
  h2m_gps_inject_location : option (Z -> Z -> Z -> prog W unit);
  h2m_gps_delete_aiding_data : option (Z -> prog W unit);
  h2m_gps_set_position_mode : option (Z -> Z -> Z -> Z -> Z -> prog W unit);
  h2m_data_conn_open : option (cptr -> prog W unit);
  h2m_data_conn_open_with_apn_ip_type : option (cptr -> Z -> prog W unit);
  h2m_data_conn_closed : option (prog W unit);
  h2m_data_conn_failed : option (prog W unit);
  h2m_set_server : option (Z -> cptr -> Z -> prog W unit);
  h2m_set_ref_location : option (Z -> Z -> Z -> Z -> Z -> prog W unit);
  h2m_set_id : option (Z -> cptr -> prog W unit);
  h2m_ni_message : option (list Z -> Z -> prog W unit);
  h2m_ni_respond : option (Z -> Z -> prog W unit);
  h2m_update_network_state : option (Z -> Z -> Z -> cptr -> prog W unit);
  h2m_update_network_availability : option (Z -> cptr -> prog W unit);
  h2m_set_gps_measurement : option (bool -> prog W unit);
  h2m_set_gps_navigation : option (bool -> prog W unit)
}.
Arguments h2m_hal_reboot {W}. Arguments h2m_gps_init {W}. Arguments h2m_gps_start {W}.
Arguments h2m_gps_stop {W}. Arguments h2m_gps_cleanup {W}. Arguments h2m_gps_inject_time {W}.
Arguments h2m_gps_inject_location {W}. Arguments h2m_gps_delete_aiding_data {W}.
Arguments h2m_gps_set_position_mode {W}. Arguments h2m_data_conn_open {W}.
Arguments h2m_data_conn_open_with_apn_ip_type {W}. Arguments h2m_data_conn_closed {W}.
Arguments h2m_data_conn_failed {W}. Arguments h2m_set_server {W}.
Arguments h2m_set_ref_location {W}. Arguments h2m_set_id {W}. Arguments h2m_ni_message {W}.
Arguments h2m_ni_respond {W}. Arguments h2m_update_network_state {W}.
Arguments h2m_update_network_availability {W}. Arguments h2m_set_gps_measurement {W}.
Arguments h2m_set_gps_navigation {W}.

Definition hal2mnl_hdlr {W} (rx : list recvres) (hdlr : hal2mnl_interface W) : prog W Z :=
  let* '(read_len, buff) := lift (safe_recvfrom rx HAL_MNL_BUFF_SIZE) in
  if read_len <=? 0 then ret (-1)
  else
    let* '((ver, cmd), b) := decode (CBuf buff 0) get_header in
    switch cmd
      [ (HAL2MNL_HAL_REBOOT, call_checked (h2m_hal_reboot hdlr) b (ret tt) (fun f _ => f));
        (HAL2MNL_GPS_INIT, call_checked (h2m_gps_init hdlr) b (ret tt) (fun f _ => f));
        (HAL2MNL_GPS_START, call_checked (h2m_gps_start hdlr) b (ret tt) (fun f _ => f));
        (HAL2MNL_GPS_STOP, call_checked (h2m_gps_stop hdlr) b (ret tt) (fun f _ => f));
        (HAL2MNL_GPS_CLEANUP, call_checked (h2m_gps_cleanup hdlr) b (ret tt) (fun f _ => f));
        (HAL2MNL_GPS_INJECT_TIME,
          call_checked (h2m_gps_inject_time hdlr) b
            (let* time := get_long in
             let* time_reference := get_long in
             let* uncertainty := get_int in
             ret (time, time_reference, uncertainty))
            (fun f '(time, time_reference, uncertainty) => f time time_reference uncertainty));
        (HAL2MNL_GPS_INJECT_LOCATION,
          call_checked (h2m_gps_inject_location hdlr) b
            (let* lat := get_double in
             let* lng := get_double in
             let* acc := get_float in
             ret (lat, lng, acc))
            (fun f '(lat, lng, acc) => f lat lng acc));
        (HAL2MNL_GPS_DELETE_AIDING_DATA,
          call_checked (h2m_gps_delete_aiding_data hdlr) b get_int (fun f flags => f flags));
        (HAL2MNL_GPS_SET_POSITION_MODE,
          call_checked (h2m_gps_set_position_mode hdlr) b
            (let* mode := get_int in
             let* recurrence := get_int in
             let* min_interval := get_int in
             let* preferred_acc := get_int in
             let* preferred_time := get_int in
             ret (mode, recurrence, min_interval, preferred_acc, preferred_time))
            (fun f '(mode, recurrence, min_interval, preferred_acc, preferred_time) =>
               f mode recurrence min_interval preferred_acc preferred_time));
        (HAL2MNL_DATA_CONN_OPEN,
          call_checked (h2m_data_conn_open hdlr) b get_string (fun f apn => f apn));
        (HAL2MNL_DATA_CONN_OPEN_WITH_APN_IP_TYPE,
          call_checked (h2m_data_conn_open_with_apn_ip_type hdlr) b
            (let* apn := get_string in
             let* ip_type := get_int in
             ret (apn, ip_type))
            (fun f '(apn, ip_type) => f apn ip_type));
        (HAL2MNL_DATA_CONN_CLOSED,
          call_checked (h2m_data_conn_closed hdlr) b (ret tt) (fun f _ => f));
        (HAL2MNL_DATA_CONN_FAILED,
          call_checked (h2m_data_conn_failed hdlr) b (ret tt) (fun f _ => f));
        (HAL2MNL_SET_SERVER,
          call_checked (h2m_set_server hdlr) b
            (let* type := get_int in
             let* hostname := get_string in
             let* port := get_int in
             ret (type, hostname, port))
            (fun f '(type, hostname, port) => f type hostname port));
        (HAL2MNL_SET_REF_LOCATION,
          call_checked (h2m_set_ref_location hdlr) b
            (let* type := get_int in
             let* mcc := get_int in
             let* mnc := get_int in
             let* lac := get_int in
             let* cid := get_int in
             ret (type, mcc, mnc, lac, cid))
            (fun f '(type, mcc, mnc, lac, cid) => f type mcc mnc lac cid));
        (HAL2MNL_SET_ID,
          call_checked (h2m_set_id hdlr) b
            (let* type := get_int in
             let* setid := get_string in
             ret (type, setid))
            (fun f '(type, setid) => f type setid));
        (HAL2MNL_NI_MESSAGE,
          call_checked (h2m_ni_message hdlr) b (get_binary (zeros 1024))
            (fun f '(len, msg) => f msg len));
        (HAL2MNL_NI_RESPOND,
          call_checked (h2m_ni_respond hdlr) b
            (let* notif_id := get_int in
             let* user_response := get_int in
             ret (notif_id, user_response))
            (fun f '(notif_id, user_response) => f notif_id user_response));
        (HAL2MNL_UPDATE_NETWORK_STATE,
          call_checked (h2m_update_network_state hdlr) b
            (let* connected := get_int in
             let* type := get_int in
             let* roaming := get_int in
             let* extra_info := get_string in
             ret (connected, type, roaming, extra_info))
            (fun f '(connected, type, roaming, extra_info) => f connected type roaming extra_info));
        (HAL2MNL_UPDATE_NETWORK_AVAILABILITY,
          call_checked (h2m_update_network_availability hdlr) b
            (let* available := get_int in
             let* apn := get_string in
             ret (available, apn))
            (fun f '(available, apn) => f available apn));
        (HAL2MNL_GPS_MEASUREMENT,
          call_checked (h2m_set_gps_measurement hdlr) b get_int
            (fun f enabled => f (negb (enabled =? 0))));
        (HAL2MNL_GPS_NAVIGATION,
          call_checked (h2m_set_gps_navigation hdlr) b get_int
            (fun f enabled => f (negb (enabled =? 0)))) ]
      (ret (-1)).

(** ** The protocol: abstract messages

    The requests of the HAL with their arguments; a handler's table is an
    implementation of them. *)
Inductive hal2mnl_msg : Type :=
| H_hal_reboot
| H_gps_init
| H_gps_start
| H_gps_stop
| H_gps_cleanup
| H_gps_inject_time (time time_reference uncertainty : Z)
| H_gps_inject_location (lat lng acc : Z)
| H_gps_delete_aiding_data (flags : Z)
| H_gps_set_position_mode (mode recurrence min_interval preferred_acc preferred_time : Z)
| H_data_conn_open (apn : cptr)
| H_data_conn_open_with_apn_ip_type (apn : cptr) (ip_type : Z)
| H_data_conn_closed
| H_data_conn_failed
| H_set_server (type : Z) (hostname : cptr) (port : Z)
| H_set_ref_location (type mcc mnc lac cid : Z)
| H_set_id (type : Z) (setid : cptr)
| H_ni_message (msg : list Z) (len : Z)
| H_ni_respond (notif_id user_response : Z)
| H_update_network_state (connected type roaming : Z) (extra_info : cptr)
| H_update_network_availability (available : Z) (apn : cptr)
| H_set_gps_measurement (enabled : bool)
| H_set_gps_navigation (enabled : bool).

(** The request a sender makes. *)
Definition hal2mnl_send {W} `{HasSys W, HasPace W} (m : hal2mnl_msg) : prog W Z :=
  match m with
  | H_hal_reboot => on_sys hal2mnl_hal_reboot
  | H_gps_init => on_sys hal2mnl_gps_init
  | H_gps_start => on_sys hal2mnl_gps_start
  | H_gps_stop => on_sys hal2mnl_gps_stop
  | H_gps_cleanup => on_sys hal2mnl_gps_cleanup
  | H_gps_inject_time t r u => on_sys (hal2mnl_gps_inject_time t r u)
  | H_gps_inject_location a b c => on_sys (hal2mnl_gps_inject_location a b c)
  | H_gps_delete_aiding_data f => on_sys (hal2mnl_gps_delete_aiding_data f)
  | H_gps_set_position_mode a b c d e => hal2mnl_gps_set_position_mode a b c d e
  | H_data_conn_open apn => on_sys (hal2mnl_data_conn_open apn)
  | H_data_conn_open_with_apn_ip_type apn ip =>
      on_sys (hal2mnl_data_conn_open_with_apn_ip_type apn ip)
  | H_data_conn_closed => on_sys hal2mnl_data_conn_closed
  | H_data_conn_failed => on_sys hal2mnl_data_conn_failed
  | H_set_server t h p => on_sys (hal2mnl_set_server t h p)
  | H_set_ref_location t a b c d => on_sys (hal2mnl_set_ref_location t a b c d)
  | H_set_id t s => on_sys (hal2mnl_set_id t s)
  | H_ni_message msg len => on_sys (hal2mnl_ni_message msg len)
  | H_ni_respond n u => on_sys (hal2mnl_ni_respond n u)
  | H_update_network_state c t r e => on_sys (hal2mnl_update_network_state c t r e)
  | H_update_network_availability a p => on_sys (hal2mnl_update_network_availability a p)
  | H_set_gps_measurement b => on_sys (hal2mnl_set_gps_measurement b)
  | H_set_gps_navigation b => on_sys (hal2mnl_set_gps_navigation b)
  end.

(** The callback that a request stands for. *)
Definition hal2mnl_call {W} (hdlr : hal2mnl_interface W) (m : hal2mnl_msg) : prog W Z :=
  match m with
  | H_hal_reboot => invoke (h2m_hal_reboot hdlr) id
  | H_gps_init => invoke (h2m_gps_init hdlr) id
  | H_gps_start => invoke (h2m_gps_start hdlr) id
  | H_gps_stop => invoke (h2m_gps_stop hdlr) id
  | H_gps_cleanup => invoke (h2m_gps_cleanup hdlr) id
  | H_gps_inject_time t r u => invoke (h2m_gps_inject_time hdlr) (fun f => f t r u)
  | H_gps_inject_location a b c => invoke (h2m_gps_inject_location hdlr) (fun f => f a b c)
  | H_gps_delete_aiding_data x => invoke (h2m_gps_delete_aiding_data hdlr) (fun f => f x)
  | H_gps_set_position_mode a b c d e =>
      invoke (h2m_gps_set_position_mode hdlr) (fun f => f a b c d e)
  | H_data_conn_open apn => invoke (h2m_data_conn_open hdlr) (fun f => f apn)
  | H_data_conn_open_with_apn_ip_type apn ip =>
      invoke (h2m_data_conn_open_with_apn_ip_type hdlr) (fun f => f apn ip)
  | H_data_conn_closed => invoke (h2m_data_conn_closed hdlr) id
  | H_data_conn_failed => invoke (h2m_data_conn_failed hdlr) id
  | H_set_server t h p => invoke (h2m_set_server hdlr) (fun f => f t h p)
  | H_set_ref_location t a b c d => invoke (h2m_set_ref_location hdlr) (fun f => f t a b c d)
  | H_set_id t s => invoke (h2m_set_id hdlr) (fun f => f t s)
  | H_ni_message msg len => invoke (h2m_ni_message hdlr) (fun f => f msg len)
  | H_ni_respond n u => invoke (h2m_ni_respond hdlr) (fun f => f n u)
  | H_update_network_state c t r e =>
      invoke (h2m_update_network_state hdlr) (fun f => f c t r e)
  | H_update_network_availability a p =>
      invoke (h2m_update_network_availability hdlr) (fun f => f a p)
  | H_set_gps_measurement b => invoke (h2m_set_gps_measurement hdlr) (fun f => f b)
  | H_set_gps_navigation b => invoke (h2m_set_gps_navigation hdlr) (fun f => f b)
  end.

(** Its command and the fields of its arguments. *)
Definition hal2mnl_fields (m : hal2mnl_msg) : Z * list field :=
  match m with
  | H_hal_reboot => (HAL2MNL_HAL_REBOOT, [])
  | H_gps_init => (HAL2MNL_GPS_INIT, [])
  | H_gps_start => (HAL2MNL_GPS_START, [])
  | H_gps_stop => (HAL2MNL_GPS_STOP, [])
  | H_gps_cleanup => (HAL2MNL_GPS_CLEANUP, [])
  | H_gps_inject_time t r u => (HAL2MNL_GPS_INJECT_TIME, [FLong t; FLong r; FInt u])
  | H_gps_inject_location a b c => (HAL2MNL_GPS_INJECT_LOCATION, [FDouble a; FDouble b; FFloat c])
  | H_gps_delete_aiding_data f => (HAL2MNL_GPS_DELETE_AIDING_DATA, [FInt f])
  | H_gps_set_position_mode a b c d e =>
      (HAL2MNL_GPS_SET_POSITION_MODE, [FInt a; FInt b; FInt c; FInt d; FInt e])
  | H_data_conn_open apn => (HAL2MNL_DATA_CONN_OPEN, [FString apn])
  | H_data_conn_open_with_apn_ip_type apn ip =>
      (HAL2MNL_DATA_CONN_OPEN_WITH_APN_IP_TYPE, [FString apn; FInt ip])
  | H_data_conn_closed => (HAL2MNL_DATA_CONN_CLOSED, [])
  | H_data_conn_failed => (HAL2MNL_DATA_CONN_FAILED, [])
  | H_set_server t h p => (HAL2MNL_SET_SERVER, [FInt t; FString h; FInt p])
  | H_set_ref_location t a b c d =>
      (HAL2MNL_SET_REF_LOCATION, [FInt t; FInt a; FInt b; FInt c; FInt d])
  | H_set_id t s => (HAL2MNL_SET_ID, [FInt t; FString s])
  | H_ni_message msg len => (HAL2MNL_NI_MESSAGE, [FBinary (take (Z.to_nat len) msg)])
  | H_ni_respond n u => (HAL2MNL_NI_RESPOND, [FInt n; FInt u])
  | H_update_network_state c t r e =>
      (HAL2MNL_UPDATE_NETWORK_STATE, [FInt c; FInt t; FInt r; FString e])
  | H_update_network_availability a p =>
      (HAL2MNL_UPDATE_NETWORK_AVAILABILITY, [FInt a; FString p])
  | H_set_gps_measurement b => (HAL2MNL_GPS_MEASUREMENT, [FInt (Z.b2z b)])
  | H_set_gps_navigation b => (HAL2MNL_GPS_NAVIGATION, [FInt (Z.b2z b)])
  end.

Definition hal2mnl_bytes (m : hal2mnl_msg) : list Z :=
  let '(cmd, args) := hal2mnl_fields m in enc_msg HAL_MNL_INTERFACE_VERSION cmd args.

(** The arguments are values of their C types; the length given with a network
    message is not beyond its object. *)
Definition hal2mnl_lens_ok (m : hal2mnl_msg) : Prop :=
  match m with H_ni_message msg len => 0 <= len <= zlen msg | _ => True end.
Definition hal2mnl_ok (m : hal2mnl_msg) : Prop :=
  Forall field_ok (snd (hal2mnl_fields m)) /\ hal2mnl_lens_ok m.

(** Equal up to what lies behind the end of a string. *)
#[export] Instance hal2mnl_msg_equiv : Equiv hal2mnl_msg := fun m m' =>
  fst (hal2mnl_fields m) = fst (hal2mnl_fields m') /\
  Forall2 equiv (snd (hal2mnl_fields m)) (snd (hal2mnl_fields m')).

(** What a request does to the pace of the location reports in the HAL. *)
Definition hal2mnl_pace (m : hal2mnl_msg) (p : report_pace) : report_pace :=
  match m with
  | H_gps_set_position_mode _ _ min_interval _ _ => Pace (rp_count p) (report_interval min_interval)
  | _ => p
  end.

(** ** Sending *)

Ltac msg_shape :=
  unfold hal2mnl_bytes; cbn [hal2mnl_fields enc_msg]; unfold enc_msg, enc_fields;
  cbn [map concat enc_field]; rewrite ?app_nil_r.

Lemma on_sys_proper {W} `{HasSys W} {A} (m m' : prog sys A) : m ≡ m' -> on_sys m ≡ on_sys m'.
Proof. intros E w. unfold on_sys. by rewrite (E (sys_of w)). Qed.

Section sending.
Context {W : Type} `{HasSys W, HasPace W}.

(** The pace is untouched by every other request. *)
Lemma keep_pace {A} (k : prog W A) :
  (modify (fun w => set_pace (pace_of w) w) ;; k) ≡ k.
Proof. intros w. unfold bind, modify. by rewrite set_pace_of. Qed.

Lemma hal2mnl_send_shape (m : hal2mnl_msg) :
  hal2mnl_ok m -> zlen (hal2mnl_bytes m) < 2 ^ 31 ->
  hal2mnl_send m ≡
  (if zlen (hal2mnl_bytes m) <=? HAL_MNL_BUFF_SIZE
   then modify (fun w => set_pace (hal2mnl_pace m (pace_of w)) w) ;;
        on_sys (safe_sendto MTK_HAL2MNL (hal2mnl_bytes m))
   else undef).
Proof.
  intros [Hok Hx] Hlen.
  assert (forall body, Writes body (hal2mnl_bytes m) ->
    hal2mnl_pace m = (fun p => p) ->
    on_sys (hal_msg body) ≡
    (if zlen (hal2mnl_bytes m) <=? HAL_MNL_BUFF_SIZE
     then modify (fun w => set_pace (hal2mnl_pace m (pace_of w)) w) ;;
        on_sys (safe_sendto MTK_HAL2MNL (hal2mnl_bytes m))
     else undef)) as Hsend.
  { intros body Hw Hp. rewrite Hp.
    rewrite (on_sys_proper _ _ (send_msg_bytes HAL_MNL_BUFF_SIZE MTK_HAL2MNL body _ ltac:(done) Hw)).
    destruct (_ <=? _); [|done]. cbv beta. by rewrite keep_pace. }
  revert Hsend Hlen. destruct m; msg_shape; cbn [hal2mnl_fields snd] in Hok;
    intros Hsend Hlen.
  all: cstr_facts.
  all: unfold hal2mnl_send.
  all: lazymatch goal with
       | |- on_sys ?h ≡ _ =>
           let h' := eval red in h in change h with h'; cbv beta;
           apply Hsend; [try solve_writes | done]
       | _ => idtac
       end.
  - intros w. unfold hal2mnl_gps_set_position_mode, bind at 1, lift.
    erewrite build_writes; [|done|solve_writes].
    by destruct (_ <=? _).
  - cbn [hal2mnl_lens_ok] in Hx.
    replace (zlen (take (Z.to_nat len) msg)) with len by (lists; lia). solve_writes.
Qed.
End sending.

(** ** Receiving *)

Lemma hal2mnl_hdlr_shape (m : hal2mnl_msg) :
  hal2mnl_ok m -> zlen (hal2mnl_bytes m) <= HAL_MNL_BUFF_SIZE ->
  match m with H_ni_message _ len => len <= 1024 | _ => True end ->
  exists m', m' ≡ m /\
  (forall W rest (hdlr : hal2mnl_interface W),
     hal2mnl_hdlr (RData (hal2mnl_bytes m) :: rest) hdlr ≡ hal2mnl_call hdlr m') /\
  hal2mnl_lens_ok m'.
Proof.
  intros [Hok Hx] Hlen Hni.
  unfold hal2mnl_bytes in *. destruct m; cbn [hal2mnl_fields hal2mnl_lens_ok snd] in *.
  all: rewrite length_enc_msg in Hlen; unfold HAL_MNL_BUFF_SIZE in Hlen.
  all: cstr_facts.
  all: mirror_msg; split;
    [|split; [intros W rest hdlr; unfold hal2mnl_hdlr; etransitivity;
      [apply recv_header; rewrite length_enc_msg; exact Hlen|]; dispatch;
      etransitivity; [eapply call_checked_done; read_args|];
      cbn [hal2mnl_call]; cbv beta iota; reflexivity|cbn [hal2mnl_lens_ok]; try exact I]].
  all: try (split; [done|]; cbn [hal2mnl_fields snd]).
  all: repeat (apply Forall2_cons; split); try apply Forall2_nil; try done.
  all: cbn [equiv field_equiv].
  all: try by apply received_equiv.
  - by rewrite Nat2Z.id, take_app_le'.
  - lists. lia.
  - by destruct enabled.
  - by destruct enabled.
Qed.

(** ** Properties *)

(** The labels of the [switch] of [hal2mnl_hdlr]. *)
Definition hal2mnl_cmds : list Z :=
  [ HAL2MNL_HAL_REBOOT; HAL2MNL_GPS_INIT; HAL2MNL_GPS_START; HAL2MNL_GPS_STOP;
    HAL2MNL_GPS_CLEANUP; HAL2MNL_GPS_INJECT_TIME; HAL2MNL_GPS_INJECT_LOCATION;
    HAL2MNL_GPS_DELETE_AIDING_DATA; HAL2MNL_GPS_SET_POSITION_MODE; HAL2MNL_DATA_CONN_OPEN;
    HAL2MNL_DATA_CONN_OPEN_WITH_APN_IP_TYPE; HAL2MNL_DATA_CONN_CLOSED; HAL2MNL_DATA_CONN_FAILED;
    HAL2MNL_SET_SERVER; HAL2MNL_SET_REF_LOCATION; HAL2MNL_SET_ID; HAL2MNL_NI_MESSAGE;
    HAL2MNL_NI_RESPOND; HAL2MNL_UPDATE_NETWORK_STATE; HAL2MNL_UPDATE_NETWORK_AVAILABILITY;
    HAL2MNL_GPS_MEASUREMENT; HAL2MNL_GPS_NAVIGATION ].

(** C32: every request of the HAL reaches the daemon unchanged.  Sending it
    hands exactly one datagram to the daemon's socket (the only other effect is
    the report pace of a position-mode request), and the daemon's handler, when
    it receives that datagram, runs the callback of that request with the same
    arguments, or returns -1 when the callback is null. *)
Theorem hal2mnl_delivery {P : Type} `{HasSys P, HasPace P} (m : hal2mnl_msg) :
  hal2mnl_ok m -> zlen (hal2mnl_bytes m) <= HAL_MNL_BUFF_SIZE ->
  match m with H_ni_message _ len => len <= 1024 | _ => True end ->
  hal2mnl_send (W := P) m ≡
    (modify (fun w => set_pace (hal2mnl_pace m (pace_of w)) w) ;;
     on_sys (safe_sendto MTK_HAL2MNL (hal2mnl_bytes m))) /\
  exists m', m' ≡ m /\
    forall W rest (hdlr : hal2mnl_interface W),
      hal2mnl_hdlr (RData (hal2mnl_bytes m) :: rest) hdlr ≡ hal2mnl_call hdlr m'.
Proof.
  intros Hok Hlen Hni.
  split; [|destruct (hal2mnl_hdlr_shape m Hok Hlen Hni) as (m' & Hm & Hr & _); by exists m'].
  rewrite hal2mnl_send_shape by (done || (unfold HAL_MNL_BUFF_SIZE in Hlen; lia)).
  by replace (_ <=? _) with true by (symmetry; by apply Z.leb_le).
Qed.

(** A process with nothing but the socket and the report pace. *)
Record hal_proc : Type := HalProc { hp_sys : sys; hp_pace : report_pace }.
#[export] Instance hal_proc_has_sys : HasSys hal_proc.
Proof.
  refine {| sys_of := hp_sys; set_sys := fun s p => HalProc s (hp_pace p) |};
    try done; by intros [].
Defined.
#[export] Instance hal_proc_has_pace : HasPace hal_proc.
Proof.
  refine {| pace_of := hp_pace; set_pace := fun r p => HalProc (hp_sys p) r |};
    try done; by intros [].
Defined.

Lemma hal2mnl_delivery_witness :
  hal2mnl_send (W := hal_proc) (H_set_server 1 (Some [115; 0]) 7275) ≡
    (modify (fun w => set_pace (pace_of w) w) ;;
     on_sys (safe_sendto MTK_HAL2MNL (hal2mnl_bytes (H_set_server 1 (Some [115; 0]) 7275)))) /\
  exists m', m' ≡ H_set_server 1 (Some [115; 0]) 7275 /\
    forall W rest (hdlr : hal2mnl_interface W),
      hal2mnl_hdlr (RData (hal2mnl_bytes (H_set_server 1 (Some [115; 0]) 7275)) :: rest) hdlr ≡
      hal2mnl_call hdlr m'.
Proof.
  apply (hal2mnl_delivery (P := hal_proc) (H_set_server 1 (Some [115; 0]) 7275));
    [|vm_compute; congruence|exact I].
  split; [|exact I].
  repeat (apply Forall_cons; split; [first [vm_compute; reflexivity | by exists 1%nat]|]).
  apply Forall_nil, I.
Defined.

(** A request whose encoding is longer than the 16 KiB message buffer is
    written past the end of that buffer: the senders check no length. *)
Theorem hal2mnl_send_overflow {P : Type} `{HasSys P, HasPace P} (m : hal2mnl_msg) (p : P) :
  hal2mnl_ok m -> HAL_MNL_BUFF_SIZE < zlen (hal2mnl_bytes m) < 2 ^ 31 ->
  hal2mnl_send m p = UB.
Proof.
  intros Hok Hlen. rewrite (hal2mnl_send_shape m Hok ltac:(lia) p).
  by replace (_ <=? _) with false by (symmetry; apply Z.leb_gt; lia).
Qed.

Lemma hal2mnl_send_overflow_witness :
  hal2mnl_send (H_data_conn_open (Some (replicate (Z.to_nat 17000) 97 ++ [0]))) (HalProc idle_sys pace_init) = UB.
Proof.
  apply hal2mnl_send_overflow; [|vm_compute; split; reflexivity].
  split; [|exact I]. apply Forall_cons; split; [|apply Forall_nil, I].
  exists (Z.to_nat 17000). vm_compute. reflexivity.
Defined.

(** A network-initiated message of more than 1024 bytes, which the 16 KiB
    buffers let through, overflows the 1024-byte array of the daemon's handler. *)
Theorem hal2mnl_ni_message_overflow {W : Type} (msg : list Z) (rest : list recvres)
    (hdlr : hal2mnl_interface W) (w : W) :
  1024 < zlen msg <= HAL_MNL_BUFF_SIZE - 12 -> is_Some (h2m_ni_message hdlr) ->
  hal2mnl_hdlr (RData (hal2mnl_bytes (H_ni_message msg (zlen msg))) :: rest) hdlr w = UB.
Proof.
  intros Hlen [f Hf]. unfold HAL_MNL_BUFF_SIZE in Hlen.
  unfold hal2mnl_bytes. cbn [hal2mnl_fields]. rewrite Nat2Z.id, firstn_all.
  assert (zlen (enc_msg HAL_MNL_INTERFACE_VERSION HAL2MNL_NI_MESSAGE [FBinary msg]) <=
          HAL_MNL_BUFF_SIZE) as Hfit.
  { rewrite length_enc_msg. unfold enc_fields, HAL_MNL_BUFF_SIZE.
    cbn [map concat enc_field]. clen. }
  unfold hal2mnl_hdlr. rewrite (recv_header _ _ _ _ _ _ _ Hfit w).
  dispatch. rewrite Hf. cbn [call_checked]. apply bind_ub. unfold decode, lift, get_binary.
  unfold enc_fields. cbn [map concat enc_field]. rewrite app_nil_r, <- app_assoc.
  erewrite bind_done by apply get_int_cursor.
  rewrite wrap_s_id; [|lia|apply in_s_spec; lia].
  replace (zlen msg >? 0) with true by (symmetry; apply Z.gtb_lt; lia).
  erewrite bind_done by apply here_cursor.
  unfold bind, lift, memcpy. by iffalse.
Qed.

(** A table in which only the network message is handled. *)
Definition ni_only : hal2mnl_interface unit :=
  Build_hal2mnl_interface unit None None None None None None None None None None None None None
    None None None (Some (fun _ _ => ret tt)) None None None None None.

Lemma hal2mnl_ni_message_overflow_witness :
  hal2mnl_hdlr (RData (hal2mnl_bytes (H_ni_message (zeros 1025) (zlen (zeros 1025)))) :: [])
    ni_only tt = UB.
Proof.
  apply hal2mnl_ni_message_overflow; [vm_compute; split; congruence|by eexists].
Defined.

(** The handler's error paths return -1 and touch nothing: a failed
    receive (an empty datagram included), and a command that is no label of the
    protocol, whatever version and arguments come with it. *)
Theorem hal2mnl_hdlr_rejects {W : Type} (hdlr : hal2mnl_interface W) (rest : list recvres)
    (ver cmd : Z) (args : list field) (w : W) :
  is_int cmd = true -> cmd ∉ hal2mnl_cmds ->
  zlen (enc_msg ver cmd args) <= HAL_MNL_BUFF_SIZE ->
  hal2mnl_hdlr (RFail EOTHER :: rest) hdlr w = Done (-1, w) /\
  hal2mnl_hdlr (RData [] :: rest) hdlr w = Done (-1, w) /\
  hal2mnl_hdlr (RData (enc_msg ver cmd args) :: rest) hdlr w = Done (-1, w).
Proof.
  intros Hint Hcmd Hlen. split; [done|]. split; [done|].
  unfold hal2mnl_hdlr. rewrite (recv_header _ _ _ _ _ _ _ Hlen w).
  rewrite wrap_s_id by (done || lia). by rewrite switch_default.
Qed.

Lemma hal2mnl_hdlr_rejects_witness :
  hal2mnl_hdlr (RFail EOTHER :: []) ni_only tt = Done (-1, tt) /\
  hal2mnl_hdlr (RData [] :: []) ni_only tt = Done (-1, tt) /\
  hal2mnl_hdlr (RData (enc_msg 1 999 []) :: []) ni_only tt = Done (-1, tt).
Proof.
  apply hal2mnl_hdlr_rejects; [reflexivity| |vm_compute; congruence].
  intros H. by apply (bool_decide_pack (999 ∈ hal2mnl_cmds)) in H.
Defined.
