(* ===== verification/Mnl2Hal.v ===== *)
(** * Daemon to HAL: [mnl2hal_*] senders and [mnl2hal_hdlr]

    Senders: [src/gps/mtk_mnld/mnld_entity/src/mnl2hal_interface.c], in the
    daemon.  Handler: [src/gps/gps_hal/src/hal2mnl_interface.c], in the HAL
    library.  Whole structs cross the socket as their object representation, so
    the two sides are given their own [abi]; the handler paces the location
    reports with the two [float]s that [hal2mnl_gps_set_position_mode] sets. *)

From S2P Require Import Prelude DataCoder LbsUtility Layout Float32 Messages Hal2Mnl.
Import HalTypes.

Definition MTK_MNL2HAL : string := "mtk_mnl2hal"%string.

(** [mnl2hal_cmd] *)
Definition MNL2HAL_MNLD_REBOOT := 1.
Definition MNL2HAL_LOCATION := 101.
Definition MNL2HAL_GPS_STATUS := 102.
Definition MNL2HAL_GPS_SV := 103.
Definition MNL2HAL_NMEA := 104.
Definition MNL2HAL_GPS_CAPABILITIES := 105.
Definition MNL2HAL_GPS_MEASUREMENTS := 106.
Definition MNL2HAL_GPS_NAVIGATION := 107.
Definition MNL2HAL_GNSS_MEASUREMENTS := 108.
Definition MNL2HAL_GNSS_NAVIGATION := 109.
Definition MNL2HAL_REQUEST_WAKELOCK := 201.
Definition MNL2HAL_RELEASE_WAKELOCK := 202.
Definition MNL2HAL_REQUEST_UTC_TIME := 301.
Definition MNL2HAL_REQUEST_DATA_CONN := 302.
Definition MNL2HAL_RELEASE_DATA_CONN := 303.
Definition MNL2HAL_REQUEST_NI_NOTIFY := 304.
Definition MNL2HAL_REQUEST_SET_ID := 305.
Definition MNL2HAL_REQUEST_REF_LOC := 306.

(** [gps_status] and [gps_capabilites] are [int]s. *)
Definition int_object (z : Z) : list Z := le_bytes 4 z.
Definition object_int (l : list Z) : Z := s32 (le_val (take 4 l)).

(** ** Senders (in the daemon, ILP32) *)

Abbreviation mnl_msg := (send_msg HAL_MNL_BUFF_SIZE MTK_MNL2HAL).

Definition mnl2hal_mnld_reboot : prog sys Z :=
  mnl_msg (put_int HAL_MNL_INTERFACE_VERSION ;; put_int MNL2HAL_MNLD_REBOOT).

Definition mnl2hal_location (location : list Z) : prog sys Z :=
  mnl_msg (put_int HAL_MNL_INTERFACE_VERSION ;; put_int MNL2HAL_LOCATION ;;
           put_binary location (sizeof ILP32 gps_location)).

Definition mnl2hal_gps_status (status : Z) : prog sys Z :=
  mnl_msg (put_int HAL_MNL_INTERFACE_VERSION ;; put_int MNL2HAL_GPS_STATUS ;;
           put_binary (int_object status) (sizeof ILP32 c_int)).

Definition mnl2hal_gps_sv (sv : list Z) : prog sys Z :=
  mnl_msg (put_int HAL_MNL_INTERFACE_VERSION ;; put_int MNL2HAL_GPS_SV ;;
           put_binary sv (sizeof ILP32 gnss_sv_info)).

Definition mnl2hal_nmea (timestamp : Z) (nmea : cptr) (length : Z) : prog sys Z :=
  mnl_msg (put_int HAL_MNL_INTERFACE_VERSION ;; put_int MNL2HAL_NMEA ;;
           put_long timestamp ;; put_string nmea ;; put_int length).

Definition mnl2hal_gps_capabilities (capabilities : Z) : prog sys Z :=
  mnl_msg (put_int HAL_MNL_INTERFACE_VERSION ;; put_int MNL2HAL_GPS_CAPABILITIES ;;
           put_binary (int_object capabilities) (sizeof ILP32 c_int)).

Definition mnl2hal_gps_measurements (data : list Z) : prog sys Z :=
  mnl_msg (put_int HAL_MNL_INTERFACE_VERSION ;; put_int MNL2HAL_GPS_MEASUREMENTS ;;
           put_binary data (sizeof ILP32 gps_data)).

Definition mnl2hal_gps_navigation (msg : list Z) : prog sys Z :=
  mnl_msg (put_int HAL_MNL_INTERFACE_VERSION ;; put_int MNL2HAL_GPS_NAVIGATION ;;
           put_binary msg (sizeof ILP32 gps_nav_msg)).

Definition mnl2hal_gnss_measurements (data : list Z) : prog sys Z :=
  mnl_msg (put_int HAL_MNL_INTERFACE_VERSION ;; put_int MNL2HAL_GNSS_MEASUREMENTS ;;
           put_binary data (sizeof ILP32 gnss_data)).

Definition mnl2hal_gnss_navigation (msg : list Z) : prog sys Z :=
  mnl_msg (put_int HAL_MNL_INTERFACE_VERSION ;; put_int MNL2HAL_GNSS_NAVIGATION ;;
           put_binary msg (sizeof ILP32 gnss_nav_msg)).

Definition mnl2hal_request_wakelock : prog sys Z :=
  mnl_msg (put_int HAL_MNL_INTERFACE_VERSION ;; put_int MNL2HAL_REQUEST_WAKELOCK).

Definition mnl2hal_release_wakelock : prog sys Z :=
  mnl_msg (put_int HAL_MNL_INTERFACE_VERSION ;; put_int MNL2HAL_RELEASE_WAKELOCK).

Definition mnl2hal_request_utc_time : prog sys Z :=
  mnl_msg (put_int HAL_MNL_INTERFACE_VERSION ;; put_int MNL2HAL_REQUEST_UTC_TIME).

Definition mnl2hal_request_data_conn (addr : list Z) : prog sys Z :=
  mnl_msg (put_int HAL_MNL_INTERFACE_VERSION ;; put_int MNL2HAL_REQUEST_DATA_CONN ;;
           put_binary addr (sizeof ILP32 sockaddr_storage)).

Definition mnl2hal_release_data_conn : prog sys Z :=
  mnl_msg (put_int HAL_MNL_INTERFACE_VERSION ;; put_int MNL2HAL_RELEASE_DATA_CONN).

Definition mnl2hal_request_ni_notify (session_id type : Z) (requestor_id client_name : cptr)
    (requestor_id_encoding client_name_encoding : Z) : prog sys Z :=
  mnl_msg (put_int HAL_MNL_INTERFACE_VERSION ;; put_int MNL2HAL_REQUEST_NI_NOTIFY ;;
           put_int session_id ;; put_int type ;; put_string requestor_id ;;
           put_string client_name ;; put_int requestor_id_encoding ;;
           put_int client_name_encoding).

Definition mnl2hal_request_set_id (flags : Z) : prog sys Z :=
  mnl_msg (put_int HAL_MNL_INTERFACE_VERSION ;; put_int MNL2HAL_REQUEST_SET_ID ;; put_int flags).

Definition mnl2hal_request_ref_loc (flags : Z) : prog sys Z :=
  mnl_msg (put_int HAL_MNL_INTERFACE_VERSION ;; put_int MNL2HAL_REQUEST_REF_LOC ;; put_int flags).

(** ** The callback table and the handler (in the HAL) *)

Record mnl2hal_interface (W : Type) : Type := {
  m2h_mnld_reboot : option (prog W unit);
  m2h_location : option (list Z -> prog W unit);
  m2h_gps_status : option (Z -> prog W unit);
  m2h_gps_sv : option (list Z -> prog W unit);
  m2h_nmea : option (Z -> cptr -> Z -> prog W unit);
  m2h_gps_capabilities : option (Z -> prog W unit);
  m2h_gps_measurements : option (list Z -> prog W unit);
  m2h_gps_navigation : option (list Z -> prog W unit);
  m2h_gnss_measurements : option (list Z -> prog W unit);
  m2h_gnss_navigation : option (list Z -> prog W unit);
  m2h_request_wakelock : option (prog W unit);
  m2h_release_wakelock : option (prog W unit);
  m2h_request_utc_time : option (prog W unit);
  m2h_request_data_conn : option (list Z -> prog W unit);
  m2h_release_data_conn : option (prog W unit);
  m2h_request_ni_notify : option (Z -> Z -> cptr -> cptr -> Z -> Z -> prog W unit);
  m2h_request_set_id : option (Z -> prog W unit);
  m2h_request_ref_loc : option (Z -> prog W unit)
}.
Arguments m2h_mnld_reboot {W}. Arguments m2h_location {W}. Arguments m2h_gps_status {W}.
Arguments m2h_gps_sv {W}. Arguments m2h_nmea {W}. Arguments m2h_gps_capabilities {W}.
Arguments m2h_gps_measurements {W}. Arguments m2h_gps_navigation {W}.
Arguments m2h_gnss_measurements {W}. Arguments m2h_gnss_navigation {W}.
Arguments m2h_request_wakelock {W}. Arguments m2h_release_wakelock {W}.
Arguments m2h_request_utc_time {W}. Arguments m2h_request_data_conn {W}.
Arguments m2h_release_data_conn {W}. Arguments m2h_request_ni_notify {W}.
Arguments m2h_request_set_id {W}. Arguments m2h_request_ref_loc {W}.

(** [report_time_interval > ++count], and [count = 0] when it does not hold. *)
Definition location_due (p : report_pace) : bool * report_pace :=
  let count := f32_add (rp_count p) (f32_of_int 1) in
  if f32_gtb (rp_interval p) count then (false, Pace count (rp_interval p))
  else (true, Pace (f32_of_int 0) (rp_interval p)).

(** [T x; get_binary(buff, &offset, (char* )&x);] on the side with ABI [a]; the
    bytes of [x] that are not written keep what the stack held ([junk]). *)
Definition get_struct (a : abi) (junk : nat -> Z) (t : ctype) : prog cbuf (list Z) :=
  let* '(_, obj) := get_binary (uninit junk (sizeof a t)) in ret obj.

Definition mnl2hal_hdlr {W} `{HasPace W} (a : abi) (junk : nat -> Z) (rx : list recvres)
    (hdlr : mnl2hal_interface W) : prog W Z :=
  let* '(read_len, buff) := lift (safe_recvfrom rx HAL_MNL_BUFF_SIZE) in
  if read_len <=? 0 then ret (-1)
  else
    let* '((ver, cmd), b) := decode (CBuf buff 0) get_header in
    switch cmd
      [ (MNL2HAL_MNLD_REBOOT, call_checked (m2h_mnld_reboot hdlr) b (ret tt) (fun f _ => f));
        (MNL2HAL_LOCATION,
          let* p := gets pace_of in
          let '(due, p') := location_due p in
          modify (set_pace p') ;;
          if due then
            call_checked (m2h_location hdlr) b (get_struct a junk gps_location)
              (fun f location => f location)
          else ret 0);
        (MNL2HAL_GPS_STATUS,
          call_checked (m2h_gps_status hdlr) b (get_struct a junk c_int)
            (fun f status => f (object_int status)));
        (MNL2HAL_GPS_SV,
          call_checked (m2h_gps_sv hdlr) b (get_struct a junk gnss_sv_info) (fun f sv => f sv));
        (MNL2HAL_NMEA,
          call_checked (m2h_nmea hdlr) b
            (let* timestamp := get_long in
             let* nmea := get_string in
             let* length := get_int in
             ret (timestamp, nmea, length))
            (fun f '(timestamp, nmea, length) => f timestamp nmea length));
        (MNL2HAL_GPS_CAPABILITIES,
          call_checked (m2h_gps_capabilities hdlr) b (get_struct a junk c_int)
            (fun f capabilities => f (object_int capabilities)));
        (MNL2HAL_GPS_MEASUREMENTS,
          call_checked (m2h_gps_measurements hdlr) b (get_struct a junk gps_data)
            (fun f data => f data));
        (MNL2HAL_GPS_NAVIGATION,
          call_checked (m2h_gps_navigation hdlr) b (get_struct a junk gps_nav_msg)
            (fun f msg => f msg));
        (MNL2HAL_GNSS_MEASUREMENTS,
          call_checked (m2h_gnss_measurements hdlr) b (get_struct a junk gnss_data)
            (fun f data => f data));
        (MNL2HAL_GNSS_NAVIGATION,
          call_checked (m2h_gnss_navigation hdlr) b (get_struct a junk gnss_nav_msg)
            (fun f msg => f msg));
        (MNL2HAL_REQUEST_WAKELOCK,
          call_checked (m2h_request_wakelock hdlr) b (ret tt) (fun f _ => f));
        (MNL2HAL_RELEASE_WAKELOCK,
          call_checked (m2h_release_wakelock hdlr) b (ret tt) (fun f _ => f));
        (MNL2HAL_REQUEST_UTC_TIME,
          call_checked (m2h_request_utc_time hdlr) b (ret tt) (fun f _ => f));
        (MNL2HAL_REQUEST_DATA_CONN,
          call_checked (m2h_request_data_conn hdlr) b (get_struct a junk sockaddr_storage)
            (fun f addr => f addr));
        (MNL2HAL_RELEASE_DATA_CONN,
          call_checked (m2h_release_data_conn hdlr) b (ret tt) (fun f _ => f));
        (MNL2HAL_REQUEST_NI_NOTIFY,
          call_checked (m2h_request_ni_notify hdlr) b
            (let* session_id := get_int in
             let* type := get_int in
             let* requestor_id := get_string in
             let* client_name := get_string in
             let* requestor_id_encoding := get_int in
             let* client_name_encoding := get_int in
             ret (session_id, type, requestor_id, client_name,
                  requestor_id_encoding, client_name_encoding))
            (fun f '(session_id, type, requestor_id, client_name,
                     requestor_id_encoding, client_name_encoding) =>
               f session_id type requestor_id client_name
                 requestor_id_encoding client_name_encoding));
        (MNL2HAL_REQUEST_SET_ID,
          call_checked (m2h_request_set_id hdlr) b get_int (fun f flags => f flags));
        (MNL2HAL_REQUEST_REF_LOC,
          call_checked (m2h_request_ref_loc hdlr) b get_int (fun f flags => f flags)) ]
      (ret (-1)).

(** ** The protocol: abstract messages *)

Inductive mnl2hal_msg : Type :=
| D_mnld_reboot
| D_location (location : list Z)
| D_gps_status (status : Z)
| D_gps_sv (sv : list Z)
| D_nmea (timestamp : Z) (nmea : cptr) (length : Z)
| D_gps_capabilities (capabilities : Z)
| D_gps_measurements (data : list Z)
| D_gps_navigation (msg : list Z)
| D_gnss_measurements (data : list Z)
| D_gnss_navigation (msg : list Z)
| D_request_wakelock
| D_release_wakelock
| D_request_utc_time
| D_request_data_conn (addr : list Z)
| D_release_data_conn
| D_request_ni_notify (session_id type : Z) (requestor_id client_name : cptr)
    (requestor_id_encoding client_name_encoding : Z)
| D_request_set_id (flags : Z)
| D_request_ref_loc (flags : Z).

Definition mnl2hal_send (m : mnl2hal_msg) : prog sys Z :=
  match m with
  | D_mnld_reboot => mnl2hal_mnld_reboot
  | D_location l => mnl2hal_location l
  | D_gps_status s => mnl2hal_gps_status s
  | D_gps_sv l => mnl2hal_gps_sv l
  | D_nmea t n l => mnl2hal_nmea t n l
  | D_gps_capabilities c => mnl2hal_gps_capabilities c
  | D_gps_measurements l => mnl2hal_gps_measurements l
  | D_gps_navigation l => mnl2hal_gps_navigation l
  | D_gnss_measurements l => mnl2hal_gnss_measurements l
  | D_gnss_navigation l => mnl2hal_gnss_navigation l
  | D_request_wakelock => mnl2hal_request_wakelock
  | D_release_wakelock => mnl2hal_release_wakelock
  | D_request_utc_time => mnl2hal_request_utc_time
  | D_request_data_conn a => mnl2hal_request_data_conn a
  | D_release_data_conn => mnl2hal_release_data_conn
  | D_request_ni_notify a b c d e f => mnl2hal_request_ni_notify a b c d e f
  | D_request_set_id f => mnl2hal_request_set_id f
  | D_request_ref_loc f => mnl2hal_request_ref_loc f
  end.
(** Conversion replaces a request by its sender, not the reverse. *)
#[global] Strategy expand [mnl2hal_send].

(** What the HAL does with a message: the pacing of the locations, then the
    callback. *)
Definition mnl2hal_call {W} `{HasPace W} (hdlr : mnl2hal_interface W) (m : mnl2hal_msg)
  : prog W Z :=
  match m with
  | D_mnld_reboot => invoke (m2h_mnld_reboot hdlr) id
  | D_location l =>
      let* p := gets pace_of in
      modify (set_pace (snd (location_due p))) ;;
      if fst (location_due p) then invoke (m2h_location hdlr) (fun f => f l) else ret 0
  | D_gps_status s => invoke (m2h_gps_status hdlr) (fun f => f s)
  | D_gps_sv l => invoke (m2h_gps_sv hdlr) (fun f => f l)
  | D_nmea t n l => invoke (m2h_nmea hdlr) (fun f => f t n l)
  | D_gps_capabilities c => invoke (m2h_gps_capabilities hdlr) (fun f => f c)
  | D_gps_measurements l => invoke (m2h_gps_measurements hdlr) (fun f => f l)
  | D_gps_navigation l => invoke (m2h_gps_navigation hdlr) (fun f => f l)
  | D_gnss_measurements l => invoke (m2h_gnss_measurements hdlr) (fun f => f l)
  | D_gnss_navigation l => invoke (m2h_gnss_navigation hdlr) (fun f => f l)
  | D_request_wakelock => invoke (m2h_request_wakelock hdlr) id
  | D_release_wakelock => invoke (m2h_release_wakelock hdlr) id
  | D_request_utc_time => invoke (m2h_request_utc_time hdlr) id
  | D_request_data_conn a => invoke (m2h_request_data_conn hdlr) (fun f => f a)
  | D_release_data_conn => invoke (m2h_release_data_conn hdlr) id
  | D_request_ni_notify a b c d e g =>
      invoke (m2h_request_ni_notify hdlr) (fun f => f a b c d e g)
  | D_request_set_id x => invoke (m2h_request_set_id hdlr) (fun f => f x)
  | D_request_ref_loc x => invoke (m2h_request_ref_loc hdlr) (fun f => f x)
  end.

(** The pace decides first, then the handler reads the location. *)
Lemma paced_location {W} `{HasPace W} (cb : option (list Z -> prog W unit)) b g (l : list Z) b' :
  g b = Done (l, b') ->
  (let* p := gets pace_of in
   let '(due, p') := location_due p in
   modify (set_pace p') ;;
   if due then call_checked cb b g (fun f location => f location) else ret 0) ≡
  (let* p := gets pace_of in
   modify (set_pace (snd (location_due p))) ;;
   if fst (location_due p) then invoke cb (fun f => f l) else ret 0).
Proof.
  intros Hg w. unfold bind at 1 3, gets. destruct (location_due (pace_of w)) as [due p'].
  cbn [fst snd]. unfold bind, modify. destruct due; [|done].
  apply (call_checked_done cb b g _ l b' Hg).
Qed.

Definition mnl2hal_fields (m : mnl2hal_msg) : Z * list field :=
  match m with
  | D_mnld_reboot => (MNL2HAL_MNLD_REBOOT, [])
  | D_location l => (MNL2HAL_LOCATION, [FBinary l])
  | D_gps_status s => (MNL2HAL_GPS_STATUS, [FBinary (int_object s)])
  | D_gps_sv l => (MNL2HAL_GPS_SV, [FBinary l])
  | D_nmea t n l => (MNL2HAL_NMEA, [FLong t; FString n; FInt l])
  | D_gps_capabilities c => (MNL2HAL_GPS_CAPABILITIES, [FBinary (int_object c)])
  | D_gps_measurements l => (MNL2HAL_GPS_MEASUREMENTS, [FBinary l])
  | D_gps_navigation l => (MNL2HAL_GPS_NAVIGATION, [FBinary l])
  | D_gnss_measurements l => (MNL2HAL_GNSS_MEASUREMENTS, [FBinary l])
  | D_gnss_navigation l => (MNL2HAL_GNSS_NAVIGATION, [FBinary l])
  | D_request_wakelock => (MNL2HAL_REQUEST_WAKELOCK, [])
  | D_release_wakelock => (MNL2HAL_RELEASE_WAKELOCK, [])
  | D_request_utc_time => (MNL2HAL_REQUEST_UTC_TIME, [])
  | D_request_data_conn a => (MNL2HAL_REQUEST_DATA_CONN, [FBinary a])
  | D_release_data_conn => (MNL2HAL_RELEASE_DATA_CONN, [])
  | D_request_ni_notify a b c d e f =>
      (MNL2HAL_REQUEST_NI_NOTIFY, [FInt a; FInt b; FString c; FString d; FInt e; FInt f])
  | D_request_set_id f => (MNL2HAL_REQUEST_SET_ID, [FInt f])
  | D_request_ref_loc f => (MNL2HAL_REQUEST_REF_LOC, [FInt f])
  end.

Definition mnl2hal_bytes (m : mnl2hal_msg) : list Z :=
  let '(cmd, args) := mnl2hal_fields m in enc_msg HAL_MNL_INTERFACE_VERSION cmd args.

(** The struct that a message carries, if any, with its type. *)
Definition mnl2hal_struct (m : mnl2hal_msg) : option (list Z * ctype) :=
  match m with
  | D_location l => Some (l, gps_location)
  | D_gps_sv l => Some (l, gnss_sv_info)
  | D_gps_measurements l => Some (l, gps_data)
  | D_gps_navigation l => Some (l, gps_nav_msg)
  | D_gnss_measurements l => Some (l, gnss_data)
  | D_gnss_navigation l => Some (l, gnss_nav_msg)
  | D_request_data_conn l => Some (l, sockaddr_storage)
  | _ => None
  end.

(** Well-typed: values of their C types, structs of the daemon's size. *)
Definition mnl2hal_ok (m : mnl2hal_msg) : Prop :=
  Forall field_ok (snd (mnl2hal_fields m)) /\
  match m with
  | D_gps_status z | D_gps_capabilities z => is_int z = true
  | _ => True
  end /\
  match mnl2hal_struct m with
  | Some (l, t) => zlen l = sizeof ILP32 t
  | None => True
  end.

(** The receiver's struct has the same size. *)
Definition same_size (a : abi) (m : mnl2hal_msg) : Prop :=
  match mnl2hal_struct m with
  | Some (l, t) => sizeof a t = sizeof ILP32 t
  | None => True
  end.

#[export] Instance mnl2hal_msg_equiv : Equiv mnl2hal_msg := fun m m' =>
  fst (mnl2hal_fields m) = fst (mnl2hal_fields m') /\
  Forall2 equiv (snd (mnl2hal_fields m)) (snd (mnl2hal_fields m')).

(** ** Sending *)

Lemma length_int_object z : zlen (int_object z) = 4.
Proof. unfold int_object. by rewrite length_le_bytes. Qed.

(** The object representation of an [int] read back. *)
Lemma object_int_object z : is_int z = true -> object_int (int_object z) = z.
Proof.
  intros H. unfold object_int, int_object. rewrite take_ge by (rewrite length_le_bytes; lia).
  rewrite le_val_le_bytes. transitivity (s32 z); [|by apply wrap_s_id].
  apply wrap_s_mod. change (256 ^ Z.of_nat 4) with (2 ^ 32). by rewrite Z.mod_mod.
Qed.

Lemma mnl2hal_send_shape (m : mnl2hal_msg) :
  mnl2hal_ok m -> zlen (mnl2hal_bytes m) < 2 ^ 31 ->
  mnl2hal_send m ≡
  (if zlen (mnl2hal_bytes m) <=? HAL_MNL_BUFF_SIZE
   then safe_sendto MTK_MNL2HAL (mnl2hal_bytes m) else undef).
Proof.
  intros (Hok & Hi & Hst) Hlen.
  pose proof (fun body => send_msg_bytes HAL_MNL_BUFF_SIZE MTK_MNL2HAL body
                (mnl2hal_bytes m) ltac:(done)) as Hsend.
  revert Hsend Hlen. unfold mnl2hal_bytes.
  destruct m; cbn [mnl2hal_fields mnl2hal_struct snd] in *; unfold enc_msg, enc_fields;
    cbn [map concat enc_field]; rewrite ?app_nil_r; intros Hsend Hlen.
  all: cstr_facts; unfold mnl2hal_send.
  all: lazymatch goal with
       | |- ?h ≡ _ => let h' := eval red in h in change h with h'; cbv beta; apply Hsend
       end.
  all: try pose proof (length_int_object status); try pose proof (length_int_object capabilities).
  all: solve_writes.
Qed.

(** ** Receiving *)

Lemma get_struct_done a junk t l pre post :
  zlen l <= sizeof a t -> zlen (pre ++ le_bytes 4 (zlen l) ++ l) < 2 ^ 31 ->
  get_struct a junk t (cursor pre (enc_fields [FBinary l] ++ post)) =
  Done (l ++ drop (length l) (uninit junk (sizeof a t)),
        cursor (pre ++ le_bytes 4 (zlen l) ++ l) post).
Proof.
  intros Hl Hsz. unfold get_struct, enc_fields. cbn [map concat enc_field].
  rewrite app_nil_r, <- app_assoc.
  erewrite bind_done by (apply get_struct_cursor; [rewrite length_uninit by lia|]; done). done.
Qed.

(** With equal sizes nothing of the old stack contents is left. *)
Lemma get_struct_exact a junk t l pre post :
  zlen l = sizeof a t -> zlen (pre ++ le_bytes 4 (zlen l) ++ l) < 2 ^ 31 ->
  get_struct a junk t (cursor pre (enc_fields [FBinary l] ++ post)) =
  Done (l, cursor (pre ++ le_bytes 4 (zlen l) ++ l) post).
Proof.
  intros Hl Hsz. rewrite get_struct_done by (done || lia).
  pose proof (length_uninit junk (sizeof a t) ltac:(lia)).
  by rewrite drop_ge, app_nil_r by lia.
Qed.

Lemma mnl2hal_hdlr_shape (a : abi) (m : mnl2hal_msg) :
  mnl2hal_ok m -> same_size a m -> zlen (mnl2hal_bytes m) <= HAL_MNL_BUFF_SIZE ->
  exists m', m' ≡ m /\
  forall W (HW : HasPace W) junk rest (hdlr : mnl2hal_interface W),
    mnl2hal_hdlr a junk (RData (mnl2hal_bytes m) :: rest) hdlr ≡ mnl2hal_call hdlr m'.
Proof.
  intros (Hok & Hi & Hst) Hss Hlen. unfold mnl2hal_bytes, same_size in *.
  destruct m; cbn [mnl2hal_fields mnl2hal_struct snd] in *.
  all: rewrite length_enc_msg in Hlen; unfold HAL_MNL_BUFF_SIZE in Hlen.
  all: cstr_facts; mirror_msg; split;
    [|intros W HW junk rest hdlr; unfold mnl2hal_hdlr; etransitivity;
      [apply recv_header; rewrite length_enc_msg; exact Hlen|]; dispatch;
      lazymatch goal with
      | |- call_checked _ _ _ _ ≡ _ =>
        etransitivity;
          [eapply call_checked_done;
           first [ apply get_struct_exact;
                     [ first [congruence | apply length_int_object]
                     | unfold enc_fields in Hlen; cbn [map concat enc_field] in Hlen; clen ]
                 | read_args ]
          | cbn [mnl2hal_call]; cbv beta iota; reflexivity ]
      | |- _ =>
        etransitivity;
          [ eapply paced_location; apply get_struct_exact;
              [ congruence | unfold enc_fields in Hlen; cbn [map concat enc_field] in Hlen; clen ]
          | cbn [mnl2hal_call]; reflexivity ]
      end ].
  all: split; [done|]; cbn [mnl2hal_fields snd].
  all: repeat (apply Forall2_cons; split); try apply Forall2_nil; try done.
  all: cbn [equiv field_equiv]; rewrite ?object_int_object by done; try done.
  all: by apply received_equiv.
Qed.

(** ** Sizes *)

Lemma mnl2hal_strings_fit (m : mnl2hal_msg) :
  mnl2hal_ok m ->
  match m with
  | D_nmea _ p _ => zlen (default [] (cstr_of p)) <= 16000
  | D_request_ni_notify _ _ p q _ _ =>
      zlen (default [] (cstr_of p)) + zlen (default [] (cstr_of q)) <= 16000
  | _ => True
  end ->
  zlen (mnl2hal_bytes m) <= HAL_MNL_BUFF_SIZE.
Proof.
  intros (Hok & Hi & Hst) Hs. unfold mnl2hal_bytes, HAL_MNL_BUFF_SIZE.
  assert (forall s, zlen (enc_string s) <= 6 + zlen (default [] s)) as Hstr.
  { intros [l|]; cbn [enc_string from_option]; unfold id; clen. }
  destruct m; cbn [mnl2hal_fields mnl2hal_struct snd] in *; rewrite length_enc_msg;
    unfold enc_fields, int_object; cbn [map concat enc_field]; try clen.
  all: cstr_facts; try match goal with
       | H : zlen _ = sizeof ILP32 ?t |- _ =>
           let n := eval vm_compute in (sizeof ILP32 t) in change (sizeof ILP32 t) with n in H; clen
       end.
  - pose proof (Hstr (cstr_of nmea)). clen.
  - pose proof (Hstr (cstr_of requestor_id)). pose proof (Hstr (cstr_of client_name)). clen.
Qed.

(** ** Properties *)



(** Offset and size of every member. *)
Definition layout (a : abi) (t : ctype) : list (string * Z * Z) :=
  match t with
  | CStruct fs =>
      (fix go (off : Z) (fs : list (string * ctype)) : list (string * Z * Z) :=
         match fs with
         | [] => []
         | (f, t) :: r =>
             let o := round_up off (alignof a t) in
             (f, o, sizeof a t) :: go (o + sizeof a t) r
         end) 0 fs
  | _ => []
  end.

(** Which structs a 32-bit daemon and a 64-bit HAL lay out alike.
    Locations, satellites, clocks and measurements agree in every offset and
    size; the two measurement blocks agree in size and in every member but the
    count, which is wider by the four padding bytes behind it; the two navigation
    messages have different sizes. *)
Theorem hal_layouts_agree :
  Forall (fun t => layout ILP32 t = layout LP64 t /\ sizeof ILP32 t = sizeof LP64 t)
    [gps_location; gnss_sv; gnss_sv_info; gps_clock; gnss_clock; gps_measurement;
     gnss_measurement; sockaddr_storage] /\
  Forall (fun t => tail (layout ILP32 t) = tail (layout LP64 t) /\
                   sizeof ILP32 t = sizeof LP64 t /\
                   head (layout ILP32 t) = Some ("measurement_count"%string, 0, 4) /\
                   head (layout LP64 t) = Some ("measurement_count"%string, 0, 8))
    [gps_data; gnss_data] /\
  (sizeof ILP32 gps_nav_msg, sizeof LP64 gps_nav_msg) = (52, 56) /\
  (sizeof ILP32 gnss_nav_msg, sizeof LP64 gnss_nav_msg) = (24, 40).
Proof.
  repeat split; repeat (apply Forall_cons; split; [repeat split; vm_compute; reflexivity|]);
    try apply Forall_nil; done.
Qed.

(** A GPS navigation message sent by the 32-bit daemon to a 64-bit HAL is
    misread: the callback gets the 52 bytes followed by four bytes of old stack
    contents, and finds in [data_length] the true length plus 2^32 times the
    first four bytes of the navigation data. *)
Theorem gps_navigation_misread {W : Type} `{HasPace W} (msg : list Z) (junk : nat -> Z)
    (rest : list recvres) (hdlr : mnl2hal_interface W) :
  mnl2hal_ok (D_gps_navigation msg) ->
  exists msg',
    mnl2hal_hdlr LP64 junk (RData (mnl2hal_bytes (D_gps_navigation msg)) :: rest) hdlr ≡
      invoke (m2h_gps_navigation hdlr) (fun f => f msg') /\
    msg' = msg ++ map junk [52; 53; 54; 55]%nat /\
    member LP64 gps_nav_msg msg' "data_length" =
      member ILP32 gps_nav_msg msg "data_length" + 2 ^ 32 * le_val (take 4 (drop 12 msg)).
Proof.
  intros Hok. pose proof (mnl2hal_strings_fit _ Hok I) as Hfit. destruct Hok as (_ & _ & Hst).
  cbn [mnl2hal_struct] in Hst. change (sizeof ILP32 gps_nav_msg) with 52 in Hst.
  unfold mnl2hal_bytes in *. cbn [mnl2hal_fields] in *.
  eexists. split; [|split].
  - unfold mnl2hal_hdlr. etransitivity; [by apply recv_header|]. dispatch.
    etransitivity; [eapply call_checked_done, get_struct_done|reflexivity].
    + change (sizeof LP64 gps_nav_msg) with 56. lia.
    + clen.
  - change (sizeof LP64 gps_nav_msg) with 56. f_equal. unfold uninit. rewrite skipn_map.
    replace (length msg) with 52%nat by lia. done.
  - unfold member.
    change (offsetof LP64 gps_nav_msg "data_length") with (Some (8, CWord)).
    change (offsetof ILP32 gps_nav_msg "data_length") with (Some (8, CWord)). cbv iota beta.
    change (Z.to_nat (sizeof LP64 CWord)) with (4 + 4)%nat.
    change (Z.to_nat (sizeof ILP32 CWord)) with 4%nat. change (Z.to_nat 8) with 8%nat.
    rewrite drop_app_le, take_app_le by (lists; lia).
    rewrite <- take_take_drop, le_val_app, drop_drop. do 2 f_equal.
    lists. replace (Nat.min 4 (length msg - 8)) with 4%nat by lia. done.
Qed.

Lemma gps_navigation_misread_witness :
  exists msg',
    mnl2hal_hdlr LP64 (fun _ => 9) (RData (mnl2hal_bytes (D_gps_navigation (replicate 52 1))) :: [])
      (Build_mnl2hal_interface hal_proc None None None None None None None None None None None
         None None None None None None None) ≡ ret (-1) /\
    msg' = replicate 52 1 ++ [9; 9; 9; 9] /\
    member LP64 gps_nav_msg msg' "data_length" =
      member ILP32 gps_nav_msg (replicate 52 1) "data_length" + 2 ^ 32 * 16843009.
Proof.
  apply (gps_navigation_misread (W := hal_proc) (replicate 52 1) (fun _ => 9) []
    (Build_mnl2hal_interface hal_proc None None None None None None None None None None None
         None None None None None None None)).
  split; [|split; [exact I|vm_compute; reflexivity]].
  apply Forall_cons. split; [exact I|apply Forall_nil, I].
Defined.

(** ** Pace of the location reports *)

(** One report for every [report_period] locations (the daemon sends one per
    second). *)
Definition report_period (min_interval : Z) : Z := Z.max 1 ((min_interval + 999) / 1000).

Definition zrange (a : Z) (n : nat) : list Z := map (fun i => a + Z.of_nat i) (seq 0 n).

Lemma elem_of_zrange a n x : a <= x < a + Z.of_nat n -> In x (zrange a n).
Proof.
  intros H. apply in_map_iff. exists (Z.to_nat (x - a)). split; [lia|]. apply in_seq. lia.
Qed.

(** The comparison of the handler, for the intervals in tenths of a second from
    one second to half a minute. *)
Definition counts : list (Z * f32) := map (fun j => (j, f32_of_int j)) (zrange 1 30).
Definition pace_ok (d : Z) : bool :=
  let x := report_interval (100 * d) in
  forallb (fun jf => Bool.eqb (f32_gtb x (snd jf)) (10 * fst jf <? d)) counts.

Lemma pace_table : forallb pace_ok (zrange 10 291) = true.
Proof. vm_compute. reflexivity. Qed.

Lemma pace_compare d j :
  10 <= d <= 300 -> 1 <= j <= 30 ->
  f32_gtb (report_interval (100 * d)) (f32_of_int j) = (10 * j <? d).
Proof.
  intros Hd Hj.
  pose proof (proj1 (forallb_forall _ _) pace_table d (elem_of_zrange 10 291 d ltac:(lia))) as H.
  assert (In (j, f32_of_int j) counts) as Hin.
  { apply in_map_iff. exists j. split; [done|]. apply elem_of_zrange. lia. }
  exact (Bool.eqb_prop _ _ (proj1 (forallb_forall _ _) H _ Hin)).
Qed.

Lemma count_step j :
  0 <= j <= 30 -> f32_add (f32_of_int j) (f32_of_int 1) = f32_of_int (j + 1).
Proof.
  intros Hj. refine (proj1 (List.Forall_forall (fun j => f32_add (f32_of_int j) (f32_of_int 1) = f32_of_int (j + 1)) _) _
    j (elem_of_zrange 0 31 j ltac:(lia))).
  repeat (apply List.Forall_cons; [vm_compute; reflexivity|]). apply List.Forall_nil.
Qed.

(** Successive datagrams at the handler. *)
Fixpoint deliver {W} `{HasPace W} (a : abi) (junk : nat -> Z) (hdlr : mnl2hal_interface W)
    (rxs : list (list recvres)) : prog W unit :=
  match rxs with
  | [] => ret tt
  | rx :: rxs' => let* r := mnl2hal_hdlr a junk rx hdlr in deliver a junk hdlr rxs'
  end.

Definition location_datagram (l : list Z) : list recvres := [RData (mnl2hal_bytes (D_location l))].

Section pacing.
Context {W : Type} `{HasPace W} (a : abi) (junk : nat -> Z) (hdlr : mnl2hal_interface W).

Lemma location_handled l :
  zlen l = sizeof ILP32 gps_location ->
  mnl2hal_hdlr a junk (location_datagram l) hdlr ≡ mnl2hal_call hdlr (D_location l).
Proof.
  intros Hl. destruct (mnl2hal_hdlr_shape a (D_location l)) as (m' & [Hc Ha] & Hm).
  - split; [|split; [exact I|exact Hl]]. apply Forall_cons. split; [exact I|apply Forall_nil, I].
  - by destruct a.
  - apply mnl2hal_strings_fit; [|exact I].
    split; [|split; [exact I|exact Hl]]. apply Forall_cons. split; [exact I|apply Forall_nil, I].
  - rewrite (Hm W _ junk [] hdlr). destruct m'; try discriminate Hc.
    cbn in Ha. apply Forall2_cons in Ha as [Ha _]. by injection Ha as <-.
Qed.

(** The first locations of a period only count. *)
Lemma location_skipped d j l w :
  10 <= d <= 300 -> 0 <= j -> 10 * (j + 1) < d -> zlen l = sizeof ILP32 gps_location ->
  pace_of w = Pace (f32_of_int j) (report_interval (100 * d)) ->
  mnl2hal_hdlr a junk (location_datagram l) hdlr w =
  Done (0, set_pace (Pace (f32_of_int (j + 1)) (report_interval (100 * d))) w).
Proof.
  intros Hd Hj Hlt Hl Hp. rewrite (location_handled l Hl w). cbn [mnl2hal_call].
  unfold bind, gets, modify, location_due. rewrite Hp. cbn [rp_count rp_interval].
  rewrite count_step, pace_compare by lia. by iftrue.
Qed.

(** The last one is reported and starts a new period. *)
Lemma location_reported d j l w :
  10 <= d <= 300 -> 0 <= j < 30 -> d <= 10 * (j + 1) -> zlen l = sizeof ILP32 gps_location ->
  pace_of w = Pace (f32_of_int j) (report_interval (100 * d)) ->
  mnl2hal_hdlr a junk (location_datagram l) hdlr w =
  invoke (m2h_location hdlr) (fun f => f l)
    (set_pace (Pace (f32_of_int 0) (report_interval (100 * d))) w).
Proof.
  intros Hd Hj Hle Hl Hp. rewrite (location_handled l Hl w). cbn [mnl2hal_call].
  unfold bind, gets, modify, location_due. rewrite Hp. cbn [rp_count rp_interval].
  rewrite count_step, pace_compare by lia. by iffalse.
Qed.

(** The pace of the location reports.  With a requested interval of a
    whole number of tenths of a second, from 1 s to 30 s, of every [p]
    consecutive locations of the daemon, [p] being the interval rounded up to
    seconds, the HAL reports exactly one, the last, and is then in the same
    state again. *)
Theorem location_pacing (d : Z) (ls : list (list Z)) (l : list Z) (w : W) :
  10 <= d <= 300 -> zlen ls + 1 = report_period (100 * d) ->
  Forall (fun l => zlen l = sizeof ILP32 gps_location) (ls ++ [l]) ->
  pace_of w = Pace (f32_of_int 0) (report_interval (100 * d)) ->
  deliver a junk hdlr (map location_datagram (ls ++ [l])) w =
  (invoke (m2h_location hdlr) (fun f => f l) ;; ret tt) w.
Proof.
  intros Hd Hk Hall Hp.
  assert (forall ls j w', 0 <= j -> j + zlen ls + 1 = report_period (100 * d) ->
    Forall (fun l => zlen l = sizeof ILP32 gps_location) (ls ++ [l]) ->
    w' = set_pace (Pace (f32_of_int j) (report_interval (100 * d))) w ->
    deliver a junk hdlr (map location_datagram (ls ++ [l])) w' =
    (invoke (m2h_location hdlr) (fun f => f l) ;; ret tt) w) as Hgen.
  { clear Hk Hall. clear ls. unfold report_period.
    assert (Z.max 1 ((100 * d + 999) / 1000) = (d + 9) / 10) as ->.
    { replace (100 * d + 999) with (99 + (d + 9) * 100) by lia.
      change 1000 with (100 * 10). rewrite <- Zdiv_Zdiv, Z.div_add by lia.
      change (99 / 100) with 0. rewrite Z.add_0_l.
      pose proof (Z.div_le_lower_bound (d + 9) 10 1 ltac:(lia) ltac:(lia)). lia. }
    pose proof (Z.div_mod (d + 9) 10 ltac:(lia)) as Hdm.
    pose proof (Z.mod_pos_bound (d + 9) 10 ltac:(lia)) as Hm.
    induction ls as [|l1 ls IH]; intros j w' Hj Hk Hall ->; cbn [app map deliver length] in *.
    - apply Forall_cons in Hall as [Hl _]. unfold bind at 1.
      rewrite (location_reported d j l) by (done || lia || apply pace_of_set).
      rewrite set_set_pace, <- Hp, set_pace_of. done.
    - apply Forall_cons in Hall as [Hl Hall]. erewrite bind_done.
      2: { apply (location_skipped d j l1); (done || lia || apply pace_of_set). }
      apply (IH (j + 1)); [lia|lia|done|]. by rewrite set_set_pace. }
  apply (Hgen ls 0 w); [lia|lia|done|]. by rewrite <- Hp, set_pace_of.
Qed.
End pacing.

Lemma location_pacing_witness :
  let w := HalProc idle_sys (Pace (f32_of_int 0) (report_interval 2500)) in
  deliver LP64 (fun _ => 0)
    (Build_mnl2hal_interface hal_proc None None None None None None None None None None None
       None None None None None None None)
    (map location_datagram ([replicate 56 1; replicate 56 2] ++ [replicate 56 3])) w = Done (tt, w).
Proof.
  intros w. apply (location_pacing LP64 (fun _ => 0)
    (Build_mnl2hal_interface hal_proc None None None None None None None None None None None
       None None None None None None None) 25 [replicate 56 1; replicate 56 2] (replicate 56 3) w).
  - lia.
  - reflexivity.
  - repeat (apply Forall_cons; split; [reflexivity|]). apply Forall_nil, I.
  - reflexivity.
Defined.
