(* ===== verification/Mnl2Agps.v ===== *)
(** * Daemon to AGPS daemon: [mnl2agps_*] senders and [mnl2agps_hdlr]

    Senders: [src/gps/mtk_mnld/mnl_agps_interface/src/mnl2agps_interface.c], in
    the GPS daemon.  Handler: [agps2mnl_interface.c], in the AGPS daemon.
    Commands and buffer size: [mnl_agps_interface.h].  Unlike the HAL handlers,
    these decode the arguments before they look at the callback. *)

From S2P Require Import Prelude DataCoder LbsUtility Messages.

Definition MNL_AGPS_MAX_BUFF_SIZE : Z := 8 * 1024.
Definition MNL_AGPS_INTERFACE_VERSION : Z := 1.
Definition MNL_TO_AGPS : string := "/data/agps_supl/mnl_to_agps"%string.

(** [mnl_agps_type], daemon to AGPS *)
Definition MNL_AGPS_TYPE_MNL_REBOOT := 100.
Definition MNL_AGPS_TYPE_AGPS_OPEN_GPS_DONE := 110.
Definition MNL_AGPS_TYPE_AGPS_CLOSE_GPS_DONE := 111.
Definition MNL_AGPS_TYPE_AGPS_RESET_GPS_DONE := 112.
Definition MNL_AGPS_TYPE_GPS_INIT := 120.
Definition MNL_AGPS_TYPE_GPS_CLEANUP := 121.
Definition MNL_AGPS_TYPE_DELETE_AIDING_DATA := 122.
Definition MNL_AGPS_TYPE_GPS_OPEN := 123.
Definition MNL_AGPS_TYPE_GPS_CLOSE := 124.
Definition MNL_AGPS_TYPE_DATA_CONN_OPEN := 125.
Definition MNL_AGPS_TYPE_DATA_CONN_FAILED := 126.
Definition MNL_AGPS_TYPE_DATA_CONN_CLOSED := 127.
Definition MNL_AGPS_TYPE_NI_MESSAGE := 128.
Definition MNL_AGPS_TYPE_NI_RESPOND := 129.
Definition MNL_AGPS_TYPE_SET_REF_LOC := 130.
Definition MNL_AGPS_TYPE_SET_SET_ID := 131.
Definition MNL_AGPS_TYPE_SET_SERVER := 132.
Definition MNL_AGPS_TYPE_UPDATE_NETWORK_STATE := 133.
Definition MNL_AGPS_TYPE_UPDATE_NETWORK_AVAILABILITY := 134.
Definition MNL_AGPS_TYPE_DATA_CONN_OPEN_IP_TYPE := 135.
Definition MNL_AGPS_TYPE_INSTALL_CERTIFICATES := 136.
Definition MNL_AGPS_TYPE_REVOKE_CERTIFICATES := 137.
Definition MNL_AGPS_TYPE_MNL2AGPS_PMTK := 150.
Definition MNL_AGPS_TYPE_RAW_DBG := 151.
Definition MNL_AGPS_TYPE_REAIDING := 152.
Definition MNL_AGPS_TYPE_LOCATION_SYNC := 153.
Definition MNL_AGPS_TYPE_SETTINGS_ACK := 154.

(** The [safe_sendto] of this file: the socket is already open (or its
    descriptor is -1, and [sendto] fails), the path is copied with [strcpy]. *)
Definition safe_sendto_un (answers : list sysres) (dest : string) (buf : list Z) : prog sys Z :=
  if path_len dest + 1 <=? SUN_PATH_SIZE then
    match sendto_loop answers 10 with
    | None => blocked
    | Some len => log_event (EvSend dest buf len) ;; ret len
    end
  else undef.

(** [send2agps] and [send2mnl]: [socket], the call above, [close]. *)
Definition send_un (dest : string) (buff : list Z) : prog sys Z :=
  let* answers := next_answers in
  match answers with
  | [] => blocked
  | _ :: rest =>
      let* len := safe_sendto_un rest dest buff in
      ret (if len <? 0 then -1 else 0)
  end.

Definition send2agps (buff : list Z) : prog sys Z := send_un MNL_TO_AGPS buff.

(** [char buff[8192] = {0}; int offset = 0; body; return send2agps(buff, offset);] *)
Definition agps_msg (body : prog cbuf unit) : prog sys Z :=
  let* msg := lift (build MNL_AGPS_MAX_BUFF_SIZE body) in
  send2agps msg.

(** ** Senders (in the GPS daemon) *)

(** [char] members. *)
Record mnl_agps_gnss_settings : Type := {
  gps_satellite_support : Z;
  glonass_satellite_support : Z;
  beidou_satellite_support : Z;
  galileo_satellite_support : Z
}.

Definition mnl2agps_mnl_reboot : prog sys Z :=
  agps_msg (put_int MNL_AGPS_INTERFACE_VERSION ;; put_int MNL_AGPS_TYPE_MNL_REBOOT).

Definition mnl2agps_open_gps_done : prog sys Z :=
  agps_msg (put_int MNL_AGPS_INTERFACE_VERSION ;; put_int MNL_AGPS_TYPE_AGPS_OPEN_GPS_DONE).

Definition mnl2agps_close_gps_done : prog sys Z :=
  agps_msg (put_int MNL_AGPS_INTERFACE_VERSION ;; put_int MNL_AGPS_TYPE_AGPS_CLOSE_GPS_DONE).

Definition mnl2agps_reset_gps_done : prog sys Z :=
  agps_msg (put_int MNL_AGPS_INTERFACE_VERSION ;; put_int MNL_AGPS_TYPE_AGPS_RESET_GPS_DONE).

Definition mnl2agps_gps_init : prog sys Z :=
  agps_msg (put_int MNL_AGPS_INTERFACE_VERSION ;; put_int MNL_AGPS_TYPE_GPS_INIT).

Definition mnl2agps_gps_cleanup : prog sys Z :=
  agps_msg (put_int MNL_AGPS_INTERFACE_VERSION ;; put_int MNL_AGPS_TYPE_GPS_CLEANUP).

Definition mnl2agps_set_server (type : Z) (hostname : cptr) (port : Z) : prog sys Z :=
  agps_msg (put_int MNL_AGPS_INTERFACE_VERSION ;; put_int MNL_AGPS_TYPE_SET_SERVER ;;
            put_int type ;; put_string hostname ;; put_int port).

Definition mnl2agps_delete_aiding_data (flags : Z) : prog sys Z :=
  agps_msg (put_int MNL_AGPS_INTERFACE_VERSION ;; put_int MNL_AGPS_TYPE_DELETE_AIDING_DATA ;;
            put_int flags).

Definition mnl2agps_gps_open (assist_req : Z) : prog sys Z :=
  agps_msg (put_int MNL_AGPS_INTERFACE_VERSION ;; put_int MNL_AGPS_TYPE_GPS_OPEN ;;
            put_int assist_req).

Definition mnl2agps_gps_close : prog sys Z :=
  agps_msg (put_int MNL_AGPS_INTERFACE_VERSION ;; put_int MNL_AGPS_TYPE_GPS_CLOSE).

Definition mnl2agps_data_conn_open (apn : cptr) : prog sys Z :=
  agps_msg (put_int MNL_AGPS_INTERFACE_VERSION ;; put_int MNL_AGPS_TYPE_DATA_CONN_OPEN ;;
            put_string apn).

Definition mnl2agps_data_conn_open_ip_type (apn : cptr) (ip_type : Z) : prog sys Z :=
  agps_msg (put_int MNL_AGPS_INTERFACE_VERSION ;;
            put_int MNL_AGPS_TYPE_DATA_CONN_OPEN_IP_TYPE ;; put_string apn ;; put_int ip_type).

Definition mnl2agps_install_certificates (index total : Z) (data : list Z) (len : Z) : prog sys Z :=
  agps_msg (put_int MNL_AGPS_INTERFACE_VERSION ;; put_int MNL_AGPS_TYPE_INSTALL_CERTIFICATES ;;
            put_int index ;; put_int total ;; put_binary data len).

Definition mnl2agps_revoke_certificates (data : list Z) (len : Z) : prog sys Z :=
  agps_msg (put_int MNL_AGPS_INTERFACE_VERSION ;; put_int MNL_AGPS_TYPE_REVOKE_CERTIFICATES ;;
            put_binary data len).

Definition mnl2agps_data_conn_failed : prog sys Z :=
  agps_msg (put_int MNL_AGPS_INTERFACE_VERSION ;; put_int MNL_AGPS_TYPE_DATA_CONN_FAILED).

Definition mnl2agps_data_conn_closed : prog sys Z :=
  agps_msg (put_int MNL_AGPS_INTERFACE_VERSION ;; put_int MNL_AGPS_TYPE_DATA_CONN_CLOSED).

Definition mnl2agps_ni_message (msg : list Z) (len : Z) : prog sys Z :=
  agps_msg (put_int MNL_AGPS_INTERFACE_VERSION ;; put_int MNL_AGPS_TYPE_NI_MESSAGE ;;
            put_binary msg len).

Definition mnl2agps_ni_respond (session_id user_response : Z) : prog sys Z :=
  agps_msg (put_int MNL_AGPS_INTERFACE_VERSION ;; put_int MNL_AGPS_TYPE_NI_RESPOND ;;
            put_int session_id ;; put_int user_response).

Definition mnl2agps_set_ref_loc (type mcc mnc lac cid : Z) : prog sys Z :=
  agps_msg (put_int MNL_AGPS_INTERFACE_VERSION ;; put_int MNL_AGPS_TYPE_SET_REF_LOC ;;
            put_int type ;; put_int mcc ;; put_int mnc ;; put_int lac ;; put_int cid).

Definition mnl2agps_set_set_id (type : Z) (setid : cptr) : prog sys Z :=
  agps_msg (put_int MNL_AGPS_INTERFACE_VERSION ;; put_int MNL_AGPS_TYPE_SET_SET_ID ;;
            put_int type ;; put_string setid).

Definition mnl2agps_update_network_state (connected type roaming : Z) (extra_info : cptr)
  : prog sys Z :=
  agps_msg (put_int MNL_AGPS_INTERFACE_VERSION ;; put_int MNL_AGPS_TYPE_UPDATE_NETWORK_STATE ;;
            put_int connected ;; put_int type ;; put_int roaming ;; put_string extra_info).

Definition mnl2agps_update_network_availability (avaiable : Z) (apn : cptr) : prog sys Z :=
  agps_msg (put_int MNL_AGPS_INTERFACE_VERSION ;;
            put_int MNL_AGPS_TYPE_UPDATE_NETWORK_AVAILABILITY ;; put_int avaiable ;;
            put_string apn).

Definition mnl2agps_pmtk (pmtk : cptr) : prog sys Z :=
  agps_msg (put_int MNL_AGPS_INTERFACE_VERSION ;; put_int MNL_AGPS_TYPE_MNL2AGPS_PMTK ;;
            put_string pmtk).

Definition mnl2agps_raw_dbg (enabled : Z) : prog sys Z :=
  agps_msg (put_int MNL_AGPS_INTERFACE_VERSION ;; put_int MNL_AGPS_TYPE_RAW_DBG ;;
            put_int enabled).

Definition mnl2agps_reaiding_req : prog sys Z :=
  agps_msg (put_int MNL_AGPS_INTERFACE_VERSION ;; put_int MNL_AGPS_TYPE_REAIDING).

Definition mnl2agps_location_sync (lat lng acc : Z) : prog sys Z :=
  agps_msg (put_int MNL_AGPS_INTERFACE_VERSION ;; put_int MNL_AGPS_TYPE_LOCATION_SYNC ;;
            put_double lat ;; put_double lng ;; put_int acc).

Definition mnl2agps_agps_settings_ack (settings : mnl_agps_gnss_settings) : prog sys Z :=
  agps_msg (put_int MNL_AGPS_INTERFACE_VERSION ;; put_int MNL_AGPS_TYPE_SETTINGS_ACK ;;
            put_int (gps_satellite_support settings) ;;
            put_int (glonass_satellite_support settings) ;;
            put_int (beidou_satellite_support settings) ;;
            put_int (galileo_satellite_support settings)).

(** ** The callback table and the handler (in the AGPS daemon) *)

Record mnl2agps_interface (W : Type) : Type := {
  m2a_mnl_reboot : option (prog W unit);
  m2a_open_gps_done : option (prog W unit);
  m2a_close_gps_done : option (prog W unit);
  m2a_reset_gps_done : option (prog W unit);
  m2a_gps_init : option (prog W unit);
  m2a_gps_cleanup : option (prog W unit);
  m2a_set_server : option (Z -> cptr -> Z -> prog W unit);
  m2a_delete_aiding_data : option (Z -> prog W unit);
  m2a_gps_open : option (Z -> prog W unit);
  m2a_gps_close : option (prog W unit);
  m2a_data_conn_open : option (cptr -> prog W unit);
  m2a_data_conn_open_ip_type : option (cptr -> Z -> prog W unit);
  m2a_install_certificates : option (Z -> Z -> list Z -> Z -> prog W unit);
  m2a_revoke_certificates : option (list Z -> Z -> prog W unit);
  m2a_data_conn_failed : option (prog W unit);
  m2a_data_conn_closed : option (prog W unit);
  m2a_ni_message : option (list Z -> Z -> prog W unit);
  m2a_ni_respond : option (Z -> Z -> prog W unit);
  m2a_set_ref_loc : option (Z -> Z -> Z -> Z -> Z -> prog W unit);
  m2a_set_set_id : option (Z -> cptr -> prog W unit);
  m2a_update_network_state : option (Z -> Z -> Z -> cptr -> prog W unit);
  m2a_update_network_availability : option (Z -> cptr -> prog W unit);
  m2a_rcv_pmtk : option (cptr -> prog W unit);
  m2a_raw_dbg : option (Z -> prog W unit);
  m2a_reaiding_req : option (prog W unit);
  m2a_location_sync : option (Z -> Z -> Z -> prog W unit)
}.
Arguments m2a_mnl_reboot {W}.
Arguments m2a_open_gps_done {W}.
Arguments m2a_close_gps_done {W}.
Arguments m2a_reset_gps_done {W}.
Arguments m2a_gps_init {W}.
Arguments m2a_gps_cleanup {W}.
Arguments m2a_set_server {W}.
Arguments m2a_delete_aiding_data {W}.
Arguments m2a_gps_open {W}.
Arguments m2a_gps_close {W}.
Arguments m2a_data_conn_open {W}.
Arguments m2a_data_conn_open_ip_type {W}.
Arguments m2a_install_certificates {W}.
Arguments m2a_revoke_certificates {W}.
Arguments m2a_data_conn_failed {W}.
Arguments m2a_data_conn_closed {W}.
Arguments m2a_ni_message {W}.
Arguments m2a_ni_respond {W}.
Arguments m2a_set_ref_loc {W}.
Arguments m2a_set_set_id {W}.
Arguments m2a_update_network_state {W}.
Arguments m2a_update_network_availability {W}.
Arguments m2a_rcv_pmtk {W}.
Arguments m2a_raw_dbg {W}.
Arguments m2a_reaiding_req {W}.
Arguments m2a_location_sync {W}.

Definition mnl2agps_hdlr {W} (rx : list recvres) (agps_interface : mnl2agps_interface W)
  : prog W unit :=
  let* '(read_len, buff) := lift (safe_recvfrom rx MNL_AGPS_MAX_BUFF_SIZE) in
  if read_len <=? 0 then ret tt
  else
    let* '((version, type), b) := decode (CBuf buff 0) get_header in
    switch type
      [ (MNL_AGPS_TYPE_MNL_REBOOT,
          call_decoded (m2a_mnl_reboot agps_interface) b (ret tt) (fun f _ => f));
        (MNL_AGPS_TYPE_AGPS_OPEN_GPS_DONE,
          call_decoded (m2a_open_gps_done agps_interface) b (ret tt) (fun f _ => f));
        (MNL_AGPS_TYPE_AGPS_CLOSE_GPS_DONE,
          call_decoded (m2a_close_gps_done agps_interface) b (ret tt) (fun f _ => f));
        (MNL_AGPS_TYPE_AGPS_RESET_GPS_DONE,
          call_decoded (m2a_reset_gps_done agps_interface) b (ret tt) (fun f _ => f));
        (MNL_AGPS_TYPE_GPS_INIT,
          call_decoded (m2a_gps_init agps_interface) b (ret tt) (fun f _ => f));
        (MNL_AGPS_TYPE_GPS_CLEANUP,
          call_decoded (m2a_gps_cleanup agps_interface) b (ret tt) (fun f _ => f));
        (MNL_AGPS_TYPE_SET_SERVER,
          call_decoded (m2a_set_server agps_interface) b
            (let* type := get_int in
             let* hostname := get_string in
             let* port := get_int in
             ret (type, hostname, port))
            (fun f '(type, hostname, port) => f type hostname port));
        (MNL_AGPS_TYPE_DELETE_AIDING_DATA,
          call_decoded (m2a_delete_aiding_data agps_interface) b get_int (fun f flags => f flags));
        (MNL_AGPS_TYPE_GPS_OPEN,
          call_decoded (m2a_gps_open agps_interface) b get_int (fun f assist_req => f assist_req));
        (MNL_AGPS_TYPE_GPS_CLOSE,
          call_decoded (m2a_gps_close agps_interface) b (ret tt) (fun f _ => f));
        (MNL_AGPS_TYPE_DATA_CONN_OPEN,
          call_decoded (m2a_data_conn_open agps_interface) b get_string (fun f apn => f apn));
        (MNL_AGPS_TYPE_DATA_CONN_OPEN_IP_TYPE,
          call_decoded (m2a_data_conn_open_ip_type agps_interface) b
            (let* apn := get_string in
             let* ip_type := get_int in
             ret (apn, ip_type))
            (fun f '(apn, ip_type) => f apn ip_type));
        (MNL_AGPS_TYPE_INSTALL_CERTIFICATES,
          call_decoded (m2a_install_certificates agps_interface) b
            (let* index := get_int in
             let* total := get_int in
             let* '(len, data) := get_binary (zeros (Z.to_nat MNL_AGPS_MAX_BUFF_SIZE)) in
             ret (index, total, data, len))
            (fun f '(index, total, data, len) => f index total data len));
        (MNL_AGPS_TYPE_REVOKE_CERTIFICATES,
          call_decoded (m2a_revoke_certificates agps_interface) b
            (get_binary (zeros (Z.to_nat MNL_AGPS_MAX_BUFF_SIZE)))
            (fun f '(len, data) => f data len));
        (MNL_AGPS_TYPE_DATA_CONN_FAILED,
          call_decoded (m2a_data_conn_failed agps_interface) b (ret tt) (fun f _ => f));
        (MNL_AGPS_TYPE_DATA_CONN_CLOSED,
          call_decoded (m2a_data_conn_closed agps_interface) b (ret tt) (fun f _ => f));
        (MNL_AGPS_TYPE_NI_MESSAGE,
          call_decoded (m2a_ni_message agps_interface) b (get_binary (zeros 1024))
            (fun f '(len, msg) => f msg len));
        (MNL_AGPS_TYPE_NI_RESPOND,
          call_decoded (m2a_ni_respond agps_interface) b
            (let* session_id := get_int in
             let* user_response := get_int in
             ret (session_id, user_response))
            (fun f '(session_id, user_response) => f session_id user_response));
        (MNL_AGPS_TYPE_SET_REF_LOC,
          call_decoded (m2a_set_ref_loc agps_interface) b
            (let* type := get_int in
             let* mcc := get_int in
             let* mnc := get_int in
             let* lac := get_int in
             let* cid := get_int in
             ret (type, mcc, mnc, lac, cid))
            (fun f '(type, mcc, mnc, lac, cid) => f type mcc mnc lac cid));
        (MNL_AGPS_TYPE_SET_SET_ID,
          call_decoded (m2a_set_set_id agps_interface) b
            (let* type := get_int in
             let* setid := get_string in
             ret (type, setid))
            (fun f '(type, setid) => f type setid));
        (MNL_AGPS_TYPE_UPDATE_NETWORK_STATE,
          call_decoded (m2a_update_network_state agps_interface) b
            (let* connected := get_int in
             let* type := get_int in
             let* roaming := get_int in
             let* extra_info := get_string in
             ret (connected, type, roaming, extra_info))
            (fun f '(connected, type, roaming, extra_info) => f connected type roaming extra_info));
        (MNL_AGPS_TYPE_UPDATE_NETWORK_AVAILABILITY,
          call_decoded (m2a_update_network_availability agps_interface) b
            (let* avaiable := get_int in
             let* apn := get_string in
             ret (avaiable, apn))
            (fun f '(avaiable, apn) => f avaiable apn));
        (MNL_AGPS_TYPE_MNL2AGPS_PMTK,
          call_decoded (m2a_rcv_pmtk agps_interface) b get_string (fun f pmtk => f pmtk));
        (MNL_AGPS_TYPE_RAW_DBG,
          call_decoded (m2a_raw_dbg agps_interface) b get_int (fun f enabled => f enabled));
        (MNL_AGPS_TYPE_REAIDING,
          call_decoded (m2a_reaiding_req agps_interface) b (ret tt) (fun f _ => f));
        (MNL_AGPS_TYPE_LOCATION_SYNC,
          call_if (m2a_location_sync agps_interface) b
            (let* lat := get_double in
             let* lng := get_double in
             let* acc := get_int in
             ret (lat, lng, acc))
            (fun f '(lat, lng, acc) => f lat lng acc)) ]
      (ret tt).

(** ** The protocol: abstract messages *)

Inductive mnl2agps_msg : Type :=
| A_mnl_reboot
| A_open_gps_done
| A_close_gps_done
| A_reset_gps_done
| A_gps_init
| A_gps_cleanup
| A_set_server (type : Z) (hostname : cptr) (port : Z)
| A_delete_aiding_data (flags : Z)
| A_gps_open (assist_req : Z)
| A_gps_close
| A_data_conn_open (apn : cptr)
| A_data_conn_open_ip_type (apn : cptr) (ip_type : Z)
| A_install_certificates (index total : Z) (data : list Z) (len : Z)
| A_revoke_certificates (data : list Z) (len : Z)
| A_data_conn_failed
| A_data_conn_closed
| A_ni_message (msg : list Z) (len : Z)
| A_ni_respond (session_id user_response : Z)
| A_set_ref_loc (type mcc mnc lac cid : Z)
| A_set_set_id (type : Z) (setid : cptr)
| A_update_network_state (connected type roaming : Z) (extra_info : cptr)
| A_update_network_availability (avaiable : Z) (apn : cptr)
| A_pmtk (pmtk : cptr)
| A_raw_dbg (enabled : Z)
| A_reaiding_req
| A_location_sync (lat lng acc : Z)
| A_agps_settings_ack (settings : mnl_agps_gnss_settings).

Definition mnl2agps_send (m : mnl2agps_msg) : prog sys Z :=
  match m with
  | A_mnl_reboot => mnl2agps_mnl_reboot
  | A_open_gps_done => mnl2agps_open_gps_done
  | A_close_gps_done => mnl2agps_close_gps_done
  | A_reset_gps_done => mnl2agps_reset_gps_done
  | A_gps_init => mnl2agps_gps_init
  | A_gps_cleanup => mnl2agps_gps_cleanup
  | A_set_server type hostname port => mnl2agps_set_server type hostname port
  | A_delete_aiding_data flags => mnl2agps_delete_aiding_data flags
  | A_gps_open assist_req => mnl2agps_gps_open assist_req
  | A_gps_close => mnl2agps_gps_close
  | A_data_conn_open apn => mnl2agps_data_conn_open apn
  | A_data_conn_open_ip_type apn ip_type => mnl2agps_data_conn_open_ip_type apn ip_type
  | A_install_certificates index total data len =>
      mnl2agps_install_certificates index total data len
  | A_revoke_certificates data len => mnl2agps_revoke_certificates data len
  | A_data_conn_failed => mnl2agps_data_conn_failed
  | A_data_conn_closed => mnl2agps_data_conn_closed
  | A_ni_message msg len => mnl2agps_ni_message msg len
  | A_ni_respond session_id user_response => mnl2agps_ni_respond session_id user_response
  | A_set_ref_loc type mcc mnc lac cid => mnl2agps_set_ref_loc type mcc mnc lac cid
  | A_set_set_id type setid => mnl2agps_set_set_id type setid
  | A_update_network_state connected type roaming extra_info =>
      mnl2agps_update_network_state connected type roaming extra_info
  | A_update_network_availability avaiable apn =>
      mnl2agps_update_network_availability avaiable apn
  | A_pmtk pmtk => mnl2agps_pmtk pmtk
  | A_raw_dbg enabled => mnl2agps_raw_dbg enabled
  | A_reaiding_req => mnl2agps_reaiding_req
  | A_location_sync lat lng acc => mnl2agps_location_sync lat lng acc
  | A_agps_settings_ack settings => mnl2agps_agps_settings_ack settings
  end.
(** Conversion replaces a request by its sender, not the reverse. *)
#[global] Strategy expand [mnl2agps_send].

(** What the AGPS daemon does with a message.  The acknowledgement of the
    settings has no label in the handler: it is dropped. *)
Definition mnl2agps_call {W} (t : mnl2agps_interface W) (m : mnl2agps_msg) : prog W unit :=
  match m with
  | A_mnl_reboot => invoke_opt (m2a_mnl_reboot t) id
  | A_open_gps_done => invoke_opt (m2a_open_gps_done t) id
  | A_close_gps_done => invoke_opt (m2a_close_gps_done t) id
  | A_reset_gps_done => invoke_opt (m2a_reset_gps_done t) id
  | A_gps_init => invoke_opt (m2a_gps_init t) id
  | A_gps_cleanup => invoke_opt (m2a_gps_cleanup t) id
  | A_set_server type hostname port =>
      invoke_opt (m2a_set_server t) (fun f => f type hostname port)
  | A_delete_aiding_data flags => invoke_opt (m2a_delete_aiding_data t) (fun f => f flags)
  | A_gps_open assist_req => invoke_opt (m2a_gps_open t) (fun f => f assist_req)
  | A_gps_close => invoke_opt (m2a_gps_close t) id
  | A_data_conn_open apn => invoke_opt (m2a_data_conn_open t) (fun f => f apn)
  | A_data_conn_open_ip_type apn ip_type =>
      invoke_opt (m2a_data_conn_open_ip_type t) (fun f => f apn ip_type)
  | A_install_certificates index total data len =>
      invoke_opt (m2a_install_certificates t) (fun f => f index total data len)
  | A_revoke_certificates data len =>
      invoke_opt (m2a_revoke_certificates t) (fun f => f data len)
  | A_data_conn_failed => invoke_opt (m2a_data_conn_failed t) id
  | A_data_conn_closed => invoke_opt (m2a_data_conn_closed t) id
  | A_ni_message msg len => invoke_opt (m2a_ni_message t) (fun f => f msg len)
  | A_ni_respond session_id user_response =>
      invoke_opt (m2a_ni_respond t) (fun f => f session_id user_response)
  | A_set_ref_loc type mcc mnc lac cid =>
      invoke_opt (m2a_set_ref_loc t) (fun f => f type mcc mnc lac cid)
  | A_set_set_id type setid => invoke_opt (m2a_set_set_id t) (fun f => f type setid)
  | A_update_network_state connected type roaming extra_info =>
      invoke_opt (m2a_update_network_state t) (fun f => f connected type roaming extra_info)
  | A_update_network_availability avaiable apn =>
      invoke_opt (m2a_update_network_availability t) (fun f => f avaiable apn)
  | A_pmtk pmtk => invoke_opt (m2a_rcv_pmtk t) (fun f => f pmtk)
  | A_raw_dbg enabled => invoke_opt (m2a_raw_dbg t) (fun f => f enabled)
  | A_reaiding_req => invoke_opt (m2a_reaiding_req t) id
  | A_location_sync lat lng acc => invoke_opt (m2a_location_sync t) (fun f => f lat lng acc)
  | A_agps_settings_ack _ => ret tt
  end.

Definition mnl2agps_fields (m : mnl2agps_msg) : Z * list field :=
  match m with
  | A_mnl_reboot => (MNL_AGPS_TYPE_MNL_REBOOT, [])
  | A_open_gps_done => (MNL_AGPS_TYPE_AGPS_OPEN_GPS_DONE, [])
  | A_close_gps_done => (MNL_AGPS_TYPE_AGPS_CLOSE_GPS_DONE, [])
  | A_reset_gps_done => (MNL_AGPS_TYPE_AGPS_RESET_GPS_DONE, [])
  | A_gps_init => (MNL_AGPS_TYPE_GPS_INIT, [])
  | A_gps_cleanup => (MNL_AGPS_TYPE_GPS_CLEANUP, [])
  | A_set_server type hostname port =>
      (MNL_AGPS_TYPE_SET_SERVER, [FInt type; FString hostname; FInt port])
  | A_delete_aiding_data flags => (MNL_AGPS_TYPE_DELETE_AIDING_DATA, [FInt flags])
  | A_gps_open assist_req => (MNL_AGPS_TYPE_GPS_OPEN, [FInt assist_req])
  | A_gps_close => (MNL_AGPS_TYPE_GPS_CLOSE, [])
  | A_data_conn_open apn => (MNL_AGPS_TYPE_DATA_CONN_OPEN, [FString apn])
  | A_data_conn_open_ip_type apn ip_type =>
      (MNL_AGPS_TYPE_DATA_CONN_OPEN_IP_TYPE, [FString apn; FInt ip_type])
  | A_install_certificates index total data len =>
      (MNL_AGPS_TYPE_INSTALL_CERTIFICATES,
       [FInt index; FInt total; FBinary (take (Z.to_nat len) data)])
  | A_revoke_certificates data len =>
      (MNL_AGPS_TYPE_REVOKE_CERTIFICATES, [FBinary (take (Z.to_nat len) data)])
  | A_data_conn_failed => (MNL_AGPS_TYPE_DATA_CONN_FAILED, [])
  | A_data_conn_closed => (MNL_AGPS_TYPE_DATA_CONN_CLOSED, [])
  | A_ni_message msg len => (MNL_AGPS_TYPE_NI_MESSAGE, [FBinary (take (Z.to_nat len) msg)])
  | A_ni_respond session_id user_response =>
      (MNL_AGPS_TYPE_NI_RESPOND, [FInt session_id; FInt user_response])
  | A_set_ref_loc type mcc mnc lac cid =>
      (MNL_AGPS_TYPE_SET_REF_LOC, [FInt type; FInt mcc; FInt mnc; FInt lac; FInt cid])
  | A_set_set_id type setid => (MNL_AGPS_TYPE_SET_SET_ID, [FInt type; FString setid])
  | A_update_network_state connected type roaming extra_info =>
      (MNL_AGPS_TYPE_UPDATE_NETWORK_STATE,
       [FInt connected; FInt type; FInt roaming; FString extra_info])
  | A_update_network_availability avaiable apn =>
      (MNL_AGPS_TYPE_UPDATE_NETWORK_AVAILABILITY, [FInt avaiable; FString apn])
  | A_pmtk pmtk => (MNL_AGPS_TYPE_MNL2AGPS_PMTK, [FString pmtk])
  | A_raw_dbg enabled => (MNL_AGPS_TYPE_RAW_DBG, [FInt enabled])
  | A_reaiding_req => (MNL_AGPS_TYPE_REAIDING, [])
  | A_location_sync lat lng acc =>
      (MNL_AGPS_TYPE_LOCATION_SYNC, [FDouble lat; FDouble lng; FInt acc])
  | A_agps_settings_ack settings =>
      (MNL_AGPS_TYPE_SETTINGS_ACK,
       [FInt (gps_satellite_support settings); FInt (glonass_satellite_support settings);
        FInt (beidou_satellite_support settings); FInt (galileo_satellite_support settings)])
  end.

Definition mnl2agps_bytes (m : mnl2agps_msg) : list Z :=
  let '(cmd, args) := mnl2agps_fields m in enc_msg MNL_AGPS_INTERFACE_VERSION cmd args.

(** Well-typed: values of their C types, lengths within their objects. *)
Definition mnl2agps_ok (m : mnl2agps_msg) : Prop :=
  Forall field_ok (snd (mnl2agps_fields m)) /\
  match m with
  | A_ni_message l len | A_revoke_certificates l len | A_install_certificates _ _ l len =>
      0 <= len <= zlen l
  | _ => True
  end.

#[export] Instance mnl2agps_msg_equiv : Equiv mnl2agps_msg := fun m m' =>
  fst (mnl2agps_fields m) = fst (mnl2agps_fields m') /\
  Forall2 equiv (snd (mnl2agps_fields m)) (snd (mnl2agps_fields m')).

(** ** Sending *)

Lemma agps_msg_bytes body l :
  Writes body l ->
  agps_msg body ≡ (if zlen l <=? MNL_AGPS_MAX_BUFF_SIZE then send2agps l else undef).
Proof.
  intros Hw s. unfold agps_msg, bind, lift. rewrite (build_writes MNL_AGPS_MAX_BUFF_SIZE body l ltac:(done) Hw).
  by destruct (zlen l <=? _).
Qed.

Lemma length_take_len (l : list Z) len : 0 <= len <= zlen l -> zlen (take (Z.to_nat len) l) = len.
Proof. intros H. lists. lia. Qed.

Lemma mnl2agps_send_shape (m : mnl2agps_msg) :
  mnl2agps_ok m -> zlen (mnl2agps_bytes m) < 2 ^ 31 ->
  mnl2agps_send m ≡
  (if zlen (mnl2agps_bytes m) <=? MNL_AGPS_MAX_BUFF_SIZE
   then send2agps (mnl2agps_bytes m) else undef).
Proof.
  intros [Hok Hx] Hlen.
  pose proof (fun body => agps_msg_bytes body (mnl2agps_bytes m)) as Hsend.
  revert Hsend Hlen. unfold mnl2agps_bytes.
  destruct m; cbn [mnl2agps_fields snd] in *; unfold enc_msg, enc_fields;
    cbn [map concat enc_field]; rewrite ?app_nil_r; intros Hsend Hlen.
  all: cstr_facts; unfold mnl2agps_send.
  all: lazymatch goal with
       | |- ?h ≡ _ => let h' := eval red in h in change h with h'; cbv beta; apply Hsend
       end.
  all: rewrite ?length_take_len by lia; solve_writes.
Qed.

(** ** Receiving *)

Lemma mnl2agps_hdlr_shape (m : mnl2agps_msg) :
  mnl2agps_ok m -> zlen (mnl2agps_bytes m) <= MNL_AGPS_MAX_BUFF_SIZE ->
  match m with A_ni_message _ len => len <= 1024 | _ => True end ->
  exists m', m' ≡ m /\
  forall W rest (t : mnl2agps_interface W),
    mnl2agps_hdlr (RData (mnl2agps_bytes m) :: rest) t ≡ mnl2agps_call t m'.
Proof.
  intros [Hok Hx] Hlen Hni. unfold mnl2agps_bytes in *.
  destruct m; cbn [mnl2agps_fields snd] in *.
  all: rewrite length_enc_msg in Hlen; unfold MNL_AGPS_MAX_BUFF_SIZE in Hlen.
  all: pose proof (eq_refl : MNL_AGPS_MAX_BUFF_SIZE = 8192).
  all: cstr_facts; mirror_msg; split;
    [|intros W rest t; unfold mnl2agps_hdlr; etransitivity;
      [apply recv_header; rewrite length_enc_msg; exact Hlen|]; dispatch;
      lazymatch goal with
      | |- call_decoded _ _ _ _ ≡ _ => etransitivity; [eapply call_decoded_done; read_args|]
      | |- call_if _ _ _ _ ≡ _ => etransitivity; [eapply call_if_done; read_args|]
      | |- _ => idtac
      end; cbn [mnl2agps_call]; cbv beta iota; reflexivity ].
  all: split; [done|]; cbn [mnl2agps_fields snd].
  all: repeat (apply Forall2_cons; split); try apply Forall2_nil; try done.
  all: cbn [equiv field_equiv]; try by apply received_equiv.
  all: by rewrite Nat2Z.id, take_app_le'.
Qed.

(** ** Properties *)

(** Every request of the GPS daemon but the acknowledgement of the
    settings reaches the AGPS daemon unchanged when it fits its 8 KiB buffer (a
    network message: 1024 bytes): exactly one datagram is handed to the socket,
    and the AGPS handler runs the callback of that request with the same
    arguments, if there is one. *)
Theorem mnl2agps_delivery (m : mnl2agps_msg) :
  mnl2agps_ok m -> zlen (mnl2agps_bytes m) <= MNL_AGPS_MAX_BUFF_SIZE ->
  match m with
  | A_ni_message _ len => len <= 1024
  | A_agps_settings_ack _ => False
  | _ => True
  end ->
  mnl2agps_send m ≡ send2agps (mnl2agps_bytes m) /\
  exists m', m' ≡ m /\
    forall W rest (t : mnl2agps_interface W),
      mnl2agps_hdlr (RData (mnl2agps_bytes m) :: rest) t ≡ mnl2agps_call t m'.
Proof.
  intros Hok Hlen Hx. split.
  - rewrite mnl2agps_send_shape by (done || (unfold MNL_AGPS_MAX_BUFF_SIZE in Hlen; lia)).
    by replace (_ <=? _) with true by (symmetry; by apply Z.leb_le).
  - apply mnl2agps_hdlr_shape; [done..|]. by destruct m.
Qed.

Lemma mnl2agps_delivery_witness :
  mnl2agps_send (A_set_set_id 1 (Some [52; 54; 0])) ≡
    send2agps (mnl2agps_bytes (A_set_set_id 1 (Some [52; 54; 0]))) /\
  exists m', m' ≡ A_set_set_id 1 (Some [52; 54; 0]) /\
    forall W rest (t : mnl2agps_interface W),
      mnl2agps_hdlr (RData (mnl2agps_bytes (A_set_set_id 1 (Some [52; 54; 0]))) :: rest) t ≡
      mnl2agps_call t m'.
Proof.
  apply (mnl2agps_delivery (A_set_set_id 1 (Some [52; 54; 0]))); [|vm_compute; congruence|exact I].
  split; [|exact I].
  repeat (apply Forall_cons; split; [first [vm_compute; reflexivity | by exists 2%nat]|]).
  apply Forall_nil, I.
Defined.

(** The labels of the [switch] of [mnl2agps_hdlr]. *)
Definition mnl2agps_types : list Z :=
  [ MNL_AGPS_TYPE_MNL_REBOOT; MNL_AGPS_TYPE_AGPS_OPEN_GPS_DONE; MNL_AGPS_TYPE_AGPS_CLOSE_GPS_DONE;
    MNL_AGPS_TYPE_AGPS_RESET_GPS_DONE; MNL_AGPS_TYPE_GPS_INIT; MNL_AGPS_TYPE_GPS_CLEANUP;
    MNL_AGPS_TYPE_SET_SERVER; MNL_AGPS_TYPE_DELETE_AIDING_DATA; MNL_AGPS_TYPE_GPS_OPEN;
    MNL_AGPS_TYPE_GPS_CLOSE; MNL_AGPS_TYPE_DATA_CONN_OPEN; MNL_AGPS_TYPE_DATA_CONN_OPEN_IP_TYPE;
    MNL_AGPS_TYPE_INSTALL_CERTIFICATES; MNL_AGPS_TYPE_REVOKE_CERTIFICATES;
    MNL_AGPS_TYPE_DATA_CONN_FAILED; MNL_AGPS_TYPE_DATA_CONN_CLOSED; MNL_AGPS_TYPE_NI_MESSAGE;
    MNL_AGPS_TYPE_NI_RESPOND; MNL_AGPS_TYPE_SET_REF_LOC; MNL_AGPS_TYPE_SET_SET_ID;
    MNL_AGPS_TYPE_UPDATE_NETWORK_STATE; MNL_AGPS_TYPE_UPDATE_NETWORK_AVAILABILITY;
    MNL_AGPS_TYPE_MNL2AGPS_PMTK; MNL_AGPS_TYPE_RAW_DBG; MNL_AGPS_TYPE_REAIDING;
    MNL_AGPS_TYPE_LOCATION_SYNC ].

Lemma mnl2agps_unknown {W} (t : mnl2agps_interface W) rest ver type args w :
  is_int type = true -> type ∉ mnl2agps_types ->
  zlen (enc_msg ver type args) <= MNL_AGPS_MAX_BUFF_SIZE ->
  mnl2agps_hdlr (RData (enc_msg ver type args) :: rest) t w = Done (tt, w).
Proof.
  intros Hint Hty Hlen. unfold mnl2agps_hdlr. rewrite (recv_header _ _ _ _ _ _ _ Hlen w).
  rewrite wrap_s_id by (done || lia). by rewrite switch_default.
Qed.

(** The acknowledgement of the AGPS settings is sent by the GPS daemon as
    a well-formed message, but the handler has no label for its type: whatever
    the table of the AGPS daemon holds, nothing is called. *)
Theorem settings_ack_dropped {W : Type} (settings : mnl_agps_gnss_settings) (rest : list recvres)
    (t : mnl2agps_interface W) (w : W) :
  mnl2agps_send (A_agps_settings_ack settings) ≡
    send2agps (mnl2agps_bytes (A_agps_settings_ack settings)) /\
  mnl2agps_hdlr (RData (mnl2agps_bytes (A_agps_settings_ack settings)) :: rest) t w = Done (tt, w).
Proof.
  assert (zlen (mnl2agps_bytes (A_agps_settings_ack settings)) = 24) as Hl.
  { unfold mnl2agps_bytes. cbn [mnl2agps_fields]. rewrite length_enc_msg.
    unfold enc_fields. cbn [map concat enc_field]. clen. }
  split.
  - unfold mnl2agps_send, mnl2agps_agps_settings_ack.
    rewrite (agps_msg_bytes _ (mnl2agps_bytes (A_agps_settings_ack settings))); [by rewrite Hl|].
    unfold mnl2agps_bytes. cbn [mnl2agps_fields]. unfold enc_msg, enc_fields.
    cbn [map concat enc_field]. rewrite app_nil_r. solve_writes.
  - apply mnl2agps_unknown; [done| |]; [|unfold mnl2agps_bytes in Hl; cbn [mnl2agps_fields] in Hl;
      rewrite Hl; done].
    intros H. by apply (bool_decide_pack (_ ∈ mnl2agps_types)) in H.
Qed.
