(* ===== verification/Agps2Mnl.v ===== *)
(** * AGPS daemon to daemon: [agps2mnl_*] senders and [agps2mnl_hdlr]

    Senders: [src/gps/mtk_mnld/mnl_agps_interface/src/agps2mnl_interface.c], in
    the AGPS daemon; the path they send to is its variable [g_agps2mnl_path].
    Handler: [mnl2agps_interface.c], in the GPS daemon. *)

From S2P Require Import Prelude DataCoder LbsUtility Layout Messages Mnl2Agps.
Import HalTypes.

Definition AGPS_TO_MNL : string := "/data/agps_supl/agps_to_mnl"%string.

(** [mnl_agps_type], AGPS to daemon *)
Definition MNL_AGPS_TYPE_AGPS_REBOOT := 200.
Definition MNL_AGPS_TYPE_AGPS_OPEN_GPS_REQ := 210.
Definition MNL_AGPS_TYPE_AGPS_CLOSE_GPS_REQ := 211.
Definition MNL_AGPS_TYPE_AGPS_RESET_GPS_REQ := 212.
Definition MNL_AGPS_TYPE_AGPS_SESSION_DONE := 220.
Definition MNL_AGPS_TYPE_NI_NOTIFY := 230.
Definition MNL_AGPS_TYPE_DATA_CONN_REQ := 231.
Definition MNL_AGPS_TYPE_DATA_CONN_RELEASE := 232.
Definition MNL_AGPS_TYPE_SET_ID_REQ := 233.
Definition MNL_AGPS_TYPE_REF_LOC_REQ := 234.
Definition MNL_AGPS_TYPE_AGPS_LOC := 235.
Definition MNL_AGPS_TYPE_NI_NOTIFY_2 := 236.
Definition MNL_AGPS_TYPE_DATA_CONN_REQ2 := 237.
Definition MNL_AGPS_TYPE_AGPS2MNL_PMTK := 250.
Definition MNL_AGPS_TYPE_GPEVT := 251.
Definition MNL_AGPS_TYPE_SETTINGS_SYNC := 252.

(** [send2mnl], with the path that the process holds in [g_agps2mnl_path]. *)
Definition send2mnl (g_agps2mnl_path : string) (buff : list Z) : prog sys Z :=
  send_un g_agps2mnl_path buff.

Definition agps2mnl_msg_to (path : string) (body : prog cbuf unit) : prog sys Z :=
  let* msg := lift (build MNL_AGPS_MAX_BUFF_SIZE body) in
  send2mnl path msg.

(** [create_mnl2agps_fd2]: the new value of the 128-byte [g_agps2mnl_path]. *)
Definition create_mnl2agps_fd2_path (agps2mnl_path : string) : outcome string :=
  if path_len agps2mnl_path + 1 <=? 128 then Done agps2mnl_path else UB.

(** ** Senders (in the AGPS daemon) *)

Section senders.
Variable g_agps2mnl_path : string.

Definition agps2mnl_agps_reboot : prog sys Z :=
  agps2mnl_msg_to g_agps2mnl_path
    (put_int MNL_AGPS_INTERFACE_VERSION ;; put_int MNL_AGPS_TYPE_AGPS_REBOOT).

Definition agps2mnl_agps_open_gps_req (show_gps_icon : Z) : prog sys Z :=
  agps2mnl_msg_to g_agps2mnl_path
    (put_int MNL_AGPS_INTERFACE_VERSION ;; put_int MNL_AGPS_TYPE_AGPS_OPEN_GPS_REQ ;;
     put_int show_gps_icon).

Definition agps2mnl_agps_close_gps_req : prog sys Z :=
  agps2mnl_msg_to g_agps2mnl_path
    (put_int MNL_AGPS_INTERFACE_VERSION ;; put_int MNL_AGPS_TYPE_AGPS_CLOSE_GPS_REQ).

Definition agps2mnl_agps_reset_gps_req (flags : Z) : prog sys Z :=
  agps2mnl_msg_to g_agps2mnl_path
    (put_int MNL_AGPS_INTERFACE_VERSION ;; put_int MNL_AGPS_TYPE_AGPS_RESET_GPS_REQ ;;
     put_int flags).

Definition agps2mnl_agps_session_done : prog sys Z :=
  agps2mnl_msg_to g_agps2mnl_path
    (put_int MNL_AGPS_INTERFACE_VERSION ;; put_int MNL_AGPS_TYPE_AGPS_SESSION_DONE).

Definition agps2mnl_ni_notify (session_id type : Z) (requestor_id client_name : cptr)
  : prog sys Z :=
  agps2mnl_msg_to g_agps2mnl_path
    (put_int MNL_AGPS_INTERFACE_VERSION ;; put_int MNL_AGPS_TYPE_NI_NOTIFY ;;
     put_int session_id ;; put_int type ;; put_string requestor_id ;; put_string client_name).

Definition agps2mnl_ni_notify2 (session_id type : Z) (requestor_id client_name : cptr)
    (requestor_id_encoding client_name_encoding : Z)
  : prog sys Z :=
  agps2mnl_msg_to g_agps2mnl_path
    (put_int MNL_AGPS_INTERFACE_VERSION ;; put_int MNL_AGPS_TYPE_NI_NOTIFY_2 ;;
     put_int session_id ;; put_int type ;; put_string requestor_id ;; put_string client_name ;;
     put_int requestor_id_encoding ;; put_int client_name_encoding).

Definition agps2mnl_data_conn_req (ipaddr is_emergency : Z) : prog sys Z :=
  agps2mnl_msg_to g_agps2mnl_path
    (put_int MNL_AGPS_INTERFACE_VERSION ;; put_int MNL_AGPS_TYPE_DATA_CONN_REQ ;;
     put_int ipaddr ;; put_int is_emergency).

Definition agps2mnl_data_conn_req2 (addr : list Z) (is_emergency : Z) : prog sys Z :=
  agps2mnl_msg_to g_agps2mnl_path
    (put_int MNL_AGPS_INTERFACE_VERSION ;; put_int MNL_AGPS_TYPE_DATA_CONN_REQ2 ;;
     put_binary addr (sizeof ILP32 sockaddr_storage) ;; put_int is_emergency).

Definition agps2mnl_data_conn_release : prog sys Z :=
  agps2mnl_msg_to g_agps2mnl_path
    (put_int MNL_AGPS_INTERFACE_VERSION ;; put_int MNL_AGPS_TYPE_DATA_CONN_RELEASE).

Definition agps2mnl_set_id_req (flags : Z) : prog sys Z :=
  agps2mnl_msg_to g_agps2mnl_path
    (put_int MNL_AGPS_INTERFACE_VERSION ;; put_int MNL_AGPS_TYPE_SET_ID_REQ ;; put_int flags).

Definition agps2mnl_ref_loc_req (flags : Z) : prog sys Z :=
  agps2mnl_msg_to g_agps2mnl_path
    (put_int MNL_AGPS_INTERFACE_VERSION ;; put_int MNL_AGPS_TYPE_REF_LOC_REQ ;; put_int flags).

Definition agps2mnl_pmtk (pmtk : cptr) : prog sys Z :=
  agps2mnl_msg_to g_agps2mnl_path
    (put_int MNL_AGPS_INTERFACE_VERSION ;; put_int MNL_AGPS_TYPE_AGPS2MNL_PMTK ;;
     put_string pmtk).

Definition agps2mnl_gpevt (type : Z) : prog sys Z :=
  agps2mnl_msg_to g_agps2mnl_path
    (put_int MNL_AGPS_INTERFACE_VERSION ;; put_int MNL_AGPS_TYPE_GPEVT ;; put_int type).

Definition agps2mnl_agps_location (location : list Z) : prog sys Z :=
  agps2mnl_msg_to g_agps2mnl_path
    (put_int MNL_AGPS_INTERFACE_VERSION ;; put_int MNL_AGPS_TYPE_AGPS_LOC ;;
     put_binary location (sizeof ILP32 mnl_agps_agps_location)).

End senders.

(** ** The callback table and the handler (in the GPS daemon, ILP32) *)

(** [char] members. *)
Record mnl_agps_agps_settings : Type := Settings {
  sib8_16_enable : Z;
  gps_satellite_enable : Z;
  glonass_satellite_enable : Z;
  beidou_satellite_enable : Z;
  galileo_satellite_enable : Z;
  a_glonass_satellite_enable : Z
}.

Record agps2mnl_interface (W : Type) : Type := {
  a2m_agps_reboot : option (prog W unit);
  a2m_agps_open_gps_req : option (Z -> prog W unit);
  a2m_agps_close_gps_req : option (prog W unit);
  a2m_agps_reset_gps_req : option (Z -> prog W unit);
  a2m_agps_session_done : option (prog W unit);
  a2m_ni_notify : option (Z -> Z -> cptr -> cptr -> prog W unit);
  a2m_ni_notify2 : option (Z -> Z -> cptr -> cptr -> Z -> Z -> prog W unit);
  a2m_data_conn_req : option (Z -> Z -> prog W unit);
  a2m_data_conn_req2 : option (list Z -> Z -> prog W unit);
  a2m_data_conn_release : option (prog W unit);
  a2m_set_id_req : option (Z -> prog W unit);
  a2m_ref_loc_req : option (Z -> prog W unit);
  a2m_rcv_pmtk : option (cptr -> prog W unit);
  a2m_gpevt : option (Z -> prog W unit);
  a2m_agps_location : option (list Z -> prog W unit);
  a2m_agps_settings_sync : option (mnl_agps_agps_settings -> prog W unit)
}.
Arguments a2m_agps_reboot {W}.
Arguments a2m_agps_open_gps_req {W}.
Arguments a2m_agps_close_gps_req {W}.
Arguments a2m_agps_reset_gps_req {W}.
Arguments a2m_agps_session_done {W}.
Arguments a2m_ni_notify {W}.
Arguments a2m_ni_notify2 {W}.
Arguments a2m_data_conn_req {W}.
Arguments a2m_data_conn_req2 {W}.
Arguments a2m_data_conn_release {W}.
Arguments a2m_set_id_req {W}.
Arguments a2m_ref_loc_req {W}.
Arguments a2m_rcv_pmtk {W}.
Arguments a2m_gpevt {W}.
Arguments a2m_agps_location {W}.
Arguments a2m_agps_settings_sync {W}.

(** [T x; get_binary(buff, &offset, (char* )&x);] *)
Definition get_object (junk : nat -> Z) (t : ctype) : prog cbuf (list Z) :=
  let* '(_, obj) := get_binary (uninit junk (sizeof ILP32 t)) in ret obj.

Definition agps2mnl_hdlr {W} (junk : nat -> Z) (rx : list recvres)
    (mnl_interface : agps2mnl_interface W) : prog W unit :=
  let* '(read_len, buff) := lift (safe_recvfrom rx MNL_AGPS_MAX_BUFF_SIZE) in
  if read_len <=? 0 then ret tt
  else
    let* '((version, type), b) := decode (CBuf buff 0) get_header in
    switch type
      [ (MNL_AGPS_TYPE_AGPS_REBOOT,
          call_decoded (a2m_agps_reboot mnl_interface) b (ret tt) (fun f _ => f));
        (MNL_AGPS_TYPE_AGPS_OPEN_GPS_REQ,
          call_decoded (a2m_agps_open_gps_req mnl_interface) b get_int
            (fun f show_gps_icon => f show_gps_icon));
        (MNL_AGPS_TYPE_AGPS_CLOSE_GPS_REQ,
          call_decoded (a2m_agps_close_gps_req mnl_interface) b (ret tt) (fun f _ => f));
        (MNL_AGPS_TYPE_AGPS_RESET_GPS_REQ,
          call_decoded (a2m_agps_reset_gps_req mnl_interface) b get_int
            (fun f flags => f flags));
        (MNL_AGPS_TYPE_AGPS_SESSION_DONE,
          call_decoded (a2m_agps_session_done mnl_interface) b (ret tt) (fun f _ => f));
        (MNL_AGPS_TYPE_NI_NOTIFY,
          call_decoded (a2m_ni_notify mnl_interface) b
            (let* session_id := get_int in
             let* type := get_int in
             let* requestor_id := get_string in
             let* client_name := get_string in
             ret (session_id, type, requestor_id, client_name))
            (fun f '(session_id, type, requestor_id, client_name) =>
               f session_id type requestor_id client_name));
        (MNL_AGPS_TYPE_NI_NOTIFY_2,
          call_decoded (a2m_ni_notify2 mnl_interface) b
            (let* session_id := get_int in
             let* type := get_int in
             let* requestor_id := get_string in
             let* client_name := get_string in
             let* requestor_id_encoding := get_int in
             let* client_name_encoding := get_int in
             ret (session_id, type, requestor_id, client_name,
                  requestor_id_encoding, client_name_encoding))
            (fun f '(session_id, type, requestor_id, client_name,
                     requestor_id_encoding, client_name_encoding) =>
               f session_id type requestor_id client_name
                 requestor_id_encoding client_name_encoding));
        (MNL_AGPS_TYPE_DATA_CONN_REQ,
          call_decoded (a2m_data_conn_req mnl_interface) b
            (let* ipaddr := get_int in
             let* is_emergency := get_int in
             ret (ipaddr, is_emergency))
            (fun f '(ipaddr, is_emergency) => f ipaddr is_emergency));
        (MNL_AGPS_TYPE_DATA_CONN_REQ2,
          call_decoded (a2m_data_conn_req2 mnl_interface) b
            (let* addr := get_object junk sockaddr_storage in
             let* is_emergency := get_int in
             ret (addr, is_emergency))
            (fun f '(addr, is_emergency) => f addr is_emergency));
        (MNL_AGPS_TYPE_DATA_CONN_RELEASE,
          call_decoded (a2m_data_conn_release mnl_interface) b (ret tt) (fun f _ => f));
        (MNL_AGPS_TYPE_SET_ID_REQ,
          call_decoded (a2m_set_id_req mnl_interface) b get_int (fun f flags => f flags));
        (MNL_AGPS_TYPE_REF_LOC_REQ,
          call_decoded (a2m_ref_loc_req mnl_interface) b get_int (fun f flags => f flags));
        (MNL_AGPS_TYPE_AGPS2MNL_PMTK,
          call_decoded (a2m_rcv_pmtk mnl_interface) b get_string (fun f pmtk => f pmtk));
        (MNL_AGPS_TYPE_GPEVT,
          call_decoded (a2m_gpevt mnl_interface) b get_int (fun f type => f type));
        (MNL_AGPS_TYPE_AGPS_LOC,
          call_decoded (a2m_agps_location mnl_interface) b (get_object junk mnl_agps_agps_location)
            (fun f location => f location));
        (MNL_AGPS_TYPE_SETTINGS_SYNC,
          call_decoded (a2m_agps_settings_sync mnl_interface) b
            (let* sib8_16 := get_int in
             let* gps := get_int in
             let* glonass := get_int in
             let* beidou := get_int in
             let* galileo := get_int in
             let* a_glonass := get_int in
             ret (Settings (u8 sib8_16) (u8 gps) (u8 glonass) (u8 beidou) (u8 galileo)
                           (u8 a_glonass)))
            (fun f agps_settings => f agps_settings)) ]
      (ret tt).

(** ** The protocol: abstract messages *)

Inductive agps2mnl_msg : Type :=
| G_agps_reboot
| G_agps_open_gps_req (show_gps_icon : Z)
| G_agps_close_gps_req
| G_agps_reset_gps_req (flags : Z)
| G_agps_session_done
| G_ni_notify (session_id type : Z) (requestor_id client_name : cptr)
| G_ni_notify2 (session_id type : Z) (requestor_id client_name : cptr)
    (requestor_id_encoding client_name_encoding : Z)
| G_data_conn_req (ipaddr is_emergency : Z)
| G_data_conn_req2 (addr : list Z) (is_emergency : Z)
| G_data_conn_release
| G_set_id_req (flags : Z)
| G_ref_loc_req (flags : Z)
| G_pmtk (pmtk : cptr)
| G_gpevt (type : Z)
| G_agps_location (location : list Z).

Definition agps2mnl_send (path : string) (m : agps2mnl_msg) : prog sys Z :=
  match m with
  | G_agps_reboot => agps2mnl_agps_reboot path
  | G_agps_open_gps_req show_gps_icon => agps2mnl_agps_open_gps_req path show_gps_icon
  | G_agps_close_gps_req => agps2mnl_agps_close_gps_req path
  | G_agps_reset_gps_req flags => agps2mnl_agps_reset_gps_req path flags
  | G_agps_session_done => agps2mnl_agps_session_done path
  | G_ni_notify session_id type requestor_id client_name =>
      agps2mnl_ni_notify path session_id type requestor_id client_name
  | G_ni_notify2 session_id type requestor_id client_name
      requestor_id_encoding client_name_encoding =>
      agps2mnl_ni_notify2 path session_id type requestor_id client_name
        requestor_id_encoding client_name_encoding
  | G_data_conn_req ipaddr is_emergency => agps2mnl_data_conn_req path ipaddr is_emergency
  | G_data_conn_req2 addr is_emergency => agps2mnl_data_conn_req2 path addr is_emergency
  | G_data_conn_release => agps2mnl_data_conn_release path
  | G_set_id_req flags => agps2mnl_set_id_req path flags
  | G_ref_loc_req flags => agps2mnl_ref_loc_req path flags
  | G_pmtk pmtk => agps2mnl_pmtk path pmtk
  | G_gpevt type => agps2mnl_gpevt path type
  | G_agps_location location => agps2mnl_agps_location path location
  end.

Definition agps2mnl_call {W} (t : agps2mnl_interface W) (m : agps2mnl_msg) : prog W unit :=
  match m with
  | G_agps_reboot => invoke_opt (a2m_agps_reboot t) id
  | G_agps_open_gps_req show_gps_icon =>
      invoke_opt (a2m_agps_open_gps_req t) (fun f => f show_gps_icon)
  | G_agps_close_gps_req => invoke_opt (a2m_agps_close_gps_req t) id
  | G_agps_reset_gps_req flags => invoke_opt (a2m_agps_reset_gps_req t) (fun f => f flags)
  | G_agps_session_done => invoke_opt (a2m_agps_session_done t) id
  | G_ni_notify session_id type requestor_id client_name =>
      invoke_opt (a2m_ni_notify t) (fun f => f session_id type requestor_id client_name)
  | G_ni_notify2 session_id type requestor_id client_name
      requestor_id_encoding client_name_encoding =>
      invoke_opt (a2m_ni_notify2 t)
        (fun f => f session_id type requestor_id client_name
                    requestor_id_encoding client_name_encoding)
  | G_data_conn_req ipaddr is_emergency =>
      invoke_opt (a2m_data_conn_req t) (fun f => f ipaddr is_emergency)
  | G_data_conn_req2 addr is_emergency =>
      invoke_opt (a2m_data_conn_req2 t) (fun f => f addr is_emergency)
  | G_data_conn_release => invoke_opt (a2m_data_conn_release t) id
  | G_set_id_req flags => invoke_opt (a2m_set_id_req t) (fun f => f flags)
  | G_ref_loc_req flags => invoke_opt (a2m_ref_loc_req t) (fun f => f flags)
  | G_pmtk pmtk => invoke_opt (a2m_rcv_pmtk t) (fun f => f pmtk)
  | G_gpevt type => invoke_opt (a2m_gpevt t) (fun f => f type)
  | G_agps_location location => invoke_opt (a2m_agps_location t) (fun f => f location)
  end.

Definition agps2mnl_fields (m : agps2mnl_msg) : Z * list field :=
  match m with
  | G_agps_reboot => (MNL_AGPS_TYPE_AGPS_REBOOT, [])
  | G_agps_open_gps_req show_gps_icon => (MNL_AGPS_TYPE_AGPS_OPEN_GPS_REQ, [FInt show_gps_icon])
  | G_agps_close_gps_req => (MNL_AGPS_TYPE_AGPS_CLOSE_GPS_REQ, [])
  | G_agps_reset_gps_req flags => (MNL_AGPS_TYPE_AGPS_RESET_GPS_REQ, [FInt flags])
  | G_agps_session_done => (MNL_AGPS_TYPE_AGPS_SESSION_DONE, [])
  | G_ni_notify session_id type requestor_id client_name =>
      (MNL_AGPS_TYPE_NI_NOTIFY,
       [FInt session_id; FInt type; FString requestor_id; FString client_name])
  | G_ni_notify2 session_id type requestor_id client_name
      requestor_id_encoding client_name_encoding =>
      (MNL_AGPS_TYPE_NI_NOTIFY_2,
       [FInt session_id; FInt type; FString requestor_id; FString client_name;
        FInt requestor_id_encoding; FInt client_name_encoding])
  | G_data_conn_req ipaddr is_emergency =>
      (MNL_AGPS_TYPE_DATA_CONN_REQ, [FInt ipaddr; FInt is_emergency])
  | G_data_conn_req2 addr is_emergency =>
      (MNL_AGPS_TYPE_DATA_CONN_REQ2, [FBinary addr; FInt is_emergency])
  | G_data_conn_release => (MNL_AGPS_TYPE_DATA_CONN_RELEASE, [])
  | G_set_id_req flags => (MNL_AGPS_TYPE_SET_ID_REQ, [FInt flags])
  | G_ref_loc_req flags => (MNL_AGPS_TYPE_REF_LOC_REQ, [FInt flags])
  | G_pmtk pmtk => (MNL_AGPS_TYPE_AGPS2MNL_PMTK, [FString pmtk])
  | G_gpevt type => (MNL_AGPS_TYPE_GPEVT, [FInt type])
  | G_agps_location location => (MNL_AGPS_TYPE_AGPS_LOC, [FBinary location])
  end.

Definition agps2mnl_bytes (m : agps2mnl_msg) : list Z :=
  let '(cmd, args) := agps2mnl_fields m in enc_msg MNL_AGPS_INTERFACE_VERSION cmd args.

(** Well-typed: values of their C types, structs of the right size. *)
Definition agps2mnl_ok (m : agps2mnl_msg) : Prop :=
  Forall field_ok (snd (agps2mnl_fields m)) /\
  match m with
  | G_data_conn_req2 addr _ => zlen addr = sizeof ILP32 sockaddr_storage
  | G_agps_location location => zlen location = sizeof ILP32 mnl_agps_agps_location
  | _ => True
  end.

#[export] Instance agps2mnl_msg_equiv : Equiv agps2mnl_msg := fun m m' =>
  fst (agps2mnl_fields m) = fst (agps2mnl_fields m') /\
  Forall2 equiv (snd (agps2mnl_fields m)) (snd (agps2mnl_fields m')).

(** ** Sending *)

Lemma agps2mnl_msg_bytes path body l :
  Writes body l ->
  agps2mnl_msg_to path body ≡
  (if zlen l <=? MNL_AGPS_MAX_BUFF_SIZE then send2mnl path l else undef).
Proof.
  intros Hw s. unfold agps2mnl_msg_to, bind, lift.
  rewrite (build_writes MNL_AGPS_MAX_BUFF_SIZE body l ltac:(done) Hw).
  by destruct (zlen l <=? _).
Qed.

Lemma agps2mnl_send_shape path (m : agps2mnl_msg) :
  agps2mnl_ok m -> zlen (agps2mnl_bytes m) < 2 ^ 31 ->
  agps2mnl_send path m ≡
  (if zlen (agps2mnl_bytes m) <=? MNL_AGPS_MAX_BUFF_SIZE
   then send2mnl path (agps2mnl_bytes m) else undef).
Proof.
  intros [Hok Hx] Hlen.
  pose proof (fun body => agps2mnl_msg_bytes path body (agps2mnl_bytes m)) as Hsend.
  revert Hsend Hlen. unfold agps2mnl_bytes.
  destruct m; cbn [agps2mnl_fields snd] in *; unfold enc_msg, enc_fields;
    cbn [map concat enc_field]; rewrite ?app_nil_r; intros Hsend Hlen.
  all: cstr_facts; unfold agps2mnl_send.
  all: lazymatch goal with
       | |- ?h ≡ _ => let h' := eval red in h in change h with h'; cbv beta; apply Hsend
       end.
  all: solve_writes.
Qed.

(** ** Receiving *)

Lemma get_object_cursor junk t l pre post :
  zlen l = sizeof ILP32 t -> zlen (pre ++ le_bytes 4 (zlen l) ++ l) < 2 ^ 31 ->
  get_object junk t (cursor pre (le_bytes 4 (zlen l) ++ l ++ post)) =
  Done (l, cursor (pre ++ le_bytes 4 (zlen l) ++ l) post).
Proof.
  intros Hl Hsz. unfold get_object.
  pose proof (length_uninit junk (sizeof ILP32 t) ltac:(lia)) as Hu.
  erewrite bind_done by (apply get_struct_cursor; [lia|done]).
  by rewrite drop_ge, app_nil_r by lia.
Qed.

Ltac read_object :=
  match goal with
  | |- get_object _ _ (cursor _ (_ ++ _ ++ _)) = _ => apply get_object_cursor; [congruence|clen]
  | |- get_object _ _ (cursor _ ((_ ++ _) ++ _)) = _ =>
      rewrite <- app_assoc; apply get_object_cursor; [congruence|clen]
  end.
Ltac read_agps_args :=
  unfold enc_fields in *; cbn [map concat enc_field] in *; rewrite <- ?app_assoc; cbn [app];
  repeat (erewrite bind_done; [| first [read_object | read_field] ]); wraps;
  first [ reflexivity | etransitivity; [first [read_object | read_field]|]; wraps; reflexivity ].

Lemma agps2mnl_hdlr_shape (m : agps2mnl_msg) :
  agps2mnl_ok m -> zlen (agps2mnl_bytes m) <= MNL_AGPS_MAX_BUFF_SIZE ->
  exists m', m' ≡ m /\
  forall W junk rest (t : agps2mnl_interface W),
    agps2mnl_hdlr junk (RData (agps2mnl_bytes m) :: rest) t ≡ agps2mnl_call t m'.
Proof.
  intros [Hok Hx] Hlen. unfold agps2mnl_bytes in *.
  destruct m; cbn [agps2mnl_fields snd] in *.
  all: rewrite length_enc_msg in Hlen; unfold MNL_AGPS_MAX_BUFF_SIZE in Hlen.
  all: cstr_facts; mirror_msg; split;
    [|intros W junk rest t; unfold agps2mnl_hdlr; etransitivity;
      [apply recv_header; rewrite length_enc_msg; exact Hlen|]; dispatch;
      etransitivity; [eapply call_decoded_done; read_agps_args|];
      cbn [agps2mnl_call]; cbv beta iota; reflexivity ].
  all: split; [done|]; cbn [agps2mnl_fields snd].
  all: repeat (apply Forall2_cons; split); try apply Forall2_nil; try done.
  all: cbn [equiv field_equiv]; by apply received_equiv.
Qed.

(** ** Properties *)


