(* ===== verification/FlpInterface.v ===== *)
(** * The fused-location daemon: [mnl2flp_*], [flp2mnl_hdlr], [flp_test2mnl_hdlr]

    [src/gps/mtk_mnld/mnl_flp_interface/src/mnl_flp_interface.c] and
    [mnl_flp_test_interface.c].  Messages are the 608-byte struct
    [MTK_FLP_OFFLOAD_MSG_T] inside 1 KiB buffers. *)

From S2P Require Import Prelude DataCoder LbsUtility Layout Messages.

Definition FLP_MNL_BUFF_SIZE : Z := 1 * 1024.
Definition FLP_MNL_INTERFACE_VERSION : Z := 1.
Definition OFFLOAD_PAYLOAD_LEN : Z := 600.
Definition MTK_MNL2FLP : string := "/data/gps_mnl/mnld2flp"%string.

(** [flp2mnl_cmd] *)
Definition FLPMNL_GPS_START := 0.
Definition FLPMNL_GPS_STOP := 1.
Definition FLPMNL_GPS_LPBK := 2.
Definition FLPMNL_DATA_SEND := 3.
Definition FLPMNL_DATA_RECV := 4.
Definition FLPMNL_REBOOT_DONE := 6.
Definition FLPMNL_GPS_OPEN_DONE := 7.
Definition FLPMNL_GPS_STOP_DONE := 8.

(** Members of [MTK_FLP_OFFLOAD_MSG_T] at the start of a buffer. *)
Definition flp_type (buff : list Z) : Z := le_val (take 4 buff).
Definition flp_length (buff : list Z) : Z := le_val (take 4 (drop 4 buff)).
Definition flp_data_of (buff : list Z) : list Z :=
  take (Z.to_nat OFFLOAD_PAYLOAD_LEN) (drop 8 buff).
(** [*(int* )&prMsg->data[0]] *)
Definition flp_mode (buff : list Z) : Z := s32 (le_val (take 4 (drop 8 buff))).

(** A zeroed buffer of [size] bytes with the members set; [payload] is written
    at the start of [data]. *)
Definition flp_buffer (size type length : Z) (payload : list Z) : list Z :=
  le_bytes 4 type ++ le_bytes 4 length ++ payload ++
  zeros (Z.to_nat size - 8 - List.length payload).

Definition FLP_MSG_SIZE : Z := 8 + OFFLOAD_PAYLOAD_LEN.

(** Variables of the two files: the loopback test and, in [gps_controller.c],
    [mnld_cfg.OFFLOAD_enabled]. *)
Record ofl_state : Type := Ofl {
  ofl_lpbk_tst_start : Z;
  ofl_lpbk_tst_size : Z;
  tmp_buf : list Z;
  tmp_buf_w : Z;
  OFFLOAD_enabled : Z
}.
Definition ofl_init : ofl_state := Ofl 0 300 (zeros 1024) 0 0.

Class HasOfl (W : Type) := {
  ofl_of : W -> ofl_state;
  set_ofl : ofl_state -> W -> W;
  ofl_of_set o w : ofl_of (set_ofl o w) = o
}.

(** ** Daemon to FLP *)

Definition mnl2flp_mnld_reboot : prog sys Z :=
  mnld_sendto_flp MTK_MNL2FLP
    (flp_buffer FLP_MSG_SIZE FLPMNL_REBOOT_DONE 4 (le_bytes 4 FLP_MNL_INTERFACE_VERSION)).

Definition mnl2flp_gps_open_done : prog sys Z :=
  mnld_sendto_flp MTK_MNL2FLP (flp_buffer FLP_MSG_SIZE FLPMNL_GPS_OPEN_DONE 0 []).

Definition mnl2flp_gps_close_done : prog sys Z :=
  mnld_sendto_flp MTK_MNL2FLP (flp_buffer FLP_MSG_SIZE FLPMNL_GPS_STOP_DONE 0 []).

(** [buf] is the memory behind the pointer; [len] bytes of it are sent. *)
Definition mnl2flp_data_send (buf : list Z) (len : Z) : prog sys Z :=
  if (0 <=? len) && (len <=? zlen buf)
  then mnld_sendto_flp MTK_MNL2FLP (take (Z.to_nat len) buf) else undef.

Section flp.
Context {W : Type} `{HasSys W, HasOfl W}.

Definition mtk_gps_ofl_send_flp_data (data : list Z) : prog W unit :=
  on_sys (log_event (EvLib (LSendFlpData data))).

Definition mnl_offload_is_enabled : prog W bool :=
  gets (fun w => negb (OFFLOAD_enabled (ofl_of w) =? 0)).

Definition set_offload (v : Z) : prog W unit :=
  modify (fun w => let o := ofl_of w in
    set_ofl (Ofl (ofl_lpbk_tst_start o) (ofl_lpbk_tst_size o) (tmp_buf o) (tmp_buf_w o) v) w).
Definition mnl_offload_set_enabled : prog W unit := set_offload 1.
Definition mnl_offload_clear_enabled : prog W unit := set_offload 0.

(** Data of the connectivity chip for the host.  [buf] is the [len]-byte object
    behind the pointer, or [None].  0 is success, -1 [MTK_GPS_ERROR]. *)
Definition mtk_gps_ofl_sys_submit_flp_data (buf : cptr) (len : Z) : prog W Z :=
  let* o := gets ofl_of in
  if ofl_lpbk_tst_start o =? 1 then
    match buf with
    | None => if len =? 0 then ret 0 else undef
    | Some m =>
        if (len <=? zlen m) && (0 <=? tmp_buf_w o) && (tmp_buf_w o + len <=? zlen (tmp_buf o)) then
          let b := take (Z.to_nat (tmp_buf_w o)) (tmp_buf o) ++ take (Z.to_nat len) m ++
                   drop (Z.to_nat (tmp_buf_w o + len)) (tmp_buf o) in
          let n := tmp_buf_w o + len in
          if n >=? ofl_lpbk_tst_size o then
            mtk_gps_ofl_send_flp_data (take (Z.to_nat (ofl_lpbk_tst_size o)) b) ;;
            modify (set_ofl (Ofl (ofl_lpbk_tst_start o) (ofl_lpbk_tst_size o) b 0
                                 (OFFLOAD_enabled o))) ;;
            ret 0
          else
            modify (set_ofl (Ofl (ofl_lpbk_tst_start o) (ofl_lpbk_tst_size o) b n
                                 (OFFLOAD_enabled o))) ;;
            ret 0
        else undef
    end
  else
    match buf with
    | Some m =>
        if negb (len =? 0) && (len <? 1023) then
          let* payload :=
            (if len <? OFFLOAD_PAYLOAD_LEN then
               if len <=? zlen m then ret (take (Z.to_nat len) m) else undef
             else ret []) in
          let* r := on_sys (mnl2flp_data_send
                      (flp_buffer 1024 FLPMNL_DATA_RECV len payload) 1024) in
          ret (if r =? -1 then -1 else 0)
        else ret 0
    | None => ret 0
    end.

(** ** FLP to daemon *)

Record flp2mnl_interface : Type := {
  f2m_flp_reboot : option (prog W unit);
  f2m_gps_start : option (prog W unit);
  f2m_gps_stop : option (prog W unit);
  f2m_flp_lpbk : option (list Z -> Z -> prog W unit);
  f2m_flp_data : option (list Z -> prog W unit)
}.

(** The mode in a start or stop request says whether the offload is used. *)
Definition set_flp_mode (flp_mnl_mode : Z) : prog W unit :=
  if flp_mnl_mode =? 1 then mnl_offload_set_enabled else mnl_offload_clear_enabled.

Definition flp2mnl_hdlr (rx : list recvres) (hdlr : flp2mnl_interface) : prog W Z :=
  let* '(read_len, buff) := lift (safe_recvfrom rx FLP_MNL_BUFF_SIZE) in
  if read_len <=? 0 then ret (-1)
  else
    switch (flp_type buff)
      [ (FLPMNL_REBOOT_DONE, invoke (f2m_flp_reboot hdlr) id);
        (FLPMNL_GPS_START,
          set_flp_mode (flp_mode buff) ;; invoke (f2m_gps_start hdlr) id);
        (FLPMNL_GPS_STOP,
          set_flp_mode (flp_mode buff) ;; invoke (f2m_gps_stop hdlr) id);
        (FLPMNL_GPS_LPBK, invoke (f2m_flp_lpbk hdlr) (fun f => f buff FLP_MNL_BUFF_SIZE));
        (FLPMNL_DATA_SEND, invoke (f2m_flp_data hdlr) (fun f => f buff)) ]
      (ret (-1)).

(** ** Offload test tool to daemon: one digit *)

Record flp_test2mnl_interface : Type := {
  ft2m_gps_start : option (prog W unit);
  ft2m_gps_stop : option (prog W unit);
  ft2m_lpbk_start : option (prog W unit);
  ft2m_lpbk_stop : option (prog W unit)
}.

(** The result of the receive is not looked at: a failed one leaves the zeroed
    buffer, which is no command. *)
Definition flp_test2mnl_hdlr (rx : list recvres) (hdlr : flp_test2mnl_interface) : prog W Z :=
  let* '(_, buff) := lift (safe_recvfrom rx 1024) in
  switch (nth 0 buff 0)
    [ (49, invoke_opt (ft2m_gps_start hdlr) id);
      (50, invoke_opt (ft2m_gps_stop hdlr) id);
      (51, invoke_opt (ft2m_lpbk_start hdlr) id);
      (52, invoke_opt (ft2m_lpbk_stop hdlr) id) ]
    (ret tt) ;;
  ret 0.
End flp.
Arguments flp2mnl_interface : clear implicits.
Arguments flp_test2mnl_interface : clear implicits.

(** ** Properties *)

(** A process with nothing but the sockets and the offload variables. *)
Record flp_proc : Type := FlpProc { fp_sys : sys; fp_ofl : ofl_state }.
#[export] Instance flp_proc_has_sys : HasSys flp_proc.
Proof.
  refine {| sys_of := fp_sys; set_sys := fun s p => FlpProc s (fp_ofl p) |};
    try done; by intros [].
Defined.
#[export] Instance flp_proc_has_ofl : HasOfl flp_proc.
Proof. by refine {| ofl_of := fp_ofl; set_ofl := fun o p => FlpProc (fp_sys p) o |}. Defined.

Lemma length_flp_buffer size type length payload :
  8 + zlen payload <= size -> zlen (flp_buffer size type length payload) = size.
Proof. intros H. unfold flp_buffer. clen. Qed.

(** The members of a message, read back. *)
Lemma flp_buffer_members size type length payload :
  in_u 32 type = true -> in_u 32 length = true ->
  flp_type (flp_buffer size type length payload) = type /\
  flp_length (flp_buffer size type length payload) = length /\
  drop 8 (flp_buffer size type length payload) =
    payload ++ zeros (Z.to_nat size - 8 - List.length payload).
Proof.
  intros Ht Hl. unfold flp_buffer, flp_type, flp_length.
  rewrite (drop_app_le' (le_bytes 4 type)) by (by rewrite length_le_bytes).
  rewrite !(take_app_le' (le_bytes 4 _)) by (by rewrite length_le_bytes).
  rewrite !le_val_le_bytes. change (256 ^ Z.of_nat 4) with (2 ^ 32).
  change 8%nat with (4 + 4)%nat. rewrite <- drop_drop.
  rewrite !(drop_app_le' (le_bytes 4 _)) by (by rewrite length_le_bytes).
  split; [by apply wrap_u_id|]. split; [by apply wrap_u_id|]. done.
Qed.

Section properties.
Context {W : Type} `{HasSys W, HasOfl W}.

(** Outside the loopback test, a block of 1 to 599 bytes from the chip goes
    to the FLP daemon as one message whose length and payload are those of the
    block; the rest of the message is zero. *)
Theorem flp_submit_delivers (m : list Z) (w : W) :
  ofl_lpbk_tst_start (ofl_of w) <> 1 -> 0 < zlen m < OFFLOAD_PAYLOAD_LEN ->
  exists msg,
    mtk_gps_ofl_sys_submit_flp_data (Some m) (zlen m) w =
      (let* r := on_sys (mnld_sendto_flp MTK_MNL2FLP msg) in ret (if r =? -1 then -1 else 0)) w /\
    zlen msg = FLP_MNL_BUFF_SIZE /\ flp_type msg = FLPMNL_DATA_RECV /\
    flp_length msg = zlen m /\ flp_data_of msg = m ++ zeros (600 - length m).
Proof.
  intros Hl Hm. unfold OFFLOAD_PAYLOAD_LEN in Hm.
  exists (flp_buffer 1024 FLPMNL_DATA_RECV (zlen m) m).
  pose proof (length_flp_buffer 1024 FLPMNL_DATA_RECV (zlen m) m ltac:(lia)) as Hlen.
  destruct (flp_buffer_members 1024 FLPMNL_DATA_RECV (zlen m) m) as (Ht & Hn & Hd);
    [done|apply in_u_spec; lia|].
  split; [|split; [exact Hlen|split; [exact Ht|split; [exact Hn|]]]].
  - unfold mtk_gps_ofl_sys_submit_flp_data. unfold bind at 1, gets.
    replace (ofl_lpbk_tst_start (ofl_of w) =? 1) with false by (symmetry; by apply Z.eqb_neq).
    replace (negb (zlen m =? 0) && (zlen m <? 1023)) with true by (symmetry; unbool; lia).
    unfold OFFLOAD_PAYLOAD_LEN. replace (zlen m <? 600) with true by (symmetry; unbool; lia).
    rewrite Z.leb_refl, Nat2Z.id, firstn_all. unfold bind at 1. cbn [ret].
    unfold mnl2flp_data_send. rewrite Hlen. cbn [Z.leb andb Z.compare Pos.compare Pos.compare_cont].
    by rewrite (take_ge (flp_buffer _ _ _ _)) by lia.
  - unfold flp_data_of. rewrite Hd. unfold OFFLOAD_PAYLOAD_LEN.
    rewrite take_app, take_ge by lia. f_equal. rewrite take_replicate. f_equal. lia.
Qed.

(** A block of 600 to 1022 bytes is reported to the FLP daemon all the
    same, as a message that announces that length, more than its 600-byte
    payload can hold, and carries only zeros: the check protects the copy, not
    the message. *)
Theorem flp_submit_oversize (m : list Z) (w : W) :
  ofl_lpbk_tst_start (ofl_of w) <> 1 -> OFFLOAD_PAYLOAD_LEN <= zlen m < 1023 ->
  exists msg,
    mtk_gps_ofl_sys_submit_flp_data (Some m) (zlen m) w =
      (let* r := on_sys (mnld_sendto_flp MTK_MNL2FLP msg) in ret (if r =? -1 then -1 else 0)) w /\
    flp_type msg = FLPMNL_DATA_RECV /\ flp_length msg = zlen m /\ flp_data_of msg = zeros 600.
Proof.
  intros Hl Hm. unfold OFFLOAD_PAYLOAD_LEN in Hm.
  exists (flp_buffer 1024 FLPMNL_DATA_RECV (zlen m) []).
  pose proof (length_flp_buffer 1024 FLPMNL_DATA_RECV (zlen m) [] ltac:(done)) as Hlen.
  destruct (flp_buffer_members 1024 FLPMNL_DATA_RECV (zlen m) []) as (Ht & Hn & Hd);
    [done|apply in_u_spec; lia|].
  split; [|split; [exact Ht|split; [exact Hn|]]].
  - unfold mtk_gps_ofl_sys_submit_flp_data. unfold bind at 1, gets.
    replace (ofl_lpbk_tst_start (ofl_of w) =? 1) with false by (symmetry; by apply Z.eqb_neq).
    replace (negb (zlen m =? 0) && (zlen m <? 1023)) with true by (symmetry; unbool; lia).
    unfold OFFLOAD_PAYLOAD_LEN. replace (zlen m <? 600) with false by (symmetry; unbool; lia).
    unfold bind at 1. cbn [ret].
    unfold mnl2flp_data_send. rewrite Hlen. cbn [Z.leb andb Z.compare Pos.compare Pos.compare_cont].
    by rewrite (take_ge (flp_buffer _ _ _ _)) by lia.
  - unfold flp_data_of. rewrite Hd. cbn [app length]. unfold OFFLOAD_PAYLOAD_LEN.
    rewrite take_replicate. f_equal.
Qed.
End properties.

Lemma flp_submit_delivers_witness :
  exists msg,
    mtk_gps_ofl_sys_submit_flp_data (Some [1; 2; 3]) 3 (FlpProc idle_sys ofl_init) =
      (let* r := on_sys (mnld_sendto_flp MTK_MNL2FLP msg) in ret (if r =? -1 then -1 else 0))
        (FlpProc idle_sys ofl_init) /\
    zlen msg = FLP_MNL_BUFF_SIZE /\ flp_type msg = FLPMNL_DATA_RECV /\
    flp_length msg = 3 /\ flp_data_of msg = [1; 2; 3] ++ zeros 597.
Proof.
  apply (flp_submit_delivers [1; 2; 3] (FlpProc idle_sys ofl_init)); [done|vm_compute; done].
Defined.

Lemma flp_submit_oversize_witness :
  exists msg,
    mtk_gps_ofl_sys_submit_flp_data (Some (replicate 600 7)) (zlen (replicate 600 7))
      (FlpProc idle_sys ofl_init) =
      (let* r := on_sys (mnld_sendto_flp MTK_MNL2FLP msg) in ret (if r =? -1 then -1 else 0))
        (FlpProc idle_sys ofl_init) /\
    flp_type msg = FLPMNL_DATA_RECV /\ flp_length msg = zlen (replicate 600 7) /\
    flp_data_of msg = zeros 600.
Proof.
  apply (flp_submit_oversize (replicate 600 7) (FlpProc idle_sys ofl_init)); [done|].
  vm_compute. split; congruence.
Defined.
