(* ===== verification/MnldState.v ===== *)
(** * State of the daemon ([mnld.h], [mnld.c])

    [mnld_context] without the file descriptors, and the variables of [mnld.c]
    and [gps_controller.c] that the main thread reads and writes.  What the
    daemon asks of files, properties and the C library's formatting is the
    record [mnld_env]: constant while one event is handled, free to change
    between events. *)

From S2P Require Import Prelude DataCoder LbsUtility Layout Messages Mnl2Agps Agps2Mnl.
From S2P Require Import FlpInterface.

(** [mnld_gps_state] *)
Inductive mnld_gps_state : Type :=
| MNLD_GPS_STATE_IDLE
| MNLD_GPS_STATE_STARTING
| MNLD_GPS_STATE_STARTED
| MNLD_GPS_STATE_STOPPING.
#[export] Instance mnld_gps_state_eq_dec : EqDecision mnld_gps_state.
Proof. solve_decision. Defined.

(** [mnld_gps_event] *)
Inductive mnld_gps_event : Type :=
| GPS_EVENT_START
| GPS_EVENT_STOP
| GPS_EVENT_RESET
| GPS_EVENT_START_DONE
| GPS_EVENT_STOP_DONE.

(** [mnld_gps_client] *)
Record mnld_gps_client : Type := Client {
  gps_used : bool;
  need_open_ack : bool;
  need_close_ack : bool;
  need_reset_ack : bool
}.
Definition client_init : mnld_gps_client := Client false false false false.
#[export] Instance mnld_gps_client_eq_dec : EqDecision mnld_gps_client.
Proof. solve_decision. Defined.

(** [mnld_gps_clients], and names for its members. *)
Record mnld_gps_clients : Type := Clients {
  hal : mnld_gps_client;
  agps : mnld_gps_client;
  flp : mnld_gps_client;
  flp_test : mnld_gps_client;
  at_cmd_test : mnld_gps_client;
  factory : mnld_gps_client
}.
Definition clients_init : mnld_gps_clients :=
  Clients client_init client_init client_init client_init client_init client_init.

Inductive who : Type := HAL | AGPS | FLP | FLP_TEST | AT_CMD | FACTORY.
#[export] Instance who_eq_dec : EqDecision who.
Proof. solve_decision. Defined.

Definition client (x : who) (cs : mnld_gps_clients) : mnld_gps_client :=
  match x with
  | HAL => hal cs
  | AGPS => agps cs
  | FLP => flp cs
  | FLP_TEST => flp_test cs
  | AT_CMD => at_cmd_test cs
  | FACTORY => factory cs
  end.

Definition upd_client (x : who) (f : mnld_gps_client -> mnld_gps_client)
    (cs : mnld_gps_clients) : mnld_gps_clients :=
  let 'Clients a b c d e g := cs in
  match x with
  | HAL => Clients (f a) b c d e g
  | AGPS => Clients a (f b) c d e g
  | FLP => Clients a b (f c) d e g
  | FLP_TEST => Clients a b c (f d) e g
  | AT_CMD => Clients a b c d (f e) g
  | FACTORY => Clients a b c d e (f g)
  end.

Definition set_open_ack (v : bool) (c : mnld_gps_client) : mnld_gps_client :=
  Client (gps_used c) v (need_close_ack c) (need_reset_ack c).
Definition set_close_ack (v : bool) (c : mnld_gps_client) : mnld_gps_client :=
  Client (gps_used c) (need_open_ack c) v (need_reset_ack c).
Definition set_reset_ack (v : bool) (c : mnld_gps_client) : mnld_gps_client :=
  Client (gps_used c) (need_open_ack c) (need_close_ack c) v.
Definition set_used (v : bool) (c : mnld_gps_client) : mnld_gps_client :=
  Client v (need_open_ack c) (need_close_ack c) (need_reset_ack c).

(** [mnld_gps_status]; timer ids are those of [init_timer]. *)
Record mnld_gps_status : Type := GpsStatus {
  clients : mnld_gps_clients;
  gps_state : mnld_gps_state;
  is_gps_init : bool;
  is_gps_meas_enabled : bool;
  is_gps_navi_enabled : bool;
  delete_aiding_flag : Z;
  timer_start : Z;
  timer_stop : Z;
  timer_reset : Z;
  timer_nmea_monitor : Z;
  gps_start_time : Z;
  gps_stop_time : Z;
  gps_ttff : Z;
  wait_first_location : bool
}.

(** [mnl_epo_status] *)
Record mnl_epo_status : Type := EpoStatus {
  is_network_connected : bool;
  is_wifi_connected : bool;
  is_epo_downloading : bool
}.

(** Files, properties and formatting, as the daemon finds them. *)
Record mnld_env : Type := Env {
  env_cmcc_log : bool;                  (* get_gps_cmcc_log_enabled() *)
  env_epo_expired : bool;               (* mtk_epo_is_expired(0) *)
  env_epo_enable : bool;                (* gps_epo_enable after epo_read_cust_config() *)
  env_epo_wifi_trigger : bool;          (* gps_epo_wifi_trigger, likewise *)
  env_chip_id : string;                 (* chip_id *)
  env_time_str2 : list Z;               (* the local time as get_time_stamp() prints it *)
  env_fmt_f : Z -> list Z;              (* "%f" of a double *)
  env_fmt_d : Z -> list Z;              (* "%d" of an int *)
  env_stack_byte : Z                    (* what an uninitialised local byte holds *)
}.

Record mnld : Type := Mnld {
  m_sys : sys;
  m_gps : mnld_gps_status;
  m_epo : mnl_epo_status;
  m_ofl : ofl_state;
  m_start_time_out : Z;                  (* start_time_out *)
  m_nmea_time_out : Z;                   (* nmea_data_time_out *)
  m_sv_type_agps_set : Z;                (* sv_type_agps_set *)
  m_sib8_16_enable : Z;                  (* sib8_16_enable *)
  m_settings_from_agps : mnl_agps_agps_settings;
  m_settings_to_agps : mnl_agps_gnss_settings;
  m_agent_set_alarm : Z;                 (* AGENT_SET_ALARM *)
  m_state_mode : Z;                      (* state_mode *)
  m_last_state_mode : Z;                 (* last_state_mode *)
  m_env : mnld_env
}.

Definition set_m_sys (s : sys) (w : mnld) : mnld :=
  Mnld s (m_gps w) (m_epo w) (m_ofl w) (m_start_time_out w) (m_nmea_time_out w)
    (m_sv_type_agps_set w) (m_sib8_16_enable w) (m_settings_from_agps w) (m_settings_to_agps w)
    (m_agent_set_alarm w) (m_state_mode w) (m_last_state_mode w) (m_env w).
Definition set_m_gps (g : mnld_gps_status) (w : mnld) : mnld :=
  Mnld (m_sys w) g (m_epo w) (m_ofl w) (m_start_time_out w) (m_nmea_time_out w)
    (m_sv_type_agps_set w) (m_sib8_16_enable w) (m_settings_from_agps w) (m_settings_to_agps w)
    (m_agent_set_alarm w) (m_state_mode w) (m_last_state_mode w) (m_env w).
Definition set_m_epo (e : mnl_epo_status) (w : mnld) : mnld :=
  Mnld (m_sys w) (m_gps w) e (m_ofl w) (m_start_time_out w) (m_nmea_time_out w)
    (m_sv_type_agps_set w) (m_sib8_16_enable w) (m_settings_from_agps w) (m_settings_to_agps w)
    (m_agent_set_alarm w) (m_state_mode w) (m_last_state_mode w) (m_env w).
Definition set_m_ofl (o : ofl_state) (w : mnld) : mnld :=
  Mnld (m_sys w) (m_gps w) (m_epo w) o (m_start_time_out w) (m_nmea_time_out w)
    (m_sv_type_agps_set w) (m_sib8_16_enable w) (m_settings_from_agps w) (m_settings_to_agps w)
    (m_agent_set_alarm w) (m_state_mode w) (m_last_state_mode w) (m_env w).
Definition set_m_settings (sv sib : Z) (from : mnl_agps_agps_settings)
    (to : mnl_agps_gnss_settings) (w : mnld) : mnld :=
  Mnld (m_sys w) (m_gps w) (m_epo w) (m_ofl w) (m_start_time_out w) (m_nmea_time_out w)
    sv sib from to
    (m_agent_set_alarm w) (m_state_mode w) (m_last_state_mode w) (m_env w).
Definition set_m_agent (alarm mode last : Z) (w : mnld) : mnld :=
  Mnld (m_sys w) (m_gps w) (m_epo w) (m_ofl w) (m_start_time_out w) (m_nmea_time_out w)
    (m_sv_type_agps_set w) (m_sib8_16_enable w) (m_settings_from_agps w) (m_settings_to_agps w)
    alarm mode last (m_env w).
Definition set_m_env (e : mnld_env) (w : mnld) : mnld :=
  Mnld (m_sys w) (m_gps w) (m_epo w) (m_ofl w) (m_start_time_out w) (m_nmea_time_out w)
    (m_sv_type_agps_set w) (m_sib8_16_enable w) (m_settings_from_agps w) (m_settings_to_agps w)
    (m_agent_set_alarm w) (m_state_mode w) (m_last_state_mode w) e.

#[export] Instance mnld_has_sys : HasSys mnld.
Proof. refine {| sys_of := m_sys; set_sys := set_m_sys |}; try done; by intros []. Defined.
#[export] Instance mnld_has_ofl : HasOfl mnld.
Proof. by refine {| ofl_of := m_ofl; set_ofl := set_m_ofl |}. Defined.

(** ** Members of the context, as the code assigns them *)

Definition upd_gps (f : mnld_gps_status -> mnld_gps_status) (w : mnld) : mnld :=
  set_m_gps (f (m_gps w)) w.

Definition with_clients (cs : mnld_gps_clients) (g : mnld_gps_status) : mnld_gps_status :=
  GpsStatus cs (gps_state g) (is_gps_init g) (is_gps_meas_enabled g) (is_gps_navi_enabled g)
    (delete_aiding_flag g) (timer_start g) (timer_stop g) (timer_reset g) (timer_nmea_monitor g)
    (gps_start_time g) (gps_stop_time g) (gps_ttff g) (wait_first_location g).
Definition with_state (s : mnld_gps_state) (g : mnld_gps_status) : mnld_gps_status :=
  GpsStatus (clients g) s (is_gps_init g) (is_gps_meas_enabled g) (is_gps_navi_enabled g)
    (delete_aiding_flag g) (timer_start g) (timer_stop g) (timer_reset g) (timer_nmea_monitor g)
    (gps_start_time g) (gps_stop_time g) (gps_ttff g) (wait_first_location g).
Definition with_init (b : bool) (g : mnld_gps_status) : mnld_gps_status :=
  GpsStatus (clients g) (gps_state g) b (is_gps_meas_enabled g) (is_gps_navi_enabled g)
    (delete_aiding_flag g) (timer_start g) (timer_stop g) (timer_reset g) (timer_nmea_monitor g)
    (gps_start_time g) (gps_stop_time g) (gps_ttff g) (wait_first_location g).
Definition with_meas (b : bool) (g : mnld_gps_status) : mnld_gps_status :=
  GpsStatus (clients g) (gps_state g) (is_gps_init g) b (is_gps_navi_enabled g)
    (delete_aiding_flag g) (timer_start g) (timer_stop g) (timer_reset g) (timer_nmea_monitor g)
    (gps_start_time g) (gps_stop_time g) (gps_ttff g) (wait_first_location g).
Definition with_navi (b : bool) (g : mnld_gps_status) : mnld_gps_status :=
  GpsStatus (clients g) (gps_state g) (is_gps_init g) (is_gps_meas_enabled g) b
    (delete_aiding_flag g) (timer_start g) (timer_stop g) (timer_reset g) (timer_nmea_monitor g)
    (gps_start_time g) (gps_stop_time g) (gps_ttff g) (wait_first_location g).
Definition with_delete (f : Z) (g : mnld_gps_status) : mnld_gps_status :=
  GpsStatus (clients g) (gps_state g) (is_gps_init g) (is_gps_meas_enabled g)
    (is_gps_navi_enabled g) f (timer_start g) (timer_stop g) (timer_reset g)
    (timer_nmea_monitor g) (gps_start_time g) (gps_stop_time g) (gps_ttff g)
    (wait_first_location g).
Definition with_times (start stop ttff : Z) (wait : bool) (g : mnld_gps_status)
  : mnld_gps_status :=
  GpsStatus (clients g) (gps_state g) (is_gps_init g) (is_gps_meas_enabled g)
    (is_gps_navi_enabled g) (delete_aiding_flag g) (timer_start g) (timer_stop g)
    (timer_reset g) (timer_nmea_monitor g) start stop ttff wait.

(** [g_mnld_ctx.gps_status.clients.x] *)
Definition get_client (x : who) : prog mnld mnld_gps_client :=
  gets (fun w => client x (clients (m_gps w))).
Definition mod_client (x : who) (f : mnld_gps_client -> mnld_gps_client) : prog mnld unit :=
  modify (upd_gps (fun g => with_clients (upd_client x f (clients g)) g)).
Definition get_state : prog mnld mnld_gps_state := gets (fun w => gps_state (m_gps w)).
Definition put_state (s : mnld_gps_state) : prog mnld unit := modify (upd_gps (with_state s)).
Definition get_delete : prog mnld Z := gets (fun w => delete_aiding_flag (m_gps w)).
Definition put_delete (f : Z) : prog mnld unit := modify (upd_gps (with_delete f)).
(** A call whose result is not looked at. *)
Definition discard {A} (m : prog sys A) : prog mnld unit := on_sys (let* _ := m in ret tt).

(** The state after [memset] and [mnld_init]. *)
Definition mnld_boot (s : sys) (t1 t2 t3 t4 start_to nmea_to : Z) (e : mnld_env) : mnld :=
  Mnld s
    (GpsStatus clients_init MNLD_GPS_STATE_IDLE false false false 0 t1 t2 t3 t4 0 0 0 false)
    (EpoStatus false false false) ofl_init start_to nmea_to 0 0
    (Settings 0 0 0 0 0 0)
    {| gps_satellite_support := 1; glonass_satellite_support := 0;
       beidou_satellite_support := 0; galileo_satellite_support := 0 |}
    0 2 3 e.
