(* ===== verification/Mnld.v ===== *)
(** * The daemon's main thread ([mnld.c])

    The GPS state machine, the callbacks of the HAL, AGPS, FLP, test, factory
    and AT clients with their tables, the internal events, and the calls into
    the other threads ([gps_controller.c], [epo.c], [op01_log.c]), which are
    datagrams to their sockets. *)

From S2P Require Import Prelude DataCoder LbsUtility Layout Float32 Messages Hal2Mnl Mnl2Hal.
From S2P Require Import Mnl2Agps Agps2Mnl FlpInterface MnldState.
Import HalTypes.

Definition MNLD_INTERNAL_BUFF_SIZE : Z := 8 * 1024.
Definition MNLD_MAIN_SOCKET : string := "mnld_main_socket"%string.
Definition MNLD_GPS_CONTROL_SOCKET : string := "mnld_gps_control_socket"%string.
Definition MNLD_EPO_DOWNLOAD_SOCKET : string := "mnld_epo_download_socket"%string.
Definition MNLD_OP01_LOG_WRITER_SOCKET : string := "mnld_op01_log_write_socket"%string.
Definition MNLD_GPS_STOP_TIMEOUT : Z := 10 * 1000.
Definition MNLD_GPS_RESET_TIMEOUT : Z := 10 * 1000.

Definition GPS_STATUS_SESSION_BEGIN := 1.
Definition GPS_STATUS_SESSION_END := 2.
Definition GPS_STATUS_SESSION_ENGINE_ON := 3.
Definition GPS_STATUS_SESSION_ENGINE_OFF := 4.

Definition GPS_USER_UNKNOWN := 0x0.
Definition GPS_USER_APP := 0x1.
Definition GPS_USER_AGPS := 0x2.
Definition GPS_USER_META := 0x4.
Definition GPS_USER_FLP := 0x10.
Definition GPS_USER_OFL_TEST := 0x20.
Definition GPS_USER_AT_CMD := 0x40.

Abbreviation int_msg := (send_msg MNLD_INTERNAL_BUFF_SIZE).

(** ** Other threads of the daemon, as far as the main thread calls them *)

Module Threads.

Definition MAIN2GPS_EVENT_START := 0.
Definition MAIN2GPS_EVENT_STOP := 1.
Definition MAIN2GPS_DELETE_AIDING_DATA := 2.

Definition gps_control_gps_start (delete_aiding_data_flags : Z) : prog sys Z :=
  int_msg MNLD_GPS_CONTROL_SOCKET
    (put_int MAIN2GPS_EVENT_START ;; put_int delete_aiding_data_flags).

Definition gps_control_gps_stop : prog sys Z :=
  int_msg MNLD_GPS_CONTROL_SOCKET (put_int MAIN2GPS_EVENT_STOP).

Definition gps_control_gps_reset (delete_aiding_data_flags : Z) : prog sys Z :=
  int_msg MNLD_GPS_CONTROL_SOCKET
    (put_int MAIN2GPS_DELETE_AIDING_DATA ;; put_int delete_aiding_data_flags).

Definition MAIN2EPO_EVENT_START := 0.

Definition epo_downloader_start : prog sys Z :=
  int_msg MNLD_EPO_DOWNLOAD_SOCKET (put_int MAIN2EPO_EVENT_START).

Definition MAIN2OP01_EVENT_LOG_WRITE := 0.

(** [vsnprintf(buf, sizeof(buf), ...)] keeps 1023 bytes and a NUL. *)
Definition send_op01_log_msg (text : list Z) : prog sys Z :=
  int_msg MNLD_OP01_LOG_WRITER_SOCKET
    (put_int MAIN2OP01_EVENT_LOG_WRITE ;; put_string (Some (take 1023 text ++ [0]))).

Definition ascii_bytes (s : string) : list Z :=
  map (fun c => Z.of_N (Ascii.N_of_ascii c)) (String.list_ascii_of_string s).
Definition crlf : list Z := [13; 10].

Definition op01_log_gps_start (e : mnld_env) : prog sys Z :=
  let t := env_time_str2 e in
  send_op01_log_msg (ascii_bytes "[" ++ t ++ ascii_bytes "]0x00000000: " ++ t ++
                     ascii_bytes " #gps start" ++ crlf).

Definition op01_log_gps_stop (e : mnld_env) : prog sys Z :=
  let t := env_time_str2 e in
  send_op01_log_msg (ascii_bytes "[" ++ t ++ ascii_bytes "]0x00000001: " ++ t ++
                     ascii_bytes " #gps stop" ++ crlf).

Definition op01_log_gps_location (e : mnld_env) (lat lng ttff : Z) : prog sys Z :=
  let t := env_time_str2 e in
  send_op01_log_msg (ascii_bytes "[" ++ t ++ ascii_bytes "]0x00000002: " ++ t ++
                     ascii_bytes ", " ++ env_fmt_f e lat ++ ascii_bytes ", " ++ env_fmt_f e lng ++
                     ascii_bytes ", " ++ env_fmt_d e ttff ++
                     ascii_bytes " #position(time_stamp, lat, lon, ttff)" ++ crlf).

(** The satellite systems of the chip.  [sv_type] is not assigned for an
    unknown chip: it keeps what the caller's variable held. *)
Definition get_chip_sv_support_capability (chip_id : string) (sv_type : Z) : Z :=
  if bool_decide (chip_id ∈ ["0x6620"; "0x6628"; "0x3336"; "0x6572"; "0x6582"; "0x6592";
                             "0x6571"; "0x6580"; "0x0335"]%string) then 1
  else if bool_decide (chip_id ∈ ["0x3332"; "0x6752"; "0x0321"; "0x0337"; "0x6755";
                                  "0x6757"]%string) then 3
  else if bool_decide (chip_id ∈ ["0x6797"; "0x6630"]%string) then 7
  else if bool_decide (chip_id ∈ ["0x6632"]%string) then 15
  else sv_type.

End Threads.
Export Threads.

Definition get_env : prog mnld mnld_env := gets m_env.
Definition call_lib (c : libcall) : prog mnld unit := on_sys (log_event (EvLib c)).

(** ** Status predicates *)

Definition mnld_is_gps_started : prog mnld bool :=
  let* s := get_state in
  ret (match s with MNLD_GPS_STATE_STARTING | MNLD_GPS_STATE_STARTED => true | _ => false end).

Definition mnld_is_gps_started_done : prog mnld bool :=
  let* s := get_state in
  ret (match s with MNLD_GPS_STATE_STARTED => true | _ => false end).

Definition mnld_is_gps_stopped : prog mnld bool :=
  let* s := get_state in
  ret (match s with MNLD_GPS_STATE_IDLE | MNLD_GPS_STATE_STOPPING => true | _ => false end).

(** ** State machine *)

Module Fsm.

Definition do_gps_reset_hdlr : prog mnld unit :=
  let* agps := get_client AGPS in
  when (need_reset_ack agps)
    (mod_client AGPS (set_reset_ack false) ;;
     discard mnl2agps_reset_gps_done).

(** [start_timer(timer_reset); gps_control_gps_reset(flag); flag = 0] *)
Definition request_reset (flag : Z) : prog mnld unit :=
  let* t := gets (fun w => timer_reset (m_gps w)) in
  discard (start_timer t MNLD_GPS_RESET_TIMEOUT) ;;
  discard (gps_control_gps_reset flag) ;;
  put_delete 0.

Definition do_gps_started_hdlr (si_assist_req : Z) : prog mnld unit :=
  let* hal := get_client HAL in
  when (need_open_ack hal)
    (mod_client HAL (set_open_ack false) ;;
     discard (mnl2hal_gps_status GPS_STATUS_SESSION_ENGINE_ON) ;;
     discard (mnl2hal_gps_status GPS_STATUS_SESSION_BEGIN) ;;
     discard (mnl2agps_gps_open si_assist_req)) ;;
  let* agps := get_client AGPS in
  when (need_open_ack agps)
    (mod_client AGPS (set_open_ack false) ;;
     discard mnl2agps_open_gps_done) ;;
  let* flp := get_client FLP in
  when (need_open_ack flp)
    (mod_client FLP (set_open_ack false) ;;
     discard mnl2flp_gps_open_done ;;
     discard (mnl2agps_gps_open si_assist_req)) ;;
  let* flp_test := get_client FLP_TEST in
  when (need_open_ack flp_test) (mod_client FLP_TEST (set_open_ack false)) ;;
  let* at_cmd_test := get_client AT_CMD in
  when (need_open_ack at_cmd_test) (mod_client AT_CMD (set_open_ack false)) ;;
  let* factory := get_client FACTORY in
  when (need_open_ack factory) (mod_client FACTORY (set_open_ack false)) ;;
  do_gps_reset_hdlr ;;
  let* flag := get_delete in
  when (negb (flag =? 0)) (request_reset flag).

Definition do_gps_stopped_hdlr : prog mnld unit :=
  let* hal := get_client HAL in
  when (need_close_ack hal)
    (mod_client HAL (set_close_ack false) ;;
     discard (mnl2hal_gps_status GPS_STATUS_SESSION_END) ;;
     discard (mnl2hal_gps_status GPS_STATUS_SESSION_ENGINE_OFF) ;;
     discard mnl2agps_gps_close) ;;
  let* agps := get_client AGPS in
  when (need_close_ack agps)
    (mod_client AGPS (set_close_ack false) ;;
     discard mnl2agps_close_gps_done) ;;
  let* flp := get_client FLP in
  when (need_close_ack flp)
    (mod_client FLP (set_close_ack false) ;;
     discard mnl2flp_gps_close_done) ;;
  let* flp_test := get_client FLP_TEST in
  when (need_close_ack flp_test) (mod_client FLP_TEST (set_close_ack false)) ;;
  let* at_cmd_test := get_client AT_CMD in
  when (need_close_ack at_cmd_test) (mod_client AT_CMD (set_close_ack false)) ;;
  let* factory := get_client FACTORY in
  when (need_close_ack factory) (mod_client FACTORY (set_close_ack false)) ;;
  do_gps_reset_hdlr.

Definition all_exit (cs : mnld_gps_clients) : bool :=
  negb (gps_used (hal cs)) && negb (gps_used (agps cs)) && negb (gps_used (flp cs)) &&
  negb (gps_used (flp_test cs)) && negb (gps_used (at_cmd_test cs)) &&
  negb (gps_used (factory cs)).
Definition is_all_gps_client_exit : prog mnld bool :=
  gets (fun w => all_exit (clients (m_gps w))).

Definition one_exists (cs : mnld_gps_clients) : bool :=
  gps_used (hal cs) || gps_used (agps cs) || gps_used (flp cs) || gps_used (flp_test cs) ||
  gps_used (at_cmd_test cs) || gps_used (factory cs).
Definition is_a_gps_client_exist : prog mnld bool :=
  gets (fun w => one_exists (clients (m_gps w))).

Definition mtk_gps_clear_gps_user : prog mnld unit :=
  modify (upd_gps (fun g =>
    with_clients (foldr (fun x => upd_client x (set_used false)) (clients g)
      [HAL; AGPS; FLP; FLP_TEST; AT_CMD; FACTORY]) g)).

Definition gps_user_of (cs : mnld_gps_clients) : Z :=
  let add (b : bool) (m : Z) (u : Z) := if b then Z.lor u m else u in
  let u := GPS_USER_UNKNOWN in
  let u := add (gps_used (hal cs)) GPS_USER_APP u in
  let u := add (gps_used (agps cs)) GPS_USER_AGPS u in
  let u := add (gps_used (flp cs)) GPS_USER_FLP u in
  let u := add (gps_used (flp_test cs)) GPS_USER_OFL_TEST u in
  let u := add (gps_used (at_cmd_test cs)) GPS_USER_AT_CMD u in
  add (gps_used (factory cs)) GPS_USER_META u.
Definition mtk_gps_get_gps_user : prog mnld Z := gets (fun w => gps_user_of (clients (m_gps w))).

(** The part that the idle and the stopping state share: arm the start timer
    unless only offloaded clients use the GPS, and start. *)
Definition arm_and_start : prog mnld unit :=
  let* gps_user := mtk_gps_get_gps_user in
  let* offload := mnl_offload_is_enabled in
  (if (Z.land gps_user (Z.lor GPS_USER_FLP GPS_USER_OFL_TEST) =? gps_user) && offload
   then ret tt
   else
     let* t := gets (fun w => timer_start (m_gps w)) in
     let* start_time_out := gets m_start_time_out in
     discard (start_timer t start_time_out)) ;;
  let* flag := get_delete in
  discard (gps_control_gps_start flag) ;;
  put_delete 0.

Definition stop_gps : prog mnld unit :=
  put_state MNLD_GPS_STATE_STOPPING ;;
  let* t := gets (fun w => timer_stop (m_gps w)) in
  discard (start_timer t MNLD_GPS_STOP_TIMEOUT) ;;
  discard gps_control_gps_stop.

Definition fsm_gps_state_idle (event : mnld_gps_event) : prog mnld unit :=
  match event with
  | GPS_EVENT_START =>
      discard mnl2hal_request_wakelock ;;
      let* e := get_env in
      when (env_cmcc_log e) (discard (op01_log_gps_start e)) ;;
      let* tick := on_sys get_tick in
      modify (upd_gps (fun g => with_times tick (gps_stop_time g) (gps_ttff g)
                                  (wait_first_location g) g)) ;;
      modify (upd_gps (fun g => with_times (gps_start_time g) (gps_stop_time g) (gps_ttff g)
                                  true g)) ;;
      put_state MNLD_GPS_STATE_STARTING ;;
      arm_and_start
  | GPS_EVENT_STOP => do_gps_stopped_hdlr
  | GPS_EVENT_RESET => do_gps_reset_hdlr
  | GPS_EVENT_START_DONE | GPS_EVENT_STOP_DONE => ret tt
  end.

Definition fsm_gps_state_starting (event : mnld_gps_event) (data1 : Z) : prog mnld unit :=
  match event with
  | GPS_EVENT_START | GPS_EVENT_STOP | GPS_EVENT_RESET => ret tt
  | GPS_EVENT_START_DONE =>
      let* t := gets (fun w => timer_start (m_gps w)) in
      discard (stop_timer t) ;;
      do_gps_started_hdlr data1 ;;
      let* exit := is_all_gps_client_exit in
      if exit then stop_gps else put_state MNLD_GPS_STATE_STARTED
  | GPS_EVENT_STOP_DONE => crash
  end.

Definition fsm_gps_state_started (event : mnld_gps_event) : prog mnld unit :=
  match event with
  | GPS_EVENT_START => do_gps_started_hdlr 0
  | GPS_EVENT_STOP =>
      let* exit := is_all_gps_client_exit in
      if exit then stop_gps else do_gps_stopped_hdlr
  | GPS_EVENT_RESET =>
      let* flag := get_delete in
      when (negb (flag =? 0)) (request_reset flag)
  | GPS_EVENT_START_DONE =>
      let* u := mtk_gps_get_gps_user in
      when (negb (Z.land GPS_USER_APP u =? 0)) (discard mnl2agps_reaiding_req)
  | GPS_EVENT_STOP_DONE => crash
  end.

Definition fsm_gps_state_stopping (event : mnld_gps_event) : prog mnld unit :=
  match event with
  | GPS_EVENT_START | GPS_EVENT_STOP => ret tt
  | GPS_EVENT_RESET => do_gps_reset_hdlr
  | GPS_EVENT_STOP_DONE =>
      let* t := gets (fun w => timer_stop (m_gps w)) in
      discard (stop_timer t) ;;
      do_gps_stopped_hdlr ;;
      let* exist := is_a_gps_client_exist in
      if exist then
        put_state MNLD_GPS_STATE_STARTING ;;
        arm_and_start
      else
        discard mnl2hal_release_wakelock ;;
        let* e := get_env in
        when (env_cmcc_log e) (discard (op01_log_gps_stop e)) ;;
        let* tick := on_sys get_tick in
        modify (upd_gps (fun g => with_times (gps_start_time g) tick (gps_ttff g)
                                    (wait_first_location g) g)) ;;
        modify (upd_gps (fun g => with_times (gps_start_time g) (gps_stop_time g) (gps_ttff g)
                                    false g)) ;;
        put_state MNLD_GPS_STATE_IDLE
  | GPS_EVENT_START_DONE => ret tt
  end.

Definition mnld_fsm (event : mnld_gps_event) (data1 : Z) : prog mnld unit :=
  let* gps_state := get_state in
  match gps_state with
  | MNLD_GPS_STATE_IDLE => fsm_gps_state_idle event
  | MNLD_GPS_STATE_STARTING => fsm_gps_state_starting event data1
  | MNLD_GPS_STATE_STARTED => fsm_gps_state_started event
  | MNLD_GPS_STATE_STOPPING => fsm_gps_state_stopping event
  end.

(** [mnld_gps_start_nmea_monitor] and [mnld_gps_controller_mnl_nmea_timeout] *)
Definition mnld_gps_start_nmea_monitor : prog mnld Z :=
  let* t := gets (fun w => timer_nmea_monitor (m_gps w)) in
  when (negb (t =? 0))
    (let* ms := gets m_nmea_time_out in discard (start_timer t ms)) ;;
  ret 0.

Definition mnld_gps_stop_nmea_monitor : prog mnld Z :=
  let* t := gets (fun w => timer_nmea_monitor (m_gps w)) in
  when (negb (t =? 0)) (discard (stop_timer t)) ;;
  ret 0.

End Fsm.
Export Fsm.

(** ** HAL to daemon *)

Module HalCallbacks.

Definition NETWORK_TYPE_WIFI := 1.

(** The assignments that open, close or forget a client. *)
Definition client_open (ack : bool) (c : mnld_gps_client) : mnld_gps_client :=
  set_close_ack false (set_open_ack ack (set_used true c)).
Definition client_close (ack : bool) (c : mnld_gps_client) : mnld_gps_client :=
  set_close_ack ack (set_open_ack false (set_used false c)).

Definition hal_reboot : prog mnld unit :=
  mod_client HAL (fun _ => client_init) ;;
  mnld_fsm GPS_EVENT_STOP 0.

Definition hal_gps_init : prog mnld unit :=
  modify (upd_gps (with_init true)) ;;
  call_lib (LOther "gps_driver_state_init") ;;
  discard mnl2agps_gps_init.

Definition upd_epo (f : mnl_epo_status -> mnl_epo_status) : prog mnld unit :=
  modify (fun w => set_m_epo (f (m_epo w)) w).

(** [is_epo_downloading = true; epo_downloader_start()] *)
Definition start_epo_download : prog mnld unit :=
  upd_epo (fun s => EpoStatus (is_network_connected s) (is_wifi_connected s) true) ;;
  discard epo_downloader_start.

Definition hal_start_gps_trigger_epo_download : prog mnld unit :=
  let* epo_status := gets m_epo in
  let* e := get_env in
  when (negb (is_epo_downloading epo_status) && env_epo_expired e && env_epo_enable e)
    start_epo_download.

Definition hal_gps_start : prog mnld unit :=
  mod_client HAL (client_open true) ;;
  hal_start_gps_trigger_epo_download ;;
  mnld_fsm GPS_EVENT_START 0.

Definition hal_gps_stop : prog mnld unit :=
  mod_client HAL (client_close true) ;;
  mnld_fsm GPS_EVENT_STOP 0.

Definition hal_gps_cleanup : prog mnld unit :=
  modify (upd_gps (with_init false)) ;;
  discard mnl2agps_gps_cleanup.

Definition hal_gps_inject_time (time time_reference uncertainty : Z) : prog mnld unit :=
  call_lib (LInjectNtp time time_reference uncertainty).

(** [lat], [lng], [acc] are bit patterns; the accuracy is converted to [int]. *)
Definition hal_gps_inject_location (lat lng acc : Z) : prog mnld unit :=
  let* ts := on_sys clock_gettime in
  match ts with
  | None => ret tt
  | Some (sec, nsec) =>
      let* started := mnld_is_gps_started_done in
      call_lib (LInjectNlp lat lng acc sec nsec (Z.b2z started)) ;;
      let* a := lift (f32_to_int (f32_of_bits acc)) in
      discard (mnl2agps_location_sync lat lng a)
  end.

Definition hal_gps_delete_aiding_data (flags : Z) : prog mnld unit :=
  discard (mnl2agps_delete_aiding_data flags) ;;
  mod_client HAL (set_reset_ack false) ;;
  modify (upd_gps (fun g => with_delete (Z.lor (delete_aiding_flag g) flags) g)) ;;
  mnld_fsm GPS_EVENT_RESET 0.

Definition hal_gps_set_position_mode (mode recurrence min_interval preferred_acc
    preferred_time : Z) : prog mnld unit := ret tt.

Definition hal_data_conn_open (apn : cptr) : prog mnld unit :=
  discard (mnl2agps_data_conn_open apn).
Definition hal_data_conn_open_with_apn_ip_type (apn : cptr) (ip_type : Z) : prog mnld unit :=
  discard (mnl2agps_data_conn_open_ip_type apn ip_type).
Definition hal_data_conn_closed : prog mnld unit := discard mnl2agps_data_conn_closed.
Definition hal_data_conn_failed : prog mnld unit := discard mnl2agps_data_conn_failed.
Definition hal_set_server (type : Z) (hostname : cptr) (port : Z) : prog mnld unit :=
  discard (mnl2agps_set_server type hostname port).
Definition hal_set_ref_location (type mcc mnc lac cid : Z) : prog mnld unit :=
  discard (mnl2agps_set_ref_loc type mcc mnc lac cid).
Definition hal_set_id (type : Z) (setid : cptr) : prog mnld unit :=
  discard (mnl2agps_set_set_id type setid).
Definition hal_ni_message (msg : list Z) (len : Z) : prog mnld unit :=
  discard (mnl2agps_ni_message msg len).
Definition hal_ni_respond (notif_id user_response : Z) : prog mnld unit :=
  discard (mnl2agps_ni_respond notif_id user_response).

Definition hal_update_network_state (connected type roaming : Z) (extra_info : cptr)
  : prog mnld unit :=
  discard (mnl2agps_update_network_state connected type roaming extra_info) ;;
  let c := negb (connected =? 0) in
  upd_epo (fun s => EpoStatus c (is_wifi_connected s) (is_epo_downloading s)) ;;
  upd_epo (fun s => EpoStatus (is_network_connected s)
                      (if type =? NETWORK_TYPE_WIFI then c else false) (is_epo_downloading s)) ;;
  let* epo_status := gets m_epo in
  let* started := mnld_is_gps_started in
  let* e := get_env in
  if started then
    when (c && negb (is_epo_downloading epo_status) && env_epo_expired e && env_epo_enable e)
      start_epo_download
  else if type =? NETWORK_TYPE_WIFI then
    when (c && negb (is_epo_downloading epo_status) && env_epo_wifi_trigger e &&
          env_epo_expired e && env_epo_enable e)
      start_epo_download
  else ret tt.

Definition hal_update_network_availability (available : Z) (apn : cptr) : prog mnld unit :=
  discard (mnl2agps_update_network_availability available apn).
Definition hal_set_gps_measurement (enabled : bool) : prog mnld unit :=
  modify (upd_gps (with_meas enabled)).
Definition hal_set_gps_navigation (enabled : bool) : prog mnld unit :=
  modify (upd_gps (with_navi enabled)).

Definition g_hal2mnl_interface : hal2mnl_interface mnld := {|
  h2m_hal_reboot := Some hal_reboot;
  h2m_gps_init := Some hal_gps_init;
  h2m_gps_start := Some hal_gps_start;
  h2m_gps_stop := Some hal_gps_stop;
  h2m_gps_cleanup := Some hal_gps_cleanup;
  h2m_gps_inject_time := Some hal_gps_inject_time;
  h2m_gps_inject_location := Some hal_gps_inject_location;
  h2m_gps_delete_aiding_data := Some hal_gps_delete_aiding_data;
  h2m_gps_set_position_mode := Some hal_gps_set_position_mode;
  h2m_data_conn_open := Some hal_data_conn_open;
  h2m_data_conn_open_with_apn_ip_type := Some hal_data_conn_open_with_apn_ip_type;
  h2m_data_conn_closed := Some hal_data_conn_closed;
  h2m_data_conn_failed := Some hal_data_conn_failed;
  h2m_set_server := Some hal_set_server;
  h2m_set_ref_location := Some hal_set_ref_location;
  h2m_set_id := Some hal_set_id;
  h2m_ni_message := Some hal_ni_message;
  h2m_ni_respond := Some hal_ni_respond;
  h2m_update_network_state := Some hal_update_network_state;
  h2m_update_network_availability := Some hal_update_network_availability;
  h2m_set_gps_measurement := Some hal_set_gps_measurement;
  h2m_set_gps_navigation := Some hal_set_gps_navigation
|}.

End HalCallbacks.
Export HalCallbacks.

(** ** AGPS daemon to daemon *)

Module AgpsCallbacks.

Definition NI_ENCODING_TYPE_UCS2 := 3.
Definition GPS_LOCATION_HAS_LAT_LONG := 0x0001.
Definition GPS_LOCATION_HAS_ALT := 0x0002.
Definition GPS_LOCATION_HAS_SPEED := 0x0004.
Definition GPS_LOCATION_HAS_BEARING := 0x0008.
Definition GPS_LOCATION_HAS_ACCURACY := 0x0010.
Definition MTK_PARAM_CMD_SWITCH_CONSTELLATION := 58.
Definition MTK_PARAM_CMD_SIB8_16_ENABLE := 59.
Definition ST_IDLE := 2.

Definition agps_reboot : prog mnld unit :=
  mod_client AGPS (fun _ => client_init) ;;
  mnld_fsm GPS_EVENT_STOP 0.

Definition agps_open_gps_req (show_gps_icon : Z) : prog mnld unit :=
  mod_client AGPS (client_open true) ;;
  mnld_fsm GPS_EVENT_START 0.

Definition agps_close_gps_req : prog mnld unit :=
  mod_client AGPS (client_close true) ;;
  mnld_fsm GPS_EVENT_STOP 0.

Definition agps_reset_gps_req (flags : Z) : prog mnld unit :=
  if flags =? 0 then discard mnl2agps_reset_gps_done
  else
    modify (upd_gps (fun g => with_delete (Z.lor (delete_aiding_flag g) flags) g)) ;;
    mod_client AGPS (set_reset_ack true) ;;
    mnld_fsm GPS_EVENT_RESET 0.

(** [gps_controller_agps_session_done] *)
Definition agps_session_done : prog mnld unit :=
  let* stopped := mnld_is_gps_stopped in
  if stopped then
    modify (fun w => set_m_agent 0 ST_IDLE (m_state_mode w) w)
  else
    let* alarm := gets m_agent_set_alarm in
    when (alarm =? 0)
      (call_lib (LAlarm 30) ;;
       modify (fun w => set_m_agent 1 (m_state_mode w) (m_last_state_mode w) w)).

(** The two names go through the 1024-byte arrays of [agps_ni_notify]. *)
Definition agps_ni_notify (session_id type : Z) (requestor_id client_name : cptr)
  : prog mnld unit :=
  let* requestorId := lift (ni_text requestor_id) in
  let* clientName := lift (ni_text client_name) in
  discard (mnl2hal_request_ni_notify session_id type (Some requestorId) (Some clientName)
             NI_ENCODING_TYPE_UCS2 NI_ENCODING_TYPE_UCS2).

(** A zeroed [sockaddr_storage] with [ss_family = AF_INET] and [sin_addr]. *)
Definition agps_data_conn_req (ipaddr is_emergency : Z) : prog mnld unit :=
  discard (mnl2hal_request_data_conn (le_bytes 2 2 ++ zeros 2 ++ le_bytes 4 ipaddr ++ zeros 120)).

Definition agps_data_conn_release : prog mnld unit := discard mnl2hal_release_data_conn.
Definition agps_set_id_req (flags : Z) : prog mnld unit := discard (mnl2hal_request_set_id flags).
Definition agps_ref_loc_req (flags : Z) : prog mnld unit := discard (mnl2hal_request_ref_loc flags).

(** [gps_controller_rcv_pmtk] *)
Definition agps_rcv_pmtk (pmtk : cptr) : prog mnld unit :=
  let* stopped := mnld_is_gps_stopped in
  if stopped then ret tt else call_lib (LAgpsPmtk pmtk).

Definition agps_gpevt (type : Z) : prog mnld unit := ret tt.

(** The [gps_location] built from the location of the AGPS daemon. *)
Definition location_of_agps (location : list Z) : list Z :=
  let src := member ILP32 mnl_agps_agps_location location in
  let set := set_member ILP32 gps_location in
  let flag (f : Z) (loc : list Z) :=
    set "flags"%string (Z.lor (member ILP32 gps_location loc "flags") f) loc in
  let loc := zeros (Z.to_nat (sizeof ILP32 gps_location)) in
  let loc := flag GPS_LOCATION_HAS_LAT_LONG loc in
  let loc := set "lat"%string (src "latitude"%string) loc in
  let loc := set "lng"%string (src "longitude"%string) loc in
  let loc := if src "altitude_used"%string =? 0 then loc
             else set "alt"%string (src "altitude"%string) (flag GPS_LOCATION_HAS_ALT loc) in
  let loc := if src "speed_used"%string =? 0 then loc
             else set "speed"%string (src "speed"%string) (flag GPS_LOCATION_HAS_SPEED loc) in
  let loc := if src "bearing_used"%string =? 0 then loc
             else set "bearing"%string (src "bearing"%string)
                    (flag GPS_LOCATION_HAS_BEARING loc) in
  let loc := if src "accuracy_used"%string =? 0 then loc
             else set "accuracy"%string (src "accuracy"%string)
                    (flag GPS_LOCATION_HAS_ACCURACY loc) in
  if src "timestamp_used"%string =? 0 then loc
  else set "timestamp"%string (src "timestamp"%string) loc.

Definition agps_location (location : list Z) : prog mnld unit :=
  discard (mnl2hal_location (location_of_agps location)) ;;
  let* ts := on_sys clock_gettime in
  match ts with
  | None => ret tt
  | Some (sec, nsec) =>
      let src := member ILP32 mnl_agps_agps_location location in
      call_lib (LInjectNlp (src "latitude"%string) (src "longitude"%string)
                           (src "accuracy"%string) sec nsec 1)
  end.

Definition agps_ni_notify2 (session_id type : Z) (requestor_id client_name : cptr)
    (requestor_id_encoding client_name_encoding : Z) : prog mnld unit :=
  discard (mnl2hal_request_ni_notify session_id type requestor_id client_name
             requestor_id_encoding client_name_encoding).

Definition agps_data_conn_req2 (addr : list Z) (is_emergency : Z) : prog mnld unit :=
  discard (mnl2hal_request_data_conn addr).

(** [sv_type_agps_set] *)
Definition sv_type_of (s : mnl_agps_agps_settings) : Z :=
  let v := 0 in
  let v := u8 (Z.lor v (Z.shiftl (Z.land (a_glonass_satellite_enable s) 1) 4)) in
  let v := u8 (Z.lor v (Z.shiftl (Z.land (galileo_satellite_enable s) 1) 3)) in
  let v := u8 (Z.lor v (Z.shiftl (Z.land (beidou_satellite_enable s) 1) 2)) in
  let v := u8 (Z.lor v (Z.shiftl (Z.land (glonass_satellite_enable s) 1) 1)) in
  u8 (Z.lor v (Z.land (gps_satellite_enable s) 1)).

Definition agps_settings_sync (s : mnl_agps_agps_settings) : prog mnld unit :=
  let sv := sv_type_of s in
  let sib := sib8_16_enable s in
  modify (fun w => set_m_settings sv sib s (m_settings_to_agps w) w) ;;
  let* started := mnld_is_gps_started_done in
  when started
    (call_lib (LSetParam MTK_PARAM_CMD_SWITCH_CONSTELLATION sv) ;;
     call_lib (LSetParam MTK_PARAM_CMD_SIB8_16_ENABLE sib)) ;;
  let* e := get_env in
  let sv_type := get_chip_sv_support_capability (env_chip_id e) (env_stack_byte e) in
  let to := {| gps_satellite_support := Z.land sv_type 0x01;
               glonass_satellite_support := Z.shiftr (Z.land sv_type 0x02) 1;
               beidou_satellite_support := Z.shiftr (Z.land sv_type 0x04) 2;
               galileo_satellite_support := Z.shiftr (Z.land sv_type 0x08) 3 |} in
  modify (fun w => set_m_settings (m_sv_type_agps_set w) (m_sib8_16_enable w)
                     (m_settings_from_agps w) to w) ;;
  discard (mnl2agps_agps_settings_ack to).

Definition g_agps2mnl_interface : agps2mnl_interface mnld := {|
  a2m_agps_reboot := Some agps_reboot;
  a2m_agps_open_gps_req := Some agps_open_gps_req;
  a2m_agps_close_gps_req := Some agps_close_gps_req;
  a2m_agps_reset_gps_req := Some agps_reset_gps_req;
  a2m_agps_session_done := Some agps_session_done;
  a2m_ni_notify := Some agps_ni_notify;
  a2m_data_conn_req := Some agps_data_conn_req;
  a2m_data_conn_release := Some agps_data_conn_release;
  a2m_set_id_req := Some agps_set_id_req;
  a2m_ref_loc_req := Some agps_ref_loc_req;
  a2m_rcv_pmtk := Some agps_rcv_pmtk;
  a2m_gpevt := Some agps_gpevt;
  a2m_agps_location := Some agps_location;
  a2m_ni_notify2 := Some agps_ni_notify2;
  a2m_data_conn_req2 := Some agps_data_conn_req2;
  a2m_agps_settings_sync := Some agps_settings_sync
|}.

End AgpsCallbacks.
Export AgpsCallbacks.

(** ** FLP, tests, factory and AT commands to daemon *)

Module OtherCallbacks.

Definition flp2mnl_flp_reboot : prog mnld unit :=
  mod_client FLP (fun _ => client_init) ;;
  mnld_fsm GPS_EVENT_STOP 0.

Definition flp2mnl_gps_start : prog mnld unit :=
  mod_client FLP (client_open true) ;;
  mnld_fsm GPS_EVENT_START 0.

Definition flp2mnl_gps_stop : prog mnld unit :=
  mod_client FLP (client_close true) ;;
  mnld_fsm GPS_EVENT_STOP 0.

Definition flp2mnl_flp_lpbk (buff : list Z) (len : Z) : prog mnld unit :=
  discard (mnl2flp_data_send buff len).

Definition flp2mnl_flp_data (prMsg : list Z) : prog mnld unit :=
  let length := flp_length prMsg in
  if (length >? 0) && (length <=? OFFLOAD_PAYLOAD_LEN)
  then mtk_gps_ofl_send_flp_data (take (Z.to_nat length) (flp_data_of prMsg))
  else ret tt.

Definition g_flp2mnl_interface : flp2mnl_interface mnld := {|
  f2m_flp_reboot := Some flp2mnl_flp_reboot;
  f2m_gps_start := Some flp2mnl_gps_start;
  f2m_gps_stop := Some flp2mnl_gps_stop;
  f2m_flp_lpbk := Some flp2mnl_flp_lpbk;
  f2m_flp_data := Some flp2mnl_flp_data
|}.

Definition flp_test2mnl_gps_start : prog mnld unit :=
  mod_client FLP_TEST (client_open false) ;;
  mnld_fsm GPS_EVENT_START 0.

Definition flp_test2mnl_gps_stop : prog mnld unit :=
  mod_client FLP_TEST (client_close false) ;;
  mnld_fsm GPS_EVENT_STOP 0.

Definition set_lpbk (v : Z) : prog mnld unit :=
  modify (fun w => let o := m_ofl w in
    set_m_ofl (Ofl v (ofl_lpbk_tst_size o) (tmp_buf o) (tmp_buf_w o) (OFFLOAD_enabled o)) w).

(** [char tmp_buf[1024]] is filled with the pattern and sent. *)
Definition flp_test2mnl_flp_lpbk_start : prog mnld unit :=
  let* size := gets (fun w => ofl_lpbk_tst_size (m_ofl w)) in
  if size <=? 1024 then
    mtk_gps_ofl_send_flp_data (replicate (Z.to_nat size) 0x80) ;;
    set_lpbk 1
  else undef.

Definition flp_test2mnl_flp_lpbk_stop : prog mnld unit := set_lpbk 0.

Definition g_flp_test2mnl_interface : flp_test2mnl_interface mnld := {|
  ft2m_gps_start := Some flp_test2mnl_gps_start;
  ft2m_gps_stop := Some flp_test2mnl_gps_stop;
  ft2m_lpbk_start := Some flp_test2mnl_flp_lpbk_start;
  ft2m_lpbk_stop := Some flp_test2mnl_flp_lpbk_stop
|}.

Definition factory_mnld_gps_start : prog mnld unit :=
  mod_client FACTORY (client_open false) ;;
  mnld_fsm GPS_EVENT_START 0.

Definition factory_mnld_gps_stop : prog mnld unit :=
  mod_client FACTORY (client_close false) ;;
  mnld_fsm GPS_EVENT_STOP 0.

Definition at_test2mnl_gps_start : prog mnld unit :=
  mod_client AT_CMD (client_open false) ;;
  mnld_fsm GPS_EVENT_START 0.

Definition at_test2mnl_gps_stop : prog mnld unit :=
  mod_client AT_CMD (client_close false) ;;
  mnld_fsm GPS_EVENT_STOP 0.

End OtherCallbacks.
Export OtherCallbacks.

(** ** Internal events *)

Module MainEvents.

Definition GPS2MAIN_EVENT_START_DONE := 0.
Definition GPS2MAIN_EVENT_STOP_DONE := 1.
Definition GPS2MAIN_EVENT_RESET_DONE := 2.
Definition GPS2MAIN_EVENT_NMEA_TIMEOUT := 3.
Definition GPS2MAIN_EVENT_UPDATE_LOCATION := 4.
Definition EPO2MAIN_EVENT_EPO_DONE := 5.
Definition QEPO2MAIN_EVENT_QEPO_DONE := 6.

Definition mnld_gps_start_done (is_assist_req : bool) : prog sys Z :=
  int_msg MNLD_MAIN_SOCKET (put_int GPS2MAIN_EVENT_START_DONE ;; put_int (Z.b2z is_assist_req)).
Definition mnld_gps_start_nmea_timeout : prog sys Z :=
  int_msg MNLD_MAIN_SOCKET (put_int GPS2MAIN_EVENT_NMEA_TIMEOUT).
Definition mnld_gps_stop_done : prog sys Z :=
  int_msg MNLD_MAIN_SOCKET (put_int GPS2MAIN_EVENT_STOP_DONE).
Definition mnld_gps_reset_done : prog sys Z :=
  int_msg MNLD_MAIN_SOCKET (put_int GPS2MAIN_EVENT_RESET_DONE).
Definition mnld_gps_update_location (location : list Z) : prog sys Z :=
  int_msg MNLD_MAIN_SOCKET
    (put_int GPS2MAIN_EVENT_UPDATE_LOCATION ;;
     put_binary location (sizeof ILP32 gps_location)).
Definition mnld_epo_download_done (result : Z) : prog sys Z :=
  int_msg MNLD_MAIN_SOCKET (put_int EPO2MAIN_EVENT_EPO_DONE ;; put_int result).
Definition mnld_qepo_download_done (result : Z) : prog sys Z :=
  int_msg MNLD_MAIN_SOCKET (put_int QEPO2MAIN_EVENT_QEPO_DONE ;; put_int result).

(** The cases of [main_event_hdlr], after the arguments are read. *)
Definition on_reset_done : prog mnld unit :=
  let* t := gets (fun w => timer_reset (m_gps w)) in
  discard (stop_timer t) ;;
  do_gps_reset_hdlr.

Definition on_nmea_timeout : prog mnld unit :=
  let* started := mnld_is_gps_started_done in
  when started
    (mtk_gps_clear_gps_user ;;
     mnld_fsm GPS_EVENT_STOP 0 ;;
     discard mnl2hal_mnld_reboot ;;
     discard mnl2agps_mnl_reboot ;;
     discard mnl2flp_mnld_reboot ;;
     call_lib (LOther "gps_control_mnl_set_status")).

Definition on_update_location (location : list Z) : prog mnld unit :=
  let f := member ILP32 gps_location location in
  let valid_acc :=
    if Z.land (f "flags"%string) GPS_LOCATION_HAS_ACCURACY =? 0 then f32_of_int 2000
    else f32_of_bits (f "accuracy"%string) in
  let* acc := lift (f32_to_int valid_acc) in
  discard (mnl2agps_location_sync (f "lat"%string) (f "lng"%string) acc) ;;
  let* wait := gets (fun w => wait_first_location (m_gps w)) in
  when wait
    (modify (upd_gps (fun g => with_times (gps_start_time g) (gps_stop_time g) (gps_ttff g)
                                 false g)) ;;
     let* tick := on_sys get_tick in
     let* start := gets (fun w => gps_start_time (m_gps w)) in
     if is_int (tick - start) then
       modify (upd_gps (fun g => with_times (gps_start_time g) (gps_stop_time g) (tick - start)
                                   (wait_first_location g) g)) ;;
       let* e := get_env in
       when (env_cmcc_log e)
         (discard (op01_log_gps_location e (f "lat"%string) (f "lng"%string) (tick - start)))
     else undef).

Definition on_epo_done : prog mnld unit :=
  upd_epo (fun s => EpoStatus (is_network_connected s) (is_wifi_connected s) false) ;;
  let* started := mnld_is_gps_started_done in
  when started (call_lib (LOther "epo_update_epo_file")).

Definition on_qepo_done : prog mnld unit :=
  let* started := mnld_is_gps_started_done in
  when started (call_lib (LOther "qepo_update_quarter_epo_file")).

(** The thread that sends these messages is of the same process: a struct is
    read back at its own size. *)
Definition main_event_hdlr (junk : nat -> Z) (rx : list recvres) : prog mnld Z :=
  let* '(read_len, buff) := lift (safe_recvfrom rx MNLD_INTERNAL_BUFF_SIZE) in
  if read_len <=? 0 then ret (-1)
  else
    let* '(cmd, b) := decode (CBuf buff 0) get_int in
    switch cmd
      [ (GPS2MAIN_EVENT_START_DONE,
          let* '(is_assist_req, _) := decode b get_int in
          mnld_fsm GPS_EVENT_START_DONE is_assist_req);
        (GPS2MAIN_EVENT_STOP_DONE, mnld_fsm GPS_EVENT_STOP_DONE 0);
        (GPS2MAIN_EVENT_RESET_DONE, on_reset_done);
        (GPS2MAIN_EVENT_NMEA_TIMEOUT, on_nmea_timeout);
        (GPS2MAIN_EVENT_UPDATE_LOCATION,
          let* '(location, _) := decode b (get_object junk gps_location) in
          on_update_location location);
        (EPO2MAIN_EVENT_EPO_DONE, let* '(_, _) := decode b get_int in on_epo_done);
        (QEPO2MAIN_EVENT_QEPO_DONE, let* '(_, _) := decode b get_int in on_qepo_done) ]
      (ret tt) ;;
    ret 0.

(** The timer callbacks: the watchdogs of the start, the stop and the reset
    crash the daemon; the NMEA monitor posts an event. *)
Definition mnld_gps_start_timeout : prog mnld unit := crash.
Definition mnld_gps_stop_timeout : prog mnld unit := crash.
Definition mnld_gps_reset_timeout : prog mnld unit := crash.
Definition gps_mnld_restart_mnl_process : prog mnld unit := discard mnld_gps_start_nmea_timeout.

End MainEvents.
Export MainEvents.

(** ** The main thread: one ready descriptor of [mnld_main_thread] *)

Inductive mnld_ready : Type :=
| FdAgps (junk : nat -> Z) (rx : list recvres)
| FdHal (rx : list recvres)
| FdFlp (rx : list recvres)
| FdFlpTest (rx : list recvres)
| FdInt (junk : nat -> Z) (rx : list recvres).

Definition mnld_dispatch (fd : mnld_ready) : prog mnld unit :=
  match fd with
  | FdAgps junk rx => agps2mnl_hdlr junk rx g_agps2mnl_interface
  | FdHal rx => let* _ := hal2mnl_hdlr rx g_hal2mnl_interface in ret tt
  | FdFlp rx => let* _ := flp2mnl_hdlr rx g_flp2mnl_interface in ret tt
  | FdFlpTest rx => let* _ := flp_test2mnl_hdlr rx g_flp_test2mnl_interface in ret tt
  | FdInt junk rx => let* _ := main_event_hdlr junk rx in ret tt
  end.

Fixpoint for_each (fds : list mnld_ready) : prog mnld unit :=
  match fds with
  | [] => ret tt
  | fd :: fds' => mnld_dispatch fd ;; for_each fds'
  end.

Definition MNLD_MAIN_HANDLER_TIMEOUT : Z := 10 * 1000.

(** One turn of the loop: the watchdog [hdlr_timer] is armed around the
    handlers of the descriptors that [epoll_wait] reported. *)
Definition mnld_main_turn (hdlr_timer : Z) (fds : list mnld_ready) : prog mnld unit :=
  discard (start_timer hdlr_timer MNLD_MAIN_HANDLER_TIMEOUT) ;;
  for_each fds ;;
  discard (stop_timer hdlr_timer).
