(* ===== verification/Kernel.v ===== *)
(** * A working kernel, and what the daemon's calls do on it

    [kernel_ok] is the assumption under which the daemon's progress is studied:
    a socket can be opened, every [sendto] is answered within the eleven tries
    of the send loop (with success or not), and the clock is sane.  On such a
    kernel every send and every timer call is a deterministic change of the
    trace; [effect] says what a program of the daemon does to its GPS state and
    which messages it emits. *)

From stdpp Require Import gmap.
From S2P Require Import Prelude DataCoder LbsUtility Layout Messages Hal2Mnl Mnl2Hal Mnl2Agps.
From S2P Require Import Agps2Mnl FlpInterface MnldState Mnld.

(** The trace without the results of the calls. *)
Inductive note : Type :=
| NSend (path : string) (msg : list Z)
| NTimer (id sec nsec : Z)
| NLib (c : libcall).

Definition erase (e : event) : note :=
  match e with
  | EvSend path msg _ => NSend path msg
  | EvTimer id sec nsec => NTimer id sec nsec
  | EvLib c => NLib c
  end.

Definition kernel_ok (s : sys) : Prop :=
  (forall n, exists fd rest r,
    sys_sends s n = ROk fd :: rest /\ 0 <= fd /\ sendto_loop rest 10 = Some r) /\
  (forall n, match sys_clock s n with
             | Some (sec, nsec) => 0 <= sec < 2147483 /\ 0 <= nsec < 1000000000
             | None => True
             end).

(** What stays the same, and what is noted. *)
Record sys_grows (s s' : sys) (ns : list note) : Prop := {
  sg_sends : sys_sends s' = sys_sends s;
  sg_valid : sys_timer_valid s' = sys_timer_valid s;
  sg_clock : sys_clock s' = sys_clock s;
  sg_trace : map erase (sys_trace s') = map erase (sys_trace s) ++ ns
}.

Lemma sys_grows_refl s : sys_grows s s [].
Proof. split; try done. by rewrite app_nil_r. Qed.

Lemma sys_grows_trans s1 s2 s3 n1 n2 :
  sys_grows s1 s2 n1 -> sys_grows s2 s3 n2 -> sys_grows s1 s3 (n1 ++ n2).
Proof.
  intros [A B C D] [A' B' C' D']. split; try congruence. by rewrite D', D, app_assoc.
Qed.

Lemma kernel_ok_grows s s' ns : sys_grows s s' ns -> kernel_ok s -> kernel_ok s'.
Proof. intros [A _ C _] [H1 H2]. unfold kernel_ok. rewrite A, C. done. Qed.

(** ** System calls *)

Lemma log_event_grows e s :
  exists s', log_event e s = Done (tt, s') /\ sys_grows s s' [erase e] /\ sys_timers s' = sys_timers s.
Proof.
  eexists. split; [reflexivity|]. split; [|done].
  split; try done. cbn. by rewrite map_app.
Qed.

(** Every kind of send has the same effect. *)
Definition plain_send (m : prog sys Z) (path : string) (msg : list Z) : Prop :=
  forall s, kernel_ok s ->
  exists r s', m s = Done (r, s') /\ sys_grows s s' [NSend path msg] /\ sys_timers s' = sys_timers s.

Lemma safe_sendto_plain path msg :
  path_len path + 1 <= SUN_PATH_SIZE -> plain_send (safe_sendto path msg) path msg.
Proof.
  intros Hp s [Hk _]. destruct (Hk (sys_nsend s)) as (fd & rest & r & E & Hfd & Hr).
  unfold safe_sendto, bind at 1, next_answers. rewrite E.
  replace (fd <? 0) with false by (symmetry; apply Z.ltb_ge; lia).
  replace (path_len path + 1 <=? SUN_PATH_SIZE) with true by (symmetry; by apply Z.leb_le).
  rewrite Hr. eexists r, _. split; [reflexivity|]. split; [|done].
  split; try done. cbn. by rewrite map_app.
Qed.

Lemma mnld_sendto_flp_plain path msg :
  path_len path + 1 <= SUN_PATH_SIZE -> plain_send (mnld_sendto_flp path msg) path msg.
Proof.
  intros Hp s [Hk _]. destruct (Hk (sys_nsend s)) as (fd & rest & r & E & Hfd & Hr).
  unfold mnld_sendto_flp, bind at 1, next_answers. rewrite E.
  replace (fd <? 0) with false by (symmetry; apply Z.ltb_ge; lia).
  replace (path_len path + 1 <=? SUN_PATH_SIZE) with true by (symmetry; by apply Z.leb_le).
  rewrite Hr. eexists _, _. split; [reflexivity|]. split; [|done].
  split; try done. cbn. by rewrite map_app.
Qed.

Lemma send_un_plain path msg :
  path_len path + 1 <= SUN_PATH_SIZE -> plain_send (send_un path msg) path msg.
Proof.
  intros Hp s [Hk _]. destruct (Hk (sys_nsend s)) as (fd & rest & r & E & Hfd & Hr).
  unfold send_un, bind at 1, next_answers. rewrite E. unfold safe_sendto_un.
  replace (path_len path + 1 <=? SUN_PATH_SIZE) with true by (symmetry; by apply Z.leb_le).
  rewrite Hr. eexists _, _. split; [reflexivity|]. split; [|done].
  split; try done. cbn. by rewrite map_app.
Qed.

Lemma plain_send_equiv m m' path msg : m ≡ m' -> plain_send m' path msg -> plain_send m path msg.
Proof. intros E H s Hs. rewrite (E s). by apply H. Qed.

(** The senders of the four protocols. *)
Lemma mnl2hal_plain m :
  mnl2hal_ok m -> zlen (mnl2hal_bytes m) <= HAL_MNL_BUFF_SIZE ->
  plain_send (mnl2hal_send m) MTK_MNL2HAL (mnl2hal_bytes m).
Proof.
  intros Hok Hl. eapply plain_send_equiv.
  - etransitivity; [apply mnl2hal_send_shape; [done|unfold HAL_MNL_BUFF_SIZE in Hl; lia]|].
    replace (_ <=? _) with true by (symmetry; by apply Z.leb_le). reflexivity.
  - by apply safe_sendto_plain.
Qed.

Lemma mnl2agps_plain m :
  mnl2agps_ok m -> zlen (mnl2agps_bytes m) <= MNL_AGPS_MAX_BUFF_SIZE ->
  plain_send (mnl2agps_send m) MNL_TO_AGPS (mnl2agps_bytes m).
Proof.
  intros Hok Hl. eapply plain_send_equiv.
  - etransitivity; [apply mnl2agps_send_shape; [done|unfold MNL_AGPS_MAX_BUFF_SIZE in Hl; lia]|].
    replace (_ <=? _) with true by (symmetry; by apply Z.leb_le). reflexivity.
  - by apply send_un_plain.
Qed.

Lemma int_msg_plain path body l :
  Writes body l -> zlen l <= MNLD_INTERNAL_BUFF_SIZE -> path_len path + 1 <= SUN_PATH_SIZE ->
  plain_send (int_msg path body) path l.
Proof.
  intros Hw Hl Hp. eapply plain_send_equiv.
  - etransitivity; [apply (send_msg_bytes MNLD_INTERNAL_BUFF_SIZE path body l); [done|exact Hw]|].
    replace (_ <=? _) with true by (symmetry; by apply Z.leb_le). reflexivity.
  - by apply safe_sendto_plain.
Qed.

(** Timers: the armed ones, and what is noted. *)
Definition timer_note (id ms : Z) : note :=
  NTimer id (Z.quot ms 1000) (Z.rem ms 1000 * 1000000).

Lemma start_timer_grows id ms s :
  sys_timer_valid s id = true -> 0 <= ms ->
  exists s', start_timer id ms s = Done (0, s') /\ sys_grows s s' [timer_note id ms] /\
    sys_timers s' = (if ms =? 0 then delete id (sys_timers s)
                     else <[id := (Z.quot ms 1000, Z.rem ms 1000 * 1000000)]> (sys_timers s)).
Proof.
  intros Hv Hms. unfold start_timer, timer_settime. rewrite Hv. eexists. split; [reflexivity|].
  split; [split; try done; cbn; by rewrite map_app|]. cbn [sys_timers].
  pose proof (Z.quot_rem ms 1000 ltac:(lia)). pose proof (Z.rem_bound_pos ms 1000 Hms ltac:(lia)).
  destruct (Z.eqb_spec ms 0) as [->|Hne]; [done|].
  replace ((ms ÷ 1000 =? 0) && (Z.rem ms 1000 * 1000000 =? 0)) with false; [done|].
  symmetry. apply andb_false_iff. rewrite !Z.eqb_neq. lia.
Qed.

Lemma get_tick_grows s :
  kernel_ok s ->
  exists t s', get_tick s = Done (t, s') /\ sys_grows s s' [] /\ sys_timers s' = sys_timers s /\
    -1 <= t < 2 ^ 31.
Proof.
  intros [_ Hc]. specialize (Hc (sys_nclock s)). unfold get_tick, bind, clock_gettime.
  destruct (sys_clock s (sys_nclock s)) as [[sec nsec]|].
  - rewrite Z.quot_div_nonneg by lia.
    assert (0 <= nsec / 1000000 < 1000) as Hn
      by (split; [apply Z.div_pos|apply Z.div_lt_upper_bound]; lia).
    replace (is_int (sec * 1000) && is_int (sec * 1000 + nsec / 1000000)) with true
      by (symmetry; apply andb_true_iff; split; apply in_s_spec; lia).
    eexists _, _. split; [reflexivity|]. split; [|split; [done|lia]].
    split; try done. cbn. by rewrite app_nil_r.
  - eexists _, _. split; [reflexivity|]. split; [|split; [done|lia]].
    split; try done. cbn. by rewrite app_nil_r.
Qed.

(** ** Effects of the daemon's programs

    The part of the daemon that its GPS state machine is about: the state, the
    clients, the pending aiding-data flags and the armed watchdogs. *)
Record fsm_view : Type := View {
  v_state : mnld_gps_state;
  v_clients : mnld_gps_clients;
  v_delete : Z;
  v_start_armed : bool;
  v_stop_armed : bool;
  v_reset_armed : bool
}.

(** What the state machine reads and never changes. *)
Record fsm_cfg : Type := Cfg {
  c_timer_start : Z;
  c_timer_stop : Z;
  c_timer_reset : Z;
  c_start_time_out : Z;
  c_offload : bool;
  c_env : mnld_env
}.

Definition armed (s : sys) (id : Z) : bool := bool_decide (is_Some (sys_timers s !! id)).

Definition view (w : mnld) : fsm_view :=
  let g := m_gps w in
  View (gps_state g) (clients g) (delete_aiding_flag g)
    (armed (m_sys w) (timer_start g)) (armed (m_sys w) (timer_stop g))
    (armed (m_sys w) (timer_reset g)).

Definition cfg_of (w : mnld) : fsm_cfg :=
  let g := m_gps w in
  Cfg (timer_start g) (timer_stop g) (timer_reset g) (m_start_time_out w)
    (negb (OFFLOAD_enabled (m_ofl w) =? 0)) (m_env w).

Arguments view : simpl never.
Arguments cfg_of : simpl never.

(** The timers were created, they differ, and the start timeout is positive. *)
Definition cfg_ok (s : sys) (c : fsm_cfg) : Prop :=
  sys_timer_valid s (c_timer_start c) = true /\
  sys_timer_valid s (c_timer_stop c) = true /\
  sys_timer_valid s (c_timer_reset c) = true /\
  c_timer_start c <> c_timer_stop c /\ c_timer_start c <> c_timer_reset c /\
  c_timer_stop c <> c_timer_reset c /\ 0 < c_start_time_out c.

Definition mnld_ok (w : mnld) : Prop := kernel_ok (m_sys w) /\ cfg_ok (m_sys w) (cfg_of w).

Record eff (w w' : mnld) (v : fsm_view) (ns : list note) : Prop := {
  e_view : view w' = v;
  e_cfg : cfg_of w' = cfg_of w;
  e_sys : sys_grows (m_sys w) (m_sys w') ns
}.

Definition effect (m : prog mnld unit) (w : mnld) (v : fsm_view) (ns : list note) : Prop :=
  exists w', m w = Done (tt, w') /\ eff w w' v ns.

Lemma eff_ok w w' v ns : eff w w' v ns -> mnld_ok w -> mnld_ok w'.
Proof.
  intros [_ Hc Hs] [Hk Ho]. split; [by eapply kernel_ok_grows|].
  rewrite Hc. unfold cfg_ok in *. by rewrite (sg_valid _ _ _ Hs).
Qed.

Lemma eff_trans w w1 w2 v1 v2 n1 n2 :
  eff w w1 v1 n1 -> eff w1 w2 v2 n2 -> eff w w2 v2 (n1 ++ n2).
Proof.
  intros [A B C] [A' B' C']. split; [done|congruence|]. by eapply sys_grows_trans.
Qed.

Lemma effect_conv m w v v' ns ns' :
  effect m w v ns -> v = v' -> ns = ns' -> effect m w v' ns'.
Proof. by intros H -> ->. Qed.

Lemma effect_ret w : effect (ret tt) w (view w) [].
Proof. exists w. split; [done|]. split; try done. apply sys_grows_refl. Qed.

Lemma effect_bind (m : prog mnld unit) (k : unit -> prog mnld unit) w v1 n1 v2 n2 :
  mnld_ok w -> effect m w v1 n1 ->
  (forall w1, mnld_ok w1 -> view w1 = v1 -> cfg_of w1 = cfg_of w -> effect (k tt) w1 v2 n2) ->
  effect (bind m k) w v2 (n1 ++ n2).
Proof.
  intros Hok (w1 & E & H1) Hk.
  destruct (Hk w1) as (w2 & E2 & H2);
    [by eapply eff_ok|by apply H1|by apply H1|].
  exists w2. split; [by rewrite (bind_done _ _ _ _ _ E)|]. by eapply eff_trans.
Qed.

Lemma effect_gets {A} (f : mnld -> A) (k : A -> prog mnld unit) w v ns :
  effect (k (f w)) w v ns -> effect (bind (gets f) k) w v ns.
Proof. done. Qed.

Lemma effect_when c m w v ns :
  (c = true -> effect m w v ns) ->
  effect (when c m) w (if c then v else view w) (if c then ns else []).
Proof. destruct c; [auto|]. intros _. apply effect_ret. Qed.

(** Sends. *)
Lemma effect_send m path msg w :
  mnld_ok w -> plain_send m path msg -> effect (discard m) w (view w) [NSend path msg].
Proof.
  intros [Hk _] Hm. destruct (Hm (m_sys w) Hk) as (r & s' & E & Hg & Ht).
  exists (set_m_sys s' w). split.
  - unfold discard, on_sys. cbn [sys_of mnld_has_sys]. by rewrite (bind_done _ _ _ _ _ E).
  - split; [|done|done]. unfold view, armed. cbn. by rewrite Ht.
Qed.

(** A change of the GPS status that keeps the timer ids. *)
Lemma effect_modify (f : mnld_gps_status -> mnld_gps_status) w v :
  (forall g, timer_start (f g) = timer_start g /\ timer_stop (f g) = timer_stop g /\
             timer_reset (f g) = timer_reset g) ->
  v = View (gps_state (f (m_gps w))) (clients (f (m_gps w))) (delete_aiding_flag (f (m_gps w)))
        (v_start_armed (view w)) (v_stop_armed (view w)) (v_reset_armed (view w)) ->
  effect (modify (upd_gps f)) w v [].
Proof.
  intros Hf ->. destruct (Hf (m_gps w)) as (Ha & Hb & Hc).
  eexists. split; [reflexivity|]. split.
  - unfold view, upd_gps, set_m_gps. cbn. by rewrite Ha, Hb, Hc.
  - unfold cfg_of, upd_gps, set_m_gps. cbn. by rewrite Ha, Hb, Hc.
  - apply sys_grows_refl.
Qed.

Definition on_clients (f : mnld_gps_clients -> mnld_gps_clients) (v : fsm_view) : fsm_view :=
  View (v_state v) (f (v_clients v)) (v_delete v) (v_start_armed v) (v_stop_armed v)
    (v_reset_armed v).
Definition on_state (s : mnld_gps_state) (v : fsm_view) : fsm_view :=
  View s (v_clients v) (v_delete v) (v_start_armed v) (v_stop_armed v) (v_reset_armed v).
Definition on_delete (d : Z) (v : fsm_view) : fsm_view :=
  View (v_state v) (v_clients v) d (v_start_armed v) (v_stop_armed v) (v_reset_armed v).

Lemma effect_mod_client x f w :
  effect (mod_client x f) w (on_clients (upd_client x f) (view w)) [].
Proof. by apply effect_modify. Qed.
Lemma effect_put_state s w : effect (put_state s) w (on_state s (view w)) [].
Proof. by apply effect_modify. Qed.
Lemma effect_put_delete d w : effect (put_delete d) w (on_delete d (view w)) [].
Proof. by apply effect_modify. Qed.

(** The clock. *)
Lemma effect_tick (k : Z -> prog mnld unit) w v ns :
  mnld_ok w ->
  (forall t w1, mnld_ok w1 -> view w1 = view w -> cfg_of w1 = cfg_of w -> -1 <= t < 2 ^ 31 ->
     effect (k t) w1 v ns) ->
  effect (bind (on_sys get_tick) k) w v ns.
Proof.
  intros Hok Hk. destruct (get_tick_grows (m_sys w) (proj1 Hok)) as (t & s' & E & Hg & Ht & Hb).
  assert (eff w (set_m_sys s' w) (view w) []) as He.
  { split; [|done|done]. unfold view, armed. cbn. by rewrite Ht. }
  destruct (Hk t (set_m_sys s' w)) as (w2 & E2 & H2);
    [by eapply eff_ok|by apply He|done|done|].
  exists w2. split; [|by apply (eff_trans _ _ _ _ _ [] _ He)].
  unfold bind at 1, on_sys. cbn [sys_of mnld_has_sys]. by rewrite E.
Qed.

(** ** The watchdog timers *)

Inductive watchdog : Type := StartTimer | StopTimer | ResetTimer.

Definition timer_id (c : fsm_cfg) (t : watchdog) : Z :=
  match t with
  | StartTimer => c_timer_start c
  | StopTimer => c_timer_stop c
  | ResetTimer => c_timer_reset c
  end.

Definition set_armed (t : watchdog) (b : bool) (v : fsm_view) : fsm_view :=
  match t with
  | StartTimer => View (v_state v) (v_clients v) (v_delete v) b (v_stop_armed v) (v_reset_armed v)
  | StopTimer => View (v_state v) (v_clients v) (v_delete v) (v_start_armed v) b (v_reset_armed v)
  | ResetTimer => View (v_state v) (v_clients v) (v_delete v) (v_start_armed v) (v_stop_armed v) b
  end.

Lemma armed_insert s s' id p id' :
  sys_timers s' = <[id := p]> (sys_timers s) ->
  armed s' id' = if decide (id' = id) then true else armed s id'.
Proof.
  intros E. unfold armed. rewrite E. destruct (decide (id' = id)) as [->|Hne].
  - rewrite lookup_insert_eq. apply bool_decide_eq_true. eauto.
  - by rewrite lookup_insert_ne by done.
Qed.

Lemma armed_delete s s' id id' :
  sys_timers s' = delete id (sys_timers s) ->
  armed s' id' = if decide (id' = id) then false else armed s id'.
Proof.
  intros E. unfold armed. rewrite E. destruct (decide (id' = id)) as [->|Hne].
  - rewrite lookup_delete_eq. apply bool_decide_eq_false. by intros [].
  - by rewrite lookup_delete_ne by done.
Qed.

Lemma timer_view w s' id b :
  (forall id', armed s' id' = if decide (id' = id) then b else armed (m_sys w) id') ->
  mnld_ok w -> forall t, id = timer_id (cfg_of w) t ->
  view (set_m_sys s' w) = set_armed t b (view w).
Proof.
  intros Ha (_ & _ & _ & _ & H1 & H2 & H3 & _) t ->.
  unfold view, set_m_sys. cbn [m_gps m_sys]. rewrite !Ha. cbn in H1, H2, H3.
  destruct t; cbn; repeat (destruct (decide _); try congruence); done.
Qed.

Lemma timer_valid w t : mnld_ok w -> sys_timer_valid (m_sys w) (timer_id (cfg_of w) t) = true.
Proof. intros (_ & H1 & H2 & H3 & _). by destruct t. Qed.

Lemma effect_start_timer t id ms w :
  mnld_ok w -> id = timer_id (cfg_of w) t -> 0 < ms ->
  effect (discard (start_timer id ms)) w (set_armed t true (view w)) [timer_note id ms].
Proof.
  intros Hok Hid Hms. pose proof (timer_valid w t Hok) as Hv. rewrite <- Hid in Hv.
  destruct (start_timer_grows id ms (m_sys w) Hv ltac:(lia)) as (s' & E & Hg & Ht).
  exists (set_m_sys s' w). split.
  - unfold discard, on_sys. cbn [sys_of mnld_has_sys]. by rewrite (bind_done _ _ _ _ _ E).
  - split; [|done|done]. apply (timer_view w s' id true); [|done|done].
    intros id'. rewrite (proj2 (Z.eqb_neq ms 0)) in Ht by lia. by eapply armed_insert.
Qed.

Lemma effect_stop_timer t id w :
  mnld_ok w -> id = timer_id (cfg_of w) t ->
  effect (discard (stop_timer id)) w (set_armed t false (view w)) [timer_note id 0].
Proof.
  intros Hok Hid. pose proof (timer_valid w t Hok) as Hv. rewrite <- Hid in Hv.
  destruct (start_timer_grows id 0 (m_sys w) Hv ltac:(lia)) as (s' & E & Hg & Ht).
  exists (set_m_sys s' w). split.
  - unfold discard, stop_timer, on_sys. cbn [sys_of mnld_has_sys].
    by rewrite (bind_done _ _ _ _ _ E).
  - split; [|done|done]. apply (timer_view w s' id false); [|done|done].
    intros id'. by eapply armed_delete.
Qed.

(** ** Emitted messages *)

Definition to_hal (m : mnl2hal_msg) : note := NSend MTK_MNL2HAL (mnl2hal_bytes m).
Definition to_agps (m : mnl2agps_msg) : note := NSend MNL_TO_AGPS (mnl2agps_bytes m).
Definition to_flp (type length : Z) (payload : list Z) : note :=
  NSend MTK_MNL2FLP (flp_buffer FLP_MSG_SIZE type length payload).
Definition to_gps (cmd : Z) (args : list Z) : note :=
  NSend MNLD_GPS_CONTROL_SOCKET (le_bytes 4 cmd ++ concat (map (le_bytes 4) args)).
Definition to_op01 (text : list Z) : note :=
  NSend MNLD_OP01_LOG_WRITER_SOCKET
    (le_bytes 4 MAIN2OP01_EVENT_LOG_WRITE ++ enc_string (cstr_of (Some (take 1023 text ++ [0])))).

Ltac fields_ok :=
  repeat (apply Forall_cons; split; [first [assumption | exact I | vm_compute; reflexivity]|]);
  apply Forall_nil, I.

Lemma effect_hal_status z w :
  mnld_ok w -> is_int z = true ->
  effect (discard (mnl2hal_gps_status z)) w (view w) [to_hal (D_gps_status z)].
Proof.
  intros Hok Hz. apply effect_send; [done|]. apply (mnl2hal_plain (D_gps_status z)).
  - split; [fields_ok|]. by split.
  - apply mnl2hal_strings_fit; [split; [fields_ok|by split]|exact I].
Qed.

(** A message of the HAL protocol without arguments. *)
Lemma effect_hal_plain m w :
  mnld_ok w -> snd (mnl2hal_fields m) = [] ->
  effect (discard (mnl2hal_send m)) w (view w) [to_hal m].
Proof.
  intros Hok Hm. apply effect_send; [done|]. apply mnl2hal_plain.
  - split; [rewrite Hm; apply Forall_nil, I|]. by destruct m.
  - unfold mnl2hal_bytes. destruct (mnl2hal_fields m) as [cmd args]. cbn in Hm. subst args.
    rewrite length_enc_msg. done.
Qed.

Lemma effect_agps_plain m w :
  mnld_ok w -> snd (mnl2agps_fields m) = [] ->
  effect (discard (mnl2agps_send m)) w (view w) [to_agps m].
Proof.
  intros Hok Hm. apply effect_send; [done|]. apply mnl2agps_plain.
  - split; [rewrite Hm; apply Forall_nil, I|]. by destruct m.
  - unfold mnl2agps_bytes. destruct (mnl2agps_fields m) as [cmd args]. cbn in Hm. subst args.
    rewrite length_enc_msg. done.
Qed.

Lemma effect_agps_open z w :
  mnld_ok w -> is_int z = true ->
  effect (discard (mnl2agps_gps_open z)) w (view w) [to_agps (A_gps_open z)].
Proof.
  intros Hok Hz. apply effect_send; [done|]. apply (mnl2agps_plain (A_gps_open z)).
  - split; [fields_ok|done].
  - unfold mnl2agps_bytes. cbn [mnl2agps_fields]. rewrite length_enc_msg.
    unfold enc_fields, MNL_AGPS_MAX_BUFF_SIZE. cbn [map concat enc_field]. clen.
Qed.

Lemma effect_flp m type length payload w :
  mnld_ok w ->
  m = mnld_sendto_flp MTK_MNL2FLP (flp_buffer FLP_MSG_SIZE type length payload) ->
  effect (discard m) w (view w) [to_flp type length payload].
Proof. intros Hok ->. apply effect_send; [done|]. by apply mnld_sendto_flp_plain. Qed.

Lemma effect_gps_start f w :
  mnld_ok w ->
  effect (discard (gps_control_gps_start f)) w (view w) [to_gps MAIN2GPS_EVENT_START [f]].
Proof.
  intros Hok. apply effect_send; [done|]. cbn [map concat]. rewrite app_nil_r.
  apply int_msg_plain; [solve_writes| |done]. unfold MNLD_INTERNAL_BUFF_SIZE. clen.
Qed.

Lemma effect_gps_stop w :
  mnld_ok w -> effect (discard gps_control_gps_stop) w (view w) [to_gps MAIN2GPS_EVENT_STOP []].
Proof.
  intros Hok. apply effect_send; [done|]. cbn [map concat]. rewrite app_nil_r.
  apply int_msg_plain; [solve_writes| |done]. unfold MNLD_INTERNAL_BUFF_SIZE. clen.
Qed.

Lemma effect_gps_reset f w :
  mnld_ok w ->
  effect (discard (gps_control_gps_reset f)) w (view w)
    [to_gps MAIN2GPS_DELETE_AIDING_DATA [f]].
Proof.
  intros Hok. apply effect_send; [done|]. cbn [map concat]. rewrite app_nil_r.
  apply int_msg_plain; [solve_writes| |done]. unfold MNLD_INTERNAL_BUFF_SIZE. clen.
Qed.

(** A log line is cut to 1023 bytes, so it always fits. *)
Lemma effect_op01 text w :
  mnld_ok w -> effect (discard (send_op01_log_msg text)) w (view w) [to_op01 text].
Proof.
  intros Hok. apply effect_send; [done|]. set (p := Some (take 1023 text ++ [0])).
  assert (field_ok (FString p)) as Hp.
  { cbn. generalize (take 1023 text). intros l. induction l as [|c l IH]; [by exists O|].
    cbn. destruct (c =? 0); [by exists O|]. destruct IH as [n ->]. by exists (S n). }
  assert (zlen (enc_string (cstr_of p)) <= 1030) as Hl.
  { pose proof (cstr_of_is_cstr p Hp) as H. destruct (cstr_of p) as [l|]; [|cbn; lia].
    cbn in H. destruct H as (rest & E & _). apply (f_equal length) in E.
    unfold enc_string. revert E. lists. rewrite length_le_bytes. lia. }
  assert (CStr p (cstr_of p)) by (apply (cstr_field p 2000); [done|cbn [enc_field]; lia|lia]).
  apply int_msg_plain; [solve_writes| |done]. unfold MNLD_INTERNAL_BUFF_SIZE. clen.
Qed.
