(* ===== verification/MnldFsm.v ===== *)
(** * The GPS state machine: specification and refinement

    [fsm_spec] is the state machine as a table: for a state and an event, the
    next state, the acknowledgements that are given, and the messages that go
    out, or [None] where the daemon crashes on purpose.  [mnld_fsm_refines] says
    that [Mnld.Fsm.mnld_fsm] implements it on a working kernel. *)

From stdpp Require Import gmap.
From S2P Require Import Prelude DataCoder LbsUtility Layout Messages Hal2Mnl Mnl2Hal Mnl2Agps.
From S2P Require Import Agps2Mnl FlpInterface MnldState Mnld Kernel.

(** ** Specification *)

Definition map_clients (f : mnld_gps_client -> mnld_gps_client) (cs : mnld_gps_clients)
  : mnld_gps_clients :=
  Clients (f (hal cs)) (f (agps cs)) (f (flp cs)) (f (flp_test cs)) (f (at_cmd_test cs))
    (f (factory cs)).

(** Acknowledgements, in the order the clients are served. *)
Definition open_notes (cs : mnld_gps_clients) (assist_req : Z) : list note :=
  (if need_open_ack (hal cs) then
     [to_hal (D_gps_status GPS_STATUS_SESSION_ENGINE_ON);
      to_hal (D_gps_status GPS_STATUS_SESSION_BEGIN); to_agps (A_gps_open assist_req)]
   else []) ++
  (if need_open_ack (agps cs) then [to_agps A_open_gps_done] else []) ++
  (if need_open_ack (flp cs) then [to_flp FLPMNL_GPS_OPEN_DONE 0 []; to_agps (A_gps_open assist_req)]
   else []).

Definition close_notes (cs : mnld_gps_clients) : list note :=
  (if need_close_ack (hal cs) then
     [to_hal (D_gps_status GPS_STATUS_SESSION_END);
      to_hal (D_gps_status GPS_STATUS_SESSION_ENGINE_OFF); to_agps A_gps_close]
   else []) ++
  (if need_close_ack (agps cs) then [to_agps A_close_gps_done] else []) ++
  (if need_close_ack (flp cs) then [to_flp FLPMNL_GPS_STOP_DONE 0 []] else []).

Definition reset_notes (cs : mnld_gps_clients) : list note :=
  if need_reset_ack (agps cs) then [to_agps A_reset_gps_done] else [].

Definition reset_acked (cs : mnld_gps_clients) : mnld_gps_clients :=
  upd_client AGPS (set_reset_ack false) cs.
Definition opened (cs : mnld_gps_clients) : mnld_gps_clients :=
  reset_acked (map_clients (set_open_ack false) cs).
Definition closed (cs : mnld_gps_clients) : mnld_gps_clients :=
  reset_acked (map_clients (set_close_ack false) cs).

(** Deletion of aiding data, asked of the GPS thread under the reset watchdog. *)
Definition delete_notes (c : fsm_cfg) (d : Z) : list note :=
  if d =? 0 then []
  else [timer_note (c_timer_reset c) MNLD_GPS_RESET_TIMEOUT; to_gps MAIN2GPS_DELETE_AIDING_DATA [d]].
Definition deleted (v : fsm_view) : fsm_view :=
  View (v_state v) (v_clients v) 0 (v_start_armed v) (v_stop_armed v)
    (if v_delete v =? 0 then v_reset_armed v else true).

(** The clients are told that the GPS runs. *)
Definition started_view (v : fsm_view) : fsm_view := deleted (on_clients opened v).
Definition started_notes (c : fsm_cfg) (req : Z) (v : fsm_view) : list note :=
  open_notes (v_clients v) req ++ reset_notes (v_clients v) ++ delete_notes c (v_delete v).

Definition stopped_view (v : fsm_view) : fsm_view := on_clients closed v.
Definition stopped_notes (v : fsm_view) : list note :=
  close_notes (v_clients v) ++ reset_notes (v_clients v).

(** No client outside the offloaded ones: the chip runs on its own and no start
    watchdog is armed. *)
Definition unwatched (c : fsm_cfg) (cs : mnld_gps_clients) : bool :=
  negb (gps_used (hal cs)) && negb (gps_used (agps cs)) && negb (gps_used (at_cmd_test cs)) &&
  negb (gps_used (factory cs)) && c_offload c.

Definition starting_view (c : fsm_cfg) (v : fsm_view) : fsm_view :=
  View MNLD_GPS_STATE_STARTING (v_clients v) 0
    (if unwatched c (v_clients v) then v_start_armed v else true)
    (v_stop_armed v) (v_reset_armed v).
Definition starting_notes (c : fsm_cfg) (v : fsm_view) : list note :=
  (if unwatched c (v_clients v) then [] else [timer_note (c_timer_start c) (c_start_time_out c)]) ++
  [to_gps MAIN2GPS_EVENT_START [v_delete v]].

Definition stopping_view (v : fsm_view) : fsm_view :=
  set_armed StopTimer true (on_state MNLD_GPS_STATE_STOPPING v).
Definition stopping_notes (c : fsm_cfg) : list note :=
  [timer_note (c_timer_stop c) MNLD_GPS_STOP_TIMEOUT; to_gps MAIN2GPS_EVENT_STOP []].

Definition fsm_spec (c : fsm_cfg) (event : mnld_gps_event) (data1 : Z) (v : fsm_view)
  : option (fsm_view * list note) :=
  match v_state v, event with
  (* idle *)
  | MNLD_GPS_STATE_IDLE, GPS_EVENT_START =>
      Some (starting_view c v,
            [to_hal D_request_wakelock] ++
            (if env_cmcc_log (c_env c) then
               [to_op01 (ascii_bytes "[" ++ env_time_str2 (c_env c) ++ ascii_bytes "]0x00000000: " ++
                         env_time_str2 (c_env c) ++ ascii_bytes " #gps start" ++ crlf)]
             else []) ++ starting_notes c v)
  | MNLD_GPS_STATE_IDLE, GPS_EVENT_STOP => Some (stopped_view v, stopped_notes v)
  | MNLD_GPS_STATE_IDLE, GPS_EVENT_RESET =>
      Some (on_clients reset_acked v, reset_notes (v_clients v))
  | MNLD_GPS_STATE_IDLE, _ => Some (v, [])
  (* starting *)
  | MNLD_GPS_STATE_STARTING, GPS_EVENT_START_DONE =>
      let v1 := started_view (set_armed StartTimer false v) in
      let out := timer_note (c_timer_start c) 0 :: started_notes c data1 v in
      if all_exit (v_clients v)
      then Some (stopping_view v1, out ++ stopping_notes c)
      else Some (on_state MNLD_GPS_STATE_STARTED v1, out)
  | MNLD_GPS_STATE_STARTING, GPS_EVENT_STOP_DONE => None
  | MNLD_GPS_STATE_STARTING, _ => Some (v, [])
  (* started *)
  | MNLD_GPS_STATE_STARTED, GPS_EVENT_START => Some (started_view v, started_notes c 0 v)
  | MNLD_GPS_STATE_STARTED, GPS_EVENT_STOP =>
      if all_exit (v_clients v) then Some (stopping_view v, stopping_notes c)
      else Some (stopped_view v, stopped_notes v)
  | MNLD_GPS_STATE_STARTED, GPS_EVENT_RESET => Some (deleted v, delete_notes c (v_delete v))
  | MNLD_GPS_STATE_STARTED, GPS_EVENT_START_DONE =>
      Some (v, if gps_used (hal (v_clients v)) then [to_agps A_reaiding_req] else [])
  | MNLD_GPS_STATE_STARTED, GPS_EVENT_STOP_DONE => None
  (* stopping *)
  | MNLD_GPS_STATE_STOPPING, GPS_EVENT_RESET =>
      Some (on_clients reset_acked v, reset_notes (v_clients v))
  | MNLD_GPS_STATE_STOPPING, GPS_EVENT_STOP_DONE =>
      let v1 := stopped_view (set_armed StopTimer false v) in
      let out := timer_note (c_timer_stop c) 0 :: stopped_notes v in
      if all_exit (v_clients v)
      then Some (on_state MNLD_GPS_STATE_IDLE v1,
                 out ++ [to_hal D_release_wakelock] ++
                 (if env_cmcc_log (c_env c) then
                    [to_op01 (ascii_bytes "[" ++ env_time_str2 (c_env c) ++
                              ascii_bytes "]0x00000001: " ++ env_time_str2 (c_env c) ++
                              ascii_bytes " #gps stop" ++ crlf)]
                  else []))
      else Some (starting_view c v1, out ++ starting_notes c v1)
  | MNLD_GPS_STATE_STOPPING, _ => Some (v, [])
  end.

(** ** Effects of the parts *)

Lemma upd_client_id x f cs : f (client x cs) = client x cs -> upd_client x f cs = cs.
Proof. destruct cs, x; cbn; congruence. Qed.

Lemma set_open_ack_id c : need_open_ack c = false -> set_open_ack false c = c.
Proof. by destruct c as [? [] ? ?]. Qed.
Lemma set_close_ack_id c : need_close_ack c = false -> set_close_ack false c = c.
Proof. by destruct c as [? ? [] ?]. Qed.
Lemma set_reset_ack_id c : need_reset_ack c = false -> set_reset_ack false c = c.
Proof. by destruct c as [? ? ? []]. Qed.

Lemma on_clients_id f v : f (v_clients v) = v_clients v -> on_clients f v = v.
Proof. destruct v. unfold on_clients. cbn. congruence. Qed.

(** One acknowledgement: [if (x->need) { x->need = false; body }]. *)
Lemma effect_ack x (need : mnld_gps_client -> bool) setf body ns (k : unit -> prog mnld unit)
    w v2 n2 :
  (forall c, need c = false -> setf c = c) -> mnld_ok w ->
  (forall w1, mnld_ok w1 -> effect body w1 (view w1) ns) ->
  (forall w1, mnld_ok w1 -> view w1 = on_clients (upd_client x setf) (view w) ->
     cfg_of w1 = cfg_of w -> effect (k tt) w1 v2 n2) ->
  effect (let* c := get_client x in bind (when (need c) (mod_client x setf ;; body)) k) w v2
    ((if need (client x (v_clients (view w))) then ns else []) ++ n2).
Proof.
  intros Hid Hok Hbody Hk. apply effect_gets.
  change (clients (m_gps w)) with (v_clients (view w)).
  destruct (need (client x (v_clients (view w)))) eqn:E; cbn [when].
  - eapply effect_bind; [done| |intros w1 Ho Hv Hc; by apply Hk].
    eapply (effect_bind _ _ w _ []); [done|apply effect_mod_client|].
    intros w1 Ho Hv Hc. rewrite <- Hv. by apply Hbody.
  - eapply (effect_bind _ _ w _ []); [done|apply effect_ret|].
    intros w1 Ho Hv Hc. apply Hk; [done| |done]. rewrite Hv. symmetry.
    apply on_clients_id, upd_client_id. by apply Hid.
Qed.

(** The same without a message. *)
Lemma effect_ack_silent x (need : mnld_gps_client -> bool) setf (k : unit -> prog mnld unit)
    w v2 n2 :
  (forall c, need c = false -> setf c = c) -> mnld_ok w ->
  (forall w1, mnld_ok w1 -> view w1 = on_clients (upd_client x setf) (view w) ->
     cfg_of w1 = cfg_of w -> effect (k tt) w1 v2 n2) ->
  effect (let* c := get_client x in bind (when (need c) (mod_client x setf)) k) w v2 n2.
Proof.
  intros Hid Hok Hk. apply effect_gets.
  change (clients (m_gps w)) with (v_clients (view w)).
  destruct (need (client x (v_clients (view w)))) eqn:E; cbn [when].
  - eapply (effect_bind _ _ w _ []); [done|apply effect_mod_client|].
    intros w1 Ho Hv Hc. by apply Hk.
  - eapply (effect_bind _ _ w _ []); [done|apply effect_ret|].
    intros w1 Ho Hv Hc. apply Hk; [done| |done]. rewrite Hv. symmetry.
    apply on_clients_id, upd_client_id. by apply Hid.
Qed.

Lemma effect_reset_hdlr w :
  mnld_ok w ->
  effect do_gps_reset_hdlr w (on_clients reset_acked (view w)) (reset_notes (v_clients (view w))).
Proof.
  intros Hok. unfold do_gps_reset_hdlr. apply effect_gets.
  change (clients (m_gps w)) with (v_clients (view w)).
  change (on_clients reset_acked) with (on_clients (upd_client AGPS (set_reset_ack false))).
  unfold reset_notes. change (agps (v_clients (view w))) with (client AGPS (v_clients (view w))).
  destruct (need_reset_ack (client AGPS (v_clients (view w)))) eqn:E; cbn [when].
  - eapply (effect_bind _ _ w _ []); [done|apply effect_mod_client|].
    intros w1 Ho Hv Hc. rewrite <- Hv. by apply (effect_agps_plain A_reset_gps_done).
  - rewrite on_clients_id; [apply effect_ret|]. apply upd_client_id. by apply set_reset_ack_id.
Qed.

Lemma effect_request_reset w :
  mnld_ok w -> v_delete (view w) <> 0 ->
  effect (request_reset (v_delete (view w))) w (deleted (view w))
    (delete_notes (cfg_of w) (v_delete (view w))).
Proof.
  intros Hok Hd. unfold request_reset, delete_notes. apply effect_gets.
  rewrite (proj2 (Z.eqb_neq (v_delete (view w)) 0)) by done.
  eapply (effect_bind _ _ w _ [_] _ [_]);
    [done|by apply (effect_start_timer ResetTimer)|].
  intros w1 Ho1 Hv1 _. eapply (effect_bind _ _ w1 _ [_] _ []); [done|by apply effect_gps_reset|].
  intros w2 Ho2 Hv2 _. eapply effect_conv; [apply effect_put_delete| |done].
  rewrite Hv2, Hv1. unfold deleted. by rewrite (proj2 (Z.eqb_neq (v_delete (view w)) 0)).
Qed.

Lemma effect_delete w :
  mnld_ok w ->
  effect (let* flag := get_delete in when (negb (flag =? 0)) (request_reset flag)) w
    (deleted (view w)) (delete_notes (cfg_of w) (v_delete (view w))).
Proof.
  intros Hok. unfold get_delete. apply effect_gets.
  change (delete_aiding_flag (m_gps w)) with (v_delete (view w)).
  destruct (Z.eqb_spec (v_delete (view w)) 0) as [E|E]; cbn [negb when].
  - eapply effect_conv; [apply effect_ret| |unfold delete_notes; by rewrite E].
    unfold deleted. rewrite E. destruct (view w) eqn:Ev. cbn in E |- *. by subst.
  - by apply effect_request_reset.
Qed.

(** Shape of the client updates, once all are done. *)
Lemma opened_steps cs :
  reset_acked (upd_client FACTORY (set_open_ack false) (upd_client AT_CMD (set_open_ack false)
    (upd_client FLP_TEST (set_open_ack false) (upd_client FLP (set_open_ack false)
      (upd_client AGPS (set_open_ack false) (upd_client HAL (set_open_ack false) cs)))))) = opened cs.
Proof. by destruct cs. Qed.
Lemma closed_steps cs :
  reset_acked (upd_client FACTORY (set_close_ack false) (upd_client AT_CMD (set_close_ack false)
    (upd_client FLP_TEST (set_close_ack false) (upd_client FLP (set_close_ack false)
      (upd_client AGPS (set_close_ack false) (upd_client HAL (set_close_ack false) cs)))))) = closed cs.
Proof. by destruct cs. Qed.

(** Expresses a view and a configuration by those of the state before. *)
Ltac back E C := rewrite E, ?C; reflexivity.

Lemma effect_started w req :
  mnld_ok w -> is_int req = true ->
  effect (do_gps_started_hdlr req) w (started_view (view w)) (started_notes (cfg_of w) req (view w)).
Proof.
  intros Hok Hreq. unfold do_gps_started_hdlr. eapply effect_conv.
  - eapply effect_ack; [exact set_open_ack_id|done| |].
    { intros w1 H1. eapply (effect_bind _ _ w1 _ [_] _ [_; _]); [done|by apply effect_hal_status|].
      intros w2 H2 E2 _. rewrite <- E2.
      eapply (effect_bind _ _ w2 _ [_] _ [_]); [done|by apply effect_hal_status|].
      intros w3 H3 E3 _. rewrite <- E3. by apply effect_agps_open. }
    intros w1 H1 E1 C1. eapply effect_conv. {
    eapply effect_ack; [exact set_open_ack_id|done| |].
    { intros w2 H2. by apply (effect_agps_plain A_open_gps_done). }
    intros w2 H2 E2 C2. eapply effect_conv. {
    eapply effect_ack; [exact set_open_ack_id|done| |].
    { intros w3 H3. eapply (effect_bind _ _ w3 _ [_] _ [_]); [done|by apply effect_flp|].
      intros w4 H4 E4 _. rewrite <- E4. by apply effect_agps_open. }
    intros w3 H3 E3 C3. eapply effect_conv. {
    eapply effect_ack_silent; [exact set_open_ack_id|done|].
    intros w4 H4 E4 C4. eapply effect_conv. {
    eapply effect_ack_silent; [exact set_open_ack_id|done|].
    intros w5 H5 E5 C5. eapply effect_conv. {
    eapply effect_ack_silent; [exact set_open_ack_id|done|].
    intros w6 H6 E6 C6. eapply effect_conv. {
    eapply effect_bind; [done|by apply effect_reset_hdlr|].
    intros w7 H7 E7 C7. eapply effect_conv; [by apply effect_delete|back E7 C7..].
    } 1,2: back E6 C6.
    } 1,2: back E5 C5.
    } 1,2: back E4 C4.
    } 1,2: back E3 C3.
    } 1,2: back E2 C2.
    } 1,2: back E1 C1.
  - unfold started_view. f_equal. unfold on_clients. cbn [v_clients v_state v_delete].
    f_equal. apply opened_steps.
  - unfold started_notes, open_notes. cbn [on_clients v_clients v_delete].
    destruct (v_clients (view w)) eqn:Ecs. rewrite <- !app_assoc. reflexivity.
Qed.

Lemma effect_stopped w :
  mnld_ok w -> effect do_gps_stopped_hdlr w (stopped_view (view w)) (stopped_notes (view w)).
Proof.
  intros Hok. unfold do_gps_stopped_hdlr. eapply effect_conv.
  - eapply effect_ack; [exact set_close_ack_id|done| |].
    { intros w1 H1. eapply (effect_bind _ _ w1 _ [_] _ [_; _]); [done|by apply effect_hal_status|].
      intros w2 H2 E2 _. rewrite <- E2.
      eapply (effect_bind _ _ w2 _ [_] _ [_]); [done|by apply effect_hal_status|].
      intros w3 H3 E3 _. rewrite <- E3. by apply (effect_agps_plain A_gps_close). }
    intros w1 H1 E1 C1. eapply effect_conv. {
    eapply effect_ack; [exact set_close_ack_id|done| |].
    { intros w2 H2. by apply (effect_agps_plain A_close_gps_done). }
    intros w2 H2 E2 C2. eapply effect_conv. {
    eapply effect_ack; [exact set_close_ack_id|done| |].
    { intros w3 H3. by apply effect_flp. }
    intros w3 H3 E3 C3. eapply effect_conv. {
    eapply effect_ack_silent; [exact set_close_ack_id|done|].
    intros w4 H4 E4 C4. eapply effect_conv. {
    eapply effect_ack_silent; [exact set_close_ack_id|done|].
    intros w5 H5 E5 C5. eapply effect_conv. {
    eapply effect_ack_silent; [exact set_close_ack_id|done|].
    intros w6 H6 E6 C6. eapply effect_conv; [by apply effect_reset_hdlr|back E6 C6..].
    } 1,2: back E5 C5.
    } 1,2: back E4 C4.
    } 1,2: back E3 C3.
    } 1,2: back E2 C2.
    } 1,2: back E1 C1.
  - unfold stopped_view, on_clients. cbn [v_clients v_state v_delete]. f_equal.
    apply closed_steps.
  - unfold stopped_notes, close_notes. cbn [on_clients v_clients].
    destruct (v_clients (view w)) eqn:Ecs. rewrite <- !app_assoc. reflexivity.
Qed.

(** The user mask says that only offloaded clients use the GPS. *)
Lemma gps_user_offloaded cs :
  (Z.land (gps_user_of cs) (Z.lor GPS_USER_FLP GPS_USER_OFL_TEST) =? gps_user_of cs) =
  negb (gps_used (hal cs)) && negb (gps_used (agps cs)) && negb (gps_used (at_cmd_test cs)) &&
  negb (gps_used (factory cs)).
Proof.
  unfold gps_user_of. destruct cs as [[[] ? ? ?] [[] ? ? ?] [[] ? ? ?] [[] ? ? ?] [[] ? ? ?] [[] ? ? ?]];
    reflexivity.
Qed.

Lemma one_exists_all_exit cs : one_exists cs = negb (all_exit cs).
Proof.
  unfold one_exists, all_exit.
  destruct cs as [[[] ? ? ?] [[] ? ? ?] [[] ? ? ?] [[] ? ? ?] [[] ? ? ?] [[] ? ? ?]]; reflexivity.
Qed.

Lemma effect_arm_and_start w :
  mnld_ok w -> v_state (view w) = MNLD_GPS_STATE_STARTING ->
  effect arm_and_start w (starting_view (cfg_of w) (view w)) (starting_notes (cfg_of w) (view w)).
Proof.
  intros Hok Hst. unfold arm_and_start, mtk_gps_get_gps_user, mnl_offload_is_enabled.
  do 2 apply effect_gets. rewrite gps_user_offloaded.
  change (negb (OFFLOAD_enabled (ofl_of w) =? 0)) with (c_offload (cfg_of w)).
  fold (unwatched (cfg_of w) (clients (m_gps w))).
  change (clients (m_gps w)) with (v_clients (view w)).
  assert (forall w1 v1, mnld_ok w1 -> view w1 = v1 ->
    effect (let* flag := get_delete in discard (gps_control_gps_start flag) ;; put_delete 0) w1
      (on_delete 0 v1) [to_gps MAIN2GPS_EVENT_START [v_delete v1]]) as Hsend.
  { intros w1 v1 H1 <-. unfold get_delete. apply effect_gets.
    change (delete_aiding_flag (m_gps w1)) with (v_delete (view w1)).
    eapply (effect_bind _ _ w1 _ [_] _ []); [done|by apply effect_gps_start|].
    intros w2 H2 E2 _. rewrite <- E2. apply effect_put_delete. }
  unfold starting_view, starting_notes.
  destruct (unwatched (cfg_of w) (v_clients (view w))).
  - eapply (effect_bind _ _ w _ []); [done|apply effect_ret|].
    intros w1 H1 E1 C1. eapply effect_conv; [apply Hsend; [done|exact E1]| |done].
    unfold on_delete. by rewrite Hst.
  - eapply (effect_bind _ _ w _ [_]); [done| |].
    + unfold bind at 1, gets. unfold bind at 1, gets.
      apply (effect_start_timer StartTimer); [done..|]. apply Hok.
    + intros w1 H1 E1 C1. eapply effect_conv; [apply Hsend; [done|exact E1]| |done].
      unfold on_delete. cbn. by rewrite Hst.
Qed.

Lemma effect_stop_gps w :
  mnld_ok w -> effect stop_gps w (stopping_view (view w)) (stopping_notes (cfg_of w)).
Proof.
  intros Hok. unfold stop_gps.
  eapply (effect_bind _ _ w _ []); [done|apply effect_put_state|].
  intros w1 H1 E1 C1. apply effect_gets. unfold stopping_notes.
  eapply (effect_bind _ _ w1 _ [_] _ [_]); [done| |].
  - rewrite <- C1. by apply (effect_start_timer StopTimer).
  - intros w2 H2 E2 C2. eapply effect_conv; [by apply effect_gps_stop| |done].
    by rewrite E2, E1.
Qed.

(** ** The states *)

Lemma effect_id w v : view w = v -> effect (ret tt) w v [].
Proof. intros <-. apply effect_ret. Qed.

Lemma effect_log (c : bool) text w :
  mnld_ok w ->
  effect (when c (discard (send_op01_log_msg text))) w (view w) (if c then [to_op01 text] else []).
Proof.
  intros Hok. eapply effect_conv; [apply effect_when; intros _; by apply effect_op01| |done].
  by destruct c.
Qed.

(** Only times change. *)
Lemma effect_times f w :
  (forall g, exists a b c d, f g = with_times a b c d g) ->
  effect (modify (upd_gps f)) w (view w) [].
Proof.
  intros Hf. apply effect_modify.
  - intros g. by destruct (Hf g) as (a & b & c & d & ->).
  - by destruct (Hf (m_gps w)) as (a & b & c & d & ->).
Qed.

Lemma effect_silent (m : prog mnld unit) (k : unit -> prog mnld unit) w v ns :
  mnld_ok w -> effect m w (view w) [] ->
  (forall w1, mnld_ok w1 -> view w1 = view w -> cfg_of w1 = cfg_of w -> effect (k tt) w1 v ns) ->
  effect (bind m k) w v ns.
Proof. intros Hok Hm Hk. by eapply (effect_bind m k w (view w) []). Qed.

Lemma effect_set_times a b c d (k : unit -> prog mnld unit) w v ns :
  mnld_ok w ->
  (forall w1, mnld_ok w1 -> view w1 = view w -> cfg_of w1 = cfg_of w -> effect (k tt) w1 v ns) ->
  effect (bind (modify (upd_gps (fun g => with_times (a g) (b g) (c g) (d g) g))) k) w v ns.
Proof.
  intros Hok Hk. apply effect_silent; [done| |done]. apply effect_times. intros g. eauto.
Qed.

Lemma effect_idle_start w :
  mnld_ok w -> v_state (view w) = MNLD_GPS_STATE_IDLE ->
  effect (fsm_gps_state_idle GPS_EVENT_START) w (starting_view (cfg_of w) (view w))
    ([to_hal D_request_wakelock] ++
     (if env_cmcc_log (c_env (cfg_of w)) then
        [to_op01 (ascii_bytes "[" ++ env_time_str2 (c_env (cfg_of w)) ++
                  ascii_bytes "]0x00000000: " ++ env_time_str2 (c_env (cfg_of w)) ++
                  ascii_bytes " #gps start" ++ crlf)]
      else []) ++ starting_notes (cfg_of w) (view w)).
Proof.
  intros Hok Hst. unfold fsm_gps_state_idle.
  eapply effect_bind; [done|by apply (effect_hal_plain D_request_wakelock)|].
  intros w1 H1 E1 C1. apply effect_gets.
  change (m_env w1) with (c_env (cfg_of w1)). rewrite C1.
  eapply effect_bind; [done|by apply effect_log|].
  intros w2 H2 E2 C2. apply effect_tick; [done|]. intros t w3 H3 E3 C3 _.
  apply effect_set_times; [done|]. intros w4 H4 E4 C4.
  apply effect_set_times; [done|]. intros w5 H5 E5 C5.
  apply (effect_bind _ _ w5 (on_state MNLD_GPS_STATE_STARTING (view w)) []); [done| |].
  - eapply effect_conv; [apply effect_put_state| |done]. by rewrite E5, E4, E3, E2, E1.
  - intros w6 H6 E6 C6. eapply effect_conv.
    + apply effect_arm_and_start; [done|]. by rewrite E6.
    + by rewrite E6, C6, C5, C4, C3, C2, C1.
    + by rewrite E6, C6, C5, C4, C3, C2, C1.
Qed.

Lemma effect_starting_done w d1 :
  mnld_ok w -> is_int d1 = true ->
  effect (fsm_gps_state_starting GPS_EVENT_START_DONE d1) w
    (if all_exit (v_clients (view w))
     then stopping_view (started_view (set_armed StartTimer false (view w)))
     else on_state MNLD_GPS_STATE_STARTED (started_view (set_armed StartTimer false (view w))))
    (timer_note (c_timer_start (cfg_of w)) 0 :: started_notes (cfg_of w) d1 (view w) ++
     (if all_exit (v_clients (view w)) then stopping_notes (cfg_of w) else [])).
Proof.
  intros Hok Hd. unfold fsm_gps_state_starting. apply effect_gets.
  eapply (effect_bind _ _ w _ [_]); [done|by apply (effect_stop_timer StartTimer)|].
  intros w1 H1 E1 C1.
  eapply effect_bind; [done| |].
  { eapply effect_conv; [by apply effect_started|by rewrite E1|by rewrite E1, C1]. }
  intros w2 H2 E2 C2. unfold is_all_gps_client_exit. apply effect_gets.
  change (clients (m_gps w2)) with (v_clients (view w2)).
  assert (all_exit (v_clients (view w2)) = all_exit (v_clients (view w))) as ->
    by (rewrite E2; by destruct (view w) as [? [] ? ? ? ?]).
  destruct (all_exit (v_clients (view w))).
  - eapply effect_conv; [by apply effect_stop_gps|by rewrite E2|by rewrite C2, C1].
  - eapply effect_conv; [apply effect_put_state|by rewrite E2|done].
Qed.

Lemma effect_started_stop w :
  mnld_ok w ->
  effect (fsm_gps_state_started GPS_EVENT_STOP) w
    (if all_exit (v_clients (view w)) then stopping_view (view w) else stopped_view (view w))
    (if all_exit (v_clients (view w)) then stopping_notes (cfg_of w) else stopped_notes (view w)).
Proof.
  intros Hok. unfold fsm_gps_state_started, is_all_gps_client_exit. apply effect_gets.
  change (clients (m_gps w)) with (v_clients (view w)).
  destruct (all_exit (v_clients (view w))); [by apply effect_stop_gps|by apply effect_stopped].
Qed.

Lemma effect_stopping_done w :
  mnld_ok w ->
  let v1 := stopped_view (set_armed StopTimer false (view w)) in
  effect (fsm_gps_state_stopping GPS_EVENT_STOP_DONE) w
    (if all_exit (v_clients (view w)) then on_state MNLD_GPS_STATE_IDLE v1
     else starting_view (cfg_of w) v1)
    (timer_note (c_timer_stop (cfg_of w)) 0 :: stopped_notes (view w) ++
     (if all_exit (v_clients (view w)) then
        [to_hal D_release_wakelock] ++
        (if env_cmcc_log (c_env (cfg_of w)) then
           [to_op01 (ascii_bytes "[" ++ env_time_str2 (c_env (cfg_of w)) ++
                     ascii_bytes "]0x00000001: " ++ env_time_str2 (c_env (cfg_of w)) ++
                     ascii_bytes " #gps stop" ++ crlf)]
         else [])
      else starting_notes (cfg_of w) v1)).
Proof.
  intros Hok v1. unfold fsm_gps_state_stopping. apply effect_gets.
  eapply (effect_bind _ _ w _ [_]); [done|by apply (effect_stop_timer StopTimer)|].
  intros w1 H1 E1 C1.
  apply (effect_bind _ _ w1 v1 (stopped_notes (view w))); [done| |].
  { eapply effect_conv; [by apply effect_stopped|by rewrite E1|by rewrite E1]. }
  intros w2 H2 E2 C2. unfold is_a_gps_client_exist. apply effect_gets.
  change (clients (m_gps w2)) with (v_clients (view w2)). rewrite one_exists_all_exit.
  assert (all_exit (v_clients (view w2)) = all_exit (v_clients (view w))) as ->
    by (rewrite E2; unfold v1; by destruct (view w) as [? [] ? ? ? ?]).
  destruct (all_exit (v_clients (view w))); cbn [negb].
  - eapply effect_bind; [done|by apply (effect_hal_plain D_release_wakelock)|].
    intros w3 H3 E3 C3. apply effect_gets.
    change (m_env w3) with (c_env (cfg_of w3)). rewrite C3, C2, C1.
    eapply effect_conv.
    + eapply effect_bind; [done|by apply effect_log|].
      intros w4 H4 E4 C4. apply effect_tick; [done|]. intros t w5 H5 E5 C5 _.
      apply effect_set_times; [done|]. intros w6 H6 E6 C6.
      apply effect_set_times; [done|]. intros w7 H7 E7 C7.
      eapply effect_conv; [apply effect_put_state| |reflexivity].
      by rewrite E7, E6, E5, E4, E3, E2.
    + done.
    + by rewrite app_nil_r.
  - apply (effect_bind _ _ w2 (on_state MNLD_GPS_STATE_STARTING v1) []); [done| |].
    + eapply effect_conv; [apply effect_put_state|by rewrite E2|done].
    + intros w3 H3 E3 C3. eapply effect_conv.
      * apply effect_arm_and_start; [done|]. by rewrite E3.
      * by rewrite E3, C3, C2, C1.
      * by rewrite E3, C3, C2, C1.
Qed.

Lemma effect_reaiding w :
  mnld_ok w ->
  effect (fsm_gps_state_started GPS_EVENT_START_DONE) w (view w)
    (if gps_used (hal (v_clients (view w))) then [to_agps A_reaiding_req] else []).
Proof.
  intros Hok. unfold fsm_gps_state_started, mtk_gps_get_gps_user. apply effect_gets.
  change (clients (m_gps w)) with (v_clients (view w)).
  assert (negb (Z.land GPS_USER_APP (gps_user_of (v_clients (view w))) =? 0) =
          gps_used (hal (v_clients (view w)))) as ->.
  { destruct (v_clients (view w)) as [[[] ? ? ?] [[] ? ? ?] [[] ? ? ?] [[] ? ? ?] [[] ? ? ?] [[] ? ? ?]];
      reflexivity. }
  eapply effect_conv; [apply effect_when; intros _; by apply (effect_agps_plain A_reaiding_req)| |done].
  by destruct (gps_used _).
Qed.

(** ** Refinement *)

(** A program does what a result of the specification says, or crashes where it has none. *)
Definition implements (m : prog mnld unit) (w : mnld) (r : option (fsm_view * list note)) : Prop :=
  match r with
  | Some (v, ns) => effect m w v ns
  | None => m w = Crash
  end.

Lemma fsm_implements event data1 w :
  mnld_ok w -> is_int data1 = true ->
  implements (mnld_fsm event data1) w (fsm_spec (cfg_of w) event data1 (view w)).
Proof.
  intros Hok Hd. unfold mnld_fsm, fsm_spec, implements.
  destruct (v_state (view w)) eqn:Est; change (v_state (view w)) with (gps_state (m_gps w)) in Est;
    unfold get_state, bind, gets, effect; cbn beta; rewrite ?Est; destruct event;
    try (exact (effect_id w (view w) eq_refl)); try reflexivity.
  - by apply effect_idle_start.
  - by apply effect_stopped.
  - by apply effect_reset_hdlr.
  - pose proof (effect_starting_done w data1 Hok Hd) as H.
    destruct (all_exit (v_clients (view w))); [exact H|]. by rewrite app_nil_r in H.
  - by apply effect_started.
  - pose proof (effect_started_stop w Hok) as H. by destruct (all_exit (v_clients (view w))).
  - by apply effect_delete.
  - apply effect_reaiding; done.
  - by apply effect_reset_hdlr.
  - pose proof (effect_stopping_done w Hok) as H. by destruct (all_exit (v_clients (view w))).
Qed.

(** C1: the state machine of the daemon implements its specification.  On a
    working kernel, in every state and for every event, it returns, in the
    specified next state, with the specified acknowledgements cleared, flags
    passed on, watchdogs armed and disarmed, and with exactly the specified
    messages sent, in order; or it crashes on purpose where the specification
    says so (a stop report while starting or started). *)
Theorem mnld_fsm_refines (w : mnld) (event : mnld_gps_event) (data1 : Z) :
  mnld_ok w -> is_int data1 = true ->
  match fsm_spec (cfg_of w) event data1 (view w) with
  | Some (v, ns) => effect (mnld_fsm event data1) w v ns
  | None => mnld_fsm event data1 w = Crash
  end.
Proof. apply fsm_implements. Qed.

(** A device on which every call succeeds, and the daemon just started on it. *)
Definition good_kernel : sys :=
  Sys [] 0 (fun _ => [ROk 3; ROk 8]) (fun _ => true) ∅ 0 (fun _ => Some (100, 0)).
Definition env0 : mnld_env :=
  Env false false false false "0x6735" [50; 48] (fun _ => []) (fun _ => []) 0.
Definition boot0 : mnld := mnld_boot good_kernel 1 2 3 4 15000 10000 env0.

Lemma good_kernel_ok : kernel_ok good_kernel.
Proof.
  split; intros n; cbn; [|lia]. exists 3, [ROk 8], 8. split; [done|]. split; [lia|done].
Qed.
Lemma boot0_ok : mnld_ok boot0.
Proof. split; [apply good_kernel_ok|]. repeat split; done. Qed.

Lemma mnld_fsm_refines_witness :
  effect (mnld_fsm GPS_EVENT_START 0) boot0
    (View MNLD_GPS_STATE_STARTING clients_init 0 true false false)
    [to_hal D_request_wakelock; timer_note 1 15000; to_gps MAIN2GPS_EVENT_START [0]].
Proof. exact (mnld_fsm_refines boot0 GPS_EVENT_START 0 boot0_ok eq_refl). Defined.
