(* ===== verification/MnldSystem.v ===== *)
(** * The daemon and its GPS thread as a system

    Client requests and reports of the GPS thread as inputs of the main thread,
    what each does to the GPS state ([input_spec], refined by the callbacks of
    [Mnld]), the system they form with the GPS thread as a step relation, and
    what holds in every reachable state. *)

From stdpp Require Import gmap.
From S2P Require Import Prelude DataCoder LbsUtility Layout Messages Hal2Mnl Mnl2Hal Mnl2Agps.
From S2P Require Import Agps2Mnl FlpInterface MnldState Mnld Kernel MnldFsm.

(** ** Inputs *)

Inductive input : Type :=
| IHalReboot | IHalStart | IHalStop | IHalDelete (flags : Z)
| IAgpsReboot | IAgpsOpen (show_gps_icon : Z) | IAgpsClose | IAgpsReset (flags : Z)
| IFlpReboot | IFlpStart | IFlpStop
| IFlpTestStart | IFlpTestStop
| IAtStart | IAtStop
| IFactoryStart | IFactoryStop
| IStartDone (assist_req : Z) | IStopDone | IResetDone | INmeaTimeout.

#[export] Instance input_eq_dec : EqDecision input.
Proof. solve_decision. Defined.

(** The callback that serves it. *)
Definition handler (i : input) : prog mnld unit :=
  match i with
  | IHalReboot => hal_reboot
  | IHalStart => hal_gps_start
  | IHalStop => hal_gps_stop
  | IHalDelete flags => hal_gps_delete_aiding_data flags
  | IAgpsReboot => agps_reboot
  | IAgpsOpen icon => agps_open_gps_req icon
  | IAgpsClose => agps_close_gps_req
  | IAgpsReset flags => agps_reset_gps_req flags
  | IFlpReboot => flp2mnl_flp_reboot
  | IFlpStart => flp2mnl_gps_start
  | IFlpStop => flp2mnl_gps_stop
  | IFlpTestStart => flp_test2mnl_gps_start
  | IFlpTestStop => flp_test2mnl_gps_stop
  | IAtStart => at_test2mnl_gps_start
  | IAtStop => at_test2mnl_gps_stop
  | IFactoryStart => factory_mnld_gps_start
  | IFactoryStop => factory_mnld_gps_stop
  | IStartDone req => mnld_fsm GPS_EVENT_START_DONE req
  | IStopDone => mnld_fsm GPS_EVENT_STOP_DONE 0
  | IResetDone => on_reset_done
  | INmeaTimeout => on_nmea_timeout
  end.

Definition input_ok (i : input) : Prop :=
  match i with
  | IHalDelete z | IStartDone z => is_int z = true
  | _ => True
  end.

(** What an input does to a client before the state machine runs. *)
Definition opening (x : who) (ack : bool) : fsm_view -> fsm_view :=
  on_clients (upd_client x (client_open ack)).
Definition closing (x : who) (ack : bool) : fsm_view -> fsm_view :=
  on_clients (upd_client x (client_close ack)).
Definition forgetting (x : who) : fsm_view -> fsm_view :=
  on_clients (upd_client x (fun _ => client_init)).

Definition users_cleared (v : fsm_view) : fsm_view := on_clients (map_clients (set_used false)) v.
Definition adding (flags : Z) (v : fsm_view) : fsm_view := on_delete (Z.lor (v_delete v) flags) v.

Definition reboot_notes : list note :=
  [to_hal D_mnld_reboot; to_agps A_mnl_reboot; to_flp FLPMNL_REBOOT_DONE 4 (le_bytes 4 FLP_MNL_INTERFACE_VERSION);
   NLib (LOther "gps_control_mnl_set_status")].

Definition noting (pre : list note) (r : option (fsm_view * list note))
  : option (fsm_view * list note) :=
  match r with Some (v, ns) => Some (v, pre ++ ns) | None => None end.

Definition input_spec (c : fsm_cfg) (i : input) (v : fsm_view) : option (fsm_view * list note) :=
  match i with
  | IHalReboot => fsm_spec c GPS_EVENT_STOP 0 (forgetting HAL v)
  | IHalStart => fsm_spec c GPS_EVENT_START 0 (opening HAL true v)
  | IHalStop => fsm_spec c GPS_EVENT_STOP 0 (closing HAL true v)
  | IHalDelete flags =>
      noting [to_agps (A_delete_aiding_data flags)]
        (fsm_spec c GPS_EVENT_RESET 0
           (adding flags (on_clients (upd_client HAL (set_reset_ack false)) v)))
  | IAgpsReboot => fsm_spec c GPS_EVENT_STOP 0 (forgetting AGPS v)
  | IAgpsOpen _ => fsm_spec c GPS_EVENT_START 0 (opening AGPS true v)
  | IAgpsClose => fsm_spec c GPS_EVENT_STOP 0 (closing AGPS true v)
  | IAgpsReset flags =>
      if flags =? 0 then Some (v, [to_agps A_reset_gps_done])
      else fsm_spec c GPS_EVENT_RESET 0
             (on_clients (upd_client AGPS (set_reset_ack true)) (adding flags v))
  | IFlpReboot => fsm_spec c GPS_EVENT_STOP 0 (forgetting FLP v)
  | IFlpStart => fsm_spec c GPS_EVENT_START 0 (opening FLP true v)
  | IFlpStop => fsm_spec c GPS_EVENT_STOP 0 (closing FLP true v)
  | IFlpTestStart => fsm_spec c GPS_EVENT_START 0 (opening FLP_TEST false v)
  | IFlpTestStop => fsm_spec c GPS_EVENT_STOP 0 (closing FLP_TEST false v)
  | IAtStart => fsm_spec c GPS_EVENT_START 0 (opening AT_CMD false v)
  | IAtStop => fsm_spec c GPS_EVENT_STOP 0 (closing AT_CMD false v)
  | IFactoryStart => fsm_spec c GPS_EVENT_START 0 (opening FACTORY false v)
  | IFactoryStop => fsm_spec c GPS_EVENT_STOP 0 (closing FACTORY false v)
  | IStartDone req => fsm_spec c GPS_EVENT_START_DONE req v
  | IStopDone => fsm_spec c GPS_EVENT_STOP_DONE 0 v
  | IResetDone =>
      Some (on_clients reset_acked (set_armed ResetTimer false v),
            timer_note (c_timer_reset c) 0 :: reset_notes (v_clients v))
  | INmeaTimeout =>
      match v_state v with
      | MNLD_GPS_STATE_STARTED =>
          Some (stopping_view (users_cleared v), stopping_notes c ++ reboot_notes)
      | _ => Some (v, [])
      end
  end.

(** [hal_gps_start] may also ask for a download of EPO data. *)
Definition epo_request : note := NSend MNLD_EPO_DOWNLOAD_SOCKET (le_bytes 4 MAIN2EPO_EVENT_START).
Definition maybe_epo (pre : list note) : Prop := pre = [] \/ pre = [epo_request].

(** ** Refinement *)

Lemma implements_step (m : prog mnld unit) (k : unit -> prog mnld unit) w w1 v1 n1 r :
  m w = Done (tt, w1) -> eff w w1 v1 n1 -> implements (k tt) w1 r ->
  implements (bind m k) w (noting n1 r).
Proof.
  intros E H1 Hk. destruct r as [[v2 n2]|]; cbn in *; unfold effect; rewrite (bind_done _ _ _ _ _ E).
  - destruct Hk as (w2 & E2 & H2). exists w2. split; [done|]. by eapply eff_trans.
  - done.
Qed.

Lemma implements_bind (m : prog mnld unit) (k : unit -> prog mnld unit) w v1 n1 r :
  mnld_ok w -> effect m w v1 n1 ->
  (forall w1, mnld_ok w1 -> view w1 = v1 -> cfg_of w1 = cfg_of w -> implements (k tt) w1 r) ->
  implements (bind m k) w (noting n1 r).
Proof.
  intros Hok (w1 & E & H1) Hk. eapply implements_step; [exact E|exact H1|].
  apply Hk; [by eapply eff_ok|by apply H1|by apply H1].
Qed.

Lemma implements_then_fsm (m : prog mnld unit) event data1 w v1 n1 :
  mnld_ok w -> is_int data1 = true -> effect m w v1 n1 ->
  implements (m ;; mnld_fsm event data1) w (noting n1 (fsm_spec (cfg_of w) event data1 v1)).
Proof.
  intros Hok Hd Hm. eapply implements_bind; [done|exact Hm|].
  intros w1 H1 <- <-. by apply fsm_implements.
Qed.

Lemma noting_nil r : noting [] r = r.
Proof. by destruct r as [[]|]. Qed.

(** [client.x = ...; mnld_fsm(event)] *)
Lemma client_then_fsm x f event w :
  mnld_ok w ->
  implements (mod_client x f ;; mnld_fsm event 0) w
    (fsm_spec (cfg_of w) event 0 (on_clients (upd_client x f) (view w))).
Proof.
  intros Hok. rewrite <- noting_nil.
  apply implements_then_fsm; [done..|]. apply effect_mod_client.
Qed.

Lemma effect_lib c w : mnld_ok w -> effect (call_lib c) w (view w) [NLib c].
Proof.
  intros Hok. destruct (log_event_grows (EvLib c) (m_sys w)) as (s' & E & Hg & Ht).
  exists (set_m_sys s' w). split.
  - unfold call_lib, on_sys. cbn [sys_of mnld_has_sys]. by rewrite E.
  - split; [|done|done]. unfold view, armed. cbn. by rewrite Ht.
Qed.

Lemma effect_upd_epo f w : effect (upd_epo f) w (view w) [].
Proof. eexists. split; [reflexivity|]. split; [done..|]. apply sys_grows_refl. Qed.

Lemma effect_epo_download w :
  mnld_ok w -> effect start_epo_download w (view w) [epo_request].
Proof.
  intros Hok. unfold start_epo_download. apply effect_silent; [done|apply effect_upd_epo|].
  intros w1 H1 E1 _. rewrite <- E1. apply effect_send; [done|].
  apply int_msg_plain; [solve_writes| |done]. unfold MNLD_INTERNAL_BUFF_SIZE. clen.
Qed.

Lemma effect_epo_trigger w :
  mnld_ok w -> exists pre, maybe_epo pre /\
    effect hal_start_gps_trigger_epo_download w (view w) pre.
Proof.
  intros Hok. unfold hal_start_gps_trigger_epo_download.
  set (c := negb (is_epo_downloading (m_epo w)) && env_epo_expired (m_env w) &&
            env_epo_enable (m_env w)).
  exists (if c then [epo_request] else []). split; [destruct c; red; auto|].
  do 2 apply effect_gets. fold c. destruct c; [by apply effect_epo_download|apply effect_ret].
Qed.

Lemma hal_start_implements w :
  mnld_ok w ->
  exists pre, maybe_epo pre /\
    implements hal_gps_start w (noting pre (input_spec (cfg_of w) IHalStart (view w))).
Proof.
  intros Hok. destruct (effect_mod_client HAL (client_open true) w) as (w1 & E & H1).
  assert (mnld_ok w1) as Hok1 by (by eapply eff_ok).
  destruct (effect_epo_trigger w1 Hok1) as (pre & Hpre & Hm). exists pre. split; [done|].
  rewrite <- noting_nil. eapply implements_step; [exact E|exact H1|].
  cbn [input_spec]. unfold opening. rewrite <- (e_view _ _ _ _ H1), <- (e_cfg _ _ _ _ H1).
  by apply implements_then_fsm.
Qed.

Lemma effect_agps_delete f w :
  mnld_ok w -> is_int f = true ->
  effect (discard (mnl2agps_delete_aiding_data f)) w (view w) [to_agps (A_delete_aiding_data f)].
Proof.
  intros Hok Hz. apply effect_send; [done|]. apply (mnl2agps_plain (A_delete_aiding_data f)).
  - split; [fields_ok|done].
  - unfold mnl2agps_bytes. cbn [mnl2agps_fields]. rewrite length_enc_msg.
    unfold enc_fields, MNL_AGPS_MAX_BUFF_SIZE. cbn [map concat enc_field]. clen.
Qed.

Lemma effect_add_flags f w :
  effect (modify (upd_gps (fun g => with_delete (Z.lor (delete_aiding_flag g) f) g))) w
    (adding f (view w)) [].
Proof. by apply effect_modify. Qed.

Lemma hal_delete_implements f w :
  mnld_ok w -> is_int f = true ->
  implements (hal_gps_delete_aiding_data f) w (input_spec (cfg_of w) (IHalDelete f) (view w)).
Proof.
  intros Hok Hf. eapply implements_bind; [done|by apply effect_agps_delete|].
  intros w1 H1 E1 C1. rewrite <- noting_nil, <- C1.
  eapply implements_bind; [done|apply effect_mod_client|]. intros w2 H2 E2 C2.
  rewrite <- noting_nil, <- C2.
  eapply implements_bind; [done|apply effect_add_flags|]. intros w3 H3 E3 C3.
  rewrite <- E1, <- E2, <- E3, <- C3. by apply fsm_implements.
Qed.

Lemma agps_reset_implements f w :
  mnld_ok w ->
  implements (agps_reset_gps_req f) w (input_spec (cfg_of w) (IAgpsReset f) (view w)).
Proof.
  intros Hok. unfold agps_reset_gps_req. cbn [input_spec].
  destruct (f =? 0); [by apply (effect_agps_plain A_reset_gps_done)|].
  rewrite <- noting_nil.
  eapply implements_bind; [done|apply effect_add_flags|]. intros w1 H1 E1 C1.
  rewrite <- noting_nil, <- C1.
  eapply implements_bind; [done|apply effect_mod_client|]. intros w2 H2 E2 C2.
  rewrite <- E1, <- E2, <- C2. by apply fsm_implements.
Qed.

Lemma effect_reset_done w :
  mnld_ok w ->
  effect on_reset_done w (on_clients reset_acked (set_armed ResetTimer false (view w)))
    (timer_note (c_timer_reset (cfg_of w)) 0 :: reset_notes (v_clients (view w))).
Proof.
  intros Hok. unfold on_reset_done. apply effect_gets.
  eapply (effect_bind _ _ w _ [_]); [done|by apply (effect_stop_timer ResetTimer)|].
  intros w1 H1 E1 C1. eapply effect_conv; [by apply effect_reset_hdlr|by rewrite E1..].
Qed.

Lemma effect_clear_users w : effect mtk_gps_clear_gps_user w (users_cleared (view w)) [].
Proof.
  apply effect_modify; [done|]. unfold users_cleared, on_clients, view. cbn.
  f_equal. by destruct (clients (m_gps w)).
Qed.

Lemma effect_reboots w :
  mnld_ok w ->
  effect (discard mnl2hal_mnld_reboot ;; discard mnl2agps_mnl_reboot ;;
          discard mnl2flp_mnld_reboot ;; call_lib (LOther "gps_control_mnl_set_status")) w
    (view w) reboot_notes.
Proof.
  intros Hok. eapply (effect_bind _ _ w _ [_]); [done|by apply (effect_hal_plain D_mnld_reboot)|].
  intros w1 H1 E1 _. rewrite <- E1.
  eapply (effect_bind _ _ w1 _ [_]); [done|by apply (effect_agps_plain A_mnl_reboot)|].
  intros w2 H2 E2 _. rewrite <- E2.
  eapply (effect_bind _ _ w2 _ [_]); [done|by apply effect_flp|].
  intros w3 H3 E3 _. rewrite <- E3. by apply effect_lib.
Qed.

Lemma all_exit_cleared cs : all_exit (map_clients (set_used false) cs) = true.
Proof. by destruct cs. Qed.

Lemma effect_nmea_timeout w :
  mnld_ok w -> implements on_nmea_timeout w (input_spec (cfg_of w) INmeaTimeout (view w)).
Proof.
  intros Hok. unfold implements, input_spec.
  destruct (v_state (view w)) eqn:Est; change (v_state (view w)) with (gps_state (m_gps w)) in Est;
    unfold on_nmea_timeout, mnld_is_gps_started_done, get_state; unfold bind at 1 2, gets, effect;
    rewrite ?Est; cbn [ret when]; try (exact (effect_ret w)).
  apply (effect_bind _ _ w (users_cleared (view w)) []); [done|apply effect_clear_users|].
  intros w1 H1 E1 C1.
  apply (effect_bind _ _ w1 (stopping_view (users_cleared (view w))) (stopping_notes (cfg_of w)));
    [done| |intros w2 H2 E2 C2; rewrite <- E2; by apply effect_reboots].
  pose proof (fsm_implements GPS_EVENT_STOP 0 w1 H1 eq_refl) as H. revert H.
  unfold fsm_spec. rewrite E1, C1. unfold users_cleared at 1.
  change (v_state (on_clients _ _)) with (gps_state (m_gps w)). rewrite Est.
  unfold users_cleared at 1. cbn [on_clients v_clients]. by rewrite all_exit_cleared.
Qed.

Lemma input_implements (i : input) (w : mnld) :
  mnld_ok w -> input_ok i ->
  exists pre, maybe_epo pre /\ (i <> IHalStart -> pre = []) /\
    implements (handler i) w (noting pre (input_spec (cfg_of w) i (view w))).
Proof.
  intros Hok Hi. destruct (decide (i = IHalStart)) as [->|Hne].
  - destruct (hal_start_implements w Hok) as (pre & Hpre & H). by exists pre.
  - exists []. split; [by left|]. split; [done|]. rewrite noting_nil.
    destruct i; try done; lazymatch goal with
      | |- implements (handler (IHalDelete _)) _ _ => by apply hal_delete_implements
      | |- implements (handler (IAgpsReset _)) _ _ => by apply agps_reset_implements
      | |- implements (handler IResetDone) _ _ => by apply effect_reset_done
      | |- implements (handler INmeaTimeout) _ _ => by apply effect_nmea_timeout
      | |- implements (handler (IStartDone _)) _ _ => by apply fsm_implements
      | |- implements (handler IStopDone) _ _ => by apply fsm_implements
      | |- _ => by apply client_then_fsm
      end.
Qed.

(** C9: every request of a client and every report of the GPS thread has, on a
    working kernel, exactly the effect its specification gives; the HAL's start
    may first ask for a download of EPO data. *)
Theorem input_refines (i : input) (w : mnld) :
  mnld_ok w -> input_ok i ->
  exists pre, maybe_epo pre /\ (i <> IHalStart -> pre = []) /\
    implements (handler i) w (noting pre (input_spec (cfg_of w) i (view w))).
Proof. apply input_implements. Qed.

Lemma input_refines_witness :
  exists pre, maybe_epo pre /\
    effect (handler IHalStart) boot0
      (View MNLD_GPS_STATE_STARTING
         (upd_client HAL (fun _ => Client true true false false) clients_init) 0 true false false)
      (pre ++ [to_hal D_request_wakelock; timer_note 1 15000; to_gps MAIN2GPS_EVENT_START [0]]).
Proof.
  destruct (input_refines IHalStart boot0 boot0_ok I) as (pre & Hpre & _ & H).
  exists pre. split; [exact Hpre|exact H].
Defined.

(** ** What holds of the GPS state between two inputs *)

(** An acknowledgement of opening is owed to clients that use the GPS, one of
    closing to clients that do not. *)
Definition acks_ok (v : fsm_view) : Prop :=
  forall x, let c := client x (v_clients v) in
    (need_open_ack c = true -> gps_used c = true) /\
    (need_close_ack c = true -> gps_used c = false).

Definition no_open_acks (v : fsm_view) : Prop :=
  forall x, need_open_ack (client x (v_clients v)) = false.
Definition no_close_acks (v : fsm_view) : Prop :=
  forall x, need_close_ack (client x (v_clients v)) = false.

(** The watchdog of the stop runs exactly while the GPS stops, the one of the
    start only while it starts. *)
Definition watchdogs_ok (v : fsm_view) : Prop :=
  v_stop_armed v = bool_decide (v_state v = MNLD_GPS_STATE_STOPPING) /\
  (v_start_armed v = true -> v_state v = MNLD_GPS_STATE_STARTING).

(** Idle: nobody uses the GPS and no answer is owed.  Started: somebody uses
    it, every opening was acknowledged, every deletion of aiding data was passed
    on, and a pending reset is watched. *)
Definition settled (v : fsm_view) : Prop :=
  match v_state v with
  | MNLD_GPS_STATE_IDLE =>
      all_exit (v_clients v) = true /\ no_open_acks v /\ no_close_acks v /\
      need_reset_ack (agps (v_clients v)) = false
  | MNLD_GPS_STATE_STARTED =>
      all_exit (v_clients v) = false /\ no_open_acks v /\ v_delete v = 0 /\
      (need_reset_ack (agps (v_clients v)) = true -> v_reset_armed v = true)
  | _ => True
  end.

Definition view_inv (v : fsm_view) : Prop := acks_ok v /\ watchdogs_ok v /\ settled v.

Lemma client_upd x y f cs :
  client x (upd_client y f cs) = if decide (x = y) then f (client x cs) else client x cs.
Proof. destruct cs, x, y; reflexivity. Qed.

Lemma client_map x f cs : client x (map_clients f cs) = f (client x cs).
Proof. by destruct x. Qed.

Lemma all_exit_spec cs : all_exit cs = true <-> forall x, gps_used (client x cs) = false.
Proof.
  unfold all_exit. rewrite !andb_true_iff, !negb_true_iff. split.
  - intros (((((? & ?) & ?) & ?) & ?) & ?) []; done.
  - intros H. pose proof (H HAL). pose proof (H AGPS). pose proof (H FLP).
    pose proof (H FLP_TEST). pose proof (H AT_CMD). pose proof (H FACTORY). done.
Qed.

Lemma all_exit_false x cs : gps_used (client x cs) = true -> all_exit cs = false.
Proof.
  intros H. apply not_true_iff_false. intros E.
  pose proof (proj1 (all_exit_spec cs) E x). congruence.
Qed.

Lemma all_exit_same cs cs' :
  (forall x, gps_used (client x cs') = gps_used (client x cs)) -> all_exit cs' = all_exit cs.
Proof.
  intros H. destruct (all_exit cs) eqn:E.
  - apply all_exit_spec. intros x. rewrite H. by apply all_exit_spec.
  - apply not_true_iff_false. intros E'. apply not_true_iff_false in E. apply E.
    apply all_exit_spec. intros x. rewrite <- H. by apply all_exit_spec.
Qed.

Lemma all_exit_opened cs : all_exit (opened cs) = all_exit cs.
Proof. by destruct cs. Qed.
Lemma all_exit_closed cs : all_exit (closed cs) = all_exit cs.
Proof. by destruct cs. Qed.

(** Reads the clients after an update. *)
Ltac clients_cbn :=
  unfold opened, closed, reset_acked;
  repeat (rewrite client_upd || rewrite client_map);
  repeat case_decide; subst; cbn [need_open_ack need_close_ack need_reset_ack gps_used
    set_open_ack set_close_ack set_reset_ack set_used client_open client_close client_init client].

Lemma acks_opened v : acks_ok v -> acks_ok (on_clients opened v) /\ no_open_acks (on_clients opened v).
Proof.
  intros H. split; intros x; specialize (H x); cbn [on_clients v_clients]; clients_cbn;
    try done; cbn in H; intuition congruence.
Qed.

Lemma acks_closed v :
  acks_ok v -> acks_ok (on_clients closed v) /\ no_close_acks (on_clients closed v).
Proof.
  intros H. split; intros x; specialize (H x); cbn [on_clients v_clients]; clients_cbn;
    try done; cbn in H; intuition congruence.
Qed.

(** What an event needs of the clients, once the callback changed them. *)
Definition ready (event : mnld_gps_event) (v : fsm_view) : Prop :=
  match v_state v, event with
  | MNLD_GPS_STATE_IDLE, GPS_EVENT_START => True
  | MNLD_GPS_STATE_IDLE, GPS_EVENT_STOP => all_exit (v_clients v) = true /\ no_open_acks v
  | MNLD_GPS_STATE_IDLE, GPS_EVENT_RESET =>
      all_exit (v_clients v) = true /\ no_open_acks v /\ no_close_acks v
  | MNLD_GPS_STATE_STARTED, GPS_EVENT_START => all_exit (v_clients v) = false
  | MNLD_GPS_STATE_STARTED, GPS_EVENT_STOP => no_open_acks v /\ v_delete v = 0
  | MNLD_GPS_STATE_STARTED, GPS_EVENT_RESET =>
      all_exit (v_clients v) = false /\ no_open_acks v /\
      (need_reset_ack (agps (v_clients v)) = true ->
       v_reset_armed v = true \/ v_delete v <> 0)
  | MNLD_GPS_STATE_IDLE, _ | MNLD_GPS_STATE_STARTED, _ => settled v
  | _, _ => True
  end.

Lemma reset_ack_closed cs : need_reset_ack (agps (closed cs)) = false.
Proof. by destruct cs. Qed.
Lemma reset_ack_opened cs : need_reset_ack (agps (opened cs)) = false.
Proof. by destruct cs. Qed.

Lemma acks_same v v' : v_clients v' = v_clients v -> acks_ok v -> acks_ok v'.
Proof. unfold acks_ok. by intros ->. Qed.

Lemma watchdogs_same v v' :
  v_state v' = v_state v -> v_stop_armed v' = v_stop_armed v ->
  v_start_armed v' = v_start_armed v -> watchdogs_ok v -> watchdogs_ok v'.
Proof. unfold watchdogs_ok. by intros -> -> ->. Qed.

Lemma inv_starting c v :
  acks_ok v -> v_stop_armed v = false -> view_inv (starting_view c v).
Proof.
  intros Ha Hs. split; [exact Ha|]. split; [|done]. split; [|done]. exact Hs.
Qed.

Lemma inv_stopping v : acks_ok v -> v_start_armed v = false -> view_inv (stopping_view v).
Proof.
  intros Ha Hs. split; [exact Ha|]. split; [|done]. split; [done|]. cbn. by rewrite Hs.
Qed.

Lemma inv_started v :
  acks_ok v -> v_state v = MNLD_GPS_STATE_STARTED -> v_start_armed v = false ->
  v_stop_armed v = false -> all_exit (v_clients v) = false -> view_inv (started_view v).
Proof.
  intros Ha Hst H1 H2 He. destruct (acks_opened v Ha) as [Ho Hn].
  split; [exact Ho|]. split; [|unfold settled; cbn [started_view deleted v_state v_clients v_delete
    on_clients]; rewrite Hst].
  - unfold watchdogs_ok. cbn. by rewrite H1, H2, Hst.
  - split; [by rewrite all_exit_opened|]. split; [exact Hn|]. split; [done|].
    by rewrite reset_ack_opened.
Qed.

Lemma inv_stopped v :
  acks_ok v -> watchdogs_ok v -> no_open_acks v ->
  match v_state v with
  | MNLD_GPS_STATE_IDLE => all_exit (v_clients v) = true
  | MNLD_GPS_STATE_STARTED => all_exit (v_clients v) = false /\ v_delete v = 0
  | _ => True
  end -> view_inv (stopped_view v).
Proof.
  intros Ha Hw Hn He. destruct (acks_closed v Ha) as [Ho Hc].
  assert (no_open_acks (stopped_view v)) as Hn'.
  { intros x. specialize (Hn x). cbn [stopped_view on_clients v_clients]. by clients_cbn. }
  split; [exact Ho|]. split; [exact Hw|]. unfold settled.
  cbn [stopped_view v_state v_clients v_delete on_clients].
  rewrite all_exit_closed, reset_ack_closed. by destruct (v_state v); intuition.
Qed.

Lemma inv_reset_acked v :
  acks_ok v -> watchdogs_ok v ->
  match v_state v with
  | MNLD_GPS_STATE_IDLE => all_exit (v_clients v) = true /\ no_open_acks v /\ no_close_acks v
  | MNLD_GPS_STATE_STARTED => all_exit (v_clients v) = false /\ no_open_acks v /\ v_delete v = 0
  | _ => True
  end -> view_inv (on_clients reset_acked v).
Proof.
  intros Ha Hw Hs.
  assert (forall x, need_open_ack (client x (reset_acked (v_clients v))) =
                    need_open_ack (client x (v_clients v))) as Ho by (intros x; by clients_cbn).
  assert (forall x, need_close_ack (client x (reset_acked (v_clients v))) =
                    need_close_ack (client x (v_clients v))) as Hc by (intros x; by clients_cbn).
  assert (forall x, gps_used (client x (reset_acked (v_clients v))) =
                    gps_used (client x (v_clients v))) as Hu by (intros x; by clients_cbn).
  assert (need_reset_ack (agps (reset_acked (v_clients v))) = false) as Hz
    by (by destruct (v_clients v)).
  pose proof (all_exit_same _ _ Hu) as He.
  split; [|split; [exact Hw|]].
  - intros x. cbn [on_clients v_clients]. rewrite Ho, Hc, Hu. apply Ha.
  - assert (no_open_acks v -> no_open_acks (on_clients reset_acked v)) as Hn
      by (intros H x; specialize (H x); cbn [on_clients v_clients]; by rewrite Ho).
    assert (no_close_acks v -> no_close_acks (on_clients reset_acked v)) as Hn'
      by (intros H x; specialize (H x); cbn [on_clients v_clients]; by rewrite Hc).
    unfold settled. cbn [on_clients v_clients v_state v_delete].
    rewrite He, Hz. destruct (v_state v); intuition done.
Qed.

Lemma exit_no_open v : acks_ok v -> all_exit (v_clients v) = true -> no_open_acks v.
Proof.
  intros Ha He x. destruct (need_open_ack _) eqn:E; [|done].
  apply (Ha x) in E. rewrite (proj1 (all_exit_spec _) He x) in E. done.
Qed.

Lemma inv_deleted v :
  acks_ok v -> watchdogs_ok v -> v_state v = MNLD_GPS_STATE_STARTED ->
  ready GPS_EVENT_RESET v -> view_inv (deleted v).
Proof.
  unfold ready. intros Ha Hw Hst. rewrite Hst. intros (He & Ho & Hr).
  split; [exact Ha|]. split; [exact Hw|]. unfold settled.
  cbn [deleted v_state v_clients v_delete v_reset_armed]. rewrite Hst.
  split; [done|]. split; [exact Ho|]. split; [done|]. intros H.
  destruct (Hr H) as [H1|H1]; [by destruct (_ =? _)|].
  by rewrite (proj2 (Z.eqb_neq (v_delete v) 0) H1).
Qed.

Lemma start_disarmed v :
  watchdogs_ok v -> v_state v <> MNLD_GPS_STATE_STARTING -> v_start_armed v = false.
Proof. intros [_ H] Hne. apply not_true_iff_false. intros E. by apply Hne, H. Qed.

Lemma stop_disarmed v :
  watchdogs_ok v -> v_state v <> MNLD_GPS_STATE_STOPPING -> v_stop_armed v = false.
Proof. intros [H _] Hne. rewrite H. by apply bool_decide_eq_false. Qed.

Lemma fsm_inv c event d v v' ns :
  acks_ok v -> watchdogs_ok v -> ready event v ->
  fsm_spec c event d v = Some (v', ns) -> view_inv v'.
Proof.
  intros Ha Hw Hr.
  pose proof (start_disarmed v Hw) as Hstart. pose proof (stop_disarmed v Hw) as Hstop.
  unfold fsm_spec, ready in *.
  destruct (v_state v) eqn:Est, event; try (intros [= <- <-]); try done.
  all: try (split; [done|split; [done|]]; unfold settled; rewrite Est; exact Hr || exact I).
  - apply inv_starting; [done|]. by apply Hstop.
  - apply inv_stopped; [done..|by apply Hr|by rewrite Est; apply Hr].
  - apply inv_reset_acked; [done..|by rewrite Est].
  - destruct (all_exit (v_clients v)) eqn:He; intros [= <- <-].
    + apply inv_stopping; [|done]. by apply (acks_opened v Ha).
    + apply (inv_started (on_state MNLD_GPS_STATE_STARTED (set_armed StartTimer false v)));
        [exact Ha|done|done|by apply Hstop|exact He].
  - apply inv_started; [done..|by apply Hstart|by apply Hstop|done].
  - destruct (all_exit (v_clients v)) eqn:He; intros [= <- <-].
    + apply inv_stopping; [done|by apply Hstart].
    + apply inv_stopped; [done..|by apply Hr|rewrite Est; split; [done|by apply Hr]].
  - apply inv_deleted; [done..|]. unfold ready. by rewrite Est.
  - apply inv_reset_acked; [done..|by rewrite Est].
  - destruct (all_exit (v_clients v)) eqn:He; intros [= <- <-].
    + apply (inv_stopped (on_state MNLD_GPS_STATE_IDLE (set_armed StopTimer false v)));
        [exact Ha| |by apply exit_no_open|exact He].
      split; [done|]. cbn. by rewrite Hstart.
    + apply inv_starting; [|done]. by apply (acks_closed v Ha).
Qed.

(** ** Inputs keep the invariant *)

Lemma on_clients_settled (f : mnld_gps_clients -> mnld_gps_clients) v :
  (forall x cs, gps_used (client x (f cs)) = gps_used (client x cs) /\
                need_open_ack (client x (f cs)) = need_open_ack (client x cs) /\
                need_close_ack (client x (f cs)) = need_close_ack (client x cs)) ->
  (acks_ok v -> acks_ok (on_clients f v)) /\
  all_exit (v_clients (on_clients f v)) = all_exit (v_clients v) /\
  (no_open_acks v -> no_open_acks (on_clients f v)) /\
  (no_close_acks v -> no_close_acks (on_clients f v)).
Proof.
  intros Hf. cbn [on_clients v_clients]. split; [|split; [|split]].
  - intros H x. cbn [on_clients v_clients]. destruct (Hf x (v_clients v)) as (-> & -> & ->).
    apply H.
  - apply all_exit_same. intros x. apply Hf.
  - intros H x. cbn [on_clients v_clients]. destruct (Hf x (v_clients v)) as (_ & -> & _). apply H.
  - intros H x. cbn [on_clients v_clients]. destruct (Hf x (v_clients v)) as (_ & _ & ->). apply H.
Qed.

Lemma set_reset_settled x b v :
  let v' := on_clients (upd_client x (set_reset_ack b)) v in
  (acks_ok v -> acks_ok v') /\ all_exit (v_clients v') = all_exit (v_clients v) /\
  (no_open_acks v -> no_open_acks v') /\ (no_close_acks v -> no_close_acks v').
Proof. apply on_clients_settled. intros y cs. by clients_cbn. Qed.

(** A client opens the GPS. *)
Lemma open_inv c x ack v v' ns :
  view_inv v -> fsm_spec c GPS_EVENT_START 0 (opening x ack v) = Some (v', ns) -> view_inv v'.
Proof.
  intros (Ha & Hw & Hs). apply fsm_inv.
  - intros y. specialize (Ha y). cbn [opening on_clients v_clients]. clients_cbn; [|exact Ha].
    by split.
  - exact Hw.
  - unfold ready. cbn [opening on_clients v_clients v_state]. destruct (v_state v); try done.
    apply (all_exit_false x). by clients_cbn.
Qed.

(** A client closes it, or is gone. *)
Lemma leave_inv c x (f : mnld_gps_client -> mnld_gps_client) v v' ns :
  (forall k, gps_used (f k) = false /\ need_open_ack (f k) = false) ->
  view_inv v -> fsm_spec c GPS_EVENT_STOP 0 (on_clients (upd_client x f) v) = Some (v', ns) ->
  view_inv v'.
Proof.
  intros Hf (Ha & Hw & Hs).
  assert (no_open_acks v -> no_open_acks (on_clients (upd_client x f) v)) as Ho.
  { intros H y. specialize (H y). cbn [on_clients v_clients]. clients_cbn; [apply Hf|done]. }
  apply fsm_inv.
  - intros y. specialize (Ha y). cbn [on_clients v_clients]. clients_cbn; [|exact Ha].
    destruct (Hf (client x (v_clients v))) as [-> ->]. by split.
  - exact Hw.
  - unfold ready, settled in *. cbn [on_clients v_clients v_state v_delete].
    destruct (v_state v); try done.
    + split; [|by apply Ho, Hs]. apply all_exit_spec. intros y.
      destruct Hs as [He _]. pose proof (proj1 (all_exit_spec _) He y).
      clients_cbn; [apply Hf|done].
    + split; [by apply Ho, Hs|by apply Hs].
Qed.

Lemma hal_delete_inv c flags v v' ns :
  view_inv v -> input_spec c (IHalDelete flags) v = Some (v', ns) -> view_inv v'.
Proof.
  intros (Ha & Hw & Hs). cbn [input_spec]. unfold noting.
  destruct (fsm_spec _ _ _ _) as [[v1 n1]|] eqn:E; [|done]. intros [= <- _].
  destruct (set_reset_settled HAL false v) as (H1 & H2 & H3 & H4).
  revert E. apply fsm_inv; [by apply H1|exact Hw|].
  unfold ready, settled, adding in *.
  cbn [on_delete on_clients v_clients v_state v_delete v_reset_armed] in *.
  assert (agps (upd_client HAL (set_reset_ack false) (v_clients v)) = agps (v_clients v)) as ->
    by (by destruct (v_clients v)).
  rewrite H2. destruct (v_state v); try done; intuition.
Qed.

Lemma agps_reset_inv c flags v v' ns :
  view_inv v -> input_spec c (IAgpsReset flags) v = Some (v', ns) -> view_inv v'.
Proof.
  intros (Ha & Hw & Hs). cbn [input_spec].
  destruct (Z.eqb_spec flags 0) as [->|Hne]; [by intros [= <- _]|].
  destruct (set_reset_settled AGPS true (adding flags v)) as (H1 & H2 & H3 & H4).
  apply fsm_inv; [by apply H1|exact Hw|].
  unfold ready, settled, adding in *.
  cbn [on_delete on_clients v_clients v_state v_delete v_reset_armed] in *.
  rewrite H2. destruct (v_state v); try done; [intuition|].
  destruct Hs as (He & Ho & Hd & _). split; [done|]. split; [by apply H3|].
  intros _. right. by rewrite Hd.
Qed.

Lemma reset_done_inv v :
  view_inv v -> view_inv (on_clients reset_acked (set_armed ResetTimer false v)).
Proof.
  intros (Ha & Hw & Hs). apply inv_reset_acked; [exact Ha|exact Hw|].
  unfold settled in Hs. cbn [set_armed v_state v_clients v_delete].
  destruct (v_state v); try done; intuition.
Qed.

Lemma nmea_timeout_inv v :
  view_inv v -> v_state v = MNLD_GPS_STATE_STARTED -> view_inv (stopping_view (users_cleared v)).
Proof.
  intros (Ha & Hw & Hs) Hst. apply inv_stopping.
  - intros x. unfold settled in Hs. rewrite Hst in Hs. destruct Hs as (_ & Ho & _).
    specialize (Ho x). cbn [users_cleared on_clients v_clients]. clients_cbn.
    by rewrite Ho.
  - apply start_disarmed; [exact Hw|]. cbn. by rewrite Hst.
Qed.

Lemma input_inv c i v v' ns :
  view_inv v -> input_spec c i v = Some (v', ns) -> view_inv v'.
Proof.
  intros Hv. destruct i; lazymatch goal with
    | |- input_spec _ (IHalDelete _) _ = _ -> _ => by apply hal_delete_inv
    | |- input_spec _ (IAgpsReset _) _ = _ -> _ => by apply agps_reset_inv
    | |- input_spec _ IResetDone _ = _ -> _ => intros [= <- _]; by apply reset_done_inv
    | |- input_spec _ INmeaTimeout _ = _ -> _ =>
        cbn [input_spec]; destruct (v_state v) eqn:E; intros [= <- _]; try done;
        by apply nmea_timeout_inv
    | |- input_spec _ (IStartDone _) _ = _ -> _ => idtac
    | |- input_spec _ IStopDone _ = _ -> _ => idtac
    | |- _ => first [by apply open_inv | by apply leave_inv]
    end; destruct Hv as (Ha & Hw & Hs); apply fsm_inv; try done;
    unfold ready; destruct (v_state v); done.
Qed.

(** ** Commands to the GPS thread, and the wake lock *)

Inductive gps_cmd : Type := CStart | CStop | CReset.
#[export] Instance gps_cmd_eq_dec : EqDecision gps_cmd.
Proof. solve_decision. Defined.

(** The command in a datagram to the GPS thread. *)
Definition cmd_of (n : note) : option gps_cmd :=
  match n with
  | NSend path msg =>
      if String.eqb path MNLD_GPS_CONTROL_SOCKET then
        let cmd := le_val (take 4 msg) in
        if cmd =? MAIN2GPS_EVENT_START then Some CStart
        else if cmd =? MAIN2GPS_EVENT_STOP then Some CStop
        else if cmd =? MAIN2GPS_DELETE_AIDING_DATA then Some CReset
        else None
      else None
  | _ => None
  end.

(** Whether a datagram to the HAL takes ([true]) or drops ([false]) the wake
    lock: the command follows the version. *)
Definition wake_of (n : note) : option bool :=
  match n with
  | NSend path msg =>
      if String.eqb path MTK_MNL2HAL then
        let cmd := le_val (take 4 (drop 4 msg)) in
        if cmd =? MNL2HAL_REQUEST_WAKELOCK then Some true
        else if cmd =? MNL2HAL_RELEASE_WAKELOCK then Some false
        else None
      else None
  | _ => None
  end.

Definition run_of (k : gps_cmd) : option bool :=
  match k with CStart => Some true | CStop => Some false | CReset => None end.

Definition cmds (ns : list note) : list gps_cmd := omap cmd_of ns.
Definition runs (ns : list note) : list bool := omap run_of (cmds ns).
Definition wakes (ns : list note) : list bool := omap wake_of ns.
Definition stops (ks : list gps_cmd) : nat := length (filter (fun k => k = CStop) ks).

(** A switch turned on and off: where it is left, if it is never turned to
    where it is already. *)
Fixpoint toggles (on : bool) (l : list bool) : option bool :=
  match l with
  | [] => Some on
  | b :: l' => if eqb b on then None else toggles b l'
  end.

Lemma toggles_app on l1 l2 :
  toggles on (l1 ++ l2) = match toggles on l1 with Some on' => toggles on' l2 | None => None end.
Proof.
  revert on. induction l1 as [|b l1 IH]; intros on; [done|]. cbn. destruct (eqb b on); [done|]. apply IH.
Qed.

Definition running (s : mnld_gps_state) : bool :=
  match s with MNLD_GPS_STATE_STARTING | MNLD_GPS_STATE_STARTED => true | _ => false end.
Definition awake (s : mnld_gps_state) : bool :=
  match s with MNLD_GPS_STATE_IDLE => false | _ => true end.

(** Notes without a command for the GPS thread's engine or the wake lock. *)
Definition plain (ns : list note) : Prop :=
  runs ns = [] /\ wakes ns = [] /\ stops (cmds ns) = O.

Lemma cmds_app l1 l2 : cmds (l1 ++ l2) = cmds l1 ++ cmds l2.
Proof. apply omap_app. Qed.
Lemma runs_app l1 l2 : runs (l1 ++ l2) = runs l1 ++ runs l2.
Proof. unfold runs. by rewrite cmds_app, omap_app. Qed.
Lemma wakes_app l1 l2 : wakes (l1 ++ l2) = wakes l1 ++ wakes l2.
Proof. apply omap_app. Qed.
Lemma stops_app l1 l2 : stops (l1 ++ l2) = (stops l1 + stops l2)%nat.
Proof. unfold stops. by rewrite filter_app, length_app. Qed.

Lemma plain_app l1 l2 : plain l1 -> plain l2 -> plain (l1 ++ l2).
Proof.
  intros (A & B & C) (A' & B' & C'). unfold plain.
  by rewrite runs_app, wakes_app, cmds_app, stops_app, A, B, C, A', B', C'.
Qed.

Lemma plain_if (b : bool) l1 l2 : plain l1 -> plain l2 -> plain (if b then l1 else l2).
Proof. by destruct b. Qed.
Lemma plain_nil : plain [].
Proof. done. Qed.

Create HintDb plain.
#[export] Hint Resolve plain_app plain_if plain_nil : plain.
#[export] Hint Extern 3 (plain (_ :: _)) => done : plain.

Lemma plain_open_notes cs req : plain (open_notes cs req).
Proof. unfold open_notes. auto with plain. Qed.
Lemma plain_close_notes cs : plain (close_notes cs).
Proof. unfold close_notes. auto with plain. Qed.
Lemma plain_reset_notes cs : plain (reset_notes cs).
Proof. unfold reset_notes. auto with plain. Qed.
Lemma plain_delete_notes c d : plain (delete_notes c d).
Proof. unfold delete_notes. auto with plain. Qed.
Lemma plain_timer id ms : plain [timer_note id ms].
Proof. done. Qed.
#[export] Hint Resolve plain_open_notes plain_close_notes plain_reset_notes plain_delete_notes
  plain_timer : plain.
Lemma plain_started_notes c req v : plain (started_notes c req v).
Proof. unfold started_notes. auto with plain. Qed.
Lemma plain_stopped_notes v : plain (stopped_notes v).
Proof. unfold stopped_notes. auto with plain. Qed.
#[export] Hint Resolve plain_started_notes plain_stopped_notes : plain.
Lemma plain_cons_timer id ms l : plain l -> plain (timer_note id ms :: l).
Proof. intros H. by apply (plain_app [_] l). Qed.
#[export] Hint Resolve plain_cons_timer : plain.

(** What a step does to the engine, the wake lock and the outstanding stops. *)
Record moves (s s' : mnld_gps_state) (ns : list note) : Prop := {
  mv_runs : toggles (running s) (runs ns) = Some (running s');
  mv_wakes : toggles (awake s) (wakes ns) = Some (awake s');
  mv_stops : stops (cmds ns) =
    if bool_decide (s <> MNLD_GPS_STATE_STOPPING /\ s' = MNLD_GPS_STATE_STOPPING) then 1%nat else 0%nat
}.

Lemma moves_plain s ns : plain ns -> moves s s ns.
Proof.
  intros (A & B & C). split; [by rewrite A|by rewrite B|]. rewrite C.
  by rewrite bool_decide_eq_false_2 by (intros []; done).
Qed.

Lemma moves_plain_l s s' l1 l2 : plain l1 -> moves s s' l2 -> moves s s' (l1 ++ l2).
Proof.
  intros (A & B & C) [A' B' C']. split.
  - by rewrite runs_app, A.
  - by rewrite wakes_app, B.
  - by rewrite cmds_app, stops_app, C.
Qed.

Lemma moves_plain_r s s' l1 l2 : plain l2 -> moves s s' l1 -> moves s s' (l1 ++ l2).
Proof.
  intros (A & B & C) [A' B' C']. split.
  - by rewrite runs_app, A, app_nil_r.
  - by rewrite wakes_app, B, app_nil_r.
  - by rewrite cmds_app, stops_app, C, Nat.add_0_r.
Qed.

Lemma moves_starting c v :
  v_state v = MNLD_GPS_STATE_STOPPING ->
  moves (v_state v) MNLD_GPS_STATE_STARTING (starting_notes c v).
Proof.
  intros ->. apply moves_plain_l; [auto with plain|]. by split.
Qed.

Lemma moves_stopping c s :
  running s = true -> moves s MNLD_GPS_STATE_STOPPING (stopping_notes c).
Proof. intros H. by destruct s. Qed.

Lemma moves_wake c v l :
  v_state v = MNLD_GPS_STATE_IDLE -> plain l ->
  moves (v_state v) MNLD_GPS_STATE_STARTING ([to_hal D_request_wakelock] ++ l ++ starting_notes c v).
Proof.
  intros -> Hl. unfold starting_notes.
  assert (moves MNLD_GPS_STATE_IDLE MNLD_GPS_STATE_STARTING
            ([to_hal D_request_wakelock; to_gps MAIN2GPS_EVENT_START [v_delete v]])) as H by done.
  destruct Hl as (A & B & C), H as [A' B' C']. split.
  - rewrite !runs_app in *. cbn in A'. rewrite A. by destruct (unwatched _ _).
  - rewrite !wakes_app. rewrite B. by destruct (unwatched _ _).
  - rewrite !cmds_app, !stops_app. rewrite C. by destruct (unwatched _ _).
Qed.

Lemma moves_started l : plain l -> moves MNLD_GPS_STATE_STARTING MNLD_GPS_STATE_STARTED l.
Proof. intros (A & B & C). split; [by rewrite A|by rewrite B|by rewrite C]. Qed.

Lemma moves_sleep l :
  plain l -> moves MNLD_GPS_STATE_STOPPING MNLD_GPS_STATE_IDLE ([to_hal D_release_wakelock] ++ l).
Proof. intros Hl. by apply moves_plain_r. Qed.

Lemma some_pair {A B} (a a' : A) (b b' : B) : Some (a, b) = Some (a', b') -> a' = a /\ b' = b.
Proof. by intros [= <- <-]. Qed.

Lemma plain_log (b : bool) text : plain (if b then [to_op01 text] else []).
Proof. by destruct b. Qed.

Lemma fsm_moves c event d v v' ns :
  fsm_spec c event d v = Some (v', ns) -> moves (v_state v) (v_state v') ns.
Proof.
  unfold fsm_spec.
  destruct (v_state v) eqn:Est, event; intros E; try done.
  all: try match type of E with context [all_exit ?cs] => destruct (all_exit cs) end.
  all: apply some_pair in E as [-> ->].
  all: cbn [stopped_view starting_view stopping_view started_view on_state set_armed on_clients
    deleted v_state]; rewrite ?Est; try (apply moves_plain; solve [auto with plain]).
  - rewrite <- Est. apply moves_wake; [done|]. apply plain_log.
  - apply moves_plain_l; [auto with plain|]. by apply moves_stopping.
  - by apply moves_started, (plain_cons_timer _ _ _ (plain_started_notes c d v)).
  - by apply moves_stopping.
  - apply moves_plain_l; [auto with plain|]. apply moves_sleep. apply plain_log.
  - apply moves_plain_l; [auto with plain|].
    rewrite <- Est. by apply (moves_starting c (stopped_view (set_armed StopTimer false v))).
Qed.

Lemma input_moves c i v v' ns :
  input_spec c i v = Some (v', ns) -> moves (v_state v) (v_state v') ns.
Proof.
  destruct i; cbn [input_spec]; intros E; lazymatch type of E with
    | noting ?pre ?r = _ =>
        destruct r as [[v1 n1]|] eqn:E1; [|done]; apply some_pair in E as [-> ->];
        apply moves_plain_l; [done|]; exact (fsm_moves _ _ _ _ _ _ E1)
    | (if _ then _ else _) = _ =>
        destruct (_ =? _);
        [apply some_pair in E as [-> ->]; by apply moves_plain|exact (fsm_moves _ _ _ _ _ _ E)]
    | Some _ = _ =>
        apply some_pair in E as [-> ->]; apply moves_plain; auto with plain
    | match _ with _ => _ end = _ =>
        destruct (v_state v) eqn:Est; apply some_pair in E as [-> ->];
        try (rewrite Est; by apply moves_plain); apply moves_plain_r; [done|by apply moves_stopping]
    | _ => exact (fsm_moves _ _ _ _ _ _ E)
    end.
Qed.

(** Only the report of the stop leaves the stopping state. *)
Lemma stopping_stays c i v v' ns :
  v_state v = MNLD_GPS_STATE_STOPPING -> i <> IStopDone ->
  input_spec c i v = Some (v', ns) -> v_state v' = MNLD_GPS_STATE_STOPPING.
Proof.
  intros Hst Hne. destruct i; try done; cbn [input_spec]; unfold noting, fsm_spec, opening, closing,
    forgetting, adding; cbn [on_clients on_delete v_state]; rewrite ?Hst; try (by intros [= <- _]).
  - destruct (_ =? _); by intros [= <- _].
Qed.

Lemma stop_done_leaves c v v' ns :
  input_spec c IStopDone v = Some (v', ns) -> v_state v' <> MNLD_GPS_STATE_STOPPING.
Proof.
  cbn [input_spec]. unfold fsm_spec. destruct (v_state v) eqn:Est; try done.
  - by intros [= <- _]; rewrite Est.
  - destruct (all_exit _); intros E; by apply some_pair in E as [-> ->].
Qed.

(** Nothing but an unexpected report of a stop crashes the daemon. *)
Lemma crash_cause c i v :
  input_spec c i v = None -> i = IStopDone /\ running (v_state v) = true.
Proof.
  destruct i; cbn [input_spec]; unfold noting, fsm_spec, opening, closing, forgetting, adding;
    cbn [on_clients on_delete v_state]; try (destruct (_ =? 0)); try done;
    destruct (v_state v); try done; try (by destruct (all_exit _)).
Qed.

(** ** The system *)

(** The main thread's world, the commands that the GPS thread has not served
    yet, and the reports that the main thread has not read yet. *)
Record system : Type := System {
  s_world : mnld;
  s_cmds : list gps_cmd;
  s_reports : list input
}.

Definition is_request (i : input) : bool :=
  match i with IStartDone _ | IStopDone | IResetDone | INmeaTimeout => false | _ => true end.

(** What the GPS thread posts when it has served a command ([mnld_gps_stop],
    [mnld_gps_delete_aiding_data]).  The report of a start comes later, from a
    callback of libmnl. *)
Definition answer (k : gps_cmd) : list input :=
  match k with CStart => [] | CStop => [IStopDone] | CReset => [IResetDone] end.

(** What libmnl's callbacks and the NMEA monitor post, whenever they like. *)
Definition is_notice (i : input) : bool :=
  match i with IStartDone _ | INmeaTimeout => true | _ => false end.

Definition trace (w : mnld) : list note := map erase (sys_trace (m_sys w)).
Definition sent (w w' : mnld) : list note := drop (length (trace w)) (trace w').

(** Everything else the main thread does between two inputs: the other
    callbacks, new values of properties and files, the clock. *)
Definition elsewhere (w w' : mnld) : Prop :=
  mnld_ok w' /\ view w' = view w /\ exists ns, trace w' = trace w ++ ns /\ plain ns.

Inductive step : system -> system -> Prop :=
| step_request i w w' ks rs :
    is_request i = true -> input_ok i -> handler i w = Done (tt, w') ->
    step (System w ks rs) (System w' (ks ++ cmds (sent w w')) rs)
| step_report i w w' ks rs :
    handler i w = Done (tt, w') ->
    step (System w ks (i :: rs)) (System w' (ks ++ cmds (sent w w')) rs)
| step_serve k w ks rs : step (System w (k :: ks) rs) (System w ks (rs ++ answer k))
| step_lose k w ks rs : step (System w (k :: ks) rs) (System w ks rs)
| step_notice i w ks rs :
    is_notice i = true -> input_ok i -> step (System w ks rs) (System w ks (rs ++ [i]))
| step_elsewhere w w' ks rs : elsewhere w w' -> step (System w ks rs) (System w' ks rs).

Definition booted (w : mnld) : Prop :=
  mnld_ok w /\ trace w = [] /\
  view w = View MNLD_GPS_STATE_IDLE clients_init 0 false false false.

Inductive reachable : system -> Prop :=
| reach_boot w : booted w -> reachable (System w [] [])
| reach_step s s' : reachable s -> step s s' -> reachable s'.

(** Stops that were asked for and whose report was not read yet. *)
Definition stop_reports (rs : list input) : nat := length (filter (fun i => i = IStopDone) rs).
Definition pending_stops (s : system) : nat :=
  (stops (s_cmds s) + stop_reports (s_reports s))%nat.

Record sys_inv (s : system) : Prop := {
  si_ok : mnld_ok (s_world s);
  si_view : view_inv (view (s_world s));
  si_reports : Forall input_ok (s_reports s);
  si_stops : (pending_stops s <=
    if bool_decide (v_state (view (s_world s)) = MNLD_GPS_STATE_STOPPING) then 1 else 0)%nat;
  si_runs : toggles false (runs (trace (s_world s))) = Some (running (v_state (view (s_world s))));
  si_wakes : toggles false (wakes (trace (s_world s))) = Some (awake (v_state (view (s_world s))))
}.

(** One input, served: the new state is the specified one, the trace grows, and
    engine and wake lock move with the state. *)
Record served (i : input) (w w' : mnld) (ns : list note) : Prop := {
  sv_done : handler i w = Done (tt, w');
  sv_ok : mnld_ok w';
  sv_cfg : cfg_of w' = cfg_of w;
  sv_spec : exists pre n0, maybe_epo pre /\ ns = pre ++ n0 /\
    input_spec (cfg_of w) i (view w) = Some (view w', n0);
  sv_trace : trace w' = trace w ++ ns;
  sv_moves : moves (v_state (view w)) (v_state (view w')) ns
}.

Lemma plain_epo pre : maybe_epo pre -> plain pre.
Proof. by intros [->| ->]. Qed.

Lemma serve i w v n0 :
  mnld_ok w -> input_ok i -> input_spec (cfg_of w) i (view w) = Some (v, n0) ->
  exists w' ns, served i w w' ns /\ view w' = v.
Proof.
  intros Hok Hi E. destruct (input_implements i w Hok Hi) as (pre & Hpre & _ & H).
  rewrite E in H. destruct H as (w' & Hd & Heff). exists w', (pre ++ n0).
  pose proof (e_view _ _ _ _ Heff) as Hv. split; [|done]. split; try done.
  - by eapply eff_ok.
  - apply Heff.
  - exists pre, n0. by rewrite Hv.
  - apply Heff.
  - rewrite Hv. apply moves_plain_l; [by apply plain_epo|]. by eapply input_moves.
Qed.

Lemma served_unique i w w' :
  mnld_ok w -> input_ok i -> handler i w = Done (tt, w') -> exists ns, served i w w' ns.
Proof.
  intros Hok Hi Hd. destruct (input_spec (cfg_of w) i (view w)) as [[v n0]|] eqn:E.
  - destruct (serve i w v n0 Hok Hi E) as (w1 & ns & H & _). exists ns.
    assert (w1 = w') as -> by (pose proof (sv_done _ _ _ _ H); congruence). done.
  - destruct (input_implements i w Hok Hi) as (pre & _ & _ & H). rewrite E in H. cbn in H. congruence.
Qed.

Lemma sent_app w w' ns : trace w' = trace w ++ ns -> sent w w' = ns.
Proof. intros E. unfold sent. rewrite E. by rewrite drop_app_length. Qed.

Lemma served_view_inv i w w' ns : served i w w' ns -> view_inv (view w) -> view_inv (view w').
Proof.
  intros H Hv. destruct (sv_spec _ _ _ _ H) as (pre & n0 & _ & _ & E). by eapply input_inv.
Qed.

(** The alternation carries over a served input. *)
Lemma served_toggles i w w' ns :
  served i w w' ns ->
  toggles false (runs (trace w)) = Some (running (v_state (view w))) ->
  toggles false (wakes (trace w)) = Some (awake (v_state (view w))) ->
  toggles false (runs (trace w')) = Some (running (v_state (view w'))) /\
  toggles false (wakes (trace w')) = Some (awake (v_state (view w'))).
Proof.
  intros H Hr Hw. destruct (sv_moves _ _ _ _ H) as [Mr Mw _].
  rewrite (sv_trace _ _ _ _ H), runs_app, wakes_app, !toggles_app, Hr, Hw. done.
Qed.

(** Outstanding stops, before the input ([before], of which [used] were the
    input itself) and after. *)
Lemma served_stops i w w' ns before :
  served i w w' ns ->
  (before + (if decide (i = IStopDone) then 1 else 0) <=
    if bool_decide (v_state (view w) = MNLD_GPS_STATE_STOPPING) then 1 else 0)%nat ->
  (before + stops (cmds ns) <=
    if bool_decide (v_state (view w') = MNLD_GPS_STATE_STOPPING) then 1 else 0)%nat.
Proof.
  intros H. destruct (sv_spec _ _ _ _ H) as (pre & n0 & _ & _ & E).
  rewrite (mv_stops _ _ _ (sv_moves _ _ _ _ H)).
  destruct (decide (v_state (view w) = MNLD_GPS_STATE_STOPPING)) as [Hst|Hst].
  - rewrite (bool_decide_eq_true_2 _ Hst).
    rewrite (bool_decide_eq_false_2 (_ /\ _)) by (by intros []).
    case_decide as Hi; [intros Hb; by destruct (bool_decide _); lia|].
    rewrite (stopping_stays _ _ _ _ _ Hst Hi E). by rewrite bool_decide_eq_true_2 by done; lia.
  - rewrite (bool_decide_eq_false_2 _ Hst). repeat case_bool_decide; try lia; tauto.
Qed.

Lemma stop_reports_app rs rs' : stop_reports (rs ++ rs') = (stop_reports rs + stop_reports rs')%nat.
Proof. unfold stop_reports. by rewrite filter_app, length_app. Qed.
Lemma stop_reports_cons i rs :
  stop_reports (i :: rs) = (stop_reports rs + if decide (i = IStopDone) then 1 else 0)%nat.
Proof. unfold stop_reports. rewrite filter_cons. case_decide; cbn [length]; lia. Qed.
Lemma stops_cons k ks : stops (k :: ks) = (stops ks + stop_reports (answer k))%nat.
Proof. unfold stops. rewrite filter_cons. by destruct k; rewrite Nat.add_comm. Qed.

Lemma sys_inv_step s s' : sys_inv s -> step s s' -> sys_inv s'.
Proof.
  intros [Hok Hv Hr Hs Hru Hwa] Hst. unfold pending_stops in Hs.
  destruct Hst as [i w w' ks rs Hi Hio Hd|i w w' ks rs Hd|k w ks rs|k w ks rs|i w ks rs Hi Hio|
    w w' ks rs (Hok' & Hv' & ns & Ht & Hp)];
    cbn [s_world s_cmds s_reports] in *.
  - destruct (served_unique i w w' Hok Hio Hd) as (ns & Hsv).
    destruct (served_toggles _ _ _ _ Hsv Hru Hwa).
    rewrite (sent_app w w' ns) by apply Hsv.
    split; cbn [s_world s_cmds s_reports]; [apply Hsv|by eapply served_view_inv|done| |done|done].
    unfold pending_stops. cbn [s_cmds s_reports]. rewrite stops_app.
    assert (i <> IStopDone) by (by intros ->).
    eapply (served_stops i w w' ns (stops ks + stop_reports rs)) in Hsv;
      [lia|]. rewrite decide_False by done. lia.
  - apply Forall_cons in Hr as [Hio Hr].
    destruct (served_unique i w w' Hok Hio Hd) as (ns & Hsv).
    destruct (served_toggles _ _ _ _ Hsv Hru Hwa).
    rewrite (sent_app w w' ns) by apply Hsv.
    split; cbn [s_world s_cmds s_reports]; [apply Hsv|by eapply served_view_inv|done| |done|done].
    unfold pending_stops. cbn [s_cmds s_reports]. rewrite stops_app.
    eapply (served_stops i w w' ns (stops ks + stop_reports rs)) in Hsv;
      [lia|]. rewrite stop_reports_cons in Hs. lia.
  - split; try done; cbn [s_world s_cmds s_reports].
    + apply Forall_app. split; [done|]. by destruct k; cbn; rewrite ?Forall_singleton.
    + rewrite stops_cons in Hs. unfold pending_stops. cbn [s_cmds s_reports].
      rewrite stop_reports_app. lia.
  - split; try done; cbn [s_world s_cmds s_reports].
    rewrite stops_cons in Hs. unfold pending_stops. cbn [s_cmds s_reports]. lia.
  - split; try done; cbn [s_world s_cmds s_reports].
    + apply Forall_app. by rewrite Forall_singleton.
    + unfold pending_stops. cbn [s_cmds s_reports]. rewrite stop_reports_app.
      rewrite stop_reports_cons, decide_False by (by intros ->). cbn. lia.
  - destruct Hp as (P1 & P2 & _). split; cbn [s_world s_cmds s_reports]; rewrite ?Hv'; try done.
    + by rewrite Ht, runs_app, P1, app_nil_r.
    + by rewrite Ht, wakes_app, P2, app_nil_r.
Qed.

Lemma sys_inv_boot w : booted w -> sys_inv (System w [] []).
Proof.
  intros (Hok & Ht & Hv). split; cbn [s_world s_cmds s_reports]; rewrite ?Hv, ?Ht; try done.
  split; [by intros []|]. split; [by split|]. split; [done|]. by repeat split; try intros [].
Qed.

Lemma reachable_inv s : reachable s -> sys_inv s.
Proof.
  induction 1 as [w H|s s' _ IH H]; [by apply sys_inv_boot|by eapply sys_inv_step].
Qed.

(** The GPS state, read off the view. *)
Lemma state_of_view w : v_state (view w) = gps_state (m_gps w).
Proof. done. Qed.

(** Where an input comes from, in a state of the system: a client, or the head
    of the reports. *)
Definition arrives (s : system) (i : input) : Prop :=
  (is_request i = true /\ input_ok i) \/ exists rs, s_reports s = i :: rs.

Lemma arrives_ok s i : sys_inv s -> arrives s i -> input_ok i.
Proof.
  intros Hs [[_ H]|[rs E]]; [done|]. pose proof (si_reports _ Hs) as H. rewrite E in H.
  by apply Forall_cons in H as [H _].
Qed.

Lemma arrives_served s i :
  sys_inv s -> arrives s i -> exists w' ns, served i (s_world s) w' ns.
Proof.
  intros Hs Ha. pose proof (arrives_ok s i Hs Ha) as Hi.
  destruct (input_spec (cfg_of (s_world s)) i (view (s_world s))) as [[v n0]|] eqn:E.
  - destruct (serve i (s_world s) v n0 (si_ok _ Hs) Hi E) as (w' & ns & H & _). eauto.
  - exfalso. destruct (crash_cause _ _ _ E) as [-> Hrun].
    destruct Ha as [[? _]|[rs Er]]; [done|].
    pose proof (si_stops _ Hs) as H. unfold pending_stops in H.
    rewrite Er, stop_reports_cons, decide_True in H by done.
    rewrite bool_decide_eq_false_2 in H by (intros E1; by rewrite E1 in Hrun). lia.
Qed.

(** C2: in every reachable state, every request of a client and every report
    of the GPS thread is served to the end: the daemon does not block, does not
    run into undefined behaviour, and does not reach the deliberate crash of the
    state machine on a stop report while starting or started. *)
Theorem system_progress (s : system) (i : input) :
  reachable s -> arrives s i -> exists w', handler i (s_world s) = Done (tt, w').
Proof.
  intros Hr Ha. destruct (arrives_served s i (reachable_inv s Hr) Ha) as (w' & ns & H).
  exists w'. apply H.
Qed.

Lemma boot0_booted : booted boot0.
Proof. split; [apply boot0_ok|done]. Qed.

Lemma system_progress_witness :
  reachable (System boot0 [] []) /\ exists w', handler IHalStart boot0 = Done (tt, w').
Proof.
  split; [apply reach_boot, boot0_booted|].
  apply (system_progress (System boot0 [] []) IHalStart);
    [apply reach_boot, boot0_booted|by left].
Defined.

(** The daemon after the HAL started the GPS. *)
Lemma hal_started :
  exists w ks, reachable (System w ks []) /\
    view w = View MNLD_GPS_STATE_STARTING
      (upd_client HAL (fun _ => Client true true false false) clients_init) 0 true false false.
Proof.
  destruct (serve IHalStart boot0 _ _ boot0_ok I eq_refl) as (w & ns & H & Hv).
  exists w. eexists. split; [|exact Hv].
  eapply reach_step; [apply reach_boot, boot0_booted|].
  by apply (step_request IHalStart); [done..|apply H].
Qed.

(** C6: the watchdogs.  In every reachable state the stop timer is armed
    exactly while the GPS is stopping, the start timer at most while it is
    starting, and a stop is outstanding at most once and only while stopping. *)
Theorem reachable_watchdogs (s : system) :
  reachable s ->
  let w := s_world s in
  armed (m_sys w) (timer_stop (m_gps w)) =
    bool_decide (gps_state (m_gps w) = MNLD_GPS_STATE_STOPPING) /\
  (armed (m_sys w) (timer_start (m_gps w)) = true ->
   gps_state (m_gps w) = MNLD_GPS_STATE_STARTING) /\
  (pending_stops s <= 1)%nat /\
  ((0 < pending_stops s)%nat -> gps_state (m_gps w) = MNLD_GPS_STATE_STOPPING).
Proof.
  intros Hr w. destruct (reachable_inv s Hr) as [_ (_ & [H1 H2] & _) _ Hs _ _]. fold w in Hs, H1, H2.
  split; [exact H1|]. split; [exact H2|]. rewrite (state_of_view w) in Hs.
  case_bool_decide; split; try lia; done.
Qed.

Lemma reachable_watchdogs_witness :
  exists w ks, armed (m_sys w) (timer_stop (m_gps w)) = false /\
    (pending_stops (System w ks []) <= 1)%nat /\ gps_state (m_gps w) = MNLD_GPS_STATE_STARTING.
Proof.
  destruct hal_started as (w & ks & Hr & Hv). exists w, ks.
  destruct (reachable_watchdogs (System w ks []) Hr) as (H1 & _ & H3 & _).
  assert (gps_state (m_gps w) = MNLD_GPS_STATE_STARTING) as E
    by (rewrite <- state_of_view, Hv; reflexivity).
  cbn [s_world] in H1. rewrite E in H1. split; [exact H1|]. split; [exact H3|exact E].
Defined.

(** C5: in every reachable state, the start and stop commands that went to the
    GPS thread alternate, beginning with a start, and the last one is a start
    exactly when the GPS is starting or started; likewise the wake lock was
    requested and released in turn, and is held exactly outside the idle state. *)
Theorem engine_and_wakelock (s : system) :
  reachable s ->
  let w := s_world s in
  toggles false (runs (trace w)) = Some (running (gps_state (m_gps w))) /\
  toggles false (wakes (trace w)) = Some (awake (gps_state (m_gps w))).
Proof. intros Hr w. destruct (reachable_inv s Hr) as [_ _ _ _ H1 H2]. by split. Qed.

Lemma engine_and_wakelock_witness :
  exists w, toggles false (runs (trace w)) = Some true /\ toggles false (wakes (trace w)) = Some true.
Proof.
  destruct hal_started as (w & ks & Hr & Hv). exists w.
  destruct (engine_and_wakelock (System w ks []) Hr) as (H1 & H2). cbn [s_world] in H1, H2.
  rewrite <- state_of_view, Hv in H1, H2. split; [exact H1|exact H2].
Defined.

(** C7: what the clients are owed.  In every reachable state, opening is only
    owed to a client that uses the GPS and closing to one that does not; when
    idle, nobody uses the GPS and nothing is owed; when started, somebody uses
    it, every opening was acknowledged, no deletion of aiding data waits, and a
    reset that the AGPS daemon waits for is under its watchdog. *)
Theorem reachable_settled (s : system) :
  reachable s ->
  let g := m_gps (s_world s) in
  (forall x, need_open_ack (client x (clients g)) = true -> gps_used (client x (clients g)) = true) /\
  (forall x, need_close_ack (client x (clients g)) = true ->
     gps_used (client x (clients g)) = false) /\
  (gps_state g = MNLD_GPS_STATE_IDLE ->
   forall x, gps_used (client x (clients g)) = false /\
     need_open_ack (client x (clients g)) = false /\
     need_close_ack (client x (clients g)) = false) /\
  (gps_state g = MNLD_GPS_STATE_STARTED ->
   (exists x, gps_used (client x (clients g)) = true) /\
   (forall x, need_open_ack (client x (clients g)) = false) /\
   delete_aiding_flag g = 0 /\
   (need_reset_ack (agps (clients g)) = true ->
    armed (m_sys (s_world s)) (timer_reset g) = true)).
Proof.
  intros Hr g. destruct (reachable_inv s Hr) as [_ (Ha & _ & Hs) _ _ _ _].
  unfold settled in Hs. rewrite state_of_view in Hs. fold g in Hs.
  split; [intros x; apply (Ha x)|]. split; [intros x; apply (Ha x)|].
  split; intros Hst; rewrite Hst in Hs.
  - destruct Hs as (He & Ho & Hc & _). intros x.
    split; [by apply (proj1 (all_exit_spec _) He)|]. split; [apply Ho|apply Hc].
  - destruct Hs as (He & Ho & Hd & Hz). split; [|by split].
    change (v_clients (view (s_world s))) with (clients g) in He.
    rewrite <- (negb_involutive (all_exit _)), <- one_exists_all_exit in He.
    apply negb_false_iff in He. unfold one_exists in He. rewrite !orb_true_iff in He.
    destruct He as [[[[[H|H]|H]|H]|H]|H];
      [exists HAL|exists AGPS|exists FLP|exists FLP_TEST|exists AT_CMD|exists FACTORY]; exact H.
Qed.

Lemma reachable_settled_witness :
  exists w, gps_state (m_gps w) = MNLD_GPS_STATE_STARTING /\
    forall x, need_open_ack (client x (clients (m_gps w))) = true ->
      gps_used (client x (clients (m_gps w))) = true.
Proof.
  destruct hal_started as (w & ks & Hr & Hv). exists w.
  destruct (reachable_settled (System w ks []) Hr) as (H1 & _).
  split; [by rewrite <- state_of_view, Hv|exact H1].
Defined.
