(* ===== verification/MnldService.v ===== *)
(** * What the daemon's clients get

    Acknowledgements are delivered once they are owed, a client that opens the
    GPS gets it, and once every client has closed it the daemon comes back to
    idle with every answer given. *)

From stdpp Require Import gmap.
From S2P Require Import Prelude DataCoder LbsUtility Layout Messages Hal2Mnl Mnl2Hal Mnl2Agps.
From S2P Require Import Agps2Mnl FlpInterface MnldState Mnld Kernel MnldFsm MnldSystem.

(** ** Requests by client *)

Definition opener (i : input) : option who :=
  match i with
  | IHalStart => Some HAL | IAgpsOpen _ => Some AGPS | IFlpStart => Some FLP
  | IFlpTestStart => Some FLP_TEST | IAtStart => Some AT_CMD | IFactoryStart => Some FACTORY
  | _ => None
  end.
Definition closer (i : input) : option who :=
  match i with
  | IHalStop => Some HAL | IAgpsClose => Some AGPS | IFlpStop => Some FLP
  | IFlpTestStop => Some FLP_TEST | IAtStop => Some AT_CMD | IFactoryStop => Some FACTORY
  | _ => None
  end.
Definition rebooter (i : input) : option who :=
  match i with
  | IHalReboot => Some HAL | IAgpsReboot => Some AGPS | IFlpReboot => Some FLP
  | _ => None
  end.

(** The messages that acknowledge. *)
Definition open_answer (x : who) (req : Z) : list note :=
  match x with
  | HAL => [to_hal (D_gps_status GPS_STATUS_SESSION_ENGINE_ON);
            to_hal (D_gps_status GPS_STATUS_SESSION_BEGIN); to_agps (A_gps_open req)]
  | AGPS => [to_agps A_open_gps_done]
  | FLP => [to_flp FLPMNL_GPS_OPEN_DONE 0 []; to_agps (A_gps_open req)]
  | _ => []
  end.
Definition close_answer (x : who) : list note :=
  match x with
  | HAL => [to_hal (D_gps_status GPS_STATUS_SESSION_END);
            to_hal (D_gps_status GPS_STATUS_SESSION_ENGINE_OFF); to_agps A_gps_close]
  | AGPS => [to_agps A_close_gps_done]
  | FLP => [to_flp FLPMNL_GPS_STOP_DONE 0 []]
  | _ => []
  end.

(** [l] occurs in [ns], in one piece. *)
Definition within (l ns : list note) : Prop := exists a b, ns = a ++ l ++ b.

Lemma within_nil ns : within [] ns.
Proof. by exists [], ns. Qed.
Lemma within_self l : within l l.
Proof. exists [], []. by rewrite app_nil_r. Qed.
Lemma within_l l n1 n2 : within l n1 -> within l (n1 ++ n2).
Proof. intros (a & b & ->). exists a, (b ++ n2). by rewrite <- !app_assoc. Qed.
Lemma within_r l n1 n2 : within l n2 -> within l (n1 ++ n2).
Proof. intros (a & b & ->). exists (n1 ++ a), b. by rewrite <- !app_assoc. Qed.
Lemma within_cons l n ns : within l ns -> within l (n :: ns).
Proof. apply (within_r l [n] ns). Qed.

Create HintDb within.
#[export] Hint Resolve within_nil within_self within_l within_r within_cons : within.

Lemma open_notes_answer x cs req :
  need_open_ack (client x cs) = true -> within (open_answer x req) (open_notes cs req).
Proof.
  unfold open_notes. destruct x; cbn [client open_answer]; intros E; rewrite ?E; auto 6 with within.
Qed.

Lemma close_notes_answer x cs :
  need_close_ack (client x cs) = true -> within (close_answer x) (close_notes cs).
Proof.
  unfold close_notes. destruct x; cbn [client close_answer]; intros E; rewrite ?E; auto 6 with within.
Qed.

(** ** Debts *)

(** An update of the clients that keeps what [x] is owed. *)
Lemma open_ack_closed x cs : need_open_ack (client x (closed cs)) = need_open_ack (client x cs).
Proof. by clients_cbn. Qed.
Lemma close_ack_opened x cs : need_close_ack (client x (opened cs)) = need_close_ack (client x cs).
Proof. by clients_cbn. Qed.
Lemma open_ack_reset x cs : need_open_ack (client x (reset_acked cs)) = need_open_ack (client x cs).
Proof. by clients_cbn. Qed.
Lemma close_ack_reset x cs : need_close_ack (client x (reset_acked cs)) = need_close_ack (client x cs).
Proof. by clients_cbn. Qed.

Definition owes_open (x : who) (v : fsm_view) : Prop :=
  need_open_ack (client x (v_clients v)) = true.
Definition owes_close (x : who) (v : fsm_view) : Prop :=
  need_close_ack (client x (v_clients v)) = true.

Ltac by_cases_of_fsm E v event :=
  unfold fsm_spec in E; destruct (v_state v), event; try discriminate E;
  try match type of E with context [all_exit ?cs] => destruct (all_exit cs) end;
  apply some_pair in E as [-> ->].

Lemma fsm_open_debt c event d v v' ns x :
  fsm_spec c event d v = Some (v', ns) -> owes_open x v ->
  owes_open x v' \/ exists req, within (open_answer x req) ns.
Proof.
  intros E Ho. by_cases_of_fsm E v event; unfold owes_open in *.
  all: try (left; exact Ho).
  all: try (left; cbn [stopped_view starting_view stopping_view on_state on_clients set_armed
    v_clients]; rewrite ?open_ack_closed, ?open_ack_reset; exact Ho).
  all: right; eexists; unfold started_notes;
    first [apply within_l, within_cons|apply within_cons|idtac];
    apply within_l, open_notes_answer; exact Ho.
Qed.

Lemma fsm_close_debt c event d v v' ns x :
  fsm_spec c event d v = Some (v', ns) -> owes_close x v ->
  owes_close x v' \/ within (close_answer x) ns.
Proof.
  intros E Ho. by_cases_of_fsm E v event; unfold owes_close in *.
  all: try (left; exact Ho).
  all: try (left; cbn [started_view deleted starting_view stopping_view on_state on_clients set_armed
    v_clients]; rewrite ?close_ack_opened, ?close_ack_reset; exact Ho).
  all: right; unfold stopped_notes;
    first [apply within_l, within_cons|idtac];
    apply within_l, close_notes_answer; exact Ho.
Qed.

(** Reads what a client is owed after a callback changed the clients. *)
Ltac debt_cbn :=
  unfold owes_open, owes_close, opening, closing, forgetting, adding, users_cleared in *;
  cbn [stopping_view on_state on_clients on_delete v_clients set_armed] in *; clients_cbn;
  cbn [need_open_ack need_close_ack client_init]; intuition congruence.

Lemma input_open_debt c i v v' ns x :
  input_spec c i v = Some (v', ns) ->
  owes_open x v \/ opener i = Some x -> closer i <> Some x -> rebooter i <> Some x ->
  owes_open x v' \/ exists req, within (open_answer x req) ns.
Proof.
  intros E Ho Hc Hr. destruct (decide (open_answer x 0 = [])) as [Hx|Hx].
  { right. exists 0. rewrite Hx. apply within_nil. }
  assert (x <> FLP_TEST /\ x <> AT_CMD /\ x <> FACTORY) as (? & ? & ?) by (by destruct x).
  destruct i; cbn [input_spec opener closer rebooter] in *; lazymatch type of E with
  | noting _ ?r = _ =>
      destruct r as [[v1 n1]|] eqn:E1; [|done]; apply some_pair in E as [-> ->];
      destruct (fsm_open_debt _ _ _ _ _ _ x E1) as [?|[req ?]];
        [debt_cbn|by left|right; exists req; auto with within]
  | (if _ then _ else _) = _ =>
      destruct (_ =? _); [apply some_pair in E as [-> ->]; left; by destruct Ho|];
      apply (fsm_open_debt _ _ _ _ _ _ x E); debt_cbn
  | Some _ = _ => apply some_pair in E as [-> ->]; left; debt_cbn
  | match _ with _ => _ end = _ =>
      destruct (v_state v); apply some_pair in E as [-> ->]; left; debt_cbn
  | _ => apply (fsm_open_debt _ _ _ _ _ _ x E); debt_cbn
  end.
Qed.

Lemma input_close_debt c i v v' ns x :
  input_spec c i v = Some (v', ns) ->
  owes_close x v \/ closer i = Some x -> opener i <> Some x -> rebooter i <> Some x ->
  owes_close x v' \/ within (close_answer x) ns.
Proof.
  intros E Ho Hc Hr. destruct (decide (open_answer x 0 = [])) as [Hx|Hx].
  { right. destruct x; try done; apply within_nil. }
  assert (x <> FLP_TEST /\ x <> AT_CMD /\ x <> FACTORY) as (? & ? & ?) by (by destruct x).
  destruct i; cbn [input_spec opener closer rebooter] in *; lazymatch type of E with
  | noting _ ?r = _ =>
      destruct r as [[v1 n1]|] eqn:E1; [|done]; apply some_pair in E as [-> ->];
      destruct (fsm_close_debt _ _ _ _ _ _ x E1) as [?|?];
        [debt_cbn|by left|right; auto with within]
  | (if _ then _ else _) = _ =>
      destruct (_ =? _); [apply some_pair in E as [-> ->]; left; by destruct Ho|];
      apply (fsm_close_debt _ _ _ _ _ _ x E); debt_cbn
  | Some _ = _ => apply some_pair in E as [-> ->]; left; debt_cbn
  | match _ with _ => _ end = _ =>
      destruct (v_state v); apply some_pair in E as [-> ->]; left; debt_cbn
  | _ => apply (fsm_close_debt _ _ _ _ _ _ x E); debt_cbn
  end.
Qed.

(** The state machine itself never changes who uses the GPS. *)
Lemma fsm_used c event d v v' ns x :
  fsm_spec c event d v = Some (v', ns) ->
  gps_used (client x (v_clients v')) = gps_used (client x (v_clients v)).
Proof.
  intros E. by_cases_of_fsm E v event;
    cbn [stopped_view started_view deleted starting_view stopping_view on_state on_clients set_armed
    v_clients]; by clients_cbn.
Qed.

(** ** Acknowledgements *)

Lemma served_of_handler s i w' :
  reachable s -> arrives s i -> handler i (s_world s) = Done (tt, w') ->
  exists ns, served i (s_world s) w' ns /\ sent (s_world s) w' = ns.
Proof.
  intros Hr Ha Hd. pose proof (reachable_inv s Hr) as Hs.
  destruct (served_unique i (s_world s) w' (si_ok _ Hs) (arrives_ok s i Hs Ha) Hd) as (ns & H).
  exists ns. split; [done|]. apply sent_app, H.
Qed.

(** C8: an acknowledgement of opening is never lost.  When one is owed to a
    client, or the client opens the GPS now, then after the input it is still
    owed or it was sent in one piece (for the HAL: engine on, session begin, and
    the AGPS daemon told; for the AGPS daemon and FLP their open-done messages),
    unless that client closed the GPS or rebooted. *)
Theorem open_acks_kept (s : system) (i : input) (w' : mnld) (x : who) :
  reachable s -> arrives s i -> handler i (s_world s) = Done (tt, w') ->
  need_open_ack (client x (clients (m_gps (s_world s)))) = true \/ opener i = Some x ->
  closer i <> Some x -> rebooter i <> Some x ->
  need_open_ack (client x (clients (m_gps w'))) = true \/
  exists req, within (open_answer x req) (sent (s_world s) w').
Proof.
  intros Hr Ha Hd Ho Hc Hb. destruct (served_of_handler s i w' Hr Ha Hd) as (ns & H & ->).
  destruct (sv_spec _ _ _ _ H) as (pre & n0 & _ & -> & E).
  destruct (input_open_debt _ _ _ _ _ x E Ho Hc Hb) as [?|[req ?]]; [by left|].
  right. exists req. auto with within.
Qed.

Lemma open_acks_kept_witness :
  exists w', handler IHalStart boot0 = Done (tt, w') /\
    (need_open_ack (hal (clients (m_gps w'))) = true \/
     exists req, within (open_answer HAL req) (sent boot0 w')).
Proof.
  assert (reachable (System boot0 [] [])) as Hr by apply reach_boot, boot0_booted.
  destruct (serve IHalStart boot0 _ _ boot0_ok I eq_refl) as (w' & ns & H & _).
  exists w'. split; [apply H|].
  apply (open_acks_kept (System boot0 [] []) IHalStart w' HAL Hr); [by left|apply H|by right|done|done].
Defined.

(** Likewise for closing: an owed acknowledgement of closing stays owed
    until it is sent in one piece, unless that client opened the GPS again or
    rebooted. *)
Theorem close_acks_kept (s : system) (i : input) (w' : mnld) (x : who) :
  reachable s -> arrives s i -> handler i (s_world s) = Done (tt, w') ->
  need_close_ack (client x (clients (m_gps (s_world s)))) = true \/ closer i = Some x ->
  opener i <> Some x -> rebooter i <> Some x ->
  need_close_ack (client x (clients (m_gps w'))) = true \/
  within (close_answer x) (sent (s_world s) w').
Proof.
  intros Hr Ha Hd Ho Hc Hb. destruct (served_of_handler s i w' Hr Ha Hd) as (ns & H & ->).
  destruct (sv_spec _ _ _ _ H) as (pre & n0 & _ & -> & E).
  destruct (input_close_debt _ _ _ _ _ x E Ho Hc Hb) as [?|?]; [by left|].
  right. auto with within.
Qed.

Lemma close_acks_kept_witness :
  exists w', handler IAgpsClose boot0 = Done (tt, w') /\
    (need_close_ack (agps (clients (m_gps w'))) = true \/
     within (close_answer AGPS) (sent boot0 w')).
Proof.
  assert (reachable (System boot0 [] [])) as Hr by apply reach_boot, boot0_booted.
  destruct (serve IAgpsClose boot0 _ _ boot0_ok I eq_refl) as (w' & ns & H & _).
  exists w'. split; [apply H|].
  apply (close_acks_kept (System boot0 [] []) IAgpsClose w' AGPS Hr); [by left|apply H|by right|done|done].
Defined.

(** ** Sequences of inputs *)

Fixpoint run_inputs (il : list input) : prog mnld unit :=
  match il with
  | [] => ret tt
  | i :: il' => handler i ;; run_inputs il'
  end.

(** What holds of the main thread's world between two inputs. *)
Record world_inv (w : mnld) : Prop := {
  wi_ok : mnld_ok w;
  wi_view : view_inv (view w);
  wi_runs : toggles false (runs (trace w)) = Some (running (v_state (view w)));
  wi_wakes : toggles false (wakes (trace w)) = Some (awake (v_state (view w)))
}.

Lemma reachable_world s : reachable s -> world_inv (s_world s).
Proof. intros Hr. by destruct (reachable_inv s Hr). Qed.

Lemma served_world i w w' ns : served i w w' ns -> world_inv w -> world_inv w'.
Proof.
  intros H [A B C D]. destruct (served_toggles _ _ _ _ H C D).
  split; [apply H|by eapply served_view_inv|done|done].
Qed.

(** The inputs were served one after the other. *)
Inductive ran : list input -> mnld -> mnld -> list note -> Prop :=
| ran_nil w : ran [] w w []
| ran_cons i il w w1 w' n1 n2 :
    served i w w1 n1 -> ran il w1 w' n2 -> ran (i :: il) w w' (n1 ++ n2).

Lemma ran_done il w w' ns : ran il w w' ns -> run_inputs il w = Done (tt, w').
Proof.
  induction 1 as [|i il w w1 w' n1 n2 H _ IH]; [done|]. cbn [run_inputs].
  by rewrite (bind_done _ _ _ _ _ (sv_done _ _ _ _ H)).
Qed.

Lemma ran_world il w w' ns : ran il w w' ns -> world_inv w -> world_inv w'.
Proof. induction 1 as [|i il w w1 w' n1 n2 H _ IH]; [done|]. intros Hw. by eapply IH, served_world. Qed.

Lemma ran_trace il w w' ns : ran il w w' ns -> trace w' = trace w ++ ns.
Proof.
  induction 1 as [|i il w w1 w' n1 n2 H _ IH]; [by rewrite app_nil_r|].
  by rewrite IH, (sv_trace _ _ _ _ H), app_assoc.
Qed.

Lemma ran_app l1 l2 w w1 w' n1 n2 :
  ran l1 w w1 n1 -> ran l2 w1 w' n2 -> ran (l1 ++ l2) w w' (n1 ++ n2).
Proof.
  induction 1 as [|i il w w1 w2 m1 m2 H _ IH]; intros H2; [done|].
  cbn [app]. rewrite <- app_assoc. econstructor; [exact H|]. by apply IH.
Qed.

Lemma ran_one i w w' ns : served i w w' ns -> ran [i] w w' ns.
Proof. intros H. rewrite <- (app_nil_r ns). econstructor; [exact H|constructor]. Qed.

(** Anything but a stop report is always served. *)
Lemma serve_any i w :
  world_inv w -> input_ok i -> i <> IStopDone -> exists w' ns, served i w w' ns.
Proof.
  intros Hw Hi Hne. destruct (input_spec (cfg_of w) i (view w)) as [[v n0]|] eqn:E.
  - destruct (serve i w v n0 (wi_ok _ Hw) Hi E) as (w' & ns & H & _). eauto.
  - by destruct (crash_cause _ _ _ E).
Qed.

Lemma run_any il w :
  world_inv w -> Forall (fun i => input_ok i /\ i <> IStopDone) il -> exists w' ns, ran il w w' ns.
Proof.
  revert w. induction il as [|i il IH]; intros w Hw Hf; [eauto using ran_nil|].
  apply Forall_cons in Hf as [[Hi Hne] Hf].
  destruct (serve_any i w Hw Hi Hne) as (w1 & n1 & H1).
  destruct (IH w1 (served_world _ _ _ _ H1 Hw) Hf) as (w' & n2 & H2).
  exists w', (n1 ++ n2). by econstructor.
Qed.

(** ** Who uses the GPS *)

Ltac used_cbn :=
  unfold opening, closing, forgetting, adding, users_cleared in *;
  cbn [stopping_view on_state on_clients on_delete v_clients set_armed] in *; clients_cbn;
  cbn [gps_used client_init]; intuition congruence.

Lemma input_used c i v v' ns x :
  input_spec c i v = Some (v', ns) ->
  (opener i = Some x -> gps_used (client x (v_clients v')) = true) /\
  (opener i <> Some x -> gps_used (client x (v_clients v)) = false \/ closer i = Some x ->
   gps_used (client x (v_clients v')) = false).
Proof.
  intros E.
  destruct i; cbn [input_spec opener closer] in *; lazymatch type of E with
  | noting _ ?r = _ =>
      destruct r as [[v1 n1]|] eqn:E1; [|done]; apply some_pair in E as [-> ->];
      rewrite (fsm_used _ _ _ _ _ _ x E1); used_cbn
  | (if _ then _ else _) = _ =>
      destruct (_ =? _); [apply some_pair in E as [-> ->]; intuition congruence|];
      rewrite (fsm_used _ _ _ _ _ _ x E); used_cbn
  | Some _ = _ => apply some_pair in E as [-> ->]; used_cbn
  | match _ with _ => _ end = _ =>
      destruct (v_state v); apply some_pair in E as [-> ->]; used_cbn
  | _ => rewrite (fsm_used _ _ _ _ _ _ x E); used_cbn
  end.
Qed.

Lemma served_spec i w w' ns :
  served i w w' ns -> exists n0, input_spec (cfg_of w) i (view w) = Some (view w', n0).
Proof. intros H. destruct (sv_spec _ _ _ _ H) as (pre & n0 & _ & _ & E). eauto. Qed.

Lemma ran_unused il w w' ns x :
  ran il w w' ns -> Forall (fun i => opener i <> Some x) il ->
  gps_used (client x (v_clients (view w))) = false \/ Exists (fun i => closer i = Some x) il ->
  gps_used (client x (v_clients (view w'))) = false.
Proof.
  induction 1 as [w|i il w w1 w' n1 n2 H _ IH]; intros Hf Hu.
  - destruct Hu as [?|Hu]; [done|]. by apply Exists_nil in Hu.
  - apply Forall_cons in Hf as [Hi Hf]. destruct (served_spec _ _ _ _ H) as [n0 E].
    apply IH; [done|]. destruct (input_used _ _ _ _ _ x E) as [_ Hx].
    destruct Hu as [Hu|[Hu|Hu]%Exists_cons]; [left; apply Hx; auto..|by right].
Qed.

(** A debt over a sequence of inputs. *)
Lemma ran_close_debt il w w' ns x :
  ran il w w' ns -> Forall (fun i => opener i <> Some x /\ rebooter i <> Some x) il ->
  owes_close x (view w) \/ Exists (fun i => closer i = Some x) il ->
  owes_close x (view w') \/ within (close_answer x) ns.
Proof.
  induction 1 as [w|i il w w1 w' n1 n2 H _ IH]; intros Hf Ho.
  - destruct Ho as [?|Ho]; [by left|]. by apply Exists_nil in Ho.
  - apply Forall_cons in Hf as [[Hi Hb] Hf].
    destruct (sv_spec _ _ _ _ H) as (pre & n0 & _ & -> & E).
    assert (owes_close x (view w1) \/ within (close_answer x) n0 \/
            Exists (fun i => closer i = Some x) il) as [H1|[H1|H1]].
    { destruct Ho as [Ho|[Ho|Ho]%Exists_cons]; [| |auto];
        destruct (input_close_debt _ _ _ _ _ x E ltac:(eauto) Hi Hb); auto. }
    + destruct IH; [done|by left|by left|]. right. auto with within.
    + right. auto with within.
    + destruct IH; [done|by right|by left|]. right. auto with within.
Qed.

Lemma served_open_debt i w w' ns x :
  served i w w' ns -> closer i <> Some x -> rebooter i <> Some x ->
  owes_open x (view w) \/ opener i = Some x ->
  owes_open x (view w') \/ exists req, within (open_answer x req) ns.
Proof.
  intros H Hc Hb Ho. destruct (sv_spec _ _ _ _ H) as (pre & n0 & _ & -> & E).
  destruct (input_open_debt _ _ _ _ _ x E Ho Hc Hb) as [?|[req ?]]; [by left|].
  right. exists req. auto with within.
Qed.

(** ** Back to idle *)

(** Everybody closes the GPS, and the GPS thread reports. *)
Definition all_close : list input :=
  [IHalStop; IAgpsClose; IFlpStop; IFlpTestStop; IAtStop; IFactoryStop].

Lemma start_done_exit c req v v' ns :
  all_exit (v_clients v) = true -> view_inv v -> input_spec c (IStartDone req) v = Some (v', ns) ->
  all_exit (v_clients v') = true /\
  (v_state v' = MNLD_GPS_STATE_IDLE \/ v_state v' = MNLD_GPS_STATE_STOPPING).
Proof.
  intros He (_ & _ & Hs) E. cbn [input_spec] in E. split.
  - apply all_exit_spec. intros x. rewrite (fsm_used _ _ _ _ _ _ x E). by apply all_exit_spec.
  - unfold fsm_spec, settled in *. destruct (v_state v) eqn:Est.
    + apply some_pair in E as [-> _]. by left.
    + rewrite He in E. apply some_pair in E as [-> _]. by right.
    + destruct Hs. congruence.
    + apply some_pair in E as [-> _]. by right.
Qed.

Lemma stop_done_exit c v :
  all_exit (v_clients v) = true ->
  v_state v = MNLD_GPS_STATE_IDLE \/ v_state v = MNLD_GPS_STATE_STOPPING ->
  exists v' ns, input_spec c IStopDone v = Some (v', ns) /\ v_state v' = MNLD_GPS_STATE_IDLE.
Proof.
  intros He Hst. cbn [input_spec]. unfold fsm_spec. destruct Hst as [Est|Est]; rewrite Est.
  - by eexists _, _.
  - rewrite He. by eexists _, _.
Qed.

Lemma all_close_exit w w' ns : ran all_close w w' ns -> all_exit (v_clients (view w')) = true.
Proof.
  intros H. apply all_exit_spec. intros x. eapply ran_unused; [exact H| |].
  - unfold all_close. repeat (apply Forall_cons; split; [done|]). by apply Forall_nil.
  - right. unfold all_close. destruct x; repeat (first [by apply Exists_cons_hd|apply Exists_cons_tl]).
Qed.

Lemma shutdown_runs w req :
  world_inv w -> is_int req = true ->
  exists w' ns, ran (all_close ++ [IStartDone req; IStopDone]) w w' ns /\
    v_state (view w') = MNLD_GPS_STATE_IDLE.
Proof.
  intros Hw Hq. destruct (run_any all_close w Hw) as (w1 & n1 & H1).
  { unfold all_close. repeat (apply Forall_cons; split; [done|]). by apply Forall_nil. }
  pose proof (ran_world _ _ _ _ H1 Hw) as Hw1. pose proof (all_close_exit _ _ _ H1) as He.
  destruct (serve_any (IStartDone req) w1 Hw1 Hq ltac:(done)) as (w2 & n2 & H2).
  destruct (served_spec _ _ _ _ H2) as [n0 E2].
  destruct (start_done_exit _ _ _ _ _ He (wi_view _ Hw1) E2) as [He2 Hst2].
  pose proof (served_world _ _ _ _ H2 Hw1) as Hw2.
  destruct (stop_done_exit (cfg_of w2) (view w2) He2 Hst2) as (v3 & n3 & E3 & Hst3).
  destruct (serve IStopDone w2 v3 n3 (wi_ok _ Hw2) I E3) as (w3 & n4 & H3 & Hv3).
  exists w3, (n1 ++ n2 ++ n4). split; [|by rewrite Hv3].
  eapply ran_app; [exact H1|]. econstructor; [exact H2|by apply ran_one].
Qed.

(** C3: back to idle.  From every reachable state, when all clients close the
    GPS and the GPS thread then reports, the daemon ends idle: nobody uses the
    GPS, every client that expects an answer to its closing was sent it, the last
    command to the engine was a stop, and the wake lock is released. *)
Theorem shutdown_completes (s : system) (req : Z) :
  reachable s -> is_int req = true ->
  exists w', run_inputs (all_close ++ [IStartDone req; IStopDone]) (s_world s) = Done (tt, w') /\
    gps_state (m_gps w') = MNLD_GPS_STATE_IDLE /\
    (forall x, gps_used (client x (clients (m_gps w'))) = false /\
               need_close_ack (client x (clients (m_gps w'))) = false /\
               within (close_answer x) (sent (s_world s) w')) /\
    toggles false (runs (trace w')) = Some false /\
    toggles false (wakes (trace w')) = Some false.
Proof.
  intros Hr Hq. pose proof (reachable_world s Hr) as Hw.
  destruct (shutdown_runs (s_world s) req Hw Hq) as (w' & ns & H & Hst).
  destruct (ran_world _ _ _ _ H Hw) as [_ (_ & _ & Hs) H1 H2].
  exists w'. split; [by eapply ran_done|]. split; [exact Hst|].
  rewrite Hst in H1, H2. split; [|by split].
  unfold settled in Hs. rewrite Hst in Hs. destruct Hs as (He & _ & Hc & _).
  intros x. split; [by apply (proj1 (all_exit_spec _) He)|]. split; [apply Hc|].
  rewrite (sent_app _ _ ns) by (by eapply ran_trace).
  destruct (ran_close_debt _ _ _ _ x H) as [Ho|?]; [| |unfold owes_close in Ho; by rewrite (Hc x) in Ho|done].
  - unfold all_close. cbn [app]. repeat (apply Forall_cons; split; [done|]). by apply Forall_nil.
  - right. unfold all_close. cbn [app].
    destruct x; repeat (first [by apply Exists_cons_hd|apply Exists_cons_tl]).
Qed.

Lemma shutdown_completes_witness :
  exists w w', gps_state (m_gps w) = MNLD_GPS_STATE_STARTING /\
    run_inputs (all_close ++ [IStartDone 1; IStopDone]) w = Done (tt, w') /\
    gps_state (m_gps w') = MNLD_GPS_STATE_IDLE.
Proof.
  destruct hal_started as (w & ks & Hr & Hv).
  destruct (shutdown_completes (System w ks []) 1 Hr eq_refl) as (w' & H1 & H2 & _).
  exists w, w'. split; [by rewrite <- state_of_view, Hv|]. split; [exact H1|exact H2].
Defined.

(** ** Getting the GPS *)

Lemma open_state c i x v v' ns :
  input_spec c i v = Some (v', ns) -> opener i = Some x ->
  v_state v' = match v_state v with
               | MNLD_GPS_STATE_IDLE => MNLD_GPS_STATE_STARTING
               | st => st
               end.
Proof.
  intros E Ho. destruct i; try done; cbn [input_spec] in E; unfold fsm_spec, opening in E;
    cbn [on_clients v_state] in E; destruct (v_state v) eqn:Est; apply some_pair in E as [-> _];
    done.
Qed.

Lemma stop_done_restarts c v :
  all_exit (v_clients v) = false -> v_state v = MNLD_GPS_STATE_STOPPING ->
  exists v' ns, input_spec c IStopDone v = Some (v', ns) /\ v_state v' = MNLD_GPS_STATE_STARTING.
Proof.
  intros He Est. cbn [input_spec]. unfold fsm_spec. rewrite Est, He. by eexists _, _.
Qed.

Lemma start_done_starts c req v v' ns :
  all_exit (v_clients v) = false -> running (v_state v) = true ->
  input_spec c (IStartDone req) v = Some (v', ns) -> v_state v' = MNLD_GPS_STATE_STARTED.
Proof.
  intros He Hrun. cbn [input_spec]. unfold fsm_spec. destruct (v_state v) eqn:Est; try done.
  - rewrite He. intros E. by apply some_pair in E as [-> _].
  - intros E. by apply some_pair in E as [-> _].
Qed.

(** The reports a client waits for after it opened the GPS in a state: the end
    of a stop that is under way, and the start. *)
Definition reports_after (st : mnld_gps_state) (req : Z) : list input :=
  match st with
  | MNLD_GPS_STATE_STOPPING => [IStopDone; IStartDone req]
  | _ => [IStartDone req]
  end.

Lemma restart_runs w x :
  world_inv w -> gps_used (client x (v_clients (view w))) = true ->
  v_state (view w) = MNLD_GPS_STATE_STOPPING ->
  exists w' ns, ran [IStopDone] w w' ns /\ v_state (view w') = MNLD_GPS_STATE_STARTING /\
    gps_used (client x (v_clients (view w'))) = true /\
    (owes_open x (view w) -> owes_open x (view w') \/ exists req, within (open_answer x req) ns).
Proof.
  intros Hw Hu Hst.
  destruct (stop_done_restarts (cfg_of w) (view w) (all_exit_false x _ Hu) Hst) as (v & n & E & Hv).
  destruct (serve IStopDone w v n (wi_ok _ Hw) I E) as (w' & ns & H & <-).
  exists w', ns. split; [by apply ran_one|]. split; [exact Hv|]. split.
  - by rewrite (fsm_used _ _ _ _ _ _ x E).
  - intros Ho. eapply served_open_debt; [exact H|done|done|by left].
Qed.

Lemma start_runs w x req :
  world_inv w -> is_int req = true -> gps_used (client x (v_clients (view w))) = true ->
  running (v_state (view w)) = true ->
  exists w' ns, ran [IStartDone req] w w' ns /\ v_state (view w') = MNLD_GPS_STATE_STARTED /\
    gps_used (client x (v_clients (view w'))) = true /\
    (owes_open x (view w) -> exists req, within (open_answer x req) ns).
Proof.
  intros Hw Hq Hu Hrun. destruct (serve_any (IStartDone req) w Hw Hq ltac:(done)) as (w' & ns & H).
  destruct (served_spec _ _ _ _ H) as [n0 E].
  pose proof (start_done_starts _ _ _ _ _ (all_exit_false x _ Hu) Hrun E) as Hst.
  exists w', ns. split; [by apply ran_one|]. split; [exact Hst|]. split.
  - by rewrite (fsm_used _ _ _ _ _ _ x E).
  - intros Ho. destruct (served_open_debt _ _ _ _ x H) as [Ho'|?]; [done|done|by left| |done].
    destruct (wi_view _ (served_world _ _ _ _ H Hw)) as (_ & _ & Hs).
    unfold settled in Hs. rewrite Hst in Hs. destruct Hs as (_ & Hn & _).
    unfold owes_open in Ho'. by rewrite (Hn x) in Ho'.
Qed.

Lemma reports_run w x req :
  world_inv w -> is_int req = true -> gps_used (client x (v_clients (view w))) = true ->
  v_state (view w) <> MNLD_GPS_STATE_IDLE ->
  exists w' ns, ran (reports_after (v_state (view w)) req) w w' ns /\
    v_state (view w') = MNLD_GPS_STATE_STARTED /\
    gps_used (client x (v_clients (view w'))) = true /\
    (owes_open x (view w) -> exists req, within (open_answer x req) ns).
Proof.
  intros Hw Hq Hu Hne. destruct (v_state (view w)) eqn:Est; [done| | |].
  - apply start_runs; [done..|by rewrite Est].
  - apply start_runs; [done..|by rewrite Est].
  - destruct (restart_runs w x Hw Hu Est) as (w1 & n1 & H1 & Hs1 & Hu1 & Ho1).
    pose proof (ran_world _ _ _ _ H1 Hw) as Hw1.
    destruct (start_runs w1 x req Hw1 Hq Hu1) as (w2 & n2 & H2 & Hs2 & Hu2 & Ho2);
      [by rewrite Hs1|].
    exists w2, (n1 ++ n2). split; [by eapply (ran_app [_] [_])|]. split; [done|]. split; [done|].
    intros Ho. destruct (Ho1 Ho) as [Ho'|[r ?]]; [destruct (Ho2 Ho') as [r ?]|];
      exists r; auto with within.
Qed.

(** C4: getting the GPS.  In every reachable state, when a client opens the GPS
    and the GPS thread then reports (first the end of a stop that was under way,
    then the start), the daemon ends started, the client uses the GPS, and it
    was sent its acknowledgement. *)
Theorem open_completes (s : system) (i : input) (x : who) (req : Z) :
  reachable s -> opener i = Some x -> is_int req = true ->
  exists w', run_inputs (i :: reports_after (gps_state (m_gps (s_world s))) req) (s_world s)
             = Done (tt, w') /\
    gps_state (m_gps w') = MNLD_GPS_STATE_STARTED /\
    gps_used (client x (clients (m_gps w'))) = true /\
    exists req', within (open_answer x req') (sent (s_world s) w').
Proof.
  intros Hr Ho Hq. pose proof (reachable_world s Hr) as Hw.
  destruct (serve_any i (s_world s) Hw) as (w1 & n1 & H1); [by destruct i..|].
  destruct (served_spec _ _ _ _ H1) as [n0 E1].
  pose proof (open_state _ _ _ _ _ _ E1 Ho) as Hst.
  destruct (input_used _ _ _ _ _ x E1) as [Hu _].
  pose proof (served_world _ _ _ _ H1 Hw) as Hw1.
  assert (closer i <> Some x /\ rebooter i <> Some x) as [Hc Hb] by (by destruct i).
  assert (reports_after (v_state (view w1)) req =
          reports_after (gps_state (m_gps (s_world s))) req) as Hrep
    by (rewrite Hst, state_of_view; by destruct (gps_state _)).
  destruct (reports_run w1 x req Hw1 Hq (Hu Ho)) as (w2 & n2 & H2 & Hs2 & Hu2 & Ho2).
  { rewrite Hst. by destruct (v_state (view (s_world s))). }
  rewrite Hrep in H2. exists w2.
  pose proof (ran_cons _ _ _ _ _ _ _ H1 H2) as H12.
  split; [by eapply ran_done|]. split; [exact Hs2|]. split; [exact Hu2|].
  rewrite (sent_app _ _ (n1 ++ n2)) by (by eapply ran_trace).
  destruct (served_open_debt _ _ _ _ x H1 Hc Hb) as [Ho'|[r ?]]; [by right| |].
  - destruct (Ho2 Ho') as [r ?]. exists r. auto with within.
  - exists r. auto with within.
Qed.

Lemma open_completes_witness :
  exists w', run_inputs [IHalStart; IStartDone 1] boot0 = Done (tt, w') /\
    gps_state (m_gps w') = MNLD_GPS_STATE_STARTED.
Proof.
  destruct (open_completes (System boot0 [] []) IHalStart HAL 1) as (w' & H1 & H2 & _);
    [apply reach_boot, boot0_booted|reflexivity|reflexivity|].
  exists w'. split; [exact H1|exact H2].
Defined.

(** ** A late answer *)

(** The GPS status in a datagram to the HAL: put as an object, after its size. *)
Definition status_of (n : note) : option Z :=
  match n with
  | NSend path msg =>
      if String.eqb path MTK_MNL2HAL && (le_val (take 4 (drop 4 msg)) =? MNL2HAL_GPS_STATUS)
      then Some (le_val (take 4 (drop 12 msg))) else None
  | _ => None
  end.
Definition statuses (ns : list note) : list Z := omap status_of ns.

(** [status_of] reads what [mnl2hal_gps_status] sends. *)
Lemma statuses_answers req :
  statuses (open_answer HAL req) = [GPS_STATUS_SESSION_ENGINE_ON; GPS_STATUS_SESSION_BEGIN] /\
  statuses (close_answer HAL) = [GPS_STATUS_SESSION_END; GPS_STATUS_SESSION_ENGINE_OFF].
Proof. split; reflexivity. Qed.

Lemma statuses_app l1 l2 : statuses (l1 ++ l2) = statuses l1 ++ statuses l2.
Proof. apply omap_app. Qed.

Lemma started_statuses c req v :
  need_open_ack (hal (v_clients v)) = false -> statuses (started_notes c req v) = [].
Proof.
  intros H. unfold started_notes, open_notes, reset_notes, delete_notes. rewrite H.
  rewrite !statuses_app.
  destruct (need_open_ack (agps _)), (need_open_ack (flp _)), (need_reset_ack (agps _)), (_ =? 0);
    reflexivity.
Qed.

(** A stop of the HAL while the GPS starts, with another client using it, is
    not answered when the start is reported: the daemon goes to started without
    any session status for the HAL, and the answer to the stop stays owed (until
    some client's later request happens to run the stop handler). *)
Theorem hal_stop_unanswered (w : mnld) (x : who) (req : Z) :
  mnld_ok w -> is_int req = true -> gps_state (m_gps w) = MNLD_GPS_STATE_STARTING ->
  x <> HAL -> gps_used (client x (clients (m_gps w))) = true ->
  exists w', run_inputs [IHalStop; IStartDone req] w = Done (tt, w') /\
    gps_state (m_gps w') = MNLD_GPS_STATE_STARTED /\
    statuses (sent w w') = [] /\
    gps_used (hal (clients (m_gps w'))) = false /\
    need_close_ack (hal (clients (m_gps w'))) = true.
Proof.
  intros Hok Hq Hst Hx Hu. set (v1 := closing HAL true (view w)).
  assert (input_spec (cfg_of w) IHalStop (view w) = Some (v1, [])) as E1.
  { cbn [input_spec]. unfold fsm_spec. change (v_state (closing _ _ _)) with (gps_state (m_gps w)).
    by rewrite Hst. }
  destruct (serve IHalStop w v1 [] Hok I E1) as (w1 & n1 & H1 & Hv1).
  assert (gps_used (client x (v_clients v1)) = true) as Hu1.
  { unfold v1. cbn [closing on_clients v_clients]. by clients_cbn. }
  set (v2 := on_state MNLD_GPS_STATE_STARTED (started_view (set_armed StartTimer false v1))).
  set (n2 := timer_note (c_timer_start (cfg_of w1)) 0 :: started_notes (cfg_of w1) req v1).
  assert (input_spec (cfg_of w1) (IStartDone req) (view w1) = Some (v2, n2)) as E2.
  { cbn [input_spec]. unfold fsm_spec. rewrite Hv1. change (v_state v1) with (gps_state (m_gps w)).
    by rewrite Hst, (all_exit_false x _ Hu1). }
  destruct (serve (IStartDone req) w1 v2 n2 (sv_ok _ _ _ _ H1) Hq E2) as (w2 & m2 & H2 & Hv2).
  assert (clients (m_gps w2) = v_clients v2) as Hc by (by rewrite <- Hv2).
  exists w2. split.
  { eapply ran_done. econstructor; [exact H1|]. by apply ran_one. }
  split; [by rewrite <- state_of_view, Hv2|]. split; [|rewrite Hc; split].
  - rewrite (sent_app _ _ (n1 ++ m2)) by
      (rewrite (sv_trace _ _ _ _ H2), (sv_trace _ _ _ _ H1); by rewrite app_assoc).
    destruct (sv_spec _ _ _ _ H1) as (p1 & k1 & Hp1 & -> & F1).
    destruct (sv_spec _ _ _ _ H2) as (p2 & k2 & Hp2 & -> & F2).
    rewrite E1 in F1. rewrite E2 in F2.
    apply some_pair in F1 as [_ ->]. apply some_pair in F2 as [_ ->].
    rewrite !statuses_app. change (statuses n2) with (statuses (started_notes (cfg_of w1) req v1)).
    rewrite started_statuses by (unfold v1; by destruct (view w) as [? [] ? ? ? ?]).
    by destruct Hp1 as [->| ->], Hp2 as [->| ->].
  - unfold v2, v1. by destruct (view w) as [? [] ? ? ? ?].
  - unfold v2, v1. by destruct (view w) as [? [] ? ? ? ?].
Qed.

Lemma hal_stop_unanswered_witness :
  exists w w', gps_used (agps (clients (m_gps w))) = true /\
    run_inputs [IHalStop; IStartDone 0] w = Done (tt, w') /\
    statuses (sent w w') = [] /\ need_close_ack (hal (clients (m_gps w'))) = true.
Proof.
  destruct (serve (IAgpsOpen 1) boot0 _ _ boot0_ok I eq_refl) as (w & ns & H & Hv).
  destruct (hal_stop_unanswered w AGPS 0) as (w' & H1 & _ & H3 & _ & H5);
    [apply H|reflexivity|by rewrite <- state_of_view, Hv|discriminate|
     change (clients (m_gps w)) with (v_clients (view w)); by rewrite Hv|].
  exists w, w'. split; [|by split].
  change (clients (m_gps w)) with (v_clients (view w)). by rewrite Hv.
Defined.
