(* ===== verification/MnldForward.v ===== *)
(** * Requests that pass through the daemon

    The requests of the HAL that the daemon hands on to the AGPS daemon, from
    the datagram of the HAL to the callback of the AGPS side. *)

From stdpp Require Import gmap.
From S2P Require Import Prelude DataCoder LbsUtility Layout Messages Hal2Mnl Mnl2Hal Mnl2Agps.
From S2P Require Import Agps2Mnl FlpInterface MnldState Mnld Kernel MnldFsm.
Import HalTypes.

(** ** Forwarded requests *)

(** The request of the AGPS protocol that a request of the HAL becomes, when the
    daemon does nothing else with it. *)
Definition forward (m : hal2mnl_msg) : option mnl2agps_msg :=
  match m with
  | H_data_conn_open apn => Some (A_data_conn_open apn)
  | H_data_conn_open_with_apn_ip_type apn ip => Some (A_data_conn_open_ip_type apn ip)
  | H_data_conn_closed => Some A_data_conn_closed
  | H_data_conn_failed => Some A_data_conn_failed
  | H_set_server t h p => Some (A_set_server t h p)
  | H_set_ref_location t a b c d => Some (A_set_ref_loc t a b c d)
  | H_set_id t s => Some (A_set_set_id t s)
  | H_ni_message msg len => Some (A_ni_message msg len)
  | H_ni_respond n u => Some (A_ni_respond n u)
  | H_update_network_availability a p => Some (A_update_network_availability a p)
  | _ => None
  end.

(** The arguments are the same fields in both protocols. *)
Lemma forward_fields m a :
  forward m = Some a -> snd (mnl2agps_fields a) = snd (hal2mnl_fields m).
Proof. by destruct m; intros [= <-]. Qed.

Lemma forward_lens m a :
  forward m = Some a -> hal2mnl_lens_ok m ->
  match a with
  | A_ni_message l len | A_revoke_certificates l len | A_install_certificates _ _ l len =>
      0 <= len <= zlen l
  | _ => True
  end.
Proof. by destruct m; intros [= <-]. Qed.

Lemma forward_equiv m m' a :
  m' ≡ m -> forward m = Some a ->
  exists a', forward m' = Some a' /\ fst (mnl2agps_fields a') = fst (mnl2agps_fields a).
Proof.
  intros [E _]. destruct m; intros [= <-]; destruct m'; try discriminate E; by eexists.
Qed.

Lemma cstr_of_equiv p q : field_ok (FString q) -> p ≡ q -> cstr_of p = cstr_of q.
Proof.
  destruct p as [m|], q as [m'|]; try done. intros _ [->|(s & H & H')]; [done|].
  cbn. rewrite (strlen_holds _ _ H), (strlen_holds _ _ H'). cbn.
  destruct H as (r & -> & _), H' as (r' & -> & _). by rewrite !take_app_length.
Qed.

Lemma field_ok_equiv f g : f ≡ g -> field_ok g -> field_ok f.
Proof.
  destruct f, g; cbn; try done; try (by intros [= ->]).
  destruct p as [m|], p0 as [m'|]; try done. intros [->|(s & H & _)]; [done|].
  rewrite (strlen_holds _ _ H). eauto.
Qed.

Lemma enc_field_equiv f g : f ≡ g -> field_ok g -> enc_field f = enc_field g.
Proof.
  destruct f, g; cbn; try done; try (by intros [= ->]).
  intros E H. by rewrite (cstr_of_equiv _ _ H E).
Qed.

Lemma fields_equiv fs gs :
  Forall2 equiv fs gs -> Forall field_ok gs ->
  Forall field_ok fs /\ enc_fields fs = enc_fields gs.
Proof.
  induction 1 as [|f g fs gs E _ IH]; intros Hg; [done|].
  apply Forall_cons in Hg as [Hg Hgs]. destruct (IH Hgs) as [IH1 IH2].
  split; [apply Forall_cons; split; [by eapply field_ok_equiv|done]|].
  unfold enc_fields in *. cbn. by rewrite IH2, (enc_field_equiv _ _ E Hg).
Qed.

(** Both protocols have a header of the version and the command. *)
Lemma forward_size m a :
  forward m = Some a -> zlen (mnl2agps_bytes a) = zlen (hal2mnl_bytes m).
Proof.
  intros E. pose proof (forward_fields m a E) as H. unfold mnl2agps_bytes, hal2mnl_bytes.
  destruct (mnl2agps_fields a) as [ca la], (hal2mnl_fields m) as [cm lm]. cbn in H. subst.
  by rewrite !length_enc_msg.
Qed.

Lemma forward_call m a :
  forward m = Some a ->
  hal2mnl_call g_hal2mnl_interface m = (discard (mnl2agps_send a) ;; ret 0).
Proof. by destruct m; intros [= <-]. Qed.

(** What the handler passes on is a well-formed request with the same bytes. *)
Lemma forward_received m m' a :
  hal2mnl_ok m -> m' ≡ m -> hal2mnl_lens_ok m' -> forward m = Some a ->
  exists a', forward m' = Some a' /\ mnl2agps_ok a' /\ mnl2agps_bytes a' = mnl2agps_bytes a.
Proof.
  intros [Hok _] Hm Hlens E. destruct (forward_equiv m m' a Hm E) as (a' & E' & Hcmd).
  exists a'. split; [done|]. destruct Hm as [_ Hf].
  rewrite <- (forward_fields _ _ E) in Hok. rewrite <- (forward_fields _ _ E), <- (forward_fields _ _ E') in Hf.
  destruct (fields_equiv _ _ Hf Hok) as [Hok' Henc]. split.
  - split; [done|]. by apply (forward_lens m').
  - unfold mnl2agps_bytes. destruct (mnl2agps_fields a') as [c' l'], (mnl2agps_fields a) as [c l].
    cbn in *. subst. unfold enc_msg. unfold enc_fields in Henc. by rewrite Henc.
Qed.

Lemma dispatch_hal m rest (w : mnld) :
  hal2mnl_ok m -> zlen (hal2mnl_bytes m) <= HAL_MNL_BUFF_SIZE ->
  match m with H_ni_message _ len => len <= 1024 | _ => True end ->
  exists m', m' ≡ m /\ hal2mnl_lens_ok m' /\
    mnld_dispatch (FdHal (RData (hal2mnl_bytes m) :: rest)) w =
    (let* _ := hal2mnl_call g_hal2mnl_interface m' in ret tt) w.
Proof.
  intros Hok Hlen Hni. destruct (hal2mnl_hdlr_shape m Hok Hlen Hni) as (m' & Hm & Hr & Hl).
  exists m'. split; [done|]. split; [done|]. cbn [mnld_dispatch]. unfold bind.
  by rewrite (Hr _ rest g_hal2mnl_interface w).
Qed.

Lemma mnl2agps_ok_of m a : hal2mnl_ok m -> forward m = Some a -> mnl2agps_ok a.
Proof.
  intros [Hok Hl] E. split; [by rewrite (forward_fields _ _ E)|]. by apply (forward_lens m).
Qed.

(** The daemon receives a request to hand on. *)
Section forwarded.
Context (m : hal2mnl_msg) (a : mnl2agps_msg) (w : mnld).
Context (E : forward m = Some a) (Hok : hal2mnl_ok m).
Context (Hni : match m with H_ni_message _ len => len <= 1024 | _ => True end).

Lemma request_passes :
  mnld_ok w -> zlen (hal2mnl_bytes m) <= MNL_AGPS_MAX_BUFF_SIZE ->
  effect (mnld_dispatch (FdHal [RData (hal2mnl_bytes m)])) w (view w) [to_agps a].
Proof.
  intros Hw Hlen. destruct (dispatch_hal m [] w Hok) as (m' & Hm & Hl & Hd);
    [unfold HAL_MNL_BUFF_SIZE, MNL_AGPS_MAX_BUFF_SIZE in *; lia|done|].
  destruct (forward_received m m' a Hok Hm Hl E) as (a' & E' & Hoka & Hb).
  assert (effect (discard (mnl2agps_send a')) w (view w) [to_agps a]) as (w' & Hs & He).
  { unfold to_agps. rewrite <- Hb. apply effect_send; [done|]. apply mnl2agps_plain; [done|].
    by rewrite Hb, (forward_size m a). }
  exists w'. split; [|done]. rewrite Hd, (forward_call m' a' E'). unfold bind at 1 2.
  by rewrite Hs.
Qed.

(** The two protocols differ in size. *)
Lemma request_overruns :
  MNL_AGPS_MAX_BUFF_SIZE < zlen (hal2mnl_bytes m) <= HAL_MNL_BUFF_SIZE ->
  mnld_dispatch (FdHal [RData (hal2mnl_bytes m)]) w = UB.
Proof.
  intros Hlen. destruct (dispatch_hal m [] w Hok) as (m' & Hm & Hl & Hd); [lia|done|].
  destruct (forward_received m m' a Hok Hm Hl E) as (a' & E' & Hoka & Hb).
  rewrite Hd, (forward_call m' a' E'). unfold bind at 1 2, discard, on_sys. cbn [sys_of mnld_has_sys].
  unfold bind at 1. rewrite (mnl2agps_send_shape a' Hoka) by
    (rewrite Hb, (forward_size m a E); unfold HAL_MNL_BUFF_SIZE in Hlen; lia).
  rewrite Hb, (forward_size m a E).
  by replace (_ <=? _) with false by (symmetry; apply Z.leb_gt; lia).
Qed.
End forwarded.


Lemma strlen_replicate n rest : strlen (replicate n 97 ++ 0 :: rest) = Some n.
Proof. induction n as [|n IH]; [done|]. cbn [replicate app strlen]. by rewrite IH. Qed.

(** A long name of an access point: the size of the request, without computing it. *)
Lemma length_long_request n :
  zlen (hal2mnl_bytes (H_data_conn_open (Some (replicate n 97 ++ [0])))) = Z.of_nat n + 14.
Proof.
  unfold hal2mnl_bytes. cbn [hal2mnl_fields]. rewrite length_enc_msg. unfold enc_fields.
  cbn [map concat enc_field cstr_of]. rewrite strlen_replicate. cbn [default].
  unfold id. rewrite take_app_le' by (by lists). unfold enc_string. cbn [length app]. lists. rewrite ?length_le_bytes. lia.
Qed.

