(* ===== verification/GpsHal.v ===== *)
(** * The GPS HAL: what Android calls, and what is called back

    [src/gps/gps_hal/src]: [gpshal.c] (state and resources), [gpsinf.c] and
    [agpsinf.c] (the interface tables that Android calls), [gpshal_worker.c] (the
    thread that reads the daemon's messages and calls Android back), and the dump
    functions of [hal_mnl_interface_common.c] as far as they read arrays.

    Android's [hardware/gps.h] is not part of the repository: the sizes and the
    numbers that the code takes from it are the record [gps_h].  Its structs are
    given to the callbacks as the values of their members. *)

From stdpp Require Import list strings.
From S2P Require Import Prelude DataCoder LbsUtility Layout Structs Float32 Messages Hal2Mnl Mnl2Hal.
Import HalTypes.

(** [gpshal_state]; "state order is important" *)
Inductive gpshal_state : Type :=
| GPSHAL_STATE_UNKNOWN
| GPSHAL_STATE_RESOURCE
| GPSHAL_STATE_CLEANUP
| GPSHAL_STATE_INIT
| GPSHAL_STATE_STOP
| GPSHAL_STATE_START.
#[export] Instance gpshal_state_eq_dec : EqDecision gpshal_state.
Proof. solve_decision. Defined.

Definition rank (s : gpshal_state) : Z :=
  match s with
  | GPSHAL_STATE_UNKNOWN => 0
  | GPSHAL_STATE_RESOURCE => 1
  | GPSHAL_STATE_CLEANUP => 2
  | GPSHAL_STATE_INIT => 3
  | GPSHAL_STATE_STOP => 4
  | GPSHAL_STATE_START => 5
  end.

(** What the code takes from [hardware/gps.h]. *)
Record gps_h : Type := GpsH {
  sizeof_GpsCallbacks : Z;
  gps_location_flags_bits : Z;           (* width of GpsLocation.flags *)
  GPS_NI_SHORT_STRING_MAXLEN : Z;        (* requestor_id *)
  GPS_NI_LONG_STRING_MAXLEN : Z;         (* text *)
  gnss_sv_list_len : Z;                  (* GnssSvStatus.gnss_sv_list *)
  gps_measurements_len : Z;              (* GpsData.measurements *)
  gnss_measurements_len : Z;             (* GnssData.measurements *)
  GPS_NI_TYPE_UMTS_SUPL : Z;
  GPS_NI_NEED_NOTIFY : Z;
  GPS_NI_NEED_VERIFY : Z;
  GPS_NI_PRIVACY_OVERRIDE : Z;
  GPS_NI_RESPONSE_NORESP : Z;
  AGPS_TYPE_SUPL : Z;
  GPS_REQUEST_AGPS_DATA_CONN : Z;
  GPS_RELEASE_AGPS_DATA_CONN : Z;
  AGPS_REF_LOCATION_TYPE_GSM_CELLID : Z;
  AGPS_REF_LOCATION_TYPE_UMTS_CELLID : Z;
  GPS_GEOFENCE_OPERATION_SUCCESS : Z;
  GPS_GEOFENCE_ERROR_GENERIC : Z;
  GPS_NAVIGATION_MESSAGE_OPERATION_SUCCESS : Z;
  GPS_NAVIGATION_MESSAGE_ERROR_GENERIC : Z;
  AGPS_INTERFACE : string;
  GPS_NI_INTERFACE : string;
  AGPS_RIL_INTERFACE : string;
  GPS_MEASUREMENT_INTERFACE : string;
  GPS_NAVIGATION_MESSAGE_INTERFACE : string
}.

Definition GPS_CAP_SCHEDULING := 0x01.
Definition GPS_CAP_MEASUREMENTS := 0x40.

Definition AGPS_NOTIFY_TYPE_NOTIFY_ONLY := 1.
Definition AGPS_NOTIFY_TYPE_NOTIFY_ALLOW_NO_ANSWER := 2.
Definition AGPS_NOTIFY_TYPE_NOTIFY_DENY_NO_ANSWER := 3.
Definition AGPS_NOTIFY_TYPE_PRIVACY := 4.

(** [GpsLocation]: bit patterns. *)
Record GpsLocation : Type := Location {
  gl_flags : Z; gl_latitude : Z; gl_longitude : Z; gl_altitude : Z;
  gl_speed : Z; gl_bearing : Z; gl_accuracy : Z; gl_timestamp : Z
}.

(** [GpsNiNotification]; the two texts without what lies behind their end. *)
Record GpsNiNotification : Type := NiNotification {
  gn_notification_id : Z; gn_ni_type : Z; gn_notify_flags : Z; gn_timeout : Z;
  gn_default_response : Z; gn_requestor_id : list Z; gn_text : list Z;
  gn_requestor_id_encoding : Z; gn_text_encoding : Z
}.

(** Members of a struct, by name. *)
Definition members : Type := list (string * Z).

(** A call of one of Android's callbacks. *)
Inductive callback : Type :=
| set_capabilities_cb (capabilities : Z)
| set_system_info_cb (year_of_hw : Z)
| create_thread_cb (name : string)
| location_cb (l : GpsLocation)
| status_cb (status : Z)
| gnss_sv_status_cb (num_svs : Z) (svs : list members)
| nmea_cb (timestamp : Z) (nmea : cptr) (length : Z)
| measurement_callback (count : Z) (ms : list members) (clock : members)
| navigation_message_callback (msg : members) (data : list Z)
| gnss_measurement_callback (count : Z) (ms : list members) (clock : members)
| gnss_navigation_message_callback (msg : members) (data : Z)
| acquire_wakelock_cb
| release_wakelock_cb
| request_utc_time_cb
| agps_status_cb (type status : Z) (addr : option (list Z))
| ni_notify_cb (n : GpsNiNotification)
| request_setid_cb (flags : Z)
| request_refloc_cb (flags : Z).

(** Results of the calls that make the resources: [create_mnl2hal_fd],
    [epoll_create], [epoll_add_fd], [create_thread_cb]. *)
Record resources : Type := Resources {
  r_mnl2hal_fd : Z; r_epoll_fd : Z; r_epoll_add : Z; r_thread : Z
}.

(** The callback tables that Android has handed over (else null). *)
Record tables : Type := Tables {
  gps_cbs : bool; agps_cbs : bool; gpsni_cbs : bool; agpsril_cbs : bool;
  meas_cbs : bool; navimsg_cbs : bool
}.

(** [gpshal_context_t], the pace of [hal2mnl_interface.c], and the calls made. *)
Record gpshal : Type := Hal {
  h_sys : sys;
  h_pace : report_pace;
  fd_mnl2hal : Z;
  fd_worker_epoll : Z;
  thd_worker : Z;
  gps_state_intent : gpshal_state;
  gps_state : gpshal_state;
  h_cbs : tables;
  h_calls : list callback;
  h_res : resources
}.

Definition gpshal_boot (s : sys) (r : resources) : gpshal :=
  Hal s pace_init (-1) (-1) 0 GPSHAL_STATE_UNKNOWN GPSHAL_STATE_UNKNOWN
    (Tables false false false false false false) [] r.

#[export] Instance gpshal_has_sys : HasSys gpshal.
Proof.
  refine {| sys_of := h_sys; set_sys := fun s h => Hal s (h_pace h) (fd_mnl2hal h) (fd_worker_epoll h)
    (thd_worker h) (gps_state_intent h) (gps_state h) (h_cbs h) (h_calls h) (h_res h) |};
    try done; by intros [].
Defined.
#[export] Instance gpshal_has_pace : HasPace gpshal.
Proof.
  refine {| pace_of := h_pace; set_pace := fun p h => Hal (h_sys h) p (fd_mnl2hal h) (fd_worker_epoll h)
    (thd_worker h) (gps_state_intent h) (gps_state h) (h_cbs h) (h_calls h) (h_res h) |};
    try done; by intros [].
Defined.

Definition set_fds (fd ep th : Z) (h : gpshal) : gpshal :=
  Hal (h_sys h) (h_pace h) fd ep th (gps_state_intent h) (gps_state h) (h_cbs h) (h_calls h) (h_res h).
Definition set_intent (s : gpshal_state) (h : gpshal) : gpshal :=
  Hal (h_sys h) (h_pace h) (fd_mnl2hal h) (fd_worker_epoll h) (thd_worker h) s (gps_state h)
    (h_cbs h) (h_calls h) (h_res h).
Definition set_state (s : gpshal_state) (h : gpshal) : gpshal :=
  Hal (h_sys h) (h_pace h) (fd_mnl2hal h) (fd_worker_epoll h) (thd_worker h) (gps_state_intent h) s
    (h_cbs h) (h_calls h) (h_res h).
Definition set_cbs (f : tables -> tables) (h : gpshal) : gpshal :=
  Hal (h_sys h) (h_pace h) (fd_mnl2hal h) (fd_worker_epoll h) (thd_worker h) (gps_state_intent h)
    (gps_state h) (f (h_cbs h)) (h_calls h) (h_res h).
Definition log_call (c : callback) (h : gpshal) : gpshal :=
  Hal (h_sys h) (h_pace h) (fd_mnl2hal h) (fd_worker_epoll h) (thd_worker h) (gps_state_intent h)
    (gps_state h) (h_cbs h) (h_calls h ++ [c]) (h_res h).

(** [g_gpshal_ctx.table->f(...)]; a null table is dereferenced. *)
Definition call (table : tables -> bool) (c : callback) : prog gpshal unit :=
  let* t := gets h_cbs in
  if table t then modify (log_call c) else undef.

(** A call whose result is not looked at. *)
Definition send (m : prog sys Z) : prog gpshal unit := let* _ := on_sys m in ret tt.

(** ** gpshal.c *)

Definition gpshal_set_gps_state (newState : gpshal_state) : prog gpshal unit :=
  modify (set_state newState).
Definition gpshal_set_gps_state_intent (newState : gpshal_state) : prog gpshal unit :=
  modify (set_intent newState).

Definition GPSHAL_WORKER_THREAD_NAME : string := "gpshal_worker_thread"%string.

(** Every failure returns early; what was created before stays in the context. *)
Definition gpshal_resource_init : prog gpshal unit :=
  modify (set_cbs (fun t => Tables true (agps_cbs t) (gpsni_cbs t) (agpsril_cbs t) (meas_cbs t)
                              (navimsg_cbs t))) ;;
  let* intent := gets gps_state_intent in
  if negb (bool_decide (GPSHAL_STATE_UNKNOWN = intent)) then ret tt
  else
    call gps_cbs (set_capabilities_cb (Z.lor GPS_CAP_SCHEDULING GPS_CAP_MEASUREMENTS)) ;;
    call gps_cbs (set_system_info_cb 2016) ;;
    let* r := gets h_res in
    modify (fun h => set_fds (r_mnl2hal_fd r) (fd_worker_epoll h) (thd_worker h) h) ;;
    if r_mnl2hal_fd r =? -1 then ret tt
    else
      modify (fun h => set_fds (fd_mnl2hal h) (r_epoll_fd r) (thd_worker h) h) ;;
      if r_epoll_fd r =? -1 then ret tt
      else if r_epoll_add r =? -1 then ret tt
      else
        call gps_cbs (create_thread_cb GPSHAL_WORKER_THREAD_NAME) ;;
        modify (fun h => set_fds (fd_mnl2hal h) (fd_worker_epoll h) (r_thread r) h) ;;
        if r_thread r =? 0 then ret tt
        else gpshal_set_gps_state GPSHAL_STATE_RESOURCE.

(** [src] is the [size] of the table, or null. *)
Definition gpshal_gpscbs_save (hw : gps_h) (src : option Z) : prog gpshal Z :=
  match src with
  | None => undef
  | Some size =>
      if sizeof_GpsCallbacks hw =? size then gpshal_resource_init ;; ret 0 else ret (-1)
  end.

(** The four requests that carry the state: sent once there are resources, and
    the state moves when the request was sent. *)
Definition gpshal2mnl (m : prog sys Z) (newState : gpshal_state) : prog gpshal unit :=
  let* s := gets gps_state in
  when (rank GPSHAL_STATE_RESOURCE <=? rank s)
    (let* r := on_sys m in
     when (0 <? r) (gpshal_set_gps_state newState)).

Definition gpshal2mnl_gps_init : prog gpshal unit := gpshal2mnl hal2mnl_gps_init GPSHAL_STATE_INIT.
Definition gpshal2mnl_gps_start : prog gpshal unit := gpshal2mnl hal2mnl_gps_start GPSHAL_STATE_START.
Definition gpshal2mnl_gps_stop : prog gpshal unit := gpshal2mnl hal2mnl_gps_stop GPSHAL_STATE_STOP.
Definition gpshal2mnl_gps_cleanup : prog gpshal unit :=
  gpshal2mnl hal2mnl_gps_cleanup GPSHAL_STATE_CLEANUP.

(** ** gpsinf.c *)

Section gpsinf.
Context (hw : gps_h).

Definition measinf_init : prog gpshal Z :=
  modify (set_cbs (fun t => Tables (gps_cbs t) (agps_cbs t) (gpsni_cbs t) (agpsril_cbs t) true
                              (navimsg_cbs t))) ;;
  let* r := on_sys (hal2mnl_set_gps_measurement true) in
  ret (if 0 <? r then GPS_GEOFENCE_OPERATION_SUCCESS hw else GPS_GEOFENCE_ERROR_GENERIC hw).
Definition measinf_close : prog gpshal unit := send (hal2mnl_set_gps_measurement false).

Definition navimsginf_init : prog gpshal Z :=
  modify (set_cbs (fun t => Tables (gps_cbs t) (agps_cbs t) (gpsni_cbs t) (agpsril_cbs t)
                              (meas_cbs t) true)) ;;
  let* r := on_sys (hal2mnl_set_gps_navigation true) in
  ret (if 0 <? r then GPS_NAVIGATION_MESSAGE_OPERATION_SUCCESS hw
       else GPS_NAVIGATION_MESSAGE_ERROR_GENERIC hw).
Definition navimsginf_close : prog gpshal unit := send (hal2mnl_set_gps_navigation false).

(** The tables of the extensions. *)
Inductive extension : Type :=
| mtk_agps_inf | mtk_gps_ni_inf | mtk_agps_ril_inf | mtk_gps_meas_inf | mtk_navi_msg_inf.

Definition gpsinf_get_extension (name : string) : option extension :=
  if String.eqb name (AGPS_INTERFACE hw) then Some mtk_agps_inf
  else if String.eqb name (GPS_NI_INTERFACE hw) then Some mtk_gps_ni_inf
  else if String.eqb name (AGPS_RIL_INTERFACE hw) then Some mtk_agps_ril_inf
  else if String.eqb name (GPS_MEASUREMENT_INTERFACE hw) then Some mtk_gps_meas_inf
  else if String.eqb name (GPS_NAVIGATION_MESSAGE_INTERFACE hw) then Some mtk_navi_msg_inf
  else None.

Definition gpsinf_init (callbacks : option Z) : prog gpshal Z :=
  let* r := gpshal_gpscbs_save hw callbacks in
  if negb (r =? 0) then ret (-1)
  else
    gpshal_set_gps_state_intent GPSHAL_STATE_INIT ;;
    gpshal2mnl_gps_init ;;
    ret 0.

Definition gpsinf_start : prog gpshal Z :=
  gpshal_set_gps_state_intent GPSHAL_STATE_START ;; gpshal2mnl_gps_start ;; ret 0.
Definition gpsinf_stop : prog gpshal Z :=
  gpshal_set_gps_state_intent GPSHAL_STATE_STOP ;; gpshal2mnl_gps_stop ;; ret 0.
Definition gpsinf_cleanup : prog gpshal unit :=
  gpshal_set_gps_state_intent GPSHAL_STATE_CLEANUP ;; gpshal2mnl_gps_cleanup.

Definition gpsinf_inject_time (time timeReference uncertainty : Z) : prog gpshal Z :=
  send (hal2mnl_gps_inject_time time timeReference uncertainty) ;; ret 0.
Definition gpsinf_inject_location (latitude longitude accuracy : Z) : prog gpshal Z :=
  send (hal2mnl_gps_inject_location latitude longitude accuracy) ;; ret 0.
Definition gpsinf_delete_aiding_data (flags : Z) : prog gpshal unit :=
  send (hal2mnl_gps_delete_aiding_data flags).
Definition gpsinf_set_position_mode (mode recurrence min_interval preferred_accuracy
    preferred_time : Z) : prog gpshal Z :=
  let* _ := hal2mnl_gps_set_position_mode mode recurrence min_interval preferred_accuracy
              preferred_time in
  ret 0.

(** For a valid device. *)
Definition gps_device__get_gps_interface : prog gpshal unit := send hal2mnl_hal_reboot.

(** ** agpsinf.c *)

Definition agpsinf_init : prog gpshal unit :=
  modify (set_cbs (fun t => Tables (gps_cbs t) true (gpsni_cbs t) (agpsril_cbs t) (meas_cbs t)
                              (navimsg_cbs t))).
Definition agpsinf_set_server (type : Z) (hostname : cptr) (port : Z) : prog gpshal Z :=
  send (hal2mnl_set_server type hostname port) ;; ret 0.
Definition agpsinf_data_conn_open_with_apn_ip_type (apn : cptr) (apnIpType : Z) : prog gpshal Z :=
  send (hal2mnl_data_conn_open_with_apn_ip_type apn apnIpType) ;; ret 0.

Definition gpsni_init : prog gpshal unit :=
  modify (set_cbs (fun t => Tables (gps_cbs t) (agps_cbs t) true (agpsril_cbs t) (meas_cbs t)
                              (navimsg_cbs t))).
Definition gpsni_respond (notif_id user_response : Z) : prog gpshal unit :=
  send (hal2mnl_ni_respond notif_id user_response).

Definition agps_ril_init : prog gpshal unit :=
  modify (set_cbs (fun t => Tables (gps_cbs t) (agps_cbs t) (gpsni_cbs t) true (meas_cbs t)
                              (navimsg_cbs t))).

(** [type] is cut to [uint16_t]; the cell is that of [agps_reflocation]. *)
Definition agps_ril_set_ref_location (type mcc mnc lac cid : Z) : prog gpshal unit :=
  let type := u16 type in
  when ((type =? AGPS_REF_LOCATION_TYPE_GSM_CELLID hw) ||
        (type =? AGPS_REF_LOCATION_TYPE_UMTS_CELLID hw))
    (send (hal2mnl_set_ref_location type mcc mnc lac cid)).
Definition agps_ril_set_set_id (type : Z) (setid : cptr) : prog gpshal unit :=
  send (hal2mnl_set_id type setid).
(** [size_t] to [int] *)
Definition agps_ril_ni_message (msg : list Z) (len : Z) : prog gpshal unit :=
  send (hal2mnl_ni_message msg (s32 len)).
Definition agps_ril_update_network_state (connected type roaming : Z) (extra_info : cptr)
  : prog gpshal unit := send (hal2mnl_update_network_state connected type roaming extra_info).
Definition agps_ril_update_network_availability (available : Z) (apn : cptr) : prog gpshal unit :=
  send (hal2mnl_update_network_availability available apn).
End gpsinf.

(** ** gpshal_worker.c: the daemon's messages *)

Section worker.
Context (hw : gps_h) (a : abi).

(** [fieldp_copy] of a list of members. *)
Definition fieldp_copy (t : ctype) (src : list Z) (fs : list string) : members :=
  map (fun f => (f, member a t src f)) fs.

(** The dump functions print every counted element of an array of [n]. *)
Definition dump_array (count n : Z) : prog gpshal unit :=
  if count <=? n then ret tt else undef.
Definition dump_gnss_sv_info (sv : list Z) : prog gpshal unit :=
  dump_array (s32 (member a gnss_sv_info sv "num_svs")) GNSS_MAX_SVS.
Definition dump_gps_data (data : list Z) : prog gpshal unit :=
  dump_array (member a gps_data data "measurement_count") GPS_MAX_MEASUREMENT.
Definition dump_gnss_data (data : list Z) : prog gpshal unit :=
  dump_array (member a gnss_data data "measurement_count") GNSS_MAX_MEASUREMENT.

Definition update_mnld_reboot : prog gpshal unit :=
  let* state := gets gps_state_intent in
  match state with
  | GPSHAL_STATE_INIT | GPSHAL_STATE_STOP => gpshal2mnl_gps_init
  | GPSHAL_STATE_START => gpshal2mnl_gps_init ;; gpshal2mnl_gps_start
  | GPSHAL_STATE_CLEANUP | _ => ret tt
  end.

Definition update_location (location : list Z) : prog gpshal unit :=
  let m := member a gps_location location in
  let* state := gets gps_state_intent in
  when (bool_decide (GPSHAL_STATE_START = state))
    (call gps_cbs (location_cb (Location (wrap_u (gps_location_flags_bits hw) (m "flags"%string)) (m "lat"%string) (m "lng"%string)
       (m "alt"%string) (m "speed"%string) (m "bearing"%string) (m "accuracy"%string)
       (m "timestamp"%string)))).

Definition update_gps_status (status : Z) : prog gpshal unit := call gps_cbs (status_cb status).

Definition sv_members : list string :=
  ["svid"; "constellation"; "c_n0_dbhz"; "elevation"; "azimuth"; "flags"]%string.

(** [n] elements from number [i] on. *)
Fixpoint sv_copy (sv : list Z) (i : Z) (n : nat) : outcome (list members) :=
  match n with
  | O => Done []
  | S n' =>
      if (i <? gnss_sv_list_len hw) && (i <? GNSS_MAX_SVS)
      then obind (sv_copy sv (i + 1) n') (fun r =>
             Done (fieldp_copy gnss_sv (element a gnss_sv_info sv "sv_list" i) sv_members :: r))
      else UB
  end.

Definition update_gps_sv (sv : list Z) : prog gpshal unit :=
  dump_gnss_sv_info sv ;;
  let num_svs := s32 (member a gnss_sv_info sv "num_svs") in
  let* svs := lift (sv_copy sv 0 (Z.to_nat num_svs)) in
  call gps_cbs (gnss_sv_status_cb num_svs svs).

Definition update_nmea (timestamp : Z) (nmea : cptr) (length : Z) : prog gpshal unit :=
  call gps_cbs (nmea_cb timestamp nmea length).
Definition update_gps_capabilities (capabilities : Z) : prog gpshal unit :=
  call gps_cbs (set_capabilities_cb capabilities).

Definition gps_measurement_members : list string :=
  ["flags"; "prn"; "time_offset_ns"; "state"; "received_gps_tow_ns";
   "received_gps_tow_uncertainty_ns"; "c_n0_dbhz"; "pseudorange_rate_mps";
   "pseudorange_rate_uncertainty_mps"; "accumulated_delta_range_state";
   "accumulated_delta_range_m"; "accumulated_delta_range_uncertainty_m"; "pseudorange_m";
   "pseudorange_uncertainty_m"; "code_phase_chips"; "code_phase_uncertainty_chips";
   "carrier_frequency_hz"; "carrier_cycles"; "carrier_phase"; "carrier_phase_uncertainty";
   "loss_of_lock"; "bit_number"; "time_from_last_bit_ms"; "doppler_shift_hz";
   "doppler_shift_uncertainty_hz"; "multipath_indicator"; "snr_db"; "elevation_deg";
   "elevation_uncertainty_deg"; "azimuth_deg"; "azimuth_uncertainty_deg"; "used_in_fix"]%string.
Definition gps_clock_members : list string :=
  ["flags"; "leap_second"; "type"; "time_ns"; "time_uncertainty_ns"; "full_bias_ns"; "bias_ns";
   "bias_uncertainty_ns"; "drift_nsps"; "drift_uncertainty_nsps"]%string.

(** All elements of the source's array, whatever the count. *)
Definition copy_all (t : ctype) (et : ctype) (data : list Z) (fs : list string) (n len : Z)
  : outcome (list members) :=
  if n <=? len
  then Done (map (fun i => fieldp_copy et (element a t data "measurements" (Z.of_nat i)) fs)
               (seq 0 (Z.to_nat n)))
  else UB.

Definition update_gps_measurements (data : list Z) : prog gpshal unit :=
  dump_gps_data data ;;
  let* ms := lift (copy_all gps_data gps_measurement data gps_measurement_members
                     GPS_MAX_MEASUREMENT (gps_measurements_len hw)) in
  call meas_cbs (measurement_callback (member a gps_data data "measurement_count") ms
    (fieldp_copy gps_clock (object a gps_data data "clock") gps_clock_members)).

Definition gps_nav_members : list string :=
  ["prn"; "type"; "status"; "message_id"; "submessage_id"; "data_length"]%string.
(** [gnm.data] points to the array in the local copy of the message. *)
Definition update_gps_navigation (msg : list Z) : prog gpshal unit :=
  call navimsg_cbs (navigation_message_callback (fieldp_copy gps_nav_msg msg gps_nav_members)
    (object a gps_nav_msg msg "data")).

Definition gnss_measurement_members : list string :=
  ["flags"; "svid"; "constellation"; "time_offset_ns"; "state"; "received_sv_time_in_ns";
   "received_sv_time_uncertainty_in_ns"; "c_n0_dbhz"; "pseudorange_rate_mps";
   "pseudorange_rate_uncertainty_mps"; "accumulated_delta_range_state";
   "accumulated_delta_range_m"; "accumulated_delta_range_uncertainty_m"; "carrier_frequency_hz";
   "carrier_cycles"; "carrier_phase"; "carrier_phase_uncertainty"; "multipath_indicator";
   "snr_db"]%string.
Definition gnss_clock_members : list string :=
  ["flags"; "leap_second"; "time_ns"; "time_uncertainty_ns"; "full_bias_ns"; "bias_ns";
   "bias_uncertainty_ns"; "drift_nsps"; "drift_uncertainty_nsps";
   "hw_clock_discontinuity_count"]%string.

Definition update_gnss_measurements (data : list Z) : prog gpshal unit :=
  dump_gnss_data data ;;
  let* ms := lift (copy_all gnss_data gnss_measurement data gnss_measurement_members
                     GNSS_MAX_MEASUREMENT (gnss_measurements_len hw)) in
  call meas_cbs (gnss_measurement_callback (member a gnss_data data "measurement_count") ms
    (fieldp_copy gnss_clock (object a gnss_data data "clock") gnss_clock_members)).

Definition gnss_nav_members : list string :=
  ["svid"; "type"; "status"; "message_id"; "submessage_id"; "data_length"]%string.
(** [data] is the pointer of the message, of another process. *)
Definition update_gnss_navigation (msg : list Z) : prog gpshal unit :=
  call navimsg_cbs (gnss_navigation_message_callback
    (fieldp_copy gnss_nav_msg msg gnss_nav_members) (member a gnss_nav_msg msg "data")).

Definition request_wakelock : prog gpshal unit := call gps_cbs acquire_wakelock_cb.
Definition release_wakelock : prog gpshal unit := call gps_cbs release_wakelock_cb.
Definition request_utc_time : prog gpshal unit := call gps_cbs request_utc_time_cb.
Definition request_data_conn (addr : list Z) : prog gpshal unit :=
  call agps_cbs (agps_status_cb (AGPS_TYPE_SUPL hw) (GPS_REQUEST_AGPS_DATA_CONN hw) (Some addr)).
Definition release_data_conn : prog gpshal unit :=
  call agps_cbs (agps_status_cb (AGPS_TYPE_SUPL hw) (GPS_RELEASE_AGPS_DATA_CONN hw) None).

Definition notify_flags_of (type : Z) : Z :=
  if type =? AGPS_NOTIFY_TYPE_NOTIFY_ONLY then GPS_NI_NEED_NOTIFY hw
  else if type =? AGPS_NOTIFY_TYPE_NOTIFY_ALLOW_NO_ANSWER then
    Z.lor (GPS_NI_NEED_NOTIFY hw) (GPS_NI_NEED_VERIFY hw)
  else if type =? AGPS_NOTIFY_TYPE_NOTIFY_DENY_NO_ANSWER then
    Z.lor (GPS_NI_NEED_NOTIFY hw) (GPS_NI_NEED_VERIFY hw)
  else if type =? AGPS_NOTIFY_TYPE_PRIVACY then GPS_NI_PRIVACY_OVERRIDE hw
  else 0.

(** [strcpy] into an array of [size] bytes: the text that arrives. *)
Definition strcpy_to (size : Z) (src : cptr) : outcome (list Z) :=
  match src with
  | None => UB
  | Some m =>
      match strlen m with
      | Some n => if Z.of_nat n + 1 <=? size then Done (take n m) else UB
      | None => UB
      end
  end.

Definition request_ni_notify (session_id type : Z) (requestor_id client_name : cptr)
    (requestor_id_encoding client_name_encoding : Z) : prog gpshal unit :=
  let* id := lift (strcpy_to (GPS_NI_SHORT_STRING_MAXLEN hw) requestor_id) in
  let* text := lift (strcpy_to (GPS_NI_LONG_STRING_MAXLEN hw) client_name) in
  call gpsni_cbs (ni_notify_cb (NiNotification session_id (GPS_NI_TYPE_UMTS_SUPL hw)
    (notify_flags_of type) 8 (GPS_NI_RESPONSE_NORESP hw) id text requestor_id_encoding
    client_name_encoding)).

Definition request_set_id (flags : Z) : prog gpshal unit := call agpsril_cbs (request_setid_cb flags).
Definition request_ref_loc (flags : Z) : prog gpshal unit := call agpsril_cbs (request_refloc_cb flags).

Definition gpshal_mnl2hal_interface : mnl2hal_interface gpshal := {|
  m2h_mnld_reboot := Some update_mnld_reboot;
  m2h_location := Some update_location;
  m2h_gps_status := Some update_gps_status;
  m2h_gps_sv := Some update_gps_sv;
  m2h_nmea := Some update_nmea;
  m2h_gps_capabilities := Some update_gps_capabilities;
  m2h_gps_measurements := Some update_gps_measurements;
  m2h_gps_navigation := Some update_gps_navigation;
  m2h_gnss_measurements := Some update_gnss_measurements;
  m2h_gnss_navigation := Some update_gnss_navigation;
  m2h_request_wakelock := Some request_wakelock;
  m2h_release_wakelock := Some release_wakelock;
  m2h_request_utc_time := Some request_utc_time;
  m2h_request_data_conn := Some request_data_conn;
  m2h_release_data_conn := Some release_data_conn;
  m2h_request_ni_notify := Some request_ni_notify;
  m2h_request_set_id := Some request_set_id;
  m2h_request_ref_loc := Some request_ref_loc
|}.

(** What [epoll_wait] gives: an error, or descriptors, each with whether it is
    readable and what reading it gives. *)
Inductive epoll_result : Type :=
| EpFail (e : errno)
| EpReady (events : list (Z * bool * list recvres)).

Context (junk : nat -> Z).

Fixpoint worker_events (events : list (Z * bool * list recvres)) : prog gpshal unit :=
  match events with
  | [] => ret tt
  | (fd, readable, rx) :: rest =>
      let* fd_mnl2hal := gets fd_mnl2hal in
      when ((fd =? fd_mnl2hal) && readable)
        (let* _ := mnl2hal_hdlr a junk rx gpshal_mnl2hal_interface in ret tt) ;;
      worker_events rest
  end.

(** The thread ends at an error other than [EINTR]. *)
Fixpoint gpshal_worker_thread (waits : list epoll_result) : prog gpshal unit :=
  match waits with
  | [] => blocked
  | EpFail EINTR :: rest => gpshal_worker_thread rest
  | EpFail _ :: _ => ret tt
  | EpReady events :: rest => worker_events events ;; gpshal_worker_thread rest
  end.
End worker.
