(* ===== verification/AtCommand.v ===== *)
(** * The AT command interface of the factory tests

    [src/gps/mtk_mnld/mnl_at_cmd_interface/src/mnl_at_interface.c].  A test tool
    sends text commands over a socket; they open the GPS through the main
    thread's entries, and the NMEA parser reports the signal of one satellite
    to this module.  The module's [int] variables are a map from their names;
    the arrays, the heap block [Dev_CNr] and the acknowledgements sent are
    next to it. *)

From stdpp Require Import functions.
From S2P Require Import Prelude DataCoder LbsUtility Float32 Float64 MnldState Mnld.

(** ** Arrays and [int] arithmetic *)

(** The bytes of a string literal. *)
Definition lit (s : string) : list Z :=
  map (fun c => Z.of_nat (Ascii.nat_of_ascii c)) (String.list_ascii_of_string s).

(** [m[i]] *)
Definition rd {A} (m : list A) (i : Z) : outcome A :=
  if 0 <=? i then match m !! Z.to_nat i with Some c => Done c | None => UB end else UB.

(** [m[i] = v] *)
Definition wr {A} (m : list A) (i : Z) (v : A) : outcome (list A) :=
  if (0 <=? i) && (i <? zlen m) then Done (<[Z.to_nat i := v]> m) else UB.

(** The result of an [int] operation; overflow is undefined. *)
Definition chk (z : Z) : outcome Z := if is_int z then Done z else UB.

(** [!memcmp(m + p, s, strlen(s))] *)
Definition memeq (m : list Z) (p : Z) (s : string) : outcome bool :=
  if (0 <=? p) && (p + zlen (lit s) <=? zlen m)
  then Done (bool_decide (take (length (lit s)) (drop (Z.to_nat p) m) = lit s)) else UB.

(** ** State *)

(** The [int] variables of the file; the three members of [hal_test_data], the
    [time_t start_time] and the local static [prev_success_num] among them. *)
Inductive at_var : Type :=
| MNL_AT_TEST_FLAG | MNL_AT_SIGNAL_MODE | MNL_AT_SIGNAL_TEST_BEGIN
| MNL_AT_SET_ALARM | MNL_AT_CANCEL_ALARM | MNL_AT_TEST_STATE
| hal_test_num | hal_prn_num | hal_time_delay
| cn | test_num | CNo | DCNo | Avg_CNo | Dev_CNo | Completed_Num | Success_Num
| Failure_Num | Wait_Num | sig_suc_num | Err_Code | test_mode_flag | fd_at_test
| start_time | prev_success_num.
#[export] Instance at_var_eq_dec : EqDecision at_var.
Proof. solve_decision. Defined.

(** [MNL_AT_TEST_STATE] *)
Definition MNL_AT_TEST_UNKNOWN := -1.
Definition MNL_AT_TEST_INPROGRESS := 2.
Definition MNL_AT_TEST_DONE := 3.
Definition MNL_AT_TEST_RESULT_DONE := 4.

Definition MAX_VALID_STATUS_WAIT_COUNT := 20.
Definition GPS_TEST_PRN := 1.
Definition GPS_AT_ACK_SIZE := 60.

(** [int* Dev_CNr]: null, a block, or a block that was freed. *)
Inductive heap_ptr : Type := PNull | PBlock (b : list Z) | PFreed.

Record at_state : Type := At {
  at_vars : at_var -> Z;
  at_prn : list Z;                  (* int prn[32] *)
  at_snr : list Z;                  (* int snr[32] *)
  at_result : list Z;               (* int result[8] *)
  Dev_CNr : heap_ptr;
  at_acks : list (list Z);          (* what was sent to [remote] *)
  at_malloc : Z -> bool             (* whether an allocation succeeds *)
}.

Definition at_init_vars (x : at_var) : Z :=
  match x with
  | MNL_AT_TEST_STATE => MNL_AT_TEST_UNKNOWN
  | Err_Code | test_mode_flag => 1
  | _ => 0
  end.
Definition at_init (malloc : Z -> bool) : at_state :=
  At at_init_vars (zeros 32) (zeros 32) [1; 0; 0; 0; 0; 0; 0; 0] PNull [] malloc.

(** The module next to the state of the daemon it calls into; [a_now n] is the
    answer of the [n]-th call of [time]. *)
Record at_world : Type := AtWorld {
  a_at : at_state;
  a_mnld : mnld;
  a_ntime : nat;
  a_now : nat -> Z
}.

Definition set_a_at (a : at_state) (w : at_world) : at_world :=
  AtWorld a (a_mnld w) (a_ntime w) (a_now w).
Definition on_mnld {A} (m : prog mnld A) : prog at_world A :=
  fun w =>
    match m (a_mnld w) with
    | Done (x, g) => Done (x, AtWorld (a_at w) g (a_ntime w) (a_now w))
    | Crash => Crash
    | UB => UB
    | Blocked => Blocked
    end.

#[export] Instance at_world_has_sys : HasSys at_world.
Proof.
  refine {| sys_of := fun w => sys_of (a_mnld w);
            set_sys := fun s w => AtWorld (a_at w) (set_sys s (a_mnld w)) (a_ntime w) (a_now w) |};
    intros; [apply sys_of_set|by destruct w as [? [] ? ?]|done].
Defined.

(** [time(NULL)] *)
Definition time : prog at_world Z :=
  fun w => Done (a_now w (a_ntime w), AtWorld (a_at w) (a_mnld w) (S (a_ntime w)) (a_now w)).

Definition upd_at (f : at_state -> at_state) : prog at_world unit :=
  modify (fun w => set_a_at (f (a_at w)) w).
Definition at_get (x : at_var) : prog at_world Z := gets (fun w => at_vars (a_at w) x).
Definition at_put (x : at_var) (z : Z) : prog at_world unit :=
  upd_at (fun a => At (<[x := z]> (at_vars a)) (at_prn a) (at_snr a) (at_result a) (Dev_CNr a)
                     (at_acks a) (at_malloc a)).
(** [x++] *)
Definition at_incr (x : at_var) : prog at_world unit :=
  let* z := at_get x in
  let* z' := lift (chk (z + 1)) in
  at_put x z'.
Definition put_dev (p : heap_ptr) : prog at_world unit :=
  upd_at (fun a => At (at_vars a) (at_prn a) (at_snr a) (at_result a) p (at_acks a) (at_malloc a)).
Definition put_result (l : list Z) : prog at_world unit :=
  upd_at (fun a => At (at_vars a) (at_prn a) (at_snr a) l (Dev_CNr a) (at_acks a) (at_malloc a)).
(** [result[i] = z] *)
Definition set_result (i z : Z) : prog at_world unit :=
  let* l := gets (fun w => at_result (a_at w)) in
  let* l' := lift (wr l i z) in
  put_result l'.

(** [free(Dev_CNr)]: the pointer keeps its value. *)
Definition free_dev : prog at_world unit :=
  let* p := gets (fun w => Dev_CNr (a_at w)) in
  match p with
  | PNull => ret tt
  | PBlock _ => put_dev PFreed
  | PFreed => undef
  end.

(** ** Starting and stopping a test *)

(** [at_test2mnl_gps_stop] and [at_test2mnl_gps_start] return 0, so that their
    error branches are never taken. *)
Definition gpsinf_mtk_gps_test_stop : prog at_world Z :=
  at_put test_mode_flag 1 ;;
  on_mnld at_test2mnl_gps_stop ;;
  at_put hal_test_num 0 ;;
  at_put hal_prn_num 0 ;;
  at_put hal_time_delay 0 ;;
  at_put MNL_AT_TEST_FLAG 0 ;;
  at_put MNL_AT_SIGNAL_MODE 0 ;;
  at_put MNL_AT_TEST_STATE MNL_AT_TEST_UNKNOWN ;;
  at_put MNL_AT_SET_ALARM 0 ;;
  at_put MNL_AT_CANCEL_ALARM 0 ;;
  at_put MNL_AT_SIGNAL_TEST_BEGIN 0 ;;
  at_put Success_Num 0 ;;
  at_put Completed_Num 0 ;;
  at_put Wait_Num 0 ;;
  at_put CNo 0 ;;
  at_put DCNo 0 ;;
  at_put Dev_CNo 0 ;;
  at_put Err_Code 1 ;;
  at_put test_num 0 ;;
  free_dev ;;
  ret 0.

(** [Dev_CNr = malloc(sizeof(int) * n); memset(Dev_CNr, 0, n * sizeof(int))],
    sizes in the 32 bits of [size_t]. *)
Definition alloc_dev (n : Z) : prog at_world unit :=
  let size := u32 (4 * n) in
  let* ok := gets (fun w => at_malloc (a_at w) size) in
  if ok : bool then put_dev (PBlock (replicate (Z.to_nat (size / 4)) 0))
  else if size =? 0 then put_dev PNull
  else undef.

Definition gpsinf_mtk_gps_test_start (test_num prn_num time_delay test_mode : Z) : prog at_world Z :=
  let* state := at_get MNL_AT_TEST_STATE in
  let* sms := at_get test_mode_flag in
  when (negb (state =? MNL_AT_TEST_UNKNOWN) && negb (sms =? 0))
    (gpsinf_mtk_gps_test_stop ;; ret tt) ;;
  at_put hal_test_num test_num ;;
  at_put hal_prn_num prn_num ;;
  at_put hal_time_delay time_delay ;;
  let* now := time in
  at_put start_time now ;;
  at_put Avg_CNo 0 ;;
  alloc_dev test_num ;;
  if (test_num =? 0) && (test_mode =? 0) then ret (-1)
  else
    (if test_mode =? 1 then at_put MNL_AT_SIGNAL_MODE 1 else at_put MNL_AT_TEST_FLAG 1) ;;
    at_put MNL_AT_TEST_STATE MNL_AT_TEST_INPROGRESS ;;
    on_mnld at_test2mnl_gps_start ;;
    ret 0.

Definition gpsinf_mtk_gps_test_inprogress : prog at_world Z :=
  let* state := at_get MNL_AT_TEST_STATE in
  ret (if (state =? MNL_AT_TEST_DONE) || (state =? MNL_AT_TEST_RESULT_DONE) then MNL_AT_TEST_DONE
       else if state =? MNL_AT_TEST_INPROGRESS then MNL_AT_TEST_INPROGRESS
       else MNL_AT_TEST_UNKNOWN).

(** ** Acknowledgements *)

(** Nothing is sent before the first command. *)
Definition at_command_send_ack (ack : list Z) : prog at_world unit :=
  let* fd := at_get fd_at_test in
  when (negb (fd =? 0))
    (upd_at (fun a => At (at_vars a) (at_prn a) (at_snr a) (at_result a) (Dev_CNr a)
                        (at_acks a ++ [ack]) (at_malloc a))).

(** [char buff[] = "..."]: the text and its terminator. *)
Definition send_text (s : string) : prog at_world unit := at_command_send_ack (lit s ++ [0]).

(** [printf]'s [%d]: the decimal digits of [n], [fuel] of them at most. *)
Fixpoint digits (n : Z) (fuel : nat) (acc : list Z) : list Z :=
  match fuel with
  | O => acc
  | S fuel' =>
      let acc' := (48 + n mod 10) :: acc in
      if n <? 10 then acc' else digits (n / 10) fuel' acc'
  end.
(** An [int] has at most ten digits. *)
Definition print_d (n : Z) : list Z :=
  if n <? 0 then 45 :: digits (- n) 10 [] else digits n 10 [].

(** [sprintf(buff, ...)] of a text into an array that held [old]. *)
Definition sprintf (old text : list Z) : outcome (list Z) :=
  if zlen text + 1 <=? zlen old
  then Done (text ++ [0] ++ drop (length text + 1) old) else UB.

(** What a local array holds before it is written. *)
Section acks.
Context (junk : nat -> Z).

Definition local (n : nat) : list Z := map junk (seq 0 n).

Definition print_results (l : list Z) : list Z :=
  match l with
  | [] => []
  | x :: r => print_d x ++ concat (map (fun y => lit ", " ++ print_d y) r)
  end.

(** The eight results between two brackets, then a fixed tail. *)
Definition send_results (old : list Z) (op cl tail : string) : prog at_world unit :=
  let* l := gets (fun w => at_result (a_at w)) in
  let* buff := lift (sprintf old (lit op ++ print_results l ++ lit cl ++ lit tail)) in
  at_command_send_ack buff.

Definition zero_results : string := "[0, 0, 0, 0, 0, 0, 0, 0]".

(** [sprintf(buff, "%d", v/10)], and [", NA"] behind it for a GNSS command. *)
Definition send_cn (command : list Z) (v : Z) : prog at_world unit :=
  let* buff := lift (sprintf (local 10) (print_d (Z.quot v 10))) in
  let* gnss := lift (memeq command 0 "AT%GNSS") in
  if gnss : bool then
    let* buff := lift (sprintf buff (print_d (Z.quot v 10) ++ lit ", NA")) in
    at_command_send_ack buff
  else at_command_send_ack buff.

Definition at_command_send_cno (command : list Z) : prog at_world unit :=
  let* r := gpsinf_mtk_gps_test_inprogress in
  if r =? MNL_AT_TEST_INPROGRESS then send_text "GNSS Test In Progress"
  else
    let* mode := at_get MNL_AT_SIGNAL_MODE in
    let* v := at_get (if mode =? 1 then cn else Avg_CNo) in
    if v =? 0 then send_text "0, NA" else send_cn command v.

Definition at_command_send_test_result : prog at_world unit :=
  let* r := gpsinf_mtk_gps_test_inprogress in
  if r =? MNL_AT_TEST_INPROGRESS then send_text "GNSS Test In Progress"
  else if (r =? MNL_AT_TEST_DONE) || (r =? MNL_AT_TEST_RESULT_DONE) then
    send_results (local 60) "[" "]" zero_results
  else
    let* l := gets (fun w => at_result (a_at w)) in
    let* r0 := lift (rd l 0) in
    let* r5 := lift (rd l 5) in
    let* mode := at_get MNL_AT_SIGNAL_MODE in
    let* begin := at_get MNL_AT_SIGNAL_TEST_BEGIN in
    if negb (r0 =? 0) then send_results (zeros 60) "[" "]" zero_results
    else if negb (r5 =? 0) && negb (negb (mode =? 0) || negb (begin =? 0)) then
      send_results (zeros 60) "[" "]" zero_results
    else send_text "[0, 0, 0, 0, 0, 0, 0, 0][0, 0, 0, 0, 0, 0, 0, 0]".

End acks.

(** ** Commands *)

(** [strtoul(s, pos, 10)] of a 32-bit process: the value, and the character at
    [*pos]. *)
Definition strtoul (s : list Z) : outcome (Z * Z) :=
  let '(neg, l) := scan_sign (skip_space s) in
  let '(x, n, r) := scan_digits 10 l 0 0 in
  let v := if 2 ^ 32 <=? x then 2 ^ 32 - 1 else if neg then u32 (- x) else x in
  obind (rd (if n =? 0 then s else r) 0) (fun c => Done (v, c)).

(** The local [pos] is a block of [strlen(command)] bytes that receives a
    pointer of four. *)
Definition at_command_parse_test_num (command : list Z) : prog at_world Z :=
  match strlen command with
  | None => undef
  | Some n =>
      let* ok := gets (fun w => at_malloc (a_at w) (Z.of_nat n)) in
      let* gnss := lift (memeq command 0 "AT%GNSS") in
      if negb ok || (Z.of_nat n <? 4) then undef
      else
        let* '(res, c) := lift (strtoul (drop (if gnss : bool then 8 else 7) command)) in
        ret (if negb (res =? 0) && (c =? 0) then s32 res else -1)
  end.

Section commands.
Context (junk : nat -> Z).

(** [c] is one of the letters [s]. *)
Definition is_letter (c : Z) (s : string) : bool := bool_decide (c ∈ lit s).

Definition start_ack (ret_code : Z) (good bad : string) : prog at_world unit :=
  send_text (if ret_code =? 0 then good else bad).

Definition at_gps_command_parser (command : list Z) : prog at_world unit :=
  at_put test_mode_flag 0 ;;
  let* c6 := lift (rd command 6) in
  let* c7 := lift (rd command 7) in
  let* c8 := lift (rd command 8) in
  if is_letter c6 "=" then
    if is_letter c7 "?" && (c8 =? 0) then at_command_send_cno junk command
    else if is_letter c7 "Ee" && (c8 =? 0) then ret tt
    else if is_letter c7 "Dd" && (c8 =? 0) then ret tt
    else
      let* n := at_command_parse_test_num command in
      if 0 <=? n then
        let* r := gpsinf_mtk_gps_test_start n GPS_TEST_PRN 2 0 in
        start_ack r "GPS TEST START OK" "GPS ERROR"
      else send_text "Invalid Test Num =0"
  else if is_letter c6 "?" && (c7 =? 0) then
    let* r := gpsinf_mtk_gps_test_inprogress in
    if r =? MNL_AT_TEST_INPROGRESS then send_text "GPS Test In Progress"
    else if r =? MNL_AT_TEST_DONE then send_results (local junk 60) "<" ">" ""
    else send_text "ERROR"
  else if c6 =? 0 then at_command_send_cno junk command
  else send_text "GPS ERROR".

(** [AT%GNSS=S] *)
Definition gnss_signal_mode : prog at_world unit :=
  let* flag := at_get MNL_AT_TEST_FLAG in
  let* r :=
    (if flag =? 0 then gpsinf_mtk_gps_test_start 0 1 2 1
     else
       at_put MNL_AT_SIGNAL_MODE 1 ;;
       at_put MNL_AT_TEST_FLAG 0 ;;
       let* cancel := at_get MNL_AT_CANCEL_ALARM in
       when (cancel =? 0)
         (on_mnld (call_lib (LAlarm 0)) ;;
          at_put MNL_AT_CANCEL_ALARM 0 ;;
          at_put MNL_AT_SET_ALARM 0) ;;
       ret 0) in
  start_ack r "GNSS START START OK" "GNSS START START FAIL".

(** [AT%GNSS=E] *)
Definition gnss_end : prog at_world unit :=
  let* state := at_get MNL_AT_TEST_STATE in
  if state =? MNL_AT_TEST_UNKNOWN then send_text "GNSS Test is Not In Progress"
  else
    let* r := gpsinf_mtk_gps_test_stop in
    start_ack r "GNSS TEST END OK" "GNSS TEST END FAIL".

(** [AT%GNSS=n] *)
Definition gnss_test (command : list Z) : prog at_world unit :=
  let* n := at_command_parse_test_num command in
  put_result [1; 0; 0; 0; 0; 0; 0; 0] ;;
  at_put Avg_CNo 0 ;;
  at_put Success_Num 0 ;;
  at_put Completed_Num 0 ;;
  at_put CNo 0 ;;
  at_put DCNo 0 ;;
  at_put Dev_CNo 0 ;;
  at_put cn 0 ;;
  let* mode := at_get MNL_AT_SIGNAL_MODE in
  if mode =? 1 then
    if n <=? 0 then
      send_text "Invalid Test Num = 0" ;;
      let* state := at_get MNL_AT_TEST_STATE in
      when (negb (state =? MNL_AT_TEST_UNKNOWN)) (gpsinf_mtk_gps_test_stop ;; ret tt)
    else
      at_put MNL_AT_SIGNAL_TEST_BEGIN 1 ;;
      at_put MNL_AT_TEST_STATE MNL_AT_TEST_INPROGRESS ;;
      send_text "GNSS TEST START OK" ;;
      let* now := time in
      at_put start_time now
  else if 0 <=? n then
    let* r := gpsinf_mtk_gps_test_start n GPS_TEST_PRN 2 0 in
    start_ack r "GNSS TEST START OK" "GNSS ERROR"
  else send_text "Invalid Test Num =0".

Definition at_gnss_command_parser (command : list Z) : prog at_world unit :=
  at_put test_mode_flag 0 ;;
  let* c7 := lift (rd command 7) in
  let* c8 := lift (rd command 8) in
  let* c9 := lift (rd command 9) in
  if is_letter c7 "=" then
    if is_letter c8 "?" && (c9 =? 0) then at_command_send_test_result junk
    else if is_letter c8 "Ss" && (c9 =? 0) then gnss_signal_mode
    else if is_letter c8 "Ee" && (c9 =? 0) then gnss_end
    else gnss_test command
  else if is_letter c7 "?" && (c8 =? 0) then at_command_send_test_result junk
  else if c7 =? 0 then at_command_send_cno junk command
  else send_text "GNSS ERROR".

Definition at_command_parser (command : list Z) : prog at_world unit :=
  let* gps := lift (memeq command 0 "AT%GPS") in
  if gps : bool then at_gps_command_parser command
  else
    let* gnss := lift (memeq command 0 "AT%GNSS") in
    if gnss : bool then at_gnss_command_parser command
    else send_text "GPS ERROR".

(** The socket is not blocking: the loop ends with an error that is not
    [EINTR].  A datagram is cut to the 20 bytes of [cmd], which is kept from
    command to command; [cmd[ret] = 0x00] follows. *)
Fixpoint at_cmd_loop (cmd : list Z) (answers : list recvres) : prog at_world unit :=
  match answers with
  | [] => blocked
  | RFail EINTR :: rest => at_cmd_loop cmd rest
  | RFail _ :: _ => ret tt
  | RData msg :: rest =>
      let data := take 20 msg in
      let cmd1 := data ++ drop (length data) cmd in
      let* cmd2 := lift (wr cmd1 (zlen data) 0) in
      at_command_parser cmd2 ;;
      at_cmd_loop cmd2 rest
  end.

Definition at_cmd2mnl_hdlr (fd : Z) (answers : list recvres) : prog at_world unit :=
  at_put fd_at_test fd ;;
  at_cmd_loop (local junk 20) answers.

End commands.

(** ** The NMEA side *)

(** The end of a test: its results, and the stop of the GPS. *)
Definition test_done : prog at_world unit :=
  let* err := at_get Err_Code in
  let* suc := at_get Success_Num in
  let* com := at_get Completed_Num in
  let* avg := at_get Avg_CNo in
  let* dev := at_get Dev_CNo in
  set_result 0 err ;;
  set_result 3 suc ;;
  set_result 4 com ;;
  set_result 5 avg ;;
  set_result 6 dev ;;
  at_put Wait_Num 0 ;;
  at_put MNL_AT_TEST_STATE MNL_AT_TEST_DONE ;;
  at_put Err_Code 1 ;;
  let* flag := at_get MNL_AT_TEST_FLAG in
  when (flag =? 1)
    (gpsinf_mtk_gps_test_stop ;;
     at_put Failure_Num 0 ;;
     at_put prev_success_num 0).

(** One second of a test: whether it is over. *)
Definition test_second : prog at_world bool :=
  let* suc := at_get Success_Num in
  let* prev := at_get prev_success_num in
  let* num := at_get hal_test_num in
  if 0 <? suc then
    when (prev =? suc) (at_incr Failure_Num) ;;
    let* fail := at_get Failure_Num in
    let* com := lift (chk (suc + fail)) in
    at_put Completed_Num com ;;
    ret (com =? num)
  else
    at_incr Wait_Num ;;
    let* wait := at_get Wait_Num in
    when (wait =? MAX_VALID_STATUS_WAIT_COUNT)
      (at_put Completed_Num num ;;
       at_put Err_Code 32 ;;
       at_put Completed_Num 1) ;;
    ret (wait =? MAX_VALID_STATUS_WAIT_COUNT).

(** [end_tag] is [get_gps_nmea_parser_end_status()]. *)
Definition nmea_parser_at_cmd_pre (end_tag : bool) : prog at_world unit :=
  let* flag := at_get MNL_AT_TEST_FLAG in
  let* begin := at_get MNL_AT_SIGNAL_TEST_BEGIN in
  when ((flag =? 1) || (begin =? 1))
    (let* now := time in
     let* start := at_get start_time in
     let* time_diff := lift (chk (now - start)) in
     let* delay := at_get hal_time_delay in
     when ((delay <=? time_diff) && end_tag)
       (let* stopped := test_second in
        let* suc := at_get Success_Num in
        at_put prev_success_num suc ;;
        when stopped test_done)).

(** The signal of the satellite that is tested. *)
Definition signal_found (snr_i : Z) : prog at_world unit :=
  let* mode := at_get MNL_AT_SIGNAL_MODE in
  let* begin := at_get MNL_AT_SIGNAL_TEST_BEGIN in
  when (negb (mode =? 0) && (begin =? 0)) (at_put MNL_AT_TEST_STATE MNL_AT_TEST_INPROGRESS) ;;
  when (negb (mode =? 0) && negb (begin =? 0))
    (at_put MNL_AT_TEST_STATE MNL_AT_TEST_RESULT_DONE ;; at_put sig_suc_num 1) ;;
  let* flag := at_get MNL_AT_TEST_FLAG in
  let* c := lift (chk (snr_i * 10)) in
  when (negb (flag =? 0))
    (at_put Err_Code 0 ;;
     let* sum := at_get CNo in
     let* sum := lift (chk (sum + c)) in
     at_put CNo sum ;;
     let* p := gets (fun w => Dev_CNr (a_at w)) in
     let* suc := at_get Success_Num in
     match p with
     | PBlock b =>
         let* b := lift (wr b suc c) in
         put_dev (PBlock b)
     | _ => undef
     end ;;
     at_incr Success_Num ;;
     let* suc := at_get Success_Num in
     if suc =? 0 then undef else at_put Avg_CNo (Z.quot sum suc)) ;;
  at_put cn c.

Definition signal_lost : prog at_world unit :=
  let* cancel := at_get MNL_AT_CANCEL_ALARM in
  let* flag := at_get MNL_AT_TEST_FLAG in
  when ((cancel =? 1) && (flag =? 1)) (at_incr test_num) ;;
  at_put sig_suc_num 0.

(** The sum of the squared deviations from number [j] on. *)
Fixpoint deviations (j : Z) (n : nat) : prog at_world unit :=
  match n with
  | O => ret tt
  | S n' =>
      let* p := gets (fun w => Dev_CNr (a_at w)) in
      match p with
      | PBlock b =>
          let* x := lift (rd b j) in
          let* avg := at_get Avg_CNo in
          let* d := lift (chk (x - avg)) in
          let* d2 := lift (chk (d * d)) in
          let* sum := at_get DCNo in
          let* sum := lift (chk (sum + d2)) in
          at_put DCNo sum ;;
          deviations (j + 1) n'
      | _ => undef
      end
  end.

(** The integer part of the square root is that of the rounded one. *)
Definition deviation : prog at_world unit :=
  let* suc := at_get Success_Num in
  when (negb (suc =? 0))
    (deviations 0 (Z.to_nat suc) ;;
     let* sum := at_get DCNo in
     at_put DCNo 0 ;;
     if Z.quot sum suc <? 0 then undef else at_put Dev_CNo (Z.sqrt (Z.quot sum suc))).

(** The loop over the satellites counted, up to the one that is tested. *)
Fixpoint search_loop (i : Z) (n : nat) : prog at_world unit :=
  match n with
  | O => ret tt
  | S n' =>
      let* a := gets a_at in
      let* p := lift (rd (at_prn a) i) in
      let* num := at_get hal_prn_num in
      if p =? num then
        let* s := lift (rd (at_snr a) i) in
        (if s =? 0 then signal_lost else signal_found s) ;;
        deviation
      else search_loop (i + 1) n'
  end.

(** Of the reader only [sv_count] is used. *)
Definition gps_at_command_search_satellite (sv_count : Z) : prog at_world unit :=
  search_loop 0 (Z.to_nat sv_count).

Definition gps_at_command_test_proc (sv_count : Z) : prog at_world unit :=
  let* state := at_get MNL_AT_TEST_STATE in
  if state =? MNL_AT_TEST_DONE then ret tt
  else
    let* mode := at_get MNL_AT_SIGNAL_MODE in
    if mode =? 1 then
      let* begin := at_get MNL_AT_SIGNAL_TEST_BEGIN in
      when (negb (begin =? 0))
        (gps_at_command_search_satellite sv_count ;;
         let* suc := at_get sig_suc_num in
         let* c := at_get cn in
         set_result 0 0 ;;
         set_result 3 suc ;;
         set_result 4 1 ;;
         set_result 5 c ;;
         set_result 6 0)
    else gps_at_command_search_satellite sv_count.

(** ** Accesses in range *)

Lemma rd_at {A} (pre : list A) c post i :
  i = zlen pre -> rd (pre ++ c :: post) i = Done c.
Proof.
  intros ->. unfold rd. iftrue. rewrite Nat2Z.id, lookup_app_r by lia.
  by rewrite Nat.sub_diag.
Qed.

Lemma rd_lookup {A} (m : list A) i c :
  0 <= i -> m !! Z.to_nat i = Some c -> rd m i = Done c.
Proof. intros Hi E. unfold rd. iftrue. by rewrite E. Qed.

Lemma rd_in {A} (m : list A) i : 0 <= i < zlen m -> exists c, rd m i = Done c /\ m !! Z.to_nat i = Some c.
Proof.
  intros Hi. destruct (lookup_lt_is_Some_2 m (Z.to_nat i)) as [c E]; [lia|].
  exists c. split; [by apply rd_lookup; [lia|]|done].
Qed.

Lemma wr_in_range {A} (m : list A) i v :
  0 <= i < zlen m -> wr m i v = Done (<[Z.to_nat i := v]> m).
Proof. intros H. unfold wr. by iftrue. Qed.

Lemma chk_small z : Z.abs z < 2 ^ 31 -> chk z = Done z.
Proof. intros H. unfold chk, in_s. by iftrue. Qed.
