(* ===== verification/Calendar.v ===== *)
(** * Calendar functions of the C library

    What the daemon uses of [time.h]: [struct tm], [gmtime_r], [localtime_r] and
    [mktime], whose results depend on the zone database of the device and are a
    parameter; and the reference they are compared with, the seconds from the
    epoch to a broken-down time of the Gregorian calendar. *)

From S2P Require Import Prelude.

(** [struct tm] without the members the code neither sets nor reads. *)
Record tm : Type := Tm {
  tm_sec : Z; tm_min : Z; tm_hour : Z; tm_mday : Z; tm_mon : Z; tm_year : Z; tm_isdst : Z
}.
Definition tm_zero : tm := Tm 0 0 0 0 0 0 0.

(** [mktime] also normalises its argument. *)
Record calendar : Type := Calendar {
  cal_gmtime : Z -> tm;
  cal_localtime : Z -> tm;
  cal_mktime : tm -> Z * tm
}.

(** Days from 1970-01-01 to a date of the Gregorian calendar; the months are
    counted from March, so that the leap day is the last of a year. *)
Definition days_from_civil (year month day : Z) : Z :=
  let y := if month <=? 2 then year - 1 else year in
  let m := (month + 9) mod 12 in
  365 * y + y / 4 - y / 100 + y / 400 + (153 * m + 2) / 5 + (day - 1) - 719468.

(** Seconds from the epoch to a broken-down UTC time. *)
Definition timegm (t : tm) : Z :=
  days_from_civil (tm_year t + 1900) (tm_mon t + 1) (tm_mday t) * 86400 +
  tm_hour t * 3600 + tm_min t * 60 + tm_sec t.

(** ** What the C library promises *)

(** Midnight of 1 January 2038, UTC, some days before the end of a [time_t] of
    32 bits. *)
Definition Y2038 : Z := 2145916800.

(** A date of the years 1970 to 2037 and a time of day, the numbers perhaps
    somewhat outside the ranges of a calendar date. *)
Definition plain_tm (t : tm) : Prop :=
  70 <= tm_year t <= 137 /\ -1 <= tm_mon t <= 11 /\ 0 <= tm_mday t <= 31 /\
  Z.abs (tm_hour t) <= 99 /\ Z.abs (tm_min t) <= 99 /\ Z.abs (tm_sec t) <= 86400.

(** Until 2038 [gmtime_r] breaks the time down, [mktime] takes back what
    [localtime_r] gave; for such dates [mktime] is less than a day away from the
    time that the members denote in UTC, and its result does not change when it
    is applied to the members it has normalised. *)
Record calendar_ok (cal : calendar) : Prop := {
  co_gmtime x : 0 <= x < Y2038 -> let t := cal_gmtime cal x in
    timegm t = x /\ 0 <= tm_sec t < 60 /\ 0 <= tm_min t < 60 /\ 0 <= tm_hour t < 24 /\
    1 <= tm_mday t <= 31 /\ 0 <= tm_mon t <= 11;
  co_localtime x : 0 <= x < Y2038 -> fst (cal_mktime cal (cal_localtime cal x)) = x;
  co_mktime t : plain_tm t -> Z.abs (fst (cal_mktime cal t) - timegm t) <= 86400;
  co_again t : plain_tm t -> fst (cal_mktime cal (snd (cal_mktime cal t))) = fst (cal_mktime cal t)
}.

(** The days of a month by its number, counted from December of the year
    before. *)
Lemma month_days y m d :
  0 <= m <= 12 -> exists n, 31 * (m - 1) - 7 <= n <= 31 * (m - 1) /\ (1 <= m -> 0 <= n <= 334) /\
    days_from_civil y m d =
    365 * y + (if m <=? 2 then (y - 1) / 4 - (y - 1) / 100 + (y - 1) / 400 else y / 4 - y / 100 + y / 400)
    + n + d - 719528.
Proof.
  intros Hm. unfold days_from_civil.
  exists ((153 * ((m + 9) mod 12) + 2) / 5 - (if m <=? 2 then 306 else -59)).
  assert (m = 0 \/ m = 1 \/ m = 2 \/ m = 3 \/ m = 4 \/ m = 5 \/ m = 6 \/ m = 7 \/ m = 8 \/ m = 9 \/ m = 10 \/
          m = 11 \/ m = 12) as H by lia.
  repeat destruct H as [->|H].
  all: try rewrite H; repeat match goal with
    | |- context [?a <=? 2] => let b := eval vm_compute in (a <=? 2) in change (a <=? 2) with b
    end; cbv iota; Z.to_euclidean_division_equations; lia.
Qed.

Lemma plain_range t : plain_tm t -> - 20000000 <= timegm t < Y2038 + 1000000.
Proof.
  unfold plain_tm, timegm, Y2038. intros (H1 & H2 & H3 & H4 & H5 & H6).
  destruct (month_days (tm_year t + 1900) (tm_mon t + 1) (tm_mday t)) as (n & Hn & Hn' & ->); [lia|].
  destruct (_ <=? 2); Z.to_euclidean_division_equations; lia.
Qed.

Section promised.
Context (cal : calendar) (Hcal : calendar_ok cal).

Lemma gmtime_plain x : 0 <= x < Y2038 -> plain_tm (cal_gmtime cal x).
Proof.
  intros Hx. destruct (co_gmtime _ Hcal x Hx) as (E & H1 & H2 & H3 & H4 & H5). unfold plain_tm.
  revert E. unfold timegm, Y2038 in *. set (t := cal_gmtime cal x) in *.
  destruct (month_days (tm_year t + 1900) (tm_mon t + 1) (tm_mday t)) as (n & Hn & Hn' & ->); [lia|].
  destruct (_ <=? 2); Z.to_euclidean_division_equations; lia.
Qed.

Lemma zones_close x :
  0 <= x < Y2038 ->
  Z.abs (fst (cal_mktime cal (cal_gmtime cal x)) - fst (cal_mktime cal (cal_localtime cal x))) <= 86400.
Proof.
  intros Hx. rewrite (co_localtime _ Hcal x Hx). destruct (co_gmtime _ Hcal x Hx) as [E _].
  pose proof (co_mktime _ Hcal _ (gmtime_plain x Hx)). lia.
Qed.

Lemma mktime_plain t :
  plain_tm t -> - 2 ^ 31 + 172800 < fst (cal_mktime cal (snd (cal_mktime cal t))) < 2 ^ 31 - 172800.
Proof.
  intros Ht. rewrite (co_again _ Hcal t Ht). pose proof (co_mktime _ Hcal t Ht). pose proof (plain_range t Ht).
  unfold Y2038 in *. lia.
Qed.
End promised.

(** ** Zones *)

(** The calendar functions of a zone [off] seconds east of Greenwich, without
    summer time. *)
Record fixed_zone (cal : calendar) (off : Z) : Prop := {
  fz_range : Z.abs off <= 86400;
  fz_gmtime : forall t, timegm (cal_gmtime cal t) = t;
  fz_localtime : forall t, timegm (cal_localtime cal t) = t + off;
  fz_mktime : forall t, fst (cal_mktime cal t) = timegm t - off;
  fz_normal : forall t, timegm (snd (cal_mktime cal t)) = timegm t
}.

(** An instance: eight hours east, with the time in seconds only. *)
Definition east_zone : calendar :=
  Calendar (fun t => Tm t 0 0 1 0 70 0) (fun t => Tm (t + 28800) 0 0 1 0 70 0)
    (fun t => (timegm t - 28800, t)).

Lemma east_zone_fixed : fixed_zone east_zone 28800.
Proof.
  assert (forall x, timegm (Tm x 0 0 1 0 70 0) = x) as H.
  { intros x. unfold timegm. cbn [tm_sec tm_min tm_hour tm_mday tm_mon tm_year].
    change (days_from_civil _ _ _) with 0. lia. }
  split; [lia|intros t; apply H|intros t; apply H|done|done].
Qed.

(** [mktime] gives -1 for a time that a [time_t] of 32 bits cannot hold. *)
Definition time_t_of (x : Z) : Z := if is_int x then x else -1.

(** The calendar functions of a zone [off] seconds east of Greenwich, where the
    clocks are [dst t] seconds ahead of that when they would show [t] without
    summer time.  [gmtime_r] clears [tm_isdst], so that [mktime] takes its result
    for the time without summer time; a negative [tm_isdst] lets [mktime] find
    out. *)
Record summer_zone (cal : calendar) (off : Z) (dst : Z -> Z) : Prop := {
  sz_range : Z.abs off <= 86400;
  sz_dst t : 0 <= dst t <= 7200;
  sz_utc x : 0 <= x < 2 ^ 31 -> fst (cal_mktime cal (cal_gmtime cal x)) = time_t_of (x - off);
  sz_civil t : tm_isdst t = -1 -> fst (cal_mktime cal t) = time_t_of (timegm t - off - dst (timegm t))
}.

Lemma time_t_id x : - 2 ^ 31 <= x < 2 ^ 31 -> time_t_of x = x.
Proof. intros H. unfold time_t_of. replace (is_int x) with true; [done|]. symmetry. apply in_s_spec. lia. Qed.
Lemma time_t_beyond x : 2 ^ 31 <= x -> time_t_of x = -1.
Proof.
  intros H. unfold time_t_of. replace (is_int x) with false; [done|]. symmetry.
  apply not_true_iff_false. rewrite in_s_spec. lia.
Qed.
Lemma time_t_int x : is_int (time_t_of x) = true.
Proof. unfold time_t_of. by destruct (is_int x) eqn:E. Qed.

(** *** Instances *)

(** The date of a day, counted from 1970-01-01, and the broken-down time. *)
Definition civil_of_days (days : Z) : Z * Z * Z :=
  let z := days + 719468 in
  let doe := z mod 146097 in
  let yoe := (doe - doe / 1460 + doe / 36524 - doe / 146096) / 365 in
  let day_of_year := doe - (365 * yoe + yoe / 4 - yoe / 100) in
  let mp := (5 * day_of_year + 2) / 153 in
  let m := if mp <? 10 then mp + 3 else mp - 9 in
  (yoe + 400 * (z / 146097) + (if m <=? 2 then 1 else 0), m, day_of_year - (153 * mp + 2) / 5 + 1).
Definition civil (x : Z) : tm :=
  let '(y, m, d) := civil_of_days (x / 86400) in
  let s := x mod 86400 in
  Tm (s mod 60) (s / 60 mod 60) (s / 3600) d (m - 1) (y - 1900) 0.

Definition date_matches (days : Z) (date : Z * Z * Z) : bool :=
  let '(y, m, d) := date in
  (days_from_civil y m d =? days) && (1 <=? m) && (m <=? 12) && (1 <=? d) && (d <=? 31).
Lemma date_matches_spec days y m d :
  date_matches days (y, m, d) = true -> days_from_civil y m d = days /\ 1 <= m <= 12 /\ 1 <= d <= 31.
Proof.
  unfold date_matches. set (n := days_from_civil y m d). clearbody n. rewrite !andb_true_iff, Z.eqb_eq. lia.
Qed.
(** [p] holds of the [2 ^ d] numbers from [x] on. *)
Fixpoint all_from (p : Z -> bool) (d : nat) (x : Z) : bool :=
  match d with O => p x | S d' => all_from p d' x && all_from p d' (x + 2 ^ Z.of_nat d') end.
Lemma all_from_spec p d x y : all_from p d x = true -> x <= y < x + 2 ^ Z.of_nat d -> p y = true.
Proof.
  revert x. induction d as [|d IH]; intros x H Hy; cbn [all_from] in H.
  - change (2 ^ Z.of_nat 0) with 1 in Hy. by replace y with x by lia.
  - rewrite Nat2Z.inj_succ, Z.pow_succ_r in Hy by lia. apply andb_true_iff in H as [H1 H2].
    destruct (Z.ltb_spec y (x + 2 ^ Z.of_nat d)); [apply (IH x H1); lia|]. apply (IH _ H2). lia.
Qed.
Lemma civil_days : all_from (fun n => date_matches n (civil_of_days n)) 15 (-400) = true.
Proof. vm_compute. reflexivity. Qed.

Lemma day_parts s :
  0 <= s < 86400 -> s / 3600 * 3600 + s / 60 mod 60 * 60 + s mod 60 = s /\
  0 <= s / 3600 < 24 /\ 0 <= s / 60 mod 60 < 60 /\ 0 <= s mod 60 < 60.
Proof. intros H. Z.to_euclidean_division_equations; lia. Qed.

Lemma civil_eq x y m d :
  civil_of_days (x / 86400) = (y, m, d) ->
  civil x = Tm (x mod 86400 mod 60) (x mod 86400 / 60 mod 60) (x mod 86400 / 3600) d (m - 1) (y - 1900) 0.
Proof. unfold civil. by intros ->. Qed.

Lemma civil_isdst x : tm_isdst (civil x) = 0.
Proof. destruct (civil_of_days (x / 86400)) as [[y m] d] eqn:E. by rewrite (civil_eq _ _ _ _ E). Qed.

Lemma civil_date x y m d :
  - 30000000 <= x < 2 ^ 31 -> civil_of_days (x / 86400) = (y, m, d) ->
  days_from_civil y m d = x / 86400 /\ 1 <= m <= 12 /\ 1 <= d <= 31.
Proof.
  intros Hx Ec. assert (- 400 <= x / 86400 < 24856) as Hd by (Z.to_euclidean_division_equations; lia).
  apply date_matches_spec. rewrite <- Ec.
  refine (all_from_spec (fun n => date_matches n (civil_of_days n)) 15 (-400) _ civil_days _).
  change (2 ^ Z.of_nat 15) with 32768. lia.
Qed.

Lemma civil_ok x :
  - 30000000 <= x < 2 ^ 31 ->
  timegm (civil x) = x /\ 0 <= tm_sec (civil x) < 60 /\ 0 <= tm_min (civil x) < 60 /\
  0 <= tm_hour (civil x) < 24 /\ 1 <= tm_mday (civil x) <= 31 /\ 0 <= tm_mon (civil x) <= 11.
Proof.
  intros Hx. destruct (civil_of_days (x / 86400)) as [[y m] d] eqn:Ec. rewrite (civil_eq _ _ _ _ Ec).
  destruct (civil_date _ _ _ _ Hx Ec) as (E & Hm & Hd). unfold timegm.
  cbn [tm_sec tm_min tm_hour tm_mday tm_mon tm_year].
  replace (y - 1900 + 1900) with y by lia. replace (m - 1 + 1) with m by lia. rewrite E.
  pose proof (Z.div_mod x 86400 ltac:(lia)) as Ex.
  destruct (day_parts _ (Z.mod_pos_bound x 86400 ltac:(lia))) as (Es & H1 & H2 & H3).
  generalize dependent (x mod 86400). intros s Ex Es H1 H2 H3. clear Ec E. lia.
Qed.

(** A zone with some summers. *)
Definition zone_calendar (off : Z) (dst : Z -> Z) : calendar :=
  Calendar civil (fun x => civil (x + off))
    (fun t =>
       let ahead := if tm_isdst t =? -1 then dst (timegm t) else 0 in
       let x := time_t_of (timegm t - off - ahead) in (x, civil (x + off))).

Lemma zone_calendar_summer off dst :
  Z.abs off <= 86400 -> (forall t, 0 <= dst t <= 7200) -> summer_zone (zone_calendar off dst) off dst.
Proof.
  intros Ho Hd. split; [done|done| |].
  - intros x Hx. destruct (civil_ok x ltac:(lia)) as [E _]. cbn [cal_mktime cal_gmtime zone_calendar fst]. rewrite E.
    rewrite civil_isdst. change (0 =? -1) with false. cbv iota. f_equal. lia.
  - intros t Et. cbn [cal_mktime zone_calendar fst]. by rewrite Et.
Qed.

(** Beijing; there is no summer time. *)
Definition beijing : calendar := zone_calendar 28800 (fun _ => 0).

Lemma beijing_ok : calendar_ok beijing.
Proof.
  assert (forall t, fst (cal_mktime beijing t) = time_t_of (timegm t - 28800)) as Hm.
  { intros t. unfold beijing, zone_calendar. cbn [cal_mktime fst]. destruct (_ =? -1); f_equal; lia. }
  assert (forall t, snd (cal_mktime beijing t) = civil (fst (cal_mktime beijing t) + 28800)) as Hn
    by (intros t; unfold beijing, zone_calendar; cbn [cal_mktime fst snd]; reflexivity).
  split.
  - intros x Hx. unfold Y2038 in Hx. cbv zeta. cbn [cal_gmtime beijing zone_calendar]. apply civil_ok. lia.
  - intros x Hx. unfold Y2038 in Hx. rewrite Hm. cbn [cal_localtime beijing zone_calendar].
    rewrite (proj1 (civil_ok (x + 28800) ltac:(lia))), time_t_id; lia.
  - intros t Ht. pose proof (plain_range t Ht). unfold Y2038 in *. rewrite Hm, time_t_id; lia.
  - intros t Ht. pose proof (plain_range t Ht). unfold Y2038 in *. rewrite (Hm (snd _)), Hn, Hm.
    rewrite (time_t_id (timegm t - 28800)) by lia.
    rewrite (proj1 (civil_ok (timegm t - 28800 + 28800) ltac:(lia))), time_t_id; lia.
Qed.

(** Central Europe, with the summer of 2016. *)
Definition paris_dst (t : Z) : Z := if (1459044000 <=? t) && (t <? 1477792800) then 3600 else 0.
Definition paris : calendar := zone_calendar 3600 paris_dst.
Lemma paris_summer : summer_zone paris 3600 paris_dst.
Proof. apply zone_calendar_summer; [lia|]. intros t. unfold paris_dst. case_match; lia. Qed.
