(* ===== verification/GpsTime.v ===== *)
(** * From GPS time to [time_t]

    [GpsToUtcTime] of [src/gps/mtk_mnld/mnld_entity/src/epo.c]: the week and the
    second of the week are counted in days, years and months by loops, and the
    broken-down time goes to [mktime].  Shown: the loops end and find the date of
    the Gregorian calendar. *)

From S2P Require Import Prelude LbsUtility AtCommand Calendar.

(** ** The function *)

(** The year [y] after 1980 is a leap year. *)
Definition leap (y : Z) : bool :=
  if Z.rem y 100 =? 20 then Z.rem y 400 =? 20 else Z.rem y 4 =? 0.

(** The loop over the years; [days] is unsigned.  The fuel is [days]: every turn
    takes away at least 365. *)
Fixpoint elapsed_years (days y : Z) (fuel : nat) : outcome (Z * Z) :=
  if days <? 365 then Done (days, y)
  else
    match fuel with
    | O => Blocked
    | S fuel' =>
        if Z.rem y 100 =? 20 then
          if Z.rem y 400 =? 20 then
            if 366 <=? days then elapsed_years (days - 366) (y + 1) fuel' else Done (days, y)
          else elapsed_years (days - 365) (y + 1) fuel'
        else if Z.rem y 4 =? 0 then
          if 366 <=? days then elapsed_years (days - 366) (y + 1) fuel' else Done (days, y)
        else elapsed_years (days - 365) (y + 1) fuel'
    end.

(** [doy], after the correction for a leap year. *)
Definition doy (y : Z) : list Z :=
  let l := if leap y then 1 else 0 in
  [0; 31; 59 + l; 90 + l; 120 + l; 151 + l; 181 + l; 212 + l; 243 + l; 273 + l; 304 + l; 334 + l].

(** The first index from [i] on with [days] before that month, or 12. *)
Fixpoint month_index (days i : Z) (l : list Z) : Z :=
  match l with
  | [] => i
  | d :: rest => if days <? d then i else month_index days (i + 1) rest
  end.

(** [dfTow] is a double; every caller passes an [int] or an [unsigned] below a
    week, so that all its values here are integers and exact, and the quotients
    are truncated when they are stored. *)
Definition gps_broken_down (i2Wn dfTow : Z) : outcome tm :=
  obind (chk (i2Wn * 7)) (fun d =>
  obind (chk (d + Z.quot dfTow 86400)) (fun d =>
  obind (chk (d + 5)) (fun d =>
  let days := u32 d in
  let sec := dfTow - Z.quot dfTow 86400 * 86400 in
  obind (elapsed_years days 0 (Z.to_nat days)) (fun '(days, y) =>
  let mo := month_index days 0 (doy y) in
  let day := if 0 <? mo then s32 (days - nth (Z.to_nat (mo - 1)) (doy y) 0 + 1) else 0 in
  Done (Tm (sec - Z.quot sec 60 * 60) (Z.quot (Z.rem sec 3600) 60) (Z.quot sec 3600) day (mo - 1)
           (1980 + y - 1900) (-1)))))).

(** [time_t] of the daemon has 32 bits. *)
Definition GpsToUtcTime (cal : calendar) (i2Wn dfTow : Z) : outcome Z :=
  obind (gps_broken_down i2Wn dfTow) (fun t => Done (s32 (fst (cal_mktime cal t)))).

(** ** The calendar *)

Definition year_start (y : Z) : Z := days_from_civil (1980 + y) 1 1.
Definition leap_day (y : Z) : Z := if leap y then 1 else 0.

(** Leap days up to the end of a year. *)
Lemma leap_days y :
  0 <= y ->
  (1980 + y) / 4 - (1980 + y) / 100 + (1980 + y) / 400 -
  ((1980 + y - 1) / 4 - (1980 + y - 1) / 100 + (1980 + y - 1) / 400) = leap_day y.
Proof.
  intros Hy. unfold leap_day, leap. rewrite !Z.rem_mod_nonneg by lia.
  destruct (Z.eqb_spec (y mod 100) 20); [destruct (Z.eqb_spec (y mod 400) 20)|
    destruct (Z.eqb_spec (y mod 4) 0)]; Z.to_euclidean_division_equations; lia.
Qed.

Lemma year_step y : 0 <= y -> year_start (y + 1) = year_start y + 365 + leap_day y.
Proof.
  intros Hy. pose proof (leap_days y Hy) as E. unfold year_start, days_from_civil.
  change (1 <=? 2) with true. cbn iota. replace (1980 + (y + 1) - 1) with (1980 + y) by lia.
  change ((1 + 9) mod 12) with 10. lia.
Qed.

Lemma elapsed_years_spec fuel days y :
  0 <= y -> 0 <= days -> days <= Z.of_nat fuel ->
  exists days' y', elapsed_years days y fuel = Done (days', y') /\ 0 <= y' /\
    0 <= days' < 365 + leap_day y' /\ year_start y' + days' = year_start y + days.
Proof.
  revert days y. induction fuel as [|fuel IH]; intros days y Hy Hd Hf; cbn [elapsed_years].
  - exists days, y. iftrue. unfold leap_day. repeat split; try lia. case_match; lia.
  - pose proof (year_step y Hy) as Hs. destruct (Z.ltb_spec days 365) as [Hlt|Hge].
    { exists days, y. unfold leap_day. repeat split; try lia. case_match; lia. }
    assert (forall n, n = 365 + leap_day y -> n <= days ->
      exists days' y', elapsed_years (days - n) (y + 1) fuel = Done (days', y') /\ 0 <= y' /\
        0 <= days' < 365 + leap_day y' /\ year_start y' + days' = year_start y + days) as Hnext.
    { intros n Hn Hle. assert (365 <= n) by (unfold leap_day in Hn; case_match; lia).
      destruct (IH (days - n) (y + 1)) as (d' & y' & E & H1 & H2 & H3); [lia..|].
      exists d', y'. repeat split; try done; lia. }
    assert (leap_day y = if Z.rem y 100 =? 20 then (if Z.rem y 400 =? 20 then 1 else 0)
                         else if Z.rem y 4 =? 0 then 1 else 0) as Hl by (unfold leap_day, leap; by repeat case_match).
    destruct (Z.rem y 100 =? 20); [destruct (Z.rem y 400 =? 20)|destruct (Z.rem y 4 =? 0)].
    all: try (apply Hnext; lia).
    all: destruct (Z.leb_spec 366 days); [apply Hnext; lia|].
    all: exists days, y; repeat split; (done || lia).
Qed.

Ltac compute_in t := let v := eval vm_compute in t in change t with v.

(** The month and the day of the month. *)
Lemma month_day y days :
  0 <= y -> 0 <= days < 365 + leap_day y ->
  let mo := month_index days 0 (doy y) in
  1 <= mo <= 12 /\ 0 <= days - nth (Z.to_nat (mo - 1)) (doy y) 0 < 31 /\
  days_from_civil (1980 + y) mo (days - nth (Z.to_nat (mo - 1)) (doy y) 0 + 1) = year_start y + days.
Proof.
  intros Hy Hd. pose proof (leap_days y Hy) as E. unfold doy, leap_day in *.
  set (l := if leap y then 1 else 0) in *. assert (0 <= l <= 1) as Hl by (subst l; case_match; lia).
  clearbody l. cbn [month_index].
  repeat match goal with
  | |- context [if ?d <? ?n then _ else _] => destruct (Z.ltb_spec d n); [|try lia]
  end; try lia.
  all: cbv zeta; unfold year_start, days_from_civil.
  all: match goal with |- 1 <= ?m <= 12 /\ _ => compute_in m end.
  all: match goal with |- context [nth ?k _ 0] => compute_in k end; cbn [nth].
  all: repeat match goal with |- context [?m <=? 2] => compute_in (m <=? 2) end; cbn iota.
  all: repeat match goal with |- context [(?m + 9) mod 12] => compute_in ((m + 9) mod 12) end.
  all: repeat match goal with |- context [(153 * ?m + 2) / 5] => compute_in ((153 * m + 2) / 5) end.
  all: lia.
Qed.

(** ** The result *)

(** Seconds from the epoch to the start of GPS time, 6 January 1980. *)
Definition GPS_EPOCH : Z := 315964800.

(** Seconds from the epoch to a GPS time; leap seconds are not counted. *)
Definition gps_seconds (wn tow : Z) : Z := GPS_EPOCH + wn * 604800 + tow.

Lemma gps_broken_down_ok wn tow :
  0 <= wn -> 0 <= tow -> gps_seconds wn tow < 2 ^ 33 ->
  exists t, gps_broken_down wn tow = Done t /\ timegm t = gps_seconds wn tow /\
    0 <= tm_sec t < 60 /\ 0 <= tm_min t < 60 /\ 0 <= tm_hour t < 24 /\
    1 <= tm_mday t <= 31 /\ 0 <= tm_mon t < 12.
Proof.
  unfold gps_seconds, GPS_EPOCH. intros Hw Ht Hb. unfold gps_broken_down.
  assert (0 <= tow / 86400 /\ 86400 * (tow / 86400) <= tow) as Hq by (Z.to_euclidean_division_equations; lia).
  rewrite Z.quot_div_nonneg by lia.
  rewrite chk_small by lia. cbn [obind]. rewrite chk_small by lia. cbn [obind].
  rewrite chk_small by lia. cbn [obind].
  rewrite wrap_u_id by (apply in_u_spec; lia). set (n := wn * 7 + tow / 86400 + 5).
  destruct (elapsed_years_spec (Z.to_nat n) n 0) as (d & y & E & Hy & Hd & Hs); [lia..|].
  rewrite E. cbn [obind]. destruct (month_day y d Hy Hd) as (Hm & Hday & Hciv).
  set (mo := month_index d 0 (doy y)) in *. set (first := nth _ _ _) in *.
  replace (0 <? mo) with true by lia.
  rewrite wrap_s_id by (done || apply in_s_spec; lia).
  set (sec := tow - tow / 86400 * 86400).
  assert (0 <= sec < 86400 /\ tow = tow / 86400 * 86400 + sec) as [Hsec Htow]
    by (subst sec; Z.to_euclidean_division_equations; lia).
  clearbody sec.
  rewrite !Z.quot_div_nonneg, Z.rem_mod_nonneg by (Z.to_euclidean_division_equations; lia).
  eexists. split; [reflexivity|]. unfold timegm. cbn [tm_sec tm_min tm_hour tm_mday tm_mon tm_year].
  replace (1980 + y - 1900 + 1900) with (1980 + y) by lia. replace (mo - 1 + 1) with mo by lia.
  rewrite Hciv, Hs. change (year_start 0) with 3652. subst n.
  repeat split; Z.to_euclidean_division_equations; lia.
Qed.

Lemma GpsToUtcTime_zone (cal : calendar) (off wn tow : Z) :
  fixed_zone cal off -> 0 <= wn -> 0 <= tow -> 0 <= gps_seconds wn tow - off < 2 ^ 31 ->
  GpsToUtcTime cal wn tow = Done (gps_seconds wn tow - off).
Proof.
  intros Hz Hw Ht Hb. pose proof (fz_range _ _ Hz).
  destruct (gps_broken_down_ok wn tow) as (t & E & Hg & _); [lia..|].
  unfold GpsToUtcTime. rewrite E. cbn [obind]. rewrite (fz_mktime _ _ Hz), Hg.
  by rewrite wrap_s_id by (done || apply in_s_spec; lia).
Qed.

Lemma gps_broken_down_dst wn tow t : gps_broken_down wn tow = Done t -> tm_isdst t = -1.
Proof.
  unfold gps_broken_down. destruct (chk _) as [a| | |]; try done. cbn [obind].
  destruct (chk _) as [b| | |]; try done. cbn [obind]. destruct (chk _) as [c| | |]; try done. cbn [obind].
  destruct (elapsed_years _ _ _) as [[d y]| | |]; try done. cbn [obind]. by intros [= <-].
Qed.

(** In a zone with summer time, for every time that [u32] can count from the
    start of GPS time on. *)
Lemma GpsToUtcTime_summer (cal : calendar) (off : Z) (dst : Z -> Z) (wn tow : Z) :
  summer_zone cal off dst -> 0 <= wn -> 0 <= tow -> gps_seconds wn tow < 2 ^ 33 ->
  GpsToUtcTime cal wn tow =
  Done (time_t_of (gps_seconds wn tow - off - dst (gps_seconds wn tow))).
Proof.
  intros Hz Hw Ht Hb. destruct (gps_broken_down_ok wn tow) as (t & E & Hg & _); [lia..|].
  unfold GpsToUtcTime. rewrite E. cbn [obind]. rewrite (sz_civil _ _ _ Hz) by (by eapply gps_broken_down_dst).
  by rewrite Hg, wrap_s_id by (done || apply time_t_int).
Qed.

(** C30: For every GPS time up to the end of [time_t], [GpsToUtcTime] hands to
    [mktime] a broken-down time with all members in range that is that many
    seconds after 6 January 1980 in the Gregorian calendar (leap years and
    century years included), and in a zone of constant offset returns it less
    the offset: the loops over years and months end and nothing overflows. *)
Theorem gps_to_utc (cal : calendar) (off wn tow : Z) :
  fixed_zone cal off -> 0 <= wn -> 0 <= tow -> 0 <= gps_seconds wn tow - off < 2 ^ 31 ->
  (exists t, gps_broken_down wn tow = Done t /\ timegm t = gps_seconds wn tow /\
    0 <= tm_sec t < 60 /\ 0 <= tm_min t < 60 /\ 0 <= tm_hour t < 24 /\
    1 <= tm_mday t <= 31 /\ 0 <= tm_mon t < 12) /\
  GpsToUtcTime cal wn tow = Done (gps_seconds wn tow - off).
Proof.
  intros Hz Hw Ht Hb. pose proof (fz_range _ _ Hz). split.
  - apply gps_broken_down_ok; lia.
  - by apply GpsToUtcTime_zone.
Qed.

(** 1 March 2016, 12:35:19, at eight hours east. *)
Lemma gps_to_utc_witness : GpsToUtcTime east_zone 1886 218119 = Done (1456835719 - 28800).
Proof.
  refine (proj2 (gps_to_utc east_zone 28800 1886 218119 east_zone_fixed _ _ _));
    unfold gps_seconds, GPS_EPOCH; lia.
Defined.
