(* ===== verification/Disk.v ===== *)
(** * Files and downloads

    What the two download threads ([epo.c], [qepo.c]) share: the files of
    [/data/misc/gps/] as a map from names to contents, whose calls succeed on
    files that exist; [curl_easy_download] of [src/gps/mtk_mnld/mnld_entity/src/epo.c];
    the key of a download; and the times in a file of predictions.  libcurl,
    [getEpoUrl], the network and the clocks are a parameter ([epo_env]); they may
    change at every tick, which is a download or a sleep. *)

From stdpp Require Import gmap strings.
From S2P Require Import Prelude LbsUtility AtCommand Calendar GpsTime.
Open Scope Z_scope.

Definition EPO_FILE : string := "/data/misc/gps/EPO.DAT".
Definition EPO_UPDATE_HAL : string := "/data/misc/gps/EPOHAL.DAT".
Definition in_dir (name : string) : string := String.append "/data/misc/gps/" name.

(** What the threads use of the rest of the device. *)
Record epo_env : Type := EpoEnv {
  getEpoUrl : string -> list Z -> option (list Z);   (* the URL of a file with a key *)
  curl : nat -> list Z -> Z * list Z;     (* the result of a download and the bytes received *)
  qepo_finished : nat -> bool;            (* is_qepo_download_finished() *)
  gps_started : nat -> bool;              (* mnld_is_gps_started() *)
  wifi_connected : nat -> bool;           (* is_wifi_network_connected() *)
  net_connected : nat -> bool;            (* is_network_connected() *)
  now_is : nat -> Z;                      (* time(NULL) *)
  retry_expired : nat -> bool;            (* the retry timer, if it runs, has expired *)
  agent_update : nat -> Z;                (* mtk_agps_agent_epo_file_update() *)
  epo_calendar : calendar
}.

Definition CURLE_OK : Z := 0.
Definition CURLE_FAILED_INIT : Z := 2.

(** ** Files *)

(** A state that holds the files and counts the ticks. *)
Class HasDisk (W : Type) : Type := {
  files_of : W -> gmap string (list Z);
  with_files : gmap string (list Z) -> W -> W;
  tick_of : W -> nat;
  with_tick : nat -> W -> W
}.

Section disk.
Context {W : Type} `{HasDisk W} (env : epo_env).

Definition unlink (f : string) : prog W unit := modify (fun e => with_files (delete f (files_of e)) e).
Definition read_file (f : string) : prog W (option (list Z)) := gets (fun e => files_of e !! f).
(** [fopen(f, "w+")] and what is then written. *)
Definition write_file (f : string) (l : list Z) : prog W unit :=
  modify (fun e => with_files (<[f := l]> (files_of e)) e).
(** [fopen(f, "at")]: what is written goes behind the old content. *)
Definition append_to (f : string) (l : list Z) : prog W unit :=
  modify (fun e => with_files (<[f := default [] (files_of e !! f) ++ l]> (files_of e)) e).

Definition next_tick : prog W nat :=
  let* k := gets tick_of in modify (with_tick (S k)) ;; ret k.

(** ** One download *)

Definition curl_easy_download (url : list Z) (filename : string) : prog W Z :=
  let* k := next_tick in
  let '(res, bytes) := curl env k url in
  write_file filename bytes ;;
  ret res.
End disk.

(** A C string: the bytes before the first NUL. *)
Fixpoint c_text (l : list Z) : list Z :=
  match l with
  | [] => []
  | c :: l' => if c =? 0 then [] else c :: c_text l'
  end.

Definition NO_KEY : list Z := lit "0000000000000000".

(** The key of a piece: the last 16 of the 48 bytes of its MD5 file. *)
Definition md_key (content : list Z) : list Z :=
  c_text (take 16 (drop 32 (take 48 content))).

(** ["&counter=%d&url=%d"] behind the key. *)
Definition key_text (key : list Z) (n : Z) : list Z :=
  key ++ lit "&counter=" ++ print_d n ++ lit (if n <=? 1 then "&url=1" else "&url=0").

(** ** Times in a file *)

Definition MTK_EPO_ONE_SV_SIZE : Z := 72.

(** [*(unsigned int* )(&szBuf[0]) & 0x00FFFFFF] on a little-endian machine. *)
Definition first_hour (l : list Z) : Z :=
  match l with a :: b :: c :: _ => a + 256 * b + 65536 * c | _ => 0 end.

Section times.
Context (env : epo_env).

(** The seconds of GPS time of the record [l], [more] later, as [time_t]. *)
Definition record_time (l : list Z) (more : Z) : outcome Z :=
  let secs := u32 (u32 (first_hour l * 3600) + more) in
  GpsToUtcTime (epo_calendar env) (secs / 604800) (secs mod 604800).

(** The same text as [mtk_gps_epo_piece_data_start]; none is the error. *)
Definition mtk_gps_sys_epo_period_start (l : list Z) : outcome (option Z) :=
  if zlen l <? MTK_EPO_ONE_SV_SIZE then Done None
  else obind (record_time l 0) (fun t => Done (Some t)).

(** The last record, and six hours.  The same text as
    [mtk_gps_epo_piece_data_end] but for where the size of the file comes from. *)
Definition mtk_gps_sys_epo_period_end (l : list Z) : outcome (option Z) :=
  if zlen l <? MTK_EPO_ONE_SV_SIZE then Done None
  else
    obind (record_time (drop (Z.to_nat (zlen l - MTK_EPO_ONE_SV_SIZE)) l) 21600) (fun t => Done (Some t)).
End times.

(** ** In a zone with summer time *)

(** GPS seconds of the record [l], [more] later, as the code counts them. *)
Definition record_seconds (l : list Z) (more : Z) : Z := u32 (u32 (first_hour l * 3600) + more).

Lemma record_time_summer env off dst l more :
  summer_zone (epo_calendar env) off dst ->
  let s := GPS_EPOCH + record_seconds l more in
  record_time env l more = Done (time_t_of (s - off - dst s)).
Proof.
  intros Hz. cbv zeta. unfold record_time. fold (record_seconds l more).
  assert (0 <= record_seconds l more < 2 ^ 32) as Hs by (apply Z.mod_pos_bound; lia).
  set (s := record_seconds l more) in *.
  pose proof (Z.div_mod s 604800 ltac:(lia)) as E. pose proof (Z.mod_pos_bound s 604800 ltac:(lia)).
  assert (0 <= s / 604800) by (apply Z.div_pos; lia).
  assert (gps_seconds (s / 604800) (s mod 604800) = GPS_EPOCH + s) as Es by (unfold gps_seconds, GPS_EPOCH; lia).
  by rewrite (GpsToUtcTime_summer _ off dst), Es by (done || lia || rewrite Es; unfold GPS_EPOCH; lia).
Qed.

Lemma record_seconds_id l more :
  0 <= first_hour l -> 0 <= more -> first_hour l * 3600 + more < 2 ^ 32 ->
  record_seconds l more = first_hour l * 3600 + more.
Proof.
  intros H1 H2 H3. unfold record_seconds. rewrite (wrap_u_id 32 (first_hour l * 3600)) by (apply in_u_spec; lia).
  by rewrite wrap_u_id by (apply in_u_spec; lia).
Qed.

(** ** In a zone of constant offset *)

Definition DAY : Z := 24 * 60 * 60.

(** GPS times of a piece, in seconds from the epoch. *)
Definition piece_start (p : list Z) : Z := GPS_EPOCH + first_hour p * 3600.
Definition piece_end (p : list Z) : Z :=
  GPS_EPOCH + first_hour (drop (Z.to_nat (zlen p - MTK_EPO_ONE_SV_SIZE)) p) * 3600 + 21600.

(** A [time_t] that a day may be added to. *)
Definition in_time (off x : Z) : Prop := 0 <= x - off < 2 ^ 31 - DAY.

Section zone.
Context (env : epo_env) (off : Z) (Hz : fixed_zone (epo_calendar env) off).

Lemma record_time_ok l more :
  0 <= first_hour l -> 0 <= more -> 0 <= GPS_EPOCH + first_hour l * 3600 + more - off < 2 ^ 31 ->
  record_time env l more = Done (GPS_EPOCH + first_hour l * 3600 + more - off).
Proof.
  intros H1 H2 H3. unfold record_time. pose proof (fz_range _ _ Hz). unfold GPS_EPOCH in *.
  rewrite (wrap_u_id 32 (first_hour l * 3600)) by (apply in_u_spec; lia).
  rewrite wrap_u_id by (apply in_u_spec; lia). set (s := first_hour l * 3600 + more) in *.
  pose proof (Z.div_mod s 604800 ltac:(lia)) as Hs. pose proof (Z.mod_pos_bound s 604800 ltac:(lia)).
  assert (0 <= s / 604800) by (apply Z.div_pos; lia).
  assert (gps_seconds (s / 604800) (s mod 604800) = 315964800 + s) as E by (unfold gps_seconds, GPS_EPOCH; lia).
  rewrite (GpsToUtcTime_zone _ off) by (done || lia). f_equal. lia.
Qed.

Lemma period_start_at p :
  MTK_EPO_ONE_SV_SIZE <= zlen p -> 0 <= first_hour p -> in_time off (piece_start p) ->
  mtk_gps_sys_epo_period_start env p = Done (Some (piece_start p - off)).
Proof.
  intros Hl Hf Hs. unfold mtk_gps_sys_epo_period_start, in_time, piece_start, DAY in *. iffalse.
  rewrite record_time_ok by lia. cbn [obind]. do 2 f_equal. lia.
Qed.
End zone.
