(* ===== verification/Epo.v ===== *)
(** * The download of orbit predictions (EPO)

    [src/gps/mtk_mnld/mnld_entity/src/epo.c]: the EPO thread downloads the
    prediction in pieces of three days, each with the key of its MD5 file, appends
    them to [EPOHAL.DAT], checks that the server did not publish a new prediction
    in between, retries, and tells the main thread when it is done; the main
    thread asks whether the prediction on the flash has expired.

    The files, the downloads and the parameter for the rest of the device are
    those of [Disk]. *)

From stdpp Require Import gmap strings.
From S2P Require Import Prelude LbsUtility AtCommand Calendar GpsTime Disk.
Open Scope Z_scope.

(** ** State *)

(** The static variables of the file and of [epo_file_update_retry], with the
    files, the number of ticks so far, whether the retry timer runs, and what
    was reported to the main thread.  Flags that are only ever 0 or 1 are
    booleans. *)
Record epo : Type := Epo {
  epo_data_updated : bool;
  gps_epo_download_days : Z;
  gps_epo_enable : Z;
  gps_epo_wifi_trigger : Z;
  gps_epo_file_count : Z;
  gps_epo_file_name : string;
  gps_epo_md_file_name : string;
  gps_epo_type : Z;
  epo_download_failed : bool;
  epo_download_retry : bool;
  counter : Z;
  delay_time : Z;
  file_retrying : Z;
  retry_time : Z;
  files : gmap string (list Z);
  tick : nat;
  retry_armed : bool;
  epo_done : list Z
}.

Definition epo_boot (fs : gmap string (list Z)) : epo :=
  Epo false 9 1 0 0 "" "" 0 false true 1 0 50 0 fs 0 false [].

Definition set_updated (b : bool) (e : epo) : epo :=
  Epo b (gps_epo_download_days e) (gps_epo_enable e) (gps_epo_wifi_trigger e) (gps_epo_file_count e)
    (gps_epo_file_name e) (gps_epo_md_file_name e) (gps_epo_type e) (epo_download_failed e)
    (epo_download_retry e) (counter e) (delay_time e) (file_retrying e) (retry_time e) (files e) (tick e)
    (retry_armed e) (epo_done e).
Definition set_count (n : Z) (e : epo) : epo :=
  Epo (epo_data_updated e) (gps_epo_download_days e) (gps_epo_enable e) (gps_epo_wifi_trigger e) n
    (gps_epo_file_name e) (gps_epo_md_file_name e) (gps_epo_type e) (epo_download_failed e)
    (epo_download_retry e) (counter e) (delay_time e) (file_retrying e) (retry_time e) (files e) (tick e)
    (retry_armed e) (epo_done e).
Definition set_names (f m : string) (e : epo) : epo :=
  Epo (epo_data_updated e) (gps_epo_download_days e) (gps_epo_enable e) (gps_epo_wifi_trigger e)
    (gps_epo_file_count e) f m (gps_epo_type e) (epo_download_failed e) (epo_download_retry e) (counter e)
    (delay_time e) (file_retrying e) (retry_time e) (files e) (tick e) (retry_armed e) (epo_done e).
Definition set_failed (b : bool) (e : epo) : epo :=
  Epo (epo_data_updated e) (gps_epo_download_days e) (gps_epo_enable e) (gps_epo_wifi_trigger e)
    (gps_epo_file_count e) (gps_epo_file_name e) (gps_epo_md_file_name e) (gps_epo_type e) b
    (epo_download_retry e) (counter e) (delay_time e) (file_retrying e) (retry_time e) (files e) (tick e)
    (retry_armed e) (epo_done e).
(** The retry flag and its timer. *)
Definition set_retry (b armed : bool) (e : epo) : epo :=
  Epo (epo_data_updated e) (gps_epo_download_days e) (gps_epo_enable e) (gps_epo_wifi_trigger e)
    (gps_epo_file_count e) (gps_epo_file_name e) (gps_epo_md_file_name e) (gps_epo_type e)
    (epo_download_failed e) b (counter e) (delay_time e) (file_retrying e) (retry_time e) (files e) (tick e)
    armed (epo_done e).
Definition set_counter (n : Z) (e : epo) : epo :=
  Epo (epo_data_updated e) (gps_epo_download_days e) (gps_epo_enable e) (gps_epo_wifi_trigger e)
    (gps_epo_file_count e) (gps_epo_file_name e) (gps_epo_md_file_name e) (gps_epo_type e)
    (epo_download_failed e) (epo_download_retry e) n (delay_time e) (file_retrying e) (retry_time e) (files e)
    (tick e) (retry_armed e) (epo_done e).
(** The static variables of [epo_file_update_retry]. *)
Definition set_delays (d f r : Z) (e : epo) : epo :=
  Epo (epo_data_updated e) (gps_epo_download_days e) (gps_epo_enable e) (gps_epo_wifi_trigger e)
    (gps_epo_file_count e) (gps_epo_file_name e) (gps_epo_md_file_name e) (gps_epo_type e)
    (epo_download_failed e) (epo_download_retry e) (counter e) d f r (files e) (tick e) (retry_armed e)
    (epo_done e).
Definition set_files (fs : gmap string (list Z)) (e : epo) : epo :=
  Epo (epo_data_updated e) (gps_epo_download_days e) (gps_epo_enable e) (gps_epo_wifi_trigger e)
    (gps_epo_file_count e) (gps_epo_file_name e) (gps_epo_md_file_name e) (gps_epo_type e)
    (epo_download_failed e) (epo_download_retry e) (counter e) (delay_time e) (file_retrying e) (retry_time e)
    fs (tick e) (retry_armed e) (epo_done e).
Definition set_tick (n : nat) (e : epo) : epo :=
  Epo (epo_data_updated e) (gps_epo_download_days e) (gps_epo_enable e) (gps_epo_wifi_trigger e)
    (gps_epo_file_count e) (gps_epo_file_name e) (gps_epo_md_file_name e) (gps_epo_type e)
    (epo_download_failed e) (epo_download_retry e) (counter e) (delay_time e) (file_retrying e) (retry_time e)
    (files e) n (retry_armed e) (epo_done e).
Definition set_done (l : list Z) (e : epo) : epo :=
  Epo (epo_data_updated e) (gps_epo_download_days e) (gps_epo_enable e) (gps_epo_wifi_trigger e)
    (gps_epo_file_count e) (gps_epo_file_name e) (gps_epo_md_file_name e) (gps_epo_type e)
    (epo_download_failed e) (epo_download_retry e) (counter e) (delay_time e) (file_retrying e) (retry_time e)
    (files e) (tick e) (retry_armed e) l.

#[export] Instance epo_disk : HasDisk epo := {|
  files_of := files; with_files := set_files; tick_of := tick; with_tick := set_tick
|}.

Definition GPS_EPO : list (string * string) :=
  [("EPO_GPS_3_1.DAT", "EPO_GPS_3_1.MD5"); ("EPO_GPS_3_2.DAT", "EPO_GPS_3_2.MD5");
   ("EPO_GPS_3_3.DAT", "EPO_GPS_3_3.MD5"); ("EPO_GPS_3_4.DAT", "EPO_GPS_3_4.MD5");
   ("EPO_GPS_3_5.DAT", "EPO_GPS_3_5.MD5"); ("EPO_GPS_3_6.DAT", "EPO_GPS_3_6.MD5");
   ("EPO_GPS_3_7.DAT", "EPO_GPS_3_7.MD5"); ("EPO_GPS_3_8.DAT", "EPO_GPS_3_8.MD5");
   ("EPO_GPS_3_9.DAT", "EPO_GPS_3_9.MD5"); ("EPO_GPS_3_10.DAT", "EPO_GPS_3_10.MD5")]%string.
Definition GR_EPO : list (string * string) :=
  [("EPO_GR_3_1.DAT", "EPO_GR_3_1.MD5"); ("EPO_GR_3_2.DAT", "EPO_GR_3_2.MD5");
   ("EPO_GR_3_3.DAT", "EPO_GR_3_3.MD5"); ("EPO_GR_3_4.DAT", "EPO_GR_3_4.MD5");
   ("EPO_GR_3_5.DAT", "EPO_GR_3_5.MD5"); ("EPO_GR_3_6.DAT", "EPO_GR_3_6.MD5");
   ("EPO_GR_3_7.DAT", "EPO_GR_3_7.MD5"); ("EPO_GR_3_8.DAT", "EPO_GR_3_8.MD5");
   ("EPO_GR_3_9.DAT", "EPO_GR_3_9.MD5"); ("EPO_GR_3_10.DAT", "EPO_GR_3_10.MD5")]%string.

(** The names of a piece; none for another type or count. *)
Definition piece_names (type count : Z) : option (string * string) :=
  if count <? 0 then None
  else if type =? 1 then GPS_EPO !! Z.to_nat count
  else if type =? 0 then GR_EPO !! Z.to_nat count
  else None.

Definition gps_download_epo_file_name (count : Z) : prog epo unit :=
  let* type := gets gps_epo_type in
  match piece_names type count with
  | Some (f, m) => modify (set_names f m)
  | None => ret tt
  end.

Section epo_thread.
Context (env : epo_env).

(** ** Times of the prediction on the flash *)

(** Zero or minus one with [uTime[0]] and [uTime[2]], which keep the value zero of
    their callers when they are not set; nothing reads [uTime[1]]. *)
Definition mtk_gps_epo_file_time_hal : prog epo (Z * Z * Z) :=
  let* hal := read_file EPO_UPDATE_HAL in
  let* dat := read_file EPO_FILE in
  match (match hal with Some l => Some l | None => dat end) with
  | None => ret (-1, 0, 0)
  | Some l =>
      let* start := lift (mtk_gps_sys_epo_period_start env l) in
      match start with
      | None => ret (-1, 0, 0)
      | Some u0 =>
          let* expire := lift (mtk_gps_sys_epo_period_end env l) in
          match expire with
          | None => ret (-1, u0, 0)
          | Some u2 => ret (0, u0, u2)
          end
      end
  end.

(** ** One download *)

Definition with_counter (key : list Z) : prog epo (list Z) :=
  let* n := gets counter in ret (key_text key n).

(** The key, from the MD5 file [md] when it can be downloaded. *)
Definition fetch_md_key (md_url : list Z) (md : string) : prog epo (list Z) :=
  let* res := curl_easy_download env md_url (in_dir md) in
  if res =? 0 then
    let* content := read_file (in_dir md) in
    unlink (in_dir md) ;;
    modify (set_counter 1) ;;
    ret (match content with Some l => md_key l | None => NO_KEY end)
  else modify (fun e => set_counter (counter e + 1) e) ;; ret NO_KEY.

(** The piece, appended to [EPOHAL.DAT]. *)
Definition fetch_piece (url : list Z) (name : string) : prog epo Z :=
  let* res := curl_easy_download env url (in_dir name) in
  (if res =? CURLE_OK then
     modify (set_counter 1) ;;
     let* n := gets gps_epo_file_count in
     when (n =? 0) (unlink EPO_UPDATE_HAL) ;;
     let* piece := read_file (in_dir name) in
     append_to EPO_UPDATE_HAL (default [] piece)
   else
     unlink (in_dir name) ;;
     modify (fun e => set_counter (counter e + 1) e)) ;;
  ret res.

Definition curl_easy_download_epo : prog epo Z :=
  let* md := gets gps_epo_md_file_name in
  let* key := with_counter NO_KEY in
  match getEpoUrl env md key with
  | None => ret CURLE_FAILED_INIT
  | Some md_url =>
      let* key := fetch_md_key md_url md in
      let* name := gets gps_epo_file_name in
      let* key := with_counter key in
      match getEpoUrl env name key with
      | None => ret CURLE_FAILED_INIT
      | Some url => fetch_piece url name
      end
  end.

Definition mtk_gps_epo_file_update_hal : prog epo Z :=
  let* res := curl_easy_download_epo in
  if negb (res =? CURLE_OK) then modify (set_failed true) ;; ret (-1) else ret 0.

(** ** A new prediction on the server *)

(** The time of the file [name], zero when it does not exist; a file that is too
    short is a failure. *)
Definition piece_time (name : string) (f : list Z -> outcome (option Z)) : prog epo (Z * Z) :=
  let* content := read_file (in_dir name) in
  match content with
  | None => ret (0, 0)
  | Some l =>
      let* t := lift (f l) in
      match t with
      | Some t => ret (t, 0)
      | None => modify (set_failed true) ;; ret (0, 1)
      end
  end.

(** Removes the pieces [count], ..., 0. *)
Fixpoint unlink_pieces_down (n : nat) : prog epo unit :=
  gps_download_epo_file_name (Z.of_nat n) ;;
  let* name := gets gps_epo_file_name in
  unlink (in_dir name) ;;
  match n with
  | O => ret tt
  | S n' => unlink_pieces_down n'
  end.

(** What follows from the two times, each with its failure. *)
Definition compare_times (start fin : Z * Z) : prog epo Z :=
  let* count := gets gps_epo_file_count in
  let* limit := lift (chk (DAY + fst fin)) in
  if limit <=? fst start then
    when (0 <=? count) (unlink_pieces_down (Z.to_nat count)) ;;
    unlink EPO_UPDATE_HAL ;;
    modify (set_count 0) ;;
    ret 1
  else ret (if snd fin =? 1 then 1 else snd start).

Definition mtk_gps_epo_server_data_is_changed : prog epo Z :=
  let* name := gets gps_epo_file_name in
  let* start := piece_time name (mtk_gps_sys_epo_period_start env) in
  let* count := gets gps_epo_file_count in
  let* fin :=
    (if 0 <? count then
       gps_download_epo_file_name (count - 1) ;;
       let* name := gets gps_epo_file_name in
       piece_time name (mtk_gps_sys_epo_period_end env)
     else if count =? 0 then ret (fst start, 0)
     else ret (0, 0)) in
  compare_times start fin.

(** Removes the pieces 0, ..., [n] - 1. *)
Fixpoint unlink_pieces_up (i : Z) (n : nat) : prog epo unit :=
  match n with
  | O => ret tt
  | S n' =>
      gps_download_epo_file_name i ;;
      let* name := gets gps_epo_file_name in
      unlink (in_dir name) ;;
      unlink_pieces_up (i + 1) n'
  end.

Definition mtk_gps_epo_file_update : prog epo Z :=
  let* r := mtk_gps_epo_file_update_hal in
  if r <? 0 then ret (-1)
  else
    let* is_changed := mtk_gps_epo_server_data_is_changed in
    if is_changed =? 1 then ret (-1)
    else
      modify (fun e => set_count (gps_epo_file_count e + 1) e) ;;
      let* days := gets gps_epo_download_days in
      let count_temp := if 0 <? Z.rem days 3 then Z.quot days 3 + 1 else Z.quot days 3 in
      let* count := gets gps_epo_file_count in
      if (count <? 10) && (count <? count_temp) then ret 0
      else
        unlink_pieces_up 0 (Z.to_nat count_temp) ;;
        modify (set_updated false) ;;
        modify (set_count 0) ;;
        let* failed := gets epo_download_failed in
        when failed (modify (set_failed false)) ;;
        ret r.

(** ** The loop of the thread *)

(** [usleep]; the retry timer may expire meanwhile
    ([retry_alarm_timeout_handler]). *)
Definition sleep : prog epo unit :=
  let* k := next_tick in
  let* armed := gets retry_armed in
  when (armed && retry_expired env k) (modify (set_retry true false)).

Definition epo_file_update_retry : prog epo Z :=
  let* k := gets tick in
  let* retry := gets epo_download_retry in
  (if gps_started env k || wifi_connected env k then
     if net_connected env k && retry then
       let* count := gets gps_epo_file_count in
       let* e := gets (fun e => e) in
       when (file_retrying e =? 50)
         (modify (fun e => set_delays (delay_time e) (gps_epo_file_count e) (retry_time e) e)) ;;
       let time_utc := s32 (fst (cal_mktime (epo_calendar env) (cal_gmtime (epo_calendar env) (now_is env k)))) in
       let* '(r, u0, _) := mtk_gps_epo_file_time_hal in
       let* expired :=
         (if 0 <=? r then let* limit := lift (chk (u0 + DAY)) in ret (limit <=? time_utc) else ret false) in
       (if expired : bool then
          modify (set_failed false) ;;
          modify (set_count 0) ;;
          modify (set_updated true) ;;
          unlink EPO_UPDATE_HAL ;;
          modify (fun e => set_delays 0 (file_retrying e) (retry_time e) e)
        else
          gps_download_epo_file_name count ;;
          let* _ := mtk_gps_epo_file_update in ret tt) ;;
       let* e := gets (fun e => e) in
       when (count =? gps_epo_file_count e)
         ((if file_retrying e =? gps_epo_file_count e
           then modify (fun e => set_delays (delay_time e) (file_retrying e) (retry_time e + 1) e)
           else modify (fun e => set_delays (delay_time e) (gps_epo_file_count e) 0 e)) ;;
          let* e := gets (fun e => e) in
          if retry_time e <? 10 then modify (set_retry false true)
          else modify (set_failed false) ;; modify (set_delays 0 50 0))
     else
       when retry
         (let* e := gets (fun e => e) in
          if 10 <=? delay_time e
          then modify (set_failed false) ;;
               modify (fun e => set_delays 0 (file_retrying e) (retry_time e) e)
          else modify (fun e => set_delays (delay_time e + 1) (file_retrying e) (retry_time e) e) ;; sleep)
   else
     modify (set_failed false) ;;
     modify (fun e => set_delays 0 (file_retrying e) (retry_time e) e)) ;;
  ret 0.

Definition EPO_DOWNLOAD_RESULT_SUCCESS : Z := 0.
Definition EPO_DOWNLOAD_RESULT_FAIL : Z := -1.

(** One turn of the loop; true ends it. *)
Definition update_turn : prog epo bool :=
  let* k := gets tick in
  if qepo_finished env k then
    let* updated := gets epo_data_updated in
    let* failed := gets epo_download_failed in
    if updated : bool then
      modify (set_failed false) ;;
      let* count := gets gps_epo_file_count in
      gps_download_epo_file_name count ;;
      let* _ := mtk_gps_epo_file_update in
      let* failed := gets epo_download_failed in
      when failed (modify (set_updated false)) ;;
      sleep ;; ret false
    else if failed : bool then
      let* _ := epo_file_update_retry in sleep ;; ret false
    else ret true
  else sleep ;; ret false.

(** Has not returned within the fuel: blocked. *)
Fixpoint update_loop (fuel : nat) : prog epo unit :=
  match fuel with
  | O => blocked
  | S fuel' => let* ended := update_turn in if ended : bool then ret tt else update_loop fuel'
  end.

Definition epo_file_update_impl (fuel : nat) : prog epo Z :=
  modify (set_updated true) ;;
  modify (set_failed false) ;;
  modify (set_count 0) ;;
  unlink EPO_UPDATE_HAL ;;
  unlink EPO_FILE ;;
  update_loop fuel ;;
  let* count := gets gps_epo_file_count in
  ret (if negb (count =? 0) then EPO_DOWNLOAD_RESULT_FAIL else EPO_DOWNLOAD_RESULT_SUCCESS).

(** The message of [mnld_epo_download_done] is the last of [epo_done]. *)
Definition mnld_epo_download (fuel : nat) : prog epo Z :=
  let* r := epo_file_update_impl fuel in
  modify (fun e => set_done (epo_done e ++ [r]) e) ;;
  ret r.

(** ** Questions of the main thread *)

Definition gps_epo_period : Z := 3.
Definition wifi_epo_period : Z := 3.

(** The age in seconds from which on a prediction over [download_day] days is
    renewed. *)
Definition renewal_age (wifi_tragger : bool) (download_day : Z) : Z :=
  if wifi_tragger then wifi_epo_period * 24 * 60 * 60
  else if download_day <? 3 then 0
  else if download_day <? 6 then 2 * 24 * 60 * 60
  else if (6 <=? download_day) && (download_day <? 9) then 5 * 24 * 60 * 60
  else if (9 <=? download_day) && (download_day <? 12) then 7 * 24 * 60 * 60
  else if (12 <=? download_day) && (download_day <? 15) then 7 * 24 * 60 * 60
  else if (15 <=? download_day) && (download_day <? 18) then 7 * 24 * 60 * 60
  else if 18 <=? download_day then 7 * 24 * 60 * 60
  else gps_epo_period * 24 * 60 * 60.

Definition mtk_epo_is_expired (wifi_tragger : bool) : prog epo Z :=
  let* k := gets tick in
  let time_utc := s32 (fst (cal_mktime (epo_calendar env) (cal_gmtime (epo_calendar env) (now_is env k)))) in
  let* '(_, u0, u2) := mtk_gps_epo_file_time_hal in
  let* period := lift (chk (u2 - u0)) in
  let expired_set := renewal_age wifi_tragger (Z.quot period DAY) in
  let* age := lift (chk (time_utc - u0)) in
  if (expired_set <=? age) || (age <? 0) then modify (set_count 0) ;; ret 1 else ret 0.

Definition epo_downloader_is_file_invalid : prog epo Z := mtk_epo_is_expired false.
Definition epo_is_wifi_trigger_enabled : prog epo Z := gets gps_epo_wifi_trigger.
Definition epo_is_epo_download_enabled : prog epo Z := gets gps_epo_enable.

Definition MTK_GPS_ERROR : Z := -1.

Definition epo_update_epo_file : prog epo unit :=
  let* k := gets tick in
  if agent_update env k =? MTK_GPS_ERROR then ret tt else unlink EPO_UPDATE_HAL.
End epo_thread.
