(* ===== verification/EpoDownload.v ===== *)
(** * What the download of a prediction achieves

    When the server delivers the pieces, the download ends with the whole
    prediction in [EPOHAL.DAT]; what happens when it does not; when a prediction
    counts as expired. *)

From stdpp Require Import gmap strings.
From S2P Require Import Prelude LbsUtility AtCommand Calendar GpsTime Disk Epo.
Open Scope Z_scope.

(** ** Names *)

Definition fname (t : Z) (i : nat) : string :=
  in_dir (fst (default (""%string, ""%string) (piece_names t (Z.of_nat i)))).
Definition mname (t : Z) (i : nat) : string :=
  in_dir (snd (default (""%string, ""%string) (piece_names t (Z.of_nat i)))).

(** All files the download touches. *)
Definition all_names (t : Z) : list string :=
  EPO_UPDATE_HAL :: EPO_FILE :: map (fname t) (seq 0 10) ++ map (mname t) (seq 0 10).

Lemma names_distinct t : t = 0 \/ t = 1 -> NoDup (all_names t).
Proof. intros [-> | ->]; apply (bool_decide_unpack _); by vm_compute. Qed.

Lemma names_at t i j a b :
  t = 0 \/ t = 1 -> all_names t !! i = Some a -> all_names t !! j = Some b -> i <> j -> a <> b.
Proof. intros Ht Ha Hb Hij ->. apply Hij. exact (NoDup_lookup _ _ _ _ (names_distinct t Ht) Ha Hb). Qed.

Lemma fname_at t i : (i < 10)%nat -> all_names t !! (2 + i)%nat = Some (fname t i).
Proof. intros H. do 10 (destruct i as [|i]; [done|]). lia. Qed.
Lemma mname_at t i : (i < 10)%nat -> all_names t !! (12 + i)%nat = Some (mname t i).
Proof. intros H. do 10 (destruct i as [|i]; [done|]). lia. Qed.

Lemma piece_names_at t i :
  t = 0 \/ t = 1 -> (i < 10)%nat ->
  exists f m, piece_names t (Z.of_nat i) = Some (f, m) /\ in_dir f = fname t i /\ in_dir m = mname t i.
Proof.
  intros [-> | ->] H; do 10 (destruct i as [|i]; [by eexists _, _; split; [reflexivity|split; reflexivity]|]); lia.
Qed.

(** Names that differ. *)
Record apart (t : Z) (i : nat) : Prop := {
  ap_fh : fname t i <> EPO_UPDATE_HAL;
  ap_mh : mname t i <> EPO_UPDATE_HAL;
  ap_fe : fname t i <> EPO_FILE;
  ap_me : mname t i <> EPO_FILE;
  ap_mf : forall j, (j < 10)%nat -> mname t i <> fname t j;
  ap_ff : forall j, (j < 10)%nat -> i <> j -> fname t i <> fname t j
}.

Lemma names_apart t i : t = 0 \/ t = 1 -> (i < 10)%nat -> apart t i.
Proof.
  intros Ht Hi. pose proof (fname_at t i Hi) as F. pose proof (mname_at t i Hi) as M.
  split.
  - by apply (names_at t (2 + i) 0).
  - by apply (names_at t (12 + i) 0).
  - by apply (names_at t (2 + i) 1).
  - by apply (names_at t (12 + i) 1).
  - intros j Hj. apply (names_at t (12 + i) (2 + j)); [done|done|by apply fname_at|lia].
  - intros j Hj Hij. apply (names_at t (2 + i) (2 + j)); [done|done|by apply fname_at|lia].
Qed.

Lemma hal_not_epo : EPO_UPDATE_HAL <> EPO_FILE.
Proof. done. Qed.

Ltac steps := repeat first
  [step_gets | step_upd | apply returns_bind | apply returns_ret | apply returns_gets | apply returns_modify
  | progress cbn [files_of with_files tick_of with_tick epo_disk]].

(** ** Times *)

Section zone.
Context (env : epo_env) (off : Z) (Hz : fixed_zone (epo_calendar env) off).

(** At least one record, with times in range. *)
Record piece_ok (p : list Z) : Prop := {
  pc_len : MTK_EPO_ONE_SV_SIZE <= zlen p;
  pc_first : 0 <= first_hour p;
  pc_last : 0 <= first_hour (drop (Z.to_nat (zlen p - MTK_EPO_ONE_SV_SIZE)) p);
  pc_start : in_time off (piece_start p);
  pc_end : in_time off (piece_end p)
}.

Lemma period_start_ok p :
  piece_ok p -> mtk_gps_sys_epo_period_start env p = Done (Some (piece_start p - off)).
Proof.
  intros [Hl Hf _ Hs _]. by apply period_start_at.
Qed.

Lemma period_end_ok p :
  piece_ok p -> mtk_gps_sys_epo_period_end env p = Done (Some (piece_end p - off)).
Proof.
  intros [Hl _ Hf _ Hs]. unfold mtk_gps_sys_epo_period_end, in_time, piece_end, DAY in *. iffalse.
  rewrite (record_time_ok env off Hz) by lia. cbn [obind]. done.
Qed.

(** ** The server delivers *)

Context (t : Z) (Ht : t = 0 \/ t = 1) (pieces : list (list Z)).

(** There is a URL for every file, and the download of the first [n] pieces
    succeeds; what happens with the MD5 files is open. *)
Record serves (n : nat) : Prop := {
  sv_url : forall f key, is_Some (getEpoUrl env f key);
  sv_piece : forall i p f m key url k,
    (i < n)%nat -> pieces !! i = Some p -> piece_names t (Z.of_nat i) = Some (f, m) ->
    getEpoUrl env f key = Some url -> curl env k url = (CURLE_OK, p)
}.

(** Only the files, the ticks and the counter have changed. *)
Definition files_changed (e e' : epo) : Prop :=
  e' = set_files (files e') (set_tick (tick e') (set_counter (counter e') e)).

Lemma files_changed_trans e1 e2 e3 : files_changed e1 e2 -> files_changed e2 e3 -> files_changed e1 e3.
Proof. unfold files_changed. intros E1 E2. rewrite E2 at 1. by rewrite E1. Qed.

Lemma fetch_key_ok md_url md e :
  returns (fetch_md_key env md_url md) e (fun _ e' =>
    files_changed e e' /\ forall x, x <> in_dir md -> files e' !! x = files e !! x).
Proof.
  unfold fetch_md_key, curl_easy_download, next_tick, unlink, write_file, read_file.
  destruct (curl env (tick e) md_url) as [res bytes] eqn:Ec.
  steps. rewrite Ec. steps. destruct (res =? 0); steps; (split; [done|]); intros x Hx; cbn.
  - by rewrite lookup_delete_ne, lookup_insert_ne by done.
  - by rewrite lookup_insert_ne by done.
Qed.

Lemma fetch_piece_ok url i p e :
  (i < 10)%nat -> curl env (tick e) url = (CURLE_OK, p) ->
  in_dir (gps_epo_file_name e) = fname t i ->
  returns (fetch_piece env url (gps_epo_file_name e)) e (fun r e' =>
    r = 0 /\ files_changed e e' /\
    files e' !! EPO_UPDATE_HAL =
      Some ((if gps_epo_file_count e =? 0 then [] else default [] (files e !! EPO_UPDATE_HAL)) ++ p) /\
    files e' !! fname t i = Some p /\
    forall x, x <> EPO_UPDATE_HAL -> x <> fname t i -> files e' !! x = files e !! x).
Proof.
  intros Hi Hc Hf. destruct (names_apart t i Ht Hi) as [A1 _ _ _ _ _].
  unfold fetch_piece, curl_easy_download, next_tick, unlink, write_file, read_file, append_to.
  rewrite Hf. steps. rewrite Hc. steps. change (CURLE_OK =? CURLE_OK) with true. cbn iota.
  steps. cbn [gps_epo_file_count set_counter set_files set_tick].
  destruct (gps_epo_file_count e =? 0); cbn [when]; steps; cbn [files set_files set_counter set_tick].
  all: split; [done|]; split; [done|]; repeat split; intros; by simplify_map_eq.
Qed.

Lemma download_piece_ok n i p e :
  serves n -> (i < n)%nat -> (i < 10)%nat -> pieces !! i = Some p ->
  piece_names t (Z.of_nat i) = Some (gps_epo_file_name e, gps_epo_md_file_name e) ->
  returns (curl_easy_download_epo env) e (fun r e' =>
    r = 0 /\ files_changed e e' /\
    files e' !! EPO_UPDATE_HAL =
      Some ((if gps_epo_file_count e =? 0 then [] else default [] (files e !! EPO_UPDATE_HAL)) ++ p) /\
    files e' !! fname t i = Some p /\
    forall x, x <> EPO_UPDATE_HAL -> x <> fname t i -> x <> mname t i -> files e' !! x = files e !! x).
Proof.
  intros Hs Hin Hi Hp Hn.
  assert (in_dir (gps_epo_file_name e) = fname t i) as Hf by (unfold fname; by rewrite Hn).
  assert (in_dir (gps_epo_md_file_name e) = mname t i) as Hm by (unfold mname; by rewrite Hn).
  destruct (names_apart t i Ht Hi) as [A1 A2 _ _ A5 _]. specialize (A5 i Hi).
  unfold curl_easy_download_epo, with_counter. steps.
  match goal with |- context [getEpoUrl env ?f ?k] => destruct (sv_url _ Hs f k) as [u1 ->] end.
  apply returns_bind. eapply returns_mono; [apply fetch_key_ok|]. intros key e1 [Hc1 Hf1].
  steps. rewrite Hm in Hf1. assert (gps_epo_file_name e1 = gps_epo_file_name e) as En by (by rewrite Hc1).
  match goal with |- context [getEpoUrl env ?f ?k] => destruct (sv_url _ Hs f k) as [u2 E2]; rewrite E2 end.
  rewrite <- En in Hf, Hn.
  eapply returns_mono; [apply (fetch_piece_ok u2 i p e1 Hi)|].
  - by eapply (sv_piece _ Hs).
  - done.
  - intros r e2 (-> & Hc2 & Hh & Hp2 & Hx). split; [done|]. split; [by eapply files_changed_trans|].
    assert (gps_epo_file_count e1 = gps_epo_file_count e) as Ec by (by rewrite Hc1).
    rewrite Hh, Ec, Hf1 by done. repeat split; [done|]. intros x H1 H2 H3. by rewrite Hx, Hf1.
Qed.

(** ** The pieces fit together *)

(** The server did not publish another prediction between two pieces: the later
    one begins less than a day after the end of the earlier one. *)
Definition follows (p q : list Z) : Prop := piece_start q < piece_end p + DAY.

Lemma set_names_piece i e :
  gps_epo_type e = t -> (i < 10)%nat ->
  exists f m, piece_names t (Z.of_nat i) = Some (f, m) /\ in_dir f = fname t i /\ in_dir m = mname t i /\
    gps_download_epo_file_name (Z.of_nat i) e = Done (tt, set_names f m e).
Proof.
  intros He Hi. destruct (piece_names_at t i Ht Hi) as (f & m & E & Hf & Hm). exists f, m.
  repeat split; try done. unfold gps_download_epo_file_name, bind, gets. by rewrite He, E.
Qed.

Lemma piece_time_ok name f x e l :
  files e !! in_dir name = Some l -> f l = Done (Some x) -> piece_time name f e = Done (x, 0, e).
Proof. intros H E. unfold piece_time, read_file, lift, bind, gets, ret.
  cbn [files_of epo_disk]. by rewrite H, E. Qed.

Lemma of_succ j : (0 <? Z.of_nat (S j)) = true /\ Z.of_nat (S j) - 1 = Z.of_nat j.
Proof. split; [apply Z.ltb_lt|]; lia. Qed.

(** The two times that are compared. *)
Lemma compared_times i p e Q :
  gps_epo_type e = t -> gps_epo_file_count e = Z.of_nat i -> (i < 10)%nat ->
  in_dir (gps_epo_file_name e) = fname t i -> files e !! fname t i = Some p -> piece_ok p ->
  (i = 0%nat -> returns (compare_times (piece_start p - off, 0) (piece_start p - off, 0)) e Q) ->
  (forall j, i = S j -> exists q, files e !! fname t j = Some q /\ piece_ok q /\
     forall f m, returns (compare_times (piece_start p - off, 0) (piece_end q - off, 0)) (set_names f m e) Q) ->
  returns (mtk_gps_epo_server_data_is_changed env) e Q.
Proof.
  intros He Hc Hi Hn Hp Hok H0 HS. unfold mtk_gps_epo_server_data_is_changed. step_gets.
  apply returns_bind. eexists _, _. split.
  { eapply piece_time_ok; [by rewrite Hn|by apply period_start_ok]. }
  step_gets. rewrite Hc. destruct i as [|j].
  - cbn [Z.of_nat Z.ltb Z.compare Z.eqb fst]. apply returns_bind, returns_ret. by apply H0.
  - rewrite (proj1 (of_succ j)), (proj2 (of_succ j)).
    destruct (set_names_piece j e He) as (f & m & _ & Hf & _ & E); [lia|].
    destruct (HS j eq_refl) as (q & Hq & Hqok & Hk). apply returns_bind, returns_bind.
    eexists _, _. split; [exact E|]. step_gets. eexists _, _. split; [|apply Hk].
    eapply piece_time_ok; [cbn; by rewrite Hf|by apply period_end_ok].
Qed.

Lemma compare_no (e : epo) x y :
  0 <= y < 2 ^ 31 - DAY -> x < y + DAY -> compare_times (x, 0) (y, 0) e = Done (0, e).
Proof.
  intros Hy Hx. unfold compare_times, bind, gets, lift, ret, DAY in *. cbn [fst snd].
  rewrite chk_small by lia. by iffalse.
Qed.

(** What the pieces are: as many as asked for, each follows the one before. *)
Definition wanted (days : Z) : Z := if 0 <? Z.rem days 3 then Z.quot days 3 + 1 else Z.quot days 3.

Record prediction (days : Z) : Prop := {
  pn_days : 1 <= days <= 30;
  pn_wanted : zlen pieces = wanted days;
  pn_ok : forall i p, pieces !! i = Some p -> piece_ok p;
  pn_follows : forall i p q, pieces !! i = Some p -> pieces !! S i = Some q -> follows p q
}.

Lemma wanted_bounds days : 1 <= days <= 30 -> 1 <= wanted days <= 10.
Proof.
  intros H. unfold wanted. destruct (Z.ltb_spec 0 (Z.rem days 3));
    Z.to_euclidean_division_equations; lia.
Qed.

(** The first [n] pieces are stored. *)
Record stored (days : Z) (n : nat) (e : epo) : Prop := {
  st_days : gps_epo_download_days e = days;
  st_type : gps_epo_type e = t;
  st_updated : epo_data_updated e = true;
  st_failed : epo_download_failed e = false;
  st_hal : n <> 0%nat -> files e !! EPO_UPDATE_HAL = Some (concat (take n pieces));
  st_pieces : forall j p, (j < n)%nat -> pieces !! j = Some p -> files e !! fname t j = Some p;
  st_epo : files e !! EPO_FILE = None
}.

(** The piece [i] is appended and does not belong to a new prediction. *)
Lemma piece_accepted n days i p e :
  serves n -> (i < n)%nat -> prediction days -> stored days i e -> gps_epo_file_count e = Z.of_nat i -> pieces !! i = Some p ->
  piece_names t (Z.of_nat i) = Some (gps_epo_file_name e, gps_epo_md_file_name e) ->
  returns (mtk_gps_epo_file_update_hal env) e (fun r e1 => r = 0 /\
    stored days (S i) e1 /\ gps_epo_file_count e1 = Z.of_nat i /\
    returns (mtk_gps_epo_server_data_is_changed env) e1 (fun c e2 => c = 0 /\
      stored days (S i) e2 /\ gps_epo_file_count e2 = Z.of_nat i)).
Proof.
  intros Hs Hin [Hd Hw Hok Hfol] [P1 P2 P3 P4 P6 P7 P8] P5 Hp Hn. pose proof (wanted_bounds _ Hd).
  assert (i < 10)%nat as Hi by (apply lookup_lt_Some in Hp; lia).
  assert (in_dir (gps_epo_file_name e) = fname t i) as Hf by (unfold fname; by rewrite Hn).
  destruct (names_apart t i Ht Hi) as [A1 A2 A3 A4 A5 A6].
  unfold mtk_gps_epo_file_update_hal. apply returns_bind.
  eapply returns_mono; [by apply (download_piece_ok n i p e)|]. intros r e1 (-> & Hc & Hh & Hpf & Hx).
  change (0 =? CURLE_OK) with true. cbn [negb]. apply returns_ret. split; [done|].
  assert (stored days (S i) e1) as Hst.
  { split; try (by rewrite Hc).
    - intros _. rewrite Hh, P5, (take_S_r _ _ _ Hp), concat_app. cbn [concat]. rewrite app_nil_r.
      destruct i as [|i]; [done|]. rewrite P6 by done. done.
    - intros j q Hj Hq. destruct (decide (j = i)) as [->|Hji]; [congruence|].
      assert (j < 10)%nat as Hj10 by lia. destruct (names_apart t j Ht Hj10) as [B1 _ _ _ _ B6].
      rewrite Hx; [apply P7; [lia|done]|done|by apply B6|]. intros E. by apply (A5 j Hj10).
    - by rewrite Hx. }
  assert (gps_epo_file_count e1 = Z.of_nat i) as Hcnt by (by rewrite Hc).
  split; [done|]. split; [done|].
  destruct (Hok _ _ Hp) as [_ _ _ Hps Hpe].
  apply (compared_times i p); try done.
  - by rewrite Hc.
  - by rewrite Hc.
  - by apply (Hok i).
  - intros _. eexists _, _. split; [apply compare_no; unfold in_time, DAY in *; lia|done].
  - intros j ->. assert (is_Some (pieces !! j)) as [q Hq]
      by (apply lookup_lt_is_Some; apply lookup_lt_Some in Hp; lia).
    pose proof (Hok _ _ Hq) as [_ _ _ _ Hqe]. pose proof (Hfol _ _ _ Hq Hp) as Hfl. unfold follows in Hfl.
    exists q. split; [apply (st_pieces _ _ _ Hst); [lia|done]|]. split; [by apply (Hok j)|].
    intros f m. eexists _, _. split; [apply compare_no; unfold in_time, DAY in *; lia|].
    split; [done|]. split; [|done]. by destruct Hst.
Qed.

(** ** The whole download *)

Lemma unlink_pieces_up_ok n i e :
  gps_epo_type e = t -> (i + n <= 10)%nat ->
  returns (unlink_pieces_up (Z.of_nat i) n) e (fun _ e' =>
    exists fs f m, e' = set_files fs (set_names f m e) /\
      (forall j, (i <= j < i + n)%nat -> fs !! fname t j = None) /\
      (forall x, (forall j, (i <= j < i + n)%nat -> x <> fname t j) -> fs !! x = files e !! x)).
Proof.
  revert i e. induction n as [|n IH]; intros i e He Hn; cbn [unlink_pieces_up].
  - apply returns_ret. exists (files e), (gps_epo_file_name e), (gps_epo_md_file_name e).
    split; [by destruct e|]. split; [lia|done].
  - destruct (set_names_piece i e He) as (f & m & _ & Hf & _ & E); [lia|].
    apply returns_bind. eexists _, _. split; [exact E|]. unfold unlink. steps. cbn [gps_epo_file_name set_names].
    replace (Z.of_nat i + 1) with (Z.of_nat (S i)) by lia.
    eapply returns_mono; [apply IH; [done|lia]|]. intros _ e' (fs & f' & m' & -> & H1 & H2).
    exists fs, f', m'. split; [done|]. cbn in H2. rewrite Hf in H2. split.
    + intros j Hj. destruct (decide (j = i)) as [->|Hji]; [|apply H1; lia].
      rewrite H2; [cbn; by rewrite lookup_delete_eq|]. intros k Hk.
      apply (ap_ff t i (names_apart t i Ht ltac:(lia))); lia.
    + intros x Hx. rewrite H2 by (intros j Hj; apply Hx; lia). cbn.
      apply lookup_delete_ne. intros Ex. apply (Hx i); [lia|done].
Qed.

(** The whole prediction is there, and nothing else. *)
Record complete (days : Z) (e : epo) : Prop := {
  cm_updated : epo_data_updated e = false;
  cm_failed : epo_download_failed e = false;
  cm_count : gps_epo_file_count e = 0;
  cm_hal : files e !! EPO_UPDATE_HAL = Some (concat pieces);
  cm_pieces : forall i, (i < length pieces)%nat -> files e !! fname t i = None;
  cm_epo : files e !! EPO_FILE = None
}.

(** The state after piece [i]. *)
Definition advanced (days : Z) (i : nat) (e : epo) : Prop :=
  ((S i < length pieces)%nat /\ stored days (S i) e /\ gps_epo_file_count e = Z.of_nat (S i)) \/
  (S i = length pieces /\ complete days e).

Lemma update_ok n days i e :
  serves n -> (i < n)%nat -> prediction days -> stored days i e -> gps_epo_file_count e = Z.of_nat i ->
  (i < length pieces)%nat ->
  piece_names t (Z.of_nat i) = Some (gps_epo_file_name e, gps_epo_md_file_name e) ->
  returns (mtk_gps_epo_file_update env) e (fun _ e' => advanced days i e').
Proof.
  intros Hs Hin Hpn Hst Hc Hi Hn. apply lookup_lt_is_Some in Hi as Hp. destruct Hp as [p Hp].
  pose proof (wanted_bounds _ (pn_days _ Hpn)) as Hwb. pose proof (pn_wanted _ Hpn) as Hw.
  unfold mtk_gps_epo_file_update. apply returns_bind.
  eapply returns_mono; [by apply (piece_accepted n days i p)|]. intros r e1 (-> & _ & _ & Hch).
  change (0 <? 0) with false. cbn iota. apply returns_bind.
  eapply returns_mono; [exact Hch|]. intros c e2 (-> & Hst2 & Hc2).
  change (0 =? 1) with false. cbn iota. steps. cbn [gps_epo_file_count gps_epo_download_days set_count].
  rewrite (st_days _ _ _ Hst2), Hc2. fold (wanted days). rewrite <- Hw.
  destruct (decide (S i < length pieces)%nat) as [Hlt|Hge].
  - replace (Z.of_nat i + 1 <? 10) with true by lia.
    replace (Z.of_nat i + 1 <? zlen pieces) with true by lia. cbn [andb]. apply returns_ret. left.
    split; [done|]. split; [by destruct Hst2|]. cbn. lia.
  - replace (Z.of_nat i + 1 <? zlen pieces) with false by lia. rewrite andb_false_r.
    rewrite Nat2Z.id. change 0 with (Z.of_nat 0) at 1. apply returns_bind.
    eapply returns_mono; [apply unlink_pieces_up_ok; [by destruct Hst2|lia]|].
    intros _ e' (fs & f & m & -> & H1 & H2). steps. cbn [epo_download_failed set_count set_updated set_files set_names].
    rewrite (st_failed _ _ _ Hst2). cbn [when]. steps. right. split; [lia|].
    assert (forall j, (j < 10)%nat -> EPO_UPDATE_HAL <> fname t j /\ EPO_FILE <> fname t j) as Hne.
    { intros j Hj. destruct (names_apart t j Ht Hj). done. }
    split; try done; cbn.
    + by destruct Hst2.
    + rewrite H2 by (intros j Hj; apply Hne; lia). cbn. rewrite (st_hal _ _ _ Hst2) by done.
      by rewrite take_ge by lia.
    + intros j Hj. apply H1. lia.
    + rewrite H2 by (intros j Hj; apply Hne; lia). cbn. apply (st_epo _ _ _ Hst2).
Qed.

Lemma sleep_ok e (Q : unit -> epo -> Prop) :
  (forall k b a, Q tt (set_retry b a (set_tick k e))) -> returns (sleep env) e Q.
Proof.
  intros HQ. unfold sleep, next_tick. steps. cbn [retry_armed set_tick].
  destruct (retry_armed e && retry_expired env (tick e)); cbn [when]; steps; [apply HQ|].
  specialize (HQ (S (tick e)) (epo_download_retry e) (retry_armed e)). by destruct e.
Qed.

Context (Hq : forall k, qepo_finished env k = true).

Lemma turn_ok n days i e :
  serves n -> (i < n)%nat -> prediction days -> stored days i e -> gps_epo_file_count e = Z.of_nat i -> (i < length pieces)%nat ->
  returns (update_turn env) e (fun ended e' => ended = false /\ advanced days i e').
Proof.
  intros Hs Hin Hpn Hst Hc Hi. pose proof (wanted_bounds _ (pn_days _ Hpn)) as Hwb.
  pose proof (pn_wanted _ Hpn) as Hw. unfold update_turn. step_gets. rewrite Hq. step_gets.
  rewrite (st_updated _ _ _ Hst). step_gets. step_upd. step_gets. cbn [gps_epo_file_count set_failed]. rewrite Hc.
  destruct (set_names_piece i (set_failed false e) (st_type _ _ _ Hst)) as (f & m & En & Hf & Hm & E); [lia|].
  apply returns_bind. eexists _, _. split; [exact E|]. apply returns_bind.
  eapply returns_mono; [apply (update_ok n days i); try done; by destruct Hst|]. intros ? e' Ha. step_gets.
  assert (epo_download_failed e' = false) as -> by (destruct Ha as [(? & [] & ?)|(? & [])]; done).
  cbn [when]. apply returns_bind, returns_ret, returns_bind, sleep_ok. intros k b armed. apply returns_ret.
  split; [done|]. destruct Ha as [(? & [] & ?)|(? & [])]; [left|right]; done.
Qed.

(** The loop up to piece [n]. *)
Lemma loop_to n days k i fuel e Q :
  serves n -> prediction days -> (n < length pieces)%nat -> n = (i + k)%nat ->
  stored days i e -> gps_epo_file_count e = Z.of_nat i ->
  (forall e', stored days n e' -> gps_epo_file_count e' = Z.of_nat n -> returns (update_loop env fuel) e' Q) ->
  returns (update_loop env (k + fuel)) e Q.
Proof.
  intros Hs Hpn Hn. revert i e. induction k as [|k IH]; intros i e Hk Hst Hc HQ; cbn [Nat.add].
  - replace i with n in * by lia. by apply HQ.
  - cbn [update_loop]. apply returns_bind.
    eapply returns_mono; [by apply (turn_ok n days i); (done || lia)|].
    intros ended e' [-> [(Hlt & Hst' & Hc')|(Heq & _)]]; [|lia]. apply (IH (S i)); (done || lia).
Qed.

(** After the last piece. *)
Lemma loop_last days n fuel e :
  serves (S n) -> prediction days -> length pieces = S n -> stored days n e -> gps_epo_file_count e = Z.of_nat n ->
  returns (update_loop env (2 + fuel)) e (fun _ e' => complete days e').
Proof.
  intros Hs Hpn Hn Hst Hc. cbn [update_loop Nat.add]. apply returns_bind.
  eapply returns_mono; [by apply (turn_ok (S n) days n); (done || lia)|].
  intros ended e' [-> [(Hlt & _)|(_ & Hcm)]]; [lia|]. apply returns_bind. unfold update_turn. steps.
  rewrite Hq. steps. rewrite (cm_updated _ _ Hcm), (cm_failed _ _ Hcm). by steps.
Qed.

(** Before the loop. *)
Lemma impl_ok days fuel e Q :
  gps_epo_type e = t -> gps_epo_download_days e = days ->
  (forall e0, stored days 0 e0 -> gps_epo_file_count e0 = 0 -> files e0 !! EPO_UPDATE_HAL = None ->
     returns (update_loop env fuel) e0 (fun _ e1 =>
       Q (if negb (gps_epo_file_count e1 =? 0) then EPO_DOWNLOAD_RESULT_FAIL else EPO_DOWNLOAD_RESULT_SUCCESS) e1)) ->
  returns (epo_file_update_impl env fuel) e Q.
Proof.
  intros He Hd H. unfold epo_file_update_impl, unlink. steps. eapply returns_mono; [apply H|].
  - split; cbn; try done; [lia|]. by rewrite lookup_delete_eq.
  - done.
  - cbn. by rewrite lookup_delete_ne, lookup_delete_eq.
  - intros [] e1 H1. steps. exact H1.
Qed.

(** ** A piece that cannot be downloaded *)

Definition refuses (i : nat) : Prop :=
  (forall f key, is_Some (getEpoUrl env f key)) /\
  forall f m key url k, piece_names t (Z.of_nat i) = Some (f, m) -> getEpoUrl env f key = Some url ->
    fst (curl env k url) <> CURLE_OK.

Lemma download_refused i e :
  refuses i -> (i < 10)%nat -> piece_names t (Z.of_nat i) = Some (gps_epo_file_name e, gps_epo_md_file_name e) ->
  returns (curl_easy_download_epo env) e (fun r e' =>
    (r =? CURLE_OK) = false /\ files_changed e e' /\
    forall x, x <> fname t i -> x <> mname t i -> files e' !! x = files e !! x).
Proof.
  intros [Hu Hr] Hi Hn.
  assert (in_dir (gps_epo_file_name e) = fname t i) as Hf by (unfold fname; by rewrite Hn).
  assert (in_dir (gps_epo_md_file_name e) = mname t i) as Hm by (unfold mname; by rewrite Hn).
  unfold curl_easy_download_epo, with_counter. steps.
  match goal with |- context [getEpoUrl env ?f ?k] => destruct (Hu f k) as [u1 ->] end.
  apply returns_bind. eapply returns_mono; [apply fetch_key_ok|]. intros key e1 [Hc1 Hf1].
  steps. rewrite Hm in Hf1. assert (gps_epo_file_name e1 = gps_epo_file_name e) as En by (by rewrite Hc1).
  match goal with |- context [getEpoUrl env ?f ?k] => destruct (Hu f k) as [u2 E2]; rewrite E2 end.
  rewrite <- En in Hf, Hn. specialize (Hr _ _ _ _ (tick e1) Hn E2).
  unfold fetch_piece, curl_easy_download, next_tick, unlink, write_file.
  destruct (curl env (tick e1) u2) as [res bytes] eqn:Ec. cbn [fst] in Hr. apply Z.eqb_neq in Hr.
  steps. rewrite Ec. steps. rewrite Hr. steps. split; [done|]. split.
  - eapply files_changed_trans; [exact Hc1|]. done.
  - intros x H1 H2. cbn. rewrite Hf, lookup_delete_ne, lookup_insert_ne by done. by apply Hf1.
Qed.

Lemma turn_refused days i e :
  refuses i -> (i < 10)%nat -> stored days i e -> gps_epo_file_count e = Z.of_nat i ->
  returns (update_turn env) e (fun ended e' => ended = false /\
    epo_data_updated e' = false /\ epo_download_failed e' = true /\ gps_epo_file_count e' = Z.of_nat i /\
    files e' !! EPO_UPDATE_HAL = files e !! EPO_UPDATE_HAL).
Proof.
  intros Hr Hi Hst Hc. unfold update_turn. step_gets. rewrite Hq. step_gets.
  rewrite (st_updated _ _ _ Hst). step_gets. step_upd. step_gets. cbn [gps_epo_file_count set_failed]. rewrite Hc.
  destruct (set_names_piece i (set_failed false e) (st_type _ _ _ Hst) Hi) as (f & m & En & Hf & Hm & E).
  destruct (names_apart t i Ht Hi) as [A1 A2 _ _ _ _].
  apply returns_bind. eexists _, _. split; [exact E|]. apply returns_bind.
  unfold mtk_gps_epo_file_update, mtk_gps_epo_file_update_hal. apply returns_bind, returns_bind.
  eapply returns_mono; [by apply (download_refused i)|]. intros r e1 (-> & Hch & Hx). cbn [negb]. steps.
  change (-1 <? 0) with true. cbn iota. steps. cbn [epo_download_failed set_failed when]. steps.
  apply sleep_ok. intros k b a. steps. split; [done|]. split; [done|]. split; [done|]. cbn.
  split; [by rewrite Hch|]. by rewrite Hx.
Qed.

(** Neither the GPS nor Wi-Fi asks for a retry. *)
Context (Hg : forall k, gps_started env k = false) (Hw : forall k, wifi_connected env k = false).

Lemma loop_gives_up fuel e :
  epo_data_updated e = false -> epo_download_failed e = true ->
  returns (update_loop env (2 + fuel)) e (fun _ e' =>
    gps_epo_file_count e' = gps_epo_file_count e /\ files e' = files e /\ epo_data_updated e' = false).
Proof.
  intros Hu Hf. cbn [update_loop Nat.add]. unfold update_turn at 1. steps. rewrite Hq. steps.
  rewrite Hu, Hf. unfold epo_file_update_retry. steps. rewrite Hg, Hw. cbn [orb]. steps.
  apply sleep_ok. intros k b a. steps. unfold update_turn. steps. rewrite Hq. steps. cbn. rewrite Hu. by steps.
Qed.
Lemma loop_refused days k fuel e :
  refuses k -> (k < 10)%nat -> stored days k e -> gps_epo_file_count e = Z.of_nat k ->
  files e !! EPO_UPDATE_HAL = (if (k =? 0)%nat then None else Some (concat (take k pieces))) ->
  returns (update_loop env (1 + (2 + fuel))) e (fun _ e' =>
    gps_epo_file_count e' = Z.of_nat k /\
    files e' !! EPO_UPDATE_HAL = (if (k =? 0)%nat then None else Some (concat (take k pieces)))).
Proof.
  intros Hr Hk Hst Hc Hh. cbn [update_loop Nat.add]. apply returns_bind.
  eapply returns_mono; [by apply (turn_refused days k)|]. intros ended e2 (-> & Hu & Hf & Hc2 & Hh2).
  eapply returns_mono; [by apply (loop_gives_up fuel)|]. intros [] e3 (-> & -> & _). by rewrite Hh2.
Qed.

(** ** A new prediction on the server *)

Lemma unlink_pieces_down_ok n e :
  gps_epo_type e = t -> (n < 10)%nat ->
  returns (unlink_pieces_down n) e (fun _ e' =>
    exists fs f m, e' = set_files fs (set_names f m e) /\ fs !! EPO_FILE = files e !! EPO_FILE).
Proof.
  revert e. induction n as [|n IH]; intros e He Hn; cbn [unlink_pieces_down];
    (destruct (set_names_piece _ e He Hn) as (f & m & _ & Hf & _ & E));
    apply returns_bind; (eexists _, _; split; [exact E|]); unfold unlink; steps; cbn [gps_epo_file_name set_names];
    destruct (names_apart t _ Ht Hn) as [_ _ A3 _ _ _].
  - eexists _, f, m. split; [reflexivity|]. cbn. rewrite Hf. by apply lookup_delete_ne.
  - eapply returns_mono; [apply IH; [done|lia]|]. intros _ e' (fs & f' & m' & -> & H).
    exists fs, f', m'. split; [done|]. rewrite H. cbn. rewrite Hf. by apply lookup_delete_ne.
Qed.

Lemma compare_yes i e x y :
  gps_epo_type e = t -> gps_epo_file_count e = Z.of_nat i -> (i < 10)%nat ->
  0 <= y < 2 ^ 31 - DAY -> y + DAY <= x ->
  returns (compare_times (x, 0) (y, 0)) e (fun r e' => r = 1 /\
    exists fs f m, e' = set_count 0 (set_files fs (set_names f m e)) /\ fs !! EPO_FILE = files e !! EPO_FILE).
Proof.
  intros He Hc Hi Hy Hx. unfold compare_times, DAY in *. steps. cbn [fst snd].
  apply (returns_lift _ (24 * 60 * 60 + y)); [apply chk_small; lia|].
  replace (24 * 60 * 60 + y <=? x) with true by lia. rewrite Hc.
  replace (0 <=? Z.of_nat i) with true by lia. cbn [when]. rewrite Nat2Z.id. apply returns_bind.
  eapply returns_mono; [by apply unlink_pieces_down_ok|]. intros _ e' (fs & f & m & -> & H).
  unfold unlink. steps. split; [done|]. eexists _, f, m. split; [reflexivity|]. cbn.
  by rewrite lookup_delete_ne by apply hal_not_epo.
Qed.

(** The second piece belongs to another prediction: everything starts again. *)
Lemma turn_changed days p q e :
  serves 2 -> pieces !! 0%nat = Some p -> pieces !! 1%nat = Some q -> piece_ok p -> piece_ok q ->
  piece_end p + DAY <= piece_start q ->
  stored days 1 e -> gps_epo_file_count e = 1 ->
  returns (update_turn env) e (fun ended e' => ended = false /\
    stored days 0 e' /\ gps_epo_file_count e' = 0).
Proof.
  intros Hs Hp Hq' Hpok Hqok Hgap Hst Hc. unfold update_turn. step_gets. rewrite Hq. step_gets.
  rewrite (st_updated _ _ _ Hst). step_gets. step_upd. step_gets. cbn [gps_epo_file_count set_failed]. rewrite Hc.
  destruct (set_names_piece 1 (set_failed false e) (st_type _ _ _ Hst)) as (f & m & En & Hf & Hm & E); [lia|].
  destruct (names_apart t 1 Ht ltac:(lia)) as [A1 A2 A3 A4 A5 A6].
  apply returns_bind. eexists _, _. split; [exact E|]. apply returns_bind.
  unfold mtk_gps_epo_file_update, mtk_gps_epo_file_update_hal. apply returns_bind, returns_bind.
  eapply returns_mono; [apply (download_piece_ok 2 1 q); (done || lia)|]. intros r e1 (-> & Hch & Hh & Hqf & Hx).
  change (0 =? CURLE_OK) with true. cbn [negb]. apply returns_ret. change (0 <? 0) with false. cbn iota.
  apply returns_bind. assert (gps_epo_type e1 = t) as He1 by (rewrite Hch; apply (st_type _ _ _ Hst)).
  assert (gps_epo_file_count e1 = 1) as Hc1 by (by rewrite Hch).
  assert (files e1 !! fname t 0 = Some p) as Hpf.
  { rewrite Hx; [apply (st_pieces _ _ _ Hst); [lia|done]|..]; destruct (names_apart t 0 Ht ltac:(lia)) as [B1 _ _ _ _ B6].
    - done.
    - apply B6; lia.
    - intros Eq. apply (A5 0%nat ltac:(lia)). by rewrite Eq. }
  apply (compared_times 1 q); try done; try lia.
  - by rewrite Hch.
  - intros j [= <-]. exists p. split; [done|]. split; [done|]. intros f' m'.
    eapply returns_mono; [apply (compare_yes 1); try done; [lia|by destruct Hpok|lia]|].
    intros r e2 (-> & fs & f2 & m2 & -> & Hepo). change (1 =? 1) with true. cbn iota. steps.
    assert (epo_download_failed e1 = false) as Hf1 by (by rewrite Hch). cbn [epo_download_failed set_count set_files set_names].
    rewrite Hf1. cbn [when]. steps. apply sleep_ok. intros k b a. steps. split; [done|]. split; [|done].
    split; cbn; try done; try lia.
    + rewrite Hch. apply (st_days _ _ _ Hst).
    + rewrite Hch. apply (st_updated _ _ _ Hst).
    + rewrite Hepo. cbn. rewrite Hx by done. apply (st_epo _ _ _ Hst).
Qed.
End zone.

(** ** Theorems *)

(** C28: When the server delivers a prediction whose pieces follow each other,
    the download ends, reports success, and leaves the pieces, one after the
    other, in [EPOHAL.DAT], without piece files or the old [EPO.DAT]; what
    happens to the MD5 files does not matter. *)
Theorem epo_download_complete (env : epo_env) (off t days : Z) (pieces : list (list Z)) (fuel : nat) (e : epo) :
  fixed_zone (epo_calendar env) off -> t = 0 \/ t = 1 -> (forall k, qepo_finished env k = true) ->
  serves env t pieces (length pieces) -> prediction off pieces days ->
  gps_epo_type e = t -> gps_epo_download_days e = days -> (length pieces < fuel)%nat ->
  exists e', mnld_epo_download env fuel e = Done (EPO_DOWNLOAD_RESULT_SUCCESS, e') /\
    complete t pieces days e' /\ last (epo_done e') = Some EPO_DOWNLOAD_RESULT_SUCCESS.
Proof.
  intros Hz Ht Hq Hs Hpn He Hd Hfuel.
  pose proof (wanted_bounds _ (pn_days _ _ _ Hpn)) as Hwb. pose proof (pn_wanted _ _ _ Hpn) as Hw.
  destruct (length pieces) as [|n] eqn:Hn; [lia|].
  assert (returns (mnld_epo_download env fuel) e (fun r e' => r = EPO_DOWNLOAD_RESULT_SUCCESS /\
    complete t pieces days e' /\ last (epo_done e') = Some EPO_DOWNLOAD_RESULT_SUCCESS))
    as (r & e' & E & -> & H); [|by exists e'].
  unfold mnld_epo_download. apply returns_bind. apply (impl_ok env t pieces days); [done|done|].
  intros e0 Hst Hc _. replace fuel with (n + (2 + (fuel - n - 2)))%nat by lia.
  apply (loop_to env off Hz t Ht pieces Hq n days n 0); try done; try lia.
  { split; [apply Hs|]. intros i p f m key url k Hi. apply (sv_piece _ _ _ _ Hs). lia. }
  intros e1 Hst1 Hc1. eapply returns_mono; [by apply (loop_last env off Hz t Ht pieces Hq days n)|].
  intros [] e2 Hcm. rewrite (cm_count _ _ _ _ Hcm). cbn. steps. split; [done|]. split; [by destruct Hcm|].
  cbn. apply last_snoc.
Qed.

(** When a piece cannot be downloaded and neither the GPS nor Wi-Fi asks
    for a retry, the download ends with what was there before that piece; the
    main thread is told of the failure for every piece but the first: without
    any piece it is told success. *)
Theorem epo_failure_reported (env : epo_env) (off t days : Z) (pieces : list (list Z)) (k fuel : nat) (e : epo) :
  fixed_zone (epo_calendar env) off -> t = 0 \/ t = 1 -> (forall k, qepo_finished env k = true) ->
  (forall k, gps_started env k = false) -> (forall k, wifi_connected env k = false) ->
  serves env t pieces k -> refuses env t k -> prediction off pieces days -> (k < length pieces)%nat ->
  gps_epo_type e = t -> gps_epo_download_days e = days -> (k + 3 <= fuel)%nat ->
  exists e', mnld_epo_download env fuel e =
      Done (if (k =? 0)%nat then EPO_DOWNLOAD_RESULT_SUCCESS else EPO_DOWNLOAD_RESULT_FAIL, e') /\
    files e' !! EPO_UPDATE_HAL = (if (k =? 0)%nat then None else Some (concat (take k pieces))).
Proof.
  intros Hz Ht Hq Hg Hw Hs Hr Hpn Hk He Hd Hfuel.
  pose proof (wanted_bounds _ (pn_days _ _ _ Hpn)) as Hwb. pose proof (pn_wanted _ _ _ Hpn) as Hwn.
  assert (returns (mnld_epo_download env fuel) e (fun r e' =>
    r = (if (k =? 0)%nat then EPO_DOWNLOAD_RESULT_SUCCESS else EPO_DOWNLOAD_RESULT_FAIL) /\
    files e' !! EPO_UPDATE_HAL = (if (k =? 0)%nat then None else Some (concat (take k pieces)))))
    as (r & e' & E & -> & H); [|by exists e'].
  unfold mnld_epo_download. apply returns_bind. apply (impl_ok env t pieces days); [done|done|].
  intros e0 Hst Hc Hnone. replace fuel with (k + (1 + (2 + (fuel - k - 3))))%nat by lia.
  apply (returns_mono _ _ (fun _ e2 => gps_epo_file_count e2 = Z.of_nat k /\
    files e2 !! EPO_UPDATE_HAL = (if (k =? 0)%nat then None else Some (concat (take k pieces))))).
  - destruct k as [|k].
    + apply (loop_refused env t Ht pieces Hq Hg Hw days 0); (done || lia).
    + apply (loop_to env off Hz t Ht pieces Hq (S k) days (S k) 0); try done.
      intros e1 Hst1 Hc1. apply (loop_refused env t Ht pieces Hq Hg Hw days (S k)); try (done || lia).
      exact (st_hal _ _ _ _ _ Hst1 (Nat.neq_succ_0 k)).
  - intros [] e2 [Hc2 Hh2]. steps. cbn. rewrite Hc2, Hh2. by destruct k.
Qed.

(** ** A server that changes again and again *)

(** The first piece, as long as a prediction. *)
Definition repeated (days : Z) (p : list Z) : list (list Z) := replicate (Z.to_nat (wanted days)) p.

Lemma repeated_prediction off days p :
  1 <= days <= 30 -> piece_ok off p -> piece_start p <= piece_end p -> prediction off (repeated days p) days.
Proof.
  intros Hd Hp Hle. pose proof (wanted_bounds days Hd). unfold repeated. split; [done|..].
  - rewrite length_replicate. lia.
  - by intros i x [-> _]%lookup_replicate.
  - intros i x y [-> _]%lookup_replicate [-> _]%lookup_replicate. unfold follows, DAY. lia.
Qed.

(** Only the first piece matters for the first turn. *)
Lemma stored_head t days n p l l' e :
  (n <= 1)%nat -> l !! 0%nat = Some p -> l' !! 0%nat = Some p -> stored t l days n e -> stored t l' days n e.
Proof.
  intros Hn Hl Hl' [H1 H2 H3 H4 H5 H6 H7]. split; try done.
  - intros H. assert (n = 1%nat) as -> by lia. rewrite H5 by done. destruct l, l'; [done..|].
    cbn in *. by simplify_eq.
  - intros j x Hj Hx. assert (j = 0%nat) as -> by lia. apply H6; [done|]. congruence.
Qed.

Lemma loop_forever (env : epo_env) (off t days : Z) (p q : list Z) (fuel : nat) (e : epo) :
  fixed_zone (epo_calendar env) off -> t = 0 \/ t = 1 -> (forall k, qepo_finished env k = true) ->
  serves env t [p; q] 2 -> 4 <= days <= 30 ->
  piece_ok off p -> piece_ok off q -> piece_start p <= piece_end p -> piece_end p + DAY <= piece_start q ->
  (exists n, (n <= 1)%nat /\ stored t [p; q] days n e /\ gps_epo_file_count e = Z.of_nat n) ->
  update_loop env fuel e = Blocked.
Proof.
  intros Hz Ht Hq Hs Hd Hp Hqok Hle Hgap. revert e.
  assert (1 < wanted days) as Hw.
  { unfold wanted. destruct (Z.ltb_spec 0 (Z.rem days 3)); Z.to_euclidean_division_equations; lia. }
  assert (repeated days p !! 0%nat = Some p) as Hh by (apply lookup_replicate; split; [done|lia]).
  assert (zlen (repeated days p) = wanted days) as Hlen by (unfold repeated; rewrite length_replicate; lia).
  induction fuel as [|fuel IH]; intros e (n & Hn & Hst & Hc); [done|]. cbn [update_loop].
  assert (returns (update_turn env) e (fun ended e' => ended = false /\
    exists n, (n <= 1)%nat /\ stored t [p; q] days n e' /\ gps_epo_file_count e' = Z.of_nat n))
    as (ended & e' & E & -> & H); [|rewrite (bind_done _ _ _ _ _ E); exact (IH e' H)].
  destruct n as [|[|n]]; [..|lia].
  - eapply returns_mono.
    + apply (turn_ok env off Hz t Ht (repeated days p) Hq 1 days 0); try done; try lia.
      * split; [apply Hs|]. intros i x f m key url k Hi Hx. apply (sv_piece _ _ _ _ Hs); [lia|].
        assert (i = 0%nat) as -> by lia. by rewrite Hh in Hx.
      * apply repeated_prediction; (done || lia).
      * by apply (stored_head t days 0 p [p; q]).
    + intros ended e' [-> [(_ & Hst' & Hc')|(Hlast & _)]]; [|lia]. split; [done|].
      exists 1%nat. split; [done|]. split; [|done]. by apply (stored_head t days 1 p (repeated days p)).
  - eapply returns_mono; [by apply (turn_changed env off Hz t Ht [p; q] Hq days p q)|].
    intros ended e' (-> & Hst' & Hc'). split; [done|]. exists 0%nat. split; [lia|done].
Qed.

(** When the second piece always begins a day or more after the end of the
    first one, the download starts from the beginning again and again: however
    long one waits, it does not end. *)
Theorem epo_livelock (env : epo_env) (off t days : Z) (p q : list Z) (fuel : nat) (e : epo) :
  fixed_zone (epo_calendar env) off -> t = 0 \/ t = 1 -> (forall k, qepo_finished env k = true) ->
  serves env t [p; q] 2 -> 4 <= days <= 30 ->
  piece_ok off p -> piece_ok off q -> piece_start p <= piece_end p -> piece_end p + DAY <= piece_start q ->
  gps_epo_type e = t -> gps_epo_download_days e = days ->
  mnld_epo_download env fuel e = Blocked.
Proof.
  intros Hz Ht Hq Hs Hd Hp Hqok Hle Hgap He Hdays.
  unfold mnld_epo_download, epo_file_update_impl, unlink, modify, bind. cbn beta iota.
  erewrite (loop_forever env off t days p q); try done.
  exists 0%nat. split; [lia|]. split; [|done]. split; cbn; try done; [lia|]. by rewrite lookup_delete_eq.
Qed.

(** ** When a prediction has expired *)

(** The prediction on the flash. *)
Definition current (e : epo) : option (list Z) :=
  match files e !! EPO_UPDATE_HAL with Some l => Some l | None => files e !! EPO_FILE end.

(** Days after which a prediction over [d] days is renewed. *)
Definition max_age (wifi_tragger : bool) (d : Z) : Z :=
  if wifi_tragger then 3 else if d <? 3 then 0 else if d <? 6 then 2 else if d <? 9 then 5 else 7.

Lemma renewal_age_days w d : renewal_age w d = max_age w d * DAY.
Proof.
  unfold renewal_age, max_age, wifi_epo_period, gps_epo_period, DAY. destruct w; [done|].
  repeat case_match; lia.
Qed.

Section expiry.
Context (env : epo_env) (off : Z) (dst : Z -> Z) (Hz : summer_zone (epo_calendar env) off dst).

Lemma file_times e l :
  current e = Some l -> piece_ok off l ->
  mtk_gps_epo_file_time_hal env e =
  Done (0, piece_start l - off - dst (piece_start l), piece_end l - off - dst (piece_end l), e).
Proof.
  intros Hc [Hl H1 H2 H3 H4]. unfold current in Hc.
  pose proof (sz_range _ _ _ Hz). pose proof (sz_dst _ _ _ Hz (piece_start l)) as D1.
  pose proof (sz_dst _ _ _ Hz (piece_end l)) as D2.
  unfold mtk_gps_epo_file_time_hal, read_file, lift, bind, gets, ret. cbn [files_of epo_disk]. rewrite Hc.
  unfold mtk_gps_sys_epo_period_start, mtk_gps_sys_epo_period_end.
  replace (zlen l <? MTK_EPO_ONE_SV_SIZE) with false by lia.
  set (r := drop (Z.to_nat (zlen l - MTK_EPO_ONE_SV_SIZE)) l) in *.
  assert (piece_start l = GPS_EPOCH + record_seconds l 0) as Es.
  { unfold piece_start, in_time, GPS_EPOCH, DAY in *. rewrite record_seconds_id; lia. }
  assert (piece_end l = GPS_EPOCH + record_seconds r 21600) as Ee.
  { unfold piece_end, in_time, GPS_EPOCH, DAY in *. fold r in H4 |- *. rewrite record_seconds_id; lia. }
  rewrite !(record_time_summer env off dst) by done. cbn [obind]. rewrite <- Es, <- Ee.
  unfold in_time, DAY in *. by rewrite !time_t_id by lia.
Qed.

Lemma unreadable_times e :
  match current e with Some l => zlen l < MTK_EPO_ONE_SV_SIZE | None => True end ->
  mtk_gps_epo_file_time_hal env e = Done (-1, 0, 0, e).
Proof.
  unfold current, mtk_gps_epo_file_time_hal, read_file, lift, bind, gets, ret. cbn [files_of epo_disk].
  destruct (match files e !! EPO_UPDATE_HAL with Some l => Some l | None => files e !! EPO_FILE end) as [l|]; [|done].
  intros Hl. unfold mtk_gps_sys_epo_period_start. by replace (zlen l <? MTK_EPO_ONE_SV_SIZE) with true by lia.
Qed.

Lemma utc_now k :
  0 <= now_is env k < 2 ^ 31 -> 0 <= now_is env k - off < 2 ^ 31 ->
  s32 (fst (cal_mktime (epo_calendar env) (cal_gmtime (epo_calendar env) (now_is env k)))) = now_is env k - off.
Proof.
  intros H1 H2. rewrite (sz_utc _ _ _ Hz), time_t_id by lia. apply wrap_s_id; [done|]. apply in_s_spec. lia.
Qed.

(** The age of a prediction by the clock of the zone, and the days it covers. *)
Definition local_age (now : Z) (l : list Z) : Z := now - piece_start l + dst (piece_start l).
Definition local_days (l : list Z) : Z :=
  Z.quot (piece_end l - piece_start l - (dst (piece_end l) - dst (piece_start l))) DAY.

Lemma is_expired_ok w e l :
  current e = Some l -> piece_ok off l ->
  0 <= now_is env (tick e) < 2 ^ 31 -> 0 <= now_is env (tick e) - off < 2 ^ 31 ->
  let age := local_age (now_is env (tick e)) l in
  exists e', mtk_epo_is_expired env w e =
    Done (if (max_age w (local_days l) * DAY <=? age) || (age <? 0) then 1 else 0, e') /\ files e' = files e.
Proof.
  intros Hc Hok Hn0 Hn age. pose proof (file_times e l Hc Hok) as Et.
  pose proof (sz_dst _ _ _ Hz (piece_start l)). pose proof (sz_dst _ _ _ Hz (piece_end l)).
  assert (GPS_EPOCH <= piece_start l /\ GPS_EPOCH <= piece_end l) as [G1 G2].
  { destruct Hok as [_ H1 H2 _ _]. unfold piece_start, piece_end. lia. }
  pose proof (sz_range _ _ _ Hz). destruct Hok as [_ _ _ Hs He]. unfold in_time, DAY, GPS_EPOCH in *.
  unfold mtk_epo_is_expired. unfold bind at 1, gets at 1. rewrite utc_now by done.
  rewrite (bind_done _ _ _ _ _ Et). unfold bind at 1, lift at 1. rewrite chk_small by lia.
  unfold bind at 1, lift at 1. rewrite chk_small by lia.
  rewrite renewal_age_days.
  replace (Z.quot _ DAY) with (local_days l) by (unfold local_days, DAY; f_equal; lia).
  replace (now_is env (tick e) - off - _) with age by (subst age; unfold local_age; lia).
  unfold DAY. destruct (_ || _); by eexists.
Qed.

Lemma no_file_expired w e :
  match current e with Some l => zlen l < MTK_EPO_ONE_SV_SIZE | None => True end ->
  0 <= now_is env (tick e) < 2 ^ 31 -> 3 * DAY <= now_is env (tick e) - off < 2 ^ 31 ->
  exists e', mtk_epo_is_expired env w e = Done (1, e') /\ files e' = files e.
Proof.
  intros Hc Hn0 Hn. unfold mtk_epo_is_expired. unfold bind at 1, gets at 1. unfold DAY in *.
  rewrite utc_now by lia. rewrite (bind_done _ _ _ _ _ (unreadable_times e Hc)).
  unfold bind at 1, lift at 1. rewrite chk_small by lia.
  unfold bind at 1, lift at 1. rewrite chk_small by lia. rewrite renewal_age_days.
  assert (max_age w (Z.quot (0 - 0) DAY) * DAY <= 3 * DAY) as Hm by (destruct w; vm_compute; discriminate).
  unfold DAY in *. replace (_ <=? _) with true by lia.
  by eexists.
Qed.
End expiry.


(** What was just downloaded counts as valid for two days. *)
Lemma concat_start (p : list Z) ps : (3 <= length p)%nat -> first_hour (concat (p :: ps)) = first_hour p.
Proof. destruct p as [|a [|b [|c p]]]; cbn; (lia || done). Qed.

Lemma concat_last (ps : list (list Z)) (q : list Z) :
  MTK_EPO_ONE_SV_SIZE <= zlen q ->
  drop (Z.to_nat (zlen (concat (ps ++ [q])) - MTK_EPO_ONE_SV_SIZE)) (concat (ps ++ [q])) =
  drop (Z.to_nat (zlen q - MTK_EPO_ONE_SV_SIZE)) q.
Proof.
  unfold MTK_EPO_ONE_SV_SIZE. intros H. rewrite concat_app. cbn [concat]. rewrite app_nil_r, length_app.
  replace (Z.to_nat (Z.of_nat (length (concat ps) + length q) - 72))
    with (length (concat ps) + Z.to_nat (zlen q - 72))%nat by lia.
  by rewrite <- drop_drop, drop_app_length.
Qed.

Theorem epo_valid_after_download (env : epo_env) (off t days : Z) (p q : list Z) (ps : list (list Z)) (e : epo) :
  summer_zone (epo_calendar env) off (fun _ => 0) -> complete t (p :: ps ++ [q]) days e ->
  piece_ok off p -> piece_ok off q -> piece_start p + 3 * DAY <= piece_end q ->
  0 <= now_is env (tick e) < 2 ^ 31 -> 3 * DAY <= now_is env (tick e) - off < 2 ^ 31 ->
  piece_start p <= now_is env (tick e) < piece_start p + 2 * DAY ->
  exists e', epo_downloader_is_file_invalid env e = Done (0, e').
Proof.
  intros Hz [_ _ _ Hh _ _] [Hl1 Hf1 _ Hs1 _] [Hl2 _ Hf2 _ He2] Hlen Hn0 Hn Hage.
  set (l := concat (p :: ps ++ [q])) in *.
  assert (3 <= length p)%nat as H3 by (unfold MTK_EPO_ONE_SV_SIZE in *; lia).
  pose proof (concat_start p (ps ++ [q]) H3) as Es.
  pose proof (concat_last (p :: ps) q Hl2) as Ee. cbn [app] in Ee.
  assert (piece_start l = piece_start p) as Ps by (unfold piece_start; by rewrite <- Es).
  assert (piece_end l = piece_end q) as Pe by (unfold piece_end; subst l; by rewrite Ee).
  assert (zlen p <= zlen l) as Hll by (subst l; cbn [concat]; rewrite length_app; lia).
  assert (piece_ok off l) as Hok.
  { split; [lia| | |by rewrite Ps|by rewrite Pe].
    - subst l. by rewrite Es.
    - subst l. by rewrite Ee. }
  destruct (is_expired_ok env off _ Hz false e l) as (e' & E & _); try done.
  - unfold current. by rewrite Hh.
  - unfold DAY in *. lia.
  - exists e'. unfold epo_downloader_is_file_invalid. rewrite E. unfold local_age, local_days. rewrite Ps, Pe. do 2 f_equal.
    rewrite Z.sub_diag, Z.sub_0_r, Z.add_0_r.
    set (d := Z.quot (piece_end q - piece_start p) DAY).
    assert (3 <= d) by (subst d; apply Z.quot_le_lower_bound; unfold DAY in *; lia).
    replace (_ <=? _) with false; [by replace (_ <? 0) with false by lia|].
    symmetry. apply Z.leb_gt. unfold max_age, DAY in *. replace (d <? 3) with false by lia.
    repeat case_match; lia.
Qed.

(** ** Witnesses *)

(** A record of the hour [h], and a piece of three days from it on. *)
Definition demo_record (h : Z) : list Z := [h mod 256; h / 256 mod 256; h / 65536] ++ zeros 69.
Definition demo_piece (h : Z) : list Z := demo_record h ++ demo_record (h + 66).

(** A server with some answers; the MD5 files are empty. *)
Definition demo_curl (answers : list (string * (Z * list Z))) (_ : nat) (url : list Z) : Z * list Z :=
  match List.find (fun a => bool_decide (lit (fst a) = url)) answers with
  | Some a => snd a
  | None => (CURLE_OK, [])
  end.
Definition demo_env (answers : list (string * (Z * list Z))) (now : Z) : epo_env :=
  EpoEnv (fun f _ => Some (lit f)) (demo_curl answers) (fun _ => true) (fun _ => false) (fun _ => false)
    (fun _ => false) (fun _ => now) (fun _ => true) (fun _ => 0) east_zone.

(** Six days from the start of GPS week 1886 on. *)
Definition demo_hour : Z := 1886 * 168.
Definition demo_p : list Z := demo_piece demo_hour.
Definition demo_q : list Z := demo_piece (demo_hour + 72).
Definition demo_answers (q : list Z) : list (string * (Z * list Z)) :=
  [("EPO_GR_3_1.DAT"%string, (CURLE_OK, demo_p)); ("EPO_GR_3_2.DAT"%string, (CURLE_OK, q))].

Definition demo_start : epo :=
  Epo false 6 1 0 0 "" "" 0 false true 1 0 50 0 {[EPO_FILE := [1; 2; 3]]} 0 false [].

Lemma demo_ok h : h = demo_hour \/ h = demo_hour + 72 \/ h = demo_hour + 96 -> piece_ok 28800 (demo_piece h).
Proof.
  intros [-> | [-> | ->]]; split; try (unfold in_time); vm_compute; (discriminate || by split).
Qed.

Lemma demo_serves q n : (n <= 2)%nat -> serves (demo_env (demo_answers q) 0) 0 [demo_p; q] n.
Proof.
  intros Hn. split; [by intros f key; exists (lit f)|]. intros i p f m key url k Hi Hp Hf [= <-].
  destruct i as [|[|i]]; [..|lia]; injection Hp as <-; vm_compute in Hf; injection Hf as <- <-; reflexivity.
Qed.

Lemma demo_prediction : prediction 28800 [demo_p; demo_q] 6.
Proof.
  split; [lia|by vm_compute| |].
  - intros [|[|i]] p Hp; [injection Hp as <-..|done]; apply demo_ok; auto.
  - intros [|[|i]] p q Hp Hq; [|done..]. injection Hp as <-. injection Hq as <-. by vm_compute.
Qed.

Lemma epo_download_complete_witness :
  exists e', mnld_epo_download (demo_env (demo_answers demo_q) 0) 3 demo_start =
    Done (EPO_DOWNLOAD_RESULT_SUCCESS, e') /\ files e' !! EPO_UPDATE_HAL = Some (demo_p ++ demo_q ++ []).
Proof.
  destruct (epo_download_complete (demo_env (demo_answers demo_q) 0) 28800 0 6 [demo_p; demo_q] 3 demo_start
    east_zone_fixed (or_introl eq_refl) (fun _ => eq_refl) (demo_serves demo_q 2 (le_n 2)) demo_prediction
    eq_refl eq_refl (le_n 3)) as (e' & E & H & _).
  exists e'. split; [exact E|]. exact (cm_hal _ _ _ _ H).
Defined.

(** The first piece does not exist on this server. *)
Definition demo_empty : list (string * (Z * list Z)) := [("EPO_GR_3_1.DAT"%string, (22, []))].

Lemma epo_failure_reported_witness :
  exists e', mnld_epo_download (demo_env demo_empty 0) 3 demo_start = Done (EPO_DOWNLOAD_RESULT_SUCCESS, e') /\
    files e' !! EPO_UPDATE_HAL = None.
Proof.
  apply (epo_failure_reported (demo_env demo_empty 0) 28800 0 6 [demo_p; demo_q] 0 3 demo_start
    east_zone_fixed (or_introl eq_refl) (fun _ => eq_refl) (fun _ => eq_refl) (fun _ => eq_refl)).
  - split; [by intros f key; exists (lit f)|]. intros; lia.
  - split; [by intros f key; exists (lit f)|]. intros f m key url k Hf [= <-].
    vm_compute in Hf. injection Hf as <- <-. by vm_compute.
  - exact demo_prediction.
  - cbn. lia.
  - reflexivity.
  - reflexivity.
  - lia.
Defined.

(** The second piece begins a day after the end of the first one. *)
Lemma epo_livelock_witness :
  mnld_epo_download (demo_env (demo_answers (demo_piece (demo_hour + 96))) 0) 1000 demo_start = Blocked.
Proof.
  apply (epo_livelock (demo_env (demo_answers (demo_piece (demo_hour + 96))) 0) 28800 0 6 demo_p (demo_piece (demo_hour + 96)) 1000 demo_start east_zone_fixed
    (or_introl eq_refl) (fun _ => eq_refl)).
  - apply demo_serves, le_n.
  - lia.
  - apply demo_ok. auto.
  - apply demo_ok. auto.
  - vm_compute. discriminate.
  - vm_compute. discriminate.
  - reflexivity.
  - reflexivity.
Defined.

(** Paris in spring 2016: a prediction over three days, whose hours are counted
    from the start of GPS time on, from noon of 25 March on. *)
Definition spring_env (now : Z) : epo_env :=
  EpoEnv (fun f _ => Some (lit f)) (demo_curl []) (fun _ => true) (fun _ => false) (fun _ => false)
    (fun _ => false) (fun _ => now) (fun _ => true) (fun _ => 0) paris.
Definition spring_hour : Z := 317484.
Lemma spring_ok : piece_ok 3600 (demo_piece spring_hour).
Proof. split; try (unfold in_time); vm_compute; (discriminate || by split). Qed.

