(* ===== verification/Qepo.v ===== *)
(** * The download of quarter-day predictions (QEPO)

    [src/gps/mtk_mnld/mnld_entity/src/qepo.c]: libmnl asks for the prediction of
    the present quarter of the day; the thread downloads the file of that quarter,
    checks that it covers the GPS time, and tries ten more times while there is a
    network.  Shown: it always ends, after at most eleven attempts, and reports
    exactly whether the file on the flash covers the GPS time. *)

From stdpp Require Import gmap strings.
From S2P Require Import Prelude LbsUtility AtCommand Calendar GpsTime Disk.
Open Scope Z_scope.

(** ** State *)

Definition QUARTER_FILE_HAL : string := "/data/misc/gps/QEPOHAL.DAT".
Definition EPO_DOWNLOAD_RESULT_SUCCESS : Z := 0.
Definition EPO_DOWNLOAD_RESULT_FAIL : Z := -1.
Definition CURLE_RECV_ERROR : Z := 56.
Definition MTK_GPS_ERROR : Z := -1.
Definition MTK_QEPO_RSP_UPDATE_SUCCESS : Z := 0.
Definition MTK_QEPO_RSP_UPDATE_FAIL : Z := 1.
Definition MTK_QEPO_RSP_DOWNLOAD_FAIL : Z := 2.

Record qepo_gps_time : Type := QepoTime { wn : Z; tow : Z; sys_time : Z }.

(** The static variables of the file, with the files, the ticks, what was
    reported to the main thread and the responses to the AGPS agent. *)
Record qepo : Type := Qepo {
  quarter_epo_file_name : string;
  quarter_epo_md_file_name : string;
  gps_time : qepo_gps_time;
  qepo_download_finished : bool;
  q_gps_epo_type : Z;
  pre_day : bool;
  server_not_updated : bool;
  Qepo_res : Z;
  q_counter : Z;
  q_files : gmap string (list Z);
  q_tick : nat;
  qepo_done : list Z;
  qepo_rsp : list Z
}.

Definition set_q_names (f m : string) (e : qepo) : qepo :=
  Qepo f m (gps_time e) (qepo_download_finished e) (q_gps_epo_type e) (pre_day e) (server_not_updated e)
    (Qepo_res e) (q_counter e) (q_files e) (q_tick e) (qepo_done e) (qepo_rsp e).
Definition set_q_time (t : qepo_gps_time) (e : qepo) : qepo :=
  Qepo (quarter_epo_file_name e) (quarter_epo_md_file_name e) t (qepo_download_finished e) (q_gps_epo_type e)
    (pre_day e) (server_not_updated e) (Qepo_res e) (q_counter e) (q_files e) (q_tick e) (qepo_done e)
    (qepo_rsp e).
Definition set_finished (b : bool) (e : qepo) : qepo :=
  Qepo (quarter_epo_file_name e) (quarter_epo_md_file_name e) (gps_time e) b (q_gps_epo_type e)
    (pre_day e) (server_not_updated e) (Qepo_res e) (q_counter e) (q_files e) (q_tick e) (qepo_done e)
    (qepo_rsp e).
(** [pre_day] and [server_not_updated] *)
Definition set_flags (p s : bool) (e : qepo) : qepo :=
  Qepo (quarter_epo_file_name e) (quarter_epo_md_file_name e) (gps_time e) (qepo_download_finished e)
    (q_gps_epo_type e) p s (Qepo_res e) (q_counter e) (q_files e) (q_tick e) (qepo_done e) (qepo_rsp e).
(** [Qepo_res] and [counter] *)
Definition set_res (r c : Z) (e : qepo) : qepo :=
  Qepo (quarter_epo_file_name e) (quarter_epo_md_file_name e) (gps_time e) (qepo_download_finished e)
    (q_gps_epo_type e) (pre_day e) (server_not_updated e) r c (q_files e) (q_tick e) (qepo_done e) (qepo_rsp e).
Definition set_q_disk (fs : gmap string (list Z)) (k : nat) (e : qepo) : qepo :=
  Qepo (quarter_epo_file_name e) (quarter_epo_md_file_name e) (gps_time e) (qepo_download_finished e)
    (q_gps_epo_type e) (pre_day e) (server_not_updated e) (Qepo_res e) (q_counter e) fs k (qepo_done e)
    (qepo_rsp e).
Definition set_reports (d r : list Z) (e : qepo) : qepo :=
  Qepo (quarter_epo_file_name e) (quarter_epo_md_file_name e) (gps_time e) (qepo_download_finished e)
    (q_gps_epo_type e) (pre_day e) (server_not_updated e) (Qepo_res e) (q_counter e) (q_files e) (q_tick e) d r.

#[export] Instance qepo_disk : HasDisk qepo := {|
  files_of := q_files; with_files := fun fs e => set_q_disk fs (q_tick e) e;
  tick_of := q_tick; with_tick := fun k e => set_q_disk (q_files e) k e
|}.

Section qepo_thread.
Context (env : epo_env).

(** ** One attempt *)

(** The key, from the MD5 file. *)
Definition fetch_quarter_key (md_url : list Z) (md : string) : prog qepo (list Z) :=
  let* res := curl_easy_download env md_url (in_dir md) in
  if res =? 0 then
    let* content := read_file (in_dir md) in
    unlink (in_dir md) ;;
    modify (fun e => set_res (Qepo_res e) 1 e) ;;
    ret (match content with Some l => md_key l | None => NO_KEY end)
  else modify (fun e => set_res (Qepo_res e) (q_counter e + 1) e) ;; ret NO_KEY.

Definition curl_easy_download_quarter_epo : prog qepo Z :=
  let* md := gets quarter_epo_md_file_name in
  let* n := gets q_counter in
  match getEpoUrl env md (key_text NO_KEY n) with
  | None => ret CURLE_FAILED_INIT
  | Some md_url =>
      let* key := fetch_quarter_key md_url md in
      let* name := gets quarter_epo_file_name in
      let* n := gets q_counter in
      match getEpoUrl env name (key_text key n) with
      | None => ret CURLE_FAILED_INIT
      | Some url =>
          let* res := curl_easy_download env url QUARTER_FILE_HAL in
          modify (fun e => set_res res (if res =? 0 then 1 else q_counter e + 1) e) ;;
          ret res
      end
  end.

(** The names do not depend on the type, as long as it is 0 or 1. *)
Definition quarter_names (count : Z) : option (string * string) :=
  if count =? 1 then Some ("QG_R_1.DAT", "QG_R_1.MD5")%string
  else if count =? 2 then Some ("QG_R_2.DAT", "QG_R_2.MD5")%string
  else if count =? 3 then Some ("QG_R_3.DAT", "QG_R_3.MD5")%string
  else if count =? 4 then Some ("QG_R_4.DAT", "QG_R_4.MD5")%string
  else if count =? 5 then Some ("QG_R_5.DAT", "QG_R_5.MD5")%string
  else None.

Definition gps_download_quarter_epo_file_name (count : Z) : prog qepo unit :=
  let* type := gets q_gps_epo_type in
  match (if (type =? 1) || (type =? 0) then quarter_names count else None) with
  | Some (f, m) => modify (set_q_names f m)
  | None => ret tt
  end.

Definition gps_mnl_set_gps_time (w t s : Z) : prog qepo unit := modify (set_q_time (QepoTime w t s)).

Definition quarter_index (SecofDay : Z) (not_updated pre : bool) : Z :=
  let index :=
    if (300 <? SecofDay) && (SecofDay <=? 21900) then 1
    else if (21900 <? SecofDay) && (SecofDay <=? 43500) then 2
    else if (43500 <? SecofDay) && (SecofDay <=? 65100) then 3
    else if (65100 <? SecofDay) && (SecofDay <=? 85500) then 4
    else if (SecofDay <=? 300) || (85500 <? SecofDay) then (if not_updated then 4 else 5)
    else 1 in
  if pre then 5 else index.

Definition quarter_epo_download_process : prog qepo unit :=
  let* t := gets gps_time in
  let* s := gets server_not_updated in
  let* p := gets pre_day in
  gps_download_quarter_epo_file_name (quarter_index (Z.rem (tow t) 86400) s p) ;;
  let* _ := curl_easy_download_quarter_epo in
  ret tt.

Definition HOUR : Z := 60 * 60.

Definition is_quarter_epo_valid : prog qepo Z :=
  let* content := read_file QUARTER_FILE_HAL in
  match content with
  | None => ret EPO_DOWNLOAD_RESULT_FAIL
  | Some l =>
      let* start := lift (mtk_gps_sys_epo_period_start env l) in
      match start with
      | None => ret EPO_DOWNLOAD_RESULT_FAIL
      | Some uSecond_start =>
          let* t := gets gps_time in
          let* mnl_time := lift (GpsToUtcTime (epo_calendar env) (wn t) (tow t)) in
          let* inside :=
            (if uSecond_start <=? mnl_time
             then let* limit := lift (chk (6 * HOUR + uSecond_start)) in ret (mnl_time <? limit)
             else ret false) in
          if inside : bool then ret EPO_DOWNLOAD_RESULT_SUCCESS
          else
            let* later := lift (chk (18 * HOUR + mnl_time)) in
            let* earlier := lift (chk (24 * HOUR + uSecond_start)) in
            modify (set_flags (later <=? uSecond_start) (earlier <=? mnl_time)) ;;
            ret EPO_DOWNLOAD_RESULT_FAIL
      end
  end.

(** ** The download *)

(** The loop, with [try_time] attempts left. *)
Fixpoint qepo_tries (try_time : nat) : prog qepo Z :=
  let* qepo_valid := is_quarter_epo_valid in
  match try_time with
  | O => ret qepo_valid
  | S try_time' =>
      let* k := gets q_tick in
      if (qepo_valid =? EPO_DOWNLOAD_RESULT_FAIL) && net_connected env k
      then quarter_epo_download_process ;; qepo_tries try_time'
      else ret qepo_valid
  end.

Definition qepo_file_update_impl : prog qepo Z :=
  quarter_epo_download_process ;;
  let* qepo_valid := qepo_tries 10 in
  let* s := gets server_not_updated in
  when s (modify (fun e => set_res CURLE_RECV_ERROR (q_counter e) e)) ;;
  ret qepo_valid.

Definition mnld_qepo_download : prog qepo Z :=
  modify (set_finished false) ;;
  let* r := qepo_file_update_impl in
  modify (set_finished true) ;;
  modify (fun e => set_reports (qepo_done e ++ [r]) (qepo_rsp e) e) ;;
  ret r.

(** [agent]: the result of [mtk_agps_agent_qepo_file_update]; the response to
    the agent is the last of [qepo_rsp]. *)
Definition qepo_update_quarter_epo_file (agent qepo_valid : Z) : prog qepo unit :=
  if qepo_valid =? EPO_DOWNLOAD_RESULT_SUCCESS then
    let* status :=
      (if agent =? MTK_GPS_ERROR then ret MTK_QEPO_RSP_UPDATE_FAIL
       else unlink QUARTER_FILE_HAL ;; ret MTK_QEPO_RSP_UPDATE_SUCCESS) in
    modify (fun e => set_reports (qepo_done e) (qepo_rsp e ++ [status]) e)
  else
    let* r := gets Qepo_res in
    let status := if 0 <? r then MTK_QEPO_RSP_DOWNLOAD_FAIL else r in
    modify (fun e => set_reports (qepo_done e) (qepo_rsp e ++ [status]) e).
End qepo_thread.

(** ** The result *)

Ltac q_steps := repeat first
  [step_gets | step_upd | apply returns_bind | apply returns_ret | apply returns_gets | apply returns_modify
  | progress cbn [files_of with_files tick_of with_tick qepo_disk]].

(** The GPS time at which [l] begins, as it is counted: the seconds of the first
    hour wrap around at 32 bits. *)
Definition quarter_start (l : list Z) : Z := GPS_EPOCH + record_seconds l 0.

(** What the clock of a zone shows at [x], less a constant. *)
Definition shown (dst : Z -> Z) (x : Z) : Z := x - dst x.

(** Six hours from the start of [l], by the clock of the zone. *)
Definition covers (dst : Z -> Z) (l : list Z) (t : qepo_gps_time) : Prop :=
  MTK_EPO_ONE_SV_SIZE <= zlen l /\
  shown dst (quarter_start l) <= shown dst (gps_seconds (wn t) (tow t)) < shown dst (quarter_start l) + 6 * HOUR.
#[export] Instance covers_dec dst l t : Decision (covers dst l t).
Proof. unfold covers. apply _. Defined.

(** What an attempt leaves alone. *)
Record attempt (e e' : qepo) : Prop := {
  at_time : gps_time e' = gps_time e;
  at_type : q_gps_epo_type e' = q_gps_epo_type e;
  at_pre : pre_day e' = pre_day e;
  at_server : server_not_updated e' = server_not_updated e;
  at_done : qepo_done e' = qepo_done e;
  at_rsp : qepo_rsp e' = qepo_rsp e;
  at_tick : (q_tick e <= q_tick e' <= q_tick e + 2)%nat
}.

Lemma attempt_refl e : attempt e e.
Proof. split; (done || lia). Qed.

Lemma quarter_index_names s n p :
  exists f m, quarter_names (quarter_index s n p) = Some (f, m) /\ in_dir m <> QUARTER_FILE_HAL.
Proof.
  unfold quarter_index. destruct p; [by eexists _, _|]. repeat case_match; by eexists _, _.
Qed.

Section zone.
Context (env : epo_env) (off : Z) (dst : Z -> Z) (Hz : summer_zone (epo_calendar env) off dst).

(** The first time in the file is in the last day of [time_t]. *)
Definition in_last_day (l : list Z) : Prop :=
  MTK_EPO_ONE_SV_SIZE <= zlen l /\ 2 ^ 31 - DAY <= shown dst (quarter_start l) - off < 2 ^ 31.

Definition file_ok (e : qepo) : Prop := forall l, q_files e !! QUARTER_FILE_HAL = Some l -> ~ in_last_day l.

(** The server sends no such file. *)
Context (Hserver : forall k url, ~ in_last_day (snd (curl env k url))).

Lemma fetch_quarter_key_ok md_url md e :
  in_dir md <> QUARTER_FILE_HAL ->
  returns (fetch_quarter_key env md_url md) e (fun _ e' =>
    gps_time e' = gps_time e /\ q_gps_epo_type e' = q_gps_epo_type e /\ pre_day e' = pre_day e /\
    server_not_updated e' = server_not_updated e /\ qepo_done e' = qepo_done e /\ qepo_rsp e' = qepo_rsp e /\
    quarter_epo_file_name e' = quarter_epo_file_name e /\ Qepo_res e' = Qepo_res e /\ q_tick e' = S (q_tick e) /\
    q_files e' !! QUARTER_FILE_HAL = q_files e !! QUARTER_FILE_HAL).
Proof.
  intros Hmd. unfold fetch_quarter_key, curl_easy_download, next_tick, unlink, write_file, read_file.
  destruct (curl env (q_tick e) md_url) as [res bytes] eqn:Ec.
  q_steps. rewrite Ec. q_steps. destruct (res =? 0); q_steps; cbn; repeat split.
  - by rewrite lookup_delete_ne, lookup_insert_ne.
  - by rewrite lookup_insert_ne.
Qed.

(** One attempt: the file is the old one, or what the server sent. *)
Lemma download_process_ok e :
  (q_gps_epo_type e = 0 \/ q_gps_epo_type e = 1) ->
  returns (quarter_epo_download_process env) e (fun _ e' => attempt e e' /\
    ((exists f key, getEpoUrl env f key = None) /\
       q_files e' !! QUARTER_FILE_HAL = q_files e !! QUARTER_FILE_HAL \/
     exists f m key url k, quarter_names (quarter_index (Z.rem (tow (gps_time e)) 86400)
         (server_not_updated e) (pre_day e)) = Some (f, m) /\ getEpoUrl env f key = Some url /\
       q_files e' !! QUARTER_FILE_HAL = Some (snd (curl env k url)) /\ Qepo_res e' = fst (curl env k url))).
Proof.
  intros Ht. unfold quarter_epo_download_process, gps_download_quarter_epo_file_name. q_steps.
  destruct (quarter_index_names (Z.rem (tow (gps_time e)) 86400) (server_not_updated e) (pre_day e))
    as (f & m & En & Hm).
  replace ((q_gps_epo_type e =? 1) || (q_gps_epo_type e =? 0)) with true by (destruct Ht as [-> | ->]; done).
  rewrite En. q_steps. unfold curl_easy_download_quarter_epo. q_steps. cbn [quarter_epo_md_file_name set_q_names q_counter].
  destruct (getEpoUrl env m (key_text NO_KEY (q_counter e))) as [u1|] eqn:Eu1.
  2: { q_steps. split; [split; (done || (cbn; lia))|left; eauto]. }
  apply returns_bind. eapply returns_mono; [by apply fetch_quarter_key_ok|].
  intros key e1 (H1 & H2 & H3 & H4 & H5 & H6 & H7 & H8 & H9 & H10). q_steps. rewrite H7. cbn [quarter_epo_file_name set_q_names].
  cbn in H1, H2, H3, H4, H5, H6, H8, H9, H10.
  destruct (getEpoUrl env f (key_text key (q_counter e1))) as [url|] eqn:Eu.
  2: { q_steps. split; [split; (done || lia)|left; eauto]. }
  unfold curl_easy_download, next_tick, write_file. destruct (curl env (q_tick e1) url) as [res bytes] eqn:Ec.
  q_steps. rewrite Ec. q_steps. split; [split; cbn; (done || lia)|]. right.
  exists f, m, (key_text key (q_counter e1)), url, (q_tick e1). rewrite Ec. cbn.
  repeat split; try done. apply lookup_insert_eq.
Qed.

Definition now (e : qepo) : Z := gps_seconds (wn (gps_time e)) (tow (gps_time e)).
Definition time_ok (e : qepo) : Prop :=
  0 <= wn (gps_time e) /\ 0 <= tow (gps_time e) /\ now e - off < 2 ^ 31 - DAY.

(** The file on the flash covers the GPS time. *)
Definition covered (e : qepo) : bool :=
  match q_files e !! QUARTER_FILE_HAL with
  | Some l => bool_decide (covers dst l (gps_time e))
  | None => false
  end.
Definition verdict (b : bool) : Z := if b then EPO_DOWNLOAD_RESULT_SUCCESS else EPO_DOWNLOAD_RESULT_FAIL.

(** The start and the GPS time as [time_t]. *)
Lemma start_time l :
  MTK_EPO_ONE_SV_SIZE <= zlen l ->
  mtk_gps_sys_epo_period_start env l = Done (Some (time_t_of (shown dst (quarter_start l) - off))).
Proof.
  intros Hl. unfold mtk_gps_sys_epo_period_start. replace (zlen l <? MTK_EPO_ONE_SV_SIZE) with false by lia.
  rewrite (record_time_summer env off dst) by done. cbn [obind]. unfold shown, quarter_start. do 3 f_equal. lia.
Qed.
Lemma start_from l : GPS_EPOCH - 7200 <= shown dst (quarter_start l).
Proof.
  pose proof (sz_dst _ _ _ Hz (quarter_start l)) as Hd. unfold shown, quarter_start, record_seconds in *.
  pose proof (Z.mod_pos_bound (u32 (first_hour l * 3600) + 0) (2 ^ 32) ltac:(lia)). unfold wrap_u in *. lia.
Qed.

Lemma gps_now e :
  time_ok e -> GpsToUtcTime (epo_calendar env) (wn (gps_time e)) (tow (gps_time e)) = Done (shown dst (now e) - off) /\
    GPS_EPOCH - 7200 - 86400 <= shown dst (now e) - off < 2 ^ 31 - DAY.
Proof.
  intros (Hw & Ht & Hn). pose proof (sz_range _ _ _ Hz). pose proof (sz_dst _ _ _ Hz (now e)) as Hd.
  assert (GPS_EPOCH <= now e) by (unfold now, gps_seconds; lia). unfold shown, DAY, GPS_EPOCH in *.
  rewrite (GpsToUtcTime_summer _ off dst) by (done || (fold (now e); lia)). fold (now e).
  rewrite time_t_id by lia. split; [f_equal; lia|lia].
Qed.

Lemma check_ok e :
  file_ok e -> time_ok e ->
  exists p s, is_quarter_epo_valid env e = Done (verdict (covered e), set_flags p s e) /\
    (forall l, q_files e !! QUARTER_FILE_HAL = Some l -> MTK_EPO_ONE_SV_SIZE <= zlen l -> covered e = false ->
       shown dst (quarter_start l) - off < 2 ^ 31 ->
       p = bool_decide (shown dst (now e) + 18 * HOUR <= shown dst (quarter_start l)) /\
       s = bool_decide (shown dst (quarter_start l) + 24 * HOUR <= shown dst (now e))).
Proof.
  intros Hf Hn. destruct (gps_now e Hn) as [En Bn]. unfold is_quarter_epo_valid, covered, read_file.
  unfold bind at 1, gets at 1. cbn [files_of qepo_disk].
  assert (set_flags (pre_day e) (server_not_updated e) e = e) as Hid by (by destruct e).
  destruct (q_files e !! QUARTER_FILE_HAL) as [l|] eqn:El;
    [|exists (pre_day e), (server_not_updated e); by rewrite Hid].
  destruct (Z.ltb_spec (zlen l) MTK_EPO_ONE_SV_SIZE) as [Hshort|Hlen].
  { exists (pre_day e), (server_not_updated e). unfold mtk_gps_sys_epo_period_start.
    replace (zlen l <? MTK_EPO_ONE_SV_SIZE) with true by lia. rewrite Hid, bool_decide_false.
    - split; [done|]. intros l' [= <-]. lia.
    - intros [H _]. lia. }
  assert (~ (2 ^ 31 - DAY <= shown dst (quarter_start l) - off < 2 ^ 31)) as Hday
    by (intros H; by apply (Hf l El)).
  assert (covers dst l (gps_time e) <->
    shown dst (quarter_start l) <= shown dst (now e) < shown dst (quarter_start l) + 6 * HOUR) as Hcov
    by (unfold covers; fold (now e); tauto).
  pose proof (start_from l) as Bs. pose proof (sz_range _ _ _ Hz).
  unfold bind at 1, lift at 1. rewrite start_time by done. unfold bind at 1, gets at 1.
  unfold bind at 1, lift at 1. rewrite En.
  set (T := shown dst (now e)) in *. set (S0 := shown dst (quarter_start l)) in *.
  unfold DAY, HOUR, GPS_EPOCH in *.
  destruct (Z.ltb_spec (S0 - off) (2 ^ 31)) as [Hin|Hbeyond].
  - rewrite time_t_id by lia. destruct (Z.leb_spec (S0 - off) (T - off)) as [Hle|Hgt].
    + unfold bind at 2, lift at 1. rewrite chk_small by lia. unfold bind at 1, ret at 1.
      destruct (Z.ltb_spec (T - off) (6 * (60 * 60) + (S0 - off))) as [Hlt|Hge].
      * exists (pre_day e), (server_not_updated e). rewrite Hid, bool_decide_true by (apply Hcov; lia).
        split; [done|]. done.
      * unfold bind, lift, modify, ret. rewrite !chk_small by lia. eexists _, _.
        rewrite bool_decide_false by (rewrite Hcov; lia). split; [reflexivity|]. intros l' [= <-] _ _ _.
        fold S0. rewrite !bool_decide_decide. split; case_decide; lia.
    + unfold bind, lift, modify, ret. rewrite !chk_small by lia. eexists _, _.
      rewrite bool_decide_false by (rewrite Hcov; lia). split; [reflexivity|]. intros l' [= <-] _ _ _.
      fold S0. rewrite !bool_decide_decide. split; case_decide; lia.
  - rewrite time_t_beyond by lia. replace (-1 <=? T - off) with true by lia.
    unfold bind at 2, lift at 1. rewrite chk_small by lia. unfold bind at 1, ret at 1.
    replace (T - off <? 6 * (60 * 60) + -1) with false by lia.
    unfold bind, lift, modify, ret. rewrite !chk_small by lia. eexists _, _.
    rewrite bool_decide_false by (rewrite Hcov; lia). split; [reflexivity|]. intros l' [= <-] _ _. fold S0. lia.
Qed.

(** A first time in the last day of [time_t], after the GPS time: the sum that
    asks whether the file is a day old overflows. *)
Lemma last_day_overflows e l :
  time_ok e -> q_files e !! QUARTER_FILE_HAL = Some l -> in_last_day l -> is_quarter_epo_valid env e = UB.
Proof.
  intros Hn El [Hlen Hday]. destruct (gps_now e Hn) as [En Bn]. unfold is_quarter_epo_valid, read_file.
  unfold bind at 1, gets at 1. cbn [files_of qepo_disk]. rewrite El.
  unfold bind at 1, lift at 1. rewrite start_time by done. unfold bind at 1, gets at 1.
  unfold bind at 1, lift at 1. rewrite En. unfold DAY, HOUR, GPS_EPOCH in *. rewrite time_t_id by lia.
  replace (shown dst (quarter_start l) - off <=? shown dst (now e) - off) with false by lia.
  unfold bind, lift, ret. rewrite chk_small by lia. unfold chk.
  replace (is_int _) with false; [done|]. symmetry. apply not_true_iff_false. rewrite in_s_spec. lia.
Qed.

Definition typed (e : qepo) : Prop := q_gps_epo_type e = 0 \/ q_gps_epo_type e = 1.

Lemma attempt_file e :
  typed e -> file_ok e ->
  returns (quarter_epo_download_process env) e (fun _ e' => attempt e e' /\ file_ok e').
Proof.
  intros Ht Hf. eapply returns_mono; [by apply download_process_ok|].
  intros _ e' [Ha [[_ E]|(f & m & key & url & k & _ & _ & E & _)]]; (split; [done|]); intros l; rewrite E.
  - apply Hf.
  - intros [= <-]. apply Hserver.
Qed.

Lemma tries_ok n e :
  typed e -> file_ok e -> time_ok e ->
  returns (qepo_tries env n) e (fun r e' => r = verdict (covered e') /\
    gps_time e' = gps_time e /\ qepo_done e' = qepo_done e /\ (q_tick e' <= q_tick e + 2 * n)%nat).
Proof.
  revert e. induction n as [|n IH]; intros e Ht Hf Hn; cbn [qepo_tries]; apply returns_bind;
    (destruct (check_ok e Hf Hn) as (p & s & E & _)); (eexists _, _; split; [exact E|]).
  - apply returns_ret. split; [done|]. split; [done|]. split; [done|]. cbn. lia.
  - step_gets. destruct (_ && _); [|apply returns_ret; split; [done|]; split; [done|]; split; [done|]; cbn; lia].
    apply returns_bind. eapply returns_mono; [by apply attempt_file|]. intros _ e1 [[H1 H2 _ _ H5 _ H7] Hf1].
    cbn in H1, H2, H5, H7. eapply returns_mono.
    + apply IH; [by unfold typed; rewrite H2|done|by unfold time_ok, now; rewrite H1].
    + intros r e' (-> & E1 & E2 & E3). split; [done|]. split; [by rewrite E1|]. split; [by rewrite E2|]. lia.
Qed.
End zone.

(** ** Theorems *)


(** Whatever file of a quarter is asked for, the server sends [l]. *)
Definition always_sends (env : epo_env) (l : list Z) : Prop :=
  (forall f key, is_Some (getEpoUrl env f key)) /\
  forall i f m key url k, quarter_names i = Some (f, m) -> getEpoUrl env f key = Some url ->
    curl env k url = (CURLE_OK, l).

Section too_early.
Context (env : epo_env) (off : Z) (Hz : summer_zone (epo_calendar env) off (fun _ => 0)).
Context (Hs : forall k url, ~ in_last_day off (fun _ => 0) (snd (curl env k url))) (l : list Z) (Hl : always_sends env l).
Context (Hlen : MTK_EPO_ONE_SV_SIZE <= zlen l) (Hearly : quarter_start l - off < 2 ^ 31).

(** Has the file, from a download that succeeded. *)
Definition fetched (e : qepo) : Prop := q_files e !! QUARTER_FILE_HAL = Some l /\ Qepo_res e = CURLE_OK.
Definition too_early (e : qepo) : Prop := now e < quarter_start l < now e + 18 * HOUR.

Lemma attempt_fetches e :
  typed e -> returns (quarter_epo_download_process env) e (fun _ e' => attempt e e' /\ fetched e').
Proof.
  intros Ht. destruct Hl as [Hu Hc]. eapply returns_mono; [by apply (download_process_ok env)|].
  intros _ e' [Ha [[(f & key & E) _]|(f & m & key & url & k & En & Eu & E & Er)]].
  - destruct (Hu f key) as [x Ex]. congruence.
  - split; [done|]. rewrite (Hc _ _ _ _ _ k En Eu) in E, Er. done.
Qed.

Lemma fetched_file_ok e : fetched e -> file_ok off (fun _ => 0) e.
Proof.
  intros [Hf _] l'. rewrite Hf. intros [= <-]. destruct Hl as [Hu Hc].
  destruct (Hu "QG_R_1.DAT"%string NO_KEY) as [u Eu]. pose proof (Hs 0%nat u) as H.
  by rewrite (Hc 1 _ _ _ _ 0%nat eq_refl Eu) in H.
Qed.

Lemma early_check e :
  fetched e -> time_ok off e -> too_early e ->
  is_quarter_epo_valid env e = Done (EPO_DOWNLOAD_RESULT_FAIL, set_flags false false e).
Proof.
  intros [Hf Hr] Hn [He1 He2].
  assert (covered (fun _ => 0) e = false) as Hc.
  { unfold covered. rewrite Hf. apply bool_decide_false. unfold covers, shown, now in *. lia. }
  destruct (check_ok env off _ Hz e (fetched_file_ok e (conj Hf Hr)) Hn) as (p & s & E & Hflags).
  destruct (Hflags l Hf Hlen Hc) as [-> ->]; [unfold shown; lia|]. unfold shown in E. rewrite E, Hc, !bool_decide_false by lia. done.
Qed.

Lemma early_tries n e :
  typed e -> fetched e -> time_ok off e -> too_early e ->
  returns (qepo_tries env n) e (fun r e' => r = EPO_DOWNLOAD_RESULT_FAIL /\
    Qepo_res e' = CURLE_OK /\ server_not_updated e' = false /\ qepo_rsp e' = qepo_rsp e).
Proof.
  revert e. induction n as [|n IH]; intros e Ht Hf Hn He; cbn [qepo_tries]; apply returns_bind;
    (eexists _, _; split; [by apply early_check|]).
  - apply returns_ret. by destruct Hf.
  - step_gets. destruct (_ && _); [|apply returns_ret; by destruct Hf].
    apply returns_bind. eapply returns_mono; [by apply attempt_fetches|]. intros _ e1 [[H1 H2 _ _ _ H6 _] Hf1].
    cbn in H1, H2, H6. eapply returns_mono.
    + apply IH; [by unfold typed; rewrite H2|done|by unfold time_ok, now; rewrite H1|by unfold too_early, now; rewrite H1].
    + intros r e' (-> & E1 & E2 & E3). by rewrite E3, H6.
Qed.
End too_early.

(** When the server has nothing for the present quarter but a file that begins
    within the next eighteen hours, every download succeeds and none is valid:
    the main thread is told of the failure, the AGPS agent of success. *)
Theorem qepo_false_success (env : epo_env) (off agent : Z) (l : list Z) (e : qepo) :
  summer_zone (epo_calendar env) off (fun _ => 0) ->
  (forall k url, ~ in_last_day off (fun _ => 0) (snd (curl env k url))) ->
  always_sends env l -> MTK_EPO_ONE_SV_SIZE <= zlen l -> quarter_start l - off < 2 ^ 31 ->
  too_early l e -> typed e -> time_ok off e ->
  exists e1 e2, mnld_qepo_download env e = Done (EPO_DOWNLOAD_RESULT_FAIL, e1) /\
    qepo_update_quarter_epo_file agent EPO_DOWNLOAD_RESULT_FAIL e1 = Done (tt, e2) /\
    qepo_rsp e2 = qepo_rsp e ++ [MTK_QEPO_RSP_UPDATE_SUCCESS].
Proof.
  intros Hz Hs Hl Hlen Hearly He Ht Hn.
  assert (returns (mnld_qepo_download env) e (fun r e1 => r = EPO_DOWNLOAD_RESULT_FAIL /\
    Qepo_res e1 = CURLE_OK /\ qepo_rsp e1 = qepo_rsp e)) as (r & e1 & E & -> & Hr & Hrsp).
  { unfold mnld_qepo_download. step_upd. apply returns_bind. unfold qepo_file_update_impl. apply returns_bind.
    eapply returns_mono; [by apply (attempt_fetches env l Hl)|]. intros _ e1 [[H1 H2 _ _ _ H6 _] Hf1].
    cbn in H1, H2, H6. apply returns_bind. eapply returns_mono.
    { apply (early_tries env off Hz Hs l Hl Hlen Hearly 10); [by unfold typed; rewrite H2|done|
        by unfold time_ok, now; rewrite H1|by unfold too_early, now; rewrite H1]. }
    intros r e2 (-> & E1 & E2 & E3). q_steps. rewrite E2. cbn [when]. q_steps. cbn. by rewrite E3, H6. }
  exists e1. eexists. split; [exact E|]. unfold qepo_update_quarter_epo_file.
  change (EPO_DOWNLOAD_RESULT_FAIL =? EPO_DOWNLOAD_RESULT_SUCCESS) with false. cbn iota.
  unfold bind, gets, modify. rewrite Hr. split; [reflexivity|]. cbn. by rewrite Hrsp.
Qed.

(** ** Witnesses *)

(** A record of the hour [h]. *)
Definition demo_quarter (h : Z) : list Z := [h mod 256; h / 256 mod 256; h / 65536] ++ zeros 69.
(** A server that always sends the file of the hour [h]. *)
Definition demo_server (h : Z) : epo_env :=
  EpoEnv (fun f _ => Some (lit f)) (fun _ _ => (CURLE_OK, demo_quarter h)) (fun _ => true) (fun _ => false)
    (fun _ => false) (fun _ => true) (fun _ => 0) (fun _ => true) (fun _ => 0) beijing.
(** Week 1886, ten o'clock on the first day; nothing on the flash. *)
Definition demo_request : qepo :=
  Qepo "" "" (QepoTime 1886 36000 0) true 0 false false 0 1 ∅ 0 [] [].

Lemma beijing_zone : summer_zone beijing 28800 (fun _ => 0).
Proof. by apply zone_calendar_summer. Qed.
Lemma demo_readable h :
  h = 1886 * 168 + 6 \/ h = 1886 * 168 + 12 -> ~ in_last_day 28800 (fun _ => 0) (demo_quarter h).
Proof. intros [-> | ->] [_ [H _]]; vm_compute in H; by apply H. Qed.
Lemma demo_no_file : file_ok 28800 (fun _ => 0) demo_request.
Proof. intros l H. vm_compute in H. discriminate H. Qed.
Lemma demo_time : time_ok 28800 demo_request.
Proof. split; [|split]; vm_compute; (discriminate || reflexivity). Qed.


(** The file of noon. *)
Lemma qepo_false_success_witness :
  exists e1 e2, mnld_qepo_download (demo_server (1886 * 168 + 12)) demo_request =
      Done (EPO_DOWNLOAD_RESULT_FAIL, e1) /\
    qepo_update_quarter_epo_file 0 EPO_DOWNLOAD_RESULT_FAIL e1 = Done (tt, e2) /\
    qepo_rsp e2 = [MTK_QEPO_RSP_UPDATE_SUCCESS].
Proof.
  apply (qepo_false_success (demo_server (1886 * 168 + 12)) 28800 0 (demo_quarter (1886 * 168 + 12)) demo_request
    beijing_zone (fun _ _ => demo_readable _ (or_intror eq_refl))).
  - split; [by intros f key; exists (lit f)|done].
  - vm_compute. discriminate.
  - vm_compute. reflexivity.
  - vm_compute. split; reflexivity.
  - by left.
  - exact demo_time.
Defined.
