(* ===== verification/NmeaParser.v ===== *)
(** * The NMEA parser of the daemon

    [src/gps/mtk_mnld/mnld_entity/src/nmea_parser.c], its header
    [inc/nmea_parser.h], and [str2int] of [mnl_common.c].  libmnl hands the
    sentences of one second to [mtk_mnl_nmea_parser_process], which runs a
    fresh reader over the bytes; the reader collects a sentence up to its
    newline, parses it, and passes it to the HAL.

    The AT command module ([AtCommand.v]) is called before every sentence and
    after every complete set of satellites; the arrays [prn] and [snr] are its
    own.  The calendar functions of the C library depend on the zone database
    of the device and are a parameter ([calendar]).  The daemon is a 32-bit
    process: [time_t] and [long] have 32 bits. *)

From S2P Require Import Prelude DataCoder LbsUtility Layout Float32 Float64 Messages.
From S2P Require Import Hal2Mnl Mnl2Hal MnldState Mnld AtCommand Calendar.
Import HalTypes.

(** [SV_TYPE] *)
Definition UNKNOWN_SV := 0.
Definition GPS_SV := 1.
Definition SBAS_SV := 2.
Definition GLONASS_SV := 3.
Definition QZSS_SV := 4.
Definition BDS_SV := 5.
Definition GALILEO_SV := 6.

Definition NMEA_MAX_SIZE := 255.
Definition NMEA_MAX_SV_INFO := 4.
Definition MAX_NMEA_TOKENS := 24.
(** [GPS_LOCATION_HAS_ALTITUDE] of Android's [hardware/gps.h]. *)
Definition GPS_LOCATION_HAS_ALTITUDE := 0x0002.

(** ** Tokens *)

(** Two pointers into the array [tk_mem]: the sentence buffer, which the parser
    does not change while it holds tokens, or the static empty string. *)
Record Token : Type := Tok { tk_mem : list Z; tk_p : Z; tk_end : Z }.

Definition dummy : Token := Tok [0] 0 0.

(** [memchr(p, c, end - p)], or [end]. *)
Fixpoint memchr (m : list Z) (p : Z) (c : Z) (n : nat) : outcome Z :=
  match n with
  | O => Done p
  | S n' => obind (rd m p) (fun x => if x =? c then Done p else memchr m (p + 1) c n')
  end.

(** The [while] loop; [count] tokens are stored, more are counted out. *)
Fixpoint tokenize (m : list Z) (p e : Z) (toks : list Token) (fuel : nat) : outcome (list Token) :=
  if e <=? p then Done toks
  else
    match fuel with
    | O => Blocked
    | S fuel' =>
        obind (memchr m p 44 (Z.to_nat (e - p))) (fun q =>
        let toks' := if zlen toks <? MAX_NMEA_TOKENS then toks ++ [Tok m p q] else toks in
        tokenize m (if q <? e then q + 1 else q) e toks' fuel')
    end.

Definition nmea_tokenizer_init (m : list Z) (p e : Z) : outcome (list Token) :=
  obind (if p <? e then obind (rd m p) (fun c => Done (if c =? 36 then p + 1 else p))
         else Done p) (fun p =>
  obind (if p <? e then
           obind (rd m (e - 1)) (fun c =>
           if c =? 10 then
             let e := e - 1 in
             if p <? e then obind (rd m (e - 1)) (fun c => Done (if c =? 13 then e - 1 else e))
             else Done e
           else Done e)
         else Done e) (fun e =>
  obind (if p + 3 <=? e then obind (rd m (e - 3)) (fun c => Done (if c =? 42 then e - 3 else e))
         else Done e) (fun e =>
  tokenize m p e [] (Z.to_nat (e - p))))).

Definition nmea_tokenizer_get (t : list Token) (index : Z) : Token :=
  if (index <? 0) || (zlen t <=? index) then dummy else nth (Z.to_nat index) t dummy.

(** ** Numbers *)

Fixpoint str2int_loop (m : list Z) (p e : Z) (sign result : Z) (len : nat) : outcome Z :=
  match len with
  | O => chk (sign * result)
  | S len' =>
      if e <=? p then Done (-1)
      else
        obind (rd m p) (fun x =>
        let c := x - 48 in
        if 10 <=? u32 c then Done (-1)
        else
          obind (chk (result * 10)) (fun r =>
          obind (chk (r + c)) (fun r =>
          str2int_loop m (p + 1) e sign r len')))
  end.

Definition str2int (m : list Z) (p e : Z) : outcome Z :=
  obind (rd m p) (fun c =>
  if c =? 45 then str2int_loop m (p + 1) e (-1) 0 (Z.to_nat (e - (p + 1)))
  else str2int_loop m p e 1 0 (Z.to_nat (e - p))).

Definition tok2int (t : Token) : outcome Z := str2int (tk_mem t) (tk_p t) (tk_end t).

(** [temp] has 16 bytes; [memcpy] of a negative length is out of bounds. *)
Definition str2float (m : list Z) (p e : Z) : outcome f64 :=
  let len := e - p in
  if 16 <=? len then Done (f64_of_int 0)
  else if (0 <=? len) && (0 <=? p) && (e <=? zlen m)
  then Done (strtod (take (Z.to_nat len) (drop (Z.to_nat p) m)))
  else UB.

Definition tok2float (t : Token) : outcome f64 := str2float (tk_mem t) (tk_p t) (tk_end t).

Definition convert_from_hhmm (tok : Token) : outcome f64 :=
  obind (tok2float tok) (fun val =>
  obind (f64_to_int (f64_div (f64_floor val) (f64_of_int 100))) (fun degrees =>
  let minutes := f64_sub val (f64_mul (f64_of_int degrees) (f64_of_int 100)) in
  Done (f64_add (f64_of_int degrees) (f64_div minutes (f64_of_int 60))))).

(** ** State *)

(** [gps_location] *)
Record location : Type := Loc {
  l_flags : Z; l_lat : f64; l_lng : f64; l_alt : f64;
  l_speed : f32; l_bearing : f32; l_accuracy : f32; l_timestamp : Z
}.
(** [gnss_sv] *)
Record sv : Type := Sv {
  sv_svid : Z; sv_constellation : Z; sv_c_n0_dbhz : f32; sv_elevation : f32;
  sv_azimuth : f32; sv_flags : Z
}.
(** [gnss_sv_info] *)
Record sv_info : Type := SvInfo { num_svs : Z; sv_list : list sv }.

Definition f32_zero : f32 := f32_of_int 0.
Definition f64_zero : f64 := f64_of_int 0.
Definition loc_zero : location :=
  Loc 0 f64_zero f64_zero f64_zero f32_zero f32_zero f32_zero 0.
Definition sv_zero : sv := Sv 0 0 f32_zero f32_zero f32_zero 0.
Definition sv_info_zero : sv_info := SvInfo 0 (replicate (Z.to_nat GNSS_MAX_SVS) sv_zero).

(** Object representations (ILP32), padding cleared as [nmea_reader_init] does. *)
Definition loc_image (l : location) : list Z :=
  le_bytes 4 (l_flags l) ++ zeros 4 ++
  le_bytes 8 (f64_bits (l_lat l)) ++ le_bytes 8 (f64_bits (l_lng l)) ++
  le_bytes 8 (f64_bits (l_alt l)) ++ le_bytes 4 (f32_bits (l_speed l)) ++
  le_bytes 4 (f32_bits (l_bearing l)) ++ le_bytes 4 (f32_bits (l_accuracy l)) ++ zeros 4 ++
  le_bytes 8 (l_timestamp l).
Definition sv_image (s : sv) : list Z :=
  le_bytes 2 (sv_svid s) ++ le_bytes 1 (sv_constellation s) ++ zeros 1 ++
  le_bytes 4 (f32_bits (sv_c_n0_dbhz s)) ++ le_bytes 4 (f32_bits (sv_elevation s)) ++
  le_bytes 4 (f32_bits (sv_azimuth s)) ++ le_bytes 1 (sv_flags s) ++ zeros 3.
Definition sv_info_image (i : sv_info) : list Z :=
  le_bytes 4 (num_svs i) ++ concat (map sv_image (sv_list i)).

(** [NmeaGSACash] *)
Record NmeaGSACash : Type := Gsa { gsa_prn : Z; gsa_used_in_fix : bool }.
Definition gsa_zero : NmeaGSACash := Gsa 0 false.
Definition used_none : list NmeaGSACash := replicate 450 gsa_zero.

Record NmeaReader : Type := Reader {
  r_pos : Z; r_overflow : bool;
  r_utc_year : Z; r_utc_mon : Z; r_utc_day : Z; r_utc_diff : Z;
  r_fix : location; r_fix_mode : Z; r_cb_status_changed : Z;
  r_sv_count : Z; r_sv_status : sv_info; r_in : list Z
}.

Definition with_pos (pos : Z) (ov : bool) (r : NmeaReader) : NmeaReader :=
  Reader pos ov (r_utc_year r) (r_utc_mon r) (r_utc_day r) (r_utc_diff r) (r_fix r)
    (r_fix_mode r) (r_cb_status_changed r) (r_sv_count r) (r_sv_status r) (r_in r).
Definition with_date (y m d : Z) (r : NmeaReader) : NmeaReader :=
  Reader (r_pos r) (r_overflow r) y m d (r_utc_diff r) (r_fix r)
    (r_fix_mode r) (r_cb_status_changed r) (r_sv_count r) (r_sv_status r) (r_in r).
Definition with_diff (d : Z) (r : NmeaReader) : NmeaReader :=
  Reader (r_pos r) (r_overflow r) (r_utc_year r) (r_utc_mon r) (r_utc_day r) d (r_fix r)
    (r_fix_mode r) (r_cb_status_changed r) (r_sv_count r) (r_sv_status r) (r_in r).
Definition with_fix (l : location) (r : NmeaReader) : NmeaReader :=
  Reader (r_pos r) (r_overflow r) (r_utc_year r) (r_utc_mon r) (r_utc_day r) (r_utc_diff r) l
    (r_fix_mode r) (r_cb_status_changed r) (r_sv_count r) (r_sv_status r) (r_in r).
Definition with_fix_mode (m : Z) (r : NmeaReader) : NmeaReader :=
  Reader (r_pos r) (r_overflow r) (r_utc_year r) (r_utc_mon r) (r_utc_day r) (r_utc_diff r)
    (r_fix r) m (r_cb_status_changed r) (r_sv_count r) (r_sv_status r) (r_in r).
Definition with_svs (count : Z) (s : sv_info) (r : NmeaReader) : NmeaReader :=
  Reader (r_pos r) (r_overflow r) (r_utc_year r) (r_utc_mon r) (r_utc_day r) (r_utc_diff r)
    (r_fix r) (r_fix_mode r) (r_cb_status_changed r) count s (r_in r).
Definition with_in (pos : Z) (m : list Z) (r : NmeaReader) : NmeaReader :=
  Reader pos (r_overflow r) (r_utc_year r) (r_utc_mon r) (r_utc_day r) (r_utc_diff r)
    (r_fix r) (r_fix_mode r) (r_cb_status_changed r) (r_sv_count r) (r_sv_status r) m.

(** The reader and the static variables of the file; the AT command module
    with the rest of the daemon. *)
Record nmea : Type := Nmea {
  n_reader : NmeaReader;
  gps_nmea_end_tag : bool;
  gnss_sv_used_in_fix : list NmeaGSACash;
  n_aw : at_world
}.

Definition set_aw (a : at_world) (w : nmea) : nmea :=
  Nmea (n_reader w) (gps_nmea_end_tag w) (gnss_sv_used_in_fix w) a.

#[export] Instance nmea_has_sys : HasSys nmea.
Proof.
  refine {| sys_of := fun w => sys_of (n_aw w); set_sys := fun s w => set_aw (set_sys s (n_aw w)) w |};
    intros; [apply sys_of_set|by destruct w as [? ? ? [? [] ? ?]]|done].
Defined.

Definition on_at {A} (m : prog at_world A) : prog nmea A :=
  fun w =>
    match m (n_aw w) with
    | Done (x, a) => Done (x, set_aw a w)
    | Crash => Crash
    | UB => UB
    | Blocked => Blocked
    end.

Definition set_reader (r : NmeaReader) (w : nmea) : nmea :=
  Nmea r (gps_nmea_end_tag w) (gnss_sv_used_in_fix w) (n_aw w).
Definition set_end_tag (b : bool) (w : nmea) : nmea :=
  Nmea (n_reader w) b (gnss_sv_used_in_fix w) (n_aw w).
Definition set_used (u : list NmeaGSACash) (w : nmea) : nmea :=
  Nmea (n_reader w) (gps_nmea_end_tag w) u (n_aw w).
(** The AT command module's state, as the parser sees it. *)
Definition n_at (w : nmea) : at_state := a_at (n_aw w).
(** [prn] and [snr] *)
Definition set_prn_snr (prn snr : list Z) (w : nmea) : nmea :=
  let a := n_at w in
  set_aw (set_a_at (At (at_vars a) prn snr (at_result a) (Dev_CNr a) (at_acks a) (at_malloc a))
            (n_aw w)) w.

Definition upd (f : NmeaReader -> NmeaReader) : prog nmea unit :=
  modify (fun w => set_reader (f (n_reader w)) w).
Definition reader : prog nmea NmeaReader := gets n_reader.

Definition has_flag (f : Z) (l : location) : Z := Z.lor (l_flags l) f.

(** ** Operations *)

Section parser.
Context (cal : calendar).

(** The difference is computed in [unsigned long] and stored in an [int]. *)
Definition nmea_reader_update_utc_diff : prog nmea unit :=
  let* now := on_at time in
  let time_local := u32 (fst (cal_mktime cal (cal_localtime cal now))) in
  let time_utc := u32 (fst (cal_mktime cal (cal_gmtime cal now))) in
  upd (with_diff (s32 (time_utc - time_local))).

Definition reader_init : NmeaReader :=
  Reader 0 false (-1) (-1) (-1) 0 loc_zero 0 0 0 sv_info_zero (zeros 256).

Definition nmea_reader_init : prog nmea unit :=
  upd (fun _ => reader_init) ;;
  nmea_reader_update_utc_diff.

Definition nmea_reader_update_altitude (altitude units : Token) : prog nmea Z :=
  if tk_end altitude <=? tk_p altitude then ret (-1)
  else
    let* r := reader in
    let* alt := lift (tok2float altitude) in
    let l := r_fix r in
    upd (with_fix (Loc (has_flag GPS_LOCATION_HAS_ALTITUDE l) (l_lat l) (l_lng l) alt
                       (l_speed l) (l_bearing l) (l_accuracy l) (l_timestamp l))) ;;
    ret 0.

Definition nmea_reader_update_time (tok : Token) : prog nmea Z :=
  if tk_end tok <? tk_p tok + 6 then ret (-1)
  else
    let* r := reader in
    when (r_utc_year r <? 0)
      (let* now := on_at time in
       let t := cal_gmtime cal now in
       upd (with_date (tm_year t + 1900) (tm_mon t + 1) (tm_mday t))) ;;
    let* hour := lift (str2int (tk_mem tok) (tk_p tok) (tk_p tok + 2)) in
    let* minute := lift (str2int (tk_mem tok) (tk_p tok + 2) (tk_p tok + 4)) in
    let* seconds := lift (str2float (tk_mem tok) (tk_p tok + 4) (tk_end tok)) in
    let* sec := lift (f64_to_int seconds) in
    let* r := reader in
    let t := Tm sec minute hour (r_utc_day r) (r_utc_mon r - 1) (r_utc_year r - 1900) (-1) in
    let t := snd (cal_mktime cal t) in
    nmea_reader_update_utc_diff ;;
    let* r := reader in
    let* fix_time := lift (chk (s32 (fst (cal_mktime cal t)) - r_utc_diff r)) in
    let l := r_fix r in
    upd (with_fix (Loc (l_flags l) (l_lat l) (l_lng l) (l_alt l) (l_speed l) (l_bearing l)
                       (l_accuracy l) (fix_time * 1000))) ;;
    ret 0.

Definition nmea_reader_update_date (date time : Token) : prog nmea Z :=
  if negb (tk_p date + 6 =? tk_end date) then ret (-1)
  else
    let m := tk_mem date in
    let p := tk_p date in
    let* day := lift (str2int m p (p + 2)) in
    let* mon := lift (str2int m (p + 2) (p + 4)) in
    let* y := lift (str2int m (p + 4) (p + 6)) in
    let* year := lift (chk (y + 2000)) in
    if Z.lor (Z.lor day mon) year <? 0 then ret (-1)
    else
      upd (with_date year mon day) ;;
      nmea_reader_update_time time.

Definition nmea_reader_update_latlong (latitude : Token) (latitudeHemi : Z)
    (longitude : Token) (longitudeHemi : Z) : prog nmea Z :=
  if tk_end latitude <? tk_p latitude + 6 then ret (-1)
  else
    let* lat := lift (convert_from_hhmm latitude) in
    let lat := if latitudeHemi =? 83 then f64_opp lat else lat in
    if tk_end longitude <? tk_p longitude + 6 then ret (-1)
    else
      let* lon := lift (convert_from_hhmm longitude) in
      let lon := if longitudeHemi =? 87 then f64_opp lon else lon in
      let* r := reader in
      let l := r_fix r in
      upd (with_fix (Loc (has_flag GPS_LOCATION_HAS_LAT_LONG l) lat lon (l_alt l) (l_speed l)
                         (l_bearing l) (l_accuracy l) (l_timestamp l))) ;;
      ret 0.

Definition nmea_reader_update_bearing (bearing : Token) : prog nmea Z :=
  if tk_end bearing <=? tk_p bearing then ret (-1)
  else
    let* r := reader in
    let* x := lift (tok2float bearing) in
    let l := r_fix r in
    upd (with_fix (Loc (has_flag GPS_LOCATION_HAS_BEARING l) (l_lat l) (l_lng l) (l_alt l)
                       (l_speed l) (f64_to_f32 x) (l_accuracy l) (l_timestamp l))) ;;
    ret 0.

(** Knots to metres per second: a division by the constant 1.942795467. *)
Definition nmea_reader_update_speed (speed : Token) : prog nmea Z :=
  if tk_end speed <=? tk_p speed then ret (-1)
  else
    let* r := reader in
    let* x := lift (tok2float speed) in
    let l := r_fix r in
    upd (with_fix (Loc (has_flag GPS_LOCATION_HAS_SPEED l) (l_lat l) (l_lng l) (l_alt l)
                       (f64_to_f32 (f64_div x (scaled 10 400 false 1942795467 (-9))))
                       (l_bearing l) (l_accuracy l) (l_timestamp l))) ;;
    ret 0.

Definition nmea_reader_update_accuracy (accuracy : Token) : prog nmea Z :=
  if tk_end accuracy <=? tk_p accuracy then ret (-1)
  else
    let* r := reader in
    let* x := lift (tok2float accuracy) in
    let l := r_fix r in
    upd (with_fix (Loc (has_flag GPS_LOCATION_HAS_ACCURACY l) (l_lat l) (l_lng l) (l_alt l)
                       (l_speed l) (l_bearing l) (f64_to_f32 x) (l_timestamp l))) ;;
    ret 0.

(** The satellite id and the constellation of a PRN. *)
Definition sv_of_prn (prn : Z) : option (Z * Z) :=
  if (0 <? prn) && (prn <? 32) then Some (prn, GPS_SV)
  else if (65 <=? prn) && (prn <=? 96) then Some (prn - 64, GLONASS_SV)
  else if (201 <=? prn) && (prn <=? 237) then Some (prn - 200, BDS_SV)
  else if (401 <=? prn) && (prn <=? 436) then Some (prn - 400, GALILEO_SV)
  else None.

Definition nmea_reader_update_sv_status (sv_index id : Z) (elevation azimuth snr : Token)
  : prog nmea Z :=
  let prn := id in
  let* r := reader in
  let* sv_index := lift (chk (r_sv_count r + num_svs (r_sv_status r))) in
  if GNSS_MAX_SVS <=? sv_index then ret 0
  else
    match sv_of_prn prn with
    | None => ret 0
    | Some (svid, constellation) =>
        let* old := lift (rd (sv_list (r_sv_status r)) sv_index) in
        let* c_n0 := lift (tok2float snr) in
        let* ele := lift (tok2int elevation) in
        let* azi := lift (tok2int azimuth) in
        let* used := gets gnss_sv_used_in_fix in
        let* u := lift (rd used prn) in
        let flags := if gsa_used_in_fix u then Z.lor (sv_flags old) 0x04
                     else Z.land (sv_flags old) 0xFB in
        let new := Sv svid constellation (f64_to_f32 c_n0) (f32_of_int ele) (f32_of_int azi) flags in
        let* svs := lift (wr (sv_list (r_sv_status r)) sv_index new) in
        let* count := lift (chk (r_sv_count r + 1)) in
        upd (with_svs count (SvInfo (num_svs (r_sv_status r)) svs)) ;;
        ret 0
    end.

Definition LOC_FIXED (r : NmeaReader) : bool := (r_fix_mode r =? 2) || (r_fix_mode r =? 3).

(** The ids of BeiDou and Galileo satellites are numbered from 200 and 400. *)
Definition sv_id_of (sv_type id : Z) : outcome Z :=
  if sv_type =? BDS_SV then chk (id + 200)
  else if sv_type =? GALILEO_SV then chk (id + 400)
  else Done id.

(** The loop over the satellites of a GSA sentence, from number [idx]. *)
Fixpoint gsa_loop (tzer : list Token) (sv_type idx : Z) (n : nat) : prog nmea unit :=
  match n with
  | O => ret tt
  | S n' =>
      let tok := nmea_tokenizer_get tzer (idx + 3) in
      if tk_p tok =? tk_end tok then ret tt
      else
        let* id := lift (tok2int tok) in
        let* sate_id := lift (sv_id_of sv_type id) in
        when ((0 <=? sate_id) && (sate_id <? 450))
          (let* used := gets gnss_sv_used_in_fix in
           let* used := lift (wr used sate_id (Gsa sate_id true)) in
           modify (set_used used)) ;;
        gsa_loop tzer sv_type (idx + 1) n'
  end.

Definition parse_gga (tzer : list Token) : prog nmea unit :=
  let tok_latitudeHemi := nmea_tokenizer_get tzer 3 in
  let tok_longitudeHemi := nmea_tokenizer_get tzer 5 in
  nmea_reader_update_time (nmea_tokenizer_get tzer 1) ;;
  let* ns := lift (rd (tk_mem tok_latitudeHemi) (tk_p tok_latitudeHemi)) in
  let* ew := lift (rd (tk_mem tok_longitudeHemi) (tk_p tok_longitudeHemi)) in
  nmea_reader_update_latlong (nmea_tokenizer_get tzer 2) ns (nmea_tokenizer_get tzer 4) ew ;;
  nmea_reader_update_altitude (nmea_tokenizer_get tzer 9) (nmea_tokenizer_get tzer 10) ;;
  ret tt.

Definition parse_gsa (tzer : list Token) (sv_type : Z) : prog nmea unit :=
  let* mode := lift (tok2int (nmea_tokenizer_get tzer 2)) in
  upd (with_fix_mode mode) ;;
  let* r := reader in
  when (LOC_FIXED r) (gsa_loop tzer sv_type 0 12).

Definition parse_rmc (tzer : list Token) : prog nmea unit :=
  let tok_fixStatus := nmea_tokenizer_get tzer 2 in
  let tok_latitudeHemi := nmea_tokenizer_get tzer 4 in
  let tok_longitudeHemi := nmea_tokenizer_get tzer 6 in
  let* status := lift (rd (tk_mem tok_fixStatus) (tk_p tok_fixStatus)) in
  when (status =? 65)
    (nmea_reader_update_date (nmea_tokenizer_get tzer 9) (nmea_tokenizer_get tzer 1) ;;
     let* ns := lift (rd (tk_mem tok_latitudeHemi) (tk_p tok_latitudeHemi)) in
     let* ew := lift (rd (tk_mem tok_longitudeHemi) (tk_p tok_longitudeHemi)) in
     nmea_reader_update_latlong (nmea_tokenizer_get tzer 3) ns (nmea_tokenizer_get tzer 5) ew ;;
     nmea_reader_update_bearing (nmea_tokenizer_get tzer 8) ;;
     nmea_reader_update_speed (nmea_tokenizer_get tzer 7) ;;
     ret tt).

(** The loop over the satellites of a GSV sentence, from number [idx]. *)
Fixpoint gsv_loop (tzer : list Token) (sv_type sv_base idx : Z) (n : nat) : prog nmea unit :=
  match n with
  | O => ret tt
  | S n' =>
      let base_idx := 4 * (idx + 1) in
      let tok_id := nmea_tokenizer_get tzer (base_idx + 0) in
      let* id := lift (tok2int tok_id) in
      let* sv_id := lift (sv_id_of sv_type id) in
      let tok_ele := nmea_tokenizer_get tzer (base_idx + 1) in
      let tok_azi := nmea_tokenizer_get tzer (base_idx + 2) in
      let tok_snr := nmea_tokenizer_get tzer (base_idx + 3) in
      let* r := reader in
      let* a := gets n_at in
      let* id := lift (tok2int tok_id) in
      let* prns := lift (wr (at_prn a) (r_sv_count r) id) in
      let* x := lift (tok2float tok_snr) in
      let* x := lift (f64_to_int x) in
      let* snrs := lift (wr (at_snr a) (r_sv_count r) x) in
      modify (set_prn_snr prns snrs) ;;
      let* sv_index := lift (chk (sv_base + idx)) in
      nmea_reader_update_sv_status sv_index sv_id tok_ele tok_azi tok_snr ;;
      gsv_loop tzer sv_type sv_base (idx + 1) n'
  end.

Definition parse_gsv (tzer : list Token) (sv_type : Z) : prog nmea unit :=
  let* num := lift (tok2int (nmea_tokenizer_get tzer 1)) in
  let* seq := lift (tok2int (nmea_tokenizer_get tzer 2)) in
  let* cnt := lift (tok2int (nmea_tokenizer_get tzer 3)) in
  let* before := lift (chk (seq - 1)) in
  let* sv_base := lift (chk (before * NMEA_MAX_SV_INFO)) in
  let* sv_num := lift (chk (cnt - sv_base)) in
  let sv_num := if NMEA_MAX_SV_INFO <? sv_num then NMEA_MAX_SV_INFO else sv_num in
  when (seq =? 1) (upd (fun r => with_svs 0 (r_sv_status r) r)) ;;
  gsv_loop tzer sv_type sv_base 0 (Z.to_nat sv_num) ;;
  when (seq =? num)
    (let* r := reader in
     if r_sv_count r <=? cnt then
       let* n := lift (chk (num_svs (r_sv_status r) + r_sv_count r)) in
       upd (fun r => with_svs (r_sv_count r) (SvInfo n (sv_list (r_sv_status r))) r) ;;
       let* flag := on_at (at_get MNL_AT_TEST_FLAG) in
       let* mode := on_at (at_get MNL_AT_SIGNAL_MODE) in
       when ((flag =? 1) || (mode =? 1))
         (let* r := reader in
          on_at (gps_at_command_test_proc (r_sv_count r)))
     else
       upd (fun r => with_svs 0 (SvInfo 0 (sv_list (r_sv_status r))) r)).

Definition parse_accuracy (tzer : list Token) : prog nmea unit :=
  let* r := reader in
  when ((r_fix_mode r =? 3) || (r_fix_mode r =? 2))
    (nmea_reader_update_accuracy (nmea_tokenizer_get tzer 1) ;; ret tt).

(** The two characters before the sentence type name the system. *)
Definition talker (m : list Z) (p : Z) : outcome Z :=
  obind (memeq m p "BD") (fun b => if b : bool then Done BDS_SV else
  obind (memeq m p "GP") (fun b => if b : bool then Done GPS_SV else
  obind (memeq m p "GL") (fun b => if b : bool then Done GLONASS_SV else
  obind (memeq m p "GA") (fun b => if b : bool then Done GALILEO_SV else Done 1)))).

(** The chain of [memcmp] on the sentence type. *)
Definition parse_sentence (m : list Z) (p : Z) (tzer : list Token) (sv_type : Z)
  : prog nmea unit :=
  let* gga := lift (memeq m p "GGA") in
  if gga : bool then parse_gga tzer else
  let* gsa := lift (memeq m p "GSA") in
  if gsa : bool then parse_gsa tzer sv_type else
  let* rmc := lift (memeq m p "RMC") in
  if rmc : bool then parse_rmc tzer else
  let* gsv := lift (memeq m p "GSV") in
  if gsv : bool then parse_gsv tzer sv_type else
  let* acc := lift (memeq m p "ACCURACY") in
  if acc : bool then parse_accuracy tzer else ret tt.

(** The fix goes to the HAL and to the main thread at the end of the buffer. *)
Definition report_fix : prog nmea unit :=
  let* r := reader in
  let* tag := gets gps_nmea_end_tag in
  when (LOC_FIXED r && negb (l_flags (r_fix r) =? 0) && tag)
    (on_sys (mnl2hal_location (loc_image (r_fix r))) ;;
     on_sys (mnld_gps_update_location (loc_image (r_fix r))) ;;
     let l := r_fix r in
     upd (with_fix (Loc 0 (l_lat l) (l_lng l) (l_alt l) (l_speed l) (l_bearing l)
                        (l_accuracy l) (l_timestamp l)))).

(** [for (idx = 0; idx < num_svs; idx++)], whose body clears [num_svs]. *)
Fixpoint report_svs_loop (idx : Z) (fuel : nat) : prog nmea unit :=
  let* r := reader in
  if num_svs (r_sv_status r) <=? idx then ret tt
  else
    match fuel with
    | O => blocked
    | S fuel' =>
        let* _ := lift (rd (sv_list (r_sv_status r)) idx) in
        on_sys (mnl2hal_gps_sv (sv_info_image (r_sv_status r))) ;;
        upd (fun r => with_svs 0 (SvInfo 0 (sv_list (r_sv_status r))) r) ;;
        modify (set_used used_none) ;;
        report_svs_loop (idx + 1) fuel'
    end.

Definition report_svs : prog nmea unit :=
  let* r := reader in
  let* tag := gets gps_nmea_end_tag in
  when (negb (num_svs (r_sv_status r) =? 0) && tag) (report_svs_loop 0 1).

Definition nmea_reader_parse : prog nmea unit :=
  let* tag := gets gps_nmea_end_tag in
  on_at (nmea_parser_at_cmd_pre tag) ;;
  let* r := reader in
  if r_pos r <? 9 then ret tt
  else
    let* tzer := lift (nmea_tokenizer_init (r_in r) 0 (r_pos r)) in
    let tok := nmea_tokenizer_get tzer 0 in
    if tk_end tok <? tk_p tok + 5 then ret tt
    else
      let* sv_type := lift (talker (tk_mem tok) (tk_p tok)) in
      parse_sentence (tk_mem tok) (tk_p tok + 2) tzer sv_type ;;
      report_fix ;;
      report_svs.

Definition nmea_reader_addc (c : Z) : prog nmea unit :=
  let* r := reader in
  if r_overflow r then upd (with_pos (r_pos r) (negb (c =? 10)))
  else if NMEA_MAX_SIZE <=? r_pos r then upd (with_pos 0 true)
  else
    let* m := lift (wr (r_in r) (r_pos r) (u8 c)) in
    upd (with_in (r_pos r + 1) m) ;;
    when (c =? 10)
      (nmea_reader_parse ;;
       let* r := reader in
       on_sys (mnl2hal_nmea (l_timestamp (r_fix r)) (Some (r_in r)) (r_pos r)) ;;
       upd (fun r => with_in 0 (r_in r) r)).

(** The bytes from number [nn] on; [length] is the length of the buffer. *)
Fixpoint process_loop (length nn : Z) (bytes : list Z) : prog nmea unit :=
  match bytes with
  | [] => ret tt
  | c :: rest =>
      when (nn =? length - 1) (modify (set_end_tag true)) ;;
      nmea_reader_addc c ;;
      process_loop length (nn + 1) rest
  end.

Definition mtk_mnl_nmea_parser_process (buffer : list Z) : prog nmea unit :=
  nmea_reader_init ;;
  modify (set_end_tag false) ;;
  process_loop (zlen buffer) 0 buffer.

Definition get_gps_nmea_parser_end_status : prog nmea Z :=
  gets (fun w => if gps_nmea_end_tag w then 1 else 0).

End parser.
