(* ===== verification/NmeaText.v ===== *)
(** * Sentences as text: the number reader and the tokenizer

    What [str2int] and [nmea_tokenizer_init] compute, as functions of the text
    of a sentence instead of pointers into a buffer. *)

From S2P Require Import Prelude DataCoder LbsUtility Float32 Float64 AtCommand NmeaParser.

(** ** [str2int] *)

Definition digit (d : Z) : Prop := 0 <= d <= 9.
Definition number (ds : list Z) (acc : Z) : Z := fold_left (fun a d => a * 10 + d) ds acc.
Definition digit_chars (ds : list Z) : list Z := map (Z.add 48) ds.

Lemma number_ge ds acc : Forall digit ds -> 0 <= acc -> acc <= number ds acc.
Proof.
  intros H. revert acc. induction H as [|d ds Hd _ IH]; intros acc Hacc; [cbn; lia|].
  unfold digit in Hd. change (number (d :: ds) acc) with (number ds (acc * 10 + d)).
  specialize (IH (acc * 10 + d)). lia.
Qed.

Lemma chk_nonneg z : 0 <= z -> chk z = if z <? 2 ^ 31 then Done z else UB.
Proof. intros Hz. unfold chk, in_s. by replace (_ <=? _) with true by lia. Qed.

Lemma str2int_loop_digits pre ds post e sign acc :
  Forall digit ds -> 0 <= acc < 2 ^ 31 -> sign = 1 \/ sign = -1 -> e = zlen pre + zlen ds ->
  str2int_loop (pre ++ digit_chars ds ++ post) (zlen pre) e sign acc (length ds) =
  if number ds acc <? 2 ^ 31 then Done (sign * number ds acc) else UB.
Proof.
  intros H Hacc Hs. revert pre acc Hacc.
  induction H as [|d ds Hd Hds IH]; intros pre acc Hacc He; cbn [length str2int_loop].
  - unfold chk, number, in_s. cbn [fold_left].
    replace (acc <? 2 ^ 31) with true by lia. by iftrue.
  - unfold digit in Hd. iffalse. change (digit_chars (d :: ds)) with (48 + d :: digit_chars ds).
    cbn [app]. rewrite rd_at by done. cbn [obind].
    replace (48 + d - 48) with d by lia. rewrite (wrap_u_id 32 d) by (apply in_u_spec; lia).
    iffalse. change (number (d :: ds) acc) with (number ds (acc * 10 + d)).
    pose proof (number_ge ds (acc * 10 + d) Hds ltac:(lia)) as Hge.
    rewrite chk_nonneg by lia. destruct (Z.ltb_spec (acc * 10) (2 ^ 31)) as [Ha|Ha]; cbn [obind];
      [|by iffalse].
    rewrite chk_nonneg by lia. destruct (Z.ltb_spec (acc * 10 + d) (2 ^ 31)) as [Hb|Hb]; cbn [obind];
      [|by iffalse].
    rewrite (cons_middle _ pre), (app_assoc pre).
    replace (zlen pre + 1) with (zlen (pre ++ [48 + d])) by (lists; lia).
    apply IH; [lia|]. lists. lia.
Qed.

(** A character that is no digit ends the reading with -1. *)
Lemma str2int_loop_junk pre ds c post e sign acc n :
  Forall digit ds -> 0 <= acc -> number ds acc < 2 ^ 31 -> 0 <= c < 256 -> ~ digit (c - 48) ->
  zlen pre + zlen ds < e -> (length ds < n)%nat ->
  str2int_loop (pre ++ digit_chars ds ++ c :: post) (zlen pre) e sign acc n = Done (-1).
Proof.
  intros H Hacc Hmax Hc Hbad. revert pre acc n Hacc Hmax.
  induction H as [|d ds Hd Hds IH]; intros pre acc n Hacc Hmax He Hn;
    (destruct n as [|n]; [cbn in Hn; lia|]); cbn [str2int_loop]; unfold digit in *.
  - iffalse. cbn [digit_chars map app]. rewrite rd_at by done. cbn [obind].
    replace (10 <=? u32 (c - 48)) with true; [done|]. symmetry. apply Z.leb_le.
    unfold wrap_u. destruct (Z.ltb_spec c 48).
    + replace ((c - 48) mod 2 ^ 32) with (c - 48 + 2 ^ 32); [lia|].
      symmetry. rewrite <- (Z.mod_add _ 1) by lia. apply Z.mod_small. lia.
    + rewrite Z.mod_small; lia.
  - iffalse. change (digit_chars (d :: ds)) with (48 + d :: digit_chars ds).
    change (number (d :: ds) acc) with (number ds (acc * 10 + d)) in Hmax.
    pose proof (number_ge ds (acc * 10 + d) Hds ltac:(lia)) as Hge.
    cbn [app]. rewrite rd_at by done. cbn [obind].
    replace (48 + d - 48) with d by lia. rewrite (wrap_u_id 32 d) by (apply in_u_spec; lia).
    iffalse. rewrite !chk_nonneg by lia. iftrue. cbn [obind]. rewrite chk_nonneg by lia. iftrue.
    cbn [obind]. rewrite (cons_middle _ pre), (app_assoc pre).
    replace (zlen pre + 1) with (zlen (pre ++ [48 + d])) by (lists; lia).
    apply IH; lists; lia.
Qed.

(** The text of a number in a sentence. *)
Definition int_text (neg : bool) (ds : list Z) : list Z :=
  (if neg then [45] else []) ++ digit_chars ds.

(** [str2int] starts its loop after the sign. *)
Lemma str2int_start pre neg ds post n :
  Forall digit ds -> ds <> [] -> zlen ds <= n ->
  str2int (pre ++ int_text neg ds ++ post) (zlen pre) (zlen pre + zlen (int_text neg ds) - zlen ds + n) =
  let pre' := pre ++ (if neg then [45] else []) in
  str2int_loop (pre' ++ digit_chars ds ++ post) (zlen pre') (zlen pre' + n)
    (if neg then -1 else 1) 0 (Z.to_nat n).
Proof.
  intros Hds Hne Hn. unfold str2int, int_text, digit_chars. cbn zeta.
  destruct ds as [|d ds]; [done|]. apply Forall_cons in Hds as [Hd _]. unfold digit in Hd.
  destruct neg; cbn [app map].
  - rewrite rd_at by done. cbn [obind]. change (45 =? 45) with true. cbn iota.
    rewrite <- (app_assoc pre [45]). cbn [app]. lists. rewrite length_map.
    f_equal; lia.
  - rewrite rd_at by done. cbn [obind]. replace (48 + d =? 45) with false by lia.
    rewrite (app_nil_r pre). lists. rewrite length_map. f_equal; lia.
Qed.

Lemma str2int_digits pre neg ds post :
  Forall digit ds -> ds <> [] ->
  str2int (pre ++ int_text neg ds ++ post) (zlen pre) (zlen pre + zlen (int_text neg ds)) =
  if number ds 0 <? 2 ^ 31 then Done (if neg then - number ds 0 else number ds 0) else UB.
Proof.
  intros Hds Hne. pose proof (str2int_start pre neg ds post (zlen ds) Hds Hne ltac:(lia)) as E.
  replace (_ - zlen ds + zlen ds) with (zlen pre + zlen (int_text neg ds)) in E by lia.
  rewrite E. cbn zeta. rewrite Nat2Z.id, str2int_loop_digits by (done || lia || by destruct neg; auto).
  destruct neg; case_match; f_equal; lia.
Qed.

(** [str2int] reads decimal numbers.  On an optional minus sign and one or
    more digits (leading zeros included), anywhere in a buffer, it returns the
    number when its magnitude is below 2^31 and overflows an [int] otherwise;
    when another character follows the digits before the end, it returns -1,
    which is also the value of the text "-1". *)
Theorem str2int_decimal (pre ds post : list Z) (neg : bool) :
  Forall digit ds -> ds <> [] ->
  str2int (pre ++ int_text neg ds ++ post) (zlen pre) (zlen pre + zlen (int_text neg ds)) =
    (if number ds 0 <? 2 ^ 31 then Done (if neg then - number ds 0 else number ds 0) else UB) /\
  (forall c n, 0 <= c < 256 -> ~ digit (c - 48) -> number ds 0 < 2 ^ 31 -> 0 < n ->
     str2int (pre ++ int_text neg ds ++ c :: post) (zlen pre)
       (zlen pre + zlen (int_text neg ds) + n) = Done (-1)).
Proof.
  intros Hds Hne. split; [by apply str2int_digits|].
  intros c n Hc Hbad Hmax Hn.
  pose proof (str2int_start pre neg ds (c :: post) (zlen ds + n) Hds Hne ltac:(lia)) as E.
  replace (_ - zlen ds + _) with (zlen pre + zlen (int_text neg ds) + n) in E by lia.
  rewrite E. cbn zeta. apply str2int_loop_junk; try done; lia.
Qed.

Lemma str2int_decimal_witness :
  str2int (lit "GSV,-12,") 4 7 = Done (-12) /\ str2int (lit "GSV,12x,") 4 7 = Done (-1).
Proof.
  destruct (str2int_decimal (lit "GSV,") [1; 2] (lit ",") true) as [H1 _];
    [by repeat constructor; unfold digit|done|].
  destruct (str2int_decimal (lit "GSV,") [1; 2] (lit ",") false) as [_ H2];
    [by repeat constructor; unfold digit|done|].
  split; [exact H1|]. refine (H2 120 1 _ _ _ _); unfold digit; cbn; lia.
Defined.

(** ** The tokenizer *)

(** The text between two positions of a buffer, and of a token. *)
Definition seg (m : list Z) (p e : Z) : list Z := take (Z.to_nat (e - p)) (drop (Z.to_nat p) m).
Definition slice (t : Token) : list Z := seg (tk_mem t) (tk_p t) (tk_end t).

(** A token that points into [m], between [p] and [e]. *)
Definition token_in (m : list Z) (p e : Z) (t : Token) : Prop :=
  tk_mem t = m /\ p <= tk_p t <= tk_end t /\ tk_end t <= e.

(** Reference: the fields between the commas; a last empty one is dropped. *)
Fixpoint split (cur l : list Z) : list (list Z) :=
  match l with
  | [] => [cur]
  | c :: l' => if c =? 44 then cur :: split [] l' else split (cur ++ [c]) l'
  end.
Fixpoint trim_last (ls : list (list Z)) : list (list Z) :=
  match ls with
  | [] => []
  | [l] => if decide (l = []) then [] else [l]
  | l :: r => l :: trim_last r
  end.
Definition fields (l : list Z) : list (list Z) := trim_last (split [] l).

Lemma split_no_comma cur l : 44 ∉ l -> split cur l = [cur ++ l].
Proof.
  revert cur; induction l as [|c l IH]; intros cur H; cbn; [by rewrite app_nil_r|].
  apply not_elem_of_cons in H as [Hc Hl]. destruct (Z.eqb_spec c 44); [congruence|].
  rewrite IH by done. by rewrite <- app_assoc.
Qed.

Lemma split_comma cur a r : 44 ∉ a -> split cur (a ++ 44 :: r) = (cur ++ a) :: split [] r.
Proof.
  revert cur; induction a as [|c a IH]; intros cur H; cbn [app split].
  - by rewrite app_nil_r.
  - apply not_elem_of_cons in H as [Hc Hl]. destruct (Z.eqb_spec c 44); [congruence|].
    rewrite IH by done. by rewrite <- app_assoc.
Qed.

Lemma split_ne cur l : split cur l <> [].
Proof. revert cur; induction l as [|c l IH]; intros cur; cbn; [done|]. by case_match. Qed.

Lemma fields_comma a r : 44 ∉ a -> fields (a ++ 44 :: r) = a :: fields r.
Proof.
  intros H. unfold fields. rewrite split_comma by done. cbn [app].
  pose proof (split_ne [] r). by destruct (split [] r).
Qed.

Lemma fields_one a : 44 ∉ a -> a <> [] -> fields a = [a].
Proof.
  intros H Hne. unfold fields. rewrite split_no_comma by done. cbn. by case_decide.
Qed.

Lemma seg_nil m p e : e <= p -> seg m p e = [].
Proof. intros H. unfold seg. by replace (Z.to_nat (e - p)) with 0%nat by lia. Qed.

Lemma seg_app m p q e : 0 <= p <= q -> q <= e -> seg m p e = seg m p q ++ seg m q e.
Proof.
  intros Hp Hq. unfold seg.
  replace (Z.to_nat (e - p)) with (Z.to_nat (q - p) + Z.to_nat (e - q))%nat by lia.
  replace (Z.to_nat q) with (Z.to_nat p + Z.to_nat (q - p))%nat by lia.
  by rewrite <- drop_drop, take_take_drop.
Qed.

Lemma seg_one m p c : 0 <= p -> m !! Z.to_nat p = Some c -> seg m p (p + 1) = [c].
Proof.
  intros Hp H. unfold seg. replace (Z.to_nat (p + 1 - p)) with 1%nat by lia.
  by rewrite (drop_S m c).
Qed.

Lemma memchr_spec m p c n :
  0 <= p -> p + Z.of_nat n <= zlen m ->
  exists q, memchr m p c n = Done q /\ p <= q <= p + Z.of_nat n /\ c ∉ seg m p q /\
    (q < p + Z.of_nat n -> m !! Z.to_nat q = Some c).
Proof.
  revert p; induction n as [|n IH]; intros p Hp Hn; cbn [memchr].
  - exists p. rewrite seg_nil by lia. repeat split; try lia. apply not_elem_of_nil.
  - destruct (rd_in m p) as (x & Hx & Hl); [lia|]. rewrite Hx. cbn [obind].
    destruct (Z.eqb_spec x c) as [->|Hne].
    + exists p. rewrite seg_nil by lia. repeat split; try lia; [apply not_elem_of_nil|done].
    + destruct (IH (p + 1)) as (q & Hq & Hr & Hs & Hat); [lia..|].
      exists q. repeat split; [done|lia|lia| |intros; apply Hat; lia].
      rewrite (seg_app m p (p + 1) q) by lia. rewrite (seg_one m p x) by (done || lia).
      by apply not_elem_of_cons; split; [congruence|].
Qed.

Lemma take_len_pos {A} (l : list A) k : (0 < k)%nat -> forall x, take k (x :: l) = x :: take (k - 1) l.
Proof. intros Hk x. destruct k; [lia|]. cbn. by rewrite Nat.sub_0_r. Qed.

(** The loop appends the tokens of the remaining text, up to 24 in all. *)
Lemma tokenize_spec m e toks fuel p :
  0 <= p -> e <= zlen m -> e - p <= Z.of_nat fuel -> (length toks <= 24)%nat ->
  exists ts, tokenize m p e toks fuel = Done (toks ++ ts) /\
    map slice ts = take (24 - length toks) (fields (seg m p e)) /\ Forall (token_in m p e) ts /\
    (toks = [] -> forall t, head ts = Some t -> tk_p t = p).
Proof.
  revert p toks; induction fuel as [|fuel IH]; intros p toks Hp He Hf Ht;
    cbn [tokenize]; destruct (Z.leb_spec e p) as [Hpe|Hpe]; try lia.
  1,2: exists []; rewrite app_nil_r, seg_nil by lia; change (fields []) with (@nil (list Z)); by rewrite take_nil.
  destruct (memchr_spec m p 44 (Z.to_nat (e - p))) as (q & Hq & Hr & Hs & Hat); [lia..|].
  rewrite Hq. cbn [obind]. rewrite Z2Nat.id in * by lia.
  set (p' := if q <? e then q + 1 else q). assert (Hp' : p < p' /\ q <= p' <= e).
  { subst p'. destruct (Z.ltb_spec q e); lia. }
  assert (Hfields : fields (seg m p e) = seg m p q :: fields (seg m p' e)).
  { rewrite (seg_app m p q e) by lia. subst p'. destruct (Z.ltb_spec q e) as [Hlt|Hge].
    - rewrite (seg_app m q (q + 1) e) by lia. rewrite (seg_one m q 44) by (lia || apply Hat; lia).
      cbn [app]. by rewrite fields_comma.
    - rewrite (seg_nil m q e), app_nil_r by lia. cbn. apply fields_one; [done|].
      unfold seg. intros E%(f_equal length). lists. lia. }
  destruct (Z.ltb_spec (zlen toks) MAX_NMEA_TOKENS) as [Hlt|Hge]; unfold MAX_NMEA_TOKENS in *.
  - destruct (IH p' (toks ++ [Tok m p q])) as (ts & E & Hts & Hin & _); [lia..|lists; lia|].
    exists (Tok m p q :: ts). rewrite E, <- app_assoc. split; [done|]. split.
    + cbn [map]. rewrite Hts, Hfields, take_len_pos by lia. lists. f_equal; f_equal; lia.
    + split; [|by intros _ t [= <-]].
      apply Forall_cons. split; [unfold token_in; cbn; by repeat split; try lia|].
      eapply Forall_impl; [exact Hin|]. unfold token_in. intros t (? & ? & ?). by repeat split; try lia.
  - destruct (IH p' toks) as (ts & E & Hts & Hin & _); [lia..|].
    exists ts. rewrite E. split; [done|].
    replace (24 - length toks)%nat with 0%nat in * by lia. split; [by rewrite Hts, !take_0|].
    split; [|intros ->; cbn in Hge; lia].
    eapply Forall_impl; [exact Hin|]. unfold token_in. intros t (? & ? & ?). by repeat split; try lia.
Qed.

(** Reference: what the tokenizer strips off a sentence. *)
Definition strip_start (l : list Z) : list Z :=
  match l with c :: l' => if c =? 36 then l' else l | [] => [] end.
Definition strip_return (r : list Z) : list Z :=
  match r with c :: r' => if c =? 13 then r' else r | [] => [] end.
Definition strip_newline (l : list Z) : list Z :=
  match rev l with c :: r => if c =? 10 then rev (strip_return r) else l | [] => l end.
Definition strip_checksum (l : list Z) : list Z :=
  match rev l with _ :: _ :: c :: r => if c =? 42 then rev r else l | _ => l end.
Definition body (l : list Z) : list Z := strip_checksum (strip_newline (strip_start l)).

Lemma seg_cons m p e c :
  0 <= p < e -> m !! Z.to_nat p = Some c -> seg m p e = c :: seg m (p + 1) e.
Proof. intros Hp H. by rewrite (seg_app m p (p + 1) e), (seg_one m p c) by (done || lia). Qed.

Lemma seg_rev m p e :
  0 <= p < e -> e <= zlen m ->
  exists c, rd m (e - 1) = Done c /\ rev (seg m p e) = c :: rev (seg m p (e - 1)).
Proof.
  intros Hp He. destruct (rd_in m (e - 1)) as (c & Hc & Hl); [lia|]. exists c. split; [done|].
  rewrite (seg_app m p (e - 1) e) by lia.
  replace (seg m (e - 1) e) with [c]; [by rewrite rev_app_distr|].
  symmetry. rewrite <- (seg_one m (e - 1) c) by (done || lia). f_equal. lia.
Qed.

Lemma rev_seg m p e : rev (rev (seg m p e)) = seg m p e.
Proof. apply rev_involutive. Qed.

Lemma start_spec m p e :
  0 <= p <= e -> e <= zlen m ->
  exists p', (if p <? e then obind (rd m p) (fun c => Done (if c =? 36 then p + 1 else p))
              else Done p) = Done p' /\ p <= p' <= e /\ p' <= p + 1 /\
             seg m p' e = strip_start (seg m p e).
Proof.
  intros Hp He. destruct (Z.ltb_spec p e).
  - destruct (rd_in m p) as (c & -> & Hl); [lia|]. cbn [obind].
    rewrite (seg_cons m p e c) by (done || lia). cbn [strip_start].
    destruct (c =? 36); eexists; (split; [done|]); (split; [lia|]); (split; [lia|]); [done|].
    by rewrite (seg_cons m p e c) by (done || lia).
  - exists p. split; [done|]. split; [lia|]. split; [lia|]. by rewrite seg_nil by lia.
Qed.

Lemma newline_spec m p e :
  0 <= p <= e -> e <= zlen m ->
  exists e', (if p <? e then
           obind (rd m (e - 1)) (fun c =>
           if c =? 10 then
             if p <? e - 1 then
               obind (rd m (e - 1 - 1)) (fun c => Done (if c =? 13 then e - 1 - 1 else e - 1))
             else Done (e - 1)
           else Done e)
         else Done e) = Done e' /\ p <= e' <= e /\ seg m p e' = strip_newline (seg m p e).
Proof.
  intros Hp He. unfold strip_newline. destruct (Z.ltb_spec p e).
  - destruct (seg_rev m p e) as (c & -> & ->); [lia..|]. cbn [obind].
    destruct (c =? 10); [|exists e; by repeat split; try lia].
    destruct (Z.ltb_spec p (e - 1)).
    + destruct (seg_rev m p (e - 1)) as (d & -> & Hd); [lia..|]. cbn [obind]. rewrite Hd. cbn [strip_return].
      destruct (d =? 13); eexists; (split; [done|]); (split; [lia|]); [by rewrite rev_seg|].
      by rewrite <- Hd, rev_seg.
    + exists (e - 1). split; [done|]. split; [lia|]. by rewrite seg_nil by lia.
  - exists e. split; [done|]. split; [lia|]. by rewrite seg_nil by lia.
Qed.

Lemma checksum_spec m p e :
  0 <= p <= e -> e <= zlen m ->
  exists e', (if p + 3 <=? e then obind (rd m (e - 3)) (fun c => Done (if c =? 42 then e - 3 else e))
              else Done e) = Done e' /\ p <= e' <= e /\ seg m p e' = strip_checksum (seg m p e).
Proof.
  intros Hp He. unfold strip_checksum. destruct (Z.leb_spec (p + 3) e).
  - destruct (seg_rev m p e) as (c1 & _ & ->); [lia..|].
    destruct (seg_rev m p (e - 1)) as (c2 & _ & ->); [lia..|].
    destruct (seg_rev m p (e - 1 - 1)) as (c & Hc & ->); [lia..|].
    replace (e - 1 - 1 - 1) with (e - 3) in * by lia. rewrite Hc. cbn [obind].
    destruct (c =? 42); eexists; (split; [done|]); (split; [lia|]); by rewrite ?rev_seg.
  - exists e. split; [done|]. split; [lia|].
    assert (length (rev (seg m p e)) < 3)%nat.
    { rewrite length_rev. unfold seg. lists. lia. }
    destruct (rev (seg m p e)) as [|? [|? [|? ?]]]; cbn in *; try done; lia.
Qed.

(** The tokens of a sentence: they lie in it, and their texts are the fields of
    its body. *)
Lemma tokenizer_spec m pos :
  0 <= pos <= zlen m ->
  exists ts, nmea_tokenizer_init m 0 pos = Done ts /\
    map slice ts = take 24 (fields (body (take (Z.to_nat pos) m))) /\
    Forall (token_in m 0 pos) ts /\ (forall t, head ts = Some t -> tk_p t <= 1).
Proof.
  intros Hpos. unfold nmea_tokenizer_init.
  destruct (start_spec m 0 pos) as (p & -> & Hp & Hp1 & E1); [lia..|]. cbn [obind].
  destruct (newline_spec m p pos) as (e & -> & He & E2); [lia..|]. cbn [obind].
  destruct (checksum_spec m p e) as (e' & -> & He' & E3); [lia..|]. cbn [obind].
  destruct (tokenize_spec m e' [] (Z.to_nat (e' - p)) p) as (ts & E & Hts & Hin & Hh); [lia..|cbn; lia|].
  exists ts. split; [done|]. split; [|split].
  - rewrite Hts, E3, E2, E1. unfold body, seg. by rewrite drop_0, Z.sub_0_r.
  - eapply Forall_impl; [exact Hin|]. unfold token_in. intros t (? & ? & ?). by repeat split; try lia.
  - intros t Ht. rewrite (Hh eq_refl t Ht). lia.
Qed.

(** ** Building a sentence *)

Fixpoint join (fs : list (list Z)) : list Z :=
  match fs with
  | [] => []
  | [f] => f
  | f :: r => f ++ 44 :: join r
  end.
(** Fields that survive: no commas, and the last one is not empty. *)
Definition fields_ok (fs : list (list Z)) : Prop :=
  Forall (fun f => 44 ∉ f) fs /\ match last fs with Some f => f <> [] | None => False end.
(** [$], the fields, [*], two characters of checksum, CR LF. *)
Definition sentence (fs : list (list Z)) (c1 c2 : Z) : list Z :=
  36 :: join fs ++ [42; c1; c2; 13; 10].

Lemma fields_join fs : fields_ok fs -> fields (join fs) = fs.
Proof.
  intros [Hf Hl]. induction fs as [|f fs IH]; [done|]. apply Forall_cons in Hf as [Hf Hfs].
  destruct fs as [|g fs]; [by apply fields_one|].
  change (join (f :: g :: fs)) with (f ++ 44 :: join (g :: fs)).
  by rewrite fields_comma, IH.
Qed.

Lemma body_sentence fs c1 c2 : body (sentence fs c1 c2) = join fs.
Proof.
  unfold body, sentence, strip_start. change (36 =? 36) with true. cbn iota.
  unfold strip_newline. rewrite rev_app_distr. cbn [rev app]. change (10 =? 10) with true.
  change (strip_return (13 :: ?x)) with x. cbn iota. cbn [strip_return].
  change (13 =? 13) with true. cbn iota. unfold strip_checksum. rewrite rev_involutive.
  change (42 =? 42) with true. cbn iota. apply rev_involutive.
Qed.

(** C39: the tokenizer splits a sentence into its fields.  On any buffer and
    any sentence length it terminates inside the buffer, its tokens lie in the
    sentence, and their texts are the first 24 fields between the commas of the
    sentence without [$], line end and checksum (a last empty field is
    dropped).  In particular a sentence built from at most 24 fields is taken
    apart into exactly these fields. *)
Theorem nmea_tokenizer_fields (m : list Z) (pos : Z) :
  0 <= pos <= zlen m ->
  exists ts, nmea_tokenizer_init m 0 pos = Done ts /\
    map slice ts = take 24 (fields (body (take (Z.to_nat pos) m))) /\
    Forall (token_in m 0 pos) ts /\
    (forall fs c1 c2 rest, m = sentence fs c1 c2 ++ rest -> pos = zlen (sentence fs c1 c2) ->
       fields_ok fs -> (length fs <= 24)%nat -> map slice ts = fs).
Proof.
  intros Hpos. destruct (tokenizer_spec m pos Hpos) as (ts & E & Hts & Hin & _).
  exists ts. repeat split; try done. intros fs c1 c2 rest Hm Hp Hok Hn.
  rewrite Hts, Hm, Hp, Nat2Z.id, take_app_length, body_sentence, fields_join by done.
  by apply take_ge.
Qed.

Lemma nmea_tokenizer_fields_witness :
  exists ts, nmea_tokenizer_init (lit "$GPGGA,1,,N*47" ++ [13; 10; 0; 0]) 0 16 = Done ts /\
    map slice ts = map lit ["GPGGA"; "1"; ""; "N"]%string.
Proof.
  destruct (nmea_tokenizer_fields (lit "$GPGGA,1,,N*47" ++ [13; 10; 0; 0]) 16)
    as (ts & E & _ & _ & H); [cbn; lia|].
  exists ts. split; [exact E|].
  apply (H (map lit ["GPGGA"; "1"; ""; "N"]%string) 52 55 [0; 0]); [reflexivity|reflexivity| |cbn; lia].
  split; [|done]. apply (bool_decide_unpack _). by vm_compute.
Defined.

(** The value of a text as a [double]. *)
Definition float_of (f : list Z) : f64 :=
  if 16 <=? zlen f then f64_of_int 0 else strtod f.

Lemma str2float_seg m p e :
  0 <= p <= e -> e <= zlen m -> str2float m p e = Done (float_of (seg m p e)).
Proof.
  intros Hp He. unfold str2float, float_of. assert (zlen (seg m p e) = e - p) as ->.
  { unfold seg. lists. lia. }
  destruct (Z.leb_spec 16 (e - p)); [done|]. by iftrue.
Qed.
