(* ===== verification/NmeaStream.v ===== *)
(** * The stream of sentences

    [mtk_mnl_nmea_parser_process] works byte by byte; here it is related to a
    reader that works line by line ([feed_line]). *)

From S2P Require Import Prelude DataCoder LbsUtility Layout Float32 Float64 Messages.
From S2P Require Import Hal2Mnl Mnl2Hal MnldState Mnld AtCommand Calendar NmeaParser NmeaText.

(** ** What a program leaves alone

    [keeps R m]: the final state of a run of [m] that returns is related by
    [R] to the initial one. *)
Definition keeps {W A} (R : W -> W -> Prop) (m : prog W A) : Prop :=
  forall w a w', m w = Done (a, w') -> R w w'.

Section keeps.
Context {W : Type} (R : W -> W -> Prop) `{!PreOrder R}.

Lemma keeps_ret {A} (a : A) : keeps R (ret a).
Proof. intros w b w' [= _ <-]. reflexivity. Qed.
Lemma keeps_gets {A} (f : W -> A) : keeps R (gets f).
Proof. intros w b w' [= _ <-]. reflexivity. Qed.
Lemma keeps_lift {A} (o : outcome A) : keeps R (lift o).
Proof. intros w b w'. unfold lift. destruct o; try done. intros [= _ <-]. reflexivity. Qed.
Lemma keeps_blocked {A} : keeps R (@blocked W A).
Proof. done. Qed.
Lemma keeps_bind {A B} (m : prog W A) (k : A -> prog W B) :
  keeps R m -> (forall a, keeps R (k a)) -> keeps R (bind m k).
Proof.
  intros Hm Hk w b w2 (a & w1 & E1 & E2)%bind_inv. etransitivity; [by eapply Hm|by eapply Hk].
Qed.
Lemma keeps_modify (f : W -> W) : (forall w, R w (f w)) -> keeps R (modify f).
Proof. intros H w b w' [= _ <-]. apply H. Qed.
Lemma keeps_when (c : bool) (m : prog W unit) : keeps R m -> keeps R (when c m).
Proof. destruct c; [done|]. intros _. apply keeps_ret. Qed.
End keeps.

(** The sentence buffer, its position and the end tag. *)
Definition line_state (w : nmea) : Z * bool * list Z * bool :=
  (r_pos (n_reader w), r_overflow (n_reader w), r_in (n_reader w), gps_nmea_end_tag w).
Definition same_line (w w' : nmea) : Prop := line_state w = line_state w'.
#[export] Instance same_line_preorder : PreOrder same_line.
Proof. split; unfold same_line; [done|]. intros x y z. congruence. Qed.

Lemma keeps_on_sys {A} (m : prog sys A) : keeps same_line (on_sys m).
Proof.
  intros w a w'. unfold on_sys. destruct (m (sys_of w)) as [[b s]| | |]; try done.
  by intros [= _ <-].
Qed.
Lemma keeps_on_at {A} (m : prog at_world A) : keeps same_line (on_at m).
Proof.
  intros w a w'. unfold on_at. destruct (m (n_aw w)) as [[b s]| | |]; try done.
  by intros [= _ <-].
Qed.

Ltac keeps :=
  repeat match goal with
  | |- keeps _ (bind _ _) => apply keeps_bind; [exact _| |intros ?]
  | |- keeps _ (ret _) => apply keeps_ret; exact _
  | |- keeps _ (gets _) => apply keeps_gets; exact _
  | |- keeps _ reader => apply keeps_gets; exact _
  | |- keeps _ (lift _) => apply keeps_lift; exact _
  | |- keeps _ (blocked) => apply keeps_blocked; exact _
  | |- keeps _ (on_sys _) => apply keeps_on_sys
  | |- keeps _ (on_at _) => apply keeps_on_at
  | |- keeps _ (when _ _) => apply keeps_when; [exact _|]
  | |- keeps _ (upd _) => apply keeps_modify; by intros
  | |- keeps _ (modify _) => apply keeps_modify; by intros
  | |- keeps _ (if ?c then _ else _) => destruct c
  | |- keeps _ (match ?c with _ => _ end) => destruct c
  | |- keeps _ (let _ := _ in _) => cbv zeta
  | |- keeps _ _ => solve [auto with keepsdb]
  end.
Create HintDb keepsdb.

Section frame.
Context (cal : calendar).

Lemma utc_diff_keeps : keeps same_line (nmea_reader_update_utc_diff cal).
Proof. unfold nmea_reader_update_utc_diff. keeps. Qed.
Hint Resolve utc_diff_keeps : keepsdb.

Lemma update_time_keeps t : keeps same_line (nmea_reader_update_time cal t).
Proof. unfold nmea_reader_update_time. keeps. Qed.
Lemma update_altitude_keeps a b : keeps same_line (nmea_reader_update_altitude a b).
Proof. unfold nmea_reader_update_altitude. keeps. Qed.
Lemma update_latlong_keeps a b c d : keeps same_line (nmea_reader_update_latlong a b c d).
Proof. unfold nmea_reader_update_latlong. keeps. Qed.
Lemma update_bearing_keeps a : keeps same_line (nmea_reader_update_bearing a).
Proof. unfold nmea_reader_update_bearing. keeps. Qed.
Lemma update_speed_keeps a : keeps same_line (nmea_reader_update_speed a).
Proof. unfold nmea_reader_update_speed. keeps. Qed.
Lemma update_accuracy_keeps a : keeps same_line (nmea_reader_update_accuracy a).
Proof. unfold nmea_reader_update_accuracy. keeps. Qed.
Lemma update_sv_keeps i d a b c : keeps same_line (nmea_reader_update_sv_status i d a b c).
Proof. unfold nmea_reader_update_sv_status. keeps. Qed.
Hint Resolve update_time_keeps update_altitude_keeps update_latlong_keeps update_bearing_keeps
  update_speed_keeps update_accuracy_keeps update_sv_keeps : keepsdb.

Lemma update_date_keeps a b : keeps same_line (nmea_reader_update_date cal a b).
Proof. unfold nmea_reader_update_date. keeps. Qed.
Lemma gsa_loop_keeps tz s i n : keeps same_line (gsa_loop tz s i n).
Proof. revert i; induction n; intros i; cbn [gsa_loop]; keeps. Qed.
Lemma gsv_loop_keeps tz s b i n : keeps same_line (gsv_loop tz s b i n).
Proof. revert i; induction n; intros i; cbn [gsv_loop]; keeps. Qed.
Lemma report_svs_loop_keeps i n : keeps same_line (report_svs_loop i n).
Proof. revert i; induction n; intros i; cbn [report_svs_loop]; keeps. Qed.
Hint Resolve update_date_keeps gsa_loop_keeps gsv_loop_keeps report_svs_loop_keeps : keepsdb.

(** Parsing a sentence leaves the sentence buffer and the end tag alone. *)
Lemma parse_keeps : keeps same_line (nmea_reader_parse cal).
Proof.
  unfold nmea_reader_parse, parse_sentence, parse_gga, parse_gsa, parse_rmc, parse_gsv,
    parse_accuracy, report_fix, report_svs. keeps.
Qed.
End frame.

(** ** The reader, line by line *)

Section stream.
Context (cal : calendar).

(** A sentence that fits is stored from the start of the buffer. *)
Definition store_line (l : list Z) (r : NmeaReader) : NmeaReader :=
  with_in (zlen l) (l ++ drop (length l) (r_in r)) r.

(** Of a longer line 255 bytes are stored, and the reader waits for a newline;
    the newline of a line of 256 bytes is not the one it waits for. *)
Definition store_overlong (l : list Z) (r : NmeaReader) : NmeaReader :=
  with_pos 0 (zlen l =? 256)
    (with_in 0 (take 255 l ++ drop 255 (r_in r)) r).

(** One line with its newline; [tag] says that the buffer ends with it. *)
Definition feed_line (l : list Z) (tag : bool) : prog nmea unit :=
  let* r := reader in
  if r_overflow r then
    when tag (modify (set_end_tag true)) ;;
    upd (with_pos 0 false)
  else if zlen l <=? NMEA_MAX_SIZE then
    when tag (modify (set_end_tag true)) ;;
    upd (store_line l) ;;
    nmea_reader_parse cal ;;
    let* r := reader in
    on_sys (mnl2hal_nmea (l_timestamp (r_fix r)) (Some (r_in r)) (r_pos r)) ;;
    upd (fun r => with_in 0 (r_in r) r)
  else
    when tag (modify (set_end_tag true)) ;;
    upd (store_overlong l).

Fixpoint feed_lines (ls : list (list Z)) : prog nmea unit :=
  match ls with
  | [] => ret tt
  | l :: r => feed_line l (bool_decide (r = [])) ;; feed_lines r
  end.

(** A line of bytes with its newline. *)
Definition is_line (l : list Z) : Prop :=
  exists t, l = t ++ [10] /\ 10 ∉ t /\ bytes_ok t.

(** The reader between two lines. *)
Definition at_start (w : nmea) : Prop :=
  r_pos (n_reader w) = 0 /\ length (r_in (n_reader w)) = 256%nat.

(** Bytes stored from the position on. *)
Definition fill (t : list Z) (r : NmeaReader) : NmeaReader :=
  with_in (r_pos r + zlen t)
    (take (Z.to_nat (r_pos r)) (r_in r) ++ t ++ drop (Z.to_nat (r_pos r) + length t) (r_in r)) r.

Definition with_reader (f : NmeaReader -> NmeaReader) (w : nmea) : nmea :=
  set_reader (f (n_reader w)) w.

Lemma process_loop_app L nn a b w :
  process_loop cal L nn (a ++ b) w =
  (process_loop cal L nn a ;; process_loop cal L (nn + zlen a) b) w.
Proof.
  revert nn w; induction a as [|c a IH]; intros nn w.
  - cbn. by rewrite Z.add_0_r.
  - cbn [app process_loop]. unfold bind at 1 3 4.
    destruct (when _ _ w) as [[[] w1]| | |]; try done. unfold bind at 1 2.
    destruct (nmea_reader_addc _ _ w1) as [[[] w2]| | |]; try done. rewrite IH.
    unfold bind. cbn [length]. by replace (nn + Z.of_nat (S (length a))) with (nn + 1 + zlen a) by lia.
Qed.

(** Bytes that fit and are no newline, before the last byte of the buffer. *)
Lemma process_fill L nn t w :
  10 ∉ t -> bytes_ok t -> r_overflow (n_reader w) = false -> length (r_in (n_reader w)) = 256%nat ->
  0 <= r_pos (n_reader w) -> r_pos (n_reader w) + zlen t <= 255 -> nn + zlen t < L ->
  process_loop cal L nn t w = Done (tt, with_reader (fill t) w).
Proof.
  revert nn w; induction t as [|c t IH]; intros nn w Hnl Hb Hov Hin Hp Hpos Hnn.
  - cbn. destruct w as [[] ? ? ?]. unfold with_reader, fill, with_in, ret, set_reader. cbn in *.
    by rewrite Nat.add_0_r, Z.add_0_r, take_drop.
  - apply not_elem_of_cons in Hnl as [Hc Hnl]. apply Forall_cons in Hb as [Hc8 Hb].
    cbn [length] in *. cbn [process_loop]. replace (nn =? L - 1) with false by lia.
    cbn [when]. unfold bind at 1, ret at 1. unfold bind at 1, nmea_reader_addc.
    unfold bind at 1, reader, gets. rewrite Hov. unfold NMEA_MAX_SIZE. iffalse.
    rewrite wr_in_range by lia. rewrite (wrap_u_id 8 c Hc8). cbn [lift]. unfold bind at 1.
    replace (c =? 10) with false by (symmetry; apply Z.eqb_neq; congruence).
    cbn [when]. unfold bind at 1, upd, modify, ret at 1. cbv beta iota delta [lift].
    rewrite IH; cbn; try done; try lia; [|by rewrite length_insert].
    f_equal. f_equal. unfold with_reader, set_reader, fill, with_in. cbn. f_equal.
    set (k := Z.to_nat (r_pos (n_reader w))).
    replace (Z.to_nat (r_pos (n_reader w) + 1)) with (S k) by lia.
    f_equal; [lia|]. rewrite insert_take_drop by lia.
    rewrite take_app, length_take, drop_app, length_take.
    replace (S k `min` 256)%nat with (S k) by lia.
    rewrite Hin, take_take, Nat.min_r by lia. rewrite (drop_ge (take k _)) by (rewrite length_take; lia).
    replace (S k - k `min` 256)%nat with 1%nat by lia.
    replace (S k + length t - k `min` 256)%nat with (S (length t)) by lia.
    cbn [take drop]. rewrite take_0, drop_drop, <- app_assoc. cbn [app]. do 3 f_equal. f_equal; lia.
Qed.

(** While the reader waits for a newline nothing changes. *)
Lemma process_skip L nn t w :
  10 ∉ t -> r_overflow (n_reader w) = true -> nn + zlen t < L ->
  process_loop cal L nn t w = Done (tt, w).
Proof.
  revert nn; induction t as [|c t IH]; intros nn Hnl Hov Hnn; [done|].
  apply not_elem_of_cons in Hnl as [Hc Hnl]. cbn [length] in *. cbn [process_loop].
  replace (nn =? L - 1) with false by lia. cbn [when]. unfold bind at 1, ret at 1.
  unfold bind at 1, nmea_reader_addc. unfold bind at 1, reader, gets. rewrite Hov.
  replace (c =? 10) with false by (symmetry; apply Z.eqb_neq; congruence).
  unfold upd, modify. cbn [negb].
  replace (set_reader _ w) with w; [apply IH; by try lia|].
  destruct w as [[] ? ? ?]. cbn in *. by subst.
Qed.

(** The last byte of a line. *)
Lemma process_last L nn w :
  process_loop cal L nn [10] w =
  (when (nn + 1 =? L) (modify (set_end_tag true)) ;; nmea_reader_addc cal 10) w.
Proof.
  cbn [process_loop]. replace (nn =? L - 1) with (nn + 1 =? L) by lia. unfold bind at 1 3.
  destruct (when _ _ w) as [[[] w1]| | |]; try done. unfold bind.
  by destruct (nmea_reader_addc _ _ w1) as [[[] w2]| | |].
Qed.

Lemma insert_fill {A} (t m : list A) (x : A) :
  (length t < length m)%nat ->
  <[length t := x]> (t ++ drop (length t) m) = (t ++ [x]) ++ drop (length (t ++ [x])) m.
Proof.
  intros H. rewrite insert_app_r_alt, Nat.sub_diag by lia.
  destruct (drop (length t) m) as [|y r] eqn:E.
  - apply (f_equal length) in E. rewrite length_drop in E. cbn in E. lia.
  - rewrite length_app. cbn [length]. rewrite <- drop_drop, E, <- app_assoc. done.
Qed.

Lemma store_line_fill t r :
  r_pos r = 0 -> length (r_in r) = 256%nat -> zlen t < 256 ->
  with_in (r_pos (fill t r) + 1) (<[Z.to_nat (r_pos (fill t r)) := 10]> (r_in (fill t r))) (fill t r)
  = store_line (t ++ [10]) r.
Proof.
  intros Hp Hin Ht. destruct r as [pos ov y mo d df fx md cb sc st m]. cbn in Hp, Hin. subst.
  unfold store_line, fill, with_in.
  cbn [r_pos r_in r_overflow r_utc_year]. f_equal; [lists; lia|]. rewrite Z.add_0_l, Nat2Z.id. apply insert_fill. lia.
Qed.

Lemma process_split L nn t w w1 :
  process_loop cal L nn t w = Done (tt, w1) ->
  process_loop cal L nn (t ++ [10]) w =
  (when (nn + zlen (t ++ [10]) =? L) (modify (set_end_tag true)) ;; nmea_reader_addc cal 10) w1.
Proof.
  intros E. rewrite process_loop_app, (bind_done _ _ _ _ _ E), process_last. lists.
  by replace (nn + zlen t + 1) with (nn + Z.of_nat (length t + 1)) by lia.
Qed.

(** The tag only changes the state of the parser next to the reader. *)
Lemma when_tag (b : bool) {A} (k : unit -> prog nmea A) w :
  bind (when b (modify (set_end_tag true))) k w = k tt (if b then set_end_tag true w else w).
Proof. by destruct b. Qed.

Lemma bind_reader {A} (k : NmeaReader -> prog nmea A) w : bind reader k w = k (n_reader w) w.
Proof. done. Qed.

Lemma tag_reader (b : bool) w : n_reader (if b then set_end_tag true w else w) = n_reader w.
Proof. by destruct b. Qed.
Lemma tag_with_reader (b : bool) f w :
  (if b then set_end_tag true (with_reader f w) else with_reader f w) =
  with_reader f (if b then set_end_tag true w else w).
Proof. by destruct b. Qed.

Lemma line_skip L nn t w :
  10 ∉ t -> at_start w -> r_overflow (n_reader w) = true -> nn + zlen (t ++ [10]) <= L ->
  process_loop cal L nn (t ++ [10]) w = feed_line (t ++ [10]) (nn + zlen (t ++ [10]) =? L) w.
Proof.
  intros Ht [Hp _] Hov HL. rewrite (process_split L nn t w w).
  2: { apply process_skip; [done|done|]. lists. lia. }
  unfold feed_line. rewrite when_tag. unfold bind at 1, reader, gets. rewrite Hov, when_tag.
  unfold nmea_reader_addc, bind at 1, reader, gets. by rewrite tag_reader, Hov, Hp.
Qed.

Lemma line_fits L nn t w :
  10 ∉ t -> bytes_ok t -> at_start w -> r_overflow (n_reader w) = false ->
  zlen (t ++ [10]) <= 255 -> nn + zlen (t ++ [10]) <= L ->
  process_loop cal L nn (t ++ [10]) w = feed_line (t ++ [10]) (nn + zlen (t ++ [10]) =? L) w.
Proof.
  intros Ht Hb [Hp Hin] Hov Hfit HL.
  rewrite (process_split L nn t w (with_reader (fill t) w)).
  2: { apply process_fill; try done; lists; lia. }
  unfold feed_line. rewrite when_tag. rewrite bind_reader, Hov.
  unfold NMEA_MAX_SIZE. iftrue. rewrite when_tag, tag_with_reader.
  set (w1 := if _ =? L then _ else w). assert (n_reader w1 = n_reader w) as Er by apply tag_reader.
  unfold nmea_reader_addc. rewrite bind_reader.
  change (n_reader (with_reader (fill t) w1)) with (fill t (n_reader w1)). rewrite Er.
  change (r_overflow (fill t (n_reader w))) with (r_overflow (n_reader w)). rewrite Hov.
  unfold NMEA_MAX_SIZE. change (r_pos (fill t (n_reader w))) with (r_pos (n_reader w) + zlen t) at 1.
  rewrite Hp. lists. iffalse. rewrite wr_in_range.
  2: { cbn. rewrite Hp. lists. lia. }
  cbv beta iota delta [lift bind upd modify]. change (10 =? 10) with true. cbn [when].
  replace (set_reader _ (with_reader (fill t) w1)) with (with_reader (store_line (t ++ [10])) w1); [done|].
  unfold with_reader. rewrite Er, <- store_line_fill by (done || lia). done.
Qed.

(** 255 bytes fill the buffer, the next one makes the reader wait. *)
Lemma process_255 L nn a c b w :
  length a = 255%nat -> 10 ∉ a -> bytes_ok a -> at_start w -> r_overflow (n_reader w) = false ->
  nn + 256 < L ->
  process_loop cal L nn (a ++ c :: b) w =
  process_loop cal L (nn + 256) b
    (with_reader (fun r => with_pos 0 true (with_in 0 (a ++ drop 255 (r_in r)) r)) w).
Proof.
  intros Ha Hnl Hb [Hp Hin] Hov HL. rewrite process_loop_app.
  rewrite (bind_done _ _ w tt (with_reader (fill a) w)) by (apply process_fill; try done; lia).
  cbn [process_loop]. rewrite Ha. change (Z.of_nat 255) with 255.
  replace (nn + 255 =? L - 1) with false by lia.
  cbn [when]. unfold bind at 1, ret at 1. unfold bind at 1, nmea_reader_addc. rewrite bind_reader.
  change (r_overflow (n_reader (with_reader (fill a) w))) with (r_overflow (n_reader w)).
  change (r_pos (n_reader (with_reader (fill a) w))) with (r_pos (n_reader w) + zlen a).
  rewrite Hov, Hp, Ha. unfold NMEA_MAX_SIZE. iftrue. unfold upd, modify.
  replace (nn + 255 + 1) with (nn + 256) by lia. f_equal.
  unfold with_reader, fill, with_in, with_pos, set_reader. cbn -[drop]. by rewrite Hp, Ha.
Qed.

Lemma line_overlong L nn t w :
  10 ∉ t -> bytes_ok t -> at_start w -> r_overflow (n_reader w) = false ->
  255 < zlen (t ++ [10]) -> nn + zlen (t ++ [10]) <= L ->
  process_loop cal L nn (t ++ [10]) w = feed_line (t ++ [10]) (nn + zlen (t ++ [10]) =? L) w.
Proof.
  intros Ht Hb Hst Hov Hfit HL. pose proof Hst as [Hp Hin].
  unfold feed_line. rewrite bind_reader, Hov. unfold NMEA_MAX_SIZE. iffalse. rewrite when_tag.
  set (w1 := if _ =? L then _ else w).
  rewrite <- (take_drop 255 t) in Ht. apply not_elem_of_app in Ht as [Ht1 Ht2].
  assert (bytes_ok (take 255 t)) by by apply Forall_take.
  assert (length (take 255 t) = 255%nat) by (lists; lia).
  assert (take 255 (t ++ [10]) = take 255 t) as Etake by (apply take_app_le; lists; lia).
  destruct (drop 255 t) as [|c b] eqn:E.
  - assert (zlen t = 255) by (apply (f_equal length) in E; lists; lia).
    rewrite (process_split L nn t w (with_reader (fill t) w)).
    2: { apply process_fill; rewrite ?(take_ge t) in * by lia; try done; lia. }
    rewrite when_tag, tag_with_reader. fold w1.
    assert (n_reader w1 = n_reader w) as Er by apply tag_reader.
    unfold nmea_reader_addc. rewrite bind_reader.
    change (n_reader (with_reader (fill t) w1)) with (fill t (n_reader w1)). rewrite Er.
    change (r_overflow (fill t (n_reader w))) with (r_overflow (n_reader w)). rewrite Hov.
    change (r_pos (fill t (n_reader w))) with (r_pos (n_reader w) + zlen t). rewrite Hp.
    unfold NMEA_MAX_SIZE. iftrue. unfold upd, modify. do 2 f_equal.
    unfold with_reader, store_overlong, fill. cbn [n_reader set_reader]. rewrite Er, Hp, Etake.
    rewrite (take_ge t) by lia. lists. replace (Z.of_nat (length t + 1) =? 256) with true by (symmetry; apply Z.eqb_eq; lia).
    cbn -[drop]. by replace (length t) with 255%nat by lia.
  - apply not_elem_of_cons in Ht2 as [_ Hb2].
    assert (zlen t = 256 + zlen b) by (apply (f_equal length) in E; lists; lia).
    replace (t ++ [10]) with (take 255 t ++ c :: b ++ [10])
      by (change (c :: b ++ [10]) with ((c :: b) ++ [10]); by rewrite <- E, app_assoc, take_drop).
    rewrite process_255 by (done || lists; lia).
    set (w2 := with_reader _ w).
    rewrite (process_split L (nn + 256) b w2 w2) by (apply process_skip; [done|done|lists; lia]).
    rewrite when_tag. unfold w2 at 1 2. rewrite tag_with_reader.
    replace (nn + 256 + zlen (b ++ [10]) =? L) with (nn + zlen (t ++ [10]) =? L)
      by (apply eq_true_iff_eq; rewrite !Z.eqb_eq; lists; lia).
    fold w1. assert (n_reader w1 = n_reader w) as Er by apply tag_reader.
    unfold nmea_reader_addc. rewrite bind_reader. cbn [with_reader n_reader set_reader r_overflow with_pos].
    unfold upd, modify. do 2 f_equal. unfold with_reader, store_overlong. cbn [n_reader set_reader]. rewrite Er.
    rewrite (take_app_le' (take 255 t)) by done.
    replace (_ =? 256) with false; [done|]. symmetry. apply Z.eqb_neq. lists. lia.
Qed.

(** One line through the byte-wise reader. *)
Lemma process_line L nn l w :
  is_line l -> at_start w -> nn + zlen l <= L ->
  process_loop cal L nn l w = feed_line l (nn + zlen l =? L) w.
Proof.
  intros (t & -> & Ht & Hb) Hst HL. destruct (r_overflow (n_reader w)) eqn:Hov;
    [by apply line_skip|].
  destruct (Z.leb_spec (zlen (t ++ [10])) 255); [by apply line_fits|by apply line_overlong].
Qed.

(** A line that is fed leaves the reader between two lines. *)
Lemma feed_line_start l tag w a w' :
  at_start w -> feed_line l tag w = Done (a, w') -> at_start w'.
Proof.
  intros [Hp Hin]. unfold feed_line. rewrite bind_reader.
  destruct (r_overflow _); [|destruct (Z.leb_spec (zlen l) NMEA_MAX_SIZE)]; rewrite when_tag;
    set (w1 := if tag then _ else w); assert (n_reader w1 = n_reader w) as Er by apply tag_reader.
  - intros [= _ <-]. unfold at_start. cbn. by rewrite Er.
  - unfold NMEA_MAX_SIZE in *. intros (? & w2 & [= _ <-] & E)%bind_inv.
    apply bind_inv in E as (? & w3 & Ek%parse_keeps & E). rewrite bind_reader in E.
    apply bind_inv in E as (? & w4 & Es%keeps_on_sys & [= _ <-]).
    unfold at_start. cbn. split; [done|].
    unfold same_line, line_state in *. injection Es as _ _ <- _.
    injection Ek as _ _ <- _. cbn. rewrite Er. lists. lia.
  - unfold NMEA_MAX_SIZE in *. intros [= _ <-]. unfold at_start. cbn. rewrite Er. lists. lia.
Qed.

Lemma process_lines L nn ls w :
  Forall is_line ls -> at_start w -> nn + zlen (concat ls) = L ->
  process_loop cal L nn (concat ls) w = feed_lines ls w.
Proof.
  intros Hls. revert nn w. induction Hls as [|l ls Hl Hls IH]; intros nn w Hst HL; [done|].
  cbn [concat feed_lines] in *. rewrite process_loop_app. lists. unfold bind.
  rewrite process_line by (done || lia).
  replace (nn + zlen l =? L) with (bool_decide (ls = [])).
  - destruct (feed_line _ _ w) as [[[] w1]| | |] eqn:E; try done.
    apply IH; [by eapply feed_line_start|lia].
  - subst L. destruct Hls as [|l2 ls [t [-> _]] _]; cbn.
    + symmetry. apply Z.eqb_eq. lia.
    + symmetry. apply Z.eqb_neq. lists. lia.
Qed.
End stream.

(** C38: the parser works line by line.  A buffer of complete lines is treated
    exactly as its lines one after the other: a line of at most 255 bytes is
    parsed and passed to the HAL once, the end of the buffer being known while
    its last line is parsed; a longer line is dropped; and a line of 256 bytes
    also makes the reader drop the line that follows it. *)
Theorem nmea_framing (cal : calendar) (ls : list (list Z)) :
  Forall is_line ls ->
  mtk_mnl_nmea_parser_process cal (concat ls) ≡
  (nmea_reader_init cal ;; modify (set_end_tag false) ;; feed_lines cal ls).
Proof.
  intros Hls w. unfold mtk_mnl_nmea_parser_process, bind.
  destruct (nmea_reader_init cal w) as [[[] w1]| | |] eqn:E; try done. cbn.
  apply process_lines; [done| |lia]. unfold nmea_reader_init, upd, modify, bind in E.
  injection E as <-. by split.
Qed.

Definition quiet_calendar : calendar :=
  Calendar (fun t => Tm t 0 0 1 0 70 0) (fun t => Tm t 0 0 1 0 70 0)
    (fun t => (tm_sec t, t)).

Lemma nmea_framing_witness :
  mtk_mnl_nmea_parser_process quiet_calendar (lit "$GPXXX" ++ [10] ++ replicate 255 65 ++ [10]) ≡
  (nmea_reader_init quiet_calendar ;; modify (set_end_tag false) ;;
   feed_lines quiet_calendar [lit "$GPXXX" ++ [10]; replicate 255 65 ++ [10]]).
Proof.
  refine (nmea_framing quiet_calendar [lit "$GPXXX" ++ [10]; replicate 255 65 ++ [10]] _).
  repeat (apply Forall_cons; split; [|]); [| |apply Forall_nil, I];
    eexists; (split; [reflexivity|]); split; apply (bool_decide_unpack _); by vm_compute.
Defined.
