(* ===== verification/NmeaSafety.v ===== *)
(** * Memory safety of the NMEA parser

    On which lines the parser returns, with every access inside its arrays and
    every conversion and addition in range, and what happens at the 33rd
    satellite. *)

From S2P Require Import Prelude DataCoder LbsUtility Layout Float32 Float64 Messages.
From S2P Require Import Hal2Mnl Mnl2Hal MnldState Mnld Kernel MnldFsm AtCommand Calendar NmeaParser NmeaText NmeaStream.
Import HalTypes.

(** ** The state between two operations *)

(** No factory test is running. *)
Definition at_idle (a : at_state) : Prop :=
  at_vars a MNL_AT_TEST_FLAG <> 1 /\ at_vars a MNL_AT_SIGNAL_TEST_BEGIN <> 1 /\
  at_vars a MNL_AT_SIGNAL_MODE <> 1.

(** A date that the parser may have stored: none, or one of the years 1970 to
    2037, in the numbers that two digits give. *)
Definition date_kept (r : NmeaReader) : Prop :=
  r_utc_year r < 0 \/
  (1970 <= r_utc_year r <= 2037 /\ 0 <= r_utc_mon r <= 12 /\ 0 <= r_utc_day r <= 31).

(** The device thinks that it is some time between 1970 and 2037. *)
Definition clock_ok (a : at_world) : Prop := forall k, 0 <= a_now a k < Y2038.

(** The arrays have their sizes, the counters are in range. *)
Record nmea_inv (c n : Z) (w : nmea) : Prop := {
  i_in : length (r_in (n_reader w)) = 256%nat;
  i_bytes : bytes_ok (r_in (n_reader w));
  i_term : r_in (n_reader w) !! 255%nat = Some 0;
  i_pos : 0 <= r_pos (n_reader w) <= 255;
  i_list : length (sv_list (r_sv_status (n_reader w))) = 64%nat;
  i_count : 0 <= r_sv_count (n_reader w) <= c;
  i_num : 0 <= num_svs (r_sv_status (n_reader w)) <= n;
  i_date : date_kept (n_reader w);
  i_clock : clock_ok (n_aw w);
  i_stamp : is_long (l_timestamp (r_fix (n_reader w))) = true;
  i_used : length (gnss_sv_used_in_fix w) = 450%nat;
  i_prn : length (at_prn (n_at w)) = 32%nat;
  i_snr : length (at_snr (n_at w)) = 32%nat;
  i_idle : at_idle (n_at w);
  i_kernel : kernel_ok (sys_of w)
}.

(** ** The AT command module without a test *)

Lemma on_at_same {A} (m : prog at_world A) x w : m (n_aw w) = Done (x, n_aw w) -> on_at m w = Done (x, w).
Proof. intros E. unfold on_at. rewrite E. by destruct w. Qed.

Lemma returns_at_get x w (Q : Z -> nmea -> Prop) :
  Q (at_vars (n_at w) x) w -> returns (on_at (at_get x)) w Q.
Proof. intros H. exists (at_vars (n_at w) x), w. by split; [apply on_at_same|]. Qed.

Lemma at_pre_idle tag w : at_idle (n_at w) -> on_at (nmea_parser_at_cmd_pre tag) w = Done (tt, w).
Proof.
  intros (H1 & H2 & _). apply on_at_same. unfold nmea_parser_at_cmd_pre, at_get, bind, gets.
  unfold n_at in *. apply Z.eqb_neq in H1, H2. by rewrite H1, H2.
Qed.

(** ** Sends *)

Lemma returns_send (m : prog sys Z) path msg c n w (Q : Z -> nmea -> Prop) :
  plain_send m path msg -> nmea_inv c n w ->
  (forall r s, nmea_inv c n (set_sys s w) -> Q r (set_sys s w)) -> returns (on_sys m) w Q.
Proof.
  intros Hm Hw HQ. destruct (Hm (sys_of w) (i_kernel _ _ _ Hw)) as (r & s & E & Hg & _).
  exists r, (set_sys s w). split; [unfold on_sys; by rewrite E|].
  apply HQ. destruct Hw. split; try done. by eapply kernel_ok_grows.
Qed.

Lemma length_loc_image l : length (loc_image l) = 56%nat.
Proof. unfold loc_image. lists. by rewrite !length_le_bytes. Qed.

Lemma location_plain l :
  plain_send (mnl2hal_location (loc_image l)) MTK_MNL2HAL (mnl2hal_bytes (D_location (loc_image l))).
Proof.
  apply (mnl2hal_plain (D_location (loc_image l))).
  - split; [by repeat constructor|]. split; [done|]. cbn [mnl2hal_struct].
    by rewrite length_loc_image.
  - unfold mnl2hal_bytes. cbn [mnl2hal_fields]. rewrite length_enc_msg. unfold enc_fields.
    cbn [map concat enc_field]. lists. rewrite length_le_bytes.
    rewrite length_loc_image. unfold HAL_MNL_BUFF_SIZE. lia.
Qed.

Lemma update_location_plain l :
  plain_send (mnld_gps_update_location (loc_image l)) MNLD_MAIN_SOCKET
    (le_bytes 4 GPS2MAIN_EVENT_UPDATE_LOCATION ++ le_bytes 4 56 ++ loc_image l).
Proof.
  pose proof (length_loc_image l) as E.
  apply (int_msg_plain MNLD_MAIN_SOCKET (put_int GPS2MAIN_EVENT_UPDATE_LOCATION ;;
    put_binary (loc_image l) (sizeof ILP32 gps_location)));
    [|lists; rewrite !length_le_bytes, E; unfold MNLD_INTERNAL_BUFF_SIZE; lia|done].
  change (sizeof ILP32 gps_location) with 56. replace (le_bytes 4 56) with (le_bytes 4 (zlen (loc_image l))) by by rewrite E.
  replace 56 with (zlen (loc_image l)) by lia. solve_writes.
Qed.

Lemma length_concat_const {A B} (f : A -> list B) n l :
  (forall x, length (f x) = n) -> length (concat (map f l)) = (length l * n)%nat.
Proof. intros H. induction l as [|x l IH]; [done|]. cbn. by rewrite length_app, H, IH. Qed.

Lemma length_sv_image s : length (sv_image s) = 20%nat.
Proof. unfold sv_image. lists. by rewrite !length_le_bytes. Qed.

Lemma length_sv_info_image i :
  length (sv_list i) = 64%nat -> length (sv_info_image i) = 1284%nat.
Proof.
  intros H. unfold sv_info_image. lists. rewrite length_le_bytes.
  rewrite (length_concat_const _ 20) by apply length_sv_image. by rewrite H.
Qed.

Lemma gps_sv_plain i :
  length (sv_list i) = 64%nat ->
  plain_send (mnl2hal_gps_sv (sv_info_image i)) MTK_MNL2HAL (mnl2hal_bytes (D_gps_sv (sv_info_image i))).
Proof.
  intros H. pose proof (length_sv_info_image i H) as E.
  apply (mnl2hal_plain (D_gps_sv (sv_info_image i))).
  - split; [by repeat constructor|]. split; [done|]. cbn [mnl2hal_struct]. by rewrite E.
  - unfold mnl2hal_bytes. cbn [mnl2hal_fields]. rewrite length_enc_msg. unfold enc_fields.
    cbn [map concat enc_field]. lists. rewrite length_le_bytes.
    rewrite E. unfold HAL_MNL_BUFF_SIZE. lia.
Qed.

(** The buffer always holds a terminated string. *)
Lemma strlen_term m : m !! 255%nat = Some 0 -> exists n, strlen m = Some n /\ (n <= 255)%nat.
Proof.
  generalize 255%nat. intros k. revert m. induction k as [|k IH]; intros [|c m] H; try done; cbn in *.
  - injection H as ->. by exists 0%nat.
  - destruct (IH m H) as (n & -> & Hn). destruct (c =? 0); eexists; split; try done; lia.
Qed.

Lemma nmea_plain c n w ts :
  nmea_inv c n w -> is_long ts = true ->
  plain_send (mnl2hal_nmea ts (Some (r_in (n_reader w))) (r_pos (n_reader w))) MTK_MNL2HAL
    (mnl2hal_bytes (D_nmea ts (Some (r_in (n_reader w))) (r_pos (n_reader w)))).
Proof.
  intros Hw Hts. destruct (strlen_term _ (i_term _ _ _ Hw)) as (k & En & Hk).
  apply (mnl2hal_plain (D_nmea ts (Some (r_in (n_reader w))) (r_pos (n_reader w)))).
  - split; [|done]. repeat (apply Forall_cons; split); try apply Forall_nil, I; cbn [field_ok];
      [done|by eexists|]. apply in_s_spec. pose proof (i_pos _ _ _ Hw). lia.
  - unfold mnl2hal_bytes. cbn [mnl2hal_fields]. rewrite length_enc_msg. unfold enc_fields.
    cbn [map concat enc_field cstr_of]. rewrite En. cbn [default enc_string]. unfold id.
    unfold enc_string. lists. rewrite !length_le_bytes. unfold HAL_MNL_BUFF_SIZE. lia.
Qed.

(** ** Tokens and numbers *)

(** A token that can be read, the character at its end included. *)
Definition good (t : Token) : Prop :=
  bytes_ok (tk_mem t) /\ 0 <= tk_p t <= tk_end t /\ tk_end t < zlen (tk_mem t).

Lemma dummy_good : good dummy.
Proof. repeat split; try done; cbn; try lia. by apply Forall_cons. Qed.

Lemma get_good ts i : Forall good ts -> good (nmea_tokenizer_get ts i).
Proof.
  intros H. unfold nmea_tokenizer_get. destruct (_ || _); [apply dummy_good|].
  destruct (nth_in_or_default (Z.to_nat i) ts dummy) as [Hin| ->]; [|apply dummy_good].
  rewrite Forall_forall in H. by apply H, list_elem_of_In.
Qed.

(** The text of field [i]. *)
Lemma get_slice ts i :
  0 <= i -> slice (nmea_tokenizer_get ts i) = nth (Z.to_nat i) (map slice ts) [].
Proof.
  intros Hi. unfold nmea_tokenizer_get. destruct (Z.leb_spec (zlen ts) i).
  - rewrite orb_true_r. rewrite nth_overflow; [done|]. rewrite length_map. lia.
  - replace (i <? 0) with false by lia. cbn. by rewrite (map_nth slice ts dummy).
Qed.

Lemma length_slice t : good t -> zlen (slice t) = tk_end t - tk_p t.
Proof. intros (_ & H1 & H2). unfold slice, seg. lists. lia. Qed.

Lemma rd_byte m p : bytes_ok m -> 0 <= p < zlen m -> exists c, rd m p = Done c /\ 0 <= c < 256.
Proof.
  intros Hb Hp. destruct (rd_in m p Hp) as (c & E & Hl). exists c. split; [done|].
  unfold bytes_ok in Hb. rewrite Forall_lookup in Hb. apply Hb in Hl. by apply in_u_spec in Hl.
Qed.

Lemma str2int_loop_short m p e sign n acc k :
  bytes_ok m -> 0 <= p -> e <= zlen m -> e = p + Z.of_nat n -> sign = 1 \/ sign = -1 ->
  0 <= k -> k + Z.of_nat n <= 8 -> 0 <= acc < 10 ^ k ->
  exists v, str2int_loop m p e sign acc n = Done v /\ Z.abs v < 10 ^ (k + Z.of_nat n).
Proof.
  intros Hb Hp He. revert p acc k Hp. induction n as [|n IH]; intros p acc k Hp Hn Hs Hk Hk8 Hacc.
  - cbn [str2int_loop]. assert (10 ^ k <= 10 ^ 8) by (apply Z.pow_le_mono_r; lia).
    rewrite chk_small by lia. eexists. split; [done|]. rewrite Z.add_0_r. lia.
  - cbn [str2int_loop]. iffalse. destruct (rd_byte m p) as (c & -> & Hc); [done|lia|]. cbn [obind].
    assert (10 ^ 1 <= 10 ^ (k + Z.of_nat (S n))) by (apply Z.pow_le_mono_r; lia).
    destruct (Z.leb_spec 10 (u32 (c - 48))) as [Hd|Hd]; [eexists; split; [done|lia]|].
    assert (0 <= c - 48 < 10) as Hdig.
    { unfold wrap_u in Hd. destruct (Z.ltb_spec c 48).
      - replace ((c - 48) mod 2 ^ 32) with (c - 48 + 2 ^ 32) in Hd; [lia|].
        symmetry. rewrite <- (Z.mod_add _ 1) by lia. apply Z.mod_small. lia.
      - rewrite Z.mod_small in Hd; lia. }
    assert (10 ^ (k + 1) = 10 * 10 ^ k) by (rewrite Z.add_1_r; by apply Z.pow_succ_r).
    assert (10 ^ (k + 1) <= 10 ^ 8) by (apply Z.pow_le_mono_r; lia).
    rewrite chk_small by lia. cbn [obind]. rewrite chk_small by lia. cbn [obind].
    replace (k + Z.of_nat (S n)) with (k + 1 + Z.of_nat n) by lia.
    apply (IH (p + 1) _ (k + 1)); lia.
Qed.

(** Texts of at most eight characters are read without overflow. *)
Lemma str2int_short m p e :
  bytes_ok m -> 0 <= p <= e -> e <= zlen m -> p < zlen m -> e - p <= 8 ->
  exists v, str2int m p e = Done v /\ Z.abs v < 10 ^ (e - p).
Proof.
  intros Hb Hp He Hpm Hs. unfold str2int. destruct (rd_byte m p) as (c & -> & Hc); [done|lia|].
  cbn [obind]. destruct (c =? 45).
  - destruct (Z.eqb_spec p e) as [->|].
    + replace (Z.to_nat _) with 0%nat by lia. exists 0. split; [done|]. rewrite Z.sub_diag. done.
    + destruct (str2int_loop_short m (p + 1) e (-1) (Z.to_nat (e - (p + 1))) 0 0) as (v & E & Hv); auto; try lia.
      exists v. split; [done|].
      assert (10 ^ (0 + Z.of_nat (Z.to_nat (e - (p + 1)))) <= 10 ^ (e - p)) by (apply Z.pow_le_mono_r; lia). lia.
  - destruct (str2int_loop_short m p e 1 (Z.to_nat (e - p)) 0 0) as (v & E & Hv); auto; try lia.
    exists v. split; [done|]. replace (e - p) with (0 + Z.of_nat (Z.to_nat (e - p))) by lia. done.
Qed.

Lemma tok2int_short t : good t -> (length (slice t) <= 8)%nat ->
  exists v, tok2int t = Done v /\ Z.abs v < 10 ^ 8.
Proof.
  intros Ht Hl. pose proof (length_slice t Ht). destruct Ht as (Hb & H1 & H2).
  destruct (str2int_short (tk_mem t) (tk_p t) (tk_end t)) as (v & E & Hv); auto; try lia.
  exists v. split; [done|]. assert (10 ^ (tk_end t - tk_p t) <= 10 ^ 8) by (apply Z.pow_le_mono_r; lia). lia.
Qed.

(** What is read depends on the text only. *)
Definition int_of (l : list Z) : outcome Z := str2int l 0 (zlen l).

Lemma rd_seg m p e i : 0 <= p <= i -> i < e -> e <= zlen m -> rd (seg m p e) (i - p) = rd m i.
Proof.
  intros Hp Hi He. unfold rd, seg. replace (0 <=? i - p) with true by lia. replace (0 <=? i) with true by lia.
  rewrite lookup_take_lt by lia. rewrite lookup_drop. by replace (_ + _)%nat with (Z.to_nat i) by lia.
Qed.

Lemma str2int_loop_seg m a e sign n p acc :
  0 <= a <= p -> e <= zlen m -> Z.of_nat n <= e - p ->
  str2int_loop m p e sign acc n = str2int_loop (seg m a e) (p - a) (e - a) sign acc n.
Proof.
  intros Ha He. revert p acc Ha. induction n as [|n IH]; intros p acc Ha Hn; [done|]. cbn [str2int_loop].
  replace (e - a <=? p - a) with (e <=? p) by lia. destruct (Z.leb_spec e p); [done|].
  rewrite rd_seg by lia. destruct (rd m p) as [c| | |]; try done. cbn [obind]. destruct (10 <=? _); [done|].
  destruct (chk (acc * 10)) as [x| | |]; try done. cbn [obind]. destruct (chk (x + _)) as [y| | |]; try done. cbn [obind].
  rewrite IH by lia. by replace (p + 1 - a) with (p - a + 1) by lia.
Qed.

Lemma str2int_text m p e : 0 <= p < e -> e <= zlen m -> str2int m p e = int_of (seg m p e).
Proof.
  intros Hp He. unfold int_of, str2int. assert (zlen (seg m p e) = e - p) as -> by (unfold seg; lists; lia).
  replace 0 with (p - p) at 1 by lia. rewrite rd_seg by lia. destruct (rd m p) as [c| | |]; try done. cbn [obind].
  rewrite !Z.sub_0_r. destruct (c =? 45).
  - rewrite (str2int_loop_seg m p) by lia. replace (p + 1 - p) with (0 + 1) by lia. f_equal. lia.
  - rewrite (str2int_loop_seg m p) by lia. by rewrite Z.sub_diag.
Qed.

Lemma tok2float_slice t : good t -> tok2float t = Done (float_of (slice t)).
Proof. intros (_ & H1 & H2). apply str2float_seg; lia. Qed.

(** Conversions to [int] that are in range. *)
Definition is_done {A} (o : outcome A) : bool := match o with Done _ => true | _ => false end.
Definition int_ok (f : list Z) : bool := is_done (f64_to_int (float_of f)).
Definition hhmm_ok (f : list Z) : bool :=
  is_done (f64_to_int (f64_div (f64_floor (float_of f)) (f64_of_int 100))).

Lemma is_done_inv {A} (o : outcome A) : is_done o = true -> exists a, o = Done a.
Proof. destruct o; try done. eauto. Qed.

Lemma convert_done t : good t -> hhmm_ok (slice t) = true -> exists x, convert_from_hhmm t = Done x.
Proof.
  intros Ht H. unfold convert_from_hhmm. rewrite tok2float_slice by done. cbn [obind].
  apply is_done_inv in H as [d ->]. cbn [obind]. eauto.
Qed.

(** ** The update operations *)

Ltac inv_ok :=
  match goal with
  | H : nmea_inv _ _ _ |- nmea_inv _ _ _ => destruct H; split; cbn in *; try done; try lia
  end.

Section safety.
Context (cal : calendar) (Hcal : calendar_ok cal).

(** The invariant is all a caller needs to know. *)
Abbreviation safe c n m w := (returns m w (fun _ w' => nmea_inv c n w')).

Lemma altitude_safe c n a b w : good a -> nmea_inv c n w -> safe c n (nmea_reader_update_altitude a b) w.
Proof.
  intros Ha Hw. unfold nmea_reader_update_altitude. destruct (_ <=? _); [by apply returns_ret|].
  step_gets. step_lift (tok2float_slice a Ha). step_upd. apply returns_ret. inv_ok.
Qed.
Lemma bearing_safe c n a w : good a -> nmea_inv c n w -> safe c n (nmea_reader_update_bearing a) w.
Proof.
  intros Ha Hw. unfold nmea_reader_update_bearing. destruct (_ <=? _); [by apply returns_ret|].
  step_gets. step_lift (tok2float_slice a Ha). step_upd. apply returns_ret. inv_ok.
Qed.
Lemma speed_safe c n a w : good a -> nmea_inv c n w -> safe c n (nmea_reader_update_speed a) w.
Proof.
  intros Ha Hw. unfold nmea_reader_update_speed. destruct (_ <=? _); [by apply returns_ret|].
  step_gets. step_lift (tok2float_slice a Ha). step_upd. apply returns_ret. inv_ok.
Qed.
Lemma accuracy_safe c n a w : good a -> nmea_inv c n w -> safe c n (nmea_reader_update_accuracy a) w.
Proof.
  intros Ha Hw. unfold nmea_reader_update_accuracy. destruct (_ <=? _); [by apply returns_ret|].
  step_gets. step_lift (tok2float_slice a Ha). step_upd. apply returns_ret. inv_ok.
Qed.

Lemma latlong_safe c n a ns b ew w :
  good a -> good b -> hhmm_ok (slice a) = true -> hhmm_ok (slice b) = true -> nmea_inv c n w ->
  safe c n (nmea_reader_update_latlong a ns b ew) w.
Proof.
  intros Ha Hb Hha Hhb Hw. unfold nmea_reader_update_latlong.
  destruct (convert_done a Ha Hha) as [x Ex], (convert_done b Hb Hhb) as [y Ey].
  destruct (_ <? _); [by apply returns_ret|]. step_lift Ex.
  destruct (_ <? _); [by apply returns_ret|]. step_lift Ey. step_gets. step_upd. apply returns_ret. inv_ok.
Qed.

(** The difference between the zones, as the code computes it. *)
Lemma utc_diff_safe c n w :
  nmea_inv c n w ->
  returns (nmea_reader_update_utc_diff cal) w
    (fun _ w' => nmea_inv c n w' /\ Z.abs (r_utc_diff (n_reader w')) <= 172800).
Proof.
  intros Hw. unfold nmea_reader_update_utc_diff. apply returns_bind.
  eexists _, _. split; [reflexivity|]. apply returns_modify. split; [inv_ok|].
  cbn. pose proof (zones_close cal Hcal _ (i_clock _ _ _ Hw (a_ntime (n_aw w)))) as Hz.
  set (a := fst (cal_mktime cal (cal_gmtime cal _))) in *.
  set (b := fst (cal_mktime cal (cal_localtime cal _))) in *.
  replace (s32 (u32 a - u32 b)) with (a - b); [lia|].
  rewrite (wrap_s_mod 32 (u32 a - u32 b) (a - b)).
  - symmetry. apply wrap_s_id; [done|]. apply in_s_spec. lia.
  - unfold wrap_u. by rewrite <- Zminus_mod.
Qed.

(** A time field: two digits, two digits, and the seconds, at most a day. *)
Definition time_ok (f : list Z) : bool :=
  match f64_to_int (float_of (drop 4 f)) with Done s => Z.abs s <=? 86400 | _ => false end.

Lemma time_float t :
  good t -> tk_p t + 6 <= tk_end t ->
  str2float (tk_mem t) (tk_p t + 4) (tk_end t) = Done (float_of (drop 4 (slice t))).
Proof.
  intros (Hb & H1 & H2) Hl. rewrite str2float_seg by lia. do 2 f_equal. unfold slice.
  rewrite (seg_app _ (tk_p t) (tk_p t + 4)) by lia. symmetry. apply drop_app_le'.
  unfold seg. lists. lia.
Qed.

(** The fix time is in the range of [time_t], its milliseconds in that of
    [long long]. *)
Lemma fix_time_chk t d :
  plain_tm t -> Z.abs d <= 172800 ->
  exists v, chk (s32 (fst (cal_mktime cal (snd (cal_mktime cal t)))) - d) = Done v /\ is_long (v * 1000) = true.
Proof.
  intros Ht Hd. pose proof (mktime_plain cal Hcal t Ht) as Hm.
  rewrite wrap_s_id by (done || apply in_s_spec; lia). unfold chk, in_s at 1. iftrue.
  eexists. split; [done|]. apply in_s_spec. lia.
Qed.

(** The date, of today when there is none. *)
Lemma date_filled c n w :
  nmea_inv c n w ->
  returns (when (r_utc_year (n_reader w) <? 0)
    (let* now := on_at time in
     let t := cal_gmtime cal now in
     upd (with_date (tm_year t + 1900) (tm_mon t + 1) (tm_mday t)))) w
    (fun _ w1 => nmea_inv c n w1 /\ 0 <= r_utc_year (n_reader w1)).
Proof.
  intros Hw. apply returns_when; intros Hy; [|split; [done|lia]]. apply returns_bind.
  eexists _, _. split; [reflexivity|]. apply returns_modify.
  destruct (gmtime_plain cal Hcal _ (i_clock _ _ _ Hw (a_ntime (n_aw w)))) as (H1 & H2 & H3 & _).
  destruct (co_gmtime _ Hcal _ (i_clock _ _ _ Hw (a_ntime (n_aw w)))) as (_ & _ & _ & _ & H4 & H5).
  split; [|cbn; lia]. destruct Hw; split; cbn in *; try done. right. cbn. lia.
Qed.

Lemma time_safe c n t w :
  good t -> time_ok (slice t) = true -> nmea_inv c n w -> safe c n (nmea_reader_update_time cal t) w.
Proof.
  intros Ht Hs Hw. unfold nmea_reader_update_time.
  destruct (Z.ltb_spec (tk_end t) (tk_p t + 6)); [by apply returns_ret|].
  pose proof Ht as (Hb & H1 & H2).
  step_gets. apply returns_bind. eapply returns_mono; [by apply date_filled|].
  clear w Hw. intros _ w [Hw Hy].
  destruct (str2int_short (tk_mem t) (tk_p t) (tk_p t + 2)) as (h & Eh & Hh); [done|lia..|].
  destruct (str2int_short (tk_mem t) (tk_p t + 2) (tk_p t + 4)) as (mi & Em & Hm); [done|lia..|].
  replace (tk_p t + 2 - tk_p t) with 2 in Hh by lia. replace (tk_p t + 4 - (tk_p t + 2)) with 2 in Hm by lia.
  unfold time_ok in Hs. destruct (f64_to_int _) as [sec| | |] eqn:Es; try done. apply Z.leb_le in Hs.
  step_lift Eh. step_lift Em. step_lift (time_float t Ht ltac:(lia)). step_lift Es. step_gets.
  apply returns_bind. eapply returns_mono; [by apply (utc_diff_safe c)|].
  intros _ w1 (Hw1 & Hd). step_gets.
  assert (plain_tm (Tm sec mi h (r_utc_day (n_reader w)) (r_utc_mon (n_reader w) - 1)
                      (r_utc_year (n_reader w) - 1900) (-1))) as Hp.
  { destruct (i_date _ _ _ Hw) as [|(Hy1 & Hm1 & Hd1)]; [lia|]. unfold plain_tm. cbn. lia. }
  destruct (fix_time_chk _ _ Hp Hd) as (v & Ev & Hv).
  step_lift Ev. step_upd. apply returns_ret. inv_ok.
Qed.

(** A date field: no date, or one up to the year 2037. *)
Definition date_ok (f : list Z) : bool :=
  negb (zlen f =? 6) ||
  match int_of (take 2 f), int_of (take 2 (drop 2 f)), int_of (take 2 (drop 4 f)) with
  | Done day, Done mon, Done y => (day <=? 31) && (mon <=? 12) && (-30 <=? y) && (y <=? 37)
  | _, _, _ => false
  end.

Lemma date_field t k :
  good t -> tk_p t + 6 = tk_end t -> 0 <= k <= 4 ->
  str2int (tk_mem t) (tk_p t + k) (tk_p t + k + 2) = int_of (take 2 (drop (Z.to_nat k) (slice t))).
Proof.
  intros (Hb & H1 & H2) He Hk. rewrite str2int_text by lia. f_equal. unfold slice, seg.
  replace (Z.to_nat (tk_end t - tk_p t)) with (Z.to_nat k + Z.to_nat (6 - k))%nat by lia.
  rewrite <- take_drop_commute, take_take, drop_drop. f_equal; [lia|]. f_equal. lia.
Qed.

Lemma date_safe c n d t w :
  good d -> good t -> date_ok (slice d) = true -> time_ok (slice t) = true -> nmea_inv c n w ->
  safe c n (nmea_reader_update_date cal d t) w.
Proof.
  intros Hd Ht Hs Ht' Hw. unfold nmea_reader_update_date.
  destruct (Z.eqb_spec (tk_p d + 6) (tk_end d)) as [He|]; [|by apply returns_ret]. cbn [negb].
  pose proof (date_field d 0 Hd He ltac:(lia)) as E0. pose proof (date_field d 2 Hd He ltac:(lia)) as E2.
  pose proof (date_field d 4 Hd He ltac:(lia)) as E4. rewrite Z.add_0_r in E0.
  change (Z.to_nat 0) with 0%nat in E0. rewrite drop_0 in E0.
  replace (tk_p d + 2 + 2) with (tk_p d + 4) in E2 by lia. replace (tk_p d + 4 + 2) with (tk_p d + 6) in E4 by lia.
  pose proof Hd as (Hb & H1 & H2). unfold date_ok in Hs. rewrite length_slice in Hs by done.
  replace (tk_end d - tk_p d) with 6 in Hs by lia. cbn [Z.eqb Pos.eqb negb orb] in Hs.
  change (Z.to_nat 2) with 2%nat in E2. change (Z.to_nat 4) with 4%nat in E4.
  rewrite <- E0, <- E2, <- E4 in Hs.
  destruct (str2int_short (tk_mem d) (tk_p d + 4) (tk_p d + 6)) as (z & Ez & Hz); [done|lia..|].
  replace (tk_p d + 6 - (tk_p d + 4)) with 2 in Hz by lia. rewrite Ez in Hs.
  destruct (str2int (tk_mem d) (tk_p d) (tk_p d + 2)) as [x| | |] eqn:Ex; try done.
  destruct (str2int (tk_mem d) (tk_p d + 2) (tk_p d + 4)) as [y| | |] eqn:Ey; try done.
  step_lift (eq_refl (Done x)). step_lift (eq_refl (Done y)). step_lift Ez.
  step_lift (chk_small (z + 2000) ltac:(lia)).
  destruct (Z.ltb_spec (Z.lor (Z.lor x y) (z + 2000)) 0) as [|Hn]; [by apply returns_ret|].
  rewrite !Z.lor_nonneg in Hn. step_upd. apply time_safe; [done..|].
  destruct Hw; split; cbn in *; try done. right. cbn. lia.
Qed.

(** A satellite is recorded while the list has room. *)
Lemma sv_status_safe c n i id a b s w :
  good a -> good b -> good s -> (length (slice a) <= 8)%nat -> (length (slice b) <= 8)%nat ->
  r_sv_count (n_reader w) < c -> c <= 32 -> n < 2 ^ 30 ->
  nmea_inv c n w ->
  returns (nmea_reader_update_sv_status i id a b s) w (fun _ w' => nmea_inv c n w' /\
    r_sv_count (n_reader w') <= r_sv_count (n_reader w) + 1).
Proof.
  intros Ha Hb Hs Hla Hlb Hc H32 Hn Hw. unfold nmea_reader_update_sv_status. step_gets.
  pose proof (i_count _ _ _ Hw). pose proof (i_num _ _ _ Hw). pose proof (i_list _ _ _ Hw) as Hlen.
  set (ix := r_sv_count (n_reader w) + num_svs (r_sv_status (n_reader w))).
  step_lift (chk_small ix ltac:(lia)). unfold GNSS_MAX_SVS.
  destruct (Z.leb_spec 64 ix); [apply returns_ret; split; [done|lia]|].
  destruct (sv_of_prn id) as [[svid con]|] eqn:Eid; [|apply returns_ret; split; [done|lia]].
  destruct (rd_in (sv_list (r_sv_status (n_reader w))) ix) as (old & Eo & _); [lia|].
  destruct (tok2int_short a Ha Hla) as (x & Ex & _), (tok2int_short b Hb Hlb) as (y & Ey & _).
  assert (0 <= id < 450) as Hid.
  { revert Eid. unfold sv_of_prn. repeat case_match; try done; unbool; lia. }
  destruct (rd_in (gnss_sv_used_in_fix w) id) as (u & Eu & _); [rewrite (i_used _ _ _ Hw); lia|].
  step_lift Eo. step_lift (tok2float_slice s Hs). step_lift Ex. step_lift Ey. step_gets. step_lift Eu.
  apply returns_bind. eapply returns_lift; [apply wr_in_range; lia|].
  step_lift (chk_small (r_sv_count (n_reader w) + 1) ltac:(lia)). step_upd. apply returns_ret.
  split; [|by cbn; lia]. inv_ok. by rewrite length_insert.
Qed.

(** ** Sentences *)

(** Fields that are read as [int] have at most eight characters. *)
Definition short (f : list Z) : bool := (length f <=? 8)%nat.

Lemma get_forall (P : list Z -> bool) ts i :
  forallb P (drop 1 (map slice ts)) = true -> P [] = true -> 1 <= i ->
  P (slice (nmea_tokenizer_get ts i)) = true.
Proof.
  intros H H0 Hi. rewrite get_slice by lia. rewrite forallb_forall in H.
  replace (Z.to_nat i) with (S (Z.to_nat (i - 1))) by lia.
  destruct (map slice ts) as [|f fs]; [done|]. cbn [nth drop] in *. rewrite drop_0 in H.
  destruct (nth_in_or_default (Z.to_nat (i - 1)) fs []) as [Hin| ->]; [by apply H|done].
Qed.

Lemma get_short ts i :
  Forall good ts -> forallb short (drop 1 (map slice ts)) = true -> 1 <= i ->
  exists v, tok2int (nmea_tokenizer_get ts i) = Done v /\ Z.abs v < 10 ^ 8.
Proof.
  intros Hg H Hi. apply tok2int_short; [by apply get_good|].
  apply Nat.leb_le. apply (get_forall short ts i H); [done|lia].
Qed.

Lemma sv_id_done ty v : Z.abs v < 10 ^ 8 -> exists d, sv_id_of ty v = Done d.
Proof.
  intros H. unfold sv_id_of. destruct (_ =? _); [|destruct (_ =? _)].
  - rewrite chk_small by lia. eauto.
  - rewrite chk_small by lia. eauto.
  - eauto.
Qed.

Lemma gsa_loop_safe c n ts ty i k w :
  Forall good ts -> forallb short (drop 1 (map slice ts)) = true -> 0 <= i -> nmea_inv c n w ->
  safe c n (gsa_loop ts ty i k) w.
Proof.
  intros Hg Hs. revert i w. induction k as [|k IH]; intros i w Hi Hw; cbn [gsa_loop];
    [by apply returns_ret|].
  destruct (_ =? _); [by apply returns_ret|].
  destruct (get_short ts (i + 3) Hg Hs) as (v & Ev & Hv); [lia|].
  destruct (sv_id_done ty v Hv) as [d Ed]. step_lift Ev. step_lift Ed.
  apply returns_bind. apply (returns_mono _ _ (fun _ w1 => nmea_inv c n w1)).
  - apply returns_when; intros Hd; [|done]. step_gets. unbool. apply returns_bind.
    eapply returns_lift; [apply wr_in_range; rewrite (i_used _ _ _ Hw); lia|].
    apply returns_modify. inv_ok. by rewrite length_insert.
  - intros _ w1 Hw1. apply IH; [lia|done].
Qed.

Lemma gsv_loop_safe c n ts ty base i k w :
  Forall good ts -> forallb short (drop 1 (map slice ts)) = true ->
  forallb int_ok (drop 1 (map slice ts)) = true ->
  0 <= i -> i + Z.of_nat k <= 4 -> Z.abs base < 2 ^ 30 -> c <= 32 ->
  nmea_inv c n w -> r_sv_count (n_reader w) + Z.of_nat k <= c -> n < 2 ^ 30 ->
  safe c n (gsv_loop ts ty base i k) w.
Proof.
  intros Hg Hs Hf. revert i w. induction k as [|k IH]; intros i w Hi Hn Hb Hc Hw Hcnt Hnum;
    cbn [gsv_loop]; [by apply returns_ret|].
  pose proof (i_count _ _ _ Hw). pose proof (i_prn _ _ _ Hw). pose proof (i_snr _ _ _ Hw).
  destruct (get_short ts (4 * (i + 1) + 0) Hg Hs) as (v & Ev & Hv); [lia|].
  destruct (sv_id_done ty v Hv) as [d Ed].
  assert (int_ok (slice (nmea_tokenizer_get ts (4 * (i + 1) + 3))) = true) as Hsnr
    by (apply get_forall; [done|reflexivity|lia]).
  apply is_done_inv in Hsnr as [x Ex].
  step_lift Ev. step_lift Ed. step_gets. step_gets. step_lift Ev.
  apply returns_bind. eapply returns_lift; [apply wr_in_range; lia|].
  step_lift (tok2float_slice _ (get_good ts (4 * (i + 1) + 3) Hg)). step_lift Ex.
  apply returns_bind. eapply returns_lift; [apply wr_in_range; lia|].
  step_upd. step_lift (chk_small (base + i) ltac:(lia)). apply returns_bind.
  eapply returns_mono.
  - apply (sv_status_safe c n); try (by apply get_good); try (cbn; lia).
    1,2: apply Nat.leb_le, (get_forall short); [done|done|lia].
    inv_ok; by rewrite length_insert.
  - cbn. intros _ w1 (Hw1 & Hc1). apply IH; [lia..|done|lia|lia].
Qed.

Lemma inv_weaken c n c' n' w : nmea_inv c n w -> c <= c' -> n <= n' -> nmea_inv c' n' w.
Proof. intros H Hc Hn. inv_ok. Qed.

Lemma hemi_safe t : good t -> exists x, rd (tk_mem t) (tk_p t) = Done x.
Proof. intros (Hb & H1 & H2). destruct (rd_byte (tk_mem t) (tk_p t)) as (x & E & _); [done|lia|eauto]. Qed.

(** The next operation keeps the invariant. *)
Lemma returns_safe {A B} c n (m : prog nmea A) (k : A -> prog nmea B) w Q :
  safe c n m w -> (forall a w1, nmea_inv c n w1 -> returns (k a) w1 Q) -> returns (bind m k) w Q.
Proof. intros H Hk. apply returns_bind. eapply returns_mono; [exact H|]. auto. Qed.

Lemma gga_safe c n ts w :
  Forall good ts -> time_ok (slice (nmea_tokenizer_get ts 1)) = true ->
  hhmm_ok (slice (nmea_tokenizer_get ts 2)) = true ->
  hhmm_ok (slice (nmea_tokenizer_get ts 4)) = true ->
  nmea_inv c n w -> safe c n (parse_gga cal ts) w.
Proof.
  intros Hg H1 H2 H4 Hw. unfold parse_gga. pose proof (get_good ts) as G.
  destruct (hemi_safe (nmea_tokenizer_get ts 3)) as [x Ex]; [by apply G|].
  destruct (hemi_safe (nmea_tokenizer_get ts 5)) as [y Ey]; [by apply G|].
  eapply returns_safe; [by apply time_safe; [apply G|..]|intros _ w1 Hw1]. step_lift Ex. step_lift Ey.
  eapply returns_safe; [by apply latlong_safe; [apply G|apply G|..]|intros _ w2 Hw2].
  eapply returns_safe; [by apply altitude_safe; [apply G|]|intros _ w3 Hw3]. by apply returns_ret.
Qed.

Lemma rmc_safe c n ts w :
  Forall good ts -> time_ok (slice (nmea_tokenizer_get ts 1)) = true ->
  hhmm_ok (slice (nmea_tokenizer_get ts 3)) = true ->
  hhmm_ok (slice (nmea_tokenizer_get ts 5)) = true ->
  date_ok (slice (nmea_tokenizer_get ts 9)) = true ->
  nmea_inv c n w -> safe c n (parse_rmc cal ts) w.
Proof.
  intros Hg H1 H3 H5 H9 Hw. unfold parse_rmc. pose proof (get_good ts) as G.
  destruct (hemi_safe (nmea_tokenizer_get ts 2)) as [s Es]; [by apply G|].
  destruct (hemi_safe (nmea_tokenizer_get ts 4)) as [x Ex]; [by apply G|].
  destruct (hemi_safe (nmea_tokenizer_get ts 6)) as [y Ey]; [by apply G|].
  step_lift Es. apply returns_when; intros _; [|done].
  eapply returns_safe; [by apply date_safe; [apply G|apply G|..]|intros _ w1 Hw1]. step_lift Ex. step_lift Ey.
  eapply returns_safe; [by apply latlong_safe; [apply G|apply G|..]|intros _ w2 Hw2].
  eapply returns_safe; [by apply bearing_safe; [apply G|]|intros _ w3 Hw3].
  eapply returns_safe; [by apply speed_safe; [apply G|]|intros _ w4 Hw4]. by apply returns_ret.
Qed.

Lemma gsa_safe c n ts ty w :
  Forall good ts -> forallb short (drop 1 (map slice ts)) = true ->
  nmea_inv c n w -> safe c n (parse_gsa ts ty) w.
Proof.
  intros Hg Hs Hw. unfold parse_gsa. destruct (get_short ts 2 Hg Hs) as (v & Ev & _); [lia|].
  step_lift Ev. step_upd. step_gets. assert (nmea_inv c n (set_reader (with_fix_mode v (n_reader w)) w)) by inv_ok.
  apply returns_when; intros _; [|done]. by apply gsa_loop_safe.
Qed.

Lemma parse_accuracy_safe c n ts w :
  Forall good ts -> nmea_inv c n w -> safe c n (parse_accuracy ts) w.
Proof.
  intros Hg Hw. unfold parse_accuracy. step_gets. apply returns_when; intros _; [|done].
  eapply returns_safe; [apply accuracy_safe; [by apply get_good|done]|]. intros _ w1 Hw1. by apply returns_ret.
Qed.

(** The sequence number "1" is read as 1. *)
Lemma tok2int_one t : good t -> slice t = [49] -> tok2int t = Done 1.
Proof.
  intros Ht E. pose proof (length_slice t Ht) as Hl. rewrite E in Hl. cbn in Hl.
  destruct Ht as (Hb & H1 & H2). unfold tok2int, str2int.
  assert (rd (tk_mem t) (tk_p t) = Done 49) as Er.
  { destruct (rd_in (tk_mem t) (tk_p t)) as (c & -> & Hc); [lia|].
    unfold slice in E. rewrite (seg_cons _ _ _ c) in E by (done || lia). by injection E as ->. }
  rewrite Er. cbn [obind]. replace (Z.to_nat (tk_end t - tk_p t)) with 1%nat by lia.
  change (49 =? 45) with false. cbn iota. cbn [str2int_loop]. rewrite Er. iffalse. reflexivity.
Qed.

(** A bound on the satellites counted after a GSV sentence. *)
Definition gsv_bound (c : Z) (fs : list (list Z)) : Z :=
  (if bool_decide (nth 2 fs [] = [49]) then 0 else c) + 4.

(** The start of a set: a first sentence clears the count. *)
Lemma gsv_start_safe c n ts seq w :
  Forall good ts -> tok2int (nmea_tokenizer_get ts 2) = Done seq -> nmea_inv c n w ->
  returns (when (seq =? 1) (upd (fun r => with_svs 0 (r_sv_status r) r))) w (fun _ w' =>
    nmea_inv (gsv_bound c (map slice ts)) n w' /\
    r_sv_count (n_reader w') + 4 <= gsv_bound c (map slice ts)).
Proof.
  intros Hg E Hw. pose proof (i_count _ _ _ Hw). unfold gsv_bound.
  assert (bool_decide (nth 2 (map slice ts) [] = [49]) = true -> seq = 1) as Hone.
  { intros H1%bool_decide_eq_true. change 2%nat with (Z.to_nat 2) in H1.
    rewrite <- get_slice in H1 by lia. rewrite tok2int_one in E; [congruence|by apply get_good|done]. }
  apply returns_when; intros Hs.
  - clear Hone. apply returns_modify. split; cbn; [|destruct (bool_decide _); lia].
    inv_ok. destruct (bool_decide _); lia.
  - apply Z.eqb_neq in Hs. destruct (bool_decide _); [by rewrite Hone in Hs|].
    split; [apply (inv_weaken c n); [done|lia|lia]|lia].
Qed.

(** The end of a set: its satellites are added, or all are dropped. *)
Lemma gsv_end_safe c n seq num cnt w :
  c <= 32 -> nmea_inv c n w -> n < 2 ^ 30 ->
  returns (when (seq =? num)
    (let* r := reader in
     if r_sv_count r <=? cnt then
       let* n := lift (chk (num_svs (r_sv_status r) + r_sv_count r)) in
       upd (fun r => with_svs (r_sv_count r) (SvInfo n (sv_list (r_sv_status r))) r) ;;
       let* flag := on_at (at_get MNL_AT_TEST_FLAG) in
       let* mode := on_at (at_get MNL_AT_SIGNAL_MODE) in
       when ((flag =? 1) || (mode =? 1))
         (let* r := reader in
          on_at (gps_at_command_test_proc (r_sv_count r)))
     else
       upd (fun r => with_svs 0 (SvInfo 0 (sv_list (r_sv_status r))) r))) w
    (fun _ w' => nmea_inv c (n + 32) w').
Proof.
  intros Hc Hw Hn. pose proof (i_count _ _ _ Hw). pose proof (i_num _ _ _ Hw).
  apply returns_when; intros _; [|apply (inv_weaken c n); [done|lia|lia]]. step_gets. destruct (_ <=? cnt).
  - step_lift (chk_small (num_svs (r_sv_status (n_reader w)) + r_sv_count (n_reader w)) ltac:(lia)).
    step_upd. apply returns_bind, returns_at_get. apply returns_bind, returns_at_get.
    destruct (i_idle _ _ _ Hw) as (Hf & _ & Hm). apply returns_when; intros Ht.
    + exfalso. unbool. destruct Ht; [by apply Hf|by apply Hm].
    + inv_ok.
  - apply returns_modify. inv_ok.
Qed.

Lemma gsv_safe c n ts ty w :
  Forall good ts -> forallb short (drop 1 (map slice ts)) = true ->
  forallb int_ok (drop 1 (map slice ts)) = true ->
  gsv_bound c (map slice ts) <= 32 -> n < 2 ^ 30 -> nmea_inv c n w ->
  safe (gsv_bound c (map slice ts)) (n + 32) (parse_gsv ts ty) w.
Proof.
  intros Hg Hs Hf Hc Hn Hw. unfold parse_gsv.
  destruct (get_short ts 1 Hg Hs) as (num & E1 & H1); [lia|].
  destruct (get_short ts 2 Hg Hs) as (seq & E2 & H2); [lia|].
  destruct (get_short ts 3 Hg Hs) as (cnt & E3 & H3); [lia|].
  step_lift E1. step_lift E2. step_lift E3. step_lift (chk_small (seq - 1) ltac:(lia)).
  unfold NMEA_MAX_SV_INFO. step_lift (chk_small ((seq - 1) * 4) ltac:(lia)).
  step_lift (chk_small (cnt - (seq - 1) * 4) ltac:(lia)).
  set (sv_num := if 4 <? cnt - (seq - 1) * 4 then 4 else cnt - (seq - 1) * 4).
  assert (sv_num <= 4) as Hsv by (subst sv_num; destruct (Z.ltb_spec 4 (cnt - (seq - 1) * 4)); lia).
  apply returns_bind. eapply returns_mono; [by apply gsv_start_safe|]. intros _ w1 (Hw1 & Hc1).
  eapply returns_safe.
  - apply (gsv_loop_safe (gsv_bound c (map slice ts)) n); try done; lia.
  - intros _ w2 Hw2. by apply gsv_end_safe.
Qed.

(** ** A line *)

(** The three letters of the sentence type. *)
Definition kind (fs : list (list Z)) : list Z := take 3 (drop 2 (nth 0 fs [])).

(** Sentences whose numbers are in range: seconds of at most a day, angles that
    fit an [int] when they are truncated, no date after 2037, integers of at most
    eight characters. *)
Definition tame (fs : list (list Z)) : bool :=
  let f i := nth i fs [] in
  if bool_decide (kind fs = lit "GGA") then time_ok (f 1%nat) && hhmm_ok (f 2%nat) && hhmm_ok (f 4%nat)
  else if bool_decide (kind fs = lit "GSA") then forallb short (drop 1 fs)
  else if bool_decide (kind fs = lit "RMC") then
    time_ok (f 1%nat) && hhmm_ok (f 3%nat) && hhmm_ok (f 5%nat) && date_ok (f 9%nat)
  else if bool_decide (kind fs = lit "GSV") then forallb short (drop 1 fs) && forallb int_ok (drop 1 fs)
  else true.

(** A bound on the satellites counted after a sentence. *)
Definition count_bound (c : Z) (fs : list (list Z)) : Z :=
  if bool_decide (kind fs = lit "GSV") then gsv_bound c fs else c.

Lemma memeq_kind t s :
  good t -> 5 <= zlen (slice t) -> length (lit s) = 3%nat ->
  memeq (tk_mem t) (tk_p t + 2) s = Done (bool_decide (take 3 (drop 2 (slice t)) = lit s)).
Proof.
  intros Ht Hl Hs. pose proof (length_slice t Ht) as El. destruct Ht as (_ & H1 & H2).
  unfold memeq. rewrite Hs. iftrue. do 2 f_equal. unfold slice, seg.
  replace (Z.to_nat (tk_p t + 2)) with (Z.to_nat (tk_p t) + 2)%nat by lia.
  rewrite <- drop_drop, !(take_drop_commute _ 3 2), take_take.
  by replace (_ `min` _)%nat with (2 + 3)%nat by lia.
Qed.

Lemma memeq_done t p s :
  tk_p t <= p <= 3 -> 0 <= tk_p t -> length (tk_mem t) = 256%nat -> zlen (lit s) <= 8 ->
  exists b, memeq (tk_mem t) p s = Done b.
Proof. intros Hp H0 Hm Hs. unfold memeq. iftrue. eauto. Qed.

Lemma talker_done t :
  0 <= tk_p t <= 1 -> length (tk_mem t) = 256%nat -> exists ty, talker (tk_mem t) (tk_p t) = Done ty.
Proof.
  intros Hp Hm. unfold talker.
  destruct (memeq_done t (tk_p t) "BD") as [[] ->]; [lia..|cbn; lia| |]; [eexists; reflexivity|cbn [obind]].
  destruct (memeq_done t (tk_p t) "GP") as [[] ->]; [lia..|cbn; lia| |]; [eexists; reflexivity|cbn [obind]].
  destruct (memeq_done t (tk_p t) "GL") as [[] ->]; [lia..|cbn; lia| |]; [eexists; reflexivity|cbn [obind]].
  destruct (memeq_done t (tk_p t) "GA") as [[] ->]; [lia..|cbn; lia| |]; eexists; reflexivity.
Qed.

Lemma sentence_safe c n ts ty w :
  Forall good ts -> let t := nmea_tokenizer_get ts 0 in let fs := map slice ts in
  0 <= tk_p t <= 1 -> length (tk_mem t) = 256%nat -> tk_p t + 5 <= tk_end t ->
  tame fs = true -> count_bound c fs <= 32 -> n < 2 ^ 30 -> nmea_inv c n w ->
  safe (count_bound c fs) (n + 32) (parse_sentence cal (tk_mem t) (tk_p t + 2) ts ty) w.
Proof.
  intros Hg t fs Hp Hm Hl Htame Hcb Hn Hw. unfold parse_sentence.
  assert (good t) as Ht by by apply get_good.
  assert (slice t = nth 0 fs []) as Es by apply (get_slice ts 0 ltac:(lia)).
  assert (forall s, length (lit s) = 3%nat ->
    memeq (tk_mem t) (tk_p t + 2) s = Done (bool_decide (kind fs = lit s))) as Hk.
  { intros s Hs. rewrite memeq_kind by (done || rewrite length_slice by done; lia).
    unfold kind. by rewrite <- Es. }
  assert (forall m : prog nmea unit, safe c n m w -> kind fs <> lit "GSV" -> safe (count_bound c fs) (n + 32) m w) as Hno.
  { intros m Hs Hne. eapply returns_mono; [exact Hs|]. intros a w' Hw'. unfold count_bound.
    rewrite bool_decide_eq_false_2 by done. apply (inv_weaken c n); [done|lia|lia]. }
  unfold tame in Htame.
  step_lift (Hk "GGA" eq_refl). case_bool_decide as Hgga; [|clear Hgga].
  { apply andb_true_iff in Htame as [[H1 H2]%andb_true_iff H4].
    apply Hno; [|by rewrite Hgga]. apply gga_safe; try done; by rewrite get_slice. }
  step_lift (Hk "GSA" eq_refl). case_bool_decide as Hgsa; [|clear Hgsa].
  { apply Hno; [|by rewrite Hgsa]. by apply gsa_safe. }
  step_lift (Hk "RMC" eq_refl). case_bool_decide as Hrmc; [|clear Hrmc].
  { apply andb_true_iff in Htame as [[[H1 H3]%andb_true_iff H5]%andb_true_iff H9].
    apply Hno; [|by rewrite Hrmc]. apply rmc_safe; try done; by rewrite get_slice. }
  step_lift (Hk "GSV" eq_refl). case_bool_decide as Hgsv.
  { apply andb_true_iff in Htame as [Hs Hi]. unfold count_bound in *.
    rewrite bool_decide_eq_true_2 in * by done. by apply gsv_safe. }
  destruct (memeq_done t (tk_p t + 2) "ACCURACY") as [b Eb]; [lia..|cbn; lia|].
  step_lift Eb. apply Hno; [|done]. destruct b; [by apply parse_accuracy_safe|by apply returns_ret].
Qed.

(** ** Reports *)

Lemma report_fix_safe c n w : nmea_inv c n w -> safe c n report_fix w.
Proof.
  intros Hw. unfold report_fix. step_gets. step_gets. apply returns_when; intros _; [|done].
  apply returns_bind. eapply (returns_send _ _ _ c n); [apply location_plain|done|]. intros _ s1 Hw1.
  apply returns_bind. eapply (returns_send _ _ _ c n); [apply update_location_plain|done|]. intros _ s2 Hw2.
  apply returns_modify. inv_ok.
Qed.

(** The loop sends the list once and ends. *)
Lemma report_svs_safe c n w : nmea_inv c n w -> safe c n report_svs w.
Proof.
  intros Hw. pose proof (i_num _ _ _ Hw). pose proof (i_list _ _ _ Hw) as Hl.
  pose proof (i_count _ _ _ Hw).
  unfold report_svs. step_gets. step_gets. apply returns_when; intros Hne; [|done]. unbool.
  cbn [report_svs_loop]. step_gets. iffalse.
  destruct (rd_in (sv_list (r_sv_status (n_reader w))) 0) as (x & Ex & _); [rewrite Hl; lia|].
  step_lift Ex. apply returns_bind. eapply (returns_send _ _ _ c n); [by apply gps_sv_plain|done|].
  intros _ s Hw1. step_upd. step_upd. step_gets. cbn. apply returns_ret. inv_ok.
Qed.

Lemma tokens_good m pos ts :
  bytes_ok m -> pos < zlen m -> Forall (token_in m 0 pos) ts -> Forall good ts.
Proof.
  intros Hb Hp H. eapply Forall_impl; [exact H|]. intros t (E & H1 & H2). unfold good. rewrite E. split; [done|lia].
Qed.

(** The fields of the sentence in the buffer. *)
Definition line_fields (w : nmea) : list (list Z) :=
  take 24 (fields (body (take (Z.to_nat (r_pos (n_reader w))) (r_in (n_reader w))))).

(** A bound on the satellites counted after a line of [len] bytes. *)
Definition line_bound (c len : Z) (fs : list (list Z)) : Z :=
  if len <? 9 then c else count_bound c fs.

Lemma short_kind c fs : zlen (nth 0 fs []) < 5 -> count_bound c fs = c.
Proof.
  intros H. unfold count_bound. rewrite bool_decide_eq_false_2; [done|]. unfold kind.
  intros E%(f_equal length). change (length (lit "GSV")) with 3%nat in E. lists. lia.
Qed.

Lemma parse_safe c n w :
  let fs := line_fields w in let c' := line_bound c (r_pos (n_reader w)) fs in
  tame fs = true -> c' <= 32 -> n < 2 ^ 30 -> nmea_inv c n w ->
  safe c' (n + 32) (nmea_reader_parse cal) w.
Proof.
  intros fs c' Htame Hcb Hn Hw. unfold nmea_reader_parse. step_gets.
  apply returns_bind. exists tt, w. split; [by apply at_pre_idle, (i_idle _ _ _ Hw)|].
  step_gets. subst c'. unfold line_bound in *.
  destruct (_ <? 9); [apply returns_ret, (inv_weaken c n); [done|lia|lia]|].
  pose proof (i_pos _ _ _ Hw). pose proof (i_in _ _ _ Hw).
  destruct (tokenizer_spec (r_in (n_reader w)) (r_pos (n_reader w))) as (ts & E & Hts & Hin & Hh); [lia|].
  assert (Forall good ts) as Hg.
  { eapply tokens_good; [apply (i_bytes _ _ _ Hw)| |exact Hin]. lia. }
  fold (line_fields w) in Hts. subst fs. rewrite <- Hts in *.
  step_lift E. destruct (Z.ltb_spec (tk_end (nmea_tokenizer_get ts 0)) (tk_p (nmea_tokenizer_get ts 0) + 5))
    as [Hlt|Hlt].
  { apply returns_ret, (inv_weaken c n); [done| |lia].
    rewrite short_kind; [lia|]. change 0%nat with (Z.to_nat 0). rewrite <- get_slice by lia.
    rewrite length_slice by by apply get_good. lia. }
  destruct ts as [|t ts]; [change (nmea_tokenizer_get [] 0) with dummy in *; cbn in *; lia|].
  change (nmea_tokenizer_get (t :: ts) 0) with t in *. pose proof (Hh t eq_refl).
  apply Forall_cons in Hin as [(Em & Hp & He) _].
  destruct (talker_done t) as [ty Ety]; [lia|by rewrite Em|]. step_lift Ety.
  eapply returns_safe; [|intros _ w2 Hw2].
  - apply (sentence_safe c n (t :: ts)); try done; change (nmea_tokenizer_get (t :: ts) 0) with t;
      [lia|by rewrite Em].
  - eapply returns_safe; [by apply report_fix_safe|intros _ w3 Hw3].
    by apply report_svs_safe.
Qed.

(** ** The stream *)

Definition fields_of (l : list Z) : list (list Z) := take 24 (fields (body l)).

(** Lines whose sentences are tame, with at most 32 satellites in a GSV set
    that starts with the sentence number 1; [skip] says that the reader drops
    the next line. *)
Fixpoint stream_ok (skip : bool) (c : Z) (ls : list (list Z)) : bool :=
  match ls with
  | [] => true
  | l :: r =>
      if skip then stream_ok false c r
      else if zlen l <=? 255 then
        let c' := line_bound c (zlen l) (fields_of l) in
        tame (fields_of l) && (c' <=? 32) && stream_ok false c' r
      else stream_ok (zlen l =? 256) c r
  end.

Lemma store_line_inv c n l w :
  is_line l -> zlen l <= 255 -> nmea_inv c n w ->
  nmea_inv c n (set_reader (store_line l (n_reader w)) w) /\
  line_fields (set_reader (store_line l (n_reader w)) w) = fields_of l.
Proof.
  intros (t & -> & _ & Hb) Hl Hw. pose proof (i_in _ _ _ Hw) as Hin. split.
  - pose proof (i_bytes _ _ _ Hw) as Hib. pose proof (i_term _ _ _ Hw) as Ht. inv_ok.
    + lists. lia.
    + unfold bytes_ok. rewrite !Forall_app. repeat split; [done|by repeat constructor|by apply Forall_drop].
    + rewrite lookup_app_r by lia. rewrite lookup_drop.
      by replace (_ + (255 - _))%nat with 255%nat by lia.
  - unfold line_fields, fields_of. cbn [n_reader set_reader store_line with_in r_pos r_in].
    by rewrite Nat2Z.id, take_app_length.
Qed.

Lemma tag_inv c n (b : bool) w :
  nmea_inv c n w -> nmea_inv c n (if b then set_end_tag true w else w).
Proof. intros Hw. destruct b; [inv_ok|done]. Qed.

Lemma store_overlong_inv c n l w :
  is_line l -> 255 < zlen l -> nmea_inv c n w ->
  nmea_inv c n (set_reader (store_overlong l (n_reader w)) w).
Proof.
  intros (t & -> & _ & Hb) Hl Hw. pose proof (i_in _ _ _ Hw) as Hin.
  pose proof (i_bytes _ _ _ Hw) as Hib. pose proof (i_term _ _ _ Hw) as Ht.
  assert (length (take 255 (t ++ [10])) = 255%nat) as H255 by (rewrite length_take; lia).
  inv_ok.
  - rewrite length_app, H255, length_drop. lia.
  - apply Forall_app. split; [|by apply Forall_drop].
    apply Forall_take, Forall_app. split; [done|by repeat constructor].
  - rewrite lookup_app_r, H255 by lia. rewrite lookup_drop. done.
Qed.

Lemma returns_tag {A} (b : bool) (k : unit -> prog nmea A) w Q :
  returns (k tt) (if b then set_end_tag true w else w) Q ->
  returns (bind (when b (modify (set_end_tag true))) k) w Q.
Proof. unfold returns. by rewrite when_tag. Qed.

(** One line that fits. *)
Lemma feed_line_safe c n l tag w :
  let c' := line_bound c (zlen l) (fields_of l) in
  is_line l -> zlen l <= 255 -> r_overflow (n_reader w) = false ->
  tame (fields_of l) = true -> c' <= 32 -> n < 2 ^ 30 -> nmea_inv c n w ->
  returns (feed_line cal l tag) w
    (fun _ w' => nmea_inv c' (n + 32) w' /\ r_overflow (n_reader w') = false).
Proof.
  intros c' Hl Hfit Hov Htame Hc Hn Hw. unfold feed_line. step_gets. rewrite Hov. unfold NMEA_MAX_SIZE.
  iftrue. apply returns_tag. set (w1 := if tag then _ else w).
  assert (nmea_inv c n w1) as Hw1 by by apply tag_inv.
  assert (n_reader w1 = n_reader w) as Er by apply tag_reader.
  destruct (store_line_inv c n l w1 Hl Hfit Hw1) as [Hw2 Hf]. step_upd.
  set (w2 := set_reader _ w1) in *. apply returns_bind.
  destruct (parse_safe c n w2) as ([] & w3 & E & Hw3).
  { by rewrite Hf. }
  { by rewrite Hf. }
  { done. }
  { done. }
  exists tt, w3. split; [done|]. rewrite Hf in Hw3. change (r_pos (n_reader w2)) with (zlen l) in Hw3.
  fold c' in Hw3. step_gets. apply returns_bind.
  eapply (returns_send _ _ _ c' (n + 32)); [apply (nmea_plain c' (n + 32)); [done|]|done|].
  { apply (i_stamp _ _ _ Hw3). }
  intros _ s Hw4. apply returns_modify. split; [inv_ok|].
  pose proof (parse_keeps cal _ _ _ E) as Hk. unfold same_line, line_state in Hk.
  injection Hk as _ Ho _ _. cbn in *. rewrite <- Ho, Er. done.
Qed.

(** Any line, whether it is parsed, too long, or dropped. *)
Lemma feed_lines_safe c n ls w :
  Forall is_line ls -> stream_ok (r_overflow (n_reader w)) c ls = true ->
  n + 32 * zlen ls < 2 ^ 30 -> c <= 32 -> nmea_inv c n w ->
  exists c', safe c' (n + 32 * zlen ls) (feed_lines cal ls) w /\ c' <= 32.
Proof.
  intros Hls. revert c n w. induction Hls as [|l ls Hl Hls IH]; intros c n w Hok Hn Hc Hw.
  - exists c. split; [|done]. apply returns_ret. apply (inv_weaken c n); [done|lia|cbn; lia].
  - cbn [feed_lines stream_ok length] in *.
    assert (exists c' w', feed_line cal l (bool_decide (ls = [])) w = Done (tt, w') /\
      nmea_inv c' (n + 32) w' /\ c' <= 32 /\ stream_ok (r_overflow (n_reader w')) c' ls = true)
      as (c' & w' & E & Hw' & Hc' & Hok').
    + destruct (r_overflow (n_reader w)) eqn:Hov; [|destruct (Z.leb_spec (zlen l) 255)].
      * exists c. eexists. split; [|split; [|split; [exact Hc|]]].
        -- unfold feed_line. rewrite bind_reader, Hov, when_tag. reflexivity.
        -- pose proof (tag_inv c n (bool_decide (ls = [])) w Hw) as Hw1.
           apply (inv_weaken c n); [inv_ok|lia|lia].
        -- exact Hok.
      * apply andb_true_iff in Hok as [[Ht Hb]%andb_true_iff Hok].
        destruct (feed_line_safe c n l (bool_decide (ls = [])) w) as ([] & w' & E & Hw' & Ho);
          try done; [lia|lia|].
        exists (line_bound c (zlen l) (fields_of l)), w'. rewrite Ho. split; [done|].
        split; [done|]. split; [lia|done].
      * exists c. eexists. split; [|split; [|split; [exact Hc|]]].
        -- unfold feed_line. rewrite bind_reader, Hov. unfold NMEA_MAX_SIZE. iffalse. rewrite when_tag.
           reflexivity.
        -- pose proof (tag_inv c n (bool_decide (ls = [])) w Hw) as Hw1.
           apply (inv_weaken c n); [by apply store_overlong_inv|lia|lia].
        -- exact Hok.
    + destruct (IH c' (n + 32) w' Hok') as (c2 & H2 & Hc2); [lia|done|done|].
      exists c2. split; [|done]. apply returns_bind. exists tt, w'. split; [done|].
      eapply returns_mono; [exact H2|]. cbn beta. intros _ w2 Hw2. eapply inv_weaken; [exact Hw2|lia|lia].
Qed.
End safety.

(** What the parser needs of the state it is called in. *)
Record nmea_ready (w : nmea) : Prop := {
  nr_used : length (gnss_sv_used_in_fix w) = 450%nat;
  nr_prn : length (at_prn (n_at w)) = 32%nat;
  nr_snr : length (at_snr (n_at w)) = 32%nat;
  nr_idle : at_idle (n_at w);
  nr_clock : clock_ok (n_aw w);
  nr_kernel : kernel_ok (sys_of w)
}.

Lemma init_inv cal w :
  calendar_ok cal -> nmea_ready w ->
  returns (nmea_reader_init cal) w (fun _ w' => nmea_inv 0 0 w' /\ r_overflow (n_reader w') = false).
Proof.
  intros Hcal [H1 H2 H3 H4 H5]. unfold nmea_reader_init. step_upd.
  assert (nmea_inv 0 0 (set_reader reader_init w)) as Hw.
  { split; cbn; try done; try lia; [by repeat constructor|by left]. }
  destruct (utc_diff_safe cal Hcal 0 0 _ Hw) as ([] & w' & E & Hw' & _).
  exists tt, w'. split; [done|]. split; [done|].
  pose proof (utc_diff_keeps cal _ _ _ E) as Hk. injection Hk as _ <- _ _. done.
Qed.

(** C37: memory safety and termination.  On every buffer of complete lines
    whose sentences are tame (dates up to 2037, seconds of at most a day, angles
    and signal strengths that fit an [int], satellite fields of at most eight
    characters, at most 32 satellites between two GSV sentences numbered 1), with
    a clock between 1970 and 2037, a C library that keeps its promises about
    calendar times ([calendar_ok]), sockets that answer and no factory test
    running, the parser returns: no array is accessed outside its bounds, no
    addition overflows, no conversion is undefined, and the loops end.  The static
    arrays and the reader are left in their invariant. *)
Theorem nmea_stream_safe (cal : calendar) (ls : list (list Z)) (w : nmea) :
  calendar_ok cal -> nmea_ready w ->
  Forall is_line ls -> stream_ok false 0 ls = true -> 32 * zlen ls < 2 ^ 30 ->
  exists w', mtk_mnl_nmea_parser_process cal (concat ls) w = Done (tt, w') /\
    nmea_inv 32 (32 * zlen ls) w' /\ nmea_ready w'.
Proof.
  intros Hcal Hw Hls Hok Hn.
  destruct (init_inv cal w Hcal Hw) as ([] & w1 & E1 & Hw1 & Ho).
  assert (nmea_inv 0 0 (set_end_tag false w1)) as Hw2 by inv_ok.
  destruct (feed_lines_safe cal Hcal 0 0 ls (set_end_tag false w1)) as (c & ([] & w' & E & Hw') & Hc);
    [done|by rewrite <- Ho in Hok|lia|lia|done|].
  exists w'. split; [|split].
  - unfold mtk_mnl_nmea_parser_process. rewrite (bind_done _ _ _ _ _ E1).
    unfold bind, modify. rewrite (process_lines cal (zlen (concat ls)) 0 ls); try done.
    split; [|apply (i_in _ _ _ Hw2)]. unfold nmea_reader_init, upd, modify, bind in E1. by injection E1 as <-.
  - apply (inv_weaken c (0 + 32 * zlen ls)); [done|lia|lia].
  - destruct Hw'. by split.
Qed.

Definition nmea_boot : nmea :=
  Nmea reader_init false used_none
    (AtWorld (at_init (fun _ => true)) boot0 0 (fun _ => 1500000000)).

Lemma nmea_boot_ready : nmea_ready nmea_boot.
Proof.
  split; try done. apply good_kernel_ok.
Qed.

Lemma nmea_stream_safe_witness :
  exists w', mtk_mnl_nmea_parser_process beijing
      (concat [lit "$GPGSV,1,1,02,04,45,300,33,32,10,200,20*7A" ++ [13; 10];
               lit "$GPGGA,123519,4807.038,N,01131.000,W,1,08,0.9,545.4,M,46.9,M,,*47" ++ [13; 10];
               lit "$GPRMC,123519,A,4807.038,N,01131.000,E,022.4,084.4,230316,003.1,W*6A" ++ [13; 10]])
      nmea_boot = Done (tt, w') /\ nmea_inv 32 96 w' /\ nmea_ready w'.
Proof.
  apply (nmea_stream_safe beijing
    [lit "$GPGSV,1,1,02,04,45,300,33,32,10,200,20*7A" ++ [13; 10];
     lit "$GPGGA,123519,4807.038,N,01131.000,W,1,08,0.9,545.4,M,46.9,M,,*47" ++ [13; 10];
     lit "$GPRMC,123519,A,4807.038,N,01131.000,E,022.4,084.4,230316,003.1,W*6A" ++ [13; 10]]).
  - apply beijing_ok.
  - apply nmea_boot_ready.
  - repeat (apply Forall_cons; split; [|]); [| | |apply Forall_nil, I];
      (eexists (_ ++ [13]); split; [rewrite <- app_assoc; reflexivity|]);
      split; apply (bool_decide_unpack _); by vm_compute.
  - by vm_compute.
  - cbn. lia.
Defined.

(** Dates up to 2037 only: east of Greenwich, at the end of the 32 bits of
    [time_t], the correction of the local time overflows. *)
Lemma date_2038_overflows :
  nmea_reader_update_date beijing (Tok (lit "190138,") 0 6) (Tok (lit "031408.00,") 0 9) nmea_boot = UB.
Proof. vm_compute. reflexivity. Qed.

(** ** The 33rd satellite *)

Lemma str2int_outcome m p e : str2int m p e = UB \/ exists v, str2int m p e = Done v.
Proof.
  unfold str2int, rd. destruct (0 <=? p); [|by left]. destruct (m !! Z.to_nat p) as [c|]; [|by left].
  cbn [obind]. assert (forall n p s r, str2int_loop m p e s r n = UB \/
    exists v, str2int_loop m p e s r n = Done v) as H; [|destruct (c =? 45); apply H].
  clear. induction n as [|n IH]; intros p s r; cbn [str2int_loop].
  - unfold chk. destruct (is_int _); eauto.
  - destruct (e <=? p); [eauto|]. unfold rd. destruct (0 <=? p); [|by left].
    destruct (m !! Z.to_nat p) as [x|]; [|by left]. cbn [obind].
    destruct (10 <=? _); [eauto|]. unfold chk. destruct (is_int (r * 10)); [|by left]. cbn [obind].
    destruct (is_int _); [|by left]. apply IH.
Qed.

(** The arrays [prn] and [snr] have 32 elements, the satellite list 64.
    When 32 satellites of a set are counted, the next sentence of the set that
    lists one more writes behind [prn]. *)
Theorem gsv_prn_overrun (ts : list Token) (ty num seq cnt : Z) (w : nmea) :
  length (at_prn (n_at w)) = 32%nat -> r_sv_count (n_reader w) = 32 ->
  tok2int (nmea_tokenizer_get ts 1) = Done num -> tok2int (nmea_tokenizer_get ts 2) = Done seq ->
  tok2int (nmea_tokenizer_get ts 3) = Done cnt ->
  1 < seq < 2 ^ 28 -> (seq - 1) * 4 < cnt < 2 ^ 31 ->
  parse_gsv ts ty w = UB.
Proof.
  intros Hp Hc E1 E2 E3 Hs Hn. unfold parse_gsv, lift. unfold bind at 1. rewrite E1. unfold bind at 1.
  rewrite E2. unfold bind at 1. rewrite E3. unfold NMEA_MAX_SV_INFO.
  unfold bind at 1. rewrite chk_small by lia. unfold bind at 1. rewrite chk_small by lia.
  unfold bind at 1. rewrite chk_small by lia.
  replace (seq =? 1) with false by lia. cbn [when]. unfold bind at 1, ret at 1.
  apply bind_ub.
  replace (Z.to_nat _) with (S (Z.to_nat ((if 4 <? cnt - (seq - 1) * 4 then 4 else cnt - (seq - 1) * 4) - 1)))
    by (destruct (Z.ltb_spec 4 (cnt - (seq - 1) * 4)); lia).
  cbn [gsv_loop]. unfold lift. unfold bind at 1.
  destruct (str2int_outcome (tk_mem (nmea_tokenizer_get ts (4 * (0 + 1) + 0)))
    (tk_p (nmea_tokenizer_get ts (4 * (0 + 1) + 0))) (tk_end (nmea_tokenizer_get ts (4 * (0 + 1) + 0))))
    as [E|[v E]]; fold (tok2int (nmea_tokenizer_get ts (4 * (0 + 1) + 0))) in E; rewrite E; [done|].
  unfold bind at 1. destruct (sv_id_of ty v) eqn:Ed; try done.
  2,3: unfold sv_id_of, chk in Ed; repeat case_match; done.
  rewrite bind_reader. unfold bind at 1, gets. unfold bind at 1. rewrite ?E.
  unfold bind at 1, wr. rewrite Hc, Hp. done.
Qed.

(** The ninth sentence of a set of 33 satellites. *)
Definition ninth : list Token :=
  match nmea_tokenizer_init (lit "GPGSV,9,9,33,31,40,083,46*77") 0 28 with
  | Done ts => ts
  | _ => []
  end.

Lemma gsv_prn_overrun_witness :
  parse_gsv ninth GPS_SV (set_reader (with_svs 32 sv_info_zero reader_init) nmea_boot) = UB.
Proof.
  apply (gsv_prn_overrun ninth GPS_SV 9 9 33); try reflexivity; lia.
Defined.
