(* ===== verification/NmeaTime.v ===== *)
(** * The time of a fix

    The parser turns the date and the time of a sentence, which are UTC, into a
    [time_t] with [mktime], which takes local time, and corrects the result by
    the difference between the zones.  In a zone of constant offset the result
    is the UTC time. *)

From S2P Require Import Prelude DataCoder LbsUtility Layout Float32 Float64 Messages.
From S2P Require Import MnldState Mnld AtCommand Calendar NmeaParser NmeaText NmeaStream NmeaSafety.

Lemma seg_app_mid (pre l post : list Z) p e :
  p = zlen pre -> e = p + zlen l -> seg (pre ++ l ++ post) p e = l.
Proof.
  intros -> ->. unfold seg. rewrite Nat2Z.id, drop_app_length.
  replace (Z.to_nat _) with (length l) by lia. by rewrite take_app_length.
Qed.

(** Two digits in a buffer. *)
Lemma str2int_two pre a b post p :
  digit a -> digit b -> p = zlen pre ->
  str2int (pre ++ digit_chars [a; b] ++ post) p (p + 2) = Done (a * 10 + b).
Proof.
  intros Ha Hb ->. pose proof (str2int_digits pre false [a; b] post) as E.
  unfold int_text in E. cbn [app] in E. change (zlen (digit_chars [a; b])) with 2 in E.
  rewrite E; [|by constructor; [|constructor]|done]. unfold digit in *.
  replace (number [a; b] 0) with (a * 10 + b) by (unfold number; cbn; lia).
  by replace (a * 10 + b <? 2 ^ 31) with true by lia.
Qed.

Lemma four (P : Z -> Prop) a b c d : Forall P [a; b; c; d] -> P a /\ P b /\ P c /\ P d.
Proof. rewrite !Forall_cons. tauto. Qed.

Section zone.
Context (cal : calendar) (off : Z) (Hz : fixed_zone cal off).

Lemma utc_diff_zone w :
  exists a, nmea_reader_update_utc_diff cal w = Done (tt, with_reader (with_diff (- off)) (set_aw a w)).
Proof.
  eexists. unfold nmea_reader_update_utc_diff, on_at, time, bind, upd, modify.
  do 3 f_equal. unfold with_reader. cbn. f_equal. f_equal.
  rewrite !(fz_mktime _ _ Hz), (fz_gmtime _ _ Hz), (fz_localtime _ _ Hz).
  pose proof (fz_range _ _ Hz). set (now := a_now (n_aw w) (a_ntime (n_aw w))).
  rewrite (wrap_s_mod 32 _ (- off)).
  - apply wrap_s_id; [done|]. apply in_s_spec. lia.
  - unfold wrap_u. rewrite <- Zminus_mod. f_equal. lia.
Qed.

Definition two (a b : Z) : Z := a * 10 + b.

(** The time that the digits of a sentence denote, [sec] seconds into the
    minute. *)
Definition sentence_time (d1 d2 m1 m2 y1 y2 h1 h2 n1 n2 sec : Z) : tm :=
  Tm sec (two n1 n2) (two h1 h2) (two d1 d2) (two m1 m2 - 1) (two y1 y2 + 100) (-1).

(** Reading the time field: two digits, two digits, the seconds. *)
Lemma time_field pre h1 h2 n1 n2 secs post :
  digit h1 -> digit h2 -> digit n1 -> digit n2 ->
  let m := pre ++ digit_chars [h1; h2; n1; n2] ++ secs ++ post in let p := zlen pre in
  str2int m p (p + 2) = Done (two h1 h2) /\ str2int m (p + 2) (p + 4) = Done (two n1 n2) /\
  str2float m (p + 4) (p + 4 + zlen secs) = Done (float_of secs).
Proof.
  intros H1 H2 H3 H4 m p. split; [|split].
  - by apply (str2int_two pre h1 h2 (digit_chars [n1; n2] ++ secs ++ post)).
  - replace (p + 4) with (p + 2 + 2) by lia. subst m.
    change (digit_chars [h1; h2; n1; n2]) with (digit_chars [h1; h2] ++ digit_chars [n1; n2]).
    rewrite <- (app_assoc (digit_chars [h1; h2])), (app_assoc pre). apply str2int_two; [done|done|].
    lists. cbn. lia.
  - rewrite str2float_seg by (subst m p; lists; cbn; lia). do 2 f_equal.
    subst m. rewrite (app_assoc pre). apply seg_app_mid; [subst p; lists; cbn; lia|lia].
Qed.

(** What the reader stores as the fix, with another time stamp. *)
Definition at_time (ts : Z) (l : location) : location :=
  Loc (l_flags l) (l_lat l) (l_lng l) (l_alt l) (l_speed l) (l_bearing l) (l_accuracy l) ts.

Lemma update_time_zone w pre h1 h2 n1 n2 secs post sec :
  digit h1 -> digit h2 -> digit n1 -> digit n2 ->
  2 <= zlen secs -> f64_to_int (float_of secs) = Done sec ->
  let r := n_reader w in
  let t := Tm sec (two n1 n2) (two h1 h2) (r_utc_day r) (r_utc_mon r - 1) (r_utc_year r - 1900) (-1) in
  0 <= r_utc_year r -> 0 <= timegm t < 2 ^ 31 - 86400 ->
  returns (nmea_reader_update_time cal
      (Tok (pre ++ digit_chars [h1; h2; n1; n2] ++ secs ++ post) (zlen pre) (zlen pre + 4 + zlen secs))) w
    (fun z w' => z = 0 /\ r_fix (n_reader w') = at_time (timegm t * 1000) (r_fix r)).
Proof.
  intros H1 H2 H3 H4 Hs Hsec r t Hy Ht. unfold nmea_reader_update_time. cbn [tk_mem tk_p tk_end].
  destruct (time_field pre h1 h2 n1 n2 secs post H1 H2 H3 H4) as (Eh & Em & Es).
  iffalse. step_gets. fold r. replace (r_utc_year r <? 0) with false by lia. cbn [when].
  apply returns_bind, returns_ret. step_lift Eh. step_lift Em. step_lift Es. step_lift Hsec. step_gets.
  fold r. destruct (utc_diff_zone w) as [n Ed]. apply returns_bind. eexists _, _. split; [exact Ed|].
  step_gets. cbn [n_reader with_reader set_reader with_diff r_utc_diff].
  fold t. pose proof (fz_range _ _ Hz). apply returns_bind.
  apply (returns_lift _ (timegm t)).
  - rewrite (fz_mktime _ _ Hz), (fz_normal _ _ Hz).
    rewrite wrap_s_id by (done || apply in_s_spec; lia).
    replace (timegm t - off - - off) with (timegm t) by lia. apply chk_small. lia.
  - step_upd. by apply returns_ret.
Qed.
End zone.

(** C40: the time stamp of a fix is UTC.  In a zone of constant offset, a date
    field ddmmyy and a time field hhmmss[.sss] set the time stamp of the fix to
    the milliseconds from the epoch to that time of the years 2000 to 2099, UTC,
    as long as the seconds fit [time_t], and leave the rest of the fix alone. *)
Theorem nmea_timestamp_utc (cal : calendar) (off : Z) (w : nmea)
    (pre post pre' post' secs : list Z) (d1 d2 m1 m2 y1 y2 h1 h2 n1 n2 sec : Z) :
  fixed_zone cal off ->
  Forall digit [d1; d2; m1; m2; y1; y2; h1; h2; n1; n2] ->
  2 <= zlen secs -> f64_to_int (float_of secs) = Done sec ->
  let t := sentence_time d1 d2 m1 m2 y1 y2 h1 h2 n1 n2 sec in
  0 <= timegm t < 2 ^ 31 - 86400 ->
  exists w',
    nmea_reader_update_date cal
      (Tok (pre ++ digit_chars [d1; d2; m1; m2; y1; y2] ++ post) (zlen pre) (zlen pre + 6))
      (Tok (pre' ++ digit_chars [h1; h2; n1; n2] ++ secs ++ post') (zlen pre')
           (zlen pre' + 4 + zlen secs)) w = Done (0, w') /\
    r_fix (n_reader w') = at_time (timegm t * 1000) (r_fix (n_reader w)).
Proof.
  intros Hz Hd Hs Hsec t Ht. repeat apply Forall_cons in Hd as [? Hd].
  destruct (time_field pre d1 d2 m1 m2 (digit_chars [y1; y2]) post) as (Ed & Em & _); [done..|].
  assert (str2int (pre ++ digit_chars [d1; d2; m1; m2; y1; y2] ++ post) (zlen pre + 4) (zlen pre + 6)
          = Done (two y1 y2)) as Ey.
  { replace (zlen pre + 6) with (zlen pre + 4 + 2) by lia.
    change (digit_chars [d1; d2; m1; m2; y1; y2]) with (digit_chars [d1; d2; m1; m2] ++ digit_chars [y1; y2]).
    rewrite <- (app_assoc (digit_chars [d1; d2; m1; m2])), (app_assoc pre).
    apply str2int_two; [done|done|]. lists. cbn. lia. }
  unfold digit, two in *.
  assert (returns (nmea_reader_update_date cal
      (Tok (pre ++ digit_chars [d1; d2; m1; m2; y1; y2] ++ post) (zlen pre) (zlen pre + 6))
      (Tok (pre' ++ digit_chars [h1; h2; n1; n2] ++ secs ++ post') (zlen pre')
           (zlen pre' + 4 + zlen secs))) w (fun z w' => z = 0 /\
    r_fix (n_reader w') = at_time (timegm t * 1000) (r_fix (n_reader w)))) as (z & w' & E & -> & Hf);
    [|by exists w'].
  unfold nmea_reader_update_date. cbn [tk_mem tk_p tk_end]. rewrite Z.eqb_refl. cbn [negb].
  step_lift Ed. step_lift Em. step_lift Ey.
  step_lift (chk_small (y1 * 10 + y2 + 2000) ltac:(lia)).
  replace (_ <? 0) with false; [|symmetry; apply Z.ltb_ge; rewrite !Z.lor_nonneg; lia].
  step_upd. subst t.
  assert (Tm sec (two n1 n2) (two h1 h2) (two d1 d2) (two m1 m2 - 1) (two y1 y2 + 2000 - 1900) (-1) =
          sentence_time d1 d2 m1 m2 y1 y2 h1 h2 n1 n2 sec) as Et
    by (unfold sentence_time; f_equal; lia).
  rewrite <- Et in *.
  eapply returns_mono; [apply (update_time_zone cal off Hz); [done..|exact Hsec| |]|].
  - cbn. lia.
  - exact Ht.
  - done.
Qed.

(** 1 March 2016, 12:35:19. *)
Lemma nmea_timestamp_utc_witness :
  exists w', nmea_reader_update_date east_zone (Tok (lit "010316,") 0 6) (Tok (lit "123519.00,") 0 9)
      nmea_boot = Done (0, w') /\
    r_fix (n_reader w') = at_time (1456835719 * 1000) loc_zero.
Proof.
  refine (nmea_timestamp_utc east_zone 28800 nmea_boot [] (lit ",") [] (lit ",") (lit "19.00")
    0 1 0 3 1 6 1 2 3 5 19 east_zone_fixed _ _ _ _); [|cbn; lia|by vm_compute|vm_compute; split; congruence].
  repeat (apply Forall_cons; split; [unfold digit; lia|]). apply Forall_nil, I.
Defined.
