(* ===== verification/AtTest.v ===== *)
(** * The factory test: what it measures, and when it runs over its arrays

    Theorems about the AT command module: the statistics of a test of one
    satellite, its end, and two places where a command overruns memory. *)

From stdpp Require Import functions.
From S2P Require Import Prelude DataCoder LbsUtility Layout Messages Hal2Mnl Mnl2Hal Mnl2Agps.
From S2P Require Import Agps2Mnl FlpInterface MnldState Mnld Kernel MnldFsm MnldSystem AtCommand.
From S2P Require Import Float64 NmeaParser NmeaText.

(** ** Steps *)

Definition putting (x : at_var) (z : Z) (a : at_state) : at_state :=
  At (<[x := z]> (at_vars a)) (at_prn a) (at_snr a) (at_result a) (Dev_CNr a) (at_acks a) (at_malloc a).

Definition putting_result (i z : Z) (a : at_state) : at_state :=
  At (at_vars a) (at_prn a) (at_snr a) (<[Z.to_nat i := z]> (at_result a)) (Dev_CNr a) (at_acks a)
    (at_malloc a).

Lemma returns_put x z w (Q : unit -> at_world -> Prop) :
  Q tt (set_a_at (putting x z (a_at w)) w) -> returns (at_put x z) w Q.
Proof. intros H. by apply returns_modify. Qed.

Lemma returns_eq {A} (m m' : prog at_world A) w (E : m w = m' w) Q : returns m' w Q -> returns m w Q.
Proof. intros (a & w' & E' & H). exists a, w'. by rewrite E. Qed.

Lemma returns_get x w (Q : Z -> at_world -> Prop) : Q (at_vars (a_at w) x) w -> returns (at_get x) w Q.
Proof. intros H. by apply returns_gets. Qed.

Lemma returns_on_mnld (m : prog mnld unit) g w (Q : unit -> at_world -> Prop) :
  m (a_mnld w) = Done (tt, g) -> Q tt (AtWorld (a_at w) g (a_ntime w) (a_now w)) -> returns (on_mnld m) w Q.
Proof. intros E H. eexists _, _. split; [|exact H]. unfold on_mnld. by rewrite E. Qed.

(** The value of a variable after assignments to others. *)
Ltac vars :=
  cbn [set_a_at a_at a_mnld a_ntime a_now putting putting_result at_vars at_prn at_snr at_result Dev_CNr at_acks at_malloc] in *;
  repeat first [rewrite fn_lookup_insert | rewrite fn_lookup_insert_ne by done].
Ltac step_put := apply returns_bind, returns_put.
Ltac step_get := apply returns_bind, returns_get; vars.

(** Opening and closing the GPS for the test always succeeds. *)
Lemma at_client_returns (i : input) g :
  i = IAtStart \/ i = IAtStop -> mnld_ok g -> exists g', handler i g = Done (tt, g') /\ mnld_ok g'.
Proof.
  intros Hi Hg. assert (input_ok i) as Hok by (by destruct Hi; subst).
  destruct (input_spec (cfg_of g) i (view g)) as [[v ns]|] eqn:E.
  - destruct (serve i g v ns Hg Hok E) as (g' & n & Hs & _). exists g'. split; apply Hs.
  - apply crash_cause in E as [-> _]. by destruct Hi.
Qed.

(** ** The measurement *)

Fixpoint zsum (l : list Z) : Z := match l with [] => 0 | x :: r => x + zsum r end.
(** Sum of the squared distances from [a]. *)
Definition spread (a : Z) (l : list Z) : Z := zsum (map (fun x => (x - a) * (x - a)) l).
(** Signals are in tenths of a decibel, up to 99 dB. *)
Definition level (x : Z) : Prop := 0 <= x <= 990.

Lemma zsum_app l1 l2 : zsum (l1 ++ l2) = zsum l1 + zsum l2.
Proof. induction l1 as [|x l1 IH]; [done|]. cbn [app zsum]. rewrite IH. lia. Qed.

Lemma zsum_bound b l : Forall (fun x => 0 <= x <= b) l -> 0 <= zsum l <= b * zlen l.
Proof.
  induction 1 as [|x l Hx _ IH]; [cbn; lia|]. cbn [zsum length]. lia.
Qed.

Lemma average_level l : Forall level l -> l <> [] -> level (Z.quot (zsum l) (zlen l)).
Proof.
  intros H Hne. pose proof (zsum_bound 990 l H). assert (0 < zlen l) by (destruct l; [done|cbn; lia]).
  unfold level. rewrite Z.quot_div_nonneg by lia. split; [apply Z.div_pos; lia|].
  apply Z.div_le_upper_bound; lia.
Qed.

Lemma square_level d : - 990 <= d <= 990 -> 0 <= d * d <= 980100.
Proof. nia. Qed.

Lemma spread_bound a l : Forall level l -> level a -> 0 <= spread a l <= 980100 * zlen l.
Proof.
  intros H Ha. unfold spread. rewrite <- (length_map (fun x => (x - a) * (x - a)) l).
  apply zsum_bound. apply Forall_map. eapply Forall_impl; [exact H|]. unfold level in *. intros x Hx. cbn beta.
  apply square_level. lia.
Qed.

(** A test of [n] measurements of satellite 1 that has taken [l], in tenths of
    a decibel. *)
Record measuring (l : list Z) (n : Z) (w : at_world) : Prop := {
  me_flag : at_vars (a_at w) MNL_AT_TEST_FLAG = 1;
  me_mode : at_vars (a_at w) MNL_AT_SIGNAL_MODE = 0;
  me_begin : at_vars (a_at w) MNL_AT_SIGNAL_TEST_BEGIN = 0;
  me_state : at_vars (a_at w) MNL_AT_TEST_STATE = MNL_AT_TEST_INPROGRESS;
  me_prn : at_vars (a_at w) hal_prn_num = 1;
  me_num : at_vars (a_at w) hal_test_num = n;
  me_suc : at_vars (a_at w) Success_Num = zlen l;
  me_sum : at_vars (a_at w) CNo = zsum l;
  me_dev : at_vars (a_at w) DCNo = 0;
  me_block : exists rest, Dev_CNr (a_at w) = PBlock (l ++ rest) /\ zlen (l ++ rest) = n
}.

(** One more signal is entered. *)
Lemma signal_found_measures l n s w :
  measuring l n w -> Forall level l -> zlen l < n <= 2000 -> 1 <= s <= 99 ->
  returns (signal_found s) w (fun _ w' => measuring (l ++ [s * 10]) n w' /\
    at_vars (a_at w') Avg_CNo = Z.quot (zsum (l ++ [s * 10])) (zlen (l ++ [s * 10])) /\
    at_vars (a_at w') Err_Code = 0 /\ a_mnld w' = a_mnld w /\ at_result (a_at w') = at_result (a_at w)).
Proof.
  intros [H1 H2 H3 H4 H5 H6 H7 H8 H9 (rest & H10 & H11)] Hl Hn Hs. unfold signal_found.
  pose proof (zsum_bound 990 l Hl).
  step_get. step_get. rewrite H2, H3. cbn [negb andb when]. apply returns_bind, returns_ret.
  apply returns_bind, returns_ret. step_get. rewrite H1. change (negb (1 =? 0)) with true. cbn [when].
  step_lift (chk_small (s * 10) ltac:(lia)). apply returns_bind.
  step_put. step_get. rewrite H8. step_lift (chk_small (zsum l + s * 10) ltac:(lia)). step_put.
  step_gets. step_get. vars. rewrite H10, H7. apply returns_bind.
  destruct rest as [|x rest]; [lists; lia|].
  step_lift (wr_in_range (l ++ x :: rest) (zlen l) (s * 10) ltac:(lists; lia)).
  apply returns_modify. apply returns_bind. unfold at_incr. step_get. rewrite H7.
  step_lift (chk_small (zlen l + 1) ltac:(lia)). apply returns_put. step_get.
  replace (zlen l + 1 =? 0) with false by lia. apply returns_put. apply returns_put.
  assert (zsum (l ++ [s * 10]) = zsum l + s * 10) as Esum by (rewrite zsum_app; cbn; lia).
  split; [|vars; rewrite Esum; lists; split; [f_equal; lia|done]].
  split; vars; try done.
  - lists. lia.
  - exists rest. rewrite Nat2Z.id, insert_app_r_alt, Nat.sub_diag by lia. cbn. rewrite <- app_assoc.
    split; [done|]. rewrite <- H11. lists. lia.
Qed.

(** A variable is not one of a list. *)
Ltac notin := by apply (bool_decide_unpack _).

(** The worlds differ in the variables [xs] only. *)
Definition only (xs : list at_var) (w w' : at_world) : Prop :=
  (forall x, x ∉ xs -> at_vars (a_at w') x = at_vars (a_at w) x) /\
  at_prn (a_at w') = at_prn (a_at w) /\ at_snr (a_at w') = at_snr (a_at w) /\
  at_result (a_at w') = at_result (a_at w) /\ Dev_CNr (a_at w') = Dev_CNr (a_at w) /\
  a_mnld w' = a_mnld w.

Lemma only_refl xs w : only xs w w.
Proof. by repeat split. Qed.
Lemma only_put xs x z w w' : x ∈ xs -> only xs (set_a_at (putting x z (a_at w)) w) w' -> only xs w w'.
Proof.
  intros Hx (H1 & H). split; [|exact H]. intros y Hy. rewrite H1 by done. vars.
  by rewrite fn_lookup_insert_ne by (intros ->; done).
Qed.

Lemma deviations_sum a b w j k :
  Dev_CNr (a_at w) = PBlock b -> at_vars (a_at w) Avg_CNo = a -> level a ->
  0 <= j -> Forall level (take k (drop (Z.to_nat j) b)) -> j + Z.of_nat k <= zlen b ->
  0 <= at_vars (a_at w) DCNo -> at_vars (a_at w) DCNo + 980100 * Z.of_nat k < 2 ^ 31 ->
  returns (deviations j k) w (fun _ w' => only [DCNo] w w' /\
    at_vars (a_at w') DCNo = at_vars (a_at w) DCNo + spread a (take k (drop (Z.to_nat j) b))).
Proof.
  revert w j. induction k as [|k IH]; intros w j Hb Ha Hla Hj Hl Hlen H0 Hmax; cbn [deviations].
  { apply returns_ret. split; [apply only_refl|]. rewrite take_0. cbn. lia. }
  step_gets. rewrite Hb. destruct (rd_in b j) as (x & Ex & Hx); [lia|]. step_lift Ex. step_get. rewrite Ha.
  rewrite (drop_S b x) in Hl |- * by done. cbn [take] in *. apply Forall_cons in Hl as [Hlx Hl].
  assert (- 990 <= x - a <= 990) as Hd by (unfold level in *; lia).
  pose proof (square_level (x - a) Hd) as Hd2.
  step_lift (chk_small (x - a) ltac:(lia)). step_lift (chk_small ((x - a) * (x - a)) ltac:(lia)).
  step_get. step_lift (chk_small (at_vars (a_at w) DCNo + (x - a) * (x - a)) ltac:(lia)). step_put.
  replace (S (Z.to_nat j)) with (Z.to_nat (j + 1)) in * by lia.
  eapply returns_mono.
  - apply IH; vars; try done; lia.
  - cbn beta. vars. intros _ w' [Ho Hs]. split; [by eapply only_put, Ho; left|].
    rewrite Hs. unfold spread. cbn [map zsum]. lia.
Qed.

(** The standard deviation, cut to a whole number. *)
Lemma deviation_measures l n w :
  measuring l n w -> Forall level l -> 1 <= zlen l -> n <= 2000 ->
  let a := Z.quot (zsum l) (zlen l) in at_vars (a_at w) Avg_CNo = a ->
  returns deviation w (fun _ w' => measuring l n w' /\ only [DCNo; Dev_CNo] w w' /\
    at_vars (a_at w') Dev_CNo = Z.sqrt (Z.quot (spread a l) (zlen l))).
Proof.
  intros Hm Hl Hne Hn a Ha. assert (level a) as Hla.
  { apply average_level; [done|]. by intros ->. }
  pose proof Hm as [H1 H2 H3 H4 H5 H6 H7 H8 H9 (rest & H10 & H11)].
  assert (zlen l <= n) as Hln by (rewrite <- H11; lists; lia).
  unfold deviation. step_get. rewrite H7.
  replace (negb (zlen l =? 0)) with true by (symmetry; apply negb_true_iff, Z.eqb_neq; lia). cbn [when].
  apply returns_bind. eapply returns_mono.
  - apply (deviations_sum a (l ++ rest)); [done|done|done|lia| | |lia|lia].
    + rewrite Nat2Z.id, drop_0, take_app_length. done.
    + lists. lia.
  - rewrite Nat2Z.id, drop_0, take_app_length, H9. cbn beta. intros _ w1 [Ho Hs].
    pose proof (spread_bound a l Hl Hla). step_get. rewrite Hs, Z.add_0_l. step_put.
    replace (Z.quot (spread a l) (zlen l) <? 0) with false
      by (symmetry; apply Z.ltb_ge, Z.quot_pos; lia).
    apply returns_put. destruct Ho as (Hv & Hp & Hsn & Hr & Hdv & Hg).
    split; [|split; [split|by vars]].
    + split; vars; rewrite ?Hv by notin; try done. exists rest. by rewrite Hdv.
    + intros x Hx. apply not_elem_of_cons in Hx as [? [? ?]%not_elem_of_cons]. vars.
      apply Hv. by rewrite list_elem_of_singleton.
    + by vars.
Qed.

(** Satellite [p] is the [i]-th of the first [count] in view, with signal [s]. *)
Definition in_view (p count : Z) (i : nat) (s : Z) (a : at_state) : Prop :=
  Z.of_nat i < count /\ at_prn a !! i = Some p /\ at_snr a !! i = Some s /\
  forall j q, (j < i)%nat -> at_prn a !! j = Some q -> q <> p.

(** The search enters the signal of that satellite, and of no other. *)
Lemma search_finds p count i s w :
  in_view p count i s (a_at w) -> at_vars (a_at w) hal_prn_num = p ->
  gps_at_command_search_satellite count w = ((if s =? 0 then signal_lost else signal_found s) ;; deviation) w.
Proof.
  intros (Hi & Hp & Hs & Hbefore) Hnum. unfold gps_at_command_search_satellite.
  assert (forall k j, (j + k = Z.to_nat count)%nat -> (j <= i)%nat ->
    search_loop (Z.of_nat j) k w = ((if s =? 0 then signal_lost else signal_found s) ;; deviation) w)
    as Hloop; [|by apply (Hloop _ 0%nat); lia].
  induction k as [|k IH]; intros j Hj Hji; [lia|]. cbn [search_loop].
  destruct (lookup_lt_is_Some_2 (at_prn (a_at w)) j) as [q Eq]; [apply lookup_lt_Some in Hp; lia|].
  unfold bind at 1 2 3, gets, lift, at_get.
  rewrite (rd_lookup _ _ q) by (rewrite ?Nat2Z.id; lia || done). cbn beta iota. unfold gets. rewrite Hnum.
  destruct (decide (j = i)) as [->|Hne].
  - replace q with p by congruence. rewrite Z.eqb_refl. unfold bind at 1.
    by rewrite (rd_lookup _ _ s) by (rewrite ?Nat2Z.id; lia || done).
  - assert (q <> p) as Hq by (apply (Hbefore j); [lia|done]). apply Z.eqb_neq in Hq. rewrite Hq.
    replace (Z.of_nat j + 1) with (Z.of_nat (S j)) by lia. apply IH; lia.
Qed.

(** The statistics of a factory test.  While a test of at most 2000
    measurements runs, a set of satellites with the tested one in view at 1 to
    99 dB enters its signal, in tenths of a decibel, behind the earlier ones;
    the count, the sum, the average and the standard deviation are those of
    the list, and the daemon is not touched. *)
Theorem at_measurement (l : list Z) (n count s : Z) (i : nat) (w : at_world) :
  measuring l n w -> Forall level l -> zlen l < n <= 2000 -> 1 <= s <= 99 ->
  in_view 1 count i s (a_at w) ->
  let l' := l ++ [s * 10] in let a := Z.quot (zsum l') (zlen l') in
  exists w', gps_at_command_test_proc count w = Done (tt, w') /\ measuring l' n w' /\
    at_vars (a_at w') Avg_CNo = a /\ at_vars (a_at w') Err_Code = 0 /\
    at_vars (a_at w') Dev_CNo = Z.sqrt (Z.quot (spread a l') (zlen l')) /\
    a_mnld w' = a_mnld w.
Proof.
  intros Hm Hl Hn Hs Hv l' a.
  assert (Forall level l') as Hl'.
  { apply Forall_app. split; [done|]. constructor; [unfold level; lia|constructor]. }
  assert (returns (gps_at_command_test_proc count) w (fun _ w' => measuring l' n w' /\
    at_vars (a_at w') Avg_CNo = a /\ at_vars (a_at w') Err_Code = 0 /\
    at_vars (a_at w') Dev_CNo = Z.sqrt (Z.quot (spread a l') (zlen l')) /\
    a_mnld w' = a_mnld w)) as ([] & w' & E & H); [|by exists w'].
  unfold gps_at_command_test_proc. step_get. rewrite (me_state _ _ _ Hm).
  change (MNL_AT_TEST_INPROGRESS =? MNL_AT_TEST_DONE) with false. cbn iota. step_get.
  rewrite (me_mode _ _ _ Hm). change (0 =? 1) with false. cbn iota.
  apply (returns_eq _ _ w (search_finds 1 count i s w Hv (me_prn _ _ _ Hm))).
  replace (s =? 0) with false by lia. apply returns_bind.
  eapply returns_mono; [by apply (signal_found_measures l n s w Hm)|]. cbn beta.
  intros _ w1 (Hm1 & Ha1 & He1 & Hg1 & _).
  eapply returns_mono; [apply (deviation_measures l' n w1 Hm1 Hl')|]; [subst l'; lists; lia|lia|done|].
  cbn beta. intros _ w2 (Hm2 & (Hv2 & Hp2) & Hd2). split; [done|].
  rewrite !Hv2 by notin. repeat split; try done. destruct Hp2 as (_ & _ & _ & _ & ->). done.
Qed.

(** ** Starting a test *)

(** The counters before a test. *)
Record at_rest (w : at_world) : Prop := {
  ar_mode : at_vars (a_at w) MNL_AT_SIGNAL_MODE = 0;
  ar_begin : at_vars (a_at w) MNL_AT_SIGNAL_TEST_BEGIN = 0;
  ar_sum : at_vars (a_at w) CNo = 0;
  ar_suc : at_vars (a_at w) Success_Num = 0;
  ar_dev : at_vars (a_at w) DCNo = 0
}.

(** The allocation and the request to the main thread; [started_vars] is what
    the start leaves of the variables. *)
Definition started_vars (n now : Z) (v : at_var -> Z) (x : at_var) : Z :=
  match x with
  | hal_test_num => n
  | hal_prn_num => 1
  | hal_time_delay => 2
  | start_time => now
  | Avg_CNo => 0
  | MNL_AT_TEST_FLAG => 1
  | MNL_AT_TEST_STATE => MNL_AT_TEST_INPROGRESS
  | _ => v x
  end.

Lemma test_start_returns n w :
  1 <= n <= 2000 -> mnld_ok (a_mnld w) -> at_malloc (a_at w) (4 * n) = true ->
  at_vars (a_at w) MNL_AT_TEST_STATE = MNL_AT_TEST_UNKNOWN \/ at_vars (a_at w) test_mode_flag = 0 ->
  returns (gpsinf_mtk_gps_test_start n 1 2 0) w (fun z w' => z = 0 /\
    (forall x, at_vars (a_at w') x = started_vars n (a_now w (a_ntime w)) (at_vars (a_at w)) x) /\
    Dev_CNr (a_at w') = PBlock (zeros (Z.to_nat n)) /\
    at_prn (a_at w') = at_prn (a_at w) /\ at_snr (a_at w') = at_snr (a_at w) /\ mnld_ok (a_mnld w')).
Proof.
  intros Hn Hok Hmal Hst. unfold gpsinf_mtk_gps_test_start. step_get. step_get. apply returns_bind.
  replace (negb _ && negb _) with false.
  2: { symmetry. apply andb_false_iff. rewrite !negb_false_iff, !Z.eqb_eq. done. }
  apply returns_ret. step_put. step_put. step_put. apply returns_bind.
  eexists _, _. split; [reflexivity|]. step_put. step_put. apply returns_bind. unfold alloc_dev.
  replace (u32 (4 * n)) with (4 * n) by (symmetry; apply wrap_u_id, in_u_spec; lia).
  step_gets. vars. rewrite Hmal. apply returns_modify.
  replace (n =? 0) with false by lia. cbn [andb]. change (0 =? 1) with false. cbn iota.
  step_put. step_put. apply returns_bind. vars.
  destruct (at_client_returns IAtStart (a_mnld w)) as (g & Eg & Hg); [by left|done|].
  eapply (returns_on_mnld _ g); [exact Eg|]. apply returns_ret. split; [done|]. vars. split; [|split; [|done]].
  - intros x. destruct x; vars; done.
  - replace (4 * n / 4) with n; [done|]. rewrite Z.mul_comm, Z.div_mul; lia.
Qed.

Lemma test_start_measures n w :
  1 <= n <= 2000 -> mnld_ok (a_mnld w) -> at_malloc (a_at w) (4 * n) = true ->
  at_vars (a_at w) MNL_AT_TEST_STATE = MNL_AT_TEST_UNKNOWN \/ at_vars (a_at w) test_mode_flag = 0 ->
  at_rest w ->
  returns (gpsinf_mtk_gps_test_start n 1 2 0) w (fun z w' => z = 0 /\ measuring [] n w' /\
    at_prn (a_at w') = at_prn (a_at w) /\ at_snr (a_at w') = at_snr (a_at w)).
Proof.
  intros Hn Hok Hmal Hst [H1 H2 H3 H4 H5].
  eapply returns_mono; [by apply test_start_returns|]. cbn beta.
  intros z w' (-> & Hv & Hb & Hp & Hs & _). split; [done|]. split; [|done].
  split; rewrite ?Hv; cbn [started_vars]; try done.
  exists (zeros (Z.to_nat n)). split; [done|]. cbn [app]. lists. lia.
Qed.

(** A tool asks for five measurements while satellite 1 is seen at 45 dB. *)
Definition at_boot : at_world :=
  AtWorld (At at_init_vars (1 :: zeros 31) (45 :: zeros 31) [1; 0; 0; 0; 0; 0; 0; 0] PNull []
             (fun _ => true)) boot0 0 (fun _ => 1000).

Lemma at_measurement_witness :
  exists w1 w2, gpsinf_mtk_gps_test_start 5 1 2 0 at_boot = Done (0, w1) /\
    gps_at_command_test_proc 1 w1 = Done (tt, w2) /\ at_vars (a_at w2) Avg_CNo = 450.
Proof.
  destruct (test_start_measures 5 at_boot) as (z & w1 & E1 & -> & Hm & Hp & Hs);
    [lia|apply boot0_ok|done|by left|by split|].
  destruct (at_measurement [] 5 1 45 0 w1 Hm) as (w2 & E2 & _ & Ha & _).
  - by constructor.
  - cbn. lia.
  - lia.
  - unfold in_view. rewrite Hp, Hs. split; [cbn; lia|]. split; [done|]. split; [done|]. lia.
  - exists w1, w2. split; [exact E1|]. split; [exact E2|]. exact Ha.
Defined.

(** ** The end of a test *)

Lemma returns_result i z w (Q : unit -> at_world -> Prop) :
  0 <= i < 8 -> length (at_result (a_at w)) = 8%nat ->
  Q tt (set_a_at (putting_result i z (a_at w)) w) -> returns (set_result i z) w Q.
Proof.
  intros Hi Hl H. unfold set_result. step_gets. step_lift (wr_in_range (at_result (a_at w)) i z ltac:(lia)).
  by apply returns_modify.
Qed.

(** What stopping leaves of the variables. *)
Definition stopped_vars (v : at_var -> Z) (x : at_var) : Z :=
  match x with
  | test_mode_flag | Err_Code => 1
  | MNL_AT_TEST_STATE => MNL_AT_TEST_UNKNOWN
  | hal_test_num | hal_prn_num | hal_time_delay | MNL_AT_TEST_FLAG | MNL_AT_SIGNAL_MODE
  | MNL_AT_SET_ALARM | MNL_AT_CANCEL_ALARM | MNL_AT_SIGNAL_TEST_BEGIN | Success_Num
  | Completed_Num | Wait_Num | CNo | DCNo | Dev_CNo | test_num => 0
  | _ => v x
  end.

Lemma test_stop_returns b g w :
  Dev_CNr (a_at w) = PBlock b -> handler IAtStop (a_mnld w) = Done (tt, g) ->
  returns gpsinf_mtk_gps_test_stop w (fun z w' => z = 0 /\
    (forall x, at_vars (a_at w') x = stopped_vars (at_vars (a_at w)) x) /\
    at_result (a_at w') = at_result (a_at w) /\ Dev_CNr (a_at w') = PFreed /\ a_mnld w' = g).
Proof.
  intros Hb Hg. unfold gpsinf_mtk_gps_test_stop. step_put. apply returns_bind.
  eapply (returns_on_mnld _ g); [exact Hg|]. vars. do 17 (step_put; vars). apply returns_bind. unfold free_dev.
  step_gets. vars. rewrite Hb. apply returns_modify, returns_ret. vars.
  split; [done|]. split; [|done]. intros x. destruct x; vars; done.
Qed.

(** A test ends with its results.  When [n] signals were measured without
    a missed second, the next end of an NMEA buffer, two seconds or more after
    the start, closes the GPS for the test, stores the error code 0, the counts,
    the average and the deviation in the result array, and leaves the module
    ready for another test, with the block of the signals freed. *)
Theorem at_test_completes (l : list Z) (n : Z) (w : at_world) :
  measuring l n w -> zlen l = n -> 1 <= n <= 2000 -> mnld_ok (a_mnld w) ->
  at_vars (a_at w) Err_Code = 0 -> at_vars (a_at w) Failure_Num = 0 ->
  at_vars (a_at w) prev_success_num <> n -> length (at_result (a_at w)) = 8%nat ->
  at_vars (a_at w) hal_time_delay <= a_now w (a_ntime w) - at_vars (a_at w) start_time < 2 ^ 31 ->
  - 2 ^ 31 <= at_vars (a_at w) hal_time_delay ->
  exists w', nmea_parser_at_cmd_pre true w = Done (tt, w') /\
    at_result (a_at w') =
      <[6%nat := at_vars (a_at w) Dev_CNo]> (<[5%nat := at_vars (a_at w) Avg_CNo]>
        (<[4%nat := n]> (<[3%nat := n]> (<[0%nat := 0]> (at_result (a_at w)))))) /\
    handler IAtStop (a_mnld w) = Done (tt, a_mnld w') /\
    at_rest w' /\ at_vars (a_at w') MNL_AT_TEST_FLAG = 0 /\
    at_vars (a_at w') MNL_AT_TEST_STATE = MNL_AT_TEST_UNKNOWN /\ Dev_CNr (a_at w') = PFreed.
Proof.
  intros [H1 H2 H3 H4 H5 H6 H7 H8 H9 (rest & H10 & H11)] Hl Hn Hok Herr Hf Hprev Hres Ht Hd.
  destruct (at_client_returns IAtStop (a_mnld w)) as (g & Eg & Hg); [by right|done|].
  match goal with |- exists w', ?m w = _ /\ @?P w' => assert (returns m w (fun _ => P)) as ([] & w' & E & HP); [|by exists w'] end.
  unfold nmea_parser_at_cmd_pre. step_get. step_get. rewrite H1. change (1 =? 1) with true. cbn [orb when].
  apply returns_bind. eexists _, _. split; [reflexivity|]. step_get.
  apply returns_bind. apply (returns_lift _ (a_now w (a_ntime w) - at_vars (a_at w) start_time)).
  { unfold chk, in_s. iftrue. done. }
  step_get. replace (_ <=? _) with true by (symmetry; apply Z.leb_le; lia). cbn [andb when].
  apply returns_bind. unfold test_second. step_get. step_get. step_get. rewrite H6, H7, Hl.
  replace (0 <? n) with true by lia. apply Z.eqb_neq in Hprev. rewrite Hprev. cbn [when].
  apply returns_bind, returns_ret. step_get. rewrite Hf. step_lift (chk_small (n + 0) ltac:(lia)).
  step_put. apply returns_ret. rewrite Z.add_0_r, Z.eqb_refl. step_get. rewrite H7, Hl. step_put.
  cbn [when]. unfold test_done. do 5 step_get. rewrite Herr, H7, Hl. vars.
  do 5 (apply returns_bind, returns_result; [lia|vars; by rewrite ?length_insert|vars]).
  do 3 (step_put; vars). step_get. rewrite H1. change (1 =? 1) with true. cbn [when].
  apply returns_bind. eapply returns_mono; [eapply (test_stop_returns _ g); [exact H10|exact Eg]|].
  cbn beta. intros z w1 (_ & Hv & Hr & Hb & Hg1). step_put. apply returns_put. vars.
  rewrite Hr, Hb, Hg1. split; [done|]. split; [done|]. split; [|split; [|split; [|done]]].
  - split; vars; by rewrite Hv.
  - by rewrite Hv.
  - by rewrite Hv.
Qed.

(** One measurement was asked for and taken. *)
Definition measured_world : at_world :=
  AtWorld (At (fun x => match x with
                        | Success_Num => 1 | CNo | Avg_CNo | cn => 450 | Err_Code => 0
                        | _ => started_vars 1 1000 at_init_vars x
                        end)
             (1 :: zeros 31) (45 :: zeros 31) [1; 0; 0; 0; 0; 0; 0; 0] (PBlock [450]) [] (fun _ => true))
    boot0 0 (fun _ => 1003).

Lemma at_test_completes_witness :
  exists w', nmea_parser_at_cmd_pre true measured_world = Done (tt, w') /\
    at_result (a_at w') = [0; 0; 0; 1; 1; 450; 0; 0].
Proof.
  destruct (at_test_completes [450] 1 measured_world) as (w' & E & Hr & _);
    [|done|lia|apply boot0_ok|done|done|done|done|vm_compute; split; congruence|vm_compute; congruence|].
  - split; try done. by exists [].
  - exists w'. split; [exact E|exact Hr].
Defined.

(** ** Where a command overruns memory *)

Lemma ub_after {A B} (m : prog at_world A) (k : A -> prog at_world B) w :
  returns m w (fun a w' => k a w' = UB) -> bind m k w = UB.
Proof. intros (a & w' & E & H). unfold bind. by rewrite E. Qed.
Lemma ub_here {A B} (m : prog at_world A) (k : A -> prog at_world B) w : m w = UB -> bind m k w = UB.
Proof. intros E. unfold bind. by rewrite E. Qed.

Ltac ub_get := apply ub_after, returns_get; vars.

(** [cmd] has 20 bytes and the terminator is stored behind what was
    received: a datagram of 20 bytes or more makes the handler write outside
    the array, whatever it holds. *)
Theorem at_cmd_overflow (junk : nat -> Z) (fd : Z) (msg : list Z) (rest : list recvres) (w : at_world) :
  20 <= zlen msg -> at_cmd2mnl_hdlr junk fd (RData msg :: rest) w = UB.
Proof.
  intros Hl. unfold at_cmd2mnl_hdlr. unfold bind at 1, at_put, upd_at, modify. cbn [at_cmd_loop].
  unfold bind at 1, lift, wr. assert (length (take 20 msg) = 20%nat) as E by (rewrite length_take; lia).
  rewrite E. destruct (andb _ _) eqn:Hb; [|done]. exfalso.
  apply andb_true_iff in Hb as [_ Hb%Z.ltb_lt].
  unfold local in Hb. rewrite length_app, length_drop, length_map, length_seq, E in Hb. lia.
Qed.

Lemma at_cmd_overflow_witness :
  at_cmd2mnl_hdlr (fun _ => 0) 7 [RData (lit "AT%GNSS=000000000005")] at_boot = UB.
Proof. apply (at_cmd_overflow (fun _ => 0) 7 (lit "AT%GNSS=000000000005") [] at_boot). cbn. lia. Defined.

(** A test that runs is not wound up when another is started.  After
    [AT%GPS], which clears [test_mode_flag], has measured the signals [l], a
    second start with no more measurements than that allocates a block for its
    own [m] but keeps counting from the old ones; the next signal of the
    satellite is written outside the block. *)
Theorem at_restart_overrun (l : list Z) (n m count s : Z) (i : nat) (w : at_world) :
  measuring l n w -> Forall level l -> zlen l <= n <= 2000 -> 1 <= m <= zlen l ->
  mnld_ok (a_mnld w) -> at_malloc (a_at w) (4 * m) = true -> at_vars (a_at w) test_mode_flag = 0 ->
  1 <= s <= 99 -> in_view 1 count i s (a_at w) ->
  (gpsinf_mtk_gps_test_start m 1 2 0 ;; gps_at_command_test_proc count) w = UB.
Proof.
  intros Hm Hl Hn Hml Hok Hmal Htm Hs Hv.
  destruct (test_start_returns m w) as (z & w1 & E1 & _ & Hv1 & Hb1 & Hp1 & Hs1 & _);
    [lia|done|done|by right|].
  pose proof Hm as [H1 H2 H3 H4 H5 H6 H7 H8 H9 _]. pose proof (zsum_bound 990 l Hl).
  apply ub_after. exists z, w1. split; [exact E1|]. unfold gps_at_command_test_proc.
  ub_get. rewrite Hv1. cbn [started_vars]. change (MNL_AT_TEST_INPROGRESS =? MNL_AT_TEST_DONE) with false.
  cbn iota. ub_get. rewrite Hv1. cbn [started_vars]. rewrite H2. change (0 =? 1) with false. cbn iota.
  rewrite (search_finds 1 count i s);
    [|unfold in_view; rewrite Hp1, Hs1; exact Hv|by rewrite Hv1].
  replace (s =? 0) with false by lia. apply ub_here. unfold signal_found.
  ub_get. ub_get. rewrite !Hv1. cbn [started_vars]. rewrite H2, H3. cbn [negb andb when Z.eqb].
  apply ub_after, returns_ret, ub_after, returns_ret. ub_get. rewrite Hv1. cbn [started_vars].
  apply ub_after. exists (s * 10), w1. split.
  { unfold lift. by rewrite chk_small by lia. }
  apply ub_here. change (negb (1 =? 0)) with true. cbn [when].
  apply ub_after, returns_put. ub_get. rewrite Hv1. cbn [started_vars]. rewrite H8.
  apply ub_after. exists (zsum l + s * 10). eexists. split.
  { unfold lift. by rewrite chk_small by lia. }
  apply ub_after, returns_put. apply ub_after, returns_gets. ub_get. rewrite Hv1, Hb1. cbn [started_vars].
  rewrite H7. apply ub_here, ub_here. unfold lift, wr. destruct (andb _ _) eqn:Hb; [|done]. exfalso.
  apply andb_true_iff in Hb as [_ Hb%Z.ltb_lt]. revert Hb. lists. lia.
Qed.

Lemma at_restart_overrun_witness :
  (gpsinf_mtk_gps_test_start 1 1 2 0 ;; gps_at_command_test_proc 1)
    (AtWorld (At (started_vars 1 1000 (fun x => match x with Success_Num => 1 | CNo => 450 | test_mode_flag => 0
         | _ => at_init_vars x end))
       (1 :: zeros 31) (45 :: zeros 31) [1; 0; 0; 0; 0; 0; 0; 0] (PBlock [450]) [] (fun _ => true))
       boot0 0 (fun _ => 1003)) = UB.
Proof.
  apply (at_restart_overrun [450] 1 1 1 45 0);
    [|apply Forall_singleton; unfold level; lia|cbn; lia|cbn; lia|apply boot0_ok|done|done|lia|].
  - split; try done. by exists [].
  - split; [done|]. split; [done|]. split; [done|]. lia.
Defined.
