(* ===== verification/GpsHalFront.v ===== *)
(** * The HAL between Android and the daemon

    What the entry points of the HAL send and remember, what the daemon's
    messages become for Android, and how the two processes find together again
    after the daemon has restarted. *)

From stdpp Require Import gmap.
From S2P Require Import Prelude DataCoder LbsUtility Layout Float32 Float64 Messages Hal2Mnl Mnl2Hal.
From S2P Require Import Mnl2Agps Agps2Mnl FlpInterface MnldState Mnld Kernel MnldFsm MnldSystem.
From S2P Require Import MnldForward GpsHal AtCommand NmeaParser.
Import HalTypes.

#[local] Opaque send_msg.

(** The values of Android's [hardware/gps.h]. *)
Definition aosp_gps_h : gps_h := {|
  sizeof_GpsCallbacks := 104; gps_location_flags_bits := 16;
  GPS_NI_SHORT_STRING_MAXLEN := 256; GPS_NI_LONG_STRING_MAXLEN := 2048;
  gnss_sv_list_len := 64; gps_measurements_len := 32; gnss_measurements_len := 64;
  GPS_NI_TYPE_UMTS_SUPL := 2; GPS_NI_NEED_NOTIFY := 1; GPS_NI_NEED_VERIFY := 2;
  GPS_NI_PRIVACY_OVERRIDE := 4; GPS_NI_RESPONSE_NORESP := 3;
  AGPS_TYPE_SUPL := 1; GPS_REQUEST_AGPS_DATA_CONN := 1; GPS_RELEASE_AGPS_DATA_CONN := 2;
  AGPS_REF_LOCATION_TYPE_GSM_CELLID := 1; AGPS_REF_LOCATION_TYPE_UMTS_CELLID := 2;
  GPS_GEOFENCE_OPERATION_SUCCESS := 0; GPS_GEOFENCE_ERROR_GENERIC := -149;
  GPS_NAVIGATION_MESSAGE_OPERATION_SUCCESS := 0; GPS_NAVIGATION_MESSAGE_ERROR_GENERIC := -101;
  AGPS_INTERFACE := "agps"; GPS_NI_INTERFACE := "gps-ni"; AGPS_RIL_INTERFACE := "agps_ril";
  GPS_MEASUREMENT_INTERFACE := "gps_measurement";
  GPS_NAVIGATION_MESSAGE_INTERFACE := "gps_navigation_message"
|}%string.

(** ** What Android asks for *)

Inductive entry : Type := EnInit | EnStart | EnStop | EnCleanup.

Definition target (e : entry) : gpshal_state :=
  match e with
  | EnInit => GPSHAL_STATE_INIT
  | EnStart => GPSHAL_STATE_START
  | EnStop => GPSHAL_STATE_STOP
  | EnCleanup => GPSHAL_STATE_CLEANUP
  end.

Definition request (e : entry) : hal2mnl_msg :=
  match e with
  | EnInit => H_gps_init
  | EnStart => H_gps_start
  | EnStop => H_gps_stop
  | EnCleanup => H_gps_cleanup
  end.

Definition enter (hw : gps_h) (e : entry) : prog gpshal unit :=
  match e with
  | EnInit => let* _ := gpsinf_init hw (Some (sizeof_GpsCallbacks hw)) in ret tt
  | EnStart => let* _ := gpsinf_start in ret tt
  | EnStop => let* _ := gpsinf_stop in ret tt
  | EnCleanup => gpsinf_cleanup
  end.

(** The other calls of the tables that Android has: the interface itself, the
    aiding data and the position mode, measurements and navigation messages, and
    the interfaces of AGPS ([mtk_agps_inf], [mtk_gps_ni_inf], [mtk_agps_ril_inf]). *)
Inductive other_call : Type :=
| CGetInterface
| CInjectTime (time timeReference uncertainty : Z)
| CInjectLocation (latitude longitude accuracy : Z)
| CDeleteAidingData (flags : Z)
| CSetPositionMode (mode recurrence min_interval preferred_accuracy preferred_time : Z)
| CMeasInit | CMeasClose | CNaviInit | CNaviClose
| CAgpsInit
| CDataConnOpen (apn : cptr)
| CDataConnOpenWithApnIpType (apn : cptr) (apnIpType : Z)
| CDataConnClosed | CDataConnFailed
| CSetServer (type : Z) (hostname : cptr) (port : Z)
| CNiInit
| CNiRespond (notif_id user_response : Z)
| CRilInit
| CRilSetRefLocation (type mcc mnc lac cid : Z)
| CRilSetSetId (type : Z) (setid : cptr)
| CRilNiMessage (msg : list Z) (len : Z)
| CRilNetworkState (connected type roaming : Z) (extra_info : cptr)
| CRilNetworkAvailability (available : Z) (apn : cptr).

(** [data_conn_open] and its two neighbours are the senders themselves. *)
Definition call_other (hw : gps_h) (c : other_call) : prog gpshal unit :=
  match c with
  | CGetInterface => gps_device__get_gps_interface
  | CInjectTime t r u => let* _ := gpsinf_inject_time t r u in ret tt
  | CInjectLocation a b c => let* _ := gpsinf_inject_location a b c in ret tt
  | CDeleteAidingData f => gpsinf_delete_aiding_data f
  | CSetPositionMode a b c d e => let* _ := gpsinf_set_position_mode a b c d e in ret tt
  | CMeasInit => let* _ := measinf_init hw in ret tt
  | CMeasClose => measinf_close
  | CNaviInit => let* _ := navimsginf_init hw in ret tt
  | CNaviClose => navimsginf_close
  | CAgpsInit => agpsinf_init
  | CDataConnOpen apn => send (hal2mnl_data_conn_open apn)
  | CDataConnOpenWithApnIpType apn t => let* _ := agpsinf_data_conn_open_with_apn_ip_type apn t in ret tt
  | CDataConnClosed => send hal2mnl_data_conn_closed
  | CDataConnFailed => send hal2mnl_data_conn_failed
  | CSetServer t h p => let* _ := agpsinf_set_server t h p in ret tt
  | CNiInit => gpsni_init
  | CNiRespond n u => gpsni_respond n u
  | CRilInit => agps_ril_init
  | CRilSetRefLocation t a b c d => agps_ril_set_ref_location hw t a b c d
  | CRilSetSetId t s => agps_ril_set_set_id t s
  | CRilNiMessage m n => agps_ril_ni_message m n
  | CRilNetworkState c t r e => agps_ril_update_network_state c t r e
  | CRilNetworkAvailability a p => agps_ril_update_network_availability a p
  end.

(** The request that such a call makes, if any, whatever the state. *)
Definition asks (hw : gps_h) (c : other_call) : option hal2mnl_msg :=
  match c with
  | CGetInterface => Some H_hal_reboot
  | CInjectTime t r u => Some (H_gps_inject_time t r u)
  | CInjectLocation a b c => Some (H_gps_inject_location a b c)
  | CDeleteAidingData f => Some (H_gps_delete_aiding_data f)
  | CSetPositionMode a b c d e => Some (H_gps_set_position_mode a b c d e)
  | CMeasInit => Some (H_set_gps_measurement true)
  | CMeasClose => Some (H_set_gps_measurement false)
  | CNaviInit => Some (H_set_gps_navigation true)
  | CNaviClose => Some (H_set_gps_navigation false)
  | CAgpsInit | CNiInit | CRilInit => None
  | CDataConnOpen apn => Some (H_data_conn_open apn)
  | CDataConnOpenWithApnIpType apn t => Some (H_data_conn_open_with_apn_ip_type apn t)
  | CDataConnClosed => Some H_data_conn_closed
  | CDataConnFailed => Some H_data_conn_failed
  | CSetServer t h p => Some (H_set_server t h p)
  | CNiRespond n u => Some (H_ni_respond n u)
  | CRilSetRefLocation t a b c d =>
      if (u16 t =? AGPS_REF_LOCATION_TYPE_GSM_CELLID hw) || (u16 t =? AGPS_REF_LOCATION_TYPE_UMTS_CELLID hw)
      then Some (H_set_ref_location (u16 t) a b c d) else None
  | CRilSetSetId t s => Some (H_set_id t s)
  | CRilNiMessage m n => Some (H_ni_message m (s32 n))
  | CRilNetworkState c t r e => Some (H_update_network_state c t r e)
  | CRilNetworkAvailability a p => Some (H_update_network_availability a p)
  end.

(** Arguments of their C types, in a request that fits the message buffer. *)
Definition call_ok (hw : gps_h) (c : other_call) : Prop :=
  match asks hw c with
  | Some m => hal2mnl_ok m /\ zlen (hal2mnl_bytes m) <= HAL_MNL_BUFF_SIZE
  | None => True
  end.

(** All that Android can call. *)
Inductive android_call : Type := Life (e : entry) | Other (c : other_call).

Definition call_one (hw : gps_h) (c : android_call) : prog gpshal unit :=
  match c with Life e => enter hw e | Other o => call_other hw o end.
Fixpoint call_all (hw : gps_h) (cs : list android_call) : prog gpshal unit :=
  match cs with
  | [] => ret tt
  | c :: rest => call_one hw c ;; call_all hw rest
  end.

(** What is sent, with resources ([ok]) and without. *)
Definition requests (hw : gps_h) (ok : bool) (c : android_call) : list hal2mnl_msg :=
  match c with
  | Life e => if ok then [request e] else []
  | Other o => option_list (asks hw o)
  end.
Definition all_requests (hw : gps_h) (ok : bool) (cs : list android_call) : list hal2mnl_msg :=
  concat (map (requests hw ok) cs).

(** The state that a request stands for. *)
Definition state_of_request (m : hal2mnl_msg) : option gpshal_state :=
  match m with
  | H_gps_init => Some GPSHAL_STATE_INIT
  | H_gps_start => Some GPSHAL_STATE_START
  | H_gps_stop => Some GPSHAL_STATE_STOP
  | H_gps_cleanup => Some GPSHAL_STATE_CLEANUP
  | _ => None
  end.
Definition intent_of (c : android_call) : option gpshal_state :=
  match c with Life e => Some (target e) | Other _ => None end.

(** A request, with the result of its [sendto]. *)
Definition sent_msg (m : hal2mnl_msg) (r : Z) : event := EvSend MTK_HAL2MNL (hal2mnl_bytes m) r.
(** The state after it: that of the last request that was sent. *)
Definition moved (s : gpshal_state) (mr : hal2mnl_msg * Z) : gpshal_state :=
  if 0 <? snd mr then default s (state_of_request (fst mr)) else s.

(** A request, and whether it could be sent. *)
Definition sent_with (e : entry) (r : Z) : event := EvSend MTK_HAL2MNL (hal2mnl_bytes (request e)) r.
(** The state the HAL believes in: that of the last request that was sent. *)
Definition believed (s : gpshal_state) (er : entry * Z) : gpshal_state :=
  if 0 <? snd er then target (fst er) else s.

(** The HAL has its socket, its thread and Android's table. *)
Record hal_ready (h : gpshal) : Prop := {
  hr_kernel : kernel_ok (h_sys h);
  hr_state : 1 <= rank (gps_state h);
  hr_intent : gps_state_intent h <> GPSHAL_STATE_UNKNOWN;
  hr_cbs : gps_cbs (h_cbs h) = true
}.

Lemma safe_sendto_sends path msg s :
  kernel_ok s -> path_len path + 1 <= SUN_PATH_SIZE ->
  exists r s', safe_sendto path msg s = Done (r, s') /\ kernel_ok s' /\
    sys_trace s' = sys_trace s ++ [EvSend path msg r].
Proof.
  intros [Hk Hc] Hp. destruct (Hk (sys_nsend s)) as (fd & rest & r & E & Hfd & Hr).
  unfold safe_sendto, bind at 1, next_answers. rewrite E.
  replace (fd <? 0) with false by (symmetry; apply Z.ltb_ge; lia).
  replace (path_len path + 1 <=? SUN_PATH_SIZE) with true by (symmetry; by apply Z.leb_le).
  rewrite Hr. eexists r, _. split; [reflexivity|]. by split.
Qed.

Definition sender (e : entry) : prog sys Z :=
  match e with
  | EnInit => hal2mnl_gps_init
  | EnStart => hal2mnl_gps_start
  | EnStop => hal2mnl_gps_stop
  | EnCleanup => hal2mnl_gps_cleanup
  end.

Lemma sender_sends e s :
  kernel_ok s ->
  exists r s', sender e s = Done (r, s') /\ kernel_ok s' /\ sys_trace s' = sys_trace s ++ [sent_with e r].
Proof.
  intros Hk. destruct (safe_sendto_sends MTK_HAL2MNL (hal2mnl_bytes (request e)) s Hk) as (r & s' & E & H);
    [done|]. exists r, s'. split; [|exact H]. rewrite <- E.
  set (body := put_int HAL_MNL_INTERFACE_VERSION ;; put_int (fst (hal2mnl_fields (request e)))).
  assert (Writes body (hal2mnl_bytes (request e))) as Hw.
  { unfold body, hal2mnl_bytes, enc_msg, enc_fields.
    destruct e; cbn [request hal2mnl_fields map concat fst]; rewrite ?app_nil_r; solve_writes. }
  replace (sender e) with (hal_msg body) by (by destruct e).
  rewrite (send_msg_bytes HAL_MNL_BUFF_SIZE MTK_HAL2MNL body _ ltac:(done) Hw s). by destruct e.
Qed.

(** What one request does. *)
Record requested (e : entry) (r : Z) (h h' : gpshal) : Prop := {
  rq_ready : hal_ready h';
  rq_trace : sys_trace (h_sys h') = sys_trace (h_sys h) ++ [sent_with e r];
  rq_state : gps_state h' = believed (gps_state h) (e, r);
  rq_intent : gps_state_intent h' = gps_state_intent h;
  rq_fd : fd_mnl2hal h' = fd_mnl2hal h;
  rq_calls : h_calls h' = h_calls h
}.

Lemma gpshal2mnl_requests e h :
  hal_ready h ->
  exists r h', gpshal2mnl (sender e) (target e) h = Done (tt, h') /\ requested e r h h'.
Proof.
  intros [Hk Hs Hi Hc]. destruct (sender_sends e (h_sys h) Hk) as (r & s' & E & Hk' & Ht).
  exists r. unfold gpshal2mnl, bind at 1, gets.
  replace (rank GPSHAL_STATE_RESOURCE <=? rank (gps_state h)) with true by (symmetry; by apply Z.leb_le).
  cbn [when]. unfold bind, on_sys. cbn [sys_of gpshal_has_sys]. rewrite E.
  assert (believed (gps_state h) (e, r) = if 0 <? r then target e else gps_state h) as Hb by done.
  destruct (0 <? r); eexists; (split; [reflexivity|]); split.
  all: try exact Ht; try (symmetry; exact Hb); try reflexivity.
  - split; [exact Hk'|by destruct e|exact Hi|exact Hc].
  - split; [exact Hk'|exact Hs|exact Hi|exact Hc].
Qed.

(** Before the request: the intent, and Android's table. *)
Definition entered (e : entry) (h : gpshal) : gpshal :=
  set_intent (target e)
    (match e with
     | EnInit => set_cbs (fun t => Tables true (agps_cbs t) (gpsni_cbs t) (agpsril_cbs t) (meas_cbs t)
                                     (navimsg_cbs t)) h
     | _ => h
     end).

Lemma entered_ready e h : hal_ready h -> hal_ready (entered e h).
Proof. intros [Hk Hs Hi Hc]. by destruct e. Qed.

Lemma ret_void {A} (m : prog gpshal unit) (a : A) h : (let* _ := (m ;; ret a) in ret tt) h = m h.
Proof. unfold bind, ret. by destruct (m h) as [[[] ?]| | |]. Qed.

Lemma enter_init hw h h0 :
  gpshal_resource_init h = Done (tt, h0) ->
  enter hw EnInit h = gpshal2mnl hal2mnl_gps_init GPSHAL_STATE_INIT (set_intent GPSHAL_STATE_INIT h0).
Proof.
  intros E. rewrite <- (ret_void gpshal2mnl_gps_init 0). unfold enter, gpsinf_init, gpshal_gpscbs_save.
  rewrite Z.eqb_refl. unfold bind at 1 2 3. by rewrite E.
Qed.

Lemma enter_entered hw e h :
  gps_state_intent h <> GPSHAL_STATE_UNKNOWN ->
  enter hw e h = gpshal2mnl (sender e) (target e) (entered e h).
Proof.
  intros Hi. destruct e; [|apply (ret_void gpshal2mnl_gps_start 0 (set_intent _ h))
                          |apply (ret_void gpshal2mnl_gps_stop 0 (set_intent _ h))|done].
  apply enter_init. unfold gpshal_resource_init, bind, modify, gets. cbn [gps_state_intent set_cbs].
  by destruct (bool_decide_reflect (GPSHAL_STATE_UNKNOWN = gps_state_intent h)); [congruence|].
Qed.

Lemma enter_requests hw e h :
  hal_ready h ->
  exists r h', enter hw e h = Done (tt, h') /\ hal_ready h' /\
    sys_trace (h_sys h') = sys_trace (h_sys h) ++ [sent_with e r] /\
    gps_state h' = believed (gps_state h) (e, r) /\
    gps_state_intent h' = target e /\ h_calls h' = h_calls h.
Proof.
  intros Hh. destruct (gpshal2mnl_requests e (entered e h) (entered_ready e h Hh)) as
    (r & h' & E & [H1 H2 H3 H4 _ H5]).
  exists r, h'. rewrite enter_entered by apply Hh. split; [exact E|]. split; [exact H1|].
  rewrite H2, H3, H4, H5. by destruct e.
Qed.

(** The other calls: the request whatever the state, which they leave alone. *)
Record untouched (h h' : gpshal) : Prop := {
  un_state : gps_state h' = gps_state h;
  un_intent : gps_state_intent h' = gps_state_intent h;
  un_calls : h_calls h' = h_calls h;
  un_res : h_res h' = h_res h;
  un_gps : gps_cbs (h_cbs h') = gps_cbs (h_cbs h)
}.

Lemma untouched_trans h1 h2 h3 : untouched h1 h2 -> untouched h2 h3 -> untouched h1 h3.
Proof. intros [? ? ? ? ?] [? ? ? ? ?]. split; congruence. Qed.

Lemma message_sends m h :
  hal2mnl_ok m -> zlen (hal2mnl_bytes m) <= HAL_MNL_BUFF_SIZE -> kernel_ok (h_sys h) ->
  exists r h', hal2mnl_send m h = Done (r, h') /\ kernel_ok (h_sys h') /\
    sys_trace (h_sys h') = sys_trace (h_sys h) ++ [sent_msg m r] /\ untouched h h'.
Proof.
  intros Hok Hlen Hk.
  destruct (safe_sendto_sends MTK_HAL2MNL (hal2mnl_bytes m) (h_sys h) Hk ltac:(done)) as (r & s' & E & Hk' & Ht).
  rewrite (hal2mnl_send_shape m Hok) by (unfold HAL_MNL_BUFF_SIZE in Hlen; lia).
  rewrite (proj2 (Z.leb_le _ _) Hlen). unfold bind, modify, on_sys. cbn [sys_of set_sys gpshal_has_sys].
  cbn [set_pace gpshal_has_pace h_sys]. rewrite E. eexists r, _. split; [reflexivity|]. done.
Qed.

(** What a call does before its request. *)
Definition prepare (c : other_call) (h : gpshal) : gpshal :=
  match c with
  | CMeasInit => set_cbs (fun t => Tables (gps_cbs t) (agps_cbs t) (gpsni_cbs t) (agpsril_cbs t) true (navimsg_cbs t)) h
  | CNaviInit => set_cbs (fun t => Tables (gps_cbs t) (agps_cbs t) (gpsni_cbs t) (agpsril_cbs t) (meas_cbs t) true) h
  | CAgpsInit => set_cbs (fun t => Tables (gps_cbs t) true (gpsni_cbs t) (agpsril_cbs t) (meas_cbs t) (navimsg_cbs t)) h
  | CNiInit => set_cbs (fun t => Tables (gps_cbs t) (agps_cbs t) true (agpsril_cbs t) (meas_cbs t) (navimsg_cbs t)) h
  | CRilInit => set_cbs (fun t => Tables (gps_cbs t) (agps_cbs t) (gpsni_cbs t) true (meas_cbs t) (navimsg_cbs t)) h
  | _ => h
  end.

Lemma call_other_is hw c h :
  call_other hw c h =
  match asks hw c with
  | Some m => (let* _ := hal2mnl_send m in ret tt) (prepare c h)
  | None => Done (tt, prepare c h)
  end.
Proof.
  destruct c; cbn [call_other asks prepare hal2mnl_send].
  all: unfold gps_device__get_gps_interface, gpsinf_inject_time, gpsinf_inject_location, gpsinf_delete_aiding_data,
    gpsinf_set_position_mode, measinf_init, measinf_close, navimsginf_init, navimsginf_close, agpsinf_init,
    agpsinf_data_conn_open_with_apn_ip_type, agpsinf_set_server, gpsni_init, gpsni_respond, agps_ril_init,
    agps_ril_set_ref_location, agps_ril_set_set_id, agps_ril_ni_message, agps_ril_update_network_state,
    agps_ril_update_network_availability, send.
  all: try (destruct (_ || _); cbn [when hal2mnl_send]).
  all: lazymatch goal with
       | |- context [@on_sys ?w ?hs ?r ?m] => generalize (@on_sys w hs r m)
       | |- context [hal2mnl_gps_set_position_mode ?a ?b ?c ?d ?e] =>
           generalize (hal2mnl_gps_set_position_mode (W := gpshal) a b c d e)
       | |- _ => intros; reflexivity
       end; intros p; unfold bind, modify, ret; by destruct (p _) as [[? ?]| | |].
Qed.

Lemma call_other_sends hw c h :
  call_ok hw c -> kernel_ok (h_sys h) ->
  exists rs h', call_other hw c h = Done (tt, h') /\ length rs = length (option_list (asks hw c)) /\
    kernel_ok (h_sys h') /\ untouched h h' /\
    sys_trace (h_sys h') = sys_trace (h_sys h) ++ zip_with sent_msg (option_list (asks hw c)) rs.
Proof.
  intros Hc Hk. rewrite call_other_is. unfold call_ok in Hc.
  assert (untouched h (prepare c h) /\ h_sys (prepare c h) = h_sys h) as [Hu Hs] by (by destruct c).
  destruct (asks hw c) as [m|]; cbn [option_list].
  - destruct Hc as [Hok Hlen]. rewrite <- Hs in Hk. destruct (message_sends m _ Hok Hlen Hk) as (r & h' & E & Hk' & Ht & Hu').
    exists [r], h'. rewrite (bind_done _ _ _ _ _ E). split; [done|]. split; [done|]. split; [done|].
    split; [by eapply untouched_trans|]. by rewrite Ht, Hs.
  - exists [], (prepare c h). rewrite Hs, app_nil_r. done.
Qed.

(** ** A sequence of calls *)

(** What a sequence of calls sends and leaves. *)
Record called (hw : gps_h) (ok : bool) (cs : list android_call) (h h' : gpshal) (rs : list Z) : Prop := {
  cd_kernel : kernel_ok (h_sys h');
  cd_results : length rs = length (all_requests hw ok cs);
  cd_trace : sys_trace (h_sys h') = sys_trace (h_sys h) ++ zip_with sent_msg (all_requests hw ok cs) rs;
  cd_state : gps_state h' = fold_left moved (zip (all_requests hw ok cs) rs) (gps_state h);
  cd_intent : gps_state_intent h' = default (gps_state_intent h) (last (omap intent_of cs));
  cd_calls : h_calls h' = h_calls h
}.

Lemma called_nil hw ok h : kernel_ok (h_sys h) -> called hw ok [] h h [].
Proof. by split; rewrite ?app_nil_r. Qed.

Lemma last_omap_cons (c : android_call) cs (i : gpshal_state) :
  default i (last (omap intent_of (c :: cs))) =
  default (default i (intent_of c)) (last (omap intent_of cs)).
Proof.
  cbn. destruct (intent_of c); [|done]. rewrite last_cons. by destruct (last (omap intent_of cs)).
Qed.

Lemma called_cons hw ok c cs h h1 h2 rs1 rs2 :
  called hw ok [c] h h1 rs1 -> called hw ok cs h1 h2 rs2 -> called hw ok (c :: cs) h h2 (rs1 ++ rs2).
Proof.
  intros [K1 L1 T1 S1 I1 C1] [K2 L2 T2 S2 I2 C2].
  assert (all_requests hw ok (c :: cs) = all_requests hw ok [c] ++ all_requests hw ok cs) as E
    by (unfold all_requests; cbn; by rewrite app_nil_r).
  split; rewrite ?E; try done; try congruence.
  - rewrite !length_app. lia.
  - rewrite T2, T1, zip_with_app by done. by rewrite app_assoc.
  - rewrite zip_with_app, fold_left_app by done. congruence.
  - rewrite last_omap_cons, I2, I1. cbn. by destruct (intent_of c).
Qed.

Lemma asks_no_state hw o m : asks hw o = Some m -> state_of_request m = None.
Proof. destruct o; cbn; intros E; repeat case_match; by simplify_eq. Qed.

Lemma others_move_nothing hw ok os rs st :
  fold_left moved (zip (all_requests hw ok (map Other os)) rs) st = st.
Proof.
  revert rs. induction os as [|o os IH]; intros rs; [done|].
  unfold all_requests in *. cbn [map concat requests]. destruct (asks hw o) as [m|] eqn:Em; [|apply IH].
  destruct rs as [|r rs]; [done|]. cbn. unfold moved at 2. cbn. rewrite (asks_no_state _ _ _ Em). cbn.
  by destruct (0 <? r); apply IH.
Qed.

Lemma called_other hw ok o h rs h' :
  length rs = length (option_list (asks hw o)) -> kernel_ok (h_sys h') -> untouched h h' ->
  sys_trace (h_sys h') = sys_trace (h_sys h) ++ zip_with sent_msg (option_list (asks hw o)) rs ->
  called hw ok [Other o] h h' rs.
Proof.
  intros Hl Hk [? ? ? ? ?] Ht.
  assert (all_requests hw ok [Other o] = option_list (asks hw o)) as E by apply app_nil_r.
  split; rewrite ?E; try done.
  pose proof (others_move_nothing hw ok [o] rs (gps_state h)) as Hm. cbn [map] in Hm. rewrite E in Hm. by rewrite Hm.
Qed.

Lemma others_called hw ok os h :
  Forall (call_ok hw) os -> kernel_ok (h_sys h) ->
  exists rs h', call_all hw (map Other os) h = Done (tt, h') /\ untouched h h' /\
    called hw ok (map Other os) h h' rs.
Proof.
  revert h. induction os as [|o os IH]; intros h Hos Hk; [by exists [], h; split; [|split; [|apply called_nil]]|].
  apply Forall_cons in Hos as [Ho Hos].
  destruct (call_other_sends hw o h Ho Hk) as (rs1 & h1 & E1 & Hl1 & Hk1 & Hu1 & Ht1).
  destruct (IH h1 Hos Hk1) as (rs & h' & E & Hu & H). exists (rs1 ++ rs), h'.
  cbn [map call_all call_one]. rewrite (bind_done _ _ _ _ _ E1). split; [done|].
  split; [by eapply untouched_trans|]. eapply called_cons; [by apply called_other|done].
Qed.

Definition android_call_ok (hw : gps_h) (c : android_call) : Prop :=
  match c with Life _ => True | Other o => call_ok hw o end.

Lemma all_called hw cs h :
  hal_ready h -> Forall (android_call_ok hw) cs ->
  exists rs h', call_all hw cs h = Done (tt, h') /\ hal_ready h' /\ called hw true cs h h' rs.
Proof.
  revert h. induction cs as [|c cs IH]; intros h Hh Hcs.
  { exists [], h. split; [done|]. split; [done|]. apply called_nil, Hh. }
  apply Forall_cons in Hcs as [Hc Hcs].
  assert (exists rs h1, call_one hw c h = Done (tt, h1) /\ hal_ready h1 /\ called hw true [c] h h1 rs)
    as (rs1 & h1 & E1 & Hh1 & H1).
  { destruct c as [e|o]; cbn [call_one android_call_ok] in *.
    - destruct (gpshal2mnl_requests e (entered e h) (entered_ready e h Hh)) as (r & h1 & E & [H1 H2 H3 H4 _ H5]).
      exists [r], h1. rewrite enter_entered by apply Hh. split; [exact E|]. split; [exact H1|].
      split; unfold all_requests; cbn [map concat requests app]; [apply H1|done|..].
      all: rewrite ?H2, ?H3, ?H4, ?H5; by destruct e.
    - destruct (call_other_sends hw o h Hc (hr_kernel _ Hh)) as (rs & h1 & E & Hl & Hk & Hu & Ht).
      exists rs, h1. split; [done|]. split; [|by apply called_other].
      destruct Hh, Hu. split; congruence. }
  destruct (IH h1 Hh1 Hcs) as (rs & h' & E & Hh' & H). exists (rs1 ++ rs), h'.
  cbn [call_all]. rewrite (bind_done _ _ _ _ _ E1). split; [done|]. split; [done|]. by eapply called_cons.
Qed.

(** Without resources the four calls that carry the state are silent. *)
Lemma all_mute hw cs h :
  kernel_ok (h_sys h) -> gps_state h = GPSHAL_STATE_UNKNOWN -> gps_state_intent h <> GPSHAL_STATE_UNKNOWN ->
  Forall (android_call_ok hw) cs ->
  exists rs h', call_all hw cs h = Done (tt, h') /\ gps_state h' = GPSHAL_STATE_UNKNOWN /\
    called hw false cs h h' rs.
Proof.
  revert h. induction cs as [|c cs IH]; intros h Hk Hs Hi Hcs.
  { exists [], h. split; [done|]. split; [done|]. by apply called_nil. }
  apply Forall_cons in Hcs as [Hc Hcs].
  assert (exists rs h1, call_one hw c h = Done (tt, h1) /\ gps_state h1 = GPSHAL_STATE_UNKNOWN /\
    gps_state_intent h1 <> GPSHAL_STATE_UNKNOWN /\ called hw false [c] h h1 rs)
    as (rs1 & h1 & E1 & Hs1 & Hi1 & H1).
  { destruct c as [e|o]; cbn [call_one android_call_ok] in *.
    - exists [], (entered e h). rewrite enter_entered by done. split.
      { unfold gpshal2mnl, bind, gets. replace (gps_state (entered e h)) with GPSHAL_STATE_UNKNOWN by (by destruct e).
        done. }
      split; [by destruct e|]. split; [by destruct e|]. by destruct e; split; rewrite ?app_nil_r.
    - destruct (call_other_sends hw o h Hc Hk) as (rs & h1 & E & Hl & Hk' & Hu & Ht).
      exists rs, h1. destruct (Hu). split; [done|]. split; [congruence|]. split; [congruence|]. by apply called_other. }
  destruct (IH h1 (cd_kernel _ _ _ _ _ _ H1) Hs1 Hi1 Hcs) as (rs & h' & E & Hs' & H). exists (rs1 ++ rs), h'.
  cbn [call_all]. rewrite (bind_done _ _ _ _ _ E1). split; [done|]. split; [done|]. by eapply called_cons.
Qed.

(** The socket, the epoll descriptor and the thread could be made. *)
Definition resources_ok (r : resources) : bool :=
  negb (r_mnl2hal_fd r =? -1) && negb (r_epoll_fd r =? -1) && negb (r_epoll_add r =? -1) &&
  negb (r_thread r =? 0).

(** What the first initialisation tells Android. *)
Definition first_calls : list callback :=
  [set_capabilities_cb (Z.lor GPS_CAP_SCHEDULING GPS_CAP_MEASUREMENTS); set_system_info_cb 2016;
   create_thread_cb GPSHAL_WORKER_THREAD_NAME].

Lemma first_resource_init h :
  gps_state h = GPSHAL_STATE_UNKNOWN -> gps_state_intent h = GPSHAL_STATE_UNKNOWN -> h_calls h = [] ->
  exists h0, gpshal_resource_init h = Done (tt, h0) /\
    h_sys h0 = h_sys h /\ gps_cbs (h_cbs h0) = true /\
    if resources_ok (h_res h) then gps_state h0 = GPSHAL_STATE_RESOURCE /\ h_calls h0 = first_calls
    else gps_state h0 = GPSHAL_STATE_UNKNOWN.
Proof.
  destruct h as [s pace fd0 ep0 th0 i st t calls [fd ep add th]].
  cbn [gps_state gps_state_intent h_calls h_res h_sys]. intros -> -> ->.
  unfold resources_ok. cbn [r_mnl2hal_fd r_epoll_fd r_epoll_add r_thread].
  unfold gpshal_resource_init, bind, modify, gets, call. cbn -[Z.eqb bool_decide].
  rewrite bool_decide_eq_true_2 by done. cbn -[Z.eqb]. unfold modify. cbn -[Z.eqb].
  destruct (fd =? -1); [eexists; split; [reflexivity|by cbn]|]. cbn -[Z.eqb].
  destruct (ep =? -1); [eexists; split; [reflexivity|by cbn]|]. cbn -[Z.eqb].
  destruct (add =? -1); [eexists; split; [reflexivity|by cbn]|]. cbn -[Z.eqb].
  destruct (th =? 0); (eexists; split; [reflexivity|by cbn]).
Qed.

Lemma call_all_app hw cs1 cs2 h h1 :
  call_all hw cs1 h = Done (tt, h1) -> call_all hw (cs1 ++ cs2) h = call_all hw cs2 h1.
Proof.
  revert h. induction cs1 as [|c cs1 IH]; intros h E; [by injection E as ->|].
  cbn [app call_all] in *. apply bind_inv in E as ([] & h' & E1 & E). rewrite (bind_done _ _ _ _ _ E1). by apply IH.
Qed.


(** A kernel on which every datagram goes out. *)
Lemma kernel_ok_idle : kernel_ok (m_sys boot0).
Proof. apply boot0_ok. Qed.


(** ** What the daemon tells the HAL *)

(** Datagrams for the HAL among what the daemon did, as its worker's events. *)
Definition hal_rx (fd : Z) (ns : list note) : list (Z * bool * list recvres) :=
  omap (fun n => match n with
                 | NSend path b => if String.eqb path MTK_MNL2HAL then Some (fd, true, [RData b]) else None
                 | _ => None
                 end) ns.
Lemma hal_rx_app fd l1 l2 : hal_rx fd (l1 ++ l2) = hal_rx fd l1 ++ hal_rx fd l2.
Proof. apply omap_app. Qed.

Section worker_receives.
Context (hw : gps_h) (a : abi) (junk : nat -> Z).

Lemma worker_step rx rest h r h' :
  mnl2hal_hdlr a junk rx (gpshal_mnl2hal_interface hw a) h = Done (r, h') ->
  worker_events hw a junk ((fd_mnl2hal h, true, rx) :: rest) h = worker_events hw a junk rest h'.
Proof.
  intros E. cbn [worker_events]. unfold bind at 1, gets. rewrite Z.eqb_refl. cbn [andb when].
  unfold bind at 1 2. by rewrite E.
Qed.

(** A message whose arguments arrive as they are. *)
Lemma worker_handles m rest h :
  mnl2hal_ok m -> same_size a m -> zlen (mnl2hal_bytes m) <= HAL_MNL_BUFF_SIZE ->
  (forall m', m' ≡ m -> m' = m) ->
  mnl2hal_hdlr a junk (RData (mnl2hal_bytes m) :: rest) (gpshal_mnl2hal_interface hw a) h =
  mnl2hal_call (gpshal_mnl2hal_interface hw a) m h.
Proof.
  intros Hok Hs Hlen Huniq. destruct (mnl2hal_hdlr_shape a m Hok Hs Hlen) as (m' & Hm & Hr).
  rewrite (Huniq m' Hm) in Hr. apply (Hr gpshal _ junk rest _ h).
Qed.

Lemma command_handled m rest h :
  snd (mnl2hal_fields m) = [] ->
  mnl2hal_hdlr a junk (RData (mnl2hal_bytes m) :: rest) (gpshal_mnl2hal_interface hw a) h =
  mnl2hal_call (gpshal_mnl2hal_interface hw a) m h.
Proof.
  intros Hm. apply worker_handles.
  - split; [rewrite Hm; apply Forall_nil, I|]. by destruct m.
  - by destruct m.
  - unfold mnl2hal_bytes. destruct (mnl2hal_fields m) as [cmd args]. cbn in Hm. subst args.
    rewrite length_enc_msg. done.
  - intros m' [Hc _]. by destruct m; try discriminate Hm; destruct m'; try discriminate Hc.
Qed.

Lemma status_handled z rest h :
  is_int z = true ->
  mnl2hal_hdlr a junk (RData (mnl2hal_bytes (D_gps_status z)) :: rest) (gpshal_mnl2hal_interface hw a) h =
  mnl2hal_call (gpshal_mnl2hal_interface hw a) (D_gps_status z) h.
Proof.
  intros Hz. assert (zlen (mnl2hal_bytes (D_gps_status z)) <= HAL_MNL_BUFF_SIZE) as Hfit.
  { apply mnl2hal_strings_fit; [|exact I]. split; [fields_ok|by split]. }
  unfold mnl2hal_bytes in *. cbn [mnl2hal_fields] in *.
  revert h. change (mnl2hal_hdlr a junk (RData (enc_msg HAL_MNL_INTERFACE_VERSION MNL2HAL_GPS_STATUS
    [FBinary (int_object z)]) :: rest) (gpshal_mnl2hal_interface hw a) ≡
    mnl2hal_call (gpshal_mnl2hal_interface hw a) (D_gps_status z)).
  unfold mnl2hal_hdlr. etransitivity; [by apply recv_header|]. dispatch.
  etransitivity; [eapply call_checked_done, get_struct_exact|].
  - apply length_int_object.
  - pose proof (length_int_object z). clen.
  - unfold invoke. cbn [m2h_gps_status gpshal_mnl2hal_interface]. by rewrite object_int_object by done.
Qed.
End worker_receives.

(** ** A restart of the daemon *)

(** What the HAL asks for again, by what Android last asked for. *)
Definition asked_again (intent : gpshal_state) : list entry :=
  match intent with
  | GPSHAL_STATE_INIT | GPSHAL_STATE_STOP => [EnInit]
  | GPSHAL_STATE_START => [EnInit; EnStart]
  | _ => []
  end.

Lemma reboot_handled hw a junk h :
  hal_ready h ->
  exists rs h', length rs = length (asked_again (gps_state_intent h)) /\
    worker_events hw a junk [(fd_mnl2hal h, true, [RData (mnl2hal_bytes D_mnld_reboot)])] h = Done (tt, h') /\
    hal_ready h' /\ gps_state_intent h' = gps_state_intent h /\
    fd_mnl2hal h' = fd_mnl2hal h /\ h_calls h' = h_calls h /\
    sys_trace (h_sys h') =
      sys_trace (h_sys h) ++ zip_with sent_with (asked_again (gps_state_intent h)) rs.
Proof.
  intros Hh.
  assert (exists rs h', length rs = length (asked_again (gps_state_intent h)) /\
    update_mnld_reboot h = Done (tt, h') /\
    hal_ready h' /\ gps_state_intent h' = gps_state_intent h /\
    fd_mnl2hal h' = fd_mnl2hal h /\ h_calls h' = h_calls h /\
    sys_trace (h_sys h') =
      sys_trace (h_sys h) ++ zip_with sent_with (asked_again (gps_state_intent h)) rs)
    as (rs & h' & Hl & E & H).
  { destruct (gpshal2mnl_requests EnInit h Hh) as (r1 & h1 & E1 & [Q1 Q2 Q3 Q4 Q6 Q5]).
    destruct (gpshal2mnl_requests EnStart h1 Q1) as (r2 & h2 & E2 & [P1 P2 P3 P4 P6 P5]).
    unfold update_mnld_reboot, bind at 1, gets. destruct (gps_state_intent h) eqn:Ei; cbn [asked_again].
    1,2,3: exists [], h; (split; [done|]); (split; [done|]); rewrite app_nil_r; done.
    1,2: exists [r1], h1; (split; [done|]); (split; [exact E1|]); (split; [done|]); by rewrite Q4.
    exists [r1; r2], h2. split; [done|]. split; [etransitivity; [exact (bind_done _ _ _ _ _ E1)|exact E2]|]. split; [done|].
    do 3 (split; [congruence|]). by rewrite P2, Q2, <- app_assoc. }
  exists rs, h'. split; [done|]. split; [|done].
  erewrite worker_step; [reflexivity|]. rewrite command_handled by done.
  cbn [mnl2hal_call]. unfold invoke. cbn [m2h_mnld_reboot gpshal_mnl2hal_interface]. unfold bind, id.
  by rewrite E.
Qed.

(** The daemon gets a request without arguments. *)
Lemma dispatch_request e (w : mnld) :
  mnld_dispatch (FdHal [RData (hal2mnl_bytes (request e))]) w =
  (let* _ := hal2mnl_call g_hal2mnl_interface (request e) in ret tt) w.
Proof.
  destruct (dispatch_hal (request e) [] w) as (m' & [Hc _] & _ & Hd).
  - split; [|by destruct e]. destruct e; apply Forall_nil, I.
  - by destruct e.
  - by destruct e.
  - rewrite Hd. by destruct e; destruct m'; try discriminate Hc.
Qed.

Lemma effect_hal_init w :
  mnld_ok w -> effect hal_gps_init w (view w) [NLib (LOther "gps_driver_state_init"); to_agps A_gps_init].
Proof.
  intros Hok. unfold hal_gps_init. apply effect_silent; [done|by apply effect_modify|].
  intros w1 H1 <- _. eapply (effect_bind _ _ w1 _ [_]); [done|by apply effect_lib|].
  intros w2 H2 <- _. by apply (effect_agps_plain A_gps_init).
Qed.

(** What the HAL hears of the daemon's messages. *)
Lemma hal_rx_hal fd m ns :
  hal_rx fd (to_hal m :: ns) = (fd, true, [RData (mnl2hal_bytes m)]) :: hal_rx fd ns.
Proof. done. Qed.
Lemma hal_rx_other fd path b ns :
  String.eqb path MTK_MNL2HAL = false -> hal_rx fd (NSend path b :: ns) = hal_rx fd ns.
Proof. intros E. unfold hal_rx. cbn. by rewrite E. Qed.
Lemma hal_rx_timer fd id ms ns : hal_rx fd (timer_note id ms :: ns) = hal_rx fd ns.
Proof. done. Qed.
Lemma hal_rx_lib fd c ns : hal_rx fd (NLib c :: ns) = hal_rx fd ns.
Proof. done. Qed.
Lemma hal_rx_if fd (b : bool) l1 l2 :
  hal_rx fd (if b then l1 else l2) = if b then hal_rx fd l1 else hal_rx fd l2.
Proof. by destruct b. Qed.
Lemma hal_rx_nil fd : hal_rx fd [] = [].
Proof. done. Qed.
Lemma if_same {A} (b : bool) (x : A) : (if b then x else x) = x.
Proof. by destruct b. Qed.

#[local] Hint Rewrite hal_rx_app hal_rx_if hal_rx_hal hal_rx_timer hal_rx_lib hal_rx_nil @if_same
  @app_nil_l @app_nil_r : hal_rx.
#[local] Hint Rewrite hal_rx_other using reflexivity : hal_rx.
Ltac hal_rx :=
  unfold started_notes, stopped_notes, starting_notes, stopping_notes, reboot_notes, open_notes,
    close_notes, reset_notes, delete_notes;
  autorewrite with hal_rx.

Lemma hal_rx_epo fd pre : maybe_epo pre -> hal_rx fd pre = [].
Proof. by intros [->| ->]. Qed.

(** Messages that become one call of Android each. *)
Definition announces (hw : gps_h) (a : abi) (junk : nat -> Z) (m : mnl2hal_msg) (c : callback) : Prop :=
  forall h, gps_cbs (h_cbs h) = true ->
    mnl2hal_hdlr a junk [RData (mnl2hal_bytes m)] (gpshal_mnl2hal_interface hw a) h = Done (0, log_call c h).

Definition log_calls (cs : list callback) (h : gpshal) : gpshal :=
  fold_left (fun h c => log_call c h) cs h.

Lemma h_calls_log_calls cs h : h_calls (log_calls cs h) = h_calls h ++ cs.
Proof.
  revert h. induction cs as [|c cs IH]; intros h; [by rewrite app_nil_r|].
  cbn. etransitivity; [apply IH|]. cbn. by rewrite <- app_assoc.
Qed.

Lemma worker_announces hw a junk mcs h :
  gps_cbs (h_cbs h) = true -> Forall (fun mc => announces hw a junk mc.1 mc.2) mcs ->
  worker_events hw a junk (hal_rx (fd_mnl2hal h) (map (fun mc => to_hal mc.1) mcs)) h =
  Done (tt, log_calls (map snd mcs) h).
Proof.
  intros Hc H. revert h Hc. induction H as [|[m c] mcs Hm _ IH]; intros h Hc; [done|].
  cbn [map fst snd]. rewrite hal_rx_hal. erewrite worker_step by (by apply Hm).
  exact (IH (log_call c h) Hc).
Qed.

Lemma announces_wakelock hw a junk : announces hw a junk D_request_wakelock acquire_wakelock_cb.
Proof.
  intros h Hc. rewrite command_handled by done. cbn [mnl2hal_call]. unfold invoke.
  cbn [m2h_request_wakelock gpshal_mnl2hal_interface]. unfold id, bind, request_wakelock, call.
  unfold bind, gets. by rewrite Hc.
Qed.
Lemma announces_release hw a junk : announces hw a junk D_release_wakelock release_wakelock_cb.
Proof.
  intros h Hc. rewrite command_handled by done. cbn [mnl2hal_call]. unfold invoke.
  cbn [m2h_release_wakelock gpshal_mnl2hal_interface]. unfold id, bind, release_wakelock, call.
  unfold bind, gets. by rewrite Hc.
Qed.
Lemma announces_status hw a junk z :
  is_int z = true -> announces hw a junk (D_gps_status z) (status_cb z).
Proof.
  intros Hz h Hc. rewrite status_handled by done. cbn [mnl2hal_call]. unfold invoke.
  cbn [m2h_gps_status gpshal_mnl2hal_interface]. unfold bind, update_gps_status, call.
  unfold bind, gets. by rewrite Hc.
Qed.

(** The daemon's part of a recovery: the HAL's two requests, and the stop that
    the GPS thread reports before, between or after them. *)
Inductive turn : Type := TInit | TStart | TStopDone.
Definition turn_prog (t : turn) : prog mnld unit :=
  match t with
  | TInit => mnld_dispatch (FdHal [RData (hal2mnl_bytes H_gps_init)])
  | TStart => mnld_dispatch (FdHal [RData (hal2mnl_bytes H_gps_start)])
  | TStopDone => handler IStopDone
  end.
Fixpoint turns (ts : list turn) : prog mnld unit :=
  match ts with
  | [] => ret tt
  | t :: rest => turn_prog t ;; turns rest
  end.

Definition heard (w w' : mnld) (ms : list mnl2hal_msg) : Prop :=
  exists ns, trace w' = trace w ++ ns /\ forall fd, hal_rx fd ns = hal_rx fd (map to_hal ms).

Lemma heard_trans w w1 w2 m1 m2 : heard w w1 m1 -> heard w1 w2 m2 -> heard w w2 (m1 ++ m2).
Proof.
  intros (n1 & E1 & H1) (n2 & E2 & H2). exists (n1 ++ n2). split; [by rewrite E2, E1, app_assoc|].
  intros fd. by rewrite map_app, !hal_rx_app, H1, H2.
Qed.

(** One input, and what the HAL hears of it. *)
Lemma input_heard (P : fsm_view -> Prop) i w v ns ms :
  mnld_ok w -> input_ok i -> input_spec (cfg_of w) i (view w) = Some (v, ns) -> P v ->
  (forall fd, hal_rx fd ns = hal_rx fd (map to_hal ms)) ->
  exists w', handler i w = Done (tt, w') /\ mnld_ok w' /\ P (view w') /\ heard w w' ms.
Proof.
  intros Hok Hi E HP Hq.
  destruct (serve i w v ns Hok Hi E) as (w' & all & [H1 H2 _ (pre & n0 & Hpre & -> & E0) H5 _] & Hv).
  exists w'. split; [done|]. split; [done|]. split; [by rewrite Hv|]. exists (pre ++ n0). split; [done|].
  rewrite E in E0. injection E0 as _ <-. intros fd. rewrite hal_rx_app, (hal_rx_epo fd pre Hpre). apply Hq.
Qed.

Lemma turn_init w :
  mnld_ok w -> exists w', turn_prog TInit w = Done (tt, w') /\ mnld_ok w' /\ view w' = view w /\ heard w w' [].
Proof.
  intros Hok. destruct (effect_hal_init w Hok) as (w' & E & He). exists w'.
  split; [|split; [by eapply eff_ok|split; [apply He|]]].
  - cbn [turn_prog]. change H_gps_init with (request EnInit). rewrite dispatch_request.
    unfold hal2mnl_call, request, invoke. cbn [h2m_gps_init g_hal2mnl_interface]. unfold bind, id.
    by rewrite E.
  - eexists. split; [apply (sg_trace _ _ _ (e_sys _ _ _ _ He))|]. intros fd. by hal_rx.
Qed.

Lemma turn_start w :
  turn_prog TStart w = handler IHalStart w.
Proof.
  cbn [turn_prog]. change H_gps_start with (request EnStart). rewrite dispatch_request.
  unfold hal2mnl_call, request, invoke. cbn [h2m_gps_start g_hal2mnl_interface handler]. unfold bind, id.
  by destruct (hal_gps_start w) as [[[] ?]| | |].
Qed.

(** The GPS starts, and the HAL is owed the news. *)
Definition hal_waits (v : fsm_view) : Prop :=
  v_state v = MNLD_GPS_STATE_STARTING /\ v_delete v = 0 /\
  gps_used (hal (v_clients v)) = true /\ need_open_ack (hal (v_clients v)) = true.

Lemma timeout_heard w :
  mnld_ok w -> v_state (view w) = MNLD_GPS_STATE_STARTED ->
  exists w', handler INmeaTimeout w = Done (tt, w') /\ mnld_ok w' /\
    view w' = stopping_view (users_cleared (view w)) /\ heard w w' [D_mnld_reboot].
Proof.
  intros Hok Hs. eapply (input_heard (fun v => v = _)); [done|done|cbn [input_spec]; by rewrite Hs|done|].
  intros fd. cbn [map]. by hal_rx.
Qed.

Lemma start_while_stopping w :
  mnld_ok w -> v_state (view w) = MNLD_GPS_STATE_STOPPING ->
  exists w', turn_prog TStart w = Done (tt, w') /\ mnld_ok w' /\
    view w' = opening HAL true (view w) /\ heard w w' [].
Proof.
  intros Hok Hs. rewrite turn_start. eapply (input_heard (fun v => v = _)); [done|done| |done|done].
  cbn [input_spec]. unfold fsm_spec. cbn [opening on_clients v_state]. by rewrite Hs.
Qed.

Lemma start_from_idle w :
  mnld_ok w -> v_state (view w) = MNLD_GPS_STATE_IDLE ->
  exists w', turn_prog TStart w = Done (tt, w') /\ mnld_ok w' /\ hal_waits (view w') /\
    heard w w' [D_request_wakelock].
Proof.
  intros Hok Hs. rewrite turn_start. eapply (input_heard hal_waits); [done|done| | |].
  - cbn [input_spec]. unfold fsm_spec. cbn [opening on_clients v_state]. rewrite Hs. reflexivity.
  - split; [done|]. split; [done|]. cbn. by destruct (v_clients (view w)).
  - intros fd. cbn [map]. by hal_rx.
Qed.

Lemma stop_report_restarts w :
  mnld_ok w -> v_state (view w) = MNLD_GPS_STATE_STOPPING ->
  gps_used (hal (v_clients (view w))) = true -> need_open_ack (hal (v_clients (view w))) = true ->
  need_close_ack (hal (v_clients (view w))) = false ->
  exists w', handler IStopDone w = Done (tt, w') /\ mnld_ok w' /\ hal_waits (view w') /\ heard w w' [].
Proof.
  intros Hok Hs Hu Ho Hc.
  assert (all_exit (v_clients (view w)) = false) as Hex by (by apply (all_exit_false HAL)).
  eapply (input_heard hal_waits); [done|done| | |].
  - cbn [input_spec]. unfold fsm_spec. rewrite Hs, Hex. reflexivity.
  - split; [done|]. split; [done|]. cbn. by destruct (v_clients (view w)).
  - intros fd. cbn [map]. hal_rx. by rewrite Hc.
Qed.

Lemma stop_report_idles w :
  mnld_ok w -> v_state (view w) = MNLD_GPS_STATE_STOPPING -> all_exit (v_clients (view w)) = true ->
  need_close_ack (hal (v_clients (view w))) = false ->
  exists w', handler IStopDone w = Done (tt, w') /\ mnld_ok w' /\
    v_state (view w') = MNLD_GPS_STATE_IDLE /\ heard w w' [D_release_wakelock].
Proof.
  intros Hok Hs Hex Hc.
  eapply (input_heard (fun v => v_state v = _)); [done|done| | |].
  - cbn [input_spec]. unfold fsm_spec. rewrite Hs, Hex. reflexivity.
  - done.
  - intros fd. cbn [map]. hal_rx. by rewrite Hc.
Qed.

Lemma start_done_heard req w :
  mnld_ok w -> is_int req = true -> hal_waits (view w) ->
  exists w', handler (IStartDone req) w = Done (tt, w') /\ mnld_ok w' /\
    (v_state (view w') = MNLD_GPS_STATE_STARTED /\ gps_used (hal (v_clients (view w'))) = true) /\
    heard w w' [D_gps_status GPS_STATUS_SESSION_ENGINE_ON; D_gps_status GPS_STATUS_SESSION_BEGIN].
Proof.
  intros Hok Hr (Hs & Hd & Hu & Ha).
  assert (all_exit (v_clients (view w)) = false) as Hex by (by apply (all_exit_false HAL)).
  eapply (input_heard (fun v => v_state v = _ /\ gps_used (hal (v_clients v)) = true)); [done|done| | |].
  - cbn [input_spec]. unfold fsm_spec. rewrite Hs, Hex. reflexivity.
  - split; [done|]. cbn. by destruct (v_clients (view w)).
  - intros fd. cbn [map]. hal_rx. rewrite Ha. by hal_rx.
Qed.

(** The orders in which the daemon may serve the HAL's two requests and the
    report of the stop. *)
Definition recovery_orders : list (list turn) :=
  [[TInit; TStart; TStopDone]; [TInit; TStopDone; TStart]; [TStopDone; TInit; TStart]].

(** What Android hears: when the stop was reported before the HAL's start, the
    daemon had gone idle in between. *)
Definition recovery_msgs (order : list turn) : list (mnl2hal_msg * callback) :=
  match order with
  | [TInit; TStart; TStopDone] => []
  | _ => [(D_release_wakelock, release_wakelock_cb); (D_request_wakelock, acquire_wakelock_cb)]
  end ++
  [(D_gps_status GPS_STATUS_SESSION_ENGINE_ON, status_cb GPS_STATUS_SESSION_ENGINE_ON);
   (D_gps_status GPS_STATUS_SESSION_BEGIN, status_cb GPS_STATUS_SESSION_BEGIN)].

Lemma recovery_turns order v w :
  mnld_ok w -> view w = stopping_view (users_cleared v) -> In order recovery_orders ->
  need_close_ack (hal (v_clients v)) = false ->
  exists w', turns order w = Done (tt, w') /\ mnld_ok w' /\ hal_waits (view w') /\
    heard w w' (match order with [TInit; TStart; TStopDone] => []
                | _ => [D_release_wakelock; D_request_wakelock] end).
Proof.
  intros Hok Hv Hin Hc.
  assert (v_state (view w) = MNLD_GPS_STATE_STOPPING) as Hs by by rewrite Hv.
  assert (all_exit (v_clients (view w)) = true) as Hex
    by (rewrite Hv; apply all_exit_cleared).
  assert (need_close_ack (hal (v_clients (view w))) = false) as Hc' by (rewrite Hv; exact Hc).
  destruct Hin as [<-|[<-|[<-|[]]]]; cbn [turns].
  - destruct (turn_init w Hok) as (w1 & E1 & Hok1 & Hv1 & Hh1).
    destruct (start_while_stopping w1 Hok1 ltac:(by rewrite Hv1)) as (w2 & E2 & Hok2 & Hv2 & Hh2).
    destruct (stop_report_restarts w2 Hok2) as (w3 & E3 & Hok3 & Hw3 & Hh3);
      [rewrite Hv2, Hv1; cbn; by destruct (v_clients (view w))..|].
    exists w3. rewrite (bind_done _ _ _ _ _ E1), (bind_done _ _ _ _ _ E2).
    rewrite (bind_done _ _ _ _ _ E3). do 3 (split; [done|]).
    exact (heard_trans _ _ _ _ _ Hh1 (heard_trans _ _ _ _ _ Hh2 Hh3)).
  - destruct (turn_init w Hok) as (w1 & E1 & Hok1 & Hv1 & Hh1). rewrite <- Hv1 in Hs, Hex, Hc'.
    destruct (stop_report_idles w1 Hok1 Hs Hex Hc') as (w2 & E2 & Hok2 & Hs2 & Hh2).
    destruct (start_from_idle w2 Hok2 Hs2) as (w3 & E3 & Hok3 & Hw3 & Hh3).
    exists w3. rewrite (bind_done _ _ _ _ _ E1), (bind_done _ _ _ _ _ E2).
    rewrite (bind_done _ _ _ _ _ E3). do 3 (split; [done|]).
    exact (heard_trans _ _ _ _ _ Hh1 (heard_trans _ _ _ _ _ Hh2 Hh3)).
  - destruct (stop_report_idles w Hok Hs Hex Hc') as (w1 & E1 & Hok1 & Hs1 & Hh1).
    destruct (turn_init w1 Hok1) as (w2 & E2 & Hok2 & Hv2 & Hh2). rewrite <- Hv2 in Hs1.
    destruct (start_from_idle w2 Hok2 Hs1) as (w3 & E3 & Hok3 & Hw3 & Hh3).
    exists w3. rewrite (bind_done _ _ _ _ _ E1), (bind_done _ _ _ _ _ E2).
    rewrite (bind_done _ _ _ _ _ E3). do 3 (split; [done|]).
    exact (heard_trans _ _ _ _ _ Hh1 (heard_trans _ _ _ _ _ Hh2 Hh3)).
Qed.

Lemma recovery_announced hw a junk order :
  Forall (fun mc => announces hw a junk mc.1 mc.2) (recovery_msgs order).
Proof.
  set (P := fun mc => announces hw a junk mc.1 mc.2).
  assert (forall p q, P p -> P q -> Forall P [p; q]) as H2
    by (intros p q Hp Hq; do 2 (apply Forall_cons; split; [done|]); apply Forall_nil, I).
  apply Forall_app. split; [|apply H2; by apply announces_status].
  assert (Forall P [(D_release_wakelock, release_wakelock_cb); (D_request_wakelock, acquire_wakelock_cb)])
    as H by (apply H2; [apply announces_release|apply announces_wakelock]).
  assert (Forall P []) as H0 by apply Forall_nil, I. clear H2. clearbody P.
  by repeat case_match.
Qed.

Lemma recovery_msgs_sent order :
  map (fun mc => to_hal mc.1) (recovery_msgs order) =
  map to_hal ((match order with [TInit; TStart; TStopDone] => []
               | _ => [D_release_wakelock; D_request_wakelock] end) ++
    [D_gps_status GPS_STATUS_SESSION_ENGINE_ON; D_gps_status GPS_STATUS_SESSION_BEGIN]).
Proof. unfold recovery_msgs. rewrite !map_app. by repeat case_match. Qed.

(** C18: recovery from a silent chip.  In a reachable state where the GPS runs
    for the HAL and Android last asked for a start, a timeout of the NMEA monitor
    ends with the GPS running for the HAL again: what the daemon sends at the
    timeout makes the HAL repeat exactly its init and its start; whatever the
    order in which the daemon serves these and the report of the stop, at the
    report of the start it is started; and Android is told that the engine is on
    and a session begins, after having released and taken the wake lock when the
    stop was reported before the start. *)
Theorem gps_recovers (hw : gps_h) (a : abi) (junk : nat -> Z) (h : gpshal) (s : system) (req : Z)
    (order : list turn) :
  hal_ready h -> gps_state_intent h = GPSHAL_STATE_START ->
  reachable s -> MnldState.gps_state (m_gps (s_world s)) = MNLD_GPS_STATE_STARTED ->
  gps_used (hal (clients (m_gps (s_world s)))) = true ->
  is_int req = true -> In order recovery_orders ->
  exists w1 h1 r1 r2 w2 w3 h2,
    handler INmeaTimeout (s_world s) = Done (tt, w1) /\
    worker_events hw a junk (hal_rx (fd_mnl2hal h) (sent (s_world s) w1)) h = Done (tt, h1) /\
    sys_trace (h_sys h1) = sys_trace (h_sys h) ++ [sent_with EnInit r1; sent_with EnStart r2] /\
    turns order w1 = Done (tt, w2) /\ handler (IStartDone req) w2 = Done (tt, w3) /\
    MnldState.gps_state (m_gps w3) = MNLD_GPS_STATE_STARTED /\
    gps_used (hal (clients (m_gps w3))) = true /\
    worker_events hw a junk (hal_rx (fd_mnl2hal h1) (sent w1 w3)) h1 = Done (tt, h2) /\
    h_calls h2 = h_calls h ++ map snd (recovery_msgs order).
Proof.
  intros Hh Hi Hr Hst Hu Hreq Hin. pose proof (reachable_inv s Hr) as [Hok (Hacks & _) _ _ _ _].
  set (w := s_world s) in *. rewrite <- state_of_view in Hst.
  assert (need_close_ack (hal (v_clients (view w))) = false) as Hc.
  { destruct (Hacks HAL) as [_ H]. cbn [client] in H. destruct (need_close_ack _); [|done].
    specialize (H eq_refl). change (v_clients (view w)) with (clients (m_gps w)) in H. congruence. }
  destruct (timeout_heard w Hok Hst) as (w1 & E1 & Hok1 & Hv1 & n1 & T1 & N1).
  destruct (reboot_handled hw a junk h Hh) as (rs & h1 & Hl & Eh1 & Hh1 & _ & Hfd & Hc1 & Ht1).
  rewrite Hi in Hl, Ht1. destruct rs as [|r1 [|r2 [|]]]; try discriminate Hl.
  destruct (recovery_turns order (view w) w1 Hok1 Hv1 Hin Hc) as (w2 & E2 & Hok2 & Hw2 & Hh2).
  destruct (start_done_heard req w2 Hok2 Hreq Hw2) as (w3 & E3 & _ & [Hs3 Hu3] & Hh3).
  destruct (heard_trans _ _ _ _ _ Hh2 Hh3) as (n2 & T2 & N2).
  exists w1, h1, r1, r2, w2, w3, (log_calls (map snd (recovery_msgs order)) h1).
  split; [done|]. split; [by rewrite (sent_app _ _ _ T1), N1|]. split; [exact Ht1|].
  do 3 (split; [done|]). split; [done|].
  rewrite (sent_app _ _ _ T2), N2, <- recovery_msgs_sent, h_calls_log_calls, Hc1.
  split; [|done]. apply worker_announces; [apply Hh1|apply recovery_announced].
Qed.

Lemma started_system :
  exists s, reachable s /\ MnldState.gps_state (m_gps (s_world s)) = MNLD_GPS_STATE_STARTED /\
    gps_used (hal (clients (m_gps (s_world s)))) = true.
Proof.
  destruct hal_started as (w & ks & Hr & Hv). pose proof (si_ok _ (reachable_inv _ Hr)) as Hok.
  destruct (start_done_heard 0 w Hok eq_refl) as (w' & E & _ & [Hs Hu] & _); [by rewrite Hv|].
  eexists (System w' _ []). split; [|split; [exact Hs|exact Hu]].
  eapply reach_step; [|by apply (step_report (IStartDone 0) w w')].
  eapply reach_step; [exact Hr|]. by apply (step_notice (IStartDone 0) w ks []).
Qed.

Definition hal0 : gpshal :=
  Hal (m_sys boot0) pace_init 5 6 7 GPSHAL_STATE_START GPSHAL_STATE_START
    (Tables true false false false false false) [] (Resources 5 6 0 7).

Lemma hal0_ready : hal_ready hal0.
Proof. split; [exact kernel_ok_idle|done|done|done]. Qed.

Lemma gps_recovers_witness :
  exists s w1 w2 h1 h2,
    handler INmeaTimeout (s_world s) = Done (tt, w1) /\
    turns [TInit; TStart; TStopDone] w1 = Done (tt, w2) /\
    (exists es, sys_trace (h_sys h1) = es /\ length es = 2%nat) /\
    h_calls h2 = [status_cb 3; status_cb 1].
Proof.
  destruct started_system as (s & Hr & Hs & Hu).
  destruct (gps_recovers aosp_gps_h LP64 (fun _ => 0) hal0 s 0 [TInit; TStart; TStopDone] hal0_ready
    eq_refl Hr Hs Hu eq_refl (or_introl eq_refl))
    as (w1 & h1 & r1 & r2 & w2 & w3 & h2 & E1 & _ & Ht & E2 & _ & _ & _ & _ & Hc).
  exists s, w1, w2, h1, h2. split; [exact E1|]. split; [exact E2|]. split; [|exact Hc].
  eexists. split; [exact Ht|]. reflexivity.
Defined.
