(* ===== verification/GpsHalReports.v ===== *)
(** * What Android learns from the daemon

    The reports of the daemon followed to the callback that Android gets: fixes
    and satellites of the NMEA parser, as the 32-bit daemon lays them out and the
    HAL library reads them, and the network-initiated requests of the AGPS
    daemon. *)

From stdpp Require Import list.
From S2P Require Import Prelude DataCoder LbsUtility Layout Structs Float32 Float64 Messages Hal2Mnl Mnl2Hal.
From S2P Require Import MnldState Mnld Kernel MnldFsm GpsHal AtCommand Calendar NmeaText NmeaParser NmeaSafety NmeaTime GpsHalFront.
Import HalTypes.

#[local] Opaque send_msg.

(** ** Reading a struct back *)

(** One message, served or fatal. *)
Lemma worker_one hw a junk m h h' (b : bool) :
  mnl2hal_hdlr a junk [RData (mnl2hal_bytes m)] (gpshal_mnl2hal_interface hw a) h =
    (if b then Done (0, h') else UB) ->
  worker_events hw a junk (hal_rx (fd_mnl2hal h) [to_hal m]) h = if b then Done (tt, h') else UB.
Proof.
  intros E. rewrite hal_rx_hal. destruct b; [etransitivity; [eapply worker_step; exact E|done]|].
  cbn [worker_events]. unfold bind at 1, gets. rewrite Z.eqb_refl. cbn [andb when].
  unfold bind at 1 2. by rewrite E.
Qed.

(** ** Fixes *)

(** What Android gets of a fix: the bit patterns of its numbers. *)
Definition android_location (hw : gps_h) (l : location) : GpsLocation :=
  Location (wrap_u (gps_location_flags_bits hw) (l_flags l mod 2 ^ 32))
    (f64_bits (l_lat l) mod 2 ^ 64) (f64_bits (l_lng l) mod 2 ^ 64) (f64_bits (l_alt l) mod 2 ^ 64)
    (f32_bits (l_speed l) mod 2 ^ 32) (f32_bits (l_bearing l) mod 2 ^ 32)
    (f32_bits (l_accuracy l) mod 2 ^ 32) (l_timestamp l mod 2 ^ 64).

Lemma image_members a l :
  let m := member a gps_location (loc_image l) in
  m "flags"%string = l_flags l mod 2 ^ 32 /\
  m "lat"%string = f64_bits (l_lat l) mod 2 ^ 64 /\ m "lng"%string = f64_bits (l_lng l) mod 2 ^ 64 /\
  m "alt"%string = f64_bits (l_alt l) mod 2 ^ 64 /\ m "speed"%string = f32_bits (l_speed l) mod 2 ^ 32 /\
  m "bearing"%string = f32_bits (l_bearing l) mod 2 ^ 32 /\
  m "accuracy"%string = f32_bits (l_accuracy l) mod 2 ^ 32 /\
  m "timestamp"%string = l_timestamp l mod 2 ^ 64.
Proof.
  cbv zeta. unfold loc_image. destruct l as [fl la ln al sp be ac ts]. cbn [l_flags l_lat l_lng l_alt
    l_speed l_bearing l_accuracy l_timestamp].
  generalize (f64_bits la) (f64_bits ln) (f64_bits al) (f32_bits sp) (f32_bits be) (f32_bits ac).
  intros. destruct a; repeat split; lazymatch goal with
    | |- _ = ?x mod 2 ^ 32 => exact (le_val_le_bytes 4 x)
    | |- _ = ?x mod 2 ^ 64 => exact (le_val_le_bytes 8 x)
    end.
Qed.

(** One location at the HAL's callback. *)
Lemma location_called hw a l h :
  gps_cbs (h_cbs h) = true ->
  update_location hw a (loc_image l) h =
  Done (tt, if bool_decide (GPSHAL_STATE_START = gps_state_intent h)
            then log_call (location_cb (android_location hw l)) h else h).
Proof.
  intros Hc. destruct (image_members a l) as (E1 & E2 & E3 & E4 & E5 & E6 & E7 & E8).
  unfold update_location, bind, gets. rewrite E1, E2, E3, E4, E5, E6, E7, E8.
  destruct (bool_decide _); [|done]. cbn [when]. unfold call, bind, gets. by rewrite Hc.
Qed.

Definition fix_event (h : gpshal) (l : location) : Z * bool * list recvres :=
  (fd_mnl2hal h, true, [RData (mnl2hal_bytes (D_location (loc_image l)))]).

Lemma image_size l : zlen (loc_image l) = sizeof ILP32 gps_location.
Proof. unfold loc_image. lists. by rewrite !length_le_bytes. Qed.

Lemma report_period_tenths d : 10 <= d -> 10 * report_period (100 * d) - 9 <= d <= 10 * report_period (100 * d).
Proof.
  intros Hd. unfold report_period. pose proof (Z.div_mod (100 * d + 999) 1000 ltac:(lia)).
  pose proof (Z.mod_pos_bound (100 * d + 999) 1000 ltac:(lia)). lia.
Qed.

(** The fixes of a period, at the worker: those that only count, then the one
    that is reported. *)
Lemma worker_counts hw a junk d ls l j h :
  10 <= d <= 300 -> 0 <= j -> j + zlen ls + 1 = report_period (100 * d) ->
  h_pace h = Pace (f32_of_int j) (report_interval (100 * d)) ->
  gps_cbs (h_cbs h) = true ->
  worker_events hw a junk (map (fix_event h) (ls ++ [l])) h =
  let h' := set_pace (Pace (f32_of_int 0) (report_interval (100 * d))) h in
  Done (tt, if bool_decide (GPSHAL_STATE_START = gps_state_intent h)
            then log_call (location_cb (android_location hw l)) h' else h').
Proof.
  intros Hd. pose proof (report_period_tenths d ltac:(lia)) as Hr.
  revert j h. induction ls as [|l1 ls IH]; intros j h Hj Hk Hp Hc; cbn [app map length] in *.
  - etransitivity; [eapply worker_step|reflexivity].
    etransitivity; [apply (location_reported a junk _ d j (loc_image l) h); [lia..|apply image_size|exact Hp]|].
    unfold invoke. cbn [m2h_location gpshal_mnl2hal_interface].
    set (h1 := set_pace _ h). assert (gps_cbs (h_cbs h1) = true) as Hc1 by exact Hc.
    by rewrite (bind_done _ _ _ _ _ (location_called hw a l h1 Hc1)).
  - etransitivity; [eapply worker_step|].
    { apply (location_skipped a junk _ d j (loc_image l1) h); [lia..|apply image_size|exact Hp]. }
    exact (IH (j + 1) (set_pace (Pace (f32_of_int (j + 1)) (report_interval (100 * d))) h)
      ltac:(lia) ltac:(lia) eq_refl Hc).
Qed.

(** C20: a fix on its way to Android.  With a requested interval of a whole
    number of tenths of a second, from 1 s to 30 s, of every [p] consecutive
    fixes that the daemon sends, [p] being the interval rounded up to seconds,
    the HAL hands exactly the last to Android, and only while Android last asked
    for a start: with the bit patterns of the daemon's numbers, the flags cut to
    the width of Android's member.  Otherwise Android hears nothing. *)
Theorem location_to_android (hw : gps_h) (a : abi) (junk : nat -> Z) (d : Z) (ls : list location)
    (l : location) (h : gpshal) :
  10 <= d <= 300 -> zlen ls + 1 = report_period (100 * d) ->
  h_pace h = Pace (f32_of_int 0) (report_interval (100 * d)) ->
  gps_cbs (h_cbs h) = true ->
  Forall (fun l => plain_send (mnl2hal_location (loc_image l)) MTK_MNL2HAL
                     (mnl2hal_bytes (D_location (loc_image l)))) (ls ++ [l]) /\
  exists h', worker_events hw a junk (map (fix_event h) (ls ++ [l])) h = Done (tt, h') /\
    h_calls h' = h_calls h ++
      (if bool_decide (GPSHAL_STATE_START = gps_state_intent h)
       then [location_cb (android_location hw l)] else []) /\
    h_pace h' = h_pace h /\ gps_state_intent h' = gps_state_intent h.
Proof.
  intros Hd Hp Hpace Hc. split; [apply Forall_forall; intros x _; apply location_plain|].
  eexists. split; [apply (worker_counts hw a junk d ls l 0); [lia..|exact Hpace|exact Hc]|].
  destruct (bool_decide _); cbn; rewrite ?app_nil_r, Hpace; done.
Qed.

Definition hal_listens : gpshal := set_pace (Pace (f32_of_int 0) (report_interval 2000)) hal0.

Lemma location_to_android_witness :
  exists h', worker_events aosp_gps_h LP64 (fun _ => 0) (map (fix_event hal_listens) [loc_zero; loc_zero])
               hal_listens = Done (tt, h') /\
    h_calls h' = [location_cb (android_location aosp_gps_h loc_zero)].
Proof.
  destruct (location_to_android aosp_gps_h LP64 (fun _ => 0) 20 [loc_zero] loc_zero hal_listens
    ltac:(lia) eq_refl eq_refl eq_refl) as (_ & h' & E & Hc & _). exists h'. split; [exact E|exact Hc].
Defined.

(** ** Network-initiated requests *)

Lemma hex_of_nonzero l : bytes_ok l -> 0 ∉ hex_of l.
Proof.
  unfold hex_of, bytes_ok. induction 1 as [|c l Hc _ IH]; [by apply not_elem_of_nil|].
  apply in_u_spec in Hc. cbn [map concat app]. rewrite !not_elem_of_cons. split; [|split; [|done]].
  - pose proof (Z.div_pos c 16 ltac:(lia) ltac:(lia)). unfold hex_digit. case_match; lia.
  - pose proof (Z.mod_pos_bound c 16 ltac:(lia)). unfold hex_digit. case_match; lia.
Qed.

(** The text of a name on the wire: its hexadecimal UCS-2 form. *)
Definition ni_hex (l : list Z) : list Z := hex_of ([0xfe; 0xff] ++ ucs2 l).

Lemma length_ni_hex l : length (ni_hex l) = (4 + 4 * length l)%nat.
Proof. unfold ni_hex. rewrite length_hex_of, length_app, length_ucs2. cbn. lia. Qed.

Lemma ni_hex_holds l n : bytes_ok l -> (0 < n)%nat -> holds_cstr (ni_hex l ++ zeros n) (ni_hex l).
Proof.
  intros Hb Hn. destruct n as [|n]; [lia|]. exists (zeros n). split; [done|].
  apply hex_of_nonzero, Forall_app. split; [by repeat constructor|by apply ucs2_ok].
Qed.

Lemma strcpy_to_holds size m s :
  holds_cstr m s -> strcpy_to size (Some m) = if zlen s + 1 <=? size then Done s else UB.
Proof.
  intros H. cbn. rewrite (strlen_holds _ _ H). destruct H as (rest & -> & _).
  by rewrite take_app_length.
Qed.

Lemma equiv_holds p m s : p ≡ Some m -> holds_cstr m s -> exists m', p = Some m' /\ holds_cstr m' s.
Proof.
  destruct p as [m'|]; [|done]. intros [->|(s' & H & H')] Hm; [by exists m|].
  exists m'. split; [done|]. by rewrite (holds_cstr_inj _ _ _ Hm H').
Qed.

(** A name: bytes without a NUL, that fit the arrays of the daemon. *)
Definition ni_name (l : list Z) : Prop := 0 ∉ l /\ bytes_ok l /\ (length l <= 254)%nat.

Definition ni_msg (session_id type : Z) (r c : list Z) : mnl2hal_msg :=
  D_request_ni_notify session_id type (Some (ni_hex r ++ zeros (1020 - 4 * length r)))
    (Some (ni_hex c ++ zeros (1020 - 4 * length c))) NI_ENCODING_TYPE_UCS2 NI_ENCODING_TYPE_UCS2.

Definition ni_call (hw : gps_h) (session_id type : Z) (r c : list Z) : callback :=
  ni_notify_cb (NiNotification session_id (GPS_NI_TYPE_UMTS_SUPL hw) (notify_flags_of hw type) 8
    (GPS_NI_RESPONSE_NORESP hw) (ni_hex r) (ni_hex c) NI_ENCODING_TYPE_UCS2 NI_ENCODING_TYPE_UCS2).

Lemma ni_name_holds l : ni_name l -> holds_cstr (ni_hex l ++ zeros (1020 - 4 * length l)) (ni_hex l).
Proof. intros (_ & Hb & Hl). apply ni_hex_holds; [done|lia]. Qed.

Lemma ni_name_cstr l :
  ni_name l -> cstr_of (Some (ni_hex l ++ zeros (1020 - 4 * length l))) = Some (ni_hex l).
Proof.
  intros H%ni_name_holds. cbn [cstr_of]. rewrite (strlen_holds _ _ H). cbn [default]. unfold id.
  by rewrite take_app_length.
Qed.

Lemma ni_msg_ok session_id type r c :
  is_int session_id = true -> is_int type = true -> ni_name r -> ni_name c ->
  mnl2hal_ok (ni_msg session_id type r c) /\
  zlen (mnl2hal_bytes (ni_msg session_id type r c)) <= HAL_MNL_BUFF_SIZE.
Proof.
  intros Hs Ht Hr Hc.
  assert (forall l, ni_name l -> field_ok (FString (Some (ni_hex l ++ zeros (1020 - 4 * length l))))) as Hf.
  { intros l H%ni_name_holds. exists (length (ni_hex l)). by apply strlen_holds. }
  assert (mnl2hal_ok (ni_msg session_id type r c)) as Hok.
  { split; [|by split]. unfold ni_msg. cbn [mnl2hal_fields snd].
    apply Forall_cons. split; [exact Hs|]. apply Forall_cons. split; [exact Ht|].
    apply Forall_cons. split; [by apply Hf|]. apply Forall_cons. split; [by apply Hf|].
    apply Forall_cons. split; [reflexivity|]. apply Forall_cons. split; [reflexivity|]. apply Forall_nil, I. }
  split; [exact Hok|]. apply mnl2hal_strings_fit; [exact Hok|]. unfold ni_msg.
  rewrite !ni_name_cstr by done. cbn [default]. unfold id. rewrite !length_ni_hex.
  destruct Hr as (_ & _ & Hr), Hc as (_ & _ & Hc). lia.
Qed.

Lemma ni_handled hw a junk session_id type r c h :
  is_int session_id = true -> is_int type = true -> ni_name r -> ni_name c ->
  4 + 4 * 254 < GPS_NI_LONG_STRING_MAXLEN hw -> gpsni_cbs (h_cbs h) = true ->
  mnl2hal_hdlr a junk [RData (mnl2hal_bytes (ni_msg session_id type r c))]
    (gpshal_mnl2hal_interface hw a) h =
  if 4 + 4 * zlen r + 1 <=? GPS_NI_SHORT_STRING_MAXLEN hw
  then Done (0, log_call (ni_call hw session_id type r c) h) else UB.
Proof.
  intros Hs Ht Hr Hc Hlong Hcb. destruct (ni_msg_ok session_id type r c Hs Ht Hr Hc) as [Hok Hfit].
  destruct (mnl2hal_hdlr_shape a _ Hok I Hfit) as (m' & [Hcmd Hargs] & Hshape).
  rewrite (Hshape gpshal _ junk [] _ h). clear Hshape Hfit Hok.
  destruct m'; try discriminate Hcmd. unfold ni_msg in Hargs. cbn [mnl2hal_fields snd] in Hargs.
  repeat lazymatch goal with
  | H : Forall2 _ (_ :: _) (_ :: _) |- _ => apply Forall2_cons in H as [? H]
  end. cbn [equiv field_equiv] in *.
  repeat lazymatch goal with H : FInt _ = FInt _ |- _ => injection H as -> end.
  destruct (equiv_holds _ _ _ H1 (ni_name_holds r Hr)) as (rm & -> & Hrm).
  destruct (equiv_holds _ _ _ H2 (ni_name_holds c Hc)) as (cm & -> & Hcm).
  cbn [mnl2hal_call]. unfold invoke. cbn [m2h_request_ni_notify gpshal_mnl2hal_interface].
  unfold request_ni_notify. unfold bind at 1 2, lift at 1. rewrite (strcpy_to_holds _ _ _ Hrm).
  rewrite length_ni_hex. replace (Z.of_nat (4 + 4 * length r) + 1) with (4 + 4 * zlen r + 1) by lia.
  destruct (_ <=? GPS_NI_SHORT_STRING_MAXLEN hw); [|done].
  unfold bind, lift. rewrite (strcpy_to_holds _ _ _ Hcm), length_ni_hex.
  destruct Hc as (_ & _ & Hc).
  replace (_ <=? GPS_NI_LONG_STRING_MAXLEN hw) with true by (symmetry; apply Z.leb_le; lia).
  unfold call, bind, gets. by rewrite Hcb.
Qed.

(** C21: a network-initiated request on its way to Android.  The daemon turns
    the two names into the hexadecimal of their UCS-2 form and sends one
    datagram; the HAL then gives Android one notification with both texts, the
    flags of the request's kind and the encoding, when the hexadecimal of the
    requestor's name fits Android's array; otherwise its [strcpy] overruns that
    array. *)
Theorem ni_notify_to_android (hw : gps_h) (a : abi) (junk : nat -> Z) (session_id type : Z)
    (r c rest rest' : list Z) (w : mnld) (h : gpshal) :
  is_int session_id = true -> is_int type = true -> ni_name r -> ni_name c -> mnld_ok w ->
  4 + 4 * 254 < GPS_NI_LONG_STRING_MAXLEN hw -> gpsni_cbs (h_cbs h) = true ->
  effect (agps_ni_notify session_id type (Some (r ++ 0 :: rest)) (Some (c ++ 0 :: rest'))) w
    (view w) [to_hal (ni_msg session_id type r c)] /\
  worker_events hw a junk (hal_rx (fd_mnl2hal h) [to_hal (ni_msg session_id type r c)]) h =
  (if 4 + 4 * zlen r + 1 <=? GPS_NI_SHORT_STRING_MAXLEN hw
   then Done (tt, log_call (ni_call hw session_id type r c) h) else UB).
Proof.
  intros Hs Ht Hr Hc Hok Hlong Hcb. split.
  - destruct (ni_msg_ok session_id type r c Hs Ht Hr Hc) as [Hm Hfit].
    destruct Hr as (R1 & R2 & R3), Hc as (C1 & C2 & C3).
    unfold agps_ni_notify, effect, bind, lift. rewrite !ni_text_hex by done.
    apply (effect_send _ _ _ w Hok). by apply (mnl2hal_plain (ni_msg session_id type r c)).
  - by apply worker_one, ni_handled.
Qed.

Definition hal_ni : gpshal := set_cbs (fun _ => Tables true true true true true true) hal0.

Lemma ni_notify_to_android_witness :
  worker_events aosp_gps_h LP64 (fun _ => 0)
    (hal_rx (fd_mnl2hal hal_ni) [to_hal (ni_msg 1 1 (replicate 62 65) [66])]) hal_ni =
    Done (tt, log_call (ni_call aosp_gps_h 1 1 (replicate 62 65) [66]) hal_ni) /\
  worker_events aosp_gps_h LP64 (fun _ => 0)
    (hal_rx (fd_mnl2hal hal_ni) [to_hal (ni_msg 1 1 (replicate 63 65) [66])]) hal_ni = UB.
Proof.
  assert (forall n x, is_byte x = true -> x <> 0 -> (n <= 254)%nat -> ni_name (replicate n x)) as Hn.
  { intros n x Hb Hx Hle. split; [intros H; apply elem_of_replicate in H as [E _]; congruence|].
    split; [by apply Forall_replicate|]. by rewrite length_replicate. }
  split; [apply (ni_notify_to_android aosp_gps_h LP64 (fun _ => 0) 1 1 (replicate 62 65) [66] [] [] boot0 hal_ni)
         |apply (ni_notify_to_android aosp_gps_h LP64 (fun _ => 0) 1 1 (replicate 63 65) [66] [] [] boot0 hal_ni)];
    first [reflexivity | exact boot0_ok | apply (Hn 1%nat 66); (done || lia) | apply Hn; (done || lia)].
Defined.

(** ** Satellites *)

(** What Android gets of a satellite. *)
Definition android_sv (s : sv) : members :=
  [("svid", sv_svid s mod 2 ^ 16); ("constellation", sv_constellation s mod 2 ^ 8);
   ("c_n0_dbhz", f32_bits (sv_c_n0_dbhz s) mod 2 ^ 32);
   ("elevation", f32_bits (sv_elevation s) mod 2 ^ 32);
   ("azimuth", f32_bits (sv_azimuth s) mod 2 ^ 32); ("flags", sv_flags s mod 2 ^ 8)]%string.

Lemma sv_members_image a s : fieldp_copy a gnss_sv (sv_image s) sv_members = android_sv s.
Proof.
  unfold sv_image. destruct s as [id co cn el az fl].
  unfold fieldp_copy, sv_members, android_sv.
  cbn [map sv_svid sv_constellation sv_c_n0_dbhz sv_elevation sv_azimuth sv_flags].
  generalize (f32_bits cn) (f32_bits el) (f32_bits az). intros z z0 z1.
  destruct a; repeat f_equal; lazymatch goal with
    | |- _ = ?x mod 2 ^ 8 => exact (le_val_le_bytes 1 x)
    | |- _ = ?x mod 2 ^ 16 => exact (le_val_le_bytes 2 x)
    | |- _ = ?x mod 2 ^ 32 => exact (le_val_le_bytes 4 x)
    end.
Qed.

Lemma sv_element a i k s :
  sv_list i !! k = Some s ->
  element a gnss_sv_info (sv_info_image i) "sv_list" (Z.of_nat k) = sv_image s.
Proof.
  intros H. unfold element.
  replace (offsetof a gnss_sv_info "sv_list") with (Some (4, CArr GNSS_MAX_SVS gnss_sv)) by (by destruct a).
  replace (sizeof a gnss_sv) with 20 by (by destruct a). unfold sv_info_image.
  replace (Z.to_nat (4 + Z.of_nat k * 20)) with (length (le_bytes 4 (num_svs i)) + k * 20)%nat
    by (rewrite length_le_bytes; lia).
  rewrite drop_app_add. change (Z.to_nat 20) with 20%nat. apply concat_element; [intros; apply length_sv_image|done].
Qed.

Lemma sv_copy_image hw a i k n :
  length (sv_list i) = 64%nat -> (k + n <= 64)%nat -> 64 <= gnss_sv_list_len hw ->
  sv_copy hw a (sv_info_image i) (Z.of_nat k) n =
  Done (map android_sv (take n (drop k (sv_list i)))).
Proof.
  intros Hl. revert k. induction n as [|n IH]; intros k Hk Hh; [done|]. cbn [sv_copy].
  replace (_ && _) with true by (symmetry; apply andb_true_iff; split; apply Z.ltb_lt; unfold GNSS_MAX_SVS; lia).
  destruct (lookup_lt_is_Some_2 (sv_list i) k ltac:(lia)) as [s Hs].
  replace (Z.of_nat k + 1) with (Z.of_nat (S k)) by lia. rewrite IH by lia. cbn [obind].
  rewrite (sv_element a i k s Hs), sv_members_image. by rewrite (drop_S _ _ _ Hs).
Qed.

Lemma sv_count a i : is_int (num_svs i) = true -> s32 (member a gnss_sv_info (sv_info_image i) "num_svs") = num_svs i.
Proof.
  intros Hn. assert (member a gnss_sv_info (sv_info_image i) "num_svs" = num_svs i mod 2 ^ 32) as ->
    by (destruct a; exact (le_val_le_bytes 4 (num_svs i))).
  transitivity (s32 (num_svs i)); [|by apply wrap_s_id]. apply wrap_s_mod. by rewrite Z.mod_mod.
Qed.

Lemma sv_received (hw : gps_h) (a : abi) (junk : nat -> Z) (i : sv_info) (h : gpshal) :
  length (sv_list i) = 64%nat -> 0 <= num_svs i -> is_int (num_svs i) = true ->
  64 <= gnss_sv_list_len hw -> gps_cbs (h_cbs h) = true ->
  worker_events hw a junk (hal_rx (fd_mnl2hal h) [to_hal (D_gps_sv (sv_info_image i))]) h =
  if num_svs i <=? 64
  then Done (tt, log_call (gnss_sv_status_cb (num_svs i)
                             (map android_sv (take (Z.to_nat (num_svs i)) (sv_list i)))) h)
  else UB.
Proof.
  intros Hl H0 Hi Hh Hc.
  apply worker_one. assert (mnl2hal_ok (D_gps_sv (sv_info_image i))) as Hok.
  { split; [by repeat constructor|]. split; [done|]. cbn [mnl2hal_struct].
    by rewrite (length_sv_info_image i Hl). }
  rewrite worker_handles; [|exact Hok|by destruct a|by apply mnl2hal_strings_fit|].
  2: { intros m' [Hcmd Ha]. destruct m'; try discriminate Hcmd. cbn [mnl2hal_fields snd] in Ha.
       apply Forall2_cons in Ha as [Ha _]. by injection Ha as ->. }
  cbn [mnl2hal_call]. unfold invoke. cbn [m2h_gps_sv gpshal_mnl2hal_interface].
  unfold update_gps_sv, dump_gnss_sv_info, dump_array. rewrite sv_count by done.
  change GNSS_MAX_SVS with 64. destruct (Z.leb_spec (num_svs i) 64); [|done].
  unfold bind, ret, lift. change 0 with (Z.of_nat 0) at 1.
  rewrite sv_copy_image by (done || lia). unfold call, bind, gets. by rewrite Hc.
Qed.

(** A satellite report on its way to Android.  A count of at most 64 gives
    one callback with the count and exactly that many satellites of the daemon's
    list, each with the bit patterns of its numbers; a larger count, which no
    one checks, makes the HAL read behind the daemon's list. *)
Theorem sv_report_to_android (hw : gps_h) (a : abi) (junk : nat -> Z) (i : sv_info) (h : gpshal) :
  length (sv_list i) = 64%nat -> 0 <= num_svs i -> is_int (num_svs i) = true ->
  64 <= gnss_sv_list_len hw -> gps_cbs (h_cbs h) = true ->
  worker_events hw a junk (hal_rx (fd_mnl2hal h) [to_hal (D_gps_sv (sv_info_image i))]) h =
  if num_svs i <=? 64
  then Done (tt, log_call (gnss_sv_status_cb (num_svs i)
                             (map android_sv (take (Z.to_nat (num_svs i)) (sv_list i)))) h)
  else UB.
Proof. apply sv_received. Qed.

Lemma sv_report_to_android_witness :
  worker_events aosp_gps_h LP64 (fun _ => 0)
    (hal_rx (fd_mnl2hal hal0) [to_hal (D_gps_sv (sv_info_image (SvInfo 1 (sv_list sv_info_zero))))]) hal0 =
  Done (tt, log_call (gnss_sv_status_cb 1 [android_sv sv_zero]) hal0).
Proof. by apply (sv_report_to_android aosp_gps_h LP64 (fun _ => 0) (SvInfo 1 (sv_list sv_info_zero)) hal0). Defined.

(** A set whose last sentence comes six times over: the counts add up. *)
Definition repeated_gsv : list Z :=
  concat (replicate 6 (lit "$GPGSV,2,2,32,04,45,300,33,05,10,200,20,06,10,100,30,07,20,150,40*7A" ++ [13; 10])).

Definition repeated_gsv_world : nmea :=
  match mtk_mnl_nmea_parser_process beijing repeated_gsv nmea_boot with
  | Done (_, w) => w
  | _ => nmea_boot
  end.

(** Its satellites, and a count of 80. *)
Definition report_80 (w : nmea) : sv_info := SvInfo 80 (sv_list (r_sv_status (n_reader w))).

Lemma repeated_gsv_parsed :
  exists w, mtk_mnl_nmea_parser_process beijing repeated_gsv nmea_boot = Done (tt, w) /\
  length (sv_list (report_80 w)) = 64%nat /\
  existsb (fun e => match e with
                    | EvSend path b _ => bool_decide (path = MTK_MNL2HAL /\
                        b = mnl2hal_bytes (D_gps_sv (sv_info_image (report_80 w))))
                    | _ => false
                    end) (sys_trace (sys_of w)) = true.
Proof. exists repeated_gsv_world. split; [|split]; vm_compute; reflexivity. Qed.

(** The satellite count is nowhere bounded.  When the last sentence of a
    set of satellites comes six times over, the daemon's parser adds its count
    again each time and sends a report of 80 satellites in a list of 64; the HAL
    reads behind the list. *)
Theorem repeated_gsv_overruns (hw : gps_h) (a : abi) (junk : nat -> Z) (h : gpshal) :
  64 <= gnss_sv_list_len hw -> gps_cbs (h_cbs h) = true ->
  exists w i, mtk_mnl_nmea_parser_process beijing repeated_gsv nmea_boot = Done (tt, w) /\
    In (to_hal (D_gps_sv (sv_info_image i))) (map erase (sys_trace (sys_of w))) /\ num_svs i = 80 /\
    worker_events hw a junk (hal_rx (fd_mnl2hal h) [to_hal (D_gps_sv (sv_info_image i))]) h = UB.
Proof.
  intros Hh Hc. destruct repeated_gsv_parsed as (w & E & Hl & Hin).
  exists w, (report_80 w). split; [exact E|]. split; [|split; [done|]].
  - clear E. apply existsb_exists in Hin as ([path b r|?|?] & Hin & Hb); [|discriminate Hb..].
    apply bool_decide_eq_true in Hb as [-> ->]. apply (in_map erase _ _ Hin).
  - clear E Hin. exact (sv_received hw a junk (report_80 w) h Hl ltac:(done) eq_refl Hh Hc).
Qed.

Lemma repeated_gsv_overruns_witness :
  exists w i, In (to_hal (D_gps_sv (sv_info_image i))) (map erase (sys_trace (sys_of w))) /\
    worker_events aosp_gps_h LP64 (fun _ => 0)
      (hal_rx (fd_mnl2hal hal0) [to_hal (D_gps_sv (sv_info_image i))]) hal0 = UB.
Proof.
  destruct (repeated_gsv_overruns aosp_gps_h LP64 (fun _ => 0) hal0) as (w & i & _ & H1 & _ & H2);
    [done|done|]. exists w, i. split; [exact H1|exact H2].
Defined.
