(* ===== verification/DbgLog.v ===== *)
(** * The debug log of the GPS: two buffers between two threads

    [src/gps/mtk_mnld/mnld_entity/src/gps_dbg_log.c]: libmnl hands text to
    [mnl_sys_alps_gps_dbg2file_mnld], which copies it into one of two buffers;
    when that is full and the other one is free, the buffers change roles and
    the log thread writes the full one to the file.  No lock protects the
    buffers: their states say who may touch them.

    Every access of a shared variable is a segment of its own, so that the two
    threads can be interleaved ([DbgLogSystem]); the functions of the file are the
    segments one after the other. *)

From stdpp Require Import list.
From S2P Require Import Prelude.

Definition PINGPANG_BUFFER_SIZE : Z := 20 * 1024.

(** [buffer_state] *)
Inductive buffer_state : Type :=
| NOTINIT
| WRITABLE
| WRITING
| READABLE
| READING.
#[export] Instance buffer_state_eq_dec : EqDecision buffer_state.
Proof. solve_decision. Defined.

(** Buffer 1 or 2. *)
Inductive side : Type := Buf1 | Buf2.
#[export] Instance side_eq_dec : EqDecision side.
Proof. solve_decision. Defined.
Definition other (s : side) : side := match s with Buf1 => Buf2 | Buf2 => Buf1 end.

(** One buffer: its block (null before [calloc]), [bufferN_state],
    [lenth_to_write_bufferN]. *)
Record half : Type := Half {
  h_mem : option (list Z);
  h_state : buffer_state;
  h_len : Z
}.

(** [ping_pang_buffer_body] with the variables its pointers designate,
    [lock_for_sync], and what the log file holds.  [next_write] is null or an
    offset in a buffer; [g_pingpang_init] also says that the pointers to the
    states and lengths are not null. *)
Record dbglog : Type := Dbg {
  enabled : bool;            (* gps_debuglog_state *)
  g_pingpang_init : bool;
  buf1 : half;
  buf2 : half;
  next_write : option (side * Z);
  num_loose : Z;
  write_cond : bool;         (* lock_for_sync[PINGPANG_WRITE_LOCK].condtion *)
  flush_cond : bool;         (* lock_for_sync[PINGPANG_FLUSH_LOCK].condtion *)
  log_open : bool;           (* g_hLogFile is not null *)
  Current_FileSize : Z;
  Filenum : Z;
  log_file : list Z          (* what was written to log files so far *)
}.

Definition half_off : half := Half None NOTINIT 0.
Definition dbglog_boot : dbglog := Dbg false false half_off half_off None 0 false false false 0 0 [].

Definition half_of (s : side) (d : dbglog) : half := match s with Buf1 => buf1 d | Buf2 => buf2 d end.
Definition upd_half (s : side) (f : half -> half) (d : dbglog) : dbglog :=
  let '(b1, b2) := match s with
                   | Buf1 => (f (buf1 d), buf2 d)
                   | Buf2 => (buf1 d, f (buf2 d))
                   end in
  Dbg (enabled d) (g_pingpang_init d) b1 b2 (next_write d) (num_loose d) (write_cond d) (flush_cond d)
    (log_open d) (Current_FileSize d) (Filenum d) (log_file d).
Definition set_enabled (b : bool) (d : dbglog) : dbglog :=
  Dbg b (g_pingpang_init d) (buf1 d) (buf2 d) (next_write d) (num_loose d) (write_cond d) (flush_cond d)
    (log_open d) (Current_FileSize d) (Filenum d) (log_file d).
Definition set_next (p : option (side * Z)) (d : dbglog) : dbglog :=
  Dbg (enabled d) (g_pingpang_init d) (buf1 d) (buf2 d) p (num_loose d) (write_cond d) (flush_cond d)
    (log_open d) (Current_FileSize d) (Filenum d) (log_file d).
Definition set_loose (n : Z) (d : dbglog) : dbglog :=
  Dbg (enabled d) (g_pingpang_init d) (buf1 d) (buf2 d) (next_write d) n (write_cond d) (flush_cond d)
    (log_open d) (Current_FileSize d) (Filenum d) (log_file d).
Definition set_write_cond (b : bool) (d : dbglog) : dbglog :=
  Dbg (enabled d) (g_pingpang_init d) (buf1 d) (buf2 d) (next_write d) (num_loose d) b (flush_cond d)
    (log_open d) (Current_FileSize d) (Filenum d) (log_file d).
Definition set_flush_cond (b : bool) (d : dbglog) : dbglog :=
  Dbg (enabled d) (g_pingpang_init d) (buf1 d) (buf2 d) (next_write d) (num_loose d) (write_cond d) b
    (log_open d) (Current_FileSize d) (Filenum d) (log_file d).
Definition append_file (l : list Z) (d : dbglog) : dbglog :=
  Dbg (enabled d) (g_pingpang_init d) (buf1 d) (buf2 d) (next_write d) (num_loose d) (write_cond d)
    (flush_cond d) (log_open d) (Current_FileSize d) (Filenum d) (log_file d ++ l).
Definition set_file (open : bool) (size num : Z) (d : dbglog) : dbglog :=
  Dbg (enabled d) (g_pingpang_init d) (buf1 d) (buf2 d) (next_write d) (num_loose d) (write_cond d)
    (flush_cond d) open size num (log_file d).

Definition with_mem (m : option (list Z)) (h : half) : half := Half m (h_state h) (h_len h).
Definition with_state (st : buffer_state) (h : half) : half := Half (h_mem h) st (h_len h).
Definition with_len (n : Z) (h : half) : half := Half (h_mem h) (h_state h) n.

(** [*(pingpang->p_bufferN_state)]: the pointer is null before the
    initialisation and after the release. *)
Definition state_of (s : side) : prog dbglog buffer_state :=
  let* ok := gets g_pingpang_init in
  if ok : bool then gets (fun d => h_state (half_of s d)) else undef.
Definition put_state (s : side) (st : buffer_state) : prog dbglog unit :=
  modify (upd_half s (with_state st)).
Definition put_len (s : side) (n : Z) : prog dbglog unit := modify (upd_half s (with_len n)).

(** ** Synchronisation *)

Inductive lock : Type := PINGPANG_WRITE_LOCK | PINGPANG_FLUSH_LOCK.

Definition put_cond (l : lock) (b : bool) : prog dbglog unit :=
  modify (match l with PINGPANG_WRITE_LOCK => set_write_cond b | PINGPANG_FLUSH_LOCK => set_flush_cond b end).
Definition init_condition (l : lock) : prog dbglog unit := put_cond l false.
(** Waits until the condition holds, and clears it. *)
Definition get_condition (l : lock) : prog dbglog unit :=
  let* c := gets (match l with PINGPANG_WRITE_LOCK => write_cond | PINGPANG_FLUSH_LOCK => flush_cond end) in
  if c : bool then put_cond l false else blocked.
Definition release_condition (l : lock) : prog dbglog unit := put_cond l true.

(** ** Memory *)

Definition zeroed : list Z := zeros (Z.to_nat PINGPANG_BUFFER_SIZE).

(** [memset(start, 0, PINGPANG_BUFFER_SIZE)] *)
Definition clear (s : side) : prog dbglog unit :=
  let* m := gets (fun d => h_mem (half_of s d)) in
  match m with
  | Some _ => modify (upd_half s (with_mem (Some zeroed)))
  | None => undef
  end.

(** [memcpy(next_write, data, zlen data)] *)
Definition copy_bytes (data : list Z) : prog dbglog unit :=
  let* p := gets next_write in
  match p with
  | None => if zlen data =? 0 then ret tt else undef
  | Some (s, off) =>
      let* m := gets (fun d => h_mem (half_of s d)) in
      match m with
      | Some m =>
          if (0 <=? off) && (off + zlen data <=? zlen m)
          then modify (upd_half s (with_mem (Some (take (Z.to_nat off) m ++ data ++
                                                    drop (Z.to_nat off + length data) m))))
          else undef
      | None => undef
      end
  end.

(** ** The writer: [gps_dbg_log_pingpang_copy] *)

(** What the writer finds. *)
Inductive choice : Type :=
| Stay            (* the text fits behind [next_write] *)
| Switch          (* the buffer is full, the other one is free *)
| Loose.          (* the buffer is full, the other one is not free *)

Definition fits (s : side) (len : Z) : prog dbglog bool :=
  let* p := gets next_write in
  match p with
  | Some (t, off) => if bool_decide (t = s) then ret (off + len <=? PINGPANG_BUFFER_SIZE - 2) else undef
  | None => undef
  end.

Definition choose (s : side) (len : Z) : prog dbglog choice :=
  let* ok := fits s len in
  if ok : bool then ret Stay
  else
    let* st := state_of (other s) in
    ret (if bool_decide (st = WRITABLE) then Switch else Loose).

(** The buffer that is being filled. *)
Definition writing_side : prog dbglog (option side) :=
  let* st1 := state_of Buf1 in
  let* st2 := state_of Buf2 in
  ret (if bool_decide (st1 = WRITING) && negb (bool_decide (st2 = WRITING)) then Some Buf1
       else if bool_decide (st2 = WRITING) && negb (bool_decide (st1 = WRITING)) then Some Buf2
       else None).

(** The four stores of a change of roles; the first one needs the distance of
    [next_write] from the start of its buffer. *)
Definition switch_next (s : side) : prog dbglog unit :=
  let* p := gets next_write in
  match p with
  | Some (t, off) =>
      if bool_decide (t = s) then put_len s off ;; modify (set_next (Some (other s, 0))) else undef
  | None => undef
  end.
Definition switch_take (s : side) : prog dbglog unit := put_state (other s) WRITING.
Definition switch_give (s : side) : prog dbglog unit := put_state s READABLE.
Definition switch_signal : prog dbglog unit := release_condition PINGPANG_WRITE_LOCK.

Definition loose (s : side) : prog dbglog unit :=
  clear s ;;
  modify (set_next (Some (s, 0))) ;;
  modify (fun d => set_loose (num_loose d + 1) d).

(** [memcpy] and [next_write += len] *)
Definition copy_put (data : list Z) : prog dbglog unit :=
  copy_bytes data ;;
  modify (fun d => set_next (match next_write d with
                             | Some (s, off) => Some (s, off + zlen data)
                             | None => None
                             end) d).

Definition MTK_GPS_SUCCESS : Z := 0.
Definition MTK_GPS_ERROR : Z := -1.

Definition gps_dbg_log_pingpang_copy (data : list Z) : prog dbglog Z :=
  let* c := writing_side in
  match c with
  | None => ret MTK_GPS_ERROR
  | Some s =>
      let* c := choose s (zlen data) in
      match c with
      | Stay => ret tt
      | Switch => switch_next s ;; switch_take s ;; switch_give s ;; switch_signal
      | Loose => loose s
      end ;;
      copy_put data ;; ret MTK_GPS_SUCCESS
  end.

(** [length] is that of the text. *)
Definition mnl_sys_alps_gps_dbg2file_mnld (data : list Z) : prog dbglog Z :=
  let* on := gets enabled in
  let* p := gets next_write in
  if on && bool_decide (is_Some p)
  then let* _ := gps_dbg_log_pingpang_copy data in ret MTK_GPS_SUCCESS
  else ret MTK_GPS_SUCCESS.

(** ** The log thread *)

Section thread.
(** How many bytes of a block [fwrite] writes. *)
Context (fwrite : list Z -> nat).

Definition file_write (s : side) (n : Z) : prog dbglog Z :=
  let* m := gets (fun d => h_mem (half_of s d)) in
  match m with
  | Some m =>
      if (0 <=? n) && (n <=? zlen m) then
        let bytes := take (Z.to_nat n) m in
        let k := Nat.min (fwrite bytes) (length bytes) in
        modify (append_file (take k bytes)) ;; ret (Z.of_nat k)
      else undef
  | None => undef
  end.

(** The two tests of one condition of [gps_dbg_log_pingpang_write]: the
    buffer's own state first, then the other's and the length. *)
Definition readable (s : side) : prog dbglog bool :=
  let* st := state_of s in ret (bool_decide (st = READABLE)).
Definition confirm (s : side) : prog dbglog bool :=
  let* st := state_of (other s) in
  let* n := gets (fun d => h_len (half_of s d)) in
  ret (negb (bool_decide (st = READABLE)) && negb (n =? 0)).

(** The buffer that is to be written, if any. *)
Definition write_decide : prog dbglog (option side) :=
  let* r1 := readable Buf1 in
  let* c1 := (if r1 : bool then confirm Buf1 else ret false) in
  if c1 : bool then ret (Some Buf1)
  else
    let* r2 := readable Buf2 in
    let* c2 := (if r2 : bool then confirm Buf2 else ret false) in
    ret (if c2 : bool then Some Buf2 else None).

Definition write_take (s : side) : prog dbglog unit := put_state s READING.
Definition write_bytes (s : side) : prog dbglog Z :=
  let* n := gets (fun d => h_len (half_of s d)) in file_write s n.
Definition write_clear (s : side) : prog dbglog unit := clear s.
Definition write_zero (s : side) : prog dbglog unit := put_len s 0.
Definition write_give (s : side) : prog dbglog unit := put_state s WRITABLE.

Definition gps_dbg_log_pingpang_write : prog dbglog Z :=
  let* c := write_decide in
  match c with
  | Some s =>
      write_take s ;;
      let* count := write_bytes s in
      write_clear s ;; write_zero s ;; write_give s ;;
      ret count
  | None => ret 0
  end.

(** [calloc1] and [calloc2] say whether there is memory; what [calloc] gave for
    the first buffer is given back when there is none for the second. *)
Definition gps_dbg_log_pingpang_init (calloc1 calloc2 : bool) : prog dbglog Z :=
  modify (fun d => Dbg (enabled d) (g_pingpang_init d) (with_mem None (buf1 d)) (with_mem None (buf2 d))
                     None 0 (write_cond d) (flush_cond d) (log_open d) (Current_FileSize d) (Filenum d)
                     (log_file d)) ;;
  if negb (calloc1 && calloc2) then ret MTK_GPS_ERROR
  else
    modify (fun d => Dbg (enabled d) true (Half (Some zeroed) WRITING 0) (Half (Some zeroed) WRITABLE 0)
                       (Some (Buf1, 0)) 0 (write_cond d) (flush_cond d) (log_open d)
                       (Current_FileSize d) (Filenum d) (log_file d)) ;;
    ret MTK_GPS_SUCCESS.

Definition gps_dbg_log_pingpang_free : prog dbglog Z :=
  modify (fun d => Dbg (enabled d) false half_off half_off None 0 (write_cond d) (flush_cond d)
                     (log_open d) (Current_FileSize d) (Filenum d) (log_file d)) ;;
  ret MTK_GPS_SUCCESS.

(** Under its lock the flush takes [next_write] away from the writer. *)
Definition flush_take : prog dbglog (option (side * Z)) :=
  get_condition PINGPANG_FLUSH_LOCK ;;
  let* p := gets next_write in
  modify (set_next None) ;;
  release_condition PINGPANG_FLUSH_LOCK ;;
  ret p.

(** The bytes before the old [next_write] of the buffer that was written; a
    difference with another buffer or with null has no meaning. *)
Definition flush_current (s : side) (p : option (side * Z)) : prog dbglog unit :=
  match p with
  | Some (t, off) => if bool_decide (t = s) then let* _ := file_write s off in ret tt else undef
  | None => undef
  end.

Definition flush_both (s : side) (p : option (side * Z)) : prog dbglog unit :=
  let* st := state_of (other s) in
  when (bool_decide (st = READABLE)) (let* _ := write_bytes (other s) in ret tt) ;;
  flush_current s p.

Definition flush_rest (p : option (side * Z)) : prog dbglog unit :=
  let* st1 := state_of Buf1 in
  let* st2 := state_of Buf2 in
  if bool_decide (st1 = WRITING) && negb (bool_decide (st2 = WRITING)) then flush_both Buf1 p
  else if bool_decide (st2 = WRITING) && negb (bool_decide (st1 = WRITING)) then flush_both Buf2 p
  else ret tt.

Definition gps_dbg_log_pingpang_flush : prog dbglog Z :=
  let* p := flush_take in
  flush_rest p ;;
  ret MTK_GPS_SUCCESS.

Definition MAX_DBG_LOG_FILE_SIZE : Z := 20 * 1024 * 1024.

(** [FILE_FCLOSE(g_hLogFile)] *)
Definition FILE_FCLOSE : prog dbglog unit :=
  modify (fun d => set_file false (Current_FileSize d) (Filenum d) d).

(** What one turn of the thread finds: whether the directory can be accessed and
    whether a new file can be opened. *)
Record turn_env : Type := TurnEnv { access_ok : bool; fopen_ok : bool }.

(** A new file when the next buffer might not fit; false when it cannot be
    opened.  The check of the directory's size that may follow only deletes old
    files. *)
Definition rotate (e : turn_env) : prog dbglog bool :=
  let* size := gets Current_FileSize in
  if size + PINGPANG_BUFFER_SIZE <=? MAX_DBG_LOG_FILE_SIZE then ret true
  else
    modify (fun d => set_file (log_open d) (Current_FileSize d) (Filenum d + 1) d) ;;
    FILE_FCLOSE ;;
    if fopen_ok e then
      modify (fun d => set_file true 0 (Filenum d) d) ;; ret true
    else ret false.

(** A turn with the log switched on; false ends the loop. *)
Definition log_on (e : turn_env) : prog dbglog bool :=
  when (negb (access_ok e)) (FILE_FCLOSE ;; modify (set_enabled false)) ;;
  let* opened := gets log_open in
  let* go := (if opened : bool then rotate e else ret true) in
  if go : bool then
    let* opened := gets log_open in
    when opened
      (let* count := gps_dbg_log_pingpang_write in
       modify (fun d => set_file (log_open d) (count + Current_FileSize d) (Filenum d) d)) ;;
    ret true
  else ret false.

(** [start_address_buffer1] and [start_address_buffer2] are not null. *)
Definition have_buffers : prog dbglog bool :=
  let* m1 := gets (fun d => h_mem (buf1 d)) in
  let* m2 := gets (fun d => h_mem (buf2 d)) in
  ret (bool_decide (is_Some m1) && bool_decide (is_Some m2)).

(** A turn with the log switched off. *)
Definition log_off : prog dbglog unit :=
  let* have := have_buffers in
  when have
    (let* opened := gets log_open in
     when opened (let* _ := gps_dbg_log_pingpang_flush in ret tt) ;;
     let* _ := gps_dbg_log_pingpang_free in
     FILE_FCLOSE).

(** One turn of [gps_dbg_log_thread]; false ends the loop. *)
Definition log_turn (e : turn_env) : prog dbglog bool :=
  get_condition PINGPANG_WRITE_LOCK ;;
  let* on := gets enabled in
  if on : bool then log_on e else log_off ;; ret true.

Fixpoint log_turns (es : list turn_env) : prog dbglog unit :=
  match es with
  | [] => ret tt
  | e :: rest => let* go := log_turn e in if go : bool then log_turns rest else ret tt
  end.

(** After the loop. *)
Definition log_exit : prog dbglog unit :=
  let* opened := gets log_open in
  when opened
    (let* have := have_buffers in
     when have
       (let* _ := gps_dbg_log_pingpang_flush in
        let* _ := gps_dbg_log_pingpang_free in ret tt) ;;
     FILE_FCLOSE).
End thread.

(** The thread then leaves its loop: [g_gpsdbglogThreadExit] is the end of the
    list of its turns. *)
Definition gps_stop_dbglog_release_condition : prog dbglog unit :=
  release_condition PINGPANG_WRITE_LOCK ;; release_condition PINGPANG_FLUSH_LOCK.
