(* ===== verification/DbgLogSystem.v ===== *)
(** * The debug log with two threads

    The writer (a thread of libmnl) and the log thread, interleaved at every
    access of a variable that the other one may change, from the initialisation of
    the buffers to their release.  The log thread is the whole of its loop and what
    follows it: the switch of the log, the access check, the rotation of the file,
    the write, and the flush and the release, either because the log was switched
    off or because the thread ends.  The main thread's part are switching the log
    off ([deep_stop]) and ending the thread; switching it on again while buffers
    exist (a new file) is not modelled.

    Shown: until the release nothing is read or written outside the buffers, for
    texts that fit a buffer; the file gets the texts in order, complete but for
    whole buffers that are counted as lost; no wake-up of the log thread is lost;
    the end of the log writes what is left.  Also shown: a longer text overruns the
    buffer, and a release that begins while a text is being copied makes the copy
    store through a null pointer. *)

From stdpp Require Import list.
From S2P Require Import Prelude DbgLog.

(** Where the writer is in [gps_dbg_log_pingpang_copy]: the next segment.  A
    segment that reads two variables reads what only the writer changes (its
    pointer, and whether a state is [WRITING]) before the one the log thread
    changes. *)
Inductive wpc : Type :=
| WIdle
| WStart (data : list Z)
| WChoose (s : side) (data : list Z)
| WNext (s : side) (data : list Z)
| WTake (s : side) (data : list Z)
| WGive (s : side) (data : list Z)
| WSignal (data : list Z)
| WLoose (s : side) (data : list Z)
| WCopy (data : list Z).

#[export] Instance wpc_eq_dec : EqDecision wpc.
Proof. solve_decision. Defined.

Definition wrun (pc : wpc) : prog dbglog wpc :=
  match pc with
  | WIdle => blocked
  | WStart data =>
      let* c := writing_side in
      ret (match c with Some s => WChoose s data | None => WIdle end)
  | WChoose s data =>
      let* c := choose s (zlen data) in
      ret (match c with Stay => WCopy data | Switch => WNext s data | Loose => WLoose s data end)
  | WNext s data => switch_next s ;; ret (WTake s data)
  | WTake s data => switch_take s ;; ret (WGive s data)
  | WGive s data => switch_give s ;; ret (WSignal data)
  | WSignal data => switch_signal ;; ret (WCopy data)
  | WLoose s data => loose s ;; ret (WCopy data)
  | WCopy data => copy_put data ;; ret WIdle
  end.

(** Where the log thread is: in its loop, in [gps_dbg_log_pingpang_write] (from
    [RFirst] to [RGive]), and in the flush and the release, which either belong to
    the loop or ([true]) follow it. *)
Inductive rpc : Type :=
| RLoop
| RWait
| RSwitch
| RAccess
| RFile
| RFirst
| RSecond
| RConfirm (s : side)
| RTake (s : side)
| RBytes (s : side)
| RClear (s : side) (n : Z)
| RZero (s : side) (n : Z)
| RGive (s : side) (n : Z)
| RCount (n : Z)
| ROff
| RExit
| RFlushTake (last : bool)
| RFlushRest (last : bool) (p : option (side * Z))
| RRelease (last : bool)
| REnd.

#[export] Instance rpc_eq_dec : EqDecision rpc.
Proof. solve_decision. Defined.

Section threads.
Context (fwrite : list Z -> nat).

(** [Current_FileSize = count + Current_FileSize] *)
Definition count_in (n : Z) : prog dbglog unit :=
  modify (fun d => set_file (log_open d) (n + Current_FileSize d) (Filenum d) d).

(** [e] is what the thread finds outside, [stop] is [g_gpsdbglogThreadExit], which
    another thread sets. *)
Definition rrun (e : turn_env) (stop : bool) (pc : rpc) : prog dbglog rpc :=
  match pc with
  | RLoop => ret (if stop then RExit else RWait)
  | RWait => get_condition PINGPANG_WRITE_LOCK ;; ret RSwitch
  | RSwitch => let* on := gets enabled in ret (if on : bool then RAccess else ROff)
  | RAccess => when (negb (access_ok e)) (FILE_FCLOSE ;; modify (set_enabled false)) ;; ret RFile
  | RFile =>
      let* opened := gets log_open in
      if opened : bool then let* go := rotate e in ret (if go : bool then RFirst else RExit)
      else ret RLoop
  | RFirst => let* c := readable Buf1 in ret (if c : bool then RConfirm Buf1 else RSecond)
  | RSecond => let* c := readable Buf2 in ret (if c : bool then RConfirm Buf2 else RCount 0)
  | RConfirm s =>
      let* c := confirm s in
      ret (if c : bool then RTake s else match s with Buf1 => RSecond | Buf2 => RCount 0 end)
  | RTake s => write_take s ;; ret (RBytes s)
  | RBytes s => let* n := write_bytes fwrite s in ret (RClear s n)
  | RClear s n => write_clear s ;; ret (RZero s n)
  | RZero s n => write_zero s ;; ret (RGive s n)
  | RGive s n => write_give s ;; ret (RCount n)
  | RCount n => count_in n ;; ret RLoop
  | ROff =>
      let* have := have_buffers in
      let* opened := gets log_open in
      ret (if have : bool then if opened : bool then RFlushTake false else RRelease false else RLoop)
  | RExit =>
      let* opened := gets log_open in
      if opened : bool then
        let* have := have_buffers in
        if have : bool then ret (RFlushTake true) else FILE_FCLOSE ;; ret REnd
      else ret REnd
  | RFlushTake last => let* p := flush_take in ret (RFlushRest last p)
  | RFlushRest last p => flush_rest fwrite p ;; ret (RRelease last)
  | RRelease last =>
      let* _ := gps_dbg_log_pingpang_free in
      FILE_FCLOSE ;; ret (if last then REnd else RLoop)
  | REnd => blocked
  end.

(** Where a turn ends. *)
Definition turn_done (pc : rpc) : bool :=
  match pc with RLoop | RExit | REnd => true | _ => false end.

(** The whole functions are the segments without interleaving. *)
Fixpoint wruns (n : nat) (pc : wpc) : prog dbglog unit :=
  match n, pc with
  | _, WIdle => ret tt
  | O, _ => blocked
  | S n', _ => let* pc' := wrun pc in wruns n' pc'
  end.

Fixpoint rruns (e : turn_env) (n : nat) (pc : rpc) : prog dbglog rpc :=
  if turn_done pc then ret pc
  else match n with
       | O => blocked
       | S n' => let* pc' := rrun e false pc in rruns e n' pc'
       end.

#[local] Opaque copy_put choose writing_side switch_next switch_take switch_give switch_signal loose.
#[local] Opaque write_take write_bytes write_clear write_zero write_give.

Lemma wruns_S n pc : pc <> WIdle -> wruns (S n) pc = bind (wrun pc) (wruns n).
Proof. by destruct pc. Qed.
Lemma wruns_idle n : wruns n WIdle = ret tt.
Proof. by destruct n. Qed.
Lemma rruns_S e n pc : turn_done pc = false -> rruns e (S n) pc = bind (rrun e false pc) (rruns e n).
Proof. cbn [rruns]. by intros ->. Qed.
Lemma rruns_done e n pc : turn_done pc = true -> rruns e n pc = ret pc.
Proof. destruct n; cbn [rruns]; by intros ->. Qed.

(** One segment on the right of the equation, and what it gave. *)
Ltac segment :=
  lazymatch goal with
  | |- _ = wruns _ WIdle _ => rewrite wruns_idle
  | |- _ = wruns (S _) _ _ => rewrite wruns_S by discriminate; cbn [wrun]
  end; unfold bind, ret.
Ltac outcome_of m :=
  lazymatch goal with
  | |- context [m ?d] => destruct (m d) as [[? ?]| | |]; [|reflexivity..]
  end.

Lemma copy_is_wruns data d :
  (let* _ := gps_dbg_log_pingpang_copy data in ret tt) d = wruns 7 (WStart data) d.
Proof.
  unfold gps_dbg_log_pingpang_copy. segment.
  destruct (writing_side d) as [[[s|] d0]| | |]; [|reflexivity..]. segment.
  destruct (choose s (zlen data) d0) as [[[] d1]| | |]; [| | |reflexivity..].
  - segment. outcome_of (copy_put data). by segment.
  - segment. outcome_of (switch_next s). segment. outcome_of (switch_take s).
    segment. outcome_of (switch_give s). segment. outcome_of switch_signal.
    segment. outcome_of (copy_put data). by segment.
  - segment. outcome_of (loose s). segment. outcome_of (copy_put data). by segment.
Qed.

(** The same for the log thread. *)
Ltac turn :=
  lazymatch goal with
  | |- _ = rruns _ _ _ _ =>
      first [rewrite rruns_done by reflexivity|rewrite rruns_S by reflexivity; cbn [rrun]]
  end; unfold bind, ret.

Lemma taken_is_rruns e s n d :
  (let* count := write_take s ;;
             let* count := write_bytes fwrite s in
             write_clear s ;; write_zero s ;; write_give s ;; ret count in count_in count ;; ret RLoop) d =
  rruns e (6 + n) (RTake s) d.
Proof.
  cbn [Nat.add]. turn. outcome_of (write_take s). turn. outcome_of (write_bytes fwrite s).
  turn. outcome_of (write_clear s). turn. outcome_of (write_zero s).
  turn. outcome_of (write_give s). turn. outcome_of (count_in z). by turn.
Qed.

Lemma write_is_rruns e n d :
  (let* count := gps_dbg_log_pingpang_write fwrite in count_in count ;; ret RLoop) d =
  rruns e (10 + n) RFirst d.
Proof.
  cbn [Nat.add]. unfold gps_dbg_log_pingpang_write, write_decide. turn. outcome_of (readable Buf1).
  destruct b.
  - turn. outcome_of (confirm Buf1). destruct b.
    + apply (taken_is_rruns e Buf1 (2 + n)).
    + turn. outcome_of (readable Buf2). destruct b; [|turn; outcome_of (count_in 0); by turn].
      turn. outcome_of (confirm Buf2). destruct b; [|turn; outcome_of (count_in 0); by turn]. apply (taken_is_rruns e Buf2 (0 + n)).
  - turn. outcome_of (readable Buf2). destruct b; [|turn; outcome_of (count_in 0); by turn].
    turn. outcome_of (confirm Buf2). destruct b; [|turn; outcome_of (count_in 0); by turn]. apply (taken_is_rruns e Buf2 (1 + n)).
Qed.

Lemma rotate_opens e d d' : rotate e d = Done (true, d') -> log_open d = true -> log_open d' = true.
Proof. unfold rotate, FILE_FCLOSE, modify, bind, gets, ret. intros E Ho. by repeat case_match; simplify_eq. Qed.

Lemma bind_same {A B} (m : prog dbglog A) (k1 k2 : A -> prog dbglog B) d :
  (forall a d', k1 a d' = k2 a d') -> bind m k1 d = bind m k2 d.
Proof. intros H. unfold bind. destruct (m d) as [[a d']| | |]; [apply H|done..]. Qed.

(** The next segment of the log thread; the same program first on both sides. *)
Ltac flat := repeat first [rewrite bind_assoc|rewrite bind_ret_l].
Ltac next := rewrite rruns_S by reflexivity; cbn [rrun]; flat.
Ltac same := flat; apply bind_same; intros ? ?; flat.

Lemma release_is_rruns e (last : bool) n d :
  (let* _ := gps_dbg_log_pingpang_free in FILE_FCLOSE ;; ret (if last then REnd else RLoop)) d =
  rruns e (S n) (RRelease last) d.
Proof. next. same. same. by destruct last; rewrite rruns_done. Qed.

Lemma flush_is_rruns e (last : bool) n d :
  (let* _ := gps_dbg_log_pingpang_flush fwrite in
   let* _ := gps_dbg_log_pingpang_free in FILE_FCLOSE ;; ret (if last then REnd else RLoop)) d =
  rruns e (3 + n) (RFlushTake last) d.
Proof.
  cbn [Nat.add]. next. unfold gps_dbg_log_pingpang_flush. same. next. same. apply release_is_rruns.
Qed.

Lemma log_off_is_rruns e n d : (log_off fwrite ;; ret RLoop) d = rruns e (4 + n) ROff d.
Proof.
  cbn [Nat.add]. next. unfold log_off. same. destruct a; cbn [when].
  - same. destruct a; cbn [when].
    + rewrite <- (flush_is_rruns e false n). same. same. done.
    + rewrite <- (release_is_rruns e false (2 + n)). same. done.
  - flat. rewrite (bind_done (gets log_open) _ d' (log_open d') d') by done. flat. by rewrite rruns_done.
Qed.

Lemma log_on_is_rruns e d :
  (let* go := log_on fwrite e in ret (if go : bool then RLoop else RExit)) d = rruns e 12 RAccess d.
Proof.
  next. unfold log_on. same. clear d a. next.
  rewrite !(bind_done (gets log_open) _ d' (log_open d') d') by done. destruct (log_open d') eqn:Ho; flat.
  - destruct (rotate e d') as [[go d2]| | |] eqn:Er; [|by unfold bind; rewrite Er..].
    rewrite !(bind_done _ _ _ _ _ Er). flat. destruct go; [|flat; by rewrite rruns_done].
    rewrite <- (write_is_rruns e 0), bind_assoc, (bind_done (gets log_open) _ d2 true d2)
      by (unfold gets; by rewrite (rotate_opens _ _ _ Er Ho)).
    cbn [when]. same. same. done.
  - rewrite (bind_done (gets log_open) _ d' false d') by (unfold gets; by rewrite Ho).
    flat. by rewrite rruns_done.
Qed.

(** A whole turn, and what follows the loop. *)
Lemma turn_is_rruns e d :
  (let* go := log_turn fwrite e in ret (if go : bool then RLoop else RExit)) d = rruns e 14 RWait d.
Proof.
  next. unfold log_turn. same. next. same. destruct a0.
  - apply log_on_is_rruns.
  - rewrite <- (log_off_is_rruns e 8). by same.
Qed.

Lemma exit_is_rruns e d :
  (log_exit fwrite ;; ret REnd) d = (let* pc := rrun e false RExit in rruns e 3 pc) d.
Proof.
  cbn [rrun]. unfold log_exit. same. destruct a; cbn [when].
  - same. destruct a; cbn [when].
    + flat. change 3%nat with (3 + 0)%nat. rewrite <- (flush_is_rruns e true 0 d'0). same. by same.
    + same. by rewrite rruns_done.
  - flat. by rewrite rruns_done.
Qed.

#[local] Transparent copy_put choose writing_side switch_next switch_take switch_give switch_signal loose.
#[local] Transparent write_take write_bytes write_clear write_zero write_give.

(** ** The two threads together *)

(** The shared variables, where the threads are, and the texts that were handed
    in. *)
Record conc : Type := Conc { c_log : dbglog; c_w : wpc; c_r : rpc; c_in : list (list Z) }.

(** A text that fits a buffer. *)
Definition text_ok (data : list Z) : Prop := zlen data <= PINGPANG_BUFFER_SIZE - 2.

(** The steps of the log thread that take the buffers away: the flush, and the
    release when there is no file to flush to. *)
Definition releasing (r : rpc) : bool :=
  match r with RFlushTake _ | RRelease _ => true | _ => false end.

(** The release is taken to begin while no call of libmnl is under way: when the
    GPS stops, libmnl is stopped before; [dbg_log_safe] says what happens else.
    The log is switched off by [deep_stop], the thread ended by
    [gps_stop_dbglog_release_condition] with [stop]. *)
Inductive cstep : conc -> conc -> Prop :=
| cs_text d r texts data :
    enabled d = true -> is_Some (next_write d) -> text_ok data ->
    cstep (Conc d WIdle r texts) (Conc d (WStart data) r (texts ++ [data]))
| cs_writer d w r texts w' d' :
    wrun w d = Done (w', d') -> cstep (Conc d w r texts) (Conc d' w' r texts)
| cs_reader e stop d w r texts r' d' :
    (releasing r = true -> w = WIdle) ->
    rrun e stop r d = Done (r', d') -> cstep (Conc d w r texts) (Conc d' w r' texts)
| cs_off d w r texts : cstep (Conc d w r texts) (Conc (set_enabled false d) w r texts)
| cs_stop d w r texts :
    cstep (Conc d w r texts) (Conc (set_flush_cond true (set_write_cond true d)) w r texts).

(** After [gps_dbg_log_pingpang_init]. *)
Definition log_ready (d : dbglog) : Prop :=
  exists d0, enabled d0 = true /\ log_file d0 = [] /\
    gps_dbg_log_pingpang_init true true d0 = Done (MTK_GPS_SUCCESS, d).

Inductive creach : conc -> Prop :=
| creach_init d : log_ready d -> creach (Conc d WIdle RLoop [])
| creach_step c c' : creach c -> cstep c c' -> creach c'.

(** ** Invariant *)

Definition flight (w : wpc) : list Z :=
  match w with
  | WIdle => []
  | WStart data | WChoose _ data | WNext _ data | WTake _ data | WGive _ data | WSignal data
  | WLoose _ data | WCopy data => data
  end.

(** The text that is being copied fits where it will go. *)
Definition fit (w : wpc) (cur : list Z) : Prop :=
  match w with
  | WIdle => True
  | WStart data | WChoose _ data | WLoose _ data => text_ok data
  | WNext _ data => text_ok data /\ cur <> []
  | WTake _ data | WGive _ data | WSignal data => text_ok data /\ cur = []
  | WCopy data => zlen cur + zlen data <= PINGPANG_BUFFER_SIZE - 2
  end.

(** The writer is not changing roles. *)
Definition calm (w : wpc) (s : side) : Prop :=
  match w with
  | WIdle | WStart _ | WSignal _ | WCopy _ => True
  | WChoose t _ | WLoose t _ => t = s
  | _ => False
  end.
Definition signalling (w : wpc) : Prop := match w with WSignal _ => True | _ => False end.

(** The log thread touches no buffer. *)
Definition resting (r : rpc) : Prop :=
  match r with
  | RConfirm _ | RTake _ | RBytes _ | RClear _ _ | RZero _ _ | RGive _ _ | RFlushRest _ _ => False
  | _ => True
  end.
(** It will find the readable buffer [t], or is about to end the log. *)
Definition looks (r : rpc) (t : side) : Prop :=
  match r with
  | RSwitch | RAccess | RFile | RFirst | ROff | RExit | RFlushTake _ | RRelease _ | REnd => True
  | RSecond => t = Buf2
  | RConfirm u | RTake u => u = t
  | _ => False
  end.
(** It has written the buffer [t], but not given it back. *)
Definition returning (r : rpc) (t : side) : Prop :=
  match r with RClear u _ | RZero u _ | RGive u _ => u = t | _ => False end.

(** A block of memory holds [l] at its start. *)
Definition holds (mem : option (list Z)) (l : list Z) : Prop :=
  exists m, mem = Some m /\ zlen m = PINGPANG_BUFFER_SIZE /\ take (length l) m = l /\
    zlen l <= PINGPANG_BUFFER_SIZE.
Definition full (h : half) (l : list Z) : Prop := l <> [] /\ holds (h_mem h) l /\ h_len h = zlen l.

(** Who owns the buffer [o] that [next_write] does not point to; [st] is the
    state of the one it points to, [l] is what waits in it to be written, [cond]
    that the log thread will be woken or has no file. *)
Inductive owners (s : side) (st : buffer_state) (o : half) (cond : bool) (l : list Z) (w : wpc) (r : rpc) : Prop :=
| own_free :
    st = WRITING -> h_state o = WRITABLE -> holds (h_mem o) [] ->
    l = [] -> resting r -> (calm w s \/ exists data, w = WNext s data) -> owners s st o cond l w r
| own_take data :
    w = WTake (other s) data -> st = WRITABLE -> h_state o = WRITING -> full o l ->
    resting r -> owners s st o cond l w r
| own_give data :
    w = WGive (other s) data -> st = WRITING -> h_state o = WRITING -> full o l ->
    resting r -> owners s st o cond l w r
| own_ready :
    st = WRITING -> h_state o = READABLE -> full o l -> calm w s ->
    resting r \/ looks r (other s) -> looks r (other s) \/ cond = true \/ signalling w ->
    owners s st o cond l w r
| own_reading :
    st = WRITING -> h_state o = READING -> full o l -> calm w s -> r = RBytes (other s) ->
    owners s st o cond l w r
| own_written :
    st = WRITING -> h_state o = READING -> holds (h_mem o) [] -> l = [] -> calm w s ->
    returning r (other s) -> owners s st o cond l w r.

Definition woken (d : dbglog) : bool := write_cond d || negb (log_open d).

(** What [fwrite] writes of a block. *)
Definition written (l : list Z) : list Z := take (Nat.min (fwrite l) (length l)) l.

(** The buffers that were filled, each with whether it was kept. *)
Definition kept (hist : list (bool * list Z)) : list (list Z) :=
  map snd (filter (fun p => p.1 = true) hist).
Definition lost (hist : list (bool * list Z)) : list (list Z) :=
  map snd (filter (fun p => p.1 = false) hist).

(** [s] is the buffer that [next_write] points to, [cur] what it holds, [l] what
    waits in the other one. *)
Record log_inv (c : conc) (s : side) (l cur : list Z) (hist : list (bool * list Z)) : Prop := {
  li_init : g_pingpang_init (c_log c) = true;
  li_next : next_write (c_log c) = Some (s, zlen cur);
  li_cur : holds (h_mem (half_of s (c_log c))) cur;
  li_room : zlen cur <= PINGPANG_BUFFER_SIZE - 2;
  li_fit : fit (c_w c) cur;
  li_owners : owners s (h_state (half_of s (c_log c))) (half_of (other s) (c_log c)) (woken (c_log c)) l
                (c_w c) (c_r c);
  li_in : concat (c_in c) = concat (map snd hist) ++ cur ++ flight (c_w c);
  li_loose : num_loose (c_log c) = zlen (lost hist);
  li_file : concat (map written (kept hist)) = log_file (c_log c) ++ written l
}.

(** ** Buffers and histories *)

Lemma zeroed_length : zlen zeroed = PINGPANG_BUFFER_SIZE.
Proof. unfold zeroed. rewrite length_replicate. unfold PINGPANG_BUFFER_SIZE. lia. Qed.
#[local] Opaque zeroed.

Lemma holds_zeroed : holds (Some zeroed) [].
Proof. exists zeroed. rewrite zeroed_length. unfold PINGPANG_BUFFER_SIZE. repeat split. cbn. lia. Qed.

Lemma holds_nil mem l : holds mem l -> holds mem [].
Proof. intros (m & -> & Hm & _). exists m. unfold PINGPANG_BUFFER_SIZE in *. repeat split; [done|cbn; lia]. Qed.

Lemma holds_put m cur data :
  holds (Some m) cur -> zlen cur + zlen data <= PINGPANG_BUFFER_SIZE ->
  holds (Some (take (Z.to_nat (zlen cur)) m ++ data ++ drop (Z.to_nat (zlen cur) + length data) m))
    (cur ++ data).
Proof.
  intros (m' & [= <-] & Hm & Hc & _) Hd. rewrite Nat2Z.id, Hc. eexists. split; [done|].
  rewrite !length_app, length_drop. split; [lia|]. split; [|lia].
  rewrite app_assoc, <- length_app. apply take_app_length.
Qed.

Lemma kept_true h l : kept (h ++ [(true, l)]) = kept h ++ [l].
Proof. unfold kept. by rewrite filter_app, map_app. Qed.
Lemma kept_false h l : kept (h ++ [(false, l)]) = kept h.
Proof. unfold kept. rewrite filter_app, map_app. cbn. by rewrite app_nil_r. Qed.
Lemma lost_true h l : lost (h ++ [(true, l)]) = lost h.
Proof. unfold lost. rewrite filter_app, map_app. cbn. by rewrite app_nil_r. Qed.
Lemma lost_false h l : lost (h ++ [(false, l)]) = lost h ++ [l].
Proof. unfold lost. by rewrite filter_app, map_app. Qed.

Lemma written_nil : written [] = [].
Proof. unfold written. by rewrite take_nil. Qed.

Lemma owners_calm s st o c l w w' r :
  owners s st o c l w r -> calm w s -> calm w' s -> ~ signalling w -> owners s st o c l w' r.
Proof.
  intros Ho Hw Hw' Hs. destruct Ho as [| |data ->|? ? ? ? ? Hc| |]; subst; try done.
  - by apply own_free; auto.
  - apply own_ready; auto. destruct Hc as [?|[?|?]]; auto.
  - by apply own_reading.
  - by apply own_written.
Qed.

Ltac calmly H := eapply owners_calm; [exact H| | |intros []]; done.

Lemma owners_writing s st o c l w r :
  owners s st o c l w r -> calm w s -> st = WRITING /\ h_state o <> WRITING.
Proof. intros Ho Hw. destruct Ho as [? E|data ->|data ->|? E|? E|? E]; try done; by rewrite E. Qed.

(** ** The writer's segments keep the invariant *)

Definition log_ok (c : conc) : Prop := exists s l cur hist, log_inv c s l cur hist.

Lemma start_ok d data r texts :
  log_ok (Conc d (WStart data) r texts) ->
  exists w' d', wrun (WStart data) d = Done (w', d') /\ log_ok (Conc d' w' r texts).
Proof.
  intros (s & l & cur & hist & [Hi ? ? ? ? Ho ? ? ?]). cbn [c_log c_w c_r c_in] in *.
  destruct (owners_writing _ _ _ _ _ _ _ Ho) as [H1 H2]; [done|].
  exists (WChoose s data), d. split.
  - cbn [wrun]. unfold writing_side, state_of, bind, gets, ret. rewrite !Hi.
    destruct s; cbn [half_of other] in *; by rewrite H1, (bool_decide_false _ H2).
  - exists s, l, cur, hist. split; cbn; try done. calmly Ho.
Qed.

Lemma choose_ok d s data r texts :
  log_ok (Conc d (WChoose s data) r texts) ->
  exists w' d', wrun (WChoose s data) d = Done (w', d') /\ log_ok (Conc d' w' r texts).
Proof.
  intros (s' & l & cur & hist & [Hi Hn ? ? Hf Ho ? ? ?]). cbn [c_log c_w c_r c_in fit] in *.
  assert (s = s') as <- by (destruct Ho as [? ? ? ? ? [?|[? [=]]]|? [=]|? [=]| | |]; done).
  cbn [wrun]. unfold choose, fits, state_of, bind, gets, ret. rewrite Hn, bool_decide_true by done.
  destruct (Z.leb_spec (zlen cur + zlen data) (PINGPANG_BUFFER_SIZE - 2)) as [Hfit|Hfit].
  - exists (WCopy data), d. split; [done|]. exists s, l, cur, hist. split; cbn; try done.
    calmly Ho.
  - cbv beta iota. rewrite Hi.
    destruct (decide (h_state (half_of (other s) d) = WRITABLE)) as [Hst|Hst].
    + exists (WNext s data), d. rewrite bool_decide_true by done. split; [done|].
      exists s, l, cur, hist. split; cbn; try done.
      * split; [done|]. intros ->. unfold text_ok in Hf. cbn in Hfit. lia.
      * destruct Ho as [|? [=]|? [=]|? E|? E|? E]; try (rewrite E in Hst; done).
        apply own_free; eauto.
    + exists (WLoose s data), d. rewrite bool_decide_false by done. split; [done|].
      exists s, l, cur, hist. split; cbn; try done. calmly Ho.
Qed.

Lemma next_ok d s data r texts :
  log_ok (Conc d (WNext s data) r texts) ->
  exists w' d', wrun (WNext s data) d = Done (w', d') /\ log_ok (Conc d' w' r texts).
Proof.
  intros (s' & l & cur & hist & [Hi Hn Hcur ? Hf Ho Hin Hl Hfile]). cbn [c_log c_w c_r c_in fit] in *.
  destruct Ho as [Hs Hst Hz -> Hr [?|[? [= <- _]]]|? [=]|? [=]| | |]; try done.
  destruct Hf as [Hf Hne]. eexists (WTake s data), _. split.
  { cbn [wrun]. unfold switch_next, put_len, modify, bind, gets, ret. by rewrite Hn, bool_decide_true. }
  exists (other s), cur, [], (hist ++ [(true, cur)]).
  rewrite written_nil, app_nil_r in Hfile.
  split; cbn [c_log c_w c_r c_in fit]; try (destruct s; done).
  - destruct s; by apply own_take with (data := data).
  - cbn [flight]. rewrite Hin, map_app, concat_app. cbn.
    by rewrite app_nil_r, !app_assoc.
  - rewrite lost_true. by destruct s.
  - rewrite kept_true, map_app, concat_app, Hfile. cbn [map concat]. rewrite app_nil_r. by destruct s.
Qed.

Lemma take_ok d s data r texts :
  log_ok (Conc d (WTake s data) r texts) ->
  exists w' d', wrun (WTake s data) d = Done (w', d') /\ log_ok (Conc d' w' r texts).
Proof.
  intros (s' & l & cur & hist & [Hi Hn Hcur ? Hf Ho Hin Hl Hfile]). cbn [c_log c_w c_r c_in fit] in *.
  destruct Ho as [? ? ? ? ? [[]|[? [=]]]|? [= -> ->] ? ? ? ?|? [=]|? ? ? []|? ? ? []|? ? ? ? []].
  eexists (WGive _ _), _. split; [reflexivity|]. exists s', l, cur, hist.
  split; cbn [c_log c_w c_r c_in fit]; try (destruct s'; done).
  destruct s'; by eapply own_give.
Qed.

Lemma give_ok d s data r texts :
  log_ok (Conc d (WGive s data) r texts) ->
  exists w' d', wrun (WGive s data) d = Done (w', d') /\ log_ok (Conc d' w' r texts).
Proof.
  intros (s' & l & cur & hist & [Hi Hn Hcur ? Hf Ho Hin Hl Hfile]). cbn [c_log c_w c_r c_in fit] in *.
  destruct Ho as [? ? ? ? ? [[]|[? [=]]]|? [=]|? [= -> ->] ? ? ? ?|? ? ? []|? ? ? []|? ? ? ? []].
  eexists (WSignal _), _. split; [reflexivity|]. exists s', l, cur, hist.
  split; cbn [c_log c_w c_r c_in fit]; try (destruct s'; done).
  destruct s'; (apply own_ready; [done|done|done|done|by left|by right; right]).
Qed.

Lemma signal_ok d data r texts :
  log_ok (Conc d (WSignal data) r texts) ->
  exists w' d', wrun (WSignal data) d = Done (w', d') /\ log_ok (Conc d' w' r texts).
Proof.
  intros (s & l & cur & hist & [Hi Hn Hcur ? Hf Ho Hin Hl Hfile]). cbn [c_log c_w c_r c_in fit] in *.
  destruct Hf as [Hf ->].
  eexists (WCopy data), _. split; [reflexivity|]. exists s, l, [], hist.
  split; cbn [c_log c_w c_r c_in fit]; try (destruct s; done).
  destruct Ho as [? ? ? ? ? [?|[? [=]]]|? [=]|? [=]| | |].
  - destruct s; apply own_free; auto.
  - destruct s; apply own_ready; auto.
  - destruct s; by apply own_reading.
  - destruct s; by apply own_written.
Qed.

Lemma loose_ok d s data r texts :
  log_ok (Conc d (WLoose s data) r texts) ->
  exists w' d', wrun (WLoose s data) d = Done (w', d') /\ log_ok (Conc d' w' r texts).
Proof.
  intros (s' & l & cur & hist & [Hi Hn Hcur ? Hf Ho Hin Hl Hfile]). cbn [c_log c_w c_r c_in fit] in *.
  assert (s = s') as <- by (destruct Ho as [? ? ? ? ? [?|[? [=]]]|? [=]|? [=]| | |]; done).
  destruct Hcur as (m & Hm & _). eexists (WCopy data), _. split.
  { cbn [wrun]. unfold loose, clear, modify, bind, gets, ret. rewrite Hm. reflexivity. }
  exists s, l, [], (hist ++ [(false, cur)]).
  split; cbn [c_log c_w c_r c_in fit]; try (destruct s; done).
  - destruct s; apply holds_zeroed.
  - eapply owners_calm with (w := WLoose s data); [destruct s; exact Ho|done|done|intros []].
  - cbn [flight]. rewrite Hin, map_app, concat_app. cbn.
    by rewrite app_nil_r, !app_assoc.
  - rewrite lost_false, length_app. destruct s; cbn; lia.
  - rewrite kept_false, Hfile. by destruct s.
Qed.

Lemma put_ok d data r texts :
  log_ok (Conc d (WCopy data) r texts) ->
  exists w' d', wrun (WCopy data) d = Done (w', d') /\ log_ok (Conc d' w' r texts).
Proof.
  intros (s & l & cur & hist & [Hi Hn Hcur ? Hf Ho Hin Hl Hfile]). cbn [c_log c_w c_r c_in fit] in *.
  destruct (Hcur) as (m & Hm & Hlen & _). eexists WIdle, _. split.
  { cbn [wrun]. unfold copy_put, copy_bytes, modify, bind, gets, ret. rewrite Hn, Hm.
    rewrite (proj2 (Z.leb_le 0 (zlen cur))) by lia.
    rewrite (proj2 (Z.leb_le _ (zlen m))) by lia. reflexivity. }
  exists s, l, (cur ++ data), hist.
  split; cbn [c_log c_w c_r c_in fit]; try (destruct s; done).
  - destruct s; cbn; rewrite Hn; cbn; do 2 f_equal; lists; lia.
  - destruct s; cbn; (apply holds_put; [by rewrite <- Hm|lia]).
  - lists. lia.
  - eapply owners_calm with (w := WCopy data); [destruct s; exact Ho|done|done|intros []].
  - cbn [flight]. by rewrite Hin, app_nil_r.
Qed.

Lemma writer_ok c :
  log_ok c -> c_w c <> WIdle ->
  exists w' d', wrun (c_w c) (c_log c) = Done (w', d') /\ log_ok (Conc d' w' (c_r c) (c_in c)).
Proof.
  destruct c as [d [] r texts]; intros H Hw; try done.
  - by apply start_ok.
  - by apply choose_ok.
  - by apply next_ok.
  - by apply take_ok.
  - by apply give_ok.
  - by apply signal_ok.
  - by apply loose_ok.
  - by apply put_ok.
Qed.

(** ** The log thread's segments keep the invariant *)

(** What a step that touches no buffer leaves. *)
Definition same_log (d d' : dbglog) : Prop :=
  g_pingpang_init d' = g_pingpang_init d /\ buf1 d' = buf1 d /\ buf2 d' = buf2 d /\
  next_write d' = next_write d /\ num_loose d' = num_loose d /\ log_file d' = log_file d.

Lemma owners_rest s st o c c' l w r r' :
  owners s st o c l w r -> resting r -> resting r' ->
  (looks r (other s) \/ c = true -> looks r' (other s) \/ c' = true) -> owners s st o c' l w r'.
Proof.
  intros [? ? ? ? ? Hw|data ? ? ? ? ?|data ? ? ? ? ?|? ? ? ? ? Hc| |] Hr Hr' Hl; subst; try done.
  - by apply own_free.
  - by apply own_take with (data := data).
  - by apply own_give with (data := data).
  - apply own_ready; try done; [by left|].
    destruct Hc as [Hc|[Hc|Hc]]; [destruct Hl as [|]; auto..|auto].
  - by destruct r.
Qed.

Lemma rest_ok d d' w r r' texts :
  log_ok (Conc d w r texts) -> same_log d d' -> resting r -> resting r' ->
  (forall t, looks r t \/ woken d = true -> looks r' t \/ woken d' = true) ->
  log_ok (Conc d' w r' texts).
Proof.
  intros (s & l & cur & hist & [Hi Hn Hcur ? Hf Ho Hin Hl Hfile]) (E1 & E2 & E3 & E4 & E5 & E6) Hr Hr' Hc.
  assert (forall t, half_of t d' = half_of t d) as Eh by (by intros []).
  exists s, l, cur, hist. split; cbn [c_log c_w c_r c_in] in *; rewrite ?Eh, ?E1, ?E4, ?E5, ?E6; try done.
  by eapply owners_rest; [exact Ho|..|apply Hc].
Qed.

(** Where the log thread goes after it looked at a buffer. *)
Lemma look_free s st o cond l w r r' :
  owners s st o cond l w r -> h_state o <> READABLE -> resting r -> resting r' ->
  owners s st o cond l w r'.
Proof.
  intros [? ? ? ? ? Hw|data ? ? ? ? ?|data ? ? ? ? ?|? ? ? ? ?| |] Hst Hr Hr'; subst; try done.
  - by apply own_free.
  - by apply own_take with (data := data).
  - by apply own_give with (data := data).
  - by destruct r.
Qed.

Lemma look_missed s st o cond l w r r' :
  owners s st o cond l w r -> ~ looks r (other s) -> resting r -> resting r' ->
  owners s st o cond l w r'.
Proof.
  intros [? ? ? ? ? Hw|data ? ? ? ? ?|data ? ? ? ? ?|? ? ? ? ? [?|?]| |] Hl Hr Hr'; subst; try done.
  - by apply own_free.
  - by apply own_take with (data := data).
  - by apply own_give with (data := data).
  - apply own_ready; try done; [by left|by right].
  - by destruct r.
Qed.

Lemma look_ready s st o cond l w r r' :
  owners s st o cond l w r -> h_state o = READABLE -> looks r' (other s) ->
  owners s st o cond l w r'.
Proof.
  intros [? E|data ? ? E|data ? ? E|? E ? ? ?|? E|? E] Hst Hr'; try (rewrite E in Hst; done).
  apply own_ready; try done; [by right|by left].
Qed.

Lemma owner_readable s st o cond l w r :
  owners s st o cond l w r -> st <> READABLE.
Proof. by intros [E|? ? E|? ? E|E|E|E]; rewrite E. Qed.

Lemma state_of_is s d :
  g_pingpang_init d = true -> state_of s d = Done (h_state (half_of s d), d).
Proof. intros Hi. unfold state_of, bind, gets. by rewrite Hi. Qed.

Lemma readable_is s d :
  g_pingpang_init d = true ->
  readable s d = Done (bool_decide (h_state (half_of s d) = READABLE), d).
Proof. intros Hi. unfold readable, state_of, bind, gets, ret. by rewrite Hi. Qed.

Lemma first_ok e stop d w texts :
  log_ok (Conc d w RFirst texts) ->
  exists r' d', rrun e stop RFirst d = Done (r', d') /\ log_ok (Conc d' w r' texts).
Proof.
  intros (s & l & cur & hist & [Hi Hn Hcur ? Hf Ho Hin Hl Hfile]). cbn [c_log c_w c_r c_in] in *.
  pose proof (owner_readable _ _ _ _ _ _ _ Ho) as Hs.
  cbn [rrun]. unfold bind, ret. rewrite (readable_is Buf1) by done. eexists _, d. split; [done|].
  exists s, l, cur, hist. split; cbn [c_log c_w c_r c_in]; try done.
  destruct s; cbn [half_of other] in *.
  - rewrite (bool_decide_false _ Hs).
    destruct (decide (h_state (buf2 d) = READABLE)); [by eapply look_ready|by eapply look_free].
  - destruct (decide (h_state (buf1 d) = READABLE)) as [E|E].
    + rewrite (bool_decide_true _ E). by eapply look_ready.
    + rewrite (bool_decide_false _ E). by eapply look_free.
Qed.

Lemma second_ok e stop d w texts :
  log_ok (Conc d w RSecond texts) ->
  exists r' d', rrun e stop RSecond d = Done (r', d') /\ log_ok (Conc d' w r' texts).
Proof.
  intros (s & l & cur & hist & [Hi Hn Hcur ? Hf Ho Hin Hl Hfile]). cbn [c_log c_w c_r c_in] in *.
  pose proof (owner_readable _ _ _ _ _ _ _ Ho) as Hs.
  cbn [rrun]. unfold bind, ret. rewrite (readable_is Buf2) by done. eexists _, d. split; [done|].
  exists s, l, cur, hist. split; cbn [c_log c_w c_r c_in]; try done.
  destruct s; cbn [half_of other] in *.
  - destruct (decide (h_state (buf2 d) = READABLE)) as [E|E].
    + rewrite (bool_decide_true _ E). by eapply look_ready.
    + rewrite (bool_decide_false _ E). by eapply look_free.
  - rewrite (bool_decide_false _ Hs). by eapply look_missed.
Qed.

Lemma zlen_0 (l : list Z) : l <> [] -> (zlen l =? 0) = false.
Proof. destruct l; [done|]. intros _. cbn [length]. apply Z.eqb_neq. lia. Qed.

Lemma confirm_ok e stop d w s texts :
  log_ok (Conc d w (RConfirm s) texts) ->
  exists r' d', rrun e stop (RConfirm s) d = Done (r', d') /\ log_ok (Conc d' w r' texts).
Proof.
  intros (t & l & cur & hist & [Hi Hn Hcur ? Hf Ho Hin Hl Hfile]). cbn [c_log c_w c_r c_in] in *.
  pose proof (owner_readable _ _ _ _ _ _ _ Ho) as Hs.
  destruct (Ho) as [|? ? ? ? ? []|? ? ? ? ? []|? ? (Hne & _ & Hlen) ? [[]|Hr] ?|? ? ? ? [=]|? ? ? ? ? []];
    try done. cbn [looks] in Hr. subst s.
  eexists (RTake (other t)), d. split.
  - cbn [rrun]. unfold confirm, state_of, bind, gets, ret. rewrite Hi, Hlen, (zlen_0 _ Hne).
    destruct t; cbn [other half_of] in *; by rewrite (bool_decide_false _ Hs).
  - exists t, l, cur, hist. split; cbn [c_log c_w c_r c_in]; try done. by eapply look_ready.
Qed.

Lemma rtake_ok e stop d w s texts :
  log_ok (Conc d w (RTake s) texts) ->
  exists r' d', rrun e stop (RTake s) d = Done (r', d') /\ log_ok (Conc d' w r' texts).
Proof.
  intros (t & l & cur & hist & [Hi Hn Hcur ? Hf Ho Hin Hl Hfile]). cbn [c_log c_w c_r c_in] in *.
  destruct (Ho) as [|? ? ? ? ? []|? ? ? ? ? []|? ? ? ? [[]|Hr] ?|? ? ? ? [=]|? ? ? ? ? []];
    try done. cbn [looks] in Hr. subst s.
  eexists (RBytes (other t)), _. split; [reflexivity|].
  exists t, l, cur, hist. split; cbn [c_log c_w c_r c_in]; try (destruct t; done).
  destruct t; by apply own_reading.
Qed.

Lemma file_write_is s n l d m :
  h_mem (half_of s d) = Some m -> zlen m = PINGPANG_BUFFER_SIZE -> take (length l) m = l -> n = zlen l ->
  zlen l <= PINGPANG_BUFFER_SIZE ->
  file_write fwrite s n d = Done (zlen (written l), append_file (written l) d).
Proof.
  intros Hm Hlen Ht -> Hl. unfold file_write, modify, bind, gets, ret. rewrite Hm.
  rewrite (proj2 (Z.leb_le 0 _)), (proj2 (Z.leb_le _ (zlen m))) by lia. cbn [andb].
  rewrite Nat2Z.id, Ht. unfold written. rewrite length_take. do 3 f_equal. lia.
Qed.

Lemma rbytes_ok e stop d w s texts :
  log_ok (Conc d w (RBytes s) texts) ->
  exists r' d', rrun e stop (RBytes s) d = Done (r', d') /\ log_ok (Conc d' w r' texts).
Proof.
  intros (t & l & cur & hist & [Hi Hn Hcur ? Hf Ho Hin Hl Hfile]). cbn [c_log c_w c_r c_in] in *.
  destruct (Ho) as [|? ? ? ? ? []|? ? ? ? ? []|? ? ? ? [[]|[]] ?|? ? (Hne & (m & Hm & Hz & Ht & Hb) & Hlen) ? [= ->]|? ? ? ? ? []];
    try done.
  eexists (RClear (other t) _), _. split.
  - cbn [rrun]. unfold write_bytes, bind, gets, ret. erewrite file_write_is by done. reflexivity.
  - exists t, [], cur, hist. split; cbn [c_log c_w c_r c_in]; try (destruct t; done).
    + apply own_written; try (destruct t; done). apply (holds_nil _ l). exists m. by destruct t.
    + rewrite Hfile, written_nil, app_nil_r. by destruct t.
Qed.

(** Clearing the buffer that was written, its length, and giving it back. *)
Lemma returned_ok e stop d w s r texts :
  log_ok (Conc d w r texts) -> returning r s ->
  exists r' d', rrun e stop r d = Done (r', d') /\ log_ok (Conc d' w r' texts).
Proof.
  intros (t & l & cur & hist & [Hi Hn Hcur ? Hf Ho Hin Hl Hfile]) Hr. cbn [c_log c_w c_r c_in] in *.
  destruct r as [| | | | | | | | | |u n|u n|u n| | | | | | |]; try done; cbn in Hr; subst u.
  all: destruct (Ho) as [|? ? ? ? ? []|? ? ? ? ? []|? ? ? ? [[]|[]] ?|? ? ? ? [=]|? Hst Hz -> Hw Hr]; try done.
  all: cbn [returning] in Hr; subst s; destruct (Hz) as (m & Hm & Hm').
  all: eexists _, _; split;
    [cbn [rrun]; unfold write_clear, clear, write_zero, write_give, put_len, put_state, modify, bind, gets, ret;
     rewrite ?Hm; reflexivity|].
  all: exists t, [], cur, hist; split; cbn [c_log c_w c_r c_in]; try (destruct t; done).
  - apply own_written; try (destruct t; done). destruct t; apply holds_zeroed.
  - apply own_written; destruct t; done.
  - apply own_free; try (destruct t; done). by left.
Qed.

(** ** The end of the buffers *)

Lemma log_have d w r texts :
  log_ok (Conc d w r texts) -> have_buffers d = Done (true, d).
Proof.
  intros (s & l & cur & hist & [? ? Hcur ? ? Ho ? ? ?]). cbn [c_log c_w c_r] in *.
  assert (is_Some (h_mem (half_of s d))) as H1 by (destruct Hcur as (m & -> & _); eauto).
  assert (is_Some (h_mem (half_of (other s) d))) as H2.
  { destruct Ho as [? ? (m & -> & _)|? ? ? ? (? & (m & -> & _) & _)|? ? ? ? (? & (m & -> & _) & _)
      |? ? (? & (m & -> & _) & _)|? ? (? & (m & -> & _) & _)|? ? (m & -> & _)]; eauto. }
  unfold have_buffers, bind, gets, ret. by destruct s; rewrite !bool_decide_true.
Qed.

(** The flush finds the buffer [s] with [cur] and, when the other one waits,
    [l] in that. *)
Record flushable (d : dbglog) (s : side) (l cur : list Z) : Prop := {
  fl_init : g_pingpang_init d = true;
  fl_cur : holds (h_mem (half_of s d)) cur;
  fl_state : h_state (half_of s d) = WRITING;
  fl_other : (h_state (half_of (other s) d) = WRITABLE /\ l = []) \/
             (h_state (half_of (other s) d) = READABLE /\ full (half_of (other s) d) l)
}.

Lemma log_flushable d r texts s l cur hist :
  log_inv (Conc d WIdle r texts) s l cur hist -> resting r -> flushable d s l cur.
Proof.
  intros [Hi Hn Hcur ? Hf Ho Hin Hl Hfile] Hr. cbn [c_log c_w c_r] in *.
  destruct (owners_writing _ _ _ _ _ _ _ Ho) as [H1 _]; [done|]. split; try done.
  destruct Ho as [|? [=]|? [=]|? ? ? ? ?|? ? ? ? ->|? ? ? ? ? H]; auto; [by destruct Hr|by destruct r].
Qed.

(** What the rest of the flush does. *)
Lemma flush_rest_ok d s l cur :
  flushable d s l cur ->
  flush_rest fwrite (Some (s, zlen cur)) d = Done (tt, append_file (written l ++ written cur) d).
Proof.
  intros [Hi (m & Hm & Hlen & Ht & Hb) Hst Ho].
  assert (h_state (half_of (other s) d) <> WRITING) as Hne by (by destruct Ho as [[-> _]|[-> _]]).
  assert (forall x, file_write fwrite s (zlen cur) (append_file x d) =
                    Done (zlen (written cur), append_file (written cur) (append_file x d))) as Hw.
  { intros x. apply file_write_is with (m := m); by destruct s. }
  assert (flush_both fwrite s (Some (s, zlen cur)) d = Done (tt, append_file (written l ++ written cur) d)) as E.
  { unfold flush_both, flush_current. rewrite (bool_decide_true (s = s)) by done.
    rewrite (bind_done _ _ _ _ _ (state_of_is (other s) d Hi)).
    assert (append_file [] d = d) as Hnil by (destruct d; unfold append_file; cbn; by rewrite app_nil_r).
    destruct Ho as [[-> ->]|[-> (_ & (m2 & Hm2 & Hlen2 & Ht2 & Hb2) & Hl)]].
    - rewrite bool_decide_false by done. rewrite (bind_done _ _ _ tt d) by done.
      specialize (Hw []). rewrite Hnil in Hw. rewrite (bind_done _ _ _ _ _ Hw), written_nil. done.
    - rewrite bool_decide_true by done. unfold write_bytes, when.
      rewrite (bind_done _ _ _ tt (append_file (written l) d)).
      + rewrite (bind_done _ _ _ _ _ (Hw (written l))). unfold append_file, ret. cbn. by rewrite app_assoc.
      + unfold bind, gets, ret. by erewrite file_write_is by done. }
  unfold flush_rest. rewrite (bind_done _ _ _ _ _ (state_of_is Buf1 d Hi)), (bind_done _ _ _ _ _ (state_of_is Buf2 d Hi)).
  destruct s; cbn [half_of other] in *; rewrite Hst, (bool_decide_false _ Hne), (bool_decide_true (WRITING = WRITING)) by done;
    cbn [andb negb]; exact E.
Qed.

(** The buffers are being given back or gone. *)
Inductive gone (d : dbglog) : rpc -> Prop :=
| gone_flush last s l cur : flushable d s l cur -> gone d (RFlushRest last (Some (s, zlen cur)))
| gone_release last : gone d (RRelease last)
| gone_off r :
    buf1 d = half_off -> buf2 d = half_off -> log_open d = false ->
    match r with RLoop | RWait | RSwitch | RAccess | RFile | ROff | RExit | REnd => True | _ => False end ->
    gone d r.

(** What holds in every state: the log goes on, or its end has begun and libmnl's
    thread is in no call and will begin none. *)
Definition conc_ok (c : conc) : Prop :=
  log_ok c \/ (c_w c = WIdle /\ next_write (c_log c) = None /\ gone (c_log c) (c_r c)).

(** Where the log thread waits for another one, or has ended. *)
Definition waits (c : conc) : Prop :=
  (c_r c = RWait /\ write_cond (c_log c) = false) \/
  (exists last, c_r c = RFlushTake last /\ flush_cond (c_log c) = false) \/
  c_r c = REnd.
(** A step of the log thread that touches no buffer. *)
Ltac rests H := eapply rest_ok; [exact H|by repeat split|done|done|].

Lemma access_ok_step e stop d w texts :
  log_ok (Conc d w RAccess texts) ->
  exists r' d', rrun e stop RAccess d = Done (r', d') /\ log_ok (Conc d' w r' texts).
Proof.
  intros H. cbn [rrun]. unfold FILE_FCLOSE, modify, bind, ret, when.
  destruct (access_ok e); cbn [negb]; (eexists _, _; split; [done|]); rests H; by left.
Qed.

Lemma file_step e stop d w texts :
  log_ok (Conc d w RFile texts) ->
  exists r' d', rrun e stop RFile d = Done (r', d') /\ log_ok (Conc d' w r' texts).
Proof.
  intros H. cbn [rrun]. unfold rotate, FILE_FCLOSE, modify, bind, gets, ret.
  destruct (log_open d) eqn:Ho.
  - destruct (Current_FileSize d + PINGPANG_BUFFER_SIZE <=? MAX_DBG_LOG_FILE_SIZE), (fopen_ok e);
      (eexists _, _; split; [done|]); rests H; by left.
  - eexists _, _. split; [done|]. rests H. right. unfold woken. rewrite Ho. apply orb_true_r.
Qed.

Lemma off_step e stop d w texts :
  log_ok (Conc d w ROff texts) ->
  exists r' d', rrun e stop ROff d = Done (r', d') /\ log_ok (Conc d' w r' texts).
Proof.
  intros H. cbn [rrun]. rewrite (bind_done _ _ _ _ _ (log_have _ _ _ _ H)). unfold bind, gets, ret.
  eexists _, _. split; [done|]. destruct (log_open d); rests H; by left.
Qed.

Lemma exit_step e stop d w texts :
  log_ok (Conc d w RExit texts) ->
  exists r' d', rrun e stop RExit d = Done (r', d') /\ log_ok (Conc d' w r' texts).
Proof.
  intros H. cbn [rrun]. rewrite (bind_done (gets log_open) _ d (log_open d) d) by done. destruct (log_open d).
  - rewrite (bind_done _ _ _ _ _ (log_have _ _ _ _ H)). eexists _, _. split; [done|]. rests H. by left.
  - eexists _, _. split; [done|]. rests H. by left.
Qed.

Lemma reader_logs e stop c :
  log_ok c -> ~ waits c -> releasing (c_r c) = false ->
  exists r' d', rrun e stop (c_r c) (c_log c) = Done (r', d') /\ log_ok (Conc d' (c_w c) r' (c_in c)).
Proof.
  destruct c as [d w r texts]; cbn [c_log c_r c_w c_in]; intros H Hw Hr. destruct r; try discriminate Hr.
  - exists (if stop then RExit else RWait), d. split; [done|]. destruct stop; rests H; cbn; tauto.
  - destruct (write_cond d) eqn:Hc; [|by destruct Hw; left]. exists RSwitch, (set_write_cond false d). split.
    + cbn [rrun]. unfold get_condition, bind, gets. by rewrite Hc.
    + rests H. by left.
  - exists (if enabled d then RAccess else ROff), d. split; [done|]. destruct (enabled d); rests H; by left.
  - by apply access_ok_step.
  - by apply file_step.
  - by apply first_ok.
  - by apply second_ok.
  - by apply confirm_ok.
  - by apply rtake_ok.
  - by apply rbytes_ok.
  - by eapply returned_ok.
  - by eapply returned_ok.
  - by eapply returned_ok.
  - exists RLoop, (set_file (log_open d) (n + Current_FileSize d) (Filenum d) d). split; [done|]. rests H.
    unfold woken; cbn. tauto.
  - by apply off_step.
  - by apply exit_step.
  - destruct H as (t & l & cur & hist & [? ? ? ? ? Ho ? ? ?]). cbn [c_r] in Ho.
    destruct Ho as [? ? ? ? [] |? ? ? ? ? []|? ? ? ? ? []|? ? ? ? [[]|[]]|? ? ? ? [=]|? ? ? ? ? []].
  - destruct Hw. by right; right.
Qed.

(** The end: the flush takes [next_write] away, and writes; the buffers are
    released. *)
Lemma reader_releases e stop c :
  log_ok c -> ~ waits c -> releasing (c_r c) = true -> c_w c = WIdle ->
  exists r' d', rrun e stop (c_r c) (c_log c) = Done (r', d') /\ conc_ok (Conc d' (c_w c) r' (c_in c)).
Proof.
  destruct c as [d w r texts]; cbn [c_log c_r c_w c_in]. intros H Hw Hr ->. destruct r as [| | | | | | | | | | | | | | | |last| |last|]; try discriminate Hr.
  - destruct (flush_cond d) eqn:Hf; [|by destruct Hw; right; left; exists last].
    destruct H as (s & l & cur & hist & H). pose proof (log_flushable _ _ _ _ _ _ _ H I) as [F1 F2 F3 F4].
    pose proof (li_next _ _ _ _ _ H) as Hn. cbn [c_log] in Hn.
    exists (RFlushRest last (Some (s, zlen cur))), (set_flush_cond true (set_next None (set_flush_cond false d))).
    split; [cbn [rrun]; unfold flush_take, get_condition, release_condition, put_cond, modify, bind, gets, ret;
            rewrite Hf; cbn; by rewrite Hn|].
    right. split; [done|]. split; [done|]. apply gone_flush with (l := l). by destruct s.
  - eexists (if last then REnd else RLoop), _. split; [reflexivity|]. right. split; [done|]. split; [done|].
    apply gone_off; try done. by destruct last.
Qed.

Lemma gone_step e stop c :
  c_w c = WIdle -> next_write (c_log c) = None -> gone (c_log c) (c_r c) -> ~ waits c ->
  exists r' d', rrun e stop (c_r c) (c_log c) = Done (r', d') /\ conc_ok (Conc d' (c_w c) r' (c_in c)).
Proof.
  destruct c as [d w r texts]; cbn [c_log c_r c_w c_in]. intros -> Hn Hg Hw.
  assert (forall r' d', rrun e stop r d = Done (r', d') -> next_write d' = None -> gone d' r' ->
          exists r' d', rrun e stop r d = Done (r', d') /\ conc_ok (Conc d' WIdle r' texts)) as K.
  { intros r' d' E En Eg. exists r', d'. split; [done|]. by right. }
  destruct Hg as [last s l cur Hfl|last|r H1 H2 Ho Hr].
  - eapply K; [cbn [rrun]; by rewrite (bind_done _ _ _ _ _ (flush_rest_ok _ _ _ _ Hfl))|done|apply gone_release].
  - eapply K; [reflexivity|done|]. apply gone_off; try done. by destruct last.
  - destruct r; try done.
    + eapply K; [reflexivity|done|]. apply gone_off; try done. by destruct stop.
    + destruct (write_cond d) eqn:Hc; [|by destruct Hw; left]. eapply (K RSwitch (set_write_cond false d)).
      * cbn [rrun]. unfold get_condition, bind, gets. by rewrite Hc.
      * done.
      * by apply gone_off.
    + eapply K; [reflexivity|done|]. apply gone_off; try done. by destruct (enabled d).
    + cbn [rrun] in *. unfold FILE_FCLOSE, modify, bind, ret, when in K. destruct (access_ok e); cbn [negb] in K.
      all: eapply K; [reflexivity|done|by apply gone_off].
    + eapply (K RLoop d); [cbn [rrun]; unfold bind, gets, ret; by rewrite Ho|done|by apply gone_off].
    + eapply (K RLoop d); [|done|by apply gone_off].
      cbn [rrun]. unfold have_buffers, bind, gets, ret. by rewrite H1.
    + eapply (K REnd d); [cbn [rrun]; unfold bind, gets, ret; by rewrite Ho|done|by apply gone_off].
    + destruct Hw. by right; right.
Qed.

Lemma reader_ok e stop c :
  conc_ok c -> ~ waits c -> (releasing (c_r c) = true -> c_w c = WIdle) ->
  exists r' d', rrun e stop (c_r c) (c_log c) = Done (r', d') /\ conc_ok (Conc d' (c_w c) r' (c_in c)).
Proof.
  intros [H|(H1 & H2 & H3)] Hw Hr; [|by apply gone_step].
  destruct (releasing (c_r c)) eqn:Er; [apply reader_releases; auto|].
  destruct (reader_logs e stop c H Hw Er) as (r' & d' & E & H'). exists r', d'. split; [done|]. by left.
Qed.

Lemma waits_blocked e stop c : waits c -> rrun e stop (c_r c) (c_log c) = Blocked.
Proof.
  intros [[-> Hc]|[(last & -> & Hc)| ->]]; cbn [rrun]; [..|done].
  - unfold get_condition, bind, gets. by rewrite Hc.
  - unfold flush_take, get_condition, bind, gets. by rewrite Hc.
Qed.

Lemma waits_dec c : waits c \/ ~ waits c.
Proof.
  unfold waits. destruct (c_r c), (write_cond (c_log c)), (flush_cond (c_log c));
    try (left; by eauto); right; intros [[? ?]|[(? & ? & ?)|?]]; congruence.
Qed.

(** ** Every state the threads reach *)

Lemma ready_ok d : log_ready d -> log_ok (Conc d WIdle RLoop []).
Proof.
  intros (d0 & Hen & Hf & [= <-]). exists Buf1, [], [], [].
  split; cbn [c_log c_w c_r c_in half_of other]; try done.
  - apply holds_zeroed.
  - by apply own_free; try apply holds_zeroed; try (by left).
  - cbn. by rewrite Hf, written_nil.
Qed.

Lemma text_step_ok d r texts data :
  log_ok (Conc d WIdle r texts) -> text_ok data -> log_ok (Conc d (WStart data) r (texts ++ [data])).
Proof.
  intros (s & l & cur & hist & [Hi Hn Hcur ? Hf Ho Hin Hl Hfile]) Hd. cbn [c_log c_w c_r c_in] in *.
  exists s, l, cur, hist. split; cbn [c_log c_w c_r c_in]; try done.
  - calmly Ho.
  - rewrite concat_app, Hin. cbn. by rewrite !app_nil_r, <- app_assoc.
Qed.

(** The main thread's steps. *)
Lemma outside_ok d d' w r texts :
  conc_ok (Conc d w r texts) -> same_log d d' -> log_open d' = log_open d ->
  (woken d = true -> woken d' = true) -> conc_ok (Conc d' w r texts).
Proof.
  intros [H|(H1 & H2 & H3)] (E1 & E2 & E3 & E4 & E5 & E6) Ho Hc;
    assert (forall t, half_of t d' = half_of t d) as Eh by (by intros []).
  - left. destruct H as (s & l & cur & hist & [Hi Hn Hcur ? Hf Hown Hin Hl Hfile]).
    exists s, l, cur, hist. split; cbn [c_log c_w c_r c_in] in *; rewrite ?Eh, ?E1, ?E4, ?E5, ?E6; try done.
    destruct Hown as [|data|data|? ? ? ? ? [?|[?|?]]| |].
    + by apply own_free.
    + by apply own_take with (data := data).
    + by apply own_give with (data := data).
    + apply own_ready; auto.
    + apply own_ready; auto.
    + apply own_ready; auto.
    + by apply own_reading.
    + by apply own_written.
  - right. cbn [c_log c_w c_r] in *. split; [done|]. split; [by rewrite E4|].
    destruct H3 as [last s l cur [F1 F2 F3 F4]|last|r ? ? ? ?].
    + apply gone_flush with (l := l). split; rewrite ?Eh, ?E1; done.
    + apply gone_release.
    + apply gone_off; congruence.
Qed.

Lemma reach_ok c : creach c -> conc_ok c.
Proof.
  induction 1 as [d H|c c' _ IH Hs]; [left; by apply ready_ok|].
  destruct Hs as [d r texts data ? [p Hp] Hd|d w r texts w' d' E|e stop d w r texts r' d' Hr E|d w r texts|d w r texts].
  - destruct IH as [IH|(_ & Hn & _)]; [|cbn in Hn; congruence]. left. by apply text_step_ok.
  - destruct IH as [IH|(Hw & _)]; [|by cbn in Hw; subst w].
    destruct (writer_ok _ IH) as (w2 & d2 & E2 & H); [by cbn; intros ->|]. cbn [c_w c_log] in E2.
    rewrite E in E2. injection E2 as <- <-. by left.
  - destruct (waits_dec (Conc d w r texts)) as [Hw|Hw].
    + apply (waits_blocked e stop) in Hw. cbn [c_r c_log] in Hw. congruence.
    + destruct (reader_ok e stop _ IH Hw Hr) as (r2 & d2 & E2 & H). cbn [c_r c_log] in E2.
      rewrite E in E2. by injection E2 as <- <-.
  - eapply outside_ok; [exact IH|by repeat split|done|done].
  - eapply outside_ok; [exact IH|by repeat split|done|done].
Qed.

(** How many segments the writer is away from its return. *)
Definition wrank (w : wpc) : nat :=
  match w with
  | WIdle => 0
  | WStart _ => 7
  | WChoose _ _ => 6
  | WNext _ _ => 5
  | WTake _ _ => 4
  | WGive _ _ => 3
  | WSignal _ | WLoose _ _ => 2
  | WCopy _ => 1
  end.

Lemma wrun_keeps w d w' d' :
  wrun w d = Done (w', d') -> (wrank w' < wrank w)%nat /\ log_open d' = log_open d.
Proof.
  destruct w as [|x|s x|s x|s x|s x|x|s x|x]; intros E; try done; cbn [wrun] in E;
    unfold writing_side, choose, fits, state_of, switch_next, switch_take, switch_give, switch_signal,
      release_condition, put_cond, loose, clear, copy_put, copy_bytes, put_len, put_state, modify, bind, gets,
      ret, undef in E.
  all: repeat case_match; simplify_eq; repeat match goal with t : side |- _ => destruct t end; cbn; split;
    (done || lia).
Qed.

Lemma reach_busy c : creach c -> c_w c <> WIdle -> log_ok c.
Proof. intros [H|[Hw _]]%reach_ok Hi; done. Qed.

(** A call always returns. *)
Lemma wruns_reach n c :
  creach c -> (wrank (c_w c) <= n)%nat ->
  exists d', wruns n (c_w c) (c_log c) = Done (tt, d') /\ creach (Conc d' WIdle (c_r c) (c_in c)) /\
    log_open d' = log_open (c_log c).
Proof.
  revert c. induction n as [|n IH]; intros [d w r texts] H Hn; cbn [c_w c_log c_r c_in] in *.
  - destruct w; cbn in Hn; try lia. by exists d.
  - destruct (decide (w = WIdle)) as [->|Hw]; [by exists d|]. rewrite wruns_S by done.
    destruct (writer_ok _ (reach_busy _ H Hw)) as (w' & d' & E & _); [done|]. cbn [c_w c_log c_r c_in] in E.
    destruct (wrun_keeps _ _ _ _ E) as [Hlt Ho].
    destruct (IH (Conc d' w' r texts)) as (d2 & E2 & H2 & Ho2);
      [eapply creach_step; [exact H|by apply cs_writer]|cbn; lia|].
    exists d2. rewrite (bind_done _ _ _ _ _ E). cbn in *. by rewrite Ho2, Ho.
Qed.

(** A text that no buffer holds. *)
Lemma long_text_overruns d r texts data :
  log_ok (Conc d WIdle r texts) -> PINGPANG_BUFFER_SIZE < zlen data -> gps_dbg_log_pingpang_copy data d = UB.
Proof.
  intros (s & l & cur & hist & [Hi Hn (m & Hm & Hlen & _) ? _ Ho _ _ _]) Hd. cbn [c_log c_w c_r] in *.
  destruct (owners_writing _ _ _ _ _ _ _ Ho) as [H1 H2]; [done|].
  assert (writing_side d = Done (Some s, d)) as Ew.
  { unfold writing_side, state_of, bind, gets, ret. rewrite !Hi.
    destruct s; cbn [half_of other] in *; by rewrite H1, (bool_decide_false _ H2). }
  assert (forall t d', next_write d' = Some (t, 0) ->
            (forall m', h_mem (half_of t d') = Some m' -> zlen m' = PINGPANG_BUFFER_SIZE) ->
            copy_put data d' = UB) as Hub.
  { intros t d' En Em. unfold copy_put, copy_bytes, bind, gets. rewrite En.
    destruct (h_mem (half_of t d')) as [m'|]; [|done].
    by rewrite (proj2 (Z.leb_gt (0 + zlen data) (zlen m'))) by (rewrite (Em m') by done; lia). }
  unfold gps_dbg_log_pingpang_copy. rewrite (bind_done _ _ _ _ _ Ew). unfold choose, fits, state_of, bind, gets, ret.
  rewrite Hn, bool_decide_true by done.
  rewrite (proj2 (Z.leb_gt (zlen cur + zlen data) (PINGPANG_BUFFER_SIZE - 2))) by lia. rewrite Hi.
  destruct (decide (h_state (half_of (other s) d) = WRITABLE)) as [Hst|Hst].
  - rewrite bool_decide_true by done. unfold switch_next, bind, gets. rewrite Hn, bool_decide_true by done.
    unfold put_len, switch_take, switch_give, switch_signal, release_condition, put_cond, put_state, modify.
    rewrite (Hub (other s)); [done|by destruct s|]. intros m' Em.
    assert (holds (h_mem (half_of (other s) d)) []) as (m2 & Hm2 & Hz & _).
    { destruct Ho as [|? [=]|? [=]|? E|? E|? E]; [done|rewrite E in Hst; done..]. }
    destruct s; cbn in *; congruence.
  - rewrite bool_decide_false by done. unfold loose, clear, modify, bind, gets. rewrite Hm.
    rewrite (Hub s); [done|by destruct s|]. intros m' Em. destruct s; cbn in Em; injection Em as <-; apply zeroed_length.
Qed.

(** A copy that meets the end of the buffers. *)
Lemma release_races_copy e stop d r r' d' data :
  releasing r = true -> rrun e stop r d = Done (r', d') -> data <> [] -> wrun (WCopy data) d' = UB.
Proof.
  intros Hr E Hd. assert (next_write d' = None) as Hn.
  { destruct r; try discriminate Hr; cbn [rrun] in E.
    - unfold flush_take in E. rewrite !bind_assoc in E. apply bind_inv in E as ([] & d1 & _ & E).
      unfold release_condition, put_cond, modify, bind, gets, ret in E. by injection E as _ <-.
    - unfold gps_dbg_log_pingpang_free, FILE_FCLOSE, modify, bind, ret in E. by injection E as _ <-. }
  cbn [wrun]. unfold copy_put, copy_bytes, bind, gets. by rewrite Hn, (zlen_0 _ Hd).
Qed.


(** The texts handed in are, in their order, those of the filled buffers
    [hist], of the current buffer and of the call that is going on; the file has
    what was written of the kept buffers but for the waiting one [l]. *)
Definition log_holds (c : conc) (hist : list (bool * list Z)) (cur l : list Z) : Prop :=
  concat (c_in c) = concat (map snd hist) ++ cur ++ flight (c_w c) /\
  num_loose (c_log c) = zlen (lost hist) /\
  concat (map written (kept hist)) = log_file (c_log c) ++ written l.

(** C25: From the initialisation of the buffers until the flush takes them away,
    for texts that fit a buffer (20478 bytes): the file always has the texts that
    libmnl handed in, in order and as [fwrite] wrote them, but for whole buffers,
    which [num_loose] counts, the current buffer and at most one that waits; none
    waits when the writer is idle and the log thread sleeps with its file open, so
    no wake-up is lost. *)
Theorem dbg_log_complete c :
  creach c -> next_write (c_log c) <> None ->
  exists hist cur l,
    log_holds c hist cur l /\ zlen cur <= PINGPANG_BUFFER_SIZE - 2 /\
    (c_w c = WIdle -> c_r c = RWait -> write_cond (c_log c) = false -> log_open (c_log c) = true -> l = []).
Proof.
  intros [H|(_ & E & _)]%reach_ok Hn; [|done].
  destruct H as (s & l & cur & hist & [? ? ? ? ? Ho ? ? ?]).
  exists hist, cur, l. split; [done|]. split; [done|]. intros Hw Hr Hc Hf.
  unfold woken in Ho. rewrite Hw, Hr, Hc, Hf in Ho. cbn in Ho.
  destruct Ho as [|? [=]|? [=]|? ? ? ? ? [[]|[[=]|[]]]|? ? ? ? [=]|? ? ? ? ? []]; congruence.
Qed.

(** ** The end of the log *)

(** How many segments the log thread is away from the end of its write. *)
Definition rank (r : rpc) : nat :=
  match r with
  | RFirst => 10
  | RConfirm Buf1 => 9
  | RSecond => 8
  | RConfirm Buf2 => 7
  | RTake _ => 6
  | RBytes _ => 5
  | RClear _ _ => 4
  | RZero _ _ => 3
  | RGive _ _ => 2
  | RCount _ => 1
  | _ => 0
  end.

(** What the write leaves of the rest of the state. *)
Definition same_end (d d' : dbglog) : Prop :=
  flush_cond d' = flush_cond d /\ log_open d' = log_open d /\ num_loose d' = num_loose d.

Lemma rrun_keeps e r d r' d' :
  rrun e false r d = Done (r', d') -> rank r <> 0%nat ->
  (rank r' < rank r)%nat /\ (rank r' = 0%nat -> r' = RLoop) /\ same_end d d'.
Proof.
  unfold same_end. destruct r as [| | | | | |  |s|s|s|s ?|s ?|s ?|?| | | | | |]; intros E Hr; try done; clear Hr;
    cbn [rrun] in E;
    unfold readable, confirm, state_of, write_take, write_bytes, file_write, write_clear, clear, write_zero,
      write_give, count_in, put_len, put_state, modify, bind, gets, ret in E.
  all: repeat case_match; simplify_eq; try (destruct s); try done; cbn; repeat split; (lia || done).
Qed.

Lemma log_step e d r r' d' texts :
  log_ok (Conc d WIdle r texts) -> releasing r = false -> rrun e false r d = Done (r', d') ->
  log_ok (Conc d' WIdle r' texts).
Proof.
  intros H Hr E. destruct (reader_logs e false _ H) as (r2 & d2 & E2 & H2); [|done|].
  - intros Hw%(waits_blocked e false). cbn [c_r c_log] in Hw. congruence.
  - cbn [c_r c_log] in E2. rewrite E in E2. by injection E2 as <- <-.
Qed.

Lemma rruns_ok e n r d texts :
  log_ok (Conc d WIdle r texts) -> rank r <> 0%nat \/ r = RLoop -> (rank r <= n)%nat ->
  exists d', rruns e n r d = Done (RLoop, d') /\ log_ok (Conc d' WIdle RLoop texts) /\ same_end d d'.
Proof.
  revert r d. induction n as [|n IH]; intros r d H Hr Hn.
  - destruct Hr as [Hr|Hr]; [lia|subst r]. exists d. by rewrite rruns_done.
  - destruct Hr as [Hr|Hr]; [|subst r; exists d; by rewrite rruns_done].
    assert (releasing r = false /\ turn_done r = false /\ r <> RWait) as (H1 & H2 & H3) by (by destruct r).
    destruct (reader_logs e false _ H) as (r' & d' & E & H'); [|done|]; cbn [c_r c_log c_w c_in] in *.
    { intros [[? _]|[(? & E & _)|E]]; cbn [c_r] in *; by subst r. }
    destruct (rrun_keeps _ _ _ _ _ E Hr) as (Hlt & Hl & K1 & K2 & K3).
    destruct (IH r' d' H') as (d2 & E2 & H4 & L1 & L2 & L3); [|lia|].
    { destruct (decide (rank r' = 0%nat)); auto. }
    exists d2. rewrite rruns_S by done. rewrite (bind_done _ _ _ _ _ E). split; [done|]. split; [done|].
    split; [|split]; congruence.
Qed.

(** A turn with the log switched on writes what waits. *)
Lemma turn_on_ok e d texts :
  log_ok (Conc d WIdle RSwitch texts) -> enabled d = true -> log_open d = true ->
  access_ok e = true -> fopen_ok e = true ->
  exists d', log_on fwrite e d = Done (true, d') /\ log_ok (Conc d' WIdle RLoop texts) /\ same_end d d'.
Proof.
  intros H Hen Ho Ha Hf.
  apply (log_step e _ _ RAccess d) in H; [|done|by cbn [rrun]; unfold bind, gets, ret; rewrite Hen].
  apply (log_step e _ _ RFile d) in H; [|done|by cbn [rrun]; rewrite Ha].
  assert (exists n k, rotate e d = Done (true, set_file true n k d)) as (n & k & Er).
  { unfold rotate, FILE_FCLOSE, modify, bind, gets, ret. rewrite Hf.
    destruct d. cbn in *. subst. case_match; eauto. }
  apply (log_step e _ _ RFirst (set_file true n k d)) in H;
    [|done|by cbn [rrun]; unfold bind, gets, ret; rewrite Ho, Er].
  destruct (rruns_ok e 10 _ _ _ H) as (d' & E & H' & K1 & K2 & K3); [by left|cbn; lia|].
  exists d'. split; [|split; [done|]; by split; [|split]; rewrite ?K1, ?K2, ?K3].
  pose proof (log_on_is_rruns e d) as Eq. rewrite rruns_S in Eq by done.
  rewrite (bind_done _ _ d RFile d) in Eq by (cbn [rrun]; by rewrite Ha).
  rewrite rruns_S, (bind_done _ _ d RFirst (set_file true n k d)), E in Eq
    by (done || by cbn [rrun]; unfold bind, gets, ret; rewrite Ho, Er).
  apply bind_inv in Eq as ([] & d2 & E2 & Eq); [|done]. by injection Eq as <-.
Qed.

(** The flush writes the waiting buffer and the current one. *)
Lemma flush_ok d r texts s l cur hist :
  log_inv (Conc d WIdle r texts) s l cur hist -> resting r -> flush_cond d = true ->
  exists d', gps_dbg_log_pingpang_flush fwrite d = Done (MTK_GPS_SUCCESS, d') /\
    log_file d' = log_file d ++ written l ++ written cur.
Proof.
  intros H Hr Hf. pose proof (li_next _ _ _ _ _ H) as Hn. cbn [c_log] in Hn.
  destruct (log_flushable _ _ _ _ _ _ _ H Hr) as [F1 F2 F3 F4].
  set (d1 := set_flush_cond true (set_next None (set_flush_cond false d))).
  assert (flush_take d = Done (Some (s, zlen cur), d1)) as Et.
  { unfold flush_take, get_condition, release_condition, put_cond, modify, bind, gets, ret.
    rewrite Hf. cbn. by rewrite Hn. }
  assert (flushable d1 s l cur) as Hfl by (by destruct s).
  unfold gps_dbg_log_pingpang_flush. rewrite (bind_done _ _ _ _ _ Et), (bind_done _ _ _ _ _ (flush_rest_ok _ _ _ _ Hfl)).
  by eexists.
Qed.

(** The end of the log while the buffers are there: in a turn that finds the log
    switched off, or after the loop. *)
Definition log_ends (d' : dbglog) (l cur : list Z) (d : dbglog) : Prop :=
  log_file d' = log_file d ++ written l ++ written cur /\ log_open d' = false /\ g_pingpang_init d' = false.

Lemma log_off_ok d r texts s l cur hist :
  log_inv (Conc d WIdle r texts) s l cur hist -> resting r -> flush_cond d = true -> log_open d = true ->
  exists d', log_off fwrite d = Done (tt, d') /\ log_ends d' l cur d.
Proof.
  intros H Hr Hf Ho. destruct (flush_ok _ _ _ _ _ _ _ H Hr Hf) as (d1 & E & Hfile).
  unfold log_off. rewrite (bind_done have_buffers _ d true d) by (eapply log_have; by exists s, l, cur, hist).
  cbn [when]. unfold bind at 1, gets. rewrite Ho. cbn [when]. rewrite bind_assoc, (bind_done _ _ _ _ _ E).
  eexists. split; [reflexivity|]. done.
Qed.

Lemma log_exit_ok d r texts s l cur hist :
  log_inv (Conc d WIdle r texts) s l cur hist -> resting r -> flush_cond d = true -> log_open d = true ->
  exists d', log_exit fwrite d = Done (tt, d') /\ log_ends d' l cur d.
Proof.
  intros H Hr Hf Ho. destruct (flush_ok _ _ _ _ _ _ _ H Hr Hf) as (d1 & E & Hfile).
  unfold log_exit. unfold bind at 1, gets. rewrite Ho. cbn [when].
  rewrite (bind_done have_buffers _ d true d) by (eapply log_have; by exists s, l, cur, hist).
  cbn [when]. rewrite bind_assoc, (bind_done _ _ _ _ _ E). eexists. split; [reflexivity|]. done.
Qed.

(** GPS stops: [gps_stop_dbglog_release_condition], the thread's last turn and
    what follows its loop. *)
Definition log_end (e : turn_env) : prog dbglog unit :=
  gps_stop_dbglog_release_condition ;;
  let* _ := log_turn fwrite e in
  log_exit fwrite.

(** C27: Once GPS is stopped, the thread writes what is left and ends, also when
    the log was switched off before: the file has all the texts in order, as
    [fwrite] wrote them, but for the buffers that were counted as lost, and the
    buffers are released. *)
Theorem dbg_log_flushed c e :
  creach c -> c_w c = WIdle -> c_r c = RWait -> log_open (c_log c) = true ->
  access_ok e = true -> fopen_ok e = true ->
  exists d' hist cur,
    log_end e (c_log c) = Done (tt, d') /\ concat (c_in c) = concat (map snd hist) ++ cur /\
    num_loose (c_log c) = zlen (lost hist) /\
    log_file d' = concat (map written (kept hist)) ++ written cur /\
    log_open d' = false /\ g_pingpang_init d' = false.
Proof.
  intros H%reach_ok Hw Hr Ho Ha Hf. destruct c as [d w r texts].
  cbn [c_log c_w c_r c_in] in *. subst w r.
  set (d1 := set_flush_cond true (set_write_cond true d)).
  apply (outside_ok d d1) in H; [|by repeat split|done|done].
  destruct H as [H|(_ & _ & Hg)]; [|cbn [c_log c_r] in Hg; inversion Hg; subst; cbn in *; congruence].
  unfold log_end. rewrite (bind_done _ _ _ tt d1) by done. unfold log_turn. rewrite bind_assoc.
  rewrite (bind_done _ _ _ tt (set_write_cond false d1)) by done. rewrite bind_assoc.
  apply (log_step e _ _ RSwitch (set_write_cond false d1)) in H; [|done..].
  rewrite (bind_done (gets enabled) _ _ (enabled d) (set_write_cond false d1)) by done.
  destruct (enabled d) eqn:Hen.
  - destruct (turn_on_ok e _ _ H) as (d2 & E2 & (s & l & cur & hist & H2) & K1 & K2 & K3); [done..|].
    rewrite (bind_done _ _ _ _ _ E2).
    destruct (log_exit_ok _ _ _ _ _ _ _ H2) as (d' & E & Hfile & Hrest); [done|done|by rewrite K2|].
    destruct H2 as [? ? ? ? ? ? Hin Hl Hk]. cbn [c_log c_w c_r c_in flight] in *. rewrite app_nil_r in Hin.
    exists d', hist, cur. split; [done|]. split; [done|]. split; [by rewrite <- Hl, K3|].
    split; [|done]. by rewrite Hfile, Hk, app_assoc.
  - destruct H as (s & l & cur & hist & H).
    destruct (log_off_ok _ _ _ _ _ _ _ H) as (d' & E & Hfile & Hop & Hin'); [done..|].
    destruct H as [? ? ? ? ? ? Hin Hl Hk]. cbn [c_log c_w c_r c_in flight] in *. rewrite app_nil_r in Hin.
    exists d', hist, cur. split.
    { rewrite bind_assoc, (bind_done _ _ _ _ _ E), bind_ret_l. unfold log_exit, bind, gets. by rewrite Hop. }
    split; [done|]. split; [done|]. split; [|done]. by rewrite Hfile, Hk, app_assoc.
Qed.
End threads.

(** ** Runs *)

Section runs.
Context (fwrite : list Z -> nat).

(** A step of each kind, where it can be made. *)
Definition text_step (data : list Z) (c : conc) : conc :=
  match c_w c, next_write (c_log c) with
  | WIdle, Some _ =>
      if enabled (c_log c) && (zlen data <=? PINGPANG_BUFFER_SIZE - 2)
      then Conc (c_log c) (WStart data) (c_r c) (c_in c ++ [data]) else c
  | _, _ => c
  end.
Definition writer_step (c : conc) : conc :=
  match wrun (c_w c) (c_log c) with
  | Done (w', d') => Conc d' w' (c_r c) (c_in c)
  | _ => c
  end.
Definition reader_step (e : turn_env) (c : conc) : conc :=
  if releasing (c_r c) then c
  else match rrun fwrite e false (c_r c) (c_log c) with
       | Done (r', d') => Conc d' (c_w c) r' (c_in c)
       | _ => c
       end.
Definition off_step_of (c : conc) : conc := Conc (set_enabled false (c_log c)) (c_w c) (c_r c) (c_in c).

Lemma text_step_reach data c : creach fwrite c -> creach fwrite (text_step data c).
Proof.
  intros H. unfold text_step. destruct c as [d w r texts]; cbn [c_w c_log c_r c_in].
  destruct w, (next_write d) eqn:Hn; try done.
  destruct (enabled d && _) eqn:E; [|done]. apply andb_true_iff in E as [He Hl]. apply Z.leb_le in Hl.
  eapply creach_step; [exact H|]. by apply cs_text.
Qed.

Lemma writer_step_reach c : creach fwrite c -> creach fwrite (writer_step c).
Proof.
  intros H. unfold writer_step. destruct c as [d w r texts]; cbn [c_w c_log c_r c_in].
  destruct (wrun w d) as [[w' d']| | |] eqn:E; try done. eapply creach_step; [exact H|]. by apply cs_writer.
Qed.

Lemma reader_step_reach e c : creach fwrite c -> creach fwrite (reader_step e c).
Proof.
  intros H. unfold reader_step. destruct c as [d w r texts]; cbn [c_w c_log c_r c_in].
  destruct (releasing r) eqn:Er; [done|]. destruct (rrun fwrite e false r d) as [[r' d']| | |] eqn:E; try done.
  eapply creach_step; [exact H|]. eapply cs_reader; [congruence|exact E].
Qed.

Lemma off_step_reach c : creach fwrite c -> creach fwrite (off_step_of c).
Proof. intros H. destruct c. eapply creach_step; [exact H|]. apply cs_off. Qed.
End runs.

(** ** Witnesses *)

(** Everything is written. *)
Definition demo_fwrite (l : list Z) : nat := length l.
Definition demo_env : turn_env := TurnEnv true true.

(** After the initialisation, with a log file or without. *)
Definition demo_start (file : bool) : conc :=
  match gps_dbg_log_pingpang_init true true (set_file file 0 0 (set_enabled true dbglog_boot)) with
  | Done (_, d) => Conc d WIdle RLoop []
  | _ => Conc dbglog_boot WIdle RLoop []
  end.

Lemma demo_start_reach file : creach demo_fwrite (demo_start file).
Proof. apply creach_init. by exists (set_file file 0 0 (set_enabled true dbglog_boot)). Qed.

(** One text was handed in, and the log thread is at its condition. *)
Definition demo_log : conc :=
  Nat.iter 3 writer_step (text_step [65; 66] (reader_step demo_fwrite demo_env (demo_start true))).

Lemma demo_reach : creach demo_fwrite demo_log.
Proof.
  unfold demo_log. cbn [Nat.iter].
  do 3 apply writer_step_reach. apply text_step_reach, reader_step_reach, demo_start_reach.
Qed.

Lemma demo_log_is :
  c_in demo_log = [[65; 66]] /\ c_w demo_log = WIdle /\ c_r demo_log = RWait /\
  log_open (c_log demo_log) = true /\ next_write (c_log demo_log) = Some (Buf1, 2).
Proof. repeat split; vm_compute; reflexivity. Qed.

(** The log is switched off while a text is being copied that changed the
    buffers, and there is no log file: the log thread is about to release them. *)
Definition race : conc :=
  let c1 := Nat.iter 3 writer_step
              (text_step (zeros (Z.to_nat (PINGPANG_BUFFER_SIZE - 2))) (reader_step demo_fwrite demo_env (demo_start false))) in
  let c2 := Nat.iter 6 writer_step (text_step [65; 66] c1) in
  Nat.iter 3 (reader_step demo_fwrite demo_env) (off_step_of c2).

Lemma race_reach : creach demo_fwrite race.
Proof.
  unfold race. cbn [Nat.iter]. cbv zeta. do 3 apply reader_step_reach. apply off_step_reach.
  do 6 apply writer_step_reach. apply text_step_reach. do 3 apply writer_step_reach.
  apply text_step_reach, reader_step_reach, demo_start_reach.
Qed.

Lemma race_is : c_w race = WCopy [65; 66] /\ c_r race = RRelease false.
Proof. split; vm_compute; reflexivity. Qed.

(** The threads do get there: the release of the buffers overtakes the copy,
    which then stores through a null pointer. *)
Theorem release_race_reachable :
  exists c r' d', creach demo_fwrite c /\ rrun demo_fwrite demo_env false (c_r c) (c_log c) = Done (r', d') /\
    wrun (c_w c) d' = UB.
Proof.
  destruct race_is as [Hw Hr]. exists race. rewrite Hw, Hr. eexists _, _.
  split; [exact race_reach|]. split; [reflexivity|].
  by eapply (release_races_copy demo_fwrite demo_env false (c_log race) (RRelease false)).
Qed.


Lemma dbg_log_complete_witness :
  exists c hist cur l, c_in c = [[65; 66]] /\ log_holds demo_fwrite c hist cur l.
Proof.
  destruct demo_log_is as (Hin & _ & _ & _ & Hn). exists demo_log.
  destruct (dbg_log_complete demo_fwrite _ demo_reach) as (hist & cur & l & Hh & _); [by rewrite Hn|].
  exists hist, cur, l. split; [exact Hin|exact Hh].
Defined.

Lemma dbg_log_flushed_witness :
  exists c d' (hist : list (bool * list Z)) cur, c_in c = [[65; 66]] /\
    log_end demo_fwrite (TurnEnv true true) (c_log c) = Done (tt, d') /\
    [65; 66] = concat (map snd hist) ++ cur.
Proof.
  destruct demo_log_is as (Hi & Hw & Hr & Ho & _). exists demo_log.
  destruct (dbg_log_flushed demo_fwrite _ (TurnEnv true true) demo_reach Hw Hr Ho eq_refl eq_refl)
    as (d' & hist & cur & E & Hin & _).
  exists d', hist, cur. split; [exact Hi|]. split; [exact E|]. rewrite Hi in Hin. exact Hin.
Defined.
