(* ===== verification/Config.v ===== *)
(** * Configuration files

    Three readers of lines [KEY=VALUE]: [mnl_utl_load_property] of
    [src/gps/mtk_mnld/mnld_entity/src/mnl_common.c] for [mnl.prop],
    [epo_read_cust_config] of [epo.c] and [gps_raw_data_enable] of
    [gps_controller.c] for [gps.conf].  Each has its own copy of the function
    that splits a line in place ([get_prop], twice [get_val]); the copies differ
    in the size of the buffer only.

    Shown: the pointer programs compute what a line says ([parse_line]) without
    leaving their buffer, whatever the file holds. *)

From stdpp Require Import gmap strings.
From S2P Require Import Prelude DataCoder LbsUtility Float64 AtCommand Disk Epo NmeaParser.
Open Scope Z_scope.

Definition GPS_CONF_FILE_SIZE : Z := 100.
Definition PROPBUF_SIZE : Z := 512.
Definition EPO_CONTROL_FILE_PATH : string := "/data/misc/gps/gps.conf".
Definition MTK_EPO_MAX_DAY : Z := 30.

(** ** A line *)

(** [IS_SPACE] *)
Definition IS_SPACE (ch : Z) : bool := (ch =? 32) || (ch =? 9) || (ch =? 10).

(** [while (!stop( *p) && p < end) p++], from the index [p] with [n] characters
    before [end]: the character is read first. *)
Fixpoint seek (stop : Z -> bool) (m : list Z) (p : Z) (n : nat) : outcome Z :=
  obind (rd m p) (fun c =>
  if stop c then Done p
  else match n with O => Done p | S n' => seek stop m (p + 1) n' end).

(** The text at an index, up to its NUL byte, as [strlen] and [strcmp] read it. *)
Definition str_at (m : list Z) (p : Z) : outcome (list Z) :=
  if p <? 0 then UB
  else match strlen (drop (Z.to_nat p) m) with
       | Some n => Done (take n (drop (Z.to_nat p) m))
       | None => UB
       end.

(** What a line is: an error (-1), a comment (0 and null pointers), or two
    pointers into the buffer. *)
Inductive line : Type := LBad | LComment | LSet (key val : Z).

(** A newline is put behind a last line without one, if there is room. *)
Definition terminate (size : Z) (m : list Z) (len : Z) : outcome (option (list Z)) :=
  obind (rd m (len - 1)) (fun c =>
  if c =? 10 then Done (Some m)
  else if size - 1 <=? len then Done None
  else obind (wr m len 10) (fun m => Done (Some m))).

(** The value behind [p] is ended with a NUL byte; the key is at the start. *)
Definition cut_value (m : list Z) (p : Z) (len : nat) : outcome (list Z * line) :=
  obind (seek (fun c => negb (IS_SPACE c)) m p (len - Z.to_nat p)) (fun v =>
  obind (seek IS_SPACE m v (len - Z.to_nat v)) (fun q =>
  obind (wr m q 0) (fun m => Done (m, LSet 0 v)))).

Definition split_line (m : list Z) (len : nat) : outcome (list Z * line) :=
  obind (seek (fun c => c =? 61) m 0 len) (fun p =>
  if Z.of_nat len <=? p then Done (m, LBad)
  else obind (wr m p 0) (fun m => cut_value m (p + 1) len)).

Definition split_in (size : Z) (m : list Z) : outcome (list Z * line) :=
  match strlen m with
  | None => UB
  | Some len =>
      if (len =? 0)%nat then Done (m, LBad)
      else
        obind (rd m 0) (fun c =>
        if c =? 35 then Done (m, LComment)
        else
          obind (terminate size m (Z.of_nat len)) (fun o =>
          match o with
          | None => Done (m, LBad)
          | Some m => split_line m len
          end))
  end.

Definition get_prop : list Z -> outcome (list Z * line) := split_in PROPBUF_SIZE.
Definition get_val : list Z -> outcome (list Z * line) := split_in GPS_CONF_FILE_SIZE.

(** ** A file *)

(** At most [n] characters, up to and including a newline, and the rest. *)
Fixpoint line_of (n : nat) (l : list Z) : list Z * list Z :=
  match n, l with
  | S n', c :: l' =>
      if c =? 10 then ([c], l')
      else let '(got, rest) := line_of n' l' in (c :: got, rest)
  | _, _ => ([], l)
  end.

(** [fgets(buf, sizeof(buf), fp)] with [l] to be read. *)
Definition fgets (buf l : list Z) : option (list Z * list Z) :=
  match l with
  | [] => None
  | _ =>
      let '(got, rest) := line_of (length buf - 1) l in
      Some (got ++ [0] ++ drop (length got + 1) buf, rest)
  end.

Section reader.
Context {W : Type} (split : list Z -> outcome (list Z * line)) (set : list Z -> Z -> Z -> prog W unit).

(** The loop over the lines; [n] lines at most, where a file has no more lines
    than characters.  True at the end of the file, false at a line that is an
    error; and the buffer. *)
Fixpoint read_lines (n : nat) (buf l : list Z) : prog W (bool * list Z) :=
  match fgets buf l with
  | None => ret (true, buf)
  | Some (buf, rest) =>
      match n with
      | O => blocked
      | S n' =>
          let* '(buf, r) := lift (split buf) in
          match r with
          | LBad => ret (false, buf)
          | LComment => read_lines n' buf rest
          | LSet key val => set buf key val ;; read_lines n' buf rest
          end
      end
  end.
End reader.

(** [!strcmp(key, name)] *)
Definition key_is (buf : list Z) (key : Z) (name : string) : outcome bool :=
  obind (str_at buf key) (fun s => Done (bool_decide (s = lit name))).

(** [int len = strlen(val); str2int(val, val+len)] *)
Definition val_int (buf : list Z) (val : Z) : outcome Z :=
  obind (str_at buf val) (fun s => str2int buf val (val + zlen s)).

(** ** [gps.conf] *)

Definition set_cust (enable days trigger : Z) (e : epo) : epo :=
  Epo (epo_data_updated e) days enable trigger (gps_epo_file_count e)
    (gps_epo_file_name e) (gps_epo_md_file_name e) (gps_epo_type e) (epo_download_failed e)
    (epo_download_retry e) (counter e) (delay_time e) (file_retrying e) (retry_time e) (files e) (tick e)
    (retry_armed e) (epo_done e).

(** A switch that is neither 0 nor 1 gets its default. *)
Definition switch_or (default v : Z) : Z := if negb (v =? 1) && negb (v =? 0) then default else v.
Definition days_or_nine (v : Z) : Z := if (MTK_EPO_MAX_DAY <? v) || (v <? 0) then 9 else v.

(** The body of the loop of [epo_read_cust_config]: three tests one after the
    other. *)
Definition set_epo_conf (buf : list Z) (key val : Z) : prog epo unit :=
  let* b := lift (key_is buf key "EPO_ENABLE") in
  when b
    (let* v := lift (val_int buf val) in
     modify (fun e => set_cust (switch_or 1 v) (gps_epo_download_days e) (gps_epo_wifi_trigger e) e)) ;;
  let* b := lift (key_is buf key "DW_DAYS") in
  when b
    (let* v := lift (val_int buf val) in
     modify (fun e => set_cust (gps_epo_enable e) (days_or_nine v) (gps_epo_wifi_trigger e) e)) ;;
  let* b := lift (key_is buf key "EPO_WIFI_TRIGGER") in
  when b
    (let* v := lift (val_int buf val) in
     modify (fun e => set_cust (gps_epo_enable e) (gps_epo_download_days e) (switch_or 0 v) e)).

Definition epo_read_cust_config : prog epo Z :=
  let* file := read_file EPO_CONTROL_FILE_PATH in
  match file with
  | None => ret 1
  | Some l =>
      let* _ := read_lines get_val set_epo_conf (length l) (zeros (Z.to_nat GPS_CONF_FILE_SIZE)) l in
      ret 1
  end.

(** Here the state is the variable [gps_raw_debug_mode]. *)
Definition set_raw_conf (buf : list Z) (key val : Z) : prog Z unit :=
  let* b := lift (key_is buf key "RAW_DEBUG_MODE") in
  when b (let* v := lift (val_int buf val) in modify (fun _ => switch_or 0 v)).

Definition gps_raw_data_enable (file : option (list Z)) : prog Z Z :=
  match file with
  | None => ret 1
  | Some l =>
      let* '(good, _) := read_lines get_val set_raw_conf (length l) (zeros (Z.to_nat GPS_CONF_FILE_SIZE)) l in
      if good : bool then gets (fun mode => mode) else ret 1
  end.

(** ** [mnl.prop] *)

(** The members of [MNL_CONFIG_T] that are numbers, and those that are arrays
    of characters. *)
Inductive cfg_int : Type :=
| init_speed | link_speed | debug_nmea | debug_mnl | pmtk_conn | cfg_socket_port
| delay_reset_dsp | nmea2file | dbg2file | nmea2socket | dbg2socket
| dbglog_file_max_size | dbglog_folder_max_size
| timeout_init | timeout_monitor | timeout_wakeup | timeout_sleep | timeout_pwroff | timeout_ttff
| EPO_enabled | BEE_enabled | SUPL_enabled | SUPLSI_enabled
| EPO_priority | BEE_priority | SUPL_priority | fgGpsAosp_Ver
| AVAILIABLE_AGE | RTC_DRIFT | TIME_INTERVAL | u1AgpsMachine | ACCURACY_SNR | GNSSOPMode
| OFFLOAD_enabled | OFFLOAD_testMode.
Inductive cfg_str : Type :=
| dev_dbg | dev_dsp | dev_gps | bee_path | epo_file | epo_update_file | qepo_file | qepo_update_file.
#[export] Instance cfg_int_eq_dec : EqDecision cfg_int.
Proof. solve_decision. Defined.
#[export] Instance cfg_str_eq_dec : EqDecision cfg_str.
Proof. solve_decision. Defined.

Record MNL_CONFIG_T : Type := Cfg { cfg_ints : cfg_int -> Z; cfg_strs : cfg_str -> list Z }.

Definition cfg_put (x : cfg_int) (z : Z) (c : MNL_CONFIG_T) : MNL_CONFIG_T :=
  Cfg (fun y => if decide (x = y) then z else cfg_ints c y) (cfg_strs c).
Definition cfg_store (x : cfg_str) (l : list Z) (c : MNL_CONFIG_T) : MNL_CONFIG_T :=
  Cfg (cfg_ints c) (fun y => if decide (x = y) then l else cfg_strs c y).

(** [sizeof] of an array. *)
Definition cfg_size (x : cfg_str) : Z :=
  match x with dev_dbg | dev_dsp | dev_gps | bee_path => 32 | _ => 30 end.

(** The type of a number: [int], but for an unsigned [char] and two [UINT32]. *)
Definition cfg_conv (x : cfg_int) (z : Z) : Z :=
  match x with
  | u1AgpsMachine => u8 z
  | dbglog_file_max_size | dbglog_folder_max_size => u32 z
  | _ => z
  end.

Definition PMTK_CONNECTION_SOCKET : Z := 1.
Definition PMTK_CONNECTION_SERIAL : Z := 2.

(** [atoi]: a number out of range is undefined. *)
Definition atoi (s : list Z) : outcome Z :=
  let '(neg, l) := scan_sign (skip_space s) in
  let '(x, _, _) := scan_digits 10 l 0 0 in
  chk (if neg : bool then - x else x).

(** An [0x] counts when a digit follows. *)
Definition skip_0x (l : list Z) : list Z :=
  match l with
  | 48 :: x :: d :: _ =>
      if ((x =? 120) || (x =? 88)) && bool_decide (is_Some (digit_of 16 d)) then drop 2 l else l
  | _ => l
  end.
(** [strtol(s, NULL, 16)] with a [long] of 32 bits. *)
Definition strtol16 (s : list Z) : Z :=
  let '(neg, l) := scan_sign (skip_space s) in
  let '(x, _, _) := scan_digits 16 (skip_0x l) 0 0 in
  let x := if neg : bool then - x else x in
  Z.max (- 2 ^ 31) (Z.min (2 ^ 31 - 1) x).

(** The variables of the file, with [epo_setconfig] of [gps_controller.c]. *)
Record props : Type := Props { p_cfg : MNL_CONFIG_T; epo_setconfig : Z; propbuf : list Z }.

Definition on_cfg (f : MNL_CONFIG_T -> MNL_CONFIG_T) (p : props) : props :=
  Props (f (p_cfg p)) (epo_setconfig p) (propbuf p).

(** What is done with the value of a key. *)
Inductive prop_action : Type :=
| PInt (x : cfg_int)              (* atoi *)
| PStr (x : cfg_str)              (* copied, if it fits *)
| PConn                           (* pmtk.conn *)
| PNmea                           (* debug.debug_nmea *)
| PHex (x : cfg_int)              (* strtol in base sixteen *)
| PEpo.                           (* atoi, and epo_setconfig *)

Definition prop_table : list (string * prop_action) :=
  [("init.speed", PInt init_speed); ("link.speed", PInt link_speed); ("dev.dsp", PStr dev_dsp);
   ("dev.gps", PStr dev_gps); ("bee.path", PStr bee_path); ("pmtk.serial.dev", PStr dev_dbg);
   ("pmtk.conn", PConn); ("pmtk.serial.port", PInt cfg_socket_port); ("debug.debug_nmea", PNmea);
   ("debug.mnl", PHex debug_mnl); ("debug.dbg2file", PInt dbg2file);
   ("timeout.monitor", PInt timeout_monitor); ("timeout.init", PInt timeout_init);
   ("timeout.sleep", PInt timeout_sleep); ("timeout.pwroff", PInt timeout_pwroff);
   ("timeout.wakeup", PInt timeout_wakeup); ("timeout.ttff", PInt timeout_ttff);
   ("delay.reset_dsp", PInt delay_reset_dsp); ("EPO_enabled", PEpo); ("BEE_enabled", PInt BEE_enabled);
   ("SUPL_enabled", PInt SUPL_enabled); ("SUPLSI_enabled", PInt SUPLSI_enabled);
   ("EPO_priority", PInt EPO_priority); ("BEE_priority", PInt BEE_priority);
   ("SUPL_priority", PInt SUPL_priority); ("AVAILIABLE_AGE", PInt AVAILIABLE_AGE);
   ("RTC_DRIFT", PInt RTC_DRIFT); ("TIME_INTERVAL", PInt TIME_INTERVAL);
   ("TEST_MACHINE", PInt u1AgpsMachine); ("ACC_SNR", PInt ACCURACY_SNR); ("GNSS_MODE", PInt GNSSOPMode);
   ("DBGLOG_FILE_MAX", PInt dbglog_file_max_size); ("DBGLOG_FOLDER_MAX", PInt dbglog_folder_max_size);
   ("OFFLOAD_enabled", PInt OFFLOAD_enabled); ("OFFLOAD_testMode", PInt OFFLOAD_testMode)]%string.

(** The chain of [strcmp]. *)
Fixpoint action_of (table : list (string * prop_action)) (key : list Z) : option prop_action :=
  match table with
  | [] => None
  | (name, a) :: table' => if bool_decide (key = lit name) then Some a else action_of table' key
  end.

(** [strcpy(dst, val)] into an array that has room. *)
Definition strcpy (dst s : list Z) : list Z := s ++ [0] ++ drop (length s + 1) dst.

Definition run_action (a : prop_action) (val : list Z) : prog props unit :=
  match a with
  | PInt x => let* v := lift (atoi val) in modify (on_cfg (cfg_put x (cfg_conv x v)))
  | PStr x =>
      when (zlen val <? cfg_size x)
        (modify (on_cfg (fun c => cfg_store x (strcpy (cfg_strs c x) val) c)))
  | PConn =>
      if bool_decide (val = lit "serial") then modify (on_cfg (cfg_put pmtk_conn PMTK_CONNECTION_SERIAL))
      else when (bool_decide (val = lit "socket")) (modify (on_cfg (cfg_put pmtk_conn PMTK_CONNECTION_SOCKET)))
  | PNmea => let* v := lift (atoi val) in modify (on_cfg (cfg_put debug_nmea (if 0 <? v then 1 else 0)))
  | PHex x => modify (on_cfg (cfg_put x (strtol16 val)))
  | PEpo =>
      let* v := lift (atoi val) in
      modify (on_cfg (cfg_put EPO_enabled v)) ;;
      modify (fun p => Props (p_cfg p) 1 (propbuf p))
  end.

(** Always zero; the caller's test of the result is left out. *)
Definition set_prop (buf : list Z) (key val : Z) : prog props unit :=
  let* k := lift (str_at buf key) in
  let* v := lift (str_at buf val) in
  match action_of prop_table k with
  | Some a => run_action a v
  | None => ret tt
  end.

(** Zero when the whole file was read. *)
Definition read_prop (file : option (list Z)) : prog props Z :=
  match file with
  | None => ret (-1)
  | Some l =>
      let* buf := gets propbuf in
      let* '(good, buf) := read_lines get_prop set_prop (length l) buf l in
      modify (fun p => Props (p_cfg p) (epo_setconfig p) buf) ;;
      ret (if good : bool then 0 else -1)
  end.

Definition mnl_prop_path : list string := ["/data/misc/gps/mnl.prop"; "/sbin/mnl.prop"]%string.

(** The first file that is read to its end. *)
Fixpoint read_first (fs : gmap string (list Z)) (paths : list string) : prog props Z :=
  match paths with
  | [] => ret (-1)
  | path :: paths' =>
      let* r := read_prop (fs !! path) in
      if r =? 0 then ret 0 else read_first fs paths'
  end.

(** [char result[PROPERTY_VALUE_MAX] = {0}] after [property_get]. *)
Definition PROPERTY_VALUE_MAX : Z := 92.
Definition prop_char (value : list Z) (i : nat) : Z :=
  nth i (value ++ zeros (Z.to_nat PROPERTY_VALUE_MAX - length value)) 0 - 48.

(** [status]: the property [persist.radio.mnl.prop], none when it is not set. *)
Definition mnl_utl_load_property (fs : gmap string (list Z)) (status : option (list Z)) : prog props Z :=
  modify (fun p => Props (p_cfg p) 0 (propbuf p)) ;;
  let* res := read_first fs mnl_prop_path in
  (match status with
   | Some v =>
       modify (on_cfg (cfg_put dbg2file (prop_char v 2))) ;;
       modify (on_cfg (cfg_put debug_nmea (prop_char v 3))) ;;
       modify (on_cfg (cfg_put BEE_enabled (prop_char v 4)))
   | None => ret tt
   end) ;;
  ret res.

(** [get_prop] of [gps_controller.c]; another function than the one above. *)
Definition config_status (status : option (list Z)) (index : nat) : Z :=
  match status with
  | Some v => prop_char v index
  | None => if (index =? 7)%nat then 1 else 0
  end.

(** ** The configurations at the start *)

Definition MNLD_GPS_START_TIMEOUT : Z := 15 * 1000.
Definition MNLD_GPS_NMEA_DATA_TIMEOUT : Z := 10 * 1000.
Definition MNL_NEMA_DEBUG_SENTENCE : Z := 1.

Definition no_cfg : MNL_CONFIG_T := Cfg (fun _ => 0) (fun x => zeros (Z.to_nat (cfg_size x))).

(** [mnld_cfg], for the two timeouts and the offload switch. *)
Definition mnld_cfg : MNL_CONFIG_T :=
  cfg_put timeout_init MNLD_GPS_START_TIMEOUT (cfg_put timeout_monitor MNLD_GPS_NMEA_DATA_TIMEOUT no_cfg).

(** A text in an array of the configuration. *)
Definition in_array (x : cfg_str) (s : string) : list Z :=
  lit s ++ zeros (Z.to_nat (cfg_size x) - length (lit s)).

(** [mnl_config], for the rest. *)
Definition mnl_config : MNL_CONFIG_T :=
  Cfg
    (fun x =>
       match x with
       | init_speed => 38400
       | link_speed => 921600
       | debug_nmea => 1
       | debug_mnl => MNL_NEMA_DEBUG_SENTENCE
       | pmtk_conn => PMTK_CONNECTION_SOCKET
       | cfg_socket_port => 7000
       | delay_reset_dsp => 500
       | nmea2socket => 1
       | EPO_enabled | BEE_enabled | SUPL_enabled | SUPLSI_enabled => 1
       | EPO_priority => 64
       | BEE_priority => 32
       | SUPL_priority => 96
       | fgGpsAosp_Ver => 1
       | AVAILIABLE_AGE => 2
       | RTC_DRIFT => 30
       | TIME_INTERVAL => 10
       | ACCURACY_SNR => 1
       | GNSSOPMode => 2
       | dbglog_file_max_size => 20 * 1024 * 1024
       | dbglog_folder_max_size => 240 * 1024 * 1024
       | _ => 0
       end)
    (fun x =>
       match x with
       | dev_dbg => in_array dev_dbg "/dev/ttygserial"
       | dev_dsp => in_array dev_dsp "/dev/stpgps"
       | dev_gps => in_array dev_gps "UseCallback"
       | bee_path => in_array bee_path "/data/misc/gps/"
       | epo_file => in_array epo_file EPO_FILE
       | epo_update_file => in_array epo_update_file EPO_UPDATE_HAL
       | qepo_file => in_array qepo_file "/data/misc/gps/QEPO.DAT"
       | qepo_update_file => in_array qepo_update_file "/data/misc/gps/QEPOHAL.DAT"
       end).
