(* ===== verification/ConfigText.v ===== *)
(** * Configuration files as text

    What the readers of [Config] compute, as functions of the text of a file
    instead of pointers into a buffer: [parse_line] of one line, [run_lines] of
    all of them.  The equality holds for every file, so no file makes a reader
    leave its buffer; what is left of the undefined is a number that is too
    large. *)

From stdpp Require Import gmap strings.
From S2P Require Import Prelude DataCoder LbsUtility Float64 AtCommand Disk Epo NmeaParser NmeaText Config.
Open Scope Z_scope.

(** ** One line *)

(** The characters before the first one that stops, and the rest. *)
Fixpoint span (stop : Z -> bool) (l : list Z) : list Z * list Z :=
  match l with
  | [] => ([], [])
  | c :: l' => if stop c then ([], l) else let '(a, b) := span stop l' in (c :: a, b)
  end.

(** The value behind the equals sign: one word. *)
Definition word (r : list Z) : list Z := fst (span IS_SPACE (snd (span (fun c => negb (IS_SPACE c)) r))).

(** Nothing for an error, nothing inside for a comment. *)
Definition parse_line (size : Z) (s : list Z) : option (option (list Z * list Z)) :=
  match s with
  | [] => None
  | c :: _ =>
      if c =? 35 then Some None
      else if negb (default 0 (last s) =? 10) && (size - 1 <=? zlen s) then None
      else match span (fun c => c =? 61) s with
           | (k, _ :: r) => Some (Some (k, word r))
           | (_, []) => None
           end
  end.

Lemma span_spec stop l :
  let '(a, b) := span stop l in
  l = a ++ b /\ Forall (fun c => stop c = false) a /\
  match b with [] => True | c :: _ => stop c = true end.
Proof.
  induction l as [|c l IH]; [done|]. cbn [span].
  destruct (stop c) eqn:E; [done|]. destruct (span stop l) as [a b]. destruct IH as (-> & H & Hb).
  split; [done|]. by split; [constructor|].
Qed.

(** The index where [seek] ends. *)
Lemma seek_ends stop pre a c post n :
  Forall (fun c => stop c = false) a -> (stop c = true /\ (length a <= n)%nat) \/ n = length a ->
  seek stop (pre ++ a ++ c :: post) (zlen pre) n = Done (zlen pre + zlen a).
Proof.
  intros H. revert pre n. induction H as [|d a Hd Ha IH]; intros pre n Hn.
  - cbn [app length]. rewrite Z.add_0_r. destruct n; cbn [seek]; rewrite rd_at by done; cbn [obind];
      destruct Hn as [[-> _]|]; try done. by destruct (stop c).
  - destruct n as [|n]; [cbn [length] in Hn; lia|]. cbn [seek app]. rewrite rd_at by done. cbn [obind].
    rewrite Hd. rewrite (cons_middle _ pre), (app_assoc pre).
    replace (zlen pre + 1) with (zlen (pre ++ [d])) by (lists; lia).
    rewrite IH by (cbn [length] in Hn; destruct Hn as [[? ?]|?]; [left; split; [done|lia]|right; lia]).
    f_equal. lists. lia.
Qed.

Lemma seek_starts stop a c post n :
  Forall (fun c => stop c = false) a -> (stop c = true /\ (length a <= n)%nat) \/ n = length a ->
  seek stop (a ++ c :: post) 0 n = Done (zlen a).
Proof. apply (seek_ends stop [] a). Qed.

Lemma wr_at {A} (pre : list A) c post v :
  wr (pre ++ c :: post) (zlen pre) v = Done (pre ++ v :: post).
Proof.
  unfold wr. lists. replace ((0 <=? zlen pre) && _) with true by (symmetry; unbool; lia).
  rewrite Nat2Z.id. f_equal. rewrite insert_app_r_alt by lia. by rewrite Nat.sub_diag.
Qed.

Lemma str_at_holds m p s : 0 <= p -> holds_cstr (drop (Z.to_nat p) m) s -> str_at m p = Done s.
Proof.
  intros Hp H. unfold str_at. iffalse. rewrite (strlen_holds _ _ H).
  destruct H as (rest & -> & _). f_equal. by apply take_app_le'.
Qed.

(** What the buffer holds after a line was split. *)
Definition line_holds (m : list Z) (r : line) (o : option (option (list Z * list Z))) : Prop :=
  match r, o with
  | LBad, None => True
  | LComment, Some None => True
  | LSet key val, Some (Some (k, v)) => str_at m key = Done k /\ str_at m val = Done v
  | _, _ => False
  end.

(** The line without its key has the form: spaces, a word, and what the space
    behind the word begins, if there is one. *)
Lemma word_spec r :
  exists sp t, r = sp ++ word r ++ t /\
    Forall (fun c => negb (IS_SPACE c) = false) sp /\ Forall (fun c => IS_SPACE c = false) (word r) /\
    match word r ++ t with [] => True | c :: _ => negb (IS_SPACE c) = true end /\
    match t with [] => True | c :: _ => IS_SPACE c = true end.
Proof.
  unfold word. pose proof (span_spec (fun c => negb (IS_SPACE c)) r) as H.
  destruct (span (fun c => negb (IS_SPACE c)) r) as [sp r1]. destruct H as (-> & Hsp & Hr). cbn [snd].
  pose proof (span_spec IS_SPACE r1) as H. destruct (span IS_SPACE r1) as [v t]. destruct H as (-> & Hv & Ht).
  by exists sp, t.
Qed.

(** Only the end of the value changes in the buffer. *)
Lemma cut_value_spec pre r c rest len :
  len = (length pre + length r)%nat ->
  exists sp u, cut_value (pre ++ r ++ c :: rest) (zlen pre) len =
      Done (pre ++ sp ++ word r ++ 0 :: u, LSet 0 (zlen (pre ++ sp))) /\
    length (sp ++ word r ++ 0 :: u) = length (r ++ c :: rest).
Proof.
  intros ->. destruct (word_spec r) as (sp & t & Er & Hsp & Hv & Hvt & Ht).
  set (v := word r) in *. clearbody v. subst r. rewrite <- !app_assoc. unfold cut_value.
  assert (exists d u, v ++ t ++ c :: rest = d :: u /\ (negb (IS_SPACE d) = true \/ v ++ t = [])) as (d & u & Ed & Hd).
  { destruct v as [|x v]; [destruct t as [|x t]|]; eexists _, _; (split; [reflexivity|]); [by right|by left..]. }
  rewrite Ed, seek_ends by (done || (destruct Hd as [Hd| ->]; [left; split; [done|lists; lia]|right; lists; lia])).
  cbn [obind]. rewrite <- Ed. clear d u Ed Hd.
  assert (exists d u, t ++ c :: rest = d :: u /\ (IS_SPACE d = true \/ t = [])) as (d & u & Ed & Hd).
  { destruct t as [|x t]; eexists _, _; (split; [reflexivity|]); [by right|by left]. }
  rewrite Ed, app_assoc. replace (zlen pre + zlen sp) with (zlen (pre ++ sp)) by (lists; lia).
  rewrite seek_ends by (done || (destruct Hd as [Hd| ->]; [left; split; [done|lists; lia]|right; lists; lia])).
  cbn [obind]. rewrite app_assoc.
  replace (zlen (pre ++ sp) + zlen v) with (zlen ((pre ++ sp) ++ v)) by (lists; lia).
  rewrite wr_at. cbn [obind]. exists sp, u. split; [by rewrite <- !app_assoc|].
  apply (f_equal length) in Ed. lists. lia.
Qed.

Lemma split_line_spec s c rest :
  0 ∉ s -> s <> [] ->
  exists m r, split_line (s ++ c :: rest) (length s) = Done (m, r) /\
    length m = length (s ++ c :: rest) /\
    line_holds m r (match span (fun c => c =? 61) s with (k, _ :: r) => Some (Some (k, word r)) | _ => None end).
Proof.
  intros H0 Hs. unfold split_line. pose proof (span_spec (fun c => c =? 61) s) as H.
  destruct (span (fun c => c =? 61) s) as [k [|eq r]]; destruct H as (-> & Hk & Heq).
  - rewrite app_nil_r in *. rewrite seek_starts by (done || by right). cbn [obind]. iftrue. by eexists _, _.
  - rewrite <- app_assoc, <- app_comm_cons.
    rewrite seek_starts by (done || (left; split; [done|lists; lia])). cbn [obind].
    iffalse. rewrite wr_at. cbn [obind]. rewrite (cons_middle 0 k), (app_assoc k).
    replace (zlen k + 1) with (zlen (k ++ [0])) by (lists; lia).
    destruct (cut_value_spec (k ++ [0]) r c rest (length (k ++ eq :: r))) as (sp & u & -> & Hl); [lists; lia|].
    eexists _, _. split; [done|]. split; [lists; lia|].
    destruct (word_spec r) as (sp' & t & Er & _). rewrite Er in H0.
    rewrite !elem_of_app, !elem_of_cons, !elem_of_app in H0. split; (apply str_at_holds; [lia|]).
    + rewrite drop_0, <- !app_assoc. eexists. split; [done|tauto].
    + rewrite app_assoc. eexists. split; [apply drop_app_le'; lia|tauto].
Qed.

Lemma split_in_spec size m s :
  holds_cstr m s -> zlen m = size ->
  exists m' r, split_in size m = Done (m', r) /\ length m' = length m /\ line_holds m' r (parse_line size s).
Proof.
  intros H Hsize. unfold split_in. rewrite (strlen_holds _ _ H). destruct H as (rest & -> & H0).
  unfold parse_line. destruct s as [|c s]; [by eexists _, _|]. change (length (c :: s) =? 0)%nat with false.
  cbn iota. change (rd ((c :: s) ++ 0 :: rest) 0) with (Done c). cbn [obind].
  destruct (c =? 35); [by eexists _, _|]. unfold terminate.
  destruct (exists_last (l := c :: s)) as (s' & d & Es); [done|]. rewrite Es in *. clear c s Es.
  rewrite last_snoc. change (default 0 (Some d)) with d.
  rewrite <- app_assoc. cbn [app]. rewrite (rd_at s') by (lists; lia). cbn [obind].
  assert (s' ++ [d] <> []) as Hs by (by destruct s').
  destruct (d =? 10) eqn:Ed; cbn [negb andb].
  - cbn [obind]. rewrite (cons_middle d s'), app_assoc. by apply split_line_spec.
  - destruct (size - 1 <=? _); [by eexists _, _|].
    rewrite (cons_middle d s'), app_assoc, wr_at. cbn [obind].
    destruct (split_line_spec (s' ++ [d]) 10 rest) as (m & r & -> & Hm & Hr); [done..|].
    exists m, r. split; [done|]. split; [|done]. lists. lia.
Qed.

(** ** Lines of a file *)

Lemma line_of_spec n l got rest :
  line_of n l = (got, rest) -> l = got ++ rest /\ (length got <= n)%nat /\ (n <> 0%nat -> l <> [] -> got <> []).
Proof.
  revert l got rest. induction n as [|n IH]; intros l got rest; cbn [line_of].
  - intros [= <- <-]. cbn. split; [done|]. split; [lia|done].
  - destruct l as [|c l]; [by intros [= <- <-]; cbn; split; [|split; [lia|]]|].
    destruct (c =? 10); [intros [= <- <-]; cbn; split; [done|]; split; [lia|done]|].
    destruct (line_of n l) as [got' rest'] eqn:E. intros [= <- <-].
    destruct (IH _ _ _ E) as (-> & H & _). cbn. split; [done|]. split; [lia|done].
Qed.

(** The lines that [fgets] delivers, as the C strings they are. *)
Fixpoint lines_of (size : nat) (n : nat) (l : list Z) : list (list Z) :=
  match n, l with
  | S n', _ :: _ => let '(got, rest) := line_of (size - 1) l in c_text got :: lines_of size n' rest
  | _, _ => []
  end.

Lemma c_text_holds got rest : holds_cstr (got ++ 0 :: rest) (c_text got).
Proof.
  induction got as [|c got IH]; cbn [c_text app].
  - exists rest. split; [done|]. apply not_elem_of_nil.
  - destruct (Z.eqb_spec c 0) as [->|Hc]; [eexists; split; [done|apply not_elem_of_nil]|].
    destruct IH as (rest' & -> & H0). exists rest'. split; [done|].
    apply not_elem_of_cons. by split; [congruence|].
Qed.

Lemma fgets_spec buf l size :
  length buf = size -> (2 <= size)%nat -> l <> [] ->
  exists got rest buf', line_of (size - 1) l = (got, rest) /\ fgets buf l = Some (buf', rest) /\
    holds_cstr buf' (c_text got) /\ length buf' = size /\ (length rest < length l)%nat.
Proof.
  intros Hb Hsize Hl. unfold fgets. rewrite Hb. destruct l as [|c l]; [done|].
  destruct (line_of (size - 1) (c :: l)) as [got rest] eqn:E.
  destruct (line_of_spec _ _ _ _ E) as (Hs & Hg & Hne).
  exists got, rest, (got ++ [0] ++ drop (length got + 1) buf). do 2 (split; [done|]).
  split; [apply c_text_holds|]. split; [lists; lia|].
  assert (got <> []) as Hgot by (apply Hne; [lia|done]). destruct got; [done|]. rewrite Hs. lists. lia.
Qed.

(** What a reader does with the lines; true if none is an error. *)
Section run.
Context {W : Type} (size : Z) (set : list Z -> list Z -> prog W unit).

Fixpoint run_lines (ls : list (list Z)) : prog W bool :=
  match ls with
  | [] => ret true
  | s :: ls' =>
      match parse_line size s with
      | None => ret false
      | Some None => run_lines ls'
      | Some (Some (k, v)) => set k v ;; run_lines ls'
      end
  end.

(** The reader with pointers does the same, and keeps the size of its buffer. *)
Definition reads_as (o : outcome ((bool * list Z) * W)) (o' : outcome (bool * W)) : Prop :=
  match o' with
  | Done (b, w) => exists buf, o = Done ((b, buf), w) /\ zlen buf = size
  | Crash => o = Crash
  | UB => o = UB
  | Blocked => o = Blocked
  end.

Lemma read_lines_spec (pset : list Z -> Z -> Z -> prog W unit) :
  2 <= size ->
  (forall buf k v kt vt w, str_at buf k = Done kt -> str_at buf v = Done vt -> pset buf k v w = set kt vt w) ->
  forall n buf l w, zlen buf = size -> (length l <= n)%nat ->
  reads_as (read_lines (split_in size) pset n buf l w) (run_lines (lines_of (Z.to_nat size) n l) w).
Proof.
  intros Hs Hset. induction n as [|n IH]; intros buf l w Hb Hl.
  - destruct l; [|cbn in Hl; lia]. by exists buf.
  - cbn [read_lines lines_of]. destruct l as [|c l]; [by exists buf|].
    destruct (fgets_spec buf (c :: l) (Z.to_nat size)) as (got & rest & buf' & -> & -> & Hg & Hb' & Hr); [lia|lia|done|].
    cbn [run_lines]. assert (zlen buf' = size) as Hz by lia.
    destruct (split_in_spec size _ _ Hg Hz) as (m & r & E & Hm & Hh).
    unfold bind at 1, lift. rewrite E. assert (length rest <= n)%nat by lia.
    destruct r as [| |k v], (parse_line size (c_text got)) as [[[kt vt]|]|]; try done.
    + exists m. split; [done|lia].
    + apply IH; lia.
    + destruct Hh as [Hk Hv]. unfold bind. rewrite (Hset _ _ _ _ _ _ Hk Hv).
      destruct (set kt vt w) as [[[] w']| | |]; try done. apply IH; lia.
Qed.
End run.

(** ** Numbers *)

(** [str2int] of a text of its own. *)
Definition int_of (s : list Z) : outcome Z := str2int (s ++ [0]) 0 (zlen s).

Lemma str2int_loop_at m m' p p' e e' sign n acc :
  e - p = e' - p' -> (forall i, 0 <= i < Z.of_nat n -> rd m (p + i) = rd m' (p' + i)) ->
  str2int_loop m p e sign acc n = str2int_loop m' p' e' sign acc n.
Proof.
  revert p p' acc. induction n as [|n IH]; intros p p' acc He H; [done|]. cbn [str2int_loop].
  replace (e <=? p) with (e' <=? p') by lia. destruct (e' <=? p'); [done|].
  replace (rd m p) with (rd m' p'); [|specialize (H 0); rewrite !Z.add_0_r in H; symmetry; apply H; lia].
  destruct (rd m' p') as [c| | |]; try done. cbn [obind]. destruct (10 <=? _); [done|].
  destruct (chk (acc * 10)) as [r| | |]; try done. cbn [obind]. destruct (chk (r + _)) as [r'| | |]; try done.
  cbn [obind]. apply IH; [lia|]. intros i Hi. rewrite <- !Z.add_assoc. apply H. lia.
Qed.

Lemma rd_drop {A} (m : list A) p i : 0 <= p -> 0 <= i -> rd m (p + i) = rd (drop (Z.to_nat p) m) i.
Proof.
  intros Hp Hi. unfold rd. rewrite lookup_drop. do 2 iftrue. by rewrite Z2Nat.inj_add by lia.
Qed.

Lemma rd_app_l {A} (l k k' : list A) i : i < zlen l -> rd (l ++ k) i = rd (l ++ k') i.
Proof. intros Hi. unfold rd. destruct (Z.leb_spec 0 i); [|done]. by rewrite !lookup_app_l by lia. Qed.

Lemma str2int_at m p s : 0 <= p -> holds_cstr (drop (Z.to_nat p) m) s -> str2int m p (p + zlen s) = int_of s.
Proof.
  intros Hp (rest & E & _).
  assert (forall i, 0 <= i < zlen s + 1 -> rd m (p + i) = rd (s ++ [0]) (0 + i)) as H.
  { intros i Hi. rewrite rd_drop by lia. rewrite E, (cons_middle 0 s), app_assoc, Z.add_0_l.
    rewrite <- (app_nil_r (s ++ [0])) at 2. apply rd_app_l. lists. lia. }
  unfold int_of, str2int. pose proof (H 0 ltac:(lia)) as H0. rewrite !Z.add_0_r in H0. rewrite H0.
  destruct (rd (s ++ [0]) 0) as [c| | |]; try done. cbn [obind].
  destruct (c =? 45);
    [replace (Z.to_nat (p + zlen s - (p + 1))) with (Z.to_nat (zlen s - (0 + 1))) by lia
    |replace (Z.to_nat (p + zlen s - p)) with (Z.to_nat (zlen s - 0)) by lia];
    apply str2int_loop_at; try lia; intros i Hi; rewrite <- ?Z.add_assoc; apply H; lia.
Qed.

Lemma str_at_inv m p s : str_at m p = Done s -> 0 <= p /\ holds_cstr (drop (Z.to_nat p) m) s.
Proof.
  unfold str_at. destruct (Z.ltb_spec p 0); [done|]. destruct (strlen _) as [n|] eqn:E; [|done].
  intros [= <-]. split; [done|]. by apply strlen_sound.
Qed.

Lemma val_int_spec m p s : str_at m p = Done s -> val_int m p = int_of s.
Proof.
  intros H. unfold val_int. rewrite H. apply str_at_inv in H as [Hp H]. cbn [obind]. by apply str2int_at.
Qed.

Lemma key_is_spec m p s name : str_at m p = Done s -> key_is m p name = Done (bool_decide (s = lit name)).
Proof. intros H. unfold key_is. by rewrite H. Qed.

(** ** The three readers *)

Definition put_number {W} (s : list Z) (f : Z -> W -> W) : prog W unit :=
  let* v := lift (int_of s) in modify (f v).

Definition epo_setting (k v : list Z) : prog epo unit :=
  when (bool_decide (k = lit "EPO_ENABLE"))
    (put_number v (fun n e => set_cust (switch_or 1 n) (gps_epo_download_days e) (gps_epo_wifi_trigger e) e)) ;;
  when (bool_decide (k = lit "DW_DAYS"))
    (put_number v (fun n e => set_cust (gps_epo_enable e) (days_or_nine n) (gps_epo_wifi_trigger e) e)) ;;
  when (bool_decide (k = lit "EPO_WIFI_TRIGGER"))
    (put_number v (fun n e => set_cust (gps_epo_enable e) (gps_epo_download_days e) (switch_or 0 n) e)).

Definition raw_setting (k v : list Z) : prog Z unit :=
  when (bool_decide (k = lit "RAW_DEBUG_MODE")) (put_number v (fun n _ => switch_or 0 n)).

Definition mnl_setting (k v : list Z) : prog props unit :=
  match action_of prop_table k with Some a => run_action a v | None => ret tt end.

(** Every line of the file, in a buffer of [size]. *)
Definition file_lines (size : Z) (l : list Z) : list (list Z) := lines_of (Z.to_nat size) (length l) l.

Lemma lift_done {W A B} (o : outcome A) a (f : A -> prog W B) w : o = Done a -> bind (lift o) f w = f a w.
Proof. by intros ->. Qed.

Lemma bind_cong {W A B} (m m' : prog W A) (k k' : A -> prog W B) w :
  m w = m' w -> (forall a w1, k a w1 = k' a w1) -> bind m k w = bind m' k' w.
Proof. intros E H. unfold bind. rewrite E. by destruct (m' w) as [[a w1]| | |]. Qed.

Lemma set_epo_conf_spec buf k v kt vt w :
  str_at buf k = Done kt -> str_at buf v = Done vt -> set_epo_conf buf k v w = epo_setting kt vt w.
Proof.
  intros Hk Hv. unfold set_epo_conf, epo_setting, put_number. rewrite (val_int_spec _ _ _ Hv).
  rewrite (lift_done _ _ _ _ (key_is_spec _ _ _ "EPO_ENABLE" Hk)). apply bind_cong; [done|]. intros _ w1.
  rewrite (lift_done _ _ _ _ (key_is_spec _ _ _ "DW_DAYS" Hk)). apply bind_cong; [done|]. intros _ w2.
  by rewrite (lift_done _ _ _ _ (key_is_spec _ _ _ "EPO_WIFI_TRIGGER" Hk)).
Qed.

Lemma set_raw_conf_spec buf k v kt vt w :
  str_at buf k = Done kt -> str_at buf v = Done vt -> set_raw_conf buf k v w = raw_setting kt vt w.
Proof.
  intros Hk Hv. unfold set_raw_conf, raw_setting, put_number. rewrite (val_int_spec _ _ _ Hv).
  by rewrite (lift_done _ _ _ _ (key_is_spec _ _ _ "RAW_DEBUG_MODE" Hk)).
Qed.

Lemma set_prop_spec buf k v kt vt w :
  str_at buf k = Done kt -> str_at buf v = Done vt -> set_prop buf k v w = mnl_setting kt vt w.
Proof. intros Hk Hv. unfold set_prop. by rewrite (lift_done _ _ _ _ Hk), (lift_done _ _ _ _ Hv). Qed.

Lemma epo_conf_text e :
  epo_read_cust_config e =
  match files e !! EPO_CONTROL_FILE_PATH with
  | None => Done (1, e)
  | Some l => bind (run_lines GPS_CONF_FILE_SIZE epo_setting (file_lines GPS_CONF_FILE_SIZE l)) (fun _ => ret 1) e
  end.
Proof.
  unfold epo_read_cust_config, read_file, bind at 1, gets. cbn beta iota.
  change (files_of e) with (files e).
  destruct (files e !! EPO_CONTROL_FILE_PATH) as [l|]; [|done].
  pose proof (read_lines_spec GPS_CONF_FILE_SIZE epo_setting set_epo_conf ltac:(done) set_epo_conf_spec
    (length l) (zeros (Z.to_nat GPS_CONF_FILE_SIZE)) l e eq_refl ltac:(lia)) as H.
  unfold get_val, file_lines, reads_as, bind in *.
  destruct (run_lines GPS_CONF_FILE_SIZE epo_setting _ e) as [[b w]| | |]; [|by rewrite H..].
  destruct H as (buf & -> & _). done.
Qed.

Definition raw_text (file : option (list Z)) : prog Z Z :=
  match file with
  | None => ret 1
  | Some l =>
      let* good := run_lines GPS_CONF_FILE_SIZE raw_setting (file_lines GPS_CONF_FILE_SIZE l) in
      if good : bool then gets (fun mode => mode) else ret 1
  end.

Lemma raw_conf_text file mode : gps_raw_data_enable file mode = raw_text file mode.
Proof.
  destruct file as [l|]; [|done]. unfold gps_raw_data_enable, raw_text.
  pose proof (read_lines_spec GPS_CONF_FILE_SIZE raw_setting set_raw_conf ltac:(done) set_raw_conf_spec
    (length l) (zeros (Z.to_nat GPS_CONF_FILE_SIZE)) l mode eq_refl ltac:(lia)) as H.
  unfold get_val, file_lines, reads_as, bind in *.
  destruct (run_lines GPS_CONF_FILE_SIZE raw_setting _ mode) as [[b w]| | |]; [|by rewrite H..].
  destruct H as (buf & -> & _). done.
Qed.

(** *** [mnl.prop], where the buffer outlives the call *)

Definition with_buf (b : list Z) (p : props) : props := Props (p_cfg p) (epo_setconfig p) b.

(** The outcome with another buffer in the state. *)
Definition on_buf {A} (b : list Z) (o : outcome (A * props)) : outcome (A * props) :=
  match o with Done (a, p) => Done (a, with_buf b p) | Crash => Crash | UB => UB | Blocked => Blocked end.

(** A program that does not look at the buffer. *)
Definition bufferless {A} (m : prog props A) : Prop := forall b p, m (with_buf b p) = on_buf b (m p).

Lemma bufferless_bind {A B} (m : prog props A) (k : A -> prog props B) :
  bufferless m -> (forall a, bufferless (k a)) -> bufferless (bind m k).
Proof. intros Hm Hk b p. unfold bind. rewrite Hm. destruct (m p) as [[a p1]| | |]; try done. apply Hk. Qed.
Lemma bufferless_when c m : bufferless m -> bufferless (when c m).
Proof. by destruct c. Qed.
Lemma bufferless_lift {A} (o : outcome A) : bufferless (lift o).
Proof. by destruct o. Qed.
#[local] Hint Resolve bufferless_bind bufferless_when bufferless_lift : core.

Lemma bufferless_setting k v : bufferless (mnl_setting k v).
Proof.
  unfold mnl_setting. destruct (action_of _ k) as [a|]; [|done].
  destruct a; cbn [run_action]; repeat (apply bufferless_bind || apply bufferless_when || apply bufferless_lift ||
    (intros ?) || case_bool_decide); done.
Qed.

Lemma bufferless_run ls : bufferless (run_lines PROPBUF_SIZE mnl_setting ls).
Proof.
  induction ls as [|s ls IH]; [done|]. cbn [run_lines].
  destruct (parse_line _ s) as [[[k v]|]|]; [|done|done]. apply bufferless_bind; [apply bufferless_setting|done].
Qed.

Definition prop_text (file : option (list Z)) : prog props Z :=
  match file with
  | None => ret (-1)
  | Some l =>
      let* good := run_lines PROPBUF_SIZE mnl_setting (file_lines PROPBUF_SIZE l) in
      ret (if good : bool then 0 else -1)
  end.

Fixpoint first_text (fs : gmap string (list Z)) (paths : list string) : prog props Z :=
  match paths with
  | [] => ret (-1)
  | path :: paths' =>
      let* r := prop_text (fs !! path) in
      if r =? 0 then ret 0 else first_text fs paths'
  end.

Definition load_text (fs : gmap string (list Z)) (status : option (list Z)) : prog props Z :=
  modify (fun p => Props (p_cfg p) 0 (propbuf p)) ;;
  let* res := first_text fs mnl_prop_path in
  (match status with
   | Some v =>
       modify (on_cfg (cfg_put dbg2file (prop_char v 2))) ;;
       modify (on_cfg (cfg_put debug_nmea (prop_char v 3))) ;;
       modify (on_cfg (cfg_put BEE_enabled (prop_char v 4)))
   | None => ret tt
   end) ;;
  ret res.

(** The same result and the same settings; the buffer keeps its size. *)
Definition same_but_buf {A} (o o' : outcome (A * props)) : Prop :=
  match o' with
  | Done (a, p) => exists b, o = Done (a, with_buf b p) /\ zlen b = PROPBUF_SIZE
  | Crash => o = Crash
  | UB => o = UB
  | Blocked => o = Blocked
  end.

Lemma bufferless_prop_text file : bufferless (prop_text file).
Proof. destruct file; [|done]. apply bufferless_bind; [apply bufferless_run|done]. Qed.

Lemma with_own_buf p : with_buf (propbuf p) p = p.
Proof. by destruct p. Qed.

Lemma read_prop_text file p b :
  zlen b = PROPBUF_SIZE -> same_but_buf (read_prop file (with_buf b p)) (prop_text file p).
Proof.
  intros Hb. destruct file as [l|]; [|by exists b]. unfold read_prop, prop_text. cbn [bind gets].
  change (propbuf (with_buf b p)) with b.
  pose proof (read_lines_spec PROPBUF_SIZE mnl_setting set_prop ltac:(done) set_prop_spec
    (length l) b l (with_buf b p) Hb ltac:(lia)) as H.
  fold (file_lines PROPBUF_SIZE l) in H. rewrite (bufferless_run (file_lines PROPBUF_SIZE l) b p) in H.
  unfold get_prop, reads_as, bind, gets, same_but_buf in *. change (propbuf (with_buf b p)) with b.
  destruct (run_lines PROPBUF_SIZE mnl_setting _ p) as [[good p']| | |]; cbn [on_buf] in H; [|by rewrite H..].
  destruct H as (buf & -> & Hbuf). by exists buf.
Qed.

Lemma same_bind {A B} (m m' : prog props A) (k k' : A -> prog props B) p b :
  same_but_buf (m (with_buf b p)) (m' p) ->
  (forall a p b, zlen b = PROPBUF_SIZE -> same_but_buf (k a (with_buf b p)) (k' a p)) ->
  same_but_buf (bind m k (with_buf b p)) (bind m' k' p).
Proof.
  intros H Hk. unfold bind. unfold same_but_buf in H. destruct (m' p) as [[a p1]| | |]; [|by rewrite H..].
  destruct H as (b1 & -> & Hb). by apply Hk.
Qed.

Lemma read_first_text fs paths p b :
  zlen b = PROPBUF_SIZE -> same_but_buf (read_first fs paths (with_buf b p)) (first_text fs paths p).
Proof.
  revert p b. induction paths as [|path paths IH]; intros p b Hb; [by exists b|]. cbn [read_first first_text].
  apply same_bind; [by apply read_prop_text|]. intros r p1 b1 Hb1. destruct (r =? 0); [by exists b1|by apply IH].
Qed.

Lemma load_property_text fs status p :
  zlen (propbuf p) = PROPBUF_SIZE -> same_but_buf (mnl_utl_load_property fs status p) (load_text fs status p).
Proof.
  intros Hb. rewrite <- (with_own_buf p) at 1. unfold mnl_utl_load_property, load_text.
  apply same_bind; [by exists (propbuf p)|]. intros _ p1 b1 H1.
  apply same_bind; [by apply read_first_text|]. intros r p2 b2 H2. by destruct status; exists b2.
Qed.

(** ** Printing *)

Definition print_setting (kv : list Z * list Z) : list Z := fst kv ++ [61] ++ snd kv ++ [10].
Definition print_settings (kvs : list (list Z * list Z)) : list Z := concat (map print_setting kvs).

(** A key and a value that can be written on a line. *)
Record setting_ok (size : Z) (kv : list Z * list Z) : Prop := {
  so_key : Forall (fun c => c <> 61 /\ c <> 10 /\ c <> 0) (fst kv);
  so_comment : head (fst kv) <> Some 35;
  so_value : Forall (fun c => IS_SPACE c = false /\ c <> 0) (snd kv);
  so_room : zlen (print_setting kv) <= size - 1
}.

#[export] Instance setting_ok_dec size kv : Decision (setting_ok size kv).
Proof.
  destruct (decide (Forall (fun c => c <> 61 /\ c <> 10 /\ c <> 0) (fst kv)));
    [|right; by intros [? ? ? ?]].
  destruct (decide (head (fst kv) <> Some 35)); [|right; by intros [? ? ? ?]].
  destruct (decide (Forall (fun c => IS_SPACE c = false /\ c <> 0) (snd kv))); [|right; by intros [? ? ? ?]].
  destruct (decide (zlen (print_setting kv) <= size - 1)); [|right; by intros [? ? ? ?]].
  by left.
Defined.

Lemma span_stops stop a c b :
  Forall (fun c => stop c = false) a -> stop c = true -> span stop (a ++ c :: b) = (a, c :: b).
Proof. intros H Hc. induction H as [|d a Hd _ IH]; cbn [span app]; [by rewrite Hc|]. by rewrite Hd, IH. Qed.

Lemma parse_print size kv : setting_ok size kv -> parse_line size (print_setting kv) = Some (Some kv).
Proof.
  destruct kv as [k v]. intros [Hk Hh Hv Hr]. unfold parse_line, print_setting in *. cbn [fst snd] in *.
  assert (span (fun c => c =? 61) (k ++ [61] ++ v ++ [10]) = (k, 61 :: v ++ [10])) as E.
  { apply span_stops; [|done]. eapply Forall_impl; [exact Hk|]. intros c (H & _). by apply Z.eqb_neq. }
  assert (last (k ++ [61] ++ v ++ [10]) = Some 10) as El by (by rewrite !app_assoc, last_snoc).
  destruct (k ++ [61] ++ v ++ [10]) as [|c l] eqn:El'; [by destruct k|].
  replace (c =? 35) with false.
  2:{ symmetry. apply Z.eqb_neq. intros ->. destruct k as [|d k]; [done|]. by injection El' as -> _. }
  rewrite El. cbn [default negb andb Z.eqb]. rewrite E. do 3 f_equal. unfold word.
  assert (Forall (fun c => IS_SPACE c = false) v) as Hv' by (eapply Forall_impl; [exact Hv|by intros ? []]).
  assert (span (fun c => negb (IS_SPACE c)) (v ++ [10]) = match v with [] => ([10], []) | _ => ([], v ++ [10]) end) as ->.
  { destruct Hv' as [|d v Hd]; [done|]. cbn [app span]. by rewrite Hd. }
  destruct v as [|d v]; [done|]. cbn [snd]. by rewrite span_stops.
Qed.

Lemma line_of_print n a rest :
  Forall (fun c => c <> 10) a -> (length a < n)%nat -> line_of n (a ++ 10 :: rest) = (a ++ [10], rest).
Proof.
  intros H. revert n. induction H as [|c a Hc _ IH]; intros n Hn; (destruct n as [|n]; [cbn in Hn; lia|]);
    cbn [app line_of]; [done|].
  iffalse. rewrite IH by (cbn in Hn; lia). done.
Qed.

Lemma c_text_id l : 0 ∉ l -> c_text l = l.
Proof.
  induction l as [|c l IH]; [done|]. intros [Hc Hl]%not_elem_of_cons. cbn [c_text].
  destruct (Z.eqb_spec c 0); [congruence|]. by rewrite IH.
Qed.

Lemma lines_print size kvs n :
  Forall (setting_ok size) kvs -> (length (print_settings kvs) <= n)%nat ->
  lines_of (Z.to_nat size) n (print_settings kvs) = map print_setting kvs.
Proof.
  intros H. revert n. induction H as [|[k v] kvs [Hk _ Hv Hr] _ IH]; intros n Hn; [by destruct n|].
  unfold print_settings in *. cbn [map concat] in *. unfold print_setting at 1 in Hn. cbn [fst snd] in *.
  assert (Forall (fun c => c <> 10 /\ c <> 0) (k ++ [61] ++ v)) as Ha.
  { rewrite !Forall_app. split; [eapply Forall_impl; [exact Hk|by intros ? (? & ? & ?)]|]. split; [by repeat constructor|].
    eapply Forall_impl; [exact Hv|]. intros c [Hs H0]. split; [intros ->; discriminate|done]. }
  unfold print_setting in Hr |- * at 1. cbn [fst snd] in *.
  assert (forall r, (k ++ [61] ++ v ++ [10]) ++ r = (k ++ [61] ++ v) ++ 10 :: r) as E
    by (intros r; by rewrite <- !app_assoc).
  rewrite E in Hn |- *. destruct n as [|n]; [lists; lia|].
  assert (exists c l, (k ++ [61] ++ v) ++ 10 :: concat (map print_setting kvs) = c :: l) as (c & l & El)
    by (destruct k; by eexists _, _).
  cbn [lines_of]. rewrite El. rewrite <- El at 1. rewrite line_of_print.
  - rewrite c_text_id, IH; [by rewrite <- !app_assoc|lists; lia|].
    rewrite Forall_forall in Ha. rewrite elem_of_app, list_elem_of_singleton. intros [H0%Ha|]; [lia|done].
  - eapply Forall_impl; [exact Ha|by intros ? []].
  - lists. lia.
Qed.

(** The settings one after the other. *)
Section all.
Context {W : Type} (set : list Z -> list Z -> prog W unit).
Fixpoint set_all (kvs : list (list Z * list Z)) : prog W unit :=
  match kvs with
  | [] => ret tt
  | (k, v) :: kvs' => set k v ;; set_all kvs'
  end.

Lemma run_print size kvs w :
  Forall (setting_ok size) kvs ->
  run_lines size set (file_lines size (print_settings kvs)) w = bind (set_all kvs) (fun _ => ret true) w.
Proof.
  intros H. unfold file_lines. rewrite lines_print by done. revert w.
  induction H as [|[k v] kvs Hkv _ IH]; intros w; [done|]. cbn [map run_lines set_all].
  rewrite (parse_print _ _ Hkv). rewrite (bind_assoc _ _ _ w). apply bind_cong; [done|]. intros _. exact IH.
Qed.
End all.

(** ** What the readers promise *)

(** C17: Whatever bytes the files hold, the three readers of configuration files
    compute what their lines say as text: they split the lines inside their
    buffers, stop at the first line that is an error, keep what came before it,
    and are undefined only where a number is too large. *)
Theorem conf_readers_text (e : epo) (raw : option (list Z)) (mode : Z) (fs : gmap string (list Z))
    (status : option (list Z)) (p : props) :
  zlen (propbuf p) = PROPBUF_SIZE ->
  epo_read_cust_config e =
    match files e !! EPO_CONTROL_FILE_PATH with
    | None => Done (1, e)
    | Some l => bind (run_lines GPS_CONF_FILE_SIZE epo_setting (file_lines GPS_CONF_FILE_SIZE l)) (fun _ => ret 1) e
    end /\
  gps_raw_data_enable raw mode = raw_text raw mode /\
  same_but_buf (mnl_utl_load_property fs status p) (load_text fs status p).
Proof.
  intros Hb. split; [apply epo_conf_text|]. split; [apply raw_conf_text|by apply load_property_text].
Qed.

(** Settings that are written to [gps.conf], one on a line, are read back
    and made, in their order. *)
Theorem gps_conf_roundtrip (e : epo) (kvs : list (list Z * list Z)) :
  Forall (setting_ok GPS_CONF_FILE_SIZE) kvs -> files e !! EPO_CONTROL_FILE_PATH = Some (print_settings kvs) ->
  epo_read_cust_config e = bind (set_all epo_setting kvs) (fun _ => ret 1) e.
Proof.
  intros H Hf. rewrite epo_conf_text, Hf. unfold bind at 1. rewrite (run_print _ _ _ _ H).
  unfold bind. by destruct (set_all epo_setting kvs e) as [[[] w]| | |].
Qed.

(** *** The state of the configuration *)

(** Every array holds a C string shorter than [lim], every number fits its
    type. *)
Definition int_fits (x : cfg_int) (z : Z) : bool :=
  match x with
  | u1AgpsMachine => is_byte z
  | dbglog_file_max_size | dbglog_folder_max_size => in_u 32 z
  | _ => is_int z
  end.
Record config_ok (lim : Z) (c : MNL_CONFIG_T) : Prop := {
  co_size : forall x, zlen (cfg_strs c x) = cfg_size x;
  co_text : forall x, exists s, holds_cstr (cfg_strs c x) s /\ zlen s < lim;
  co_int : forall x, int_fits x (cfg_ints c x) = true
}.

(** A setting whose number, if it has one, is not too large, and whose text, if
    its array has room for it, is shorter than [lim]: which every text is when
    [lim] is 32, the size of the largest arrays. *)
Definition number_ok (lim : Z) (s : list Z) : Prop :=
  match parse_line PROPBUF_SIZE s with
  | Some (Some (k, v)) =>
      match action_of prop_table k with
      | Some (PInt _ | PNmea | PEpo) => exists z, atoi v = Done z
      | Some (PStr x) => zlen v < cfg_size x -> zlen v < lim
      | _ => True
      end
  | _ => True
  end.
Definition numbers_ok (lim : Z) (file : option (list Z)) : Prop :=
  match file with Some l => Forall (number_ok lim) (file_lines PROPBUF_SIZE l) | None => True end.

Lemma atoi_int s z : atoi s = Done z -> is_int z = true.
Proof.
  unfold atoi. destruct (scan_sign _) as [neg l]. destruct (scan_digits 10 l 0 0) as [[x ?] ?].
  unfold chk. destruct (is_int _) eqn:E; [|done]. by intros [= <-].
Qed.

Lemma cfg_conv_fits x z : is_int z = true -> int_fits x (cfg_conv x z) = true.
Proof. intros H. destruct x; cbn [int_fits cfg_conv]; try exact H; by apply wrap_u_range. Qed.

Section keeps.
Context (lim : Z).
#[local] Abbreviation config_ok := (config_ok lim).
#[local] Abbreviation number_ok := (number_ok lim).
#[local] Abbreviation numbers_ok := (numbers_ok lim).

Lemma cfg_put_ok x z c : config_ok c -> int_fits x z = true -> config_ok (cfg_put x z c).
Proof.
  intros [H1 H2 H3] Hz. split; [exact H1|exact H2|]. intros y. cbn [cfg_put cfg_ints].
  destruct (decide (x = y)) as [<-|]; [done|apply H3].
Qed.

Lemma cfg_store_ok x s c :
  config_ok c -> 0 ∉ s -> zlen s < cfg_size x -> zlen s < lim -> config_ok (cfg_store x (strcpy (cfg_strs c x) s) c).
Proof.
  intros [H1 H2 H3] H0 Hs Hl. pose proof (H1 x).
  split; [intros y|intros y|exact H3]; cbn [cfg_store cfg_strs]; (destruct (decide (x = y)) as [<-|]; [|done]).
  - unfold strcpy. lists. lia.
  - exists s. split; [by eexists|done].
Qed.

Lemma strtol16_int s : is_int (strtol16 s) = true.
Proof.
  unfold strtol16. destruct (scan_sign _) as [neg l]. destruct (scan_digits 16 _ 0 0) as [[x ?] ?].
  apply in_s_spec. change (2 ^ (32 - 1)) with (2 ^ 31). lia.
Qed.

(** A program that keeps the configuration in order. *)
Definition keeps_cfg {A} (m : prog props A) : Prop :=
  forall p, config_ok (p_cfg p) -> returns m p (fun _ p' => config_ok (p_cfg p')).

Lemma keeps_put (f : props -> props) x z :
  f = on_cfg (cfg_put x z) -> int_fits x z = true -> keeps_cfg (modify f).
Proof. intros -> Hz p H. apply returns_modify. by apply cfg_put_ok. Qed.
Lemma keeps_cfg_bind {A B} (m : prog props A) (k : A -> prog props B) :
  keeps_cfg m -> (forall a, keeps_cfg (k a)) -> keeps_cfg (bind m k).
Proof. intros Hm Hk p H. apply returns_bind. eapply returns_mono; [exact (Hm p H)|]. intros a p' H'. by apply Hk. Qed.
Lemma keeps_cfg_ret {A} (a : A) : keeps_cfg (ret a).
Proof. intros p H. by apply returns_ret. Qed.

Lemma keeps_number {B} v (k : Z -> prog props B) :
  (exists z, atoi v = Done z) -> (forall z, is_int z = true -> keeps_cfg (k z)) -> keeps_cfg (bind (lift (atoi v)) k).
Proof. intros (z & E) Hk p H. step_lift E. apply Hk; [by eapply atoi_int|done]. Qed.

Lemma keeps_action a v :
  0 ∉ v ->
  match a with
  | PInt _ | PNmea | PEpo => exists z, atoi v = Done z
  | PStr x => zlen v < cfg_size x -> zlen v < lim
  | PHex x => x = debug_mnl
  | PConn => True
  end ->
  keeps_cfg (run_action a v).
Proof.
  intros Hv Ha. destruct a as [x|x| | |x|]; cbn [run_action].
  - apply keeps_number; [done|]. intros z Hz. eapply keeps_put; [done|by apply cfg_conv_fits].
  - intros p H. apply returns_when; [|done]. intros Hl. apply returns_modify. apply cfg_store_ok; [done|done|lia|apply Ha; lia].
  - repeat case_bool_decide; cbn [when]; first [by eapply keeps_put|apply keeps_cfg_ret].
  - apply keeps_number; [done|]. intros z Hz. eapply keeps_put; [done|]. by destruct (0 <? z).
  - subst x. eapply keeps_put; [done|]. apply strtol16_int.
  - apply keeps_number; [done|]. intros z Hz. apply keeps_cfg_bind; [by eapply keeps_put|]. intros _ p H.
    by apply returns_modify.
Qed.

End keeps.

Lemma parse_line_value size s k v : 0 ∉ s -> parse_line size s = Some (Some (k, v)) -> 0 ∉ v.
Proof.
  unfold parse_line. destruct s as [|c s]; [done|]. destruct (c =? 35); [done|].
  destruct (_ && _); [done|]. pose proof (span_spec (fun c => c =? 61) (c :: s)) as H.
  destruct (span _ (c :: s)) as [a [|d r]]; [done|]. destruct H as (-> & _). intros H0 [= <- <-].
  destruct (word_spec r) as (sp & t & E & _). rewrite E in H0.
  rewrite !elem_of_app, !elem_of_cons, !elem_of_app in H0. tauto.
Qed.

Lemma c_text_no_nul l : 0 ∉ c_text l.
Proof.
  induction l as [|c l IH]; cbn [c_text]; [apply not_elem_of_nil|].
  destruct (Z.eqb_spec c 0); [apply not_elem_of_nil|]. apply not_elem_of_cons. by split; [congruence|].
Qed.

Lemma lines_no_nul size n l : Forall (fun s => 0 ∉ s) (lines_of size n l).
Proof.
  revert l. induction n as [|n IH]; intros [|c l]; cbn [lines_of]; try constructor.
  destruct (line_of _ _) as [got rest]. constructor; [apply c_text_no_nul|apply IH].
Qed.

Lemma action_hex k x : action_of prop_table k = Some (PHex x) -> x = debug_mnl.
Proof. unfold prop_table, action_of. repeat case_bool_decide; congruence. Qed.

Lemma keeps_lines lim ls :
  Forall (number_ok lim) ls -> Forall (fun s => 0 ∉ s) ls -> keeps_cfg lim (run_lines PROPBUF_SIZE mnl_setting ls).
Proof.
  induction 1 as [|s ls Hs _ IH]; intros H0; cbn [run_lines]; [apply keeps_cfg_ret|].
  apply Forall_cons in H0 as [Hz H0]. unfold number_ok in Hs.
  destruct (parse_line PROPBUF_SIZE s) as [[[k v]|]|] eqn:E; [|by apply IH|apply keeps_cfg_ret].
  apply keeps_cfg_bind; [|intros _; by apply IH]. unfold mnl_setting.
  destruct (action_of prop_table k) as [a|] eqn:Ea; [|apply keeps_cfg_ret].
  apply keeps_action; [by eapply parse_line_value|]. destruct a; try done. by eapply action_hex.
Qed.

Lemma keeps_prop lim file : numbers_ok lim file -> keeps_cfg lim (prop_text file).
Proof.
  destruct file as [l|]; [|intros _; apply keeps_cfg_ret]. intros H. cbn [numbers_ok] in H.
  apply keeps_cfg_bind; [|intros b; apply keeps_cfg_ret]. apply keeps_lines; [done|]. apply lines_no_nul.
Qed.

Lemma keeps_first lim fs paths :
  Forall (fun path => numbers_ok lim (fs !! path)) paths -> keeps_cfg lim (first_text fs paths).
Proof.
  induction 1 as [|path paths H _ IH]; [apply keeps_cfg_ret|]. apply keeps_cfg_bind; [by apply keeps_prop|].
  intros r. destruct (r =? 0); [apply keeps_cfg_ret|done].
Qed.

Lemma prop_char_int v i : Forall (fun c => 0 <= c < 256) v -> is_int (prop_char v i) = true.
Proof.
  intros H. unfold prop_char. apply in_s_spec. change (2 ^ (32 - 1)) with (2 ^ 31).
  assert (Forall (fun c => 0 <= c < 256) (v ++ zeros (Z.to_nat PROPERTY_VALUE_MAX - length v))) as H'
    by (apply Forall_app; split; [done|by apply Forall_replicate]).
  pose proof (proj1 (Forall_nth _ 0 _) H') as Hn. set (l := v ++ _) in *. clearbody l.
  destruct (Nat.lt_ge_cases i (length l)) as [Hi|Hi]; [specialize (Hn i Hi); cbv beta in Hn; lia|].
  rewrite nth_overflow by done. lia.
Qed.

Lemma first_result fs paths p r p' : first_text fs paths p = Done (r, p') -> r = 0 \/ r = -1.
Proof.
  revert p. induction paths as [|path paths IH]; intros p; cbn [first_text]; [intros [= <- _]; by right|].
  intros (r1 & p1 & _ & H)%bind_inv. destruct (r1 =? 0); [injection H as <- _; by left|by eapply IH].
Qed.

Lemma load_result fs status p r p' : load_text fs status p = Done (r, p') -> r = 0 \/ r = -1.
Proof.
  unfold load_text. intros (? & p1 & _ & (r1 & p2 & E & (? & p3 & _ & H)%bind_inv)%bind_inv)%bind_inv.
  injection H as <- _. by eapply first_result.
Qed.

Lemma keeps_load lim fs status :
  Forall (fun path => numbers_ok lim (fs !! path)) mnl_prop_path ->
  (forall v, status = Some v -> Forall (fun c => 0 <= c < 256) v) -> keeps_cfg lim (load_text fs status).
Proof.
  intros Hn Hst. unfold load_text. apply keeps_cfg_bind; [intros p Hp; by apply returns_modify|]. intros _.
  apply keeps_cfg_bind; [by apply keeps_first|]. intros r. apply keeps_cfg_bind; [|intros _; apply keeps_cfg_ret].
  destruct status as [v|]; [|apply keeps_cfg_ret]. pose proof (prop_char_int v) as Hv.
  repeat (apply keeps_cfg_bind; [|intros _]); (eapply keeps_put; [done|by apply Hv, Hst]).
Qed.

Lemma mnl_prop_returns (lim : Z) (fs : gmap string (list Z)) (status : option (list Z)) (p : props) :
  config_ok lim (p_cfg p) -> zlen (propbuf p) = PROPBUF_SIZE ->
  Forall (fun path => numbers_ok lim (fs !! path)) mnl_prop_path ->
  (forall v, status = Some v -> Forall (fun c => 0 <= c < 256) v) ->
  exists r p', mnl_utl_load_property fs status p = Done (r, p') /\ config_ok lim (p_cfg p') /\
    zlen (propbuf p') = PROPBUF_SIZE /\ (r = 0 \/ r = -1).
Proof.
  intros Hc Hb Hn Hst. pose proof (load_property_text fs status p Hb) as H.
  assert (returns (load_text fs status) p (fun _ p' => config_ok lim (p_cfg p'))) as (r & p' & E & Hp')
    by (by apply keeps_load).
  rewrite E in H. destruct H as (b & -> & Hbuf). eexists _, _. split; [done|]. split; [done|]. split; [done|].
  by eapply load_result.
Qed.

(** C16: Whatever the two files named [mnl.prop] hold, if no number in them is
    too large, reading them returns, the arrays of the configuration still hold
    C strings of their size and its numbers fit their types; zero means that one
    of the files was read to its end.  If moreover no text that is accepted has
    [lim] characters, none in the configuration has. *)
Theorem mnl_prop_keeps (lim : Z) (fs : gmap string (list Z)) (status : option (list Z)) (p : props) :
  config_ok lim (p_cfg p) -> zlen (propbuf p) = PROPBUF_SIZE ->
  Forall (fun path => numbers_ok lim (fs !! path)) mnl_prop_path ->
  (forall v, status = Some v -> Forall (fun c => 0 <= c < 256) v) ->
  exists r p', mnl_utl_load_property fs status p = Done (r, p') /\ config_ok lim (p_cfg p') /\
    zlen (propbuf p') = PROPBUF_SIZE /\ (r = 0 \/ r = -1).
Proof. apply mnl_prop_returns. Qed.

(** ** At concrete files *)

Lemma mnl_config_ok : config_ok 30 mnl_config.
Proof.
  split.
  - by intros [].
  - intros x. exists (c_text (cfg_strs mnl_config x)).
    destruct x; (split; [eexists; split; [reflexivity|apply (bool_decide_unpack _); vm_compute; exact I]|done]).
  - by intros [].
Qed.

Definition props_boot : props := Props mnl_config 0 (zeros (Z.to_nat PROPBUF_SIZE)).

(** A comment, a number, a device, and a line without an equals sign. *)
Definition demo_prop : list Z :=
  lit "# gps" ++ [10] ++ lit "timeout.monitor = 20" ++ [10] ++ lit "GNSS_MODE= 3" ++ [10] ++
  lit "dev.dsp=/dev/gps0" ++ [10] ++ lit "end".
Definition demo_fs : gmap string (list Z) :=
  <["/data/misc/gps/mnl.prop"%string := demo_prop]> ∅.

Lemma demo_numbers : numbers_ok 30 (Some demo_prop).
Proof.
  change (Forall (number_ok 30) (file_lines PROPBUF_SIZE demo_prop)).
  repeat (constructor; [first [exact I|by eexists|done]|]). constructor.
Qed.

Lemma conf_readers_text_witness :
  zlen (propbuf props_boot) = PROPBUF_SIZE /\
  same_but_buf (mnl_utl_load_property demo_fs None props_boot) (load_text demo_fs None props_boot) /\
  (forall o, load_text demo_fs None props_boot = o ->
     exists p, o = Done (-1, p) /\ cfg_ints (p_cfg p) GNSSOPMode = 3 /\
       cfg_ints (p_cfg p) timeout_monitor = cfg_ints mnl_config timeout_monitor /\
       c_text (cfg_strs (p_cfg p) dev_dsp) = lit "/dev/gps0").
Proof.
  split; [vm_compute; reflexivity|]. split.
  - apply (conf_readers_text (epo_boot ∅) None 0 demo_fs None props_boot). vm_compute. reflexivity.
  - intros o <-. eexists. split; [vm_compute; reflexivity|]. vm_compute. done.
Defined.

Definition demo_settings : list (list Z * list Z) :=
  [(lit "EPO_ENABLE", lit "0"); (lit "DW_DAYS", lit "12"); (lit "EPO_WIFI_TRIGGER", lit "1")].

Lemma gps_conf_roundtrip_witness :
  let e := epo_boot (<[EPO_CONTROL_FILE_PATH := print_settings demo_settings]> ∅) in
  epo_read_cust_config e = Done (1, set_cust 0 12 1 e).
Proof.
  cbv zeta. rewrite (gps_conf_roundtrip _ demo_settings).
  - vm_compute. reflexivity.
  - apply (bool_decide_unpack _). vm_compute. exact I.
  - vm_compute. reflexivity.
Defined.

Lemma mnl_prop_keeps_witness :
  exists r p', mnl_utl_load_property demo_fs (Some (lit "0001101")) props_boot = Done (r, p') /\
    config_ok 30 (p_cfg p') /\ zlen (propbuf p') = PROPBUF_SIZE /\ (r = 0 \/ r = -1).
Proof.
  apply mnl_prop_keeps.
  - apply mnl_config_ok.
  - vm_compute. reflexivity.
  - constructor; [exact demo_numbers|constructor; [exact I|constructor]].
  - intros v [= <-]. apply (bool_decide_unpack _). vm_compute. exact I.
Defined.
