(* ===== verification/GpsControl.v ===== *)
(** * The thread that drives the chip

    [src/gps/mtk_mnld/mnld_entity/src/gps_controller.c], with [chip_detector] of
    [mnld_uti.c]: the commands of the main thread start and stop libmnl, switch
    the power of the chip through the attributes of its driver, and are answered
    by messages to the main thread; libmnl calls back when a fix is ready or it
    needs assistance.

    What the thread asks of the operating system, the driver of the chip and
    libmnl is a constructor of [ctl_call].  The state keeps the calls that were
    made; a parameter ([ctl_env]) says how each is answered, by its number. *)

From stdpp Require Import gmap strings.
From S2P Require Import Prelude DataCoder LbsUtility Layout Messages Mnl2Agps AtCommand MnldState Mnld Disk Config.
Open Scope Z_scope.

(** ** What is configured for libmnl *)

(** [MTK_GPS_INIT_CFG], without the members that stay zero. *)
Record init_cfg : Type := Init {
  if_type : Z; pps_mode : Z; datum : Z; dgps_mode : Z;
  pps_duty : Z; u1ClockType : Z; hw_Clock_Drift : Z; hw_Clock_Freq : Z;
  if_link_spd : Z; fix_interval : Z; Int_LNA_Config : Z;
  reservedx : Z; reservedy : Z; i_GNSSOPMode : Z;
  i_C0 : Z; i_C1 : Z; i_initU : Z; i_lastU : Z; mtk_gps_version_mode : Z
}.

(** [MTK_GPS_DRIVER_CFG], without the members that stay zero; the names as the
    texts in its arrays. *)
Record driver_cfg : Type := Driver {
  DebugType : Z;
  nv_file_name : list Z; dbg_file_name : list Z; dsp_port_name : list Z;
  nmea_port_name : list Z; nmeain_port_name : list Z; bee_path_name : list Z;
  epo_file_name : list Z; epo_update_file_name : list Z;
  qepo_file_name : list Z; qepo_update_file_name : list Z;
  d_u1AgpsMachine : Z; d_dsp_fd : Z; d_reserved : Z;
  log_file_max_size : Z; log_folder_max_size : Z
}.

(** [MTK_AGPS_USER_PROFILE]; [SUPLSI_enabled] stays zero. *)
Record MTK_AGPS_USER_PROFILE : Type := Profile {
  up_EPO_enabled : Z; up_BEE_enabled : Z; up_SUPL_enabled : Z;
  up_EPO_priority : Z; up_BEE_priority : Z; up_SUPL_priority : Z; up_fgGpsAosp_Ver : Z
}.

(** What is set of [struct fm_gps_rtc_info] for the FM radio; [tvThd] and [tv] in
    seconds. *)
Record fm_gps_rtc_info : Type := FmRtc {
  retryCnt : Z; ageThd : Z; driftThd : Z; tvThd : Z; age : Z; drift : Z; tv : Z
}.

(** ** Calls *)

Inductive ctl_call : Type :=
| COpen (path : string) | CRead (path : string) | CWrite (path : string) (data : list Z) | CClose (path : string)
| CDspOpen (path : list Z) | CDspIoctl (req : Z) | CDspClose (fd : Z)
| CPropertyGet | CPropertySet (name : string) (value : list Z)
| CUartOpen (path : string) | CUartSetup | CUartWrite (data : list Z) | CUartRead | CUartClose
| CSysInit | CSysUninit | CMnlRun (i : init_cfg) (d : driver_cfg) | CMnlStop
| CDeleteNv (bitmap : Z) | COflSetUser (user : Z) | COflSetOption (option : Z)
| CRestart (type : Z) | CProfile (p : MTK_AGPS_USER_PROFILE) | CRawMeas
| CEpoUpdate | CQepoUpdate | CAccuracy | CQepoTime
| CDbgLogInit | CDbgLogStop | CMpeRegister | CSigaction | CAlarm (seconds : Z) | CRegisterCallbacks
| CSetDebugType (state : Z) | CSetGpsTime (wn tow sys_time : Z)
| CNlpConnect | CNlpWrite (data : list Z) | CNlpClose
| CGpsMeasurement | CGpsClock | CGpsNavigation (svid : Z)
| CGnssMeasurement | CGnssClock | CGnssNavigation (svid type : Z)
| CRtcInfo | CTime | CFmIoctl (i : fm_gps_rtc_info) | CFlpLocation.

(** The record [stGPSReadback] of the NVRAM, when [gps_nvram_valid]. *)
Record nvram : Type := Nvram {
  nv_tcxo_hz : Z; nv_tcxo_ppb : Z; nv_tcxo_type : Z; nv_lna_mode : Z
}.

(** How calls are answered: the result and the [errno] of the call with a
    number, the answers to the attempts of a transfer, what is read.  The rest is constant while a command is served. *)
Record ctl_env : Type := CtlEnv {
  ans : nat -> ctl_call -> Z;
  err : nat -> Z;
  transfers : nat -> ctl_call -> list sysres;  (* the answers to a read or write of an attribute *)
  attr_byte : nat -> Z;                  (* the byte read from an attribute *)
  ioctl_word : nat -> Z;                 (* the word an ioctl stores *)
  chip_prop : nat -> string;             (* the property with the chip id *)
  uart_ack : nat -> list Z;              (* the bytes read from the UART *)
  accuracy_at : nat -> Z * Z * Z;        (* latitude, longitude, accuracy *)
  qepo_time : nat -> Z * Z * Z;          (* week, time of week, system time *)
  gps_user : nat -> Z;                   (* mtk_gps_get_gps_user() *)
  ce_files : gmap string (list Z);
  ce_status : option (list Z);           (* persist.radio.mnl.prop *)
  ce_nvram : option nvram;
  ce_dsp_dev : string;                   (* stGPSReadback.dsp_dev *)
  ce_localtime : option (Z * Z * Z * Z * Z * Z);  (* year, month, day, hour, minute, second as localtime gives them *)
  dbg_thread_exit : bool;                (* g_gpsdbglogThreadExit *)
  dbg_file : list Z;                     (* gps_debuglog_file_name *)
  ce_junk : nat -> Z                     (* bytes of a local that was not initialised *)
}.

(** ** State *)

(** The variables of the file, with [gps_epo_type] of [epo.c] and
    [gps_debuglog_state] of [gps_dbg_log.c], the NMEA monitor of the main thread
    (timer and timeout), and the calls made so far. *)
Record gpsctl : Type := Ctl {
  c_sys : sys;
  c_props : props;                       (* mnl_config, epo_setconfig *)
  c_offload : Z;                         (* mnld_cfg.OFFLOAD_enabled *)
  assist_data_bit_map : Z;
  delete_aiding_data : Z;
  c_dsp_fd : Z;                          (* dsp_fd *)
  chip_id : string;
  c_epo_type : Z;                        (* gps_epo_type *)
  gps_debuglog_state : Z;
  gps_raw_debug_mode : Z;
  mtk_msg_raw_meas_flag : Z;
  restart_count : Z;
  nmea_monitor : Z;
  nmea_data_time_out : Z;
  c_calls : list ctl_call
}.

Definition set_c_sys (s : sys) (w : gpsctl) : gpsctl :=
  Ctl s (c_props w) (c_offload w) (assist_data_bit_map w) (delete_aiding_data w) (c_dsp_fd w) (chip_id w)
    (c_epo_type w) (gps_debuglog_state w) (gps_raw_debug_mode w) (mtk_msg_raw_meas_flag w) (restart_count w)
    (nmea_monitor w) (nmea_data_time_out w) (c_calls w).
Definition set_props (p : props) (w : gpsctl) : gpsctl :=
  Ctl (c_sys w) p (c_offload w) (assist_data_bit_map w) (delete_aiding_data w) (c_dsp_fd w) (chip_id w)
    (c_epo_type w) (gps_debuglog_state w) (gps_raw_debug_mode w) (mtk_msg_raw_meas_flag w) (restart_count w)
    (nmea_monitor w) (nmea_data_time_out w) (c_calls w).
Definition set_bitmaps (assist del : Z) (w : gpsctl) : gpsctl :=
  Ctl (c_sys w) (c_props w) (c_offload w) assist del (c_dsp_fd w) (chip_id w)
    (c_epo_type w) (gps_debuglog_state w) (gps_raw_debug_mode w) (mtk_msg_raw_meas_flag w) (restart_count w)
    (nmea_monitor w) (nmea_data_time_out w) (c_calls w).
Definition set_dsp_fd (fd : Z) (w : gpsctl) : gpsctl :=
  Ctl (c_sys w) (c_props w) (c_offload w) (assist_data_bit_map w) (delete_aiding_data w) fd (chip_id w)
    (c_epo_type w) (gps_debuglog_state w) (gps_raw_debug_mode w) (mtk_msg_raw_meas_flag w) (restart_count w)
    (nmea_monitor w) (nmea_data_time_out w) (c_calls w).
Definition set_chip (id : string) (w : gpsctl) : gpsctl :=
  Ctl (c_sys w) (c_props w) (c_offload w) (assist_data_bit_map w) (delete_aiding_data w) (c_dsp_fd w) id
    (c_epo_type w) (gps_debuglog_state w) (gps_raw_debug_mode w) (mtk_msg_raw_meas_flag w) (restart_count w)
    (nmea_monitor w) (nmea_data_time_out w) (c_calls w).
(** The EPO type, the state of the debug log, the raw debug mode, its flag, the
    restarts. *)
Definition set_modes (epo dbg raw flag restarts : Z) (w : gpsctl) : gpsctl :=
  Ctl (c_sys w) (c_props w) (c_offload w) (assist_data_bit_map w) (delete_aiding_data w) (c_dsp_fd w) (chip_id w)
    epo dbg raw flag restarts (nmea_monitor w) (nmea_data_time_out w) (c_calls w).
Definition add_call (c : ctl_call) (w : gpsctl) : gpsctl :=
  Ctl (c_sys w) (c_props w) (c_offload w) (assist_data_bit_map w) (delete_aiding_data w) (c_dsp_fd w) (chip_id w)
    (c_epo_type w) (gps_debuglog_state w) (gps_raw_debug_mode w) (mtk_msg_raw_meas_flag w) (restart_count w)
    (nmea_monitor w) (nmea_data_time_out w) (c_calls w ++ [c]).

Definition set_epo_type (t : Z) (w : gpsctl) : gpsctl :=
  set_modes t (gps_debuglog_state w) (gps_raw_debug_mode w) (mtk_msg_raw_meas_flag w) (restart_count w) w.
Definition set_dbg_state (d : Z) (w : gpsctl) : gpsctl :=
  set_modes (c_epo_type w) d (gps_raw_debug_mode w) (mtk_msg_raw_meas_flag w) (restart_count w) w.
Definition set_raw_mode (m : Z) (w : gpsctl) : gpsctl :=
  set_modes (c_epo_type w) (gps_debuglog_state w) m (mtk_msg_raw_meas_flag w) (restart_count w) w.

#[export] Instance gpsctl_has_sys : HasSys gpsctl.
Proof. refine {| sys_of := c_sys; set_sys := set_c_sys |}; try done; by intros []. Defined.

(** A setting of [mnl_config], and a change of one. *)
Definition cfg (x : cfg_int) : prog gpsctl Z := gets (fun w => cfg_ints (p_cfg (c_props w)) x).
Definition put_cfg (x : cfg_int) (z : Z) : prog gpsctl unit :=
  modify (fun w => set_props (on_cfg (cfg_put x z) (c_props w)) w).
Definition mnl_offload_is_enabled : prog gpsctl bool := gets (fun w => negb (c_offload w =? 0)).

(** ** The attributes of the driver *)

Definition MNL_ATTR_PWRCTL : string := "/sys/class/gpsdrv/gps/pwrctl".
Definition MNL_ATTR_SUSPEND : string := "/sys/class/gpsdrv/gps/suspend".
Definition MNL_ATTR_STATE : string := "/sys/class/gpsdrv/gps/state".
Definition MNL_ATTR_PWRSAVE : string := "/sys/class/gpsdrv/gps/pwrsave".
Definition MNL_ATTR_STATUS : string := "/sys/class/gpsdrv/gps/status".

Definition GPS_PWRCTL_OFF := 0x00.
Definition GPS_PWRCTL_RST := 0x02.
Definition GPS_PWRCTL_RST_FORCE := 0x04.
Definition GPS_PWRCTL_MAX := 0x05.
Definition GPS_PWR_RESUME := 0x00.
Definition GPS_PWR_MAX := 0x02.
Definition MNL_GPS_STATE_UNSUPPORTED := 0xFF.
Definition MNL_GPS_STATE_PWROFF := 0x00.
Definition MNL_GPS_STATE_INIT := 0x01.
Definition MNL_GPS_STATE_START := 0x02.
Definition MNL_GPS_STATE_MAX := 0x06.
Definition GPS_PWRSAVE_SLEEP := 0x01.
Definition GPS_PWRSAVE_MAX := 0x03.

Section control.
Context (env : ctl_env).

(** The number of the next call, and the call. *)
Definition next_call : prog gpsctl nat := gets (fun w => length (c_calls w)).
Definition call (c : ctl_call) : prog gpsctl Z :=
  let* k := next_call in
  modify (add_call c) ;;
  ret (ans env k c).

(** [do { err = write(...) } while (err < 0 && errno == EINTR)], likewise with
    [read]. *)
Fixpoint retry (answers : list sysres) : option Z :=
  match answers with
  | [] => None
  | ROk n :: _ => Some n
  | RErr EINTR :: rest => retry rest
  | RErr _ :: _ => Some (-1)
  end.
Definition transfer (c : ctl_call) : prog gpsctl Z :=
  let* k := next_call in
  modify (add_call c) ;;
  match retry (transfers env k c) with
  | None => blocked
  | Some n => ret n
  end.

(** The result of [close] joined to the one before. *)
Definition close_attr (name : string) (res : Z) (failure : Z) : prog gpsctl Z :=
  let* r := call (CClose name) in
  ret (if r =? -1 then (if res =? 0 then failure else res) else res).

(** The result, and the attribute, which keeps its value when [open] fails. *)
Definition mnl_read_attr (name : string) (attr : Z) : prog gpsctl (Z * Z) :=
  let* fd := call (COpen name) in
  if fd =? -1 then ret (0, attr)
  else
    let* k := next_call in
    let* n := transfer (CRead name) in
    let* res := close_attr name (if n =? 1 then 0 else -1) (-1) in
    ret (res, if res =? 0 then u8 (attr_byte env k - 48) else 0xFF).

(** Writes the bytes [buf]; minus the [errno] of what failed. *)
Definition write_attr (name : string) (buf : list Z) : prog gpsctl Z :=
  let* k0 := next_call in
  let* fd := call (COpen name) in
  if fd =? -1 then ret (- err env k0)
  else
    let* k := next_call in
    let* n := transfer (CWrite name buf) in
    let* k2 := next_call in
    close_attr name (if n =? zlen buf then 0 else - err env k) (- err env k2).

Definition mnl_write_attr (name : string) (attr : Z) : prog gpsctl Z := write_attr name [u8 (attr + 48)].

Definition mnl_set_pwrctl (pwrctl : Z) : prog gpsctl Z :=
  if pwrctl <? GPS_PWRCTL_MAX then mnl_write_attr MNL_ATTR_PWRCTL pwrctl else ret (-1).
Definition mnl_set_state (state : Z) : prog gpsctl Z :=
  if state <? MNL_GPS_STATE_MAX then mnl_write_attr MNL_ATTR_STATE state else ret (-1).
Definition mnl_get_state (state : Z) : prog gpsctl (Z * Z) := mnl_read_attr MNL_ATTR_STATE state.
Definition mnl_set_pwrsave (pwrsave : Z) : prog gpsctl Z :=
  if pwrsave <? GPS_PWRSAVE_MAX then mnl_write_attr MNL_ATTR_PWRSAVE pwrsave else ret (-1).
Definition mnl_get_pwrsave (pwrsave : Z) : prog gpsctl (Z * Z) := mnl_read_attr MNL_ATTR_PWRSAVE pwrsave.
Definition mnl_set_suspend (suspend : Z) : prog gpsctl Z :=
  if suspend <? GPS_PWR_MAX then mnl_write_attr MNL_ATTR_SUSPEND suspend else ret (-1).
Definition mnl_set_status (buf : list Z) : prog gpsctl Z := write_attr MNL_ATTR_STATUS buf.

(** [snprintf(buf, 48, "(%d/%d/%d %d:%d:%d) - %d/%d", ...)]: the text that
    fits. *)
Definition status_text (t : Z * Z * Z * Z * Z * Z) (count reason : Z) : list Z :=
  let '(y, mo, d, h, mi, s) := t in
  take 47 (lit "(" ++ print_d y ++ lit "/" ++ print_d (1 + mo) ++ lit "/" ++ print_d d ++ lit " " ++
           print_d h ++ lit ":" ++ print_d mi ++ lit ":" ++ print_d s ++ lit ") - " ++
           print_d count ++ lit "/" ++ print_d reason).

(** Runs [k] when the result so far is zero. *)
Definition and_then (m : prog gpsctl Z) (k : prog gpsctl Z) : prog gpsctl Z :=
  let* e := m in if e =? 0 then k else ret e.

(** The whole array is written, what follows the text included. *)
Definition mnl_attr_init : prog gpsctl Z :=
  match ce_localtime env with
  | None => ret (-1)
  | Some t =>
      let text := status_text t 0 0 ++ [0] in
      and_then (mnl_set_status (text ++ drop (length text) (uninit (ce_junk env) 48)))
        (and_then (mnl_set_pwrctl GPS_PWRCTL_OFF)
           (and_then (mnl_set_suspend GPS_PWR_RESUME)
              (and_then (mnl_set_state MNL_GPS_STATE_PWROFF)
                 (and_then (mnl_set_pwrsave GPS_PWRSAVE_SLEEP) (ret 0)))))
  end.

Definition gps_control_mnl_set_pwrctl : prog gpsctl unit :=
  let* _ := mnl_set_pwrctl GPS_PWRCTL_RST_FORCE in ret tt.

(** MNL_RESTART_TIMEOUT_NMEA_MONITOR is the reason 2; here the text only. *)
Definition gps_control_mnl_set_status : prog gpsctl unit :=
  modify (fun w => set_modes (c_epo_type w) (gps_debuglog_state w) (gps_raw_debug_mode w)
                     (mtk_msg_raw_meas_flag w) (restart_count w + 1) w) ;;
  let* count := gets restart_count in
  match ce_localtime env with
  | None => ret tt
  | Some t => let* _ := mnl_set_status (status_text t count 2) in ret tt
  end.

Definition gps_driver_state_init : prog gpsctl Z :=
  and_then (mnl_set_pwrctl GPS_PWRCTL_OFF) (mnl_set_state MNL_GPS_STATE_INIT).

(** ** The chip *)

Definition MTK_GPS_SUCCESS := 0.
Definition MTK_GPS_ERROR := -1.

Definition HW_TEST_CMD : list Z :=
  [0xAA; 0xF0; 0x6E; 0x00; 0x08; 0xFE; 0x1A; 0x00; 0x00; 0x00; 0x00;
   0x00; 0xC3; 0x01; 0xA5; 0x02; 0x00; 0x00; 0x00; 0x00; 0x5A; 0x45; 0x00;
   0x80; 0x04; 0x80; 0x00; 0x00; 0x1A; 0x00; 0x00; 0x00; 0x00; 0x00; 0x05; 0x00;
   0x96; 0x00; 0x6F; 0x3C; 0xDE; 0xDF; 0x8B; 0x6D; 0x04; 0x04; 0x00; 0xD2; 0x00;
   0xB7; 0x00; 0x28; 0x00; 0x5D; 0x4A; 0x1E; 0x00; 0xC6; 0x37; 0x28; 0x00; 0x5D;
   0x4A; 0x8E; 0x65; 0x00; 0x00; 0x01; 0x00; 0x28; 0x00; 0xFF; 0x00; 0x80; 0x00;
   0x47; 0x00; 0x64; 0x00; 0x50; 0x00; 0xD8; 0x00; 0x50; 0x00; 0xBB; 0x00; 0x03;
   0x00; 0x3C; 0x00; 0x6F; 0x00; 0x89; 0x00; 0x88; 0x00; 0x02; 0x00; 0xFB; 0x00;
   0x01; 0x00; 0x00; 0x00; 0x48; 0x49; 0x4A; 0x4B; 0x4C; 0x4D; 0x4E; 0x4F; 0x7A; 0x16; 0xAA; 0x0F].
Definition HW_TEST_ACK : list Z := [0xaa; 0xf0; 0x0e; 0x00; 0x31; 0xfe].

(** 1 for a device that is no UART. *)
Definition read_NVRAM : prog gpsctl Z :=
  let* r := call CSysInit in
  ret (if bool_decide (ce_dsp_dev env = "/dev/stpgps"%string) then 1 else r).

(** Six bytes are read at most; fewer leave zeros. *)
Definition hw_test_3332 : prog gpsctl Z :=
  let* written := call (CUartWrite HW_TEST_CMD) in
  if written =? zlen HW_TEST_CMD then
    let* k := next_call in
    let* byteread := call CUartRead in
    ret (if (byteread =? 6) && bool_decide (take 6 (uart_ack env k) = HW_TEST_ACK) then 0 else 1)
  else ret 1.

Definition hand_shake : prog gpsctl Z :=
  let* nv := read_NVRAM in
  if nv =? 1 then ret 1
  else if nv =? -1 then ret (-1)
  else
    let* fd := call (CUartOpen (ce_dsp_dev env)) in
    if fd =? -1 then ret (-1)
    else
      let* _ := call CUartSetup in
      let* r := hw_test_3332 in
      let* _ := call CUartClose in
      ret r.

Definition confirm_if_3332 : prog gpsctl Z := hand_shake.

(** [property_get] until it delivers six characters, [n] times at most. *)
Fixpoint detect_loop (n : nat) : prog gpsctl Z :=
  match n with
  | O => ret 0
  | S n' =>
      let* k := next_call in
      let* res := call CPropertyGet in
      modify (set_chip (chip_prop env k)) ;;
      if res <? 6 then detect_loop n' else ret res
  end.

Definition chip_detector : prog gpsctl unit :=
  let* res := detect_loop 20 in
  if res <? 6 then ret tt
  else
    let* r := confirm_if_3332 in
    when (r =? 0) (modify (set_chip "0x3332")).

Definition property_set (name : string) (value : list Z) : prog gpsctl unit :=
  let* _ := call (CPropertySet name value) in ret tt.
Definition GPS_CLOCK_TYPE_P : string := "gps.clock.type".

Definition get_gps_version : prog gpsctl unit :=
  let* id := gets chip_id in
  property_set "gps.gps.version"
    (lit (if bool_decide (id ∈ ["0x0321"; "0x0335"; "0x0337"; "0x6735"]%string) then "0x6735" else id)).

(** The chips whose driver knows the type of the clock. *)
Definition asks_clock (id : string) : bool :=
  bool_decide (id ∈ ["0x6592"; "0x6571"; "0x6580"; "0x0321"; "0x0335"; "0x0337"; "0x6735"; "0x8163";
                     "0x8127"; "0x6755"; "0x6797"; "0x6757"]%string).
Definition tells_clock (id : string) : bool :=
  bool_decide (id ∈ ["0x6572"; "0x6582"; "0x6630"; "0x6752"; "0x6632"]%string).

(** The type of the clock and the property, by the answer of the driver. *)
Definition clock_of (clock_type : Z) : option (Z * string) :=
  switch clock_type
    [ (0x00, Some (0xFF, "20"%string)); (0x10, Some (0xFF, "10"%string)); (0x20, Some (0xFF, "20"%string));
      (0x30, Some (0xFF, "30"%string)); (0x40, Some (0xFF, "40"%string)); (0x01, Some (0xFE, "21"%string));
      (0x02, Some (0xFF, "20"%string)); (0x03, Some (0xFF, "20"%string)); (0x11, Some (0xFE, "11"%string));
      (0x21, Some (0xFE, "21"%string)); (0x31, Some (0xFE, "31"%string)); (0x41, Some (0xFE, "41"%string)) ]
    None.

(** The clock type after the question, from the one before. *)
Definition clock_setup (u1ClockType : Z) : prog gpsctl Z :=
  let* id := gets chip_id in
  if asks_clock id then
    let* t := call (CDspIoctl 11) in
    match clock_of (Z.land t 0xff) with
    | Some (clock, name) => property_set GPS_CLOCK_TYPE_P (lit name) ;; ret clock
    | None => ret u1ClockType
    end
  else
    (when (tells_clock id)
       (if u1ClockType =? 0xFF then property_set GPS_CLOCK_TYPE_P (lit "90")
        else when (u1ClockType =? 0xFE) (property_set GPS_CLOCK_TYPE_P (lit "91")))) ;;
    ret u1ClockType.

(** What else is asked of the driver for a chip. *)
Inductive probe : Type :=
| Nothing
| GpsOnly                                 (* the mode becomes 3 *)
| ModeFlag                                (* ioctl 9: the mode may become 3 *)
| Versions6630 | Versions6632.            (* ioctls 7 and 8 *)

(** Key and type of a chip. *)
Definition chip_table : list (string * (Z * Z * probe)) :=
  [("0x6628", (0xFFFF6628, 0x10, Nothing));
   ("0x6630", (0xFFFF6630, 0x80, Versions6630));
   ("0x6572", (0xFFFF6572, 0x40, Nothing));
   ("0x6571", (0xFFFF6571, 0x70, Nothing));
   ("0x8127", (0xFFFF6571, 0x70, Nothing));
   ("0x6582", (0xFFFF6582, 0x50, Nothing));
   ("0x6592", (0xFFFF6592, 0x60, Nothing));
   ("0x3332", (0xFFFF3332, 0x21, Nothing));
   ("0x6752", (0xFFFF6752, 0x90, Nothing));
   ("0x8163", (0xFFFE6735, 0xB0, GpsOnly));
   ("0x6580", (0xFFFF6580, 0xD0, Nothing));
   ("0x0321", (0xFFFF6735, 0xA0, ModeFlag));
   ("0x0335", (0xFFFE6735, 0xB0, Nothing));
   ("0x0337", (0xFFFF6753, 0xC0, Nothing));
   ("0x6755", (0xFFFF6755, 0xE0, ModeFlag));
   ("0x6797", (0xFFFF6797, 0xF0, Nothing));
   ("0x6757", (0xFFFF6757, 0x110, ModeFlag));
   ("0x6632", (0xFFFF6632, 0x100, Versions6632))]%string.

Fixpoint chip_row (table : list (string * (Z * Z * probe))) (id : string) : option (Z * Z * probe) :=
  match table with
  | [] => None
  | (name, row) :: table' => if bool_decide (id = name) then Some row else chip_row table' id
  end.

Definition COMBO_IOC_GPS_IC_HW_VERSION := 7.
Definition COMBO_IOC_GPS_IC_FW_VERSION := 8.
Definition MT6630_E1 := 0x80.
Definition MT6630_E2 := 0x81.
Definition MT6632_E1 := 0x100.
Definition MT6632_E3 := 0x101.

(** The two versions; none when an ioctl fails. *)
Definition chip_versions : prog gpsctl (option (Z * Z)) :=
  let* k := next_call in
  let* r := call (CDspIoctl COMBO_IOC_GPS_IC_HW_VERSION) in
  if r <? 0 then ret None
  else
    let* k' := next_call in
    let* r := call (CDspIoctl COMBO_IOC_GPS_IC_FW_VERSION) in
    if r <? 0 then ret None else ret (Some (ioctl_word env k, ioctl_word env k')).

(** The type of the chip from the table, the type in the end; none is an error. *)
Definition run_probe (p : probe) (type : Z) : prog gpsctl (option Z) :=
  match p with
  | Nothing => ret (Some type)
  | GpsOnly => put_cfg GNSSOPMode 3 ;; ret (Some type)
  | ModeFlag =>
      let* flag := call (CDspIoctl 9) in
      when (negb (Z.land flag 0x01000000 =? 0) && (Z.land flag 0x02000000 =? 0)) (put_cfg GNSSOPMode 3) ;;
      ret (Some type)
  | Versions6630 =>
      let* v := chip_versions in
      match v with
      | None => ret None
      | Some (hw, fw) => ret (Some (if (hw =? 0x8A00) && (fw =? 0x8A00) then MT6630_E1 else MT6630_E2))
      end
  | Versions6632 =>
      let* v := chip_versions in
      match v with
      | None => ret None
      | Some (hw, fw) =>
          if (hw =? 0x8A00) && (fw =? 0x8A00) then put_cfg GNSSOPMode 2 ;; ret (Some MT6632_E1)
          else put_cfg GNSSOPMode 6 ;; ret (Some MT6632_E3)
      end
  end.

(** Type and key for libmnl; an unknown chip leaves both zero. *)
Definition chip_setup : prog gpsctl (option (Z * Z)) :=
  let* id := gets chip_id in
  match chip_row chip_table id with
  | None => ret (Some (0, 0))
  | Some (key, type, p) =>
      let* t := run_probe p type in
      ret (match t with Some t => Some (t, key) | None => None end)
  end.

(** [gps_epo_type]: 1 for GPS alone. *)
Definition epo_type_of (id : string) : Z :=
  if bool_decide (id ∈ ["0x6572"; "0x6582"; "0x6580"; "0x6592"; "0x6571"; "0x8127"; "0x0335"; "0x8163"]%string)
  then 1 else 0.
Definition epo_type_setup : prog gpsctl unit :=
  let* id := gets chip_id in
  let* mode := cfg GNSSOPMode in
  let t := epo_type_of id in
  modify (set_epo_type (if (t =? 0) && negb (mode =? 0) && negb (mode =? 2) then 1 else t)).

(** ** The start of libmnl *)

Definition QEPO_UPDATE_HAL : string := "/data/misc/gps/QEPOHAL.DAT".
Definition GPS_CALI_DATA_PATH : string := "/data/nvram/md/NVRAM/CALIBRAT/ML4A_000".
Definition NV_FILE : string := "/data/misc/gps/mtkgps.dat".
Definition MNL_INIT_SUCCESS := 18.
Definition GPS_DELETE_TIME := 0x0008.
Definition MTK_IF_UART_NO_HW_FLOW_CTRL := 1.
Definition MTK_PPS_DISABLE := 0.
Definition MTK_DATUM_WGS84 := 0.
Definition MTK_AGPS_MODE_AUTO := 16.
Definition MTK_GPS_AOSP_MODE := 1.
Definition MNL_OFL_OPTION_ENALBE_OFFLOAD := 1.
Definition DRIVER_NAME_SIZE := 30.
Definition GPS_DEBUG_LOG_FILE_NAME_MAX_LEN := 128.

(** Sixteen bytes of calibration: zero without the file, what was on the stack
    where the file is too short. *)
Definition cali_data : list Z :=
  match ce_files env !! GPS_CALI_DATA_PATH with
  | None => zeros 16
  | Some l => take 16 l ++ drop (length (take 16 l)) (uninit (ce_junk env) 16)
  end.
Definition word32 (l : list Z) (i : nat) : Z :=
  nth i l 0 + 256 * nth (i + 1) l 0 + 65536 * nth (i + 2) l 0 + 16777216 * nth (i + 3) l 0.

(** Before the chip is known: the defaults, or the record of the NVRAM. *)
Definition default_init : init_cfg :=
  let '(freq, drift, clock, lna) :=
    match ce_nvram env with
    | Some n => (u32 (nv_tcxo_hz n), u16 (nv_tcxo_ppb n), nv_tcxo_type n, nv_lna_mode n)
    | None => (26000000, 2000, 0xFF, 0)
    end in
  let drift := if drift =? 0 then 2000 else drift in
  Init MTK_IF_UART_NO_HW_FLOW_CTRL MTK_PPS_DISABLE MTK_DATUM_WGS84 MTK_AGPS_MODE_AUTO 100 clock drift freq
    115200 1000 lna 0 0 0
    (word32 cali_data 0) (word32 cali_data 4) (word32 cali_data 8) (word32 cali_data 12) 0.

(** [strcpy(dst, src)] into an array of [size]: the text; a text that does not
    fit, or an array without its NUL, is undefined. *)
Definition copied (size : Z) (src : list Z) : outcome (list Z) :=
  obind (str_at src 0) (fun s => if zlen s <? size then Done s else UB).

Definition cfg_text (x : cfg_str) : prog gpsctl (list Z) :=
  let* a := gets (fun w => cfg_strs (p_cfg (c_props w)) x) in
  lift (copied DRIVER_NAME_SIZE a).

Definition driver_setup : prog gpsctl driver_cfg :=
  let* nmeain := cfg_text dev_dbg in
  let* nmea := cfg_text dev_gps in
  let* dsp := cfg_text dev_dsp in
  let* bee := cfg_text bee_path in
  let* reserved := cfg BEE_enabled in
  let* dbg := cfg dbg2file in
  modify (fun w => set_dbg_state (u8 (Z.lor (gps_debuglog_state w) dbg)) w) ;;
  let* state := gets gps_debuglog_state in
  let* name := lift (copied GPS_DEBUG_LOG_FILE_NAME_MAX_LEN (dbg_file env)) in
  let* epo := cfg_text epo_file in
  let* epo_hal := cfg_text epo_update_file in
  let* qepo := cfg_text qepo_file in
  let* qepo_hal := cfg_text qepo_update_file in
  let* file_max := cfg dbglog_file_max_size in
  let* folder_max := cfg dbglog_folder_max_size in
  let* machine := cfg u1AgpsMachine in
  ret (Driver state (lit NV_FILE) name dsp nmea nmeain bee epo epo_hal qepo qepo_hal (u8 machine) (-1)
         (u8 reserved) file_max folder_max).

(** The accuracy of the signal strength, in the two highest bits. *)
Definition accuracy_bits (snr : Z) (type : Z) : Z :=
  if snr =? 1 then Z.lor type 0x80000000
  else if snr =? 2 then Z.lor type 0x40000000
  else if snr =? 3 then Z.lor type 0xC0000000
  else type.

(** The configuration with the clock, the chip and the mode. *)
Definition with_chip (i : init_cfg) (clock type key mode : Z) : init_cfg :=
  Init (if_type i) (pps_mode i) (datum i) (dgps_mode i) (pps_duty i) clock (hw_Clock_Drift i) (hw_Clock_Freq i)
    (if_link_spd i) (fix_interval i) (Int_LNA_Config i) type key mode (i_C0 i) (i_C1 i) (i_initU i) (i_lastU i)
    MTK_GPS_AOSP_MODE.
Definition with_fd (d : driver_cfg) (fd : Z) : driver_cfg :=
  Driver (DebugType d) (nv_file_name d) (dbg_file_name d) (dsp_port_name d) (nmea_port_name d)
    (nmeain_port_name d) (bee_path_name d) (epo_file_name d) (epo_update_file_name d) (qepo_file_name d)
    (qepo_update_file_name d) (d_u1AgpsMachine d) fd (d_reserved d) (log_file_max_size d)
    (log_folder_max_size d).

Definition offload_option : prog gpsctl unit :=
  let* id := gets chip_id in
  let* offload := mnl_offload_is_enabled in
  let* _ := call (COflSetOption
    (if bool_decide (id ∈ ["0x6797"; "0x6632"]%string) && offload then MNL_OFL_OPTION_ENALBE_OFFLOAD else 0)) in
  ret tt.

(** libmnl is told of predictions that wait. *)
Definition update_if_there (path : string) (c : ctl_call) : prog gpsctl unit :=
  when (bool_decide (is_Some (ce_files env !! path))) (let* _ := call c in ret tt).

Definition user_profile : prog gpsctl MTK_AGPS_USER_PROFILE :=
  let* set := gets (fun w => epo_setconfig (c_props w)) in
  let* epo_cfg := cfg EPO_enabled in
  let* bee := cfg BEE_enabled in
  let* supl := cfg SUPL_enabled in
  let* pe := cfg EPO_priority in
  let* pb := cfg BEE_priority in
  let* ps := cfg SUPL_priority in
  let* aosp := cfg fgGpsAosp_Ver in
  ret (Profile (u8 (if set =? 1 then epo_cfg else config_status (ce_status env) 7))
         (u8 bee) (u8 supl) (u8 pe) (u8 pb) (u8 ps) (u8 aosp)).

(** [n] turns; the result of the second attempt of a turn is not looked at. *)
Fixpoint send_profile (n : nat) (p : MTK_AGPS_USER_PROFILE) : prog gpsctl unit :=
  match n with
  | O => ret tt
  | S n' =>
      let* r := call (CProfile p) in
      if r =? MTK_GPS_SUCCESS then ret tt
      else let* _ := call (CProfile p) in send_profile n' p
  end.

(** The last position, if it is accurate, for the AGPS daemon. *)
Definition sync_location : prog gpsctl unit :=
  let* k := next_call in
  let* r := call CAccuracy in
  let '(lat, lng, acc) := accuracy_at env k in
  when ((r =? MTK_GPS_SUCCESS) && (acc <? 100)) (let* _ := on_sys (mnl2agps_location_sync lat lng acc) in ret tt).

(** *** The almanac: the last line of a file, as two numbers. *)

(** The position after the loop that looks for the last newline, from the
    offset [i] of the next [fseek] from the end, the position and the character
    that was read ([-1] at the end of the file, which is 255 as a [char]). *)
Fixpoint back_to_newline (l : list Z) (n : nat) (i pos ch size : Z) : outcome Z :=
  if (ch =? 10) || (size =? 0) then Done pos
  else
    match n with
    | O => Blocked
    | S n' =>
        let at_ := if zlen l + i <? 0 then pos else zlen l + i in
        match l !! Z.to_nat at_ with
        | Some c => back_to_newline l n' (i - 1) (at_ + 1) c at_
        | None => back_to_newline l n' (i - 1) at_ 255 at_
        end
    end.

Definition is_almanac_char (c : Z) : bool := ((48 <=? c) && (c <=? 57)) || (c =? 44).

(** The digits and commas, one after the other into [str[32]]. *)
Fixpoint collect (l : list Z) (i : Z) (str : list Z) : outcome (list Z) :=
  match l with
  | [] => Done str
  | c :: l' => if is_almanac_char c then obind (wr str i c) (fun str => collect l' (i + 1) str) else collect l' i str
  end.

(** Before and behind the first comma. *)
Fixpoint at_comma (s : list Z) : option (list Z * list Z) :=
  match s with
  | [] => None
  | c :: s' => if c =? 44 then Some ([], s') else match at_comma s' with Some (a, b) => Some (c :: a, b) | None => None end
  end.

Definition almanac_line (l : list Z) : outcome (list Z) :=
  obind (rd l (zlen l - 1)) (fun ch =>
  obind (back_to_newline l (length l + 1) (-2) (zlen l) ch (zlen l)) (fun pos =>
  obind (collect (drop (Z.to_nat pos) l) 0 (zeros 32)) (fun str => str_at str 0))).

Definition hasAlmanac : prog gpsctl Z :=
  match ce_files env !! "/nvcfg/almanac.dat"%string with
  | None | Some [] => ret 0
  | Some l =>
      let* s := lift (almanac_line l) in
      match at_comma s with
      | None => ret 0
      | Some (sats, time) =>
          let* num := lift (if (length sats =? 0)%nat then Done 0 else atoi sats) in
          if 25 <=? num then property_set "gps.almanac" time ;; ret 1
          else property_set "gps.almanac" (lit "0") ;; ret 0
      end
  end.

(** *** [linux_gps_init] *)

(** After libmnl runs. *)
Definition after_run : prog gpsctl unit :=
  let* _ := call CMpeRegister in
  update_if_there EPO_UPDATE_HAL CEpoUpdate ;;
  update_if_there QEPO_UPDATE_HAL CQepoUpdate ;;
  let* profile := user_profile in
  let* mode := gets gps_raw_debug_mode in
  let* '(_, mode) := lift (gps_raw_data_enable (ce_files env !! EPO_CONTROL_FILE_PATH) mode) in
  modify (set_raw_mode mode) ;;
  send_profile 3 profile ;;
  sync_location ;;
  let* _ := hasAlmanac in ret tt.

Definition run_libmnl (i : init_cfg) (d : driver_cfg) : prog gpsctl Z :=
  let* bitmap := gets assist_data_bit_map in
  let* status := call (CDeleteNv bitmap) in
  let* fd := gets c_dsp_fd in
  offload_option ;;
  let* _ := call CDbgLogInit in
  let* r := call (CMnlRun i (with_fd d fd)) in
  if r =? MNL_INIT_SUCCESS then after_run ;; ret status else ret MTK_GPS_ERROR.

Definition linux_gps_init : prog gpsctl Z :=
  let i := default_init in
  let* path := gets (fun w => cfg_strs (p_cfg (c_props w)) dev_dsp) in
  let* path := lift (str_at path 0) in
  let* fd := call (CDspOpen path) in
  modify (set_dsp_fd fd) ;;
  if fd =? -1 then ret MTK_GPS_ERROR
  else
    let* id := gets chip_id in
    when (bool_decide (id = ""%string)) chip_detector ;;
    let* clock := clock_setup (u1ClockType i) in
    let* rtc := call (CDspIoctl 10) in
    when (rtc =? 1) (modify (fun w => set_bitmaps (assist_data_bit_map w) GPS_DELETE_TIME w)) ;;
    let* chip := chip_setup in
    match chip with
    | None => ret MTK_GPS_ERROR
    | Some (type, key) =>
        epo_type_setup ;;
        let* snr := cfg ACCURACY_SNR in
        let* mode := cfg GNSSOPMode in
        let* d := driver_setup in
        run_libmnl (with_chip i clock (accuracy_bits snr type) key mode) d
    end.

(** ** Commands of the main thread *)

Definition FLAG_HOT_START := 0.
Definition FLAG_WARM_START := 0x1.
Definition FLAG_COLD_START := 0x5.
Definition FLAG_FULL_START := 0xFFFF.
Definition FLAG_AGPS_START := 0xF7FF.
Definition FLAG_DELETE_EPH_ALM_START := 0x3.
Definition FLAG_DELETE_TIME_START := 0x8.

(** [enum MTK_GPS_START_TYPE] *)
Definition MTK_GPS_START_HOT := 1.
Definition MTK_GPS_START_WARM := 2.
Definition MTK_GPS_START_COLD := 3.
Definition MTK_GPS_START_FULL := 4.
Definition MTK_GPS_START_AGPS := 6.
Definition MTK_GPS_START_D_EPH_ALM := 7.
Definition MTK_GPS_START_D_TIME := 8.

(** [mnld_gps_stop_nmea_monitor] and [mnld_gps_controller_mnl_nmea_timeout],
    which the thread calls in the main thread's file. *)
Definition stop_nmea_monitor : prog gpsctl unit :=
  let* t := gets nmea_monitor in
  when (negb (t =? 0)) (let* _ := on_sys (stop_timer t) in ret tt).
Definition restart_nmea_monitor : prog gpsctl unit :=
  let* t := gets nmea_monitor in
  let* ms := gets nmea_data_time_out in
  when (negb (t =? 0)) (let* _ := on_sys (start_timer t ms) in ret tt).

Definition mnld_gps_stop_impl : prog gpsctl Z :=
  let* _ := call CMnlStop in
  when (negb (dbg_thread_exit env)) (let* _ := call CDbgLogStop in ret tt) ;;
  let* r := call CSysUninit in
  let* fd := gets c_dsp_fd in
  when (0 <=? fd) (let* _ := call (CDspClose fd) in modify (set_dsp_fd (-1))) ;;
  let* _ := call (CAlarm 0) in
  ret r.

(** A program of the properties of [mnl_config]. *)
Definition on_props {A} (m : prog props A) : prog gpsctl A :=
  fun w =>
    match m (c_props w) with
    | Done (a, p) => Done (a, set_props p w)
    | Crash => Crash
    | UB => UB
    | Blocked => Blocked
    end.

(** [linux_setup_signal_handler]: -1 or 0. *)
Definition linux_setup_signal_handler : prog gpsctl Z :=
  let* e := call CSigaction in ret (if e =? 0 then 0 else -1).

(** The result of [mtk_gps_sys_init] is logged only. *)
Definition mnld_gps_start_impl : prog gpsctl Z :=
  let* _ := on_props (mnl_utl_load_property (ce_files env) (ce_status env)) in
  let* k := next_call in
  let* _ := call (COflSetUser (gps_user env k)) in
  let* _ := call CSysInit in
  let* r := linux_gps_init in
  if negb (r =? 0) then let* _ := mnld_gps_stop_impl in ret r
  else
    let* r := linux_setup_signal_handler in
    if negb (r =? 0) then let* _ := mnld_gps_stop_impl in ret r
    else get_gps_version ;; ret r.

Definition mnld_gps_start (delete_aiding_data_flags : Z) : prog gpsctl Z :=
  modify (fun w => set_bitmaps (u32 delete_aiding_data_flags) (delete_aiding_data w) w) ;;
  and_then (mnl_set_pwrctl GPS_PWRCTL_RST)
    (and_then mnld_gps_start_impl
       (let* _ := mnl_set_state MNL_GPS_STATE_START in ret 0)).

Definition mnld_gps_stop : prog gpsctl Z :=
  stop_nmea_monitor ;;
  and_then mnld_gps_stop_impl
    (let* _ := mnl_set_pwrctl GPS_PWRCTL_OFF in
     let* _ := mnl_set_state MNL_GPS_STATE_PWROFF in
     let* _ := on_sys mnld_gps_stop_done in
     ret 0).

Definition restart_type (flags : Z) : Z :=
  if flags =? FLAG_HOT_START then MTK_GPS_START_HOT
  else if flags =? FLAG_WARM_START then MTK_GPS_START_WARM
  else if flags =? FLAG_COLD_START then MTK_GPS_START_COLD
  else if flags =? FLAG_FULL_START then MTK_GPS_START_FULL
  else if flags =? FLAG_AGPS_START then MTK_GPS_START_AGPS
  else if flags =? FLAG_DELETE_EPH_ALM_START then MTK_GPS_START_D_EPH_ALM
  else if flags =? FLAG_DELETE_TIME_START then MTK_GPS_START_D_TIME
  else MTK_GPS_START_HOT.

Definition mnld_gps_delete_aiding_data (delete_aiding_data_flags : Z) : prog gpsctl Z :=
  let* _ := call (CRestart (restart_type delete_aiding_data_flags)) in
  let* _ := on_sys mnld_gps_reset_done in
  ret 0.

(** [MAIN2GPS_EVENT_START], ... are those of [Mnld.Threads]. *)
Definition GPS2GPS_NMEA_DATA_TIMEOUT := 3.

Definition gps_control_event_hdlr (rx : list recvres) : prog gpsctl Z :=
  let* '(read_len, buff) := lift (safe_recvfrom rx MNLD_INTERNAL_BUFF_SIZE) in
  if read_len <=? 0 then ret (-1)
  else
    let* '(cmd, b) := decode (CBuf buff 0) get_int in
    switch cmd
      [ (MAIN2GPS_EVENT_START,
          let* '(flags, _) := decode b get_int in
          let* _ := mnld_gps_start flags in ret 0);
        (MAIN2GPS_EVENT_STOP, let* _ := mnld_gps_stop in ret 0);
        (MAIN2GPS_DELETE_AIDING_DATA,
          let* '(flags, _) := decode b get_int in
          let* _ := mnld_gps_delete_aiding_data flags in ret 0);
        (GPS2GPS_NMEA_DATA_TIMEOUT, restart_nmea_monitor ;; ret 0) ]
      (ret (-1)).

Definition MNLD_GPS_HANDLER_TIMEOUT : Z := 10 * 1000.

(** One turn of [gps_control_thread]: the watchdog, whose callback crashes the
    daemon, is armed around the handler. *)
Definition gps_control_turn (hdlr_timer : Z) (rx : list recvres) : prog gpsctl unit :=
  let* _ := on_sys (start_timer hdlr_timer MNLD_GPS_HANDLER_TIMEOUT) in
  let* _ := gps_control_event_hdlr rx in
  let* _ := on_sys (stop_timer hdlr_timer) in
  ret tt.
Definition gps_control_thread_timeout : prog gpsctl unit := crash.

(** ** Callbacks of libmnl *)

Definition MNL_NMEA_DISABLE_NOTIFY := 0x1000.

(** The message by which the thread tells itself to restart the monitor, but
    for offloaded clients and when notices are disabled. *)
Definition send_active_notify : prog gpsctl Z :=
  let* k := next_call in
  let user := gps_user env k in
  let* offload := mnl_offload_is_enabled in
  if (Z.land user (Z.lor GPS_USER_FLP GPS_USER_OFL_TEST) =? user) && offload then ret (-1)
  else
    let* dbg := cfg debug_mnl in
    if Z.land dbg MNL_NMEA_DISABLE_NOTIFY =? 0
    then on_sys (send_msg 1024 MNLD_GPS_CONTROL_SOCKET (put_int GPS2GPS_NMEA_DATA_TIMEOUT))
    else ret (-1).

Definition MTK_AGPS_CB_SUPL_PMTK := 0.
Definition MTK_AGPS_CB_ASSIST_REQ := 1.
Definition MTK_AGPS_CB_START_REQ := 3.
Definition MTK_AGPS_CB_BITMAP_UPDATE := 5.
Definition MTK_AGPS_CB_QEPO_DOWNLOAD_REQ := 6.
Definition ST_SI := 0.

Definition MNLD_QEPO_DOWNLOAD_SOCKET : string := "mnld_qepo_download_socket".
Definition MAIN2QEPO_EVENT_START := 0.
Definition qepo_downloader_start : prog sys Z :=
  int_msg MNLD_QEPO_DOWNLOAD_SOCKET (put_int MAIN2QEPO_EVENT_START).

(** *** The request of a network location ([mnl2nlps.c]) *)

Definition MNL_NLPS_CMD_QUIT := 100.
Definition MNL_NLPS_CMD_GPS_NIJ_REQ := 101.
Definition MNL2NLP_BUFF_SIZE := 32.

Definition fillCmd3 (cmd data1 data2 data3 : Z) : outcome (list Z) :=
  build MNL2NLP_BUFF_SIZE (put_int cmd ;; put_int data1 ;; put_int data2 ;; put_int data3).
Definition write_cmd3 (cmd data1 data2 data3 : Z) : prog gpsctl Z :=
  let* buff := lift (fillCmd3 cmd data1 data2 data3) in
  let* wlen := call (CNlpWrite buff) in
  ret (if wlen =? zlen buff then 0 else -1).
Definition write_cmd0 (cmd : Z) : prog gpsctl Z := write_cmd3 cmd 0x12345678 0x13572468 (s32 0x97651562).
Definition mnl2nlp_send_cmd3_and_quit (cmd data1 data2 data3 : Z) : prog gpsctl Z :=
  let* fd := call CNlpConnect in
  if fd <? 0 then ret (-1)
  else
    let* r := and_then (write_cmd3 cmd data1 data2 data3) (write_cmd0 MNL_NLPS_CMD_QUIT) in
    let* _ := call CNlpClose in
    ret r.
Definition mnl2nlp_send_cmd0_and_quit (cmd : Z) : prog gpsctl Z := mnl2nlp_send_cmd3_and_quit cmd 0 0 0.
Definition mnl2nlp_request_nlp : prog gpsctl Z := mnl2nlp_send_cmd0_and_quit MNL_NLPS_CMD_GPS_NIJ_REQ.

(** *** The dispatcher: [data] is null or a text, [state_mode] the variable of
    the same name, which nothing but the end of an AGPS session writes. *)

Definition supl_request (state_mode type length : Z) (data : cptr) : prog gpsctl Z :=
  if type =? MTK_AGPS_CB_SUPL_PMTK then
    (if negb (length =? 0) then let* _ := on_sys (mnl2agps_pmtk data) in ret tt else ret tt) ;; ret 0
  else if type =? MTK_AGPS_CB_ASSIST_REQ then
    if (state_mode =? ST_IDLE) || (state_mode =? ST_SI)
    then let* _ := on_sys mnl2agps_reaiding_req in ret 0
    else ret MTK_GPS_ERROR
  else
    match data with
    | None => ret MTK_GPS_SUCCESS
    | Some m =>
        let* c := lift (rd m 0) in
        let* _ := on_sys (mnld_gps_start_done (c =? 1)) in ret MTK_GPS_SUCCESS
    end.

(** Bit 0 asks for the time, bit 1 for a network location. *)
Definition bitmap_update (data : list Z) (hal_time : prog sys Z) : prog gpsctl Z :=
  let* c := lift (rd data 0) in
  when (Z.land c 0x01 =? 0x01) (let* _ := on_sys hal_time in ret tt) ;;
  when (Z.land c 0x02 =? 0x02) (let* _ := mnl2nlp_request_nlp in ret tt) ;;
  ret MTK_GPS_SUCCESS.

Definition qepo_request : prog gpsctl Z :=
  let* k := next_call in
  let* r := call CQepoTime in
  let '(wn, tow, sys_time) := qepo_time env k in
  let* _ := call (CSetGpsTime wn tow sys_time) in
  let* _ := on_sys qepo_downloader_start in
  ret r.

Definition mtk_gps_sys_agps_disaptcher_callback (hal_time : prog sys Z) (state_mode type length : Z) (data : cptr)
  : prog gpsctl Z :=
  if (type =? MTK_AGPS_CB_SUPL_PMTK) || (type =? MTK_AGPS_CB_ASSIST_REQ) || (type =? MTK_AGPS_CB_START_REQ) then
    let* supl := cfg SUPL_enabled in
    if negb (supl =? 0) then supl_request state_mode type length data else ret MTK_GPS_ERROR
  else
    match data with
    | Some m =>
        if type =? MTK_AGPS_CB_BITMAP_UPDATE then bitmap_update m hal_time
        else if type =? MTK_AGPS_CB_QEPO_DOWNLOAD_REQ then qepo_request
        else ret MTK_GPS_SUCCESS
    | None => if type =? MTK_AGPS_CB_QEPO_DOWNLOAD_REQ then qepo_request else ret MTK_GPS_SUCCESS
    end.

(** ** Signals and the initialisation *)

Definition MTK_GPS_DISABLE_DEBUG_MSG_WR_BY_MNLD := 0x10.
Definition SIGTERM := 15.

(** True when [exit_meta_factory] is set. *)
Definition linux_signal_handler (signo : Z) : prog gpsctl bool :=
  if signo =? SIGTERM then
    let* k := next_call in
    let user := gps_user env k in
    if negb (Z.land user GPS_USER_APP =? 0) then
      let* '(_, state) := mnl_get_state MNL_GPS_STATE_UNSUPPORTED in
      modify (set_dbg_state MTK_GPS_DISABLE_DEBUG_MSG_WR_BY_MNLD) ;;
      when (state =? MNL_GPS_STATE_START)
        (let* _ := call (CSetDebugType MTK_GPS_DISABLE_DEBUG_MSG_WR_BY_MNLD) in ret tt) ;;
      ret false
    else
      (if negb (Z.land user GPS_USER_META =? 0) then let* _ := mnld_gps_stop in ret tt
       else when (negb (Z.land user GPS_USER_OFL_TEST =? 0))
              (let* _ := mnld_gps_start FLAG_HOT_START in ret tt)) ;;
      ret true
  else ret false.

(** The timeouts and the offload switch of [mnld_cfg], read from the same files
    as [mnl_config]; the result, [start_time_out] and [nmea_data_time_out]. *)
Definition mnl_init (start_time_out : Z) (buf : list Z) : prog gpsctl (Z * Z) :=
  let* e := mnl_attr_init in
  if negb (e =? 0) then ret (e, start_time_out)
  else
    match mnl_utl_load_property (ce_files env) (ce_status env) (Props mnld_cfg 0 buf) with
    | Done (r, p) =>
        modify (fun w =>
          Ctl (c_sys w) (Props (p_cfg (c_props w)) (epo_setconfig p) (propbuf p))
            (cfg_ints (p_cfg p) OFFLOAD_enabled) (assist_data_bit_map w) (delete_aiding_data w) (c_dsp_fd w)
            (chip_id w) (c_epo_type w) (gps_debuglog_state w) (gps_raw_debug_mode w) (mtk_msg_raw_meas_flag w)
            (restart_count w) (nmea_monitor w)
            (if r =? 0 then cfg_ints (p_cfg p) timeout_monitor else nmea_data_time_out w) (c_calls w)) ;;
        let* _ := call CRegisterCallbacks in
        ret (0, if r =? 0 then cfg_ints (p_cfg p) timeout_init else start_time_out)
    | UB => undef
    | Crash => crash
    | Blocked => blocked
    end.
End control.
