(* ===== verification/GpsControlSafe.v ===== *)
(** * The thread that drives the chip returns

    A small logic of the programs of [GpsControl] ([does]): over arbitrary
    answers of the operating system, the driver and libmnl they return, keep the
    configuration in order, and report to the main thread and write to the
    attributes of the driver what the logic says.  What [hasAlmanac] makes of
    its file; that every part of a start is silent. *)

From stdpp Require Import gmap strings.
From S2P Require Import Prelude DataCoder LbsUtility Layout Messages Mnl2Agps AtCommand MnldState Mnld Kernel MnldSystem.
From S2P Require Import Disk Config ConfigText GpsControl.
Open Scope Z_scope.

(** ** Reports to the main thread *)

(** The datagrams for the main thread among what is sent. *)
Definition report_in (n : note) : option (list Z) :=
  match n with
  | NSend path msg => if String.eqb path MNLD_MAIN_SOCKET then Some msg else None
  | _ => None
  end.
Definition reports (ns : list note) : list (list Z) := omap report_in ns.

(** The datagram of a report. *)
Definition report_msg (i : input) : list Z :=
  match i with
  | IStartDone assist => le_bytes 4 GPS2MAIN_EVENT_START_DONE ++ le_bytes 4 assist
  | IStopDone => le_bytes 4 GPS2MAIN_EVENT_STOP_DONE
  | IResetDone => le_bytes 4 GPS2MAIN_EVENT_RESET_DONE
  | INmeaTimeout => le_bytes 4 GPS2MAIN_EVENT_NMEA_TIMEOUT
  | _ => []
  end.
Definition is_report (i : input) : bool :=
  match i with IStartDone z => is_int z | IStopDone | IResetDone | INmeaTimeout => true | _ => false end.

(** The datagram the main thread sends for a command. *)
Definition cmd_note (k : gps_cmd) (flags : Z) : note :=
  match k with
  | CStart => to_gps MAIN2GPS_EVENT_START [flags]
  | CStop => to_gps MAIN2GPS_EVENT_STOP []
  | CReset => to_gps MAIN2GPS_DELETE_AIDING_DATA [flags]
  end.
Definition note_msg (n : note) : list Z := match n with NSend _ msg => msg | _ => [] end.

(** ** A logic of programs that return *)

(** The names fit the arrays of the driver's configuration. *)
Definition ctl_ok (w : gpsctl) : Prop :=
  kernel_ok (c_sys w) /\ config_ok DRIVER_NAME_SIZE (p_cfg (c_props w)) /\
  zlen (propbuf (c_props w)) = PROPBUF_SIZE.

(** The attributes that are written, with the bytes. *)
Definition written (c : ctl_call) : option (string * list Z) :=
  match c with CWrite path data => Some (path, data) | _ => None end.
Definition attr_writes (cs : list ctl_call) : list (string * list Z) := omap written cs.

Record progress (w w' : gpsctl) (rs : list (list Z)) (aw : list (string * list Z)) : Prop := {
  pg_ok : ctl_ok w';
  pg_sys : exists ns, sys_grows (c_sys w) (c_sys w') ns /\ reports ns = rs;
  pg_calls : exists cs, c_calls w' = c_calls w ++ cs /\ attr_writes cs = aw
}.

Lemma progress_refl w : ctl_ok w -> progress w w [] [].
Proof.
  intros H. split; [done|exists []; split; [apply sys_grows_refl|done]|].
  exists []. by rewrite app_nil_r.
Qed.

Lemma progress_trans w1 w2 w3 r1 r2 a1 a2 :
  progress w1 w2 r1 a1 -> progress w2 w3 r2 a2 -> progress w1 w3 (r1 ++ r2) (a1 ++ a2).
Proof.
  intros [_ (n1 & G1 & <-) (c1 & C1 & <-)] [H (n2 & G2 & <-) (c2 & C2 & <-)]. split; [done| |].
  - exists (n1 ++ n2). split; [by eapply sys_grows_trans|]. apply omap_app.
  - exists (c1 ++ c2). split; [by rewrite C2, C1, app_assoc|]. apply omap_app.
Qed.

(** The program returns with [Q] of the result, of what it reports to the main
    thread and of the attributes it writes. *)
Definition does {A} (m : prog gpsctl A) (Q : A -> list (list Z) -> list (string * list Z) -> Prop) : Prop :=
  forall w, ctl_ok w -> returns m w (fun a w' => exists rs aw, progress w w' rs aw /\ Q a rs aw).

Lemma does_mono {A} (m : prog gpsctl A) (P Q : A -> _ -> _ -> Prop) :
  does m P -> (forall a rs aw, P a rs aw -> Q a rs aw) -> does m Q.
Proof.
  intros H HQ w Hw. eapply returns_mono; [exact (H w Hw)|]. intros a w' (rs & aw & Hp & HP). eauto.
Qed.

Lemma does_bind {A B} (m : prog gpsctl A) (k : A -> prog gpsctl B) P Q :
  does m P ->
  (forall a rs aw, P a rs aw -> does (k a) (fun b rs' aw' => Q b (rs ++ rs') (aw ++ aw'))) ->
  does (bind m k) Q.
Proof.
  intros Hm Hk w Hw. apply returns_bind. eapply returns_mono; [exact (Hm w Hw)|].
  intros a w1 (rs & aw & Hp & HP). eapply returns_mono; [exact (Hk a rs aw HP w1 (pg_ok _ _ _ _ Hp))|].
  intros b w2 (rs2 & aw2 & Hp2 & HQ). eexists _, _. split; [by eapply progress_trans|done].
Qed.

Lemma does_ret {A} (a : A) (Q : A -> _ -> _ -> Prop) : Q a [] [] -> does (ret a) Q.
Proof. intros H w Hw. apply returns_ret. exists [], []. split; [by apply progress_refl|done]. Qed.

(** Nothing is reported and no attribute is written. *)
Definition quiet {A} (m : prog gpsctl A) : Prop := does m (fun _ rs aw => rs = [] /\ aw = []).

Lemma quiet_then {A B} (m : prog gpsctl A) (k : A -> prog gpsctl B) Q :
  quiet m -> (forall a, does (k a) Q) -> does (bind m k) Q.
Proof. intros Hm Hk. eapply does_bind; [exact Hm|]. intros a rs aw [-> ->]. apply Hk. Qed.

Lemma quiet_ret {A} (a : A) : quiet (ret a).
Proof. by apply does_ret. Qed.
Lemma quiet_bind {A B} (m : prog gpsctl A) (k : A -> prog gpsctl B) :
  quiet m -> (forall a, quiet (k a)) -> quiet (bind m k).
Proof. intros Hm Hk. by apply quiet_then. Qed.
Lemma quiet_when (c : bool) (m : prog gpsctl unit) : quiet m -> quiet (when c m).
Proof. destruct c; [done|]. intros _. apply quiet_ret. Qed.
Lemma quiet_gets {A} (f : gpsctl -> A) : quiet (gets f).
Proof. intros w Hw. apply returns_gets. exists [], []. split; [by apply progress_refl|done]. Qed.
Lemma quiet_lift {A} (o : outcome A) : (exists a, o = Done a) -> quiet (lift o).
Proof. intros (a & ->). apply quiet_ret. Qed.

Lemma quiet_done {A B} (a : A) (k : A -> prog gpsctl B) : quiet (k a) -> quiet (bind (lift (Done a)) k).
Proof. intros H w. exact (H w). Qed.

(** An assignment that keeps the kernel, the calls and a sound configuration. *)
Lemma quiet_modify (f : gpsctl -> gpsctl) :
  (forall w, c_sys (f w) = c_sys w) -> (forall w, c_calls (f w) = c_calls w) ->
  (forall w, ctl_ok w -> ctl_ok (f w)) -> quiet (modify f).
Proof.
  intros Hs Hc Hok w Hw. apply returns_modify. exists [], []. split; [|done]. split; [auto| |].
  - exists []. rewrite Hs. split; [apply sys_grows_refl|done].
  - exists []. by rewrite Hc, app_nil_r.
Qed.

Lemma does_add_call c :
  does (modify (add_call c)) (fun _ rs aw => rs = [] /\ aw = match written c with Some p => [p] | None => [] end).
Proof.
  intros w Hw. apply returns_modify. eexists [], _. split; [split; [done| |]|split; [done|reflexivity]].
  - exists []. split; [apply sys_grows_refl|done].
  - exists [c]. split; [done|]. cbn. by destruct (written c).
Qed.
Lemma quiet_add_call c : written c = None -> quiet (modify (add_call c)).
Proof. intros E. eapply does_mono; [apply does_add_call|]. cbv beta. by rewrite E. Qed.

(** A program of the operating system with what it is noted to do. *)
Lemma does_on_sys {A} (m : prog sys A) rs :
  (forall s, kernel_ok s -> exists a s' ns, m s = Done (a, s') /\ sys_grows s s' ns /\ reports ns = rs) ->
  does (on_sys m) (fun _ r aw => r = rs /\ aw = []).
Proof.
  intros Hm w (Hk & Hc). destruct (Hm (c_sys w) Hk) as (a & s' & ns & E & G & R).
  exists a, (set_c_sys s' w). split; [by unfold on_sys; cbn; rewrite E|]. exists rs, []. split; [|done].
  split; [|by exists ns|exists []; by rewrite app_nil_r].
  split; [by eapply kernel_ok_grows|exact Hc].
Qed.
Lemma does_send (m : prog sys Z) path msg rs :
  plain_send m path msg -> reports [NSend path msg] = rs -> does (on_sys m) (fun _ r aw => r = rs /\ aw = []).
Proof.
  intros Hm R. apply does_on_sys. intros s Hs. destruct (Hm s Hs) as (a & s' & E & G & _). eauto 6.
Qed.
Lemma quiet_timer id ms : quiet (on_sys (start_timer id ms)).
Proof.
  apply does_on_sys. intros s _. unfold start_timer, timer_settime. destruct (sys_timer_valid s id).
  - eexists _, _, [timer_note id ms]. split; [reflexivity|]. split; [|done]. split; try done.
    cbn. by rewrite map_app.
  - eexists _, _, []. split; [reflexivity|]. split; [apply sys_grows_refl|done].
Qed.

Create HintDb quietdb.
#[export] Hint Resolve quiet_ret quiet_gets quiet_when quiet_timer quiet_lift : quietdb.
(** Takes a program apart into parts that are known to be quiet. *)
Ltac quiet_tac :=
  repeat first
    [ progress cbv zeta beta
    | solve [auto with quietdb]
    | match goal with
      | |- quiet (bind _ _) => apply quiet_bind; [|intros ?]
      | |- quiet (when _ _) => apply quiet_when
      | |- quiet (if ?b then _ else _) => destruct b
      | |- quiet (match ?x with _ => _ end) => destruct x
      end ].

(** ** The almanac *)

(** What follows the last newline; all but the first character where there is
    none. *)
Fixpoint last_line (l : list Z) : list Z :=
  match l with
  | [] => []
  | _ :: l' => if bool_decide (10 ∈ l') then last_line l' else l'
  end.

Lemma last_line_at pre c post : 10 ∉ post -> (pre <> [] -> c = 10) -> last_line (pre ++ c :: post) = post.
Proof.
  intros Hp. induction pre as [|d pre IH]; intros Hc; cbn [app last_line]; [by rewrite bool_decide_false|].
  assert (c = 10) as -> by (by apply Hc). rewrite bool_decide_true by set_solver. by apply IH.
Qed.

(** The search from the end: [pre] is still to be looked at, [post] has no
    newline. *)
Lemma back_to_newline_spec pre c post n size :
  10 ∉ post -> (pre = [] -> c = 10 \/ size = 0) -> (pre <> [] -> size <> 0) -> (length pre <= n)%nat ->
  exists pos, back_to_newline (pre ++ c :: post) n (- zlen post - 2) (zlen pre + 1) c size = Done pos /\
    drop (Z.to_nat pos) (pre ++ c :: post) = last_line (pre ++ c :: post).
Proof.
  revert c post n size. induction pre as [|d pre IH] using rev_ind; intros c post n size Hp H0 H1 Hn.
  - exists 1. rewrite (last_line_at []) by done. split; [|done].
    destruct n; cbn [back_to_newline]; (destruct (H0 eq_refl) as [->| ->]; [done|by rewrite orb_true_r]).
  - specialize (H1 ltac:(by destruct pre)). destruct (Z.eqb_spec c 10) as [->|Hc].
    + exists (zlen (pre ++ [d]) + 1). rewrite last_line_at by done. split; [by destruct n|].
      rewrite (app_assoc _ [10] post : _ ++ 10 :: post = _). apply drop_app_length'. lists. lia.
    + destruct n as [|n]; [revert Hn; lists; lia|]. cbn [back_to_newline].
      replace ((c =? 10) || (size =? 0)) with false by lia. rewrite <- app_assoc. cbn [app].
      assert (zlen (pre ++ d :: c :: post) + (- zlen post - 2) = zlen pre) as E by (lists; lia).
      rewrite E. iffalse. rewrite list_lookup_middle by (lists; lia).
      destruct (IH d (c :: post) n (zlen pre)) as (pos & Hpos & Hd).
      * apply not_elem_of_cons. split; [congruence|done].
      * intros ->. by right.
      * intros Hpre. destruct pre; [done|lists; lia].
      * revert Hn. lists. lia.
      * exists pos. split; [|exact Hd]. rewrite <- Hpos. f_equal; lists; lia.
Qed.

(** A file of one character that is no newline is searched for ever. *)
Lemma back_to_newline_stuck c n i ch : i <= -2 -> ch <> 10 -> back_to_newline [c] n i 1 ch 1 = Blocked.
Proof.
  revert i ch. induction n as [|n IH]; intros i ch Hi Hc; cbn [back_to_newline];
    replace ((ch =? 10) || (1 =? 0)) with false by lia; [done|].
  change (zlen [c]) with 1. replace (1 + i <? 0) with true by lia.
  change ([c] !! Z.to_nat 1) with (@None Z). cbn [lookup]. by apply IH; [lia|].
Qed.

Definition kept (l : list Z) : list Z := List.filter is_almanac_char l.

Lemma kept_no_nul l : 0 ∉ kept l.
Proof.
  intros H. apply list_elem_of_In, filter_In in H as [_ H]. done.
Qed.

Lemma collect_spec l pre k :
  collect l (zlen pre) (pre ++ zeros k) =
    (if (length (kept l) <=? k)%nat then Done (pre ++ kept l ++ zeros (k - length (kept l))) else UB).
Proof.
  revert pre k. induction l as [|c l IH]; intros pre k; cbn [collect kept List.filter].
  { cbn. by rewrite Nat.sub_0_r. }
  fold (kept l). destruct (is_almanac_char c); [|apply IH]. destruct k as [|k].
  - cbn [length Nat.leb zeros replicate]. rewrite app_nil_r. unfold wr.
    replace ((0 <=? zlen pre) && (zlen pre <? zlen pre)) with false by lia. done.
  - change (zeros (S k)) with (0 :: zeros k). rewrite wr_at. cbn [obind].
    specialize (IH (pre ++ [c]) k). rewrite <- !app_assoc in IH. cbn [app] in IH.
    replace (zlen (pre ++ [c])) with (zlen pre + 1) in IH by (lists; lia). rewrite IH. done.
Qed.

(** The text of the almanac, or an overrun of the array of 32 characters. *)
Definition almanac_text (l : list Z) : outcome (list Z) :=
  if zlen (kept (last_line l)) <? 32 then Done (kept (last_line l)) else UB.

Lemma almanac_line_text l :
  l <> [] -> almanac_line l = if (zlen l =? 1) && negb (default 0 (last l) =? 10) then Blocked else almanac_text l.
Proof.
  intros Hl. destruct (exists_last Hl) as (pre & c & ->). rewrite last_snoc. cbn [default].
  unfold almanac_line. assert (zlen (pre ++ [c]) - 1 = zlen pre) as -> by (lists; lia).
  rewrite (rd_at pre c []) by done. cbn [obind id]. destruct pre as [|d pre].
  - cbn [app]. change (zlen [c]) with 1. cbn [Z.eqb Pos.eqb andb]. destruct (Z.eqb_spec c 10) as [->|Hc]; cbn [negb].
    + done.
    + by rewrite back_to_newline_stuck.
  - replace (zlen ((d :: pre) ++ [c]) =? 1) with false by (symmetry; apply Z.eqb_neq; lists; lia). cbn [andb].
    destruct (back_to_newline_spec (d :: pre) c [] (length ((d :: pre) ++ [c]) + 1) (zlen ((d :: pre) ++ [c])))
      as (pos & E & D); [apply not_elem_of_nil|done|lists; lia|lists; lia|].
    change (- zlen [] - 2) with (-2) in E.
    replace (zlen (d :: pre) + 1) with (zlen ((d :: pre) ++ [c])) in E by (lists; lia).
    rewrite E. cbn [obind]. rewrite D. unfold almanac_text. set (l := last_line _).
    pose proof (collect_spec l [] 32) as C. cbn [app] in C. change (zlen []) with 0 in C. rewrite C.
    destruct (Nat.leb_spec (length (kept l)) 32); cbn [obind]; [|by iffalse].
    destruct (Z.ltb_spec (zlen (kept l)) 32).
    + apply str_at_holds; [done|]. cbn [Z.to_nat drop]. exists (zeros (31 - length (kept l))).
      split; [|apply kept_no_nul]. by replace (32 - length (kept l))%nat with (S (31 - length (kept l))) by lia.
    + replace (32 - length (kept l))%nat with O by lia. rewrite app_nil_r. unfold str_at. change (Z.to_nat 0) with O.
      rewrite drop_0. enough (strlen (kept l) = None) as -> by reflexivity.
      destruct (strlen (kept l)) as [n|] eqn:En; [|reflexivity]. exfalso.
      apply strlen_sound in En as [(rest & Er & _) _]. apply (kept_no_nul l). rewrite Er. set_solver.
Qed.

(** ** The surroundings in which the thread is safe

    Nothing is assumed of the results of the calls, but that a read or a write
    of an attribute is not interrupted for ever; the files hold numbers that are
    not too large and names that fit, the almanac is none that breaks
    [hasAlmanac], the name of the debug log fits its array, and the position
    libmnl gives has the types of its members. *)
Definition raw_number_ok (s : list Z) : Prop :=
  match parse_line GPS_CONF_FILE_SIZE s with
  | Some (Some (k, v)) => k = lit "RAW_DEBUG_MODE" -> exists z, int_of v = Done z
  | _ => True
  end.
Definition almanac_ok (file : option (list Z)) : Prop :=
  match file with
  | None | Some [] => True
  | Some l =>
      (zlen l = 1 -> last l = Some 10) /\ zlen (kept (last_line l)) < 32 /\
      (forall sats time, at_comma (kept (last_line l)) = Some (sats, time) -> sats <> [] -> exists z, atoi sats = Done z)
  end.

Record env_ok (env : ctl_env) : Prop := {
  eo_transfers : forall k c, exists n, retry (transfers env k c) = Some n;
  eo_props : Forall (fun path => numbers_ok DRIVER_NAME_SIZE (ce_files env !! path)) mnl_prop_path;
  eo_status : forall v, ce_status env = Some v -> Forall (fun c => 0 <= c < 256) v;
  eo_conf : forall l, ce_files env !! EPO_CONTROL_FILE_PATH = Some l ->
              Forall raw_number_ok (file_lines GPS_CONF_FILE_SIZE l);
  eo_almanac : almanac_ok (ce_files env !! "/nvcfg/almanac.dat"%string);
  eo_log : exists s, holds_cstr (dbg_file env) s /\ zlen s < GPS_DEBUG_LOG_FILE_NAME_MAX_LEN;
  eo_position : forall k lat lng acc, accuracy_at env k = (lat, lng, acc) ->
                  mnl2agps_ok (A_location_sync lat lng acc)
}.

Section quiet.
Context (env : ctl_env) (Hok : env_ok env).

(** *** Calls and attributes *)

Lemma quiet_call c : written c = None -> quiet (call env c).
Proof.
  intros E. apply quiet_bind; [apply quiet_gets|]. intros k. apply quiet_bind; [by apply quiet_add_call|].
  intros _. apply quiet_ret.
Qed.
#[local] Hint Extern 1 (quiet (call _ _)) => (apply quiet_call; reflexivity) : quietdb.
#[local] Hint Extern 1 (quiet next_call) => apply quiet_gets : quietdb.
#[local] Hint Extern 1 (quiet (cfg _)) => apply quiet_gets : quietdb.
#[local] Hint Extern 1 (quiet mnl_offload_is_enabled) => apply quiet_gets : quietdb.

Lemma does_transfer c :
  does (transfer env c)
    (fun _ rs aw => rs = [] /\ aw = match written c with Some p => [p] | None => [] end).
Proof.
  apply quiet_then; [apply quiet_gets|]. intros k. eapply does_bind; [apply does_add_call|].
  intros _ rs aw [-> ->]. destruct (eo_transfers _ Hok k c) as (n & ->). apply does_ret. split; [done|apply app_nil_r].
Qed.
Lemma quiet_transfer c : written c = None -> quiet (transfer env c).
Proof. intros E. eapply does_mono; [apply does_transfer|]. cbv beta. by rewrite E. Qed.
#[local] Hint Extern 1 (quiet (transfer _ _)) => (apply quiet_transfer; reflexivity) : quietdb.

Lemma quiet_close_attr name res failure : quiet (close_attr env name res failure).
Proof. unfold close_attr. quiet_tac. Qed.
#[local] Hint Resolve quiet_close_attr : quietdb.
Lemma quiet_read_attr name attr : quiet (mnl_read_attr env name attr).
Proof. unfold mnl_read_attr. quiet_tac. Qed.

(** An attribute is written or its file could not be opened. *)
Lemma does_write_attr name buf :
  does (write_attr env name buf) (fun _ rs aw => rs = [] /\ (aw = [] \/ aw = [(name, buf)])).
Proof.
  unfold write_attr. apply quiet_then; [auto with quietdb|]. intros k0.
  apply quiet_then; [auto with quietdb|]. intros fd. destruct (fd =? -1); [apply does_ret; auto|].
  apply quiet_then; [auto with quietdb|]. intros k.
  eapply does_bind; [apply does_transfer|]. intros n rs aw [-> ->].
  eapply does_mono; [apply quiet_bind; [auto with quietdb|]; intros k2; apply quiet_close_attr|].
  intros r rs aw [-> ->]. auto.
Qed.

(** *** Assignments *)

Lemma quiet_put_cfg x z : int_fits x z = true -> quiet (put_cfg x z).
Proof.
  intros Hz. apply quiet_modify; [done|done|]. intros w (Hk & Hc & Hb). split; [done|]. split; [|done].
  by apply cfg_put_ok.
Qed.
#[local] Hint Extern 1 (quiet (put_cfg _ _)) => (apply quiet_put_cfg; reflexivity) : quietdb.

(** The other variables of the file. *)
Lemma quiet_set (f : gpsctl -> gpsctl) :
  (forall w, c_sys (f w) = c_sys w) -> (forall w, c_calls (f w) = c_calls w) ->
  (forall w, c_props (f w) = c_props w) -> quiet (modify f).
Proof. intros Hs Hc Hp. apply quiet_modify; [done|done|]. intros w. unfold ctl_ok. by rewrite Hs, Hp. Qed.
#[local] Hint Extern 2 (quiet (modify _)) => (apply quiet_set; intros; reflexivity) : quietdb.

Lemma quiet_property_set name value : quiet (property_set env name value).
Proof. unfold property_set. quiet_tac. Qed.
#[local] Hint Resolve quiet_property_set : quietdb.

(** *** The parts of [linux_gps_init] *)

Lemma quiet_detect n : quiet (detect_loop env n).
Proof. induction n as [|n IH]; cbn [detect_loop]; quiet_tac. Qed.
#[local] Hint Resolve quiet_detect : quietdb.

Lemma quiet_chip_detector : quiet (chip_detector env).
Proof. unfold chip_detector, confirm_if_3332, hand_shake, hw_test_3332, read_NVRAM. quiet_tac. Qed.
Lemma quiet_clock u : quiet (clock_setup env u).
Proof. unfold clock_setup. quiet_tac. Qed.
Lemma quiet_versions : quiet (chip_versions env).
Proof. unfold chip_versions. quiet_tac. Qed.
#[local] Hint Resolve quiet_chip_detector quiet_clock quiet_versions : quietdb.
Lemma quiet_probe p type : quiet (run_probe env p type).
Proof. destruct p; cbn [run_probe]; quiet_tac. Qed.
#[local] Hint Resolve quiet_probe : quietdb.
Lemma quiet_chip_setup : quiet (chip_setup env).
Proof. unfold chip_setup. quiet_tac. Qed.
Lemma quiet_epo_type : quiet epo_type_setup.
Proof. unfold epo_type_setup. quiet_tac. Qed.
#[local] Hint Resolve quiet_chip_setup quiet_epo_type : quietdb.

Lemma copied_fits size a s : holds_cstr a s -> zlen s < size -> copied size a = Done s.
Proof. intros H Hs. unfold copied. rewrite (str_at_holds a 0 s) by done. cbn [obind]. by iftrue. Qed.

(** A name of the configuration is copied: it fits. *)
Lemma quiet_cfg_text x : quiet (cfg_text x).
Proof.
  intros w Hw. apply returns_bind, returns_gets.
  destruct (co_text _ _ (proj1 (proj2 Hw)) x) as (s & Hs & Hl).
  apply (returns_lift _ s); [by apply copied_fits|]. exists [], []. split; [by apply progress_refl|done].
Qed.
#[local] Hint Resolve quiet_cfg_text : quietdb.

Lemma quiet_driver_setup : quiet (driver_setup env).
Proof.
  unfold driver_setup. quiet_tac. destruct (eo_log _ Hok) as (s & Hs & Hl).
  apply quiet_lift. exists s. by apply copied_fits.
Qed.
#[local] Hint Resolve quiet_driver_setup : quietdb.

Lemma quiet_send_profile n p : quiet (send_profile env n p).
Proof. induction n as [|n IH]; cbn [send_profile]; quiet_tac. Qed.

Lemma quiet_sync : quiet (sync_location env).
Proof.
  unfold sync_location. apply quiet_bind; [auto with quietdb|]. intros k.
  apply quiet_bind; [auto with quietdb|]. intros r.
  destruct (accuracy_at env k) as [[lat lng] acc] eqn:E. apply quiet_when, quiet_bind; [|intros; apply quiet_ret].
  apply (does_send _ MNL_TO_AGPS (mnl2agps_bytes (A_location_sync lat lng acc))); [|done].
  pose proof (eo_position _ Hok k _ _ _ E) as H. apply (mnl2agps_plain (A_location_sync lat lng acc)); [done|].
  unfold mnl2agps_bytes. cbn [mnl2agps_fields]. rewrite length_enc_msg.
  unfold enc_fields, MNL_AGPS_MAX_BUFF_SIZE. cbn [map concat enc_field]. clen.
Qed.

Lemma quiet_almanac : quiet (hasAlmanac env).
Proof.
  unfold hasAlmanac. pose proof (eo_almanac _ Hok) as H. destruct (ce_files env !! _) as [[|c l]|];
    [apply quiet_ret| |apply quiet_ret].
  destruct H as (H1 & H2 & H3). assert (almanac_line (c :: l) = Done (kept (last_line (c :: l)))) as ->.
  { rewrite almanac_line_text by done. unfold almanac_text. destruct (Z.eqb_spec (zlen (c :: l)) 1) as [Hl|].
    - rewrite (H1 Hl). cbn [default negb Z.eqb andb]. by iftrue.
    - cbn [andb]. by iftrue. }
  apply quiet_done. destruct (at_comma _) as [[sats time]|] eqn:E; [|apply quiet_ret].
  apply quiet_bind; [|intros num; quiet_tac]. apply quiet_lift. destruct sats as [|d sats]; [by exists 0|].
  by apply (H3 _ _ eq_refl).
Qed.

Lemma raw_conf_returns mode : exists a, gps_raw_data_enable (ce_files env !! EPO_CONTROL_FILE_PATH) mode = Done a.
Proof.
  pose proof (eo_conf _ Hok) as H. rewrite raw_conf_text. destruct (_ !! _) as [l|]; [|by eexists].
  specialize (H l eq_refl). unfold raw_text. set (ls := file_lines _ _) in *. clearbody ls.
  enough (exists a, run_lines GPS_CONF_FILE_SIZE raw_setting ls mode = Done a) as ([[] m] & E)
    by (unfold bind; rewrite E; by eexists).
  revert mode. induction H as [|s ls Hs _ IH]; intros mode; cbn [run_lines]; [by eexists|].
  unfold raw_number_ok in Hs. destruct (parse_line _ s) as [[[k v]|]|]; [|by apply IH|by eexists].
  unfold raw_setting. case_bool_decide as Hk; cbn [when]; [|by apply IH].
  destruct (Hs Hk) as (z & E). unfold put_number. unfold bind at 1 2. rewrite E. by apply IH.
Qed.

Lemma quiet_after_run : quiet (after_run env).
Proof.
  unfold after_run, update_if_there, user_profile.
  pose proof quiet_send_profile. pose proof quiet_sync. pose proof quiet_almanac. quiet_tac.
  apply quiet_lift, raw_conf_returns.
Qed.
#[local] Hint Resolve quiet_after_run : quietdb.

Lemma quiet_run_libmnl i d : quiet (run_libmnl env i d).
Proof. unfold run_libmnl, offload_option. quiet_tac. Qed.
#[local] Hint Resolve quiet_run_libmnl : quietdb.

(** A text of the configuration is read. *)
Lemma quiet_read_text {A} x (k : list Z -> prog gpsctl A) :
  (forall s, quiet (k s)) ->
  quiet (let* path := gets (fun w => cfg_strs (p_cfg (c_props w)) x) in
         let* path := lift (str_at path 0) in k path).
Proof.
  intros Hq w Hw. apply returns_bind, returns_gets.
  destruct (co_text _ _ (proj1 (proj2 Hw)) x) as (s & Hs & _).
  pose proof (str_at_holds _ 0 s ltac:(done) Hs) as E. step_lift E. by apply Hq.
Qed.

Lemma quiet_gps_init : quiet (linux_gps_init env).
Proof. unfold linux_gps_init. apply quiet_read_text. intros path. quiet_tac. Qed.

Lemma quiet_load_property : quiet (on_props (mnl_utl_load_property (ce_files env) (ce_status env))).
Proof.
  intros w (Hk & Hc & Hb).
  destruct (mnl_prop_returns DRIVER_NAME_SIZE (ce_files env) (ce_status env) (c_props w))
    as (r & p' & E & Hc' & Hb' & _); [done|done|apply (eo_props _ Hok)|apply (eo_status _ Hok)|].
  exists r, (set_props p' w). unfold on_props. rewrite E. split; [done|]. exists [], []. split; [|done].
  split; [done|exists []; split; [apply sys_grows_refl|done]|exists []; by rewrite app_nil_r].
Qed.
#[local] Hint Resolve quiet_gps_init quiet_load_property : quietdb.

Lemma quiet_stop_impl : quiet (mnld_gps_stop_impl env).
Proof. unfold mnld_gps_stop_impl. quiet_tac. Qed.
#[local] Hint Resolve quiet_stop_impl : quietdb.

Lemma quiet_start_impl : quiet (mnld_gps_start_impl env).
Proof. unfold mnld_gps_start_impl, linux_setup_signal_handler, get_gps_version. quiet_tac. Qed.

Lemma quiet_stop_monitor : quiet stop_nmea_monitor.
Proof. unfold stop_nmea_monitor, stop_timer. quiet_tac. Qed.
Lemma quiet_restart_monitor : quiet restart_nmea_monitor.
Proof. unfold restart_nmea_monitor. quiet_tac. Qed.

End quiet.

#[export] Hint Extern 1 (quiet (call _ _)) => (apply quiet_call; reflexivity) : quietdb.
#[export] Hint Extern 1 (quiet next_call) => apply quiet_gets : quietdb.
#[export] Hint Extern 1 (quiet (cfg _)) => apply quiet_gets : quietdb.
#[export] Hint Extern 1 (quiet mnl_offload_is_enabled) => apply quiet_gets : quietdb.
#[export] Hint Extern 2 (quiet (modify _)) => (apply quiet_set; intros; reflexivity) : quietdb.
#[export] Hint Resolve quiet_detect quiet_chip_detector quiet_clock quiet_chip_setup quiet_epo_type
  quiet_driver_setup quiet_after_run quiet_load_property quiet_stop_impl quiet_property_set : quietdb.
