(* ===== verification/GpsControlRun.v ===== *)
(** * What the thread that drives the chip promises

    Commands in, reports out: a turn of the thread answers the main thread as
    the system of [MnldSystem] assumes; which attributes of the driver a start
    and a stop write and what a start that fails leaves; when libmnl's notice of
    the start reaches the main thread; which names of the configuration overrun
    the arrays of the driver's. *)

From stdpp Require Import gmap strings.
From S2P Require Import Prelude DataCoder LbsUtility Layout Messages Mnl2Agps AtCommand MnldState Mnld Kernel MnldFsm MnldSystem.
From S2P Require Import Disk Config ConfigText GpsControl GpsControlSafe.
Open Scope Z_scope.

Section commands.
Context (env : ctl_env) (Hok : env_ok env).

(** ** The commands *)

Lemma does_write_any name buf : does (write_attr env name buf) (fun _ rs _ => rs = []).
Proof. eapply does_mono; [by apply does_write_attr|]. by intros ? ? ? []. Qed.

Lemma silent_then {A B} (m : prog gpsctl A) (k : A -> prog gpsctl B) rs :
  does m (fun _ r _ => r = []) -> (forall a, does (k a) (fun _ r _ => r = rs)) ->
  does (bind m k) (fun _ r _ => r = rs).
Proof. intros Hm Hk. eapply does_bind; [exact Hm|]. intros a r aw ->. apply Hk. Qed.
Lemma quiet_silent {A} (m : prog gpsctl A) : quiet m -> does m (fun _ r _ => r = []).
Proof. intros H. eapply does_mono; [exact H|]. by intros ? ? ? []. Qed.

Lemma start_reports flags : does (mnld_gps_start env flags) (fun _ rs _ => rs = []).
Proof.
  unfold mnld_gps_start. apply silent_then; [apply quiet_silent; auto with quietdb|]. intros _.
  apply silent_then; [by apply does_write_any|]. intros r. destruct (r =? 0); [|by apply does_ret].
  apply silent_then; [by apply quiet_silent, quiet_start_impl|]. intros r'. destruct (r' =? 0); [|by apply does_ret].
  apply silent_then; [by apply does_write_any|]. intros _. by apply does_ret.
Qed.

Lemma does_report (m : prog sys Z) i :
  plain_send m MNLD_MAIN_SOCKET (report_msg i) -> does (on_sys m) (fun _ rs aw => rs = [report_msg i] /\ aw = []).
Proof. intros H. by eapply does_send. Qed.

Lemma stop_reports :
  does (mnld_gps_stop env) (fun r rs _ => rs = if r =? 0 then [report_msg IStopDone] else []).
Proof.
  unfold mnld_gps_stop. apply quiet_then; [apply quiet_stop_monitor|]. intros _.
  apply quiet_then; [by apply quiet_stop_impl|]. intros e. destruct (e =? 0) eqn:E; [|apply does_ret; by rewrite E].
  eapply does_bind; [by apply does_write_any|]. intros r1 rs1 aw1 ->.
  eapply does_bind; [by apply does_write_any|]. intros r2 rs2 aw2 ->.
  eapply does_bind; [apply (does_report _ IStopDone)|].
  - apply int_msg_plain; [solve_writes|done|done].
  - intros r3 rs3 aw3 [-> ->]. by apply does_ret.
Qed.

Lemma reset_reports flags :
  does (mnld_gps_delete_aiding_data env flags) (fun _ rs _ => rs = [report_msg IResetDone]).
Proof.
  unfold mnld_gps_delete_aiding_data. apply quiet_then; [auto with quietdb|]. intros _.
  eapply does_bind; [apply (does_report _ IResetDone)|].
  - apply int_msg_plain; [solve_writes|done|done].
  - intros r rs aw [-> ->]. by apply does_ret.
Qed.
End commands.

(** ** Datagrams *)

(** A handler of internal events has read the number of the event. *)
Lemma int_event {W A} n cmd rest (none : prog W A) (k : Z * cbuf -> prog W A) w :
  is_int cmd = true -> 4 + zlen rest <= n ->
  bind (lift (safe_recvfrom [RData (le_bytes 4 cmd ++ rest)] n))
    (fun '(read_len, buff) => if read_len <=? 0 then none else bind (decode (CBuf buff 0) get_int) k) w =
  k (cmd, cursor (le_bytes 4 cmd) (rest ++ zeros (Z.to_nat n - (4 + length rest)))) w.
Proof.
  intros Hc Hn. assert (zlen (le_bytes 4 cmd ++ rest) = 4 + zlen rest) as E by (lists; rewrite length_le_bytes; lia).
  unfold bind at 1, lift. rewrite safe_recvfrom_data by (rewrite E; lia). rewrite E. iffalse.
  set (post := zeros _). rewrite <- app_assoc.
  change (CBuf (le_bytes 4 cmd ++ rest ++ post) 0) with (cursor [] (le_bytes 4 cmd ++ rest ++ post)).
  rewrite (bind_done _ _ _ _ _ (decode_done _ _ _ _ w (get_int_cursor [] cmd (rest ++ post)))).
  rewrite wrap_s_id by (lia || done). done.
Qed.

(** The argument of an event. *)
Lemma decode_arg {W A} pre z post (k : Z * cbuf -> prog W A) w :
  is_int z = true ->
  bind (decode (cursor pre (le_bytes 4 z ++ post)) get_int) k w = k (z, cursor (pre ++ le_bytes 4 z) post) w.
Proof.
  intros Hz. rewrite (bind_done _ _ _ _ _ (decode_done _ _ _ _ w (get_int_cursor pre z post))).
  by rewrite wrap_s_id.
Qed.

(** The main thread serves the input of every report. *)
Lemma report_read junk i w :
  is_report i = true ->
  main_event_hdlr junk [RData (report_msg i)] w = bind (handler i) (fun _ => ret 0) w.
Proof.
  assert (forall i c, report_msg i = le_bytes 4 c -> report_msg i = le_bytes 4 c ++ []) as E
    by (intros ? ? ->; by rewrite app_nil_r).
  intros Hi. unfold main_event_hdlr. destruct i; try discriminate Hi.
  - cbn [report_msg is_report] in *. rewrite int_event; [|done|unfold MNLD_INTERNAL_BUFF_SIZE; lists; rewrite ?length_le_bytes; lia].
    cbv beta iota. dispatch. unfold bind at 1. rewrite decode_arg by done. done.
  - rewrite (E IStopDone _ eq_refl), int_event by done. cbv beta iota. by dispatch.
  - rewrite (E IResetDone _ eq_refl), int_event by done. cbv beta iota. by dispatch.
  - rewrite (E INmeaTimeout _ eq_refl), int_event by done. cbv beta iota. by dispatch.
Qed.

(** The program a command runs. *)
Definition serve (env : ctl_env) (k : gps_cmd) (flags : Z) : prog gpsctl Z :=
  match k with
  | CStart => mnld_gps_start env flags
  | CStop => mnld_gps_stop env
  | CReset => mnld_gps_delete_aiding_data env flags
  end.

Lemma command_read env k flags w :
  is_int flags = true ->
  gps_control_event_hdlr env [RData (note_msg (cmd_note k flags))] w = bind (serve env k flags) (fun _ => ret 0) w.
Proof.
  intros Hf. unfold gps_control_event_hdlr. destruct k; cbn [cmd_note to_gps note_msg map concat serve];
    (rewrite int_event; [|done|unfold MNLD_INTERNAL_BUFF_SIZE; lists; rewrite ?length_le_bytes; lia]); cbv beta iota;
    dispatch; rewrite ?app_nil_r; try by rewrite decode_arg.
  done.
Qed.

Lemma serve_reports env k flags :
  env_ok env ->
  does (serve env k flags)
    (fun r rs _ => rs = map report_msg (answer k) \/ k = CStop /\ r <> 0 /\ rs = []).
Proof.
  intros He. destruct k; cbn [serve answer map].
  - eapply does_mono; [by apply start_reports|]. auto.
  - eapply does_mono; [by apply stop_reports|]. intros r rs _ ->. destruct (Z.eqb_spec r 0); auto.
  - eapply does_mono; [by apply reset_reports|]. auto.
Qed.

(** ** The attributes of a driver in order *)

Definition attrs_ok (env : ctl_env) : Prop :=
  forall k path data, ans env k (COpen path) <> -1 /\ ans env k (CClose path) <> -1 /\
    retry (transfers env k (CWrite path data)) = Some (zlen data).

(** A call was made and answered so. *)
Definition answered (env : ctl_env) (c : ctl_call) (z : Z) (w : gpsctl) : Prop :=
  exists k, c_calls w !! k = Some c /\ ans env k c = z.

Lemma answered_progress env c z w w' rs aw : progress w w' rs aw -> answered env c z w -> answered env c z w'.
Proof.
  intros [_ _ (cs & E & _)] (k & Hk & Ha). exists k. split; [|done]. rewrite E. by apply lookup_app_l_Some.
Qed.

(** From a state with [P] the program returns with [Q]. *)
Definition leads {A} (P : gpsctl -> Prop) (m : prog gpsctl A) (Q : A -> gpsctl -> Prop) : Prop :=
  forall w, ctl_ok w -> P w -> returns m w (fun a w' => ctl_ok w' /\ Q a w').

Lemma leads_bind {A B} P (m : prog gpsctl A) (k : A -> prog gpsctl B) R Q :
  leads P m R -> (forall a, leads (R a) (k a) Q) -> leads P (bind m k) Q.
Proof.
  intros Hm Hk w Hw HP. apply returns_bind. eapply returns_mono; [exact (Hm w Hw HP)|].
  intros a w1 (Hw1 & HR). by apply Hk.
Qed.
Lemma leads_ret {A} (P : gpsctl -> Prop) (a : A) (Q : A -> gpsctl -> Prop) : (forall w, P w -> Q a w) -> leads P (ret a) Q.
Proof. intros H w Hw HP. apply returns_ret. auto. Qed.
(** What a call was answered stays so. *)
Lemma leads_does {A} (m : prog gpsctl A) D env c z :
  does m D -> leads (answered env c z) m (fun _ => answered env c z).
Proof.
  intros Hm w Hw Ha. eapply returns_mono; [exact (Hm w Hw)|]. intros a w' (rs & aw & Hp & _).
  split; [apply Hp|by eapply answered_progress].
Qed.
Lemma leads_any {A} (m : prog gpsctl A) D P : does m D -> leads P m (fun _ _ => True).
Proof.
  intros Hm w Hw _. eapply returns_mono; [exact (Hm w Hw)|]. intros a w' (rs & aw & Hp & _). split; [apply Hp|done].
Qed.
Lemma leads_call env c P : written c = None -> leads P (call env c) (fun r w => answered env c r w).
Proof.
  intros Hc w Hw _. destruct (quiet_call env c Hc w Hw) as (r & w' & E & rs & aw & Hp & _).
  exists r, w'. split; [done|]. split; [apply Hp|]. revert E. unfold call, next_call. cbn. intros [= <- <-].
  exists (length (c_calls w)). split; [|done]. cbn. by apply list_lookup_middle.
Qed.

Section power.
Context (env : ctl_env) (Hok : env_ok env) (Hattrs : attrs_ok env).

Lemma does_call c (P : Z -> Prop) : written c = None -> (forall k, P (ans env k c)) ->
  does (call env c) (fun r rs aw => P r /\ rs = [] /\ aw = []).
Proof.
  intros Hc HP w Hw. destruct (quiet_call env c Hc w Hw) as (r & w' & E & rs & aw & Hp & HQ).
  exists r, w'. split; [done|]. exists rs, aw. split; [done|]. split; [|done].
  revert E. unfold call, next_call. cbn. intros [= <- _]. apply HP.
Qed.

Lemma does_transfer_all path data :
  does (transfer env (CWrite path data)) (fun n rs aw => n = zlen data /\ rs = [] /\ aw = [(path, data)]).
Proof.
  apply quiet_then; [apply quiet_gets|]. intros k. eapply does_bind; [apply does_add_call|].
  intros _ rs aw [-> ->]. destruct (Hattrs k path data) as (_ & _ & ->). by apply does_ret.
Qed.

Lemma attr_written name buf :
  does (write_attr env name buf) (fun r rs aw => r = 0 /\ rs = [] /\ aw = [(name, buf)]).
Proof.
  unfold write_attr. apply quiet_then; [apply quiet_gets|]. intros k0.
  eapply does_bind; [apply (does_call _ (fun r => r <> -1)); [done|intros k; apply (Hattrs k name [])]|].
  intros fd rs aw (Hfd & -> & ->). destruct (Z.eqb_spec fd (-1)); [done|].
  apply quiet_then; [apply quiet_gets|]. intros k. eapply does_bind; [apply does_transfer_all|].
  intros got rs aw (-> & -> & ->). apply quiet_then; [apply quiet_gets|]. intros k2. rewrite Z.eqb_refl.
  unfold close_attr. eapply does_bind; [apply (does_call _ (fun r => r <> -1)); [done|intros k'; apply (Hattrs k' name [])]|].
  intros r rs aw (Hr & -> & ->). destruct (Z.eqb_spec r (-1)); [done|]. by apply does_ret.
Qed.

Definition pwrctl_is (z : Z) : string * list Z := (MNL_ATTR_PWRCTL, [48 + z]).
Definition state_is (z : Z) : string * list Z := (MNL_ATTR_STATE, [48 + z]).

Lemma start_writes flags :
  does (mnld_gps_start env flags)
    (fun r _ aw => aw = pwrctl_is GPS_PWRCTL_RST :: if r =? 0 then [state_is MNL_GPS_STATE_START] else []).
Proof.
  unfold mnld_gps_start. apply quiet_then; [by apply quiet_set|]. intros _.
  eapply does_bind; [apply attr_written|]. intros r rs aw (-> & -> & ->). cbn [Z.eqb app].
  apply quiet_then; [by apply quiet_start_impl|]. intros r.
  destruct (r =? 0) eqn:E; [|apply does_ret; by rewrite E].
  eapply does_bind; [apply attr_written|]. intros r2 rs aw (-> & -> & ->). by apply does_ret.
Qed.

Lemma stop_writes :
  does (mnld_gps_stop env)
    (fun r _ aw => aw = if r =? 0 then [pwrctl_is GPS_PWRCTL_OFF; state_is MNL_GPS_STATE_PWROFF] else []).
Proof.
  unfold mnld_gps_stop. apply quiet_then; [apply quiet_stop_monitor|]. intros _.
  apply quiet_then; [by apply quiet_stop_impl|]. intros e. destruct (e =? 0) eqn:E; [|apply does_ret; by rewrite E].
  eapply does_bind; [apply attr_written|]. intros r1 rs1 aw1 (-> & -> & ->).
  eapply does_bind; [apply attr_written|]. intros r2 rs2 aw2 (-> & -> & ->).
  eapply does_bind; [apply (does_report _ IStopDone)|].
  - apply int_msg_plain; [solve_writes|done|done].
  - intros r3 rs3 aw3 [-> ->]. by apply does_ret.
Qed.

(** libmnl runs. *)
Definition running (w : gpsctl) : Prop := exists i d, answered env (CMnlRun i d) MNL_INIT_SUCCESS w.
Definition anywhere : gpsctl -> Prop := fun _ => True.

Lemma leads_quiet {A B} (m : prog gpsctl A) (k : A -> prog gpsctl B) Q :
  quiet m -> (forall a, leads anywhere (k a) Q) -> leads anywhere (bind m k) Q.
Proof. intros Hm Hk. eapply leads_bind; [by eapply leads_any|exact Hk]. Qed.
Lemma leads_running {A} (m : prog gpsctl A) D : does m D -> leads running m (fun _ => running).
Proof.
  intros Hm w Hw (i & d & H). eapply returns_mono; [by apply (leads_does m D env _ _ Hm w Hw H)|].
  intros a w' [Hw' Ha]. split; [done|by exists i, d].
Qed.
Lemma quiet_running {A} (m : prog gpsctl A) : quiet m -> leads running m (fun _ => running).
Proof. apply leads_running. Qed.
Lemma leads_fail P (z : Z) (R : gpsctl -> Prop) : z <> 0 -> leads P (ret z) (fun r w => r = 0 -> R w).
Proof. intros Hz. by apply leads_ret. Qed.

Lemma run_libmnl_runs i d : leads anywhere (run_libmnl env i d) (fun r w => r = 0 -> running w).
Proof.
  unfold run_libmnl. do 4 (apply leads_quiet; [unfold offload_option; quiet_tac|intros ?]).
  apply leads_quiet; [by apply quiet_call|]. intros _.
  eapply leads_bind; [by apply leads_call|]. intros r. destruct (Z.eqb_spec r MNL_INIT_SUCCESS) as [->|].
  - apply (leads_bind _ _ _ (fun _ => running)); [|intros _; by apply leads_ret].
    intros w Hw Ha. apply quiet_running; [by apply quiet_after_run|done|by eexists _, _].
  - by apply leads_fail.
Qed.

Lemma leads_read_text {A} x (k : list Z -> prog gpsctl A) Q :
  (forall s, leads anywhere (k s) Q) ->
  leads anywhere (let* path := gets (fun w => cfg_strs (p_cfg (c_props w)) x) in
                  let* path := lift (str_at path 0) in k path) Q.
Proof.
  intros Hq w Hw _. apply returns_bind, returns_gets.
  destruct (co_text _ _ (proj1 (proj2 Hw)) x) as (s & Hs & _).
  pose proof (str_at_holds _ 0 s ltac:(done) Hs) as E. step_lift E. by apply Hq.
Qed.

Lemma gps_init_runs : leads anywhere (linux_gps_init env) (fun r w => r = 0 -> running w).
Proof.
  unfold linux_gps_init. apply leads_read_text. intros path.
  apply leads_quiet; [auto with quietdb|]. intros fd. apply leads_quiet; [auto with quietdb|]. intros _.
  destruct (fd =? -1); [by apply leads_fail|].
  do 5 (apply leads_quiet; [quiet_tac|intros ?]). 
  apply leads_quiet; [auto with quietdb|]. intros [[type key]|]; [|by apply leads_fail].
  do 4 (apply leads_quiet; [quiet_tac|intros ?]). apply run_libmnl_runs.
Qed.

(** Nothing is left open when the thread has stopped libmnl. *)
Lemma stop_impl_closes : leads anywhere (mnld_gps_stop_impl env) (fun _ w => c_dsp_fd w < 0).
Proof.
  unfold mnld_gps_stop_impl. do 3 (apply leads_quiet; [quiet_tac|intros ?]).
  intros w Hw _. apply returns_bind, returns_gets.
  destruct (Z.leb_spec 0 (c_dsp_fd w)) as [H|H]; (eexists _, _; split; [reflexivity|]); (split; [exact Hw|]); cbn; lia.
Qed.

(** The two ways in which [mnld_gps_start_impl] ends. *)
Definition start_end (r : Z) (w : gpsctl) : Prop := (r = 0 -> running w) /\ (r <> 0 -> c_dsp_fd w < 0).

Lemma stopped_end (r : Z) : r <> 0 -> leads anywhere (mnld_gps_stop_impl env ;; ret r) start_end.
Proof.
  intros Hr. eapply leads_bind; [apply stop_impl_closes|]. intros ?. apply leads_ret. intros w Hw. by split.
Qed.

Lemma start_impl_ends : leads anywhere (mnld_gps_start_impl env) start_end.
Proof.
  unfold mnld_gps_start_impl. do 4 (apply leads_quiet; [quiet_tac|intros ?]).
  eapply leads_bind; [apply gps_init_runs|]. intros r. destruct (Z.eqb_spec r 0) as [->|Hr]; cbn [negb].
  - apply (leads_bind _ _ _ (fun _ => running)).
    + intros w Hw Hrun. apply quiet_running; [unfold linux_setup_signal_handler; quiet_tac|done|by apply Hrun].
    + intros r. destruct (Z.eqb_spec r 0) as [->|Hr]; cbn [negb].
      * apply (leads_bind _ _ _ (fun _ => running)); [apply quiet_running; unfold get_gps_version; quiet_tac|].
        intros _. apply leads_ret. by split.
      * intros w Hw _. by apply stopped_end.
  - intros w Hw _. by apply stopped_end.
Qed.

Lemma leads_result {A} (m : prog gpsctl A) D (P : A -> Prop) :
  does m D -> (forall a rs aw, D a rs aw -> P a) -> leads anywhere m (fun a _ => P a).
Proof.
  intros Hm HP w Hw _. eapply returns_mono; [exact (Hm w Hw)|]. intros a w' (rs & aw & Hp & HD).
  split; [apply Hp|by eapply HP].
Qed.

Lemma start_ends flags : leads anywhere (mnld_gps_start env flags) start_end.
Proof.
  unfold mnld_gps_start. apply leads_quiet; [by apply quiet_set|]. intros _.
  eapply leads_bind; [eapply (leads_result _ _ (fun r => r = 0)); [apply attr_written|by intros ? ? ? []]|].
  intros r w Hw ->. cbn [Z.eqb]. revert w Hw.
  cut (leads anywhere (and_then (mnld_gps_start_impl env) (mnl_set_state env MNL_GPS_STATE_START ;; ret 0)) start_end);
    [intros H w Hw; by apply H|].
  eapply leads_bind; [apply start_impl_ends|]. intros r. destruct (Z.eqb_spec r 0) as [->|Hr].
  - apply (leads_bind _ _ _ (fun _ => running)); [|intros _; apply leads_ret; by split].
    intros w Hw [Hrun _]. eapply leads_running; [apply attr_written|done|by apply Hrun].
  - apply leads_ret. by intros w.
Qed.

(** Programs that leave [dsp_fd] alone. *)
Definition keeps_fd {A} (m : prog gpsctl A) : Prop := forall w a w', m w = Done (a, w') -> c_dsp_fd w' = c_dsp_fd w.
Lemma keeps_fd_bind {A B} (m : prog gpsctl A) (k : A -> prog gpsctl B) :
  keeps_fd m -> (forall a, keeps_fd (k a)) -> keeps_fd (bind m k).
Proof. intros Hm Hk w b w2 (a & w1 & E1 & E2)%bind_inv. rewrite (Hk _ _ _ _ E2). by eapply Hm. Qed.
Lemma keeps_fd_call c : keeps_fd (call env c).
Proof. by intros w a w' [= _ <-]. Qed.
Lemma keeps_fd_write name buf : keeps_fd (write_attr env name buf).
Proof.
  unfold write_attr, close_attr, transfer.
  repeat first
    [ apply keeps_fd_bind; [|intros ?]
    | apply keeps_fd_call
    | match goal with |- keeps_fd (match ?x with _ => _ end) => destruct x end
    | by intros ? ? ? [= _ <-]
    | by intros ? ].
Qed.

Lemma leads_keeps {A} (m : prog gpsctl A) D :
  does m D -> keeps_fd m -> leads (fun w => c_dsp_fd w < 0) m (fun _ w => c_dsp_fd w < 0).
Proof.
  intros Hm Hk w Hw H. destruct (Hm w Hw) as (a & w' & E & rs & aw & Hp & _).
  exists a, w'. split; [done|]. split; [apply Hp|]. by rewrite (Hk _ _ _ E).
Qed.

Lemma stop_ends : leads anywhere (mnld_gps_stop env) (fun _ w => c_dsp_fd w < 0).
Proof.
  unfold mnld_gps_stop. apply leads_quiet; [apply quiet_stop_monitor|]. intros _.
  eapply leads_bind; [apply stop_impl_closes|]. intros r. destruct (r =? 0); [|by apply leads_ret].
  do 2 (eapply leads_bind; [eapply leads_keeps; [apply attr_written|apply keeps_fd_write]|intros ?]).
  apply (leads_bind _ _ _ (fun _ w => c_dsp_fd w < 0)); [|intros ?; by apply leads_ret].
  eapply leads_keeps; [apply (does_report _ IStopDone), int_msg_plain; [solve_writes|done|done]|].
  intros w b w'. unfold on_sys. cbn. destruct (mnld_gps_stop_done _) as [[]| | |]; [by intros [= _ <-]|discriminate..].
Qed.
End power.

(** ** What the thread promises *)

(** C10: The GPS thread is the server that the system of the daemon assumes: on a
    working kernel, whatever the driver, the operating system and libmnl answer,
    a turn of the thread on the datagram of a command returns without undefined
    behaviour; what it posts to the main thread is the answer of [step_serve]
    (or, for a stop alone, nothing: [step_lose]), and the main thread reads each
    report as the input it stands for. *)
Theorem gps_thread_serves (env : ctl_env) (w : gpsctl) (timer : Z) (k : gps_cmd) (flags : Z) :
  env_ok env -> ctl_ok w -> is_int flags = true ->
  exists w' ns served,
    gps_control_turn env timer [RData (note_msg (cmd_note k flags))] w = Done (tt, w') /\ ctl_ok w' /\
    sys_grows (c_sys w) (c_sys w') ns /\ reports ns = map report_msg served /\ (k <> CStop -> served = answer k) /\
    (forall m ks rs, step (System m (k :: ks) rs) (System m ks (rs ++ served))) /\
    (forall i junk m, i ∈ served ->
       main_event_hdlr junk [RData (report_msg i)] m = bind (handler i) (fun _ => ret 0) m).
Proof.
  intros He Hw Hf.
  assert (does (gps_control_turn env timer [RData (note_msg (cmd_note k flags))])
            (fun _ rs _ => rs = map report_msg (answer k) \/ k = CStop /\ rs = [])) as H.
  { unfold gps_control_turn. apply quiet_then; [apply quiet_timer|]. intros _.
    eapply does_bind.
    - intros w1 H1. unfold returns. setoid_rewrite command_read; [|done].
      apply (does_bind _ _ _ (fun _ rs _ => rs = map report_msg (answer k) \/ k = CStop /\ rs = []) (serve_reports env k flags He));
        [|done]. intros r rs aw [->|(-> & _ & ->)]; apply does_ret; rewrite ?app_nil_r; auto.
    - intros r rs aw Hr. apply quiet_then; [apply quiet_timer|]. intros _. apply does_ret. by rewrite app_nil_r. }
  destruct (H w Hw) as ([] & w' & E & rs & aw & [Hw' (ns & G & R) _] & Hrs).
  assert (exists served, reports ns = map report_msg served /\ (served = answer k \/ k = CStop /\ served = []))
    as (served & Hs & Hd) by (destruct Hrs as [->|(-> & ->)]; [exists (answer k)|exists []]; auto).
  exists w', ns, served. split; [done|]. split; [done|]. split; [done|]. split; [done|].
  split; [by destruct Hd as [|[]]|]. split.
  - intros m ks l. destruct Hd as [->|[-> ->]]; [apply step_serve|rewrite app_nil_r; apply step_lose].
  - intros i junk m Hi. apply report_read. destruct Hd as [->|[_ ->]]; [|by apply not_elem_of_nil in Hi].
    destruct k; cbn [answer] in Hi; [by apply not_elem_of_nil in Hi|by apply list_elem_of_singleton in Hi as ->..].
Qed.

(** C11: With the attributes of the driver in order, a start either succeeds,
    when libmnl runs and the driver was told of the reset and of the started
    state, or fails, when the device of the chip is closed again but the driver
    was told of the reset only; nothing reports the failure. *)
Theorem gps_start_outcome (env : ctl_env) (w : gpsctl) (flags : Z) :
  env_ok env -> attrs_ok env -> ctl_ok w ->
  exists r w' cs ns,
    mnld_gps_start env flags w = Done (r, w') /\ c_calls w' = c_calls w ++ cs /\
    sys_grows (c_sys w) (c_sys w') ns /\ reports ns = [] /\
    (r = 0 /\ attr_writes cs = [pwrctl_is GPS_PWRCTL_RST; state_is MNL_GPS_STATE_START] /\ running env w' \/
     r <> 0 /\ attr_writes cs = [pwrctl_is GPS_PWRCTL_RST] /\ c_dsp_fd w' < 0).
Proof.
  intros He Ha Hw. destruct (start_writes env He Ha flags w Hw) as (r & w' & E & rs & aw & [_ _ (cs & Hc & Haw)] & ->).
  destruct (start_reports env He flags w Hw) as (r1 & w1 & E1 & rs1 & aw1 & [_ (ns & G & R) _] & ->).
  destruct (start_ends env He Ha flags w Hw I) as (r2 & w2 & E2 & _ & H0 & H1).
  rewrite E in E1, E2. injection E1 as <- <-. injection E2 as <- <-.
  exists r, w', cs, ns. split; [done|]. split; [done|]. split; [done|]. split; [done|].
  destruct (Z.eqb_spec r 0) as [->|Hr]; [left|right]; auto.
Qed.

(** C12: A stop always closes the device of the chip; if libmnl's system layer
    closes down, the driver is told of power off, and the main thread that the
    stop is done; if it does not, neither is told. *)
Theorem gps_stop_outcome (env : ctl_env) (w : gpsctl) :
  env_ok env -> attrs_ok env -> ctl_ok w ->
  exists r w' cs ns,
    mnld_gps_stop env w = Done (r, w') /\ c_calls w' = c_calls w ++ cs /\ sys_grows (c_sys w) (c_sys w') ns /\
    c_dsp_fd w' < 0 /\
    (r = 0 /\ attr_writes cs = [pwrctl_is GPS_PWRCTL_OFF; state_is MNL_GPS_STATE_PWROFF] /\
       reports ns = [report_msg IStopDone] \/
     r <> 0 /\ attr_writes cs = [] /\ reports ns = []).
Proof.
  intros He Ha Hw. destruct (stop_writes env Ha w Hw) as (r & w' & E & rs & aw & [_ _ (cs & Hc & Haw)] & ->).
  destruct (stop_reports env He w Hw) as (r1 & w1 & E1 & rs1 & aw1 & [_ (ns & G & R) _] & ->).
  destruct (stop_ends env Ha w Hw I) as (r2 & w2 & E2 & _ & Hfd).
  rewrite E in E1, E2. injection E1 as <- <-. injection E2 as <- <-.
  exists r, w', cs, ns. split; [done|]. split; [done|]. split; [done|]. split; [done|].
  destruct (Z.eqb_spec r 0) as [->|Hr]; [left|right]; auto.
Qed.

(** *** The notice of the start *)

Lemma start_done_reports b :
  does (on_sys (mnld_gps_start_done b)) (fun _ rs aw => rs = [report_msg (IStartDone (Z.b2z b))] /\ aw = []).
Proof.
  apply (does_send _ MNLD_MAIN_SOCKET (le_bytes 4 GPS2MAIN_EVENT_START_DONE ++ le_bytes 4 (Z.b2z b))); [|reflexivity].
  unfold mnld_gps_start_done. apply int_msg_plain; [solve_writes| |done]. unfold MNLD_INTERNAL_BUFF_SIZE. clen.
Qed.

#[local] Opaque mnld_gps_start_done.
(** C13: libmnl's notice that it started reaches the main thread as a done start,
    with the assistance flag, if SUPL is enabled in the configuration; if not it
    is refused and nothing is posted, whatever it says: the start is then ended by
    the watchdog of the main thread only. *)
Theorem start_notice (env : ctl_env) (hal_time : prog sys Z) (mode length : Z) (m : list Z) (c : Z) (w : gpsctl) :
  ctl_ok w -> head m = Some c ->
  if cfg_ints (p_cfg (c_props w)) SUPL_enabled =? 0
  then mtk_gps_sys_agps_disaptcher_callback env hal_time mode MTK_AGPS_CB_START_REQ length (Some m) w = Done (MTK_GPS_ERROR, w)
  else exists w' ns,
    mtk_gps_sys_agps_disaptcher_callback env hal_time mode MTK_AGPS_CB_START_REQ length (Some m) w =
      Done (MTK_GPS_SUCCESS, w') /\
    sys_grows (c_sys w) (c_sys w') ns /\ reports ns = [report_msg (IStartDone (Z.b2z (c =? 1)))].
Proof.
  intros Hw Hm. destruct m as [|d m]; [done|]. injection Hm as ->.
  assert (mtk_gps_sys_agps_disaptcher_callback env hal_time mode MTK_AGPS_CB_START_REQ length (Some (c :: m)) =
          let* supl := cfg SUPL_enabled in
          if negb (supl =? 0) then supl_request mode MTK_AGPS_CB_START_REQ length (Some (c :: m)) else ret MTK_GPS_ERROR)
    as E0 by reflexivity.
  destruct (cfg_ints (p_cfg (c_props w)) SUPL_enabled =? 0) eqn:Es.
  - rewrite E0. unfold bind, cfg, gets. by rewrite Es.
  - destruct (start_done_reports (c =? 1) w Hw) as (r & w' & E & rs & aw & [_ (ns & G & R) _] & Hrs & _).
    exists w', ns. split; [|split; [exact G|congruence]]. rewrite E0. unfold bind at 1, cfg, gets. rewrite Es.
    exact (bind_done _ (fun _ => ret MTK_GPS_SUCCESS) _ _ _ E).
Qed.

(** *** Names *)

Lemma cfg_text_long x w s :
  holds_cstr (cfg_strs (p_cfg (c_props w)) x) s -> DRIVER_NAME_SIZE <= zlen s -> cfg_text x w = UB.
Proof.
  intros Hs Hl. unfold cfg_text, bind, gets, copied. rewrite (str_at_holds _ 0 s) by done. cbn [obind].
  by iffalse.
Qed.
Lemma cfg_text_ends x w : cfg_text x w = UB \/ exists s, cfg_text x w = Done (s, w).
Proof.
  unfold cfg_text, bind, gets, copied, str_at. change (0 <? 0) with false. cbv beta iota.
  destruct (strlen _); [|by left]. cbn [obind]. destruct (_ <? _); [right; by eexists|by left].
Qed.
(** One name more is copied, or this one is too long. *)
Ltac copy_name :=
  first
    [ apply bind_ub; assumption
    | match goal with |- bind (cfg_text ?y) _ ?w = UB =>
        let E := fresh in
        destruct (cfg_text_ends y w) as [E|(? & E)]; [by apply bind_ub|rewrite (bind_done _ _ _ _ _ E); clear E]
      end ].

(** A name of 30 or 31 characters in [mnl.prop] is accepted for each of the
    four names whose arrays have 32 characters, and the start that copies it
    overruns the array of 30 characters of the driver's configuration. *)
Theorem long_name_overruns (env : ctl_env) (w : gpsctl) (x : cfg_str) (val : list Z) :
  cfg_size x = 32 -> 0 ∉ val -> 30 <= zlen val <= 31 ->
  exists p, run_action (PStr x) val (c_props w) = Done (tt, p) /\ driver_setup env (set_props p w) = UB.
Proof.
  intros Hx H0 Hl. eexists. split.
  - cbn [run_action]. unfold when. rewrite Hx. by iftrue.
  - set (w' := set_props _ w). assert (cfg_text x w' = UB) as E.
    { apply (cfg_text_long _ _ val); [|unfold DRIVER_NAME_SIZE; lia]. unfold w'. cbn. rewrite decide_True by done.
      eexists. split; [done|done]. }
    unfold driver_setup. destruct x; try discriminate Hx; repeat copy_name.
Qed.

(** ** A device that works *)

Definition fair_env : ctl_env := {|
  ans := fun _ c =>
    match c with
    | COpen _ => 3 | CDspOpen _ => 5 | CPropertyGet => 6 | CMnlRun _ _ => MNL_INIT_SUCCESS | CUartOpen _ => -1 | _ => 0
    end;
  err := fun _ => 5;
  transfers := fun _ c => match c with CWrite _ data => [RErr EINTR; ROk (zlen data)] | _ => [ROk 1] end;
  attr_byte := fun _ => 48; ioctl_word := fun _ => 0; chip_prop := fun _ => "0x0335"%string;
  uart_ack := fun _ => []; accuracy_at := fun _ => (0, 0, 20); qepo_time := fun _ => (0, 0, 0); gps_user := fun _ => 0;
  ce_files := <["/nvcfg/almanac.dat"%string := lit "1,1" ++ [10] ++ lit "28,1490000000"]> demo_fs;
  ce_status := None; ce_nvram := None; ce_dsp_dev := "/dev/stpgps"; ce_localtime := None; dbg_thread_exit := false;
  dbg_file := lit "/data/misc/gps/gpsdebug.log" ++ [0]; ce_junk := fun _ => 0
|}.
Definition ctl_boot : gpsctl := Ctl good_kernel props_boot 0 0 0 (-1) "" 0 0 0 0 0 0 10000 [].

Lemma fair_env_ok : env_ok fair_env.
Proof.
  split.
  - intros k []; by eexists.
  - constructor; [exact demo_numbers|constructor; [exact I|constructor]].
  - done.
  - discriminate.
  - split; [discriminate|]. split; [done|]. intros sats time [= <- <-] _. by eexists.
  - exists (lit "/data/misc/gps/gpsdebug.log"). split; [|done]. eexists. split; [reflexivity|].
    apply (bool_decide_unpack _). vm_compute. exact I.
  - intros k lat lng acc [= <- <- <-]. split; [fields_ok|done].
Qed.
Lemma fair_attrs_ok : attrs_ok fair_env.
Proof. done. Qed.
Lemma ctl_boot_ok : ctl_ok ctl_boot.
Proof. split; [apply good_kernel_ok|]. split; [apply mnl_config_ok|done]. Qed.

Lemma gps_thread_serves_witness :
  exists w' ns served,
    gps_control_turn fair_env 7 [RData (note_msg (cmd_note CReset 0xFFFF))] ctl_boot = Done (tt, w') /\
    reports ns = map report_msg served /\ served = [IResetDone].
Proof.
  destruct (gps_thread_serves fair_env ctl_boot 7 CReset 0xFFFF) as (w' & ns & served & H1 & _ & _ & H2 & H3 & _).
  - apply fair_env_ok.
  - apply ctl_boot_ok.
  - reflexivity.
  - exists w', ns, served. split; [exact H1|]. split; [exact H2|]. apply H3. discriminate.
Defined.

(** On this device the start succeeds. *)
Lemma gps_start_outcome_witness :
  exists w' cs, mnld_gps_start fair_env 0 ctl_boot = Done (0, w') /\ c_calls w' = c_calls ctl_boot ++ cs /\
    attr_writes cs = [pwrctl_is GPS_PWRCTL_RST; state_is MNL_GPS_STATE_START] /\ running fair_env w'.
Proof.
  destruct (gps_start_outcome fair_env ctl_boot 0 fair_env_ok fair_attrs_ok ctl_boot_ok)
    as (r & w' & cs & ns & H1 & H2 & _ & _ & H3).
  assert (match mnld_gps_start fair_env 0 ctl_boot with Done (r, _) => r | _ => -1 end = 0) as Hr
    by (vm_compute; reflexivity).
  rewrite H1 in Hr. subst r. exists w', cs. split; [exact H1|]. split; [exact H2|].
  destruct H3 as [(_ & Ha & Hb)|(H & _)]; [exact (conj Ha Hb)|destruct (H eq_refl)].
Defined.

Lemma gps_stop_outcome_witness :
  exists r w', mnld_gps_stop fair_env ctl_boot = Done (r, w') /\ c_dsp_fd w' < 0.
Proof.
  destruct (gps_stop_outcome fair_env ctl_boot fair_env_ok fair_attrs_ok ctl_boot_ok)
    as (r & w' & cs & ns & H1 & _ & _ & H2 & _).
  exists r, w'. split; [exact H1|exact H2].
Defined.

Lemma start_notice_witness :
  exists w' ns,
    mtk_gps_sys_agps_disaptcher_callback fair_env (ret 0) 0 MTK_AGPS_CB_START_REQ 1 (Some [1]) ctl_boot =
      Done (MTK_GPS_SUCCESS, w') /\
    sys_grows (c_sys ctl_boot) (c_sys w') ns /\ reports ns = [report_msg (IStartDone 1)].
Proof. apply (start_notice fair_env (ret 0) 0 1 [1] 1 ctl_boot); [apply ctl_boot_ok|reflexivity]. Defined.

Definition long_name : list Z := lit "/dev/a-name-of-thirty-letters_".
Lemma long_name_overruns_witness :
  exists p, run_action (PStr dev_dsp) long_name (c_props ctl_boot) = Done (tt, p) /\
    driver_setup fair_env (set_props p ctl_boot) = UB.
Proof.
  apply long_name_overruns.
  - reflexivity.
  - apply (bool_decide_unpack _). vm_compute. exact I.
  - vm_compute. done.
Defined.
