(* ===== verification/FixReports.v ===== *)
(** * What a fix of libmnl sets off

    [mtk_gps_sys_gps_mnl_callback] of
    [src/gps/mtk_mnld/mnld_entity/src/gps_controller.c]: libmnl calls back when a
    fix is ready, and the daemon fetches the raw measurements, the clock and the
    navigation messages, builds the structs of the HAL and sends them; it tells
    the FM radio of the clock's drift and the FLP daemon of the location.

    libmnl's structs ([mtk_gps_type.h], under [#pragma pack(4)]) are objects of the
    daemon's ABI; what the
    callback finds in its local variables after a call of libmnl is a parameter
    ([fix_env]), by the number of the call as in [GpsControl]. *)

From stdpp Require Import list strings.
From Stdlib Require Import Floats.SpecFloat.
From S2P Require Import Prelude DataCoder LbsUtility Layout Structs Float32 Float64 Messages Mnl2Hal FlpInterface.
From S2P Require Import AtCommand Config GpsControl.
Import HalTypes.
Open Scope Z_scope.

(** ** libmnl's structs

    The header packs them to four bytes, unlike those of the HAL that they are
    copied to. *)

Section mtk_types.
Local Open Scope string_scope.

Definition MTK_GPS_MEASUREMENT : ctype := packed 4
  [ ("size", c_int); ("flag", c_int); ("PRN", c_char); ("TimeOffsetInNs", c_double); ("state", c_short);
    ("ReGpsTowInNs", c_int64); ("ReGpsTowUnInNs", c_int64); ("Cn0InDbHz", c_double);
    ("PRRateInMeterPreSec", c_double); ("PRRateUnInMeterPreSec", c_double); ("AcDRState10", c_short);
    ("AcDRInMeters", c_double); ("AcDRUnInMeters", c_double); ("PRInMeters", c_double);
    ("PRUnInMeters", c_double); ("CPInChips", c_double); ("CPUnInChips", c_double); ("CFInhZ", c_float);
    ("CarrierCycle", c_int64); ("CarrierPhase", c_double); ("CarrierPhaseUn", c_double);
    ("LossOfLock", c_char); ("BitNumber", c_int); ("TimeFromLastBitInMs", c_short);
    ("DopperShiftInHz", c_double); ("DopperShiftUnInHz", c_double); ("MultipathIndicater", c_char);
    ("SnrInDb", c_double); ("ElInDeg", c_double); ("ElUnInDeg", c_double); ("AzInDeg", c_double);
    ("AzUnInDeg", c_double); ("UsedInFix", c_char) ].

Definition MTK_GPS_CLOCK : ctype := packed 4
  [ ("size", c_int); ("flag", c_short); ("leapsecond", c_short); ("type", c_char); ("TimeInNs", c_int64);
    ("TimeUncertaintyInNs", c_double); ("FullBiasInNs", c_int64); ("BiasInNs", c_double);
    ("BiasUncertaintyInNs", c_double); ("DriftInNsPerSec", c_double);
    ("DriftUncertaintyInNsPerSec", c_double) ].

Definition MTK_GPS_NAVIGATION_EVENT : ctype := packed 4
  [ ("size", c_int); ("type", c_char); ("prn", c_char); ("messageID", c_short); ("submessageID", c_short);
    ("length", c_int); ("data", CArr 40 c_char) ].

Definition Gnssmeasurement : ctype := packed 4
  [ ("size", c_int); ("flags", c_int); ("svid", c_short); ("constellation", c_char);
    ("time_offset_ns", c_double); ("state", c_int); ("received_sv_time_in_ns", c_int64);
    ("received_sv_time_uncertainty_in_ns", c_int64); ("c_n0_dbhz", c_double);
    ("pseudorange_rate_mps", c_double); ("pseudorange_rate_uncertainty_mps", c_double);
    ("accumulated_delta_range_state", c_short); ("accumulated_delta_range_m", c_double);
    ("accumulated_delta_range_uncertainty_m", c_double); ("carrier_frequency_hz", c_float);
    ("carrier_cycles", c_int64); ("carrier_phase", c_double); ("carrier_phase_uncertainty", c_double);
    ("multipath_indicator", c_char); ("snr_db", c_double) ].

Definition Gnssclock : ctype := packed 4
  [ ("size", c_int); ("flags", c_short); ("leap_second", c_short); ("time_ns", c_int64);
    ("time_uncertainty_ns", c_double); ("full_bias_ns", c_int64); ("bias_ns", c_double);
    ("bias_uncertainty_ns", c_double); ("drift_nsps", c_double); ("drift_uncertainty_nsps", c_double);
    ("hw_clock_discontinuity_count", c_int) ].

(** The union's arrays begin at the same place; the longest has 40 bytes. *)
Definition GnssNavigationmessage : ctype := packed 4
  [ ("size", c_int); ("svid", c_short); ("type", c_short); ("status", c_short); ("message_id", c_short);
    ("submessage_id", c_short); ("data_length", c_int); ("uData", CArr 40 c_char) ].

(** ** From libmnl's structs to those of the HAL *)

(** The assignments [gpsdata.measurements[num].f = mtk_gps_measurement[i].g], as
    pairs of [f] and [g]. *)
Definition gps_measurement_copies : list (string * string) :=
  [ ("accumulated_delta_range_m", "AcDRInMeters"); ("accumulated_delta_range_state", "AcDRState10");
    ("accumulated_delta_range_uncertainty_m", "AcDRUnInMeters"); ("azimuth_deg", "AzInDeg");
    ("azimuth_uncertainty_deg", "AzUnInDeg"); ("bit_number", "BitNumber");
    ("carrier_cycles", "CarrierCycle"); ("carrier_phase", "CarrierPhase");
    ("carrier_phase_uncertainty", "CarrierPhaseUn"); ("carrier_frequency_hz", "CFInhZ");
    ("c_n0_dbhz", "Cn0InDbHz"); ("code_phase_chips", "CPInChips");
    ("code_phase_uncertainty_chips", "CPUnInChips"); ("doppler_shift_hz", "DopperShiftInHz");
    ("doppler_shift_uncertainty_hz", "DopperShiftUnInHz"); ("elevation_deg", "ElInDeg");
    ("elevation_uncertainty_deg", "ElUnInDeg"); ("flags", "flag"); ("loss_of_lock", "LossOfLock");
    ("multipath_indicator", "MultipathIndicater"); ("pseudorange_m", "PRInMeters"); ("prn", "PRN");
    ("pseudorange_rate_mps", "PRRateInMeterPreSec");
    ("pseudorange_rate_uncertainty_mps", "PRRateUnInMeterPreSec");
    ("pseudorange_uncertainty_m", "PRUnInMeters"); ("received_gps_tow_ns", "ReGpsTowInNs");
    ("received_gps_tow_uncertainty_ns", "ReGpsTowUnInNs"); ("snr_db", "SnrInDb"); ("state", "state");
    ("time_from_last_bit_ms", "TimeFromLastBitInMs"); ("time_offset_ns", "TimeOffsetInNs");
    ("used_in_fix", "UsedInFix") ].

Definition gps_clock_copies : list (string * string) :=
  [ ("bias_ns", "BiasInNs"); ("bias_uncertainty_ns", "BiasUncertaintyInNs");
    ("drift_nsps", "DriftInNsPerSec"); ("flags", "flag"); ("leap_second", "leapsecond");
    ("time_ns", "TimeInNs"); ("time_uncertainty_ns", "TimeUncertaintyInNs"); ("type", "type");
    ("full_bias_ns", "FullBiasInNs"); ("drift_uncertainty_nsps", "DriftUncertaintyInNsPerSec") ].

Definition gps_nav_copies : list (string * string) :=
  [ ("prn", "prn"); ("type", "type"); ("message_id", "messageID"); ("submessage_id", "submessageID") ].

Definition gnss_measurement_copies : list (string * string) := same_name
  [ "flags"; "svid"; "constellation"; "time_offset_ns"; "state"; "received_sv_time_in_ns";
    "received_sv_time_uncertainty_in_ns"; "c_n0_dbhz"; "pseudorange_rate_mps";
    "pseudorange_rate_uncertainty_mps"; "accumulated_delta_range_state"; "accumulated_delta_range_m";
    "accumulated_delta_range_uncertainty_m"; "carrier_frequency_hz"; "carrier_cycles"; "carrier_phase";
    "carrier_phase_uncertainty"; "multipath_indicator"; "snr_db" ].
Definition gnss_clock_copies : list (string * string) := same_name
  [ "flags"; "leap_second"; "time_ns"; "time_uncertainty_ns"; "full_bias_ns"; "bias_ns";
    "bias_uncertainty_ns"; "drift_nsps"; "drift_uncertainty_nsps"; "hw_clock_discontinuity_count" ].
Definition gnss_nav_copies : list (string * string) := same_name
  [ "svid"; "type"; "status"; "message_id"; "submessage_id"; "data_length" ].

End mtk_types.

(** [1] as a [double] *)
Definition rate_one : list Z := le_bytes 8 (f64_bits (f64_of_int 1)).

(** One measurement: [used_in_fix] is a [bool], and without a state the time of
    week and the rate are replaced. *)
Definition gps_measurement_of (src : list Z) : list Z :=
  let stateless := member ILP32 MTK_GPS_MEASUREMENT src "state" =? 0 in
  let used := negb (member ILP32 MTK_GPS_MEASUREMENT src "UsedInFix" =? 0) in
  struct_image ILP32 gps_measurement
    (stored true "used_in_fix" [Z.b2z used]
      (stored stateless "received_gps_tow_ns" (zeros 8)
        (stored stateless "pseudorange_rate_mps" rate_one
          (fields_copied ILP32 gps_measurement_copies MTK_GPS_MEASUREMENT src)))).

(** [update_gnss_measurement] and the replaced rate *)
Definition gnss_measurement_of (src : list Z) : list Z :=
  let stateless := member ILP32 Gnssmeasurement src "state" =? 0 in
  struct_image ILP32 gnss_measurement
    (stored stateless "pseudorange_rate_mps" rate_one
      (fields_copied ILP32 gnss_measurement_copies Gnssmeasurement src)).

Definition gps_clock_of (src : list Z) : list Z :=
  struct_image ILP32 gps_clock (fields_copied ILP32 gps_clock_copies MTK_GPS_CLOCK src).
Definition update_gnss_clock (src : list Z) : list Z :=
  struct_image ILP32 gnss_clock (fields_copied ILP32 gnss_clock_copies Gnssclock src).

(** [status] keeps its zero. *)
Definition gps_nav_of (ev : list Z) : list Z :=
  struct_image ILP32 gps_nav_msg
    (stored true "data_length" (le_bytes 4 40)
      (stored true "data" (object ILP32 MTK_GPS_NAVIGATION_EVENT ev "data")
        (fields_copied ILP32 gps_nav_copies MTK_GPS_NAVIGATION_EVENT ev))).

(** The pointer [data] keeps its zero. *)
Definition update_gnss_navigation (ev : list Z) : list Z :=
  struct_image ILP32 gnss_nav_msg (fields_copied ILP32 gnss_nav_copies GnssNavigationmessage ev).

(** The blocks: the measurements stored so far, the rest zero, and the clock. *)
Definition data_image (t : ctype) (n size : Z) (ms : list (list Z)) (clock : list Z) : list Z :=
  struct_image ILP32 t
    (stored true "measurement_count" (le_bytes 4 (zlen ms))
      (stored true "measurements" (concat (ms ++ replicate (Z.to_nat n - length ms) (zeros (Z.to_nat size))))
        (stored true "clock" clock (fun _ => None)))).
Definition gps_data_image : list (list Z) -> list Z -> list Z :=
  data_image gps_data GPS_MAX_MEASUREMENT (sizeof ILP32 gps_measurement).
Definition gnss_data_image : list (list Z) -> list Z -> list Z :=
  data_image gnss_data GNSS_MAX_MEASUREMENT (sizeof ILP32 gnss_measurement).

(** The loop over [mtk_gps_measurement]: satellites with a number are appended,
    at the index [measurement_count], which nothing compares with the size. *)
Fixpoint gps_measurements (srcs : list (list Z)) (ms : list (list Z)) : outcome (list (list Z)) :=
  match srcs with
  | [] => Done ms
  | src :: srcs =>
      if member ILP32 MTK_GPS_MEASUREMENT src "PRN" =? 0 then gps_measurements srcs ms
      else if zlen ms <? GPS_MAX_MEASUREMENT then gps_measurements srcs (ms ++ [gps_measurement_of src])
      else UB
  end.

(** One of the five loops over libmnl's lists; it breaks at the limit. *)
Fixpoint gnss_measurements (srcs : list (list Z)) (ms : list (list Z)) : list (list Z) :=
  match srcs with
  | [] => ms
  | src :: srcs =>
      if member ILP32 Gnssmeasurement src "svid" =? 0 then gnss_measurements srcs ms
      else if GNSS_MAX_MEASUREMENT <=? zlen ms then ms
      else gnss_measurements srcs (ms ++ [gnss_measurement_of src])
  end.

(** The lists of [mtk_gnss_get_measurement]. *)
Record gnss_lists : Type := GnssLists {
  gpqzmeasurement : list (list Z); glomeasurement : list (list Z); bdmeasurement : list (list Z);
  galmeasurement : list (list Z); sbasmeasurement : list (list Z)
}.
Definition systems (l : gnss_lists) : list (list (list Z)) :=
  [gpqzmeasurement l; glomeasurement l; bdmeasurement l; galmeasurement l; sbasmeasurement l].

(** What the local variables hold after a call. *)
Record fix_env : Type := FixEnv {
  fx_measurement : nat -> list (list Z);    (* mtk_gps_measurement *)
  fx_clock : nat -> list Z;                 (* mtk_gps_clock *)
  fx_navigation : nat -> list Z;            (* gps_navigation_event *)
  fx_gnss_measurement : nat -> gnss_lists;
  fx_gnss_clock : nat -> list Z;            (* gnssclock *)
  fx_gnss_navigation : nat -> list Z;       (* gnss_navigation_msg *)
  fx_rtc : nat -> f64 * f64;                (* dfRtcD, dfAge *)
  fx_fm_state : nat -> Z;                   (* the first byte read of /proc/fm *)
  fx_now : nat -> Z;                        (* time *)
  fx_location : nat -> list Z * Z           (* playload, p_get_len *)
}.

Section callback.
Context (env : ctl_env) (fx : fix_env).

(** A call and what it left behind, by [result] of its number. *)
Definition ask {A} (c : ctl_call) (result : nat -> A) : prog gpsctl (Z * A) :=
  let* k := next_call in
  let* r := call env c in
  ret (r, result k).

(** ** Measurements and clocks *)

(** When [mtk_gps_get_clock] fails, the local variable is read as it is. *)
Definition get_gps_measurement_clock_data : prog gpsctl unit :=
  let* '(_, srcs) := ask CGpsMeasurement (fx_measurement fx) in
  let* '(_, clock) := ask CGpsClock (fx_clock fx) in
  let* ms := lift (gps_measurements srcs []) in
  when (0 <? zlen ms) (let* _ := on_sys (mnl2hal_gps_measurements (gps_data_image ms (gps_clock_of clock))) in ret tt).

Definition get_gnss_measurement_clock_data : prog gpsctl unit :=
  let* '(_, lists) := ask CGnssMeasurement (fx_gnss_measurement fx) in
  let* '(r, clock) := ask CGnssClock (fx_gnss_clock fx) in
  let clock := if r =? 0 then zeros (Z.to_nat (sizeof ILP32 Gnssclock)) else clock in
  let ms := fold_left (fun ms srcs => gnss_measurements srcs ms) (systems lists) [] in
  when (0 <? zlen ms)
    (let* _ := on_sys (mnl2hal_gnss_measurements (gnss_data_image ms (update_gnss_clock clock))) in ret tt).

(** ** Navigation messages *)

Fixpoint gps_navigation (svids : list Z) : prog gpsctl unit :=
  match svids with
  | [] => ret tt
  | svid :: svids =>
      let* '(r, ev) := ask (CGpsNavigation svid) (fx_navigation fx) in
      let ev := if r =? 0 then zeros (Z.to_nat (sizeof ILP32 MTK_GPS_NAVIGATION_EVENT)) else ev in
      let* _ := on_sys (mnl2hal_gps_navigation (gps_nav_of ev)) in
      gps_navigation svids
  end.
(** [for (svid = first; svid < first + n; svid++)] *)
Definition svids (first : Z) (n : nat) : list Z := map (fun i => first + Z.of_nat i) (seq 0 n).
Definition get_gps_navigation_event : prog gpsctl unit := gps_navigation (svids 0 (Z.to_nat GPS_MAX_MEASUREMENT)).

(** [memcpy(gnssnavigation.data, ..., data_length)], where [data] is the null
    pointer that [memset] left; nothing is copied when the length is zero.  The
    debug output reads the data there. *)
Fixpoint gnss_navigation (type : Z) (svids : list Z) : prog gpsctl unit :=
  match svids with
  | [] => ret tt
  | svid :: svids =>
      let* '(r, ev) := ask (CGnssNavigation svid type) (fx_gnss_navigation fx) in
      let ev := if r =? 0 then zeros (Z.to_nat (sizeof ILP32 GnssNavigationmessage)) else ev in
      let* debug := gets gps_raw_debug_mode in
      (if (member ILP32 GnssNavigationmessage ev "data_length" =? 0) && (debug =? 0) then ret tt else undef) ;;
      let* _ := on_sys (mnl2hal_gnss_navigation (update_gnss_navigation ev)) in
      gnss_navigation type svids
  end.
(** GPS, Glonass, Beidou, Galileo *)
Definition get_gnss_navigation_event : prog gpsctl unit :=
  gnss_navigation 1 (svids 1 (Z.to_nat GPS_MAX_MEASUREMENT)) ;;
  gnss_navigation 16 (svids 1 24) ;;
  gnss_navigation 32 (svids 1 37) ;;
  gnss_navigation 4 (svids 1 36).

(** ** The FM radio *)

Definition f64_leb (x y : f64) : bool := SFleb x y.
Definition f64_ltb (x y : f64) : bool := SFltb x y.

(** The age and the drift are usable. *)
Definition rtc_usable (available_age rtc_drift : Z) (rtc_d age : f64) : outcome bool :=
  if f64_leb age (f64_of_int available_age) then
    if f64_leb (f64_of_int rtc_drift) rtc_d then Done (f64_ltb rtc_d (f64_of_int 5000))
    else
      obind (chk (- rtc_drift)) (fun low =>
      Done (f64_leb rtc_d (f64_of_int low) && f64_ltb rtc_d (f64_of_int 5000)))
  else Done false.

(** The variable of the same name, which nothing writes. *)
Definition last_send_time : Z := 0.

(** The members that are not set, and the result of the ioctl, are left out. *)
Definition send_rtc_info (rtc_d age : f64) : prog gpsctl unit :=
  let* '(_, now) := ask CTime (fx_now fx) in
  let* interval := cfg TIME_INTERVAL in
  when ((last_send_time =? 0) || (interval <? s32 (now - last_send_time)))
    (let* fd := call env (COpen "dev/fm") in
     when (0 <=? fd)
       (let* max_age := cfg AVAILIABLE_AGE in
        let* min_drift := cfg RTC_DRIFT in
        let* a := lift (f64_to_int age) in
        let* d := lift (f64_to_int rtc_d) in
        let* _ := call env (CFmIoctl (FmRtc 2 max_age min_drift interval a d now)) in
        let* _ := call env (CClose "dev/fm") in
        ret tt)).

Definition fm_notice : prog gpsctl unit :=
  let* '(r, (rtc_d, age)) := ask CRtcInfo (fx_rtc fx) in
  when (r =? MTK_GPS_SUCCESS)
    (let* max_age := cfg AVAILIABLE_AGE in
     let* min_drift := cfg RTC_DRIFT in
     let* usable := lift (rtc_usable max_age min_drift rtc_d age) in
     when usable
       (let* fd := call env (COpen "/proc/fm") in
        let* first :=
          (if fd <? 0 then ret 0
           else
             let* '(n, c) := ask (CRead "/proc/fm") (fx_fm_state fx) in
             let* _ := call env (CClose "/proc/fm") in
             ret (if n <=? 0 then 0 else c)) in
        when (first =? 50) (send_rtc_info rtc_d age))).

(** ** The FLP daemon *)

Definition FLPMNL_GPS_REPORT_LOC := 9.

(** The length is taken as libmnl gives it. *)
Definition flp_notice : prog gpsctl unit :=
  let* '(_, (payload, len)) := ask CFlpLocation (fx_location fx) in
  (if len <=? OFFLOAD_PAYLOAD_LEN then ret tt else undef) ;;
  let* _ := on_sys (mnl2flp_data_send (flp_buffer 1024 FLPMNL_GPS_REPORT_LOC len (take (Z.to_nat len) payload)) 1024) in
  ret tt.

(** ** The callback *)

(** The raw measurements are asked for once. *)
Definition raw_meas_notice : prog gpsctl unit :=
  let* raw := gets gps_raw_debug_mode in
  let* sent := gets mtk_msg_raw_meas_flag in
  when (negb (raw =? 0) && (sent =? 0))
    (let* r := call env CRawMeas in
     when (r =? MTK_GPS_SUCCESS)
       (modify (fun w => set_modes (c_epo_type w) (gps_debuglog_state w) (gps_raw_debug_mode w) 1 (restart_count w) w))).

(** [meas], [navi] and [flp] are what [mnld_is_gps_meas_enabled],
    [mnld_is_gps_navi_enabled] and [is_flp_user_exist] say of the main thread. *)
Definition fix_ready (meas navi flp : bool) : prog gpsctl unit :=
  let* _ := send_active_notify env in
  fm_notice ;;
  raw_meas_notice ;;
  let* '(_, state) := mnl_get_state env MNL_GPS_STATE_UNSUPPORTED in
  when (meas && (state =? MNL_GPS_STATE_START))
    (get_gps_measurement_clock_data ;; get_gnss_measurement_clock_data) ;;
  when (navi && (state =? MNL_GPS_STATE_START))
    (get_gps_navigation_event ;; get_gnss_navigation_event) ;;
  let* offload := mnl_offload_is_enabled in
  when (flp && negb offload) flp_notice.

Definition MTK_GPS_MSG_FIX_READY := 0.
Definition MTK_GPS_MSG_FIX_PROHIBITED := 7.

Definition mtk_gps_sys_gps_mnl_callback (meas navi flp : bool) (msg : Z) : prog gpsctl Z :=
  (if msg =? MTK_GPS_MSG_FIX_READY then fix_ready meas navi flp
   else when (msg =? MTK_GPS_MSG_FIX_PROHIBITED) (let* _ := send_active_notify env in ret tt)) ;;
  ret MTK_GPS_SUCCESS.
End callback.
