(* ===== verification/FixToAndroid.v ===== *)
(** * From libmnl's measurements to Android's callback

    The raw measurements of libmnl followed through the daemon, which copies
    them member by member into the blocks of the HAL protocol, and through the
    HAL library of either ABI to the callback that Android gets; the navigation
    messages; that the callback of a fix returns. *)

From stdpp Require Import list strings gmap.
From S2P Require Import Prelude DataCoder LbsUtility Layout Structs Float32 Float64 Messages Hal2Mnl Mnl2Hal FlpInterface.
From S2P Require Import MnldState Mnld Kernel MnldSystem GpsHal GpsHalFront GpsHalReports AtCommand Config ConfigText.
From S2P Require Import GpsControl GpsControlSafe GpsControlRun FixReports.
Import HalTypes.
Open Scope Z_scope.

#[local] Opaque send_msg.

(** ** One struct in the HAL *)

(** What Android's struct gets of members with these values. *)
Definition seen (v : values) (fs : list string) : members := map (fun f => (f, from_option le_val 0 (v f))) fs.

Lemma fieldp_copy_image a b fs v names :
  wf_fields a fs = true -> sized a fs v -> forallb (same_place a b (CStruct fs)) names = true ->
  fieldp_copy b (CStruct fs) (struct_image a (CStruct fs) v) names = seen v names.
Proof.
  intros Hwf Hv Hn. unfold fieldp_copy, seen. apply map_ext_in. intros f Hf. f_equal.
  apply member_image; [done|done|]. exact (proj1 (forallb_forall _ _) Hn f Hf).
Qed.

(** Zeroed memory is the image without values. *)
Lemma fields_image_none a off fs :
  wf_fields a fs = true -> exists n, fields_image a off fs (fun _ => None) = zeros n.
Proof.
  revert off. induction fs as [|[f t] r IH]; intros off H; [by exists 0%nat|].
  apply wf_fields_cons in H as (_ & _ & H). cbn [fields_image default].
  destruct (IH (round_up off (alignof a t) + sizeof a t) H) as (n & ->). cbn.
  rewrite <- !replicate_add. by eexists.
Qed.
Lemma fieldp_copy_zeros b t n names : fieldp_copy b t (zeros n) names = seen (fun _ => None) names.
Proof.
  unfold fieldp_copy, seen. apply map_ext. intros f. f_equal. rewrite member_object. unfold object.
  destruct (offsetof b t f) as [[o ft]|]; [|done]. rewrite drop_replicate, take_replicate. apply le_val_zeros.
Qed.

(** A measurement of libmnl as Android sees it: [used_in_fix] is a [bool];
    without a state there is no time of week and the rate is one. *)
Definition gps_value (src : list Z) (f : string) : Z :=
  let m := member ILP32 MTK_GPS_MEASUREMENT src in
  if String.eqb f "used_in_fix" then Z.b2z (negb (m "UsedInFix"%string =? 0))
  else if (m "state"%string =? 0) && String.eqb f "received_gps_tow_ns" then 0
  else if (m "state"%string =? 0) && String.eqb f "pseudorange_rate_mps" then f64_bits (f64_of_int 1)
  else from_option m 0 (source_of gps_measurement_copies f).
Definition android_gps_measurement (src : list Z) : members :=
  map (fun f => (f, gps_value src f)) gps_measurement_members.

Definition gnss_value (src : list Z) (f : string) : Z :=
  if (member ILP32 Gnssmeasurement src "state" =? 0) && String.eqb f "pseudorange_rate_mps"
  then f64_bits (f64_of_int 1) else member ILP32 Gnssmeasurement src f.
Definition android_gnss_measurement (src : list Z) : members :=
  map (fun f => (f, gnss_value src f)) gnss_measurement_members.

(** The clocks; [c] is libmnl's. *)
Definition android_gps_clock (c : list Z) : members :=
  map (fun f => (f, from_option (member ILP32 MTK_GPS_CLOCK c) 0 (source_of gps_clock_copies f))) gps_clock_members.
Definition android_gnss_clock (c : list Z) : members :=
  map (fun f => (f, member ILP32 Gnssclock c f)) gnss_clock_members.

Lemma copied_value a pairs t src f :
  from_option le_val 0 (fields_copied a pairs t src f) = from_option (member a t src) 0 (source_of pairs f).
Proof. unfold fields_copied. destruct (source_of pairs f); [|done]. cbn. by rewrite member_object. Qed.

(** A member of the image, by the cases of what was stored. *)
Lemma stored_value b g l v f :
  from_option le_val 0 (stored b g l v f) = if b && String.eqb f g then le_val l else from_option le_val 0 (v f).
Proof. unfold stored. by destruct (b && String.eqb f g). Qed.

#[local] Hint Extern 1 (sized _ _ (stored _ _ _ _)) => (apply stored_sized; [vm_compute; reflexivity|]) : sizes.
#[local] Hint Extern 1 (sized _ _ (fields_copied _ _ _ _)) => (apply copies_sized; [vm_compute; reflexivity|]) : sizes.
#[local] Hint Extern 1 (sized _ _ (fun _ => None)) => apply none_sized : sizes.
Ltac solve_sized := auto 6 with sizes.

Section struct_seen.
Context (b : abi).

Lemma gps_measurement_seen src :
  zlen src = sizeof ILP32 MTK_GPS_MEASUREMENT ->
  fieldp_copy b gps_measurement (gps_measurement_of src) gps_measurement_members = android_gps_measurement src.
Proof.
  intros Hl. unfold gps_measurement_of, gps_measurement.
  rewrite fieldp_copy_image; [|vm_compute; reflexivity|solve_sized|destruct b; vm_compute; reflexivity].
  unfold seen, android_gps_measurement. apply map_ext. intros f. f_equal. unfold gps_value.
  rewrite !stored_value, copied_value. cbn [andb]. rewrite le_val_zeros.
  destruct (String.eqb f "used_in_fix"); [by destruct (negb _)|]. destruct (_ && String.eqb f "received_gps_tow_ns"); [done|].
  destruct (_ && String.eqb f "pseudorange_rate_mps"); [|done]. vm_compute. reflexivity.
Qed.

Lemma gnss_measurement_seen src :
  zlen src = sizeof ILP32 Gnssmeasurement ->
  fieldp_copy b gnss_measurement (gnss_measurement_of src) gnss_measurement_members = android_gnss_measurement src.
Proof.
  intros Hl. unfold gnss_measurement_of, gnss_measurement.
  rewrite fieldp_copy_image; [|vm_compute; reflexivity|solve_sized|destruct b; vm_compute; reflexivity].
  unfold seen, android_gnss_measurement. apply map_ext_in. intros f Hf. f_equal. unfold gnss_value.
  rewrite stored_value, copied_value. destruct (_ && String.eqb f "pseudorange_rate_mps"); [vm_compute; reflexivity|].
  change gnss_measurement_copies with (same_name gnss_measurement_members). by rewrite (source_same _ f Hf).
Qed.

Lemma gps_clock_seen c :
  zlen c = sizeof ILP32 MTK_GPS_CLOCK ->
  fieldp_copy b gps_clock (gps_clock_of c) gps_clock_members = android_gps_clock c.
Proof.
  intros Hl. unfold gps_clock_of, gps_clock.
  rewrite fieldp_copy_image; [|vm_compute; reflexivity|solve_sized|destruct b; vm_compute; reflexivity].
  unfold seen, android_gps_clock. apply map_ext. intros f. f_equal. apply copied_value.
Qed.

Lemma gnss_clock_seen c :
  zlen c = sizeof ILP32 Gnssclock ->
  fieldp_copy b gnss_clock (update_gnss_clock c) gnss_clock_members = android_gnss_clock c.
Proof.
  intros Hl. unfold update_gnss_clock, gnss_clock.
  rewrite fieldp_copy_image; [|vm_compute; reflexivity|solve_sized|destruct b; vm_compute; reflexivity].
  unfold seen, android_gnss_clock. apply map_ext_in. intros f Hf. f_equal.
  rewrite copied_value. change gnss_clock_copies with (same_name gnss_clock_members). by rewrite (source_same _ f Hf).
Qed.
End struct_seen.

Lemma length_gps_measurement src : zlen src = sizeof ILP32 MTK_GPS_MEASUREMENT ->
  zlen (gps_measurement_of src) = sizeof ILP32 gps_measurement.
Proof. intros Hl. apply length_struct_image; [vm_compute; reflexivity|solve_sized|done]. Qed.
Lemma length_gnss_measurement src : zlen src = sizeof ILP32 Gnssmeasurement ->
  zlen (gnss_measurement_of src) = sizeof ILP32 gnss_measurement.
Proof. intros Hl. apply length_struct_image; [vm_compute; reflexivity|solve_sized|done]. Qed.
Lemma length_gps_clock c : zlen c = sizeof ILP32 MTK_GPS_CLOCK -> zlen (gps_clock_of c) = sizeof ILP32 gps_clock.
Proof. intros Hl. apply length_struct_image; [vm_compute; reflexivity|solve_sized|done]. Qed.
Lemma length_gnss_clock c : zlen c = sizeof ILP32 Gnssclock -> zlen (update_gnss_clock c) = sizeof ILP32 gnss_clock.
Proof. intros Hl. apply length_struct_image; [vm_compute; reflexivity|solve_sized|done]. Qed.

(** ** A block in the HAL *)

(** The two blocks have the same shape. *)
Definition block (t : ctype) (n : Z) (mt ct : ctype) : Prop :=
  t = CStruct [("measurement_count", c_size_t); ("measurements", CArr n mt); ("clock", ct)]%string /\
  0 <= n < 2 ^ 32 /\ (forall b, alignof b mt = 8 /\ alignof b ct = 8 /\ sizeof b mt = sizeof ILP32 mt /\
  sizeof b ct = sizeof ILP32 ct /\ 0 <= sizeof b mt /\ 0 <= sizeof b ct).

Lemma gps_block : block gps_data GPS_MAX_MEASUREMENT gps_measurement gps_clock.
Proof. split; [done|]. split; [done|]. intros []; vm_compute; repeat split; discriminate. Qed.
Lemma gnss_block : block gnss_data GNSS_MAX_MEASUREMENT gnss_measurement gnss_clock.
Proof. split; [done|]. split; [done|]. intros []; vm_compute; repeat split; discriminate. Qed.

Section block.
Context (t : ctype) (n : Z) (mt ct : ctype) (Hblock : block t n mt ct).
Context (ms : list (list Z)) (clk : list Z).
Context (Hms : Forall (fun m => zlen m = sizeof ILP32 mt) ms) (Hn : zlen ms <= n) (Hclk : zlen clk = sizeof ILP32 ct).

Definition image : list Z := data_image t n (sizeof ILP32 mt) ms clk.
Definition all : list (list Z) := ms ++ replicate (Z.to_nat n - length ms) (zeros (Z.to_nat (sizeof ILP32 mt))).

Lemma length_all : length all = Z.to_nat n.
Proof. unfold all. lists. lia. Qed.
Lemma all_sized m : In m all -> length m = Z.to_nat (sizeof ILP32 mt).
Proof.
  unfold all. rewrite in_app_iff. intros [H|H].
  - apply list_elem_of_In in H. apply (proj1 (Forall_forall _ _) Hms) in H. lia.
  - apply list_elem_of_In, elem_of_replicate in H as [-> _]. apply length_zeros.
Qed.
Lemma length_concat_all : zlen (concat all) = n * sizeof ILP32 mt.
Proof.
  destruct Hblock as (_ & Hn0 & Hs). destruct (Hs ILP32) as (_ & _ & _ & _ & Hp & _).
  assert (forall l : list (list Z), (forall m, In m l -> length m = Z.to_nat (sizeof ILP32 mt)) ->
    zlen (concat l) = zlen l * sizeof ILP32 mt) as H.
  { induction l as [|m l IH]; [done|]. intros H. cbn [concat]. rewrite length_app, Nat2Z.inj_add.
    rewrite IH by (intros; apply H; by right). rewrite (H m) by (by left). cbn [length]. lia. }
  rewrite H by apply all_sized. rewrite length_all. lia.
Qed.

Definition block_values : values :=
  stored true "measurement_count" (le_bytes 4 (zlen ms))
    (stored true "measurements" (concat all) (stored true "clock" clk (fun _ => None))).
Lemma image_values : image = struct_image ILP32 t block_values.
Proof. done. Qed.

Lemma block_wf : wf_fields ILP32 (fields t) = true.
Proof.
  destruct Hblock as (-> & Hn0 & Hs). destruct (Hs ILP32) as (H1 & H2 & _ & _ & H3 & H4).
  cbn -[Z.mul]. rewrite H1, H2. rewrite !andb_true_iff, !Z.leb_le. repeat split; nia.
Qed.
Lemma block_sized : sized ILP32 (fields t) block_values.
Proof.
  pose proof length_concat_all as H. destruct Hblock as (-> & _).
  repeat (apply Forall_cons; split); [reflexivity|exact H|exact Hclk|by apply Forall_nil].
Qed.

Lemma block_offsets b :
  offsetof b t "measurements" = Some (8, CArr n mt) /\
  offsetof b t "clock" = Some (round_up (8 + n * sizeof ILP32 mt) 8, ct).
Proof.
  destruct Hblock as (-> & Hn0 & Hs). destruct (Hs b) as (H1 & H2 & H3 & H4 & _).
  cbn -[Z.mul round_up]. rewrite H1, H2, H3. by destruct b.
Qed.
Lemma block_places b f : f = "measurements"%string \/ f = "clock"%string -> same_place ILP32 b t f = true.
Proof.
  destruct (block_offsets ILP32) as [E1 E2]. destruct (block_offsets b) as [F1 F2].
  destruct Hblock as (_ & _ & Hs). destruct (Hs b) as (_ & _ & H3 & H4 & _). unfold same_place.
  intros [->| ->]; rewrite ?E1, ?E2, ?F1, ?F2; cbn [sizeof]; rewrite ?H3, ?H4; by rewrite !Z.eqb_refl.
Qed.

Lemma block_object b f l :
  f = "measurements"%string /\ l = concat all \/ f = "clock"%string /\ l = clk -> object b t image f = l.
Proof.
  intros Hf. rewrite (object_abi ILP32 b) by (apply block_places; tauto). rewrite image_values.
  pose proof block_wf as Hw. pose proof block_sized as Hv. destruct (block_offsets ILP32) as [E1 E2].
  destruct Hblock as (-> & _). cbn [fields] in *.
  destruct Hf as [[-> ->]|[-> ->]]; [erewrite object_image by eassumption|erewrite object_image by eassumption]; done.
Qed.

Lemma block_element b i m :
  all !! i = Some m -> element b t image "measurements" (Z.of_nat i) = m.
Proof.
  intros Hi. pose proof (lookup_lt_Some _ _ _ Hi) as Hlt. rewrite length_all in Hlt.
  destruct (block_offsets b) as [E _]. destruct Hblock as (_ & Hn0 & Hs). destruct (Hs b) as (_ & _ & H3 & _ & Hp & _).
  rewrite (element_object _ _ _ _ _ _ _ _ E) by lia. rewrite (block_object b _ (concat all)) by tauto.
  rewrite H3, Nat2Z.id. rewrite <- (map_id all). 
  apply (concat_element _ id); [by apply all_sized|done].
Qed.

(** A 64-bit reader takes the padding behind the count with it, which is zero. *)
Lemma block_count b : member b t image "measurement_count" = zlen ms.
Proof.
  destruct Hblock as (Ht & Hn0 & Hs). destruct (Hs ILP32) as (H1 & _).
  assert (exists rest, image = le_bytes 4 (zlen ms) ++ zeros 4 ++ rest) as (rest & ->).
  { unfold image, data_image. rewrite Ht. unfold struct_image. cbn [fields_image]. cbn [alignof c_size_t word_size].
    rewrite H1. rewrite <- !app_assoc. eexists. reflexivity. }
  assert (le_val (le_bytes 4 (zlen ms)) = zlen ms) as E by (rewrite le_val_le_bytes; apply Z.mod_small; cbn; lia).
  rewrite member_object. unfold object. rewrite Ht. destruct b; [exact E|].
  change (offsetof LP64 _ _) with (Some (0, c_size_t)). cbn [sizeof c_size_t word_size].
  rewrite app_assoc. rewrite drop_0, take_app_length' by reflexivity.
  rewrite le_val_app, le_val_zeros, E. lia.
Qed.

Lemma map_seq_lookup {A B} (F : A -> B) (g : nat -> A) (l : list A) :
  (forall i x, l !! i = Some x -> g i = x) -> map (fun i => F (g i)) (seq 0 (length l)) = map F l.
Proof.
  intros H. apply list_eq. intros i. rewrite !list_lookup_fmap.
  destruct (l !! i) as [x|] eqn:E.
  - pose proof (lookup_lt_Some _ _ _ E). rewrite lookup_seq_lt by done. cbn. by rewrite (H i x E).
  - apply lookup_ge_None in E. by rewrite lookup_seq_ge.
Qed.

(** What [update_gps_measurements] and [update_gnss_measurements] take from the block. *)
Lemma block_copied b names len :
  n <= len ->
  copy_all b t mt image names n len =
  Done (map (fun m => fieldp_copy b mt m names) ms ++
        replicate (Z.to_nat n - length ms) (seen (fun _ => None) names)).
Proof.
  intros Hlen. unfold copy_all. iftrue. f_equal.
  replace (seq 0 (Z.to_nat n)) with (seq 0 (length all)) by (by rewrite length_all).
  rewrite (map_seq_lookup (fun m => fieldp_copy b mt m names) (fun i => element b t image "measurements" (Z.of_nat i)))
    by apply block_element.
  unfold all. rewrite map_app. f_equal. etransitivity; [apply fmap_replicate|]. f_equal. apply fieldp_copy_zeros.
Qed.
Lemma block_clock b names : fieldp_copy b ct (object b t image "clock") names = fieldp_copy b ct clk names.
Proof. by rewrite (block_object b _ clk) by tauto. Qed.
(** The whole of an update. *)
Lemma block_reported b names cnames len (cb : Z -> list members -> members -> callback) h :
  n <= len -> meas_cbs (h_cbs h) = true ->
  (dump_array (member b t image "measurement_count") n ;;
   let* elements := lift (copy_all b t mt image names n len) in
   GpsHal.call meas_cbs (cb (member b t image "measurement_count") elements
     (fieldp_copy b ct (object b t image "clock") cnames)))%prog h =
  Done (tt, log_call (cb (zlen ms)
    (map (fun m => fieldp_copy b mt m names) ms ++ replicate (Z.to_nat n - length ms) (seen (fun _ => None) names))
    (fieldp_copy b ct clk cnames)) h).
Proof.
  intros Hlen Hh. rewrite block_count, block_clock, block_copied by done.
  unfold dump_array. iftrue. unfold GpsHal.call, bind, ret, lift, gets. cbv beta iota. by rewrite Hh.
Qed.
Lemma length_image : zlen image = sizeof ILP32 t.
Proof.
  rewrite image_values. pose proof block_wf. pose proof block_sized. destruct Hblock as (-> & _ & Hs).
  destruct (Hs ILP32) as (H1 & H2 & _). apply length_struct_image; [done|done|]. cbn. rewrite H1, H2. done.
Qed.
End block.

(** ** The callbacks *)

(** The elements behind the count are zero. *)
Definition padded (n : Z) (names : list string) (ms : list members) : list members :=
  ms ++ replicate (Z.to_nat n - length ms) (seen (fun _ => None) names).

Definition gps_call (srcs : list (list Z)) (clk : list Z) : callback :=
  measurement_callback (zlen srcs)
    (padded GPS_MAX_MEASUREMENT gps_measurement_members (map android_gps_measurement srcs)) (android_gps_clock clk).
Definition gnss_call (srcs : list (list Z)) (clk : list Z) : callback :=
  gnss_measurement_callback (zlen srcs)
    (padded GNSS_MAX_MEASUREMENT gnss_measurement_members (map android_gnss_measurement srcs)) (android_gnss_clock clk).

(** Objects of a type. *)
Definition all_of (t : ctype) (l : list (list Z)) : Prop := Forall (fun src => zlen src = sizeof ILP32 t) l.

Lemma map_sized (f : list Z -> list Z) size size' srcs :
  (forall src, zlen src = size -> zlen (f src) = size') -> Forall (fun m => zlen m = size) srcs ->
  Forall (fun m => zlen m = size') (map f srcs).
Proof. intros H Hs. apply Forall_map. by eapply Forall_impl; [exact Hs|]. Qed.

Lemma gps_data_ok srcs clk : all_of MTK_GPS_MEASUREMENT srcs -> zlen srcs <= GPS_MAX_MEASUREMENT ->
  zlen clk = sizeof ILP32 MTK_GPS_CLOCK ->
  mnl2hal_ok (D_gps_measurements (gps_data_image (map gps_measurement_of srcs) (gps_clock_of clk))).
Proof.
  intros Hs Hn Hc. split; [by repeat constructor|]. split; [done|]. cbn [mnl2hal_struct].
  apply (length_image _ _ _ _ gps_block); [|by rewrite length_map|by apply length_gps_clock].
  exact (map_sized _ _ _ _ length_gps_measurement Hs).
Qed.
Lemma gnss_data_ok srcs clk : all_of Gnssmeasurement srcs -> zlen srcs <= GNSS_MAX_MEASUREMENT ->
  zlen clk = sizeof ILP32 Gnssclock ->
  mnl2hal_ok (D_gnss_measurements (gnss_data_image (map gnss_measurement_of srcs) (update_gnss_clock clk))).
Proof.
  intros Hs Hn Hc. split; [by repeat constructor|]. split; [done|]. cbn [mnl2hal_struct].
  apply (length_image _ _ _ _ gnss_block); [|by rewrite length_map|by apply length_gnss_clock].
  exact (map_sized _ _ _ _ length_gnss_measurement Hs).
Qed.

Section called.
Context (hw : gps_h) (b : abi) (h : gpshal) (Hh : meas_cbs (h_cbs h) = true).

(** Images that are seen as [see] says. *)
Lemma map_seen (f : list Z -> list Z) (see : list Z -> members) t names size srcs :
  (forall src, zlen src = size -> fieldp_copy b t (f src) names = see src) ->
  Forall (fun m => zlen m = size) srcs ->
  map (fun m => fieldp_copy b t m names) (map f srcs) = map see srcs.
Proof.
  intros H Hs. rewrite map_map. apply map_ext_in. intros src Hin. apply H.
  apply list_elem_of_In in Hin. exact (proj1 (Forall_forall _ _) Hs src Hin).
Qed.
Lemma gps_called srcs clk :
  all_of MTK_GPS_MEASUREMENT srcs -> zlen clk = sizeof ILP32 MTK_GPS_CLOCK ->
  zlen srcs <= GPS_MAX_MEASUREMENT -> GPS_MAX_MEASUREMENT <= gps_measurements_len hw ->
  update_gps_measurements hw b (gps_data_image (map gps_measurement_of srcs) (gps_clock_of clk)) h =
  Done (tt, log_call (gps_call srcs clk) h).
Proof.
  intros Hs Hc Hn Hl. unfold gps_call, padded. rewrite length_map.
  rewrite <- (map_seen gps_measurement_of _ gps_measurement gps_measurement_members _ _ (gps_measurement_seen b) Hs).
  rewrite <- (gps_clock_seen b clk Hc), <- (length_map gps_measurement_of srcs).
  apply (block_reported _ _ _ _ gps_block); [|by rewrite length_map|by apply length_gps_clock|done|done].
  exact (map_sized _ _ _ _ length_gps_measurement Hs).
Qed.

Lemma gnss_called srcs clk :
  all_of Gnssmeasurement srcs -> zlen clk = sizeof ILP32 Gnssclock ->
  zlen srcs <= GNSS_MAX_MEASUREMENT -> GNSS_MAX_MEASUREMENT <= gnss_measurements_len hw ->
  update_gnss_measurements hw b (gnss_data_image (map gnss_measurement_of srcs) (update_gnss_clock clk)) h =
  Done (tt, log_call (gnss_call srcs clk) h).
Proof.
  intros Hs Hc Hn Hl. unfold gnss_call, padded. rewrite length_map.
  rewrite <- (map_seen gnss_measurement_of _ gnss_measurement gnss_measurement_members _ _ (gnss_measurement_seen b) Hs).
  rewrite <- (gnss_clock_seen b clk Hc), <- (length_map gnss_measurement_of srcs).
  apply (block_reported _ _ _ _ gnss_block); [|by rewrite length_map|by apply length_gnss_clock|done|done].
  exact (map_sized _ _ _ _ length_gnss_measurement Hs).
Qed.

(** The datagrams, at the HAL's thread. *)
Context (junk : nat -> Z).

Lemma gps_data_arrives srcs clk rest :
  all_of MTK_GPS_MEASUREMENT srcs -> zlen clk = sizeof ILP32 MTK_GPS_CLOCK ->
  zlen srcs <= GPS_MAX_MEASUREMENT -> GPS_MAX_MEASUREMENT <= gps_measurements_len hw ->
  let m := D_gps_measurements (gps_data_image (map gps_measurement_of srcs) (gps_clock_of clk)) in
  mnl2hal_hdlr b junk (RData (mnl2hal_bytes m) :: rest) (gpshal_mnl2hal_interface hw b) h =
  Done (0, log_call (gps_call srcs clk) h).
Proof.
  intros Hs Hc Hn Hl m. assert (mnl2hal_ok m) as Hok by (by apply gps_data_ok).
  rewrite worker_handles; [|exact Hok|by destruct b|by apply mnl2hal_strings_fit|].
  - subst m. cbn [mnl2hal_call]. unfold invoke. cbn [m2h_gps_measurements gpshal_mnl2hal_interface].
    unfold bind. rewrite gps_called by done. reflexivity.
  - intros m' [Hcmd Ha]. destruct m'; try discriminate Hcmd. cbn [mnl2hal_fields snd m] in Ha.
    apply Forall2_cons in Ha as [Ha _]. by injection Ha as ->.
Qed.

Lemma gnss_data_arrives srcs clk rest :
  all_of Gnssmeasurement srcs -> zlen clk = sizeof ILP32 Gnssclock ->
  zlen srcs <= GNSS_MAX_MEASUREMENT -> GNSS_MAX_MEASUREMENT <= gnss_measurements_len hw ->
  let m := D_gnss_measurements (gnss_data_image (map gnss_measurement_of srcs) (update_gnss_clock clk)) in
  mnl2hal_hdlr b junk (RData (mnl2hal_bytes m) :: rest) (gpshal_mnl2hal_interface hw b) h =
  Done (0, log_call (gnss_call srcs clk) h).
Proof.
  intros Hs Hc Hn Hl m. assert (mnl2hal_ok m) as Hok by (by apply gnss_data_ok).
  rewrite worker_handles; [|exact Hok|by destruct b|by apply mnl2hal_strings_fit|].
  - subst m. cbn [mnl2hal_call]. unfold invoke. cbn [m2h_gnss_measurements gpshal_mnl2hal_interface].
    unfold bind. rewrite gnss_called by done. reflexivity.
  - intros m' [Hcmd Ha]. destruct m'; try discriminate Hcmd. cbn [mnl2hal_fields snd m] in Ha.
    apply Forall2_cons in Ha as [Ha _]. by injection Ha as ->.
Qed.
End called.

(** ** The daemon's loops *)

(** The satellites that have a number. *)
Definition numbered (t : ctype) (f : string) (srcs : list (list Z)) : list (list Z) :=
  List.filter (fun src => negb (member ILP32 t src f =? 0)) srcs.

Lemma gps_measurements_spec srcs ms :
  zlen ms + zlen srcs <= GPS_MAX_MEASUREMENT ->
  gps_measurements srcs ms = Done (ms ++ map gps_measurement_of (numbered MTK_GPS_MEASUREMENT "PRN" srcs)).
Proof.
  revert ms. induction srcs as [|src srcs IH]; intros ms H; [by rewrite app_nil_r|].
  cbn [length] in H. cbn [gps_measurements numbered List.filter]. destruct (member _ _ _ _ =? 0); cbn [negb].
  - apply IH. lia.
  - iftrue. rewrite IH by (lists; lia). cbn [map]. by rewrite <- app_assoc.
Qed.

Lemma gnss_measurements_spec srcs ms :
  zlen ms <= GNSS_MAX_MEASUREMENT ->
  gnss_measurements srcs ms =
  ms ++ take (64 - length ms) (map gnss_measurement_of (numbered Gnssmeasurement "svid" srcs)).
Proof.
  change GNSS_MAX_MEASUREMENT with 64. revert ms. induction srcs as [|src srcs IH]; intros ms H.
  - cbn. by rewrite take_nil, app_nil_r.
  - cbn [gnss_measurements numbered List.filter]. destruct (member _ _ _ _ =? 0); cbn [negb]; [by apply IH|].
    change GNSS_MAX_MEASUREMENT with 64. destruct (Z.leb_spec 64 (zlen ms)).
    + replace (64 - length ms)%nat with 0%nat by lia. by rewrite take_0, app_nil_r.
    + rewrite IH by (lists; lia). rewrite <- app_assoc. f_equal. cbn [map].
      replace (64 - length ms)%nat with (S (64 - length (ms ++ [gnss_measurement_of src]))) by (lists; lia). done.
Qed.

Lemma all_systems ls ms :
  zlen ms <= GNSS_MAX_MEASUREMENT ->
  fold_left (fun ms srcs => gnss_measurements srcs ms) ls ms =
  ms ++ take (64 - length ms) (map gnss_measurement_of (numbered Gnssmeasurement "svid" (concat ls))).
Proof.
  change GNSS_MAX_MEASUREMENT with 64. revert ms. induction ls as [|l ls IH]; intros ms H; cbn [fold_left concat].
  - cbn. by rewrite take_nil, app_nil_r.
  - rewrite gnss_measurements_spec by done. unfold numbered. rewrite List.filter_app, map_app, take_app. fold (numbered Gnssmeasurement "svid" l) (numbered Gnssmeasurement "svid" (concat ls)).
    rewrite IH by (lists; lia). rewrite <- app_assoc. do 2 f_equal. f_equal. lists. lia.
Qed.

(** ** What the callback sends *)

(** The calls made meanwhile, by their number, and what is sent. *)
Record sends (w w' : gpsctl) (n : nat) (ns : list note) : Prop := {
  se_calls : length (c_calls w') = (length (c_calls w) + n)%nat;
  se_sys : sys_grows (c_sys w) (c_sys w') ns;
  se_kernel : kernel_ok (c_sys w');
  se_raw : gps_raw_debug_mode w' = gps_raw_debug_mode w
}.

Lemma sends_refl w : kernel_ok (c_sys w) -> sends w w 0 [].
Proof. split; [lia|apply sys_grows_refl|done|done]. Qed.
Lemma sends_trans w1 w2 w3 n1 n2 l1 l2 :
  sends w1 w2 n1 l1 -> sends w2 w3 n2 l2 -> sends w1 w3 (n1 + n2) (l1 ++ l2).
Proof. intros [H1 G1 _ R1] [H2 G2 K R2]. split; [lia|by eapply sys_grows_trans|done|by rewrite R2]. Qed.

Section loops.
Context (env : ctl_env) (fx : fix_env).

Lemma ask_sends {A} c (res : nat -> A) w :
  kernel_ok (c_sys w) ->
  exists w', ask env c res w = Done ((ans env (length (c_calls w)) c, res (length (c_calls w))), w') /\ sends w w' 1 [].
Proof.
  intros H. exists (add_call c w). split; [reflexivity|]. split; [|apply sys_grows_refl|exact H|done].
  cbn. by rewrite length_app.
Qed.
Lemma on_sys_sends (m : prog sys Z) path msg w :
  plain_send m path msg -> kernel_ok (c_sys w) ->
  exists r w', on_sys m w = Done (r, w') /\ sends w w' 0 [NSend path msg].
Proof.
  intros Hm Hk. destruct (Hm _ Hk) as (r & s' & E & G & _). exists r, (set_c_sys s' w).
  split; [unfold on_sys; cbn; by rewrite E|]. split; [cbn; lia|exact G|by eapply kernel_ok_grows|done].
Qed.
Lemma hal_sends m w :
  mnl2hal_ok m -> zlen (mnl2hal_bytes m) <= HAL_MNL_BUFF_SIZE -> kernel_ok (c_sys w) ->
  exists r w', on_sys (mnl2hal_send m) w = Done (r, w') /\ sends w w' 0 [to_hal m].
Proof. intros Hok Hl. by apply on_sys_sends, mnl2hal_plain. Qed.

(** What libmnl leaves behind has the size of the variable. *)
Record fix_sizes : Prop := {
  fs_gps k : all_of MTK_GPS_MEASUREMENT (fx_measurement fx k) /\ zlen (fx_measurement fx k) = GPS_MAX_MEASUREMENT;
  fs_clock k : zlen (fx_clock fx k) = sizeof ILP32 MTK_GPS_CLOCK;
  fs_gnss k : Forall (all_of Gnssmeasurement) (systems (fx_gnss_measurement fx k));
  fs_gnss_clock k : zlen (fx_gnss_clock fx k) = sizeof ILP32 Gnssclock;
  fs_nav k : zlen (fx_navigation fx k) = sizeof ILP32 MTK_GPS_NAVIGATION_EVENT;
  fs_gnss_nav k : zlen (fx_gnss_navigation fx k) = sizeof ILP32 GnssNavigationmessage
}.
Context (Hfx : fix_sizes).

(** The satellites reported at the call with a number. *)
Definition gps_seen (k : nat) : list (list Z) := numbered MTK_GPS_MEASUREMENT "PRN" (fx_measurement fx k).
Definition gnss_seen (k : nat) : list (list Z) :=
  take 64 (numbered Gnssmeasurement "svid" (concat (systems (fx_gnss_measurement fx k)))).
Definition gnss_clock_at (k : nat) : list Z :=
  if ans env k CGnssClock =? 0 then zeros (Z.to_nat (sizeof ILP32 Gnssclock)) else fx_gnss_clock fx k.

Lemma numbered_all t f l : all_of t l -> all_of t (numbered t f l).
Proof. unfold all_of. rewrite !List.Forall_forall. intros H x Hx. apply filter_In in Hx as [Hx _]. by apply H. Qed.
Lemma gps_seen_ok k : all_of MTK_GPS_MEASUREMENT (gps_seen k) /\ zlen (gps_seen k) <= GPS_MAX_MEASUREMENT.
Proof.
  destruct (fs_gps Hfx k) as [H Hl]. split; [by apply numbered_all|]. unfold gps_seen, numbered.
  pose proof (List.filter_length_le (fun src => negb (member ILP32 MTK_GPS_MEASUREMENT src "PRN" =? 0)) (fx_measurement fx k)). lia.
Qed.
Lemma gnss_seen_ok k : all_of Gnssmeasurement (gnss_seen k) /\ zlen (gnss_seen k) <= GNSS_MAX_MEASUREMENT.
Proof.
  split; [|unfold gnss_seen; rewrite length_take; change GNSS_MAX_MEASUREMENT with 64; lia].
  apply Forall_take, numbered_all. pose proof (fs_gnss Hfx k) as H. unfold all_of in *. by apply Forall_concat.
Qed.
Lemma gnss_clock_ok k : zlen (gnss_clock_at k) = sizeof ILP32 Gnssclock.
Proof. unfold gnss_clock_at. destruct (_ =? 0); [done|apply (fs_gnss_clock Hfx)]. Qed.

Definition gps_notes (srcs : list (list Z)) (clk : list Z) : list note :=
  match srcs with
  | [] => []
  | _ => [to_hal (D_gps_measurements (gps_data_image (map gps_measurement_of srcs) (gps_clock_of clk)))]
  end.
Definition gnss_notes (srcs : list (list Z)) (clk : list Z) : list note :=
  match srcs with
  | [] => []
  | _ => [to_hal (D_gnss_measurements (gnss_data_image (map gnss_measurement_of srcs) (update_gnss_clock clk)))]
  end.

Lemma gps_sends w :
  kernel_ok (c_sys w) -> let k := length (c_calls w) in
  exists w', get_gps_measurement_clock_data env fx w = Done (tt, w') /\
    sends w w' 2 (gps_notes (gps_seen k) (fx_clock fx (k + 1))).
Proof.
  intros Hk k. destruct (fs_gps Hfx k) as [Hs Hl].
  destruct (ask_sends CGpsMeasurement (fx_measurement fx) w Hk) as (w1 & E1 & S1).
  destruct (ask_sends CGpsClock (fx_clock fx) w1 (se_kernel _ _ _ _ S1)) as (w2 & E2 & S2).
  unfold get_gps_measurement_clock_data. rewrite (bind_done _ _ _ _ _ E1), (bind_done _ _ _ _ _ E2). fold k.
  rewrite gps_measurements_spec by (fold k; cbn [length]; lia). unfold lift at 1, bind at 1. cbn [app].
  rewrite (se_calls _ _ _ _ S1). fold k (gps_seen k). rewrite length_map.
  destruct (gps_seen_ok k) as [Ha Hn]. pose proof (sends_trans _ _ _ _ _ _ _ S1 S2) as S.
  destruct (gps_seen k) as [|src srcs] eqn:Es; [by exists w2|].
  edestruct (hal_sends (D_gps_measurements (gps_data_image (map gps_measurement_of (src :: srcs))
    (gps_clock_of (fx_clock fx (k + 1))))) w2) as (r & w3 & E3 & S3).
  - by apply gps_data_ok, (fs_clock Hfx).
  - by apply mnl2hal_strings_fit; [apply gps_data_ok, (fs_clock Hfx)|].
  - exact (se_kernel _ _ _ _ S2).
  - exists w3. split; [|exact (sends_trans _ _ _ _ _ _ _ S S3)]. change (0 <? zlen (src :: srcs)) with true. unfold when.
    cbn [mnl2hal_send] in E3. by rewrite (bind_done _ _ _ _ _ E3).
Qed.

Lemma gnss_sends w :
  kernel_ok (c_sys w) -> let k := length (c_calls w) in
  exists w', get_gnss_measurement_clock_data env fx w = Done (tt, w') /\
    sends w w' 2 (gnss_notes (gnss_seen k) (gnss_clock_at (k + 1))).
Proof.
  intros Hk k.
  destruct (ask_sends CGnssMeasurement (fx_gnss_measurement fx) w Hk) as (w1 & E1 & S1).
  destruct (ask_sends CGnssClock (fx_gnss_clock fx) w1 (se_kernel _ _ _ _ S1)) as (w2 & E2 & S2).
  unfold get_gnss_measurement_clock_data. rewrite (bind_done _ _ _ _ _ E1), (bind_done _ _ _ _ _ E2). fold k.
  rewrite all_systems by done. cbn [app length]. rewrite firstn_map. change (64 - 0)%nat with 64%nat.
  rewrite (se_calls _ _ _ _ S1). fold k (gnss_seen k) (gnss_clock_at (k + 1)). rewrite length_map.
  destruct (gnss_seen_ok k) as [Ha Hn]. pose proof (sends_trans _ _ _ _ _ _ _ S1 S2) as S.
  destruct (gnss_seen k) as [|src srcs] eqn:Es; [by exists w2|].
  edestruct (hal_sends (D_gnss_measurements (gnss_data_image (map gnss_measurement_of (src :: srcs))
    (update_gnss_clock (gnss_clock_at (k + 1))))) w2) as (r & w3 & E3 & S3).
  - by apply gnss_data_ok, gnss_clock_ok.
  - by apply mnl2hal_strings_fit; [apply gnss_data_ok, gnss_clock_ok|].
  - exact (se_kernel _ _ _ _ S2).
  - exists w3. split; [|exact (sends_trans _ _ _ _ _ _ _ S S3)]. change (0 <? zlen (src :: srcs)) with true. unfold when.
    cbn [mnl2hal_send] in E3. by rewrite (bind_done _ _ _ _ _ E3).
Qed.

(** What Android is told, at the call with a number. *)
Definition measurement_calls (k : nat) : list callback :=
  match gps_seen k with [] => [] | srcs => [gps_call srcs (fx_clock fx (k + 1))] end ++
  match gnss_seen (k + 2) with [] => [] | srcs => [gnss_call srcs (gnss_clock_at (k + 3))] end.

(** C14: The raw measurements arrive at Android.  At a fix the daemon takes the
    satellites that libmnl gives a number, all of the 32 of GPS and the first 64
    of the five systems, and the two clocks; nothing is sent of a system without
    a satellite.  The HAL library, of either ABI, calls Android back with the
    count, with every member of every satellite as libmnl measured it - but for
    satellites without a state, whose rate becomes one (and whose time of week
    zero, for GPS) - with zeroed elements behind the count, and with the clock: for GPS, also the local variable that
    libmnl did not fill when it has no clock. *)
Theorem measurements_to_android (hw : gps_h) (b : abi) (junk : nat -> Z) (w : gpsctl) (h : gpshal) :
  kernel_ok (c_sys w) -> meas_cbs (h_cbs h) = true ->
  GPS_MAX_MEASUREMENT <= gps_measurements_len hw -> GNSS_MAX_MEASUREMENT <= gnss_measurements_len hw ->
  exists w' ns,
    (get_gps_measurement_clock_data env fx ;; get_gnss_measurement_clock_data env fx)%prog w = Done (tt, w') /\
    sys_grows (c_sys w) (c_sys w') ns /\
    worker_events hw b junk (hal_rx (fd_mnl2hal h) ns) h =
    Done (tt, log_calls (measurement_calls (length (c_calls w))) h).
Proof.
  intros Hk Hh H1 H2. set (k := length (c_calls w)).
  destruct (gps_sends w Hk) as (w1 & E1 & S1). destruct (gnss_sends w1 (se_kernel _ _ _ _ S1)) as (w2 & E2 & S2).
  rewrite (se_calls _ _ _ _ S1) in S2. fold k in S1, S2. eexists w2, _. split; [by rewrite (bind_done _ _ _ _ _ E1)|].
  split; [exact (se_sys _ _ _ _ (sends_trans _ _ _ _ _ _ _ S1 S2))|].
  rewrite hal_rx_app. unfold measurement_calls.
  destruct (gps_seen_ok k) as [Ha Hn]. destruct (gnss_seen_ok (k + 2)) as [Hb Hm].
  assert (forall h, meas_cbs (h_cbs h) = true ->
    worker_events hw b junk (hal_rx (fd_mnl2hal h) (gnss_notes (gnss_seen (k + 2)) (gnss_clock_at (k + 2 + 1)))) h =
    Done (tt, log_calls match gnss_seen (k + 2) with [] => [] | srcs => [gnss_call srcs (gnss_clock_at (k + 3))] end h)) as H.
  { intros h' Hh'. replace (k + 2 + 1)%nat with (k + 3)%nat by lia.
    destruct (gnss_seen (k + 2)) as [|src srcs]; [done|]. cbn [gnss_notes]. rewrite hal_rx_hal.
    etransitivity; [eapply worker_step, gnss_data_arrives; try done; apply gnss_clock_ok|done]. }
  destruct (gps_seen k) as [|src srcs]; [by apply H|]. cbn [gps_notes]. rewrite hal_rx_hal.
  etransitivity; [eapply worker_step, gps_data_arrives; try done; apply (fs_clock Hfx)|].
  exact (H (log_call (gps_call (src :: srcs) (fx_clock fx (k + 1))) h) Hh).
Qed.

(** ** Navigation messages *)

Definition gps_event (k : nat) (svid : Z) : list Z :=
  if ans env k (CGpsNavigation svid) =? 0 then zeros (Z.to_nat (sizeof ILP32 MTK_GPS_NAVIGATION_EVENT))
  else fx_navigation fx k.
Definition gnss_event (k : nat) (type svid : Z) : list Z :=
  if ans env k (CGnssNavigation svid type) =? 0 then zeros (Z.to_nat (sizeof ILP32 GnssNavigationmessage))
  else fx_gnss_navigation fx k.

Lemma gps_event_ok k svid : zlen (gps_event k svid) = sizeof ILP32 MTK_GPS_NAVIGATION_EVENT.
Proof. unfold gps_event. destruct (_ =? 0); [done|apply (fs_nav Hfx)]. Qed.
Lemma gnss_event_ok k type svid : zlen (gnss_event k type svid) = sizeof ILP32 GnssNavigationmessage.
Proof. unfold gnss_event. destruct (_ =? 0); [done|apply (fs_gnss_nav Hfx)]. Qed.

(** One message for every satellite, asked for in this order. *)
Fixpoint gps_nav_notes (k : nat) (svids : list Z) : list note :=
  match svids with
  | [] => []
  | svid :: svids => to_hal (D_gps_navigation (gps_nav_of (gps_event k svid))) :: gps_nav_notes (k + 1) svids
  end.
Fixpoint gnss_nav_notes (k : nat) (reqs : list (Z * Z)) : list note :=
  match reqs with
  | [] => []
  | (type, svid) :: reqs =>
      to_hal (D_gnss_navigation (update_gnss_navigation (gnss_event k type svid))) :: gnss_nav_notes (k + 1) reqs
  end.
(** libmnl has no message with data, and the debug output [d] is off. *)
Fixpoint silent (d : Z) (k : nat) (reqs : list (Z * Z)) : bool :=
  match reqs with
  | [] => true
  | (type, svid) :: reqs =>
      (member ILP32 GnssNavigationmessage (gnss_event k type svid) "data_length" =? 0) && (d =? 0) && silent d (k + 1) reqs
  end.
Definition gnss_requests : list (Z * Z) :=
  map (pair 1) (svids 1 32) ++ map (pair 16) (svids 1 24) ++ map (pair 32) (svids 1 37) ++ map (pair 4) (svids 1 36).

Lemma gps_nav_ok k svid : mnl2hal_ok (D_gps_navigation (gps_nav_of (gps_event k svid))).
Proof.
  pose proof (gps_event_ok k svid) as Hl. split; [by repeat constructor|]. split; [done|]. cbn [mnl2hal_struct].
  assert (zlen (object ILP32 MTK_GPS_NAVIGATION_EVENT (gps_event k svid) "data") = 40) as E.
  { unfold object. change (offsetof ILP32 MTK_GPS_NAVIGATION_EVENT "data") with (Some (16, CPack 4 (CArr 40 c_char))).
    change (sizeof ILP32 MTK_GPS_NAVIGATION_EVENT) with 56 in Hl. cbn [sizeof c_char]. lists. lia. }
  apply length_struct_image; [vm_compute; reflexivity| |done].
  apply stored_sized; [vm_compute; reflexivity|]. apply stored_sized; [rewrite E; vm_compute; reflexivity|solve_sized].
Qed.
Lemma gnss_nav_ok k type svid : mnl2hal_ok (D_gnss_navigation (update_gnss_navigation (gnss_event k type svid))).
Proof.
  pose proof (gnss_event_ok k type svid) as Hl. split; [by repeat constructor|]. split; [done|]. cbn [mnl2hal_struct].
  apply length_struct_image; [vm_compute; reflexivity|solve_sized|done].
Qed.

Lemma gps_navigation_sends l w :
  kernel_ok (c_sys w) ->
  exists w', gps_navigation env fx l w = Done (tt, w') /\ sends w w' (length l) (gps_nav_notes (length (c_calls w)) l).
Proof.
  revert w. induction l as [|svid l IH]; intros w Hk; [by exists w; split; [|apply sends_refl]|].
  destruct (ask_sends (CGpsNavigation svid) (fx_navigation fx) w Hk) as (w1 & E1 & S1).
  set (k := length (c_calls w)) in *.
  destruct (hal_sends (D_gps_navigation (gps_nav_of (gps_event k svid))) w1) as (r & w2 & E2 & S2).
  - apply gps_nav_ok.
  - by apply mnl2hal_strings_fit; [apply gps_nav_ok|].
  - exact (se_kernel _ _ _ _ S1).
  - destruct (IH w2 (se_kernel _ _ _ _ S2)) as (w3 & E3 & S3). exists w3. split.
    + cbn [gps_navigation]. rewrite (bind_done _ _ _ _ _ E1). cbn [mnl2hal_send] in E2. unfold gps_event in E2.
      by rewrite (bind_done _ _ _ _ _ E2).
    + rewrite (se_calls _ _ _ _ S2), (se_calls _ _ _ _ S1) in S3. fold k in S3.
      replace (k + 1 + 0)%nat with (k + 1)%nat in S3 by lia.
      exact (sends_trans _ _ _ _ _ _ _ S1 (sends_trans _ _ _ _ _ _ _ S2 S3)).
Qed.

(** Either all requests are answered without data and passed on, or the first
    answer with data is written through the null pointer. *)
Definition passes (m : prog gpsctl unit) (reqs : list (Z * Z)) : Prop :=
  forall w, kernel_ok (c_sys w) ->
  if silent (gps_raw_debug_mode w) (length (c_calls w)) reqs
  then exists w', m w = Done (tt, w') /\ sends w w' (length reqs) (gnss_nav_notes (length (c_calls w)) reqs)
  else m w = UB.

Lemma silent_app d k l1 l2 : silent d k (l1 ++ l2) = silent d k l1 && silent d (k + length l1) l2.
Proof.
  revert k. induction l1 as [|[type svid] l1 IH]; intros k; cbn [app silent length]; [by rewrite Nat.add_0_r|].
  rewrite IH. replace (k + 1 + length l1)%nat with (k + S (length l1))%nat by lia. by rewrite !andb_assoc.
Qed.
Lemma gnss_nav_notes_app k l1 l2 :
  gnss_nav_notes k (l1 ++ l2) = gnss_nav_notes k l1 ++ gnss_nav_notes (k + length l1) l2.
Proof.
  revert k. induction l1 as [|[type svid] l1 IH]; intros k; cbn [app gnss_nav_notes length]; [by rewrite Nat.add_0_r|].
  rewrite IH. by replace (k + 1 + length l1)%nat with (k + S (length l1))%nat by lia.
Qed.

Lemma passes_seq m1 m2 l1 l2 : passes m1 l1 -> passes m2 l2 -> passes (m1 ;; m2)%prog (l1 ++ l2).
Proof.
  intros H1 H2 w Hk. specialize (H1 w Hk). rewrite silent_app, gnss_nav_notes_app, length_app.
  destruct (silent _ _ l1); cbn [andb]; [|by apply bind_ub].
  destruct H1 as (w1 & E1 & S1). specialize (H2 w1 (se_kernel _ _ _ _ S1)). rewrite (se_calls _ _ _ _ S1), (se_raw _ _ _ _ S1) in H2.
  rewrite (bind_done _ _ _ _ _ E1). destruct (silent _ _ l2); [|done].
  destruct H2 as (w2 & E2 & S2). exists w2. split; [done|exact (sends_trans _ _ _ _ _ _ _ S1 S2)].
Qed.

Lemma passes_loop type l : passes (gnss_navigation env fx type l) (map (pair type) l).
Proof.
  induction l as [|svid l IH]; intros w Hk; [by exists w; split; [|apply sends_refl]|].
  destruct (ask_sends (CGnssNavigation svid type) (fx_gnss_navigation fx) w Hk) as (w1 & E1 & S1).
  set (k := length (c_calls w)) in *. cbn [map silent length gnss_nav_notes gnss_navigation].
  rewrite (bind_done _ _ _ _ _ E1). fold (gnss_event k type svid).
  rewrite (bind_done _ _ w1 _ _ (eq_refl : gets gps_raw_debug_mode w1 = Done (gps_raw_debug_mode w1, w1))).
  rewrite (se_raw _ _ _ _ S1). destruct (_ && (gps_raw_debug_mode w =? 0)); cbn [andb]; [|reflexivity].
  destruct (hal_sends (D_gnss_navigation (update_gnss_navigation (gnss_event k type svid))) w1) as (r & w2 & E2 & S2).
  - apply gnss_nav_ok.
  - by apply mnl2hal_strings_fit; [apply gnss_nav_ok|].
  - exact (se_kernel _ _ _ _ S1).
  - cbn [mnl2hal_send] in E2. rewrite (bind_done (ret tt) _ w1 tt w1) by done. rewrite (bind_done _ _ _ _ _ E2).
    specialize (IH w2 (se_kernel _ _ _ _ S2)). rewrite (se_calls _ _ _ _ S2), (se_calls _ _ _ _ S1), Nat.add_0_r, (se_raw _ _ _ _ S2), (se_raw _ _ _ _ S1) in IH.
    fold k in IH. destruct (silent _ (k + 1) _); [|done]. destruct IH as (w3 & E3 & S3). exists w3. split; [done|].
    exact (sends_trans _ _ _ _ _ _ _ S1 (sends_trans _ _ _ _ _ _ _ S2 S3)).
Qed.

(** The navigation messages of a fix: for GPS, satellite by satellite from number
    0 to number 31, what libmnl has or an empty message of 40 zero bytes.  For
    the other interface the daemon's copy of the data goes to the pointer that
    was zeroed before: it is undefined as soon as libmnl has a message, or with
    debug output, which reads there; what is sent until then are messages without
    data. *)
Theorem navigation_messages (w : gpsctl) :
  kernel_ok (c_sys w) ->
  (exists w', get_gps_navigation_event env fx w = Done (tt, w') /\
     sends w w' 32 (gps_nav_notes (length (c_calls w)) (svids 0 32))) /\
  if silent (gps_raw_debug_mode w) (length (c_calls w)) gnss_requests
  then exists w', get_gnss_navigation_event env fx w = Done (tt, w') /\
         sends w w' 129 (gnss_nav_notes (length (c_calls w)) gnss_requests)
  else get_gnss_navigation_event env fx w = UB.
Proof.
  intros Hk. split; [by apply (gps_navigation_sends (svids 0 32))|].
  apply (passes_seq _ _ _ _ (passes_loop 1 (svids 1 32))
    (passes_seq _ _ _ _ (passes_loop 16 (svids 1 24))
       (passes_seq _ _ _ _ (passes_loop 32 (svids 1 37)) (passes_loop 4 (svids 1 36)))) w Hk).
Qed.
End loops.

(** ** At concrete measurements *)

Definition zeroed (t : ctype) : list Z := zeros (Z.to_nat (sizeof ILP32 t)).

(** Two satellites of GPS, one of them without a state; one of Glonass. *)
Definition demo_measurement (prn state : Z) : list Z :=
  struct_image ILP32 MTK_GPS_MEASUREMENT
    (stored true "PRN" [prn] (stored true "state" [state; 0] (stored true "UsedInFix" [2] (fun _ => None)))).
Definition demo_glonass : list Z := struct_image ILP32 Gnssmeasurement (stored true "svid" [3; 0] (fun _ => None)).
(** A navigation message with 40 bytes of data. *)
Definition demo_message : list Z :=
  struct_image ILP32 GnssNavigationmessage (stored true "data_length" [40; 0; 0; 0] (fun _ => None)).

Definition demo_fix : fix_env := {|
  fx_measurement := fun _ => demo_measurement 7 15 :: demo_measurement 9 0 :: replicate 30 (zeroed MTK_GPS_MEASUREMENT);
  fx_clock := fun _ => zeroed MTK_GPS_CLOCK;
  fx_navigation := fun _ => zeroed MTK_GPS_NAVIGATION_EVENT;
  fx_gnss_measurement := fun _ =>
    GnssLists (replicate 40 (zeroed Gnssmeasurement)) (demo_glonass :: replicate 23 (zeroed Gnssmeasurement))
      (replicate 37 (zeroed Gnssmeasurement)) (replicate 36 (zeroed Gnssmeasurement)) (replicate 42 (zeroed Gnssmeasurement));
  fx_gnss_clock := fun _ => zeroed Gnssclock;
  fx_gnss_navigation := fun _ => demo_message;
  fx_rtc := fun _ => (f64_of_int 40, f64_of_int 1);
  fx_fm_state := fun _ => 50; fx_now := fun _ => 1500000000;
  fx_location := fun _ => (zeros 600, 88)
|}.

Lemma demo_fix_sizes : fix_sizes demo_fix.
Proof.
  split; intros k.
  - split; [|vm_compute; reflexivity]. apply (bool_decide_unpack _). vm_compute. exact I.
  - vm_compute. reflexivity.
  - apply (bool_decide_unpack _). vm_compute. exact I.
  - vm_compute. reflexivity.
  - vm_compute. reflexivity.
  - vm_compute. reflexivity.
Qed.

Lemma measurements_to_android_witness :
  (exists w' ns,
    (get_gps_measurement_clock_data fair_env demo_fix ;; get_gnss_measurement_clock_data fair_env demo_fix)%prog ctl_boot =
      Done (tt, w') /\
    sys_grows (c_sys ctl_boot) (c_sys w') ns /\
    worker_events aosp_gps_h LP64 (fun _ => 0) (hal_rx (fd_mnl2hal hal_ni) ns) hal_ni =
    Done (tt, log_calls (measurement_calls fair_env demo_fix 0) hal_ni)) /\
  length (measurement_calls fair_env demo_fix 0) = 2%nat.
Proof.
  split; [|vm_compute; reflexivity].
  apply (measurements_to_android fair_env demo_fix demo_fix_sizes aosp_gps_h LP64 (fun _ => 0) ctl_boot hal_ni).
  - exact (proj1 ctl_boot_ok).
  - reflexivity.
  - vm_compute. discriminate.
  - vm_compute. discriminate.
Defined.

(** libmnl has messages. *)
Definition message_env : ctl_env :=
  CtlEnv (fun _ _ => 1) (err fair_env) (transfers fair_env) (attr_byte fair_env) (ioctl_word fair_env)
    (chip_prop fair_env) (uart_ack fair_env) (accuracy_at fair_env) (qepo_time fair_env) (gps_user fair_env)
    (ce_files fair_env) (ce_status fair_env) (ce_nvram fair_env) (ce_dsp_dev fair_env) (ce_localtime fair_env)
    (dbg_thread_exit fair_env) (dbg_file fair_env) (ce_junk fair_env).

Lemma navigation_messages_witness : get_gnss_navigation_event message_env demo_fix ctl_boot = UB.
Proof.
  pose proof (navigation_messages message_env demo_fix demo_fix_sizes ctl_boot (proj1 ctl_boot_ok)) as [_ H].
  exact H.
Defined.
