(* ===== verification/FixCallback.v ===== *)
(** * The callback of a fix returns

    [mtk_gps_sys_gps_mnl_callback] over arbitrary answers of libmnl, the driver
    and the operating system: where it returns, and that it is silent towards the
    main thread and the driver of the chip. *)

From stdpp Require Import list strings gmap.
From Stdlib Require Import Floats.SpecFloat.
From S2P Require Import Prelude DataCoder LbsUtility Layout Structs Float32 Float64 Messages Hal2Mnl Mnl2Hal FlpInterface.
From S2P Require Import MnldState Mnld Kernel MnldSystem GpsHal GpsHalFront AtCommand Config ConfigText.
From S2P Require Import NmeaStream GpsControl GpsControlSafe GpsControlRun FixReports FixToAndroid.
Import HalTypes.
Open Scope Z_scope.

#[local] Opaque send_msg.

(** libmnl's answers have the size of the variables they are stored in; its
    drift and its age are numbers that an [int] can hold; the location fits the
    buffer it was given. *)
Record fix_ok (fx : fix_env) : Prop := {
  fo_sizes : fix_sizes fx;
  fo_rtc k d a : fx_rtc fx k = (d, a) ->
    f64_leb (f64_of_int (- 2 ^ 31)) d = true /\ (exists z, f64_to_int d = Done z) /\ exists z, f64_to_int a = Done z;
  fo_location k l n : fx_location fx k = (l, n) -> 0 <= n <= OFFLOAD_PAYLOAD_LEN /\ zlen l = OFFLOAD_PAYLOAD_LEN
}.

Lemma rtc_usable_done max_age z d a :
  is_int z = true -> f64_leb (f64_of_int (- 2 ^ 31)) d = true -> exists b, rtc_usable max_age z d a = Done b.
Proof.
  intros Hz Hd. unfold rtc_usable. destruct (f64_leb a _); [|by eexists].
  destruct (f64_leb (f64_of_int z) d) eqn:E; [by eexists|].
  assert (z <> - 2 ^ 31) as Hne by (intros ->; congruence).
  unfold chk. replace (is_int (- z)) with true; [by eexists|]. symmetry. apply in_s_spec in Hz. apply in_s_spec. lia.
Qed.

Section fix_callback.
Context (env : ctl_env) (fx : fix_env) (Henv : env_ok env) (Hfx : fix_ok fx).

#[local] Hint Extern 1 (quiet (call _ _)) => (apply quiet_call; reflexivity) : quietdb.
#[local] Hint Extern 1 (quiet (cfg _)) => apply quiet_gets : quietdb.
#[local] Hint Extern 1 (quiet mnl_offload_is_enabled) => apply quiet_gets : quietdb.
#[local] Hint Extern 2 (quiet (modify _)) => (apply quiet_set; intros; reflexivity) : quietdb.

(** An answer with what it left behind. *)
Lemma quiet_ask {A B} c (res : nat -> A) (K : Z * A -> prog gpsctl B) :
  written c = None -> (forall k, quiet (K (ans env k c, res k))) -> quiet (bind (ask env c res) K).
Proof.
  intros Hc HK. apply (does_bind _ _ (fun a rs aw => rs = [] /\ aw = [] /\ exists k, a = (ans env k c, res k))).
  - intros w Hw. exists (ans env (length (c_calls w)) c, res (length (c_calls w))), (add_call c w).
    split; [reflexivity|]. exists [], []. split; [|eauto]. split; [exact Hw|exists []; split; [apply sys_grows_refl|done]|].
    exists [c]. split; [done|]. cbn. by rewrite Hc.
  - intros a rs aw (-> & -> & k & ->). apply HK.
Qed.

(** A message of the HAL protocol. *)
Lemma quiet_hal m : mnl2hal_ok m -> zlen (mnl2hal_bytes m) <= HAL_MNL_BUFF_SIZE -> quiet (on_sys (mnl2hal_send m)).
Proof. intros Hok Hl. by apply (does_send _ MTK_MNL2HAL (mnl2hal_bytes m)); [apply mnl2hal_plain|]. Qed.

(** *** Measurements *)

Lemma quiet_gps_data : quiet (get_gps_measurement_clock_data env fx).
Proof.
  unfold get_gps_measurement_clock_data. apply quiet_ask; [done|]. intros k. apply quiet_ask; [done|]. intros k2.
  destruct (fs_gps _ (fo_sizes _ Hfx) k) as [Ha Hl]. rewrite gps_measurements_spec by (cbn [length]; lia).
  apply quiet_done. cbn [app]. apply quiet_when, quiet_bind; [|intros; apply quiet_ret].
  destruct (gps_seen_ok fx (fo_sizes _ Hfx) k) as [Hs Hn].
  pose proof (gps_data_ok _ _ Hs Hn (fs_clock _ (fo_sizes _ Hfx) k2)) as Hok.
  apply (quiet_hal _ Hok). by apply mnl2hal_strings_fit.
Qed.

Lemma quiet_gnss_data : quiet (get_gnss_measurement_clock_data env fx).
Proof.
  unfold get_gnss_measurement_clock_data. apply quiet_ask; [done|]. intros k. apply quiet_ask; [done|]. intros k2.
  rewrite all_systems by done. cbn [app length]. rewrite firstn_map.
  apply quiet_when, quiet_bind; [|intros; apply quiet_ret].
  destruct (gnss_seen_ok fx (fo_sizes _ Hfx) k) as [Hs Hn].
  pose proof (gnss_data_ok _ _ Hs Hn (gnss_clock_ok env fx (fo_sizes _ Hfx) k2)) as Hok.
  apply (quiet_hal _ Hok). by apply mnl2hal_strings_fit.
Qed.

(** *** Navigation messages *)

Lemma quiet_gps_nav l : quiet (gps_navigation env fx l).
Proof.
  induction l as [|svid l IH]; [apply quiet_ret|]. cbn [gps_navigation]. apply quiet_ask; [done|]. intros k.
  apply quiet_bind; [|by intros _]. pose proof (gps_nav_ok env fx (fo_sizes _ Hfx) k svid) as Hok.
  apply (quiet_hal _ Hok). by apply mnl2hal_strings_fit.
Qed.

(** *** The FM radio *)

Lemma quiet_send_rtc d a :
  (exists z, f64_to_int d = Done z) -> (exists z, f64_to_int a = Done z) -> quiet (send_rtc_info env fx d a).
Proof.
  intros (zd & Hd) (za & Ha). unfold send_rtc_info. apply quiet_ask; [done|]. intros k. rewrite Hd, Ha. quiet_tac; apply quiet_lift; by eexists.
Qed.

Lemma does_cfg x : does (cfg x) (fun z rs aw => rs = [] /\ aw = [] /\ int_fits x z = true).
Proof.
  intros w Hw. apply returns_gets. exists [], []. split; [by apply progress_refl|]. split; [done|]. split; [done|].
  apply (co_int _ _ (proj1 (proj2 Hw))).
Qed.

Lemma quiet_fm : quiet (fm_notice env fx).
Proof.
  unfold fm_notice. apply quiet_ask; [done|]. intros k. destruct (fx_rtc fx k) as [d a] eqn:E.
  destruct (fo_rtc _ Hfx k d a E) as (Hd & Hd' & Ha). apply quiet_when. apply quiet_bind; [apply quiet_gets|]. intros z0.
  apply (does_bind _ _ _ _ (does_cfg RTC_DRIFT)). intros z rs aw (-> & -> & Hz).
  destruct (rtc_usable_done z0 z d a Hz Hd) as (b & ->). apply quiet_done, quiet_when.
  apply quiet_bind; [auto with quietdb|]. intros fd. apply quiet_bind.
  - destruct (fd <? 0); [apply quiet_ret|]. apply quiet_ask; [done|]. intros k2. quiet_tac.
  - intros c. apply quiet_when. by apply quiet_send_rtc.
Qed.

(** *** The FLP daemon *)

Lemma quiet_flp : quiet (flp_notice env fx).
Proof.
  unfold flp_notice. apply quiet_ask; [done|]. intros k. destruct (fx_location fx k) as [l n] eqn:E.
  destruct (fo_location _ Hfx k l n E) as (Hn & Hl). unfold OFFLOAD_PAYLOAD_LEN in *. iftrue.
  apply quiet_bind; [apply quiet_ret|]. intros _. apply quiet_bind; [|intros; apply quiet_ret].
  pose proof (length_flp_buffer 1024 FLPMNL_GPS_REPORT_LOC n (take (Z.to_nat n) l) ltac:(rewrite length_take; lia)) as Hb.
  unfold mnl2flp_data_send. rewrite Hb. cbn [Z.leb andb Z.compare Pos.compare Pos.compare_cont].
  by eapply does_send; [apply mnld_sendto_flp_plain|].
Qed.

(** *** The callback *)

Lemma quiet_notify : quiet (send_active_notify env).
Proof.
  unfold send_active_notify. apply quiet_bind; [apply quiet_gets|]. intros k. apply quiet_bind; [apply quiet_gets|].
  intros b. destruct (_ && b); [apply quiet_ret|]. apply quiet_bind; [apply quiet_gets|]. intros z.
  destruct (_ =? 0); [|apply quiet_ret].
  apply (does_send _ MNLD_GPS_CONTROL_SOCKET (le_bytes 4 GPS2GPS_NMEA_DATA_TIMEOUT)); [|reflexivity].
  eapply plain_send_equiv; [|by apply safe_sendto_plain].
  etransitivity; [apply (send_msg_bytes 1024); [done|solve_writes]|].
  replace (_ <=? 1024) with true by (symmetry; apply Z.leb_le; clen). reflexivity.
Qed.

Lemma quiet_raw_meas : quiet (raw_meas_notice env).
Proof. unfold raw_meas_notice. quiet_tac. Qed.

(** *** With the debug output off *)

Definition same_raw (w w' : gpsctl) : Prop := gps_raw_debug_mode w = gps_raw_debug_mode w'.
#[local] Instance same_raw_preorder : PreOrder same_raw.
Proof. split; unfold same_raw; [done|]. intros x y z. congruence. Qed.

Lemma raw_on_sys {A} (m : prog sys A) : keeps same_raw (on_sys m).
Proof. intros w a w'. unfold on_sys. destruct (m (sys_of w)) as [[b s]| | |]; try done. by intros [= _ <-]. Qed.

Ltac keeps_raw :=
  repeat match goal with
  | |- keeps _ (bind _ _) => apply keeps_bind; [exact _| |intros ?]
  | |- keeps _ (ret _) => apply keeps_ret; exact _
  | |- keeps _ (gets _) => apply keeps_gets; exact _
  | |- keeps _ (lift _) => apply keeps_lift; exact _
  | |- keeps _ blocked => apply keeps_blocked
  | |- keeps _ (when _ _) => apply keeps_when; [exact _|]
  | |- keeps _ (modify _) => apply keeps_modify; by intros
  | |- keeps _ (on_sys _) => apply raw_on_sys
  | |- keeps _ (if ?b then _ else _) => destruct b
  | |- keeps _ (match ?x with _ => _ end) => destruct x
  end.

(** Quiet where the debug output is off, which it stays. *)
Definition calm {A} (m : prog gpsctl A) : Prop :=
  forall w, ctl_ok w -> gps_raw_debug_mode w = 0 ->
  returns m w (fun _ w' => gps_raw_debug_mode w' = 0 /\ progress w w' [] []).

Lemma calm_quiet {A} (m : prog gpsctl A) : quiet m -> keeps same_raw m -> calm m.
Proof.
  intros Hm Hk w Hw Hr. destruct (Hm w Hw) as (a & w' & E & rs & aw & P & -> & ->). exists a, w'. split; [done|].
  split; [|done]. rewrite <- Hr. symmetry. exact (Hk w a w' E).
Qed.
Lemma calm_bind {A B} (m : prog gpsctl A) (k : A -> prog gpsctl B) :
  calm m -> (forall a, calm (k a)) -> calm (bind m k).
Proof.
  intros Hm Hk w Hw Hr. apply returns_bind. eapply returns_mono; [exact (Hm w Hw Hr)|]. intros a w1 [R1 P1].
  eapply returns_mono; [exact (Hk a w1 (pg_ok _ _ _ _ P1) R1)|]. intros b w2 [R2 P2]. split; [done|].
  exact (progress_trans _ _ _ _ _ _ _ P1 P2).
Qed.
Lemma calm_when (c : bool) (m : prog gpsctl unit) : (c = true -> calm m) -> calm (when c m).
Proof.
  destruct c; intros H; [by apply H|]. apply calm_quiet; [apply quiet_ret|apply keeps_ret; exact _].
Qed.

(** libmnl never has a message for the second interface. *)
Definition no_gnss_messages : Prop :=
  forall k type svid, member ILP32 GnssNavigationmessage (gnss_event env fx k type svid) "data_length" = 0.

Lemma calm_gnss_nav type l : no_gnss_messages -> calm (gnss_navigation env fx type l).
Proof.
  intros Hno. induction l as [|svid l IH]; [apply calm_quiet; [apply quiet_ret|apply keeps_ret; exact _]|].
  intros w Hw Hr. cbn [gnss_navigation].
  set (k := length (c_calls w)). set (w1 := add_call (CGnssNavigation svid type) w).
  assert (ask env (CGnssNavigation svid type) (fx_gnss_navigation fx) w =
          Done ((ans env k (CGnssNavigation svid type), fx_gnss_navigation fx k), w1)) as E by reflexivity.
  assert (progress w w1 [] []) as P.
  { split; [exact Hw|exists []; split; [apply sys_grows_refl|done]|by exists [CGnssNavigation svid type]]. }
  unfold returns. rewrite (bind_done _ _ _ _ _ E).
  rewrite (bind_done _ _ w1 _ _ (eq_refl : gets gps_raw_debug_mode w1 = Done (gps_raw_debug_mode w1, w1))).
  fold (gnss_event env fx k type svid). rewrite (Hno k type svid). change (gps_raw_debug_mode w1) with (gps_raw_debug_mode w).
  rewrite Hr. change (returns (ret tt ;; let* _ := on_sys (mnl2hal_gnss_navigation
    (update_gnss_navigation (gnss_event env fx k type svid))) in gnss_navigation env fx type l)%prog w1
    (fun _ w' => gps_raw_debug_mode w' = 0 /\ progress w w' [] [])).
  pose proof (gnss_nav_ok env fx (fo_sizes _ Hfx) k type svid) as Hok.
  assert (calm (on_sys (mnl2hal_gnss_navigation (update_gnss_navigation (gnss_event env fx k type svid))))) as Hs.
  { apply calm_quiet; [|apply raw_on_sys]. apply (quiet_hal _ Hok). by apply mnl2hal_strings_fit. }
  eapply returns_mono; [exact (calm_bind _ _ Hs (fun _ => IH) w1 Hw Hr)|].
  intros u w2 [R2 P2]. split; [done|]. exact (progress_trans _ _ _ _ _ _ _ P P2).
Qed.

(** *** The whole callback *)

#[local] Hint Resolve quiet_gps_data quiet_gnss_data quiet_gps_nav quiet_fm quiet_flp quiet_notify quiet_raw_meas : quietdb.

Lemma quiet_state v : quiet (mnl_get_state env v).
Proof. by apply quiet_read_attr. Qed.

(** Without the navigation messages, whatever the debug output. *)
Lemma quiet_callback meas flp msg : quiet (mtk_gps_sys_gps_mnl_callback env fx meas false flp msg).
Proof.
  unfold mtk_gps_sys_gps_mnl_callback, fix_ready. apply quiet_bind; [|intros; apply quiet_ret]. destruct (msg =? _).
  - apply quiet_bind; [apply quiet_notify|]. intros _. apply quiet_bind; [apply quiet_fm|]. intros _.
    apply quiet_bind; [apply quiet_raw_meas|]. intros _. apply quiet_bind; [apply quiet_state|]. intros [e state].
    apply quiet_bind. { apply quiet_when, quiet_bind; [apply quiet_gps_data|intros; apply quiet_gnss_data]. }
    intros _. apply quiet_bind; [apply quiet_ret|]. intros _. apply quiet_bind; [apply quiet_gets|].
    intros b. apply quiet_when, quiet_flp.
  - apply quiet_when, quiet_bind; [apply quiet_notify|]. intros; apply quiet_ret.
Qed.

Lemma raw_call c : keeps same_raw (call env c).
Proof. unfold call, next_call. keeps_raw. Qed.
Lemma raw_ask {A} c (res : nat -> A) : keeps same_raw (ask env c res).
Proof. unfold ask, next_call. keeps_raw. apply raw_call. Qed.
Lemma raw_notify : keeps same_raw (send_active_notify env).
Proof. unfold send_active_notify, next_call, mnl_offload_is_enabled, cfg. keeps_raw. Qed.
Lemma raw_fm : keeps same_raw (fm_notice env fx).
Proof. unfold fm_notice, send_rtc_info, cfg. keeps_raw; first [apply raw_ask|apply raw_call]. Qed.
Lemma raw_raw_meas : keeps same_raw (raw_meas_notice env).
Proof. unfold raw_meas_notice. keeps_raw. apply raw_call. Qed.
Lemma raw_state v : keeps same_raw (mnl_get_state env v).
Proof. unfold mnl_get_state, mnl_read_attr, close_attr, transfer, next_call. keeps_raw; apply raw_call. Qed.
Lemma raw_data : keeps same_raw (get_gps_measurement_clock_data env fx ;; get_gnss_measurement_clock_data env fx)%prog.
Proof. unfold get_gps_measurement_clock_data, get_gnss_measurement_clock_data. keeps_raw; apply raw_ask. Qed.
Lemma raw_gps_nav l : keeps same_raw (gps_navigation env fx l).
Proof. induction l as [|svid l IH]; cbn [gps_navigation]; keeps_raw; [apply raw_ask|exact IH]. Qed.
Lemma raw_flp : keeps same_raw (flp_notice env fx).
Proof. unfold flp_notice, undef. keeps_raw; [apply raw_ask|]. by intros w a w'. Qed.

Lemma calm_callback meas flp msg : no_gnss_messages -> calm (mtk_gps_sys_gps_mnl_callback env fx meas true flp msg).
Proof.
  intros Hno. unfold mtk_gps_sys_gps_mnl_callback, fix_ready, get_gps_navigation_event, get_gnss_navigation_event.
  apply calm_bind; [|intros; apply calm_quiet; [apply quiet_ret|apply keeps_ret; exact _]]. destruct (msg =? _).
  - apply calm_bind; [apply calm_quiet; [apply quiet_notify|apply raw_notify]|]. intros _.
    apply calm_bind; [apply calm_quiet; [apply quiet_fm|apply raw_fm]|]. intros _.
    apply calm_bind; [apply calm_quiet; [apply quiet_raw_meas|apply raw_raw_meas]|]. intros _.
    apply calm_bind; [apply calm_quiet; [apply quiet_state|apply raw_state]|]. intros [e state].
    apply calm_bind. { apply calm_when. intros _. apply calm_quiet; [apply quiet_bind; auto with quietdb|apply raw_data]. }
    intros _. apply calm_bind.
    + apply calm_when. intros _. apply calm_bind; [apply calm_quiet; [apply quiet_gps_nav|apply raw_gps_nav]|]. intros _.
      repeat (apply calm_bind; [by apply calm_gnss_nav|]; intros _). by apply calm_gnss_nav.
    + intros _. apply calm_bind; [apply calm_quiet; [apply quiet_gets|apply keeps_gets; exact _]|]. intros b.
      apply calm_when. intros _. apply calm_quiet; [apply quiet_flp|apply raw_flp].
  - apply calm_when. intros _. apply calm_bind; [apply calm_quiet; [apply quiet_notify|apply raw_notify]|].
    intros; apply calm_quiet; [apply quiet_ret|apply keeps_ret; exact _].
Qed.

End fix_callback.

Lemma demo_fix_ok : fix_ok demo_fix.
Proof.
  split.
  - apply demo_fix_sizes.
  - intros k d a [= <- <-]. split; [vm_compute; reflexivity|]. split; eexists; vm_compute; reflexivity.
  - intros k l n [= <- <-]. split; [done|vm_compute; reflexivity].
Qed.

