(* ===== verification/AgpsSession.v ===== *)
(** * The end of an AGPS session

    [alarm_handler] of [src/gps/mtk_mnld/mnld_entity/src/gps_controller.c], the
    handler of [SIGALRM], with [gps_controller_agps_session_done] of [Mnld]: a
    session that ends while the GPS runs is closed in libmnl thirty seconds
    later.  The handler interrupts a thread; here it runs between two events. *)

From stdpp Require Import gmap strings.
From S2P Require Import Prelude LbsUtility Messages Agps2Mnl MnldState Mnld Kernel MnldFsm.
Open Scope Z_scope.

Import AgpsCallbacks.

Definition SUPL_TERMINATE : libcall := LOther "MTK_MSG_AGPS_MSG_SUPL_TERMINATE".

(** The session is forgotten. *)
Definition session_over : prog mnld unit := modify (fun w => set_m_agent 0 ST_IDLE (m_state_mode w) w).

Definition alarm_handler : prog mnld unit :=
  let* alarm := gets m_agent_set_alarm in
  if alarm =? 1 then
    let* user := mtk_gps_get_gps_user in
    if negb (Z.land user GPS_USER_AGPS =? 0) then ret tt
    else
      let* stopped := mnld_is_gps_stopped in
      (if stopped then ret tt else call_lib SUPL_TERMINATE) ;;
      session_over
  else modify (fun w => set_m_agent 0 (m_state_mode w) (m_last_state_mode w) w).

(** ** What becomes of a session *)

Definition agps_uses (w : mnld) : bool := negb (Z.land (gps_user_of (clients (m_gps w))) GPS_USER_AGPS =? 0).
Definition gps_stopped (w : mnld) : bool :=
  match mnld_is_gps_stopped w with Done (b, _) => b | _ => false end.

Lemma stopped_done w : mnld_is_gps_stopped w = Done (gps_stopped w, w).
Proof. reflexivity. Qed.

Lemma alarm_done w : gets m_agent_set_alarm w = Done (m_agent_set_alarm w, w).
Proof. reflexivity. Qed.
Lemma user_done w : mtk_gps_get_gps_user w = Done (gps_user_of (clients (m_gps w)), w).
Proof. reflexivity. Qed.

(** What both do while the GPS runs. *)
Lemma session_done_runs w :
  gps_stopped w = false ->
  agps_session_done w =
  when (m_agent_set_alarm w =? 0)
    (call_lib (LAlarm 30) ;; modify (fun w => set_m_agent 1 (m_state_mode w) (m_last_state_mode w) w))%prog w.
Proof. intros Hs. unfold agps_session_done, bind at 1. by rewrite stopped_done, Hs. Qed.
Lemma alarm_runs w :
  gps_stopped w = false -> agps_uses w = false -> m_agent_set_alarm w = 1 ->
  alarm_handler w = (call_lib SUPL_TERMINATE ;; session_over)%prog w.
Proof.
  intros Hs Hu Ha. unfold alarm_handler. rewrite (bind_done _ _ _ _ _ (alarm_done w)), Ha. cbn [Z.eqb Pos.eqb].
  rewrite (bind_done _ _ _ _ _ (user_done w)). fold (agps_uses w). rewrite Hu.
  rewrite (bind_done _ _ _ _ _ (stopped_done w)), Hs. reflexivity.
Qed.

(** A session that ends while the GPS runs, and no other is open when its alarm
    goes off: libmnl is told once, and the state is that of no session. *)
Theorem session_terminated (w : mnld) :
  gps_stopped w = false -> agps_uses w = false -> m_agent_set_alarm w = 0 ->
  exists w', (agps_session_done ;; alarm_handler)%prog w = Done (tt, w') /\
    sys_trace (m_sys w') = sys_trace (m_sys w) ++ [EvLib (LAlarm 30); EvLib SUPL_TERMINATE] /\
    m_agent_set_alarm w' = 0 /\ m_state_mode w' = ST_IDLE /\ m_gps w' = m_gps w.
Proof.
  intros Hs Hu Ha. unfold bind at 1. rewrite (session_done_runs w Hs), Ha. cbn [Z.eqb Pos.eqb when].
  unfold bind at 1, call_lib, on_sys, modify. cbn [sys_of mnld_has_sys log_event modify].
  set (w1 := set_m_agent 1 _ _ _). rewrite (alarm_runs w1) by done. eexists. split; [reflexivity|].
  split; [|done]. cbn. by rewrite <- app_assoc.
Qed.

(** But an alarm that goes off while the AGPS daemon uses the GPS again is used
    up and not forgotten: nothing is told, and no later end of a session sets
    another one while the GPS runs. *)
Theorem session_alarm_lost (w : mnld) :
  m_agent_set_alarm w = 1 ->
  (agps_uses w = true -> alarm_handler w = Done (tt, w)) /\
  (gps_stopped w = false -> agps_session_done w = Done (tt, w)).
Proof.
  intros Ha. split.
  - intros Hu. unfold alarm_handler. rewrite (bind_done _ _ _ _ _ (alarm_done w)), Ha. cbn [Z.eqb Pos.eqb].
    rewrite (bind_done _ _ _ _ _ (user_done w)). fold (agps_uses w). by rewrite Hu.
  - intros Hs. by rewrite (session_done_runs w Hs), Ha.
Qed.

(** ** At a concrete daemon *)

(** The GPS runs for the HAL; and for AGPS too, with an alarm set. *)
Definition runs_for_hal : mnld :=
  upd_gps (fun g => with_state MNLD_GPS_STATE_STARTED (with_clients (upd_client HAL (client_open true) (clients g)) g)) boot0.
Definition runs_for_agps : mnld :=
  set_m_agent 1 ST_IDLE ST_IDLE
    (upd_gps (fun g => with_clients (upd_client AGPS (client_open true) (clients g)) g) runs_for_hal).

Lemma session_terminated_witness :
  exists w', (agps_session_done ;; alarm_handler)%prog runs_for_hal = Done (tt, w') /\
    sys_trace (m_sys w') = [EvLib (LAlarm 30); EvLib SUPL_TERMINATE].
Proof.
  destruct (session_terminated runs_for_hal) as (w' & E & T & _); [reflexivity..|]. exists w'. split; [exact E|exact T].
Defined.

Lemma session_alarm_lost_witness :
  alarm_handler runs_for_agps = Done (tt, runs_for_agps) /\ agps_session_done runs_for_agps = Done (tt, runs_for_agps).
Proof.
  destruct (session_alarm_lost runs_for_agps) as [H1 H2]; [reflexivity|]. split; [apply H1|apply H2]; reflexivity.
Defined.
