(* ===== verification/Wifi2Agps.v ===== *)
(** * Wi-Fi watcher to AGPS daemon: [wifi2agps_*] senders and [wifi2agps_handler]

    Senders: [src/wifi2agps/interface/wifi2agps_interface.c], in the process
    [wifi2agps].  Handler: [agps2wifi_interface.c], in the AGPS daemon.  The coder
    and [safe_sendto] have the text of those of [mnl_agps_interface]
    ([DataCoder], [Mnl2Agps.send_un]). *)

From S2P Require Import Prelude DataCoder LbsUtility Layout Structs Messages Mnl2Agps.
Import HalTypes.

Definition WIFI_TO_AGPS : string := "/data/agps_supl/wifi_2_agps"%string.
Definition WIFI2AGPS_MAX_BUFF_SIZE : Z := 10000.
Definition WIFI2AGPS_INTERFACE_VERSION := 1.
Definition WIFI_AP_LIST_NUM_MAX : Z := 32.

(** [wifi2agps_cmd_type] *)
Definition WIFI2AGPS_CMD_TYPE_ENABLED := 0.
Definition WIFI2AGPS_CMD_TYPE_DISABLED := 1.
Definition WIFI2AGPS_CMD_TYPE_ASSOCIATED := 2.
Definition WIFI2AGPS_CMD_TYPE_DISASSOCIATED := 3.
Definition WIFI2AGPS_CMD_TYPE_SCANNED := 4.

(** ** The structures that travel *)

Section types.
Local Open Scope string_scope.

Definition wifi2agps_rtd : ctype := CStruct
  [ ("rtd_value", c_int); ("rtd_units", c_int); ("rtd_accuracy", c_int) ].

Definition wifi2agps_location_data : ctype := CStruct
  [ ("location_accuracy_used", c_char); ("location_accuracy", c_int);
    ("location_value_length", c_char); ("location_value", CArr 128 c_char) ].

Definition wifi2agps_reported_location : ctype := CStruct
  [ ("loc_encode_descriptor", c_int); ("location_data", wifi2agps_location_data) ].

Definition wifi2agps_ap_info_members : list (string * ctype) :=
  [ ("ap_mac_addr", CArr 6 c_char);
    ("ap_transmit_power_used", c_char); ("ap_transmit_power", c_int);
    ("ap_antenna_gain_used", c_char); ("ap_antenna_gain", c_int);
    ("ap_signal_noise_used", c_char); ("ap_signal_noise", c_int);
    ("ap_device_type_used", c_char); ("ap_device_type", c_int);
    ("ap_signal_strength_used", c_char); ("ap_signal_strength", c_int);
    ("ap_channel_frequency_used", c_char); ("ap_channel_frequency", c_int);
    ("ap_round_trip_delay_used", c_char); ("ap_round_trip_delay", wifi2agps_rtd);
    ("set_transmit_power_used", c_char); ("set_transmit_power", c_int);
    ("set_antenna_gain_used", c_char); ("set_antenna_gain", c_int);
    ("set_signal_to_noise_used", c_char); ("set_signal_to_noise", c_int);
    ("set_signal_strength_used", c_char); ("set_signal_strength", c_int);
    ("reported_location_used", c_char); ("reported_location", wifi2agps_reported_location) ].
Definition wifi2agps_ap_info : ctype := CStruct wifi2agps_ap_info_members.

Definition wifi2agps_ap_info_list_members : list (string * ctype) :=
  [ ("num", c_char); ("list", CArr WIFI_AP_LIST_NUM_MAX wifi2agps_ap_info) ].
Definition wifi2agps_ap_info_list : ctype := CStruct wifi2agps_ap_info_list_members.
End types.

(** The sizes that the comments of [wifi2agps_interface.h] give hold for both
    ABIs, so that sender and handler agree whatever the processes are. *)
Lemma wifi_layouts_agree (a : abi) :
  sizeof a wifi2agps_ap_info = 248 /\ sizeof a wifi2agps_ap_info_list = 7940.
Proof. by destruct a. Qed.

(** ** Senders *)

(** [char buff[10000] = {0}; int offset = 0; body; return send2agps(buff, offset);] *)
Definition wifi_msg_out (body : prog cbuf unit) : prog sys Z :=
  let* msg := lift (build WIFI2AGPS_MAX_BUFF_SIZE body) in
  send_un WIFI_TO_AGPS msg.

Definition wifi2agps_enabled : prog sys Z :=
  wifi_msg_out (put_int WIFI2AGPS_INTERFACE_VERSION ;; put_int WIFI2AGPS_CMD_TYPE_ENABLED).

Definition wifi2agps_disabled : prog sys Z :=
  wifi_msg_out (put_int WIFI2AGPS_INTERFACE_VERSION ;; put_int WIFI2AGPS_CMD_TYPE_DISABLED).

Definition wifi2agps_associated (ap_info : list Z) : prog sys Z :=
  wifi_msg_out
    (put_int WIFI2AGPS_INTERFACE_VERSION ;; put_int WIFI2AGPS_CMD_TYPE_ASSOCIATED ;;
     put_binary ap_info (sizeof LP64 wifi2agps_ap_info)).

Definition wifi2agps_disassociated : prog sys Z :=
  wifi_msg_out (put_int WIFI2AGPS_INTERFACE_VERSION ;; put_int WIFI2AGPS_CMD_TYPE_DISASSOCIATED).

Definition wifi2agps_scanned (ap_info_list : list Z) : prog sys Z :=
  wifi_msg_out
    (put_int WIFI2AGPS_INTERFACE_VERSION ;; put_int WIFI2AGPS_CMD_TYPE_SCANNED ;;
     put_binary ap_info_list (sizeof LP64 wifi2agps_ap_info_list)).

(** ** The callback table and the handler (in the AGPS daemon) *)

Record wifi2agpsInterface (W : Type) : Type := {
  wifi_enabled : option (prog W unit);
  wifi_disabled : option (prog W unit);
  wifi_associated : option (list Z -> prog W unit);
  wifi_disassociated : option (prog W unit);
  wifi_scanned : option (list Z -> prog W unit)
}.
Arguments wifi_enabled {W}.
Arguments wifi_disabled {W}.
Arguments wifi_associated {W}.
Arguments wifi_disassociated {W}.
Arguments wifi_scanned {W}.

(** [T x; memset(&x, 0, sizeof(x)); get_binary(buff, &offset, (char* )&x);] *)
Definition get_zeroed (t : ctype) : prog cbuf (list Z) :=
  let* '(_, obj) := get_binary (zeros (Z.to_nat (sizeof LP64 t))) in ret obj.

(** Another version is logged only. *)
Definition wifi2agps_handler {W} (fd : list recvres) (agps_interface : wifi2agpsInterface W) : prog W Z :=
  let* '(r, buff) := lift (safe_recvfrom fd WIFI2AGPS_MAX_BUFF_SIZE) in
  if r =? -1 then ret (-1)
  else
    let* '((version, type), b) := decode (CBuf buff 0) get_header in
    switch type
      [ (WIFI2AGPS_CMD_TYPE_ENABLED,
          call_checked (wifi_enabled agps_interface) b (ret tt) (fun f _ => f));
        (WIFI2AGPS_CMD_TYPE_DISABLED,
          call_checked (wifi_disabled agps_interface) b (ret tt) (fun f _ => f));
        (WIFI2AGPS_CMD_TYPE_ASSOCIATED,
          call_checked (wifi_associated agps_interface) b (get_zeroed wifi2agps_ap_info)
            (fun f ap_info => f ap_info));
        (WIFI2AGPS_CMD_TYPE_DISASSOCIATED,
          call_checked (wifi_disassociated agps_interface) b (ret tt) (fun f _ => f));
        (WIFI2AGPS_CMD_TYPE_SCANNED,
          call_checked (wifi_scanned agps_interface) b (get_zeroed wifi2agps_ap_info_list)
            (fun f ap_info_list => f ap_info_list)) ]
      (ret (-1)).

(** ** The protocol: abstract messages *)

Inductive wifi2agps_msg : Type :=
| W_enabled
| W_disabled
| W_associated (ap_info : list Z)
| W_disassociated
| W_scanned (ap_info_list : list Z).

Definition wifi2agps_send (m : wifi2agps_msg) : prog sys Z :=
  match m with
  | W_enabled => wifi2agps_enabled
  | W_disabled => wifi2agps_disabled
  | W_associated ap_info => wifi2agps_associated ap_info
  | W_disassociated => wifi2agps_disassociated
  | W_scanned ap_info_list => wifi2agps_scanned ap_info_list
  end.

Definition wifi2agps_call {W} (t : wifi2agpsInterface W) (m : wifi2agps_msg) : prog W Z :=
  match m with
  | W_enabled => invoke (wifi_enabled t) id
  | W_disabled => invoke (wifi_disabled t) id
  | W_associated ap_info => invoke (wifi_associated t) (fun f => f ap_info)
  | W_disassociated => invoke (wifi_disassociated t) id
  | W_scanned ap_info_list => invoke (wifi_scanned t) (fun f => f ap_info_list)
  end.

Definition wifi2agps_fields (m : wifi2agps_msg) : Z * list field :=
  match m with
  | W_enabled => (WIFI2AGPS_CMD_TYPE_ENABLED, [])
  | W_disabled => (WIFI2AGPS_CMD_TYPE_DISABLED, [])
  | W_associated ap_info => (WIFI2AGPS_CMD_TYPE_ASSOCIATED, [FBinary ap_info])
  | W_disassociated => (WIFI2AGPS_CMD_TYPE_DISASSOCIATED, [])
  | W_scanned ap_info_list => (WIFI2AGPS_CMD_TYPE_SCANNED, [FBinary ap_info_list])
  end.

Definition wifi2agps_bytes (m : wifi2agps_msg) : list Z :=
  let '(cmd, args) := wifi2agps_fields m in enc_msg WIFI2AGPS_INTERFACE_VERSION cmd args.

(** The structs have their size. *)
Definition wifi2agps_ok (m : wifi2agps_msg) : Prop :=
  match m with
  | W_associated ap_info => zlen ap_info = sizeof LP64 wifi2agps_ap_info
  | W_scanned ap_info_list => zlen ap_info_list = sizeof LP64 wifi2agps_ap_info_list
  | _ => True
  end.

(** Every message fits the buffer. *)
Lemma wifi2agps_fits m : wifi2agps_ok m -> zlen (wifi2agps_bytes m) <= WIFI2AGPS_MAX_BUFF_SIZE.
Proof.
  intros H. unfold wifi2agps_bytes, WIFI2AGPS_MAX_BUFF_SIZE. destruct m; cbn [wifi2agps_fields];
    rewrite length_enc_msg; unfold enc_fields; cbn [map concat enc_field]; rewrite ?app_nil_r; try clen.
  all: cbn [wifi2agps_ok] in H; change (sizeof LP64 _) with 248 in H || change (sizeof LP64 _) with 7940 in H; clen.
Qed.

(** ** Sending *)

Lemma wifi_msg_bytes body l :
  Writes body l -> zlen l <= WIFI2AGPS_MAX_BUFF_SIZE -> wifi_msg_out body ≡ send_un WIFI_TO_AGPS l.
Proof.
  intros Hw Hl s. unfold wifi_msg_out, bind, lift.
  rewrite (build_writes WIFI2AGPS_MAX_BUFF_SIZE body l ltac:(done) Hw).
  by replace (_ <=? _) with true by (symmetry; by apply Z.leb_le).
Qed.

Lemma wifi2agps_send_shape m : wifi2agps_ok m -> wifi2agps_send m ≡ send_un WIFI_TO_AGPS (wifi2agps_bytes m).
Proof.
  intros Hok. pose proof (wifi2agps_fits m Hok) as Hl.
  pose proof (fun body H => wifi_msg_bytes body (wifi2agps_bytes m) H Hl) as Hsend. clear Hl. revert Hsend.
  unfold wifi2agps_bytes. destruct m; cbn [wifi2agps_fields]; unfold enc_msg, enc_fields;
    cbn [map concat enc_field]; rewrite ?app_nil_r; intros Hsend; cbn [wifi2agps_ok] in Hok.
  all: unfold wifi2agps_send.
  all: lazymatch goal with
       | |- ?h ≡ _ => let h' := eval red in h in change h with h'; cbv beta; apply Hsend
       end.
  all: solve_writes.
Qed.

(** ** Receiving *)

Lemma get_zeroed_cursor t l pre post :
  zlen l = sizeof LP64 t -> zlen (pre ++ le_bytes 4 (zlen l) ++ l) < 2 ^ 31 ->
  get_zeroed t (cursor pre (le_bytes 4 (zlen l) ++ l ++ post)) =
  Done (l, cursor (pre ++ le_bytes 4 (zlen l) ++ l) post).
Proof.
  intros Hl Hsz. unfold get_zeroed. rewrite <- Hl, Nat2Z.id.
  erewrite bind_done by (apply get_struct_cursor; [rewrite length_zeros; lia|done]).
  by rewrite drop_ge, app_nil_r by (rewrite length_zeros; lia).
Qed.

Lemma wifi_recv {W A} ver cmd args rest (e : prog W A) (k : Z -> Z -> cbuf -> prog W A) :
  zlen (enc_msg ver cmd args) <= WIFI2AGPS_MAX_BUFF_SIZE ->
  (let* '(r, buff) := lift (safe_recvfrom (RData (enc_msg ver cmd args) :: rest) WIFI2AGPS_MAX_BUFF_SIZE) in
   if r =? -1 then e
   else let* '((v, c), b) := decode (CBuf buff 0) get_header in k v c b) ≡
  k (s32 ver) (s32 cmd)
    (cursor (le_bytes 4 ver ++ le_bytes 4 cmd)
       (enc_fields args ++ zeros (Z.to_nat WIFI2AGPS_MAX_BUFF_SIZE - length (enc_msg ver cmd args)))).
Proof.
  intros Hn. etransitivity; [|apply (recv_header WIFI2AGPS_MAX_BUFF_SIZE ver cmd args rest e k Hn)].
  intros w. pose proof (length_enc_msg ver cmd args) as Hl.
  assert (forall B (f : _ -> prog W B), bind (lift (safe_recvfrom (RData (enc_msg ver cmd args) :: rest) WIFI2AGPS_MAX_BUFF_SIZE)) f w =
    f (zlen (enc_msg ver cmd args), enc_msg ver cmd args ++ zeros (Z.to_nat WIFI2AGPS_MAX_BUFF_SIZE - length (enc_msg ver cmd args))) w) as E.
  { intros B f. apply bind_done. unfold lift. by rewrite safe_recvfrom_data. }
  rewrite !E.
  replace (_ =? -1) with false by (symmetry; apply Z.eqb_neq; lia).
  by replace (_ <=? 0) with false by (symmetry; apply Z.leb_gt; lia).
Qed.

(** An array of bytes that is longer than the object is written behind it. *)
Lemma get_zeroed_overrun t l pre post :
  0 <= sizeof LP64 t < zlen l -> zlen (pre ++ le_bytes 4 (zlen l) ++ l) < 2 ^ 31 ->
  get_zeroed t (cursor pre (le_bytes 4 (zlen l) ++ l ++ post)) = UB.
Proof.
  intros Hl Hsz. unfold get_zeroed. apply bind_ub. unfold get_binary. erewrite bind_done by apply get_int_cursor.
  rewrite wrap_s_id by (done || (apply in_s_spec; clen)).
  replace (zlen l >? 0) with true by (symmetry; apply Z.gtb_lt; lia).
  erewrite bind_done by apply here_cursor. apply bind_ub. unfold lift, memcpy.
  replace (_ && _) with false; [done|]. symmetry. apply andb_false_iff. right. rewrite length_zeros.
  apply Z.leb_gt. lia.
Qed.

Lemma wifi2agps_delivered m W rest (t : wifi2agpsInterface W) :
  wifi2agps_ok m -> wifi2agps_handler (RData (wifi2agps_bytes m) :: rest) t ≡ wifi2agps_call t m.
Proof.
  intros Hok.
  pose proof (wifi2agps_fits m Hok) as Hl. unfold wifi2agps_bytes in *.
  destruct m; cbn [wifi2agps_fields wifi2agps_ok] in *.
  all: unfold wifi2agps_handler; etransitivity; [apply wifi_recv; exact Hl|]; dispatch.
  all: rewrite length_enc_msg in Hl; unfold WIFI2AGPS_MAX_BUFF_SIZE in Hl.
  all: unfold enc_fields in *; cbn [map concat enc_field] in *; rewrite <- ?app_assoc; cbn [app].
  all: try (etransitivity; [eapply call_checked_done; reflexivity|reflexivity]).
  all: etransitivity; [eapply call_checked_done; apply get_zeroed_cursor; [exact Hok|clen]|reflexivity].
Qed.

(** ** Properties *)

(** C35: every message of the Wi-Fi watcher reaches the AGPS daemon unchanged:
    it fits the buffer, exactly one datagram is handed to the socket, and the
    handler runs the callback of that message with the same argument and returns
    0, or -1 when there is none. *)
Theorem wifi2agps_delivery (m : wifi2agps_msg) :
  wifi2agps_ok m ->
  wifi2agps_send m ≡ send_un WIFI_TO_AGPS (wifi2agps_bytes m) /\
  forall W rest (t : wifi2agpsInterface W),
    wifi2agps_handler (RData (wifi2agps_bytes m) :: rest) t ≡ wifi2agps_call t m.
Proof.
  intros Hok. split; [by apply wifi2agps_send_shape|]. intros W rest t. by apply wifi2agps_delivered.
Qed.

Lemma wifi2agps_delivery_witness :
  wifi2agps_send (W_associated (replicate 248 7)) ≡
    send_un WIFI_TO_AGPS (wifi2agps_bytes (W_associated (replicate 248 7))) /\
  forall W rest (t : wifi2agpsInterface W),
    wifi2agps_handler (RData (wifi2agps_bytes (W_associated (replicate 248 7))) :: rest) t ≡
    wifi2agps_call t (W_associated (replicate 248 7)).
Proof.
  apply (wifi2agps_delivery (W_associated (replicate 248 7))). vm_compute; reflexivity.
Defined.

(** A datagram without content is taken for the message that Wi-Fi is on: the
    version that is read is 0, which is only logged, and so is the type. *)
Theorem empty_datagram_enables {W} rest (t : wifi2agpsInterface W) :
  wifi2agps_handler (RData [] :: rest) t ≡ invoke (wifi_enabled t) id.
Proof.
  intros w. unfold wifi2agps_handler. erewrite bind_done by (unfold lift; by rewrite safe_recvfrom_data).
  cbv beta iota zeta. change (_ =? -1) with false. cbv beta iota.
  erewrite bind_done by (apply (decode_done _ _ (0, 0) (CBuf (zeros (Z.to_nat WIFI2AGPS_MAX_BUFF_SIZE)) 8)); vm_compute; reflexivity).
  cbv beta iota. dispatch. by rewrite (call_checked_done _ _ _ _ tt (CBuf (zeros (Z.to_nat WIFI2AGPS_MAX_BUFF_SIZE)) 8) eq_refl w).
Qed.

(** An access point that is longer than its structure overruns the variable of
    the handler: its length is compared after the copy, and only to log it. *)
Theorem long_ap_overruns {W} (l : list Z) rest (t : wifi2agpsInterface W) f :
  248 < zlen l <= 9984 -> wifi_associated t = Some f ->
  wifi2agps_handler (RData (enc_msg WIFI2AGPS_INTERFACE_VERSION WIFI2AGPS_CMD_TYPE_ASSOCIATED [FBinary l]) :: rest) t ≡ undef.
Proof.
  intros Hl Hf. unfold wifi2agps_handler. etransitivity.
  { apply wifi_recv. rewrite length_enc_msg. unfold enc_fields. cbn [map concat enc_field].
    rewrite app_nil_r. unfold WIFI2AGPS_MAX_BUFF_SIZE. clen. }
  dispatch. intros w. rewrite Hf. cbn [call_checked]. apply bind_ub. unfold decode, lift, enc_fields.
  cbn [map concat enc_field]. rewrite app_nil_r, <- app_assoc.
  rewrite get_zeroed_overrun; [reflexivity|change (sizeof LP64 wifi2agps_ap_info) with 248; lia|].
  rewrite !length_app, !length_le_bytes. lia.
Qed.
