(* ===== verification/EventLoop.v ===== *)
(** * The event loop of the Wi-Fi watcher ([event_loop.c])

    [src/wifi2agps/libwifi2agps/event_loop.c]: sockets wait in two linked lists,
    with a timeout and without one; the loop selects on them and calls back.  A
    list of nodes is a list; a node that was freed and not unlinked keeps its
    place and its mark.  What [gettimeofday] and [select] answer is a parameter.

    A loop that has not ended after [fuel] turns is [Blocked]: it has not
    returned. *)

From S2P Require Import Prelude DataCoder.
Open Scope Z_scope.

Record time_value : Type := Time { second : Z; usecond : Z }.

(** [struct socket_data] without [next]; [K] names the callback with its two
    contexts. *)
Record socket_data (K : Type) : Type := Sock {
  sock_fd : Z; sd_cb : K; sd_timeout : time_value; sd_freed : bool
}.
Arguments Sock {K}.
Arguments sock_fd {K}.
Arguments sd_cb {K}.
Arguments sd_timeout {K}.
Arguments sd_freed {K}.

(** The file's variables; the clock readings so far, and the calls of [select]:
    first argument, set, timeout. *)
Record loop (K : Type) : Type := Loop {
  wait_context : list (socket_data K);
  wait_context_no_timeout : list (socket_data K);
  max_fd : Z;
  gexit : bool;
  l_clock : nat;
  l_selects : list (Z * list Z * option time_value)
}.
Arguments Loop {K}.
Arguments wait_context {K}.
Arguments wait_context_no_timeout {K}.
Arguments max_fd {K}.
Arguments gexit {K}.
Arguments l_clock {K}.
Arguments l_selects {K}.

Definition loop_boot {K} : loop K := Loop [] [] 0 false 0 [].

Class HasLoop (K W : Type) := {
  loop_of : W -> loop K;
  set_loop : loop K -> W -> W;
  loop_of_set l w : loop_of (set_loop l w) = l;
  set_loop_of w : set_loop (loop_of w) w = w;
  set_set_loop l l' w : set_loop l (set_loop l' w) = set_loop l w
}.

(** The answer of [select]: the descriptors that are ready, nothing before the
    time was over, an error; and the time that is left. *)
Inductive selected : Type := SelReady (fds : list Z) | SelTimeout | SelError.
Record loop_env : Type := LoopEnv {
  le_clock : nat -> Z * Z;
  le_select : nat -> selected;
  le_left : nat -> time_value
}.

Definition FD_SETSIZE : Z := 1024.

(** The result, and the new [*a]: the second comparison of the source is an
    assignment. *)
Definition time_before (a b : time_value) : bool * time_value :=
  if second a >? second b then (false, a)
  else (negb (negb (second b =? 0) && (usecond a >? usecond b)), Time (second b) (usecond a)).

Section event_loop.
Context {K W : Type} `{HasLoop K W} (env : loop_env) (run_cb : K -> prog W Z).

Definition on_loop (f : loop K -> loop K) : prog W unit := modify (fun w => set_loop (f (loop_of w)) w).
Definition set_waits (wc no : list (socket_data K)) (l : loop K) : loop K :=
  Loop wc no (max_fd l) (gexit l) (l_clock l) (l_selects l).

(** [struct timeval], and [current] or a deadline with it. *)
Definition gettimeofday : prog W time_value :=
  let* k := gets (fun w => l_clock (loop_of w)) in
  on_loop (fun l => Loop (wait_context l) (wait_context_no_timeout l) (max_fd l) (gexit l) (S (l_clock l)) (l_selects l)) ;;
  ret (Time (fst (le_clock env k)) (snd (le_clock env k))).
Definition as_u32 (tv : time_value) : time_value := Time (u32 (second tv)) (u32 (usecond tv)).

(** ** Registration *)

(** [while (tail)]: [tail] is the address of [wait_context], read as a node whose
    [next] is the list, and never moves; the first node, with its new timeout. *)
Fixpoint insert_loop (fuel : nat) (new first : time_value) : option time_value :=
  match fuel with
  | O => None
  | S fuel =>
      let '(before, new) := time_before new first in
      if before then Some new else insert_loop fuel new first
  end.

Definition event_loop_add_event_timeout (fuel : nat) (sock : Z) (cb : K) (sec usec : Z) : prog W Z :=
  on_loop (fun l => Loop (wait_context l) (wait_context_no_timeout l) (Z.max sock (max_fd l)) (gexit l)
                      (l_clock l) (l_selects l)) ;;
  if (sec =? 0) && (usec =? 0) then
    on_loop (fun l => set_waits (wait_context l) (wait_context_no_timeout l ++ [Sock sock cb (Time 0 0) false]) l) ;;
    ret 0
  else
    let* tv := gettimeofday in
    let new := Time (u32 (sec + second tv)) (u32 (usec + usecond tv)) in
    let* wc := gets (fun w => wait_context (loop_of w)) in
    match wc with
    | [] =>
        on_loop (fun l => set_waits [Sock sock cb new false] (wait_context_no_timeout l) l) ;; ret 0
    | h :: _ =>
        if sd_freed h then undef
        else
          let '(before, new) := time_before new (sd_timeout h) in
          let insert new := on_loop (fun l => set_waits (Sock sock cb new false :: wc) (wait_context_no_timeout l) l) in
          if before then insert new ;; ret 0
          else
            match insert_loop fuel new (sd_timeout h) with
            | None => blocked
            | Some new => insert new ;; ret 0
            end
    end.

Definition event_loop_add_event (sock : Z) (cb : K) : prog W Z := event_loop_add_event_timeout 0 sock cb 0 0.

(** The nodes behind the first, without the first of them for [sock]. *)
Fixpoint unlink (sock : Z) (l : list (socket_data K)) : option (list (socket_data K)) :=
  match l with
  | [] => None
  | n :: r => if sock_fd n =? sock then Some r else cons n <$> unlink sock r
  end.

(** The list without timeouts is not searched; a first node that is found is
    freed where it is. *)
Definition event_loop_remove_event (sock : Z) : prog W Z :=
  let* wc := gets (fun w => wait_context (loop_of w)) in
  match wc with
  | [] => undef
  | h :: r =>
      if sd_freed h then undef
      else if sock_fd h =? sock then
        on_loop (fun l => set_waits (Sock (sock_fd h) (sd_cb h) (sd_timeout h) true :: r) (wait_context_no_timeout l) l) ;;
        ret 1
      else
        match unlink sock r with
        | None => ret 0
        | Some r' => on_loop (fun l => set_waits (h :: r') (wait_context_no_timeout l) l) ;; ret 1
        end
  end.

Definition event_loop_terminate : prog W unit :=
  on_loop (fun l => Loop (wait_context l) (wait_context_no_timeout l) (max_fd l) true (l_clock l) (l_selects l)).

(** ** The loop *)

(** [FD_SET] of every descriptor. *)
Definition fd_set (fds : list Z) : outcome (list Z) :=
  if forallb (fun fd => (0 <=? fd) && (fd <? FD_SETSIZE)) fds then Done fds else UB.

(** The result of [select], which descriptors are set afterwards, and [tv]. *)
Definition select (nfds : Z) (fds : list Z) (tv : option time_value) : prog W (Z * list Z * option time_value) :=
  let* k := gets (fun w => length (l_selects (loop_of w))) in
  on_loop (fun l => Loop (wait_context l) (wait_context_no_timeout l) (max_fd l) (gexit l) (l_clock l)
                      (l_selects l ++ [(nfds, fds, tv)])) ;;
  let tv' := match tv with None => None | Some _ => Some (le_left env k) end in
  ret (match le_select env k with
       | SelReady ready => let set := filter (fun fd => fd ∈ ready) fds in (zlen set, set, tv')
       | SelTimeout => (0, [], tv')
       | SelError => (-1, fds, tv')
       end).

(** [time_before(&wait_context->timeout, &current)], with the timeout it leaves. *)
Definition head_before (h : socket_data K) (r : list (socket_data K)) (current : time_value)
  : prog W (bool * time_value) :=
  let '(b, t) := time_before (sd_timeout h) current in
  on_loop (fun l => set_waits (Sock (sock_fd h) (sd_cb h) t (sd_freed h) :: r) (wait_context_no_timeout l) l) ;;
  ret (b, t).

(** How long to wait for the first node; [None] without a limit. *)
Definition head_timeout (tv : option time_value) : prog W (option time_value * list Z) :=
  let* wc := gets (fun w => wait_context (loop_of w)) in
  match wc with
  | [] => ret (tv, [])
  | h :: r =>
      let* tv := gettimeofday in
      let current := as_u32 tv in
      if sd_freed h then undef
      else
        let* '(b, t) := head_before h r current in
        ret (if b then None
             else if usecond t <? usecond current
             then Some (Time (u32 (second t - second current - 1)) (u32 (usecond t - usecond current + 1000000)))
             else Some (Time (u32 (second t - second current)) (u32 (usecond t - usecond current))),
             [sock_fd h])
  end.

(** [while (tail) { if (FD_ISSET(...)) tail->cb(...); tail = tail->next; }], from
    the node with index [i]. *)
Fixpoint call_ready (fuel : nat) (i : nat) (set : list Z) : prog W unit :=
  let* node := gets (fun w => wait_context_no_timeout (loop_of w) !! i) in
  match node, fuel with
  | None, _ => ret tt
  | Some _, O => blocked
  | Some n, S fuel =>
      (if bool_decide (sock_fd n ∈ set) then let* _ := run_cb (sd_cb n) in ret tt else ret tt) ;;
      call_ready fuel (S i) set
  end.

(** The first node is called back when its time is over, and taken out; the
    reading of the clock goes to [tv]. *)
Definition call_expired : prog W time_value :=
  let* tv := gettimeofday in
  let* wc := gets (fun w => wait_context (loop_of w)) in
  match wc with
  | [] => undef
  | h :: r =>
      if sd_freed h then undef
      else
      let* '(b, _) := head_before h r (as_u32 tv) in
      when b
        (let* _ := run_cb (sd_cb h) in
         let* wc := gets (fun w => wait_context (loop_of w)) in
         match wc with
         | [] => undef
         | _ :: r => on_loop (fun l => set_waits r (wait_context_no_timeout l) l)
         end) ;;
      ret tv
  end.

(** One turn; [tv] is what [timeout] and [tv] hold between the turns. *)
Definition loop_turn (fuel : nat) (tv : option time_value) : prog W (option time_value) :=
  let* no := gets (fun w => wait_context_no_timeout (loop_of w)) in
  let* '(tv, first) := head_timeout tv in
  let* fds := lift (fd_set (map sock_fd no ++ first)) in
  let* nfds := gets (fun w => max_fd (loop_of w) + 1) in
  let* '(res, set, tv) := select nfds fds tv in
  let* wc := gets (fun w => wait_context (loop_of w)) in
  match wc with
  | _ :: _ =>
      if res <=? 0 then let* now := call_expired in ret (const now <$> tv)
      else call_ready fuel 0 set ;; ret tv
  | [] => call_ready fuel 0 set ;; ret tv
  end.

Definition loop_goes_on : prog W bool :=
  gets (fun w => negb (gexit (loop_of w)) &&
    match wait_context (loop_of w), wait_context_no_timeout (loop_of w) with [], [] => false | _, _ => true end).

Fixpoint event_loop_from (fuel : nat) (tv : option time_value) : prog W unit :=
  match fuel with
  | O => blocked
  | S fuel =>
      let* b := loop_goes_on in
      if b then let* tv := loop_turn fuel tv in event_loop_from fuel tv
      else on_loop (set_waits [] [])
  end.
Definition event_loop_run (fuel : nat) : prog W unit := event_loop_from fuel None.
End event_loop.

(** ** Registration *)

Section facts.
Context {K W : Type} `{HasLoop K W}.

Lemma on_loop_done f (w : W) : on_loop f w = Done (tt, set_loop (f (loop_of w)) w).
Proof. done. Qed.

(** Without a timeout, the socket is the last of its list. *)
Lemma add_event_done env sock cb (w : W) :
  event_loop_add_event env sock cb w =
  Done (0, set_loop (let l := loop_of w in
     Loop (wait_context l) (wait_context_no_timeout l ++ [Sock sock cb (Time 0 0) false]) (Z.max sock (max_fd l)) (gexit l)
       (l_clock l) (l_selects l)) w).
Proof.
  unfold event_loop_add_event, event_loop_add_event_timeout.
  erewrite bind_done by apply on_loop_done. change ((0 =? 0) && (0 =? 0)) with true. cbv beta iota.
  erewrite bind_done by apply on_loop_done. unfold ret. by rewrite loop_of_set, set_set_loop.
Qed.

Lemma insert_loop_stuck fuel new h : (time_before new h).1 = false -> insert_loop fuel (time_before new h).2 h = None.
Proof.
  revert new. induction fuel as [|fuel IH]; intros new E; [done|]. cbn [insert_loop].
  assert ((time_before (time_before new h).2 h).1 = false /\ (time_before (time_before new h).2 h).2 = (time_before new h).2) as [E1 E2].
  { revert E. unfold time_before. destruct (Z.gtb_spec (second new) (second h)) as [Hg|Hg]; cbn [fst snd].
    - intros _. destruct (Z.gtb_spec (second new) (second h)); [done|lia].
    - intros E. cbn [second usecond]. rewrite Z.gtb_ltb, Z.ltb_irrefl. cbn [fst snd]. done. }
  destruct (time_before (time_before new h).2 h) as [b t] eqn:E3. cbn [fst snd] in E1, E2. subst b t. 
  by apply IH.
Qed.

(** A socket with a timeout that is not before the first of the list is never
    added: the search does not leave the first node. *)
Theorem add_timeout_hangs env fuel sock cb sec usec (w : W) h r t :
  (sec =? 0) && (usec =? 0) = false -> wait_context (loop_of w) = h :: r -> sd_freed h = false ->
  t = le_clock env (l_clock (loop_of w)) ->
  (time_before (Time (u32 (sec + t.1)) (u32 (usec + t.2))) (sd_timeout h)).1 = false ->
  event_loop_add_event_timeout env fuel sock cb sec usec w = Blocked.
Proof.
  intros Hs Hw Hf -> Ht. unfold event_loop_add_event_timeout.
  erewrite bind_done by apply on_loop_done. rewrite Hs.
  unfold gettimeofday. unfold bind at 1. unfold bind at 1, gets at 1. unfold bind at 1. rewrite on_loop_done.
  unfold ret at 1. rewrite !loop_of_set. cbn [second usecond l_clock].
  unfold bind at 1, gets. rewrite !loop_of_set. cbn [wait_context]. rewrite Hw, Hf.
  pose proof (insert_loop_stuck fuel _ _ Ht) as E.
  destruct (time_before _ (sd_timeout h)) as [b t'] eqn:Et. cbn [fst snd] in *. subst b.
  by rewrite E.
Qed.

(** Nothing is registered: the loop returns at once. *)
Lemma run_idle env run fuel (w : W) :
  wait_context (loop_of w) = [] -> wait_context_no_timeout (loop_of w) = [] ->
  event_loop_run env run (S fuel) w = Done (tt, set_loop (set_waits [] [] (loop_of w)) w).
Proof.
  intros H1 H2. unfold event_loop_run. cbn [event_loop_from]. unfold loop_goes_on, bind, gets. rewrite H1, H2.
  by rewrite andb_false_r.
Qed.
End facts.

(** ** A turn without timeouts *)

Section turns.
Context {K W : Type} `{HasLoop K W} (env : loop_env) (run_cb : K -> prog W Z).

(** The callbacks of the sockets that are ready, in the order of the list. *)
Fixpoint ready_calls (l : list (socket_data K)) (set : list Z) : prog W unit :=
  match l with
  | [] => ret tt
  | n :: l => (if bool_decide (sock_fd n ∈ set) then let* _ := run_cb (sd_cb n) in ret tt else ret tt) ;; ready_calls l set
  end.

Context (Hkeep : forall k w a w', run_cb k w = Done (a, w') -> loop_of w' = loop_of w).

Lemma call_ready_list l set fuel i (w : W) :
  wait_context_no_timeout (loop_of w) = l -> (length l <= fuel + i)%nat ->
  call_ready run_cb fuel i set w = ready_calls (drop i l) set w.
Proof.
  intros <-. revert i w. induction fuel as [|fuel IH]; intros i w Hf; cbn [call_ready].
  - unfold bind, gets. rewrite lookup_ge_None_2 by lia. by rewrite drop_ge by lia.
  - unfold bind at 1, gets. destruct (wait_context_no_timeout (loop_of w) !! i) as [n|] eqn:E.
    + rewrite (drop_S _ _ _ E). cbn [ready_calls]. unfold bind, ret. destruct (bool_decide _).
      * destruct (run_cb (sd_cb n) w) as [[a w1]| | |] eqn:E1; try done.
        apply Hkeep in E1. rewrite <- E1. apply IH. rewrite E1. lia.
      * apply IH. lia.
    + apply lookup_ge_None_1 in E. by rewrite drop_ge by lia.
Qed.

(** What [select] is asked, and what is ready then. *)
Definition select_asked (tv : option time_value) (l : loop K) : loop K :=
  Loop (wait_context l) (wait_context_no_timeout l) (max_fd l) (gexit l) (l_clock l)
    (l_selects l ++ [(max_fd l + 1, map sock_fd (wait_context_no_timeout l), tv)]).
Definition ready_set (l : loop K) : list Z :=
  match le_select env (length (l_selects l)) with
  | SelReady ready => filter (fun fd => fd ∈ ready) (map sock_fd (wait_context_no_timeout l))
  | SelTimeout => []
  | SelError => map sock_fd (wait_context_no_timeout l)
  end.

(** As long as no socket waits with a timeout, a turn waits for the others and
    calls back those that are ready, or all of them when [select] fails. *)
Lemma turn_serves fuel (w : W) :
  wait_context (loop_of w) = [] ->
  forallb (fun n => (0 <=? sock_fd n) && (sock_fd n <? FD_SETSIZE)) (wait_context_no_timeout (loop_of w)) = true ->
  (length (wait_context_no_timeout (loop_of w)) <= fuel)%nat ->
  loop_turn env run_cb fuel None w =
  (let* _ := ready_calls (wait_context_no_timeout (loop_of w)) (ready_set (loop_of w)) in ret None)
    (set_loop (select_asked None (loop_of w)) w).
Proof.
  intros Hwc Hfds Hfuel. unfold loop_turn, head_timeout.
  set (l := loop_of w) in *. unfold bind at 1, gets at 1. fold l.
  unfold bind at 1. unfold bind at 1, gets at 1. fold l. rewrite Hwc. unfold ret at 1. cbv beta iota.
  rewrite app_nil_r. unfold fd_set.
  replace (forallb _ (map _ _)) with true.
  2: { symmetry. rewrite <- Hfds. generalize (wait_context_no_timeout l). intros ns. induction ns as [|n ns IH]; [done|].
       cbn. by rewrite IH. }
  unfold bind at 1, lift. unfold bind at 1, gets at 1. unfold bind at 1, select.
  unfold bind at 1, gets at 1. unfold bind at 1, on_loop, modify. unfold ret at 1. fold l.
  change (Loop _ _ _ _ _ _) with (select_asked None l).
  assert (forall res set, (let* wc := gets (fun w => wait_context (loop_of w)) in
     match wc with
     | [] => call_ready run_cb fuel 0 set ;; ret (None : option time_value)
     | _ :: _ => if res <=? 0 then let* now := call_expired env run_cb in ret (const now <$> (None : option time_value))
                 else call_ready run_cb fuel 0 set ;; ret None
     end) (set_loop (select_asked None l) w) =
    (let* _ := ready_calls (wait_context_no_timeout l) set in ret None) (set_loop (select_asked None l) w)) as E.
  { intros res set. unfold bind at 1, gets at 1. rewrite loop_of_set. cbn [select_asked wait_context]. rewrite Hwc.
    unfold bind at 1. rewrite (call_ready_list (wait_context_no_timeout l) set fuel 0); [done|by rewrite loop_of_set|lia]. }
  unfold ready_set. destruct (le_select env _) as [ready| |]; cbv beta iota; apply E.
Qed.
End turns.
