(* ===== verification/Wifi.v ===== *)
(** * The Wi-Fi watcher ([nl80211.c], [main.c])

    [src/wifi2agps/libwifi2agps/nl80211.c] and [main.c]: the process connects to
    the Wi-Fi driver by netlink, and turns what the driver announces into messages
    for the AGPS daemon.  libnl is a parameter: how it parses a message ([libnl]),
    what its calls answer and which messages arrive ([wifi_env]).  What its calls
    allocate is a number, kept in the state until it is freed; to free or to use
    one that is not there is undefined.  The functions for [rtm_sock] are compiled
    in but not called ([#if 0]), and left out. *)

From stdpp Require Import strings.
From S2P Require Import Prelude DataCoder LbsUtility Layout Structs Messages Wifi2Agps EventLoop.
Import HalTypes.
Open Scope Z_scope.

(** ** libnl *)

Record libnl (msg attr : Type) : Type := {
  gnlh_cmd : msg -> Z;                          (* the command of the generic netlink header *)
  nla_find : msg -> Z -> option attr;
  nla_parse : msg -> Z -> option attr;          (* [tb[i]] after [nla_parse] *)
  nla_parse_nested : attr -> Z -> option attr;
  nla_nested : attr -> list attr;               (* [nla_for_each_nested] *)
  nla_data : attr -> list Z;                    (* the payload, [nla_len] bytes *)
  nla_get_u8 : attr -> Z;
  nla_get_u16 : attr -> Z;
  nla_get_u32 : attr -> Z;
  CTRL_ATTR_MCAST_GROUPS : Z;                   (* of [linux/genetlink.h] *)
  CTRL_ATTR_MCAST_GRP_NAME : Z;
  CTRL_ATTR_MCAST_GRP_ID : Z;
  NL_SKIP : Z
}.
Arguments gnlh_cmd {msg attr}.
Arguments nla_find {msg attr}.
Arguments nla_parse {msg attr}.
Arguments nla_parse_nested {msg attr}.
Arguments nla_nested {msg attr}.
Arguments nla_data {msg attr}.
Arguments nla_get_u8 {msg attr}.
Arguments nla_get_u16 {msg attr}.
Arguments nla_get_u32 {msg attr}.
Arguments CTRL_ATTR_MCAST_GROUPS {msg attr}.
Arguments CTRL_ATTR_MCAST_GRP_NAME {msg attr}.
Arguments CTRL_ATTR_MCAST_GRP_ID {msg attr}.
Arguments NL_SKIP {msg attr}.

Inductive nl_call : Type :=
| NlCbAlloc | NlSocketAlloc (dbg : string) | GenlConnect (h : nat) | NlSocketFree (h : nat)
| GenlAllocCache | GenlSearch (name : string) | GenlFamilyId | GenlFamilyPut (h : nat) | NlCacheFree (h : nat)
| NlmsgAlloc | GenlCtrlResolve (name : string) | GenlmsgPut | NlaPutString (family : string)
| NlCbClone | NlSend | NlRecv | NlCbPut (h : nat) | NlmsgFree (h : nat)
| NlAddMembership (group : Z) | NlCbSet | NlSocketFd | NlRecvEvents.

(** One message of an answer. *)
Inductive nl_reply (msg : Type) : Type := RAck | RFinish | RError (error : Z) | RValid (m : msg).
Arguments RAck {msg}.
Arguments RFinish {msg}.
Arguments RError {msg}.
Arguments RValid {msg}.

(** The result of the call with a number (0 from one that allocates is a failure), what each
    [nl_recvmsgs] of a request receives, which events one of the loop does, and
    what is left on the stack. *)
Record wifi_env (msg : Type) : Type := WifiEnv {
  nl_ans : nat -> nl_call -> Z;
  nl_replies : nat -> list (list (nl_reply msg));
  nl_events : nat -> list msg;
  w_junk : nat -> Z;
  w_loop_env : loop_env
}.
Arguments nl_ans {msg}.
Arguments nl_replies {msg}.
Arguments nl_events {msg}.
Arguments w_junk {msg}.
Arguments w_loop_env {msg}.

(** ** State *)

Record wifi_callback_funcs : Type := WifiCallbacks {
  cb_wifi_enabled : prog sys Z;
  cb_wifi_disabled : prog sys Z;
  cb_wifi_associated : list Z -> prog sys Z;
  cb_wifi_disassociated : prog sys Z;
  cb_wifi_scan_results : list Z -> prog sys Z
}.

(** The only callback of the loop, with its contexts. *)
Inductive wifi_cb : Type := CbEventReceive (eloop_ctx handle : option nat).

(** [nl_cfg]; the custom callback for valid messages in [nl_cb]; the event loop;
    the calls so far, and what is allocated. *)
Record wifi : Type := Wifi {
  wf_sys : sys;
  wf_loop : loop wifi_cb;
  nl_cb : option nat;
  nl : option nat;
  nl_event : option nat;
  nl80211_id : Z;
  ifindex : Z;
  agps_cb : option wifi_callback_funcs;
  cb_valid : bool;
  w_calls : list nl_call;
  w_live : list nat
}.

Definition set_wf_sys (s : sys) (w : wifi) : wifi :=
  Wifi s (wf_loop w) (nl_cb w) (nl w) (nl_event w) (nl80211_id w) (ifindex w) (agps_cb w) (cb_valid w) (w_calls w) (w_live w).
Definition set_wf_loop (l : loop wifi_cb) (w : wifi) : wifi :=
  Wifi (wf_sys w) l (nl_cb w) (nl w) (nl_event w) (nl80211_id w) (ifindex w) (agps_cb w) (cb_valid w) (w_calls w) (w_live w).
Definition set_handles (cb s e : option nat) (w : wifi) : wifi :=
  Wifi (wf_sys w) (wf_loop w) cb s e (nl80211_id w) (ifindex w) (agps_cb w) (cb_valid w) (w_calls w) (w_live w).
Definition set_nl_cb (p : option nat) (w : wifi) : wifi := set_handles p (nl w) (nl_event w) w.
Definition set_nl (p : option nat) (w : wifi) : wifi := set_handles (nl_cb w) p (nl_event w) w.
Definition set_nl_event (p : option nat) (w : wifi) : wifi := set_handles (nl_cb w) (nl w) p w.
Definition set_ids (id idx : Z) (w : wifi) : wifi :=
  Wifi (wf_sys w) (wf_loop w) (nl_cb w) (nl w) (nl_event w) id idx (agps_cb w) (cb_valid w) (w_calls w) (w_live w).
Definition set_ifindex (idx : Z) (w : wifi) : wifi := set_ids (nl80211_id w) idx w.
Definition set_callbacks (cb : option wifi_callback_funcs) (valid : bool) (w : wifi) : wifi :=
  Wifi (wf_sys w) (wf_loop w) (nl_cb w) (nl w) (nl_event w) (nl80211_id w) (ifindex w) cb valid (w_calls w) (w_live w).
Definition set_heap (calls : list nl_call) (live : list nat) (w : wifi) : wifi :=
  Wifi (wf_sys w) (wf_loop w) (nl_cb w) (nl w) (nl_event w) (nl80211_id w) (ifindex w) (agps_cb w) (cb_valid w) calls live.

#[export] Instance wifi_has_sys : HasSys wifi.
Proof. refine {| sys_of := wf_sys; set_sys := set_wf_sys |}; try done; by intros []. Defined.
#[export] Instance wifi_has_loop : HasLoop wifi_cb wifi.
Proof. refine {| loop_of := wf_loop; set_loop := set_wf_loop |}; try done; by intros []. Defined.

(** The variables are zero when the process starts. *)
Definition wifi_boot (s : sys) : wifi := Wifi s loop_boot None None None 0 0 None false [] [].

Definition ENOENT := 2.
Definition ENOMEM := 12.
Definition NL80211_CMD_TESTMODE := 45.
Definition NL80211_CMD_CONNECT := 46.
Definition NL80211_CMD_ROAM := 47.
Definition NL80211_CMD_DISCONNECT := 48.
Definition NL80211_ATTR_IFINDEX := 3.
Definition NL80211_ATTR_MAC := 6.
Definition NL80211_ATTR_STATUS_CODE := 72.
Definition NL80211_ATTR_TESTDATA := 69.
Definition MTK_NL80211_ATTR_CMD := 1.
Definition MTK_NL80211_ATTR_DATA := 2.
Definition MTK_NL80211_ATTR_IFINDEX := 3.
Definition MTK_NL80211_ATTR_IFNAME := 4.
Definition AGPS_EVENT_WIFI_ON := 0.
Definition AGPS_EVENT_WIFI_OFF := 1.
Definition AGPS_EVENT_WIFI_AP_INFO := 2.
Definition WIFI_EVENT_CHIP_RESET := 3.

Section wifi.
Context {msg attr : Type} (nl80211 : libnl msg attr) (env : wifi_env msg).

(** ** Calls of libnl *)

Definition nl_ask (c : nl_call) : prog wifi Z :=
  let* calls := gets w_calls in
  modify (fun w => set_heap (w_calls w ++ [c]) (w_live w) w) ;;
  ret (nl_ans env (length calls) c).

(** A call that allocates; its number is the pointer. *)
Definition nl_alloc (c : nl_call) : prog wifi (option nat) :=
  let* calls := gets w_calls in
  modify (fun w => set_heap (w_calls w ++ [c]) (w_live w) w) ;;
  if nl_ans env (length calls) c =? 0 then ret None
  else
    modify (fun w => set_heap (w_calls w) (w_live w ++ [length calls]) w) ;;
    ret (Some (length calls)).

(** A pointer is used: it must be there. *)
Definition deref_nl (p : option nat) : prog wifi nat :=
  let* live := gets w_live in
  match p with
  | Some h => if bool_decide (h ∈ live) then ret h else undef
  | None => undef
  end.

(** [nlmsg_free], [nl_cb_put] and the like: nothing for NULL. *)
Definition nl_release (c : nat -> nl_call) (p : option nat) : prog wifi unit :=
  match p with
  | None => ret tt
  | Some _ =>
      let* h := deref_nl p in
      modify (fun w => set_heap (w_calls w ++ [c h]) (filter (fun k => k <> h) (w_live w)) w)
  end.

(** ** Connecting *)

Definition nl_create_handle (cb : option nat) (dbg : string) : prog wifi (option nat) :=
  let* _ := deref_nl cb in
  let* handle := nl_alloc (NlSocketAlloc dbg) in
  match handle with
  | None => ret None
  | Some h =>
      let* r := nl_ask (GenlConnect h) in
      if r =? 0 then ret (Some h)
      else nl_release NlSocketFree handle ;; ret None
  end.

(** For [&nl_cfg->nl_event] and [&nl_cfg->nl]. *)
Definition nl_destroy_handles (handle : wifi -> option nat) (set : option nat -> wifi -> wifi) : prog wifi unit :=
  let* p := gets handle in
  match p with
  | None => ret tt
  | Some _ => nl_release NlSocketFree p ;; modify (set None)
  end.

Definition android_genl_ctrl_resolve (handle : option nat) (name : string) : prog wifi Z :=
  let* _ := deref_nl handle in
  let* cache := nl_alloc GenlAllocCache in
  match cache with
  | None => ret (-1)
  | Some _ =>
      let* family := nl_alloc (GenlSearch name) in
      let* id := match family with None => ret (-1) | Some _ => nl_ask GenlFamilyId end in
      nl_release GenlFamilyPut family ;;
      nl_release NlCacheFree cache ;;
      ret id
  end.

(** [strncmp(data, text, n) == 0] for the [n] bytes of [data], and a text without
    NUL bytes; reading stops at the first difference. *)
Fixpoint strncmp_data (data text : list Z) : bool :=
  match data, text with
  | [], _ => true
  | c :: data', [] => c =? 0
  | c :: data', t :: text' => (c =? t) && strncmp_data data' text'
  end.

(** [nla_for_each_nested]: the id of the first group with the name. *)
Fixpoint find_group (group : list Z) (l : list attr) (id : Z) : Z :=
  match l with
  | [] => id
  | mcgrp :: l =>
      match nla_parse_nested nl80211 mcgrp (CTRL_ATTR_MCAST_GRP_NAME nl80211),
            nla_parse_nested nl80211 mcgrp (CTRL_ATTR_MCAST_GRP_ID nl80211) with
      | Some name, Some gid =>
          if strncmp_data (nla_data nl80211 name) group then s32 (nla_get_u32 nl80211 gid)
          else find_group group l id
      | _, _ => find_group group l id
      end
  end.

(** The new [res->id]. *)
Definition family_handler (group : list Z) (m : msg) (id : Z) : Z :=
  match nla_parse nl80211 m (CTRL_ATTR_MCAST_GROUPS nl80211) with
  | None => id
  | Some groups => find_group group (nla_nested nl80211 groups) id
  end.

(** One [nl_recvmsgs]: [err] and [res.id] after the callbacks; [ack_handler]
    stops. *)
Fixpoint reply_callbacks (group : list Z) (l : list (nl_reply msg)) (err id : Z) : Z * Z :=
  match l with
  | [] => (err, id)
  | RAck :: _ => (0, id)
  | RFinish :: l => reply_callbacks group l 0 id
  | RError e :: l => reply_callbacks group l e id
  | RValid m :: l => reply_callbacks group l err (family_handler group m id)
  end.

(** [while (err > 0) nl_recvmsgs(nl_sock, cb);] *)
Fixpoint recv_replies (group : list Z) (l : list (list (nl_reply msg))) (err id : Z) : option (Z * Z) :=
  if err >? 0 then
    match l with
    | [] => None
    | r :: l => let '(err, id) := reply_callbacks group r err id in recv_replies group l err id
    end
  else Some (err, id).

(** [send_and_recv_msgs] with [family_handler]: the result, and [res.id]. *)
Definition send_and_recv_msgs (m : option nat) (group : list Z) (id : Z) : prog wifi (Z * Z) :=
  let* base := gets nl_cb in
  let* _ := deref_nl base in
  let* cb := nl_alloc NlCbClone in
  let* r :=
    match cb with
    | None => ret (- ENOMEM, id)
    | Some _ =>
        let* sock := gets nl in
        let* _ := deref_nl sock in
        let* _ := deref_nl m in
        let* err := nl_ask NlSend in
        if err <? 0 then ret (err, id)
        else
          let* calls := gets w_calls in
          let* _ := nl_ask NlRecv in
          match recv_replies group (nl_replies env (length calls)) 1 id with
          | None => blocked
          | Some r => ret r
          end
    end in
  nl_release NlCbPut cb ;;
  nl_release NlmsgFree m ;;
  ret r.

Definition nl_get_multicast_id (family : string) (group : list Z) : prog wifi Z :=
  let* m := nl_alloc NlmsgAlloc in
  match m with
  | None => ret (- ENOMEM)
  | Some _ =>
      let* sock := gets nl in
      let* _ := deref_nl sock in
      let* _ := nl_ask (GenlCtrlResolve "nlctrl") in
      let* _ := nl_ask GenlmsgPut in
      let* r := nl_ask (NlaPutString family) in
      if r <? 0 then nl_release NlmsgFree m ;; ret (-1)
      else
        let* '(r, id) := send_and_recv_msgs m group (- ENOENT) in
        nl_release NlmsgFree None ;;
        ret (if r =? 0 then id else r)
  end.

(** The membership of a group, negative on an error. *)
Definition nl_join (group : list Z) : prog wifi Z :=
  let* id := nl_get_multicast_id "nl80211" group in
  if id >=? 0 then
    let* sock := gets nl_event in
    let* _ := deref_nl sock in
    nl_ask (NlAddMembership id)
  else ret id.

(** "testmode", "mlme" and "wlan". *)
Definition TESTMODE : list Z := [116; 101; 115; 116; 109; 111; 100; 101].
Definition MLME : list Z := [109; 108; 109; 101].
Definition WLAN : list Z := [119; 108; 97; 110].

(** The label [err]. *)
Definition init_failed : prog wifi Z :=
  nl_destroy_handles nl_event set_nl_event ;;
  nl_destroy_handles nl set_nl ;;
  let* cb := gets nl_cb in
  nl_release NlCbPut cb ;;
  modify (set_nl_cb None) ;;
  ret (-1).

Definition nl80211_init_nl : prog wifi Z :=
  modify (set_ifindex (-1)) ;;
  let* cb := nl_alloc NlCbAlloc in
  modify (set_nl_cb cb) ;;
  if bool_decide (cb = None) then ret (-1) else
  let* h := nl_create_handle cb "nl" in
  modify (set_nl h) ;;
  if bool_decide (h = None) then init_failed else
  let* id := android_genl_ctrl_resolve h "nl80211" in
  modify (fun w => set_ids id (ifindex w) w) ;;
  if id <? 0 then init_failed else
  let* h := nl_create_handle cb "event" in
  modify (set_nl_event h) ;;
  if bool_decide (h = None) then init_failed else
  let* r := nl_join TESTMODE in
  if r <? 0 then init_failed else
  let* r := nl_join MLME in
  if r <? 0 then init_failed else
  let* _ := nl_ask NlCbSet in
  let* _ := nl_ask NlCbSet in
  modify (fun w => set_callbacks (agps_cb w) true w) ;;
  let* fd := nl_ask NlSocketFd in
  let* cb := gets nl_cb in
  let* h := gets nl_event in
  let* _ := event_loop_add_event (w_loop_env env) fd (CbEventReceive cb h) in
  ret 0.

Definition wifi2agps_init (callback : wifi_callback_funcs) : prog wifi Z :=
  modify (fun w => set_callbacks (Some callback) (cb_valid w) w) ;;
  let* r := nl80211_init_nl in
  ret (if r <? 0 then -1 else 0).

Definition wifi2agps_deinit : prog wifi Z := event_loop_terminate ;; ret 0.

(** ** What the driver announces *)

Section driver_types.
Local Open Scope string_scope.
Definition driver_ap_info : ctype := CStruct
  [ ("bssid", CArr 6 c_char); ("ap_rssi", c_short); ("ap_channel", c_short); ("phy_type", c_int) ].
Definition driver_ap_list : ctype := CStruct [ ("num", c_char); ("ap_info", CArr 32 driver_ap_info) ].
End driver_types.

(** Through a null pointer. *)
Definition deref {A} (p : option A) : prog wifi A := match p with Some a => ret a | None => undef end.

(** [nl_cfg->agps_cb.f(...)], the result dropped. *)
Definition call_agps (f : wifi_callback_funcs -> prog sys Z) : prog wifi unit :=
  let* cb := gets agps_cb in
  let* cb := deref cb in
  let* _ := on_sys (f cb) in
  ret tt.

(** A zeroed structure with an address, maybe; [memcpy] of six bytes. *)
Definition ap_with_address (addr : option (list Z)) : list Z :=
  struct_image LP64 wifi2agps_ap_info
    (match addr with
     | None => fun _ => None
     | Some a => stored true "ap_mac_addr" (take 6 a) (fun _ => None)
     end).

Definition mlme_event_connect (cmd : Z) (status addr : option attr) : prog wifi unit :=
  let* rejected :=
    if cmd =? NL80211_CMD_CONNECT
    then let* a := deref status in ret (negb (nla_get_u16 nl80211 a =? 0))
    else ret false in
  if rejected then ret tt
  else
    let data := nla_data nl80211 <$> addr in
    match data with
    | Some d => if zlen d <? 6 then undef else call_agps (fun cb => cb_wifi_associated cb (ap_with_address data))
    | None => call_agps (fun cb => cb_wifi_associated cb (ap_with_address None))
    end.

Definition checkIfIndex (tb : option attr) : prog wifi bool :=
  let* idx := gets ifindex in
  ret (match tb with None => false | Some a => nla_get_u32 nl80211 a =? u32 idx end).

(** [strncmp(data, "wlan", 4) == 0]; no byte behind the payload is read. *)
Fixpoint starts_with (data text : list Z) : outcome bool :=
  match text, data with
  | [], _ => Done true
  | _ :: _, [] => UB
  | t :: text, c :: data => if c =? t then starts_with data text else Done false
  end.

(** The members that are filled of one access point. *)
Definition ap_info_of (drv : list Z) : list Z :=
  struct_image LP64 wifi2agps_ap_info
    (stored true "ap_mac_addr" (object LP64 driver_ap_info drv "bssid")
       (stored true "ap_signal_strength_used" [1]
          (stored true "ap_signal_strength" (le_bytes 4 (s16 (member LP64 driver_ap_info drv "ap_rssi")))
             (stored true "ap_channel_frequency_used" [1]
                (stored true "ap_channel_frequency" (le_bytes 4 (member LP64 driver_ap_info drv "ap_channel"))
                   (fun _ => None)))))).

(** [for (; i < ap_list.num; i++)]: both pointers move on, also behind their
    arrays of 32. *)
Fixpoint copy_aps (drv_ap_list : list Z) (n : nat) (i : Z) (aps : list (list Z)) : outcome (list (list Z)) :=
  match n with
  | O => Done aps
  | S n =>
      if i <? WIFI_AP_LIST_NUM_MAX
      then copy_aps drv_ap_list n (i + 1) (aps ++ [ap_info_of (element LP64 driver_ap_list drv_ap_list "ap_info" i)])
      else UB
  end.

Definition ap_list_image (num : Z) (aps : list (list Z)) : list Z :=
  let l := concat aps in
  struct_image LP64 wifi2agps_ap_info_list
    (stored true "num" [num]
       (stored true "list" (l ++ zeros (Z.to_nat (sizeof LP64 (CArr WIFI_AP_LIST_NUM_MAX wifi2agps_ap_info)) - length l))
          (fun _ => None))).

(** AGPS_EVENT_WIFI_AP_INFO *)
Definition ap_info_event (ap_list_data : attr) : prog wifi unit :=
  let data := nla_data nl80211 ap_list_data in
  let* drv := lift (memcpy (uninit (w_junk env) (sizeof LP64 driver_ap_list)) data (zlen data)) in
  let num := member LP64 driver_ap_list drv "num" in
  let* aps := lift (copy_aps drv (Z.to_nat num) 0 []) in
  call_agps (fun cb => cb_wifi_scan_results cb (ap_list_image num aps)).

(** NL80211_CMD_TESTMODE *)
Definition testmode_event (m : msg) : prog wifi unit :=
  match nla_find nl80211 m NL80211_ATTR_TESTDATA with
  | None => ret tt
  | Some tb1 =>
      let notify_tb := nla_parse_nested nl80211 tb1 in
      match notify_tb MTK_NL80211_ATTR_IFNAME with
      | None => ret tt
      | Some name =>
          let* wlan := lift (starts_with (nla_data nl80211 name) WLAN) in
          if wlan then
            let* idx := deref (notify_tb MTK_NL80211_ATTR_IFINDEX) in
            modify (set_ifindex (nla_get_u8 nl80211 idx)) ;;
            let* cmd := deref (notify_tb MTK_NL80211_ATTR_CMD) in
            switch (nla_get_u8 nl80211 cmd)
              [ (AGPS_EVENT_WIFI_ON, call_agps cb_wifi_enabled);
                (AGPS_EVENT_WIFI_OFF, call_agps cb_wifi_disabled);
                (AGPS_EVENT_WIFI_AP_INFO,
                  let* data := deref (notify_tb MTK_NL80211_ATTR_DATA) in ap_info_event data);
                (WIFI_EVENT_CHIP_RESET, ret tt) ]
              (ret tt)
          else ret tt
      end
  end.

Definition process_nl_event (m : msg) : prog wifi Z :=
  let connect :=
    let* b := checkIfIndex (nla_find nl80211 m NL80211_ATTR_IFINDEX) in
    when b (mlme_event_connect (gnlh_cmd nl80211 m) (nla_find nl80211 m NL80211_ATTR_STATUS_CODE)
              (nla_find nl80211 m NL80211_ATTR_MAC)) in
  switch (gnlh_cmd nl80211 m)
    [ (NL80211_CMD_CONNECT, connect);
      (NL80211_CMD_ROAM, connect);
      (NL80211_CMD_DISCONNECT,
        let* b := checkIfIndex (nla_find nl80211 m NL80211_ATTR_IFINDEX) in
        when b (call_agps cb_wifi_disassociated));
      (NL80211_CMD_TESTMODE, testmode_event m) ]
    (ret tt) ;;
  ret (NL_SKIP nl80211).

(** ** The loop *)

(** The messages of one [nl_recvmsgs] on the event socket, each given to the
    callback for valid messages. *)
Fixpoint process_events (l : list msg) : prog wifi unit :=
  match l with
  | [] => ret tt
  | m :: l => let* _ := process_nl_event m in process_events l
  end.

Definition nl80211_event_receive (cb : wifi_cb) : prog wifi Z :=
  let '(CbEventReceive eloop_ctx handle) := cb in
  let* _ := deref_nl eloop_ctx in
  let* _ := deref_nl handle in
  let* calls := gets w_calls in
  let* _ := nl_ask NlRecvEvents in
  let* valid := gets cb_valid in
  when valid (process_events (nl_events env (length calls))) ;;
  ret 0.

Definition wifi2agps_cb : wifi_callback_funcs :=
  WifiCallbacks wifi2agps_enabled wifi2agps_disabled wifi2agps_associated wifi2agps_disassociated wifi2agps_scanned.

(** The result of the initialisation is not looked at. *)
Definition main (getppid : Z) (fuel : nat) : prog wifi Z :=
  if getppid =? 1 then
    let* _ := wifi2agps_init wifi2agps_cb in
    event_loop_run (w_loop_env env) nl80211_event_receive fuel ;;
    ret 0
  else ret 1.
End wifi.

(** ** A concrete libnl

    Attributes as trees, for the examples. *)

#[warnings="-register-all"]
Inductive tree_attr : Type := TreeAttr (data : list Z) (sub : list (Z * tree_attr)).
Record tree_msg : Type := TreeMsg { tm_cmd : Z; tm_attrs : list (Z * tree_attr) }.

Fixpoint first_attr (l : list (Z * tree_attr)) (i : Z) : option tree_attr :=
  match l with
  | [] => None
  | (j, a) :: l => if j =? i then Some a else first_attr l i
  end.
Definition tree_data (a : tree_attr) : list Z := let '(TreeAttr d _) := a in d.
Definition tree_sub (a : tree_attr) : list (Z * tree_attr) := let '(TreeAttr _ s) := a in s.

Definition tree_nl : libnl tree_msg tree_attr := {|
  gnlh_cmd := tm_cmd;
  nla_find m := first_attr (tm_attrs m);
  nla_parse m := first_attr (tm_attrs m);
  nla_parse_nested a := first_attr (tree_sub a);
  nla_nested a := map snd (tree_sub a);
  nla_data := tree_data;
  nla_get_u8 a := le_val (take 1 (tree_data a));
  nla_get_u16 a := le_val (take 2 (tree_data a));
  nla_get_u32 a := le_val (take 4 (tree_data a));
  CTRL_ATTR_MCAST_GROUPS := 7;
  CTRL_ATTR_MCAST_GRP_NAME := 1;
  CTRL_ATTR_MCAST_GRP_ID := 2;
  NL_SKIP := 1
|}.

(** The groups of the Wi-Fi driver: "mlme" is 5, "testmode" is 6. *)
Definition tree_group (name : list Z) (id : Z) : Z * tree_attr :=
  (1, TreeAttr [] [(1, TreeAttr (name ++ [0]) []); (2, TreeAttr (le_bytes 4 id) [])]).
Definition tree_family : tree_msg := TreeMsg 1 [(7, TreeAttr [] [tree_group MLME 5; tree_group TESTMODE 6])].

(** An environment in which all calls succeed, for given events and answers of
    [select]. *)
Definition fair_wifi_env (events : nat -> list tree_msg) (sel : nat -> selected) : wifi_env tree_msg := {|
  nl_ans k c :=
    match c with
    | NlCbAlloc | NlSocketAlloc _ | GenlAllocCache | GenlSearch _ | NlmsgAlloc | NlCbClone => 1
    | GenlFamilyId => 20
    | NlSocketFd => 4
    | _ => 0
    end;
  nl_replies _ := [[RValid tree_family]; [RAck]];
  nl_events := events;
  w_junk _ := 170;
  w_loop_env := LoopEnv (fun _ => (0, 0)) sel (fun _ => Time 0 0)
|}.
