(* ===== verification/WifiInit.v ===== *)
(** * The Wi-Fi watcher connects, or leaves nothing behind

    [nl80211_init_nl] allocates callbacks, sockets, a cache, a family and
    messages of libnl; whatever its calls answer, what it does not keep is freed
    once, and after a failure that is everything. *)

From stdpp Require Import strings.
From S2P Require Import Prelude DataCoder LbsUtility Wifi2Agps EventLoop Wifi.
Open Scope Z_scope.

(** Pointers are numbers of calls that were made, each once. *)
Definition heap (calls : list nl_call) (live : list nat) : Prop :=
  NoDup live /\ Forall (fun h => h < length calls)%nat live.

(** The program returns with [Q] of its result and of what is allocated then;
    only calls have been added besides. *)
Definition ends {A} (m : prog wifi A) (w : wifi) (Q : A -> list nat -> Prop) : Prop :=
  exists a cs live, m w = Done (a, set_heap (w_calls w ++ cs) live w) /\ heap (w_calls w ++ cs) live /\ Q a live.

Lemma set_set_heap c c' l l' w : set_heap c l (set_heap c' l' w) = set_heap c l w.
Proof. done. Qed.
Lemma set_heap_id w : set_heap (w_calls w) (w_live w) w = w.
Proof. by destruct w. Qed.

Lemma ends_ret {A} (a : A) w (Q : A -> list nat -> Prop) :
  heap (w_calls w) (w_live w) -> Q a (w_live w) -> ends (ret a) w Q.
Proof. intros Hh HQ. exists a, [], (w_live w). rewrite app_nil_r, set_heap_id. done. Qed.

Lemma ends_gets {A B} (f : wifi -> A) (k : A -> prog wifi B) w Q : ends (k (f w)) w Q -> ends (bind (gets f) k) w Q.
Proof. done. Qed.

Lemma ends_bind {A B} (m : prog wifi A) (k : A -> prog wifi B) w (Q : A -> list nat -> Prop) (R : B -> list nat -> Prop) :
  ends m w Q ->
  (forall a cs live, heap (w_calls w ++ cs) live -> Q a live -> ends (k a) (set_heap (w_calls w ++ cs) live w) R) ->
  ends (bind m k) w R.
Proof.
  intros (a & cs & live & E & Hh & HQ) Hk. destruct (Hk a cs live Hh HQ) as (b & cs' & live' & E' & Hh' & HR).
  exists b, (cs ++ cs'), live'. cbn [w_calls set_heap] in *. rewrite <- app_assoc in *.
  rewrite (bind_done _ _ _ _ _ E). split; [|done]. rewrite E'. by rewrite set_set_heap.
Qed.

Lemma ends_mono {A} (m : prog wifi A) w (Q R : A -> list nat -> Prop) :
  ends m w Q -> (forall a live, Q a live -> R a live) -> ends m w R.
Proof. intros (a & cs & live & E & Hh & HQ) HR. exists a, cs, live. auto. Qed.

Lemma heap_more calls live c : heap calls live -> heap (calls ++ [c]) live.
Proof. intros [H1 H2]. split; [done|]. eapply Forall_impl; [exact H2|]. intros h Hh. cbv beta in *. rewrite length_app. lia. Qed.

Section init.
Context {msg attr : Type} (nl80211 : libnl msg attr) (env : wifi_env msg).

Lemma ends_ask c w : heap (w_calls w) (w_live w) -> ends (nl_ask env c) w (fun _ live => live = w_live w).
Proof. intros Hh. eexists _, [c], (w_live w). split; [reflexivity|]. split; [by apply heap_more|done]. Qed.

(** A new pointer, or NULL. *)
Definition allocated (live : list nat) (p : option nat) (live' : list nat) : Prop :=
  match p with None => live' = live | Some h => live' = live ++ [h] end.

Lemma allocated_in live h live' : allocated live (Some h) live' -> h ∈ live'.
Proof. intros ->. apply elem_of_app. right. by apply list_elem_of_singleton. Qed.
Lemma allocated_old live p live' h : allocated live p live' -> h ∈ live -> h ∈ live'.
Proof. destruct p; intros ->; [|done]. intros H. apply elem_of_app. by left. Qed.

Lemma ends_alloc c w : heap (w_calls w) (w_live w) -> ends (nl_alloc env c) w (allocated (w_live w)).
Proof.
  intros Hh. unfold nl_alloc. destruct (nl_ans env (length (w_calls w)) c =? 0) eqn:E.
  - exists None, [c], (w_live w). split; [|split; [by apply heap_more|done]].
    unfold bind, gets, modify. by rewrite E.
  - exists (Some (length (w_calls w))), [c], (w_live w ++ [length (w_calls w)]). split; [|split; [|done]].
    + unfold bind, gets, modify. by rewrite E.
    + pose proof (heap_more _ _ c Hh) as [H1 H2]. destruct Hh as [_ H]. split.
      * apply NoDup_app. split; [done|]. split; [|by apply NoDup_singleton]. intros h Hin Heq.
        apply list_elem_of_singleton in Heq as ->. rewrite Forall_forall in H. specialize (H _ Hin). lia.
      * apply Forall_app. split; [done|]. apply Forall_singleton. rewrite length_app. cbn. lia.
Qed.

Lemma deref_done p h w : p = Some h -> h ∈ w_live w -> deref_nl p w = Done (h, w).
Proof. intros -> Hin. unfold deref_nl, bind, gets. by rewrite bool_decide_true. Qed.

Lemma ends_deref {B} p h (k : nat -> prog wifi B) w Q :
  p = Some h -> h ∈ w_live w -> ends (k h) w Q -> ends (bind (deref_nl p) k) w Q.
Proof. intros -> Hin Hk. unfold ends. by rewrite (bind_done _ _ _ _ _ (deref_done _ h w eq_refl Hin)). Qed.

(** Freeing what was allocated last, or NULL. *)
Lemma ends_release c p live w :
  heap (w_calls w) (w_live w) -> allocated live p (w_live w) ->
  ends (nl_release c p) w (fun _ live' => live' = live).
Proof.
  intros Hh Ha. destruct p as [h|]; cbn [allocated nl_release] in *.
  - eexists tt, [c h], live. split; [|split].
    + rewrite (bind_done _ _ _ _ _ (deref_done _ h w eq_refl ltac:(by eapply allocated_in))).
      unfold modify. do 3 f_equal. rewrite Ha in *. destruct Hh as [Hh _].
      apply NoDup_app in Hh as (_ & Hh & _). rewrite filter_app. rewrite filter_cons_False by (intros H; done).
      rewrite filter_nil, app_nil_r. clear - Hh. induction live as [|x l IH]; [done|].
      rewrite filter_cons_True; [|intros ->; apply (Hh h); set_solver]. f_equal. apply IH. set_solver.
    + rewrite Ha in Hh. apply (heap_more _ _ (c h)) in Hh as [H1 H2]. split; [by apply NoDup_app in H1 as [? _]|].
      by apply Forall_app in H2 as [? _].
    + done.
  - by apply ends_ret.
Qed.

(** ** The parts *)

Lemma ends_create cb h dbg w :
  heap (w_calls w) (w_live w) -> cb = Some h -> h ∈ w_live w ->
  ends (nl_create_handle env cb dbg) w (allocated (w_live w)).
Proof.
  intros Hh -> Hin. unfold nl_create_handle. eapply ends_deref; [done|done|].
  eapply ends_bind; [by apply ends_alloc|]. intros [p|] cs live Hh' Ha; [|by apply ends_ret].
  eapply ends_bind; [by apply ends_ask|]. intros r cs' live' Hh2 ->. cbn [w_live set_heap] in *.
  destruct (r =? 0); [by apply ends_ret|].
  eapply ends_bind; [by apply (ends_release _ (Some p) (w_live w))|].
  intros [] cs2 live2 Hh3 ->. by apply ends_ret.
Qed.

Lemma ends_resolve handle h name w :
  heap (w_calls w) (w_live w) -> handle = Some h -> h ∈ w_live w ->
  ends (android_genl_ctrl_resolve env handle name) w (fun _ live => live = w_live w).
Proof.
  intros Hh -> Hin. unfold android_genl_ctrl_resolve. eapply ends_deref; [done|done|]. eapply ends_bind; [by apply ends_alloc|].
  intros [c|] cs live Hh1 Ha; [|by apply ends_ret].
  eapply ends_bind; [by apply ends_alloc|]. intros f cs1 live1 Hh2 Hf. cbn [w_live w_calls set_heap] in *.
  eapply ends_bind.
  { instantiate (1 := fun _ l => l = live1). destruct f; [by apply ends_ask|by apply ends_ret]. }
  intros id cs2 live2 Hh3 ->. cbn [w_live w_calls set_heap] in *.
  eapply ends_bind; [by apply (ends_release _ f live)|]. intros [] cs3 live3 Hh4 ->.
  eapply ends_bind; [by apply (ends_release _ (Some c) (w_live w))|]. intros [] cs4 live4 Hh5 ->.
  by apply ends_ret.
Qed.

(** Every request is answered to the end. *)
Definition answered : Prop :=
  forall group k id, exists r, recv_replies nl80211 group (nl_replies env k) 1 id = Some r.

Context (Hanswered : answered).

Lemma ends_send_and_recv m group id w cb s :
  heap (w_calls w) (w_live w) -> nl_cb w = Some cb -> nl w = Some s -> cb ∈ w_live w -> s ∈ w_live w -> 
  forall live, allocated live (Some m) (w_live w) ->
  ends (send_and_recv_msgs nl80211 env (Some m) group id) w (fun _ l => l = live).
Proof.
  intros Hh Hcb Hs Hincb Hins live Hm. unfold send_and_recv_msgs. apply ends_gets.
  eapply ends_deref; [done|done|]. eapply ends_bind; [by apply ends_alloc|].
  intros c cs live1 Hh1 Hc. eapply ends_bind.
  { instantiate (1 := fun _ l => l = live1). destruct c as [c|]; [|by apply ends_ret]. apply ends_gets.
    eapply ends_deref; [exact Hs|by apply (allocated_old _ _ _ _ Hc)|].
    eapply ends_deref; [done|by apply (allocated_old _ _ _ _ Hc), (allocated_in live)|].
    eapply ends_bind; [by apply ends_ask|]. intros e cs2 live2 Hh2 ->. cbn [w_live set_heap] in *.
    destruct (e <? 0); [by apply ends_ret|]. apply ends_gets.
    eapply ends_bind; [by apply ends_ask|]. intros e' cs3 live3 Hh3 ->. cbn [w_live set_heap] in *.
    destruct (Hanswered group (length ((w_calls w ++ cs) ++ cs2)) id) as [r Hr]. cbn [w_calls set_heap] in *.
    rewrite Hr. by apply ends_ret. }
  intros r cs2 live2 Hh2 ->. cbn [w_live set_heap] in *.
  eapply ends_bind; [apply (ends_release _ c (w_live w)); [done|exact Hc]|]. intros [] cs3 live3 Hh3 ->.
  eapply ends_bind; [by apply (ends_release _ (Some m) live)|]. intros [] cs4 live4 Hh4 ->.
  by apply ends_ret.
Qed.

Lemma ends_multicast family group w cb s :
  heap (w_calls w) (w_live w) -> nl_cb w = Some cb -> nl w = Some s -> cb ∈ w_live w -> s ∈ w_live w -> 
  ends (nl_get_multicast_id nl80211 env family group) w (fun _ live => live = w_live w).
Proof.
  intros Hh Hcb Hs Hincb Hins. unfold nl_get_multicast_id. eapply ends_bind; [by apply ends_alloc|].
  intros [m|] cs live Hh1 Hm; [|by apply ends_ret]. apply ends_gets.
  eapply ends_deref; [exact Hs|by apply (allocated_old _ _ _ _ Hm)|].
  eapply ends_bind; [by apply ends_ask|]. intros x1 cs1 live1 Hh2 ->. cbn [w_live w_calls set_heap] in *.
  eapply ends_bind; [by apply ends_ask|]. intros x2 cs2 live2 Hh3 ->. cbn [w_live w_calls set_heap] in *.
  eapply ends_bind; [by apply ends_ask|]. intros r cs3 live3 Hh4 ->. cbn [w_live w_calls set_heap] in *.
  destruct (r <? 0).
  - eapply ends_bind; [by apply (ends_release _ (Some m) (w_live w))|]. intros [] cs4 live4 Hh5 ->. by apply ends_ret.
  - eapply ends_bind.
    { apply (ends_send_and_recv _ _ _ _ cb s) with (live := w_live w); try done; by apply (allocated_old _ _ _ _ Hm). }
    intros [r' id] cs4 live4 Hh5 ->. by apply (ends_ret (if r' =? 0 then id else r')).
Qed.

Lemma ends_join group w cb s e :
  heap (w_calls w) (w_live w) -> nl_cb w = Some cb -> nl w = Some s -> nl_event w = Some e ->
  cb ∈ w_live w -> s ∈ w_live w -> e ∈ w_live w ->
  ends (nl_join nl80211 env group) w (fun _ live => live = w_live w).
Proof.
  intros Hh Hcb Hs He Hc Hins Hin. unfold nl_join. eapply ends_bind; [by eapply ends_multicast|].
  intros id cs live Hh1 ->. cbn [w_live set_heap]. destruct (id >=? 0).
  - apply ends_gets. eapply ends_deref; [exact He|done|].
    by apply (ends_ask _ (set_heap (w_calls w ++ cs) (w_live w) w)).
  - by apply (ends_ret id (set_heap (w_calls w ++ cs) (w_live w) w)).
Qed.

(** ** The groups *)

(** The membership of a group that the kernel named was asked for. *)
Definition joined (group : list Z) (calls : list nl_call) : Prop :=
  exists k id, recv_replies nl80211 group (nl_replies env k) 1 (- ENOENT) = Some (0, id) /\ 0 <= id /\
    NlAddMembership id ∈ calls.

Lemma joined_more group calls cs : joined group calls -> joined group (calls ++ cs).
Proof. intros (k & id & E & H & Hin). exists k, id. split; [done|]. split; [done|]. apply elem_of_app. by left. Qed.

Lemma recv_replies_end group l err id e i : recv_replies nl80211 group l err id = Some (e, i) -> e <= 0.
Proof.
  revert err id. induction l as [|r l IH]; intros err id; cbn [recv_replies];
    (destruct (Z.gtb_spec err 0); [|injection 1; intros; lia]); [done|].
  destruct (reply_callbacks _ _ _ _ _). apply IH.
Qed.

Lemma sent_named m group w r id w' :
  send_and_recv_msgs nl80211 env m group (- ENOENT) w = Done ((r, id), w') ->
  r < 0 \/ exists k, recv_replies nl80211 group (nl_replies env k) 1 (- ENOENT) = Some (r, id).
Proof.
  unfold send_and_recv_msgs. intros (b & w1 & _ & E)%bind_inv. apply bind_inv in E as (h & w2 & _ & E).
  apply bind_inv in E as (c & w3 & _ & E). apply bind_inv in E as ([r' i'] & w4 & E1 & E).
  apply bind_inv in E as (u & w5 & _ & E). apply bind_inv in E as (u' & w6 & _ & E). injection E as -> -> _.
  destruct c; [|left; injection E1; unfold ENOMEM; intros; lia].
  apply bind_inv in E1 as (s & w7 & _ & E1). apply bind_inv in E1 as (s' & w8 & _ & E1).
  apply bind_inv in E1 as (m' & w9 & _ & E1). apply bind_inv in E1 as (e & w10 & _ & E1).
  destruct (Z.ltb_spec e 0) as [Hlt|Hge]; [left; injection E1; intros; lia|].
  apply bind_inv in E1 as (cs & w11 & _ & E1). apply bind_inv in E1 as (x & w12 & _ & E1).
  destruct (recv_replies _ _ _ _ _) as [[e2 i2]|] eqn:Er; [|discriminate E1]. injection E1 as -> -> _. right. by eexists.
Qed.

Lemma multicast_named family group w id w' :
  nl_get_multicast_id nl80211 env family group w = Done (id, w') -> 0 <= id ->
  exists k, recv_replies nl80211 group (nl_replies env k) 1 (- ENOENT) = Some (0, id).
Proof.
  unfold nl_get_multicast_id. intros (m & w1 & _ & E)%bind_inv Hid.
  destruct m; [|injection E; unfold ENOMEM; intros; lia].
  apply bind_inv in E as (s & w2 & _ & E). apply bind_inv in E as (h & w3 & _ & E).
  apply bind_inv in E as (x & w4 & _ & E). apply bind_inv in E as (y & w5 & _ & E). apply bind_inv in E as (r & w6 & _ & E).
  destruct (r <? 0).
  - apply bind_inv in E as (u & w7 & _ & E). injection E; intros; lia.
  - apply bind_inv in E as ([r' i] & w7 & E1 & E). apply bind_inv in E as (u & w8 & _ & E). injection E as E _.
    apply sent_named in E1 as [Hneg|(k & Er)]; destruct (Z.eqb_spec r' 0) as [->|Hne]; try lia.
    + subst i. by exists k.
    + pose proof (recv_replies_end _ _ _ _ _ _ Er). lia.
Qed.

Lemma join_joined group w r w' :
  nl_join nl80211 env group w = Done (r, w') -> 0 <= r -> joined group (w_calls w').
Proof.
  unfold nl_join. intros (id & w1 & E1 & E)%bind_inv Hr. destruct (Z.geb_spec id 0) as [Hid|Hid]; [|injection E; intros; lia].
  destruct (multicast_named _ _ _ _ _ E1 Hid) as (k & Ek).
  apply bind_inv in E as (s & w2 & _ & E). apply bind_inv in E as (h & w3 & _ & E). injection E as _ <-.
  exists k, id. split; [done|]. split; [done|]. cbn. apply elem_of_app. right. by apply list_elem_of_singleton.
Qed.

(** ** The whole initialisation *)

(** What a successful initialisation leaves. *)
Record connected (calls : list nl_call) (l : loop wifi_cb) (w : wifi) : Prop := {
  cn_live : exists cb s e fd, nl_cb w = Some cb /\ nl w = Some s /\ nl_event w = Some e /\ w_live w = [cb; s; e] /\
    wait_context_no_timeout (wf_loop w) =
      wait_context_no_timeout l ++ [Sock fd (CbEventReceive (Some cb) (Some e)) (Time 0 0) false] /\
    exists k, fd = nl_ans env k NlSocketFd;
  cn_wait : wait_context (wf_loop w) = wait_context l /\ gexit (wf_loop w) = gexit l /\ l_selects (wf_loop w) = l_selects l;
  cn_heap : heap (w_calls w) (w_live w);
  cn_valid : cb_valid w = true;
  cn_index : ifindex w = -1;
  cn_testmode : joined TESTMODE (w_calls w);
  cn_mlme : joined MLME (w_calls w)
}.

(** Nothing is left. *)
Record nothing_left (l : loop wifi_cb) (w : wifi) : Prop := {
  nt_live : w_live w = [];
  nt_handles : nl_cb w = None /\ nl w = None /\ nl_event w = None;
  nt_loop : wf_loop w = l
}.

Lemma destroy_done get set live w :
  heap (w_calls w) (w_live w) -> allocated live (get w) (w_live w) -> (get w = None -> set None w = w) ->
  exists cs, nl_destroy_handles get set w = Done (tt, set None (set_heap (w_calls w ++ cs) live w)) /\
    heap (w_calls w ++ cs) live.
Proof.
  intros Hh Ha Hs. unfold nl_destroy_handles, bind at 1, gets. destruct (get w) as [h|] eqn:E.
  - destruct (ends_release NlSocketFree (Some h) live w Hh Ha) as (u & cs & live' & E1 & Hh' & ->).
    exists cs. by rewrite (bind_done _ _ _ _ _ E1).
  - exists []. rewrite app_nil_r. cbn in Ha. by rewrite <- Ha, set_heap_id, Hs.
Qed.

Definition held (p : option nat) : list nat := from_option (fun h => [h]) [] p.
Lemma held_allocated live p : allocated live p (live ++ held p).
Proof. destruct p; [done|]. cbn. by rewrite app_nil_r. Qed.

Lemma failed_frees w :
  heap (w_calls w) (w_live w) -> w_live w = (held (nl_cb w) ++ held (nl w)) ++ held (nl_event w) ->
  returns init_failed w (fun r w' => r = -1 /\ nothing_left (wf_loop w) w' /\ wf_sys w' = wf_sys w /\ agps_cb w' = agps_cb w).
Proof.
  intros Hh Hl. unfold returns, init_failed.
  destruct (destroy_done nl_event set_nl_event (held (nl_cb w) ++ held (nl w)) w) as (c1 & E1 & Hh1); [done| | |].
  { rewrite Hl. apply held_allocated. } { destruct w; cbn. by intros ->. }
  rewrite (bind_done _ _ _ _ _ E1). clear E1.
  set (w1 := set_nl_event None _). 
  destruct (destroy_done nl set_nl (held (nl_cb w)) w1) as (c2 & E2 & Hh2); [done|apply held_allocated|by destruct w; cbn; intros ->|].
  rewrite (bind_done _ _ _ _ _ E2). clear E2. set (w2 := set_nl None _).
  unfold bind at 1, gets.
  destruct (ends_release NlCbPut (nl_cb w2) [] w2) as (u & c3 & live & E3 & _ & ->); [done|apply (held_allocated [])|].
  rewrite (bind_done _ _ _ _ _ E3). eexists _, _. split; [reflexivity|]. done.
Qed.

Lemma returns_ends {A B} (m : prog wifi A) (k : A -> prog wifi B) w Q (R : B -> wifi -> Prop) :
  ends m w Q ->
  (forall a cs live, m w = Done (a, set_heap (w_calls w ++ cs) live w) -> heap (w_calls w ++ cs) live -> Q a live ->
     returns (k a) (set_heap (w_calls w ++ cs) live w) R) ->
  returns (bind m k) w R.
Proof.
  intros (a & cs & live & E & Hh & HQ) Hk. unfold returns. rewrite (bind_done _ _ _ _ _ E). by apply Hk.
Qed.

(** How the initialisation ends, from a state with these calls and this loop. *)
Definition init_end (calls : list nl_call) (l : loop wifi_cb) (s : sys) (cb : option wifi_callback_funcs) (r : Z) (w' : wifi) : Prop :=
  wf_sys w' = s /\ agps_cb w' = cb /\ (r = 0 /\ connected calls l w' \/ r = -1 /\ nothing_left l w').

Lemma init_fails calls w :
  heap (w_calls w) (w_live w) -> w_live w = (held (nl_cb w) ++ held (nl w)) ++ held (nl_event w) ->
  returns init_failed w (init_end calls (wf_loop w) (wf_sys w) (agps_cb w)).
Proof.
  intros Hh Hl. eapply returns_mono; [by apply failed_frees|]. intros r w' (-> & Hn & Hs & Ha).
  split; [done|]. split; [done|]. by right.
Qed.

(** From the sockets on: the groups, the callbacks, the loop. *)
Lemma init_joins calls cb s e w :
  heap (w_calls w) (w_live w) -> nl_cb w = Some cb -> nl w = Some s -> nl_event w = Some e -> w_live w = [cb; s; e] ->
  ifindex w = -1 ->
  returns (let* r := nl_join nl80211 env TESTMODE in
           if r <? 0 then init_failed else
           let* r := nl_join nl80211 env MLME in
           if r <? 0 then init_failed else
           let* _ := nl_ask env NlCbSet in
           let* _ := nl_ask env NlCbSet in
           modify (fun w => set_callbacks (agps_cb w) true w) ;;
           let* fd := nl_ask env NlSocketFd in
           let* cb := gets nl_cb in
           let* h := gets nl_event in
           let* _ := event_loop_add_event (w_loop_env env) fd (CbEventReceive cb h) in
           ret 0) w (init_end calls (wf_loop w) (wf_sys w) (agps_cb w)).
Proof.
  intros Hh Hcb Hs He Hl Hi.
  assert (cb ∈ w_live w /\ s ∈ w_live w /\ e ∈ w_live w) as (H1 & H2 & H3) by (rewrite Hl; repeat split; set_solver).
  eapply returns_ends; [by eapply ends_join|]. intros r c1 live1 E1 Hh1 ->.
  set (w1 := set_heap (w_calls w ++ c1) (w_live w) w) in *.
  destruct (Z.ltb_spec r 0) as [Hr|Hr]; [apply (init_fails calls w1); [done|by cbn; rewrite Hl, Hcb, Hs, He]|].
  apply join_joined in E1; [|done].
  eapply returns_ends; [by apply (ends_join MLME w1 cb s e)|]. intros r2 c2 live2 E2 Hh2 ->.
  set (w2 := set_heap (w_calls w1 ++ c2) (w_live w1) w1) in *.
  destruct (Z.ltb_spec r2 0) as [Hr2|Hr2]; [apply (init_fails calls w2); [done|by cbn; rewrite Hl, Hcb, Hs, He]|].
  apply join_joined in E2; [|done]. apply (joined_more _ _ c2) in E1.
  eapply returns_ends; [by apply (ends_ask NlCbSet w2)|]. intros x3 c3 live3 _ Hh3 ->.
  eapply returns_ends; [by apply (ends_ask NlCbSet (set_heap (w_calls w2 ++ c3) (w_live w2) w2))|]. intros x4 c4 live4 _ Hh4 ->.
  step_upd. set (w4 := set_callbacks _ _ _).
  eapply returns_ends; [by apply (ends_ask NlSocketFd w4)|]. intros fd c5 live5 E5 Hh5 ->.
  step_gets. step_gets. unfold returns. erewrite bind_done by apply add_event_done. eexists _, _. split; [reflexivity|].
  split; [done|]. split; [done|]. left. split; [done|]. split; try done.
  - exists cb, s, e, fd. cbn. rewrite Hcb, He, Hs, Hl. repeat (split; [done|]).
    exists (length (w_calls w4)). by injection E5.
  - cbn. by apply joined_more, joined_more, joined_more.
  - cbn. by apply joined_more, joined_more, joined_more.
Qed.

Lemma init_ends (callback : wifi_callback_funcs) (w : wifi) :
  w_live w = [] -> nl w = None -> nl_event w = None ->
  exists r w', wifi2agps_init nl80211 env callback w = Done (r, w') /\
    wf_sys w' = wf_sys w /\ agps_cb w' = Some callback /\
    (r = 0 /\ connected (w_calls w) (wf_loop w) w' \/ r = -1 /\ nothing_left (wf_loop w) w').
Proof.
  intros Hlive Hnl Hev. unfold wifi2agps_init.
  set (w0 := set_callbacks (Some callback) (cb_valid w) w).
  assert (returns (nl80211_init_nl nl80211 env) w0 (init_end (w_calls w) (wf_loop w) (wf_sys w) (Some callback)))
    as (r & w' & E & Hs & Ha & Hr).
  2: { exists (if r <? 0 then -1 else 0), w'. unfold bind at 1, modify at 1. fold w0. rewrite (bind_done _ _ _ _ _ E).
       split; [done|]. split; [done|]. split; [done|]. destruct Hr as [[-> H]|[-> H]]; [by left|by right]. }
  unfold nl80211_init_nl. step_upd. set (w1 := set_ifindex (-1) w0).
  assert (heap (w_calls w1) (w_live w1)) as Hh by (cbn; rewrite Hlive; split; [apply NoDup_nil|apply Forall_nil]; done).
  eapply returns_ends; [by apply (ends_alloc NlCbAlloc w1)|]. intros [cb|] c1 live1 _ Hh1 Hl1; cbn in Hl1; rewrite Hlive in Hl1.
  2: { step_upd. apply returns_ret. split; [done|]. split; [done|]. right. split; [done|]. by split. }
  step_upd. cbn [bool_decide]. set (w2 := set_nl_cb _ _).
  eapply returns_ends; [apply (ends_create (Some cb) cb "nl" w2); [done|done|cbn; rewrite Hl1; set_solver]|].
  intros [h|] c2 live2 _ Hh2 Hl2; cbn in Hl2; rewrite Hl1 in Hl2; step_upd.
  2: { apply (init_fails (w_calls w) (set_nl None (set_heap (w_calls w2 ++ c2) live2 w2))); [done|]. cbn. by rewrite Hl2, Hev. }
  set (w3 := set_nl _ _).
  eapply returns_ends; [apply (ends_resolve (Some h) h "nl80211" w3); [done|done|cbn; rewrite Hl2; set_solver]|]. intros id c3 live3 _ Hh3 ->.
  step_upd. set (w4 := set_ids _ _ _).
  destruct (id <? 0); [apply (init_fails (w_calls w) w4); [done|cbn; by rewrite Hl2, Hev]|].
  eapply returns_ends; [apply (ends_create (Some cb) cb "event" w4); [done|done|cbn; rewrite Hl2; set_solver]|].
  intros [e|] c4 live4 _ Hh4 Hl4; cbn in Hl4; rewrite Hl2 in Hl4; step_upd.
  2: { apply (init_fails (w_calls w) (set_nl_event None (set_heap (w_calls w4 ++ c4) live4 w4))); [done|]. cbn. by rewrite Hl4. }
  set (w5 := set_nl_event _ _).
  apply (init_joins (w_calls w) cb h e w5); done.
Qed.

(** C24: whatever libnl answers, the watcher connects or leaves nothing behind.
    If every request is answered, the initialisation returns: with 0 when the
    callbacks and the two sockets are all that is allocated, both groups were
    joined and the event socket waits in the loop, with -1 when everything was
    freed, each pointer once, and nothing was registered.  No message is sent. *)
Theorem init_clean (callback : wifi_callback_funcs) (w : wifi) :
  w_live w = [] -> nl w = None -> nl_event w = None ->
  exists r w', wifi2agps_init nl80211 env callback w = Done (r, w') /\
    wf_sys w' = wf_sys w /\ agps_cb w' = Some callback /\
    (r = 0 /\ connected (w_calls w) (wf_loop w) w' \/ r = -1 /\ nothing_left (wf_loop w) w').
Proof. apply init_ends. Qed.
End init.

Lemma fair_answered events sel : answered tree_nl (fair_wifi_env events sel).
Proof. intros group k id. by eexists. Qed.

Lemma init_clean_witness :
  exists w', wifi2agps_init tree_nl (fair_wifi_env (fun _ => []) (fun _ => SelTimeout)) wifi2agps_cb
      (wifi_boot (Sys [] 0 (fun _ => []) (fun _ => true) ∅ 0 (fun _ => None))) = Done (0, w') /\
    joined tree_nl (fair_wifi_env (fun _ => []) (fun _ => SelTimeout)) MLME (w_calls w').
Proof.
  assert (match wifi2agps_init tree_nl (fair_wifi_env (fun _ => []) (fun _ => SelTimeout)) wifi2agps_cb
      (wifi_boot (Sys [] 0 (fun _ => []) (fun _ => true) ∅ 0 (fun _ => None))) with Done (r, _) => r | _ => 1 end = 0) as E0
    by (vm_compute; reflexivity).
  destruct (init_clean tree_nl (fair_wifi_env (fun _ => []) (fun _ => SelTimeout)) (fair_answered _ _) wifi2agps_cb
    (wifi_boot (Sys [] 0 (fun _ => []) (fun _ => true) ∅ 0 (fun _ => None))) eq_refl eq_refl eq_refl)
    as (r & w' & E & _ & _ & [[-> C]|[-> _]]).
  - exists w'. split; [exact E|]. exact (cn_mlme _ _ _ _ _ C).
  - exfalso. rewrite E in E0. discriminate E0.
Defined.
