(* ===== verification/WifiWatch.v ===== *)
(** * What the Wi-Fi watcher makes of the driver's events

    Each event is turned into at most one message for the AGPS daemon
    ([announced]), and is undefined exactly when it is not [tame]; the scan that
    the driver reports arrives at the AGPS daemon member by member; and turn by
    turn the loop hands on every event that it receives, in order. *)

From stdpp Require Import list strings.
From S2P Require Import Prelude DataCoder LbsUtility Layout Structs Messages Mnl2Agps Kernel MnldFsm NmeaStream Wifi2Agps EventLoop Wifi WifiInit.
Import HalTypes.
Open Scope Z_scope.

#[local] Opaque send_un wifi2agps_enabled wifi2agps_disabled wifi2agps_associated wifi2agps_disassociated wifi2agps_scanned.

(** ** Sending *)

Lemma wifi2agps_plain m : wifi2agps_ok m -> plain_send (wifi2agps_send m) WIFI_TO_AGPS (wifi2agps_bytes m).
Proof. intros H. eapply plain_send_equiv; [by apply wifi2agps_send_shape|by apply send_un_plain]. Qed.

Definition wifi_note (m : wifi2agps_msg) : note := NSend WIFI_TO_AGPS (wifi2agps_bytes m).

(** A callback that sends a message. *)
Lemma call_agps_done f m w :
  agps_cb w = Some wifi2agps_cb -> f wifi2agps_cb = wifi2agps_send m -> wifi2agps_ok m -> kernel_ok (wf_sys w) ->
  exists s, call_agps f w = Done (tt, set_wf_sys s w) /\ sys_grows (wf_sys w) s [wifi_note m].
Proof.
  intros Hcb Hf Hok Hk. destruct (wifi2agps_plain m Hok (wf_sys w) Hk) as (r & s & E & G & _). exists s. split; [|done].
  unfold call_agps. unfold bind at 1, gets. rewrite Hcb. unfold bind at 1, deref, ret at 1. rewrite Hf.
  unfold bind, on_sys. cbn [sys_of wifi_has_sys]. by rewrite E.
Qed.

(** ** Sizes of the images *)

Lemma ap_fields_wf : wf_fields LP64 wifi2agps_ap_info_members = true.
Proof. by vm_compute. Qed.
Lemma ap_list_fields_wf : wf_fields LP64 wifi2agps_ap_info_list_members = true.
Proof. by vm_compute. Qed.

Lemma length_take_drop {A} n k (l : list A) m : length l = m -> (k + n <= m)%nat -> length (take n (drop k l)) = n.
Proof. intros Hl Hk. rewrite length_take, length_drop. lia. Qed.

(** *** An access point *)

Definition drv_ok (drv : list Z) : Prop := length drv = 16%nat.

Lemma bssid_length drv : drv_ok drv -> zlen (object LP64 driver_ap_info drv "bssid") = 6.
Proof. intros H. change (object _ _ drv "bssid") with (take 6 (drop 0 drv)). rewrite (length_take_drop _ _ _ 16) by (exact H || lia). reflexivity. Qed.

Definition ap_info_values (drv : list Z) : values :=
  stored true "ap_mac_addr" (object LP64 driver_ap_info drv "bssid")
    (stored true "ap_signal_strength_used" [1]
       (stored true "ap_signal_strength" (le_bytes 4 (s16 (member LP64 driver_ap_info drv "ap_rssi")))
          (stored true "ap_channel_frequency_used" [1]
             (stored true "ap_channel_frequency" (le_bytes 4 (member LP64 driver_ap_info drv "ap_channel"))
                (fun _ => None))))).

Lemma ap_info_sized drv : drv_ok drv -> sized LP64 wifi2agps_ap_info_members (ap_info_values drv).
Proof.
  intros H. unfold ap_info_values. apply stored_sized; [rewrite bssid_length by done; by vm_compute|].
  repeat (apply stored_sized; [by vm_compute|]). apply none_sized.
Qed.

Lemma ap_info_length drv : drv_ok drv -> length (ap_info_of drv) = 248%nat.
Proof.
  intros H. apply Nat2Z.inj. change (Z.of_nat 248) with (sizeof LP64 wifi2agps_ap_info).
  by apply (length_struct_image LP64 wifi2agps_ap_info_members (ap_info_values drv) ap_fields_wf (ap_info_sized drv H)).
Qed.

Lemma ap_with_address_length addr :
  from_option (fun d => 6 <= zlen d) True addr -> zlen (ap_with_address addr) = sizeof LP64 wifi2agps_ap_info.
Proof.
  intros H. apply length_struct_image; [exact ap_fields_wf| |by vm_compute].
  destruct addr as [d|]; [|apply none_sized]. apply stored_sized; [|apply none_sized].
  cbn in H. rewrite length_take, Nat.min_l by lia. by vm_compute.
Qed.

(** *** The list *)

Definition drv_list_ok (drv : list Z) : Prop := length drv = 516%nat.

Lemma driver_ap_ok drv i : drv_list_ok drv -> 0 <= i < 32 -> drv_ok (element LP64 driver_ap_list drv "ap_info" i).
Proof.
  intros H Hi. change (element _ _ drv "ap_info" i) with (take 16 (drop (Z.to_nat (4 + i * 16)) drv)).
  unfold drv_ok. rewrite (length_take_drop _ _ _ 516) by (exact H || lia). reflexivity.
Qed.

(** The access points of the driver. *)
Definition aps_of (drv : list Z) (n : nat) : list (list Z) :=
  map (fun i => ap_info_of (element LP64 driver_ap_list drv "ap_info" (Z.of_nat i))) (seq 0 n).

Lemma copy_aps_all drv n :
  copy_aps drv n 0 [] = if (n <=? 32)%nat then Done (aps_of drv n) else UB.
Proof.
  assert (forall k i acc, copy_aps drv k (Z.of_nat i) acc =
    if (bool_decide (k = 0) || (i + k <=? 32))%nat then
      Done (acc ++ map (fun i => ap_info_of (element LP64 driver_ap_list drv "ap_info" (Z.of_nat i))) (seq i k)) else UB) as E.
  { intros k. induction k as [|k IH]; intros i acc; cbn [copy_aps seq map].
    - by rewrite app_nil_r.
    - rewrite bool_decide_false by done. cbn [orb]. unfold WIFI_AP_LIST_NUM_MAX.
      destruct (Z.ltb_spec (Z.of_nat i) 32) as [Hi|Hi].
      + replace (Z.of_nat i + 1) with (Z.of_nat (S i)) by lia. rewrite IH, <- app_assoc. cbn [app].
        replace (i + S k)%nat with (S i + k)%nat by lia.
        destruct k as [|k]; [|by rewrite bool_decide_false]. cbn [orb bool_decide].
        rewrite bool_decide_true by done. cbn [orb].
        by replace (S i + 0 <=? 32)%nat with true by (symmetry; apply Nat.leb_le; lia).
      + by replace (_ <=? 32)%nat with false by (symmetry; apply Nat.leb_gt; lia). }
  etransitivity; [exact (E n 0%nat [])|]. destruct n as [|n]; [done|]. by rewrite bool_decide_false.
Qed.

Lemma concat_aps_length drv n : drv_list_ok drv -> (n <= 32)%nat -> length (concat (aps_of drv n)) = (n * 248)%nat.
Proof.
  intros H Hn. unfold aps_of. induction n as [|n IH]; [done|].
  rewrite seq_S, map_app, concat_app, length_app, IH by lia. cbn [map concat]. rewrite app_nil_r.
  rewrite ap_info_length by (apply driver_ap_ok; [done|lia]). lia.
Qed.

Definition ap_list_values (num : Z) (aps : list (list Z)) : values :=
  stored true "num" [num]
    (stored true "list" (concat aps ++ zeros (Z.to_nat (sizeof LP64 (CArr WIFI_AP_LIST_NUM_MAX wifi2agps_ap_info)) - length (concat aps)))
       (fun _ => None)).

Lemma ap_list_sized drv n num :
  drv_list_ok drv -> (n <= 32)%nat -> sized LP64 wifi2agps_ap_info_list_members (ap_list_values num (aps_of drv n)).
Proof.
  intros H Hn. unfold ap_list_values. apply stored_sized; [by vm_compute|]. apply stored_sized; [|apply none_sized].
  rewrite length_app, length_zeros, concat_aps_length by done.
  change (Z.to_nat (sizeof LP64 (CArr WIFI_AP_LIST_NUM_MAX wifi2agps_ap_info))) with (Z.to_nat 7936).
  replace (Z.of_nat _) with 7936 by lia. by vm_compute.
Qed.

Lemma ap_list_length drv n num :
  drv_list_ok drv -> (n <= 32)%nat -> zlen (ap_list_image num (aps_of drv n)) = sizeof LP64 wifi2agps_ap_info_list.
Proof.
  intros H Hn. apply length_struct_image; [exact ap_list_fields_wf|by apply ap_list_sized|by vm_compute].
Qed.

(** ** One event *)

Section watch.
Context {msg attr : Type} (nl80211 : libnl msg attr) (env : wifi_env msg).

(** The interface of the event is the one of the last announcement. *)
Definition ours (idx : Z) (m : msg) : bool :=
  from_option (fun a => nla_get_u32 nl80211 a =? u32 idx) false (nla_find nl80211 m NL80211_ATTR_IFINDEX).
Definition address (m : msg) : option (list Z) := nla_data nl80211 <$> nla_find nl80211 m NL80211_ATTR_MAC.
(** A connection that failed. *)
Definition rejected (m : msg) : bool :=
  (gnlh_cmd nl80211 m =? NL80211_CMD_CONNECT) &&
  from_option (fun a => negb (nla_get_u16 nl80211 a =? 0)) false (nla_find nl80211 m NL80211_ATTR_STATUS_CODE).

(** The list of the driver in the variable that it is copied to. *)
Definition scan_list (data : list Z) : list Z := data ++ drop (length data) (uninit (w_junk env) (sizeof LP64 driver_ap_list)).
Definition scan_count (data : list Z) : Z := member LP64 driver_ap_list (scan_list data) "num".
Definition scan_fits (data : list Z) : bool :=
  (zlen data <=? sizeof LP64 driver_ap_list) && (Z.to_nat (scan_count data) <=? 32)%nat.
Definition scan_message (data : list Z) : wifi2agps_msg :=
  W_scanned (ap_list_image (scan_count data) (aps_of (scan_list data) (Z.to_nat (scan_count data)))).

(** The messages of the driver's own events, and whether they are defined. *)
Definition driver_messages (cmd : Z) (data : option attr) : list wifi2agps_msg :=
  if cmd =? AGPS_EVENT_WIFI_ON then [W_enabled]
  else if cmd =? AGPS_EVENT_WIFI_OFF then [W_disabled]
  else if cmd =? AGPS_EVENT_WIFI_AP_INFO then from_option (fun a => [scan_message (nla_data nl80211 a)]) [] data
  else [].
Definition driver_tame (cmd : Z) (data : option attr) : bool :=
  negb (cmd =? AGPS_EVENT_WIFI_AP_INFO) || from_option (fun a => scan_fits (nla_data nl80211 a)) false data.

(** The attributes of an event of the driver that has a name. *)
Definition notify (m : msg) : option ((Z -> option attr) * attr) :=
  match nla_find nl80211 m NL80211_ATTR_TESTDATA with
  | None => None
  | Some tb => (fun name => (nla_parse_nested nl80211 tb, name)) <$> nla_parse_nested nl80211 tb MTK_NL80211_ATTR_IFNAME
  end.

(** The interface after an event, and the message for the AGPS daemon. *)
Definition announced (idx : Z) (m : msg) : Z * list wifi2agps_msg :=
  let cmd := gnlh_cmd nl80211 m in
  if (cmd =? NL80211_CMD_CONNECT) || (cmd =? NL80211_CMD_ROAM) then
    (idx, if ours idx m && negb (rejected m) then [W_associated (ap_with_address (address m))] else [])
  else if cmd =? NL80211_CMD_DISCONNECT then (idx, if ours idx m then [W_disassociated] else [])
  else if cmd =? NL80211_CMD_TESTMODE then
    match notify m with
    | Some (tb, name) =>
        match starts_with (nla_data nl80211 name) WLAN, tb MTK_NL80211_ATTR_IFINDEX, tb MTK_NL80211_ATTR_CMD with
        | Done true, Some i, Some c =>
            (nla_get_u8 nl80211 i, driver_messages (nla_get_u8 nl80211 c) (tb MTK_NL80211_ATTR_DATA))
        | _, _, _ => (idx, [])
        end
    | None => (idx, [])
    end
  else (idx, []).

(** The event has the attributes that are read, and they are long enough. *)
Definition tame (idx : Z) (m : msg) : bool :=
  let cmd := gnlh_cmd nl80211 m in
  if (cmd =? NL80211_CMD_CONNECT) || (cmd =? NL80211_CMD_ROAM) then
    negb (ours idx m) ||
    (negb (cmd =? NL80211_CMD_CONNECT) || bool_decide (is_Some (nla_find nl80211 m NL80211_ATTR_STATUS_CODE))) &&
    (rejected m || from_option (fun d => 6 <=? zlen d) true (address m))
  else if cmd =? NL80211_CMD_TESTMODE then
    match notify m with
    | Some (tb, name) =>
        match starts_with (nla_data nl80211 name) WLAN with
        | Done true =>
            match tb MTK_NL80211_ATTR_IFINDEX, tb MTK_NL80211_ATTR_CMD with
            | Some _, Some c => driver_tame (nla_get_u8 nl80211 c) (tb MTK_NL80211_ATTR_DATA)
            | _, _ => false
            end
        | Done false => true
        | _ => false
        end
    | None => true
    end
  else true.

(** What a program does with an event that makes [idx'] the interface and is
    announced by [ms]. *)
Definition serves {A} (p : prog wifi A) (a : A) (idx : Z) (ms : list wifi2agps_msg) (w : wifi) : Prop :=
  exists s, p w = Done (a, set_ifindex idx (set_wf_sys s w)) /\ sys_grows (wf_sys w) s (map wifi_note ms).
Definition serves_if {A} (b : bool) (p : prog wifi A) (a : A) (idx : Z) (ms : list wifi2agps_msg) (w : wifi) : Prop :=
  if b then serves p a idx ms w else p w = UB.

Lemma set_ifindex_same w : set_ifindex (ifindex w) w = w.
Proof. by destruct w. Qed.

Lemma serves_nothing {A} (a : A) w : serves (ret a) a (ifindex w) [] w.
Proof. exists (wf_sys w). split; [by destruct w|apply sys_grows_refl]. Qed.

Lemma serves_call f m w :
  agps_cb w = Some wifi2agps_cb -> kernel_ok (wf_sys w) -> f wifi2agps_cb = wifi2agps_send m -> wifi2agps_ok m ->
  serves (call_agps f) tt (ifindex w) [m] w.
Proof.
  intros Hcb Hk Hf Hok. destruct (call_agps_done f m w Hcb Hf Hok Hk) as (s & E & G). exists s. split; [|done].
  rewrite E. by destruct w.
Qed.

Lemma length_junk : length (uninit (w_junk env) (sizeof LP64 driver_ap_list)) = 516%nat.
Proof. unfold uninit. by rewrite length_map, length_seq. Qed.

Lemma scan_list_ok data : zlen data <= 516 -> drv_list_ok (scan_list data).
Proof. intros H. unfold drv_list_ok, scan_list. rewrite length_app, length_drop, length_junk. lia. Qed.

Lemma scan_served a w :
  agps_cb w = Some wifi2agps_cb -> kernel_ok (wf_sys w) ->
  serves_if (scan_fits (nla_data nl80211 a)) (ap_info_event nl80211 env a) tt (ifindex w) [scan_message (nla_data nl80211 a)] w.
Proof.
  intros Hcb Hk. unfold ap_info_event, scan_fits. set (data := nla_data nl80211 a).
  change (sizeof LP64 driver_ap_list) with 516 at 1. destruct (Z.leb_spec (zlen data) 516) as [Hl|Hl]; cbn [andb].
  - assert (memcpy (uninit (w_junk env) (sizeof LP64 driver_ap_list)) data (zlen data) = Done (scan_list data)) as E.
    { unfold memcpy. rewrite length_junk. replace (_ && _) with true; [|symmetry; rewrite !andb_true_iff, !Z.leb_le; lia].
      by rewrite Nat2Z.id, take_ge by lia. }
    assert (forall k : list Z -> prog wifi unit, bind (lift (memcpy (uninit (w_junk env) (sizeof LP64 driver_ap_list)) data (zlen data))) k w = k (scan_list data) w) as Eb.
    { intros k. apply bind_done. unfold lift. by rewrite E. }
    pose proof (copy_aps_all (scan_list data) (Z.to_nat (scan_count data))) as Ec.
    unfold serves_if, serves. rewrite Eb. cbv zeta. fold (scan_count data). rewrite Ec.
    destruct (Nat.leb_spec (Z.to_nat (scan_count data)) 32) as [Hn|Hn]; [|done].
    apply serves_call; [done|done|reflexivity|]. by apply ap_list_length; [apply scan_list_ok|].
  - apply bind_ub. unfold lift, memcpy. rewrite length_junk.
    replace (_ && _) with false; [done|]. symmetry. apply andb_false_iff. right. apply Z.leb_gt. lia.
Qed.

Lemma serves_then {A} b (p : prog wifi unit) (r : A) idx ms w :
  serves_if b p tt idx ms w -> serves_if b (p ;; ret r) r idx ms w.
Proof.
  destruct b; cbn; [|by apply bind_ub]. intros (s & E & G). exists s. by rewrite (bind_done _ _ _ _ _ E).
Qed.

Lemma serves_bind {A B} b (p : prog wifi A) (k : A -> prog wifi B) x r idx ms w :
  p w = Done (x, w) -> serves_if b (k x) r idx ms w -> serves_if b (bind p k) r idx ms w.
Proof. intros E H. unfold serves_if, serves in *. by rewrite (bind_done _ _ _ _ _ E). Qed.

Lemma serves_index {A} b (k : prog wifi A) r i ms w :
  serves_if b k r i ms (set_ifindex i w) -> serves_if b (modify (set_ifindex i) ;; k) r i ms w.
Proof. done. Qed.

Lemma starts_with_cases data text : starts_with data text = UB \/ exists b, starts_with data text = Done b.
Proof.
  revert data. induction text as [|t text IH]; intros [|c data]; cbn [starts_with]; eauto.
  destruct (c =? t); eauto.
Qed.

Lemma driver_served tb c w :
  agps_cb w = Some wifi2agps_cb -> kernel_ok (wf_sys w) ->
  serves_if (driver_tame c (tb MTK_NL80211_ATTR_DATA))
    (switch c
       [ (AGPS_EVENT_WIFI_ON, call_agps cb_wifi_enabled);
         (AGPS_EVENT_WIFI_OFF, call_agps cb_wifi_disabled);
         (AGPS_EVENT_WIFI_AP_INFO, let* data := deref (tb MTK_NL80211_ATTR_DATA) in ap_info_event nl80211 env data);
         (WIFI_EVENT_CHIP_RESET, ret tt) ] (ret tt))
    tt (ifindex w) (driver_messages c (tb MTK_NL80211_ATTR_DATA)) w.
Proof.
  intros Hcb Hk. unfold driver_tame, driver_messages. cbn [switch].
  destruct (Z.eqb_spec c AGPS_EVENT_WIFI_ON) as [->|H0]; [by apply (serves_call _ W_enabled)|].
  destruct (Z.eqb_spec c AGPS_EVENT_WIFI_OFF) as [->|H1]; [by apply (serves_call _ W_disabled)|].
  destruct (Z.eqb_spec c AGPS_EVENT_WIFI_AP_INFO) as [->|H2].
  - cbn [negb orb]. destruct (tb MTK_NL80211_ATTR_DATA) as [a|]; [|done]. by apply scan_served.
  - cbn [negb orb]. destruct (c =? WIFI_EVENT_CHIP_RESET); apply serves_nothing.
Qed.

Lemma testmode_served m w :
  agps_cb w = Some wifi2agps_cb -> kernel_ok (wf_sys w) -> gnlh_cmd nl80211 m = NL80211_CMD_TESTMODE ->
  serves_if (tame (ifindex w) m) (testmode_event nl80211 env m) tt
    (announced (ifindex w) m).1 (announced (ifindex w) m).2 w.
Proof.
  intros Hcb Hk Hm. unfold tame, announced, testmode_event, notify. rewrite Hm. cbn [Z.eqb Pos.eqb orb].
  change (NL80211_CMD_TESTMODE =? NL80211_CMD_CONNECT) with false. change (NL80211_CMD_TESTMODE =? NL80211_CMD_ROAM) with false.
  change (NL80211_CMD_TESTMODE =? NL80211_CMD_DISCONNECT) with false. change (NL80211_CMD_TESTMODE =? NL80211_CMD_TESTMODE) with true.
  cbn [orb]. destruct (nla_find nl80211 m NL80211_ATTR_TESTDATA) as [t|]; [|apply serves_nothing].
  set (tb := nla_parse_nested nl80211 t).
  destruct (tb MTK_NL80211_ATTR_IFNAME) as [name|]; [|apply serves_nothing]. cbn [fmap option_fmap option_map].
  destruct (starts_with_cases (nla_data nl80211 name) WLAN) as [E|([] & E)]; rewrite E; cbn [fst snd].
  - apply bind_ub. done.
  - destruct (tb MTK_NL80211_ATTR_IFINDEX) as [i|]; [|done].
    destruct (tb MTK_NL80211_ATTR_CMD) as [c|]; cbn [fst snd]; [|done].
    apply (serves_bind _ _ _ true); [done|]. apply (serves_bind _ _ _ i); [done|]. apply serves_index.
    apply (serves_bind _ _ _ c); [done|]. by apply driver_served.
  - apply (serves_bind _ _ _ false); [done|]. apply serves_nothing.
Qed.

Lemma own_index w m : checkIfIndex nl80211 (nla_find nl80211 m NL80211_ATTR_IFINDEX) w = Done (ours (ifindex w) m, w).
Proof. unfold checkIfIndex, ours, bind, gets, ret. by destruct (nla_find _ _ _). Qed.

Lemma connect_served m w :
  agps_cb w = Some wifi2agps_cb -> kernel_ok (wf_sys w) ->
  (gnlh_cmd nl80211 m =? NL80211_CMD_CONNECT) || (gnlh_cmd nl80211 m =? NL80211_CMD_ROAM) = true ->
  serves_if (tame (ifindex w) m)
    (let* b := checkIfIndex nl80211 (nla_find nl80211 m NL80211_ATTR_IFINDEX) in
     when b (mlme_event_connect nl80211 (gnlh_cmd nl80211 m) (nla_find nl80211 m NL80211_ATTR_STATUS_CODE)
               (nla_find nl80211 m NL80211_ATTR_MAC))) tt
    (announced (ifindex w) m).1 (announced (ifindex w) m).2 w.
Proof.
  intros Hcb Hk Hm. unfold tame, announced. rewrite Hm. cbn [fst snd].
  eapply serves_bind; [apply own_index|]. destruct (ours (ifindex w) m); cbn [negb orb andb when]; [|apply serves_nothing].
  unfold mlme_event_connect, rejected, address.
  assert (forall a : option attr, serves_if (from_option (fun d => 6 <=? zlen d) true (nla_data nl80211 <$> a))
    match nla_data nl80211 <$> a with
    | Some d => if zlen d <? 6 then undef
                else call_agps (fun cb => cb_wifi_associated cb (ap_with_address (nla_data nl80211 <$> a)))
    | None => call_agps (fun cb => cb_wifi_associated cb (ap_with_address None))
    end tt (ifindex w) [W_associated (ap_with_address (nla_data nl80211 <$> a))] w) as Hsend.
  { intros [a|]; cbn [fmap option_fmap option_map from_option].
    - destruct (Z.leb_spec 6 (zlen (nla_data nl80211 a))) as [Hl|Hl].
      + replace (_ <? 6) with false by (symmetry; apply Z.ltb_ge; lia).
        apply serves_call; [done|done|reflexivity|]. by apply (ap_with_address_length (Some _)).
      + by replace (_ <? 6) with true by (symmetry; apply Z.ltb_lt; lia).
    - apply serves_call; [done|done|reflexivity|]. by apply (ap_with_address_length None). }
  destruct (gnlh_cmd nl80211 m =? NL80211_CMD_CONNECT); cbn [negb orb andb].
  - destruct (nla_find nl80211 m NL80211_ATTR_STATUS_CODE) as [st|]; cbn [from_option].
    + rewrite bool_decide_true by by eexists. cbn [andb].
      apply (serves_bind _ _ _ (negb (nla_get_u16 nl80211 st =? 0))); [done|].
      destruct (negb (nla_get_u16 nl80211 st =? 0)); cbn [negb orb]; [apply serves_nothing|apply Hsend].
    + rewrite bool_decide_false by (by intros [? ?]). done.
  - apply (serves_bind _ _ _ false); [done|]. cbn [orb]. apply Hsend.
Qed.

(** An event does what is announced, and is undefined when it is not tame. *)
Lemma event_served m w :
  agps_cb w = Some wifi2agps_cb -> kernel_ok (wf_sys w) ->
  serves_if (tame (ifindex w) m) (process_nl_event nl80211 env m) (NL_SKIP nl80211)
    (announced (ifindex w) m).1 (announced (ifindex w) m).2 w.
Proof.
  intros Hcb Hk. apply serves_then. cbn [switch].
  destruct (Z.eqb_spec (gnlh_cmd nl80211 m) NL80211_CMD_CONNECT) as [E|H1].
  { apply connect_served; [done|done|]. by rewrite E. }
  destruct (Z.eqb_spec (gnlh_cmd nl80211 m) NL80211_CMD_ROAM) as [E|H2].
  { apply connect_served; [done|done|]. by rewrite E. }
  destruct (Z.eqb_spec (gnlh_cmd nl80211 m) NL80211_CMD_DISCONNECT) as [E|H3].
  { unfold tame, announced. rewrite E. cbn [Z.eqb Pos.eqb orb fst snd NL80211_CMD_DISCONNECT NL80211_CMD_CONNECT NL80211_CMD_ROAM NL80211_CMD_TESTMODE].
    eapply serves_bind; [apply own_index|]. destruct (ours (ifindex w) m); [by apply (serves_call _ W_disassociated)|apply serves_nothing]. }
  destruct (Z.eqb_spec (gnlh_cmd nl80211 m) NL80211_CMD_TESTMODE) as [E|H4]; [by apply testmode_served|].
  unfold tame, announced. apply Z.eqb_neq in H1, H2, H3, H4. rewrite H1, H2, H3, H4. apply serves_nothing.
Qed.
End watch.

(** ** A scan on its way to the AGPS daemon *)

(** What AGPS finds in the element of a list for an access point [drv] of the
    driver: its address, its level and its channel, and nothing else. *)
Definition ap_as_scanned (a : abi) (drv ap : list Z) : Prop :=
  object a wifi2agps_ap_info ap "ap_mac_addr" = object LP64 driver_ap_info drv "bssid" /\
  member a wifi2agps_ap_info ap "ap_signal_strength_used" = 1 /\
  s32 (member a wifi2agps_ap_info ap "ap_signal_strength") = s16 (member LP64 driver_ap_info drv "ap_rssi") /\
  member a wifi2agps_ap_info ap "ap_channel_frequency_used" = 1 /\
  s32 (member a wifi2agps_ap_info ap "ap_channel_frequency") = member LP64 driver_ap_info drv "ap_channel" /\
  Forall (fun f => member a wifi2agps_ap_info ap f = 0)
    ["ap_transmit_power_used"; "ap_antenna_gain_used"; "ap_signal_noise_used"; "ap_device_type_used";
     "ap_round_trip_delay_used"; "set_transmit_power_used"; "set_antenna_gain_used"; "set_signal_to_noise_used";
     "set_signal_strength_used"; "reported_location_used"]%string.

Lemma le_val_bytes l : bytes_ok l -> 0 <= le_val l < 256 ^ zlen l.
Proof.
  induction 1 as [|c l Hc Hl IH]; [cbn; lia|]. cbn [le_val length]. apply in_u_spec in Hc.
  rewrite Nat2Z.inj_succ, Z.pow_succ_r by lia. change (2 ^ 8) with 256 in Hc. lia.
Qed.

Lemma object_bytes a t obj f : bytes_ok obj -> bytes_ok (object a t obj f).
Proof. intros H. unfold object. destruct (offsetof a t f) as [[o ft]|]; [by apply Forall_take, Forall_drop|by apply Forall_nil]. Qed.

Lemma s32_bytes z : in_s 32 z = true -> s32 (le_val (le_bytes 4 z)) = z.
Proof.
  intros H. rewrite le_val_le_bytes. change (256 ^ Z.of_nat 4) with (2 ^ 32).
  etransitivity; [|exact (wrap_s_id 32 z ltac:(lia) H)]. apply wrap_s_mod. by rewrite Z.mod_mod.
Qed.

Lemma ap_scanned a drv : drv_ok drv -> bytes_ok drv -> ap_as_scanned a drv (ap_info_of drv).
Proof.
  intros Hd Hb. pose proof (ap_info_sized drv Hd) as Hs.
  assert (forall f, same_place LP64 a wifi2agps_ap_info f = true ->
    member a wifi2agps_ap_info (ap_info_of drv) f = from_option le_val 0 (ap_info_values drv f)) as Hm.
  { intros f Hf. by apply (member_image LP64 a wifi2agps_ap_info_members (ap_info_values drv) f ap_fields_wf Hs). }
  unfold ap_as_scanned. split_and!.
  - rewrite (object_abi LP64 a) by by destruct a.
    exact (object_image LP64 wifi2agps_ap_info_members (ap_info_values drv) ap_fields_wf Hs "ap_mac_addr" 0 (CArr 6 c_char) eq_refl).
  - rewrite Hm by by destruct a. reflexivity.
  - rewrite Hm by by destruct a. cbn [ap_info_values stored String.eqb Ascii.eqb Bool.eqb andb from_option].
    apply s32_bytes, in_s_spec. pose proof (wrap_s_range 16 (member LP64 driver_ap_info drv "ap_rssi") ltac:(lia)) as H.
    apply in_s_spec in H. lia.
  - rewrite Hm by by destruct a. reflexivity.
  - rewrite Hm by by destruct a. cbn [ap_info_values stored String.eqb Ascii.eqb Bool.eqb andb from_option].
    apply s32_bytes, in_s_spec. rewrite member_object.
    pose proof (le_val_bytes _ (object_bytes LP64 driver_ap_info drv "ap_channel" Hb)) as H.
    assert (zlen (object LP64 driver_ap_info drv "ap_channel") <= 2) as Hl.
    { change (object _ _ drv "ap_channel") with (take 2 (drop 8 drv)). rewrite length_take. lia. }
    assert (256 ^ zlen (object LP64 driver_ap_info drv "ap_channel") <= 256 ^ 2) by (apply Z.pow_le_mono_r; lia). lia.
  - repeat (apply Forall_cons; split; [rewrite Hm by (by destruct a); reflexivity|]). by apply Forall_nil.
Qed.

(** The elements of the list. *)
Lemma list_element a drv n num i :
  drv_list_ok drv -> (n <= 32)%nat -> 0 <= i < 32 ->
  element a wifi2agps_ap_info_list (ap_list_image num (aps_of drv n)) "list" i =
  if i <? Z.of_nat n then ap_info_of (element LP64 driver_ap_list drv "ap_info" i) else zeros 248.
Proof.
  intros Hd Hn Hi.
  set (img := ap_list_image num (aps_of drv n)).
  transitivity (take 248 (drop (Z.to_nat i * 248) (object LP64 wifi2agps_ap_info_list img "list"))).
  { assert (0 <= sizeof LP64 wifi2agps_ap_info) as H0 by (vm_compute; congruence).
    etransitivity; [|exact (element_object LP64 wifi2agps_ap_info_list img "list" 4 32 wifi2agps_ap_info i eq_refl ltac:(lia) H0 Hi)].
    by destruct a. }
  pose proof (ap_list_sized drv n num Hd Hn) as Hs.
  assert (object LP64 wifi2agps_ap_info_list img "list" =
    concat (aps_of drv n) ++ zeros (Z.to_nat (sizeof LP64 (CArr WIFI_AP_LIST_NUM_MAX wifi2agps_ap_info)) - length (concat (aps_of drv n)))) as ->.
  { exact (object_image LP64 wifi2agps_ap_info_list_members (ap_list_values num (aps_of drv n)) ap_list_fields_wf Hs "list" 4 _ eq_refl). }
  pose proof (concat_aps_length drv n Hd Hn) as Hc. set (k := Z.to_nat i).
  destruct (Z.ltb_spec i (Z.of_nat n)) as [Hlt|Hge].
  - rewrite drop_app_le by (rewrite Hc; nia). rewrite take_app_le by (rewrite length_drop, Hc; nia).
    unfold aps_of. rewrite (concat_element 248 _ _ k k).
    + by replace (Z.of_nat k) with i by lia.
    + intros x Hx. apply in_seq in Hx. apply ap_info_length, driver_ap_ok; [done|lia].
    + rewrite lookup_seq_lt by lia. f_equal.
  - rewrite drop_app_ge by (rewrite Hc; nia). rewrite Hc.
    change (Z.to_nat (sizeof LP64 (CArr WIFI_AP_LIST_NUM_MAX wifi2agps_ap_info))) with (Z.to_nat 7936).
    rewrite drop_replicate, take_replicate. f_equal. nia.
Qed.

(** The list that AGPS gets for what the driver put into its list [drv]. *)
Definition as_scanned (a : abi) (drv l : list Z) : Prop :=
  member a wifi2agps_ap_info_list l "num" = member LP64 driver_ap_list drv "num" /\
  (forall i, 0 <= i < member LP64 driver_ap_list drv "num" ->
     ap_as_scanned a (element LP64 driver_ap_list drv "ap_info" i) (element a wifi2agps_ap_info_list l "list" i)) /\
  (forall i, member LP64 driver_ap_list drv "num" <= i < 32 -> element a wifi2agps_ap_info_list l "list" i = zeros 248).

Lemma element_bytes a t obj f i : bytes_ok obj -> bytes_ok (element a t obj f i).
Proof.
  intros H. unfold element. destruct (offsetof a t f) as [[o []]|]; try by apply Forall_nil. by apply Forall_take, Forall_drop.
Qed.

Lemma list_scanned a drv :
  drv_list_ok drv -> bytes_ok drv -> (Z.to_nat (member LP64 driver_ap_list drv "num") <= 32)%nat ->
  as_scanned a drv (ap_list_image (member LP64 driver_ap_list drv "num")
                      (aps_of drv (Z.to_nat (member LP64 driver_ap_list drv "num")))).
Proof.
  intros Hd Hb Hn. set (num := member LP64 driver_ap_list drv "num") in *.
  assert (0 <= num) as H0.
  { unfold num. rewrite member_object. apply (le_val_bytes _ (object_bytes LP64 driver_ap_list drv "num" Hb)). }
  split; [|split].
  - etransitivity.
    { apply (member_image LP64 a wifi2agps_ap_info_list_members (ap_list_values num (aps_of drv (Z.to_nat num))) "num" ap_list_fields_wf).
      - by apply ap_list_sized.
      - by destruct a. }
    cbn [ap_list_values stored String.eqb Ascii.eqb Bool.eqb andb from_option le_val]. lia.
  - intros i Hi. rewrite list_element by (done || lia).
    replace (i <? _) with true by (symmetry; apply Z.ltb_lt; lia).
    apply ap_scanned; [apply driver_ap_ok; [done|lia]|by apply element_bytes].
  - intros i Hi. rewrite list_element by (done || lia).
    by replace (i <? _) with false by (symmetry; apply Z.ltb_ge; lia).
Qed.

(** C22: a scan of the driver arrives at the AGPS daemon.  The event is handed
    on as one datagram, for which the handler of AGPS runs its callback with a list
    of as many access points, each with the address, the level and the channel that
    the driver measured, nothing else marked as used, and zeros behind; for an AGPS
    daemon of either width.  But a list of the driver that is longer than the
    variable, or that counts more than 32 access points, is undefined: the
    variables are overrun. *)
Theorem scan_to_agps {msg attr : Type} (nl80211 : libnl msg attr) (env : wifi_env msg) (m : msg)
    (tb : Z -> option attr) (name i c d : attr) (w : wifi) :
  agps_cb w = Some wifi2agps_cb -> kernel_ok (wf_sys w) ->
  gnlh_cmd nl80211 m = NL80211_CMD_TESTMODE -> notify nl80211 m = Some (tb, name) ->
  starts_with (nla_data nl80211 name) WLAN = Done true ->
  tb MTK_NL80211_ATTR_IFINDEX = Some i -> tb MTK_NL80211_ATTR_CMD = Some c -> tb MTK_NL80211_ATTR_DATA = Some d ->
  nla_get_u8 nl80211 c = AGPS_EVENT_WIFI_AP_INFO -> bytes_ok (scan_list env (nla_data nl80211 d)) ->
  if (zlen (nla_data nl80211 d) <=? 516) && (scan_count env (nla_data nl80211 d) <=? 32) then
    exists s bytes l,
      process_nl_event nl80211 env m w = Done (NL_SKIP nl80211, set_ifindex (nla_get_u8 nl80211 i) (set_wf_sys s w)) /\
      sys_grows (wf_sys w) s [NSend WIFI_TO_AGPS bytes] /\
      (forall W rest (t : wifi2agpsInterface W),
         wifi2agps_handler (RData bytes :: rest) t ≡ invoke (wifi_scanned t) (fun f => f l)) /\
      forall a, as_scanned a (scan_list env (nla_data nl80211 d)) l
  else process_nl_event nl80211 env m w = UB.
Proof.
  intros Hcb Hk Hm Hn Hw Hi Hc Hd Hap Hb. set (data := nla_data nl80211 d) in *.
  pose proof (event_served nl80211 env m w Hcb Hk) as H. unfold tame, announced in H.
  rewrite Hm, Hn, Hw, Hi, Hc, Hd, Hap in H. cbn [fst snd] in H.
  change (serves_if (scan_fits env data) (process_nl_event nl80211 env m) (NL_SKIP nl80211)
            (nla_get_u8 nl80211 i) [scan_message env data] w) in H.
  assert (scan_fits env data = (zlen data <=? 516) && (scan_count env data <=? 32)) as E.
  { unfold scan_fits. change (sizeof LP64 driver_ap_list) with 516. f_equal.
    destruct (Z.leb_spec (scan_count env data) 32); [apply Nat.leb_le|apply Nat.leb_gt]; lia. }
  rewrite <- E. destruct (scan_fits env data) eqn:Ef; [|done].
  symmetry in E. apply andb_true_iff in E as [E1 E2]. apply Z.leb_le in E1, E2.
  assert (drv_list_ok (scan_list env data)) as Hok by by apply scan_list_ok.
  destruct H as (s & Es & G).
  exists s, (wifi2agps_bytes (scan_message env data)),
    (ap_list_image (scan_count env data) (aps_of (scan_list env data) (Z.to_nat (scan_count env data)))).
  split; [exact Es|]. split; [exact G|]. split.
  - intros W rest t. apply (wifi2agps_delivered (scan_message env data)). apply ap_list_length; [done|lia].
  - intros a. apply list_scanned; [done|done|unfold scan_count in E2; lia].
Qed.

(** ** The loop *)

Section loop.
Context {msg attr : Type} (nl80211 : libnl msg attr) (env : wifi_env msg).

(** The events of a list, one after the other. *)
Fixpoint announced_all (idx : Z) (l : list msg) : Z * list wifi2agps_msg :=
  match l with
  | [] => (idx, [])
  | m :: l =>
      let '(idx1, ms) := announced nl80211 env idx m in
      let '(idx2, ms') := announced_all idx1 l in (idx2, ms ++ ms')
  end.
Fixpoint tame_all (idx : Z) (l : list msg) : bool :=
  match l with
  | [] => true
  | m :: l => tame nl80211 env idx m && tame_all (announced nl80211 env idx m).1 l
  end.

Lemma announced_all_app idx l l' :
  announced_all idx (l ++ l') =
  ((announced_all (announced_all idx l).1 l').1, (announced_all idx l).2 ++ (announced_all (announced_all idx l).1 l').2).
Proof.
  revert idx. induction l as [|m l IH]; intros idx; cbn [app announced_all].
  - cbn [fst snd app]. by destruct (announced_all idx l').
  - destruct (announced nl80211 env idx m) as [i ms]. rewrite IH.
    destruct (announced_all i l) as [i2 ms2]. cbn [fst snd]. by rewrite app_assoc.
Qed.
Lemma tame_all_app idx l l' : tame_all idx (l ++ l') = tame_all idx l && tame_all (announced_all idx l).1 l'.
Proof.
  revert idx. induction l as [|m l IH]; intros idx; [done|]. cbn [app tame_all announced_all]. rewrite IH.
  destruct (announced nl80211 env idx m) as [i ms]. cbn [fst]. rewrite andb_assoc.
  by destruct (announced_all i l) as [i2 ms2].
Qed.

Lemma events_served l w :
  agps_cb w = Some wifi2agps_cb -> kernel_ok (wf_sys w) -> tame_all (ifindex w) l = true ->
  serves (process_events nl80211 env l) tt (announced_all (ifindex w) l).1 (announced_all (ifindex w) l).2 w.
Proof.
  revert w. induction l as [|m l IH]; intros w Hcb Hk Ht; [apply serves_nothing|].
  cbn [tame_all announced_all process_events] in *. apply andb_true_iff in Ht as [Ht1 Ht2].
  pose proof (event_served nl80211 env m w Hcb Hk) as H. rewrite Ht1 in H. destruct H as (s & E & G).
  destruct (announced nl80211 env (ifindex w) m) as [i ms]. cbn [fst snd] in *.
  destruct (IH (set_ifindex i (set_wf_sys s w))) as (s2 & E2 & G2); [done|by eapply kernel_ok_grows|done|].
  cbn [ifindex set_ifindex set_ids set_wf_sys] in E2, G2. destruct (announced_all i l) as [i2 ms2]. cbn [fst snd] in *.
  exists s2. rewrite (bind_done _ _ _ _ _ E), E2. split; [done|]. rewrite map_app. by eapply sys_grows_trans.
Qed.

(** The callbacks leave the loop alone. *)
Definition same_loop (w w' : wifi) : Prop := wf_loop w = wf_loop w'.
#[local] Instance same_loop_preorder : PreOrder same_loop.
Proof. split; unfold same_loop; [done|]. intros x y z. congruence. Qed.

Lemma keeps_deref {A} (p : option A) : keeps same_loop (deref p).
Proof. intros w a w'. destruct p; [|done]. by intros [= _ <-]. Qed.
Lemma keeps_sys {A} (m : prog sys A) : keeps same_loop (on_sys m).
Proof. intros w a w'. unfold on_sys. destruct (m (sys_of w)) as [[b s]| | |]; try done. by intros [= _ <-]. Qed.

Ltac keep_loop :=
  repeat match goal with
  | |- keeps _ (bind _ _) => apply keeps_bind; [exact _| |intros ?]
  | |- keeps _ (ret _) => apply keeps_ret; exact _
  | |- keeps _ (gets _) => apply keeps_gets; exact _
  | |- keeps _ (lift _) => apply keeps_lift; exact _
  | |- keeps _ undef => done
  | |- keeps _ (when _ _) => apply keeps_when; [exact _|]
  | |- keeps _ (modify _) => apply keeps_modify; by intros
  | |- keeps _ (on_sys _) => apply keeps_sys
  | |- keeps _ (deref _) => apply keeps_deref
  | |- keeps _ (call_agps _) => unfold call_agps
  | |- keeps _ (switch _ _ _) => cbn [switch]
  | |- keeps _ (if ?b then _ else _) => destruct b
  | |- keeps _ (match ?x with _ => _ end) => destruct x
  end.

Lemma keeps_event m : keeps same_loop (process_nl_event nl80211 env m).
Proof.
  unfold process_nl_event, checkIfIndex, mlme_event_connect, testmode_event, ap_info_event. cbv zeta. keep_loop.
Qed.

Lemma keeps_receive k : keeps same_loop (nl80211_event_receive nl80211 env k).
Proof.
  unfold nl80211_event_receive, deref_nl, nl_ask. keep_loop.
  match goal with |- context [nl_events env ?k] => generalize (nl_events env k) end. intros l. induction l as [|m l IH]; cbn [process_events]; keep_loop; [apply keeps_event|exact IH].
Qed.

(** *** Turns *)

(** The watcher is connected and waits for the events of the socket [fd]. *)
Record serving (fd : Z) (w : wifi) : Prop := {
  sv_sock : exists cb e, wait_context_no_timeout (wf_loop w) = [Sock fd (CbEventReceive (Some cb) (Some e)) (Time 0 0) false] /\
    cb ∈ w_live w /\ e ∈ w_live w;
  sv_wait : wait_context (wf_loop w) = [];
  sv_exit : gexit (wf_loop w) = false;
  sv_fd : 0 <= fd < FD_SETSIZE;
  sv_valid : cb_valid w = true;
  sv_cb : agps_cb w = Some wifi2agps_cb;
  sv_kernel : kernel_ok (wf_sys w)
}.

(** Whether the answer of the [k]-th [select] wakes the watcher. *)
Definition wakes (fd : Z) (k : nat) : bool :=
  match le_select (w_loop_env env) k with
  | SelReady fds => bool_decide (fd ∈ fds)
  | SelTimeout => false
  | SelError => true
  end.

(** What is received during [n] turns, from a number of [select] and a number of
    a call of libnl on. *)
Fixpoint heard (fd : Z) (n sel calls : nat) : list msg :=
  match n with
  | O => []
  | S n => if wakes fd sel then nl_events env calls ++ heard fd n (S sel) (S calls) else heard fd n (S sel) calls
  end.

Definition turn := loop_turn (w_loop_env env) (nl80211_event_receive nl80211 env).
Definition turns_from := event_loop_from (w_loop_env env) (nl80211_event_receive nl80211 env).

(** What a turn leaves. *)
Definition advanced (w : wifi) (fd : Z) (l : list msg) (calls : nat) (w' : wifi) : Prop :=
  serving fd w' /\ ifindex w' = (announced_all (ifindex w) l).1 /\
  sys_grows (wf_sys w) (wf_sys w') (map wifi_note (announced_all (ifindex w) l).2) /\
  length (w_calls w') = (length (w_calls w) + calls)%nat.

Lemma receive_serves fd cb e w :
  serving fd w -> cb ∈ w_live w -> e ∈ w_live w ->
  tame_all (ifindex w) (nl_events env (length (w_calls w))) = true ->
  exists w', nl80211_event_receive nl80211 env (CbEventReceive (Some cb) (Some e)) w = Done (0, w') /\
    advanced w fd (nl_events env (length (w_calls w))) 1 w' /\ wf_loop w' = wf_loop w.
Proof.
  intros [Hs Hw Hx Hf Hv Hc Hk] Hcb He Ht.
  set (w1 := set_heap (w_calls w ++ [NlRecvEvents]) (w_live w) w).
  destruct (events_served (nl_events env (length (w_calls w))) w1 Hc Hk Ht) as (s & E & G).
  exists (set_ifindex (announced_all (ifindex w) (nl_events env (length (w_calls w)))).1 (set_wf_sys s w1)).
  split; [|split; [|done]].
  - unfold nl80211_event_receive. rewrite (bind_done _ _ _ _ _ (deref_done _ cb w eq_refl Hcb)).
    rewrite (bind_done _ _ _ _ _ (deref_done _ e w eq_refl He)).
    unfold bind at 1, gets. unfold bind at 1. change (nl_ask env NlRecvEvents w) with (Done (nl_ans env (length (w_calls w)) NlRecvEvents, w1)).
    cbv beta iota. unfold bind at 1. change (cb_valid w1) with (cb_valid w). rewrite Hv. cbn [when].
    by rewrite (bind_done _ _ _ _ _ E).
  - split; [|split; [done|split; [exact G|]]].
    + split; try done. by eapply kernel_ok_grows.
    + cbn. rewrite length_app. done.
Qed.

Lemma turn_advances fd fuel w :
  serving fd w -> tame_all (ifindex w) (heard fd 1 (length (l_selects (wf_loop w))) (length (w_calls w))) = true ->
  exists w', turn (S fuel) None w = Done (None, w') /\
    advanced w fd (heard fd 1 (length (l_selects (wf_loop w))) (length (w_calls w)))
      (if wakes fd (length (l_selects (wf_loop w))) then 1 else 0) w' /\
    length (l_selects (wf_loop w')) = S (length (l_selects (wf_loop w))).
Proof.
  intros Hsv Ht. destruct (sv_sock _ _ Hsv) as (cb & e & Hl & Hcb & He).
  unfold turn. rewrite (turn_serves (w_loop_env env) (nl80211_event_receive nl80211 env)).
  - cbn [loop_of wifi_has_loop] in *. rewrite Hl. unfold ready_set. rewrite Hl. cbn [map sock_fd].
    set (w1 := set_loop (select_asked None (wf_loop w)) w).
    assert (serving fd w1) as Hsv1.
    { destruct Hsv as [H1 H2 H3 H4 H5 H6 H7]. split; try done. }
    cbn [heard] in *. unfold wakes in *.
    assert (forall set, (if bool_decide (fd ∈ set) then tame_all (ifindex w) (nl_events env (length (w_calls w))) = true else True) ->
      exists w', (let* _ := ready_calls (nl80211_event_receive nl80211 env) [Sock fd (CbEventReceive (Some cb) (Some e)) (Time 0 0) false] set in
                  ret (None : option time_value)) w1 = Done (None, w') /\
        (if bool_decide (fd ∈ set) then advanced w fd (nl_events env (length (w_calls w))) 1 w' else advanced w fd [] 0 w') /\
        wf_loop w' = wf_loop w1) as Hset.
    { intros set Hset. cbn [ready_calls sock_fd sd_cb]. destruct (bool_decide (fd ∈ set)).
      - destruct (receive_serves fd cb e w1 Hsv1 Hcb He Hset) as (w' & E & A & L). exists w'. split; [|done].
        unfold bind, ret. by rewrite E.
      - exists w1. split; [done|]. split; [|done]. split; [done|]. split; [done|]. split; [apply sys_grows_refl|]. cbn. lia. }
    destruct (le_select (w_loop_env env) (length (l_selects (wf_loop w)))) as [fds| |].
    + destruct (bool_decide (fd ∈ fds)) eqn:Eb; rewrite ?app_nil_r in *.
      * apply bool_decide_eq_true in Eb. rewrite filter_cons_True, filter_nil by done.
        destruct (Hset [fd]) as (w' & E & A & L); [by rewrite bool_decide_true by set_solver|].
        rewrite bool_decide_true in A by set_solver. exists w'. split; [exact E|]. split; [exact A|]. rewrite L. cbn. rewrite length_app. cbn. lia.
      * apply bool_decide_eq_false in Eb. rewrite filter_cons_False, filter_nil by done.
        destruct (Hset []) as (w' & E & A & L); [done|]. exists w'. split; [exact E|]. split; [exact A|]. rewrite L. cbn. rewrite length_app. cbn. lia.
    + destruct (Hset []) as (w' & E & A & L); [done|]. exists w'. split; [exact E|]. split; [exact A|]. rewrite L. cbn. rewrite length_app. cbn. lia.
    + rewrite ?app_nil_r in *. destruct (Hset [fd]) as (w' & E & A & L); [by rewrite bool_decide_true by set_solver|].
      rewrite bool_decide_true in A by set_solver. exists w'. split; [exact E|]. split; [exact A|]. rewrite L. cbn. rewrite length_app. cbn. lia.
  - intros k w1 a w' E. symmetry. exact (keeps_receive k w1 a w' E).
  - apply (sv_wait _ _ Hsv).
  - cbn [loop_of wifi_has_loop]. rewrite Hl. cbn. pose proof (sv_fd _ _ Hsv). unfold FD_SETSIZE in *.
    rewrite !andb_true_iff, Z.leb_le, Z.ltb_lt. lia.
  - cbn [loop_of wifi_has_loop]. rewrite Hl. cbn. lia.
Qed.

Lemma loop_on fd w : serving fd w -> loop_goes_on w = Done (true, w).
Proof.
  intros H. destruct (sv_sock _ _ H) as (cb & e & Hl & _). unfold loop_goes_on, gets. cbn [loop_of wifi_has_loop].
  by rewrite (sv_wait _ _ H), (sv_exit _ _ H), Hl.
Qed.

Lemma advanced_trans w w1 w2 fd l1 l2 c1 c2 :
  advanced w fd l1 c1 w1 -> advanced w1 fd l2 c2 w2 -> advanced w fd (l1 ++ l2) (c1 + c2) w2.
Proof.
  intros (H1 & I1 & G1 & C1) (H2 & I2 & G2 & C2). rewrite I1 in I2, G2. unfold advanced.
  rewrite announced_all_app. cbn [fst snd]. split; [done|]. split; [done|]. split; [|lia].
  rewrite map_app. by eapply sys_grows_trans.
Qed.

Lemma turns_advance fd n w :
  serving fd w -> tame_all (ifindex w) (heard fd n (length (l_selects (wf_loop w))) (length (w_calls w))) = true ->
  exists w' calls, (forall k, turns_from (n + S k) None w = turns_from (S k) None w') /\
    advanced w fd (heard fd n (length (l_selects (wf_loop w))) (length (w_calls w))) calls w'.
Proof.
  revert w. induction n as [|n IH]; intros w Hsv Ht.
  - exists w, 0%nat. split; [done|]. split; [done|]. split; [done|]. split; [apply sys_grows_refl|lia].
  - set (sel := length (l_selects (wf_loop w))) in *. set (calls := length (w_calls w)) in *.
    set (c := if wakes fd sel then 1%nat else 0%nat).
    assert (heard fd (S n) sel calls = heard fd 1 sel calls ++ heard fd n (S sel) (calls + c)) as Eh.
    { subst c. cbn [heard]. destruct (wakes fd sel); rewrite ?app_nil_r; [by rewrite Nat.add_1_r|by rewrite Nat.add_0_r]. }
    rewrite Eh, tame_all_app in *. apply andb_true_iff in Ht as [Ht1 Ht2].
    assert (forall fuel, exists w1, turn (S fuel) None w = Done (None, w1) /\ advanced w fd (heard fd 1 sel calls) c w1 /\
      length (l_selects (wf_loop w1)) = S sel) as Hturn by (intros fuel; by apply turn_advances).
    destruct (Hturn 0%nat) as (w1 & E1 & A1 & S1). pose proof A1 as (Hsv1 & I1 & _ & C1).
    destruct (IH w1 Hsv1) as (w2 & c2 & E2 & A2).
    { rewrite S1, I1, C1. exact Ht2. }
    rewrite S1, C1 in A2. fold calls in A2.
    exists w2, (c + c2)%nat. split; [|by eapply advanced_trans].
    intros k. rewrite <- E2. unfold turns_from. cbn [Nat.add event_loop_from].
    rewrite (bind_done _ _ _ _ _ (loop_on fd w Hsv)).
    assert (turn (n + S k) None w = Done (None, w1)) as E.
    { rewrite Nat.add_succ_r. destruct (Hturn (n + k)%nat) as (w1' & E' & _). rewrite E'. rewrite <- E', <- E1. 
      unfold turn. rewrite !(turn_serves (w_loop_env env) (nl80211_event_receive nl80211 env)); try done.
      all: try (intros q x a x' Eq; symmetry; exact (keeps_receive q x a x' Eq)).
      all: try apply (sv_wait _ _ Hsv).
      all: destruct (sv_sock _ _ Hsv) as (cb & e & Hl & _); cbn [loop_of wifi_has_loop]; rewrite Hl; cbn; try lia.
      all: pose proof (sv_fd _ _ Hsv); unfold FD_SETSIZE in *; rewrite !andb_true_iff, Z.leb_le, Z.ltb_lt; lia. }
    unfold turn in E. by rewrite (bind_done _ _ _ _ _ E).
Qed.

(** C23: the watcher serves.  The process connects, or ends having sent nothing
    and with everything freed; when it is connected, then after any number of
    turns of its loop exactly the messages that the received events announce have
    been sent to the AGPS daemon, in order, and the loop goes on, as long as the
    events are tame; whatever libnl and [select] answer. *)
Theorem watcher_serves (s : sys) :
  kernel_ok s -> answered nl80211 env -> (forall k, 0 <= nl_ans env k NlSocketFd < FD_SETSIZE) ->
  exists r w1, wifi2agps_init nl80211 env wifi2agps_cb (wifi_boot s) = Done (r, w1) /\ wf_sys w1 = s /\
    (r = -1 /\ (forall fuel, exists w', main nl80211 env 1 (S fuel) (wifi_boot s) = Done (0, w') /\ wf_sys w' = s /\ w_live w' = []) \/
     r = 0 /\ exists fd k, fd = nl_ans env k NlSocketFd /\ forall n, tame_all (-1) (heard fd n 0 (length (w_calls w1))) = true ->
       exists w', (forall k, main nl80211 env 1 (n + S k) (wifi_boot s) = (turns_from (S k) None ;; ret 0) w') /\
         serving fd w' /\ ifindex w' = (announced_all (-1) (heard fd n 0 (length (w_calls w1)))).1 /\
         sys_grows s (wf_sys w') (map wifi_note (announced_all (-1) (heard fd n 0 (length (w_calls w1)))).2)).
Proof.
  intros Hk Ha Hfd.
  destruct (init_ends nl80211 env Ha wifi2agps_cb (wifi_boot s) eq_refl eq_refl eq_refl) as (r & w1 & E & Hs & Hcb & Hr).
  exists r, w1. split; [exact E|]. split; [exact Hs|].
  assert (forall fuel, main nl80211 env 1 fuel (wifi_boot s) = (turns_from fuel None ;; ret 0) w1) as Em.
  { intros fuel. unfold main. cbn [Z.eqb Pos.eqb]. by rewrite (bind_done _ _ _ _ _ E). }
  destruct Hr as [[-> C]|[-> N]]; [right|left]; (split; [done|]).
  - destruct (cn_live _ _ _ _ _ C) as (cb & s' & e & fd & H1 & _ & H3 & HL & Hl & kf & ->).
    destruct (cn_wait _ _ _ _ _ C) as (W1 & W2 & W3). exists (nl_ans env kf NlSocketFd), kf. split; [done|]. intros n Ht.
    assert (serving (nl_ans env kf NlSocketFd) w1) as Hsv.
    { split; [|done|done|apply Hfd|apply (cn_valid _ _ _ _ _ C)|exact Hcb|by rewrite Hs].
      exists cb, e. split; [exact Hl|]. rewrite HL. split; set_solver. }
    destruct (turns_advance _ n w1 Hsv) as (w' & c & En & Hsv' & I & G & _).
    { rewrite W3, (cn_index _ _ _ _ _ C). exact Ht. }
    rewrite W3, (cn_index _ _ _ _ _ C), Hs in *. exists w'. split; [|done].
    intros k. rewrite Em. unfold bind. by rewrite En.
  - intros fuel. eexists. rewrite Em. unfold turns_from. change (event_loop_from ?a ?b (S fuel) None) with (event_loop_run a b (S fuel)).
    erewrite bind_done by (apply run_idle; cbn [loop_of wifi_has_loop]; by rewrite (nt_loop _ _ N)).
    split; [reflexivity|]. split; [exact Hs|]. apply (nt_live _ _ N).
Qed.
End loop.

(** ** Examples *)

(** A scan of one access point at -70 dBm on channel 6. *)
Definition one_ap : list Z := [1; 0; 0; 0; 0; 17; 34; 51; 68; 85; 186; 255; 6; 0; 0; 0; 0; 0; 0; 0].
Definition driver_event (cmd : Z) (data : list Z) : tree_msg :=
  TreeMsg NL80211_CMD_TESTMODE
    [(NL80211_ATTR_TESTDATA,
      TreeAttr [] [(MTK_NL80211_ATTR_CMD, TreeAttr [cmd] []); (MTK_NL80211_ATTR_DATA, TreeAttr data []);
                   (MTK_NL80211_ATTR_IFINDEX, TreeAttr [3; 0; 0; 0] []); (MTK_NL80211_ATTR_IFNAME, TreeAttr (WLAN ++ [48; 0]) [])])].
Definition demo_env : wifi_env tree_msg :=
  fair_wifi_env (fun _ => [driver_event AGPS_EVENT_WIFI_ON []; driver_event AGPS_EVENT_WIFI_AP_INFO one_ap]) (fun _ => SelReady [4]).

Lemma scan_to_agps_witness :
  exists s bytes l,
    process_nl_event tree_nl demo_env (driver_event AGPS_EVENT_WIFI_AP_INFO one_ap)
      (set_callbacks (Some wifi2agps_cb) true (wifi_boot good_kernel)) =
    Done (1, set_ifindex 3 (set_wf_sys s (set_callbacks (Some wifi2agps_cb) true (wifi_boot good_kernel)))) /\
    (forall W rest (t : wifi2agpsInterface W),
       wifi2agps_handler (RData bytes :: rest) t ≡ invoke (wifi_scanned t) (fun f => f l)) /\
    as_scanned ILP32 (scan_list demo_env one_ap) l.
Proof.
  destruct (scan_to_agps tree_nl demo_env (driver_event AGPS_EVENT_WIFI_AP_INFO one_ap)
    (first_attr [(MTK_NL80211_ATTR_CMD, TreeAttr [AGPS_EVENT_WIFI_AP_INFO] []); (MTK_NL80211_ATTR_DATA, TreeAttr one_ap []);
                 (MTK_NL80211_ATTR_IFINDEX, TreeAttr [3; 0; 0; 0] []); (MTK_NL80211_ATTR_IFNAME, TreeAttr (WLAN ++ [48; 0]) [])])
    (TreeAttr (WLAN ++ [48; 0]) []) (TreeAttr [3; 0; 0; 0] []) (TreeAttr [AGPS_EVENT_WIFI_AP_INFO] []) (TreeAttr one_ap [])
    (set_callbacks (Some wifi2agps_cb) true (wifi_boot good_kernel))) as (s & bytes & l & E & _ & H & A); try reflexivity.
  - apply good_kernel_ok.
  - unfold bytes_ok. apply (bool_decide_unpack _). vm_compute. exact I.
  - exists s, bytes, l. split; [exact E|]. split; [exact H|]. apply (A ILP32).
Defined.

Lemma watcher_serves_witness :
  exists w',
    (forall k, main tree_nl demo_env 1 (2 + S k) (wifi_boot good_kernel) = (turns_from tree_nl demo_env (S k) None ;; ret 0) w') /\
    sys_grows good_kernel (wf_sys w')
      (map wifi_note [W_enabled; scan_message demo_env one_ap; W_enabled; scan_message demo_env one_ap]).
Proof.
  destruct (watcher_serves tree_nl demo_env good_kernel good_kernel_ok) as (r & w1 & E & _ & [[-> _]|(-> & fd & k & -> & H)]).
  - apply fair_answered.
  - intros k. vm_compute. split; congruence.
  - exfalso.
    assert (match wifi2agps_init tree_nl demo_env wifi2agps_cb (wifi_boot good_kernel) with Done (r, _) => r | _ => 1 end = 0) as E0
      by (vm_compute; reflexivity).
    rewrite E in E0. discriminate E0.
  - destruct (H 2%nat) as (w' & Em & _ & _ & G).
    + vm_compute. reflexivity.
    + exists w'. split; [exact Em|]. exact G.
Defined.
